(* ===== verification/_CoqProject ===== *)
-Q . S2P
Prelude.v
Util.v
Krng.v
Queue.v
SList.v
Wire.v
Cksum.v
Addr.v
Ifaddr.v
Khash.v
Engine.v
Netmap.v
Ip.v
Send.v
Sock.v
Arp.v
Icmp.v
Icmp6.v
Rx.v
Reply.v
NicRx.v
Connect.v
Tx.v
Datagram.v
Backend.v
Sockio.v
Riot.v
System.v
Life.v
Inetd.v
Echo.v
Ping.v
Resolve.v
