(* ===== verification/Prelude.v ===== *)
(** * Verification of warpcore

    warpcore is a UDP/IP stack in user space, written in C.  An application links the
    library, opens an _engine_ on a network interface, binds _sockets_ to it, and
    sends and receives datagrams as queues of _I/O vectors_ ([struct w_iov]).  With the
    netmap backend the packet buffers are shared with the network interface, and
    sending and receiving exchange buffers between vectors and ring slots instead of
    copying them; with the socket backend and that of RIOT the system does the network
    protocols.  This development models the library with the three backends and its two
    example programs, as they are built on a little-endian machine with assertions on,
    function by function from the sources under src/lib and src/bin, and proves the
    components correct.

    ** The files, bottom up

    - Prelude: notations, tactics and hints; machine integers with explicit
      wrap-around; byte strings with little-endian loads and stores ([ldn], [stn]);
      the type [outcome] of results and the state monad [M].
    - Util (util.c, util.h), Krng (krng.h, plat.c, w_rand_uniform of warpcore.c,
      pick_local_port of backend.h): hashing, time, random numbers.
    - Queue and SList (queue.h): the sq_* and sl_* macros as pointer manipulations.
      A queue is a heap of heads and next fields; [sq_repr] and [sq_inv] relate it to
      lists, and the other files use only the lemmas about lists.
    - Khash (khash.h): open addressing with in-place rehashing; [kh_rep] relates a
      table to a map modulo the comparison of its keys, which implement [KhKey].
    - Wire (eth.h, arp.h, ip4.h, ip6.h, udp.h, icmp4.h, icmp6.h), Cksum (in_cksum.c):
      header layouts as byte offsets, and the Internet checksum.
    - Addr (warpcore.h, warpcore.c, neighbor.h, ip4.c, ip6.c), Ifaddr (plat.c,
      ifaddr.c): addresses, and the configuration of an interface.
    - Engine (warpcore.h, warpcore.c, backend.h): the state of an engine, [engine], and
      the allocation of I/O vectors.  [eng_inv] is its invariant: every vector is in
      at most one queue, the free list or that of a socket or of the caller.
    - Netmap (eth.c, backend_netmap.c): placing frames into TX rings, synchronising
      them, reclaiming buffers.  [tx_inv] is its invariant: each buffer id is in
      exactly one vector or slot.  That a frame was sent is said with [in_ring] (a slot of a
      TX ring that waits for the kernel names its buffer and its length), [shown] (it was so
      at a NIOCTXSYNC that the code made) and [handed] (one of the two).
    - Ip (ip4.c, ip6.c), Send, Arp (arp.c, neighbor.c), Icmp and Icmp6 (icmp4.c, icmp6.c):
      the IP headers, and the replies the stack sends by itself.  Icmp6 has the theorems
      about ICMPv6.  Send holds what they have in
      common; [net_inv] is the invariant of an engine between two packets.
    - Sock (backend_netmap.c, warpcore.c), Connect: the table of sockets.  [sock_inv]
      relates it to a map from tuples to sockets.
    - Rx (udp.c, ip4.c, ip6.c, eth.c, backend_netmap.c): a received frame from its slot
      to the queue of a socket.  [rx_inv] is the invariant of the RX rings.
    - Reply, NicRx: every handler on every packet it can get, and the receive loop
      [w_nic_rx].  [rx_sys] is the invariant of an engine between two frames: all those
      of the other files together.
    - Tx (udp.c, eth.h, backend_netmap.c), Datagram: sending a queue of datagrams with
      [w_tx], and what the [w_nic_rx] of another engine makes of a frame that [w_tx] put
      into a ring, when a link carries its bytes ([carried]).
    - Backend (backend_netmap.c, warpcore.c): registering and releasing an interface,
      the list of engines.
    - Sockio (backend_sock.c): the backend on kernel sockets, which the library is
      built with where there is no netmap, with epoll, sendmmsg and recvmmsg.  It has
      its own versions of the functions of the backend ([w_tx], [w_rx], [backend_bind],
      ...), on the same engine and vectors.
    - Riot (backend_riot.c): the backend on the network stack of RIOT, with [select]; the
      list of sockets is that of SList.
    - System: the library and its client together.  A client is a tree: it makes a call of
      the API of the netmap backend, and what it does next depends on the result; [pre] is
      the contract of each call, and [sys_inv] the invariant of the whole engine between
      two calls.
    - Life: the engine from [w_init] to [w_cleanup], with the list of all engines
      ([world_inv] relates the list to the engines that are open).
    - Inetd (bin/inetd.c): the small services, a client of the library; [sys_inv] holds
      between the calls it makes.
    - Echo: a request to the echo service and its reply, from a client's [w_tx] to its
      [w_nic_rx].
    - Ping (bin/ping.c): the client of the benchmark service.
    - Resolve (neighbor.c): [who_has] on the whole engine.

    Definitions have the names of the C functions; a loop of a function is a Fixpoint
    whose name starts or ends with that of the function ([tx_retry], [addr_cnt_loop]).

    ** How the code is modelled

    - Integers are [Z]; [u8], [u16], [u32] and [u64] wrap where the C type does.
    - A function that can fail returns an [outcome]: [Done], [Died] for a failed
      ensure, assure or die, [Fault] for an access outside an array, through a null
      pointer or to a buffer that is not there, [NoFuel] when a loop needs more rounds
      than its fuel.  A stateful one is an [M engine]: state to result and state.
      Theorems that say what a function does say that it returns [Done].
    - A pointer into packet memory is a buffer id with an offset ([bufptr]); [e_mem]
      holds the bytes of all buffers.  A vector, a socket or an engine is named by a
      number, which stands for its address.  Aliasing (a vector in a queue and in a
      slot, a buffer in a ring) is therefore explicit.
    - Compound literals, bit fields and unions are written out: the union of a 4- and a
      16-byte address is its 16 bytes.
    - Inline functions of the header of netmap, ioctl, poll and the calls of the
      operating system are members of the classes [Netmap] and [Os]; [NetmapLaws] is
      their documented behaviour.  [NetmapProgress] is not: it is the assumption that
      NIOCTXSYNC succeeds and advances every ring with waiting frames, without which the
      code waits for ever; it is used by all theorems about frames that are sent, which
      are those of Tx, Send, Arp, Icmp, Icmp6, NicRx, Datagram, System, Life, Inetd, Echo,
      Ping and Resolve, and by [eth_tx_and_free_correct].  [NetmapPoll] is the behaviour
      of poll on RX rings.  What netmap does may depend on the system calls made before:
      [e_calls] is the list of them, with the rings and the packet memory that each
      NIOCTXSYNC found.  It is not a state of the code, but tells what the kernel was
      shown.  [netmap_ex], [netmap_rx_ex] and [os_ex] are instances, used
      by the witnesses.  The socket calls are members of [Kernel], with
      the laws [KernelLaws] and the instance [kernel_ex].  [can_alloc] decides whether an
      allocation of the hash table succeeds.

    ** Fuel and bounds

    The walk over a queue has the number of vectors as fuel, [size D], and over a list
    of engines or readable sockets its length; [w_alloc_len] the number of free
    vectors.  Probing a hash table has as many rounds as buckets, which
    [probes_permutation] proves enough, and kicking elements out as many as the table had buckets.
    [reroll_port] makes the 201 rounds its 8-bit counter allows.  The rejection loop of
    a random draw has a fuel argument; for the identifier of a packet one round is
    enough, and [w_rand_uniform64_correct] says when it returns.  [wait_tx] has the size
    of the largest ring, which is enough when every synchronisation transmits something,
    and [tx_retry] at most two rounds.  The loops of the socket backend need no more
    rounds than there are vectors, [S (length free)] and [S (length xs)], whatever the
    kernel does.  So does [bench_loop] of inetd, which has [S (size D)].  [trains] of
    ping needs one round more than there are lengths; how often [wait_reply] polls before
    the timer expires is an answer of the system.  The number of queries of [who_has] is an
    argument: the C loop has no limit.

    ** What the theorems show

    - Sessions: a client that respects the contracts causes no fault, failed assertion
      or endless loop, from [w_init] to [w_cleanup], which gives netmap the list of all
      its extra buffers back ([engine_lifecycle]).
    - Buffers: no buffer or vector is ever lost or in two places while frames are
      placed and reclaimed ([tx_steps_conserve_buffers]), received, allocated and freed,
      or when the interface is registered ([backend_init_correct]) and released.  The
      exception, a vector lost for every dropped datagram, is part of [udp_rx_correct].
    - Data structures: any sequence of operations on queues, lists and hash tables
      implements the abstract operations ([sq_simulation], [sl_simulation],
      [khash_refines_map]).
    - Packets: the headers written are those of the RFCs, checksums equal their
      definition by 16-bit words, and what is sent verifies where it is received.
    - Handlers: what a received ARP, ICMP, IP or UDP packet changes, on every branch.
    - Receive loop: [w_nic_rx] handles all frames that have arrived, in order; each socket
      gets exactly the valid datagrams for it, and the neighbor cache learns what the frames
      teach ([w_nic_rx_correct]).  The frames must be well formed ([frame_ok]) and the free
      vectors enough for the UDP frames among them; [udp_rx_correct] has the other cases.
    - Address resolution: [who_has] asks until the cache knows the address, and returns
      what the frames received since have taught last ([who_has_correct]).
    - Data path: [w_tx] puts every vector of a queue into a ring, in order, and terminates
      ([w_tx_correct]); a frame that arrives is delivered to the right socket with its
      payload and sender ([udp_end_to_end]); a request to the echo service comes back
      ([echo_round_trip]).
    - Socket backend: what the kernel delivers is in the queue, in order, and no vector
      is lost ([sock_w_rx_correct]); what is queued is offered to the kernel once and in
      order ([sock_w_tx_correct]).
    - RIOT backend: which sockets are reported ([riot_rx_ready_correct]), what a received
      datagram or a failed call leaves ([riot_w_rx_correct]), and that the list of sockets
      stays that of the open ones ([riot_inv]).
    - Sockets: binding, connecting and closing change exactly the lookups they should,
      and what happens when the address is in use or its family unknown.
    - Services: what inetd replies to whom, and which vectors it gives back
      ([serve_correct]); when the benchmark service replies ([benchmark_correct]).
    - Ping: what an iteration sends, receives and reports ([probe_correct]), and that the
      loop over the lengths ends ([trains_correct]).
    - Arithmetic: bounded random draws, the high product, netmasks, time conversions.

    Where the code does not do what its comments or its callers expect, the theorem says
    what it does: [mk_ip6_hdr_traffic_class], [w_bind_in_use], [w_connect_unknown_family],
    [backend_addr_config_correct], [w_connect_correct], [udp_rx_correct],
    [sock_backend_init_correct], [sock_w_bind_error], [sock_w_rx_ready_closed],
    [riot_rx_ready_correct], [riot_w_rx_correct], [riot_w_bind_correct],
    [riot_backend_cleanup_correct], [serve_correct], [benchmark_correct],
    [reply_not_delivered], [probe_correct], [first_fragment_ex].

    ** Not modelled

    A poll that fails or is interrupted (the code does not distinguish it from one that
    reports data) and one that blocks for ever; logging, hex dumps and back traces
    (formatted output); the FreeBSD, macOS and Particle
    variants, and of RIOT all but its backend; the fuzzing build, where random numbers are constant; the SSE
    variant of the checksum (compiled out); LIST_* and TAILQ_* of queue.h (compiled
    out); the kqueue, poll, sendmsg and recvmsg variants of backend_sock.c; [kr_drand_r]
    (floating point); the poisoning of buffers for AddressSanitizer; the options
    and output of inetd and ping, and the tests. *)

From Stdlib Require Export ZArith Lia Bool List.
From stdpp Require Export base numbers list option gmap.

#[global] Open Scope Z_scope.

(** ** Notations, tactics and hint databases of the development *)

Declare Scope wc_scope.
Delimit Scope wc_scope with wc.
#[global] Open Scope wc_scope.

Create HintDb wc.
Create Rewrite HintDb wc_rw.

(** Linear arithmetic with [/] and [mod] by constants. *)
Ltac zdm := Z.div_mod_to_equations; lia.

(** Destruct the innermost [match]/[if] scrutinee of the goal or of a
    hypothesis, keeping its equation. *)
Ltac case_match_in H :=
  match type of H with
  | context [match ?x with _ => _ end] => destruct x eqn:?
  end.

(** ** Machine integers

    An unsigned C integer of width [w] is a [Z] in [0, 2^w); every operation
    that can leave the range wraps explicitly. *)

Definition u8 (x : Z) : Z := x mod 256.
Definition u16 (x : Z) : Z := x mod 65536.
Definition u32 (x : Z) : Z := x mod 4294967296.
Definition u64 (x : Z) : Z := x mod 18446744073709551616.

Definition is_u8 (x : Z) : Prop := 0 <= x < 256.
Definition is_u16 (x : Z) : Prop := 0 <= x < 65536.
Definition is_u32 (x : Z) : Prop := 0 <= x < 4294967296.
Definition is_u64 (x : Z) : Prop := 0 <= x < 18446744073709551616.

Definition UINT16_MAX : Z := 65535.
Definition UINT32_MAX : Z := 4294967295.
Definition UINT64_MAX : Z := 18446744073709551615.

Ltac unfold_u := unfold is_u8, is_u16, is_u32, is_u64, u8, u16, u32, u64,
  UINT16_MAX, UINT32_MAX, UINT64_MAX in *.

Section MachineIntegers.
Context (x : Z).

Lemma u8_range : is_u8 (u8 x).
Proof. unfold_u. zdm. Qed.
Lemma u16_range : is_u16 (u16 x).
Proof. unfold_u. zdm. Qed.
Lemma u32_range : is_u32 (u32 x).
Proof. unfold_u. zdm. Qed.
Lemma u64_range : is_u64 (u64 x).
Proof. unfold_u. zdm. Qed.

Lemma u8_id : is_u8 x → u8 x = x.
Proof. apply Z.mod_small. Qed.
Lemma u16_id : is_u16 x → u16 x = x.
Proof. apply Z.mod_small. Qed.
Lemma u32_id : is_u32 x → u32 x = x.
Proof. apply Z.mod_small. Qed.
Lemma u64_id : is_u64 x → u64 x = x.
Proof. apply Z.mod_small. Qed.
End MachineIntegers.

(** Remove the wraps that are the identity, innermost first. *)
Ltac u_simpl wrap is_wrap id :=
  repeat match goal with
  | |- context [wrap ?e] =>
      lazymatch e with
      | context [wrap _] => fail
      | _ => rewrite (id e) by (unfold is_wrap; lia)
      end
  end.
Ltac u32_simpl := u_simpl u32 is_u32 u32_id.
Ltac u16_simpl := u_simpl u16 is_u16 u16_id.

(** Only the outermost wrap of a sum matters. *)
Lemma u32_add_l x y : u32 (u32 x + y) = u32 (x + y).
Proof. apply Zplus_mod_idemp_l. Qed.
Lemma u32_add_r x y : u32 (x + u32 y) = u32 (x + y).
Proof. apply Zplus_mod_idemp_r. Qed.
Lemma u16_sub_l x y : u16 (u16 x - y) = u16 (x - y).
Proof. apply Zminus_mod_idemp_l. Qed.
Lemma u16_add_l x y : u16 (u16 x + y) = u16 (x + y).
Proof. apply Zplus_mod_idemp_l. Qed.

#[export] Hint Resolve u8_range u16_range u32_range u64_range : wc.

(** Bitwise facts shared by the components. *)
Lemma land_low (x w : Z) : 0 <= w → Z.land x (2 ^ w - 1) = x mod 2 ^ w.
Proof. intros. rewrite <- Z.land_ones by done. by rewrite Z.ones_equiv, Z.sub_1_r. Qed.

Lemma land_f (x : Z) : Z.land x 15 = x mod 16.
Proof. apply (land_low x 4). lia. Qed.
Lemma land_ff (x : Z) : Z.land x 255 = x mod 256.
Proof. apply (land_low x 8). lia. Qed.
Lemma land_ffff (x : Z) : Z.land x 65535 = x mod 65536.
Proof. apply (land_low x 16). lia. Qed.
Lemma land_ffffffff (x : Z) : Z.land x 4294967295 = x mod 4294967296.
Proof. apply (land_low x 32). lia. Qed.

(** A mask [m] shifted by [k] selects the field of [w] at bit [k]. *)
Lemma land_field (w m k : Z) :
  0 <= k → Z.land w (Z.shiftl m k) = Z.shiftl (Z.land (Z.shiftr w k) m) k.
Proof.
  intros Hk. apply Z.bits_inj'. intros n Hn. rewrite Z.land_spec.
  destruct (Z.lt_ge_cases n k) as [Hlt|Hge].
  - by rewrite !(Z.shiftl_spec_low _ k n Hlt), andb_false_r.
  - rewrite !Z.shiftl_spec, Z.land_spec, Z.shiftr_spec by lia. f_equal. f_equal. lia.
Qed.

(** The field of [w] of width [n] at bit [k], in place. *)
Lemma land_field_arith (w n k : Z) :
  0 <= k → 0 <= n →
  Z.land w (Z.shiftl (2 ^ n - 1) k) = (w / 2 ^ k) mod 2 ^ n * 2 ^ k.
Proof.
  intros. rewrite land_field, land_low, Z.shiftl_mul_pow2, Z.shiftr_div_pow2; done.
Qed.

(** A disjoint [lor] is an addition: the low part is below [2^w] and the high
    part is a multiple of it. *)
Lemma lor_shiftl_add (a b w : Z) :
  0 <= w → 0 <= a < 2 ^ w → Z.lor a (Z.shiftl b w) = a + b * 2 ^ w.
Proof.
  intros Hw Ha.
  assert (Hl : Z.land a (Z.shiftl b w) = 0).
  { apply Z.bits_inj'. intros n Hn. rewrite Z.bits_0, Z.land_spec.
    destruct (Z.lt_ge_cases n w) as [Hlt|Hge].
    - rewrite (Z.shiftl_spec_low b w n Hlt). apply andb_false_r.
    - destruct (decide (a = 0)) as [->|Hnz]; [by rewrite Z.bits_0|].
      rewrite (Z.bits_above_log2 a n); [done | lia |].
      apply Z.log2_lt_pow2; [lia|].
      eapply Z.lt_le_trans; [apply Ha|]. apply Z.pow_le_mono_r; lia. }
  rewrite <- Z.lxor_lor by done. rewrite <- Z.add_nocarry_lxor by done.
  by rewrite Z.shiftl_mul_pow2.
Qed.

Lemma lxor_range (w h b : Z) :
  0 <= w → 0 <= h < 2 ^ w → 0 <= b < 2 ^ w → 0 <= Z.lxor h b < 2 ^ w.
Proof.
  intros Hw Hh Hb. rewrite <- (Z.mod_small h (2 ^ w)), <- (Z.mod_small b (2 ^ w)) by done.
  rewrite <- !Z.land_ones by done.
  replace (Z.lxor _ _) with (Z.land (Z.lxor h b) (Z.ones w)).
  - rewrite Z.land_ones by done. apply Z.mod_pos_bound. lia.
  - apply Z.bits_inj'. intros n Hn. rewrite !Z.land_spec, !Z.lxor_spec, !Z.land_spec.
    by destruct (Z.testbit h n), (Z.testbit b n), (Z.testbit (Z.ones w) n).
Qed.

Lemma lor_range (w h b : Z) :
  0 <= w → 0 <= h < 2 ^ w → 0 <= b < 2 ^ w → 0 <= Z.lor h b < 2 ^ w.
Proof.
  intros Hw Hh Hb. rewrite <- (Z.mod_small h (2 ^ w)), <- (Z.mod_small b (2 ^ w)) by done.
  rewrite <- !Z.land_ones by done. rewrite <- Z.land_lor_distr_l, Z.land_ones by done.
  apply Z.mod_pos_bound. lia.
Qed.

(** ** Bytes and little-endian memory

    A memory region is a list of bytes, a byte being a [Z] in [0, 256).  The
    code runs on little-endian machines (its constants for network-order
    fields are written that way), so multi-byte loads and stores are
    little-endian. *)

Abbreviation bytes := (list Z).
Abbreviation is_bytes := (Forall is_u8).

Fixpoint le_val (bs : bytes) : Z :=
  match bs with
  | [] => 0
  | b :: bs => b + 256 * le_val bs
  end.

Fixpoint le_bytes (n : nat) (v : Z) : bytes :=
  match n with
  | O => []
  | S n => v mod 256 :: le_bytes n (v / 256)
  end.

(** [n] bytes of [b] from offset [off], and the update of [b] at [off]. *)
Definition ldn (b : bytes) (off n : nat) : bytes := take n (drop off b).
Definition stn (b : bytes) (off : nat) (bs : bytes) : bytes :=
  take off b ++ bs ++ drop (off + length bs) b.

Definition ld8 (b : bytes) (off : nat) : Z := le_val (ldn b off 1).
Definition ld16 (b : bytes) (off : nat) : Z := le_val (ldn b off 2).
Definition ld32 (b : bytes) (off : nat) : Z := le_val (ldn b off 4).
Definition st8 (b : bytes) (off : nat) (v : Z) : bytes := stn b off (le_bytes 1 v).
Definition st16 (b : bytes) (off : nat) (v : Z) : bytes := stn b off (le_bytes 2 v).
Definition st32 (b : bytes) (off : nat) (v : Z) : bytes := stn b off (le_bytes 4 v).

Lemma length_le_bytes n v : length (le_bytes n v) = n.
Proof. revert v. induction n; intros; simpl; by f_equal. Qed.

Lemma le_bytes_is_bytes n v : is_bytes (le_bytes n v).
Proof.
  revert v. induction n; intros; simpl; constructor; [|done].
  unfold_u. zdm.
Qed.

Lemma le_val_nonneg bs : is_bytes bs → 0 <= le_val bs.
Proof. induction 1 as [|b bs Hb _ IH]; simpl; unfold_u; lia. Qed.

Lemma le_val_bound bs : is_bytes bs → le_val bs < 256 ^ Z.of_nat (length bs).
Proof.
  induction 1 as [|b bs Hb _ IH]; [done|]. cbn [le_val length].
  rewrite Nat2Z.inj_succ, Z.pow_succ_r by lia. unfold_u. lia.
Qed.

Lemma le_val_bytes n v : le_val (le_bytes n v) = v mod 256 ^ Z.of_nat n.
Proof.
  revert v. induction n as [|n IH]; intros v; cbn [le_val le_bytes].
  - by rewrite Z.mod_1_r.
  - rewrite IH, Nat2Z.inj_succ, Z.pow_succ_r by lia.
    by rewrite Z.rem_mul_r by lia.
Qed.

Lemma le_bytes_val bs : is_bytes bs → le_bytes (length bs) (le_val bs) = bs.
Proof.
  induction 1 as [|b bs Hb Hbs IH]; [done|]. cbn [le_val length le_bytes].
  replace ((b + 256 * le_val bs) mod 256) with b by (unfold_u; zdm).
  replace ((b + 256 * le_val bs) / 256) with (le_val bs) by (unfold_u; zdm).
  by rewrite IH.
Qed.

Lemma length_ldn b off n : (off + n <= length b)%nat → length (ldn b off n) = n.
Proof. intros. unfold ldn. rewrite length_take, length_drop. lia. Qed.

Lemma length_stn b off bs :
  (off + length bs <= length b)%nat → length (stn b off bs) = length b.
Proof.
  intros. unfold stn. rewrite !length_app, length_take, length_drop. lia.
Qed.

Lemma ldn_is_bytes b off n : is_bytes b → is_bytes (ldn b off n).
Proof. intros. by apply Forall_take, Forall_drop. Qed.

Lemma stn_is_bytes b off bs : is_bytes b → is_bytes bs → is_bytes (stn b off bs).
Proof.
  intros. unfold stn. rewrite !Forall_app. split_and!; [by apply Forall_take|done|].
  by apply Forall_drop.
Qed.

Lemma ldn_stn_eq b off bs :
  (off + length bs <= length b)%nat → ldn (stn b off bs) off (length bs) = bs.
Proof.
  intros. unfold ldn, stn.
  rewrite drop_app_length', take_app_length; [done|]. rewrite length_take. lia.
Qed.

Lemma ldn_stn_at b off bs o n :
  o = off → n = length bs → (off + length bs <= length b)%nat → ldn (stn b off bs) o n = bs.
Proof. intros -> ->. apply ldn_stn_eq. Qed.

(** Element-wise view of [ldn] and [stn], from which the frame lemma follows. *)
Lemma lookup_ldn b off n i :
  ldn b off n !! i = if decide (i < n)%nat then b !! (off + i)%nat else None.
Proof.
  unfold ldn. rewrite lookup_take. case_decide; [|done]. by rewrite lookup_drop.
Qed.

Lemma lookup_stn b off bs i :
  (off + length bs <= length b)%nat →
  stn b off bs !! i =
    if decide (off <= i < off + length bs)%nat then bs !! (i - off)%nat else b !! i.
Proof.
  intros Hl. unfold stn. assert (length (take off b) = off) as Hoff
    by (rewrite length_take; lia).
  case_decide as Hi.
  - rewrite lookup_app_r by lia. rewrite Hoff, lookup_app_l by lia. done.
  - destruct (decide (i < off)%nat).
    + rewrite lookup_app_l by lia. by rewrite lookup_take_lt by lia.
    + rewrite lookup_app_r by lia. rewrite Hoff, lookup_app_r by lia.
      rewrite lookup_drop. f_equal. lia.
Qed.

Lemma ldn_stn_ne b off bs o n :
  (off + length bs <= length b)%nat →
  (o + n <= off ∨ off + length bs <= o)%nat →
  ldn (stn b off bs) o n = ldn b o n.
Proof.
  intros Hl Hd. apply list_eq. intros i. rewrite !lookup_ldn.
  case_decide; [|done]. rewrite lookup_stn by done. rewrite decide_False; [done|lia].
Qed.

(** A load inside a larger stored block reads the block. *)
Lemma ldn_stn_sub b off bs o n :
  (off + length bs <= length b)%nat → (off <= o)%nat → (o + n <= off + length bs)%nat →
  ldn (stn b off bs) o n = ldn bs (o - off) n.
Proof.
  intros Hl Ho Hn. apply list_eq. intros i. rewrite !lookup_ldn.
  case_decide; [|done]. rewrite lookup_stn by done. rewrite decide_True by lia.
  f_equal. lia.
Qed.

(** A store over a store of the same length, and of what is there. *)
Lemma stn_stn_eq b off x y :
  length x = length y → (off + length x <= length b)%nat → stn (stn b off x) off y = stn b off y.
Proof.
  intros Hxy Hl. apply list_eq. intros i. rewrite !lookup_stn by (rewrite ?length_stn; lia).
  repeat case_decide; try done; lia.
Qed.
Lemma stn_ldn_id b off n : (off + n <= length b)%nat → stn b off (ldn b off n) = b.
Proof.
  intros Hl. assert (length (ldn b off n) = n) by (by apply length_ldn).
  apply list_eq. intros i. rewrite lookup_stn by lia. case_decide; [|done].
  rewrite lookup_ldn, decide_True by lia. f_equal. lia.
Qed.

Lemma ldn_all b : ldn b 0 (length b) = b.
Proof. unfold ldn. rewrite drop_0. by apply take_ge. Qed.

Lemma ldn_ldn b o n o' n' :
  (o' + n' <= n)%nat → ldn (ldn b o n) o' n' = ldn b (o + o') n'.
Proof.
  intros. apply list_eq. intros i. rewrite !lookup_ldn.
  repeat case_decide; try done; try lia. f_equal. lia.
Qed.

(** Storing a concatenation stores its parts. *)
Lemma stn_app b off l1 l2 :
  (off + length l1 + length l2 <= length b)%nat →
  stn b off (l1 ++ l2) = stn (stn b off l1) (off + length l1) l2.
Proof.
  intros. assert (length (stn b off l1) = length b) by (apply length_stn; lia).
  apply list_eq. intros i. rewrite !lookup_stn by (rewrite ?length_app; lia).
  rewrite length_app. repeat case_decide; try lia.
  - by rewrite lookup_app_r, Nat.sub_add_distr by lia.
  - by rewrite lookup_app_l by lia.
  - done.
Qed.

Lemma ldn_add b o n m : ldn b o (n + m) = ldn b o n ++ ldn b (o + n) m.
Proof. unfold ldn. rewrite <- drop_drop. by rewrite take_take_drop. Qed.

Lemma le_val_app l1 l2 : le_val (l1 ++ l2) = le_val l1 + 256 ^ Z.of_nat (length l1) * le_val l2.
Proof.
  induction l1 as [|a l1 IH]; cbn [app le_val length]; [lia|].
  rewrite IH, Nat2Z.inj_succ, Z.pow_succ_r by lia. lia.
Qed.

(** 32-bit accesses are pairs of 16-bit accesses. *)
Lemma ld32_ld16 b o : (o + 4 <= length b)%nat → ld32 b o = ld16 b o + 65536 * ld16 b (o + 2).
Proof.
  intros. unfold ld32, ld16. change 4%nat with (2 + 2)%nat.
  rewrite ldn_add, le_val_app, length_ldn by lia. done.
Qed.

Lemma st32_st16 b o v :
  (o + 4 <= length b)%nat → st32 b o v = st16 (st16 b o v) (o + 2) (v / 65536).
Proof.
  intros. unfold st32, st16. change 65536 with (256 * 256).
  rewrite <- (Z.div_div v 256 256) by lia. rewrite <- (length_le_bytes 2 v) at 3.
  rewrite <- stn_app by (rewrite !length_le_bytes; lia). done.
Qed.

Lemma st16_u16 b o v : st16 b o (u16 v) = st16 b o v.
Proof. unfold st16, u16. cbn [le_bytes]. f_equal. f_equal; [zdm|f_equal; zdm]. Qed.

Section LoadStore.
Context (b : bytes).

Lemma ld_range o n : is_bytes b → 0 <= le_val (ldn b o n) < 256 ^ Z.of_nat n.
Proof.
  intros Hb. pose proof (ldn_is_bytes b o n Hb) as H. split.
  - by apply le_val_nonneg.
  - eapply Z.lt_le_trans; [by apply le_val_bound|].
    apply Z.pow_le_mono_r; [lia|]. unfold ldn. rewrite length_take. lia.
Qed.

Lemma ld8_range o : is_bytes b → is_u8 (ld8 b o).
Proof. apply (ld_range o 1). Qed.
Lemma ld16_range o : is_bytes b → is_u16 (ld16 b o).
Proof. apply (ld_range o 2). Qed.
Lemma ld32_range o : is_bytes b → is_u32 (ld32 b o).
Proof. apply (ld_range o 4). Qed.

Lemma ld16_st16_eq o v :
  (o + 2 <= length b)%nat → ld16 (st16 b o v) o = u16 v.
Proof.
  intros. unfold ld16, st16.
  rewrite <- (length_le_bytes 2 v) at 2.
  rewrite ldn_stn_eq by (rewrite length_le_bytes; lia). apply (le_val_bytes 2).
Qed.
Lemma ld8_st8_eq o v :
  (o + 1 <= length b)%nat → ld8 (st8 b o v) o = u8 v.
Proof.
  intros. unfold ld8, st8.
  rewrite <- (length_le_bytes 1 v) at 2.
  rewrite ldn_stn_eq by (rewrite length_le_bytes; lia). apply (le_val_bytes 1).
Qed.
Lemma ld32_st32_eq o v :
  (o + 4 <= length b)%nat → ld32 (st32 b o v) o = u32 v.
Proof.
  intros. unfold ld32, st32.
  rewrite <- (length_le_bytes 4 v) at 2.
  rewrite ldn_stn_eq by (rewrite length_le_bytes; lia). apply (le_val_bytes 4).
Qed.
End LoadStore.

(** The byte swap of a 16-bit and of a 32-bit integer (plat.h; a compiler
    builtin). *)
Definition bswap16 (x : Z) : Z :=
  Z.lor (Z.shiftl (Z.land x 0xff) 8) (Z.land (Z.shiftr x 8) 0xff).
Definition bswap32 (x : Z) : Z :=
  Z.lor (Z.shiftl (bswap16 (Z.land x 0xffff)) 16) (bswap16 (Z.land (Z.shiftr x 16) 0xffff)).

Lemma bswap16_arith x : bswap16 x = x mod 256 * 256 + (x / 256) mod 256.
Proof.
  unfold bswap16. rewrite Z.lor_comm, !land_ff, Z.shiftr_div_pow2 by lia.
  rewrite lor_shiftl_add by zdm. change (2 ^ 8) with 256. lia.
Qed.

Lemma bswap16_range x : is_u16 (bswap16 x).
Proof. rewrite bswap16_arith. unfold_u. zdm. Qed.

Lemma bswap16_invol x : is_u16 x → bswap16 (bswap16 x) = x.
Proof. rewrite !bswap16_arith. unfold_u. intros. zdm. Qed.

#[export] Hint Resolve ld8_range ld16_range ld32_range bswap16_range
  le_bytes_is_bytes ldn_is_bytes stn_is_bytes : wc.
#[export] Hint Rewrite length_le_bytes : wc_rw.

(** ** Lists and maps *)

Lemma in_take {A} (x : A) n l : x ∈ take n l → x ∈ l.
Proof. intros (k & Hk & _)%elem_of_take. by eapply list_elem_of_lookup_2. Qed.

Lemma in_drop {A} (x : A) n l : x ∈ drop n l → x ∈ l.
Proof. rewrite <- (take_drop n l) at 2. rewrite elem_of_app. by right. Qed.

Lemma insert_alter `{Countable K} {A} (f : A → A) (m : gmap K A) i x :
  m !! i = Some x → <[i := f x]> m = alter f i m.
Proof.
  intros Hx. apply map_eq. intros j. destruct (decide (j = i)) as [->|].
  - by rewrite lookup_insert_eq, lookup_alter_eq, Hx.
  - by rewrite lookup_insert_ne, lookup_alter_ne.
Qed.

Lemma lookup_repeat {A} (x : A) n i : (i < n)%nat → repeat x n !! i = Some x.
Proof. revert i. induction n as [|n IH]; intros [|i] Hi; try lia; [done|]. apply IH. lia. Qed.

(** ** Outcomes and the state-and-outcome monad

    A piece of the program runs on a state [S] and either finishes ([Done]),
    aborts through [die]/[ensure]/[assure] ([Died]), touches memory outside the
    buffer it was given, which C leaves undefined ([Fault]), or exhausts the
    fuel given to one of its loops ([NoFuel]). *)

Inductive outcome (A : Type) : Type :=
| Done (a : A)
| Died
| Fault
| NoFuel.
Arguments Done {A} a.
Arguments Died {A}.
Arguments Fault {A}.
Arguments NoFuel {A}.

Lemma Done_inj {A} (a b : A) : Done a = Done b → a = b.
Proof. by intros [= ->]. Qed.

#[export] Instance outcome_ret : MRet outcome := λ A a, Done a.
#[export] Instance outcome_bind : MBind outcome := λ A B f o,
  match o with Done a => f a | Died => Died | Fault => Fault | NoFuel => NoFuel end.
Lemma outcome_bind_done {A B} (f : A → outcome B) (m : outcome A) b : m ≫= f = Done b → ∃ a, m = Done a ∧ f a = Done b.
Proof. destruct m; cbn; [eauto|done..]. Qed.

(** Arrays: reading or writing outside of them is a [Fault]. *)
Definition rd {A} (l : list A) (i : Z) : outcome A :=
  if i <? 0 then Fault else match l !! Z.to_nat i with Some a => Done a | None => Fault end.
Definition wr {A} (l : list A) (i : Z) (a : A) : outcome (list A) :=
  if (i <? 0) || (Z.of_nat (length l) <=? i) then Fault else Done (<[Z.to_nat i := a]> l).

Lemma rd_Some {A} (l : list A) (i : nat) (a : A) : l !! i = Some a → rd l (Z.of_nat i) = Done a.
Proof. intros H. unfold rd. rewrite (proj2 (Z.ltb_ge _ _)) by lia. by rewrite Nat2Z.id, H. Qed.
Lemma wr_lt {A} (l : list A) (i : nat) (a : A) :
  (i < length l)%nat → wr l (Z.of_nat i) a = Done (<[i := a]> l).
Proof.
  intros H. unfold wr. rewrite (proj2 (Z.ltb_ge _ _)), (proj2 (Z.leb_gt _ _)) by lia.
  by rewrite Nat2Z.id.
Qed.

Definition M (S A : Type) : Type := S → outcome (A * S).

#[export] Instance M_ret {S} : MRet (M S) := λ A a s, Done (a, s).
#[export] Instance M_bind {S} : MBind (M S) := λ A B f m s,
  match m s with
  | Done (a, s') => f a s'
  | Died => Died
  | Fault => Fault
  | NoFuel => NoFuel
  end.

Section Monad.
Context {S : Type}.

Definition get : M S S := λ s, Done (s, s).
Definition put (s : S) : M S unit := λ _, Done (tt, s).
Definition modify (f : S → S) : M S unit := λ s, Done (tt, f s).
Definition gets {A} (f : S → A) : M S A := λ s, Done (f s, s).
Definition die {A} : M S A := λ _, Died.
Definition fault {A} : M S A := λ _, Fault.
Definition no_fuel {A} : M S A := λ _, NoFuel.
(** A computation that does not touch the state. *)
Definition lift {A} (o : outcome A) : M S A := λ s,
  match o with Done a => Done (a, s) | Died => Died | Fault => Fault | NoFuel => NoFuel end.
(** [ensure] (and [assure], active in the default debug build). *)
Definition ensure (b : bool) : M S unit := if b then mret tt else die.
Definition when (b : bool) (m : M S unit) : M S unit := if b then m else mret tt.

(** Computations are compared pointwise; [mbind] respects that. *)
#[export] Instance M_equiv {A} : Equiv (M S A) := λ m m', ∀ s, m s = m' s.
#[export] Instance M_equivalence {A} : Equivalence (≡@{M S A}).
Proof.
  split.
  - by intros m s.
  - intros m m' H s. by rewrite (H s).
  - intros m1 m2 m3 H1 H2 s. by rewrite (H1 s), (H2 s).
Qed.
#[export] Instance M_bind_proper {A B} :
  Proper (pointwise_relation A (≡) ==> (≡) ==> (≡)) (@mbind (M S) _ A B).
Proof.
  intros f g Hfg m m' Hm s. unfold mbind, M_bind. rewrite (Hm s).
  destruct (m' s) as [[a s']| | |]; try done. apply Hfg.
Qed.

Lemma bind_ret_l {A B} (a : A) (f : A → M S B) : (mret a ≫= f) ≡ f a.
Proof. by intros s. Qed.
Lemma bind_ret_r {A} (m : M S A) : (m ≫= mret) ≡ m.
Proof. intros s. unfold mbind, M_bind. by destruct (m s) as [[]| | |]. Qed.
Lemma bind_assoc {A B C} (m : M S A) (f : A → M S B) (g : B → M S C) :
  ((m ≫= f) ≫= g) ≡ (m ≫= λ a, f a ≫= g).
Proof. intros s. unfold mbind, M_bind. by destruct (m s) as [[]| | |]. Qed.

(** Total-correctness triples: from a state satisfying [P] the computation
    finishes, and its result and final state satisfy [Q]. *)
Definition hoare {A} (P : S → Prop) (m : M S A) (Q : A → S → Prop) : Prop :=
  ∀ s, P s → match m s with Done (a, s') => Q a s' | _ => False end.

Lemma hoare_ret {A} (a : A) (P : S → Prop) (Q : A → S → Prop) :
  (∀ s, P s → Q a s) → hoare P (mret a) Q.
Proof. intros H s Hs. by apply H. Qed.

Lemma hoare_bind {A B} (P : S → Prop) (R : A → S → Prop) (Q : B → S → Prop) m f :
  hoare P m R → (∀ a, hoare (R a) (f a) Q) → hoare P (m ≫= f) Q.
Proof.
  intros Hm Hf s Hs. specialize (Hm s Hs). unfold mbind, M_bind.
  destruct (m s) as [[a s']| | |]; try done. by apply Hf.
Qed.

Lemma hoare_weaken {A} (P P' : S → Prop) (Q Q' : A → S → Prop) m :
  hoare P m Q → (∀ s, P' s → P s) → (∀ a s, Q a s → Q' a s) → hoare P' m Q'.
Proof.
  intros Hm HP HQ s Hs. specialize (Hm s (HP s Hs)).
  destruct (m s) as [[a s']| | |]; try done. by apply HQ.
Qed.

Lemma hoare_done {A} (P : S → Prop) (m : M S A) Q s :
  hoare P m Q → P s → ∃ a s', m s = Done (a, s') ∧ Q a s'.
Proof.
  intros Hm Hs. specialize (Hm s Hs). destruct (m s) as [[a s']| | |]; eauto; done.
Qed.
End Monad.

(** Inversion of a successful bind. *)
Lemma bind_done {S A B} (m : M S A) (f : A → M S B) s r :
  (m ≫= f) s = Done r → ∃ a s', m s = Done (a, s') ∧ f a s' = Done r.
Proof. unfold mbind, M_bind. destruct (m s) as [[a s']| | |]; try done; eauto. Qed.

(** ** Symbolic execution

    [mstep] runs the first computation of a sequence, by evaluation or by a lemma
    of the database [wc_run] about a primitive; [mstep E] runs it by [E]. *)
Create HintDb wc_run.

Lemma bind_run {S A B} (m : M S A) (f : A → M S B) s a s' :
  m s = Done (a, s') → (m ≫= f) s = f a s'.
Proof. intros H. unfold mbind, M_bind. by rewrite H. Qed.
Lemma bind_assoc_run {S A B C} (m : M S A) (f : A → M S B) (g : B → M S C) s :
  ((m ≫= f) ≫= g) s = (m ≫= λ a, f a ≫= g) s.
Proof. apply bind_assoc. Qed.
Lemma lift_run {S A} (o : outcome A) (a : A) (s : S) : o = Done a → lift o s = Done (a, s).
Proof. by intros ->. Qed.
Lemma ensure_run {S} (b : bool) (s : S) : b = true → ensure b s = Done (tt, s).
Proof. by intros ->. Qed.
Lemma rd_Z {A} (l : list A) (i : Z) (a : A) : 0 <= i → l !! Z.to_nat i = Some a → rd l i = Done a.
Proof. intros Hi H. unfold rd. rewrite (proj2 (Z.ltb_ge _ _)) by lia. by rewrite H. Qed.
Lemma wr_Z {A} (l : list A) (i : Z) (a : A) :
  0 <= i < Z.of_nat (length l) → wr l i a = Done (<[Z.to_nat i := a]> l).
Proof. intros H. unfold wr. by rewrite (proj2 (Z.ltb_ge _ _)), (proj2 (Z.leb_gt _ _)) by lia. Qed.

#[export] Hint Resolve lift_run ensure_run rd_Some wr_lt : wc_run.
#[export] Hint Resolve rd_Z wr_Z | 10 : wc_run.
#[export] Hint Extern 2 (_ <= _) => lia : wc_run.
#[export] Hint Extern 2 (_ <= _ < _) => lia : wc_run.
#[export] Hint Extern 2 (_ < _)%nat => lia : wc_run.

Tactic Notation "mstep" :=
  erewrite bind_run; [|first [reflexivity|solve [eauto with wc_run]]]; cbv beta iota.
Tactic Notation "mstep" uconstr(E) :=
  erewrite bind_run; [|exact E]; cbv beta iota.
