(* ===== verification/Util.v ===== *)
(** Utilities (lib/src/util.c, lib/include/warpcore/util.h): hashing, time
    arithmetic, the 64x64-bit high multiplication behind the division-free time
    conversions, and the rate limiter of the logging macros. *)

From S2P Require Import Prelude.

(** ** FNV-1a hashes *)

Module Fnv.
(** One round of the loop body: [hash ^= bytes[i]; hash *= prime]. *)
Definition round64 (hash byte : Z) : Z := u64 (Z.lxor hash byte * 0x100000001b3).
Definition fnv1a_64 (buf : bytes) : Z := foldl round64 0xcbf29ce484222325 buf.

Definition round32 (hash byte : Z) : Z := u32 (Z.lxor hash byte * 0x811c9dc5).
Definition fnv1a_32 (buf : bytes) : Z := foldl round32 0x1000193 buf.

(** FNV-1a as its definition reads, for any offset basis and prime. *)
Definition fnv1a_spec (w basis prime : Z) (buf : bytes) : Z :=
  foldl (λ hash byte, (Z.lxor hash byte * prime) mod 2 ^ w) basis buf.
End Fnv.

(** ** struct timespec *)

Record timespec := Timespec { tv_sec : Z; tv_nsec : Z }.

Definition MS_PER_S : Z := 1000.
Definition US_PER_S : Z := 1000000.
Definition NS_PER_S : Z := 1000000000.
Definition US_PER_MS : Z := 1000.
Definition NS_PER_MS : Z := 1000000.
Definition NS_PER_US : Z := 1000.

Definition timespec_sub (tvp uvp : timespec) : timespec :=
  let sec := tv_sec tvp - tv_sec uvp in
  let nsec := tv_nsec tvp - tv_nsec uvp in
  if nsec <? 0 then Timespec (sec - 1) (nsec + NS_PER_S) else Timespec sec nsec.

(** ** High half of a 64x64-bit product *)

Definition div_mulhi64 (a b : Z) : Z :=
  let a_lo := u32 a in
  let a_hi := u32 (Z.shiftr a 32) in
  let b_lo := u32 b in
  let b_hi := u32 (Z.shiftr b 32) in
  let a_x_b_mid := u64 (a_hi * b_lo) in
  let b_x_a_mid := u64 (b_hi * a_lo) in
  let a_x_b_lo := u64 (a_lo * b_lo) in
  let a_x_b_hi := u64 (a_hi * b_hi) in
  let carry_bits :=
    u32 (Z.shiftr (u64 (u64 (u32 a_x_b_mid + u32 b_x_a_mid) + Z.shiftr a_x_b_lo 32)) 32) in
  u64 (u64 (u64 (a_x_b_hi + Z.shiftr a_x_b_mid 32) + Z.shiftr b_x_a_mid 32) + carry_bits).

Definition APPROX_NS_TO_S (x : Z) : Z := Z.shiftr (div_mulhi64 0x112e0be826d694b3 x) 26.
Definition APPROX_NS_TO_MS (x : Z) : Z := Z.shiftr (div_mulhi64 0x431bde82d7b634db x) 18.
Definition APPROX_NS_TO_US (x : Z) : Z := Z.shiftr (div_mulhi64 0x20c49ba5e353f7d x) 3.

(** The conversions, in the 64-bit and in the other configuration. *)
Definition NS_TO_S (have_64bit : bool) (x : Z) : Z :=
  if have_64bit then x / NS_PER_S else APPROX_NS_TO_S x.
Definition NS_TO_MS (have_64bit : bool) (x : Z) : Z :=
  if have_64bit then x / NS_PER_MS else APPROX_NS_TO_MS x.
Definition NS_TO_US (have_64bit : bool) (x : Z) : Z :=
  if have_64bit then x / NS_PER_US else APPROX_NS_TO_US x.

(** ** Rate-limited logging *)

(** State of one limiter: the second of the last message and the number of
    calls seen in it. *)
Record rlimit := Rlimit { rt0 : Z; rcnt : Z }.

(** [util_rwarn] at time [now] (in seconds): the new state, and whether the
    message is printed.  [*rcnt] is an unsigned int. *)
Definition util_rwarn (r : rlimit) (lps now : Z) : rlimit * bool :=
  let r := if negb (rt0 r =? now) then Rlimit now 0 else r in
  (Rlimit (rt0 r) (u32 (rcnt r + 1)), rcnt r <? lps).

(** The [rwarn] macro: [__rt0] is static, [__rcnt] is an automatic variable that
    starts from 0 at every execution.  The state kept between two executions of
    one call site is therefore [__rt0] alone. *)
Definition rwarn (rt0' lps now : Z) : Z * bool :=
  let '(r, printed) := util_rwarn (Rlimit rt0' 0) lps now in (rt0 r, printed).

(** Run a limiter over the times of successive calls; count what is printed. *)
Fixpoint util_rwarn_run (r : rlimit) (lps : Z) (times : list Z) : Z :=
  match times with
  | [] => 0
  | now :: times =>
      let '(r, p) := util_rwarn r lps now in Z.b2z p + util_rwarn_run r lps times
  end.
Fixpoint rwarn_run (t : Z) (lps : Z) (times : list Z) : Z :=
  match times with
  | [] => 0
  | now :: times =>
      let '(t, p) := rwarn t lps now in Z.b2z p + rwarn_run t lps times
  end.

(** The [plural] macro: whether an "s" is appended. *)
Definition plural (n : Z) : bool := negb (n =? 1).

(** * Theorems *)

(** ** Hashes *)

Lemma round64_range h b : is_u64 (Fnv.round64 h b).
Proof. apply u64_range. Qed.
Lemma round32_range h b : is_u32 (Fnv.round32 h b).
Proof. apply u32_range. Qed.

Lemma fnv1a_32_range buf : is_u32 (Fnv.fnv1a_32 buf).
Proof.
  unfold Fnv.fnv1a_32. destruct buf as [|b buf] using rev_ind.
  - simpl; unfold_u; lia.
  - rewrite foldl_snoc. apply round32_range.
Qed.

(** Multiplying by an invertible constant is injective modulo [m]. *)
Lemma mul_mod_inj (m p inv x y : Z) :
  0 < m → (p * inv) mod m = 1 mod m →
  (x * p) mod m = (y * p) mod m → x mod m = y mod m.
Proof.
  intros Hm Hinv Heq.
  assert (H : ∀ z, z mod m = ((z * p) mod m * inv) mod m).
  { intros z. rewrite Z.mul_mod_idemp_l by lia.
    rewrite <- Z.mul_assoc, <- Z.mul_mod_idemp_r, Hinv, Z.mul_mod_idemp_r by lia.
    by rewrite Z.mul_1_r. }
  by rewrite (H x), (H y), Heq.
Qed.

Lemma lxor_inj_r (h b b' : Z) : Z.lxor h b = Z.lxor h b' → b = b'.
Proof.
  intros H. apply (f_equal (Z.lxor h)) in H.
  by rewrite <- !Z.lxor_assoc, Z.lxor_nilpotent, !Z.lxor_0_l in H.
Qed.

Lemma u8_lxor_u64 h b : is_u64 h → is_u8 b → is_u64 (Z.lxor h b).
Proof. intros. apply (lxor_range 64); unfold_u; lia. Qed.
Lemma u8_lxor_u32 h b : is_u32 h → is_u8 b → is_u32 (Z.lxor h b).
Proof. intros. apply (lxor_range 32); unfold_u; lia. Qed.

Lemma round64_inj h b h' b' :
  is_u64 h → is_u64 h' → is_u8 b → is_u8 b' →
  Fnv.round64 h b = Fnv.round64 h' b' → Z.lxor h b = Z.lxor h' b'.
Proof.
  intros Hh Hh' Hb Hb' Heq.
  unfold Fnv.round64, Fnv.round32, u64, u32 in Heq.
  apply (mul_mod_inj _ _ 14886173955864302971) in Heq; [|done|done].
  by rewrite !Z.mod_small in Heq by (apply u8_lxor_u64; done).
Qed.
Lemma round32_inj h b h' b' :
  is_u32 h → is_u32 h' → is_u8 b → is_u8 b' →
  Fnv.round32 h b = Fnv.round32 h' b' → Z.lxor h b = Z.lxor h' b'.
Proof.
  intros Hh Hh' Hb Hb' Heq.
  unfold Fnv.round64, Fnv.round32, u64, u32 in Heq.
  apply (mul_mod_inj _ _ 3180386573) in Heq; [|done|done].
  by rewrite !Z.mod_small in Heq by (apply u8_lxor_u32; done).
Qed.

(** Folding an injective round over the same suffix is injective. *)
Lemma foldl_round_inj (P : Z → Prop) (round : Z → Z → Z) (l : bytes) h h' :
  (∀ h b, P (round h b)) →
  (∀ h h' b, P h → P h' → is_u8 b → round h b = round h' b → h = h') →
  P h → P h' → is_bytes l → foldl round h l = foldl round h' l → h = h'.
Proof.
  intros HP Hinj Hh Hh' Hl. revert h h' Hh Hh'.
  induction Hl as [|b l Hb _ IH]; intros h h' Hh Hh'; simpl; [done|].
  intros Heq. apply (Hinj h h' b); eauto.
Qed.
Lemma foldl_round_range (P : Z → Prop) (round : Z → Z → Z) (l : bytes) h :
  (∀ h b, P (round h b)) → P h → P (foldl round h l).
Proof. intros HP. revert h. induction l; simpl; eauto. Qed.

(** The 64-bit and the 32-bit hash both detect every change of a single byte:
    the rounds are injective in the byte and in the running hash. *)
Theorem fnv1a_detects_byte_change (l1 l2 : bytes) (b b' : Z) :
  is_bytes l1 → is_bytes l2 → is_u8 b → is_u8 b' → b ≠ b' →
  Fnv.fnv1a_32 (l1 ++ b :: l2) ≠ Fnv.fnv1a_32 (l1 ++ b' :: l2) ∧
  Fnv.fnv1a_64 (l1 ++ b :: l2) ≠ Fnv.fnv1a_64 (l1 ++ b' :: l2).
Proof.
  intros _ Hl2 Hb Hb' Hne. unfold Fnv.fnv1a_32, Fnv.fnv1a_64.
  rewrite !foldl_app; simpl. split; intros Heq.
  - apply (foldl_round_inj is_u32) in Heq; auto using round32_range.
    + apply round32_inj in Heq; try done; try apply (foldl_round_range is_u32);
        auto using round32_range; try (unfold_u; lia).
      by apply lxor_inj_r in Heq.
    + intros h h' c Hh Hh' Hc E. apply round32_inj in E; try done.
      rewrite !(Z.lxor_comm _ c) in E. by apply lxor_inj_r in E.
  - apply (foldl_round_inj is_u64) in Heq; auto using round64_range.
    + apply round64_inj in Heq; try done; try apply (foldl_round_range is_u64);
        auto using round64_range; try (unfold_u; lia).
      by apply lxor_inj_r in Heq.
    + intros h h' c Hh Hh' Hc E. apply round64_inj in E; try done.
      rewrite !(Z.lxor_comm _ c) in E. by apply lxor_inj_r in E.
Qed.

(** [fnv1a_64] is FNV-1a with the published parameters; [fnv1a_32] is FNV-1a
    with its offset basis and its prime exchanged, and is not the published
    32-bit hash. *)
Theorem fnv1a_parameters :
  (∀ buf, Fnv.fnv1a_64 buf = Fnv.fnv1a_spec 64 14695981039346656037 1099511628211 buf) ∧
  (∀ buf, Fnv.fnv1a_32 buf = Fnv.fnv1a_spec 32 16777619 2166136261 buf) ∧
  Fnv.fnv1a_32 [97] ≠ Fnv.fnv1a_spec 32 2166136261 16777619 [97].
Proof. split_and!; [done|done|by vm_compute]. Qed.

(** ** Time arithmetic *)

Definition timespec_ok (t : timespec) : Prop := 0 <= tv_nsec t < NS_PER_S.
Definition timespec_ns (t : timespec) : Z := tv_sec t * NS_PER_S + tv_nsec t.

(** Timespec_sub of normalised values is normalised and exact. *)
Theorem timespec_sub_correct (t u : timespec) :
  timespec_ok t → timespec_ok u →
  timespec_ok (timespec_sub t u) ∧
  timespec_ns (timespec_sub t u) = timespec_ns t - timespec_ns u.
Proof.
  unfold timespec_ok, timespec_ns, timespec_sub, NS_PER_S. intros Ht Hu.
  destruct (Z.ltb_spec (tv_nsec t - tv_nsec u) 0); simpl; lia.
Qed.

Lemma mulhi_recombine (h p q l : Z) :
  0 <= h <= 18446744065119617025 → 0 <= p <= 18446744065119617025 →
  0 <= q <= 18446744065119617025 → 0 <= l <= 18446744065119617025 →
  (h * 18446744073709551616 + (p + q) * 4294967296 + l) / 18446744073709551616 =
  h + p / 4294967296 + q / 4294967296 +
    (p mod 4294967296 + q mod 4294967296 + l / 4294967296) / 4294967296.
Proof. intros. zdm. Qed.

Lemma mulhi_no_wrap (h p q l : Z) :
  0 <= h <= 18446744065119617025 → 0 <= p <= 18446744065119617025 →
  0 <= q <= 18446744065119617025 → 0 <= l <= 18446744065119617025 →
  u64 (u64 (u64 (u64 h + u64 p / 4294967296) + u64 q / 4294967296) +
    u32 (u64 (u64 (u32 (u64 p) + u32 (u64 q)) + u64 l / 4294967296) / 4294967296)) =
  h + p / 4294967296 + q / 4294967296 +
    (p mod 4294967296 + q mod 4294967296 + l / 4294967296) / 4294967296.
Proof.
  intros. rewrite (u64_id h), (u64_id p), (u64_id q), (u64_id l) by (unfold_u; lia).
  pose proof (u32_range p). pose proof (u32_range q). change (p mod _) with (u32 p).
  change (q mod _) with (u32 q). generalize dependent (u32 p). generalize dependent (u32 q).
  intros q' ? p' ?. unfold_u.
  assert (0 <= h + p / 4294967296 + q / 4294967296 <= 18446744073709551613) by zdm.
  assert (0 <= (p' + q' + l / 4294967296) / 4294967296 <= 2) by zdm.
  rewrite !Z.mod_small by zdm. done.
Qed.

(** The four partial products recombine exactly: no carry is lost although
    every intermediate value is cut to its C width. *)
Theorem div_mulhi64_correct (a b : Z) :
  is_u64 a → is_u64 b → div_mulhi64 a b = a * b / 18446744073709551616.
Proof.
  intros Ha Hb. unfold div_mulhi64. unfold_u. rewrite !Z.shiftr_div_pow2 by lia.
  change (2 ^ 32) with 4294967296.
  set (al := a mod 4294967296). set (bl := b mod 4294967296).
  rewrite (Z.mod_small (a / _)), (Z.mod_small (b / _)) by zdm.
  set (ah := a / 4294967296). set (bh := b / 4294967296).
  assert (a = ah * 4294967296 + al ∧ b = bh * 4294967296 + bl) as [Ea Eb]
    by (subst ah al bh bl; split; zdm).
  assert (0 <= al < 4294967296 ∧ 0 <= bl < 4294967296 ∧
          0 <= ah < 4294967296 ∧ 0 <= bh < 4294967296) as (?&?&?&?)
    by (subst ah al bh bl; split_and!; zdm).
  clearbody ah al bh bl. subst a b.
  replace ((ah * 4294967296 + al) * (bh * 4294967296 + bl)) with
    (ah * bh * 18446744073709551616 + (ah * bl + bh * al) * 4294967296 + al * bl) by ring.
  assert (∀ x y, 0 <= x < 4294967296 → 0 <= y < 4294967296 →
            0 <= x * y <= 18446744065119617025) as Hp by (intros; nia).
  pose proof (Hp ah bh). pose proof (Hp ah bl). pose proof (Hp bh al). pose proof (Hp al bl).
  rewrite (mulhi_recombine (ah * bh) (ah * bl) (bh * al) (al * bl)) by auto.
  apply mulhi_no_wrap; auto.
Qed.

(** The division-free conversions are exact divisions on the whole range their
    comments give. *)
Theorem approx_ns_conversions_exact (x : Z) :
  (0 <= x <= 0x0fffffffffffffff → APPROX_NS_TO_S x = x / NS_PER_S) ∧
  (0 <= x <= 0xffffffffffffffff → APPROX_NS_TO_MS x = x / NS_PER_MS) ∧
  (0 <= x <= 0x0fffffffffffffff → APPROX_NS_TO_US x = x / NS_PER_US).
Proof.
  unfold APPROX_NS_TO_S, APPROX_NS_TO_MS, APPROX_NS_TO_US, NS_PER_S, NS_PER_MS, NS_PER_US.
  split_and!; intros; rewrite div_mulhi64_correct, Z.shiftr_div_pow2 by (unfold_u; lia);
    rewrite Z.div_div by lia; zdm.
Qed.

(** ** Rate limiting *)

Lemma util_rwarn_run_same (r : rlimit) lps now n :
  rt0 r = now → 0 <= rcnt r → 0 <= lps → rcnt r + Z.of_nat n < 4294967296 →
  util_rwarn_run r lps (repeat now n) = Z.max 0 (Z.min (Z.of_nat n) (lps - rcnt r)).
Proof.
  revert r. induction n as [|n IH]; intros r Hr Hc Hl Hn; [cbn; lia|].
  cbn [repeat util_rwarn_run]. unfold util_rwarn. rewrite Hr, Z.eqb_refl; simpl.
  rewrite Nat2Z.inj_succ in *. rewrite u32_id by (unfold_u; lia).
  rewrite IH; simpl; try lia.
  destruct (Z.ltb_spec (rcnt r) lps); simpl; lia.
Qed.

(** A limiter whose counter survives prints at most [lps] of the calls of one
    second; the [rwarn] macro, whose counter restarts at every call, prints all
    of them. *)
Theorem rwarn_never_limits (lps now t0 : Z) (n : nat) :
  0 < lps → Z.of_nat n < 4294967296 →
  util_rwarn_run (Rlimit now 0) lps (repeat now n) = Z.min (Z.of_nat n) lps ∧
  rwarn_run t0 lps (repeat now n) = Z.of_nat n.
Proof.
  intros Hl Hn. split.
  - rewrite util_rwarn_run_same; simpl; lia.
  - clear Hn. revert t0. induction n as [|n IH]; intros t0; [done|].
    cbn [repeat rwarn_run]. unfold rwarn, util_rwarn. simpl.
    destruct (t0 =? now); simpl; rewrite IH; destruct (Z.ltb_spec 0 lps); simpl; lia.
Qed.

(** * Witnesses *)

Lemma fnv1a_detects_byte_change_witness :
  Fnv.fnv1a_32 ([10] ++ 1 :: [7; 8]) ≠ Fnv.fnv1a_32 ([10] ++ 2 :: [7; 8]) ∧
  Fnv.fnv1a_64 ([10] ++ 1 :: [7; 8]) ≠ Fnv.fnv1a_64 ([10] ++ 2 :: [7; 8]).
Proof.
  apply (fnv1a_detects_byte_change [10] [7; 8] 1 2);
    repeat first [constructor | unfold_u; lia].
Defined.

Lemma timespec_sub_correct_witness :
  timespec_ok (timespec_sub (Timespec 5 10) (Timespec 2 20)) ∧
  timespec_ns (timespec_sub (Timespec 5 10) (Timespec 2 20)) =
    timespec_ns (Timespec 5 10) - timespec_ns (Timespec 2 20).
Proof.
  apply (timespec_sub_correct (Timespec 5 10) (Timespec 2 20));
    unfold timespec_ok, NS_PER_S; simpl; lia.
Defined.

Lemma div_mulhi64_correct_witness :
  div_mulhi64 18446744073709551615 18446744073709551615 =
    18446744073709551615 * 18446744073709551615 / 18446744073709551616.
Proof. apply div_mulhi64_correct; unfold_u; lia. Defined.

Lemma approx_ns_conversions_exact_witness :
  APPROX_NS_TO_S 1999999999 = 1 ∧ APPROX_NS_TO_MS 1999999999 = 1999 ∧
  APPROX_NS_TO_US 1999999999 = 1999999.
Proof.
  destruct (approx_ns_conversions_exact 1999999999) as (H1 & H2 & H3).
  split_and!; [rewrite H1 by lia | rewrite H2 by lia | rewrite H3 by lia]; reflexivity.
Defined.

Lemma rwarn_never_limits_witness :
  util_rwarn_run (Rlimit 100 0) 10 (repeat 100 25%nat) = 10 ∧
  rwarn_run 0 10 (repeat 100 25%nat) = 25.
Proof.
  destruct (rwarn_never_limits 10 100 0 25%nat) as [H1 H2]; [lia|lia|].
  split; [rewrite H1; reflexivity | exact H2].
Defined.
