(* ===== verification/Krng.v ===== *)
(** Random numbers: the generator of lib/src/krng.h, its wrappers in
    lib/src/plat.c, the bounded draws of lib/src/warpcore.c and the choice of a
    local port in lib/src/backend.h. *)

From S2P Require Import Prelude Util.

(** The state [krng_t]: two 64-bit words. *)
Record krng_t := Krng { ks0 : Z; ks1 : Z }.

Definition shl64 (x n : Z) : Z := u64 (Z.shiftl x n).

Definition kr_splitmix64 (x : Z) : Z :=
  let z := u64 (x + 0x9E3779B97F4A7C15) in
  let z := u64 (Z.lxor z (Z.shiftr z 30) * 0xBF58476D1CE4E5B9) in
  let z := u64 (Z.lxor z (Z.shiftr z 27) * 0x94D049BB133111EB) in
  Z.lxor z (Z.shiftr z 31).

Definition kr_rand_r : M krng_t Z := λ r,
  let s0 := ks0 r in
  let s1 := ks1 r in
  let result := u64 (s0 + s1) in
  let s1 := Z.lxor s1 s0 in
  let s0' := Z.lxor (Z.lxor (Z.lor (shl64 s0 55) (Z.shiftr s0 9)) s1) (shl64 s1 14) in
  let s1' := Z.lor (shl64 s0 36) (Z.shiftr s0 28) in
  Done (result, Krng s0' s1').

(** One step of the jump: bit [b] of [JUMP[i]] accumulates the state, then the
    generator advances. *)
Definition kr_jump_step (jump : Z) (acc : outcome (krng_t * krng_t)) (b : nat)
    : outcome (krng_t * krng_t) :=
  match acc with
  | Done (s, r) =>
      let s := if Z.testbit jump (Z.of_nat b)
               then Krng (Z.lxor (ks0 s) (ks0 r)) (Z.lxor (ks1 s) (ks1 r)) else s in
      match kr_rand_r r with
      | Done (_, r) => Done (s, r)
      | _ => Died
      end
  | o => o
  end.

Definition kr_jump_r : M krng_t unit := λ r,
  let run acc jump := foldl (kr_jump_step jump) acc (seq 0 64) in
  match foldl run (Done (Krng 0 0, r)) [0xbeac0467eba5facb; 0xd86b048b86aa9922] with
  | Done (s, _) => Done (tt, s)
  | _ => Died
  end.

Definition kr_srand_r (seed : Z) : krng_t :=
  let s0 := kr_splitmix64 seed in Krng s0 (kr_splitmix64 s0).

(** [w_init_rand]: the seed is the hash of the bytes of the current timeval. *)
Definition w_init_rand (now : bytes) : M krng_t unit := put (kr_srand_r (Fnv.fnv1a_64 now)).

Definition w_rand64 : M krng_t Z := kr_rand_r.
Definition w_rand32 : M krng_t Z := r ← kr_rand_r; mret (u32 r).

(** The unbounded [for (;;)] loops run with fuel. *)
Fixpoint reroll (draw : M krng_t Z) (fuel : nat) (min : Z) : M krng_t Z :=
  match fuel with
  | O => no_fuel
  | S fuel => r ← draw; if min <=? r then mret r else reroll draw fuel min
  end.

Definition uniform_min (max upper_bound : Z) : Z := (max - upper_bound) mod upper_bound.

Definition w_rand_uniform64 (fuel : nat) (upper_bound : Z) : M krng_t Z :=
  if upper_bound <? 2 then mret 0
  else r ← reroll w_rand64 fuel (uniform_min UINT64_MAX upper_bound);
       mret (r mod upper_bound).

Definition w_rand_uniform32 (fuel : nat) (upper_bound : Z) : M krng_t Z :=
  if upper_bound <? 2 then mret 0
  else r ← reroll w_rand32 fuel (uniform_min UINT32_MAX upper_bound);
       mret (r mod upper_bound).

(** A random local port, in network byte order. *)
Definition pick_local_port (fuel : nat) : M krng_t Z :=
  r ← w_rand_uniform32 fuel (UINT16_MAX - 1024); mret (bswap16 (1024 + u16 r)).

(** The transition of xoroshiro128+, which [w_rand64] is documented to
    implement: the second word is the rotation of the updated [s1]. *)
Definition xoroshiro128p_next (r : krng_t) : krng_t :=
  let s0 := ks0 r in
  let s1 := Z.lxor (ks1 r) s0 in
  Krng (Z.lxor (Z.lxor (Z.lor (shl64 s0 55) (Z.shiftr s0 9)) s1) (shl64 s1 14))
       (Z.lor (shl64 s1 36) (Z.shiftr s1 28)).

(** * Theorems *)

Definition krng_wf (r : krng_t) : Prop := is_u64 (ks0 r) ∧ is_u64 (ks1 r).
Definition krng_nonzero (r : krng_t) : Prop := r ≠ Krng 0 0.
Definition next_state (r : krng_t) : krng_t :=
  match kr_rand_r r with Done (_, r) => r | _ => r end.

(** ** Bits of 64-bit words *)

Lemma u64_testbit x i : 0 <= i → Z.testbit (u64 x) i = (i <? 64) && Z.testbit x i.
Proof.
  intros. change (u64 x) with (x mod 2 ^ 64). rewrite Z.testbit_mod_pow2 by lia. done.
Qed.

Lemma u64_high_bits x i : is_u64 x → 64 <= i → Z.testbit x i = false.
Proof.
  intros Hx Hi. rewrite <- (u64_id x Hx), u64_testbit by lia.
  by destruct (Z.ltb_spec i 64); [lia|].
Qed.

Lemma u64_bits_eq x y :
  is_u64 x → is_u64 y → (∀ i, 0 <= i < 64 → Z.testbit x i = Z.testbit y i) → x = y.
Proof.
  intros Hx Hy H. apply Z.bits_inj'. intros i Hi.
  destruct (decide (i < 64)); [apply H; lia|]. by rewrite !u64_high_bits by (done || lia).
Qed.

Lemma shl64_testbit x n i :
  0 <= n → 0 <= i < 64 → Z.testbit (shl64 x n) i = (n <=? i) && Z.testbit x (i - n).
Proof.
  intros Hn Hi. unfold shl64. rewrite u64_testbit by lia.
  destruct (Z.ltb_spec i 64); [|lia]. simpl. destruct (Z.leb_spec n i).
  - by rewrite Z.shiftl_spec by lia.
  - by rewrite Z.shiftl_spec_low by lia.
Qed.

Lemma bits_is_u64 z : (∀ i, 64 <= i → Z.testbit z i = false) → is_u64 z.
Proof.
  intros H. replace z with (u64 z); [apply u64_range|].
  apply Z.bits_inj'. intros i Hi. rewrite u64_testbit by done.
  destruct (Z.ltb_spec i 64); [done|]. by rewrite H.
Qed.

Lemma lor_u64 x y : is_u64 x → is_u64 y → is_u64 (Z.lor x y).
Proof. intros. apply bits_is_u64. intros. by rewrite Z.lor_spec, !u64_high_bits. Qed.
Lemma lxor_u64 x y : is_u64 x → is_u64 y → is_u64 (Z.lxor x y).
Proof. intros. apply bits_is_u64. intros. by rewrite Z.lxor_spec, !u64_high_bits. Qed.
Lemma shiftr_u64 x n : 0 <= n → is_u64 x → is_u64 (Z.shiftr x n).
Proof.
  intros. apply bits_is_u64. intros. rewrite Z.shiftr_spec by lia.
  apply u64_high_bits; [done|lia].
Qed.
Lemma shl64_u64 x n : is_u64 (shl64 x n).
Proof. apply u64_range. Qed.

#[export] Hint Resolve lor_u64 lxor_u64 shiftr_u64 shl64_u64 : wc.

(** A left rotation by [n] is injective: every bit of the argument appears in it. *)
Lemma rotl_inj n x y :
  0 < n < 64 → is_u64 x → is_u64 y →
  Z.lor (shl64 x n) (Z.shiftr x (64 - n)) = Z.lor (shl64 y n) (Z.shiftr y (64 - n)) → x = y.
Proof.
  intros Hn Hx Hy H. apply u64_bits_eq; [done..|]. intros i Hi.
  assert (Hbit : ∀ z, is_u64 z → Z.testbit z i =
    Z.testbit (Z.lor (shl64 z n) (Z.shiftr z (64 - n))) ((i + n) mod 64)).
  { intros z Hz. rewrite Z.lor_spec, shl64_testbit, Z.shiftr_spec by zdm.
    destruct (decide (i + n < 64)).
    - rewrite Z.mod_small by lia. rewrite (u64_high_bits z (i + n + _)) by (done || lia).
      rewrite orb_false_r, (proj2 (Z.leb_le _ _)) by lia. simpl. f_equal. lia.
    - replace ((i + n) mod 64) with (i + n - 64) by zdm.
      rewrite (proj2 (Z.leb_gt _ _)) by lia. simpl. f_equal. lia. }
  by rewrite (Hbit x), (Hbit y), H.
Qed.

(** [t ^ (t << n)] determines [t], lowest bits first. *)
Lemma xorshl_inj n x y :
  0 < n → is_u64 x → is_u64 y →
  Z.lxor x (shl64 x n) = Z.lxor y (shl64 y n) → x = y.
Proof.
  intros Hn Hx Hy H. apply u64_bits_eq; [done..|]. intros i [Hi0 Hi].
  revert i Hi0 Hi. apply (Z_lt_induction (λ i, i < 64 → Z.testbit x i = Z.testbit y i)).
  intros i IH Hi. destruct (decide (0 <= i)); [|by rewrite !Z.testbit_neg_r by lia].
  apply (f_equal (λ z, Z.testbit z i)) in H.
  rewrite !Z.lxor_spec, !shl64_testbit in H by lia.
  destruct (Z.leb_spec n i); simpl in H; [|by rewrite !xorb_false_r in H].
  rewrite (IH (i - n)) in H by lia.
  by destruct (Z.testbit x i), (Z.testbit y i), (Z.testbit y (i - n)).
Qed.

Lemma kr_rand_r_done r :
  kr_rand_r r = Done (u64 (ks0 r + ks1 r), next_state r).
Proof. done. Qed.

Lemma next_state_wf r : krng_wf r → krng_wf (next_state r).
Proof. intros [??]. split; simpl; auto 10 with wc lia. Qed.

(** The state transition is injective. *)
Lemma next_state_inj r r' :
  krng_wf r → krng_wf r' → next_state r = next_state r' → r = r'.
Proof.
  destruct r as [a b], r' as [a' b']. intros [Ha Hb] [Ha' Hb'] H.
  unfold next_state, kr_rand_r in H. simpl in *. injection H as H0 H1.
  apply (rotl_inj 36) in H1; [|lia|done..]. subst a'. f_equal.
  rewrite !(Z.lxor_assoc (Z.lor _ _)) in H0. apply lxor_inj_r in H0.
  apply xorshl_inj in H0; [|lia|auto with wc..].
  rewrite !(Z.lxor_comm _ a) in H0. by apply lxor_inj_r in H0.
Qed.

Lemma kr_splitmix64_u64 x : is_u64 (kr_splitmix64 x).
Proof. unfold kr_splitmix64. auto 10 with wc lia. Qed.

(** Seeding with any value gives a state that is not all zero, and no number of
    draws ever reaches the all-zero state, from which the generator would return
    only zeros. *)
Theorem krng_never_zero (seed : Z) (n : nat) :
  is_u64 seed →
  krng_wf (Nat.iter n next_state (kr_srand_r seed)) ∧
  krng_nonzero (Nat.iter n next_state (kr_srand_r seed)).
Proof.
  intros Hs. induction n as [|n [IHw IHn]]; simpl.
  - split; [split; apply kr_splitmix64_u64|]. intros H. unfold kr_srand_r in H.
    injection H as H0 H1. rewrite H0 in H1. by vm_compute in H1.
  - split; [by apply next_state_wf|]. intros H. apply IHn.
    apply next_state_inj; [done|split; unfold_u; simpl; lia|]. by rewrite H.
Qed.

(** The transition is a permutation of the states: distinct states stay
    distinct, so the generator cannot lose entropy; but it is not the
    xoroshiro128+ transition it is documented to be. *)
Theorem kr_rand_r_permutes :
  (∀ r r', krng_wf r → krng_wf r' → next_state r = next_state r' → r = r') ∧
  next_state (Krng 1 2) ≠ xoroshiro128p_next (Krng 1 2).
Proof. split; [apply next_state_inj|by vm_compute]. Qed.

(** ** Bounded draws *)

Lemma reroll_done draw fuel min r v r' :
  reroll draw fuel min r = Done (v, r') → min <= v.
Proof.
  revert r. induction fuel as [|fuel IH]; intros r; [done|]. simpl.
  intros (x & r1 & _ & H)%bind_done. destruct (Z.leb_spec min x); [|by eapply IH].
  by injection H as -> ->.
Qed.

(** The [n]th draw of 64 and of 32 bits from [r]. *)
Definition draw64 (r : krng_t) (n : nat) : Z :=
  let r := Nat.iter n next_state r in u64 (ks0 r + ks1 r).
Definition draw32 (r : krng_t) (n : nat) : Z := u32 (draw64 r n).

Lemma iter_next_succ n r : Nat.iter (S n) next_state r = Nat.iter n next_state (next_state r).
Proof. by rewrite Nat.iter_succ_r. Qed.

Lemma w_rand32_done r : w_rand32 r = Done (draw32 r 0, next_state r).
Proof. done. Qed.

(** A loop whose draws are those of [f] stops at the first one that reaches the
    threshold. *)
Lemma reroll_finishes (draw : M krng_t Z) (f : krng_t → Z) fuel min r n :
  (∀ r, draw r = Done (f r, next_state r)) →
  (n < fuel)%nat → min <= f (Nat.iter n next_state r) →
  ∃ k, (k <= n)%nat ∧ min <= f (Nat.iter k next_state r) ∧
    reroll draw fuel min r =
      Done (f (Nat.iter k next_state r), Nat.iter (S k) next_state r).
Proof.
  intros Hdraw. revert r n. induction fuel as [|fuel IH]; intros r n Hn Hmin; [lia|].
  cbn [reroll]. unfold mbind, M_bind. rewrite Hdraw.
  destruct (Z.leb_spec min (f r)); [by exists 0%nat; auto with lia|].
  destruct n as [|n]; [simpl in *; lia|].
  destruct (IH (next_state r) n) as (k & Hk & Hd & He).
  - lia.
  - by rewrite <- iter_next_succ.
  - exists (S k). split; [lia|]. rewrite iter_next_succ. split; [done|].
    by rewrite He, !iter_next_succ.
Qed.

(** A bounded draw is below its bound; it finishes as soon as one of the draws
    the fuel allows reaches the threshold, which less than half of all values
    miss. *)
Theorem w_rand_uniform64_correct (fuel : nat) (ub : Z) (r : krng_t) :
  0 < ub <= UINT64_MAX →
  (∀ v r', w_rand_uniform64 fuel ub r = Done (v, r') → 0 <= v < ub) ∧
  ((∃ n, (n < fuel)%nat ∧ uniform_min UINT64_MAX ub <= draw64 r n) →
    ∃ v r', w_rand_uniform64 fuel ub r = Done (v, r')) ∧
  2 * uniform_min UINT64_MAX ub < 2 ^ 64.
Proof.
  intros Hub. unfold w_rand_uniform64. destruct (Z.ltb_spec ub 2).
  { split_and!.
    - intros v r' [= <- _]. lia.
    - intros _. by eexists _, _.
    - assert (ub = 1) as -> by lia. by vm_compute. }
  split_and!.
  - intros v r' (x & r1 & _ & [= <- _])%bind_done. apply Z.mod_pos_bound. lia.
  - intros (n & Hn & Hmin). destruct (reroll_finishes w_rand64 (λ r, draw64 r 0) _ _ r n (λ _, eq_refl) Hn Hmin)
      as (k & _ & _ & He).
    eexists _, _. unfold mbind, M_bind. rewrite He. done.
  - unfold uniform_min. unfold_u. change (2 ^ 64) with 18446744073709551616.
    pose proof (Z.mod_pos_bound (18446744073709551615 - ub) ub ltac:(lia)).
    pose proof (Z.mod_le (18446744073709551615 - ub) ub ltac:(lia) ltac:(lia)). lia.
Qed.

(** The threshold keeps one value too many: the number of accepted values leaves
    remainder 1 modulo the bound, so one result is always more likely than the
    others.  The threshold of the comment, [2^w % upper_bound], has no such
    remainder. *)
Theorem uniform_min_biased (ub : Z) :
  (2 <= ub <= UINT64_MAX →
    (2 ^ 64 - uniform_min UINT64_MAX ub) mod ub = 1 ∧
    (2 ^ 64 - uniform_min (2 ^ 64) ub) mod ub = 0) ∧
  (2 <= ub <= UINT32_MAX →
    (2 ^ 32 - uniform_min UINT32_MAX ub) mod ub = 1 ∧
    (2 ^ 32 - uniform_min (2 ^ 32) ub) mod ub = 0).
Proof.
  assert (H : ∀ m, 2 <= ub → (m - (m - 1 - ub) mod ub) mod ub = 1 ∧
                             (m - (m - ub) mod ub) mod ub = 0).
  { intros m Hub. rewrite !Zminus_mod_idemp_r.
    replace (m - (m - 1 - ub)) with (1 + 1 * ub) by lia.
    replace (m - (m - ub)) with (1 * ub) by lia.
    rewrite Z.mod_add, Z.mod_mul by lia. split; [apply Z.mod_small; lia|done]. }
  split; intros Hub; apply H; lia.
Qed.

Lemma w_rand_uniform32_range fuel ub r v r' :
  0 < ub → w_rand_uniform32 fuel ub r = Done (v, r') → 0 <= v < ub.
Proof.
  intros Hub. unfold w_rand_uniform32. destruct (Z.ltb_spec ub 2).
  - intros [= <- _]. lia.
  - intros (x & r1 & _ & [= <- _])%bind_done. apply Z.mod_pos_bound. lia.
Qed.

Lemma w_rand_uniform32_finishes fuel ub r n :
  0 < ub → (n < fuel)%nat → uniform_min UINT32_MAX ub <= draw32 r n →
  ∃ v r', w_rand_uniform32 fuel ub r = Done (v, r') ∧ 0 <= v < ub.
Proof.
  intros Hub Hn Hmin.
  assert (∃ v r', w_rand_uniform32 fuel ub r = Done (v, r')) as (v & r' & E).
  { destruct (reroll_finishes w_rand32 (λ r, draw32 r 0) _ _ r n w_rand32_done Hn Hmin)
      as (k & _ & _ & He).
    unfold w_rand_uniform32. destruct (ub <? 2); [by eexists _, _|].
    eexists _, _. unfold mbind, M_bind. rewrite He. reflexivity. }
  exists v, r'. split; [done|]. by eapply w_rand_uniform32_range.
Qed.

(** A local port is found as soon as one of the 32-bit draws the fuel allows
    reaches the threshold, and it is then never a well-known port (in host
    order) and never 0. *)
Theorem pick_local_port_correct (fuel : nat) (r : krng_t) (n : nat) :
  (n < fuel)%nat → uniform_min UINT32_MAX (UINT16_MAX - 1024) <= draw32 r n →
  ∃ p r', pick_local_port fuel r = Done (p, r') ∧
    is_u16 p ∧ 1024 <= bswap16 p < UINT16_MAX ∧ p ≠ 0.
Proof.
  intros Hn Hmin.
  destruct (w_rand_uniform32_finishes fuel (UINT16_MAX - 1024) r n eq_refl Hn Hmin)
    as (x & r' & He & Hx).
  exists (bswap16 (1024 + u16 x)), r'. split.
  { unfold pick_local_port, mbind, M_bind. by rewrite He. }
  unfold UINT16_MAX in *.
  rewrite u16_id by (unfold_u; lia). rewrite bswap16_invol by (unfold_u; lia).
  pose proof (bswap16_range (1024 + x)). split_and!; [done|lia..|].
  intros H0. pose proof (bswap16_invol (1024 + x)) as Hi. rewrite H0 in Hi.
  specialize (Hi ltac:(unfold_u; lia)). change (bswap16 0) with 0 in Hi. lia.
Qed.

(** * Witnesses *)

Lemma krng_never_zero_witness :
  krng_wf (Nat.iter 3 next_state (kr_srand_r 1)) ∧
  krng_nonzero (Nat.iter 3 next_state (kr_srand_r 1)).
Proof. apply (krng_never_zero 1 3). unfold_u. lia. Defined.

Lemma w_rand_uniform64_correct_witness :
  ∃ v r', w_rand_uniform64 5 1000 (kr_srand_r 1) = Done (v, r') ∧ 0 <= v < 1000.
Proof.
  destruct (w_rand_uniform64_correct 5 1000 (kr_srand_r 1)) as (Hb & Hf & _).
  - unfold_u. lia.
  - destruct Hf as (v & r' & E).
    + exists 0%nat. split; [lia|]. vm_compute. discriminate.
    + exists v, r'. split; [exact E | exact (Hb v r' E)].
Defined.

Lemma uniform_min_biased_witness :
  (2 ^ 64 - uniform_min UINT64_MAX 3) mod 3 = 1 ∧ (2 ^ 32 - uniform_min UINT32_MAX 3) mod 3 = 1.
Proof.
  destruct (uniform_min_biased 3) as [H64 H32].
  split; [apply H64 | apply H32]; unfold_u; lia.
Defined.

Lemma pick_local_port_correct_witness :
  ∃ p r', pick_local_port 3 (kr_srand_r 1) = Done (p, r') ∧
    is_u16 p ∧ 1024 <= bswap16 p < UINT16_MAX ∧ p ≠ 0.
Proof.
  apply (pick_local_port_correct 3 (kr_srand_r 1) 0); [lia|].
  vm_compute. discriminate.
Defined.
