(* ===== verification/Queue.v ===== *)
(** Intrusive queues (lib/include/warpcore/queue.h): the singly-linked tail
    queues [sq_*], with the length counter warpcore adds to them, as pointer
    manipulations on a heap of queue heads and of [next] fields, and their
    refinement to lists. *)

From S2P Require Import Prelude.

(** ** The heap *)

(** What [stqh_last] points at: the [stqh_first] field of a head, or the [next]
    field of an element. *)
Inductive loc :=
| LHead (h : nat)
| LNext (e : nat).

Record sq_head := SqHead {
  stqh_first : option nat;
  stqh_last : loc;
  stqh_len : Z
}.

(** All queue heads, and the [next] field of all allocated elements. *)
Record qheap := QHeap {
  heads : gmap nat sq_head;
  nexts : gmap nat (option nat)
}.

Definition rd_head (h : nat) : M qheap sq_head := λ st,
  match heads st !! h with Some hd => Done (hd, st) | None => Fault end.
Definition wr_head (h : nat) (hd : sq_head) : M qheap unit := λ st,
  match heads st !! h with
  | Some _ => Done (tt, QHeap (<[h := hd]> (heads st)) (nexts st))
  | None => Fault
  end.
Definition rd_next (e : nat) : M qheap (option nat) := λ st,
  match nexts st !! e with Some n => Done (n, st) | None => Fault end.
Definition wr_next (e : nat) (n : option nat) : M qheap unit := λ st,
  match nexts st !! e with
  | Some _ => Done (tt, QHeap (heads st) (<[e := n]> (nexts st)))
  | None => Fault
  end.
(** [*l = v] for a pointer [l] to a [first] or [next] field. *)
Definition wr_loc (l : loc) (v : option nat) : M qheap unit :=
  match l with
  | LHead h => hd ← rd_head h; wr_head h (SqHead v (stqh_last hd) (stqh_len hd))
  | LNext e => wr_next e v
  end.

Definition set_last (h : nat) (l : loc) : M qheap unit :=
  hd ← rd_head h; wr_head h (SqHead (stqh_first hd) l (stqh_len hd)).
Definition set_first (h : nat) (v : option nat) : M qheap unit :=
  wr_loc (LHead h) v.
Definition add_len (h : nat) (d : Z) : M qheap unit :=
  hd ← rd_head h; wr_head h (SqHead (stqh_first hd) (stqh_last hd) (u64 (stqh_len hd + d))).

(** ** The macros *)

Definition sq_first (h : nat) : M qheap (option nat) := hd ← rd_head h; mret (stqh_first hd).
Definition sq_len (h : nat) : M qheap Z := hd ← rd_head h; mret (stqh_len hd).
Definition sq_empty (h : nat) : M qheap bool :=
  f ← sq_first h; mret (bool_decide (f = None)).
Definition sq_next (e : nat) : M qheap (option nat) := rd_next e.

Definition sq_init (h : nat) : M qheap unit :=
  set_first h None ;; set_last h (LHead h) ;;
  hd ← rd_head h; wr_head h (SqHead (stqh_first hd) (stqh_last hd) 0).

Definition sq_insert_head (h e : nat) : M qheap unit :=
  f ← sq_first h; wr_next e f ;;
  when (bool_decide (f = None)) (set_last h (LNext e)) ;;
  set_first h (Some e) ;; add_len h 1.

Definition sq_insert_tail (h e : nat) : M qheap unit :=
  wr_next e None ;;
  hd ← rd_head h; wr_loc (stqh_last hd) (Some e) ;;
  set_last h (LNext e) ;; add_len h 1.

Definition sq_insert_after (h t e : nat) : M qheap unit :=
  n ← rd_next t; wr_next e n ;;
  when (bool_decide (n = None)) (set_last h (LNext e)) ;;
  wr_next t (Some e) ;; add_len h 1.

(** Following a null pointer is a [Fault]. *)
Definition deref (p : option nat) : M qheap nat :=
  match p with Some e => mret e | None => fault end.

Definition sq_remove_head (h : nat) : M qheap unit :=
  f ← sq_first h; e ← deref f; n ← rd_next e;
  set_first h n ;;
  when (bool_decide (n = None)) (set_last h (LHead h)) ;;
  add_len h (-1).

Definition sq_remove_after (h e : nat) : M qheap unit :=
  n ← rd_next e; x ← deref n; nn ← rd_next x;
  wr_next e nn ;;
  when (bool_decide (nn = None)) (set_last h (LNext e)) ;;
  add_len h (-1).

(** The walk of [sq_remove] to the element before [e]. *)
Fixpoint sq_find_prev (fuel : nat) (cur e : nat) : M qheap nat :=
  match fuel with
  | O => no_fuel
  | S fuel =>
      n ← rd_next cur;
      if bool_decide (n = Some e) then mret cur
      else c ← deref n; sq_find_prev fuel c e
  end.

Definition sq_remove (fuel : nat) (h e : nat) : M qheap unit :=
  f ← sq_first h;
  if bool_decide (f = Some e) then sq_remove_head h
  else c ← deref f; p ← sq_find_prev fuel c e; sq_remove_after h p.

Definition sq_concat (h1 h2 : nat) : M qheap unit :=
  b ← sq_empty h2;
  if (b : bool) then mret tt else
  hd1 ← rd_head h1; f2 ← sq_first h2; wr_loc (stqh_last hd1) f2 ;;
  hd2 ← rd_head h2; set_last h1 (stqh_last hd2) ;;
  l2 ← sq_len h2; add_len h1 l2 ;;
  sq_init h2.

Definition sq_swap (h1 h2 : nat) : M qheap unit :=
  hd1 ← rd_head h1;
  hd2 ← rd_head h2; wr_head h1 hd2 ;;
  wr_head h2 hd1 ;;
  b1 ← sq_empty h1; when b1 (set_last h1 (LHead h1)) ;;
  b2 ← sq_empty h2; when b2 (set_last h2 (LHead h2)).

(** [sq_foreach]: the elements in the order the loop visits them. *)
Fixpoint sq_walk (fuel : nat) (cur : option nat) : M qheap (list nat) :=
  match cur with
  | None => mret []
  | Some e =>
      match fuel with
      | O => no_fuel
      | S fuel => n ← rd_next e; l ← sq_walk fuel n; mret (e :: l)
      end
  end.
Definition sq_foreach (fuel h : nat) : M qheap (list nat) :=
  f ← sq_first h; sq_walk fuel f.

(** [sq_last]: the element whose [next] field [stqh_last] points at. *)
Definition sq_last (h : nat) : M qheap (option nat) :=
  b ← sq_empty h;
  if (b : bool) then mret None else
  hd ← rd_head h;
  match stqh_last hd with LNext e => mret (Some e) | LHead _ => fault end.

(** ** The abstract queues *)

(** A client uses the queues as a finite map from heads to lists. *)
Abbreviation queues := (gmap nat (list nat)).

Inductive sq_op :=
| OInit (h : nat)
| OInsertHead (h e : nat)
| OInsertTail (h e : nat)
| OInsertAfter (h t e : nat)
| ORemoveHead (h : nat)
| ORemove (h e : nat)
| OConcat (h1 h2 : nat)
| OSwap (h1 h2 : nat).

Definition exec_op (fuel : nat) (o : sq_op) : M qheap unit :=
  match o with
  | OInit h => sq_init h
  | OInsertHead h e => sq_insert_head h e
  | OInsertTail h e => sq_insert_tail h e
  | OInsertAfter h t e => sq_insert_after h t e
  | ORemoveHead h => sq_remove_head h
  | ORemove h e => sq_remove fuel h e
  | OConcat h1 h2 => sq_concat h1 h2
  | OSwap h1 h2 => sq_swap h1 h2
  end.

(** [e] is allocated and in no queue. *)
Definition unqueued (D : gset nat) (m : queues) (e : nat) : Prop :=
  e ∈ D ∧ map_Forall (λ _ xs, e ∉ xs) m.

(** What each macro means on lists, with the precondition it relies on. *)
Inductive spec_op (D : gset nat) (m : queues) : sq_op → queues → Prop :=
| SInit h xs : m !! h = Some xs → spec_op D m (OInit h) (<[h := []]> m)
| SInsertHead h e xs :
    m !! h = Some xs → unqueued D m e → spec_op D m (OInsertHead h e) (<[h := e :: xs]> m)
| SInsertTail h e xs :
    m !! h = Some xs → unqueued D m e → spec_op D m (OInsertTail h e) (<[h := xs ++ [e]]> m)
| SInsertAfter h t e xs ys :
    m !! h = Some (xs ++ t :: ys) → unqueued D m e →
    spec_op D m (OInsertAfter h t e) (<[h := xs ++ t :: e :: ys]> m)
| SRemoveHead h e xs :
    m !! h = Some (e :: xs) → spec_op D m (ORemoveHead h) (<[h := xs]> m)
| SRemove h e xs ys :
    m !! h = Some (xs ++ e :: ys) → spec_op D m (ORemove h e) (<[h := xs ++ ys]> m)
| SConcat h1 h2 xs ys :
    h1 ≠ h2 → m !! h1 = Some xs → m !! h2 = Some ys →
    spec_op D m (OConcat h1 h2) (<[h1 := xs ++ ys]> (<[h2 := []]> m))
| SConcatSelf h xs :
    m !! h = Some xs → spec_op D m (OConcat h h) (<[h := []]> m)
| SSwap h1 h2 xs ys :
    m !! h1 = Some xs → m !! h2 = Some ys →
    spec_op D m (OSwap h1 h2) (<[h1 := ys]> (<[h2 := xs]> m)).

(** ** Representation *)

Definition last_loc (h : nat) (xs : list nat) : loc :=
  match last xs with Some e => LNext e | None => LHead h end.

(** The element after a position: the first of [ys], or [t] if there is none. *)
Definition hd_or (t : option nat) (ys : list nat) : option nat :=
  match ys with [] => t | y :: _ => Some y end.

(** The [next] fields lead through [xs] and from its last element to [t]. *)
Fixpoint chain (nx : gmap nat (option nat)) (xs : list nat) (t : option nat) : Prop :=
  match xs with
  | [] => True
  | e :: xs => nx !! e = Some (hd_or t xs) ∧ chain nx xs t
  end.

Record sq_repr (st : qheap) (h : nat) (xs : list nat) : Prop := {
  repr_head : heads st !! h = Some (SqHead (hd_or None xs) (last_loc h xs) (u64 (Z.of_nat (length xs))));
  repr_chain : chain (nexts st) xs None;
  repr_nodup : NoDup xs
}.

Record sq_inv (D : gset nat) (st : qheap) (m : queues) : Prop := {
  inv_dom : dom (nexts st) = D;
  inv_repr : ∀ h xs, m !! h = Some xs → sq_repr st h xs;
  inv_disj : ∀ h1 h2 xs ys e, m !! h1 = Some xs → m !! h2 = Some ys → h1 ≠ h2 →
    e ∈ xs → e ∈ ys → False
}.

(** [st'] differs from [st] only at the heads [hs] and the elements [es]. *)
Record frame (st st' : qheap) (hs es : list nat) : Prop := {
  frame_dom : dom (nexts st') = dom (nexts st);
  frame_heads : ∀ h, h ∉ hs → heads st' !! h = heads st !! h;
  frame_nexts : ∀ e, e ∉ es → nexts st' !! e = nexts st !! e
}.

(** * Theorems *)

Lemma chain_app nx xs ys t :
  chain nx (xs ++ ys) t ↔ chain nx xs (hd_or t ys) ∧ chain nx ys t.
Proof.
  induction xs as [|e xs IH]; simpl; [tauto|]. rewrite IH.
  destruct xs; simpl; tauto.
Qed.

Lemma chain_frame nx nx' xs t :
  (∀ e, e ∈ xs → nx' !! e = nx !! e) → chain nx xs t → chain nx' xs t.
Proof.
  induction xs as [|e xs IH]; simpl; [done|]. intros H [He Hc]. split.
  - rewrite H by set_solver. done.
  - apply IH; [set_solver|done].
Qed.

Lemma chain_insert nx xs t e v : e ∉ xs → chain nx xs t → chain (<[e := v]> nx) xs t.
Proof. intros He. apply chain_frame. intros x Hx. rewrite lookup_insert_ne; set_solver. Qed.

(** Relinking the last element of a segment redirects the segment. *)
Lemma chain_relink nx xs l t t' :
  l ∉ xs → chain nx (xs ++ [l]) t → chain (<[l := t']> nx) (xs ++ [l]) t'.
Proof.
  intros Hl [Hx _]%chain_app. apply chain_app. split; [by apply chain_insert|].
  simpl. by rewrite lookup_insert_eq.
Qed.

Lemma last_loc_snoc h xs e : last_loc h (xs ++ [e]) = LNext e.
Proof. unfold last_loc. by rewrite last_snoc. Qed.
Lemma last_loc_mid h xs e y ys : last_loc h (xs ++ e :: y :: ys) = last_loc h (y :: ys).
Proof. unfold last_loc. by rewrite last_app_cons, last_cons_cons. Qed.

Lemma u64_add_l a b : u64 (u64 a + b) = u64 (a + b).
Proof. unfold u64. by rewrite Z.add_mod_idemp_l. Qed.

Lemma u64_add_r a b : u64 (a + u64 b) = u64 (a + b).
Proof. unfold u64. by rewrite Z.add_mod_idemp_r. Qed.
Lemma last_loc_any h h' y ys : last_loc h (y :: ys) = last_loc h' (y :: ys).
Proof. unfold last_loc. rewrite last_cons. by destruct (last ys). Qed.

Lemma dom_insert_same (nx : gmap nat (option nat)) e v :
  is_Some (nx !! e) → dom (<[e := v]> nx) = dom nx.
Proof. intros. apply dom_insert_lookup_L. done. Qed.

(** Symbolic execution: unfold the primitives and resolve the lookups. *)
Ltac q_unfold := unfold exec_op, sq_concat, sq_swap, sq_empty, sq_insert_head, sq_insert_tail, sq_insert_after,
  sq_remove_head, sq_remove_after, sq_init, sq_first, sq_len, set_first,
  set_last, add_len, wr_loc, deref, when, fault, rd_head, wr_head, rd_next, wr_next,
  mret, M_ret, mbind, M_bind.
Ltac q_step := first
  [ progress cbn [heads nexts stqh_first stqh_last stqh_len hd_or last_loc last]
  | rewrite lookup_insert_eq
  | rewrite lookup_insert_ne by done
  | match goal with H : ?m !! ?k = Some _ |- context [?m !! ?k] => rewrite H end
  | rewrite bool_decide_true by done
  | rewrite bool_decide_false by done ].
Ltac q_run := q_unfold; repeat q_step.

Ltac solve_frame :=
  split; simpl;
  [ repeat rewrite dom_insert_same by (rewrite ?lookup_insert_is_Some'; eauto); done
  | intros ? ?; repeat rewrite lookup_insert_ne by set_solver; done
  | intros ? ?; repeat rewrite lookup_insert_ne by set_solver; done ].
(** The head after an operation: nested updates collapse, the counter wraps once. *)
Lemma head_eq f f' l l' n n' :
  f = f' → l = l' → n = n' → Some (SqHead f l (u64 n)) = Some (SqHead f' l' (u64 n')).
Proof. by intros -> -> ->. Qed.
Ltac solve_head :=
  cbn [heads stqh_first stqh_last stqh_len];
  repeat first [ rewrite insert_insert_eq | rewrite lookup_insert_eq
               | rewrite lookup_insert_ne by done | rewrite u64_add_l | rewrite u64_add_r ];
  rewrite ?last_loc_snoc;
  try apply head_eq; rewrite ?length_app; cbn [length hd_or app]; try lia;
  try done; try (match goal with |- context [hd_or _ (?l ++ _)] => by destruct l end).

Lemma sq_init_spec st h xs :
  sq_repr st h xs →
  ∃ st', sq_init h st = Done (tt, st') ∧ sq_repr st' h [] ∧ frame st st' [h] [].
Proof.
  intros [Hh _ _]. eexists. split; [q_run; reflexivity|]. split; [|solve_frame].
  split; [solve_head|done|constructor].
Qed.

Lemma sq_insert_head_spec st h e xs :
  sq_repr st h xs → is_Some (nexts st !! e) → e ∉ xs →
  ∃ st', sq_insert_head h e st = Done (tt, st') ∧ sq_repr st' h (e :: xs) ∧
    frame st st' [h] [e].
Proof.
  intros [Hh Hlinks Hnd] [n He] Hex.
  destruct xs as [|x xs]; (eexists; split; [q_run; reflexivity|]);
    (split; [|solve_frame]); split; [solve_head| | |solve_head| |].
  - cbn [chain nexts]. by rewrite lookup_insert_eq.
  - by constructor.
  - cbn [chain nexts hd_or]. rewrite lookup_insert_eq. split; [done|].
    by apply (chain_insert _ (x :: xs)).
  - by constructor.
Qed.

Lemma sq_insert_tail_spec st h e xs :
  sq_repr st h xs → is_Some (nexts st !! e) → e ∉ xs →
  ∃ st', sq_insert_tail h e st = Done (tt, st') ∧ sq_repr st' h (xs ++ [e]) ∧
    frame st st' [h] (e :: xs).
Proof.
  intros [Hh Hlinks Hnd] [n He] Hex.
  destruct xs as [|l xs _] using rev_ind.
  - eexists; split; [q_run; reflexivity|]. split; [|solve_frame].
    split; [solve_head| |by constructor]. simpl. by rewrite lookup_insert_eq.
  - rewrite last_loc_snoc in Hh. assert (e ≠ l) by set_solver.
    apply NoDup_app in Hnd as (Hnd & Hl & _).
    assert (Hln : nexts st !! l = Some None) by (by apply chain_app in Hlinks as [_ [? _]]).
    eexists; split; [q_run; reflexivity|]. split; [|solve_frame]. split.
    + solve_head.
    + simpl. apply chain_app. split.
      * apply (chain_relink _ _ _ None); [set_solver|]. by apply chain_insert.
      * simpl. by rewrite lookup_insert_ne, lookup_insert_eq.
    + apply NoDup_app. split_and!; [apply NoDup_app; split_and!; try done| |];
        try (by constructor; [set_solver|constructor]); set_solver.
Qed.

Lemma sq_insert_after_spec st h t e xs ys :
  sq_repr st h (xs ++ t :: ys) → is_Some (nexts st !! e) → e ∉ xs ++ t :: ys →
  ∃ st', sq_insert_after h t e st = Done (tt, st') ∧
    sq_repr st' h (xs ++ t :: e :: ys) ∧ frame st st' [h] (e :: xs ++ t :: ys).
Proof.
  intros [Hh Hlinks Hnd] [n He] Hex.
  apply chain_app in Hlinks as [Hxs [Ht Hys]].
  assert (e ≠ t) by set_solver.
  assert (NoDup (xs ++ t :: e :: ys)) as Hnd'.
  { apply NoDup_app in Hnd as (? & Hd & [??]%NoDup_cons).
    apply NoDup_app. split_and!; [done|set_solver|].
    repeat (constructor; [set_solver|]). done. }
  apply NoDup_app in Hnd as (_ & Hd & [Hty _]%NoDup_cons).
  assert (Hchain : chain (<[t := Some e]> (<[e := hd_or None ys]> (nexts st)))
                     (xs ++ t :: e :: ys) None).
  { apply chain_app. split; [do 2 (apply chain_insert; [set_solver|]); done|].
    simpl. rewrite lookup_insert_eq, lookup_insert_ne, lookup_insert_eq by done.
    split_and!; [done|done|]. do 2 (apply chain_insert; [set_solver|]). done. }
  destruct ys as [|y ys]; (eexists; split; [q_run; reflexivity|]);
    (split; [|solve_frame]); (split; [solve_head|done|done]).
  - by rewrite last_loc_mid.
  - by rewrite !last_loc_mid.
Qed.

Lemma sq_remove_head_spec st h e xs :
  sq_repr st h (e :: xs) →
  ∃ st', sq_remove_head h st = Done (tt, st') ∧ sq_repr st' h xs ∧ frame st st' [h] [].
Proof.
  intros [Hh [He Hlinks] [_ Hnd]%NoDup_cons].
  destruct xs as [|x xs]; (eexists; split; [q_run; reflexivity|]);
    (split; [|solve_frame]); (split; [solve_head|done|done]).
Qed.

Lemma sq_remove_after_spec st h e x xs ys :
  sq_repr st h (xs ++ e :: x :: ys) →
  ∃ st', sq_remove_after h e st = Done (tt, st') ∧ sq_repr st' h (xs ++ e :: ys) ∧
    frame st st' [h] (xs ++ e :: x :: ys).
Proof.
  intros [Hh Hlinks Hnd]. apply chain_app in Hlinks as [Hxs (He & Hx & Hys)].
  apply NoDup_app in Hnd as (Hnd & Hd & [Hex [Hxy Hndy]%NoDup_cons]%NoDup_cons).
  assert (Hnd' : NoDup (xs ++ e :: ys)).
  { apply NoDup_app. split_and!; [done|set_solver|]. constructor; [set_solver|done]. }
  assert (Hchain : chain (<[e := hd_or None ys]> (nexts st)) (xs ++ e :: ys) None).
  { apply chain_app. split; [apply chain_insert; [set_solver|done]|].
    simpl. rewrite lookup_insert_eq. split; [done|]. apply chain_insert; [set_solver|done]. }
  destruct ys as [|y ys]; (eexists; split; [q_run; reflexivity|]);
    (split; [|solve_frame]); (split; [solve_head|done|done]).
  by rewrite !last_loc_mid.
Qed.

Lemma sq_find_prev_spec st fuel xs p e ys cur t :
  chain (nexts st) (xs ++ p :: e :: ys) t → hd_or None (xs ++ [p]) = Some cur →
  e ∉ xs ++ [p] → (length xs < fuel)%nat →
  sq_find_prev fuel cur e st = Done (p, st).
Proof.
  revert cur fuel. induction xs as [|x xs IH]; intros cur fuel Hc Hcur He Hf;
    (destruct fuel as [|fuel]; [simpl in *; lia|]); simpl in Hcur; injection Hcur as <-.
  - destruct Hc as [Hp _]. simpl. q_run. done.
  - destruct Hc as [Hx Hc]. cbn [sq_find_prev].
    destruct (hd_or None (xs ++ [p])) as [c|] eqn:Ec; [|by destruct xs].
    assert (Hx' : nexts st !! x = Some (Some c)) by (rewrite Hx; destruct xs; simpl in *; congruence).
    assert (c ≠ e) by (destruct xs; simpl in *; injection Ec as <-; set_solver).
    q_run. rewrite bool_decide_false by congruence. cbn.
    apply IH; [done|done|set_solver|simpl in *; lia].
Qed.

Lemma sq_remove_spec st fuel h e xs ys :
  sq_repr st h (xs ++ e :: ys) → (length xs <= fuel)%nat →
  ∃ st', sq_remove fuel h e st = Done (tt, st') ∧ sq_repr st' h (xs ++ ys) ∧
    frame st st' [h] (xs ++ e :: ys).
Proof.
  intros Hr Hf. destruct xs as [|x xs].
  - destruct (sq_remove_head_spec st h e ys Hr) as (st' & E & Hr' & [Fd Fh Fn]).
    exists st'. split; [|split; [done|]].
    + unfold sq_remove. destruct Hr as [Hh _ _]. unfold sq_first, rd_head, mbind, M_bind.
      rewrite Hh. cbn. by rewrite bool_decide_true.
    + split; [done|done|]. intros e' _. apply Fn. set_solver.
  - destruct (exists_last (l := x :: xs)) as (xs' & p & Ex); [done|].
    rewrite Ex in *. rewrite <- !app_assoc in *. simpl in *.
    destruct (sq_remove_after_spec st h p e xs' ys Hr) as (st' & E & Hr' & F).
    exists st'. split; [|split; done].
    destruct Hr as [Hh Hlinks Hnd].
    assert (He : e ∉ xs' ++ [p]).
    { apply NoDup_app in Hnd as (_ & Hd & [Hp _]%NoDup_cons). set_solver. }
    assert (Hl : length xs' = length xs).
    { apply (f_equal length) in Ex. rewrite length_app in Ex. simpl in Ex. lia. }
    assert (Hc : hd_or None (xs' ++ p :: e :: ys) = Some x ∧ x ≠ e).
    { destruct xs' as [|z xs']; simpl in *; injection Ex as -> _; set_solver. }
    destruct Hc as [Hc Hxe].
    rewrite length_app in Hf. simpl in Hf.
    unfold sq_remove, sq_first, rd_head, mbind, M_bind. rewrite Hh. cbn [stqh_first mret M_ret].
    rewrite Hc, bool_decide_false by congruence. cbn.
    rewrite (sq_find_prev_spec st fuel xs' p e ys x None); [done|done| |done|lia].
    destruct xs'; simpl in *; congruence.
Qed.

Lemma frame_refl st hs es : frame st st hs es.
Proof. done. Qed.

(** Executing [sq_init] after other writes. *)
Lemma sq_init_run st h hd :
  heads st !! h = Some hd →
  sq_init h st = Done (tt, QHeap (<[h := SqHead None (LHead h) 0]> (heads st)) (nexts st)).
Proof. intros H. q_run. by rewrite !insert_insert_eq. Qed.

Lemma sq_concat_spec st h1 h2 xs ys :
  h1 ≠ h2 → sq_repr st h1 xs → sq_repr st h2 ys → (∀ e, e ∈ xs → e ∈ ys → False) →
  ∃ st', sq_concat h1 h2 st = Done (tt, st') ∧
    sq_repr st' h1 (xs ++ ys) ∧ sq_repr st' h2 [] ∧ frame st st' [h1; h2] (xs ++ ys).
Proof.
  intros Hne [Hh1 Hc1 Hnd1] [Hh2 Hc2 Hnd2] Hdisj.
  assert (NoDup (xs ++ ys)) as Hnd by (apply NoDup_app; split_and!; [done|set_solver|done]).
  destruct ys as [|y ys].
  { exists st. rewrite app_nil_r. split_and!; [|by split|by split|apply frame_refl].
    by q_run. }
  destruct xs as [|l xs _] using rev_ind.
  - eexists. split.
    { q_run. reflexivity. }
    split_and!; [| |solve_frame]; (split; [cbn [heads]|done|try done]).
    + solve_head. apply last_loc_any.
    + solve_head.
  - rewrite last_loc_snoc in Hh1.
    assert (Hl : nexts st !! l = Some None) by (by apply chain_app in Hc1 as [_ [? _]]).
    eexists. split; [q_run; reflexivity|].
    split_and!; [| |solve_frame]; (split; [cbn [heads]| |try done]).
    + solve_head. unfold last_loc. rewrite !last_app, last_cons. by destruct (last ys).
    + cbn [nexts]. apply chain_app. split.
      * apply (chain_relink _ _ _ None); [|done].
        apply NoDup_app in Hnd1 as (_ & Hd & _). set_solver.
      * apply chain_insert; [set_solver|done].
    + solve_head.
    + done.
    + constructor.
Qed.

(** Concatenating a queue with itself loses its elements: the tail is linked to
    the head and the head is reset. *)
Lemma sq_concat_self_spec st h xs :
  sq_repr st h xs →
  ∃ st', sq_concat h h st = Done (tt, st') ∧ sq_repr st' h [] ∧ frame st st' [h] xs.
Proof.
  intros [Hh Hc Hnd]. destruct xs as [|l xs _] using rev_ind.
  { exists st. split_and!; [|by split|apply frame_refl].
    by q_run. }
  rewrite last_loc_snoc in Hh.
  assert (Hl : nexts st !! l = Some None) by (by apply chain_app in Hc as [_ [? _]]).
  assert (∃ x, hd_or None (xs ++ [l]) = Some x) as [x Hx] by (destruct xs; eauto).
  rewrite Hx in Hh. eexists. split.
  { q_run. reflexivity. }
  split; [|solve_frame]. split; [solve_head|done|constructor].
Qed.

Lemma sq_swap_spec st h1 h2 xs ys :
  sq_repr st h1 xs → sq_repr st h2 ys →
  ∃ st', sq_swap h1 h2 st = Done (tt, st') ∧
    sq_repr st' h1 ys ∧ sq_repr st' h2 xs ∧ frame st st' [h1; h2] [].
Proof.
  intros [Hh1 Hc1 Hnd1] [Hh2 Hc2 Hnd2]. destruct (decide (h1 = h2)) as [<-|Hne].
  - assert (hd_or None xs = hd_or None ys) as Hhd by congruence.
    destruct xs as [|x xs], ys as [|y ys]; try done;
      (eexists; split; [q_run; reflexivity|]); split_and!; try solve_frame;
      (split; [cbn [heads]|done|done]); rewrite ?insert_insert_eq, lookup_insert_eq; simpl in *; first [done|congruence].
  - destruct xs as [|x xs], ys as [|y ys];
      (eexists; split; [q_run; reflexivity|]); split_and!; try solve_frame;
      (split; [cbn [heads]; solve_head; apply last_loc_any|done|done]).
Qed.

(** Walking and inspecting a queue leave it unchanged. *)
Lemma sq_walk_spec st fuel xs t :
  chain (nexts st) xs t → t = None → (length xs <= fuel)%nat →
  sq_walk fuel (hd_or t xs) st = Done (xs, st).
Proof.
  revert fuel. induction xs as [|x xs IH]; intros fuel Hc -> Hf.
  { by destruct fuel. }
  destruct fuel as [|fuel]; simpl in Hf; [lia|]. destruct Hc as [Hx Hc]. cbn [sq_walk hd_or].
  unfold mbind, M_bind, rd_next. rewrite Hx, IH by (done || lia). done.
Qed.

Lemma sq_last_spec st h xs :
  sq_repr st h xs → sq_last h st = Done (last xs, st).
Proof.
  intros [Hh _ _]. unfold sq_last. destruct xs as [|x xs].
  { by q_run. }
  q_run. destruct (exists_last (l := x :: xs)) as (zs & z & ->); [done|].
  by rewrite last_loc_snoc, last_snoc.
Qed.

(** ** The refinement *)

(** A step that touches only the heads [hs] and elements of their queues, or
    elements of no queue, preserves the representation of all queues. *)
Lemma inv_update D st st' m m' hs es :
  sq_inv D st m → frame st st' hs es →
  (∀ h, h ∉ hs → m' !! h = m !! h) →
  (∀ h xs, h ∈ hs → m' !! h = Some xs → sq_repr st' h xs) →
  (∀ h1 h2 xs ys e, h1 ∈ hs → h2 ∈ hs → h1 ≠ h2 → m' !! h1 = Some xs →
     m' !! h2 = Some ys → e ∈ xs → e ∈ ys → False) →
  (∀ e h ys, e ∈ es ∨ (∃ h' xs, h' ∈ hs ∧ m' !! h' = Some xs ∧ e ∈ xs) →
     h ∉ hs → m !! h = Some ys → e ∉ ys) →
  sq_inv D st' m'.
Proof.
  intros [Hdom Hrepr Hdisj] [Fd Fh Fn] Hout Hin Hdin Hloc. split.
  - congruence.
  - intros h xs Hm. destruct (decide (h ∈ hs)) as [Hh|Hh]; [by apply Hin|].
    rewrite Hout in Hm by done. destruct (Hrepr h xs Hm) as [? ? ?]. split.
    + by rewrite Fh.
    + eapply chain_frame; [|done]. intros e He. apply Fn. intros Hes.
      by apply (Hloc e h xs); [left| | |].
    + done.
  - intros h1 h2 xs ys e H1 H2 Hne Hx Hy.
    destruct (decide (h1 ∈ hs)), (decide (h2 ∈ hs)).
    + by eapply (Hdin h1 h2).
    + rewrite Hout in H2 by done. apply (Hloc e h2 ys); [right; eauto|done..].
    + rewrite Hout in H1 by done. apply (Hloc e h1 xs); [right; eauto|done..].
    + rewrite Hout in H1, H2 by done. by eapply (Hdisj h1 h2).
Qed.

(** Instances of [inv_update] for steps on one queue and on two. *)
Section Updates.
Context (D : gset nat) (st st' : qheap) (m : queues).
Hypothesis Hinv : sq_inv D st m.

Lemma inv_update_one h xs xs' es :
  m !! h = Some xs → sq_repr st' h xs' → frame st st' [h] es →
  (∀ e, e ∈ es ∨ e ∈ xs' → e ∈ xs ∨ unqueued D m e) →
  sq_inv D st' (<[h := xs']> m).
Proof.
  intros Hm Hr Hf He. apply (inv_update D st st' m _ [h] es); [done|done| | | |].
  - intros h' Hh. rewrite lookup_insert_ne; set_solver.
  - intros h' ys ->%list_elem_of_singleton. rewrite lookup_insert_eq. congruence.
  - set_solver.
  - intros e h' ys Hes Hh Hys Hin.
    assert (e ∈ xs ∨ unqueued D m e) as [Hx|[_ Hu]].
    { apply He. destruct Hes as [?|(h'' & zs & ->%list_elem_of_singleton & Hz & ?)]; [by left|].
      rewrite lookup_insert_eq in Hz. right. congruence. }
    + eapply (inv_disj D st m Hinv h h'); eauto. set_solver.
    + by apply (Hu h' ys Hys).
Qed.

Lemma inv_update_two h1 h2 xs ys xs' ys' es :
  m !! h1 = Some xs → m !! h2 = Some ys → frame st st' [h1; h2] es →
  sq_repr st' h1 xs' → sq_repr st' h2 ys' → (h1 = h2 → xs' = ys') →
  (∀ e, e ∈ es ∨ e ∈ xs' ∨ e ∈ ys' → e ∈ xs ∨ e ∈ ys) →
  (∀ e, h1 ≠ h2 → e ∈ xs' → e ∈ ys' → False) →
  sq_inv D st' (<[h1 := xs']> (<[h2 := ys']> m)).
Proof.
  intros Hx Hy Hf Hr1 Hr2 Heq He Hd.
  assert (∀ h zs, h ∈ [h1; h2] → <[h1 := xs']> (<[h2 := ys']> m) !! h = Some zs →
    (h = h1 ∧ zs = xs') ∨ (h = h2 ∧ zs = ys')) as Hl.
  { intros h zs Hh. rewrite !lookup_insert. repeat case_decide; set_solver. }
  apply (inv_update D st st' m _ [h1; h2] es); [done|done| | | |].
  - intros h Hh. rewrite !lookup_insert_ne; set_solver.
  - intros h zs Hh [[-> ->]|[-> ->]]%Hl; done.
  - intros h h' zs zs' e Hh Hh' Hne [[-> ->]|[-> ->]]%Hl [[-> ->]|[-> ->]]%Hl; eauto.
  - intros e h zs Hes Hh Hz Hin.
    assert (e ∈ xs ∨ e ∈ ys) as [Hex|Hey].
    { apply He. destruct Hes as [?|(h' & us & Hh' & Hus & ?)]; [by left|].
      destruct (Hl h' us Hh' Hus) as [[-> ->]|[-> ->]]; auto. }
    + apply (inv_disj D st m Hinv h1 h xs zs e); [done|done|set_solver|done..].
    + apply (inv_disj D st m Hinv h2 h ys zs e); [done|done|set_solver|done..].
Qed.

Lemma unqueued_alloc e : unqueued D m e → is_Some (nexts st !! e).
Proof. intros [He _]. by rewrite <- elem_of_dom, (inv_dom D st m Hinv). Qed.
Lemma unqueued_not_in e h xs : unqueued D m e → m !! h = Some xs → e ∉ xs.
Proof. intros [_ Hu]. apply Hu. Qed.
End Updates.

(** The longest walk any [sq_remove] or loop on the queues [m] needs. *)
Definition fuel_ok (fuel : nat) (m : queues) : Prop :=
  map_Forall (λ _ xs, (length xs <= fuel)%nat) m.

Lemma sq_step_refines D st m o m' fuel :
  sq_inv D st m → spec_op D m o m' → fuel_ok fuel m →
  ∃ st', exec_op fuel o st = Done (tt, st') ∧ sq_inv D st' m'.
Proof.
  intros Hinv Hspec Hfuel. pose proof (inv_repr D st m Hinv) as Hr.
  destruct Hspec as [h xs Hm|h e xs Hm He|h e xs Hm He|h t e xs ys Hm He|h e xs Hm
    |h e xs ys Hm|h1 h2 xs ys Hne H1 H2|h xs Hm|h1 h2 xs ys H1 H2]; cbn [exec_op].
  - destruct (sq_init_spec st h xs) as (st' & ? & ? & ?); [by apply Hr|].
    exists st'. split; [done|]. eapply inv_update_one; eauto. set_solver.
  - destruct (sq_insert_head_spec st h e xs) as (st' & ? & ? & ?);
      [by apply Hr|by eapply unqueued_alloc|by eapply unqueued_not_in|].
    exists st'. split; [done|]. eapply inv_update_one; eauto. set_solver.
  - destruct (sq_insert_tail_spec st h e xs) as (st' & ? & ? & ?);
      [by apply Hr|by eapply unqueued_alloc|by eapply unqueued_not_in|].
    exists st'. split; [done|]. eapply inv_update_one; eauto. set_solver.
  - destruct (sq_insert_after_spec st h t e xs ys) as (st' & ? & ? & ?);
      [by apply Hr|by eapply unqueued_alloc|by eapply unqueued_not_in|].
    exists st'. split; [done|]. eapply inv_update_one; eauto. set_solver.
  - destruct (sq_remove_head_spec st h e xs) as (st' & ? & ? & ?); [by apply Hr|].
    exists st'. split; [done|]. eapply inv_update_one; eauto. set_solver.
  - destruct (sq_remove_spec st fuel h e xs ys) as (st' & ? & ? & ?); [by apply Hr| |].
    { specialize (Hfuel h _ Hm). simpl in Hfuel. rewrite length_app in Hfuel. lia. }
    exists st'. split; [done|]. eapply inv_update_one; eauto. set_solver.
  - assert (∀ e, e ∈ xs → e ∈ ys → False) as Hd by (intros; by eapply (inv_disj D st m Hinv h1 h2)).
    destruct (sq_concat_spec st h1 h2 xs ys) as (st' & ? & ? & ? & ?); [done|auto..|].
    exists st'. split; [done|]. eapply inv_update_two; eauto; set_solver.
  - destruct (sq_concat_self_spec st h xs) as (st' & ? & ? & ?); [by apply Hr|].
    exists st'. split; [done|]. eapply inv_update_one; eauto. set_solver.
  - destruct (sq_swap_spec st h1 h2 xs ys) as (st' & ? & ? & ? & ?); [by apply Hr..|].
    exists st'. split; [done|]. eapply inv_update_two; eauto; try set_solver.
    intros e Hne ??. by eapply (inv_disj D st m Hinv h1 h2).
Qed.

(** Sequences of operations. *)
Definition exec_ops (fuel : nat) : list sq_op → M qheap unit :=
  foldr (λ o k, exec_op fuel o ;; k) (mret tt).

Inductive spec_ops (D : gset nat) : queues → list sq_op → queues → Prop :=
| SpecNil m : spec_ops D m [] m
| SpecCons m o m' os m'' :
    spec_op D m o m' → spec_ops D m' os m'' → spec_ops D m (o :: os) m''.

Lemma chain_alloc nx xs t e : chain nx xs t → e ∈ xs → is_Some (nx !! e).
Proof.
  induction xs as [|x xs IH]; simpl; [set_solver|].
  intros [Hx Hc] [->|He]%elem_of_cons; eauto.
Qed.

(** A queue is no longer than the number of allocated elements, so that is
    enough fuel for every walk. *)
Lemma inv_fuel_ok D st m : sq_inv D st m → fuel_ok (size D) m.
Proof.
  intros Hinv h xs Hm. destruct (inv_repr D st m Hinv h xs Hm) as [_ Hc Hnd].
  rewrite <- (size_list_to_set (C := gset nat) xs) by done.
  apply subseteq_size. intros e He%elem_of_list_to_set.
  rewrite <- (inv_dom D st m Hinv), elem_of_dom. by eapply chain_alloc.
Qed.

(** C9: Any sequence of queue operations on the pointer representation finishes without
    following a bad pointer, with at most as many walk steps as there are elements, and leaves
    queues that represent exactly the lists the abstract operations give; the walk, length,
    emptiness, first and last element then are those of the list. *)
Theorem sq_simulation D st m os m' :
  sq_inv D st m → spec_ops D m os m' → Z.of_nat (size D) < 2 ^ 64 →
  ∃ st', exec_ops (size D) os st = Done (tt, st') ∧ sq_inv D st' m' ∧
    ∀ h xs, m' !! h = Some xs →
      sq_foreach (size D) h st' = Done (xs, st') ∧
      sq_len h st' = Done (Z.of_nat (length xs), st') ∧
      sq_empty h st' = Done (bool_decide (xs = []), st') ∧
      sq_first h st' = Done (head xs, st') ∧ sq_last h st' = Done (last xs, st').
Proof.
  intros Hinv Hspec Hsz. revert st Hinv.
  induction Hspec as [m|m o m1 os m2 Ho _ IH]; intros st Hinv.
  - exists st. split_and!; [done|done|]. intros h xs Hm.
    pose proof (inv_fuel_ok D st m Hinv h xs Hm) as Hf; cbv beta in Hf.
    pose proof (inv_repr D st m Hinv h xs Hm) as Hr. pose proof (sq_last_spec st h xs Hr) as Hlast.
    destruct Hr as [Hh Hc _]. unfold sq_foreach. q_run.
    rewrite (sq_walk_spec st _ xs None) by done.
    rewrite u64_id by (unfold_u; lia).
    split_and!; try done; destruct xs; try done; by repeat case_bool_decide.
  - destruct (sq_step_refines D st m o m1 (size D) Hinv Ho) as (st1 & E & Hinv1);
      [by eapply inv_fuel_ok|].
    destruct (IH st1 Hinv1) as (st2 & E2 & ?). exists st2. split; [|done].
    change (exec_ops (size D) (o :: os)) with (exec_op (size D) o ;; exec_ops (size D) os).
    unfold mbind, M_bind. by rewrite E.
Qed.

(** Initialised heads and allocated elements represent empty queues. *)
Definition q_initial (hs es : list nat) : qheap :=
  QHeap (list_to_map ((λ h, (h, SqHead None (LHead h) 0)) <$> hs))
        (list_to_map ((λ e, (e, None)) <$> es)).

(** Removing an element that is not in the queue follows a null pointer. *)
Lemma sq_find_prev_absent st fuel xs cur e :
  chain (nexts st) xs None → hd_or None xs = Some cur → e ∉ xs →
  (length xs <= fuel)%nat → sq_find_prev fuel cur e st = Fault.
Proof.
  revert cur fuel. induction xs as [|x xs IH]; intros cur fuel Hc Hcur He Hf; [done|].
  injection Hcur as <-. destruct fuel as [|fuel]; simpl in Hf; [lia|].
  destruct Hc as [Hx Hc]. cbn [sq_find_prev]. q_run.
  destruct xs as [|y xs]; [done|]. cbn [hd_or].
  rewrite bool_decide_false by (intros [= ->]; set_solver).
  apply IH; [done|done|set_solver|lia].
Qed.

(** Removing an element that is not in the queue follows a null pointer after the last
    element. *)
Theorem sq_remove_absent_faults D st m h e xs :
  sq_inv D st m → m !! h = Some xs → e ∉ xs → sq_remove (size D) h e st = Fault.
Proof.
  intros Hinv Hm He. pose proof (inv_fuel_ok D st m Hinv h xs Hm) as Hf; cbv beta in Hf.
  destruct (inv_repr D st m Hinv h xs Hm) as [Hh Hc _].
  unfold sq_remove, sq_first, rd_head, mbind, M_bind. rewrite Hh. cbn [stqh_first mret M_ret].
  destruct xs as [|x xs]; [done|]. cbn [hd_or].
  rewrite bool_decide_false by (intros [= ->]; set_solver).
  unfold deref, mret, M_ret. by rewrite (sq_find_prev_absent st _ (x :: xs)).
Qed.

(** ** Witnesses *)

Definition q_ex_D : gset nat := {[1; 2; 3]}%nat.
Definition q_ex_m : queues := {[10 := []; 11 := []]}%nat.
Definition q_ex_st : qheap := q_initial [10; 11]%nat [1; 2; 3]%nat.

Lemma q_ex_inv : sq_inv q_ex_D q_ex_st q_ex_m.
Proof.
  split.
  - by vm_compute.
  - intros h xs. unfold q_ex_m. rewrite lookup_insert_Some, lookup_singleton_Some.
    intros [[<- <-]|[_ [<- <-]]]; (split; [reflexivity|done|constructor]).
  - intros h1 h2 xs ys e. unfold q_ex_m. rewrite lookup_insert_Some, lookup_singleton_Some.
    intros [[<- <-]|[_ [<- <-]]]; set_solver.
Qed.

Definition q_ex_ops : list sq_op :=
  [OInsertTail 10 1; OInsertTail 10 2; OInsertTail 10 3; ORemove 10 2; OSwap 10 11]%nat.

Lemma q_ex_spec : spec_ops q_ex_D q_ex_m q_ex_ops {[10 := []; 11 := [1; 3]]}%nat.
Proof.
  assert (∀ m e, bool_decide (e ∈ q_ex_D) && bool_decide (map_Forall (λ _ xs, e ∉ xs) m) = true →
    unqueued q_ex_D m e) as Hu.
  { intros m e [??]%andb_true_iff. split; by eapply bool_decide_unpack, Is_true_eq_left. }
  eapply SpecCons; [apply (SInsertTail _ _ 10 1 [])%nat; [reflexivity|apply Hu; reflexivity]|].
  eapply SpecCons; [apply (SInsertTail _ _ 10 2 [1])%nat; [reflexivity|apply Hu; reflexivity]|].
  eapply SpecCons; [apply (SInsertTail _ _ 10 3 [1; 2])%nat; [reflexivity|apply Hu; reflexivity]|].
  eapply SpecCons; [apply (SRemove _ _ 10 2 [1] [3])%nat; reflexivity|].
  eapply SpecCons; [apply (SSwap _ _ 10 11 [1; 3] [])%nat; reflexivity|].
  match goal with |- spec_ops _ ?m _ ?m' => replace m' with m by (by vm_compute) end.
  constructor.
Qed.

Lemma sq_simulation_witness :
  ∃ st', exec_ops 3 q_ex_ops q_ex_st = Done (tt, st') ∧
    sq_foreach 3 11 st' = Done ([1; 3], st')%nat ∧ sq_len 11 st' = Done (2, st').
Proof.
  destruct (sq_simulation q_ex_D q_ex_st q_ex_m q_ex_ops _ q_ex_inv q_ex_spec)
    as (st' & E & _ & H); [by vm_compute|].
  exists st'. destruct (H 11 [1; 3] eq_refl)%nat as (? & ? & _). by split_and!.
Defined.

Lemma sq_remove_absent_faults_witness : sq_remove 3 10 1 q_ex_st = Fault.
Proof. apply (sq_remove_absent_faults q_ex_D _ q_ex_m 10 1%nat [] q_ex_inv eq_refl). set_solver. Defined.
