(* ===== verification/SList.v ===== *)
(** Intrusive singly-linked lists (lib/include/warpcore/queue.h): the [sl_*] macros,
    with which the library keeps its engines and returns readable sockets, on a heap
    of heads and [next] fields, and their refinement to lists. *)

From S2P Require Import Prelude Queue.

(** ** The heap *)

Record slheap := SlHeap {
  slh_first : gmap nat (option nat);
  sle_next : gmap nat (option nat)
}.

Definition sl_first (h : nat) : M slheap (option nat) := λ st,
  match slh_first st !! h with Some f => Done (f, st) | None => Fault end.
Definition set_sl_first (h : nat) (f : option nat) : M slheap unit := λ st,
  match slh_first st !! h with
  | Some _ => Done (tt, SlHeap (<[h := f]> (slh_first st)) (sle_next st))
  | None => Fault
  end.
Definition sl_next (e : nat) : M slheap (option nat) := λ st,
  match sle_next st !! e with Some n => Done (n, st) | None => Fault end.
Definition set_sl_next (e : nat) (n : option nat) : M slheap unit := λ st,
  match sle_next st !! e with
  | Some _ => Done (tt, SlHeap (slh_first st) (<[e := n]> (sle_next st)))
  | None => Fault
  end.
(** Following a null pointer is a [Fault]. *)
Definition sl_deref (p : option nat) : M slheap nat :=
  match p with Some e => mret e | None => fault end.

(** ** The macros *)

Definition sl_init (h : nat) : M slheap unit := set_sl_first h None.
Definition sl_empty (h : nat) : M slheap bool := f ← sl_first h; mret (bool_decide (f = None)).

Definition sl_insert_head (h e : nat) : M slheap unit :=
  f ← sl_first h; set_sl_next e f ;; set_sl_first h (Some e).
Definition sl_insert_after (t e : nat) : M slheap unit :=
  n ← sl_next t; set_sl_next e n ;; set_sl_next t (Some e).

Definition sl_remove_head (h : nat) : M slheap unit :=
  f ← sl_first h; e ← sl_deref f; n ← sl_next e; set_sl_first h n.
Definition sl_remove_after (e : nat) : M slheap unit :=
  n ← sl_next e; x ← sl_deref n; nn ← sl_next x; set_sl_next e nn.

(** The walk of [sl_remove] to the element before [e]. *)
Fixpoint sl_find_prev (fuel : nat) (cur e : nat) : M slheap nat :=
  match fuel with
  | O => no_fuel
  | S fuel =>
      n ← sl_next cur;
      if bool_decide (n = Some e) then mret cur
      else c ← sl_deref n; sl_find_prev fuel c e
  end.
Definition sl_remove (fuel : nat) (h e : nat) : M slheap unit :=
  f ← sl_first h;
  if bool_decide (f = Some e) then sl_remove_head h
  else c ← sl_deref f; p ← sl_find_prev fuel c e; sl_remove_after p.

(** The walk of [sl_concat] to the last element. *)
Fixpoint sl_find_last (fuel : nat) (cur : nat) : M slheap nat :=
  match fuel with
  | O => no_fuel
  | S fuel =>
      n ← sl_next cur;
      match n with None => mret cur | Some c => sl_find_last fuel c end
  end.
Definition sl_concat (fuel : nat) (h1 h2 : nat) : M slheap unit :=
  f1 ← sl_first h1; f2 ← sl_first h2;
  match f1 with
  | None => set_sl_first h1 f2 ;; when (bool_decide (f2 ≠ None)) (sl_init h2)
  | Some c =>
      if bool_decide (f2 = None) then mret tt
      else l ← sl_find_last fuel c; set_sl_next l f2 ;; sl_init h2
  end.

Definition sl_swap (h1 h2 : nat) : M slheap unit :=
  f1 ← sl_first h1; f2 ← sl_first h2; set_sl_first h1 f2 ;; set_sl_first h2 f1.

(** [sl_foreach]: the elements in the order the loop visits them. *)
Fixpoint sl_walk (fuel : nat) (cur : option nat) : M slheap (list nat) :=
  match cur with
  | None => mret []
  | Some e =>
      match fuel with
      | O => no_fuel
      | S fuel => n ← sl_next e; l ← sl_walk fuel n; mret (e :: l)
      end
  end.
Definition sl_foreach (fuel h : nat) : M slheap (list nat) := f ← sl_first h; sl_walk fuel f.

(** ** The abstract lists *)

Inductive sl_op :=
| SlInit (h : nat)
| SlInsertHead (h e : nat)
| SlInsertAfter (h t e : nat)
| SlRemoveHead (h : nat)
| SlRemove (h e : nat)
| SlConcat (h1 h2 : nat)
| SlSwap (h1 h2 : nat).

Definition exec_sl (fuel : nat) (o : sl_op) : M slheap unit :=
  match o with
  | SlInit h => sl_init h
  | SlInsertHead h e => sl_insert_head h e
  | SlInsertAfter _ t e => sl_insert_after t e
  | SlRemoveHead h => sl_remove_head h
  | SlRemove h e => sl_remove fuel h e
  | SlConcat h1 h2 => sl_concat fuel h1 h2
  | SlSwap h1 h2 => sl_swap h1 h2
  end.

(** What each macro means on lists, with the precondition it relies on. *)
Inductive spec_sl (D : gset nat) (m : queues) : sl_op → queues → Prop :=
| SpInit h xs : m !! h = Some xs → spec_sl D m (SlInit h) (<[h := []]> m)
| SpInsertHead h e xs :
    m !! h = Some xs → unqueued D m e → spec_sl D m (SlInsertHead h e) (<[h := e :: xs]> m)
| SpInsertAfter h t e xs ys :
    m !! h = Some (xs ++ t :: ys) → unqueued D m e →
    spec_sl D m (SlInsertAfter h t e) (<[h := xs ++ t :: e :: ys]> m)
| SpRemoveHead h e xs :
    m !! h = Some (e :: xs) → spec_sl D m (SlRemoveHead h) (<[h := xs]> m)
| SpRemove h e xs ys :
    m !! h = Some (xs ++ e :: ys) → spec_sl D m (SlRemove h e) (<[h := xs ++ ys]> m)
| SpConcat h1 h2 xs ys :
    h1 ≠ h2 → m !! h1 = Some xs → m !! h2 = Some ys →
    spec_sl D m (SlConcat h1 h2) (<[h1 := xs ++ ys]> (<[h2 := []]> m))
| SpSwap h1 h2 xs ys :
    h1 ≠ h2 → m !! h1 = Some xs → m !! h2 = Some ys →
    spec_sl D m (SlSwap h1 h2) (<[h1 := ys]> (<[h2 := xs]> m)).

(** * Theorems *)

(** ** Erasure

    The lists are the tail queues without the tail pointer and the length: an
    operation of a list simulates that of a queue. *)

(** The list heap [st] is the queue heap [q] with the other fields erased. *)
Record erases (st : slheap) (q : qheap) : Prop := {
  er_next : sle_next st = nexts q;
  er_first : ∀ h hd, heads q !! h = Some hd → slh_first st !! h = Some (stqh_first hd)
}.

Definition sim {A} (m : M qheap A) (m' : M slheap A) : Prop := ∀ q q' st a,
  m q = Done (a, q') → erases st q → ∃ st', m' st = Done (a, st') ∧ erases st' q'.

(** A step of the queue that the list does not have. *)
Definition hidden {A} (m : M qheap A) : Prop := ∀ q q' st a,
  m q = Done (a, q') → erases st q → erases st q'.

Lemma sim_ret {A} (a : A) : sim (mret a) (mret a).
Proof. intros q q' st b [= <- <-] He. by exists st. Qed.
Lemma sim_fault {A} m' : sim (A := A) fault m'.
Proof. done. Qed.
Lemma sim_no_fuel {A} m' : sim (A := A) no_fuel m'.
Proof. done. Qed.
Lemma sim_bind {A B} (m : M qheap A) m' (k : A → M qheap B) k' :
  sim m m' → (∀ a, sim (k a) (k' a)) → sim (m ≫= k) (m' ≫= k').
Proof.
  intros Hm Hk q q' st b. unfold mbind, M_bind. destruct (m q) as [[a q1]| | |] eqn:E; try done.
  intros Ek He. destruct (Hm q q1 st a E He) as (st1 & -> & He1). by apply (Hk a q1).
Qed.
Lemma sim_hidden {A B} (m : M qheap A) (k : A → M qheap B) k' :
  hidden m → (∀ a, sim (k a) k') → sim (m ≫= k) k'.
Proof.
  intros Hm Hk q q' st b. unfold mbind, M_bind. destruct (m q) as [[a q1]| | |] eqn:E; try done.
  intros Ek He. apply (Hk a q1); [done|]. by apply (Hm q q1 st a).
Qed.
(** A hidden step at the end. *)
Lemma sim_end (m : M qheap unit) (n : M qheap unit) n' : hidden n → sim m n' → sim (m ;; n) n'.
Proof.
  intros Hn Hm q q' st []. unfold mbind, M_bind. destruct (m q) as [[[] q1]| | |] eqn:E; try done.
  intros En He. destruct (Hm q q1 st tt E He) as (st1 & -> & He1). exists st1. split; [done|]. by apply (Hn q1 q' st1 tt).
Qed.
Lemma hidden_when b m : hidden m → hidden (when b m).
Proof. intros Hm. destruct b; [done|]. by intros q q' st a [= <- <-]. Qed.

Lemma sim_first h : sim (sq_first h) (sl_first h).
Proof.
  intros q q' st a. unfold sq_first, rd_head, sl_first, mbind, M_bind, mret, M_ret.
  destruct (heads q !! h) as [hd|] eqn:E; [|done]. intros [= <- <-] He.
  rewrite (er_first _ _ He h hd E). by exists st.
Qed.
Lemma sim_next e : sim (rd_next e) (sl_next e).
Proof.
  intros q q' st a. unfold rd_next, sl_next. destruct (nexts q !! e) eqn:E; [|done].
  intros [= <- <-] He. rewrite (er_next _ _ He), E. by exists st.
Qed.
Lemma sim_set_next e n : sim (wr_next e n) (set_sl_next e n).
Proof.
  intros q q' st a. unfold wr_next, set_sl_next. destruct (nexts q !! e) eqn:E; [|done].
  intros [= <- <-] [He1 He2]. rewrite He1, E. eexists. split; [done|]. by split.
Qed.
Lemma sim_set_first h f : sim (set_first h f) (set_sl_first h f).
Proof.
  intros q q' st []. unfold set_first, wr_loc, rd_head, wr_head, set_sl_first, mbind, M_bind.
  destruct (heads q !! h) as [hd|] eqn:E; [|done]. cbn. rewrite E. intros [= <-] [He1 He2].
  rewrite (He2 h hd E). eexists. split; [done|]. split; cbn; [done|].
  intros h' hd'. rewrite !lookup_insert. case_decide; [|apply He2]. by intros [= <-].
Qed.
(** Writes of the fields a list does not have. *)
Lemma hidden_wr h (g : sq_head → sq_head) :
  (∀ hd, stqh_first (g hd) = stqh_first hd) → hidden (hd ← rd_head h; wr_head h (g hd)).
Proof.
  intros Hg q q' st []. unfold rd_head, wr_head, mbind, M_bind.
  destruct (heads q !! h) as [hd|] eqn:E; [|done]. cbn. rewrite E. intros [= <-] [He1 He2]. split; cbn; [done|].
  intros h' hd'. rewrite lookup_insert. case_decide as Hh; [|apply He2]. intros [= <-]. subst. by rewrite Hg, (He2 h' hd).
Qed.
Lemma hidden_bind {A B} (m : M qheap A) (k : A → M qheap B) :
  hidden m → (∀ a, hidden (k a)) → hidden (m ≫= k).
Proof.
  intros Hm Hk q q' st b. unfold mbind, M_bind. destruct (m q) as [[a q1]| | |] eqn:E; try done.
  intros Ek He. apply (Hk a q1 q' st b Ek). by apply (Hm q q1 st a).
Qed.
Lemma hidden_last h l : hidden (set_last h l).
Proof. by apply (hidden_wr h (λ hd, SqHead (stqh_first hd) l (stqh_len hd))). Qed.
Lemma hidden_len h d : hidden (add_len h d).
Proof. by apply (hidden_wr h (λ hd, SqHead (stqh_first hd) (stqh_last hd) (u64 (stqh_len hd + d)))). Qed.
Lemma hidden_rd h : hidden (rd_head h).
Proof. intros q q' st a. unfold rd_head. by destruct (heads q !! h); intros [= <- <-]. Qed.
Lemma sim_deref p : sim (deref p) (sl_deref p).
Proof. destruct p; [apply sim_ret|apply sim_fault]. Qed.

Create HintDb sl.
#[export] Hint Resolve sim_ret sim_fault sim_no_fuel sim_bind sim_first sim_next sim_set_next sim_set_first
  sim_deref hidden_when hidden_bind hidden_last hidden_len hidden_rd : sl.
Ltac er_step := first
  [ solve [auto with sl]
  | apply sim_hidden; [solve [auto with sl]|intros ?]
  | apply sim_bind; [solve [auto with sl]|intros ?]
  | case_bool_decide
  | apply sim_end; [solve [auto with sl]|] ].

(** ** The operations *)

Lemma sim_init h : sim (sq_init h) (sl_init h).
Proof.
  unfold sq_init, sl_init. apply sim_end; [|auto with sl].
  apply hidden_bind; [auto with sl|intros _].
  by apply (hidden_wr h (λ hd, SqHead (stqh_first hd) (stqh_last hd) 0)).
Qed.
#[export] Hint Resolve sim_init : sl.

Lemma sim_insert_head h e : sim (sq_insert_head h e) (sl_insert_head h e).
Proof. unfold sq_insert_head, sl_insert_head. repeat er_step. Qed.
Lemma sim_insert_after h t e : sim (sq_insert_after h t e) (sl_insert_after t e).
Proof. unfold sq_insert_after, sl_insert_after. repeat er_step. Qed.
Lemma sim_remove_head h : sim (sq_remove_head h) (sl_remove_head h).
Proof. unfold sq_remove_head, sl_remove_head. repeat er_step. Qed.
Lemma sim_remove_after h e : sim (sq_remove_after h e) (sl_remove_after e).
Proof. unfold sq_remove_after, sl_remove_after. repeat er_step. Qed.
#[export] Hint Resolve sim_remove_head sim_remove_after : sl.
Lemma sim_find_prev fuel cur e : sim (sq_find_prev fuel cur e) (sl_find_prev fuel cur e).
Proof.
  revert cur. induction fuel as [|fuel IH]; intros cur; cbn [sq_find_prev sl_find_prev]; [auto with sl|].
  repeat er_step.
Qed.
#[export] Hint Resolve sim_find_prev : sl.
Lemma sim_remove fuel h e : sim (sq_remove fuel h e) (sl_remove fuel h e).
Proof. unfold sq_remove, sl_remove. repeat er_step. Qed.
Lemma sim_walk fuel cur : sim (sq_walk fuel cur) (sl_walk fuel cur).
Proof.
  revert cur. induction fuel as [|fuel IH]; intros [e|]; cbn [sq_walk sl_walk]; try (auto with sl).

Qed.
#[export] Hint Resolve sim_walk : sl.
Lemma sim_foreach fuel h : sim (sq_foreach fuel h) (sl_foreach fuel h).
Proof. unfold sq_foreach, sl_foreach. repeat er_step. Qed.

(** [sl_concat] walks to the element [stqh_last] points at. *)
Lemma sl_find_last_run st xs l fuel cur :
  chain (sle_next st) (xs ++ [l]) None → hd_or None (xs ++ [l]) = Some cur → (length xs < fuel)%nat →
  sl_find_last fuel cur st = Done (l, st).
Proof.
  revert fuel cur. induction xs as [|x xs IH]; intros [|fuel] cur Hc Hcur Hf; cbn in Hf; try lia;
    injection Hcur as <-; destruct Hc as [Hx Hc]; cbn [sl_find_last]; unfold mbind, M_bind, sl_next; rewrite Hx.
  - done.
  - destruct (hd_or None (xs ++ [l])) as [c|] eqn:Ec; [|by destruct xs]. apply IH; [done|done|lia].
Qed.

(** Swapping reads and writes whole heads. *)
Lemma sim_rd_head {A} h (k : sq_head → M qheap A) k' :
  (∀ hd, sim (k hd) (k' (stqh_first hd))) → sim (rd_head h ≫= k) (sl_first h ≫= k').
Proof.
  intros Hk q q' st a. unfold rd_head, sl_first, mbind, M_bind.
  destruct (heads q !! h) as [hd|] eqn:E; [|done]. intros Ek He.
  rewrite (er_first _ _ He h hd E). by apply (Hk hd q).
Qed.
Lemma sim_wr_head h hd : sim (wr_head h hd) (set_sl_first h (stqh_first hd)).
Proof.
  intros q q' st []. unfold wr_head, set_sl_first. destruct (heads q !! h) as [hd0|] eqn:E; [|done].
  intros [= <-] [He1 He2]. rewrite (He2 h hd0 E). eexists. split; [done|]. split; cbn; [done|].
  intros h' hd'. rewrite !lookup_insert. case_decide; [|apply He2]. by intros [= <-].
Qed.
Lemma hidden_empty h : hidden (sq_empty h).
Proof.
  unfold sq_empty, sq_first. apply hidden_bind; [apply hidden_bind; [auto with sl|]|];
    by intros ? q q' st b [= <- <-].
Qed.
#[export] Hint Resolve sim_wr_head hidden_empty : sl.
Lemma sim_swap h1 h2 : sim (sq_swap h1 h2) (sl_swap h1 h2).
Proof.
  unfold sq_swap, sl_swap. apply sim_rd_head. intros hd1. apply sim_rd_head. intros hd2.
  apply sim_bind; [auto with sl|intros _]. apply sim_end; auto with sl.
Qed.

(** What [sq_concat] does when the second queue is not empty. *)
Definition concat_tail (l : loc) (f : option nat) (h1 h2 : nat) : M qheap unit :=
  wr_loc l f ;;
  hd2 ← rd_head h2; set_last h1 (stqh_last hd2) ;;
  l2 ← sq_len h2; add_len h1 l2 ;;
  sq_init h2.

Lemma sq_concat_run h1 h2 xs ys q :
  sq_repr q h1 xs → sq_repr q h2 ys →
  sq_concat h1 h2 q =
    if bool_decide (ys = []) then Done (tt, q) else concat_tail (last_loc h1 xs) (hd_or None ys) h1 h2 q.
Proof.
  intros [H1 _ _] [H2 _ _].
  assert (E1 : rd_head h1 q = Done (_, q)) by (unfold rd_head; by rewrite H1).
  assert (E2 : rd_head h2 q = Done (_, q)) by (unfold rd_head; by rewrite H2).
  assert (F2 : sq_first h2 q = Done (hd_or None ys, q)) by (unfold sq_first; by mstep E2).
  assert (B2 : sq_empty h2 q = Done (bool_decide (hd_or None ys = None), q)) by (unfold sq_empty; by mstep F2).
  unfold sq_concat, concat_tail. mstep B2. destruct ys as [|y ys]; [done|]. cbn [hd_or].
  rewrite !bool_decide_false by done. mstep E1. by mstep F2.
Qed.

Lemma sim_concat_tail l f h1 h2 m' :
  sim (wr_loc l f) m' → sim (concat_tail l f h1 h2) (m' ;; sl_init h2).
Proof.
  intros Hm. unfold concat_tail. apply sim_bind; [done|intros _].
  assert (hidden (sq_len h2)) as Hlen.
  { unfold sq_len. apply hidden_bind; [auto with sl|]. by intros hd q q' st b [= <- <-]. }
  do 4 (apply sim_hidden; [auto with sl|intros ?]). auto with sl.
Qed.

Lemma sl_concat_run fuel h1 h2 xs ys q q' st :
  h1 ≠ h2 → sq_repr q h1 xs → sq_repr q h2 ys → (length xs <= fuel)%nat →
  sq_concat h1 h2 q = Done (tt, q') → erases st q →
  ∃ st', sl_concat fuel h1 h2 st = Done (tt, st') ∧ erases st' q'.
Proof.
  intros Hne R1 R2 Hf. rewrite (sq_concat_run h1 h2 xs ys q R1 R2). intros Eq He.
  pose proof (er_first _ _ He h1 _ (repr_head _ _ _ R1)) as F1. cbn [stqh_first] in F1.
  pose proof (er_first _ _ He h2 _ (repr_head _ _ _ R2)) as F2. cbn [stqh_first] in F2.
  assert (E1 : sl_first h1 st = Done (hd_or None xs, st)) by (unfold sl_first; by rewrite F1).
  assert (E2 : sl_first h2 st = Done (hd_or None ys, st)) by (unfold sl_first; by rewrite F2).
  unfold sl_concat. mstep E1. mstep E2.
  destruct ys as [|y ys]; cbn [hd_or] in *.
  - rewrite bool_decide_true in Eq by done. injection Eq as <-.
    destruct xs as [|x xs]; cbn [hd_or]; [|by exists st].
    rewrite bool_decide_false by naive_solver. cbn [when].
    assert (Ew : set_sl_first h1 None st = Done (tt, SlHeap (<[h1 := None]> (slh_first st)) (sle_next st)))
      by (unfold set_sl_first; by rewrite F1).
    eexists. split; [by mstep Ew|]. destruct He as [E3 E4]. split; [done|]. intros h hd Hh. cbn [slh_first].
    rewrite insert_id by done. by apply E4.
  - rewrite bool_decide_false in Eq by done.
    destruct xs as [|l xs _] using rev_ind.
    + cbn [hd_or]. rewrite bool_decide_true by done. cbn [when].
      exact (sim_concat_tail (LHead h1) (Some y) h1 h2 _ (sim_set_first h1 (Some y)) q q' st tt Eq He).
    + rewrite last_loc_snoc in Eq. rewrite length_app in Hf. cbn in Hf.
      destruct (hd_or None (xs ++ [l])) as [c|] eqn:Ec; [|by destruct xs]. rewrite bool_decide_false by done.
      erewrite bind_run; [|eapply sl_find_last_run; [|exact Ec|lia]];
        [|rewrite (er_next _ _ He); apply (repr_chain _ _ _ R1)]. cbv beta.
      exact (sim_concat_tail (LNext l) (Some y) h1 h2 _ (sim_set_next l (Some y)) q q' st tt Eq He).
Qed.

(** ** The refinement *)

(** The lists [m] on the heap [st]. *)
Definition sl_inv (D : gset nat) (st : slheap) (m : queues) : Prop := ∃ q, sq_inv D q m ∧ erases st q.

(** The walks need no more steps than there are elements. *)
Lemma sl_step_refines D st m o m' :
  sl_inv D st m → spec_sl D m o m' →
  ∃ st', exec_sl (size D) o st = Done (tt, st') ∧ sl_inv D st' m'.
Proof.
  intros (q & Hq & He) Hspec.
  assert (Hstep : ∀ o' n, spec_op D m o' m' → (∀ q', exec_op (size D) o' q = Done (tt, q') →
    ∃ st', n st = Done (tt, st') ∧ erases st' q') → ∃ st', n st = Done (tt, st') ∧ sl_inv D st' m').
  { intros o' n Ho Hn. destruct (sq_step_refines D q m o' m' (size D) Hq Ho) as (q' & E & Hq');
      [by eapply inv_fuel_ok|].
    destruct (Hn q' E) as (st' & En & He'). exists st'. split; [done|]. by exists q'. }
  destruct Hspec as [h xs Hm|h e xs Hm Hu|h t e xs ys Hm Hu|h e xs Hm|h e xs ys Hm|h1 h2 xs ys Hne H1 H2
    |h1 h2 xs ys Hne H1 H2].
  - apply (Hstep (OInit h)); [by econstructor|]. intros q' E. by apply (sim_init h q q').
  - apply (Hstep (OInsertHead h e)); [by econstructor|]. intros q' E. by apply (sim_insert_head h e q q').
  - apply (Hstep (OInsertAfter h t e)); [by econstructor|]. intros q' E. by apply (sim_insert_after h t e q q').
  - apply (Hstep (ORemoveHead h)); [by econstructor|]. intros q' E. by apply (sim_remove_head h q q').
  - apply (Hstep (ORemove h e)); [by econstructor|]. intros q' E. by apply (sim_remove (size D) h e q q').
  - apply (Hstep (OConcat h1 h2)); [by econstructor|]. intros q' E.
    apply (sl_concat_run (size D) h1 h2 xs ys q); [done|by apply Hq|by apply Hq| |done|done].
    apply (inv_fuel_ok D q m Hq h1 xs H1).
  - apply (Hstep (OSwap h1 h2)); [by econstructor|]. intros q' E. by apply (sim_swap h1 h2 q q').
Qed.

Lemma sl_walk_same fuel cur st l st' : sl_walk fuel cur st = Done (l, st') → st' = st.
Proof.
  revert cur l. induction fuel as [|fuel IH]; intros [e|] l; cbn [sl_walk]; try (by intros [= <- <-]); try done.
  unfold mbind, M_bind, sl_next. destruct (sle_next st !! e) as [n|]; [|done].
  destruct (sl_walk fuel n st) as [[l' st1]| | |] eqn:E; [|done..]. intros [= <- <-]. by apply (IH n l').
Qed.

Lemma sl_first_run D st m h xs : sl_inv D st m → m !! h = Some xs → sl_first h st = Done (head xs, st).
Proof.
  intros (q & Hq & He) Hm. destruct (inv_repr D q m Hq h xs Hm) as [Hh _ _].
  pose proof (er_first _ _ He h _ Hh) as F. cbn [stqh_first] in F. unfold sl_first. rewrite F. by destruct xs.
Qed.

Lemma sl_foreach_run D st m h xs :
  sl_inv D st m → m !! h = Some xs → sl_foreach (size D) h st = Done (xs, st).
Proof.
  intros Hi Hm. pose proof (sl_first_run D st m h xs Hi Hm) as F1. destruct Hi as (q & Hq & He).
  destruct (inv_repr D q m Hq h xs Hm) as [Hh Hc _].
  assert (E : sq_foreach (size D) h q = Done (xs, q)).
  { unfold sq_foreach. q_run. apply sq_walk_spec; [done|done|]. apply (inv_fuel_ok D q m Hq h xs Hm). }
  destruct (sim_foreach (size D) h q q st xs E He) as (st'' & E' & _).
  rewrite E'. unfold sl_foreach, mbind, M_bind in E'. rewrite F1 in E'. by rewrite (sl_walk_same _ _ _ _ _ E').
Qed.

(** Elements that are allocated and freed. *)
Lemma sl_inv_add D st m e :
  sl_inv D st m → e ∉ D →
  let st' := SlHeap (slh_first st) (<[e := None]> (sle_next st)) in
  sl_inv ({[e]} ∪ D) st' m ∧ unqueued ({[e]} ∪ D) m e.
Proof.
  intros (q & [Q1 Q2 Q3] & [E1 E2]) He st'.
  assert (Hne : ∀ i, is_Some (nexts q !! i) → i ≠ e) by (by intros i Hi%elem_of_dom ->; rewrite Q1 in Hi).
  split.
  - exists (QHeap (heads q) (<[e := None]> (nexts q))). split; [|split; [cbn; by rewrite E1|exact E2]].
    split; [cbn; by rewrite dom_insert_L, Q1| |done].
    intros h xs Hm. destruct (Q2 h xs Hm) as [R1 R2 R3]. split; [done| |done].
    eapply chain_frame; [|exact R2]. intros i Hi. cbn. rewrite lookup_insert_ne; [done|]. apply not_eq_sym, Hne.
    by eapply chain_alloc.
  - split; [set_solver|]. intros h xs Hm Hi. destruct (Q2 h xs Hm) as [_ R2 _].
    by apply (Hne e); [eapply chain_alloc|].
Qed.

Lemma sl_inv_del D st m e :
  sl_inv D st m → unqueued D m e → sl_inv (D ∖ {[e]}) (SlHeap (slh_first st) (delete e (sle_next st))) m.
Proof.
  intros (q & [Q1 Q2 Q3] & [E1 E2]) [_ He].
  exists (QHeap (heads q) (delete e (nexts q))). split; [|split; [cbn; by rewrite E1|exact E2]].
  split; [cbn; by rewrite dom_delete_L, Q1| |done].
  intros h xs Hm. destruct (Q2 h xs Hm) as [R1 R2 R3]. split; [done| |done].
  eapply chain_frame; [|exact R2]. intros i Hi. cbn. rewrite lookup_delete_ne; [done|]. intros <-. by apply (He h xs).
Qed.

Definition exec_sls (fuel : nat) : list sl_op → M slheap unit :=
  foldr (λ o k, exec_sl fuel o ;; k) (mret tt).

Inductive spec_sls (D : gset nat) : queues → list sl_op → queues → Prop :=
| SlsNil m : spec_sls D m [] m
| SlsCons m o m' os m'' : spec_sl D m o m' → spec_sls D m' os m'' → spec_sls D m (o :: os) m''.

(** C29: Any sequence of list operations on the pointer representation finishes without
    following a bad pointer within as many walk steps as there are elements, and leaves lists
    that represent exactly those the abstract operations give. *)
Theorem sl_simulation D st m os m' :
  sl_inv D st m → spec_sls D m os m' → Z.of_nat (size D) < 2 ^ 64 →
  ∃ st', exec_sls (size D) os st = Done (tt, st') ∧ sl_inv D st' m' ∧
    ∀ h xs, m' !! h = Some xs →
      sl_foreach (size D) h st' = Done (xs, st') ∧
      sl_first h st' = Done (head xs, st') ∧
      sl_empty h st' = Done (bool_decide (xs = []), st').
Proof.
  intros Hinv Hspec Hsz. revert st Hinv. induction Hspec as [m|m o m1 os m2 Ho _ IH]; intros st Hinv.
  - exists st. split_and!; [done|done|]. intros h xs Hm. pose proof (sl_first_run D st m h xs Hinv Hm) as F1.
    split_and!; [by eapply sl_foreach_run|done|].
    unfold sl_empty. mstep F1. destruct xs; [done|]. by rewrite !bool_decide_false.
  - destruct (sl_step_refines D st m o m1 Hinv Ho) as (st1 & E & Hinv1).
    destruct (IH st1 Hinv1) as (st2 & E2 & ?). exists st2. split; [|done].
    change (exec_sls (size D) (o :: os)) with (exec_sl (size D) o ;; exec_sls (size D) os). by mstep E.
Qed.

(** ** Witness *)

Definition sl_ex_st : slheap := SlHeap ({[10 := None; 11 := None]}%nat) ({[1 := None; 2 := None; 3 := None]}%nat).
Definition sl_ex_ops : list sl_op :=
  [SlInsertHead 10 1; SlInsertHead 10 2; SlInsertHead 11 3; SlConcat 10 11; SlRemove 10 1]%nat.

Lemma sl_ex_inv : sl_inv q_ex_D sl_ex_st q_ex_m.
Proof.
  exists q_ex_st. split; [apply q_ex_inv|]. split; [reflexivity|].
  intros h hd H. unfold q_ex_st, q_initial in H. cbn in H. rewrite !lookup_insert_Some, lookup_empty in H.
  destruct H as [[<- <-]|[? [[<- <-]|[? H]]]]; [reflexivity|reflexivity|discriminate H].
Qed.

Lemma sl_ex_spec : spec_sls q_ex_D q_ex_m sl_ex_ops {[10 := [2; 3]; 11 := []]}%nat.
Proof.
  assert (∀ m e, bool_decide (e ∈ q_ex_D) && bool_decide (map_Forall (λ _ xs, e ∉ xs) m) = true →
    unqueued q_ex_D m e) as Hu.
  { intros m e [??]%andb_true_iff. split; by eapply bool_decide_unpack, Is_true_eq_left. }
  eapply SlsCons; [apply (SpInsertHead _ _ 10 1 [])%nat; [reflexivity|apply Hu; reflexivity]|].
  eapply SlsCons; [apply (SpInsertHead _ _ 10 2 [1])%nat; [reflexivity|apply Hu; reflexivity]|].
  eapply SlsCons; [apply (SpInsertHead _ _ 11 3 [])%nat; [reflexivity|apply Hu; reflexivity]|].
  eapply SlsCons; [apply (SpConcat _ _ 10 11 [2; 1] [3])%nat; done|].
  eapply SlsCons; [apply (SpRemove _ _ 10 1 [2] [3])%nat; reflexivity|].
  match goal with |- spec_sls _ ?m _ ?m' => replace m with m' by (by vm_compute) end.
  constructor.
Qed.

Lemma sl_simulation_witness :
  ∃ st', exec_sls 3 sl_ex_ops sl_ex_st = Done (tt, st') ∧ sl_foreach 3 10 st' = Done ([2; 3], st')%nat.
Proof.
  destruct (sl_simulation q_ex_D sl_ex_st q_ex_m sl_ex_ops _ sl_ex_inv sl_ex_spec) as (st' & E & _ & H); [by vm_compute|].
  exists st'. destruct (H 10 [2; 3] eq_refl)%nat as (? & _). by split.
Defined.
