(* ===== verification/Wire.v ===== *)
(** Packet formats: the header layouts of lib/src/eth.h, arp.h, ip4.h, ip6.h,
    udp.h, icmp4.h and icmp6.h as byte offsets, and the accessors defined on
    their fields. *)

From S2P Require Import Prelude.

(** ** Ethernet (eth.h) *)

Module Eth.
Definition dst : nat := 0.
Definition src : nat := 6.
Definition type : nat := 12.
Definition size : nat := 14.
End Eth.

Definition ETH_TYPE_ARP : Z := 0x0608.
Definition ETH_TYPE_IP4 : Z := 0x0008.
Definition ETH_TYPE_IP6 : Z := 0xdd86.
Definition ETH_ADDR_BCAST : bytes := [0xff; 0xff; 0xff; 0xff; 0xff; 0xff].
Definition ETH_ADDR_NONE : bytes := [0; 0; 0; 0; 0; 0].
Definition ETH_ADDR_MCAST6 : bytes := [0x33; 0x33; 0; 0; 0; 0].

(** A pointer into a packet buffer is its offset from the buffer's start. *)
Definition eth_data (off : nat) : nat := off + Eth.size.

(** ** ARP (arp.h) *)

Module Arp.
Definition hrd : nat := 0.
Definition pro : nat := 2.
Definition hln : nat := 4.
Definition pln : nat := 5.
Definition op : nat := 6.
Definition sha : nat := 8.
Definition spa : nat := 14.
Definition tha : nat := 18.
Definition tpa : nat := 24.
Definition size : nat := 28.
End Arp.

Definition ARP_HRD_ETHER : Z := 0x0100.
Definition ARP_OP_REQUEST : Z := 0x0100.
Definition ARP_OP_REPLY : Z := 0x0200.

(** ** IPv4 (ip4.h) *)

Definition IP_P_ICMP : Z := 1.
Definition IP_P_UDP : Z := 17.
Definition IP_P_ICMP6 : Z := 58.
Definition IP4_DF : Z := 0x40.
Definition IP4_MF : Z := 0x20.
Definition IP4_OFFMASK : Z := 0xff1f.

Module Ip4.
Definition vhl : nat := 0.
Definition tos : nat := 1.
Definition len : nat := 2.
Definition id : nat := 4.
Definition off : nat := 6.
Definition ttl : nat := 8.
Definition p : nat := 9.
Definition cksum : nat := 10.
Definition src : nat := 12.
Definition dst : nat := 16.
Definition size : nat := 20.
End Ip4.

Definition ip_v (v_byte : Z) : Z := u8 (Z.shiftr (Z.land v_byte 0xf0) 4).
Definition ip4_hl (vhl : Z) : Z := u8 (Z.land vhl 0x0f * 4).
Definition ip4_dscp (tos : Z) : Z := u8 (Z.shiftr (Z.land tos 0xfc) 2).
Definition ip4_ecn (tos : Z) : Z := Z.land tos 0x02.

(** [ip4_data buf]: the offset of the IPv4 payload of the frame [b]. *)
Definition ip4_data (b : bytes) : nat := Eth.size + Z.to_nat (ip4_hl (ld8 b Eth.size)).
(** [ip4_data_len ip], for the header at offset [ip] of [b]. *)
Definition ip4_data_len (b : bytes) (ip : nat) : Z :=
  u16 (bswap16 (ld16 b (ip + Ip4.len)) - ip4_hl (ld8 b (ip + Ip4.vhl))).

(** ** IPv6 (ip6.h) *)

Definition IP6_LEN : nat := 16.

Module Ip6.
Definition vtcecnfl : nat := 0.
Definition vfc : nat := 0.
Definition len : nat := 4.
Definition next_hdr : nat := 6.
Definition hlim : nat := 7.
Definition src : nat := 8.
Definition dst : nat := 24.
Definition size : nat := 40.
End Ip6.

Definition snma_pref : bytes := [0xff; 0x02; 0; 0; 0; 0; 0; 0; 0; 0; 0; 0x01; 0xff; 0; 0; 0].
Definition snma_mask : bytes := [0; 0; 0; 0; 0; 0; 0; 0; 0; 0; 0; 0; 0; 0xff; 0xff; 0xff].

Definition ip6_tos (vtcecnfl : Z) : Z :=
  u8 (Z.lor (Z.shiftr (Z.land vtcecnfl 0x0000f000) 12)
            (Z.shiftl (Z.land vtcecnfl 0x0000000f) 4)).
Definition ip6_tc (vtcecnfl : Z) : Z := Z.land (ip6_tos vtcecnfl) 0xfc.
Definition ip6_ecn (vtcecnfl : Z) : Z := u8 (Z.shiftr (Z.land vtcecnfl 0x00003000) 12).
Definition ip6_flow_label (vtcecnfl : Z) : Z := Z.land vtcecnfl 0xffff0f00.
Definition ip6_data : nat := Eth.size + Ip6.size.

Definition ip6_invert (src : bytes) : bytes := (λ b, u8 (Z.lnot b)) <$> src.
Definition ip6_or (src1 src2 : bytes) : bytes := zip_with Z.lor src1 src2.
Definition ip6_mk_snma (src : bytes) : bytes :=
  zip_with Z.lor snma_pref (zip_with Z.land src snma_mask).

(** ** UDP and ICMP (udp.h, icmp4.h, icmp6.h) *)

Module Udp.
Definition sport : nat := 0.
Definition dport : nat := 2.
Definition len : nat := 4.
Definition cksum : nat := 6.
Definition size : nat := 8.
End Udp.

Module Icmp.
Definition type : nat := 0.
Definition code : nat := 1.
Definition cksum : nat := 2.
Definition id : nat := 4.
Definition seq : nat := 6.
Definition size : nat := 8.
End Icmp.

Definition ICMP4_TYPE_ECHOREPLY : Z := 0.
Definition ICMP4_TYPE_UNREACH : Z := 3.
Definition ICMP4_TYPE_ECHO : Z := 8.
Definition ICMP4_UNREACH_PROTOCOL : Z := 2.
Definition ICMP4_UNREACH_PORT : Z := 3.
Definition ICMP6_TYPE_ECHOREPLY : Z := 129.
Definition ICMP6_TYPE_UNREACH : Z := 1.
Definition ICMP6_TYPE_ECHO : Z := 128.
Definition ICMP6_TYPE_NSOL : Z := 135.
Definition ICMP6_TYPE_NADV : Z := 136.
Definition ICMP6_UNREACH_PORT : Z := 4.

(** * Theorems *)

Lemma eth_addr_bcast_bytes : is_bytes ETH_ADDR_BCAST.
Proof. by apply (bool_decide_unpack (Forall is_u8 _)). Qed.
Lemma eth_addr_none_bytes : is_bytes ETH_ADDR_NONE.
Proof. by apply (bool_decide_unpack (Forall is_u8 _)). Qed.
#[export] Hint Resolve eth_addr_bcast_bytes eth_addr_none_bytes : wc.

Lemma ip_v_arith b : is_u8 b → ip_v b = b / 16.
Proof.
  intros Hb. unfold ip_v. change 0xf0 with (Z.shiftl (2 ^ 4 - 1) 4).
  rewrite land_field_arith, Z.shiftr_div_pow2, Z.div_mul by lia.
  change (2 ^ 4) with 16. unfold_u. zdm.
Qed.

Lemma ip4_hl_arith b : ip4_hl b = b mod 16 * 4.
Proof.
  unfold ip4_hl. rewrite land_f. unfold_u. zdm.
Qed.

Lemma ip4_hl_range b : 0 <= ip4_hl b <= 60.
Proof. rewrite ip4_hl_arith. zdm. Qed.

Lemma ip6_tos_arith w : ip6_tos w = (w / 4096) mod 16 + 16 * (w mod 16).
Proof.
  unfold ip6_tos. change 0x0000f000 with (Z.shiftl (2 ^ 4 - 1) 12).
  rewrite land_field_arith, Z.shiftr_div_pow2, Z.div_mul, land_f by lia.
  change (2 ^ 4) with 16. change (2 ^ 12) with 4096.
  rewrite lor_shiftl_add by zdm. rewrite u8_id by (unfold_u; zdm). lia.
Qed.

Lemma ip6_flow_label_arith w :
  is_u32 w → ip6_flow_label w = (w / 256) mod 16 * 256 + w / 65536 * 65536.
Proof.
  intros Hw. unfold ip6_flow_label.
  change 0xffff0f00 with (Z.lor (Z.shiftl (2 ^ 4 - 1) 8) (Z.shiftl (2 ^ 16 - 1) 16)).
  rewrite Z.land_lor_distr_r, !land_field_arith by lia.
  rewrite <- (Z.shiftl_mul_pow2 _ 16) by lia. rewrite lor_shiftl_add by zdm.
  change (2 ^ 4) with 16. change (2 ^ 8) with 256. change (2 ^ 16) with 65536.
  unfold_u. zdm.
Qed.

(** The first four bytes of an IPv6 header with traffic class [tc] and flow label [fl], as
    RFC 8200 lays them out, read as the 32-bit word the code works on. *)
Definition ip6_first_word (tc fl : Z) : Z :=
  le_val [96 + tc / 16; tc mod 16 * 16 + fl / 65536; fl / 256 mod 256; fl mod 256].

(** The accessors on a header word given by its four bytes. *)
Lemma ip6_word_bytes b0 b1 b2 b3 :
  is_u8 b0 → is_u8 b1 → is_u8 b2 → is_u8 b3 →
  let w := le_val [b0; b1; b2; b3] in
  u8 w = b0 ∧ ip6_tos w = b0 mod 16 * 16 + b1 / 16 ∧ ip6_ecn w = b1 / 16 mod 4 ∧
  ip6_flow_label w = le_val [0; b1 mod 16; b2; b3].
Proof.
  intros H0 H1 H2 H3 w. unfold is_u8 in *.
  assert (Hw : w = b0 + 256 * (b1 + 256 * (b2 + 256 * b3))) by (unfold w; cbn [le_val]; lia).
  assert (E1 : w mod 16 = b0 mod 16) by (rewrite Hw; zdm).
  assert (E2 : w / 256 = b1 + 256 * (b2 + 256 * b3)) by (rewrite Hw; zdm).
  assert (E3 : w / 4096 = b1 / 16 + 16 * (b2 + 256 * b3)).
  { change 4096 with (256 * 16). rewrite <- Z.div_div, E2 by lia. zdm. }
  assert (E4 : w / 65536 = b2 + 256 * b3).
  { change 65536 with (256 * 256). rewrite <- Z.div_div, E2 by lia. zdm. }
  split_and!.
  - rewrite Hw. unfold u8. zdm.
  - rewrite ip6_tos_arith, E1, E3. zdm.
  - unfold ip6_ecn. change 0x00003000 with (Z.shiftl (2 ^ 2 - 1) 12).
    rewrite land_field_arith, Z.shiftr_div_pow2, Z.div_mul by lia.
    change (2 ^ 2) with 4. change (2 ^ 12) with 4096. rewrite E3. unfold u8. zdm.
  - rewrite ip6_flow_label_arith by (unfold is_u32; lia).
    rewrite E2, E4. cbn [le_val]. zdm.
Qed.

(** The accessors of the IPv6 header word return the version, the traffic class, its DSCP
    and ECN parts, and the flow label in network byte order. *)
Theorem ip6_header_word (tc fl : Z) :
  is_u8 tc → 0 <= fl < 2 ^ 20 →
  let w := ip6_first_word tc fl in
  ip_v (u8 w) = 6 ∧ ip6_tos w = tc ∧ ip6_tc w = tc / 4 * 4 ∧ ip6_ecn w = tc mod 4 ∧
  ip6_flow_label w = le_val [0; fl / 65536; fl / 256 mod 256; fl mod 256].
Proof.
  intros Htc Hfl w. unfold is_u8 in Htc.
  destruct (ip6_word_bytes (96 + tc / 16) (tc mod 16 * 16 + fl / 65536)
    (fl / 256 mod 256) (fl mod 256)) as (Ev & Et & Ee & Ef); [unfold is_u8; zdm..|].
  fold (ip6_first_word tc fl) in Ev, Et, Ee, Ef. fold w in Ev, Et, Ee, Ef.
  assert (Hb : (tc mod 16 * 16 + fl / 65536) / 16 = tc mod 16) by zdm.
  rewrite Hb in Et, Ee.
  assert (Htos : ip6_tos w = tc) by (rewrite Et; zdm).
  split_and!.
  - rewrite Ev, ip_v_arith by (unfold is_u8; zdm). zdm.
  - done.
  - unfold ip6_tc. rewrite Htos. change 0xfc with (Z.shiftl (2 ^ 6 - 1) 2).
    rewrite land_field_arith by lia. change (2 ^ 6) with 64. zdm.
  - rewrite Ee. zdm.
  - rewrite Ef. replace ((tc mod 16 * 16 + fl / 65536) mod 16) with (fl / 65536) by zdm.
    done.
Qed.

Lemma ip6_header_word_witness :
  let w := ip6_first_word 0xb9 0x12345 in ip6_tos w = 0xb9 ∧ ip6_ecn w = 1.
Proof.
  destruct (ip6_header_word 0xb9 0x12345) as (_ & ? & _ & ? & _); [unfold_u; lia|lia|].
  by split.
Defined.

(** The IPv4 accessors: header length, DSCP; [ip4_ecn] drops the low ECN bit. *)
Theorem ip4_tos_fields (tos : Z) :
  is_u8 tos →
  ip4_dscp tos = tos / 4 ∧ ip4_ecn tos = tos mod 4 / 2 * 2 ∧
  (ip4_ecn tos = tos mod 4 ↔ tos mod 2 = 0).
Proof.
  intros Ht. unfold ip4_dscp, ip4_ecn.
  change 0xfc with (Z.shiftl (2 ^ 6 - 1) 2).
  change (Z.land tos 2) with (Z.land tos (Z.shiftl (2 ^ 1 - 1) 1)).
  rewrite !land_field_arith, Z.shiftr_div_pow2, Z.div_mul by lia.
  change (2 ^ 6) with 64. change (2 ^ 2) with 4. change (2 ^ 1) with 2.
  unfold_u. split_and!; zdm.
Qed.

Lemma ip4_tos_fields_witness : ip4_dscp 0xb9 = 46 ∧ ip4_ecn 0xb9 = 0.
Proof. destruct (ip4_tos_fields 0xb9) as (? & ? & _); [unfold_u; lia|]. by split. Defined.
