(* ===== verification/Cksum.v ===== *)
(** The Internet checksum (lib/src/in_cksum.c, the portable variant): its folding
    loop, the 16-bit sum, header and payload checksums, and incremental updates;
    their equivalence with RFC 1071 and RFC 768, and the TX/RX round trips. *)

From S2P Require Import Prelude Wire.

(** The [while (sum >> 16)] loop.  Two iterations are enough for every 32-bit sum
    ([csum_oc16_reduce_fold]); the third unit of fuel is the final test. *)
Fixpoint reduce_loop (fuel : nat) (sum : Z) : outcome Z :=
  match fuel with
  | O => NoFuel
  | S fuel =>
      if Z.shiftr sum 16 =? 0 then Done sum
      else reduce_loop fuel (u32 (Z.land sum 0xFFFF + Z.shiftr sum 16))
  end.

Definition csum_oc16_reduce (sum : Z) : outcome Z :=
  sum ← reduce_loop 3 sum; mret (u16 (Z.lnot sum)).

(** The 16-bit words and the odd last byte of the [data_len] bytes at offset
    [data] of [b]; reading past the end of [b] is a [Fault]. *)
Definition csum_step (b : bytes) (data : nat) (sum : Z) (n : nat) : Z :=
  u32 (sum + ld16 b (data + 2 * n)).

Definition csum_oc16 (b : bytes) (data : nat) (data_len : Z) : outcome Z :=
  if Z.of_nat (length b) <? Z.of_nat data + data_len then Fault
  else
    let len := Z.to_nat data_len in
    let sum := foldl (csum_step b data) 0 (seq 0 (len / 2)) in
    Done (if Nat.odd len then u32 (sum + ld8 b (data + (len - 1))) else sum).

Definition ip_cksum (b : bytes) (buf : nat) (len : Z) : outcome Z :=
  sum ← csum_oc16 b buf len; csum_oc16_reduce sum.

Definition payload_cksum (b : bytes) (buf : nat) (len : Z) : outcome Z :=
  let v := ip_v (ld8 b buf) in
  if v =? 4 then
    let ip_hdr_len := ip4_hl (ld8 b buf) in
    let sum := u32 (Z.shiftl (ld8 b (buf + Ip4.p)) 8) in
    s ← csum_oc16 b (buf + Ip4.src) 4; let sum := u32 (sum + s) in
    s ← csum_oc16 b (buf + Ip4.dst) 4; let sum := u32 (sum + s) in
    let plen := bswap16 (u16 (bswap16 (ld16 b (buf + Ip4.len)) - ip_hdr_len)) in
    s ← csum_oc16 (le_bytes 2 plen) 0 2; let sum := u32 (sum + s) in
    s ← csum_oc16 b (buf + Z.to_nat ip_hdr_len) (u32 (len - ip_hdr_len));
    csum_oc16_reduce (u32 (sum + s))
  else
    let ip_hdr_len := Z.of_nat Ip6.size in
    let sum := u32 (Z.shiftl (ld8 b (buf + Ip6.next_hdr)) 24) in
    s ← csum_oc16 b (buf + Ip6.src) 16; let sum := u32 (sum + s) in
    s ← csum_oc16 b (buf + Ip6.dst) 16; let sum := u32 (sum + s) in
    s ← csum_oc16 b (buf + Ip6.len) 2; let sum := u32 (sum + s) in
    s ← csum_oc16 b (buf + Z.to_nat ip_hdr_len) (u32 (len - ip_hdr_len));
    csum_oc16_reduce (u32 (sum + s)).

(** The incremental updates compiled in with [CKSUM_UPDATE]. *)
Definition ip_cksum_update32 (old_check old_data new_data : Z) : outcome Z :=
  let old_check := u16 (Z.lnot old_check) in
  let old_data := u32 (Z.lnot old_data) in
  csum_oc16_reduce
    (u32 (old_check + Z.shiftr old_data 16 + Z.land old_data 0xffff
          + Z.shiftr new_data 16 + Z.land new_data 0xffff)).

Definition ip_cksum_update16 (old_check old_data new_data : Z) : outcome Z :=
  let old_check := u16 (Z.lnot old_check) in
  let old_data := u16 (Z.lnot old_data) in
  csum_oc16_reduce (u32 (old_check + Z.lnot old_data + new_data)).

(** ** Reference definitions *)

(** One's complement addition of 16-bit numbers and the checksum of RFC 1071
    over big-endian words, an odd last byte being padded with a zero byte. *)
Definition oc_add (x y : Z) : Z := if 65535 <? x + y then x + y - 65535 else x + y.

Fixpoint rfc1071_sum (data : bytes) : Z :=
  match data with
  | [] => 0
  | [a] => 256 * a
  | a :: b :: data => oc_add (256 * a + b) (rfc1071_sum data)
  end.
Definition rfc1071 (data : bytes) : Z := 65535 - rfc1071_sum data.

Definition be16 (x : Z) : bytes := [x / 256; x mod 256].

(** The UDP and ICMPv6 pseudo-headers of RFC 768 and RFC 8200. *)
Definition pseudo_hdr (b : bytes) (buf : nat) : bytes :=
  if ip_v (ld8 b buf) =? 4
  then ldn b (buf + Ip4.src) 4 ++ ldn b (buf + Ip4.dst) 4 ++ [0; ld8 b (buf + Ip4.p)] ++
       be16 (ip4_data_len b buf)
  else ldn b (buf + Ip6.src) 16 ++ ldn b (buf + Ip6.dst) 16 ++ [0; 0] ++
       ldn b (buf + Ip6.len) 2 ++ [0; 0; 0; ld8 b (buf + Ip6.next_hdr)].
Definition hdr_len (b : bytes) (buf : nat) : nat :=
  if ip_v (ld8 b buf) =? 4 then Z.to_nat (ip4_hl (ld8 b buf)) else Ip6.size.

(** * Theorems *)

(** ** Folding *)

(** The representative in [1, 65535] of a positive sum modulo 65535. *)
Definition oc_fold (s : Z) : Z := if s =? 0 then 0 else (s - 1) mod 65535 + 1.

Lemma oc_fold_range s : 0 <= s → 0 <= oc_fold s <= 65535.
Proof. intros. unfold oc_fold. destruct (Z.eqb_spec s 0); zdm. Qed.

Lemma oc_fold_small s : 0 <= s <= 65535 → oc_fold s = s.
Proof. intros. unfold oc_fold. destruct (Z.eqb_spec s 0); zdm. Qed.

(** [oc_fold] is determined by the residue and by being zero or not. *)
Lemma oc_fold_eq s t :
  0 <= s → 0 <= t → s mod 65535 = t mod 65535 → (s = 0 ↔ t = 0) → oc_fold s = oc_fold t.
Proof.
  intros Hs Ht E Hz. unfold oc_fold.
  destruct (Z.eqb_spec s 0), (Z.eqb_spec t 0); [done|lia|lia|]. zdm.
Qed.

Lemma oc_fold_mod s : oc_fold s mod 65535 = s mod 65535.
Proof. unfold oc_fold. destruct (Z.eqb_spec s 0); zdm. Qed.

Lemma oc_fold_zero s : 0 <= s → oc_fold s = 0 ↔ s = 0.
Proof. intros. unfold oc_fold. destruct (Z.eqb_spec s 0); zdm. Qed.

Lemma oc_fold_full s : 0 <= s → oc_fold s = 65535 ↔ s ≠ 0 ∧ s mod 65535 = 0.
Proof. intros. unfold oc_fold. destruct (Z.eqb_spec s 0); zdm. Qed.

Lemma oc_add_fold x y :
  0 <= x → 0 <= y → oc_add (oc_fold x) (oc_fold y) = oc_fold (x + y).
Proof.
  intros Hx Hy. unfold oc_add, oc_fold.
  destruct (Z.eqb_spec x 0), (Z.eqb_spec y 0), (Z.eqb_spec (x + y) 0); try lia;
    match goal with |- context [65535 <? ?e] => destruct (Z.ltb_spec 65535 e) end; zdm.
Qed.

(** Folding the upper half in keeps the residue. *)
Lemma fold_mod s : (s mod 65536 + s / 65536) mod 65535 = s mod 65535.
Proof.
  replace s with (s mod 65536 + s / 65536 + s / 65536 * 65535) at 3 by zdm.
  by rewrite Z_mod_plus_full.
Qed.

Lemma reduce_step s : is_u32 s → u32 (Z.land s 0xFFFF + Z.shiftr s 16) = s mod 65536 + s / 65536.
Proof.
  intros. rewrite land_ffff, Z.shiftr_div_pow2 by lia. change (2 ^ 16) with 65536.
  apply u32_id. unfold_u. zdm.
Qed.

Lemma reduce_loop_step fuel s :
  is_u32 s →
  reduce_loop (S fuel) s =
    if s <? 65536 then Done s else reduce_loop fuel (s mod 65536 + s / 65536).
Proof.
  intros Hs. cbn [reduce_loop]. rewrite reduce_step by done.
  rewrite Z.shiftr_div_pow2 by lia. change (2 ^ 16) with 65536. unfold is_u32 in Hs.
  destruct (Z.eqb_spec (s / 65536) 0), (Z.ltb_spec s 65536); try done; zdm.
Qed.

(** Two iterations are enough. *)
Lemma reduce_loop_fold s : is_u32 s → reduce_loop 3 s = Done (oc_fold s).
Proof.
  intros Hs. unfold is_u32 in Hs. rewrite reduce_loop_step by done.
  destruct (Z.ltb_spec s 65536). { by rewrite oc_fold_small by lia. }
  set (t := s mod 65536 + s / 65536). assert (0 < t < 131071) by (unfold t; zdm).
  assert (Et : oc_fold s = oc_fold t) by (symmetry; apply oc_fold_eq; [lia|lia|apply fold_mod|lia]).
  rewrite reduce_loop_step, Et by (unfold is_u32; lia). clearbody t.
  destruct (Z.ltb_spec t 65536). { by rewrite oc_fold_small by lia. }
  rewrite reduce_loop_step by (unfold is_u32; zdm).
  destruct (Z.ltb_spec (t mod 65536 + t / 65536) 65536); [|zdm].
  f_equal. rewrite <- (oc_fold_small (t mod 65536 + t / 65536)) by zdm.
  apply oc_fold_eq; [zdm|lia|apply fold_mod|zdm].
Qed.

Lemma csum_oc16_reduce_fold s : is_u32 s → csum_oc16_reduce s = Done (65535 - oc_fold s).
Proof.
  intros Hs. unfold csum_oc16_reduce. rewrite reduce_loop_fold by done. cbn.
  f_equal. pose proof (oc_fold_range s (proj1 Hs)). unfold u16, Z.lnot. zdm.
Qed.

(** ** Sums of 16-bit words *)

(** The exact sum of the little-endian words of a byte list. *)
Fixpoint oc_sum (l : bytes) : Z :=
  match l with
  | [] => 0
  | [a] => a
  | a :: b :: l => a + 256 * b + oc_sum l
  end.

(** Induction two bytes at a time. *)
Lemma pair_ind (P : bytes → Prop) :
  P [] → (∀ a, P [a]) → (∀ a b l, P l → P (a :: b :: l)) → ∀ l, P l.
Proof.
  intros H0 H1 H2. fix IH 1. intros [|a [|b l]]; [done|apply H1|apply H2, IH].
Qed.

Lemma oc_sum_app l1 l2 :
  Nat.Even (length l1) → oc_sum (l1 ++ l2) = oc_sum l1 + oc_sum l2.
Proof.
  induction l1 as [|a|a b l1 IH] using pair_ind; cbn [app length oc_sum].
  - done.
  - intros [k Hk]. lia.
  - intros [k Hk]. rewrite IH; [lia|]. exists (k - 1)%nat. lia.
Qed.

Lemma oc_sum_le_val l : (length l <= 2)%nat → oc_sum l = le_val l.
Proof. destruct l as [|a [|b [|c l]]]; cbn; lia. Qed.

Lemma oc_sum_bound l :
  is_bytes l → 0 <= oc_sum l <= 65535 * (Z.of_nat (length l + 1) / 2).
Proof.
  induction l as [|a|a b l IH] using pair_ind; cbn [length oc_sum].
  - done.
  - intros Ha%Forall_inv. change (Z.of_nat (1 + 1) / 2) with 1. unfold_u. lia.
  - intros [Ha [Hb Hl]%Forall_cons]%Forall_cons. specialize (IH Hl).
    replace (Z.of_nat (S (S (length l)) + 1) / 2) with (Z.of_nat (length l + 1) / 2 + 1)
      by (rewrite !Nat2Z.inj_add, !Nat2Z.inj_succ; zdm).
    unfold_u. lia.
Qed.

Section Sum.
Context (b : bytes) (data : nat).
Hypothesis Hb : is_bytes b.

Lemma ldn_sum_bound n :
  (data + n <= length b)%nat →
  0 <= oc_sum (ldn b data n) <= 65535 * (Z.of_nat (n + 1) / 2).
Proof.
  intros Hn. pose proof (oc_sum_bound (ldn b data n) (ldn_is_bytes _ _ _ Hb)) as H.
  by rewrite length_ldn in H.
Qed.

(** The loop does not overflow and adds up the words. *)
Lemma csum_words k :
  (data + 2 * k <= length b)%nat → Z.of_nat k <= 65536 →
  foldl (csum_step b data) 0 (seq 0 k) = oc_sum (ldn b data (2 * k)).
Proof.
  induction k as [|k IH]; intros Hl Hk; [done|].
  rewrite seq_S, foldl_app, IH by lia. cbn [foldl]. rewrite Nat.add_0_l.
  replace (2 * S k)%nat with (2 * k + 2)%nat by lia.
  rewrite ldn_add, oc_sum_app by (rewrite length_ldn by lia; by exists k).
  unfold csum_step. rewrite (oc_sum_le_val (ldn b (data + 2 * k) 2)) by (rewrite length_ldn; lia).
  apply u32_id. pose proof (ldn_sum_bound (2 * k) ltac:(lia)) as Hs.
  replace (Z.of_nat (2 * k + 1) / 2) with (Z.of_nat k) in Hs by zdm.
  pose proof (ld16_range b (data + 2 * k) Hb). unfold ld16 in *. unfold_u. lia.
Qed.

Lemma csum_oc16_sum len :
  0 <= len <= 131070 → Z.of_nat data + len <= Z.of_nat (length b) →
  csum_oc16 b data len = Done (oc_sum (ldn b data (Z.to_nat len))).
Proof.
  intros Hlen Hl. unfold csum_oc16. rewrite (proj2 (Z.ltb_ge _ _)) by lia.
  remember (Z.to_nat len) as n eqn:En. f_equal. pose proof (Nat.div_mod_eq n 2) as Hn.
  rewrite csum_words by lia. destruct (Nat.odd n) eqn:Eo.
  - assert (n mod 2 = 1)%nat as Hm by (apply Nat.odd_spec in Eo as [j ->];
      rewrite Nat.add_comm, Nat.mul_comm, Nat.Div0.mod_add; done).
    replace (data + (n - 1))%nat with (data + 2 * (n / 2))%nat by lia.
    replace (ldn b data n) with (ldn b data (2 * (n / 2) + 1)) by (f_equal; lia).
    rewrite ldn_add, oc_sum_app by (rewrite length_ldn by lia; by exists (n / 2)%nat).
    rewrite (oc_sum_le_val (ldn b (data + _) 1)) by (rewrite length_ldn; lia).
    apply u32_id. pose proof (ldn_sum_bound (2 * (n / 2)) ltac:(lia)) as Hs.
    pose proof (ld8_range b (data + 2 * (n / 2)) Hb). unfold ld8 in *. unfold_u. zdm.
  - assert (n mod 2 = 0)%nat as Hm by (rewrite <- Nat.negb_even in Eo;
      apply negb_false_iff, Nat.even_spec in Eo as [j ->];
      rewrite Nat.mul_comm; apply Nat.Div0.mod_mul).
    do 2 f_equal. lia.
Qed.

Lemma ip_cksum_sum len :
  0 <= len <= 65535 → Z.of_nat data + len <= Z.of_nat (length b) →
  ip_cksum b data len = Done (65535 - oc_fold (oc_sum (ldn b data (Z.to_nat len)))).
Proof.
  intros Hlen Hl. unfold ip_cksum. rewrite csum_oc16_sum by lia. cbn.
  apply csum_oc16_reduce_fold. pose proof (ldn_sum_bound (Z.to_nat len) ltac:(lia)).
  unfold_u. zdm.
Qed.
End Sum.

(** The checksum depends on the summed bytes only. *)
Lemma ip_cksum_ldn (b b' : bytes) (o o' : nat) (len : Z) :
  is_bytes b → is_bytes b' → 0 <= len <= 65535 →
  Z.of_nat o + len <= Z.of_nat (length b) → Z.of_nat o' + len <= Z.of_nat (length b') →
  ldn b' o' (Z.to_nat len) = ldn b o (Z.to_nat len) → ip_cksum b' o' len = ip_cksum b o len.
Proof. intros. rewrite !ip_cksum_sum by done. congruence. Qed.

(** ** Byte order independence *)

(** Swapping the bytes of a 16-bit number multiplies by 256 modulo 65535. *)
Lemma bswap16_fold x : is_u16 x → bswap16 x = oc_fold (256 * x).
Proof.
  intros Hx. unfold is_u16 in Hx. rewrite <- (oc_fold_small (bswap16 x)) by
    (pose proof (bswap16_range x); unfold_u; lia).
  rewrite bswap16_arith. apply oc_fold_eq; [zdm|lia| |zdm].
  replace (256 * x) with (x mod 256 * 256 + x / 256 mod 256 + x / 256 * 65535) by zdm.
  by rewrite Z_mod_plus_full.
Qed.

Lemma bswap16_compl x : is_u16 x → bswap16 (65535 - x) = 65535 - bswap16 x.
Proof. intros. rewrite !bswap16_arith. unfold_u. zdm. Qed.

Lemma oc_fold_idem s t : 0 <= s → 0 <= t → oc_fold (oc_fold s * t) = oc_fold (s * t).
Proof.
  intros Hs Ht. pose proof (oc_fold_range s Hs). apply oc_fold_eq; [lia|lia| |].
  - rewrite <- Z.mul_mod_idemp_l, oc_fold_mod, Z.mul_mod_idemp_l; lia.
  - pose proof (oc_fold_zero s Hs). nia.
Qed.

Lemma rfc1071_sum_fold l : is_bytes l → rfc1071_sum l = oc_fold (256 * oc_sum l).
Proof.
  induction l as [|a|a b l IH] using pair_ind; cbn [rfc1071_sum oc_sum].
  - done.
  - intros Ha%Forall_inv. rewrite oc_fold_small; unfold_u; lia.
  - intros [Ha [Hb Hl]%Forall_cons]%Forall_cons. rewrite IH by done.
    pose proof (oc_sum_bound l Hl) as [Hs _]. unfold_u.
    rewrite <- (oc_fold_small (256 * a + b)) by lia. rewrite oc_add_fold by lia.
    apply oc_fold_eq; [lia|lia| |lia].
    replace (256 * (a + 256 * b + oc_sum l))
      with (256 * a + b + 256 * oc_sum l + b * 65535) by lia.
    by rewrite Z_mod_plus_full.
Qed.

Lemma rfc1071_compl l :
  is_bytes l → bswap16 (65535 - oc_fold (oc_sum l)) = rfc1071 l.
Proof.
  intros Hl. pose proof (oc_sum_bound l Hl) as [Hs _]. pose proof (oc_fold_range _ Hs).
  rewrite bswap16_compl, bswap16_fold by (unfold_u; lia).
  unfold rfc1071. rewrite rfc1071_sum_fold by done. f_equal.
  rewrite (Z.mul_comm 256), oc_fold_idem by lia. f_equal. lia.
Qed.

(** C25: Ip_cksum is the checksum of RFC 1071 over big-endian words for every buffer and
    length, without 32-bit overflow, and reading past the buffer is the only failure. *)
Theorem ip_cksum_rfc1071 (b : bytes) (buf : nat) (len : Z) :
  is_bytes b → 0 <= len <= 65535 →
  (Z.of_nat buf + len <= Z.of_nat (length b) →
    ∃ c, ip_cksum b buf len = Done c ∧ is_u16 c ∧
      bswap16 c = rfc1071 (ldn b buf (Z.to_nat len))) ∧
  (Z.of_nat (length b) < Z.of_nat buf + len → ip_cksum b buf len = Fault).
Proof.
  intros Hb Hlen. split; intros Hl.
  - rewrite ip_cksum_sum by done. eexists. split; [done|].
    pose proof (ldn_sum_bound b buf Hb (Z.to_nat len) ltac:(lia)) as [Hs _].
    pose proof (oc_fold_range _ Hs). split; [unfold_u; lia|].
    apply rfc1071_compl. by apply ldn_is_bytes.
  - unfold ip_cksum, csum_oc16. by rewrite (proj2 (Z.ltb_lt _ _)) by lia.
Qed.

(** ** Storing a word at an even offset *)

Lemma ldn_split b o n k m :
  (k + m <= n)%nat → ldn b o n = ldn b o k ++ ldn b (o + k) m ++ ldn b (o + k + m) (n - k - m).
Proof.
  intros. replace n with (k + (m + (n - k - m)))%nat at 1 by lia. by rewrite !ldn_add.
Qed.

(** The words of a region before, at and after an even offset [k]. *)
Lemma oc_sum_split b o n k :
  (o + n <= length b)%nat → (2 * k + 2 <= n)%nat →
  oc_sum (ldn b o n) =
    oc_sum (ldn b o (2 * k)) + ld16 b (o + 2 * k) + oc_sum (ldn b (o + 2 * k + 2) (n - 2 * k - 2)).
Proof.
  intros Hl Hk. rewrite (ldn_split b o n (2 * k) 2) by lia.
  rewrite !oc_sum_app; [| rewrite length_ldn by lia; by exists 1%nat
    | rewrite length_ldn by lia; by exists k].
  rewrite (oc_sum_le_val (ldn b (o + 2 * k) 2)) by (rewrite length_ldn; lia).
  unfold ld16. lia.
Qed.

Lemma length_st16 b o v : (o + 2 <= length b)%nat → length (st16 b o v) = length b.
Proof. intros. unfold st16. apply length_stn. by rewrite length_le_bytes. Qed.
Lemma st16_is_bytes b o v : is_bytes b → is_bytes (st16 b o v).
Proof. intros. apply stn_is_bytes; auto with wc. Qed.
Lemma ldn_st16_ne b o v o' n :
  (o + 2 <= length b)%nat → (o' + n <= o ∨ o + 2 <= o')%nat →
  ldn (st16 b o v) o' n = ldn b o' n.
Proof. intros. apply ldn_stn_ne; rewrite length_le_bytes; lia. Qed.

(** Replacing the word at an even offset replaces its term of the sum. *)
Lemma oc_sum_st16 b o n k v :
  (o + n <= length b)%nat → (2 * k + 2 <= n)%nat → is_u16 v →
  oc_sum (ldn (st16 b (o + 2 * k) v) o n) =
    oc_sum (ldn b o n) - ld16 b (o + 2 * k) + v.
Proof.
  intros Hl Hk Hv.
  rewrite (oc_sum_split (st16 _ _ _) o n k), (oc_sum_split b o n k)
    by (rewrite ?length_st16; lia).
  rewrite !ldn_st16_ne, ld16_st16_eq, u16_id by (lia || done). lia.
Qed.

(** A checksum verifies exactly when the sum is a nonzero multiple of 65535. *)
Lemma cksum_zero s : 0 <= s → 65535 - oc_fold s = 0 ↔ s ≠ 0 ∧ s mod 65535 = 0.
Proof. intros. rewrite <- oc_fold_full by done. lia. Qed.

(** Adding the complement of its fold to a sum makes it verify. *)
Lemma cksum_store s : 0 <= s → 65535 - oc_fold (s + (65535 - oc_fold s)) = 0.
Proof.
  intros Hs. pose proof (oc_fold_range s Hs). pose proof (oc_fold_zero s Hs).
  apply cksum_zero; [lia|]. split; [lia|].
  pose proof (oc_fold_mod s) as E. unfold oc_fold in *. destruct (Z.eqb_spec s 0); zdm.
Qed.

(** A checksum stored into a zeroed field makes the region verify. *)
Lemma ip_cksum_store (b : bytes) (buf k : nat) (len : Z) :
  is_bytes b → 0 <= len <= 65535 → Z.of_nat buf + len <= Z.of_nat (length b) →
  2 * Z.of_nat k + 2 <= len →
  let b0 := st16 b (buf + 2 * k) 0 in
  ∃ c, ip_cksum b0 buf len = Done c ∧ is_u16 c ∧
    ip_cksum (st16 b0 (buf + 2 * k) c) buf len = Done 0.
Proof.
  intros Hb Hlen Hl Hk b0. assert (is_bytes b0) by by apply st16_is_bytes.
  assert (length b0 = length b) as Hlb by (apply length_st16; lia).
  pose proof (ldn_sum_bound b0 buf ltac:(done) (Z.to_nat len) ltac:(lia)) as [Hs _].
  pose proof (oc_fold_range _ Hs).
  rewrite ip_cksum_sum by (done || lia). eexists. split; [done|].
  split; [unfold_u; lia|].
  rewrite ip_cksum_sum; [| by apply st16_is_bytes|done|rewrite length_st16; lia].
  rewrite oc_sum_st16 by (lia || (unfold_u; lia)).
  assert (ld16 b0 (buf + 2 * k) = 0) as -> by (unfold b0; by rewrite ld16_st16_eq by lia).
  rewrite Z.sub_0_r. by rewrite cksum_store.
Qed.

(** The header checksum computed with a zeroed field and stored into it makes the
    verification return 0. *)
Theorem ip_cksum_roundtrip (b : bytes) (buf k : nat) (len : Z) :
  is_bytes b → 0 <= len <= 65535 → Z.of_nat buf + len <= Z.of_nat (length b) →
  2 * Z.of_nat k + 2 <= len →
  let b0 := st16 b (buf + 2 * k) 0 in
  ∃ c, ip_cksum b0 buf len = Done c ∧
    ip_cksum (st16 b0 (buf + 2 * k) c) buf len = Done 0.
Proof.
  intros Hb Hlen Hl Hk b0. destruct (ip_cksum_store b buf k len) as (c & E1 & _ & E2); [done..|].
  by exists c.
Qed.

(** Changing one 16-bit word of a verifying region is detected, unless 0 and 0xffff are
    exchanged. *)
Theorem ip_cksum_detects (b : bytes) (buf k : nat) (len w : Z) :
  is_bytes b → 0 <= len <= 65535 → Z.of_nat buf + len <= Z.of_nat (length b) →
  2 * Z.of_nat k + 2 <= len → is_u16 w →
  ip_cksum b buf len = Done 0 → ip_cksum (st16 b (buf + 2 * k) w) buf len = Done 0 →
  let v := ld16 b (buf + 2 * k) in
  w = v ∨ (v = 0 ∧ w = 0xffff) ∨ (v = 0xffff ∧ w = 0).
Proof.
  intros Hb Hlen Hl Hk Hw H1 H2 v.
  pose proof (ldn_sum_bound b buf Hb (Z.to_nat len) ltac:(lia)) as [Hs _].
  pose proof (ld16_range b (buf + 2 * k) Hb) as Hv. fold v in Hv.
  rewrite ip_cksum_sum in H1 by done. apply Done_inj, cksum_zero in H1 as [_ H1]; [|done].
  assert (0 <= oc_sum (ldn (st16 b (buf + 2 * k) w) buf (Z.to_nat len))) as Hs'.
  { apply oc_sum_bound, ldn_is_bytes. by apply st16_is_bytes. }
  rewrite ip_cksum_sum in H2; [|by apply st16_is_bytes|done|rewrite length_st16; lia].
  apply Done_inj, cksum_zero in H2 as [_ H2]; [|done].
  rewrite oc_sum_st16 in H2 by (lia || done). fold v in H2. unfold_u. zdm.
Qed.

(** ** Payload checksums *)

Section Payload.
Context (b : bytes) (buf : nat) (len : Z).
Hypothesis Hb : is_bytes b.
Hypothesis Hlen : 0 <= len <= 65535.
Hypothesis Hl : Z.of_nat buf + len <= Z.of_nat (length b).

Lemma payload_sum_bound (hl : nat) :
  Z.of_nat hl <= len →
  0 <= oc_sum (ldn b (buf + hl) (Z.to_nat (len - Z.of_nat hl))) <= 65535 * 32768.
Proof.
  intros Hh. pose proof (ldn_sum_bound b (buf + hl) Hb (Z.to_nat (len - Z.of_nat hl)) ltac:(lia)).
  zdm.
Qed.

Lemma csum_payload (hl : nat) :
  Z.of_nat hl <= len →
  csum_oc16 b (buf + hl) (u32 (len - Z.of_nat hl)) =
    Done (oc_sum (ldn b (buf + hl) (Z.to_nat (len - Z.of_nat hl)))).
Proof. intros Hh. rewrite u32_id by (unfold_u; lia). apply csum_oc16_sum; [done|lia|lia]. Qed.

Lemma oc_sum_be16 x : is_u16 x → oc_sum (be16 x) = bswap16 x.
Proof. intros. rewrite bswap16_arith. cbn. unfold_u. zdm. Qed.

Lemma csum_plen x :
  csum_oc16 (le_bytes 2 (bswap16 x)) 0 2 = Done (bswap16 x).
Proof.
  pose proof (bswap16_range x). rewrite csum_oc16_sum; [|auto with wc|lia|rewrite length_le_bytes; lia].
  change (Z.to_nat 2) with 2%nat. rewrite <- (length_le_bytes 2 (bswap16 x)) at 2.
  rewrite ldn_all, oc_sum_le_val, le_val_bytes by (by rewrite length_le_bytes).
  f_equal. apply Z.mod_small. unfold_u. lia.
Qed.

(** The sum the IPv4 branch folds. *)
Lemma payload_cksum_v4 :
  ip_v (ld8 b buf) = 4 → 20 <= ip4_hl (ld8 b buf) <= len →
  payload_cksum b buf len =
    Done (65535 - oc_fold (oc_sum (pseudo_hdr b buf)
      + oc_sum (ldn b (buf + hdr_len b buf) (Z.to_nat (len - Z.of_nat (hdr_len b buf)))))).
Proof.
  intros Hv Hhl. unfold payload_cksum, pseudo_hdr, hdr_len. rewrite Hv. cbn [Z.eqb Pos.eqb].
  pose proof (ld8_range b (buf + Ip4.p) Hb) as Hp. unfold Ip4.src, Ip4.dst in *.
  rewrite !(csum_oc16_sum b _ Hb 4) by lia. cbn [mbind outcome_bind].
  fold (ip4_data_len b buf). change (buf + Ip4.vhl)%nat with (buf + 0)%nat.
  set (x := u16 _). assert (Hx : x = ip4_data_len b buf).
  { unfold x, ip4_data_len, Ip4.vhl. by rewrite Nat.add_0_r. }
  rewrite Hx. clearbody x. subst x. rewrite csum_plen. cbn [mbind outcome_bind].
  replace (ip4_hl (ld8 b buf)) with (Z.of_nat (Z.to_nat (ip4_hl (ld8 b buf)))) at 2 by lia.
  rewrite csum_payload by lia. cbn [mbind outcome_bind].
  pose proof (payload_sum_bound (Z.to_nat (ip4_hl (ld8 b buf))) ltac:(lia)) as Hs.
  pose proof (ldn_sum_bound b (buf + 12) Hb 4 ltac:(lia)) as H1.
  pose proof (ldn_sum_bound b (buf + 16) Hb 4 ltac:(lia)) as H2.
  pose proof (bswap16_range (ip4_data_len b buf)) as H3.
  change (Z.of_nat (4 + 1) / 2) with 2 in *.
  rewrite Z.shiftl_mul_pow2 by lia. change (2 ^ 8) with 256. change (Z.to_nat 4) with 4%nat.
  rewrite !oc_sum_app by (rewrite length_ldn by lia; by exists 2%nat).
  change (oc_sum ([0; ?p] ++ be16 ?x)) with (0 + 256 * p + oc_sum (be16 x)).
  rewrite oc_sum_be16 by apply u16_range. cbn [oc_sum].
  unfold is_u8, is_u16 in *.
  u32_simpl.
  rewrite csum_oc16_reduce_fold by (unfold is_u32; lia). do 3 f_equal. lia.
Qed.

(** The sum the IPv6 branch folds: the next header lands in the wrong half of
    the sum, which is congruent. *)
Lemma payload_cksum_v6 :
  ip_v (ld8 b buf) ≠ 4 → 40 <= len → ld8 b (buf + Ip6.next_hdr) < 128 →
  payload_cksum b buf len =
    Done (65535 - oc_fold (oc_sum (pseudo_hdr b buf)
      + oc_sum (ldn b (buf + hdr_len b buf) (Z.to_nat (len - Z.of_nat (hdr_len b buf)))))).
Proof.
  intros Hv Hhl Hnh. unfold payload_cksum, pseudo_hdr, hdr_len.
  rewrite (proj2 (Z.eqb_neq _ _) Hv).
  pose proof (ld8_range b (buf + Ip6.next_hdr) Hb) as Hp.
  unfold Ip6.src, Ip6.dst, Ip6.len in *.
  rewrite !(csum_oc16_sum b _ Hb 16) by lia. rewrite !(csum_oc16_sum b _ Hb 2) by lia.
  cbn [mbind outcome_bind]. rewrite Nat2Z.id, csum_payload by (unfold Ip6.size; lia).
  cbn [mbind outcome_bind].
  pose proof (payload_sum_bound Ip6.size ltac:(unfold Ip6.size; lia)) as Hs.
  pose proof (ldn_sum_bound b (buf + 8) Hb 16 ltac:(lia)) as H1.
  pose proof (ldn_sum_bound b (buf + 24) Hb 16 ltac:(lia)) as H2.
  pose proof (ldn_sum_bound b (buf + 4) Hb 2 ltac:(lia)) as H3.
  change (Z.of_nat (16 + 1) / 2) with 8 in *. change (Z.of_nat (2 + 1) / 2) with 1 in *.
  rewrite Z.shiftl_mul_pow2 by lia. change (2 ^ 24) with 16777216.
  change (Z.to_nat 16) with 16%nat. change (Z.to_nat 2) with 2%nat.
  rewrite !oc_sum_app by (rewrite length_ldn by lia; by exists 8%nat).
  cbn [app oc_sum]. rewrite oc_sum_app by (rewrite length_ldn by lia; by exists 1%nat).
  cbn [oc_sum]. unfold is_u8 in *.
  u32_simpl.
  rewrite csum_oc16_reduce_fold by (unfold is_u32; lia). do 2 f_equal.
  apply oc_fold_eq; [lia|lia| |lia].
  set (nh := ld8 b (buf + Ip6.next_hdr)) in *.
  match goal with |- ?l mod _ = ?r mod _ =>
    replace l with (r + nh * 256 * 65535) by lia end.
  by rewrite Z_mod_plus_full.
Qed.
End Payload.

(** What the senders and receivers guarantee of a packet: an IPv4 header without
    underflowing length, or an IPv6 header with a next header below 128 (UDP is
    17, ICMPv6 58), and all of it inside the buffer. *)
Record payload_ok (b : bytes) (buf : nat) (len : Z) : Prop := {
  po_bytes : is_bytes b;
  po_len : 0 <= len <= 65535;
  po_fits : Z.of_nat buf + len <= Z.of_nat (length b);
  po_hdr : if ip_v (ld8 b buf) =? 4 then 20 <= ip4_hl (ld8 b buf) <= len
           else 40 <= len ∧ ld8 b (buf + Ip6.next_hdr) < 128
}.
Definition payload_bytes (b : bytes) (buf : nat) (len : Z) : bytes :=
  ldn b (buf + hdr_len b buf) (Z.to_nat (len - Z.of_nat (hdr_len b buf))).

Lemma hdr_len_bounds b buf len :
  payload_ok b buf len → 20 <= Z.of_nat (hdr_len b buf) <= len.
Proof.
  intros [_ _ _ H]. unfold hdr_len, Ip6.size. destruct (ip_v (ld8 b buf) =? 4); lia.
Qed.

Lemma payload_cksum_sum b buf len :
  payload_ok b buf len →
  payload_cksum b buf len =
    Done (65535 - oc_fold (oc_sum (pseudo_hdr b buf) + oc_sum (payload_bytes b buf len))).
Proof.
  intros [Hb Hlen Hl H]. unfold payload_bytes.
  destruct (Z.eqb_spec (ip_v (ld8 b buf)) 4) as [Hv|Hv].
  - by apply payload_cksum_v4.
  - destruct H. by apply payload_cksum_v6.
Qed.

Lemma pseudo_hdr_bytes b buf len :
  payload_ok b buf len →
  is_bytes (pseudo_hdr b buf) ∧ Nat.Even (length (pseudo_hdr b buf)).
Proof.
  intros [Hb Hlen Hl H]. unfold pseudo_hdr, Ip4.src, Ip4.dst, Ip6.src, Ip6.dst, Ip6.len.
  pose proof (ld8_range b (buf + Ip4.p) Hb). pose proof (ld8_range b (buf + Ip6.next_hdr) Hb).
  assert (is_u8 0) by done.
  assert (is_bytes (be16 (ip4_data_len b buf))).
  { pose proof (u16_range (bswap16 (ld16 b (buf + Ip4.len)) - ip4_hl (ld8 b (buf + Ip4.vhl)))).
    unfold ip4_data_len. unfold be16. unfold is_u16 in *.
    repeat constructor; unfold is_u8; zdm. }
  destruct (ip_v (ld8 b buf) =? 4); split.
  - rewrite !Forall_app. split_and!; auto with wc.
  - rewrite !length_app, !length_ldn by lia. by exists 6%nat.
  - rewrite !Forall_app. split_and!; auto with wc.
  - rewrite !length_app, !length_ldn by lia. by exists 20%nat.
Qed.

(** C17: Payload_cksum is the RFC 768 / RFC 8200 checksum of pseudo-header and payload,
    although it adds the IPv6 next header to the other half of the sum. *)
Theorem payload_cksum_rfc (b : bytes) (buf : nat) (len : Z) :
  payload_ok b buf len →
  ∃ c, payload_cksum b buf len = Done c ∧ is_u16 c ∧
    bswap16 c = rfc1071 (pseudo_hdr b buf ++ payload_bytes b buf len).
Proof.
  intros H. destruct (pseudo_hdr_bytes _ _ _ H) as [Hp He].
  assert (is_bytes (pseudo_hdr b buf ++ payload_bytes b buf len)) as Ha.
  { apply Forall_app. split; [done|]. apply ldn_is_bytes, H. }
  rewrite payload_cksum_sum, <- oc_sum_app by done. eexists. split; [done|].
  split; [|by apply rfc1071_compl].
  pose proof (oc_fold_range _ (proj1 (oc_sum_bound _ Ha))). unfold_u. lia.
Qed.

(** A store into the payload changes neither the headers nor the pseudo-header. *)
Section PayloadStore.
Context (b : bytes) (buf k : nat) (len v : Z).
Hypothesis Hok : payload_ok b buf len.
Hypothesis Hk : Z.of_nat (hdr_len b buf) + 2 * Z.of_nat k + 2 <= len.
Let pos := (buf + hdr_len b buf + 2 * k)%nat.
Let b' := st16 b pos v.

Lemma store_hdr o n : (o + n <= hdr_len b buf)%nat → ldn b' (buf + o) n = ldn b (buf + o) n.
Proof.
  intros. pose proof (po_fits _ _ _ Hok). pose proof (hdr_len_bounds _ _ _ Hok).
  apply ldn_st16_ne; unfold pos; lia.
Qed.

Lemma store_vhl : ld8 b' buf = ld8 b buf.
Proof.
  unfold ld8. rewrite <- (Nat.add_0_r buf) at 1 2. rewrite store_hdr; [done|].
  pose proof (hdr_len_bounds _ _ _ Hok). lia.
Qed.

Lemma store_hdr_len : hdr_len b' buf = hdr_len b buf.
Proof. unfold hdr_len. by rewrite store_vhl. Qed.

Lemma store_pseudo : pseudo_hdr b' buf = pseudo_hdr b buf.
Proof.
  pose proof (hdr_len_bounds _ _ _ Hok) as Hh.
  unfold pseudo_hdr, ip4_data_len, ld16. rewrite store_vhl.
  unfold ld8, Ip4.vhl, Ip4.src, Ip4.dst, Ip4.p, Ip4.len, Ip6.src, Ip6.dst, Ip6.len, Ip6.next_hdr.
  destruct (ip_v _ =? 4) eqn:Ev.
  - by rewrite !store_hdr by lia.
  - assert (hdr_len b buf = 40)%nat by (unfold hdr_len, ld8; by rewrite Ev).
    by rewrite !store_hdr by lia.
Qed.

Lemma store_payload_ok : payload_ok b' buf len.
Proof.
  pose proof (hdr_len_bounds _ _ _ Hok) as Hh. destruct Hok as [Hb Hlen Hl H]. split.
  - by apply st16_is_bytes.
  - done.
  - unfold b'. rewrite length_st16 by (unfold pos; lia). done.
  - rewrite store_vhl. destruct (ip_v _ =? 4); [done|]. unfold ld8 in *.
    rewrite store_hdr; [done|]. unfold Ip6.next_hdr. lia.
Qed.

Lemma store_payload_sum :
  is_u16 v →
  oc_sum (payload_bytes b' buf len) = oc_sum (payload_bytes b buf len) - ld16 b pos + v.
Proof.
  intros. pose proof (po_fits _ _ _ Hok). unfold payload_bytes. rewrite store_hdr_len.
  apply oc_sum_st16; [lia|lia|done].
Qed.
End PayloadStore.

(** The same for the payload checksum. *)
Lemma payload_cksum_store (b : bytes) (buf k : nat) (len : Z) :
  payload_ok b buf len → Z.of_nat (hdr_len b buf) + 2 * Z.of_nat k + 2 <= len →
  let pos := (buf + hdr_len b buf + 2 * k)%nat in
  let b0 := st16 b pos 0 in
  ∃ c, payload_cksum b0 buf len = Done c ∧
    payload_cksum (st16 b0 pos c) buf len = Done 0.
Proof.
  intros Hok Hk pos b0. pose proof (po_fits _ _ _ Hok).
  pose proof (store_payload_ok b buf k len 0 Hok Hk) as Hok0. fold pos b0 in Hok0.
  pose proof (store_hdr_len b buf k len 0 Hok Hk) as Hh. fold pos b0 in Hh.
  assert (ld16 b0 pos = 0) as E0 by (apply (ld16_st16_eq b pos 0); unfold pos; lia).
  pose proof (oc_sum_bound _ (proj1 (pseudo_hdr_bytes _ _ _ Hok0))) as [Hp _].
  pose proof (oc_sum_bound (payload_bytes b0 buf len) ltac:(apply ldn_is_bytes, Hok0)) as [Hs _].
  rewrite payload_cksum_sum by done. eexists. split; [done|].
  set (c := 65535 - oc_fold _).
  assert (is_u16 c) by (pose proof (oc_fold_range _ ltac:(apply (Z.add_nonneg_nonneg _ _ Hp Hs)));
    unfold c; unfold_u; lia).
  assert (Hk0 : Z.of_nat (hdr_len b0 buf) + 2 * Z.of_nat k + 2 <= len) by (by rewrite Hh).
  pose proof (store_payload_ok b0 buf k len c Hok0 Hk0) as Hok1.
  pose proof (store_pseudo b0 buf k len c Hok0 Hk0) as Ep.
  pose proof (store_payload_sum b0 buf k len c Hok0 Hk0 ltac:(done)) as Es.
  rewrite Hh in Hok1, Ep, Es. fold pos in Hok1, Ep, Es.
  rewrite payload_cksum_sum, Ep, Es, E0, Z.sub_0_r, Z.add_assoc by done. unfold c.
  rewrite cksum_store; [done|lia].
Qed.

(** The payload checksum computed with a zeroed checksum field and stored into it makes
    the receiver-side computation return 0. *)
Theorem payload_cksum_roundtrip (b : bytes) (buf k : nat) (len : Z) :
  payload_ok b buf len → Z.of_nat (hdr_len b buf) + 2 * Z.of_nat k + 2 <= len →
  let pos := (buf + hdr_len b buf + 2 * k)%nat in
  let b0 := st16 b pos 0 in
  ∃ c, payload_cksum b0 buf len = Done c ∧
    payload_cksum (st16 b0 pos c) buf len = Done 0.
Proof.
  intros Hok Hk pos b0. destruct (payload_cksum_store b buf k len) as (c & E1 & E2); [done..|].
  by exists c.
Qed.

(** ** Incremental updates *)

Lemma oc_sum_st32 b o n k v :
  (o + n <= length b)%nat → (2 * k + 4 <= n)%nat → is_u32 v →
  oc_sum (ldn (st32 b (o + 2 * k) v) o n) =
    oc_sum (ldn b o n) - ld16 b (o + 2 * k) - ld16 b (o + 2 * k + 2) + v mod 65536 + v / 65536.
Proof.
  intros Hl Hk Hv. rewrite st32_st16 by lia. rewrite <- (st16_u16 b).
  replace (o + 2 * k + 2)%nat with (o + 2 * (k + 1))%nat by lia.
  rewrite oc_sum_st16; [|rewrite length_st16; lia|lia|unfold_u; zdm].
  rewrite oc_sum_st16 by (lia || auto with wc).
  assert (ld16 (st16 b (o + 2 * k) (u16 v)) (o + 2 * (k + 1)) = ld16 b (o + 2 * (k + 1))) as ->
    by (unfold ld16; by rewrite ldn_st16_ne by lia).
  unfold u16. lia.
Qed.

(** The incremental update of a checksum for a changed 32-bit field is the checksum of
    the changed data. *)
Theorem ip_cksum_update32_correct (b : bytes) (buf k : nat) (len new c c' : Z) :
  is_bytes b → 0 <= len <= 65535 → Z.of_nat buf + len <= Z.of_nat (length b) →
  2 * Z.of_nat k + 4 <= len → is_u32 new →
  ip_cksum b buf len = Done c → ip_cksum (st32 b (buf + 2 * k) new) buf len = Done c' →
  c ≠ 0xffff → c' ≠ 0xffff →
  ip_cksum_update32 c (ld32 b (buf + 2 * k)) new = Done c'.
Proof.
  intros Hb Hlen Hl Hk Hnew Hc Hc' Hz Hz'.
  pose proof (ldn_sum_bound b buf Hb (Z.to_nat len) ltac:(lia)) as [Hs _].
  assert (0 <= oc_sum (ldn (st32 b (buf + 2 * k) new) buf (Z.to_nat len))) as Hs'.
  { apply oc_sum_bound, ldn_is_bytes, stn_is_bytes; auto with wc. }
  rewrite ip_cksum_sum in Hc by done. apply Done_inj in Hc.
  rewrite ip_cksum_sum in Hc'; [|apply stn_is_bytes; auto with wc|done|
    unfold st32; rewrite length_stn by (rewrite length_le_bytes; lia); lia].
  apply Done_inj in Hc'.
  rewrite oc_sum_st32 in Hc', Hs' by (lia || done).
  rewrite ld32_ld16 by lia.
  set (lo := ld16 b (buf + 2 * k)) in *. set (hi := ld16 b (buf + 2 * k + 2)) in *.
  assert (is_u16 lo) by (by apply ld16_range). assert (is_u16 hi) by (by apply ld16_range).
  clearbody lo hi. set (s := oc_sum _) in *. clearbody s.
  pose proof (oc_fold_range s Hs). pose proof (oc_fold_zero s Hs) as Hzs.
  pose proof (oc_fold_zero _ Hs') as Hzs'. pose proof (oc_fold_mod s) as Hm.
  unfold ip_cksum_update32. unfold is_u16, is_u32 in *.
  rewrite !Z.shiftr_div_pow2, !land_ffff by lia. change (2 ^ 16) with 65536.
  replace (u16 (Z.lnot c)) with (oc_fold s) by (unfold u16, Z.lnot; zdm).
  replace (u32 (Z.lnot (lo + 65536 * hi))) with (65535 - lo + 65536 * (65535 - hi))
    by (unfold u32, Z.lnot; zdm).
  replace ((65535 - lo + 65536 * (65535 - hi)) / 65536) with (65535 - hi) by zdm.
  replace ((65535 - lo + 65536 * (65535 - hi)) mod 65536) with (65535 - lo) by zdm.
  rewrite u32_id by (unfold is_u32; zdm). rewrite csum_oc16_reduce_fold by (unfold is_u32; zdm).
  f_equal. rewrite <- Hc'. f_equal. apply oc_fold_eq; [zdm|lia| |zdm].
  replace (oc_fold s + (65535 - hi) + (65535 - lo) + new / 65536 + new mod 65536)
    with (oc_fold s + (new mod 65536 + new / 65536 - hi - lo) + 2 * 65535) by lia.
  rewrite Z_mod_plus_full, <- Z.add_mod_idemp_l, Hm, Z.add_mod_idemp_l by lia.
  f_equal. lia.
Qed.

(** [ip_cksum_update16] complements the old data twice, so it does not give the
    checksum of the changed data. *)
Lemma ip_cksum_update16_wrong :
  ip_cksum [1; 1] 0 2 = Done 0xfefe ∧ ip_cksum [2; 1] 0 2 = Done 0xfefd ∧
  ip_cksum_update16 0xfefe 0x0101 0x0102 = Done 0xfcfb.
Proof. by vm_compute. Qed.

(** ** Witnesses *)

(** A UDP packet of 32 bytes from 10.0.0.1 to 10.0.0.2 in an IPv4 header. *)
Definition cksum_ex4 : bytes :=
  [0x45; 0; 0; 32; 0; 0; 0x40; 0; 64; 17; 0; 0; 10; 0; 0; 1; 10; 0; 0; 2;
   0x30; 0x39; 0x10; 0xe1; 0; 12; 0; 0; 0xde; 0xad; 0xbe; 0xef].

Lemma cksum_ex4_bytes : is_bytes cksum_ex4.
Proof. by apply (bool_decide_unpack (Forall _ _)). Qed.

Lemma cksum_ex4_ok : payload_ok cksum_ex4 0 32.
Proof. split; [apply cksum_ex4_bytes|lia|by vm_compute|by vm_compute]. Qed.

Lemma ip_cksum_rfc1071_witness :
  ∃ c, ip_cksum cksum_ex4 0 20 = Done c ∧ bswap16 c = rfc1071 (take 20 cksum_ex4).
Proof.
  destruct (ip_cksum_rfc1071 cksum_ex4 0 20 cksum_ex4_bytes) as [H _]; [lia|].
  destruct H as (c & ? & _ & ?); [by vm_compute|]. by exists c.
Defined.

Lemma ip_cksum_roundtrip_witness :
  ∃ c, ip_cksum cksum_ex4 0 20 = Done c ∧ ip_cksum (st16 cksum_ex4 10 c) 0 20 = Done 0.
Proof.
  apply (ip_cksum_roundtrip cksum_ex4 0 5 20 cksum_ex4_bytes); [lia|by vm_compute|lia].
Defined.

(** Exchanging 0 for 0xffff is the one change of a word that goes undetected. *)
Lemma ip_cksum_detects_witness :
  let b := st16 cksum_ex4 10 0xcb26 in
  ip_cksum b 0 20 = Done 0 ∧ ip_cksum (st16 b 4 0xffff) 0 20 = Done 0 ∧
  (0xffff = ld16 b 4 ∨ (ld16 b 4 = 0 ∧ 0xffff = 0xffff) ∨ (ld16 b 4 = 0xffff ∧ 0xffff = 0)).
Proof.
  intros b. split; [by vm_compute|]. split; [by vm_compute|].
  apply (ip_cksum_detects b 0 2 20 0xffff);
    [apply st16_is_bytes, cksum_ex4_bytes|lia|by vm_compute|lia|unfold_u; lia
    |by vm_compute|by vm_compute].
Defined.

Lemma payload_cksum_rfc_witness :
  ∃ c, payload_cksum cksum_ex4 0 32 = Done c ∧
    bswap16 c = rfc1071 ([10; 0; 0; 1; 10; 0; 0; 2; 0; 17; 0; 12] ++ drop 20 cksum_ex4).
Proof.
  destruct (payload_cksum_rfc cksum_ex4 0 32 cksum_ex4_ok) as (c & ? & _ & ?). by exists c.
Defined.

Lemma payload_cksum_roundtrip_witness :
  ∃ c, payload_cksum cksum_ex4 0 32 = Done c ∧
    payload_cksum (st16 cksum_ex4 26 c) 0 32 = Done 0.
Proof. apply (payload_cksum_roundtrip cksum_ex4 0 3 32 cksum_ex4_ok). by vm_compute. Defined.

Lemma ip_cksum_update32_correct_witness :
  ∃ c c', ip_cksum cksum_ex4 0 20 = Done c ∧
    ip_cksum (st32 cksum_ex4 16 0x0300000a) 0 20 = Done c' ∧
    ip_cksum_update32 c 0x0200000a 0x0300000a = Done c'.
Proof.
  eexists _, _. split; [vm_compute; reflexivity|]. split; [vm_compute; reflexivity|].
  apply (ip_cksum_update32_correct cksum_ex4 0 8 20 0x0300000a _ _ cksum_ex4_bytes);
    try (by vm_compute); unfold_u; lia.
Defined.
