(* ===== verification/Addr.v ===== *)
(** Addresses (lib/include/warpcore/warpcore.h, lib/src/warpcore.c, neighbor.h,
    ip4.c, ip6.c): IP addresses, socket addresses and socket tuples with their
    comparisons and hashes, the conversions from and to [struct sockaddr],
    netmasks, and the address configuration of an interface. *)

From S2P Require Import Prelude Util Wire.

(** ** Data *)

Definition AF_INET : Z := 2.
Definition AF_INET6 : Z := 10.
Definition IP4_LEN : nat := 4.

(** [struct w_addr]: the family and the 16 bytes of the union of [ip4] and [ip6]. *)
Record w_addr := WAddr { af : Z; un : bytes }.
Definition ip4 (a : w_addr) : Z := ld32 (un a) 0.
Definition ip6 (a : w_addr) : bytes := un a.

Record w_sockaddr := WSockaddr { sa_addr : w_addr; sa_port : Z }.
Record w_socktuple := WSocktuple { local : w_sockaddr; remote : w_sockaddr; scope_id : Z }.

(** [struct w_ifaddr], its unions as their 16 bytes. *)
Record w_ifaddr := WIfaddr {
  ia_addr : w_addr;
  ia_bcast : bytes;
  ia_snma : bytes;
  ia_scope_id : Z;
  ia_prefix : Z
}.
Definition bcast4 (ia : w_ifaddr) : Z := ld32 (ia_bcast ia) 0.
Definition bcast6 (ia : w_ifaddr) : bytes := ia_bcast ia.
Definition snma6 (ia : w_ifaddr) : bytes := ia_snma ia.

(** The part of [struct w_engine] that [backend_addr_config] fills in. *)
Record ifconf := IfConf {
  mtu : Z;
  mac : bytes;
  addr_cnt : Z;
  addr4_pos : Z;
  have_ip4 : bool;
  have_ip6 : bool;
  ifaddr : list w_ifaddr
}.

Definition af_len (af : Z) : nat := if af =? AF_INET then IP4_LEN else IP6_LEN.
Definition ip_hdr_len (af : Z) : Z := if af =? AF_INET then 20 else 40.

(** [struct sockaddr] as the union of its IPv4, IPv6 and other variants. *)
Inductive sockaddr :=
| SockaddrIn (sin_port : Z) (sin_addr : bytes)
| SockaddrIn6 (sin6_port : Z) (sin6_flowinfo : Z) (sin6_addr : bytes) (sin6_scope_id : Z)
| SockaddrOther (sa_family : Z).

(** ** Comparison and hashing *)

Definition bytes_eqb (a b : bytes) : bool := bool_decide (a = b).
Definition ip6_eql (a b : bytes) : bool := bytes_eqb (take IP6_LEN a) (take IP6_LEN b).

Definition w_addr_cmp (a b : w_addr) : bool :=
  (af a =? af b) && (if af a =? AF_INET then ip4 a =? ip4 b else ip6_eql (ip6 a) (ip6 b)).
Definition w_sockaddr_cmp (a b : w_sockaddr) : bool :=
  (sa_port a =? sa_port b) && w_addr_cmp (sa_addr a) (sa_addr b).
Definition w_socktuple_cmp (a b : w_socktuple) : bool :=
  w_sockaddr_cmp (local a) (local b) && w_sockaddr_cmp (remote a) (remote b).

Definition w_addr_hash (addr : w_addr) : Z :=
  if af addr =? AF_INET then Fnv.fnv1a_32 (ldn (un addr) 0 IP4_LEN)
  else Fnv.fnv1a_32 (ldn (un addr) 0 IP6_LEN).

(** The hash of a 16-bit port in memory. *)
Definition port_hash (port : Z) : Z := Fnv.fnv1a_32 (le_bytes 2 port).

Definition w_socktuple_hash (tup : w_socktuple) : Z :=
  u32 (u32 (w_addr_hash (sa_addr (local tup)) + port_hash (sa_port (local tup))) +
       (if af (sa_addr (remote tup)) =? 0 then 0
        else u32 (w_addr_hash (sa_addr (remote tup)) + port_hash (sa_port (local tup))))).

(** ** Conversions *)

(** [memcpy] of [src] over the start of [dst]. *)
Definition w_to_waddr (wa : w_addr) (sa : sockaddr) : bool * w_addr :=
  match sa with
  | SockaddrIn _ a => (true, WAddr AF_INET (stn (un wa) 0 (take IP4_LEN a)))
  | SockaddrIn6 _ _ a _ => (true, WAddr AF_INET6 (stn (un wa) 0 (take IP6_LEN a)))
  | SockaddrOther _ => (false, wa)
  end.

(** Written over [sa]; the flow information of an IPv6 address is not set. *)
Definition to_sockaddr (sa : sockaddr) (addr : w_addr) (port scope_id : Z) : sockaddr :=
  if af addr =? AF_INET then SockaddrIn port (ldn (un addr) 0 IP4_LEN)
  else
    let flow := match sa with SockaddrIn6 _ f _ _ => f | _ => 0 end in
    SockaddrIn6 port flow (ldn (un addr) 0 IP6_LEN) scope_id.

(** ** Netmasks and interface addresses *)

(** The first loop of [contig_mask_len]: the leading bytes 0xff. *)
Fixpoint mask_bytes_loop (fuel len : nat) (mask : bytes) (i : nat) (mask_len : Z)
    : outcome (nat * Z) :=
  match fuel with
  | O => NoFuel
  | S fuel =>
      if bool_decide (i < len)%nat then
        match mask !! i with
        | None => Fault
        | Some b =>
            if b =? 0xff then mask_bytes_loop fuel len mask (S i) (u8 (mask_len + 8))
            else Done (i, mask_len)
        end
      else Done (i, mask_len)
  end.

(** The second loop: shift the next byte out. *)
Fixpoint mask_bits_loop (fuel : nat) (val mask_len : Z) : outcome Z :=
  match fuel with
  | O => NoFuel
  | S fuel =>
      if val =? 0 then Done mask_len
      else mask_bits_loop fuel (u8 (Z.shiftl val 1)) (u8 (mask_len + 1))
  end.

Definition contig_mask_len (af : Z) (mask : bytes) : outcome Z :=
  '(i, mask_len) ← mask_bytes_loop (S (af_len af)) (af_len af) mask 0 0;
  if bool_decide (i < af_len af)%nat then
    match mask !! i with
    | None => Fault
    | Some val => mask_bits_loop 9 val mask_len
    end
  else Done mask_len.

Definition ip6_config (ia : w_ifaddr) (mask : bytes) : outcome w_ifaddr :=
  prefix ← contig_mask_len (af (ia_addr ia)) mask;
  let tmp6 := ip6_invert (take IP6_LEN mask) in
  mret (WIfaddr (ia_addr ia) (ip6_or (ip6 (ia_addr ia)) tmp6)
          (ip6_mk_snma (ip6 (ia_addr ia))) (ia_scope_id ia) prefix).

Definition w_is_linklocal (a : w_addr) : bool :=
  if af a =? AF_INET then Z.land (ip4 a) 0x0000ffff =? 0x0000fea9
  else (ld8 (un a) 0 =? 0xfe) && (Z.land (ld8 (un a) 1) 0xc0 =? 0x80).

Definition w_is_private (a : w_addr) : bool :=
  if af a =? AF_INET then
    (Z.land (ip4 a) 0x000000ff =? 0x0000000a) || (Z.land (ip4 a) 0x0000f0ff =? 0x000010ac) ||
    (Z.land (ip4 a) 0x0000ffff =? 0x0000a8c0)
  else (ld8 (un a) 0 =? 0xfe) && (Z.land (ld8 (un a) 1) 0xc0 =? 0x80).

(** The loops of [is_my_ip4] and [is_my_ip6]: the first index from [idx] whose
    interface address matches. *)
Fixpoint find_ifaddr (fuel : nat) (w : ifconf) (matches : w_ifaddr → bool) (idx : Z) : outcome Z :=
  match fuel with
  | O => NoFuel
  | S fuel =>
      if idx <? addr_cnt w then
        match ifaddr w !! Z.to_nat idx with
        | None => Fault
        | Some ia =>
            if matches ia then Done idx else find_ifaddr fuel w matches (u16 (idx + 1))
        end
      else Done UINT16_MAX
  end.

Definition match_ip4 (ip : Z) (match_bcast : bool) (ia : w_ifaddr) : bool :=
  (ip =? ip4 (ia_addr ia)) || (match_bcast && ((ip =? bcast4 ia) || (ip =? UINT32_MAX))).
Definition is_my_ip4 (w : ifconf) (ip : Z) (match_bcast : bool) : outcome Z :=
  find_ifaddr (S (Z.to_nat (addr_cnt w))) w (match_ip4 ip match_bcast) (addr4_pos w).

Definition match_ip6 (ip : bytes) (match_mcast : bool) (ia : w_ifaddr) : bool :=
  ip6_eql ip (ip6 (ia_addr ia)) ||
  (match_mcast && (ip6_eql ip (snma6 ia) || ip6_eql ip (bcast6 ia))).
Definition is_my_ip6 (w : ifconf) (ip : bytes) (match_mcast : bool) : outcome Z :=
  find_ifaddr (S (Z.to_nat (addr_cnt w))) w (match_ip6 ip match_mcast) 0.

(** * Theorems *)

Record w_addr_wf (a : w_addr) : Prop := {
  wf_af : is_u16 (af a);
  wf_un : is_bytes (un a);
  wf_len : length (un a) = 16%nat
}.

(** An IPv4 address written over the union. *)
Lemma set_ip4_wf u ip : is_bytes u → length u = 16%nat → w_addr_wf (WAddr AF_INET (stn u 0 (le_bytes 4 ip))).
Proof.
  intros Hu Hl. split; [done|by apply stn_is_bytes; auto with wc|].
  rewrite <- Hl. apply length_stn. rewrite length_le_bytes. lia.
Qed.

(** ** Comparison is equality of the significant parts *)

Lemma bytes_eqb_spec a b : bytes_eqb a b = true ↔ a = b.
Proof. apply bool_decide_eq_true. Qed.

(** What identifies an address: its family and the bytes its family uses. *)
Definition addr_key (a : w_addr) : Z * bytes := (af a, ldn (un a) 0 (af_len (af a))).

Lemma ldn_take b n : ldn b 0 n = take n b.
Proof. unfold ldn. by rewrite drop_0. Qed.

Lemma ip4_eqb a b :
  is_bytes (un a) → is_bytes (un b) → length (un a) = 16%nat → length (un b) = 16%nat →
  (ip4 a =? ip4 b) = true ↔ ldn (un a) 0 4 = ldn (un b) 0 4.
Proof.
  intros Ha Hb La Lb. rewrite Z.eqb_eq. unfold ip4, ld32. split; [|by intros ->].
  intros E. rewrite <- (le_bytes_val (ldn (un a) 0 4)), <- (le_bytes_val (ldn (un b) 0 4))
    by auto with wc.
  by rewrite !length_ldn, E by lia.
Qed.

Lemma w_addr_cmp_key a b :
  w_addr_wf a → w_addr_wf b → w_addr_cmp a b = true ↔ addr_key a = addr_key b.
Proof.
  intros [Ha1 Ha2 Ha3] [Hb1 Hb2 Hb3]. unfold w_addr_cmp, addr_key, af_len.
  rewrite andb_true_iff, Z.eqb_eq. destruct (Z.eqb_spec (af a) AF_INET) as [E|E].
  - rewrite ip4_eqb by done. split.
    + intros [Eaf El]. rewrite <- Eaf, E. cbn. by f_equal.
    + intros [= Eaf El]. split; [done|]. rewrite <- Eaf, E in El. done.
  - unfold ip6_eql. rewrite bytes_eqb_spec, !ldn_take. unfold ip6. split.
    + intros [Eaf El]. rewrite <- Eaf, (proj2 (Z.eqb_neq _ _) E). by f_equal.
    + intros [= Eaf El]. split; [done|]. by rewrite <- Eaf, (proj2 (Z.eqb_neq _ _) E) in El.
Qed.

Definition sockaddr_key (a : w_sockaddr) : Z * (Z * bytes) := (sa_port a, addr_key (sa_addr a)).
Definition tuple_key (t : w_socktuple) := (sockaddr_key (local t), sockaddr_key (remote t)).

Record w_socktuple_wf (t : w_socktuple) : Prop := {
  wf_local : w_addr_wf (sa_addr (local t));
  wf_remote : w_addr_wf (sa_addr (remote t))
}.

Lemma w_sockaddr_cmp_key a b :
  w_addr_wf (sa_addr a) → w_addr_wf (sa_addr b) →
  w_sockaddr_cmp a b = true ↔ sockaddr_key a = sockaddr_key b.
Proof.
  intros Ha Hb. unfold w_sockaddr_cmp, sockaddr_key.
  rewrite andb_true_iff, Z.eqb_eq, w_addr_cmp_key by done. split.
  - intros [H1 H2]. by rewrite H1, H2.
  - intros H. split; congruence.
Qed.

Lemma w_socktuple_cmp_key a b :
  w_socktuple_wf a → w_socktuple_wf b →
  w_socktuple_cmp a b = true ↔ tuple_key a = tuple_key b.
Proof.
  intros [Hal Har] [Hbl Hbr]. unfold w_socktuple_cmp, tuple_key.
  rewrite andb_true_iff, !w_sockaddr_cmp_key by done. split.
  - intros [H1 H2]. by rewrite H1, H2.
  - intros H. split; congruence.
Qed.

(** ** Hashes respect comparison *)

Lemma w_addr_hash_key a : w_addr_hash a = Fnv.fnv1a_32 (snd (addr_key a)).
Proof. unfold w_addr_hash, addr_key, af_len. simpl. by destruct (af a =? AF_INET). Qed.

Lemma w_addr_hash_compat a b :
  w_addr_wf a → w_addr_wf b → w_addr_cmp a b = true → w_addr_hash a = w_addr_hash b.
Proof. intros Ha Hb E. rewrite !w_addr_hash_key. by apply w_addr_cmp_key in E as ->. Qed.

Lemma w_socktuple_hash_compat a b :
  w_socktuple_wf a → w_socktuple_wf b →
  w_socktuple_cmp a b = true → w_socktuple_hash a = w_socktuple_hash b.
Proof.
  intros Ha Hb E%w_socktuple_cmp_key; [|done..].
  unfold tuple_key, sockaddr_key in E.
  assert (sa_port (local a) = sa_port (local b) ∧
    addr_key (sa_addr (local a)) = addr_key (sa_addr (local b)) ∧
    addr_key (sa_addr (remote a)) = addr_key (sa_addr (remote b))) as (Ep & El & Er)
    by (split_and!; congruence).
  assert (af (sa_addr (remote a)) = af (sa_addr (remote b))) as Ef by apply (f_equal fst Er).
  unfold w_socktuple_hash. by rewrite !w_addr_hash_key, El, Er, Ep, Ef.
Qed.

(** C32: Address and socket-tuple comparison are equivalence relations and equal keys have
    equal hashes, which the hash tables keyed by them rely on. *)
Theorem hash_cmp_compatible :
  (∀ a b c, w_addr_wf a → w_addr_wf b → w_addr_wf c →
    w_addr_cmp a a = true ∧ w_addr_cmp a b = w_addr_cmp b a ∧
    (w_addr_cmp a b = true → w_addr_cmp b c = true → w_addr_cmp a c = true) ∧
    (w_addr_cmp a b = true → w_addr_hash a = w_addr_hash b)) ∧
  (∀ s t u, w_socktuple_wf s → w_socktuple_wf t → w_socktuple_wf u →
    w_socktuple_cmp s s = true ∧ w_socktuple_cmp s t = w_socktuple_cmp t s ∧
    (w_socktuple_cmp s t = true → w_socktuple_cmp t u = true → w_socktuple_cmp s u = true) ∧
    (w_socktuple_cmp s t = true → w_socktuple_hash s = w_socktuple_hash t)).
Proof.
  split; intros a b c Ha Hb Hc; split_and!; try
    (apply Bool.eq_true_iff_eq; rewrite ?w_addr_cmp_key, ?w_socktuple_cmp_key by done;
     split; congruence);
    rewrite ?w_addr_cmp_key, ?w_socktuple_cmp_key by done; try congruence.
  - rewrite <- w_addr_cmp_key by done. by apply w_addr_hash_compat.
  - rewrite <- w_socktuple_cmp_key by done. by apply w_socktuple_hash_compat.
Qed.

(** The hash of a socket tuple does not depend on the remote port, so all connections
    to one peer from one local port collide. *)
Theorem w_socktuple_hash_ignores_remote_port (t : w_socktuple) (port : Z) :
  w_socktuple_hash (WSocktuple (local t) (WSockaddr (sa_addr (remote t)) port) (scope_id t)) =
    w_socktuple_hash t.
Proof. done. Qed.

(** ** Conversions *)

(** An address converted to a struct sockaddr and back compares equal to itself. *)
Theorem sockaddr_roundtrip (sa : sockaddr) (wa a : w_addr) (port scope : Z) :
  w_addr_wf a → w_addr_wf wa → af a = AF_INET ∨ af a = AF_INET6 →
  let '(ok, a') := w_to_waddr wa (to_sockaddr sa a port scope) in
  ok = true ∧ w_addr_wf a' ∧ w_addr_cmp a' a = true.
Proof.
  intros Ha Hwa Haf. pose proof Ha as [Ha1 Ha2 Ha3]. pose proof Hwa as [Hw1 Hw2 Hw3].
  assert (∀ n : nat, (n <= 16)%nat → ∀ f, is_u16 f → 
    w_addr_wf (WAddr f (stn (un wa) 0 (take n (ldn (un a) 0 n)))) ∧
    ldn (stn (un wa) 0 (take n (ldn (un a) 0 n))) 0 n = ldn (un a) 0 n) as H.
  { intros n Hn f Hf. rewrite (take_ge (ldn (un a) 0 n)) by (rewrite length_ldn; lia).
    assert (length (ldn (un a) 0 n) = n) as Hln by (rewrite length_ldn; lia).
    split; [split; simpl|].
    - done.
    - auto with wc.
    - rewrite length_stn; rewrite ?Hln; lia.
    - rewrite <- Hln at 2. apply ldn_stn_eq. rewrite Hln. lia. }
  unfold to_sockaddr. destruct Haf as [E|E]; rewrite E; cbn [Z.eqb AF_INET AF_INET6 Pos.eqb w_to_waddr].
  - destruct (H IP4_LEN ltac:(unfold IP4_LEN; lia) AF_INET ltac:(done)) as [Hwf Hk].
    split_and!; [done|done|]. apply w_addr_cmp_key; [done..|].
    unfold addr_key. simpl in *. rewrite E. by f_equal.
  - destruct (H IP6_LEN ltac:(unfold IP6_LEN; lia) AF_INET6 ltac:(done)) as [Hwf Hk].
    split_and!; [done|done|]. apply w_addr_cmp_key; [done..|].
    unfold addr_key. simpl in *. rewrite E. by f_equal.
Qed.

(** ** Netmasks *)

(** Byte [i] of the netmask of prefix length [p], and the mask of [n] bytes. *)
Definition prefix_byte (p i : Z) : Z :=
  if 8 * (i + 1) <=? p then 255 else if p <=? 8 * i then 0 else 256 - 2 ^ (8 - (p - 8 * i)).
Definition prefix_mask (n : nat) (p : Z) : bytes := (λ i, prefix_byte p (Z.of_nat i)) <$> seq 0 n.

(** All numbers below [n], to decide bounded statements by computation. *)
Definition below (n : nat) : list Z := Z.of_nat <$> seq 0 n.
Lemma elem_of_below n x : 0 <= x < Z.of_nat n → x ∈ below n.
Proof.
  intros. apply list_elem_of_fmap. exists (Z.to_nat x). split; [lia|]. apply elem_of_seq. lia.
Qed.
Lemma below_forallb n (f : Z → bool) :
  forallb f (below n) = true → ∀ x, 0 <= x < Z.of_nat n → f x = true.
Proof.
  intros H x Hx. rewrite forallb_forall in H. apply H, list_elem_of_In. by apply elem_of_below.
Qed.

Lemma mask_bytes_loop_spec fuel len mask i :
  (len - i < fuel)%nat → (i <= len <= length mask)%nat → (len <= 16)%nat →
  ∃ j, mask_bytes_loop fuel len mask i (8 * Z.of_nat i) = Done (j, 8 * Z.of_nat j) ∧
    (i <= j <= len)%nat.
Proof.
  revert i. induction fuel as [|fuel IH]; intros i Hf Hi Hl; [lia|].
  cbn [mask_bytes_loop]. case_bool_decide as Hlt; [|exists i; split; [done|lia]].
  destruct (lookup_lt_is_Some_2 mask i) as [b Hb]; [lia|]. rewrite Hb.
  destruct (b =? 0xff); [|exists i; split; [done|lia]].
  replace (u8 (8 * Z.of_nat i + 8)) with (8 * Z.of_nat (S i)) by (unfold u8; zdm).
  destruct (IH (S i)) as (j & -> & ?); [lia..|]. exists j. split; [done|lia].
Qed.

(** Decided for all bytes and positions. *)
Lemma mask_bits_loop_spec b j :
  is_u8 b → 0 <= j < 16 →
  ∃ p, mask_bits_loop 9 b (8 * j) = Done p ∧ 0 <= p <= 8 * (j + 1).
Proof.
  intros Hb Hj.
  assert (forallb (λ b, forallb (λ j, match mask_bits_loop 9 b (8 * j) with
    | Done p => (0 <=? p) && (p <=? 8 * (j + 1)) | _ => false end) (below 16)) (below 256) = true)
    as H by (vm_compute; reflexivity).
  pose proof (below_forallb _ _ (below_forallb _ _ H b Hb) j Hj) as E. cbv beta in E. clear H.
  destruct (mask_bits_loop 9 b (8 * j)) as [p| | |]; [|done..].
  exists p. split; [done|]. apply andb_true_iff in E as [?%Z.leb_le ?%Z.leb_le]. done.
Qed.

Lemma contig_mask_len_prefix af p :
  0 <= p <= 8 * Z.of_nat (af_len af) → contig_mask_len af (prefix_mask (af_len af) p) = Done p.
Proof.
  assert (∀ a n, n = Z.of_nat (af_len a) → forallb (λ p, match contig_mask_len a
    (prefix_mask (af_len a) p) with Done q => q =? p | _ => false end)
      (below (Z.to_nat (8 * n + 1))) = true → 0 <= p <= 8 * n →
    contig_mask_len a (prefix_mask (af_len a) p) = Done p) as H.
  { intros a n Hn H Hp. pose proof (below_forallb _ _ H p ltac:(lia)) as E. cbv beta in E. clear H.
    destruct (contig_mask_len a _) as [q| | |]; [|done..]. by apply Z.eqb_eq in E as ->. }
  unfold af_len in *. destruct (Z.eqb_spec af AF_INET) as [->|Hne]; intros Hp.
  - apply (H AF_INET 4); [done|vm_compute; reflexivity|done].
  - specialize (H AF_INET6 16 eq_refl ltac:(vm_compute; reflexivity) Hp).
    unfold contig_mask_len, af_len in *. cbn [Z.eqb AF_INET AF_INET6 Pos.eqb] in *.
    by rewrite (proj2 (Z.eqb_neq _ _) Hne).
Qed.

Lemma contig_mask_len_run (af : Z) (mask : bytes) :
  is_bytes mask → length mask = af_len af →
  ∃ p, contig_mask_len af mask = Done p ∧ 0 <= p <= 8 * Z.of_nat (af_len af).
Proof.
  intros Hm Hl.
  assert (af_len af <= 16)%nat by (unfold af_len, IP4_LEN, IP6_LEN; destruct (_ =? _); lia).
  unfold contig_mask_len.
  destruct (mask_bytes_loop_spec (S (af_len af)) (af_len af) mask 0) as (j & Ej & Hj); [lia..|].
  change (8 * Z.of_nat 0) with 0 in Ej. rewrite Ej. cbn [mbind outcome_bind].
  case_bool_decide as Hlt; [|exists (8 * Z.of_nat j); split; [done|lia]].
  destruct (lookup_lt_is_Some_2 mask j) as [b Hb]; [lia|]. rewrite Hb.
  destruct (mask_bits_loop_spec b (Z.of_nat j)) as (p & -> & ?);
    [by eapply Forall_lookup_1 in Hb|lia|]. exists p. split; [done|lia].
Qed.

(** Contig_mask_len terminates inside the mask, never exceeds the address width and
    returns the prefix length of every contiguous mask. *)
Theorem contig_mask_len_correct (af : Z) (mask : bytes) :
  is_bytes mask → length mask = af_len af →
  ∃ p, contig_mask_len af mask = Done p ∧ 0 <= p <= 8 * Z.of_nat (af_len af) ∧
    ∀ q, 0 <= q <= 8 * Z.of_nat (af_len af) → mask = prefix_mask (af_len af) q → p = q.
Proof.
  intros Hm Hl. destruct (contig_mask_len_run af mask Hm Hl) as (p & E & Hp).
  exists p. split_and!; [done|lia|lia|]. intros q Hq ->.
  rewrite contig_mask_len_prefix in E by done. congruence.
Qed.

(** ** Interface addresses *)

(** Bit [n] of an address, counted from its first (most significant) bit. *)
Definition addr_bit (a : bytes) (n : nat) : bool :=
  Z.testbit (default 0 (a !! (n / 8)%nat)) (7 - Z.of_nat (n mod 8)).

Lemma prefix_byte_testbit p i j :
  0 <= p <= 128 → 0 <= i < 16 → 0 <= j < 8 →
  Z.testbit (prefix_byte p i) (7 - j) = (8 * i + j <? p).
Proof.
  intros Hp Hi Hj.
  assert (forallb (λ p, forallb (λ i, forallb (λ j,
    eqb (Z.testbit (prefix_byte p i) (7 - j)) (8 * i + j <? p)) (below 8)) (below 16)) (below 129)
    = true) as H by (vm_compute; reflexivity).
  apply eqb_prop.
  exact (below_forallb _ _ (below_forallb _ _ (below_forallb _ _ H p ltac:(lia)) i Hi) j Hj).
Qed.

Lemma u8_lnot_testbit b j : 0 <= j < 8 → Z.testbit (u8 (Z.lnot b)) j = negb (Z.testbit b j).
Proof.
  intros. unfold u8. change 256 with (2 ^ 8).
  rewrite Z.mod_pow2_bits_low, Z.lnot_spec by lia. done.
Qed.

(** The solicited-node address: the prefix ff02::1:ff00:0/104 and the last three
    bytes of the address. *)
Lemma ip6_mk_snma_spec src :
  is_bytes src → length src = 16%nat → ip6_mk_snma src = take 13 snma_pref ++ drop 13 src.
Proof.
  intros Hb Hl. do 16 (destruct src as [|? src]; [done|]). destruct src; [|done].
  repeat match goal with H : Forall _ (_ :: _) |- _ => apply Forall_cons in H as [? H] end.
  cbn. rewrite !Z.land_0_r, !land_ff. unfold is_u8 in *. by rewrite !Z.mod_small by done.
Qed.

(** For a contiguous mask, ip6_config keeps the prefix bits and sets all host bits of
    the broadcast address, and builds the solicited-node multicast address. *)
Theorem ip6_config_correct (ia : w_ifaddr) (q : Z) :
  w_addr_wf (ia_addr ia) → af (ia_addr ia) = AF_INET6 → 0 <= q <= 128 →
  ∃ ia', ip6_config ia (prefix_mask 16 q) = Done ia' ∧ ia_prefix ia' = q ∧
    ia_addr ia' = ia_addr ia ∧ ia_scope_id ia' = ia_scope_id ia ∧
    (∀ n, (n < 128)%nat →
      addr_bit (bcast6 ia') n =
        if Z.of_nat n <? q then addr_bit (ip6 (ia_addr ia)) n else true) ∧
    snma6 ia' = [0xff; 2; 0; 0; 0; 0; 0; 0; 0; 0; 0; 1; 0xff] ++ drop 13 (ip6 (ia_addr ia)).
Proof.
  intros [_ Hb Hl] Haf Hq. unfold ip6_config. rewrite Haf.
  pose proof (contig_mask_len_prefix AF_INET6 q Hq) as E.
  change (af_len AF_INET6) with 16%nat in E. rewrite E. cbn [mbind outcome_bind].
  eexists. split; [done|]. cbn [ia_prefix ia_addr ia_scope_id].
  split_and!; [done..| |by apply ip6_mk_snma_spec].
  intros n Hn. unfold addr_bit, bcast6, ip6, ip6_or, ip6_invert. cbn [ia_bcast].
  pose proof (Nat.div_mod_eq n 8). pose proof (Nat.mod_upper_bound n 8 ltac:(lia)).
  remember (n / 8)%nat as k eqn:Ek. remember (n mod 8)%nat as r eqn:Er. clear Ek Er.
  destruct (lookup_lt_is_Some_2 (un (ia_addr ia)) k) as [a Ha]; [lia|].
  rewrite (lookup_zip_with), Ha. cbn [mbind option_bind].
  rewrite list_lookup_fmap, lookup_take_lt by (unfold IP6_LEN; lia).
  unfold prefix_mask. rewrite list_lookup_fmap, lookup_seq_lt by lia.
  cbn. rewrite Z.lor_spec, u8_lnot_testbit, prefix_byte_testbit by lia.
  replace (8 * Z.of_nat k + Z.of_nat r) with (Z.of_nat n) by lia.
  destruct (Z.of_nat n <? q); simpl; [apply orb_false_r|apply orb_true_r].
Qed.

Record ifconf_wf (w : ifconf) : Prop := {
  wf_cnt : Z.of_nat (length (ifaddr w)) = addr_cnt w;
  wf_max : addr_cnt w <= UINT16_MAX;
  wf_pos : 0 <= addr4_pos w;
  wf_mac : is_bytes (mac w) ∧ length (mac w) = 6%nat;
  wf_mtu : is_u16 (mtu w);
  wf_ifaddr : Forall (λ ia, w_addr_wf (ia_addr ia) ∧ is_bytes (ia_bcast ia) ∧
    length (ia_bcast ia) = 16%nat) (ifaddr w)
}.

(** [r] is the first index from [lo] whose interface address matches, or
    [UINT16_MAX] if none does. *)
Definition first_match (w : ifconf) (matches : w_ifaddr → bool) (lo r : Z) : Prop :=
  let no_match i := ∀ ia, ifaddr w !! Z.to_nat i = Some ia → matches ia = false in
  (r = UINT16_MAX ∧ ∀ i, lo <= i < addr_cnt w → no_match i) ∨
  (lo <= r < addr_cnt w ∧ (∃ ia, ifaddr w !! Z.to_nat r = Some ia ∧ matches ia = true) ∧
   ∀ i, lo <= i < r → no_match i).

Lemma find_ifaddr_spec w matches fuel idx :
  ifconf_wf w → 0 <= idx → (0 < fuel)%nat → addr_cnt w - idx < Z.of_nat fuel →
  ∃ r, find_ifaddr fuel w matches idx = Done r ∧ first_match w matches idx r.
Proof.
  intros Hw. pose proof (wf_cnt w Hw). pose proof (wf_max w Hw). unfold UINT16_MAX in *.
  revert idx. induction fuel as [|fuel IH]; intros idx Hi Hn Hf; cbn [find_ifaddr].
  { lia. }
  destruct (Z.ltb_spec idx (addr_cnt w)) as [Hlt|Hge].
  2:{ exists UINT16_MAX. split; [done|]. left. split; [done|]. lia. }
  destruct (lookup_lt_is_Some_2 (ifaddr w) (Z.to_nat idx)) as [ia Hia]; [lia|].
  rewrite Hia. destruct (matches ia) eqn:Em.
  - exists idx. split; [done|]. right. split_and!; [lia|lia|eauto|lia].
  - rewrite u16_id by (unfold is_u16; lia).
    destruct (IH (idx + 1)) as (r & -> & Hr); [lia|lia|lia|]. exists r. split; [done|].
    assert (∀ hi, (∀ i, idx + 1 <= i < hi → ∀ ia, ifaddr w !! Z.to_nat i = Some ia →
      matches ia = false) → ∀ i, idx <= i < hi → ∀ ia, ifaddr w !! Z.to_nat i = Some ia →
      matches ia = false) as Hext.
    { intros hi H' i Hi' ia' Hl. destruct (Z.eq_dec i idx) as [->|]; [congruence|].
      apply (H' i); [lia|done]. }
    destruct Hr as [[-> Hr]|(Hb & He & Hr)]; [left|right].
    + split; [done|]. by apply Hext.
    + split_and!; [lia|lia|done|]. by apply Hext.
Qed.

(** Is_my_ip4 and is_my_ip6 return the first matching interface address index from
    their start, or UINT16_MAX when none matches, and always terminate inside the array. *)
Theorem is_my_ip_correct (w : ifconf) (ip : Z) (ip' : bytes) (m : bool) :
  ifconf_wf w →
  (∃ r, is_my_ip4 w ip m = Done r ∧ first_match w (match_ip4 ip m) (addr4_pos w) r) ∧
  (∃ r, is_my_ip6 w ip' m = Done r ∧ first_match w (match_ip6 ip' m) 0 r).
Proof.
  intros Hw. pose proof (wf_cnt w Hw). pose proof (wf_pos w Hw).
  split; apply find_ifaddr_spec; (done || lia).
Qed.

(** The masks test the leading bytes of the address in network order. *)
Lemma ip4_bytes a b0 b1 b2 b3 rest :
  un a = b0 :: b1 :: b2 :: b3 :: rest → ip4 a = b0 + 256 * (b1 + 256 * (b2 + 256 * b3)).
Proof. intros E. unfold ip4, ld32, ldn. rewrite E. rewrite drop_0; cbn [take le_val]; rewrite take_0; cbn [le_val]; lia. Qed.

(** The link-local and private tests are the address ranges 169.254/16, fe80::/10 and
    10/8, 172.16/12, 192.168/16; for IPv6 private is the same as link-local. *)
Theorem linklocal_private_ranges (a : w_addr) (b0 b1 b2 b3 : Z) (rest : bytes) :
  w_addr_wf a → un a = b0 :: b1 :: b2 :: b3 :: rest →
  (af a = AF_INET →
    (w_is_linklocal a = true ↔ b0 = 169 ∧ b1 = 254) ∧
    (w_is_private a = true ↔ b0 = 10 ∨ (b0 = 172 ∧ 16 <= b1 < 32) ∨ (b0 = 192 ∧ b1 = 168))) ∧
  (af a ≠ AF_INET →
    (w_is_linklocal a = true ↔ b0 = 0xfe ∧ 0x80 <= b1 < 0xc0) ∧
    w_is_private a = w_is_linklocal a).
Proof.
  intros [_ Hb _] E. rewrite E in Hb.
  pose proof (Forall_lookup_1 _ _ 0 b0 Hb eq_refl) as H0. pose proof (Forall_lookup_1 _ _ 1 b1 Hb eq_refl) as H1.
  pose proof (Forall_lookup_1 _ _ 2 b2 Hb eq_refl) as H2. pose proof (Forall_lookup_1 _ _ 3 b3 Hb eq_refl) as H3.
  unfold is_u8 in *. unfold w_is_linklocal, w_is_private.
  split; intros Haf.
  - rewrite Haf. cbn [Z.eqb AF_INET Pos.eqb]. rewrite (ip4_bytes _ _ _ _ _ _ E).
    rewrite !land_ff, !land_ffff.
    change 0xf0ff with (Z.lor 0xff (Z.shiftl (2 ^ 4 - 1) 12)).
    rewrite Z.land_lor_distr_r, land_ff, land_field_arith by lia.
    change (2 ^ 12) with 4096. change (2 ^ 4) with 16.
    set (x := b0 + _).
    assert (x mod 256 = b0) as -> by (unfold x; zdm).
    assert (x mod 65536 = b0 + 256 * b1) as -> by (unfold x; zdm).
    assert ((x / 4096) mod 16 = b1 / 16) as -> by (unfold x; zdm).
    change 4096 with (2 ^ 12). rewrite <- Z.shiftl_mul_pow2, lor_shiftl_add by lia.
    change (2 ^ 12) with 4096.
    rewrite !orb_true_iff, !Z.eqb_eq. split; zdm.
  - rewrite (proj2 (Z.eqb_neq _ _) Haf). unfold ld8, ldn. rewrite E. cbn [drop take le_val].
    rewrite Z.mul_0_r, !Z.add_0_r.
    change (Z.land b1 0xc0) with (Z.land b1 (Z.shiftl (2 ^ 2 - 1) 6)).
    rewrite land_field_arith by lia. change (2 ^ 2) with 4. change (2 ^ 6) with 64.
    split; [|done]. rewrite andb_true_iff, !Z.eqb_eq. zdm.
Qed.

(** ** Witnesses *)

Definition addr_ex4 (b0 b1 b2 b3 : Z) : w_addr :=
  WAddr AF_INET ([b0; b1; b2; b3] ++ repeat 0 12).
Definition addr_ex6 : w_addr :=
  WAddr AF_INET6 [0x20; 1; 0xd; 0xb8; 0; 0; 0; 0; 2; 3; 4; 0xff; 0xfe; 5; 6; 7].
Definition ifaddr_ex4 : w_ifaddr :=
  WIfaddr (addr_ex4 10 0 0 1) (un (addr_ex4 10 0 0 255)) (repeat 0 16) 0 24.
Definition ifaddr_ex6 : w_ifaddr := WIfaddr addr_ex6 (repeat 0 16) (repeat 0 16) 7 0.
(** An interface with one IPv6 and one IPv4 address. *)
Definition ifconf_ex : ifconf :=
  IfConf 1500 [2; 0; 0; 0; 0; 1] 2 1 true true [ifaddr_ex6; ifaddr_ex4].

Lemma addr_wf_dec a :
  bool_decide (is_u16 (af a) ∧ Forall is_u8 (un a) ∧ length (un a) = 16%nat) = true → w_addr_wf a.
Proof. intros (? & ? & ?)%bool_decide_eq_true. by split. Qed.
Lemma addr_ex6_wf : w_addr_wf addr_ex6.
Proof. by apply addr_wf_dec. Qed.
Lemma addr_ex4_wf : w_addr_wf (addr_ex4 10 0 0 1).
Proof. by apply addr_wf_dec. Qed.
Lemma ifconf_ex_wf : ifconf_wf ifconf_ex.
Proof.
  split; [done|done|done| | |].
  - split; [|done]. by apply (bool_decide_unpack (Forall is_u8 _)).
  - done.
  - repeat constructor; try done.
Qed.

Lemma sockaddr_roundtrip_witness :
  let '(ok, a') := w_to_waddr (WAddr 0 (repeat 0 16)) (to_sockaddr (SockaddrOther 0) addr_ex6 80 0) in
  ok = true ∧ w_addr_wf a' ∧ w_addr_cmp a' addr_ex6 = true.
Proof.
  apply (sockaddr_roundtrip (SockaddrOther 0) (WAddr 0 (repeat 0 16)) addr_ex6 80 0);
    [apply addr_ex6_wf|by apply addr_wf_dec|by right].
Defined.

Lemma contig_mask_len_correct_witness :
  ∃ p, contig_mask_len AF_INET [255; 255; 254; 0] = Done p ∧ p = 23.
Proof.
  destruct (contig_mask_len_correct AF_INET [255; 255; 254; 0]) as (p & E & _ & H);
    [by apply (bool_decide_unpack (Forall is_u8 _))|done|].
  exists p. split; [done|]. apply H; [by split|done].
Defined.

Lemma ip6_config_correct_witness :
  ∃ ia', ip6_config ifaddr_ex6 (prefix_mask 16 64) = Done ia' ∧ ia_prefix ia' = 64.
Proof.
  destruct (ip6_config_correct ifaddr_ex6 64) as (ia' & ? & ? & _);
    [apply addr_ex6_wf|done|lia|]. by exists ia'.
Defined.

Lemma is_my_ip_correct_witness :
  ∃ r, is_my_ip4 ifconf_ex 0x0100000a false = Done r ∧
    first_match ifconf_ex (match_ip4 0x0100000a false) 1 r.
Proof.
  apply (is_my_ip_correct ifconf_ex 0x0100000a [] false ifconf_ex_wf).
Defined.

Lemma linklocal_private_ranges_witness :
  w_is_private (addr_ex4 10 0 0 1) = true ↔
    10 = 10 ∨ (10 = 172 ∧ 16 <= 0 < 32) ∨ (10 = 192 ∧ 0 = 168).
Proof.
  apply (linklocal_private_ranges (addr_ex4 10 0 0 1) 10 0 0 1 (repeat 0 12)); [|done|done].
  apply addr_ex4_wf.
Defined.

