(* ===== verification/Ifaddr.v ===== *)
(** The platform and the configuration of an interface (lib/src/plat.c,
    lib/src/ifaddr.c): the Linux variants of the [plat_get_*] functions, time, and
    counting and reading the addresses of an interface. *)

From stdpp Require Import strings.
From S2P Require Import Prelude Util Wire Addr.

(** ** What the operating system says about interfaces *)

Definition IFNAMSIZ : nat := 16.
Definition IFF_UP : Z := 0x1.
Definition IFF_LOOPBACK : Z := 0x8.
Definition IFF_RUNNING : Z := 0x40.

(** A C string of at most [n - 1] bytes copied to a buffer of [n] bytes. *)
Definition cstr (n : nat) (s : string) : string := String.substring 0 (n - 1) s.

(** [struct ifaddrs]: an entry is the link itself or one of its addresses. *)
Inductive ifa_sockaddr :=
| SockaddrLl (sll_addr : bytes)
| IfaSockaddr (sa : sockaddr).
Record ifaddrs := Ifaddrs {
  ifa_name : string;
  ifa_flags : Z;
  ifa_addr : ifa_sockaddr;
  ifa_netmask : bytes
}.

(** A request of the ethtool interface: its result, not supported, or an error. *)
Inductive ethtool (A : Type) := EtOk (a : A) | EtNotsup | EtError.
Arguments EtOk {A} a.
Arguments EtNotsup {A}.
Arguments EtError {A}.

(** The [ioctl]s on a fresh socket, by interface name; [None] is a failing call. *)
Class Os := {
  siocgifmtu : string → option Z;
  siocgifflags : string → option Z;
  ethtool_gset : string → ethtool (Z * Z);
  ethtool_gdrvinfo : string → ethtool string
}.

(** [ensure(call >= 0)]. *)
Definition ensure_some {A} (o : option A) : outcome A :=
  match o with Some a => Done a | None => Died end.

(** ** plat.c *)

Section Plat.
Context `{!Os}.

Definition plat_get_mac (sll_addr : bytes) : bytes := take 6 sll_addr.

Definition plat_get_mtu (i : ifaddrs) : outcome Z :=
  mtu ← ensure_some (siocgifmtu (cstr IFNAMSIZ (ifa_name i)));
  mret (u16 (Z.min UINT16_MAX mtu)).

(** The speed as its two 16-bit fields, the low one first. *)
Definition plat_get_mbps (i : ifaddrs) : outcome Z :=
  let name := cstr IFNAMSIZ (ifa_name i) in
  flags ← ensure_some (siocgifflags name);
  if negb (Z.land flags IFF_LOOPBACK =? 0) then mret UINT32_MAX else
  match ethtool_gset name with
  | EtNotsup => mret UINT32_MAX
  | EtError => Died
  | EtOk (speed, speed_hi) =>
      if speed =? UINT16_MAX then mret UINT32_MAX
      else mret (Z.lor (u32 (Z.shiftl speed_hi 16)) speed)
  end.

Definition plat_get_link (i : ifaddrs) : outcome bool :=
  flags ← ensure_some (siocgifflags (cstr IFNAMSIZ (ifa_name i)));
  mret (negb (Z.land flags IFF_UP =? 0) && negb (Z.land flags IFF_RUNNING =? 0)).

(** The name of the driver; [name] is what the buffer held before. *)
Definition plat_get_iface_driver (i : ifaddrs) (name : string) (name_len : nat) : outcome string :=
  let ifr_name := cstr IFNAMSIZ (ifa_name i) in
  flags ← ensure_some (siocgifflags ifr_name);
  if negb (Z.land flags IFF_LOOPBACK =? 0) then mret (String.substring 0 name_len "lo") else
  match ethtool_gdrvinfo ifr_name with
  | EtNotsup => mret name
  | EtError => Died
  | EtOk driver => mret (String.substring 0 name_len driver)
  end.

(** [clock_gettime] as a number of nanoseconds, and the argument of [nanosleep]. *)
Definition w_now (now : timespec) : Z := u64 (u64 (tv_sec now * NS_PER_S) + u64 (tv_nsec now)).
Definition w_nanosleep (ns : Z) : timespec := Timespec (ns / NS_PER_S) (ns mod NS_PER_S).

(** ** ifaddr.c *)

Definition count_addr (i : ifaddrs) : bool :=
  match ifa_addr i with
  | IfaSockaddr (SockaddrIn _ _) | IfaSockaddr (SockaddrIn6 _ _ _ _) => true
  | _ => false
  end.

Fixpoint addr_cnt_loop (ifname : string) (l : list ifaddrs) (n : Z) : outcome Z :=
  match l with
  | [] => mret n
  | i :: l =>
      if negb (String.eqb (ifa_name i) ifname) then addr_cnt_loop ifname l n else
      link ← plat_get_link i;
      if negb link then addr_cnt_loop ifname l n
      else addr_cnt_loop ifname l (if count_addr i then u16 (n + 1) else n)
  end.
Definition backend_addr_cnt (getifaddrs : option (list ifaddrs)) (ifname : string) : outcome Z :=
  ifap ← ensure_some getifaddrs; addr_cnt_loop ifname ifap 0.

(** The other fields of [struct w_engine] that [backend_addr_config] sets. *)
Record w_link := WLink {
  is_loopback : bool;
  is_right_pipe : bool;
  mbps : Z;
  drvname : string
}.

Definition set_link (w : ifconf) (m : Z) (mc : bytes) : ifconf :=
  IfConf m mc (addr_cnt w) (addr4_pos w) (have_ip4 w) (have_ip6 w) (ifaddr w).
Definition set_addr4_pos (w : ifconf) (pos : Z) : ifconf :=
  IfConf (mtu w) (mac w) (addr_cnt w) pos (have_ip4 w) (have_ip6 w) (ifaddr w).
Definition set_ifaddr (w : ifconf) (h4 h6 : bool) (l : list w_ifaddr) : ifconf :=
  IfConf (mtu w) (mac w) (addr_cnt w) (addr4_pos w) h4 h6 l.

(** The name of the netmap pipe of an interface. *)
Definition pipe_name (ifname : string) : string :=
  cstr IFNAMSIZ (String.append "w-" (String.substring 0 (IFNAMSIZ - 3) ifname)).

Definition config_link (i : ifaddrs) (sll : bytes) (w : ifconf) (lk : w_link) : outcome (ifconf * w_link) :=
  m ← plat_get_mtu i; s ← plat_get_mbps i; d ← plat_get_iface_driver i (drvname lk) IFNAMSIZ;
  mret (set_link w m (plat_get_mac sll),
        WLink (negb (Z.land (ifa_flags i) IFF_LOOPBACK =? 0)) (is_right_pipe lk) s d).

Definition config_ip6 (ia : w_ifaddr) (sa : sockaddr) (scope : Z) (mask : bytes) : outcome w_ifaddr :=
  let a := snd (w_to_waddr (ia_addr ia) sa) in
  ip6_config (WIfaddr a (ia_bcast ia) (ia_snma ia) scope (ia_prefix ia)) mask.

Definition config_ip4 (ia : w_ifaddr) (sa : sockaddr) (mask : bytes) : outcome w_ifaddr :=
  let a := snd (w_to_waddr (ia_addr ia) sa) in
  prefix ← contig_mask_len (af a) mask;
  let mask4 := ld32 mask 0 in
  mret (WIfaddr a (stn (ia_bcast ia) 0 (le_bytes 4 (Z.lor (ip4 a) (u32 (Z.lnot mask4)))))
          (ia_snma ia) (ia_scope_id ia) prefix).

Fixpoint addr_config_loop (ifname : string) (l : list ifaddrs) (w : ifconf) (lk : w_link) (addr6_pos : Z)
    : outcome (ifconf * w_link) :=
  match l with
  | [] => mret (w, lk)
  | i :: l =>
      let lk := if String.eqb (ifa_name i) (pipe_name ifname)
                then WLink (is_loopback lk) true (mbps lk) (drvname lk) else lk in
      if negb (String.eqb (ifa_name i) ifname) then addr_config_loop ifname l w lk addr6_pos else
      if addr4_pos w <? addr6_pos then mret (w, lk) else
      match ifa_addr i with
      | SockaddrLl sll =>
          '(w, lk) ← config_link i sll w lk; addr_config_loop ifname l w lk addr6_pos
      | IfaSockaddr (SockaddrIn6 port flow a scope) =>
          ia ← rd (ifaddr w) addr6_pos;
          ia ← config_ip6 ia (SockaddrIn6 port flow a scope) scope (ifa_netmask i);
          l6 ← wr (ifaddr w) addr6_pos ia;
          addr_config_loop ifname l (set_ifaddr w (have_ip4 w) true l6) lk (u16 (addr6_pos + 1))
      | IfaSockaddr (SockaddrIn port a) =>
          ia ← rd (ifaddr w) (addr4_pos w);
          ia ← config_ip4 ia (SockaddrIn port a) (ifa_netmask i);
          l4 ← wr (ifaddr w) (addr4_pos w) ia;
          addr_config_loop ifname l (set_ifaddr w true (have_ip6 w) l4) lk addr6_pos
      | IfaSockaddr (SockaddrOther _) => addr_config_loop ifname l w lk addr6_pos
      end
  end.
Definition backend_addr_config (getifaddrs : option (list ifaddrs)) (ifname : string) (w : ifconf) (lk : w_link)
    : outcome (ifconf * w_link) :=
  ifap ← ensure_some getifaddrs;
  addr_config_loop ifname ifap (set_addr4_pos w (u16 (addr_cnt w - 1))) lk 0.
End Plat.

(** * Theorems *)

(** What [calloc] leaves in the array of addresses. *)
Definition zero_ifaddr : w_ifaddr := WIfaddr (WAddr 0 (repeat 0 16)) (repeat 0 16) (repeat 0 16) 0 0.

(** The addresses of an interface among the entries. *)
Definition own6 (ifname : string) (i : ifaddrs) : bool :=
  String.eqb (ifa_name i) ifname &&
  match ifa_addr i with IfaSockaddr (SockaddrIn6 _ _ _ _) => true | _ => false end.
Definition own4 (ifname : string) (i : ifaddrs) : bool :=
  String.eqb (ifa_name i) ifname &&
  match ifa_addr i with IfaSockaddr (SockaddrIn _ _) => true | _ => false end.

Definition or_zero (o : outcome w_ifaddr) : w_ifaddr := match o with Done ia => ia | _ => zero_ifaddr end.
(** The configuration of an address, on a fresh entry of the array. *)
Definition conf6 (i : ifaddrs) : w_ifaddr :=
  match ifa_addr i with
  | IfaSockaddr (SockaddrIn6 p f a s) => or_zero (config_ip6 zero_ifaddr (SockaddrIn6 p f a s) s (ifa_netmask i))
  | _ => zero_ifaddr
  end.
Definition conf4 (i : ifaddrs) : w_ifaddr :=
  match ifa_addr i with
  | IfaSockaddr (SockaddrIn p a) => or_zero (config_ip4 zero_ifaddr (SockaddrIn p a) (ifa_netmask i))
  | _ => zero_ifaddr
  end.

Section Theorems.
Context `{!Os}.

(** An entry as the system fills it in; the calls about the link succeed. *)
Definition entry_ok (i : ifaddrs) : Prop :=
  match ifa_addr i with
  | SockaddrLl sll => is_bytes sll ∧ (6 <= length sll)%nat ∧
      (∃ m, plat_get_mtu i = Done m) ∧ (∃ s, plat_get_mbps i = Done s) ∧
      ∀ d, ∃ n, plat_get_iface_driver i d IFNAMSIZ = Done n
  | IfaSockaddr (SockaddrIn6 _ _ a _) =>
      is_bytes a ∧ length a = 16%nat ∧ is_bytes (ifa_netmask i) ∧ length (ifa_netmask i) = 16%nat
  | IfaSockaddr (SockaddrIn _ a) =>
      is_bytes a ∧ length a = 4%nat ∧ is_bytes (ifa_netmask i) ∧ length (ifa_netmask i) = 4%nat
  | IfaSockaddr (SockaddrOther _) => True
  end.

Definition ia_wf (ia : w_ifaddr) : Prop :=
  w_addr_wf (ia_addr ia) ∧ is_bytes (ia_bcast ia) ∧ length (ia_bcast ia) = 16%nat.

Lemma zeros_u8 n : is_bytes (repeat 0 n).
Proof. induction n; constructor; done. Qed.
Lemma zero_ifaddr_wf : ia_wf zero_ifaddr.
Proof. split; [split; [done|apply zeros_u8|done]|split; [apply zeros_u8|done]]. Qed.

Lemma config_ip6_run p f a s mask :
  is_bytes a → length a = 16%nat → is_bytes mask → length mask = 16%nat →
  ∃ ia, config_ip6 zero_ifaddr (SockaddrIn6 p f a s) s mask = Done ia ∧ ia_wf ia ∧
    ia_addr ia = WAddr AF_INET6 a ∧ ia_scope_id ia = s.
Proof.
  intros Ha Hl Hm Hlm. unfold config_ip6, ip6_config. cbn [w_to_waddr snd ia_addr af un zero_ifaddr].
  rewrite take_ge by (unfold IP6_LEN; lia).
  destruct (contig_mask_len_run AF_INET6 mask Hm Hlm) as (q & E & _). rewrite E. cbn [mbind outcome_bind].
  assert (Ea : stn (repeat 0 16) 0 a = a) by (unfold stn; cbn; rewrite Hl; by rewrite drop_ge, app_nil_r).
  rewrite Ea. eexists. split; [done|]. split; [|done].
  split; [by split|]. cbn [ia_bcast ip6 un]. unfold ip6_or, ip6_invert. split.
  - apply Forall_lookup_2. intros n x (y & z & -> & Hy & Hz)%lookup_zip_with_Some.
    apply list_lookup_fmap_Some in Hz as (b & -> & _).
    apply (lor_range 8); [lia|exact (Forall_lookup_1 _ _ _ _ Ha Hy)|apply u8_range].
  - rewrite length_zip_with, length_fmap, length_take. unfold IP6_LEN. lia.
Qed.

(** An entry that holds no IPv6 address. *)
Record ip4_slot (e : w_ifaddr) : Prop := {
  sl_un : length (un (ia_addr e)) = 16%nat ∧ drop 4 (un (ia_addr e)) = repeat 0 12;
  sl_bcast : length (ia_bcast e) = 16%nat ∧ drop 4 (ia_bcast e) = repeat 0 12;
  sl_rest : ia_snma e = repeat 0 16 ∧ ia_scope_id e = 0;
  sl_wf : ia_wf e
}.

(** The configuration of address [a] with netmask [mask] of prefix length [q]. *)
Definition ip4_conf (a mask : bytes) (q : Z) : w_ifaddr :=
  WIfaddr (WAddr AF_INET (a ++ repeat 0 12))
    (le_bytes 4 (Z.lor (le_val a) (u32 (Z.lnot (le_val mask)))) ++ repeat 0 12) (repeat 0 16) 0 q.

Lemma config_ip4_run e p a mask :
  is_bytes a → length a = 4%nat → is_bytes mask → length mask = 4%nat → ip4_slot e →
  ∃ q, contig_mask_len AF_INET mask = Done q ∧ config_ip4 e (SockaddrIn p a) mask = Done (ip4_conf a mask q).
Proof.
  intros Ha Hla Hm Hlm [[L1 D1] [L2 D2] [Hs Hsc] _]. unfold config_ip4. cbn [w_to_waddr snd af un].
  rewrite take_ge by (unfold IP4_LEN; lia).
  destruct (contig_mask_len_run AF_INET mask Hm Hlm) as (q & E & _). exists q. split; [done|]. rewrite E.
  assert (Hst : ∀ b x, length x = 4%nat → drop 4 b = repeat 0 12 → stn b 0 x = x ++ repeat 0 12).
  { intros b x Hx Hd. unfold stn. cbn. by rewrite Hx, Hd. }
  cbn [mbind outcome_bind]. rewrite !Hst, Hs, Hsc by (done || apply length_le_bytes).
  assert (E4 : ip4 (WAddr AF_INET (a ++ repeat 0 12)) = le_val a).
  { unfold ip4, ld32, ldn. cbn [un]. rewrite drop_0, take_app_le, take_ge by lia. done. }
  assert (Em : ld32 mask 0 = le_val mask) by (unfold ld32, ldn; by rewrite drop_0, take_ge by lia).
  by rewrite E4, Em.
Qed.

Lemma ip4_conf_slot a mask q : is_bytes a → length a = 4%nat → ip4_slot (ip4_conf a mask q).
Proof.
  intros Ha Hla. assert (∀ x, length x = 4%nat → drop 4 (x ++ repeat 0 12) = repeat 0 12) as Hd.
  { intros x Hx. by rewrite drop_app_length' by done. }
  set (m := le_bytes 4 (Z.lor (le_val a) (u32 (Z.lnot (le_val mask))))).
  assert (Hm : is_bytes m ∧ length m = 4%nat) by (split; [unfold m; auto with wc|apply length_le_bytes]).
  assert (∀ x : bytes, length x = 4%nat → length (x ++ repeat 0 12) = 16%nat) as Hx.
  { intros x Hx. by rewrite length_app, Hx. }
  assert (∀ x : bytes, is_bytes x → is_bytes (x ++ repeat 0 12)) as Hb.
  { intros x Hb. apply Forall_app_2; [done|apply zeros_u8]. }
  destruct Hm as [Hm1 Hm2]. unfold ip4_conf. fold m.
  split; cbn [ia_addr un ia_bcast ia_snma ia_scope_id]; [by auto|by auto|done|].
  split; [split|split]; cbn [ia_addr un af ia_bcast]; by auto.
Qed.
Lemma zero_slot : ip4_slot zero_ifaddr.
Proof. split; [done|done|done|apply zero_ifaddr_wf]. Qed.

Lemma conf4_run e i p a :
  ifa_addr i = IfaSockaddr (SockaddrIn p a) → entry_ok i → ip4_slot e →
  config_ip4 e (SockaddrIn p a) (ifa_netmask i) = Done (conf4 i) ∧ ip4_slot (conf4 i).
Proof.
  unfold entry_ok, conf4. intros -> (Ha & Hla & Hm & Hlm) He.
  destruct (config_ip4_run e p a _ Ha Hla Hm Hlm He) as (q & Eq & ->).
  destruct (config_ip4_run zero_ifaddr p a _ Ha Hla Hm Hlm zero_slot) as (q' & Eq' & ->).
  assert (q' = q) as -> by congruence. split; [done|by apply ip4_conf_slot].
Qed.
Lemma conf6_run i p f a s :
  ifa_addr i = IfaSockaddr (SockaddrIn6 p f a s) → entry_ok i →
  config_ip6 zero_ifaddr (SockaddrIn6 p f a s) s (ifa_netmask i) = Done (conf6 i) ∧ ia_wf (conf6 i) ∧
  ia_addr (conf6 i) = WAddr AF_INET6 a ∧ ia_scope_id (conf6 i) = s.
Proof.
  unfold entry_ok, conf6. intros -> (Ha & Hla & Hm & Hlm).
  by destruct (config_ip6_run p f a s _ Ha Hla Hm Hlm) as (ia & -> & ? & ? & ?).
Qed.

(** *** The loop *)

Definition last4 (l : list ifaddrs) (e : list w_ifaddr) : list w_ifaddr :=
  match last l with Some i => [conf4 i] | None => e end.

(** The array when the addresses [d6] have been configured, [r6] and [n4] being the
    remaining IPv6 and all IPv4 addresses, with [e4] in the place of the latter. *)
Record filled (w : ifconf) (d6 : list w_ifaddr) (r6 n4 : nat) (e4 : list w_ifaddr) : Prop := {
  fi_ifaddr : ifaddr w = d6 ++ repeat zero_ifaddr (r6 + pred n4) ++ e4;
  fi_cnt : addr_cnt w = Z.of_nat (length d6 + r6 + n4);
  fi_pos : addr4_pos w = addr_cnt w - 1;
  fi_max : 0 < addr_cnt w <= UINT16_MAX;
  fi_len : length e4 = Nat.min n4 1;
  fi_wf : Forall ia_wf d6;
  fi_slot : Forall ip4_slot e4;
  fi_mac : is_bytes (mac w) ∧ length (mac w) = 6%nat;
  fi_mtu : is_u16 (mtu w)
}.

Lemma filled_wf w d6 r6 n4 e4 : filled w d6 r6 n4 e4 → ifconf_wf w.
Proof.
  intros [Hi Hc Hp Hmax Hl H6 H4 Hm Hu]. split; try done; try lia.
  - rewrite Hi, Hc, !length_app, repeat_length, Hl. lia.
  - rewrite Hi. apply Forall_app_2; [done|]. apply Forall_app_2.
    + generalize (r6 + pred n4)%nat. induction n; constructor; [apply zero_ifaddr_wf|done].
    + eapply Forall_impl; [exact H4|]. intros e He. apply He.
Qed.

Lemma config_link_run i sll w lk :
  ifa_addr i = SockaddrLl sll → entry_ok i →
  ∃ m mc lk', config_link i sll w lk = Done (set_link w m mc, lk') ∧ is_right_pipe lk' = is_right_pipe lk ∧
    is_u16 m ∧ is_bytes mc ∧ length mc = 6%nat.
Proof.
  unfold entry_ok. intros -> (Hs & Hl & [m Em] & [s Es] & Hd). destruct (Hd (drvname lk)) as [d Ed].
  unfold config_link. rewrite Em. cbn [mbind outcome_bind]. rewrite Es. cbn [mbind outcome_bind]. rewrite Ed.
  exists m, (plat_get_mac sll). eexists. split; [done|]. split_and!; [done| | |].
  - revert Em. unfold plat_get_mtu. destruct (siocgifmtu _); [|done]. intros [= <-]. apply u16_range.
  - by apply Forall_take.
  - unfold plat_get_mac. rewrite length_take. lia.
Qed.

Lemma filled_link w d6 r6 n4 e4 m mc :
  filled w d6 r6 n4 e4 → is_u16 m → is_bytes mc → length mc = 6%nat → filled (set_link w m mc) d6 r6 n4 e4.
Proof. by intros []; split. Qed.

Lemma filled_step6 w d6 r6 n4 e4 ia h4 h6 :
  filled w d6 (S r6) n4 e4 → ia_wf ia →
  rd (ifaddr w) (Z.of_nat (length d6)) = Done zero_ifaddr ∧
  ∃ l, wr (ifaddr w) (Z.of_nat (length d6)) ia = Done l ∧
    filled (set_ifaddr w h4 h6 l) (d6 ++ [ia]) r6 n4 e4.
Proof.
  intros [Hi Hc Hp Hmax Hl H6 H4 Hm Hu] Hia. rewrite Hi. cbn [Nat.add repeat app].
  split; [apply rd_Some; by rewrite list_lookup_middle|].
  eexists. rewrite wr_lt by (rewrite length_app; cbn; lia). split; [done|].
  replace (length d6) with (length d6 + 0)%nat by lia. rewrite insert_app_r. cbn.
  split; cbn [set_ifaddr ifaddr addr_cnt addr4_pos mac mtu]; try done.
  - by rewrite <- app_assoc.
  - rewrite Hc, length_app. cbn. lia.
  - apply Forall_app_2; [done|by constructor].
Qed.

Lemma filled_step4 w d6 r6 n4 e4 ia h4 h6 :
  filled w d6 r6 (S n4) e4 → ip4_slot ia →
  ∃ e, e4 = [e] ∧ rd (ifaddr w) (addr4_pos w) = Done e ∧
  ∃ l, wr (ifaddr w) (addr4_pos w) ia = Done l ∧ filled (set_ifaddr w h4 h6 l) d6 r6 (S n4) [ia].
Proof.
  intros [Hi Hc Hp Hmax Hl H6 H4 Hm Hu] Hia. cbn [Nat.min Nat.pred] in *.
  destruct e4 as [|e [|]]; cbn in Hl; try lia. exists e. split; [done|].
  assert (Hpos : addr4_pos w = Z.of_nat (length (d6 ++ repeat zero_ifaddr (r6 + n4)))).
  { rewrite Hp, Hc, length_app, repeat_length. lia. }
  rewrite Hi, Hpos, app_assoc. split; [apply rd_Some; by rewrite list_lookup_middle|].
  set (pre := d6 ++ repeat zero_ifaddr (r6 + n4)).
  eexists. rewrite wr_lt by (rewrite (length_app pre); cbn [length]; lia). split; [done|].
  replace (length pre) with (length pre + 0)%nat at 1 by lia. rewrite insert_app_r. cbn.
  split; cbn [set_ifaddr ifaddr addr_cnt addr4_pos mac mtu]; try done.
  - unfold pre. by rewrite <- app_assoc.
  - by constructor.
Qed.

Definition v6s (ifname : string) (l : list ifaddrs) : list ifaddrs := List.filter (own6 ifname) l.
Definition v4s (ifname : string) (l : list ifaddrs) : list ifaddrs := List.filter (own4 ifname) l.

Definition or_any (b : bool) (l : list ifaddrs) : bool := match l with [] => b | _ => true end.
Lemma or_any_true l : or_any true l = true.
Proof. by destruct l. Qed.

Lemma addr_config_loop_run ifname l : ∀ w lk d6 n4 e4,
  (∀ i, i ∈ l → ifa_name i = ifname → entry_ok i) →
  filled w d6 (length (v6s ifname l)) n4 e4 → (length (v4s ifname l) <= n4)%nat →
  ∃ w' lk', addr_config_loop ifname l w lk (Z.of_nat (length d6)) = Done (w', lk') ∧
    filled w' (d6 ++ (conf6 <$> v6s ifname l)) 0 n4 (last4 (v4s ifname l) e4) ∧
    have_ip6 w' = or_any (have_ip6 w) (v6s ifname l) ∧ have_ip4 w' = or_any (have_ip4 w) (v4s ifname l).
Proof.
  induction l as [|i l IH]; intros w lk d6 n4 e4 Hok Hf Hn; cbn [addr_config_loop v6s v4s List.filter fmap list_fmap] in *.
  { exists w, lk. split; [done|]. split; [by rewrite app_nil_r|done]. }
  set (lk1 := if _ : bool then _ else lk). clearbody lk1.
  assert (Hok' : ∀ i, i ∈ l → ifa_name i = ifname → entry_ok i) by (intros; apply Hok; [by right|done]).
  unfold own6, own4 in *. destruct (String.eqb_spec (ifa_name i) ifname) as [Hname|]; cbn [negb andb] in *;
    [|by apply (IH w lk1 d6 n4 e4)].
  assert (Hi : entry_ok i) by (apply Hok; [by left|done]).
  destruct (Z.ltb_spec (addr4_pos w) (Z.of_nat (length d6))) as [Hbreak|Hpos].
  { rewrite (fi_pos _ _ _ _ _ Hf), (fi_cnt _ _ _ _ _ Hf) in Hbreak. exists w, lk1. split; [done|].
    destruct (List.filter _ l) as [|x6 r6]; [|destruct (ifa_addr i) as [|[]]; cbn in *; lia].
    destruct (List.filter _ l) as [|x4 r4]; destruct (ifa_addr i) as [|[]]; cbn in *; try lia;
      (split; [rewrite app_nil_r; (replace n4 with 0%nat in * by lia); exact Hf|done]). }
  unfold v6s, v4s, own6, own4 in IH.
  destruct (ifa_addr i) as [sll|[port a|port f a sc|]] eqn:Ea.
  - destruct (config_link_run i sll w lk1 Ea Hi) as (m & mc & lk2 & -> & _ & Hm & Hb & Hl). cbn [mbind outcome_bind].
    exact (IH (set_link w m mc) lk2 d6 n4 e4 Hok' (filled_link _ _ _ _ _ _ _ Hf Hm Hb Hl) Hn).
  - destruct n4 as [|n4]; [cbn in Hn; lia|].
    destruct (filled_step4 w d6 _ n4 e4 (conf4 i) true (have_ip6 w) Hf) as (e & -> & Er & l4 & Ew & Hf').
    { by apply (conf4_run zero_ifaddr i port a Ea Hi zero_slot). }
    pose proof (proj1 (Forall_singleton _ _) (fi_slot _ _ _ _ _ Hf)) as He.
    rewrite Er. cbn [mbind outcome_bind]. rewrite (proj1 (conf4_run e i port a Ea Hi He)). cbn [mbind outcome_bind].
    rewrite Ew. cbn [mbind outcome_bind].
    destruct (IH _ lk1 d6 (S n4) [conf4 i] Hok' Hf' ltac:(cbn in Hn; lia)) as (w' & lk' & E & Hw & F6 & F4).
    exists w', lk'. split; [exact E|]. split; [|split; [exact F6|by rewrite F4; apply or_any_true]].
    revert Hw. unfold last4. rewrite last_cons. by destruct (last _).
  - destruct (conf6_run i port f a sc Ea Hi) as (Ec & Hwf & _). cbn [length] in Hf.
    destruct (filled_step6 w d6 _ n4 e4 (conf6 i) (have_ip4 w) true Hf Hwf) as (Er & l6 & Ew & Hf').
    rewrite Er. cbn [mbind outcome_bind]. rewrite Ec. cbn [mbind outcome_bind]. rewrite Ew. cbn [mbind outcome_bind].
    assert (Hu : u16 (Z.of_nat (length d6) + 1) = Z.of_nat (length (d6 ++ [conf6 i]))).
    { pose proof (fi_cnt _ _ _ _ _ Hf). pose proof (fi_max _ _ _ _ _ Hf). unfold UINT16_MAX in *.
      rewrite u16_id, length_app by (unfold is_u16; lia). cbn. lia. }
    rewrite Hu. destruct (IH _ lk1 (d6 ++ [conf6 i]) n4 e4 Hok' Hf' Hn) as (w' & lk' & E & Hw & F6 & F4).
    exists w', lk'. split; [exact E|]. split; [by rewrite <- app_assoc in Hw|].
    split; [by rewrite F6; apply or_any_true|exact F4].
  - by apply (IH w lk1 d6 n4 e4).
Qed.

(** An entry that does not say that the interface is a loopback one. *)
Definition no_loopback (i : ifaddrs) : Prop :=
  match ifa_addr i with SockaddrLl _ => Z.land (ifa_flags i) IFF_LOOPBACK = 0 | _ => True end.

Lemma addr_config_loop_loopback ifname l : ∀ w lk pos w' lk',
  (∀ i, i ∈ l → ifa_name i = ifname → no_loopback i) → is_loopback lk = false →
  addr_config_loop ifname l w lk pos = Done (w', lk') → is_loopback lk' = false.
Proof.
  induction l as [|i l IH]; intros w lk pos w' lk' Hno Hlk; cbn [addr_config_loop]; [by intros [= _ <-]|].
  set (lk1 := if _ : bool then _ else lk). assert (Hlk1 : is_loopback lk1 = false) by by unfold lk1; case_match.
  assert (Hno' : ∀ i, i ∈ l → ifa_name i = ifname → no_loopback i) by (intros; apply Hno; [by right|done]).
  clearbody lk1. destruct (String.eqb_spec (ifa_name i) ifname) as [Hname|]; cbn [negb]; [|by apply IH].
  destruct (addr4_pos w <? pos); [by intros [= _ <-]|]. specialize (Hno i ltac:(by left) Hname). unfold no_loopback in Hno.
  destruct (ifa_addr i) as [sll|[port a|port f a sc|]]; [| | |by apply IH].
  - unfold config_link. intros ([w1 lk2] & (m & _ & (s & _ & (d & _ & [= _ <-])%outcome_bind_done)%outcome_bind_done)%outcome_bind_done & E)%outcome_bind_done.
    revert E. apply IH; [done|]. cbn. by rewrite Hno.
  - intros (? & _ & (? & _ & (? & _ & E)%outcome_bind_done)%outcome_bind_done)%outcome_bind_done. revert E. by apply IH.
  - intros (? & _ & (? & _ & (? & _ & E)%outcome_bind_done)%outcome_bind_done)%outcome_bind_done. revert E. by apply IH.
Qed.

(** *** The two passes together *)

(** The link status depends on the interface only. *)
Lemma link_up ifname : ∃ up : bool, ∀ i b, ifa_name i = ifname → plat_get_link i = Done b → b = up.
Proof.
  destruct (siocgifflags (cstr IFNAMSIZ ifname)) as [fl|] eqn:Ef.
  - eexists. intros i b <-. unfold plat_get_link. rewrite Ef. cbn. by intros [= <-].
  - exists true. intros i b <-. unfold plat_get_link. by rewrite Ef.
Qed.

Lemma addr_cnt_loop_run ifname up l : ∀ n cnt,
  (∀ i b, ifa_name i = ifname → plat_get_link i = Done b → b = up) →
  addr_cnt_loop ifname l n = Done cnt → 0 <= n →
  n + Z.of_nat (length (v6s ifname l) + length (v4s ifname l)) <= UINT16_MAX →
  cnt = if up then n + Z.of_nat (length (v6s ifname l) + length (v4s ifname l)) else n.
Proof.
  unfold v6s, v4s, own6, own4, UINT16_MAX.
  induction l as [|i l IH]; intros n cnt Hup E Hn Hl; cbn [addr_cnt_loop List.filter length] in *.
  { injection E as ->. destruct up; lia. }
  destruct (String.eqb_spec (ifa_name i) ifname) as [Hname|]; cbn [negb andb] in *; [|by apply (IH n cnt)].
  destruct (plat_get_link i) as [b| | |] eqn:El; try done. cbn [mbind outcome_bind] in E.
  pose proof (Hup i b Hname El) as ->. destruct up; cbn [negb] in E.
  - unfold count_addr in E.
    assert (Hu : u16 (n + 1) = n + 1 ∨ 65535 <= n) by (destruct (Z.le_gt_cases 65535 n); [by right|left; apply u16_id; unfold is_u16; lia]).
    destruct (ifa_addr i) as [|[]]; cbn [length] in *;
      [|destruct Hu as [Hu|Hu]; [rewrite Hu in E|lia]|destruct Hu as [Hu|Hu]; [rewrite Hu in E|lia]|];
      apply (IH _ cnt Hup) in E; lia.
  - destruct (ifa_addr i) as [|[]]; cbn [length] in *; apply (IH n cnt Hup E Hn); lia.
Qed.

Lemma addr_config_run ifname l cnt w lk :
  (∀ i, i ∈ l → ifa_name i = ifname → entry_ok i) →
  Z.of_nat (length (v6s ifname l) + length (v4s ifname l)) <= UINT16_MAX →
  backend_addr_cnt (Some l) ifname = Done cnt → 0 < cnt →
  addr_cnt w = cnt → ifaddr w = repeat zero_ifaddr (Z.to_nat cnt) →
  is_bytes (mac w) → length (mac w) = 6%nat → is_u16 (mtu w) →
  ∃ w' lk', backend_addr_config (Some l) ifname w lk = Done (w', lk') ∧
    filled w' (conf6 <$> v6s ifname l) 0 (length (v4s ifname l))
      (last4 (v4s ifname l) (repeat zero_ifaddr (Nat.min (length (v4s ifname l)) 1))) ∧ addr_cnt w' = cnt ∧
    ((∀ i, i ∈ l → ifa_name i = ifname → no_loopback i) → is_loopback lk = false → is_loopback lk' = false) ∧
    have_ip6 w' = or_any (have_ip6 w) (v6s ifname l) ∧ have_ip4 w' = or_any (have_ip4 w) (v4s ifname l).
Proof.
  intros Hok Hlen Hcnt Hpos Hc Hi Hmb Hml Hmtu. unfold backend_addr_cnt in Hcnt. cbn [ensure_some mbind outcome_bind] in Hcnt.
  unfold UINT16_MAX in Hlen. destruct (link_up ifname) as [up Hup].
  pose proof (addr_cnt_loop_run ifname up l 0 cnt Hup Hcnt ltac:(lia) ltac:(unfold UINT16_MAX; lia)) as E.
  destruct up; [|lia]. rewrite Z.add_0_l in E.
  unfold backend_addr_config. cbn [ensure_some mbind outcome_bind]. rewrite Hc.
  rewrite u16_id by (unfold is_u16; lia). set (n4 := length (v4s ifname l)).
  set (e4 := repeat zero_ifaddr (Nat.min n4 1)).
  destruct (addr_config_loop_run ifname l (set_addr4_pos w (cnt - 1)) lk [] n4 e4) as (w' & lk' & Er & Hf & F6 & F4);
    [done| |done|].
  { split; cbn [set_addr4_pos ifaddr addr_cnt addr4_pos mac mtu length app]; try done.
    - rewrite Hi, E. unfold e4. rewrite Nat2Z.id, <- repeat_app. f_equal. fold n4. lia.
    - fold n4. lia.
    - lia.
    - unfold UINT16_MAX. lia.
    - unfold e4. by rewrite repeat_length.
    - unfold e4. generalize (Nat.min n4 1). intros k. induction k; constructor; [apply zero_slot|done]. }
  exists w', lk'. split; [exact Er|]. split; [exact Hf|]. split; [|split; [|by split]].
  - pose proof (fi_cnt _ _ _ _ _ Hf) as Hc'. cbn [app] in Hc'. rewrite length_fmap in Hc'. subst n4. lia.
  - intros Hno Hlk. by eapply addr_config_loop_loopback.
Qed.

(** C18: With as many entries as backend_addr_cnt counted, backend_addr_config stays inside
    the array, fills the IPv6 addresses from the front in order, and keeps of the IPv4 addresses
    only the last one, in the last entry. *)
Theorem backend_addr_config_correct ifname l cnt w lk :
  (∀ i, i ∈ l → ifa_name i = ifname → entry_ok i) →
  Z.of_nat (length (v6s ifname l) + length (v4s ifname l)) <= UINT16_MAX →
  backend_addr_cnt (Some l) ifname = Done cnt → 0 < cnt →
  addr_cnt w = cnt → ifaddr w = repeat zero_ifaddr (Z.to_nat cnt) →
  is_bytes (mac w) → length (mac w) = 6%nat → is_u16 (mtu w) →
  ∃ w' lk', backend_addr_config (Some l) ifname w lk = Done (w', lk') ∧ ifconf_wf w' ∧
    addr_cnt w' = cnt ∧ addr4_pos w' = cnt - 1 ∧
    have_ip6 w' = or_any (have_ip6 w) (v6s ifname l) ∧ have_ip4 w' = or_any (have_ip4 w) (v4s ifname l) ∧
    ifaddr w' = (conf6 <$> v6s ifname l) ++ repeat zero_ifaddr (pred (length (v4s ifname l))) ++
      last4 (v4s ifname l) [].
Proof.
  intros Hok Hlen Hcnt Hpos Hc Hi Hmb Hml Hmtu.
  destruct (addr_config_run ifname l cnt w lk) as (w' & lk' & E & Hf & Ec & _ & F6 & F4); try done.
  exists w', lk'. split; [exact E|]. split; [by eapply filled_wf|]. split; [done|].
  destruct Hf as [Hi' _ Hp' _ _ _ _ _ _]. split; [by rewrite Hp', Ec|]. split; [exact F6|]. split; [exact F4|].
  rewrite Hi'. cbn [Nat.add]. do 2 f_equal. unfold last4. by destruct (v4s ifname l); [|rewrite last_cons; destruct (last _)].
Qed.
End Theorems.

(** The time of [w_nanosleep]'s argument on the clock is the time asked for. *)
Lemma w_nanosleep_now ns : is_u64 ns → w_now (w_nanosleep ns) = ns ∧ 0 <= tv_nsec (w_nanosleep ns) < NS_PER_S.
Proof.
  unfold is_u64, w_now, w_nanosleep, u64, NS_PER_S. cbn. intros H.
  rewrite Zplus_mod_idemp_l, Zplus_mod_idemp_r. split; [|zdm]. rewrite Z.mod_small; zdm.
Qed.

(** ** Witness *)

Definition os_ex : Os := {|
  siocgifmtu := λ _, Some 1500;
  siocgifflags := λ _, Some (IFF_UP + IFF_RUNNING);
  ethtool_gset := λ _, EtOk (1000, 0);
  ethtool_gdrvinfo := λ _, EtOk "e1000"%string
|}.
#[local] Existing Instance os_ex.

(** An interface with two IPv4 addresses. *)
Definition ifaddrs_ex : list ifaddrs :=
  [Ifaddrs "eth0" 0x41 (SockaddrLl [2; 0; 0; 0; 0; 1; 0; 0]) [];
   Ifaddrs "eth0" 0x41 (IfaSockaddr (SockaddrIn 0 [10; 0; 0; 1])) [255; 255; 255; 0];
   Ifaddrs "eth1" 0x41 (IfaSockaddr (SockaddrIn 0 [10; 1; 0; 1])) [255; 255; 255; 0];
   Ifaddrs "eth0" 0x41 (IfaSockaddr (SockaddrIn 0 [10; 0; 0; 2])) [255; 255; 255; 0]]%string.
Definition cfg_ex : ifconf := IfConf 0 (repeat 0 6) 2 0 false false [zero_ifaddr; zero_ifaddr].

Lemma ifaddrs_ex_ok i : i ∈ ifaddrs_ex → ifa_name i = "eth0"%string → entry_ok i ∧ no_loopback i.
Proof.
  intros Hi Hn. assert (Hb : ∀ l, bool_decide (Forall is_u8 l) = true → is_bytes l).
  { intros l H. by apply bool_decide_eq_true in H. }
  unfold ifaddrs_ex in Hi. rewrite !elem_of_cons, elem_of_nil in Hi.
  destruct Hi as [->|[->|[->|[->|[]]]]]; (split; [|done]); unfold entry_ok; cbn [ifa_addr ifa_netmask].
  + split; [by apply Hb|]. split; [cbn; lia|]. split; [eexists; reflexivity|]. split; [eexists; reflexivity|].
    intros d. eexists. reflexivity.
  + split_and!; try done; by apply Hb.
  + split_and!; try done; by apply Hb.
  + split_and!; try done; by apply Hb.
Qed.

Lemma backend_addr_config_correct_witness :
  ∃ w' lk', backend_addr_config (Some ifaddrs_ex) "eth0" cfg_ex (WLink false false 0 "") = Done (w', lk') ∧
    ifconf_wf w' ∧ ifaddr w' = [zero_ifaddr; ip4_conf [10; 0; 0; 2] [255; 255; 255; 0] 24].
Proof.
  destruct (backend_addr_config_correct "eth0" ifaddrs_ex 2 cfg_ex (WLink false false 0 "")) as
    (w' & lk' & E & Hwf & _ & _ & _ & _ & Hi).
  - intros i Hi Hn. by apply (ifaddrs_ex_ok i Hi Hn).
  - vm_compute. discriminate.
  - vm_compute. reflexivity.
  - lia.
  - reflexivity.
  - reflexivity.
  - apply (zeros_u8 6).
  - reflexivity.
  - split; [discriminate|reflexivity].
  - exists w', lk'. split; [exact E|]. split; [exact Hwf|]. rewrite Hi. vm_compute. reflexivity.
Defined.
