(* ===== verification/Khash.v ===== *)
(** Hash tables (lib/include/warpcore/khash.h): open addressing with triangular
    probing in power-of-two tables, deletion marks and in-place rehashing, and
    the refinement of finite maps they implement.  The tables are generic in
    their keys, which implement the class [KhKey]. *)

From S2P Require Import Prelude.
From Stdlib Require Import FinFun.

(** What the hash table asks of its keys: a 32-bit hash and a comparison that is
    an equivalence on the well-formed keys and compatible with the hash. *)
Class KhKey (K : Type) := {
  hash_func : K → Z;
  hash_equal : K → K → bool;
  key_wf : K → Prop;
  hash_func_u32 k : is_u32 (hash_func k);
  hash_equal_refl k : key_wf k → hash_equal k k = true;
  hash_equal_sym k1 k2 : key_wf k1 → key_wf k2 → hash_equal k1 k2 = hash_equal k2 k1;
  hash_equal_trans k1 k2 k3 : key_wf k1 → key_wf k2 → key_wf k3 →
    hash_equal k1 k2 = true → hash_equal k2 k3 = true → hash_equal k1 k3 = true;
  hash_equal_hash k1 k2 : key_wf k1 → key_wf k2 →
    hash_equal k1 k2 = true → hash_func k1 = hash_func k2
}.

(** ** Data *)

Definition ac_bit_empty : Z := 0x02.
Definition ac_bit_deleted : Z := 0x01.
Definition ac_bit_any : Z := 0xff.

Definition isempty (flag : Z) : bool := negb (Z.land flag ac_bit_empty =? 0).
Definition isdel (flag : Z) : bool := negb (Z.land flag ac_bit_deleted =? 0).
Definition iseither (flag : Z) : bool := negb (Z.land flag ac_bit_any =? 0).
Definition set_isempty_false (flag : Z) : Z := Z.land flag (Z.lxor 0xff ac_bit_empty).
Definition set_isdel_true (flag : Z) : Z := Z.lor flag ac_bit_deleted.
Definition set_isboth_false (flag : Z) : Z := 0.

(** [__HASH_UPPER]: the maximal number of occupied buckets out of [x]. *)
Definition HASH_UPPER (x : Z) : Z := Z.shiftr (u64 (u64 (x * 77) * 0x51EB851F)) 37.

(** [kroundup32]: the next power of two. *)
Definition kroundup32 (x : Z) : Z :=
  let x := u32 (x - 1) in
  let x := Z.lor x (Z.shiftr x 1) in
  let x := Z.lor x (Z.shiftr x 2) in
  let x := Z.lor x (Z.shiftr x 4) in
  let x := Z.lor x (Z.shiftr x 8) in
  let x := Z.lor x (Z.shiftr x 16) in
  u32 (x + 1).

(** Which array an allocation is for. *)
Inductive kh_array := AFlags | AKeys | AVals.

Section Khash.
Context {K V : Type} {KK : KhKey K}.

(** The allocator, not part of the code: whether it can provide the given array
    for the given number of buckets. *)
Variable can_alloc : kh_array → Z → bool.

(** [kh_name_t].  Buckets never written hold [None]. *)
Record khash := Khash {
  n_buckets : Z;
  kh_size : Z;
  n_occupied : Z;
  upper_bound : Z;
  flags : list Z;
  keys : list (option K);
  vals : list (option V)
}.

Definition kh_init : khash := Khash 0 0 0 0 [] [] [].

Definition kh_clear (h : khash) : khash :=
  if n_buckets h =? 0 then h
  else Khash (n_buckets h) 0 0 (upper_bound h)
         (repeat ac_bit_empty (Z.to_nat (n_buckets h)) ++
          drop (Z.to_nat (n_buckets h)) (flags h)) (keys h) (vals h).

(** Comparing the key of bucket [i], which must have been written. *)
Definition key_at (l : list (option K)) (i : Z) : outcome K :=
  k ← rd l i; match k with Some k => Done k | None => Fault end.

(** ** Lookup *)

Definition probe_next (mask i step : Z) : Z := Z.land (u32 (i + step)) mask.

(** The loop condition of [kh_get] and [kh_put]: keep probing. *)
Definition keep_probing (h : khash) (key : K) (i : Z) : outcome bool :=
  f ← rd (flags h) i;
  if isempty f then Done false
  else if isdel f then Done true
  else k ← key_at (keys h) i; Done (negb (hash_equal k key)).

Fixpoint get_loop (fuel : nat) (h : khash) (key : K) (mask last i step : Z) : outcome Z :=
  match fuel with
  | O => NoFuel
  | S fuel =>
      b ← keep_probing h key i;
      if (b : bool) then
        let step := u32 (step + 1) in
        let i := probe_next mask i step in
        if i =? last then Done (n_buckets h)
        else get_loop fuel h key mask last i step
      else
        f ← rd (flags h) i; Done (if iseither f then n_buckets h else i)
  end.

(** The fuel covers a whole cycle of probes. *)
Definition probe_fuel (n : Z) : nat := Z.to_nat (2 * n).

Definition kh_get (h : khash) (key : K) : outcome Z :=
  if n_buckets h =? 0 then Done 0
  else
    let mask := u32 (n_buckets h - 1) in
    let i := Z.land (hash_func key) mask in
    get_loop (probe_fuel (n_buckets h)) h key mask i i 0.

(** ** Resizing *)

(** The arrays during a rehash: the old and the new flags and the shared buckets. *)
Record rehash := Rehash {
  r_flags : list Z;
  r_new_flags : list Z;
  r_keys : list (option K);
  r_vals : list (option V)
}.

Fixpoint probe_empty (fuel : nat) (new_flags : list Z) (new_mask i step : Z) : outcome Z :=
  match fuel with
  | O => NoFuel
  | S fuel =>
      f ← rd new_flags i;
      if isempty f then Done i
      else
        let step := u32 (step + 1) in
        probe_empty fuel new_flags new_mask (probe_next new_mask i step) step
  end.

(** The kick-out loop: place [key] and [val], continuing with the element that
    was in the way. *)
Fixpoint kick_out (fuel : nat) (old_n new_n : Z) (r : rehash) (key : K) (val : option V)
    : outcome rehash :=
  match fuel with
  | O => NoFuel
  | S fuel =>
      let new_mask := u32 (new_n - 1) in
      i ← probe_empty (probe_fuel new_n) (r_new_flags r) new_mask
            (Z.land (hash_func key) new_mask) 0;
      nf ← rd (r_new_flags r) i;
      new_flags ← wr (r_new_flags r) i (set_isempty_false nf);
      live ← (if i <? old_n then f ← rd (r_flags r) i; Done (negb (iseither f)) else Done false);
      if (live : bool) then
        tmp_key ← key_at (r_keys r) i;
        keys ← wr (r_keys r) i (Some key);
        tmp_val ← rd (r_vals r) i;
        vals ← wr (r_vals r) i val;
        f ← rd (r_flags r) i;
        flags ← wr (r_flags r) i (set_isdel_true f);
        kick_out fuel old_n new_n (Rehash flags new_flags keys vals) tmp_key tmp_val
      else
        keys ← wr (r_keys r) i (Some key);
        vals ← wr (r_vals r) i val;
        Done (Rehash (r_flags r) new_flags keys vals)
  end.

(** Iteration [j] of the loop over the old buckets. *)
Definition rehash_bucket (old_n new_n : Z) (r : rehash) (j : nat) : outcome rehash :=
  f ← rd (r_flags r) (Z.of_nat j);
  if iseither f then Done r
  else
    key ← key_at (r_keys r) (Z.of_nat j);
    val ← rd (r_vals r) (Z.of_nat j);
    flags ← wr (r_flags r) (Z.of_nat j) (set_isdel_true f);
    kick_out (S (Z.to_nat old_n)) old_n new_n
      (Rehash flags (r_new_flags r) (r_keys r) (r_vals r)) key val.

Definition rehash_all (old_n new_n : Z) (r : rehash) : outcome rehash :=
  foldl (λ r j, r ← r; rehash_bucket old_n new_n r j) (Done r) (seq 0 (Z.to_nat old_n)).

(** [realloc]: keep the common prefix, the rest is uninitialised. *)
Definition realloc {A} (l : list (option A)) (n : Z) : list (option A) :=
  take (Z.to_nat n) l ++ repeat None (Z.to_nat n - length l).

Definition new_size (new_n_buckets : Z) : Z :=
  let n := kroundup32 new_n_buckets in if n <? 4 then 4 else n.

(** Returns the C result (0, or -1 when memory is short) and the table. *)
Definition kh_resize (h : khash) (new_n_buckets : Z) : outcome (Z * khash) :=
  let n := new_size new_n_buckets in
  if HASH_UPPER n <=? kh_size h then Done (0, h)
  else if negb (can_alloc AFlags n) then Done (-1, h)
  else
    let expand := n_buckets h <? n in
    if expand && negb (can_alloc AKeys n) then Done (-1, h)
    else
      let keys1 := if expand then realloc (keys h) n else keys h in
      if expand && negb (can_alloc AVals n) then
        Done (-1, Khash (n_buckets h) (kh_size h) (n_occupied h) (upper_bound h)
                   (flags h) keys1 (vals h))
      else
        let vals1 := if expand then realloc (vals h) n else vals h in
        r ← rehash_all (n_buckets h) n
              (Rehash (flags h) (repeat ac_bit_empty (Z.to_nat n)) keys1 vals1);
        let shrink := n <? n_buckets h in
        Done (0, Khash n (kh_size h) (kh_size h) (HASH_UPPER n) (r_new_flags r)
                   (if shrink then realloc (r_keys r) n else r_keys r)
                   (if shrink then realloc (r_vals r) n else r_vals r)).

(** ** Insertion and deletion *)

(** The probe loop of [kh_put]; it returns [x], [site] and the final [i]. *)
Fixpoint put_loop (fuel : nat) (h : khash) (key : K) (mask last i step site : Z)
    : outcome (Z * Z * Z) :=
  match fuel with
  | O => NoFuel
  | S fuel =>
      b ← keep_probing h key i;
      if (b : bool) then
        f ← rd (flags h) i;
        let site := if isdel f then i else site in
        let step := u32 (step + 1) in
        let i := probe_next mask i step in
        if i =? last then Done (site, site, i)
        else put_loop fuel h key mask last i step site
      else Done (n_buckets h, site, i)
  end.

(** The bucket for [key]. *)
Definition put_bucket (h : khash) (key : K) : outcome Z :=
  let mask := u32 (n_buckets h - 1) in
  let i := Z.land (hash_func key) mask in
  '(x, site, i) ← put_loop (probe_fuel (n_buckets h)) h key mask i i 0 (n_buckets h);
  if x =? n_buckets h then
    f ← rd (flags h) i;
    Done (if isempty f && negb (site =? n_buckets h) then site else i)
  else Done x.

(** Write [key] into the bucket [x] found for it. *)
Definition put_at (h : khash) (key : K) (x : Z) : outcome (Z * khash) :=
  f ← rd (flags h) x;
  if isempty f then
    keys ← wr (keys h) x (Some key);
    flags ← wr (flags h) x (set_isboth_false f);
    Done (1, Khash (n_buckets h) (u32 (kh_size h + 1)) (u32 (n_occupied h + 1)) (upper_bound h)
               flags keys (vals h))
  else if isdel f then
    keys ← wr (keys h) x (Some key);
    flags ← wr (flags h) x (set_isboth_false f);
    Done (2, Khash (n_buckets h) (u32 (kh_size h + 1)) (n_occupied h) (upper_bound h)
               flags keys (vals h))
  else Done (0, h).

(** Returns [*ret], the bucket and the table. *)
Definition kh_put (h : khash) (key : K) : outcome (Z * Z * khash) :=
  '(e, h) ← (if upper_bound h <=? n_occupied h then
               if u32 (Z.shiftl (kh_size h) 1) <? n_buckets h
               then kh_resize h (u32 (n_buckets h - 1))
               else kh_resize h (u32 (n_buckets h + 1))
             else Done (0, h));
  if e <? 0 then Done (-1, n_buckets h, h)
  else
    x ← put_bucket h key;
    '(ret, h) ← put_at h key x;
    Done (ret, x, h).

Definition kh_del (h : khash) (x : Z) : outcome khash :=
  if x =? n_buckets h then Done h
  else
    f ← rd (flags h) x;
    if iseither f then Done h
    else
      flags ← wr (flags h) x (set_isdel_true f);
      Done (Khash (n_buckets h) (u32 (kh_size h - 1)) (n_occupied h) (upper_bound h)
              flags (keys h) (vals h)).

(** [kh_val(h, x)] as an rvalue and as an lvalue. *)
Definition kh_val (h : khash) (x : Z) : outcome V :=
  v ← rd (vals h) x; match v with Some v => Done v | None => Fault end.
Definition set_kh_val (h : khash) (x : Z) (v : V) : outcome khash :=
  vals ← wr (vals h) x (Some v);
  Done (Khash (n_buckets h) (kh_size h) (n_occupied h) (upper_bound h) (flags h) (keys h) vals).

(** [kh_foreach]: the entries in the order of their buckets. *)
Definition kh_entry (h : khash) (i : nat) : outcome (list (K * V)) :=
  f ← rd (flags h) (Z.of_nat i);
  if iseither f then Done []
  else k ← key_at (keys h) (Z.of_nat i); v ← kh_val h (Z.of_nat i); Done [(k, v)].
Definition kh_foreach (h : khash) : outcome (list (K * V)) :=
  foldl (λ acc i, acc ← acc; e ← kh_entry h i; Done (acc ++ e)) (Done [])
    (seq 0 (Z.to_nat (n_buckets h))).
End Khash.

Arguments khash K V : clear implicits.

(** * Theorems *)

(** ** Triangular probing *)

Definition tri (n : Z) : Z := n * (n + 1) / 2.

Lemma tri_double n : 2 * tri n = n * (n + 1).
Proof.
  unfold tri. destruct (Z.Even_or_Odd n) as [[k ->]|[k ->]].
  - replace (2 * k * (2 * k + 1)) with (k * (2 * k + 1) * 2) by ring. rewrite Z.div_mul by lia. ring.
  - replace ((2 * k + 1) * (2 * k + 1 + 1)) with ((2 * k + 1) * (k + 1) * 2) by ring.
    rewrite Z.div_mul by lia. ring.
Qed.

Lemma tri_succ n : tri (n + 1) = tri n + (n + 1).
Proof. pose proof (tri_double n). pose proof (tri_double (n + 1)). lia. Qed.

(** A power of two that divides a product with an odd factor divides the other. *)
Lemma pow2_divide_odd (p : nat) x y :
  Z.Odd y → (2 ^ Z.of_nat p | x * y) → (2 ^ Z.of_nat p | x).
Proof.
  intros [b Hy]. revert x. induction p as [|p IH]; intros x H; [exists x; lia|].
  rewrite Nat2Z.inj_succ, Z.pow_succ_r in * by lia. destruct H as [c Hc].
  destruct (Z.Even_or_Odd x) as [[a ->]|[a ->]]; [|nia].
  destruct (IH a) as [d Hd]; [exists c; nia|]. exists d. lia.
Qed.

(** The first [2^p] triangular numbers are distinct modulo [2^p]. *)
Lemma tri_inj (p : nat) a b :
  0 <= a < 2 ^ Z.of_nat p → 0 <= b < 2 ^ Z.of_nat p →
  tri a mod 2 ^ Z.of_nat p = tri b mod 2 ^ Z.of_nat p → a = b.
Proof.
  intros Ha Hb H. set (q := 2 ^ Z.of_nat p) in *.
  assert (Hd : (q | tri a - tri b)).
  { apply Z.mod_divide; [lia|]. rewrite Zminus_mod, H, Z.sub_diag. done. }
  assert (Hd2 : (2 ^ Z.of_nat (S p) | (a - b) * (a + b + 1))).
  { rewrite Nat2Z.inj_succ, Z.pow_succ_r by lia. fold q. destruct Hd as [c Hc]. exists c.
    pose proof (tri_double a). pose proof (tri_double b). nia. }
  assert (Hq : 2 ^ Z.of_nat (S p) = 2 * q) by (rewrite Nat2Z.inj_succ, Z.pow_succ_r by lia; done).
  destruct (Z.Even_or_Odd (a - b)) as [[k Hk]|Ho].
  - apply pow2_divide_odd in Hd2; [|exists (k + b); lia]. rewrite Hq in Hd2.
    destruct Hd2 as [c Hc]. assert (c = 0) by nia. lia.
  - rewrite Z.mul_comm in Hd2. apply pow2_divide_odd in Hd2; [|done]. rewrite Hq in Hd2.
    destruct Hd2 as [c Hc]. assert (q > 0) by lia.
    destruct (Z.le_gt_cases c 0); [assert (c * (2 * q) <= 0) by nia; lia|].
    assert (1 * (2 * q) <= c * (2 * q)) by (apply Z.mul_le_mono_nonneg_r; lia). lia.
Qed.

(** The [n]-th bucket probed for hash [h] in a table of [N] buckets. *)
Definition pos (N h : Z) (n : nat) : nat := Z.to_nat ((h + tri (Z.of_nat n)) mod N).

Section Probing.
Context (p : nat) (h : Z).
Let N := 2 ^ Z.of_nat p.

Lemma pos_Z n : Z.of_nat (pos N h n) = (h + tri (Z.of_nat n)) mod N.
Proof. unfold pos. rewrite Z2Nat.id; [done|]. apply Z.mod_pos_bound. unfold N. lia. Qed.

Lemma pos_lt n : (pos N h n < Z.to_nat N)%nat.
Proof.
  pose proof (pos_Z n). pose proof (Z.mod_pos_bound (h + tri (Z.of_nat n)) N ltac:(unfold N; lia)).
  lia.
Qed.

Lemma pos_inj a b :
  (a < Z.to_nat N)%nat → (b < Z.to_nat N)%nat → pos N h a = pos N h b → a = b.
Proof.
  intros Ha Hb E. apply Nat2Z.inj. apply (tri_inj p); [fold N; lia|fold N; lia|].
  assert (E' : Z.of_nat (pos N h a) = Z.of_nat (pos N h b)) by lia. rewrite !pos_Z in E'.
  fold N. assert (0 < N) by (unfold N; lia).
  assert (Hm : ∀ t, t mod N = ((h + t) mod N - h) mod N).
  { intros t. rewrite Zminus_mod_idemp_l. f_equal. lia. }
  by rewrite (Hm (tri (Z.of_nat a))), (Hm (tri (Z.of_nat b))), E'.
Qed.

(** The probe sequence visits every bucket within its first [N] probes. *)
Lemma pos_cover x : (x < Z.to_nat N)%nat → ∃ n, (n < Z.to_nat N)%nat ∧ pos N h n = x.
Proof.
  intros Hx.
  assert (Hs : bSurjective (Z.to_nat N) (pos N h)).
  { apply bInjective_bSurjective.
    - intros n _. apply pos_lt.
    - intros a b. apply pos_inj. }
  destruct (Hs x Hx) as (n & ? & ?). eauto.
Qed.
End Probing.

(** ** Power-of-two tables and the probe loop *)

Section Steps.
Context (p : nat) (h : Z).
Hypothesis Hp : (p <= 31)%nat.
Let N := 2 ^ Z.of_nat p.

Lemma N_bound : 1 <= N <= 2147483648.
Proof.
  unfold N. split; [lia|]. change 2147483648 with (2 ^ 31). apply Z.pow_le_mono_r; lia.
Qed.

Lemma u32_mask : u32 (N - 1) = N - 1.
Proof. pose proof N_bound. apply u32_id. unfold is_u32. lia. Qed.

Lemma u32_mod_N x : u32 x mod N = x mod N.
Proof.
  unfold u32. change 4294967296 with (2 ^ 32). apply Z.mod_mod_divide.
  exists (2 ^ (32 - Z.of_nat p)). unfold N. rewrite <- Z.pow_add_r by lia. f_equal. lia.
Qed.

Lemma pos_start : Z.land h (u32 (N - 1)) = Z.of_nat (pos N h 0).
Proof.
  rewrite u32_mask. unfold N at 1. rewrite land_low, (pos_Z p h) by lia. fold N.
  change (tri (Z.of_nat 0)) with 0. by rewrite Z.add_0_r.
Qed.

Lemma pos_step n :
  probe_next (u32 (N - 1)) (Z.of_nat (pos N h n)) (u32 (u32 (Z.of_nat n) + 1)) =
    Z.of_nat (pos N h (S n)).
Proof.
  unfold probe_next. rewrite u32_mask, u32_add_l, u32_add_r. unfold N at 2.
  rewrite land_low by lia. fold N. rewrite u32_mod_N, !(pos_Z p h).
  rewrite Nat2Z.inj_succ, <- Z.add_1_r, tri_succ. fold N.
  rewrite Zplus_mod_idemp_l. f_equal. lia.
Qed.

Lemma pos_return n : (0 < n < Z.to_nat N)%nat → pos N h n ≠ pos N h 0.
Proof. intros Hn E. apply (pos_inj p h) in E; lia. Qed.
End Steps.

Lemma first_true (f : nat → bool) n :
  f n = true → ∃ m, (m <= n)%nat ∧ f m = true ∧ ∀ k, (k < m)%nat → f k = false.
Proof.
  revert f. induction n as [|n IH]; intros f Hf.
  - exists 0%nat. split_and!; [done|done|lia].
  - destruct (f 0%nat) eqn:E0.
    + exists 0%nat. split_and!; [lia|done|lia].
    + destruct (IH (λ n, f (S n)) Hf) as (m & Hm & Hfm & Hk). exists (S m).
      split_and!; [lia|done|]. intros [|k] Hlt; [done|]. apply Hk. lia.
Qed.

(** ** Tables *)

Section Table.
Context {K V : Type} {KK : KhKey K}.

Abbreviation live fl i := (fl !! i = Some 0).
Abbreviation empty fl i := (fl !! i = Some ac_bit_empty).

(** Flags of a table of [2^p] buckets. *)
Record flags_wf (p : nat) (fl : list Z) : Prop := {
  fw_len : Z.of_nat (length fl) = 2 ^ Z.of_nat p;
  fw_val : Forall (λ f, f = 0 ∨ f = ac_bit_deleted ∨ f = ac_bit_empty) fl
}.

(** Bucket [x] can be reached for hash [hv] without meeting an empty bucket. *)
Definition reach (p : nat) (fl : list Z) (hv : Z) (x : nat) : Prop :=
  let N := 2 ^ Z.of_nat p in
  ∃ n, (n < Z.to_nat N)%nat ∧ pos N hv n = x ∧
    ∀ m, (m < n)%nat → ¬ empty fl (pos N hv m).

(** The number of buckets with flag [f]. *)
Definition count (f : Z) (fl : list Z) : nat := length (List.filter (Z.eqb f) fl).

Lemma flags_cases p fl i :
  flags_wf p fl → (i < Z.to_nat (2 ^ Z.of_nat p))%nat →
  live fl i ∨ fl !! i = Some ac_bit_deleted ∨ empty fl i.
Proof.
  intros [Hl Hv] Hi. destruct (lookup_lt_is_Some_2 fl i) as [f Hf]; [lia|].
  rewrite Hf. apply (Forall_lookup_1 _ _ _ _ Hv) in Hf. naive_solver.
Qed.

Lemma count_cons f a fl : count f (a :: fl) = ((if Z.eqb f a then 1 else 0) + count f fl)%nat.
Proof. unfold count. cbn. by destruct (f =? a). Qed.

Lemma count_insert f fl i f0 f1 :
  fl !! i = Some f0 →
  (count f (<[i := f1]> fl) + (if Z.eqb f f0 then 1 else 0) =
   count f fl + (if Z.eqb f f1 then 1 else 0))%nat.
Proof.
  revert i. induction fl as [|a fl IH]; intros [|i] H; try done.
  - injection H as <-. change (<[0%nat := f1]> (a :: fl)) with (f1 :: fl). rewrite !count_cons. lia.
  - specialize (IH i H). change (<[S i := f1]> (a :: fl)) with (a :: <[i := f1]> fl).
    rewrite !count_cons. lia.
Qed.

Lemma count_total p fl :
  flags_wf p fl →
  Z.of_nat (count 0 fl + count ac_bit_deleted fl + count ac_bit_empty fl) = 2 ^ Z.of_nat p.
Proof.
  intros [<- Hv]. f_equal.
  induction Hv as [|f fl Hf _ IH]; [done|]. rewrite !count_cons.
  destruct Hf as [->|[->| ->]]; cbn; lia.
Qed.

Lemma count_pos f fl : (0 < count f fl)%nat → ∃ i, fl !! i = Some f.
Proof.
  induction fl as [|a fl IH]; [cbn; lia|]. rewrite count_cons.
  destruct (Z.eqb_spec f a) as [->|]; intros H.
  - by exists 0%nat.
  - destruct (IH H) as [i Hi]. by exists (S i).
Qed.

(** The first probe that satisfies [stop], where some probe does. *)
Lemma first_probe (p : nat) hv (stop : nat → bool) x :
  (x < Z.to_nat (2 ^ Z.of_nat p))%nat → stop x = true →
  ∃ n, (n < Z.to_nat (2 ^ Z.of_nat p))%nat ∧ stop (pos (2 ^ Z.of_nat p) hv n) = true ∧
    ∀ m, (m < n)%nat → stop (pos (2 ^ Z.of_nat p) hv m) = false.
Proof.
  intros Hx Hs. destruct (pos_cover p hv x Hx) as (n & Hn & E).
  destruct (first_true (λ n, stop (pos (2 ^ Z.of_nat p) hv n)) n) as (m & Hm & Hsm & Hk).
  { by rewrite E. }
  exists m. split_and!; [lia|done|done].
Qed.

Lemma isempty_flag f : f = 0 ∨ f = ac_bit_deleted ∨ f = ac_bit_empty → isempty f = (f =? 2).
Proof. by intros [->|[->| ->]]. Qed.
Lemma isdel_flag f : f = 0 ∨ f = ac_bit_deleted ∨ f = ac_bit_empty → isdel f = (f =? 1).
Proof. by intros [->|[->| ->]]. Qed.
Lemma iseither_flag f :
  f = 0 ∨ f = ac_bit_deleted ∨ f = ac_bit_empty → iseither f = negb (f =? 0).
Proof. by intros [->|[->| ->]]. Qed.

(** Keys of the live buckets: written, well-formed, reachable and pairwise different. *)
Record keys_wf (p : nat) (fl : list Z) (ks : list (option K)) : Prop := {
  kw_key : ∀ i, live fl i →
    ∃ k, ks !! i = Some (Some k) ∧ key_wf k ∧ reach p fl (hash_func k) i;
  kw_inj : ∀ i j k k', live fl i → live fl j → ks !! i = Some (Some k) →
    ks !! j = Some (Some k') → hash_equal k k' = true → i = j
}.

Record tbl_inv (p : nat) (h : khash K V) : Prop := {
  ti_pow : (2 <= p <= 31)%nat;
  ti_n : n_buckets h = 2 ^ Z.of_nat p;
  ti_flags : flags_wf p (flags h);
  ti_keys_len : (length (flags h) <= length (keys h))%nat;
  ti_vals_len : (length (flags h) <= length (vals h))%nat;
  ti_keys : keys_wf p (flags h) (keys h);
  ti_size : kh_size h = Z.of_nat (count 0 (flags h));
  ti_occ : n_occupied h = Z.of_nat (count 0 (flags h) + count ac_bit_deleted (flags h));
  ti_upper : upper_bound h = HASH_UPPER (n_buckets h);
  ti_room : n_occupied h <= upper_bound h
}.

(** The empty table that was never allocated, or an allocated one. *)
Definition kh_inv (h : khash K V) : Prop :=
  (n_buckets h = 0 ∧ kh_size h = 0 ∧ n_occupied h = 0 ∧ upper_bound h = 0 ∧ flags h = []) ∨
  ∃ p, tbl_inv p h.

(** The entries of a table, up to the comparison of keys; the value of an entry
    is [None] before [kh_val] is first assigned. *)
Definition entry_at (h : khash K V) (x : nat) (k : K) (v : option V) : Prop :=
  live (flags h) x ∧ keys h !! x = Some (Some k) ∧ vals h !! x = Some v.
Definition kh_maps (h : khash K V) (key : K) (v : option V) : Prop :=
  n_buckets h ≠ 0 ∧ ∃ x k, entry_at h x k v ∧ hash_equal k key = true.

(** *** The load factor leaves an empty bucket *)

Lemma pow_cases (P : nat → Prop) (n : nat) :
  Forall P (seq 2 n) → ∀ p, (2 <= p < 2 + n)%nat → P p.
Proof. intros H p Hp. rewrite Forall_forall in H. apply H, elem_of_seq. lia. Qed.

Lemma HASH_UPPER_lt p : (2 <= p <= 31)%nat → HASH_UPPER (2 ^ Z.of_nat p) < 2 ^ Z.of_nat p.
Proof.
  intros Hp. apply (pow_cases (λ p, HASH_UPPER (2 ^ Z.of_nat p) < 2 ^ Z.of_nat p) 30); [|lia].
  apply (bool_decide_unpack _). by vm_compute.
Qed.

(** In tables of up to [2^27] buckets it is 77%. *)
Lemma HASH_UPPER_77 p :
  (2 <= p <= 27)%nat → HASH_UPPER (2 ^ Z.of_nat p) = 77 * 2 ^ Z.of_nat p / 100.
Proof.
  intros Hp.
  apply (pow_cases (λ p, HASH_UPPER (2 ^ Z.of_nat p) = 77 * 2 ^ Z.of_nat p / 100) 26); [|lia].
  apply (bool_decide_unpack _). by vm_compute.
Qed.

Lemma tbl_has_empty p h :
  tbl_inv p h → ∃ x, (x < Z.to_nat (2 ^ Z.of_nat p))%nat ∧ empty (flags h) x.
Proof.
  intros Hi. destruct (count_pos ac_bit_empty (flags h)) as [x Hx].
  - pose proof (count_total p _ (ti_flags p h Hi)). pose proof (HASH_UPPER_lt p (ti_pow p h Hi)).
    pose proof (ti_room p h Hi). pose proof (ti_upper p h Hi). pose proof (ti_occ p h Hi).
    rewrite (ti_n p h Hi) in *. lia.
  - exists x. split; [|done]. apply lookup_lt_Some in Hx.
    pose proof (fw_len p _ (ti_flags p h Hi)). lia.
Qed.
(** *** The probe loops *)

(** Where the loops of [kh_get] and [kh_put] stop: at an empty bucket or at a
    live one with an equal key. *)
Definition present (h : khash K V) (key : K) (x : nat) : Prop :=
  live (flags h) x ∧ ∃ k, keys h !! x = Some (Some k) ∧ hash_equal k key = true.

Definition stop (h : khash K V) (key : K) (i : nat) : bool :=
  match flags h !! i with
  | Some f =>
      (f =? 2) || ((f =? 0) &&
        match keys h !! i with Some (Some k) => hash_equal k key | _ => false end)
  | None => true
  end.

Section Probe.
Context (p : nat) (h : khash K V) (key : K).
Hypothesis Hinv : tbl_inv p h.
Hypothesis Hkey : key_wf key.
Let N := 2 ^ Z.of_nat p.
Let at_ (n : nat) : nat := pos N (hash_func key) n.
Let mask := u32 (n_buckets h - 1).

Lemma at_lt n : (at_ n < Z.to_nat N)%nat.
Proof. apply (pos_lt p). Qed.

Lemma at_step n :
  probe_next mask (Z.of_nat (at_ n)) (u32 (u32 (Z.of_nat n) + 1)) = Z.of_nat (at_ (S n)).
Proof. unfold mask. rewrite (ti_n p h Hinv). apply pos_step. apply (ti_pow p h Hinv). Qed.

Lemma at_start : Z.land (hash_func key) mask = Z.of_nat (at_ 0).
Proof. unfold mask. rewrite (ti_n p h Hinv). apply pos_start. apply (ti_pow p h Hinv). Qed.

Lemma at_return n : (0 < n < Z.to_nat N)%nat → (Z.of_nat (at_ n) =? Z.of_nat (at_ 0)) = false.
Proof. intros Hn. apply Z.eqb_neq. intros E%Nat2Z.inj. by apply (pos_return p (hash_func key) (proj2 (ti_pow p h Hinv)) n Hn). Qed.

Lemma keep_probing_stop i :
  (i < Z.to_nat N)%nat → keep_probing h key (Z.of_nat i) = Done (negb (stop h key i)).
Proof.
  intros Hi. pose proof (flags_cases p _ i (ti_flags p h Hinv) Hi) as Hf.
  unfold keep_probing, stop. destruct Hf as [Hf|[Hf|Hf]]; rewrite (rd_Some _ _ _ Hf), Hf; try done.
  destruct (kw_key p _ _ (ti_keys p h Hinv) i Hf) as (k & Hk & _).
  cbn [mbind outcome_bind]. change (isempty 0) with false. change (isdel 0) with false.
  unfold key_at. rewrite (rd_Some _ _ _ Hk), Hk. done.
Qed.

Lemma rd_flag i :
  (i < Z.to_nat N)%nat →
  ∃ f, flags h !! i = Some f ∧ rd (flags h) (Z.of_nat i) = Done f ∧
    (f = 0 ∨ f = ac_bit_deleted ∨ f = ac_bit_empty).
Proof.
  intros Hi. destruct (flags_cases p _ i (ti_flags p h Hinv) Hi) as [Hf|[Hf|Hf]];
    eexists; (split; [done|]); (split; [by apply rd_Some|]); auto.
Qed.

Lemma get_loop_run n0 n fuel :
  (n <= n0 < Z.to_nat N)%nat → (n0 - n < fuel)%nat →
  stop h key (at_ n0) = true → (∀ m, (m < n0)%nat → stop h key (at_ m) = false) →
  get_loop fuel h key mask (Z.of_nat (at_ 0)) (Z.of_nat (at_ n)) (u32 (Z.of_nat n)) =
    f ← rd (flags h) (Z.of_nat (at_ n0));
    Done (if iseither f then n_buckets h else Z.of_nat (at_ n0)).
Proof.
  revert n. induction fuel as [|fuel IH]; intros n Hn Hf Hs Hbefore; [lia|].
  cbn [get_loop]. rewrite keep_probing_stop by apply at_lt. cbn [mbind outcome_bind].
  destruct (decide (n = n0)) as [->|Hne]; [by rewrite Hs|].
  rewrite Hbefore by lia. cbn [negb]. rewrite at_step, at_return by lia.
  rewrite u32_add_l. replace (Z.of_nat n + 1) with (Z.of_nat (S n)) by lia.
  apply IH; [lia|lia|done|done].
Qed.

Lemma put_loop_run n0 n fuel site :
  (n <= n0 < Z.to_nat N)%nat → (n0 - n < fuel)%nat →
  stop h key (at_ n0) = true → (∀ m, (m < n0)%nat → stop h key (at_ m) = false) →
  ∃ site', put_loop fuel h key mask (Z.of_nat (at_ 0)) (Z.of_nat (at_ n)) (u32 (Z.of_nat n)) site =
      Done (n_buckets h, site', Z.of_nat (at_ n0)) ∧
    (site' = site ∨ ∃ m, (m < n0)%nat ∧ site' = Z.of_nat (at_ m) ∧
      flags h !! at_ m = Some ac_bit_deleted).
Proof.
  revert n site. induction fuel as [|fuel IH]; intros n site Hn Hf Hs Hbefore; [lia|].
  cbn [put_loop]. rewrite keep_probing_stop by apply at_lt. cbn [mbind outcome_bind].
  destruct (decide (n = n0)) as [->|Hne]; [rewrite Hs; eauto|].
  rewrite Hbefore by lia. cbn [negb].
  destruct (rd_flag (at_ n) (at_lt n)) as (f & Hfl & -> & Hcase). cbn [mbind outcome_bind].
  rewrite at_step, at_return by lia.
  rewrite u32_add_l. replace (Z.of_nat n + 1) with (Z.of_nat (S n)) by lia.
  destruct (IH (S n) (if isdel f then Z.of_nat (at_ n) else site)) as (site' & -> & Hsite);
    [lia|lia|done|done|].
  exists site'. split; [done|]. destruct Hsite as [->|?]; [|by right].
  rewrite isdel_flag by done. destruct (Z.eqb_spec f 1) as [->|]; [|by left].
  right. exists n. split_and!; [lia|done|done].
Qed.

(** The first stop is the bucket of the key if there is one, and else empty. *)
Lemma first_stop :
  ∃ n0, (n0 < Z.to_nat N)%nat ∧ stop h key (at_ n0) = true ∧
    (∀ m, (m < n0)%nat → stop h key (at_ m) = false) ∧
    (present h key (at_ n0) ∨ empty (flags h) (at_ n0) ∧ ∀ y, ¬ present h key y).
Proof.
  destruct (tbl_has_empty p h Hinv) as (e & He & Hempty).
  destruct (first_probe p (hash_func key) (stop h key) e He) as (n0 & Hn0 & Hs & Hm).
  { unfold stop. by rewrite Hempty. }
  exists n0. split_and!; [done|done|done|]. fold N in Hs, Hm. fold (at_ n0) in Hs.
  destruct (flags_cases p _ (at_ n0) (ti_flags p h Hinv) (at_lt n0)) as [Hf|[Hf|Hf]].
  - left. split; [done|]. unfold stop in Hs. rewrite Hf in Hs. cbn in Hs.
    destruct (keys h !! at_ n0) as [[k|]|]; [|done..]. eauto.
  - unfold stop in Hs. rewrite Hf in Hs. done.
  - right. split; [done|]. intros y (Hy & k & Hk & He').
    destruct (kw_key p _ _ (ti_keys p h Hinv) y Hy) as (k' & Hk' & Hwf & ny & Hny & Hpos & Hpath).
    assert (k' = k) as -> by congruence.
    rewrite (hash_equal_hash k key Hwf Hkey He') in Hpos, Hpath. fold N in Hpos, Hpath, Hny.
    destruct (Nat.lt_total ny n0) as [Hlt|[->|Hlt]].
    + specialize (Hm ny Hlt). unfold stop in Hm. rewrite Hpos, Hy, Hk, He' in Hm. done.
    + unfold at_ in Hf. rewrite Hpos in Hf. rewrite Hy in Hf. done.
    + by apply (Hpath n0).
Qed.

(** *** Lookup *)

Lemma kh_get_run :
  ∃ x, kh_get h key = Done x ∧
    ((∃ y, x = Z.of_nat y ∧ present h key y) ∨ (x = n_buckets h ∧ ∀ y, ¬ present h key y)).
Proof.
  destruct first_stop as (n0 & Hn0 & Hs & Hm & Hcase).
  unfold kh_get. pose proof (N_bound p (proj2 (ti_pow p h Hinv))) as HN. fold N in HN.
  destruct (Z.eqb_spec (n_buckets h) 0) as [E|_].
  { rewrite (ti_n p h Hinv) in E. fold N in E. lia. }
  fold mask. rewrite at_start.
  change (get_loop ?a ?b ?c ?d ?e ?f 0) with (get_loop a b c d e f (u32 (Z.of_nat 0))).
  rewrite (get_loop_run n0 0); [|lia|unfold probe_fuel; rewrite (ti_n p h Hinv); fold N; lia|done|done].
  destruct Hcase as [Hp|[He Hno]].
  - rewrite (rd_Some _ _ _ (proj1 Hp)). eexists. split; [done|]. left. eauto.
  - rewrite (rd_Some _ _ _ He). eexists. split; [done|]. by right.
Qed.

Lemma put_bucket_run :
  ∃ x, put_bucket h key = Done (Z.of_nat x) ∧ (x < Z.to_nat N)%nat ∧
    (present h key x ∨
     (¬ live (flags h) x ∧ (∀ y, ¬ present h key y) ∧ reach p (flags h) (hash_func key) x)).
Proof.
  destruct first_stop as (n0 & Hn0 & Hs & Hm & Hcase).
  assert (Hpath : ∀ m, (m < n0)%nat → ¬ empty (flags h) (at_ m)).
  { intros m Hlt He. specialize (Hm m Hlt). unfold stop in Hm. by rewrite He in Hm. }
  unfold put_bucket. fold mask. rewrite at_start.
  change (put_loop ?a ?b ?c ?d ?e ?f 0 ?g) with (put_loop a b c d e f (u32 (Z.of_nat 0)) g).
  destruct (put_loop_run n0 0 (probe_fuel (n_buckets h)) (n_buckets h)) as (site & E & Hsite);
    [lia|unfold probe_fuel; rewrite (ti_n p h Hinv); fold N; lia|done|done|].
  rewrite E. cbn [mbind outcome_bind]. rewrite Z.eqb_refl.
  destruct Hcase as [Hp|[He Hno]].
  - rewrite (rd_Some _ _ _ (proj1 Hp)). exists (at_ n0). split; [done|].
    split; [apply at_lt|by left].
  - rewrite (rd_Some _ _ _ He). cbn [mbind outcome_bind isempty].
    change (isempty ac_bit_empty) with true. cbn [andb].
    destruct (Z.eqb_spec site (n_buckets h)) as [->|Hsn].
    + exists (at_ n0). split; [done|]. split; [apply at_lt|]. right. split_and!.
      * rewrite He. done.
      * done.
      * exists n0. done.
    + destruct Hsite as [?|(m & Hmn & -> & Hd)]; [done|]. exists (at_ m).
      split; [done|]. split; [apply at_lt|]. right. split_and!.
      * rewrite Hd. done.
      * done.
      * exists m. split_and!; [lia|done|]. intros m' Hm'. apply Hpath. lia.
Qed.
End Probe.
(** *** Changing one bucket *)

Lemma flags_wf_insert p fl i f :
  flags_wf p fl → f = 0 ∨ f = ac_bit_deleted ∨ f = ac_bit_empty → flags_wf p (<[i := f]> fl).
Proof.
  intros [Hl Hv] Hf. split; [by rewrite length_insert|]. by apply Forall_insert.
Qed.

Lemma reach_mono p fl fl' hv x :
  (∀ y, empty fl' y → empty fl y) → reach p fl hv x → reach p fl' hv x.
Proof.
  intros He (n & Hn & Hx & Hpath). exists n. split_and!; [done|done|].
  intros m Hm He'. apply (Hpath m Hm). by apply He.
Qed.

Lemma insert_not_empty (fl : list Z) (x : nat) (f : Z) (y : nat) :
  f ≠ ac_bit_empty → empty (<[x := f]> fl) y → empty fl y.
Proof. rewrite list_lookup_insert_Some. naive_solver. Qed.

(** A bucket for a key that is not in the table becomes live. *)
Lemma keys_wf_add p fl ks x key :
  keys_wf p fl ks → (x < length fl)%nat → (length fl <= length ks)%nat → key_wf key →
  (∀ i k, live fl i → ks !! i = Some (Some k) → hash_equal k key = false) →
  reach p fl (hash_func key) x →
  keys_wf p (<[x := 0]> fl) (<[x := Some key]> ks).
Proof.
  intros [Hk Hi] Hx Hl Hwf Hno Hr.
  assert (∀ i, live (<[x := 0]> fl) i → i ≠ x → live fl i) as Hlive
    by (intros i Hi' Hne; by rewrite list_lookup_insert_ne in Hi').
  split.
  - intros i Hi'. destruct (decide (i = x)) as [->|Hne].
    + exists key. rewrite list_lookup_insert_eq by lia. split_and!; [done|done|].
      eapply reach_mono; [|done]. intros y. by apply insert_not_empty.
    + destruct (Hk i (Hlive i Hi' Hne)) as (k & ? & ? & ?). exists k.
      rewrite list_lookup_insert_ne by done. split_and!; [done|done|].
      eapply reach_mono; [|done]. intros y. by apply insert_not_empty.
  - intros i j k k' Li Lj Ki Kj E.
    destruct (decide (i = x)) as [->|Hix], (decide (j = x)) as [->|Hjx]; [done| | |].
    + rewrite list_lookup_insert_eq in Ki by lia. injection Ki as <-.
      rewrite list_lookup_insert_ne in Kj by done. apply Hlive in Lj; [|done].
      destruct (Hk j Lj) as (k2 & ? & ? & _). assert (k2 = k') as -> by congruence.
      rewrite hash_equal_sym, (Hno j k') in E by done. done.
    + rewrite list_lookup_insert_eq in Kj by lia. injection Kj as <-.
      rewrite list_lookup_insert_ne in Ki by done. apply Hlive in Li; [|done].
      rewrite (Hno i k) in E by done. done.
    + rewrite list_lookup_insert_ne in Ki, Kj by done. eapply Hi; eauto.
Qed.

(** A bucket that is marked deleted drops out. *)
Lemma keys_wf_del p fl ks x :
  keys_wf p fl ks → keys_wf p (<[x := ac_bit_deleted]> fl) ks.
Proof.
  intros [Hk Hi].
  assert (∀ i, live (<[x := ac_bit_deleted]> fl) i → live fl i) as Hlive
    by (intros i; rewrite list_lookup_insert_Some; naive_solver).
  split.
  - intros i Hi'. destruct (Hk i (Hlive i Hi')) as (k & ? & ? & ?). exists k.
    split_and!; [done|done|]. eapply reach_mono; [|done]. intros y. by apply insert_not_empty.
  - intros i j k k' Li Lj. apply Hi; auto.
Qed.

Lemma tbl_len p h : tbl_inv p h → length (flags h) = Z.to_nat (2 ^ Z.of_nat p).
Proof. intros H. pose proof (fw_len p _ (ti_flags p h H)). lia. Qed.

Lemma tbl_size_lt p h : tbl_inv p h → 0 <= kh_size h <= n_occupied h ∧ n_occupied h < 2 ^ 31.
Proof.
  intros H. pose proof (ti_size p h H). pose proof (ti_occ p h H). pose proof (ti_room p h H).
  pose proof (HASH_UPPER_lt p (ti_pow p h H)). pose proof (ti_upper p h H).
  rewrite (ti_n p h H) in *.
  assert (2 ^ Z.of_nat p <= 2 ^ 31) by (apply Z.pow_le_mono_r; pose proof (ti_pow p h H); lia).
  lia.
Qed.

(** What [kh_put] does to the table once it has its bucket [x]: the key is
    there, and the other buckets are as before. *)
Record put_post (p : nat) (h h' : khash K V) (key : K) (x : nat) (ret : Z) : Prop := {
  pp_inv : tbl_inv p h';
  pp_here : present h' key x;
  pp_vals : vals h' = vals h;
  pp_other : ∀ y k v, y ≠ x → entry_at h' y k v ↔ entry_at h y k v;
  pp_old : ret = 0 ∧ h' = h ∨
    (ret = 1 ∨ ret = 2) ∧ kh_size h' = kh_size h + 1 ∧ keys h' !! x = Some (Some key) ∧
    (∀ y, ¬ present h key y) ∧ ¬ live (flags h) x
}.

Lemma put_at_run p h key x :
  tbl_inv p h → key_wf key → n_occupied h < upper_bound h → (x < Z.to_nat (2 ^ Z.of_nat p))%nat →
  present h key x ∨
    (¬ live (flags h) x ∧ (∀ y, ¬ present h key y) ∧ reach p (flags h) (hash_func key) x) →
  ∃ ret h', put_at h key (Z.of_nat x) = Done (ret, h') ∧ put_post p h h' key x ret.
Proof.
  intros Hinv Hwf Hroom Hx Hcase. pose proof (tbl_len p h Hinv) as Hlen.
  pose proof (tbl_size_lt p h Hinv) as Hs. unfold put_at.
  destruct (flags_cases p _ x (ti_flags p h Hinv) Hx) as [Hf|Hf].
  { destruct Hcase as [Hp|[Hn _]]; [|done].
    rewrite (rd_Some _ _ _ Hf). exists 0, h. split; [done|]. split; [done|done|done|done|by left]. }
  assert (Hnl : ¬ live (flags h) x) by (destruct Hf as [Hf|Hf]; by rewrite Hf).
  destruct Hcase as [[? _]|(_ & Hno & Hr)]; [done|].
  assert (Hkeys : keys_wf p (<[x := 0]> (flags h)) (<[x := Some key]> (keys h))).
  { apply keys_wf_add; [apply Hinv|lia|apply Hinv|done| |done].
    intros i k Hi Hk. destruct (hash_equal k key) eqn:E; [|done]. destruct (Hno i).
    split; [done|]. eauto. }
  pose proof (ti_keys_len p h Hinv) as Hkl.
  assert (Hother : ∀ n' s' y k v, y ≠ x →
    entry_at (Khash (n_buckets h) s' n' (upper_bound h) (<[x := 0]> (flags h))
      (<[x := Some key]> (keys h)) (vals h)) y k v ↔ entry_at h y k v).
  { intros n' s' y k v Hy. unfold entry_at. cbn [flags keys vals].
    by rewrite !list_lookup_insert_ne by done. }
  assert (Hpost : ∀ f n' ret, flags h !! x = Some f → f = ac_bit_deleted ∨ f = ac_bit_empty →
    ret = 1 ∨ ret = 2 → n' = n_occupied h + (if f =? ac_bit_empty then 1 else 0) →
    put_post p h (Khash (n_buckets h) (u32 (kh_size h + 1)) n' (upper_bound h)
      (<[x := 0]> (flags h)) (<[x := Some key]> (keys h)) (vals h)) key x ret).
  { intros f n' ret Hfl Hf12 Hret ->.
    pose proof (count_insert 0 _ x f 0 Hfl) as C0. pose proof (count_insert ac_bit_deleted _ x f 0 Hfl) as C1.
    pose proof (ti_size p h Hinv). pose proof (ti_occ p h Hinv).
    split.
    - destruct Hinv. split; cbn [n_buckets flags keys vals kh_size n_occupied upper_bound];
        rewrite ?length_insert; try done; try lia.
      + apply flags_wf_insert; auto.
      + rewrite u32_id by (unfold is_u32; lia). destruct Hf12 as [->| ->]; cbn in C0; lia.
      + destruct Hf12 as [->| ->]; cbn in C0, C1 |- *; lia.
      + destruct (f =? ac_bit_empty); lia.
    - split; cbn [flags keys]; [by rewrite list_lookup_insert_eq by lia|].
      exists key. rewrite list_lookup_insert_eq by lia. split; [done|by apply hash_equal_refl].
    - done.
    - apply Hother.
    - right. cbn [kh_size keys]. rewrite list_lookup_insert_eq by lia.
      rewrite u32_id by (unfold is_u32; lia). done. }
  destruct Hf as [Hf|Hf]; rewrite (rd_Some _ _ _ Hf); cbn [mbind outcome_bind];
    [change (isempty ac_bit_deleted) with false; change (isdel ac_bit_deleted) with true
    |change (isempty ac_bit_empty) with true]; cbn match;
    rewrite !wr_lt by lia; cbn [mbind outcome_bind]; eexists _, _; (split; [done|]).
  - apply (Hpost ac_bit_deleted); [done|auto|auto|cbn; lia].
  - apply (Hpost ac_bit_empty); [done|auto|auto|]. cbn. rewrite u32_id; [done|unfold is_u32; lia].
Qed.

(** Deleting the entry in bucket [x]. *)
Lemma kh_del_run p h x k :
  tbl_inv p h → live (flags h) x → keys h !! x = Some (Some k) →
  ∃ h', kh_del h (Z.of_nat x) = Done h' ∧ tbl_inv p h' ∧ kh_size h' = kh_size h - 1 ∧
    keys h' = keys h ∧ vals h' = vals h ∧
    (∀ y k' v, entry_at h' y k' v ↔ y ≠ x ∧ entry_at h y k' v).
Proof.
  intros Hinv Hx Hk. pose proof (tbl_len p h Hinv) as Hlen. pose proof (tbl_size_lt p h Hinv) as Hs.
  pose proof (lookup_lt_Some _ _ _ Hx) as Hlt.
  pose proof (count_insert 0 _ x 0 ac_bit_deleted Hx) as C0.
  pose proof (count_insert ac_bit_deleted _ x 0 ac_bit_deleted Hx) as C1. cbn in C0, C1.
  pose proof (ti_size p h Hinv). pose proof (ti_occ p h Hinv).
  unfold kh_del. rewrite (proj2 (Z.eqb_neq _ _)) by (rewrite (ti_n p h Hinv); lia).
  rewrite (rd_Some _ _ _ Hx). cbn [mbind outcome_bind]. change (iseither 0) with false.
  change (set_isdel_true 0) with ac_bit_deleted. rewrite wr_lt by done. eexists. split; [done|].
  rewrite u32_id by (unfold is_u32; lia). split_and!; [|done|done|done|].
  - destruct Hinv. split; cbn [n_buckets flags keys vals kh_size n_occupied upper_bound];
      rewrite ?length_insert; try done; try lia.
    + apply flags_wf_insert; auto.
    + by apply keys_wf_del.
  - intros y k' v. unfold entry_at. cbn [flags keys vals].
    rewrite list_lookup_insert_Some. naive_solver.
Qed.
(** *** Rehashing *)

(** Bucket [i] holds an element, of the new table or still of the old one. *)
Definition occ (r : rehash (K := K) (V := V)) (i : nat) : Prop :=
  live (r_new_flags r) i ∨ live (r_flags r) i.

(** The invariant of the rehash loops: the elements [E] of the old table are the
    ones in the buckets and the ones [hand] being moved. *)
Record rh_inv (on p : nat) (E : K → option V → Prop) (c : nat)
    (r : rehash (K := K) (V := V)) (hand : list (K * option V)) : Prop := {
  ri_new : flags_wf p (r_new_flags r);
  ri_nodel : ∀ i, r_new_flags r !! i ≠ Some ac_bit_deleted;
  ri_old_len : length (r_flags r) = on;
  ri_old_val : Forall (λ f, f = 0 ∨ f = ac_bit_deleted ∨ f = ac_bit_empty) (r_flags r);
  ri_klen : (on <= length (r_keys r) ∧ length (r_new_flags r) <= length (r_keys r))%nat;
  ri_vlen : (on <= length (r_vals r) ∧ length (r_new_flags r) <= length (r_vals r))%nat;
  ri_disj : ∀ i, live (r_new_flags r) i → ¬ live (r_flags r) i;
  ri_reach : ∀ i, live (r_new_flags r) i → ∃ k, r_keys r !! i = Some (Some k) ∧
    reach p (r_new_flags r) (hash_func k) i;
  ri_key : ∀ i, occ r i → ∃ k, r_keys r !! i = Some (Some k) ∧ key_wf k;
  ri_inj : ∀ i j k k', occ r i → occ r j → r_keys r !! i = Some (Some k) →
    r_keys r !! j = Some (Some k') → hash_equal k k' = true → i = j;
  ri_hand : ∀ a i k, a ∈ hand → occ r i → r_keys r !! i = Some (Some k) →
    hash_equal k a.1 = false;
  ri_hand_wf : ∀ a, a ∈ hand → key_wf a.1;
  ri_hands : ∀ m n a b, hand !! m = Some a → hand !! n = Some b →
    hash_equal a.1 b.1 = true → m = n;
  ri_content : ∀ k v, E k v ↔ (∃ i, occ r i ∧ r_keys r !! i = Some (Some k) ∧
    r_vals r !! i = Some v) ∨ (k, v) ∈ hand;
  ri_count : (count 0 (r_new_flags r) + count 0 (r_flags r) + length hand = c)%nat;
  ri_fits : Z.of_nat c < 2 ^ Z.of_nat p
}.

(** Taking the element out of an old bucket. *)
Lemma rh_pick on p E c r hand j k v :
  rh_inv on p E c r hand → live (r_flags r) j → r_keys r !! j = Some (Some k) →
  r_vals r !! j = Some v →
  rh_inv on p E c (Rehash (<[j := ac_bit_deleted]> (r_flags r)) (r_new_flags r)
    (r_keys r) (r_vals r)) (hand ++ [(k, v)]).
Proof.
  intros [] Hj Hk Hv. set (r' := Rehash _ _ _ _).
  assert (Hocc : ∀ i, occ r' i ↔ occ r i ∧ i ≠ j).
  { intros i. unfold occ, r'. cbn [r_flags r_new_flags].
    rewrite list_lookup_insert_Some. split; [|naive_solver].
    intros [Hn|H']; [|naive_solver]. split; [by left|]. intros ->. by apply (ri_disj0 j). }
  assert (Hoj : occ r j) by (by right).
  assert (Hwf : key_wf k) by (destruct (ri_key0 j Hoj) as (? & ? & ?); congruence).
  split; try done; unfold r'; cbn [r_flags r_new_flags r_keys r_vals].
  - by rewrite length_insert.
  - apply Forall_insert; auto.
  - intros i Hn Hl. apply (ri_disj0 i Hn). apply list_lookup_insert_Some in Hl. naive_solver.
  - intros i [? _]%Hocc. auto.
  - intros i i' ? ? [? _]%Hocc [? _]%Hocc. by apply ri_inj0.
  - intros a i ki [Ha| ->%list_elem_of_singleton]%elem_of_app [Hi Hne]%Hocc Hki.
    + by apply (ri_hand0 a i).
    + destruct (hash_equal ki k) eqn:Eq; [|done]. destruct Hne. by apply (ri_inj0 i j ki k).
  - intros a [Ha| ->%list_elem_of_singleton]%elem_of_app; [by apply ri_hand_wf0|done].
  - intros m n a b Ha Hb Eq.
    apply lookup_app_Some in Ha as [Ha|[Hm [Hm0 <-]%list_lookup_singleton_Some]];
      apply lookup_app_Some in Hb as [Hb|[Hn [Hn0 <-]%list_lookup_singleton_Some]].
    + by apply (ri_hands0 m n a b).
    + apply list_elem_of_lookup_2 in Ha. pose proof (ri_hand0 a j k Ha Hoj Hk) as F.
      rewrite hash_equal_sym in Eq by auto. cbn [fst] in Eq. congruence.
    + apply list_elem_of_lookup_2 in Hb. pose proof (ri_hand0 b j k Hb Hoj Hk) as F.
      cbn [fst] in Eq. congruence.
    + lia.
  - intros k' v'. rewrite ri_content0, elem_of_app, list_elem_of_singleton. split.
    + intros [(i & Hi & Hki & Hvi)|?]; [|by right; left].
      destruct (decide (i = j)) as [->|Hne]; [right; right; congruence|].
      left. exists i. split; [|done]. by apply Hocc.
    + intros [(i & [Hi _]%Hocc & ?)|[?|[= -> ->]]]; eauto 10.
  - rewrite length_app. cbn [length].
    pose proof (count_insert 0 _ j 0 ac_bit_deleted Hj) as C. cbn in C. lia.
Qed.

(** Placing the first element in hand into an empty bucket of its probe path. *)
Lemma rh_place on p E c r hand i k v :
  rh_inv on p E c r ((k, v) :: hand) → empty (r_new_flags r) i → ¬ live (r_flags r) i →
  reach p (r_new_flags r) (hash_func k) i →
  rh_inv on p E c (Rehash (r_flags r) (<[i := 0]> (r_new_flags r))
    (<[i := Some k]> (r_keys r)) (<[i := v]> (r_vals r))) hand.
Proof.
  intros [] Hi Hold Hr. set (r' := Rehash _ _ _ _).
  pose proof (lookup_lt_Some _ _ _ Hi) as Hlt.
  assert (Hnocc : ¬ occ r i) by (intros [H|?]; [by rewrite Hi in H|done]).
  assert (Hocc : ∀ y, occ r' y ↔ y = i ∨ occ r y).
  { intros y. unfold occ, r'. cbn [r_flags r_new_flags]. rewrite list_lookup_insert_Some.
    naive_solver. }
  assert (Hkey : ∀ y, y ≠ i → <[i := Some k]> (r_keys r) !! y = r_keys r !! y)
    by (intros; by apply list_lookup_insert_ne).
  assert (Hki : <[i := Some k]> (r_keys r) !! i = Some (Some k)) by (apply list_lookup_insert_eq; lia).
  assert (Hnew : ∀ y, y ≠ i → occ r y → y ≠ i ∧ occ r y) by done.
  assert (Hwf : key_wf k) by (apply (ri_hand_wf0 (k, v)); by left).
  assert (Hfresh : ∀ y ky, occ r y → r_keys r !! y = Some (Some ky) → hash_equal ky k = false)
    by (intros; eapply (ri_hand0 (k, v)); [by left|done..]).
  split; try done; unfold r'; cbn [r_flags r_new_flags r_keys r_vals]; rewrite ?length_insert; try done.
  - apply flags_wf_insert; auto.
  - intros y. rewrite list_lookup_insert_Some. naive_solver.
  - intros y. rewrite list_lookup_insert_Some. naive_solver.
  - intros y. rewrite list_lookup_insert_Some. intros [(-> & _ & _)|[Hne Hy]].
    + exists k. split; [done|]. eapply reach_mono; [|done]. intros z. by apply insert_not_empty.
    + destruct (ri_reach0 y Hy) as (ky & ? & ?). exists ky. rewrite Hkey by done. split; [done|].
      eapply reach_mono; [|done]. intros z. by apply insert_not_empty.
  - intros y [->|Hy]%Hocc; [by exists k|]. rewrite Hkey by (by intros ->). auto.
  - intros y z ky kz [->|Hy]%Hocc [->|Hz]%Hocc.
    + done.
    + rewrite Hki, Hkey by (by intros ->). intros [= <-] Hkz Eq.
      destruct (ri_key0 z Hz) as (k2 & ? & ?). assert (k2 = kz) as -> by congruence.
      rewrite hash_equal_sym, (Hfresh z kz) in Eq by done. done.
    + rewrite Hki, Hkey by (by intros ->). intros Hky [= <-] Eq.
      rewrite (Hfresh y ky) in Eq by done. done.
    + rewrite !Hkey by (by intros ->). by apply ri_inj0.
  - intros a y ky Ha [->|Hy]%Hocc.
    + rewrite Hki. intros [= <-]. destruct (hash_equal k a.1) eqn:Eq; [|done].
      apply list_elem_of_lookup_1 in Ha as [n Ha].
      specialize (ri_hands0 0%nat (S n) (k, v) a eq_refl Ha Eq). done.
    + rewrite Hkey by (by intros ->). apply ri_hand0; [by right|done].
  - intros a Ha. apply ri_hand_wf0. by right.
  - intros m n a b Ha Hb Eq. specialize (ri_hands0 (S m) (S n) a b Ha Hb Eq). lia.
  - intros k' v'. rewrite ri_content0, elem_of_cons. split.
    + intros [(y & Hy & ? & ?)|[[= -> ->]|?]]; [| |by right].
      * left. exists y. rewrite Hkey, list_lookup_insert_ne by (by intros ->).
        split; [apply Hocc; by right|done].
      * left. exists i. rewrite Hki, list_lookup_insert_eq by lia. split; [apply Hocc; by left|done].
    + intros [(y & [->|Hy]%Hocc & Hky & Hvy)|?]; [| |by right; right].
      * rewrite Hki in Hky. rewrite list_lookup_insert_eq in Hvy by lia. right. left. congruence.
      * rewrite Hkey in Hky by (by intros ->). rewrite list_lookup_insert_ne in Hvy by (by intros ->).
        left. eauto.
  - pose proof (count_insert 0 _ i ac_bit_empty 0 Hi) as C. cbn in C. cbn [length] in ri_count0. lia.
Qed.
(** The probe for an empty bucket of the new table. *)
Lemma probe_empty_run p nf hv e :
  (p <= 31)%nat → flags_wf p nf → empty nf e →
  let N := 2 ^ Z.of_nat p in
  ∃ i, probe_empty (probe_fuel N) nf (u32 (N - 1)) (Z.land hv (u32 (N - 1))) 0 = Done (Z.of_nat i) ∧
    empty nf i ∧ reach p nf hv i.
Proof.
  intros Hp Hwf He. cbv zeta. set (N := 2 ^ Z.of_nat p). pose proof (N_bound p Hp) as HN.
  fold N in HN.
  set (st i := match nf !! i with Some f => f =? 2 | None => false end : bool).
  assert (Hlt : (e < Z.to_nat N)%nat).
  { apply lookup_lt_Some in He. pose proof (fw_len p _ Hwf) as Hl. fold N in Hl. lia. }
  destruct (first_probe p hv st e Hlt) as (n0 & Hn0 & Hs & Hm).
  { unfold st. by rewrite He. }
  fold N in Hn0, Hs, Hm.
  assert (Hin : ∀ n, (n <= n0)%nat → ∀ fuel, (n0 - n < fuel)%nat →
    probe_empty fuel nf (u32 (N - 1)) (Z.of_nat (pos N hv n)) (u32 (Z.of_nat n)) =
      Done (Z.of_nat (pos N hv n0))).
  { intros n Hn fuel. revert n Hn. induction fuel as [|fuel IH]; intros n Hn Hf; [lia|].
    cbn [probe_empty]. destruct (flags_cases p nf (pos N hv n) Hwf (pos_lt p hv n)) as [Hfl|[Hfl|Hfl]];
      rewrite (rd_Some _ _ _ Hfl); cbn [mbind outcome_bind];
      (destruct (decide (n = n0)) as [->|Hne];
        [unfold st in Hs; rewrite Hfl in Hs; try done|]);
      try (unfold N; rewrite (pos_step p hv Hp n), u32_add_l; fold N;
           change (isempty 0) with false; change (isempty ac_bit_deleted) with false; cbn match;
           replace (Z.of_nat n + 1) with (Z.of_nat (S n)) by lia; apply IH; lia).
    exfalso. specialize (Hm n ltac:(lia)). unfold st in Hm. by rewrite Hfl in Hm. }
  assert (Hempty : empty nf (pos N hv n0)).
  { unfold st in Hs. destruct (nf !! pos N hv n0) as [f|]; [|done]. apply Z.eqb_eq in Hs. by subst. }
  exists (pos N hv n0). split_and!; [|done|].
  - unfold N at 2 3. rewrite (pos_start p hv Hp). fold N.
    change 0 with (u32 (Z.of_nat 0)) at 1. apply Hin; [lia|]. unfold probe_fuel. lia.
  - exists n0. split_and!; [done|done|]. intros m Hlt'.
    intros Hem. specialize (Hm m Hlt'). fold N in Hem. unfold st in Hm. by rewrite Hem in Hm.
Qed.

(** While something is in hand, the new table has an empty bucket. *)
Lemma rh_has_empty on p E c r a hand :
  rh_inv on p E c r (a :: hand) → ∃ e, empty (r_new_flags r) e.
Proof.
  intros []. apply count_pos. pose proof (count_total p _ ri_new0).
  assert (count ac_bit_deleted (r_new_flags r) = 0)%nat as H0.
  { destruct (Nat.eq_0_gt_0_cases (count ac_bit_deleted (r_new_flags r))) as [|Hgt]; [done|].
    destruct (count_pos _ _ Hgt) as [i Hi]. by destruct (ri_nodel0 i). }
  cbn [length] in ri_count0. lia.
Qed.

Lemma count_le_length f fl : (count f fl <= length fl)%nat.
Proof. unfold count. apply List.filter_length_le. Qed.

(** The kick-out loop terminates with nothing in hand, and clears old buckets only. *)
Lemma kick_out_run p E c on fuel r k v :
  (p <= 31)%nat → rh_inv on p E c r [(k, v)] → (count 0 (r_flags r) < fuel)%nat →
  ∃ r', kick_out fuel (Z.of_nat on) (2 ^ Z.of_nat p) r k v = Done r' ∧ rh_inv on p E c r' [] ∧
    ∀ i, live (r_flags r') i → live (r_flags r) i.
Proof.
  intros Hp. revert r k v. induction fuel as [|fuel IH]; intros r k v Hinv Hf; [lia|].
  destruct (rh_has_empty _ _ _ _ _ _ _ Hinv) as [e He].
  destruct (probe_empty_run p (r_new_flags r) (hash_func k) e Hp (ri_new _ _ _ _ _ _ Hinv) He)
    as (i & Ei & Hi & Hr).
  pose proof (lookup_lt_Some _ _ _ Hi) as Hlt.
  pose proof (ri_klen _ _ _ _ _ _ Hinv) as Hkl. pose proof (ri_vlen _ _ _ _ _ _ Hinv) as Hvl.
  pose proof (ri_old_len _ _ _ _ _ _ Hinv) as Hol.
  cbn [kick_out]. rewrite Ei. cbn [mbind outcome_bind].
  rewrite (rd_Some _ _ _ Hi). cbn [mbind outcome_bind]. rewrite (wr_lt (r_new_flags r)) by exact Hlt. cbn [mbind outcome_bind].
  change (set_isempty_false ac_bit_empty) with 0.
  assert (Hlive : (if Z.of_nat i <? Z.of_nat on
    then f ← rd (r_flags r) (Z.of_nat i); Done (negb (iseither f)) else Done false) =
      Done (bool_decide (live (r_flags r) i))).
  { destruct (Z.ltb_spec (Z.of_nat i) (Z.of_nat on)) as [Hon|Hon].
    - destruct (lookup_lt_is_Some_2 (r_flags r) i) as [f Hfl]; [lia|].
      rewrite (rd_Some _ _ _ Hfl), Hfl. cbn [mbind outcome_bind].
      pose proof (Forall_lookup_1 _ _ _ _ (ri_old_val _ _ _ _ _ _ Hinv) Hfl) as Hc.
      rewrite iseither_flag by done. f_equal.
      destruct Hc as [->|[->| ->]]; [by rewrite bool_decide_true|by rewrite bool_decide_false..].
    - rewrite bool_decide_false; [done|]. intros ?%lookup_lt_Some. lia. }
  rewrite Hlive. cbn [mbind outcome_bind]. case_bool_decide as Hol2.
  - pose proof (lookup_lt_Some _ _ _ Hol2) as Hlo.
    destruct (ri_key _ _ _ _ _ _ Hinv i (or_intror Hol2)) as (k' & Hk' & _).
    destruct (lookup_lt_is_Some_2 (r_vals r) i) as [v' Hv']; [lia|].
    pose proof (rh_pick _ _ _ _ _ _ i k' v' Hinv Hol2 Hk' Hv') as Hpick. cbn [app] in Hpick.
    apply (rh_place _ _ _ _ _ _ i) in Hpick; [|done| |done].
    2:{ cbn [r_flags]. by rewrite list_lookup_insert_eq by lia. }
    cbn [r_flags r_new_flags r_keys r_vals] in Hpick.
    unfold key_at. rewrite (rd_Some _ _ _ Hk'). cbn [mbind outcome_bind].
    rewrite wr_lt by lia. cbn [mbind outcome_bind].
    rewrite (rd_Some _ _ _ Hv'). cbn [mbind outcome_bind]. rewrite wr_lt by lia.
    cbn [mbind outcome_bind]. rewrite (rd_Some _ _ _ Hol2). cbn [mbind outcome_bind].
    rewrite wr_lt by lia. cbn [mbind outcome_bind]. change (set_isdel_true 0) with ac_bit_deleted.
    destruct (IH _ _ _ Hpick) as (r' & Er & Hinv' & Hsub).
    { cbn [r_flags]. pose proof (count_insert 0 _ i 0 ac_bit_deleted Hol2) as C. cbn in C. lia. }
    exists r'. split_and!; [done|done|]. intros y Hy. apply Hsub in Hy. cbn [r_flags] in Hy.
    apply list_lookup_insert_Some in Hy. naive_solver.
  - rewrite !wr_lt by lia. cbn [mbind outcome_bind]. eexists. split_and!; [done| |done].
    by apply rh_place.
Qed.

Lemma rehash_bucket_run p E c on r j :
  (p <= 31)%nat → rh_inv on p E c r [] → (j < on)%nat →
  ∃ r', rehash_bucket (Z.of_nat on) (2 ^ Z.of_nat p) r j = Done r' ∧ rh_inv on p E c r' [] ∧
    (∀ i, live (r_flags r') i → live (r_flags r) i) ∧ ¬ live (r_flags r') j.
Proof.
  intros Hp Hinv Hj. pose proof (ri_old_len _ _ _ _ _ _ Hinv) as Hol.
  destruct (lookup_lt_is_Some_2 (r_flags r) j) as [f Hfl]; [lia|].
  pose proof (Forall_lookup_1 _ _ _ _ (ri_old_val _ _ _ _ _ _ Hinv) Hfl) as Hc.
  unfold rehash_bucket. rewrite (rd_Some _ _ _ Hfl). cbn [mbind outcome_bind].
  rewrite iseither_flag by done. destruct (Z.eqb_spec f 0) as [->|Hne]; cbn [negb].
  2:{ exists r. split_and!; [done|done|done|]. rewrite Hfl. by intros [= ->]. }
  destruct (ri_key _ _ _ _ _ _ Hinv j (or_intror Hfl)) as (k & Hk & _).
  destruct (lookup_lt_is_Some_2 (r_vals r) j) as [v Hv].
  { pose proof (ri_vlen _ _ _ _ _ _ Hinv). lia. }
  unfold key_at. rewrite (rd_Some _ _ _ Hk). cbn [mbind outcome_bind].
  rewrite (rd_Some _ _ _ Hv). cbn [mbind outcome_bind]. rewrite wr_lt by lia.
  cbn [mbind outcome_bind]. change (set_isdel_true 0) with ac_bit_deleted.
  pose proof (rh_pick _ _ _ _ _ _ j k v Hinv Hfl Hk Hv) as Hpick. cbn [app] in Hpick.
  destruct (kick_out_run _ _ _ _ (S (Z.to_nat (Z.of_nat on))) _ _ _ Hp Hpick) as (r' & Er & Hinv' & Hsub).
  { cbn [r_flags]. pose proof (count_le_length 0 (<[j := ac_bit_deleted]> (r_flags r))) as C.
    rewrite length_insert in C. lia. }
  exists r'. split_and!; [done|done| |].
  - intros i Hi. apply Hsub in Hi. cbn [r_flags] in Hi.
    apply list_lookup_insert_Some in Hi. naive_solver.
  - intros Hi. apply Hsub in Hi. cbn [r_flags] in Hi. by rewrite list_lookup_insert_eq in Hi by lia.
Qed.

(** After the loop over the old buckets no old element is left. *)
Lemma rehash_all_run p E c on r :
  (p <= 31)%nat → rh_inv on p E c r [] →
  ∃ r', rehash_all (Z.of_nat on) (2 ^ Z.of_nat p) r = Done r' ∧ rh_inv on p E c r' [] ∧
    ∀ i, ¬ live (r_flags r') i.
Proof.
  intros Hp Hinv. unfold rehash_all. rewrite Nat2Z.id.
  assert (H : ∀ n, (n <= on)%nat → ∃ r',
    foldl (λ r j, r ← r; rehash_bucket (Z.of_nat on) (2 ^ Z.of_nat p) r j) (Done r) (seq 0 n) = Done r' ∧
    rh_inv on p E c r' [] ∧ ∀ i, (i < n)%nat → ¬ live (r_flags r') i).
  { induction n as [|n IH]; intros Hn; [exists r; split_and!; [done|done|lia]|].
    destruct IH as (r1 & E1 & Hinv1 & Hd1); [lia|].
    destruct (rehash_bucket_run p E c on r1 n Hp Hinv1) as (r2 & E2 & Hinv2 & Hsub & Hd2); [lia|].
    exists r2. rewrite seq_S, foldl_app, E1. split_and!; [done|done|].
    intros i Hi Hl. destruct (decide (i = n)) as [->|]; [done|]. apply (Hd1 i); [lia|auto]. }
  destruct (H on) as (r' & Er & Hinv' & Hd); [lia|]. exists r'. split_and!; [done|done|].
  intros i Hi. pose proof (lookup_lt_Some _ _ _ Hi). rewrite (ri_old_len _ _ _ _ _ _ Hinv') in *.
  by apply (Hd i).
Qed.
(** *** Resizing *)

(** What rehashing needs of the table, allocated or not. *)
Record old_ok (h : khash K V) : Prop := {
  oo_len : Z.of_nat (length (flags h)) = n_buckets h;
  oo_val : Forall (λ f, f = 0 ∨ f = ac_bit_deleted ∨ f = ac_bit_empty) (flags h);
  oo_klen : (length (flags h) <= length (keys h))%nat;
  oo_vlen : (length (flags h) <= length (vals h))%nat;
  oo_key : ∀ i, live (flags h) i → ∃ k, keys h !! i = Some (Some k) ∧ key_wf k;
  oo_inj : ∀ i j k k', live (flags h) i → live (flags h) j → keys h !! i = Some (Some k) →
    keys h !! j = Some (Some k') → hash_equal k k' = true → i = j;
  oo_size : kh_size h = Z.of_nat (count 0 (flags h))
}.

Lemma kh_inv_old_ok h : kh_inv h → old_ok h.
Proof.
  intros [(Hn & Hs & _ & _ & Hf)|[p Hi]].
  - split; rewrite ?Hf; cbn [length]; try lia; try done; constructor.
  - pose proof (ti_keys p h Hi) as [Hk Hj]. split; try apply Hi.
    + rewrite (fw_len p _ (ti_flags p h Hi)). by rewrite (ti_n p h Hi).
    + intros i Hl. destruct (Hk i Hl) as (k & ? & ? & _). eauto.
Qed.

Lemma length_realloc {A} (l : list (option A)) n : length (realloc l n) = Z.to_nat n.
Proof. unfold realloc. rewrite length_app, length_take, repeat_length. lia. Qed.

Lemma lookup_realloc {A} (l : list (option A)) n i :
  (i < length l)%nat → (i < Z.to_nat n)%nat → realloc l n !! i = l !! i.
Proof.
  intros Hl Hn. unfold realloc. rewrite lookup_app_l by (rewrite length_take; lia).
  by apply lookup_take_lt.
Qed.

Lemma flags_wf_repeat p :
  flags_wf p (repeat ac_bit_empty (Z.to_nat (2 ^ Z.of_nat p))).
Proof.
  split; [rewrite repeat_length; lia|]. apply Forall_forall.
  intros f Hf%list_elem_of_In%repeat_spec. auto.
Qed.

Lemma repeat_not_live n i : (repeat ac_bit_empty n) !! i ≠ Some 0.
Proof. intros H%list_elem_of_lookup_2%list_elem_of_In%repeat_spec. done. Qed.

Lemma count_repeat n : count 0 (repeat ac_bit_empty n) = 0%nat.
Proof. induction n as [|n IH]; [done|]. cbn [repeat]. by rewrite count_cons, IH. Qed.

(** The rehash starts from the old table and a new one without elements; [ks]
    and [vs] are the buckets, possibly moved to larger arrays. *)
Lemma rh_start h p (ks : list (option K)) (vs : list (option V)) :
  old_ok h → kh_size h < 2 ^ Z.of_nat p →
  (∀ i, (i < length (flags h))%nat → ks !! i = keys h !! i) →
  (∀ i, (i < length (flags h))%nat → vs !! i = vals h !! i) →
  (length (flags h) <= length ks ∧ Z.to_nat (2 ^ Z.of_nat p) <= length ks)%nat →
  (length (flags h) <= length vs ∧ Z.to_nat (2 ^ Z.of_nat p) <= length vs)%nat →
  rh_inv (length (flags h)) p (λ k v, ∃ y, entry_at h y k v) (count 0 (flags h))
    (Rehash (flags h) (repeat ac_bit_empty (Z.to_nat (2 ^ Z.of_nat p))) ks vs) [].
Proof.
  intros [] Hsz Hks Hvs Hkl Hvl.
  assert (Hocc : ∀ i, occ (Rehash (flags h) (repeat ac_bit_empty (Z.to_nat (2 ^ Z.of_nat p))) ks vs) i ↔
    live (flags h) i).
  { intros i. unfold occ. cbn [r_new_flags r_flags]. split; [|by right].
    intros [H|H]; [by apply repeat_not_live in H|done]. }
  assert (Hlt : ∀ i, live (flags h) i → (i < length (flags h))%nat)
    by (intros i; apply lookup_lt_Some).
  split; cbn [r_flags r_new_flags r_keys r_vals]; rewrite ?repeat_length; try done.
  - apply flags_wf_repeat.
  - intros i H%list_elem_of_lookup_2%list_elem_of_In%repeat_spec. done.
  - intros i H. by apply repeat_not_live in H.
  - intros i H. by apply repeat_not_live in H.
  - intros i Hi%Hocc. rewrite Hks by auto. auto.
  - intros i j k k' Hi%Hocc Hj%Hocc. rewrite !Hks by auto. by apply oo_inj0.
  - intros a i k Ha. by apply elem_of_nil in Ha.
  - intros a Ha. by apply elem_of_nil in Ha.
  - intros k v. split.
    + intros (y & Hy & Hk & Hv). left. exists y. rewrite Hks, Hvs by auto.
      split_and!; [by apply Hocc|done|done].
    + intros [(i & Hi%Hocc & Hk & Hv)|H]; [|by apply elem_of_nil in H].
      rewrite Hks in Hk by auto. rewrite Hvs in Hv by auto. exists i. done.
  - rewrite count_repeat. cbn [length]. lia.
  - lia.
Qed.

(** After the rehash the new flags and the buckets, cut to the new size, are a
    table with the same elements. *)
Lemma rh_finish (h : khash K V) p E c on (r : rehash) (ks : list (option K)) (vs : list (option V)) :
  (2 <= p <= 31)%nat → rh_inv on p E c r [] → (∀ i, ¬ live (r_flags r) i) →
  Z.of_nat c <= HASH_UPPER (2 ^ Z.of_nat p) → kh_size h = Z.of_nat c →
  (∀ i, (i < length (r_new_flags r))%nat → ks !! i = r_keys r !! i) →
  (∀ i, (i < length (r_new_flags r))%nat → vs !! i = r_vals r !! i) →
  (length (r_new_flags r) <= length ks)%nat → (length (r_new_flags r) <= length vs)%nat →
  let h' := Khash (2 ^ Z.of_nat p) (kh_size h) (kh_size h) (HASH_UPPER (2 ^ Z.of_nat p))
              (r_new_flags r) ks vs in
  tbl_inv p h' ∧ ∀ k v, (∃ y, entry_at h' y k v) ↔ E k v.
Proof.
  intros Hp Hinv Hold Hc Hs Hks Hvs Hkl Hvl h'.
  pose proof (ri_content _ _ _ _ _ _ Hinv) as Hcont. destruct Hinv.
  assert (Hlt : ∀ i, live (r_new_flags r) i → (i < length (r_new_flags r))%nat)
    by (intros i; apply lookup_lt_Some).
  assert (count ac_bit_deleted (r_new_flags r) = 0)%nat as Hd.
  { destruct (Nat.eq_0_gt_0_cases (count ac_bit_deleted (r_new_flags r))) as [|Hgt]; [done|].
    destruct (count_pos _ _ Hgt) as [i Hi]. by destruct (ri_nodel0 i). }
  assert (count 0 (r_flags r) = 0)%nat as Ho.
  { destruct (Nat.eq_0_gt_0_cases (count 0 (r_flags r))) as [|Hgt]; [done|].
    destruct (count_pos _ _ Hgt) as [i Hi]. by destruct (Hold i). }
  cbn [length] in ri_count0. split.
  - split; unfold h'; cbn [n_buckets kh_size n_occupied upper_bound flags keys vals]; try done; try lia. split.
    + intros i Hi. destruct (ri_reach0 i Hi) as (k & Hk & Hr).
      destruct (ri_key0 i (or_introl Hi)) as (k' & Hk' & Hwf). assert (k' = k) as -> by congruence.
      exists k. rewrite Hks by auto. done.
    + intros i j k k' Hi Hj. rewrite !Hks by auto. apply ri_inj0; by left.
  - intros k v. rewrite Hcont. split.
    + intros (y & Hy & Hk & Hv). cbn in Hy, Hk, Hv. rewrite Hks in Hk by auto. rewrite Hvs in Hv by auto.
      left. exists y. split_and!; [by left|done|done].
    + intros [(i & [Hi|Hi] & Hk & Hv)|H]; [|by apply Hold in Hi|by apply elem_of_nil in H].
      exists i. unfold entry_at. cbn. rewrite Hks, Hvs by auto. done.
Qed.

Lemma kh_resize_run can_alloc h p new_n :
  old_ok h → (2 <= p <= 31)%nat → new_size new_n = 2 ^ Z.of_nat p →
  kh_size h < HASH_UPPER (2 ^ Z.of_nat p) → (∀ a n, can_alloc a n = true) →
  ∃ h', kh_resize can_alloc h new_n = Done (0, h') ∧ tbl_inv p h' ∧ kh_size h' = kh_size h ∧
    n_occupied h' = kh_size h ∧ n_buckets h' = 2 ^ Z.of_nat p ∧
    ∀ k v, (∃ y, entry_at h' y k v) ↔ (∃ y, entry_at h y k v).
Proof.
  intros Hok Hp Hn Hsz Ha. unfold kh_resize. rewrite Hn, !Ha, !andb_false_r. cbn [negb].
  rewrite (proj2 (Z.leb_gt _ _)) by done. pose proof (HASH_UPPER_lt p Hp) as Hup.
  set (N := 2 ^ Z.of_nat p) in *. pose proof (oo_len h Hok) as Hlen.
  set (ks := if n_buckets h <? N then _ else _). set (vs := if n_buckets h <? N then _ else _).
  pose proof (oo_klen h Hok) as Hkl. pose proof (oo_vlen h Hok) as Hvl.
  assert (Hinv : rh_inv (length (flags h)) p (λ k v, ∃ y, entry_at h y k v) (count 0 (flags h))
    (Rehash (flags h) (repeat ac_bit_empty (Z.to_nat N)) ks vs) []).
  { apply rh_start; [done|fold N; lia| | | |]; unfold ks, vs;
      destruct (Z.ltb_spec (n_buckets h) N); rewrite ?length_realloc; fold N; try lia; try done;
      intros i Hi; apply lookup_realloc; lia. }
  destruct (rehash_all_run p _ _ _ _ (proj2 Hp) Hinv) as (r & Er & Hr & Hno).
  rewrite Hlen in Er. fold N in Er. rewrite Er. cbn [mbind outcome_bind].
  pose proof (fw_len p _ (ri_new _ _ _ _ _ _ Hr)) as Hnl. fold N in Hnl.
  pose proof (ri_klen _ _ _ _ _ _ Hr). pose proof (ri_vlen _ _ _ _ _ _ Hr).
  eexists. split; [done|].
  match goal with |- tbl_inv p (Khash _ _ _ _ _ ?k ?v) ∧ _ =>
    destruct (rh_finish h p _ _ _ r k v Hp Hr Hno) as [Hti Hent] end.
  - rewrite <- (oo_size h Hok). fold N. lia.
  - apply Hok.
  - intros i Hi. destruct (N <? n_buckets h); [apply lookup_realloc; lia|done].
  - intros i Hi. destruct (N <? n_buckets h); [apply lookup_realloc; lia|done].
  - destruct (N <? n_buckets h); rewrite ?length_realloc; lia.
  - destruct (N <? n_buckets h); rewrite ?length_realloc; lia.
  - split_and!; done.
Qed.
(** *** Insertion *)

Lemma HASH_UPPER_grow p :
  (2 <= p <= 26)%nat →
  2 ^ Z.of_nat p <= 2 * HASH_UPPER (2 ^ Z.of_nat p) ∧
  2 ^ Z.of_nat p <= HASH_UPPER (2 ^ Z.of_nat (S p)) ∧
  new_size (u32 (2 ^ Z.of_nat p - 1)) = 2 ^ Z.of_nat p ∧
  new_size (u32 (2 ^ Z.of_nat p + 1)) = 2 ^ Z.of_nat (S p).
Proof.
  intros Hp. apply (pow_cases (λ p, 2 ^ Z.of_nat p <= 2 * HASH_UPPER (2 ^ Z.of_nat p) ∧
    2 ^ Z.of_nat p <= HASH_UPPER (2 ^ Z.of_nat (S p)) ∧
    new_size (u32 (2 ^ Z.of_nat p - 1)) = 2 ^ Z.of_nat p ∧
    new_size (u32 (2 ^ Z.of_nat p + 1)) = 2 ^ Z.of_nat (S p)) 25); [|lia].
  apply (bool_decide_unpack _). by vm_compute.
Qed.

(** Same elements, up to the order of the buckets. *)
Definition same_entries (h h' : khash K V) : Prop :=
  ∀ k v, (∃ y, entry_at h' y k v) ↔ (∃ y, entry_at h y k v).

(** The table [kh_put] works on once it has made room. *)
Definition put_room (can_alloc : kh_array → Z → bool) (h : khash K V) : outcome (Z * khash K V) :=
  if upper_bound h <=? n_occupied h then
    if u32 (Z.shiftl (kh_size h) 1) <? n_buckets h
    then kh_resize can_alloc h (u32 (n_buckets h - 1))
    else kh_resize can_alloc h (u32 (n_buckets h + 1))
  else Done (0, h).

Lemma put_room_run can_alloc h :
  kh_inv h → n_buckets h < 2 ^ 27 → (∀ a n, can_alloc a n = true) →
  ∃ h' p, put_room can_alloc h = Done (0, h') ∧ tbl_inv p h' ∧ kh_size h' = kh_size h ∧
    n_occupied h' < upper_bound h' ∧ same_entries h h' ∧
    (n_buckets h' = n_buckets h ∨ n_buckets h' = 4 ∨ n_buckets h' <= 4 * kh_size h).
Proof.
  intros Hinv Hn Ha. pose proof (kh_inv_old_ok h Hinv) as Hok. unfold put_room.
  destruct Hinv as [(Hn0 & Hs & Ho & Hu & _)|[p Hi]].
  { rewrite Hu, Ho, Hn0, Hs. cbn [Z.leb Z.compare].
    change (u32 (Z.shiftl 0 1) <? 0) with false. cbn match.
    destruct (kh_resize_run can_alloc h 2 (u32 (0 + 1)) Hok) as (h' & E & Hti & Hs' & Ho' & Hn' & He);
      [lia|done|rewrite Hs; by vm_compute|done|].
    rewrite Hs in *. exists h', 2%nat. split_and!; [done|done|done| |done|].
    - rewrite Ho', (ti_upper _ _ Hti), Hn'. by vm_compute.
    - right. left. by rewrite Hn'. }
  pose proof (ti_n p h Hi) as Hp. rewrite Hp in Hn.
  assert (2 <= p <= 26)%nat as Hp26.
  { pose proof (ti_pow p h Hi). apply Z.pow_lt_mono_r_iff in Hn; lia. }
  destruct (HASH_UPPER_grow p Hp26) as (Hg1 & Hg2 & Hg3 & Hg4).
  pose proof (tbl_size_lt p h Hi) as Hsz. pose proof (ti_room p h Hi) as Hroom.
  pose proof (ti_upper p h Hi) as Hup. rewrite Hp in Hup.
  pose proof (HASH_UPPER_lt p (ti_pow p h Hi)) as Hlt.
  destruct (Z.leb_spec (upper_bound h) (n_occupied h)).
  2:{ exists h, p. split_and!; [done|done|done|done|done|by left]. }
  rewrite Z.shiftl_mul_pow2 by lia. rewrite u32_id by (unfold is_u32; lia).
  change (2 ^ 1) with 2. rewrite Hp. destruct (Z.ltb_spec (kh_size h * 2) (2 ^ Z.of_nat p)).
  - destruct (kh_resize_run can_alloc h p _ Hok (ti_pow p h Hi) Hg3) as (h' & E & Hti & Hs' & Ho' & Hn' & He);
      [lia|done|].
    exists h', p. split_and!; [done|done|done| |done|].
    + rewrite Ho', (ti_upper _ _ Hti), Hn'. lia.
    + left. congruence.
  - destruct (kh_resize_run can_alloc h (S p) _ Hok ltac:(lia) Hg4) as (h' & E & Hti & Hs' & Ho' & Hn' & He);
      [lia|done|].
    exists h', (S p). split_and!; [done|done|done| |done|].
    + rewrite Ho', (ti_upper _ _ Hti), Hn'. lia.
    + right. right. rewrite Hn', Nat2Z.inj_succ, Z.pow_succ_r by lia. lia.
Qed.

Lemma kh_put_unfold can_alloc h key :
  kh_put can_alloc h key =
    '(e, h) ← put_room can_alloc h;
    if e <? 0 then Done (-1, n_buckets h, h)
    else x ← put_bucket h key; '(ret, h) ← put_at h key x; Done (ret, x, h).
Proof. done. Qed.

Lemma kh_put_run can_alloc h key :
  kh_inv h → key_wf key → n_buckets h < 2 ^ 27 → (∀ a n, can_alloc a n = true) →
  ∃ ret x h1 h' p, kh_put can_alloc h key = Done (ret, Z.of_nat x, h') ∧
    tbl_inv p h1 ∧ kh_size h1 = kh_size h ∧ same_entries h h1 ∧ put_post p h1 h' key x ret ∧
    (n_buckets h' = n_buckets h ∨ n_buckets h' = 4 ∨ n_buckets h' <= 4 * kh_size h).
Proof.
  intros Hinv Hwf Hn Ha.
  destruct (put_room_run can_alloc h Hinv Hn Ha) as (h1 & p & E & Hti & Hs & Hroom & Hent & Hnb).
  destruct (put_bucket_run p h1 key Hti Hwf) as (x & Ex & Hx & Hcase).
  destruct (put_at_run p h1 key x Hti Hwf Hroom Hx Hcase) as (ret & h' & Ep & Hpost).
  exists ret, x, h1, h', p. rewrite kh_put_unfold, E. cbn [mbind outcome_bind Z.ltb Z.compare].
  rewrite Ex. cbn [mbind outcome_bind]. rewrite Ep. split_and!; try done.
  rewrite (ti_n p h' (pp_inv _ _ _ _ _ _ Hpost)), <- (ti_n p h1 Hti). done.
Qed.
End Table.

(** ** What the clients do with the tables *)

Section Client.
Context {K V : Type} {KK : KhKey K}.
Variable can_alloc : kh_array → Z → bool.

(** [neighbor_find], [w_get_sock]: the value of a key. *)
Definition kh_find (h : khash K V) (key : K) : outcome (option V) :=
  k ← kh_get h key;
  if k =? n_buckets h then Done None else v ← kh_val h k; Done (Some v).

(** [neighbor_update]: set the value of a key, adding it if needed. *)
Definition kh_update (h : khash K V) (key : K) (v : V) : outcome (khash K V) :=
  k ← kh_get h key;
  if k =? n_buckets h then
    '(ret, k, h) ← kh_put can_alloc h key;
    if ret <? 1 then Died else set_kh_val h k v
  else set_kh_val h k v.

(** [ins_sock]: add a key, which must not be there. *)
Definition kh_insert (h : khash K V) (key : K) (v : V) : outcome (khash K V) :=
  '(ret, k, h) ← kh_put can_alloc h key;
  if ret <? 1 then Died else set_kh_val h k v.

(** [rem_sock]: remove a key, which must be there. *)
Definition kh_remove (h : khash K V) (key : K) : outcome (khash K V) :=
  k ← kh_get h key;
  if k =? n_buckets h then Died else kh_del h k.

(** The finite maps they stand for, as association lists. *)
Definition kmap := list (K * V).

Fixpoint km_find (m : kmap) (key : K) : option V :=
  match m with
  | [] => None
  | (k, v) :: m => if hash_equal k key then Some v else km_find m key
  end.
Fixpoint km_update (m : kmap) (key : K) (v : V) : kmap :=
  match m with
  | [] => [(key, v)]
  | (k, w) :: m => if hash_equal k key then (k, v) :: m else (k, w) :: km_update m key v
  end.
Fixpoint km_remove (m : kmap) (key : K) : kmap :=
  match m with
  | [] => []
  | (k, w) :: m => if hash_equal k key then km_remove m key else (k, w) :: km_remove m key
  end.

Inductive kop := KUpdate (key : K) (v : V) | KRemove (key : K).

Definition exec_kop (h : khash K V) (o : kop) : outcome (khash K V) :=
  match o with KUpdate key v => kh_update h key v | KRemove key => kh_remove h key end.
(** Removing an absent key fails the assertion in the code. *)
Definition spec_kop (m : kmap) (o : kop) : outcome kmap :=
  match o with
  | KUpdate key v => Done (km_update m key v)
  | KRemove key => match km_find m key with Some _ => Done (km_remove m key) | None => Died end
  end.
Definition exec_kops (h : khash K V) (os : list kop) : outcome (khash K V) :=
  foldl (λ h o, h ← h; exec_kop h o) (Done h) os.
Definition spec_kops (m : kmap) (os : list kop) : outcome kmap :=
  foldl (λ m o, m ← m; spec_kop m o) (Done m) os.
Definition kop_wf (o : kop) : Prop :=
  match o with KUpdate key _ => key_wf key | KRemove key => key_wf key end.

(** ** Association lists *)

Definition km_distinct (ks : list K) : Prop :=
  ∀ i j a b, ks !! i = Some a → ks !! j = Some b → hash_equal a b = true → i = j.
Definition km_wf (m : kmap) : Prop := km_distinct m.*1 ∧ Forall key_wf m.*1.

Lemma km_wf_cons k v m :
  km_wf ((k, v) :: m) ↔
    key_wf k ∧ (∀ k' v', (k', v') ∈ m → hash_equal k k' = false) ∧ km_wf m.
Proof.
  unfold km_wf. cbn [fmap list_fmap fst]. split.
  - intros [Hd [Hk Hm]%Forall_cons]. split_and!; [done| | |done].
    + intros k' v' H. destruct (hash_equal k k') eqn:E; [|done].
      apply (list_elem_of_fmap_2 fst), list_elem_of_lookup_1 in H as [i Hi]. cbn in Hi.
      specialize (Hd 0%nat (S i) k k' eq_refl Hi E). done.
    + intros i j a b Ha Hb E. specialize (Hd (S i) (S j) a b Ha Hb E). lia.
  - intros (Hk & Hno & [Hd Hm]). split; [|by constructor].
    assert (Hno' : ∀ i b, m.*1 !! i = Some b → hash_equal k b = false).
    { intros i b Hi%list_elem_of_lookup_2. apply list_elem_of_fmap_1 in Hi as ([k' v'] & -> & ?).
      by apply (Hno k' v'). }
    intros [|i] [|j] a b Ha Hb E; [done| | |].
    + injection Ha as <-. cbn in Hb. rewrite (Hno' j b Hb) in E. done.
    + injection Hb as <-. cbn in Ha.
      rewrite hash_equal_sym, (Hno' i a Ha) in E; [done| |done].
      by eapply Forall_lookup_1 in Ha.
    + f_equal. by apply (Hd i j a b).
Qed.

Lemma km_find_absent m key :
  (∀ k v, (k, v) ∈ m → hash_equal k key = false) → km_find m key = None.
Proof.
  induction m as [|[k v] m IH]; intros H; [done|]. cbn. rewrite (H k v) by by left.
  apply IH. intros k' v' ?. apply (H k' v'). by right.
Qed.

Lemma km_find_present m key k v :
  km_wf m → key_wf key → (k, v) ∈ m → hash_equal k key = true → km_find m key = Some v.
Proof.
  induction m as [|[k' v'] m IH]; [by intros _ _ ?%elem_of_nil|].
  intros (Hk' & Hno & Hwf)%km_wf_cons Hkey Hin E. cbn.
  apply elem_of_cons in Hin as [[= -> ->]|Hin]; [by rewrite E|].
  destruct (hash_equal k' key) eqn:E'; [|by apply IH].
  assert (key_wf k) as Hk.
  { destruct Hwf as [_ Hw]. rewrite Forall_forall in Hw. apply Hw.
    by apply (list_elem_of_fmap_2 fst m (k, v)). }
  assert (hash_equal k' k = true) as E2.
  { apply (hash_equal_trans k' key k Hk' Hkey Hk E'). by rewrite hash_equal_sym. }
  by rewrite (Hno k v Hin) in E2.
Qed.

Lemma km_update_absent m key v :
  (∀ k w, (k, w) ∈ m → hash_equal k key = false) → km_update m key v = m ++ [(key, v)].
Proof.
  induction m as [|[k w] m IH]; intros H; [done|]. cbn. rewrite (H k w) by by left.
  rewrite IH; [done|]. intros k' w' ?. apply (H k' w'). by right.
Qed.

Lemma km_update_fst m key v k w :
  (k, w) ∈ m → hash_equal k key = true → (km_update m key v).*1 = m.*1.
Proof.
  induction m as [|[k' w'] m IH]; [by intros ?%elem_of_nil|]. intros Hin E. cbn.
  destruct (hash_equal k' key) eqn:E'; [done|]. cbn. f_equal. apply IH; [|done].
  apply elem_of_cons in Hin as [[= -> ->]|?]; [congruence|done].
Qed.

(** The elements after an update of a key that is there. *)
Lemma elem_of_km_update m key v k0 w0 k w :
  km_wf m → key_wf key → (k0, w0) ∈ m → hash_equal k0 key = true →
  (k, w) ∈ km_update m key v ↔
    (hash_equal k key = false ∧ (k, w) ∈ m) ∨ (k = k0 ∧ w = v).
Proof.
  intros Hwf Hkey. revert Hwf. induction m as [|[k' w'] m IH]; [by intros _ ?%elem_of_nil|].
  intros (Hk' & Hno & Hwf)%km_wf_cons Hin E. cbn.
  assert (Hwfm : ∀ a b, (a, b) ∈ m → key_wf a).
  { intros a b H. destruct Hwf as [_ Hw]. rewrite Forall_forall in Hw. apply Hw.
    by apply (list_elem_of_fmap_2 fst m (a, b)). }
  apply elem_of_cons in Hin as [[= -> ->]|Hin].
  - rewrite E, !elem_of_cons. split.
    + intros [[= -> ->]|H]; [by right|]. left. split; [|by right].
      destruct (hash_equal k key) eqn:E2; [|done].
      assert (hash_equal k' k = true) as E3.
      { apply (hash_equal_trans k' key k); eauto. rewrite hash_equal_sym; eauto. }
      by rewrite (Hno k w H) in E3.
    + intros [[E2 [[= -> ->]|H]]|[-> ->]]; [congruence|by right|by left].
  - assert (hash_equal k' key = false) as E'.
    { destruct (hash_equal k' key) eqn:E2; [|done].
      assert (hash_equal k' k0 = true) as E3.
      { apply (hash_equal_trans k' key k0); eauto. rewrite hash_equal_sym; eauto. }
      by rewrite (Hno k0 w0 Hin) in E3. }
    rewrite E', !elem_of_cons, IH by done. split.
    + intros [[= -> ->]|[[? ?]|[-> ->]]]; [left; by auto|left; by auto|by right].
    + intros [[? [[= -> ->]|?]]|[-> ->]]; [by left|right; by left; auto|right; by right].
Qed.

Lemma elem_of_km_remove m key k w :
  (k, w) ∈ km_remove m key ↔ (k, w) ∈ m ∧ hash_equal k key = false.
Proof.
  induction m as [|[k' w'] m IH]; cbn; [rewrite elem_of_nil; tauto|].
  destruct (hash_equal k' key) eqn:E; rewrite ?elem_of_cons, IH; naive_solver congruence.
Qed.

Lemma km_remove_wf m key : km_wf m → km_wf (km_remove m key).
Proof.
  induction m as [|[k w] m IH]; [done|]. intros (Hk & Hno & Hwf)%km_wf_cons. cbn.
  destruct (hash_equal k key) eqn:E; [by apply IH|]. apply km_wf_cons. split_and!; [done| |by apply IH].
  intros k' v' [? _]%elem_of_km_remove. by apply (Hno k' v').
Qed.
(** ** The refinement *)

Hypothesis Halloc : ∀ a n, can_alloc a n = true.

(** The table [h] represents [m], after at most [B] updates. *)
Record kh_rep (h : khash K V) (m : kmap) (B : nat) : Prop := {
  kr_inv : kh_inv h;
  kr_wf : km_wf m;
  kr_content : ∀ k v, (∃ y, entry_at h y k v) ↔ ∃ w, v = Some w ∧ (k, w) ∈ m;
  kr_size : 0 <= kh_size h <= Z.of_nat B;
  kr_buckets : n_buckets h <= 4 * Z.of_nat B + 4
}.

Lemma kh_init_rep : kh_rep kh_init [] 0.
Proof.
  split; [by left|split; [by intros ???|constructor]| |by cbn|by cbn].
  intros k v. split; [by intros (y & Hy & _)|by intros (w & _ & ?%elem_of_nil)].
Qed.

(** Presence in the table and in the map. *)
Lemma rep_present h m B key y :
  kh_rep h m B → present h key y →
  ∃ k w, entry_at h y k (Some w) ∧ (k, w) ∈ m ∧ hash_equal k key = true.
Proof.
  intros [Hinv _ Hc _ _] (Hy & k & Hk & E). pose proof (kh_inv_old_ok h Hinv) as Hok.
  pose proof (oo_vlen h Hok). pose proof (lookup_lt_Some _ _ _ Hy).
  destruct (lookup_lt_is_Some_2 (vals h) y) as [v Hv]; [lia|].
  destruct (proj1 (Hc k v)) as (w & -> & Hin); [by exists y|]. by exists k, w.
Qed.

Lemma rep_absent h m B key k w :
  kh_rep h m B → (∀ y, ¬ present h key y) → (k, w) ∈ m → hash_equal k key = false.
Proof.
  intros [_ _ Hc _ _] Hno Hin. destruct (hash_equal k key) eqn:E; [|done].
  destruct (proj2 (Hc k (Some w))) as (y & Hy & Hk & _); [eauto|]. destruct (Hno y).
  split; [done|]. eauto.
Qed.

(** [kh_get] on a represented table, allocated or not. *)
Lemma kh_get_rep h m B key :
  kh_rep h m B → key_wf key →
  ∃ x, kh_get h key = Done x ∧
    ((∃ p y, x = Z.of_nat y ∧ tbl_inv p h ∧ present h key y ∧ x ≠ n_buckets h) ∨
     (x = n_buckets h ∧ ∀ y, ¬ present h key y)).
Proof.
  intros Hrep Hwf. destruct (kr_inv _ _ _ Hrep) as [(Hn & _ & _ & _ & Hf)|[p Hi]].
  - exists 0. unfold kh_get. rewrite Hn. split; [done|]. right. split; [done|].
    intros y [Hy _]. by rewrite Hf in Hy.
  - destruct (kh_get_run p h key Hi Hwf) as (x & E & [(y & -> & Hp)|Hno]).
    + exists (Z.of_nat y). split; [done|]. left. exists p, y. split_and!; try done.
      destruct Hp as [Hy _]. pose proof (lookup_lt_Some _ _ _ Hy).
      rewrite (ti_n p h Hi), <- (fw_len p _ (ti_flags p h Hi)). lia.
    + exists x. split; [done|by right].
Qed.

(** A search depends on the hash of the key and on what it is equal to. *)
Lemma kh_find_ext (h : khash K V) k1 k2 :
  hash_func k1 = hash_func k2 → (∀ x, hash_equal x k1 = hash_equal x k2) → kh_find h k1 = kh_find h k2.
Proof.
  intros Hh He. unfold kh_find, kh_get. rewrite Hh.
  assert (E : ∀ fuel mask last i step, get_loop fuel h k1 mask last i step = get_loop fuel h k2 mask last i step).
  { induction fuel as [|fuel IH]; intros mask last i step; [done|]. cbn [get_loop]. unfold keep_probing.
    destruct (rd (flags h) i) as [f| | |]; [|done..]. cbn [mbind outcome_bind].
    destruct (isempty f); [done|]. destruct (isdel f); cbn [mbind outcome_bind]; [by rewrite IH|].
    destruct (key_at (keys h) i) as [k| | |]; [|done..]. cbn [mbind outcome_bind]. rewrite He.
    destruct (negb _); [by rewrite IH|done]. }
  by rewrite E.
Qed.

Lemma kh_find_rep h m B key :
  kh_rep h m B → key_wf key → kh_find h key = Done (km_find m key).
Proof.
  intros Hrep Hwf. unfold kh_find. destruct (kh_get_rep h m B key Hrep Hwf) as (x & -> & Hcase).
  cbn [mbind outcome_bind]. destruct Hcase as [(p & y & -> & Hi & Hp & Hne)|[-> Hno]].
  - rewrite (proj2 (Z.eqb_neq _ _)) by done.
    destruct (rep_present _ _ _ _ _ Hrep Hp) as (k & w & (_ & _ & Hv) & Hin & E).
    unfold kh_val. rewrite (rd_Some _ _ _ Hv). cbn.
    by rewrite (km_find_present m key k w (kr_wf _ _ _ Hrep) Hwf Hin E).
  - rewrite Z.eqb_refl. rewrite km_find_absent; [done|]. intros k v. by apply (rep_absent h m B).
Qed.

(** Setting the value of bucket [x]. *)
Lemma set_kh_val_run p (h : khash K V) x k v0 v :
  tbl_inv p h → entry_at h x k v0 →
  ∃ h', set_kh_val h (Z.of_nat x) v = Done h' ∧ tbl_inv p h' ∧ kh_size h' = kh_size h ∧
    n_buckets h' = n_buckets h ∧
    ∀ y k' w, entry_at h' y k' w ↔ (y ≠ x ∧ entry_at h y k' w) ∨ (y = x ∧ k' = k ∧ w = Some v).
Proof.
  intros Hi (Hx & Hk & Hv). pose proof (lookup_lt_Some _ _ _ Hv) as Hlt.
  unfold set_kh_val. rewrite wr_lt by done. eexists. split; [done|]. split_and!; [|done|done|].
  - destruct Hi. split; cbn [n_buckets kh_size n_occupied upper_bound flags keys vals];
      rewrite ?length_insert; done.
  - intros y k' w. unfold entry_at. cbn [flags keys vals]. rewrite list_lookup_insert_Some.
    destruct (decide (y = x)) as [->|]; naive_solver.
Qed.

(** Two entries with equal keys are in the same bucket. *)
Lemma entry_inj p (h : khash K V) x y k k' v w :
  tbl_inv p h → entry_at h x k v → entry_at h y k' w → hash_equal k k' = true → x = y.
Proof. intros Hi (? & ? & _) (? & ? & _). by apply (kw_inj p _ _ (ti_keys p h Hi)). Qed.

Lemma entry_fun (h : khash K V) y k k' v w : entry_at h y k v → entry_at h y k' w → k = k' ∧ v = w.
Proof. intros (_ & ? & ?) (_ & ? & ?). split; congruence. Qed.

Lemma kh_update_present p h m B key v y k w :
  kh_rep h m B → key_wf key → tbl_inv p h → entry_at h y k (Some w) → (k, w) ∈ m →
  hash_equal k key = true →
  ∃ h', set_kh_val h (Z.of_nat y) v = Done h' ∧ kh_rep h' (km_update m key v) (S B).
Proof.
  intros Hrep Hwf Hi He Hin E. pose proof (kr_wf _ _ _ Hrep) as Hm.
  destruct (set_kh_val_run p h y k (Some w) v Hi He) as (h' & Er & Hi' & Hs & Hn & Hent).
  exists h'. split; [done|]. destruct Hrep as [_ _ Hc Hsz Hb]. split.
  - right. by exists p.
  - destruct Hm as [Hd Hw]. split; rewrite (km_update_fst m key v k w) by done; done.
  - assert (Hne : ∀ y' k' w', y' ≠ y → entry_at h y' k' w' → hash_equal k' key = false).
    { intros y' k' w' Hne He'. destruct (hash_equal k' key) eqn:E'; [|done]. destruct Hne.
      assert (key_wf k' ∧ key_wf k) as [Hk' Hk].
      { split; [destruct (oo_key h (kh_inv_old_ok h ltac:(right; eauto)) y' (proj1 He')) as (?&?&?)
              |destruct (oo_key h (kh_inv_old_ok h ltac:(right; eauto)) y (proj1 He)) as (?&?&?)];
          destruct He' as (_ & ? & _), He as (_ & ? & _); congruence. }
      eapply (entry_inj p h y' y k' k); [done..|].
      apply (hash_equal_trans k' key k Hk' Hwf Hk E'). by rewrite hash_equal_sym. }
    intros k' w'. setoid_rewrite Hent. split.
    + intros (y' & [[Hy' He']|(-> & -> & ->)]).
      * destruct (proj1 (Hc k' w')) as (u & -> & Hu); [eauto|]. exists u. split; [done|].
        apply (elem_of_km_update m key v k w); try done. left. split; [|done]. by eapply Hne.
      * exists v. split; [done|]. apply (elem_of_km_update m key v k w); try done. by right.
    + intros (u & -> & Hu). apply (elem_of_km_update m key v k w) in Hu; try done.
      destruct Hu as [[E' Hu]|[-> ->]]; [|exists y; by right].
      destruct (proj2 (Hc k' (Some u))) as [y' He']; [eauto|]. exists y'. left. split; [|done].
      intros ->. destruct (entry_fun _ _ _ _ _ _ He He') as [-> _]. congruence.
  - lia.
  - lia.
Qed.

Lemma kh_update_absent h m B key v :
  kh_rep h m B → key_wf key → Z.of_nat B < 2 ^ 24 → (∀ y, ¬ present h key y) →
  ∃ ret x h1 h', kh_put can_alloc h key = Done (ret, x, h1) ∧ (ret <? 1) = false ∧
    set_kh_val h1 x v = Done h' ∧ kh_rep h' (km_update m key v) (S B).
Proof.
  intros Hrep Hwf HB Hno. pose proof (kr_buckets _ _ _ Hrep) as Hbk.
  pose proof (kr_size _ _ _ Hrep) as Hsz.
  destruct (kh_put_run can_alloc h key (kr_inv _ _ _ Hrep) Hwf ltac:(lia) Halloc)
    as (ret & x & h1 & h2 & p & E & Hi1 & Hs1 & Hsame & [Hi2 Hx Hv2 Hoth Hold] & Hn2).
  assert (Hno1 : ∀ y, ¬ present h1 key y).
  { intros y (Hy & k & Hk & Ek). pose proof (lookup_lt_Some _ _ _ Hy).
    pose proof (ti_vals_len p h1 Hi1). destruct (lookup_lt_is_Some_2 (vals h1) y) as [u Hu]; [lia|].
    destruct (proj1 (Hsame k u)) as (y' & Hy' & Hk' & _); [by exists y|].
    apply (Hno y'). split; [done|]. eauto. }
  destruct Hold as [[_ ->]|(Hret & Hs2 & Hkx & _ & Hnl)]; [by destruct (Hno1 x)|].
  destruct (lookup_lt_is_Some_2 (vals h2) x) as [u Hu].
  { pose proof (lookup_lt_Some _ _ _ (proj1 Hx)). pose proof (ti_vals_len p h2 Hi2). lia. }
  assert (Hex : entry_at h2 x key u) by (split_and!; [apply Hx|done|done]).
  destruct (set_kh_val_run p h2 x key u v Hi2 Hex) as (h' & Er & Hi' & Hs' & Hn' & Hent).
  exists ret, (Z.of_nat x), h2, h'. split_and!; [done|by destruct Hret as [->| ->]|done|].
  pose proof (rep_absent h m B key) as Hab. pose proof (kr_wf _ _ _ Hrep) as Hm.
  rewrite km_update_absent by (intros; by apply (Hab k w)).
  assert (Hwf' : km_wf (m ++ [(key, v)])).
  { clear -Hab Hm Hwf Hrep Hno. assert (∀ k w, (k, w) ∈ m → hash_equal k key = false) as Ha
      by (intros; by apply (Hab k w)). clear Hab Hrep Hno.
    induction m as [|[k w] m IH]; cbn [app].
    - apply km_wf_cons. split; [done|]. split; [by intros ?? ?%elem_of_nil|done].
    - apply km_wf_cons in Hm as (Hk & Hd & Hm). apply km_wf_cons. split; [done|]. split.
      + intros k' v' [?|[= -> ->]%list_elem_of_singleton]%elem_of_app; [by apply (Hd k' v')|].
        apply (Ha k w). by left.
      + apply IH; [done|]. intros k' w' ?. apply (Ha k' w'). by right. }
  destruct Hrep as [_ _ Hc _ _]. split; [right; by exists p|done| |lia|].
  - intros k' w'. setoid_rewrite Hent. setoid_rewrite elem_of_app.
    setoid_rewrite list_elem_of_singleton. split.
    + intros (y & [[Hy He]|(-> & -> & ->)]); [|by exists v; auto].
      apply Hoth in He; [|done]. destruct (proj1 (Hsame k' w')) as [y' He']; [eauto|].
      destruct (proj1 (Hc k' w')) as (z & -> & Hz); [eauto|]. exists z. auto.
    + intros (z & -> & [Hz|[= -> ->]]); [|exists x; by right].
      destruct (proj2 (Hc k' (Some z))) as [y' He']; [eauto|].
      destruct (proj2 (Hsame k' (Some z))) as [y He]; [eauto|].
      exists y. left. assert (y ≠ x) as Hyx by (intros ->; by destruct He).
      split; [done|]. by apply Hoth.
  - lia.
Qed.

Lemma kh_update_rep h m B key v :
  kh_rep h m B → key_wf key → Z.of_nat B < 2 ^ 24 →
  ∃ h', kh_update h key v = Done h' ∧ kh_rep h' (km_update m key v) (S B).
Proof.
  intros Hrep Hwf HB. unfold kh_update.
  destruct (kh_get_rep h m B key Hrep Hwf) as (x & -> & Hcase). cbn [mbind outcome_bind].
  destruct Hcase as [(p & y & -> & Hi & Hp & Hne)|[-> Hno]].
  - rewrite (proj2 (Z.eqb_neq _ _)) by done.
    destruct (rep_present _ _ _ _ _ Hrep Hp) as (k & w & He & Hin & E).
    by apply (kh_update_present p h m B key v y k w).
  - rewrite Z.eqb_refl.
    destruct (kh_update_absent h m B key v Hrep Hwf HB Hno) as (ret & x & h1 & h' & -> & Hret & Es & Hr).
    exists h'. cbn [mbind outcome_bind]. by rewrite Hret.
Qed.

Lemma kh_remove_rep h m B key :
  kh_rep h m B → key_wf key →
  match spec_kop m (KRemove key) with
  | Done m' => ∃ h', kh_remove h key = Done h' ∧ kh_rep h' m' (S B)
  | _ => kh_remove h key = Died
  end.
Proof.
  intros Hrep Hwf. unfold kh_remove. cbn [spec_kop].
  destruct (kh_get_rep h m B key Hrep Hwf) as (x & -> & Hcase). cbn [mbind outcome_bind].
  destruct Hcase as [(p & y & -> & Hi & Hp & Hne)|[-> Hno]].
  2:{ rewrite km_find_absent; [by rewrite Z.eqb_refl|]. intros k v. by apply (rep_absent h m B). }
  rewrite (proj2 (Z.eqb_neq _ _)) by done.
  destruct (rep_present _ _ _ _ _ Hrep Hp) as (k & w & He & Hin & E).
  rewrite (km_find_present m key k w (kr_wf _ _ _ Hrep) Hwf Hin E).
  destruct (kh_del_run p h y k Hi (proj1 He) (proj1 (proj2 He))) as (h' & Er & Hi' & Hs' & _ & _ & Hent).
  assert (Hwfk : key_wf k).
  { destruct (kr_wf _ _ _ Hrep) as [_ Hw]. rewrite Forall_forall in Hw. apply Hw.
    by apply (list_elem_of_fmap_2 fst m (k, w)). }
  exists h'. split; [done|]. pose proof (kr_wf _ _ _ Hrep) as Hm.
  pose proof (kr_buckets _ _ _ Hrep). pose proof (kr_size _ _ _ Hrep).
  pose proof (ti_size _ _ Hi'). pose proof (ti_n _ _ Hi). pose proof (ti_n _ _ Hi').
  split; [right; by exists p|by apply km_remove_wf| |lia|lia].
  intros k' v'. setoid_rewrite Hent. setoid_rewrite elem_of_km_remove. split.
  - intros (y' & Hy' & He'). destruct (proj1 (kr_content _ _ _ Hrep k' v')) as (u & -> & Hu); [eauto|].
    exists u. split_and!; [done|done|]. destruct (hash_equal k' key) eqn:E'; [|done]. destruct Hy'.
    assert (key_wf k') as Hwfk'.
    { destruct Hm as [_ Hw]. rewrite Forall_forall in Hw. apply Hw.
      by apply (list_elem_of_fmap_2 fst m (k', u)). }
    eapply (entry_inj p h y' y k' k); [done..|].
    apply (hash_equal_trans k' key k Hwfk' Hwf Hwfk E'). by rewrite hash_equal_sym.
  - intros (u & -> & Hu & E'). destruct (proj2 (kr_content _ _ _ Hrep k' (Some u))) as [y' He']; [eauto|].
    exists y'. split; [|done]. intros ->. destruct (entry_fun _ _ _ _ _ _ He He') as [-> _]. congruence.
Qed.

Lemma km_key_wf m k v : km_wf m → (k, v) ∈ m → key_wf k.
Proof.
  intros [_ Hw] H. rewrite Forall_forall in Hw. apply Hw. by apply (list_elem_of_fmap_2 fst m (k, v)).
Qed.

Lemma km_find_elem m key v : km_find m key = Some v → ∃ k, (k, v) ∈ m ∧ hash_equal k key = true.
Proof.
  induction m as [|[k w] m IH]; [done|]. cbn. destruct (hash_equal k key) eqn:E.
  - intros [= ->]. exists k. split; [by left|done].
  - intros (k' & ? & ?)%IH. exists k'. split; [by right|done].
Qed.

Lemma km_find_none m key k v :
  km_wf m → key_wf key → km_find m key = None → (k, v) ∈ m → hash_equal k key = false.
Proof.
  intros Hm Hk Hf Hin. destruct (hash_equal k key) eqn:E; [|done].
  by rewrite (km_find_present m key k v) in Hf.
Qed.

(** Equal keys are found together. *)
Lemma hash_equal_r key k k' :
  key_wf key → key_wf k → key_wf k' → hash_equal k k' = true → hash_equal key k = hash_equal key k'.
Proof.
  intros H0 H1 H2 E. apply eq_true_iff_eq. split; intros E'.
  - by apply (hash_equal_trans key k k').
  - apply (hash_equal_trans key k' k); try done. by rewrite hash_equal_sym.
Qed.

Lemma km_find_equal m k k' :
  km_wf m → key_wf k → key_wf k' → hash_equal k k' = true → km_find m k = km_find m k'.
Proof.
  intros Hm Hk Hk' E. induction m as [|[a v] m IH]; [done|].
  apply km_wf_cons in Hm as (Ha & _ & Hm). cbn. rewrite (hash_equal_r a k k'), IH by done. done.
Qed.

Lemma km_find_update m k v key :
  km_wf m → key_wf k → key_wf key →
  km_find (km_update m k v) key = if hash_equal k key then Some v else km_find m key.
Proof.
  intros Hm Hk Hkey. induction m as [|[k' w] m IH]; [done|].
  apply km_wf_cons in Hm as (Hk' & _ & Hm). cbn. destruct (hash_equal k' k) eqn:E; cbn.
  - rewrite (hash_equal_sym k' key), (hash_equal_r key k' k), (hash_equal_sym key k) by done.
    by destruct (hash_equal k key).
  - rewrite IH by done. destruct (hash_equal k' key) eqn:E'; [|done].
    destruct (hash_equal k key) eqn:E2; [|done].
    by rewrite (hash_equal_r k' k key), E' in E.
Qed.

Lemma km_find_remove m k key :
  km_wf m → key_wf k → key_wf key →
  km_find (km_remove m k) key = if hash_equal k key then None else km_find m key.
Proof.
  intros Hm Hk Hkey. induction m as [|[k' w] m IH]; [by destruct (hash_equal k key)|].
  apply km_wf_cons in Hm as (Hk' & _ & Hm). cbn. destruct (hash_equal k' k) eqn:E.
  - rewrite IH by done. rewrite (hash_equal_sym k' key), (hash_equal_r key k' k), (hash_equal_sym key k) by done.
    by destruct (hash_equal k key).
  - cbn. rewrite IH by done. destruct (hash_equal k' key) eqn:E'; [|done].
    destruct (hash_equal k key) eqn:E2; [|done].
    by rewrite (hash_equal_r k' k key), E' in E.
Qed.

(** [kh_insert] adds an absent key, and aborts on one that is there. *)
Lemma kh_insert_rep h m B key v :
  kh_rep h m B → key_wf key → Z.of_nat B < 2 ^ 24 →
  match km_find m key with
  | None => ∃ h', kh_insert h key v = Done h' ∧ kh_rep h' (km_update m key v) (S B)
  | Some _ => kh_insert h key v = Died
  end.
Proof.
  intros Hrep Hwf HB. destruct (km_find m key) as [u|] eqn:E.
  - destruct (km_find_elem m key u E) as (k & Hin & Ek). pose proof (kr_buckets _ _ _ Hrep).
    destruct (kh_put_run can_alloc h key (kr_inv _ _ _ Hrep) Hwf ltac:(lia) Halloc)
      as (ret & x & h1 & h2 & p & Ep & Hi1 & _ & Hsame & Hpost & _).
    destruct (proj2 (kr_content _ _ _ Hrep k (Some u))) as [y Hy]; [eauto|].
    destruct (proj2 (Hsame k (Some u))) as [y' (Hl & Hk & _)]; [eauto|].
    unfold kh_insert. rewrite Ep. cbn [mbind outcome_bind].
    destruct (pp_old _ _ _ _ _ _ Hpost) as [[-> _]|(_ & _ & _ & Hno & _)]; [done|].
    destruct (Hno y'). split; [done|]. eauto.
  - destruct (kh_update_absent h m B key v Hrep Hwf HB) as (ret & x & h1 & h' & Ep & Hret & Es & Hr).
    + intros y Hy. destruct (rep_present _ _ _ _ _ Hrep Hy) as (k & w & _ & Hin & Ek).
      by rewrite (km_find_none m key k w (kr_wf _ _ _ Hrep) Hwf E Hin) in Ek.
    + exists h'. unfold kh_insert. rewrite Ep. cbn [mbind outcome_bind]. by rewrite Hret.
Qed.

(** *** Iteration *)

Definition entries_at (h : khash K V) (i : nat) : list (K * V) :=
  match flags h !! i, keys h !! i, vals h !! i with
  | Some 0, Some (Some k), Some (Some v) => [(k, v)]
  | _, _, _ => []
  end.

Lemma elem_of_entries_at h i k v : (k, v) ∈ entries_at h i ↔ entry_at h i k (Some v).
Proof.
  unfold entries_at, entry_at.
  destruct (flags h !! i) as [[| |]|], (keys h !! i) as [[k'|]|], (vals h !! i) as [[v'|]|];
    rewrite ?list_elem_of_singleton, ?elem_of_nil; naive_solver.
Qed.

Lemma kh_entry_run p h i :
  tbl_inv p h → (∀ y k v, entry_at h y k v → is_Some v) → (i < Z.to_nat (n_buckets h))%nat →
  kh_entry h i = Done (entries_at h i).
Proof.
  intros Hi Hv Hlt. rewrite (ti_n p h Hi) in Hlt.
  unfold kh_entry, entries_at.
  destruct (flags_cases p _ i (ti_flags p h Hi) Hlt) as [Hf|[Hf|Hf]]; rewrite (rd_Some _ _ _ Hf), Hf; [|done..].
  destruct (kw_key p _ _ (ti_keys p h Hi) i Hf) as (k & Hk & _).
  pose proof (tbl_len p h Hi). pose proof (ti_vals_len p h Hi).
  destruct (lookup_lt_is_Some_2 (vals h) i) as [u Hu]; [lia|].
  destruct (Hv i k u) as [v ->]; [done|].
  cbn [mbind outcome_bind]. change (iseither 0) with false. unfold key_at, kh_val.
  by rewrite (rd_Some _ _ _ Hk), Hk, (rd_Some _ _ _ Hu), Hu.
Qed.

Lemma foreach_run (f : nat → outcome (list (K * V))) (g : nat → list (K * V)) l :
  (∀ i, i ∈ l → f i = Done (g i)) →
  ∀ acc, foldl (λ acc i, acc ← acc; e ← f i; Done (acc ++ e)) (Done acc) l = Done (acc ++ concat (g <$> l)).
Proof.
  induction l as [|i l IH]; intros H acc; cbn [foldl fmap list_fmap concat]; [by rewrite app_nil_r|].
  cbn [mbind outcome_bind]. rewrite (H i) by by left. cbn [mbind outcome_bind].
  rewrite IH by (intros; apply H; by right). by rewrite app_assoc.
Qed.

Lemma NoDup_concat_entries p h l :
  tbl_inv p h → NoDup l → NoDup (concat (entries_at h <$> l)).
Proof.
  intros Hi. induction l as [|i l IH]; intros Hl; [constructor|].
  apply NoDup_cons in Hl as [Hni Hl]. cbn. apply NoDup_app. split_and!; [| |by apply IH].
  - unfold entries_at. destruct (flags h !! i) as [[| |]|], (keys h !! i) as [[k'|]|],
      (vals h !! i) as [[v'|]|]; first [apply NoDup_nil_2|apply NoDup_singleton].
  - intros [k v] He%elem_of_entries_at Hc.
    rewrite list_elem_of_In, in_concat in Hc. setoid_rewrite <- list_elem_of_In in Hc.
    destruct Hc as (e & (j & -> & Hj)%list_elem_of_fmap & He'%elem_of_entries_at).
    destruct Hni. rewrite (entry_inj p h i j k k (Some v) (Some v) Hi He He'); [done|].
    destruct He as (Hl' & Hk & _). destruct (kw_key p _ _ (ti_keys p h Hi) i Hl') as (k' & Hk' & Hwf & _).
    assert (k' = k) as -> by congruence. by apply hash_equal_refl.
Qed.

Lemma km_wf_NoDup m : km_wf m → NoDup m.
Proof.
  intros [Hd Hw]. apply NoDup_alt. intros i j [k v] Hi Hj.
  assert (Hk : m.*1 !! i = Some k) by (rewrite list_lookup_fmap, Hi; done).
  assert (Hk' : m.*1 !! j = Some k) by (rewrite list_lookup_fmap, Hj; done).
  apply (Hd i j k k Hk Hk'). apply hash_equal_refl. by apply (Forall_lookup_1 _ _ _ _ Hw Hk).
Qed.

(** The entry of one bucket, and the buckets after a removal. *)
Lemma kh_entry_rep h m B i :
  kh_rep h m B → (i < Z.to_nat (n_buckets h))%nat →
  kh_entry h i = Done (entries_at h i) ∧ (length (entries_at h i) <= 1)%nat ∧
  ∀ k v, (k, v) ∈ entries_at h i → (k, v) ∈ m.
Proof.
  intros [Hinv Hm Hc _ _] Hlt. split_and!.
  - destruct Hinv as [(Hn & _ & _ & _ & _)|[p Hi]]; [lia|]. apply (kh_entry_run p); [done| |done].
    intros y k v Hy. destruct (proj1 (Hc k v)) as (w & -> & _); [eauto|done].
  - unfold entries_at. destruct (flags h !! i) as [[]|], (keys h !! i) as [[]|], (vals h !! i) as [[]|]; cbn; lia.
  - intros k v Hin%elem_of_entries_at. destruct (proj1 (Hc k (Some v))) as (w & [= ->] & Hw); [eauto|done].
Qed.

Lemma entries_outside h m B i : kh_rep h m B → (Z.to_nat (n_buckets h) <= i)%nat → entries_at h i = [].
Proof.
  intros [Hinv _ _ _ _] Hi. unfold entries_at. rewrite (lookup_ge_None_2 (flags h)); [done|].
  destruct Hinv as [(Hn & _ & _ & _ & Hf)|[p Ht]]; [by rewrite Hf; cbn; lia|].
  pose proof (ti_n p h Ht). pose proof (tbl_len p h Ht). lia.
Qed.

Lemma kh_remove_entries h key h' :
  kh_remove h key = Done h' →
  n_buckets h' = n_buckets h ∧ ∀ j, entries_at h' j = entries_at h j ∨ entries_at h' j = [].
Proof.
  unfold kh_remove, kh_del. destruct (kh_get h key) as [x| | |]; try done. cbn [mbind outcome_bind].
  destruct (x =? n_buckets h); [done|]. unfold rd, wr. destruct (x <? 0); [done|].
  destruct (flags h !! Z.to_nat x) as [f|] eqn:Hf; [|done]. cbn [mbind outcome_bind].
  destruct (iseither f); [by intros [= <-]; auto|]. cbn [orb].
  destruct (_ <=? x); [done|]. cbn [mbind outcome_bind]. intros [= <-]. split; [done|]. intros j.
  unfold entries_at. cbn [flags keys vals]. destruct (decide (j = Z.to_nat x)) as [->|];
    [right|left; by rewrite list_lookup_insert_ne].
  rewrite list_lookup_insert_eq by (by eapply lookup_lt_Some).
  destruct (set_isdel_true f) eqn:E; [|done..]. exfalso.
  unfold set_isdel_true, ac_bit_deleted in E. apply Z.lor_eq_0_iff in E as [_ E]. discriminate E.
Qed.

Lemma kh_foreach_rep h m B : kh_rep h m B → ∃ l, kh_foreach h = Done l ∧ l ≡ₚ m.
Proof.
  intros [Hinv Hm Hc _ _]. destruct Hinv as [(Hn & _ & _ & _ & Hfl)|[p Hi]].
  - exists []. unfold kh_foreach. rewrite Hn. split; [done|].
    destruct m as [|[k w] m]; [done|]. destruct (proj2 (Hc k (Some w))) as (y & Hy & _).
    { exists w. split; [done|by left]. }
    by rewrite Hfl in Hy.
  - assert (Hsome : ∀ y k v, entry_at h y k v → is_Some v).
    { intros y k v Hy. destruct (proj1 (Hc k v)) as (w & -> & _); [eauto|done]. }
    exists (concat (entries_at h <$> seq 0 (Z.to_nat (n_buckets h)))). split.
    { unfold kh_foreach. rewrite (foreach_run _ (entries_at h)); [done|].
      intros i Hin%elem_of_seq. apply (kh_entry_run p); [done..|lia]. }
    assert (Hin : ∀ k v, (k, v) ∈ concat (entries_at h <$> seq 0 (Z.to_nat (n_buckets h))) ↔ (k, v) ∈ m).
    { intros k v. rewrite list_elem_of_In, in_concat. setoid_rewrite <- list_elem_of_In. split.
      - intros (l & (i & -> & _)%list_elem_of_fmap & He%elem_of_entries_at).
        destruct (proj1 (Hc k (Some v))) as (w & [= <-] & ?); eauto.
      - intros H. destruct (proj2 (Hc k (Some v))) as [y Hy]; [eauto|].
        exists (entries_at h y). split; [|by apply elem_of_entries_at].
        apply list_elem_of_fmap. exists y. split; [done|]. apply elem_of_seq.
        pose proof (lookup_lt_Some _ _ _ (proj1 Hy)). pose proof (tbl_len p h Hi).
        rewrite (ti_n p h Hi). lia. }
    apply NoDup_Permutation; [| |intros [k v]; apply Hin].
    + apply NoDup_concat_entries with p; [done|]. apply NoDup_seq.
    + by apply km_wf_NoDup.
Qed.

Lemma exec_kop_rep h m B o :
  kh_rep h m B → kop_wf o → Z.of_nat B < 2 ^ 24 →
  match spec_kop m o with
  | Done m' => ∃ h', exec_kop h o = Done h' ∧ kh_rep h' m' (S B)
  | _ => exec_kop h o = Died
  end.
Proof.
  intros Hrep Hwf HB. destruct o as [key v|key]; [by apply kh_update_rep|by apply (kh_remove_rep h m B)].
Qed.

(** Once an operation has died, so has the sequence. *)
Lemma foldl_died {A B} (f : A → B → outcome A) os :
  foldl (λ a o, a ← a; f a o) Died os = Died.
Proof. by induction os. Qed.

Lemma spec_kop_cases m o : (∃ m', spec_kop m o = Done m') ∨ spec_kop m o = Died.
Proof. destruct o; cbn; [eauto|]. destruct (km_find m key); eauto. Qed.

Lemma exec_kops_rep h m B os :
  kh_rep h m B → Forall kop_wf os → Z.of_nat B + Z.of_nat (length os) < 2 ^ 24 →
  match spec_kops m os with
  | Done m' => ∃ h', exec_kops h os = Done h' ∧ kh_rep h' m' (B + length os)
  | _ => exec_kops h os = Died
  end.
Proof.
  revert h m B. induction os as [|o os IH]; intros h m B Hrep Hwf HB.
  { exists h. rewrite Nat.add_0_r. done. }
  apply Forall_cons in Hwf as [Ho Hos]. cbn [length] in HB.
  pose proof (exec_kop_rep h m B o Hrep Ho ltac:(lia)) as H1.
  unfold spec_kops, exec_kops. cbn [foldl mbind outcome_bind].
  destruct (spec_kop_cases m o) as [[m' E]|E]; rewrite E in *.
  - destruct H1 as (h' & -> & Hrep'). cbn [length].
    replace (B + S (length os))%nat with (S B + length os)%nat by lia.
    apply IH; [done|done|lia].
  - rewrite H1. by rewrite !foldl_died.
Qed.
End Client.

(** ** The properties *)

(** The buckets the loop [i = (i + (++step)) & mask] visits. *)
Fixpoint probes (n : nat) (mask i step : Z) : list Z :=
  match n with
  | O => []
  | S n => i :: probes n mask (probe_next mask i (u32 (step + 1))) (u32 (step + 1))
  end.

Lemma probes_pos (p : nat) hv k n :
  (p <= 31)%nat →
  probes k (u32 (2 ^ Z.of_nat p - 1)) (Z.of_nat (pos (2 ^ Z.of_nat p) hv n)) (u32 (Z.of_nat n)) =
    (λ m, Z.of_nat (pos (2 ^ Z.of_nat p) hv m)) <$> seq n k.
Proof.
  intros Hp. revert n. induction k as [|k IH]; intros n; [done|]. cbn [probes seq fmap list_fmap].
  rewrite (pos_step p hv Hp n), u32_add_l. f_equal.
  replace (Z.of_nat n + 1) with (Z.of_nat (S n)) by lia. apply IH.
Qed.

(** The first [n] probes for a hash value in a table of [n = 2^p] buckets visit every
    bucket exactly once. *)
Theorem probes_permutation (p : nat) (hv : Z) :
  (p <= 31)%nat →
  let n := 2 ^ Z.of_nat p in
  let mask := u32 (n - 1) in
  probes (Z.to_nat n) mask (Z.land hv mask) 0 ≡ₚ Z.of_nat <$> seq 0 (Z.to_nat n).
Proof.
  intros Hp. cbv zeta. rewrite (pos_start p hv Hp).
  change 0 with (u32 (Z.of_nat 0)) at 1. rewrite probes_pos by done.
  change (λ m, Z.of_nat (pos (2 ^ Z.of_nat p) hv m)) with (Z.of_nat ∘ pos (2 ^ Z.of_nat p) hv).
  rewrite list_fmap_compose. apply fmap_Permutation.
  apply submseteq_length_Permutation; [|by rewrite length_fmap].
  apply NoDup_submseteq.
  - apply NoDup_fmap_2_strong; [|apply NoDup_seq].
    intros a b Ha%elem_of_seq Hb%elem_of_seq. apply (pos_inj p hv); lia.
  - intros x (n & -> & Hn)%list_elem_of_fmap. apply elem_of_seq.
    pose proof (pos_lt p hv n). lia.
Qed.

(** The load limit is 77% of the buckets for up to 2^27 of them and always less than
    the number of buckets; for 2^28 buckets its computation wraps around. *)
Theorem hash_upper_bounds :
  (∀ p : nat, (2 <= p <= 27)%nat → HASH_UPPER (2 ^ Z.of_nat p) = 77 * 2 ^ Z.of_nat p / 100) ∧
  (∀ p : nat, (2 <= p <= 31)%nat → 0 <= HASH_UPPER (2 ^ Z.of_nat p) < 2 ^ Z.of_nat p) ∧
  HASH_UPPER (2 ^ 28) < 77 * 2 ^ 28 / 100.
Proof.
  split; [apply HASH_UPPER_77|]. split; [|by vm_compute].
  intros p Hp. split; [|by apply HASH_UPPER_lt]. unfold HASH_UPPER. apply Z.shiftr_nonneg.
  apply u64_range.
Qed.

(** C8: Any sequence of updates and removals on a table, through all its resizes,
    implements the finite map: afterwards every lookup agrees with the map's, and only the
    removal of an absent key aborts. *)
Theorem khash_refines_map {K V : Type} {KK : KhKey K} (can_alloc : kh_array → Z → bool)
    (os : list (kop (K := K) (V := V))) :
  (∀ a n, can_alloc a n = true) → Forall kop_wf os → Z.of_nat (length os) < 2 ^ 24 →
  match spec_kops [] os with
  | Done m => ∃ h, exec_kops can_alloc kh_init os = Done h ∧
      ∀ key, key_wf key → kh_find h key = Done (km_find m key)
  | _ => exec_kops can_alloc kh_init os = Died
  end.
Proof.
  intros Ha Hwf Hn. pose proof (exec_kops_rep can_alloc Ha kh_init [] 0 os kh_init_rep Hwf Hn) as H.
  destruct (spec_kops [] os) as [m| | |]; try done. destruct H as (h & E & Hrep).
  exists h. split; [done|]. intros key. by apply (kh_find_rep h m (0 + length os)).
Qed.

(** ** Integer keys, and witnesses *)

Definition kh_int_hash_func (key : Z) : Z := u32 key.
Definition kh_int_hash_equal (a b : Z) : bool := a =? b.

#[export] Instance int_key : KhKey Z.
Proof.
  refine {| hash_func := kh_int_hash_func; hash_equal := kh_int_hash_equal; key_wf := is_u32 |}.
  - intros k. apply u32_range.
  - intros k _. apply Z.eqb_refl.
  - intros k1 k2 _ _. apply Z.eqb_sym.
  - unfold kh_int_hash_equal. intros k1 k2 k3 _ _ _ ->%Z.eqb_eq ->%Z.eqb_eq. apply Z.eqb_refl.
  - unfold kh_int_hash_equal. by intros k1 k2 _ _ ->%Z.eqb_eq.
Defined.

(** Colliding keys, a deletion, an update and a resize. *)
Definition kh_ex_ops : list (kop (K := Z) (V := Z)) :=
  [KUpdate 1 10; KUpdate 5 50; KUpdate 9 90; KRemove 5; KUpdate 9 99; KUpdate 13 130; KUpdate 2 20].

Lemma probes_permutation_witness :
  probes 8 (u32 7) (Z.land 13 (u32 7)) 0 ≡ₚ [0; 1; 2; 3; 4; 5; 6; 7].
Proof. apply (probes_permutation 3 13). lia. Defined.

Lemma khash_refines_map_witness :
  ∃ h, exec_kops (λ _ _, true) kh_init kh_ex_ops = Done h ∧ kh_find h 9 = Done (Some 99) ∧
    kh_find h 5 = Done None.
Proof.
  destruct (khash_refines_map (λ _ _, true) kh_ex_ops) as (h & E & H);
    [done| |by vm_compute|].
  { unfold kh_ex_ops. repeat (apply Forall_cons; split; [cbn; unfold is_u32; lia|]). constructor. }
  exists h. split; [done|]. split; apply H; unfold key_wf; cbn; unfold is_u32; lia.
Defined.
