(* ===== verification/Engine.v ===== *)
(** The engine (lib/include/warpcore/warpcore.h, lib/src/warpcore.c,
    lib/src/backend.h): its I/O vectors and their allocation, in the netmap and
    in the socket configuration, on the queues of Queue.v. *)

From S2P Require Import Prelude Util Krng Queue Wire Addr Khash.

(** ** Tables keyed by addresses (neighbor.h, backend.h)

    The instantiations [KHASH_INIT(neighbor, ...)] and [KHASH_INIT(sock, ...)]. *)

Lemma fnv1a_32_u32 b : is_u32 (Fnv.fnv1a_32 b).
Proof.
  unfold Fnv.fnv1a_32. assert (is_u32 0x1000193) as H by (unfold is_u32; lia). revert H.
  generalize 0x1000193. induction b as [|x b IH]; intros h Hh; [done|]. cbn [foldl].
  apply IH, u32_range.
Qed.

#[export] Instance neighbor_key : KhKey w_addr.
Proof.
  refine {| hash_func := w_addr_hash; hash_equal := w_addr_cmp; key_wf := w_addr_wf |}.
  - intros a. unfold w_addr_hash. destruct (_ =? _); apply fnv1a_32_u32.
  - intros a Ha. by apply w_addr_cmp_key.
  - intros a b Ha Hb. apply eq_true_iff_eq. rewrite !w_addr_cmp_key by done. split; congruence.
  - intros a b c Ha Hb Hc. rewrite !w_addr_cmp_key by done. congruence.
  - apply w_addr_hash_compat.
Defined.

#[export] Instance sock_key : KhKey w_socktuple.
Proof.
  refine {| hash_func := w_socktuple_hash; hash_equal := w_socktuple_cmp;
            key_wf := w_socktuple_wf |}.
  - intros a. apply u32_range.
  - intros a Ha. by apply w_socktuple_cmp_key.
  - intros a b Ha Hb. apply eq_true_iff_eq. rewrite !w_socktuple_cmp_key by done. split; congruence.
  - intros a b c Ha Hb Hc. rewrite !w_socktuple_cmp_key by done. congruence.
  - apply w_socktuple_hash_compat.
Defined.

(** ** Data *)

(** A pointer into the packet buffers: the buffer's index and an offset. *)
Definition bufptr : Type := Z * Z.

(** [struct w_iov].  The [next] field is in the queue heap. *)
Record w_iov := WIov {
  v_saddr : w_sockaddr;
  v_base : bufptr;
  v_buf : bufptr;
  v_idx : Z;
  v_len : Z;
  v_flags : Z;
  v_ttl : Z;
  v_user_data : Z
}.

Record w_sockopt := WSockopt {
  enable_udp_zero_checksums : bool;
  enable_ecn : bool
}.

(** [struct w_sock]; [s_iv] is the head of its queue of received data. *)
Record w_sock := WSock {
  s_tup : w_socktuple;
  s_dmac : bytes;
  s_opt : w_sockopt;
  s_iv : nat
}.
Definition ws_loc (s : w_sock) : w_sockaddr := local (s_tup s).
Definition ws_rem (s : w_sock) : w_sockaddr := remote (s_tup s).
Definition ws_af (s : w_sock) : Z := af (sa_addr (ws_loc s)).
Definition ws_lport (s : w_sock) : Z := sa_port (ws_loc s).
Definition ws_rport (s : w_sock) : Z := sa_port (ws_rem s).
Definition w_connected (s : w_sock) : bool := negb (ws_rport s =? 0).

(** The structures of the netmap interface the netmap backend works on. *)
Record netmap_slot := NetmapSlot { ns_buf_idx : Z; ns_len : Z; ns_flags : Z }.
Record netmap_ring := NetmapRing {
  nr_ringid : Z;
  nr_num_slots : Z;
  nr_head : Z;
  nr_cur : Z;
  nr_tail : Z;
  nr_slot : list netmap_slot
}.

(** The system calls of the data path, with what the kernel sees of the memory it shares
    with the engine: [ioctl(fd, NIOCTXSYNC, 0)] the TX rings and the packet buffers, [poll]
    nothing that matters here. *)
Inductive nm_call :=
| KTxSync (txr : list netmap_ring) (mem : gmap Z bytes)
| KPoll.

(** [struct w_engine] with its [struct w_backend]; the I/O vectors [w->bufs] are
    numbered by their index, [e_mem] holds the packet buffers.  [e_last] is the
    static cache of [mk_eth_hdr], and [e_calls] are the system calls of the data path made
    so far, the last one first. *)
Record engine := Engine {
  e_conf : ifconf;
  e_q : qheap;
  e_bufs : gmap nat w_iov;
  e_mem : gmap Z bytes;
  e_neighbor : khash w_addr bytes;
  e_sock : khash w_socktuple nat;
  e_socks : gmap nat w_sock;
  e_rng : krng_t;
  e_pipe : bool;
  e_txr : list netmap_ring;
  e_rxr : list netmap_ring;
  e_cur_txr : Z;
  e_tail : list Z;
  e_slot_buf : list (list (option nat));
  e_last : w_addr * bytes;
  e_calls : list nm_call
}.

(** The queue head of [w->iov]. *)
Definition IOVQ : nat := 0.

(** The parts of the engine the I/O vectors live in. *)
Definition set_iovs (w : engine) (q : qheap) (bufs : gmap nat w_iov) : engine :=
  Engine (e_conf w) q bufs (e_mem w) (e_neighbor w) (e_sock w) (e_socks w) (e_rng w) (e_pipe
    w) (e_txr w) (e_rxr w) (e_cur_txr w) (e_tail w) (e_slot_buf w) (e_last w) (e_calls w).
(** Updates of the other fields. *)
Definition set_mem (w : engine) (mem : gmap Z bytes) : engine :=
  Engine (e_conf w) (e_q w) (e_bufs w) mem (e_neighbor w) (e_sock w) (e_socks w) (e_rng w)
    (e_pipe w) (e_txr w) (e_rxr w) (e_cur_txr w) (e_tail w) (e_slot_buf w) (e_last w) (e_calls
    w).
Definition set_neighbor (w : engine) (h : khash w_addr bytes) : engine :=
  Engine (e_conf w) (e_q w) (e_bufs w) (e_mem w) h (e_sock w) (e_socks w) (e_rng w) (e_pipe
    w) (e_txr w) (e_rxr w) (e_cur_txr w) (e_tail w) (e_slot_buf w) (e_last w) (e_calls w).
Definition set_socks (w : engine) (h : khash w_socktuple nat) (ss : gmap nat w_sock) : engine :=
  Engine (e_conf w) (e_q w) (e_bufs w) (e_mem w) (e_neighbor w) h ss (e_rng w) (e_pipe w)
    (e_txr w) (e_rxr w) (e_cur_txr w) (e_tail w) (e_slot_buf w) (e_last w) (e_calls w).
Definition set_rng (w : engine) (r : krng_t) : engine :=
  Engine (e_conf w) (e_q w) (e_bufs w) (e_mem w) (e_neighbor w) (e_sock w) (e_socks w) r
    (e_pipe w) (e_txr w) (e_rxr w) (e_cur_txr w) (e_tail w) (e_slot_buf w) (e_last w) (e_calls
    w).
Definition set_tx (w : engine) (txr : list netmap_ring) (cur : Z) (tail : list Z) (sb : list (list (option nat))) : engine :=
  Engine (e_conf w) (e_q w) (e_bufs w) (e_mem w) (e_neighbor w) (e_sock w) (e_socks w)
    (e_rng w) (e_pipe w) txr (e_rxr w) cur tail sb (e_last w) (e_calls w).
Definition set_rxr (w : engine) (rxr : list netmap_ring) : engine :=
  Engine (e_conf w) (e_q w) (e_bufs w) (e_mem w) (e_neighbor w) (e_sock w) (e_socks w)
    (e_rng w) (e_pipe w) (e_txr w) rxr (e_cur_txr w) (e_tail w) (e_slot_buf w) (e_last w)
    (e_calls w).
Definition set_last_mac (w : engine) (last : w_addr * bytes) : engine :=
  Engine (e_conf w) (e_q w) (e_bufs w) (e_mem w) (e_neighbor w) (e_sock w) (e_socks w)
    (e_rng w) (e_pipe w) (e_txr w) (e_rxr w) (e_cur_txr w) (e_tail w) (e_slot_buf w) last
    (e_calls w).
Definition set_calls (w : engine) (t : list nm_call) : engine :=
  Engine (e_conf w) (e_q w) (e_bufs w) (e_mem w) (e_neighbor w) (e_sock w) (e_socks w)
    (e_rng w) (e_pipe w) (e_txr w) (e_rxr w) (e_cur_txr w) (e_tail w) (e_slot_buf w) (e_last
    w) t.

Definition liftq {A} (m : M qheap A) : M engine A := λ w,
  match m (e_q w) with
  | Done (a, q) => Done (a, set_iovs w q (e_bufs w))
  | Died => Died
  | Fault => Fault
  | NoFuel => NoFuel
  end.

Definition get_iov (i : nat) : M engine w_iov := λ w,
  match e_bufs w !! i with Some v => Done (v, w) | None => Fault end.
Definition put_iov (i : nat) (v : w_iov) : M engine unit := λ w,
  Done (tt, set_iovs w (e_q w) (<[i := v]> (e_bufs w))).

(** ** Operations *)

Section Config.
(** Whether the library is built with the netmap backend ([WITH_NETMAP]). *)
Context (netmap : bool).

Definition max_buf_len (w : engine) : Z :=
  if netmap then u16 (mtu (e_conf w)) else u16 (mtu (e_conf w) - 28).
Definition iov_off (af : Z) : Z :=
  if netmap then Z.of_nat Eth.size + ip_hdr_len af + Z.of_nat Udp.size else 0.

(** The fields [reinit_iov] sets. *)
Definition reinit (w : engine) (v : w_iov) : w_iov :=
  WIov (v_saddr v) (v_base v) (v_base v) (v_idx v) (max_buf_len w) 0 0 (v_user_data v).
Definition reinit_iov (i : nat) : M engine unit :=
  v ← get_iov i; w ← get; put_iov i (reinit w v) ;; liftq (wr_next i None).

Definition init_iov (i : nat) (idx : Z) : M engine unit :=
  v ← get_iov i;
  put_iov i (WIov (v_saddr v) (idx, 0) (v_buf v) idx (v_len v) (v_flags v) (v_ttl v) (v_user_data v)) ;;
  reinit_iov i.

Definition w_alloc_iov_base : M engine (option nat) :=
  v ← liftq (sq_first IOVQ);
  match v with
  | Some i => liftq (sq_remove_head IOVQ) ;; reinit_iov i ;; mret (Some i)
  | None => mret None
  end.

(** The changes of [w_alloc_iov] to a fresh [w_iov]. *)
Definition alloc_fields (v : w_iov) (af len off : Z) : w_iov :=
  let hdr_space := u16 (iov_off af) in
  WIov (v_saddr v) (v_base v) (fst (v_buf v), snd (v_buf v) + (off + hdr_space)) (v_idx v)
    (if len =? 0 then u16 (v_len v - (off + hdr_space)) else len)
    (v_flags v) (v_ttl v) (v_user_data v).

Definition w_alloc_iov (af len off : Z) : M engine (option nat) :=
  ensure ((af =? AF_INET) || (af =? AF_INET6)) ;;
  o ← w_alloc_iov_base;
  match o with
  | Some i => v ← get_iov i; put_iov i (alloc_fields v af len off) ;; mret (Some i)
  | None => mret None
  end.

Definition set_len (v : w_iov) (len : Z) : w_iov :=
  WIov (v_saddr v) (v_base v) (v_buf v) (v_idx v) len (v_flags v) (v_ttl v) (v_user_data v).

(** The [while (needed)] loop of [w_alloc_len]. *)
Fixpoint alloc_len_loop (fuel : nat) (af : Z) (q : nat) (needed len off : Z) : M engine unit :=
  match fuel with
  | O => no_fuel
  | S fuel =>
      if needed =? 0 then mret tt else
      o ← w_alloc_iov af len off;
      match o with
      | None => mret tt
      | Some i =>
          v ← get_iov i;
          if v_len v <? needed then
            liftq (sq_insert_tail q i) ;;
            alloc_len_loop fuel af q (u64 (needed - v_len v)) len off
          else
            put_iov i (set_len v (u16 needed)) ;;
            liftq (sq_insert_tail q i) ;;
            alloc_len_loop fuel af q 0 len off
      end
  end.
Definition w_alloc_len (fuel : nat) (af : Z) (q : nat) (qlen len off : Z) : M engine unit :=
  alloc_len_loop fuel af q qlen len off.

Fixpoint w_alloc_cnt (count : nat) (af : Z) (q : nat) (len off : Z) : M engine unit :=
  match count with
  | O => mret tt
  | S count =>
      o ← w_alloc_iov af len off;
      match o with
      | None => mret tt
      | Some i => liftq (sq_insert_tail q i) ;; w_alloc_cnt count af q len off
      end
  end.

(** The sum of the lengths of the elements a queue walk visits. *)
Fixpoint sum_len (l : list nat) (acc : Z) : M engine Z :=
  match l with
  | [] => mret acc
  | i :: l => v ← get_iov i; sum_len l (u64 (acc + v_len v))
  end.
Definition w_iov_sq_len (fuel q : nat) : M engine Z :=
  l ← liftq (sq_foreach fuel q); sum_len l 0.
Definition w_iov_sq_cnt (q : nat) : M engine Z := liftq (sq_len q).

Definition w_free (q : nat) : M engine unit :=
  b ← liftq (sq_empty q);
  if (b : bool) then mret tt else liftq (sq_concat IOVQ q).

Definition w_free_iov (i : nat) : M engine unit :=
  n ← liftq (sq_next i);
  ensure (bool_decide (n = None)) ;;
  liftq (sq_insert_head IOVQ i).

Definition w_rx (s : w_sock) (q : nat) : M engine unit := liftq (sq_concat q (s_iv s)).

Definition w_max_iov_len (w : engine) (v : w_iov) (af : Z) : Z :=
  let offset := u16 (snd (v_buf v) - snd (v_base v)) in
  u16 (mtu (e_conf w) - offset - ip_hdr_len af).
Definition w_max_udp_payload (w : engine) (s : w_sock) : Z :=
  u16 (mtu (e_conf w) - ip_hdr_len (ws_af s) - 8).
End Config.

(** * Theorems *)

(** The queues of the engine hold I/O vectors [D], as the lists [m] say. *)
Record eng_inv (D : gset nat) (m : queues) (w : engine) : Prop := {
  ei_q : sq_inv D (e_q w) m;
  ei_bufs : dom (e_bufs w) = D;
  ei_iovq : is_Some (m !! IOVQ)
}.

Lemma set_iovs_id w : set_iovs w (e_q w) (e_bufs w) = w.
Proof. by destruct w. Qed.

Lemma set_iovs_set w q bufs q' bufs' :
  set_iovs (set_iovs w q bufs) q' bufs' = set_iovs w q' bufs'.
Proof. done. Qed.

Lemma get_iov_run i v w : e_bufs w !! i = Some v → get_iov i w = Done (v, w).
Proof. intros H. unfold get_iov. by rewrite H. Qed.
#[export] Hint Resolve get_iov_run : wc_run.

(** A queue operation in the engine. *)
Lemma liftq_op D m m' w o :
  eng_inv D m w → spec_op D m o m' → is_Some (m' !! IOVQ) →
  ∃ q, liftq (exec_op (size D) o) w = Done (tt, set_iovs w q (e_bufs w)) ∧
    eng_inv D m' (set_iovs w q (e_bufs w)).
Proof.
  intros [Hq Hb Hi] Hs Hm'.
  destruct (sq_step_refines D (e_q w) m o m' (size D) Hq Hs) as (q & E & Hq').
  { by eapply inv_fuel_ok. }
  exists q. unfold liftq. rewrite E. split; [done|]. by split.
Qed.

Lemma liftq_first D m w h xs :
  eng_inv D m w → m !! h = Some xs → liftq (sq_first h) w = Done (head xs, w).
Proof.
  intros [Hq _ _] Hm. destruct (inv_repr D _ m Hq h xs Hm) as [Hh _ _].
  unfold liftq, sq_first, rd_head, mbind, M_bind. rewrite Hh. cbn. rewrite set_iovs_id.
  by destruct xs.
Qed.

Lemma liftq_next w i n : nexts (e_q w) !! i = Some n → liftq (sq_next i) w = Done (n, w).
Proof. intros H. unfold liftq, sq_next, rd_next. by rewrite H, set_iovs_id. Qed.

Lemma liftq_empty D m w h xs :
  eng_inv D m w → m !! h = Some xs → liftq (sq_empty h) w = Done (bool_decide (xs = []), w).
Proof.
  intros [Hq _ _] Hm. destruct (inv_repr D _ m Hq h xs Hm) as [Hh _ _].
  unfold liftq, sq_empty, sq_first, rd_head, mbind, M_bind. rewrite Hh. cbn. rewrite set_iovs_id.
  destruct xs; cbn; by repeat case_bool_decide.
Qed.

Lemma liftq_foreach D m w h xs :
  eng_inv D m w → m !! h = Some xs → liftq (sq_foreach (size D) h) w = Done (xs, w).
Proof.
  intros [Hq _ _] Hm. pose proof (inv_fuel_ok D _ m Hq h xs Hm) as Hf. cbv beta in Hf.
  destruct (inv_repr D _ m Hq h xs Hm) as [Hh Hc _].
  unfold liftq, sq_foreach, sq_first, rd_head, mbind, M_bind. rewrite Hh. cbn [stqh_first mret M_ret].
  rewrite (sq_walk_spec (e_q w) _ xs None) by done. by rewrite set_iovs_id.
Qed.

(** Clearing the [next] field of an element that is in no queue. *)
Lemma liftq_clear_next D m w i :
  eng_inv D m w → unqueued D m i →
  ∃ q, liftq (wr_next i None) w = Done (tt, set_iovs w q (e_bufs w)) ∧
    eng_inv D m (set_iovs w q (e_bufs w)) ∧ nexts q !! i = Some None.
Proof.
  intros [Hq Hb Hi] Hu. destruct (unqueued_alloc D _ m Hq i Hu) as [n Hn].
  exists (QHeap (heads (e_q w)) (<[i := None]> (nexts (e_q w)))).
  unfold liftq, wr_next. rewrite Hn. split; [done|]. split; [|apply lookup_insert_eq].
  split; [|done|done]. cbn [e_q set_iovs].
  apply (inv_update D (e_q w) _ m m [] [i]); [done| |done|set_solver|set_solver|].
  - split; cbn [nexts heads].
    + apply dom_insert_same. eauto.
    + done.
    + intros e He. apply lookup_insert_ne. set_solver.
  - intros e h ys [->%list_elem_of_singleton|(? & ? & Hf & _)] _ Hm; [|by apply elem_of_nil in Hf].
    apply (proj2 Hu h ys Hm).
Qed.

Lemma eng_inv_put D m w i v :
  eng_inv D m w → i ∈ D → eng_inv D m (set_iovs w (e_q w) (<[i := v]> (e_bufs w))).
Proof.
  intros [Hq Hb Hi] HD. split; [done| |done]. cbn [e_bufs set_iovs].
  rewrite dom_insert_L, Hb. set_solver.
Qed.

Lemma eng_inv_iov D m w i : eng_inv D m w → i ∈ D → is_Some (e_bufs w !! i).
Proof. intros [_ Hb _] Hi. by rewrite <- elem_of_dom, Hb. Qed.

Lemma queue_elem D m w h xs i : eng_inv D m w → m !! h = Some xs → i ∈ xs → i ∈ D.
Proof.
  intros [Hq _ _] Hm Hi. destruct (inv_repr D _ m Hq h xs Hm) as [_ Hc _].
  rewrite <- (inv_dom D _ m Hq), elem_of_dom. by eapply chain_alloc.
Qed.

(** An element removed from the front of a queue is in no queue. *)
Lemma head_unqueued D m w h i xs :
  eng_inv D m w → m !! h = Some (i :: xs) → unqueued D (<[h := xs]> m) i.
Proof.
  intros Hinv Hm. split; [eapply queue_elem; [done|done|by left]|].
  destruct Hinv as [Hq _ _]. intros h' ys. rewrite lookup_insert_Some.
  intros [[<- <-]|[Hne Hy]].
  - destruct (inv_repr D _ m Hq h _ Hm) as [_ _ [? _]%NoDup_cons]. done.
  - intros Hin. eapply (inv_disj D _ m Hq h h'); eauto. by left.
Qed.

(** Two queues updated twice. *)
Lemma drop_take_free (m : queues) (h f : nat) (xs xs' ys ys' : list nat) :
  <[f := ys]> (<[h := xs]> (<[h := xs']> (<[f := ys']> m))) = <[f := ys]> (<[h := xs]> m).
Proof. apply map_eq. intros y. rewrite !lookup_insert. by repeat case_decide. Qed.

Section Alloc.
Context (netmap : bool) (D : gset nat).

(** The state after taking [i] off the free list and reinitialising it. *)
Lemma w_alloc_iov_base_run m w :
  eng_inv D m w →
  match m !! IOVQ with
  | Some (i :: free) =>
      ∃ q v, w_alloc_iov_base netmap w =
          Done (Some i, set_iovs w q (<[i := reinit netmap w v]> (e_bufs w))) ∧
        e_bufs w !! i = Some v ∧ nexts q !! i = Some None ∧
        eng_inv D (<[IOVQ := free]> m) (set_iovs w q (<[i := reinit netmap w v]> (e_bufs w)))
  | _ => w_alloc_iov_base netmap w = Done (None, w)
  end.
Proof.
  intros Hinv. destruct (ei_iovq D m w Hinv) as [xs Hm]. rewrite Hm.
  pose proof (liftq_first D m w IOVQ xs Hinv Hm) as E0. destruct xs as [|i free]; cbn [head] in E0.
  { unfold w_alloc_iov_base, mbind, M_bind. by rewrite E0. }
  destruct (liftq_op D m (<[IOVQ := free]> m) w (ORemoveHead IOVQ) Hinv) as (q1 & E1 & Hinv1);
    [by eapply SRemoveHead|rewrite lookup_insert_eq; eauto|].
  pose proof (head_unqueued D m w IOVQ i free Hinv Hm) as Hu.
  destruct (eng_inv_iov D m w i Hinv (proj1 Hu)) as [v Hv].
  set (bufs2 := <[i := reinit netmap w v]> (e_bufs w)).
  pose proof (eng_inv_put D _ _ i (reinit netmap w v) Hinv1 (proj1 Hu)) as Hinv2.
  rewrite set_iovs_set in Hinv2. cbn [e_q e_bufs set_iovs] in Hinv2. fold bufs2 in Hinv2.
  destruct (liftq_clear_next D _ _ i Hinv2 Hu) as (q3 & E3 & Hinv3 & Hn).
  exists q3, v. split_and!; [|done|done|done].
  cbn [exec_op] in E1. unfold w_alloc_iov_base. unfold mbind at 1 2 3. unfold M_bind. rewrite E0, E1. unfold reinit_iov, get_iov, get, put_iov, mbind, M_bind. cbn [e_bufs set_iovs].
  rewrite Hv. cbn [e_q e_bufs set_iovs]. change (reinit netmap (set_iovs w q1 (e_bufs w)) v) with (reinit netmap w v).
  fold bufs2. rewrite !set_iovs_set. rewrite E3. by rewrite set_iovs_set.
Qed.
(** A fresh I/O vector, as [w_alloc_iov] returns it. *)
Definition fresh_iov (w : engine) (v : w_iov) (af len off : Z) : w_iov :=
  alloc_fields netmap (reinit netmap w v) af len off.

Definition af_ok (af : Z) : Prop := af = AF_INET ∨ af = AF_INET6.

Lemma af_ok_bool af : af_ok af → (af =? AF_INET) || (af =? AF_INET6) = true.
Proof. by intros [->| ->]. Qed.

Lemma w_alloc_iov_run m w af len off :
  eng_inv D m w → af_ok af →
  match m !! IOVQ with
  | Some (i :: free) =>
      ∃ q v, w_alloc_iov netmap af len off w =
          Done (Some i, set_iovs w q (<[i := fresh_iov w v af len off]> (e_bufs w))) ∧
        e_bufs w !! i = Some v ∧ nexts q !! i = Some None ∧
        eng_inv D (<[IOVQ := free]> m)
          (set_iovs w q (<[i := fresh_iov w v af len off]> (e_bufs w)))
  | _ => w_alloc_iov netmap af len off w = Done (None, w)
  end.
Proof.
  intros Hinv Haf. pose proof (w_alloc_iov_base_run m w Hinv) as H.
  unfold w_alloc_iov. rewrite (af_ok_bool af Haf). unfold ensure, mbind, M_bind, mret, M_ret.
  destruct (m !! IOVQ) as [[|i free]|] eqn:Hm.
  - by rewrite H.
  - destruct H as (q & v & E & Hv & Hn & Hinv'). exists q, v.
    assert (HD : i ∈ D) by (eapply queue_elem; [exact Hinv|exact Hm|by left]).
    pose proof (eng_inv_put D _ _ i (fresh_iov w v af len off) Hinv' HD) as Hinv2.
    rewrite set_iovs_set in Hinv2. cbn [e_q e_bufs set_iovs] in Hinv2.
    rewrite insert_insert_eq in Hinv2. split_and!; [|done|done|done].
    rewrite E. unfold get_iov, put_iov. cbn [e_bufs set_iovs].
    rewrite lookup_insert_eq. rewrite set_iovs_set. cbn [e_q e_bufs set_iovs]. by rewrite insert_insert_eq.
  - by rewrite H.
Qed.

Lemma insert_tail_run m w h xs i :
  eng_inv D m w → m !! h = Some xs → unqueued D m i →
  ∃ q, liftq (sq_insert_tail h i) w = Done (tt, set_iovs w q (e_bufs w)) ∧
    eng_inv D (<[h := xs ++ [i]]> m) (set_iovs w q (e_bufs w)).
Proof.
  intros Hinv Hm Hu. apply (liftq_op D m _ w (OInsertTail h i) Hinv); [by apply SInsertTail|].
  destruct (ei_iovq D m w Hinv) as [ys Hy]. destruct (decide (h = IOVQ)) as [->|].
  - rewrite lookup_insert_eq. eauto.
  - rewrite lookup_insert_ne by done. eauto.
Qed.

(** Replacing the contents of an I/O vector. *)
Lemma put_iov_run m w i v :
  eng_inv D m w → i ∈ D →
  put_iov i v w = Done (tt, set_iovs w (e_q w) (<[i := v]> (e_bufs w))) ∧
  eng_inv D m (set_iovs w (e_q w) (<[i := v]> (e_bufs w))).
Proof. intros. split; [done|by apply eng_inv_put]. Qed.

Section AllocLen.
Context (h : nat) (af len off : Z).
Hypothesis Hh : h ≠ IOVQ.
Hypothesis Haf : af_ok af.

(** The capacity of each buffer. *)
Definition buf_cap (w : engine) : Z :=
  if len =? 0 then u16 (max_buf_len netmap w - (off + u16 (iov_off netmap af))) else len.

Lemma fresh_len w v : v_len (fresh_iov w v af len off) = buf_cap w.
Proof. unfold fresh_iov, alloc_fields, buf_cap, reinit. cbn. by destruct (len =? 0). Qed.

Lemma fresh_set_len w v : set_len (fresh_iov w v af len off) (buf_cap w) = fresh_iov w v af len off.
Proof. rewrite <- (fresh_len w v). by destruct (fresh_iov w v af len off). Qed.

(** One element allocated, given length [l], and appended to the queue. *)
Lemma alloc_append_run m w i free xs l :
  eng_inv D m w → m !! IOVQ = Some (i :: free) → m !! h = Some xs →
  ∃ q1 q2 v, w_alloc_iov netmap af len off w =
      Done (Some i, set_iovs w q1 (<[i := fresh_iov w v af len off]> (e_bufs w))) ∧
    e_bufs w !! i = Some v ∧
    let bufs := <[i := set_len (fresh_iov w v af len off) l]> (e_bufs w) in
    liftq (sq_insert_tail h i) (set_iovs w q1 bufs) = Done (tt, set_iovs w q2 bufs) ∧
    eng_inv D (<[h := xs ++ [i]]> (<[IOVQ := free]> m)) (set_iovs w q2 bufs).
Proof.
  intros Hinv Hm Hx. pose proof (w_alloc_iov_run m w af len off Hinv Haf) as H.
  rewrite Hm in H. destruct H as (q1 & v & E & Hv & Hn & Hinv1).
  pose proof (head_unqueued D m w IOVQ i free Hinv Hm) as Hu.
  pose proof (eng_inv_put D _ _ i (set_len (fresh_iov w v af len off) l) Hinv1 (proj1 Hu)) as Hinv2.
  rewrite set_iovs_set in Hinv2. cbn [e_q e_bufs set_iovs] in Hinv2. rewrite insert_insert_eq in Hinv2.
  destruct (insert_tail_run _ _ h xs i Hinv2) as (q2 & E2 & Hinv3);
    [by rewrite lookup_insert_ne by done|done|].
  exists q1, q2, v. rewrite set_iovs_set in *. cbn [e_bufs set_iovs] in *. done.
Qed.

(** What an allocation of [k] buffers for [needed] bytes leaves behind. *)
Record alloc_post (m : queues) (w w' : engine) (free xs : list nat) (needed : Z) (k : nat) : Prop := {
  ap_le : (k <= length free)%nat;
  ap_enough : needed <= Z.of_nat k * buf_cap w ∨ k = length free;
  ap_need : (0 < k)%nat → (Z.of_nat k - 1) * buf_cap w < needed;
  ap_inv : eng_inv D (<[IOVQ := drop k free]> (<[h := xs ++ take k free]> m)) w';
  ap_frame : ∃ q bufs, w' = set_iovs w q bufs;
  ap_others : ∀ i, i ∉ take k free → e_bufs w' !! i = e_bufs w !! i;
  ap_iov : ∀ j i, take k free !! j = Some i → ∃ v0, e_bufs w !! i = Some v0 ∧
    e_bufs w' !! i = Some (set_len (fresh_iov w v0 af len off)
      (Z.min (buf_cap w) (needed - Z.of_nat j * buf_cap w)))
}.

Lemma alloc_post_none m w free xs needed k :
  eng_inv D m w → m !! IOVQ = Some free → m !! h = Some xs → k = 0%nat →
  needed <= 0 ∨ free = [] → alloc_post m w w free xs needed k.
Proof.
  intros Hinv Hm Hx -> Hn. split.
  - lia.
  - destruct Hn as [?| ->]; [left; lia|by right].
  - lia.
  - rewrite take_0, app_nil_r, drop_0. by rewrite (insert_id m h xs), (insert_id m IOVQ free).
  - exists (e_q w), (e_bufs w). by rewrite set_iovs_id.
  - done.
  - intros j i. rewrite take_0. done.
Qed.

(** One more buffer in front of an allocation. *)
Lemma alloc_post_cons m w w' i free xs needed k q2 v l :
  let bufs := <[i := set_len (fresh_iov w v af len off) l]> (e_bufs w) in
  let w1 := set_iovs w q2 bufs in
  e_bufs w !! i = Some v → i ∉ free → 0 < needed → 0 < buf_cap w →
  l = Z.min (buf_cap w) needed →
  alloc_post (<[h := xs ++ [i]]> (<[IOVQ := free]> m)) w1 w' free (xs ++ [i])
    (Z.max 0 (needed - buf_cap w)) k →
  alloc_post m w w' (i :: free) xs needed (S k).
Proof.
  intros bufs w1 Hv Hi Hn HL -> [Hle Hen Hne Hinv Hfr Hoth Hiov].
  assert (buf_cap w1 = buf_cap w) as Hcap by done. rewrite Hcap in *. set (L := buf_cap w) in *.
  assert (Hni : i ∉ take k free).
  { intros H. apply Hi. rewrite <- (take_drop k free), elem_of_app. by left. }
  split.
  - cbn [length]. lia.
  - destruct Hen as [?| ->]; [left; rewrite Nat2Z.inj_succ, Z.mul_succ_l; lia|by right].
  - intros _. destruct (decide (k = 0%nat)) as [->|]; [lia|].
    assert (0 <= (Z.of_nat k - 1) * L) by (apply Z.mul_nonneg_nonneg; lia).
    specialize (Hne ltac:(lia)). lia.
  - cbn [take drop]. rewrite <- app_assoc in Hinv. cbn [app] in Hinv.
    by rewrite drop_take_free in Hinv.
  - destruct Hfr as (q & b & ->). exists q, b. unfold w1. by rewrite set_iovs_set.
  - cbn [take]. intros y Hy. rewrite Hoth by set_solver. unfold w1, bufs. cbn [e_bufs set_iovs].
    apply lookup_insert_ne. set_solver.
  - intros [|j] y; cbn [take].
    + intros [= <-]. exists v. split; [done|]. rewrite Hoth by done. unfold w1, bufs.
      cbn [e_bufs set_iovs]. rewrite lookup_insert_eq. do 2 f_equal. lia.
    + cbn [lookup list_lookup]. intros Hy. destruct (Hiov j y Hy) as (v0 & Hv0 & E). exists v0.
      assert (y ≠ i) as Hyi by (intros ->; by apply Hni; eapply list_elem_of_lookup_2).
      unfold w1, bufs in Hv0. cbn [e_bufs set_iovs] in Hv0. rewrite lookup_insert_ne in Hv0 by done.
      split; [done|]. rewrite E. do 2 f_equal.
      assert (j < k)%nat by (apply lookup_lt_Some in Hy; rewrite length_take in Hy; lia).
      assert (0 <= (Z.of_nat k - 1) * L) by (apply Z.mul_nonneg_nonneg; lia).
      specialize (Hne ltac:(lia)). lia.
Qed.

(** The allocation loop.  It takes at most one round per free buffer and a last
    one that finds nothing left to do. *)
Lemma alloc_len_loop_run fuel :
  ∀ m w free xs needed,
  eng_inv D m w → m !! IOVQ = Some free → m !! h = Some xs →
  (length free < fuel)%nat → 0 <= needed < 2 ^ 64 → 0 < buf_cap w <= UINT16_MAX →
  ∃ w' k, alloc_len_loop netmap fuel af h needed len off w = Done (tt, w') ∧
    alloc_post m w w' free xs needed k.
Proof.
  induction fuel as [|fuel IH]; intros m w free xs needed Hinv Hm Hx Hf Hn HL; [lia|].
  cbn [alloc_len_loop]. destruct (Z.eqb_spec needed 0) as [->|Hnz].
  { exists w, 0%nat. split; [done|]. apply alloc_post_none; auto. left. lia. }
  destruct free as [|i free].
  { exists w, 0%nat. pose proof (w_alloc_iov_run m w af len off Hinv Haf) as E. rewrite Hm in E.
    unfold mbind, M_bind. rewrite E. split; [done|]. apply alloc_post_none; auto. }
  cbn [length] in Hf.
  set (l := Z.min (buf_cap w) needed).
  destruct (alloc_append_run m w i free xs l Hinv Hm Hx) as (q1 & q2 & v & E1 & Hv & E2 & Hinv').
  set (w1 := set_iovs w q2 (<[i := set_len (fresh_iov w v af len off) l]> (e_bufs w))) in *.
  destruct (IH (<[h := xs ++ [i]]> (<[IOVQ := free]> m)) w1 free (xs ++ [i])
    (Z.max 0 (needed - buf_cap w)) Hinv') as (w' & k & E & Hpost);
    [by rewrite lookup_insert_ne, lookup_insert_eq by done|apply lookup_insert_eq|lia|lia|exact HL|].
  exists w', (S k). split.
  - unfold mbind, M_bind. rewrite E1. unfold get_iov, put_iov. cbn [e_bufs set_iovs].
    rewrite lookup_insert_eq, fresh_len. cbv beta in E2. destruct (Z.ltb_spec (buf_cap w) needed).
    + replace l with (buf_cap w) in E2 by lia. rewrite fresh_set_len in E2. rewrite E2.
      rewrite u64_id by (unfold_u; lia). rewrite Z.max_r in E by lia. exact E.
    + rewrite set_iovs_set. cbn [e_q e_bufs set_iovs]. rewrite insert_insert_eq, u16_id by (unfold_u; lia).
      replace needed with l by lia. rewrite E2. rewrite Z.max_l in E by lia. exact E.
  - apply (alloc_post_cons m w w' i free xs needed k q2 v l); [done| |lia|lia|done|done].
    pose proof (inv_repr D _ m (ei_q D m w Hinv) IOVQ _ Hm) as [_ _ [? _]%NoDup_cons]. done.
Qed.

(** [w_alloc_cnt] allocates the first [count] free buffers, or all of them. *)
Lemma w_alloc_cnt_run count : ∀ m w free xs,
  eng_inv D m w → m !! IOVQ = Some free → m !! h = Some xs →
  ∃ w', w_alloc_cnt netmap count af h len off w = Done (tt, w') ∧
    eng_inv D (<[IOVQ := drop count free]> (<[h := xs ++ take count free]> m)) w' ∧
    (∃ q bufs, w' = set_iovs w q bufs) ∧
    (∀ i, i ∉ take count free → e_bufs w' !! i = e_bufs w !! i) ∧
    (∀ i, i ∈ take count free → ∃ v0, e_bufs w !! i = Some v0 ∧
      e_bufs w' !! i = Some (fresh_iov w v0 af len off)).
Proof.
  induction count as [|count IH]; intros m w free xs Hinv Hm Hx; cbn [w_alloc_cnt].
  { exists w. rewrite take_0, app_nil_r, drop_0. split_and!; [done| | |done|by intros ? ?%elem_of_nil].
    - by rewrite (insert_id m h xs), (insert_id m IOVQ free).
    - exists (e_q w), (e_bufs w). by rewrite set_iovs_id. }
  destruct free as [|i free].
  { exists w. pose proof (w_alloc_iov_run m w af len off Hinv Haf) as E. rewrite Hm in E.
    unfold mbind, M_bind. rewrite E. cbn [take drop]. rewrite app_nil_r.
    split_and!; [done| | |done|by intros ? ?%elem_of_nil].
    - by rewrite (insert_id m h xs), (insert_id m IOVQ []).
    - exists (e_q w), (e_bufs w). by rewrite set_iovs_id. }
  destruct (alloc_append_run m w i free xs (buf_cap w) Hinv Hm Hx) as (q1 & q2 & v & E1 & Hv & E2 & Hinv').
  cbv beta zeta in E2, Hinv'. rewrite fresh_set_len in E2, Hinv'.
  destruct (IH _ _ free (xs ++ [i]) Hinv') as (w' & E & Hinv'' & (q & b & ->) & Hoth & Hiov);
    [by rewrite lookup_insert_ne, lookup_insert_eq by done|apply lookup_insert_eq|].
  assert (Hi : i ∉ free).
  { pose proof (inv_repr D _ m (ei_q D m w Hinv) IOVQ _ Hm) as [_ _ [? _]%NoDup_cons]. done. }
  assert (Hni : i ∉ take count free).
  { intros H. apply Hi. rewrite <- (take_drop count free), elem_of_app. by left. }
  eexists. split_and!; [unfold mbind, M_bind; rewrite E1, E2; exact E| | | |].
  - cbn [take drop]. rewrite <- app_assoc in Hinv''. cbn [app] in Hinv''.
    by rewrite drop_take_free in Hinv''.
  - rewrite set_iovs_set. eauto.
  - intros y Hy. cbn [take] in Hy. rewrite Hoth by set_solver. cbn [e_bufs set_iovs].
    apply lookup_insert_ne. set_solver.
  - intros y. cbn [take]. intros [->|Hy]%elem_of_cons.
    + exists v. split; [done|]. rewrite Hoth by done. apply lookup_insert_eq.
    + destruct (Hiov y Hy) as (v0 & Hv0 & Ev). exists v0. split; [|done].
      cbn [e_bufs set_iovs] in Hv0. rewrite lookup_insert_ne in Hv0; [done|congruence].
Qed.
End AllocLen.
End Alloc.

(** ** Lengths *)

(** The lengths of the elements of a queue. *)
Definition iov_len (w : engine) (i : nat) : Z := from_option v_len 0 (e_bufs w !! i).
Definition sum_z (l : list Z) : Z := foldr Z.add 0 l.

Lemma sum_len_run w l : ∀ acc,
  (∀ i, i ∈ l → is_Some (e_bufs w !! i)) → is_u64 acc →
  sum_len l acc w = Done (u64 (acc + sum_z (iov_len w <$> l)), w).
Proof.
  induction l as [|i l IH]; intros acc Hl Hacc.
  - unfold sum_z. cbn. by rewrite Z.add_0_r, u64_id.
  - destruct (Hl i (list_elem_of_here i l)) as [v Hv]. unfold sum_z. rewrite fmap_cons. cbn [sum_len foldr].
    unfold mbind, M_bind. unfold get_iov at 1. rewrite Hv, IH; [|by intros; apply Hl; right|apply u64_range].
    rewrite u64_add_l. unfold iov_len at 2. rewrite Hv. cbn. unfold sum_z. by rewrite Z.add_assoc.
Qed.

Lemma w_iov_sq_len_run D m w h xs :
  eng_inv D m w → m !! h = Some xs →
  w_iov_sq_len (size D) h w = Done (u64 (sum_z (iov_len w <$> xs)), w).
Proof.
  intros Hinv Hm. unfold w_iov_sq_len, mbind, M_bind.
  rewrite (liftq_foreach D m w h xs Hinv Hm), sum_len_run; [done| |unfold_u; lia].
  intros i Hi. eapply eng_inv_iov; [done|]. by eapply queue_elem.
Qed.

(** Pieces of at most [L] of [n] bytes. *)
Lemma sum_pieces (f : nat → Z) (l : list nat) (L n : Z) :
  (∀ j i, l !! j = Some i → f i = Z.min L (n - Z.of_nat j * L)) →
  0 <= n → 0 < L → ((0 < length l)%nat → (Z.of_nat (length l) - 1) * L < n) →
  sum_z (f <$> l) = Z.min n (Z.of_nat (length l) * L).
Proof.
  revert n. induction l as [|i l IH]; intros n Hf Hn HL Hk.
  - unfold sum_z. cbn. lia.
  - specialize (Hk ltac:(cbn; lia)). cbn [length] in Hk. rewrite Nat2Z.inj_succ in Hk.
    change (sum_z (f <$> i :: l)) with (f i + sum_z (f <$> l)).
    pose proof (Hf 0%nat i eq_refl) as E0. destruct l as [|i' l'].
    { unfold sum_z. cbn [length fmap list_fmap foldr] in *. lia. }
    assert (0 <= (Z.of_nat (length (i' :: l')) - 1) * L) by (cbn [length]; apply Z.mul_nonneg_nonneg; lia).
    rewrite (IH (n - L)); [| |lia|done|intros; lia].
    + rewrite E0. cbn [length]. rewrite !Nat2Z.inj_succ, !Z.mul_succ_l in *. cbn [length] in *. lia.
    + intros j y Hy. rewrite (Hf (S j) y Hy). lia.
Qed.

Lemma w_iov_sq_cnt_run D m w h xs :
  eng_inv D m w → m !! h = Some xs → Z.of_nat (size D) < 2 ^ 64 →
  w_iov_sq_cnt h w = Done (Z.of_nat (length xs), w).
Proof.
  intros [Hq _ _] Hm Hsz. pose proof (inv_fuel_ok D _ m Hq h xs Hm) as Hf. cbv beta in Hf.
  destruct (inv_repr D _ m Hq h xs Hm) as [Hh _ _].
  unfold w_iov_sq_cnt, liftq, sq_len, rd_head, mbind, M_bind. rewrite Hh. cbn [stqh_len mret M_ret].
  rewrite set_iovs_id, u64_id; [done|]. unfold_u. lia.
Qed.

Lemma w_free_run D m w h free xs :
  eng_inv D m w → m !! IOVQ = Some free → m !! h = Some xs → h ≠ IOVQ →
  ∃ w', w_free h w = Done (tt, w') ∧ eng_inv D (<[IOVQ := free ++ xs]> (<[h := []]> m)) w' ∧
    ∃ q, w' = set_iovs w q (e_bufs w).
Proof.
  intros Hinv Hm Hx Hh. unfold w_free, mbind, M_bind. rewrite (liftq_empty D m w h xs Hinv Hx).
  case_bool_decide as Hxs.
  - subst. exists w. split; [done|]. rewrite app_nil_r.
    rewrite (insert_id m h []), (insert_id m IOVQ free) by done. split; [done|]. exists (e_q w). by rewrite set_iovs_id.
  - destruct (liftq_op D m (<[IOVQ := free ++ xs]> (<[h := []]> m)) w (OConcat IOVQ h) Hinv)
      as (q & E & Hinv'); [by apply SConcat|rewrite lookup_insert_eq; eauto|].
    exists (set_iovs w q (e_bufs w)). split_and!; [done|done|by exists q].
Qed.

Section Properties.
Context (netmap : bool) (D : gset nat).

(** C23: Allocating for [qlen] bytes takes the first free vectors, no more of them
    than needed, all of them if the bytes do not fit; every vector but the last
    is filled, and nothing else of the engine changes. *)
Theorem w_alloc_len_correct m w h free xs af qlen len off :
  eng_inv D m w → m !! IOVQ = Some free → m !! h = Some xs → h ≠ IOVQ → af_ok af →
  0 <= qlen < 2 ^ 64 → 0 < buf_cap netmap af len off w <= UINT16_MAX →
  ∃ w' k, w_alloc_len netmap (S (length free)) af h qlen len off w = Done (tt, w') ∧
    alloc_post netmap D h af len off m w w' free xs qlen k ∧
    (xs = [] → w_iov_sq_len (size D) h w' =
      Done (Z.min qlen (Z.of_nat (length free) * buf_cap netmap af len off w), w')).
Proof.
  intros Hinv Hm Hx Hh Haf Hn HL.
  destruct (alloc_len_loop_run netmap D h af len off Hh Haf (S (length free)) m w free xs qlen)
    as (w' & k & E & Hp); [done|done|done|lia|done|done|].
  exists w', k. split_and!; [done|done|]. intros ->.
  pose proof (ap_inv _ _ _ _ _ _ _ _ _ _ _ _ _ Hp) as Hinv'.
  rewrite (w_iov_sq_len_run D _ w' h (take k free) Hinv') by
    (rewrite lookup_insert_ne, lookup_insert_eq by done; done).
  destruct Hp as [Hle Hen Hne _ _ _ Hiov]. set (L := buf_cap netmap af len off w) in *.
  assert (length (take k free) = k) as Hk by (rewrite length_take; lia).
  rewrite (sum_pieces _ _ L qlen); rewrite ?Hk; [| |lia|lia|done].
  - rewrite u64_id by (unfold_u; split; [apply Z.min_glb|]; try lia; apply Z.mul_nonneg_nonneg; lia).
    do 2 f_equal. destruct Hen as [?| ->]; [|done].
    assert (Z.of_nat k * L <= Z.of_nat (length free) * L) by (apply Z.mul_le_mono_nonneg_r; lia). lia.
  - intros j i Hj. destruct (Hiov j i Hj) as (v0 & _ & Ev). unfold iov_len. by rewrite Ev.
Qed.

(** C26: Allocating [count] vectors and freeing them again rotates the free list. *)
Theorem w_alloc_cnt_free_roundtrip m w h free af count len off :
  eng_inv D m w → m !! IOVQ = Some free → m !! h = Some [] → h ≠ IOVQ → af_ok af →
  Z.of_nat (size D) < 2 ^ 64 →
  ∃ w1 w2, w_alloc_cnt netmap count af h len off w = Done (tt, w1) ∧
    w_iov_sq_cnt h w1 = Done (Z.of_nat (count `min` length free), w1) ∧
    (∀ i, i ∈ take count free → ∃ v, e_bufs w1 !! i = Some v ∧ v_len v = buf_cap netmap af len off w) ∧
    w_free h w1 = Done (tt, w2) ∧
    eng_inv D (<[IOVQ := drop count free ++ take count free]> m) w2.
Proof.
  intros Hinv Hm Hx Hh Haf Hsz.
  destruct (w_alloc_cnt_run netmap D h af len off Hh Haf count m w free [] Hinv Hm Hx)
    as (w1 & E1 & Hinv1 & _ & _ & Hiov).
  cbn [app] in Hinv1.
  assert (Hm1 : <[IOVQ := drop count free]> (<[h := take count free]> m) !! h = Some (take count free))
    by (by rewrite lookup_insert_ne, lookup_insert_eq by done).
  destruct (w_free_run D _ w1 h (drop count free) (take count free) Hinv1) as (w2 & E2 & Hinv2 & _);
    [apply lookup_insert_eq|done|done|].
  exists w1, w2. split_and!; [done| | |done|].
  - by rewrite (w_iov_sq_cnt_run D _ w1 h _ Hinv1 Hm1), length_take.
  - intros i Hi. destruct (Hiov i Hi) as (v0 & _ & Ev). eexists. split; [done|].
    apply fresh_len.
  - replace (<[IOVQ := drop count free ++ take count free]> m) with
      (<[IOVQ := drop count free ++ take count free]> (<[h := []]>
        (<[IOVQ := drop count free]> (<[h := take count free]> m)))); [done|].
    apply map_eq. intros y. rewrite !lookup_insert. repeat case_decide; congruence.
Qed.

(** [w_free_iov] returns a vector that is in no queue to the front of the free
    list, and aborts on one that is followed by another. *)
Theorem w_free_iov_correct m w free i :
  eng_inv D m w → m !! IOVQ = Some free → unqueued D m i →
  match nexts (e_q w) !! i with
  | Some None => ∃ w', w_free_iov i w = Done (tt, w') ∧ eng_inv D (<[IOVQ := i :: free]> m) w'
  | _ => w_free_iov i w = Died
  end.
Proof.
  intros Hinv Hm Hu. destruct (unqueued_alloc D _ m (ei_q D m w Hinv) i Hu) as [n Hn]. rewrite Hn.
  unfold w_free_iov, mbind, M_bind. rewrite (liftq_next w i n Hn).
  destruct n as [n|].
  - by rewrite bool_decide_false.
  - rewrite bool_decide_true by done. cbn [ensure mret M_ret].
    destruct (liftq_op D m (<[IOVQ := i :: free]> m) w (OInsertHead IOVQ i) Hinv) as (q & E & Hinv');
      [by apply SInsertHead|rewrite lookup_insert_eq; eauto|].
    exists (set_iovs w q (e_bufs w)). split; [exact E|done].
Qed.
End Properties.

(** C27: The payload [buf, buf + len) of a fresh vector is inside its buffer exactly
    when offset, headers and length fit; [len] is not limited to the MTU. *)
Theorem w_alloc_iov_bounds (netmap : bool) (w : engine) (v : w_iov) af len off :
  af_ok af → is_u16 len → is_u16 off →
  let v' := fresh_iov netmap w v af len off in
  (v_base v' = v_base v ∧ fst (v_buf v') = fst (v_base v)) ∧
  (snd (v_base v) <= snd (v_buf v') ∧ snd (v_buf v') + v_len v' <= snd (v_base v) + max_buf_len netmap w ↔
   off + iov_off netmap af + len <= max_buf_len netmap w).
Proof.
  intros Haf Hl Ho v'. split; [done|].
  assert (0 <= iov_off netmap af < 100) as Hoff.
  { unfold iov_off. destruct netmap; [|lia]. by destruct Haf as [->| ->]. }
  assert (is_u16 (max_buf_len netmap w)) as Hmax by (unfold max_buf_len; destruct netmap; apply u16_range).
  unfold v', fresh_iov, alloc_fields, reinit. cbn [v_buf v_base v_len fst snd].
  rewrite (u16_id (iov_off netmap af)) by (unfold_u; lia).
  generalize dependent (max_buf_len netmap w). generalize dependent (iov_off netmap af). intros o Hoff mx Hmx.
  destruct (Z.eqb_spec len 0) as [->|]; [|unfold_u; lia].
  destruct (decide (off + o <= mx)).
  - rewrite u16_id by (unfold_u; lia). unfold_u. lia.
  - pose proof (u16_range (mx - (off + o))). unfold_u. lia.
Qed.

(** ** Witnesses *)

(** An engine with three free vectors and an empty queue 10. *)
Definition iov_ex (i : Z) : w_iov := WIov (WSockaddr (addr_ex4 0 0 0 0) 0) (i, 0) (i, 0) i 0 0 0 0.
Definition eng_ex : engine :=
  Engine ifconf_ex
    (QHeap {[0 := SqHead (Some 0) (LNext 2) 3; 10 := SqHead None (LHead 10) 0]}
           {[0 := Some 1; 1 := Some 2; 2 := None; 3 := None]})%nat
    {[0 := iov_ex 0; 1 := iov_ex 1; 2 := iov_ex 2; 3 := iov_ex 3]}%nat
    ∅ kh_init kh_init ∅ (Krng 1 2) false [] [] 0 [] [] (WAddr 0 (repeat 0 16), ETH_ADDR_NONE) [].
Definition eng_ex_m : queues := {[0 := [0; 1; 2]; 10 := []]}%nat.
Definition eng_ex_D : gset nat := {[0; 1; 2; 3]}%nat.

Lemma eng_ex_inv : eng_inv eng_ex_D eng_ex_m eng_ex.
Proof.
  split; [|by vm_compute|by eexists]. split.
  - by vm_compute.
  - intros h xs. unfold eng_ex_m. rewrite lookup_insert_Some, lookup_singleton_Some.
    intros [[<- <-]|[_ [<- <-]]]; split.
    + reflexivity.
    + cbn [chain]. split_and!; done.
    + by eapply bool_decide_unpack, Is_true_eq_left.
    + reflexivity.
    + done.
    + constructor.
  - intros h1 h2 xs ys e. unfold eng_ex_m. rewrite !lookup_insert_Some, !lookup_singleton_Some.
    intros [[<- <-]|[_ [<- <-]]] [[<- <-]|[_ [<- <-]]]; set_solver.
Qed.

Lemma w_alloc_len_correct_witness :
  ∃ w', w_alloc_len true 4 AF_INET 10 2000 0 0 eng_ex = Done (tt, w') ∧
    w_iov_sq_len 4 10 w' = Done (2000, w').
Proof.
  destruct (w_alloc_len_correct true eng_ex_D eng_ex_m eng_ex 10 [0; 1; 2]%nat [] AF_INET 2000 0 0 eng_ex_inv)
    as (w' & k & E & _ & H); [done|done|done|by left|done|done|].
  exists w'. split; [exact E|]. exact (H eq_refl).
Defined.

Lemma w_alloc_cnt_free_roundtrip_witness :
  ∃ w1 w2, w_alloc_cnt true 2 AF_INET6 10 100 20 eng_ex = Done (tt, w1) ∧
    w_iov_sq_cnt 10 w1 = Done (2, w1) ∧ w_free 10 w1 = Done (tt, w2).
Proof.
  destruct (w_alloc_cnt_free_roundtrip true eng_ex_D eng_ex_m eng_ex 10 [0; 1; 2]%nat AF_INET6 2 100 20 eng_ex_inv)
    as (w1 & w2 & E & H & _ & F & _); [done|done|done|by right|by vm_compute|].
  exists w1, w2. split; [exact E|]. split; [exact H|exact F].
Defined.

Lemma w_free_iov_correct_witness : ∃ w', w_free_iov 3 eng_ex = Done (tt, w').
Proof.
  pose proof (w_free_iov_correct eng_ex_D eng_ex_m eng_ex [0; 1; 2]%nat 3 eng_ex_inv eq_refl) as H.
  destruct H as (w' & E & _); [|exists w'; exact E].
  split; by eapply bool_decide_unpack, Is_true_eq_left.
Defined.

(** A length above the MTU runs over the buffer. *)
Lemma w_alloc_iov_bounds_witness :
  let v := fresh_iov true eng_ex (iov_ex 0) AF_INET 2000 0 in
  ¬ snd (v_buf v) + v_len v <= 1500.
Proof.
  intros v. intros H.
  destruct (w_alloc_iov_bounds true eng_ex (iov_ex 0) AF_INET 2000 0) as [_ [F _]];
    [by left|done|done|]. assert (0 <= snd (v_buf v)) by (by vm_compute).
  specialize (F (conj H0 H)). revert F. by vm_compute.
Defined.
