(* ===== verification/Netmap.v ===== *)
(** The transmit half of the netmap backend (lib/src/eth.c, lib/src/eth.h,
    lib/src/backend_netmap.c) on the engine of Engine.v: packet memory, placing a
    frame into a TX ring, and reclaiming transmitted buffers.

    The inline functions of netmap's user header and the two system calls the
    data path makes are parameters, with their documented behaviour as laws. *)

From S2P Require Import Prelude Util Krng Queue Wire Addr Khash Engine.

(** ** The netmap interface *)

(** The system calls take the calls made before, so that the same rings can meet different
    answers of the kernel. *)
Class Netmap := {
  nm_ring_next : netmap_ring → Z → Z;
  nm_ring_empty : netmap_ring → bool;
  nm_ring_space : netmap_ring → Z;
  ns_buf_changed : Z;
  ns_report : Z;
  (** [ioctl(fd, NIOCTXSYNC, 0)] on the TX rings; [None] is -1. *)
  nioctxsync : list nm_call → list netmap_ring → option (list netmap_ring);
  (** [poll] with a timeout, which synchronises the RX rings and fills their
      buffers; [None] is a timeout. *)
  nm_poll : list nm_call → Z → list netmap_ring → gmap Z bytes → option (list netmap_ring * gmap Z bytes)
}.

(** Going round a ring of [n] slots: the slot after [i], and the number of slots
    from [a] up to before [b]. *)
Definition ring_next (n i : Z) : Z := if i + 1 =? n then 0 else i + 1.
Definition ring_dist (n a b : Z) : Z := if a <=? b then b - a else b - a + n.

Record ring_wf (r : netmap_ring) : Prop := {
  rw_slots : nr_num_slots r = Z.of_nat (length (nr_slot r));
  rw_num : 0 < nr_num_slots r < 2 ^ 31;
  rw_head : nr_head r = nr_cur r;
  rw_cur : 0 <= nr_cur r < nr_num_slots r;
  rw_tail : 0 <= nr_tail r < nr_num_slots r
}.

(** What netmap documents: the kernel owns the slots from the tail to before the
    head of a TX ring, gives a number of them back by advancing the tail, and
    leaves the rest of the ring alone. *)
Record txsync_ring (r r' : netmap_ring) : Prop := {
  ts_tail : 0 <= nr_tail r' < nr_num_slots r;
  ts_advance : ring_dist (nr_num_slots r) (nr_tail r) (nr_tail r') +
               ring_dist (nr_num_slots r) (nr_cur r) (nr_tail r) < nr_num_slots r;
  ts_same : r' = NetmapRing (nr_ringid r) (nr_num_slots r) (nr_head r) (nr_cur r) (nr_tail r')
                   (nr_slot r)
}.

Class NetmapLaws `{!Netmap} := {
  nm_ring_next_law r i : ring_wf r → 0 <= i < nr_num_slots r →
    nm_ring_next r i = ring_next (nr_num_slots r) i;
  nm_ring_empty_law r : ring_wf r → nm_ring_empty r = (nr_cur r =? nr_tail r);
  nm_ring_space_law r : ring_wf r →
    nm_ring_space r = ring_dist (nr_num_slots r) (nr_cur r) (nr_tail r);
  nioctxsync_law n txr txr' : Forall ring_wf txr → nioctxsync n txr = Some txr' →
    Forall2 txsync_ring txr txr'
}.

(** A link that is up: every call transmits at least one frame of every ring that
    has any. *)
Class NetmapProgress `{!Netmap} : Prop := {
  tx_progress n txr : Forall ring_wf txr → ∃ txr', nioctxsync n txr = Some txr' ∧
    ∀ k r r', txr !! k = Some r → txr' !! k = Some r' →
      ring_next (nr_num_slots r) (nr_tail r) ≠ nr_cur r → nr_tail r' ≠ nr_tail r
}.

(** ** Packet memory *)

Definition padd (p : bufptr) (n : nat) : bufptr := (fst p, snd p + Z.of_nat n).

(** The [n] bytes at [p]; accesses outside of the buffer are a [Fault]. *)
Definition in_buf (b : bytes) (p : bufptr) (n : nat) : bool :=
  (0 <=? snd p) && (snd p + Z.of_nat n <=? Z.of_nat (length b)).
Definition ldm (p : bufptr) (n : nat) : M engine bytes := λ w,
  match e_mem w !! fst p with
  | Some b => if in_buf b p n then Done (ldn b (Z.to_nat (snd p)) n, w) else Fault
  | None => Fault
  end.
Definition stm (p : bufptr) (bs : bytes) : M engine unit := λ w,
  match e_mem w !! fst p with
  | Some b =>
      if in_buf b p (length bs)
      then Done (tt, set_mem w (<[fst p := stn b (Z.to_nat (snd p)) bs]> (e_mem w))) else Fault
  | None => Fault
  end.
Definition ldm8 (p : bufptr) : M engine Z := b ← ldm p 1; mret (le_val b).
Definition ldm16 (p : bufptr) : M engine Z := b ← ldm p 2; mret (le_val b).
Definition ldm32 (p : bufptr) : M engine Z := b ← ldm p 4; mret (le_val b).
Definition stm8 (p : bufptr) (v : Z) : M engine unit := stm p (le_bytes 1 v).
Definition stm16 (p : bufptr) (v : Z) : M engine unit := stm p (le_bytes 2 v).
Definition stm32 (p : bufptr) (v : Z) : M engine unit := stm p (le_bytes 4 v).
Definition memcpy (dst src : bufptr) (n : nat) : M engine unit := b ← ldm src n; stm dst b.

(** A checksum function applied at a pointer: it reads the buffer it points into. *)
Definition on_buf {A} (f : bytes → nat → outcome A) (p : bufptr) : M engine A := λ w,
  match e_mem w !! fst p with
  | Some b => if 0 <=? snd p then lift (f b (Z.to_nat (snd p))) w else Fault
  | None => Fault
  end.

(** Updates of one I/O vector. *)
Definition set_idx (v : w_iov) (idx : Z) : w_iov :=
  WIov (v_saddr v) (v_base v) (v_buf v) idx (v_len v) (v_flags v) (v_ttl v) (v_user_data v).
Definition set_saddr (v : w_iov) (sa : w_sockaddr) : w_iov :=
  WIov sa (v_base v) (v_buf v) (v_idx v) (v_len v) (v_flags v) (v_ttl v) (v_user_data v).

(** The TX rings. *)
Definition get_txr (i : Z) : M engine netmap_ring := w ← get; lift (rd (e_txr w) i).
Definition put_txr (i : Z) (r : netmap_ring) : M engine unit :=
  w ← get; txr ← lift (wr (e_txr w) i r);
  put (set_tx w txr (e_cur_txr w) (e_tail w) (e_slot_buf w)).
Definition set_slot (r : netmap_ring) (i : Z) (s : netmap_slot) : outcome netmap_ring :=
  slots ← wr (nr_slot r) i s;
  mret (NetmapRing (nr_ringid r) (nr_num_slots r) (nr_head r) (nr_cur r) (nr_tail r) slots).
Definition set_head_cur (r : netmap_ring) (i : Z) : netmap_ring :=
  NetmapRing (nr_ringid r) (nr_num_slots r) i i (nr_tail r) (nr_slot r).
Definition set_slot_buf (ring j : Z) (v : option nat) : M engine unit :=
  w ← get; row ← lift (rd (e_slot_buf w) ring); row ← lift (wr row j v);
  sb ← lift (wr (e_slot_buf w) ring row);
  put (set_tx w (e_txr w) (e_cur_txr w) (e_tail w) sb).
Definition ni_tx_rings (w : engine) : nat := length (e_txr w).

(** A system call is made; the calls before it. *)
Definition syscall (c : nm_call) : M engine (list nm_call) :=
  w ← get; put (set_calls w (c :: e_calls w)) ;; mret (e_calls w).

Section Tx.
Context `{!Netmap}.

(** ** [eth_tx] *)

(** The search for a TX ring with space; [false] after all rings were full. *)
Fixpoint find_txr (r : nat) : M engine bool :=
  match r with
  | O => mret false
  | S r =>
      w ← get;
      txr ← get_txr (e_cur_txr w);
      if negb (nm_ring_empty txr) then mret true
      else
        put (set_tx w (e_txr w) (u32 (e_cur_txr w + 1) mod Z.of_nat (ni_tx_rings w))
               (e_tail w) (e_slot_buf w)) ;;
        find_txr r
  end.

(** The exchange of the buffers of slot [s] and vector [i]. *)
Definition swap_slot (s : netmap_slot) (v : w_iov) (flags : Z) : netmap_slot * w_iov :=
  (NetmapSlot (v_idx v) (ns_len s) flags, set_idx v (ns_buf_idx s)).

Definition eth_tx (i : nat) : M engine bool :=
  w ← get;
  b ← find_txr (ni_tx_rings w);
  if negb b then mret false else
  w ← get;
  let cur_txr := e_cur_txr w in
  txr ← get_txr cur_txr;
  s ← lift (rd (nr_slot txr) (nr_cur txr));
  set_slot_buf (nr_ringid txr) (nr_cur txr) (Some i) ;;
  v ← get_iov i;
  let s := NetmapSlot (ns_buf_idx s) (u16 (v_len v + Z.of_nat Eth.size)) (ns_flags s) in
  s ← (if e_pipe w then
         memcpy (ns_buf_idx s, 0) (v_base v) (Z.to_nat (ns_len s)) ;; mret s
       else
         n ← liftq (sq_next i);
         let last := (nm_ring_space txr =? 1) || bool_decide (n = None) in
         let '(s, v) := swap_slot s v
           (if last then Z.lor ns_buf_changed ns_report else ns_buf_changed) in
         put_iov i v ;; mret s);
  txr ← lift (set_slot txr (nr_cur txr) s);
  put_txr cur_txr (set_head_cur txr (nm_ring_next txr (nr_cur txr))) ;;
  mret true.

(** ** [w_nic_tx] *)

(** The loop over the slots [j] of TX ring [ring] that were transmitted. *)
Fixpoint reclaim (fuel : nat) (ring j : Z) : M engine unit :=
  match fuel with
  | O => no_fuel
  | S fuel =>
      r ← get_txr ring;
      if j =? nm_ring_next r (nr_tail r) then mret tt
      else
        s ← lift (rd (nr_slot r) j);
        w ← get;
        row ← lift (rd (e_slot_buf w) (nr_ringid r));
        o ← lift (rd row j);
        match o with
        | None => fault
        | Some i =>
            v ← get_iov i;
            let '(s, v) := swap_slot s v ns_buf_changed in
            r ← lift (set_slot r j s); put_txr ring r ;;
            put_iov i v ;;
            set_slot_buf ring j None ;;
            reclaim fuel ring (nm_ring_next r j)
        end
  end.

(** The loop over the TX rings, starting from [ring]. *)
Fixpoint reclaim_rings (n : nat) (ring : Z) : M engine unit :=
  match n with
  | O => mret tt
  | S n =>
      w ← get; r ← get_txr ring; tail ← lift (rd (e_tail w) ring);
      reclaim (S (Z.to_nat (nr_num_slots r))) ring (nm_ring_next r tail) ;;
      w ← get; r ← get_txr ring;
      tails ← lift (wr (e_tail w) ring (nr_tail r));
      put (set_tx w (e_txr w) (e_cur_txr w) tails (e_slot_buf w)) ;;
      reclaim_rings n (ring + 1)
  end.

Definition w_nic_tx : M engine unit :=
  w ← get;
  t ← syscall (KTxSync (e_txr w) (e_mem w));
  w ← get;
  match nioctxsync t (e_txr w) with
  | None => die
  | Some txr =>
      put (set_tx w txr (e_cur_txr w) (e_tail w) (e_slot_buf w)) ;;
      if e_pipe w then mret tt
      else w ← get; reclaim_rings (ni_tx_rings w) 0
  end.

(** ** [eth_tx_and_free] *)

(** The [do ... while (v->idx != orig_idx)] loop; the sleep has no effect on the
    engine. *)
Fixpoint wait_tx (fuel : nat) (i : nat) (orig_idx : Z) : M engine unit :=
  match fuel with
  | O => no_fuel
  | S fuel =>
      w_nic_tx ;;
      v ← get_iov i;
      if v_idx v =? orig_idx then mret tt else wait_tx fuel i orig_idx
  end.

Definition eth_tx_and_free (fuel : nat) (i : nat) : M engine unit :=
  v ← get_iov i;
  eth_tx i ;;
  wait_tx fuel i (v_idx v) ;;
  liftq (sq_insert_head IOVQ i).
End Tx.

(** * Theorems *)

(** ** The TX rings *)

Definition slot_at (w : engine) (k j : nat) : option netmap_slot :=
  r ← e_txr w !! k; nr_slot r !! j.
Definition slot_iov (w : engine) (k j : nat) : option nat :=
  row ← e_slot_buf w !! k; mjoin (row !! j).

(** Slot [j] of a ring waits for transmission, the oldest such slot being [st]. *)
Definition waits (r : netmap_ring) (st : Z) (j : nat) : Prop :=
  (j < length (nr_slot r))%nat ∧
  ring_dist (nr_num_slots r) st (Z.of_nat j) < ring_dist (nr_num_slots r) st (nr_cur r).
Definition pending (st : list Z) (w : engine) (k j : nat) : Prop :=
  ∃ r s, e_txr w !! k = Some r ∧ st !! k = Some s ∧ waits r s j.

(** Every vector and every slot has a buffer of its own.  While a vector waits in
    a slot the two have exchanged their buffers, otherwise both have their own.
    [st] are the oldest waiting slots of the rings. *)
Record homes := Homes { h_iov : nat → Z; h_slot : nat → nat → Z }.
Record tx_core (home : homes) (st : list Z) (w : engine) : Prop := {
  tc_len : length st = length (e_txr w) ∧ length (e_slot_buf w) = length (e_txr w);
  tc_ring : ∀ k r, e_txr w !! k = Some r → ring_wf r ∧ nr_ringid r = Z.of_nat k;
  tc_row : ∀ k r row, e_txr w !! k = Some r → e_slot_buf w !! k = Some row →
    length row = length (nr_slot r);
  tc_st : ∀ k r s, e_txr w !! k = Some r → st !! k = Some s → 0 <= s < nr_num_slots r;
  tc_pending : ∀ k j, pending st w k j → ∃ i s, slot_iov w k j = Some i ∧ i ∈ dom (e_bufs w) ∧
    slot_at w k j = Some s ∧ ns_buf_idx s = h_iov home i;
  tc_inj : ∀ k j k' j' i, pending st w k j → pending st w k' j' → slot_iov w k j = Some i →
    slot_iov w k' j' = Some i → k = k' ∧ j = j';
  tc_home : ∀ i v, e_bufs w !! i = Some v →
    (∀ k j, pending st w k j → slot_iov w k j ≠ Some i) → v_idx v = h_iov home i;
  tc_swap : ∀ k j i v, pending st w k j → slot_iov w k j = Some i → e_bufs w !! i = Some v →
    v_idx v = h_slot home k j;
  tc_slot : ∀ k j s, slot_at w k j = Some s → ¬ pending st w k j → ns_buf_idx s = h_slot home k j
}.

Definition starts (txr : list netmap_ring) : list Z :=
  (λ r, ring_next (nr_num_slots r) (nr_tail r)) <$> txr.

(** The state between operations: the oldest waiting slots are those after the
    remembered tails, which are the tails of the rings. *)
Record tx_inv (home : homes) (w : engine) : Prop := {
  tx_cur : 0 <= e_cur_txr w < Z.of_nat (length (e_txr w));
  tx_rings : Z.of_nat (length (e_txr w)) < 2 ^ 32;
  tx_tail : e_tail w = nr_tail <$> e_txr w;
  tx_distinct : ∀ i k j, i ∈ dom (e_bufs w) → is_Some (slot_at w k j) → h_iov home i ≠ h_slot home k j;
  tx_core_inv : tx_core home (starts (e_txr w)) w
}.

Ltac ring_lia := unfold ring_dist, ring_next in *;
  repeat match goal with
  | H : context [?a <=? ?b] |- _ => destruct (Z.leb_spec a b)
  | |- context [?a <=? ?b] => destruct (Z.leb_spec a b)
  | H : context [?a =? ?b] |- _ => destruct (Z.eqb_spec a b)
  | |- context [?a =? ?b] => destruct (Z.eqb_spec a b)
  end; lia.

Lemma ring_dist_range n a b : 0 <= a < n → 0 <= b < n → 0 <= ring_dist n a b < n.
Proof. intros. ring_lia. Qed.
Lemma ring_dist_next_l n a b :
  0 <= a < n → 0 <= b < n → a ≠ b → ring_dist n (ring_next n a) b = ring_dist n a b - 1.
Proof. intros. ring_lia. Qed.
Lemma ring_dist_next_r n a b :
  0 <= a < n → 0 <= b < n → ring_next n b ≠ a → ring_dist n a (ring_next n b) = ring_dist n a b + 1.
Proof. intros. ring_lia. Qed.
Lemma ring_dist_next n a b :
  0 <= a < n → 0 <= b < n → ring_dist n (ring_next n a) (ring_next n b) = ring_dist n a b.
Proof. intros. ring_lia. Qed.
Lemma ring_dist_self n a : ring_dist n a a = 0.
Proof. ring_lia. Qed.
Lemma ring_next_range n a : 0 <= a < n → 0 <= ring_next n a < n.
Proof. intros. ring_lia. Qed.

(** *** One slot updated *)

(** Slot [j] of ring [k] becomes [s] with vector [o], and the ring's position [c]. *)
Definition upd_ring (r : netmap_ring) (j : nat) (s : netmap_slot) (c : Z) : netmap_ring :=
  NetmapRing (nr_ringid r) (nr_num_slots r) c c (nr_tail r) (<[j := s]> (nr_slot r)).
Definition put_slot (w : engine) (k j : nat) (s : netmap_slot) (o : option nat) (c : Z)
    (i : nat) (v : w_iov) : engine :=
  set_tx (set_iovs w (e_q w) (<[i := v]> (e_bufs w)))
    (alter (λ r, upd_ring r j s c) k (e_txr w)) (e_cur_txr w) (e_tail w)
    (alter (λ row, <[j := o]> row) k (e_slot_buf w)).

Section PutSlot.
Context (w : engine) (k j : nat) (s : netmap_slot) (o : option nat) (c : Z) (i : nat) (v : w_iov).
Context (r : netmap_ring) (row : list (option nat)).
Hypothesis Hr : e_txr w !! k = Some r.
Hypothesis Hrow : e_slot_buf w !! k = Some row.
Hypothesis Hj : (j < length (nr_slot r))%nat.
Hypothesis Hlen : length row = length (nr_slot r).

Lemma put_slot_ring k' r' :
  e_txr (put_slot w k j s o c i v) !! k' = Some r' →
  ∃ r0, e_txr w !! k' = Some r0 ∧ r' = if decide (k' = k) then upd_ring r0 j s c else r0.
Proof.
  cbn. destruct (decide (k' = k)) as [->|Hne].
  - rewrite list_lookup_alter_eq, Hr. cbn. intros H. exists r. split; [done|]. cbn in H. congruence.
  - rewrite list_lookup_alter_ne by done. eauto.
Qed.

Lemma put_slot_slot_iov k' j' :
  slot_iov (put_slot w k j s o c i v) k' j' =
    if decide (k' = k ∧ j' = j) then o else slot_iov w k' j'.
Proof.
  unfold slot_iov. cbn. destruct (decide (k' = k)) as [->|Hne].
  - rewrite list_lookup_alter_eq, Hrow. cbn. destruct (decide (j' = j)) as [->|].
    + rewrite decide_True by done. rewrite list_lookup_insert_eq by lia. done.
    + rewrite decide_False by naive_solver. by rewrite list_lookup_insert_ne.
  - rewrite list_lookup_alter_ne, decide_False by naive_solver. done.
Qed.

Lemma put_slot_slot_at k' j' :
  slot_at (put_slot w k j s o c i v) k' j' =
    if decide (k' = k ∧ j' = j) then Some s else slot_at w k' j'.
Proof.
  unfold slot_at. cbn. destruct (decide (k' = k)) as [->|Hne].
  - rewrite list_lookup_alter_eq, Hr. cbn. destruct (decide (j' = j)) as [->|].
    + rewrite decide_True by done. rewrite list_lookup_insert_eq by lia. done.
    + rewrite decide_False by naive_solver. by rewrite list_lookup_insert_ne.
  - rewrite list_lookup_alter_ne, decide_False by naive_solver. done.
Qed.

Lemma put_slot_pending st k' j' :
  pending st (put_slot w k j s o c i v) k' j' ↔
    if decide (k' = k)
    then ∃ s0, st !! k = Some s0 ∧ waits (upd_ring r j s c) s0 j'
    else pending st w k' j'.
Proof.
  unfold pending. cbn. destruct (decide (k' = k)) as [->|Hne].
  - rewrite list_lookup_alter_eq, Hr. cbn. naive_solver.
  - by rewrite list_lookup_alter_ne.
Qed.

Lemma put_slot_ring_wf : ring_wf r → 0 <= c < nr_num_slots r → ring_wf (upd_ring r j s c).
Proof. intros [H1 H2 H3 H4 H5] Hc. split; cbn; try done. by rewrite length_insert. Qed.

(** The parts of the invariant that only depend on the shape of the rings. *)
Lemma put_slot_shape home st st' :
  tx_core home st w → 0 <= c < nr_num_slots r → length st' = length st →
  (∀ k' s', st' !! k' = Some s' → ∃ s0 r0, st !! k' = Some s0 ∧ e_txr w !! k' = Some r0 ∧
     (0 <= s0 < nr_num_slots r0 → 0 <= s' < nr_num_slots r0)) →
  let w' := put_slot w k j s o c i v in
  (length st' = length (e_txr w') ∧ length (e_slot_buf w') = length (e_txr w')) ∧
  (∀ k r, e_txr w' !! k = Some r → ring_wf r ∧ nr_ringid r = Z.of_nat k) ∧
  (∀ k r row, e_txr w' !! k = Some r → e_slot_buf w' !! k = Some row →
     length row = length (nr_slot r)) ∧
  (∀ k r s, e_txr w' !! k = Some r → st' !! k = Some s → 0 <= s < nr_num_slots r).
Proof.
  intros [[L1 L2] Hring Hrow' Hst _ _ _ _ _] Hc Hl Hst' w'. split_and!.
  - cbn. rewrite length_alter. congruence.
  - cbn. by rewrite !length_alter.
  - intros k' r' (r0 & Hr0 & ->)%put_slot_ring. destruct (Hring k' r0 Hr0) as [Hwf Hid].
    case_decide as Hk; [|done]. subst k'. assert (r0 = r) as -> by congruence.
    split; [by apply put_slot_ring_wf|done].
  - intros k' r' row' (r0 & Hr0 & ->)%put_slot_ring. cbn. case_decide as Hk.
    + subst k'. rewrite list_lookup_alter_eq, Hrow. cbn. intros [= <-]. rewrite !length_insert.
      by assert (r0 = r) as -> by congruence.
    + rewrite list_lookup_alter_ne by done. by apply Hrow'.
  - intros k' r' s' (r0 & Hr0 & ->)%put_slot_ring Hs. destruct (Hst' k' s' Hs) as (s0 & r1 & H1 & H2 & H3).
    assert (r1 = r0) as -> by congruence. specialize (H3 (Hst k' r0 s0 Hr0 H1)).
    by case_decide.
Qed.
End PutSlot.

(** A waiting slot [j], the oldest of ring [k], is reclaimed. *)
Lemma tx_core_remove home st w k r row s0 i v sl fl :
  tx_core home st w → e_txr w !! k = Some r → e_slot_buf w !! k = Some row →
  st !! k = Some s0 → s0 ≠ nr_cur r →
  nr_slot r !! Z.to_nat s0 = Some sl → row !! Z.to_nat s0 = Some (Some i) → e_bufs w !! i = Some v →
  let j := Z.to_nat s0 in
  let w' := put_slot w k j (NetmapSlot (v_idx v) (ns_len sl) fl) None (nr_cur r) i
              (set_idx v (ns_buf_idx sl)) in
  let st' := <[k := ring_next (nr_num_slots r) s0]> st in
  tx_core home st' w' ∧
  ∀ k' j', pending st' w' k' j' ↔ pending st w k' j' ∧ ¬ (k' = k ∧ j' = j).
Proof.
  intros Hc Hr Hrow Hs Hne Hsl Hi Hv j w' st'.
  destruct (tc_ring _ _ _ Hc k r Hr) as [Hwf Hid].
  pose proof (tc_st _ _ _ Hc k r s0 Hr Hs) as Hs0.
  pose proof (tc_row _ _ _ Hc k r row Hr Hrow) as Hlen.
  assert (Hj : (j < length (nr_slot r))%nat) by (by eapply lookup_lt_Some).
  assert (Hkl : (k < length st)%nat) by (by eapply lookup_lt_Some).
  destruct Hwf as [W1 W2 W3 W4 W5].
  assert (Hp0 : pending st w k j).
  { exists r, s0. split_and!; [done|done|]. split; [done|]. unfold j. rewrite Z2Nat.id by lia.
    rewrite ring_dist_self. ring_lia. }
  assert (Hiff : ∀ k' j', pending st' w' k' j' ↔ pending st w k' j' ∧ ¬ (k' = k ∧ j' = j)).
  { intros k' j'. unfold w'. rewrite (put_slot_pending w k j _ _ _ i _ r Hr).
    case_decide as Hk.
    - subst k'. unfold st', pending. rewrite list_lookup_insert_eq by done. rewrite Hr, Hs. split.
      + intros (s1 & [= <-] & Hw1 & Hw2). cbn in Hw1, Hw2. rewrite length_insert in Hw1.
        assert (j' ≠ j) as Hjj by (intros ->; unfold j in Hw2; rewrite Z2Nat.id in Hw2 by lia; ring_lia).
        split; [|naive_solver]. exists r, s0. split_and!; [done|done|split; [done|]].
        assert (Z.of_nat j' ≠ s0) by (unfold j in Hjj; lia). ring_lia.
      + intros [(r1 & s1 & [= <-] & [= <-] & Hw1 & Hw2) Hjj]. eexists. split; [done|].
        split; cbn; [by rewrite length_insert|].
        assert (Z.of_nat j' ≠ s0) by (intros <-; apply Hjj; split; [done|unfold j; lia]). ring_lia.
    - unfold st', pending. rewrite list_lookup_insert_ne by done. naive_solver. }
  split; [|done].
  destruct (put_slot_shape w k j (NetmapSlot (v_idx v) (ns_len sl) fl) None (nr_cur r) i
    (set_idx v (ns_buf_idx sl)) r row Hr Hrow Hlen home st st' Hc) as (L & R & Rw & S).
  { done. }
  { unfold st'. by rewrite length_insert. }
  { intros k' s'. unfold st'. rewrite list_lookup_insert_Some.
    intros [(<- & <- & _)|[Hk Hs']]; [exists s0, r; split_and!; [done..|intros; by apply ring_next_range]|].
    destruct (lookup_lt_is_Some_2 (e_txr w) k') as [r0 Hr0].
    { rewrite <- (proj1 (tc_len _ _ _ Hc)). by eapply lookup_lt_Some. }
    exists s', r0. split_and!; [done..|auto]. }
  assert (Hsi : slot_iov w k j = Some i) by (unfold slot_iov; rewrite Hrow; cbn; unfold j; by rewrite Hi).
  assert (Hsa : slot_at w k j = Some sl) by (unfold slot_at; rewrite Hr; done).
  split; try done; unfold w'.
  - intros k' j' [Hp Hn]%Hiff. destruct (tc_pending _ _ _ Hc k' j' Hp) as (i' & s' & E1 & E2 & E3 & E4).
    exists i', s'. rewrite (put_slot_slot_iov w k j _ _ _ i _ r row Hrow Hj Hlen).
    rewrite (put_slot_slot_at w k j _ _ _ i _ r row Hr Hj Hlen). rewrite !decide_False by done.
    split_and!; try done. cbn. rewrite dom_insert_L. set_solver.
  - intros k1 j1 k2 j2 i' [Hp1 Hn1]%Hiff [Hp2 Hn2]%Hiff.
    rewrite !(put_slot_slot_iov w k j _ _ _ i _ r row Hrow Hj Hlen), !decide_False by done.
    by apply (tc_inj _ _ _ Hc).
  - intros i' v' Hv' Hnp. cbn in Hv'. rewrite lookup_insert_Some in Hv'.
    destruct Hv' as [[<- <-]|[Hii Hv']].
    + cbn. destruct (tc_pending _ _ _ Hc k j Hp0) as (i' & s' & E1 & E2 & E3 & E4). congruence.
    + apply (tc_home _ _ _ Hc i' v' Hv'). intros k' j' Hp Hsi'.
      destruct (decide (k' = k ∧ j' = j)) as [[-> ->]|Hn]; [congruence|].
      apply (Hnp k' j'); [by apply Hiff|].
      by rewrite (put_slot_slot_iov w k j _ _ _ i _ r row Hrow Hj Hlen), decide_False.
  - intros k' j' i' v' [Hp Hn]%Hiff. rewrite (put_slot_slot_iov w k j _ _ _ i _ r row Hrow Hj Hlen).
    rewrite decide_False by done. intros Hsi' Hv'. cbn in Hv'.
    rewrite lookup_insert_ne in Hv' by (intros <-; by apply Hn, (tc_inj _ _ _ Hc k' j' k j i)).
    by apply (tc_swap _ _ _ Hc k' j' i').
  - intros k' j' s'. rewrite (put_slot_slot_at w k j _ _ _ i _ r row Hr Hj Hlen).
    case_decide as Hkj; [|intros Hs' Hn; apply (tc_slot _ _ _ Hc k' j' s' Hs'); intros Hp; by apply Hn, Hiff].
    destruct Hkj as [-> ->]. intros [= <-] _. cbn. by apply (tc_swap _ _ _ Hc k j i).
Qed.

(** Vector [i] is placed at the current slot of a ring [k] that is not full. *)
Lemma tx_core_add home st w k r row s0 i v sl len fl :
  tx_core home st w → e_txr w !! k = Some r → e_slot_buf w !! k = Some row →
  st !! k = Some s0 → s0 ≠ ring_next (nr_num_slots r) (nr_cur r) →
  nr_slot r !! Z.to_nat (nr_cur r) = Some sl → e_bufs w !! i = Some v →
  (∀ k j, pending st w k j → slot_iov w k j ≠ Some i) →
  let j := Z.to_nat (nr_cur r) in
  let w' := put_slot w k j (NetmapSlot (v_idx v) len fl) (Some i)
              (ring_next (nr_num_slots r) (nr_cur r)) i (set_idx v (ns_buf_idx sl)) in
  tx_core home st w' ∧
  (∀ k' j', pending st w' k' j' ↔ pending st w k' j' ∨ (k' = k ∧ j' = j)).
Proof.
  intros Hc Hr Hrow Hs Hne Hsl Hv Hnp j w'.
  destruct (tc_ring _ _ _ Hc k r Hr) as [[W1 W2 W3 W4 W5] Hid].
  pose proof (tc_st _ _ _ Hc k r s0 Hr Hs) as Hs0.
  pose proof (tc_row _ _ _ Hc k r row Hr Hrow) as Hlen.
  assert (Hj : (j < length (nr_slot r))%nat) by (by eapply lookup_lt_Some).
  assert (Hnj : ¬ pending st w k j).
  { intros (r1 & s1 & Hr1 & Hs1 & _ & Hw). assert (r1 = r) as -> by congruence.
    assert (s1 = s0) as -> by congruence. unfold j in Hw. rewrite Z2Nat.id in Hw by lia. lia. }
  assert (Hiff : ∀ k' j', pending st w' k' j' ↔ pending st w k' j' ∨ (k' = k ∧ j' = j)).
  { intros k' j'. unfold w'. rewrite (put_slot_pending w k j _ _ _ i _ r Hr).
    case_decide as Hk; [|naive_solver]. subst k'. unfold pending, waits. rewrite Hr, Hs. cbn.
    rewrite length_insert. split.
    - intros (s1 & [= <-] & Hw1 & Hw2). destruct (decide (j' = j)); [by right|left].
      exists r, s0. split_and!; [done..|]. assert (Z.of_nat j' ≠ nr_cur r) by (unfold j in *; lia).
      ring_lia.
    - intros [(r1 & s1 & [= <-] & [= <-] & Hw1 & Hw2)|[_ ->]]; exists s0; split_and!; try done.
      + ring_lia.
      + unfold j. rewrite Z2Nat.id by lia. ring_lia. }
  split; [|done].
  destruct (put_slot_shape w k j (NetmapSlot (v_idx v) len fl) (Some i)
    (ring_next (nr_num_slots r) (nr_cur r)) i (set_idx v (ns_buf_idx sl)) r row Hr Hrow Hlen home st st Hc)
    as (L & R & Rw & S); [by apply ring_next_range|done| |].
  { intros k' s' Hs'. destruct (lookup_lt_is_Some_2 (e_txr w) k') as [r0 Hr0]; [|eauto].
    rewrite <- (proj1 (tc_len _ _ _ Hc)). by eapply lookup_lt_Some. }
  assert (Hother : ∀ k' j', pending st w k' j' → ¬ (k' = k ∧ j' = j)) by (by intros ? ? Hp [-> ->]).
  split; try done; unfold w'.
  - intros k' j' Hp. rewrite (put_slot_slot_iov w k j _ _ _ i _ r row Hrow Hj Hlen).
    rewrite (put_slot_slot_at w k j _ _ _ i _ r row Hr Hj Hlen). apply Hiff in Hp as [Hp|Hkj].
    + rewrite !decide_False by auto. destruct (tc_pending _ _ _ Hc k' j' Hp) as (i' & s' & ? & ? & ? & ?).
      exists i', s'. split_and!; try done. cbn. rewrite dom_insert_L. set_solver.
    + rewrite !decide_True by done. eexists _, _. split_and!; [done| |done|].
      * cbn. rewrite dom_insert_L. set_solver.
      * cbn. by apply (tc_home _ _ _ Hc).
  - intros k1 j1 k2 j2 i' Hp1 Hp2. rewrite !(put_slot_slot_iov w k j _ _ _ i _ r row Hrow Hj Hlen).
    apply Hiff in Hp1 as [Hp1|H1], Hp2 as [Hp2|H2].
    + rewrite !decide_False by auto. by apply (tc_inj _ _ _ Hc).
    + rewrite decide_False, decide_True by auto. intros E1 [= <-]. by apply Hnp in E1.
    + rewrite decide_True, decide_False by auto. intros [= <-] E2. by apply Hnp in E2.
    + naive_solver.
  - intros i' v' Hv' Hn. cbn in Hv'. rewrite lookup_insert_Some in Hv'.
    destruct Hv' as [[<- <-]|[Hii Hv']].
    + exfalso. apply (Hn k j); [by apply Hiff; right|].
      by rewrite (put_slot_slot_iov w k j _ _ _ i _ r row Hrow Hj Hlen), decide_True.
    + apply (tc_home _ _ _ Hc i' v' Hv'). intros k' j' Hp Hsi.
      apply (Hn k' j'); [by apply Hiff; left|].
      rewrite (put_slot_slot_iov w k j _ _ _ i _ r row Hrow Hj Hlen), decide_False; auto.
  - intros k' j' i' v' Hp. rewrite (put_slot_slot_iov w k j _ _ _ i _ r row Hrow Hj Hlen). cbn.
    apply Hiff in Hp as [Hp|[-> ->]].
    + rewrite decide_False by auto. intros Hsi Hv'.
      rewrite lookup_insert_ne in Hv' by (intros <-; by apply (Hnp k' j')).
      by apply (tc_swap _ _ _ Hc k' j' i').
    + rewrite decide_True by done. intros [= <-]. rewrite lookup_insert_eq. intros [= <-]. cbn.
      apply (tc_slot _ _ _ Hc k j sl); [|done]. unfold slot_at. by rewrite Hr.
  - intros k' j' s'. rewrite (put_slot_slot_at w k j _ _ _ i _ r row Hr Hj Hlen).
    case_decide as Hkj; intros Hs' Hn; [exfalso; apply Hn, Hiff; by right|].
    apply (tc_slot _ _ _ Hc k' j' s' Hs'). intros Hp. apply Hn, Hiff. by left.
Qed.

(** *** Reclaiming *)

(** What transmission leaves alone: the shape of the rings, and everything but
    the buffer of the vectors. *)
Definition ring_shape (r : netmap_ring) : Z * Z * Z * Z * Z * nat :=
  (nr_ringid r, nr_num_slots r, nr_head r, nr_cur r, nr_tail r, length (nr_slot r)).
Definition no_idx (v : w_iov) : w_iov := set_idx v 0.
Record tx_frame (w w' : engine) : Prop := {
  tf_rest : ∃ bufs txr sb,
    w' = set_tx (set_iovs w (e_q w) bufs) txr (e_cur_txr w) (e_tail w) sb;
  tf_bufs : no_idx <$> e_bufs w' = no_idx <$> e_bufs w;
  tf_rings : ring_shape <$> e_txr w' = ring_shape <$> e_txr w
}.

Lemma set_tx_id w : set_tx w (e_txr w) (e_cur_txr w) (e_tail w) (e_slot_buf w) = w.
Proof. by destruct w. Qed.

Lemma tx_frame_refl w : tx_frame w w.
Proof.
  split; [|done|done]. exists (e_bufs w), (e_txr w), (e_slot_buf w).
  by rewrite set_iovs_id, set_tx_id.
Qed.
Lemma tx_frame_trans w1 w2 w3 : tx_frame w1 w2 → tx_frame w2 w3 → tx_frame w1 w3.
Proof.
  intros [(b & t & s & ->) Hb Hr] [(b' & t' & s' & ->) Hb' Hr'].
  split; [by exists b', t', s'|congruence|congruence].
Qed.
#[export] Instance tx_frame_preorder : PreOrder tx_frame.
Proof. split; [exact tx_frame_refl|exact tx_frame_trans]. Qed.

Lemma tx_frame_ring w w' k r :
  tx_frame w w' → e_txr w !! k = Some r →
  ∃ r', e_txr w' !! k = Some r' ∧ ring_shape r' = ring_shape r.
Proof.
  intros Hf Hr. pose proof (tf_rings _ _ Hf) as H. apply (f_equal (.!! k)) in H.
  rewrite !list_lookup_fmap, Hr in H. destruct (e_txr w' !! k) as [r'|]; [|done].
  exists r'. split; [done|]. cbn in H. congruence.
Qed.

Lemma put_slot_frame w k j s o r i v v' :
  e_txr w !! k = Some r → nr_head r = nr_cur r → e_bufs w !! i = Some v → no_idx v' = no_idx v →
  tx_frame w (put_slot w k j s o (nr_cur r) i v').
Proof.
  intros Hr Hh Hv Hvv. split; [by eexists _, _, _; reflexivity| |]; cbn.
  - rewrite fmap_insert, Hvv. apply insert_id. by rewrite lookup_fmap, Hv.
  - apply list_eq. intros k'. rewrite !list_lookup_fmap. destruct (decide (k' = k)) as [->|].
    + rewrite list_lookup_alter_eq, Hr. cbn. unfold ring_shape, upd_ring. cbn.
      by rewrite length_insert, Hh.
    + by rewrite list_lookup_alter_ne.
Qed.

(** The invariant and the waiting slots do not depend on the rest of the state. *)
Lemma tx_core_ext home st w w' :
  e_txr w' = e_txr w → e_slot_buf w' = e_slot_buf w → e_bufs w' = e_bufs w →
  tx_core home st w → tx_core home st w'.
Proof.
  intros E1 E2 E3 [C1 C2 C3 C4 C5 C6 C7 C8 C9]. unfold pending, slot_iov, slot_at in *.
  split; unfold pending, slot_iov, slot_at; rewrite ?E1, ?E2, ?E3; assumption.
Qed.

Lemma tx_distinct_frame home w w' :
  no_idx <$> e_bufs w' = no_idx <$> e_bufs w → ring_shape <$> e_txr w' = ring_shape <$> e_txr w →
  (∀ i k j, i ∈ dom (e_bufs w) → is_Some (slot_at w k j) → h_iov home i ≠ h_slot home k j) →
  ∀ i k j, i ∈ dom (e_bufs w') → is_Some (slot_at w' k j) → h_iov home i ≠ h_slot home k j.
Proof.
  intros Hb Hr Hd i k j Hi Hk. apply Hd.
  - rewrite <- (dom_fmap_L no_idx), <- Hb. by rewrite dom_fmap_L.
  - unfold slot_at in *. apply (f_equal (.!! k)) in Hr. rewrite !list_lookup_fmap in Hr.
    destruct (e_txr w' !! k) as [r'|]; [|by destruct Hk]. destruct (e_txr w !! k) as [r|]; [|done].
    unfold ring_shape in Hr. cbn in *. apply lookup_lt_is_Some. apply lookup_lt_is_Some in Hk. congruence.
Qed.

(** The system calls of [w'] are those of [w] and later ones. *)
Definition calls_after (w w' : engine) : Prop := ∃ new, e_calls w' = new ++ e_calls w.
#[export] Instance calls_after_preorder : PreOrder calls_after.
Proof.
  split; [by exists []|]. intros w1 w2 w3 [n1 E1] [n2 E2]. exists (n2 ++ n1). by rewrite E2, E1, (assoc_L (++)).
Qed.

(** Transmission changes nothing but the rings, the exchanged buffers and the
    system calls made. *)
Record tx_only (w w' : engine) : Prop := {
  to_rest : ∃ bufs txr cur tail sb t,
    w' = set_tx (set_iovs (set_calls w t) (e_q w) bufs) txr cur tail sb;
  to_bufs : no_idx <$> e_bufs w' = no_idx <$> e_bufs w;
  to_slots : nr_num_slots <$> e_txr w' = nr_num_slots <$> e_txr w;
  to_calls : calls_after w w'
}.

#[export] Instance tx_only_preorder : PreOrder tx_only.
Proof.
  split.
  - intros w. split; [|done|done|done]. exists (e_bufs w), (e_txr w), (e_cur_txr w), (e_tail w), (e_slot_buf w), (e_calls w).
    by destruct w.
  - intros w1 w2 w3 [(b & tx & c & tl & sb & t & E) Hb Hr Hk] [(b' & tx' & c' & tl' & sb' & t' & E') Hb' Hr' Hk'].
    split; [subst; by exists b', tx', c', tl', sb', t'|congruence|congruence|by transitivity w2].
Qed.

Lemma tx_only_dom w w' : tx_only w w' → dom (e_bufs w') = dom (e_bufs w).
Proof. intros [_ Hb _]. by rewrite <- (dom_fmap_L no_idx), Hb, dom_fmap_L. Qed.

Lemma tx_only_eng_inv D m w w' : tx_only w w' → eng_inv D m w → eng_inv D m w'.
Proof.
  intros Ht [Hq Hb Hi]. pose proof (tx_only_dom _ _ Ht) as Hd. destruct Ht as [(b & tx & c & tl & sb & t & ->) _ _].
  split; [done| |done]. by rewrite Hd.
Qed.

Section TxProofs.
Context `{NetmapLaws}.

Lemma alter_insert_list {A} (f : A → A) (k : nat) (l : list A) (a : A) : l !! k = Some a → alter f k l = <[k := f a]> l.
Proof.
  intros E. apply list_eq. intros k'. destruct (decide (k' = k)) as [->|].
  - rewrite list_lookup_alter_eq, E, list_lookup_insert_eq; [done|]. by eapply lookup_lt_Some.
  - by rewrite list_lookup_alter_ne, list_lookup_insert_ne.
Qed.

Lemma get_txr_run w k r : e_txr w !! k = Some r → get_txr (Z.of_nat k) w = Done (r, w).
Proof. intros E. unfold get_txr. mstep. by apply lift_run, rd_Some. Qed.
Lemma get_txr_Z w i r : 0 <= i → e_txr w !! Z.to_nat i = Some r → get_txr i w = Done (r, w).
Proof. intros Hi E. unfold get_txr. mstep. by apply lift_run, rd_Z. Qed.
Lemma put_txr_run w k r r' :
  e_txr w !! k = Some r →
  put_txr (Z.of_nat k) r' w =
    Done (tt, set_tx w (<[k := r']> (e_txr w)) (e_cur_txr w) (e_tail w) (e_slot_buf w)).
Proof. intros E%lookup_lt_Some. unfold put_txr. mstep. by mstep. Qed.
Lemma set_slot_run r j s :
  0 <= j < Z.of_nat (length (nr_slot r)) → nr_head r = nr_cur r →
  set_slot r j s = Done (upd_ring r (Z.to_nat j) s (nr_cur r)).
Proof. intros Hj Hh. unfold set_slot. rewrite wr_Z by done. cbn. unfold upd_ring. by rewrite Hh. Qed.
Lemma set_slot_buf_run w k j o row :
  e_slot_buf w !! k = Some row → 0 <= j < Z.of_nat (length row) →
  set_slot_buf (Z.of_nat k) j o w =
    Done (tt, set_tx w (e_txr w) (e_cur_txr w) (e_tail w)
                (alter (λ row, <[Z.to_nat j := o]> row) k (e_slot_buf w))).
Proof.
  intros E Hj. assert (k < length (e_slot_buf w))%nat by (by eapply lookup_lt_Some).
  unfold set_slot_buf. mstep. mstep. mstep. mstep. by rewrite (alter_insert_list _ _ _ _ E).
Qed.

(** One round of the reclaiming loop. *)
Lemma reclaim_step fuel home st w k r s0 :
  tx_core home st w → e_txr w !! k = Some r → st !! k = Some s0 →
  s0 ≠ nr_cur r → s0 ≠ ring_next (nr_num_slots r) (nr_tail r) →
  ∃ row i sl v, e_slot_buf w !! k = Some row ∧ row !! Z.to_nat s0 = Some (Some i) ∧
    nr_slot r !! Z.to_nat s0 = Some sl ∧ e_bufs w !! i = Some v ∧
    reclaim (S fuel) (Z.of_nat k) s0 w =
    reclaim fuel (Z.of_nat k) (ring_next (nr_num_slots r) s0)
      (put_slot w k (Z.to_nat s0) (NetmapSlot (v_idx v) (ns_len sl) ns_buf_changed) None (nr_cur r)
         i (set_idx v (ns_buf_idx sl))).
Proof.
  intros Hc Hr Hs Hne Hne'. destruct (tc_ring _ _ _ Hc k r Hr) as [Hwf Hid].
  pose proof (tc_st _ _ _ Hc k r s0 Hr Hs) as Hs0. pose proof Hwf as [W1 W2 W3 W4 W5].
  destruct (lookup_lt_is_Some_2 (e_slot_buf w) k) as [row Hrow].
  { rewrite (proj2 (tc_len _ _ _ Hc)). by eapply lookup_lt_Some. }
  pose proof (tc_row _ _ _ Hc k r row Hr Hrow) as Hlen.
  assert (Hp : pending st w k (Z.to_nat s0)).
  { exists r, s0. split_and!; [done..|]. split; [lia|]. rewrite Z2Nat.id by lia.
    rewrite ring_dist_self. ring_lia. }
  destruct (tc_pending _ _ _ Hc _ _ Hp) as (i & sl & E1 & E2 & E3 & _).
  unfold slot_iov in E1. rewrite Hrow in E1. cbn in E1.
  destruct (row !! Z.to_nat s0) as [o|] eqn:Ho; [|done]. cbn in E1. subst o.
  unfold slot_at in E3. rewrite Hr in E3. cbn in E3.
  apply elem_of_dom in E2 as [v Hv]. exists row, i, sl, v. split_and!; [done..|].
  cbn [reclaim]. mstep (get_txr_run w k r Hr).
  rewrite nm_ring_next_law, (proj2 (Z.eqb_neq _ _)) by done. rewrite Hid.
  mstep. mstep. mstep. mstep. mstep. unfold swap_slot.
  mstep (lift_run _ _ _ (set_slot_run r s0 _ ltac:(lia) W3)).
  mstep (put_txr_run w k r _ Hr). mstep.
  erewrite bind_run; [|by apply (set_slot_buf_run _ k s0 None row); [|lia]].
  rewrite nm_ring_next_law; [|by apply put_slot_ring_wf|done].
  unfold put_slot. by rewrite (alter_insert_list _ _ _ _ Hr).
Qed.

(** The reclaiming loop takes the oldest waiting slots [s0] up to [e] off ring
    [k], in as many rounds as there are such slots. *)
Lemma reclaim_run home fuel : ∀ st w k r s0,
  let e := ring_next (nr_num_slots r) (nr_tail r) in
  tx_core home st w → e_txr w !! k = Some r → st !! k = Some s0 →
  ring_dist (nr_num_slots r) s0 e <= ring_dist (nr_num_slots r) s0 (nr_cur r) →
  ring_dist (nr_num_slots r) s0 e < Z.of_nat fuel →
  ∃ w', reclaim fuel (Z.of_nat k) s0 w = Done (tt, w') ∧
    tx_core home (<[k := e]> st) w' ∧ tx_frame w w' ∧
    (∀ k' j', pending (<[k := e]> st) w' k' j' → slot_iov w' k' j' = slot_iov w k' j') ∧
    ∀ k' j', pending (<[k := e]> st) w' k' j' ↔ pending st w k' j' ∧
      ¬ (k' = k ∧ ring_dist (nr_num_slots r) s0 (Z.of_nat j') < ring_dist (nr_num_slots r) s0 e).
Proof.
  induction fuel as [|fuel IH]; intros st w k r s0 e Hc Hr Hs Hd Hf.
  { destruct (tc_ring _ _ _ Hc k r Hr) as [[W1 W2 W3 W4 W5] _].
    pose proof (tc_st _ _ _ Hc k r s0 Hr Hs). unfold e in *. ring_lia. }
  destruct (tc_ring _ _ _ Hc k r Hr) as [Hwf Hid]. pose proof Hwf as [W1 W2 W3 W4 W5].
  pose proof (tc_st _ _ _ Hc k r s0 Hr Hs) as Hs0.
  assert (He : 0 <= e < nr_num_slots r) by (by apply ring_next_range).
  destruct (decide (s0 = e)) as [->|Hne].
  { exists w. rewrite list_insert_id by done. split_and!; [|done|done|done|].
    - cbn [reclaim]. mstep (get_txr_run w k r Hr). rewrite nm_ring_next_law by done.
      by rewrite (proj2 (Z.eqb_eq _ _)).
    - intros k' j'. rewrite ring_dist_self. split; [|naive_solver]. intros Hp. split; [done|].
      intros [-> Hlt]. destruct Hp as (r1 & s1 & E1 & _ & Hj & _).
      pose proof (ring_dist_range (nr_num_slots r) e (Z.of_nat j') He).
      assert (r1 = r) as -> by congruence. lia. }
  assert (Hnc : s0 ≠ nr_cur r) by (intros ->; rewrite ring_dist_self in Hd; ring_lia).
  destruct (reclaim_step fuel home st w k r s0 Hc Hr Hs Hnc Hne)
    as (row & i & sl & v & Hrow & Hi & Hsl & Hv & E).
  destruct (tx_core_remove home st w k r row s0 i v sl ns_buf_changed Hc Hr Hrow Hs Hnc Hsl Hi Hv)
    as [Hc1 Hp1].
  set (w1 := put_slot _ _ _ _ _ _ _ _) in *.
  assert (Hf1 : tx_frame w w1) by (by eapply put_slot_frame).
  destruct (tx_frame_ring w w1 k r Hf1 Hr) as (r1 & Hr1 & Hsh). injection Hsh as S1 S2 S3 S4 S5 S6.
  assert (Hkl : (k < length st)%nat) by (by eapply lookup_lt_Some).
  destruct (IH _ w1 k r1 _ Hc1 Hr1 (list_lookup_insert_eq _ _ _ Hkl)) as (w' & E' & Hc' & Hf' & Hsi' & Hp');
    rewrite ?S2, ?S4, ?S5; fold e.
  - ring_lia.
  - ring_lia.
  - exists w'. rewrite S2, S5 in *. fold e in Hc', Hsi', Hp'. rewrite list_insert_insert_eq in *.
    split_and!; [by rewrite E|done|by transitivity w1| |].
    { intros k' j' Hp. rewrite Hsi' by done. apply Hp' in Hp as [Hp _]. apply Hp1 in Hp as [_ Hn].
      unfold w1. rewrite (put_slot_slot_iov w k _ _ _ _ i _ r row Hrow); [by rewrite decide_False|lia|].
      by apply (tc_row _ _ _ Hc k). }
    intros k' j'. rewrite Hp', Hp1. destruct (decide (k' = k)) as [->|]; [|naive_solver].
    assert (Hjn : pending st w k j' → Z.of_nat j' < nr_num_slots r).
    { intros (r0 & s' & E0 & _ & Hj & _). assert (r0 = r) as -> by congruence. lia. }
    clearbody e. split.
    + intros [[Hp Hn1] Hn2]. specialize (Hjn Hp). split; [done|]. intros [_ Hlt].
      assert (Z.of_nat j' ≠ s0) by (intros ?; apply Hn1; split; [done|lia]).
      apply Hn2. split; [done|]. ring_lia.
    + intros [Hp Hn]. specialize (Hjn Hp). split; [split; [done|]|].
      * intros [_ ->]. apply Hn. split; [done|]. rewrite Z2Nat.id, ring_dist_self by lia. ring_lia.
      * intros [_ Hlt]. apply Hn. split; [done|]. ring_lia.
Qed.

(** All rings have been reclaimed. *)
Lemma reclaimed_all home st w :
  tx_core home st w → length (e_tail w) = length (e_txr w) →
  (∀ k r t, e_txr w !! k = Some r → e_tail w !! k = Some t → st !! k = Some (ring_next (nr_num_slots r) t) ∧ t = nr_tail r) →
  e_tail w = nr_tail <$> e_txr w ∧ st = starts (e_txr w) ∧
  ∀ k j, pending st w k j → ∃ r t, e_txr w !! k = Some r ∧ e_tail w !! k = Some t ∧
    ring_dist (nr_num_slots r) t (nr_tail r) <= ring_dist (nr_num_slots r) (ring_next (nr_num_slots r) t) (Z.of_nat j).
Proof.
  intros Hc Htl Hst.
  assert (Hlk : ∀ k r, e_txr w !! k = Some r → ∃ t, e_tail w !! k = Some t ∧ st !! k = Some (ring_next (nr_num_slots r) t) ∧ t = nr_tail r).
  { intros k r Hr. destruct (lookup_lt_is_Some_2 (e_tail w) k) as [t Ht]; [rewrite Htl; by eapply lookup_lt_Some|]. eauto. }
  split_and!.
  - apply list_eq. intros k. rewrite list_lookup_fmap. destruct (e_txr w !! k) as [r|] eqn:Hr.
    + destruct (Hlk k r Hr) as (t & -> & _ & ->). done.
    + cbn. apply lookup_ge_None_2. apply lookup_ge_None in Hr. lia.
  - apply list_eq. intros k. unfold starts. rewrite list_lookup_fmap. destruct (e_txr w !! k) as [r|] eqn:Hr.
    + destruct (Hlk k r Hr) as (t & _ & -> & ->). done.
    + cbn. apply lookup_ge_None_2. apply lookup_ge_None in Hr. pose proof (tc_len _ _ _ Hc). lia.
  - intros k j (r & s & Hr & Hs' & Hj & _). destruct (Hlk k r Hr) as (t & Ht & _ & ->). exists r, (nr_tail r).
    split_and!; [done..|]. rewrite ring_dist_self. destruct (tc_ring _ _ _ Hc k r Hr) as [[W1 W2 W3 W4 W5] _]. ring_lia.
Qed.

(** The waiting slots when ring [k0] has been reclaimed in [w1], among those not covered by
    the tails of [w]. *)
Lemma pending_reclaimed st w w1 k0 r r1 t tails :
  ring_wf r → e_txr w !! k0 = Some r → e_txr w1 !! k0 = Some r1 → e_tail w !! k0 = Some t →
  nr_num_slots r1 = nr_num_slots r → nr_tail r1 = nr_tail r → 0 <= t < nr_num_slots r →
  (∀ k r1, e_txr w1 !! k = Some r1 → ∃ r0, e_txr w !! k = Some r0 ∧ ring_shape r1 = ring_shape r0) →
  length (e_txr w1) = length (e_txr w) → tails = <[k0 := nr_tail r1]> (e_tail w) → length (e_tail w) = length (e_txr w) →
  ∀ k j,
  (pending st w k j ∧ ¬ (k = k0 ∧ ring_dist (nr_num_slots r) (ring_next (nr_num_slots r) t) (Z.of_nat j) <
      ring_dist (nr_num_slots r) t (nr_tail r))) ∧
    (∃ r' t', e_txr w1 !! k = Some r' ∧ tails !! k = Some t' ∧
      ring_dist (nr_num_slots r') t' (nr_tail r') <= ring_dist (nr_num_slots r') (ring_next (nr_num_slots r') t') (Z.of_nat j)) ↔
  pending st w k j ∧ ∃ r' t', e_txr w !! k = Some r' ∧ e_tail w !! k = Some t' ∧
    ring_dist (nr_num_slots r') t' (nr_tail r') <= ring_dist (nr_num_slots r') (ring_next (nr_num_slots r') t') (Z.of_nat j).
Proof.
  intros Hwf Hr Hr1 Ht S2 S5 Ht0 Hring1 Hl1 -> Htl k j. pose proof Hwf as [W1 W2 W3 W4 W5].
  assert (Hk0 : (k0 < length (e_tail w))%nat) by by eapply lookup_lt_Some.
  destruct (decide (k = k0)) as [->|Hne].
  - rewrite list_lookup_insert_eq by lia. rewrite Hr1. split.
    + intros [[Hp Hn] _]. split; [done|]. exists r, t. split_and!; [done..|]. apply Z.nlt_ge. intros Hlt. by apply Hn.
    + intros (Hp & r0 & t0 & E0 & E0' & Hle). assert (r0 = r) as -> by congruence. assert (t0 = t) as -> by congruence.
      split; [split; [done|intros [_ ?]; lia]|]. exists r1, (nr_tail r1). split_and!; [done..|]. rewrite S2, S5, ring_dist_self.
      destruct Hp as (r' & s' & E2 & _ & Hj & _). assert (r' = r) as -> by congruence.
      apply ring_dist_range; [by apply ring_next_range|lia].
  - rewrite list_lookup_insert_ne by done. split.
    + intros ([Hp _] & r' & t' & Hr' & Ht' & Hle). split; [done|]. destruct (Hring1 k r' Hr') as (r0 & Hr0 & Hs).
      injection Hs as Q1 Q2 Q3 Q4 Q5 Q6. exists r0, t'. rewrite <- Q2, <- Q5. done.
    + intros (Hp & r0 & t' & Hr0 & Ht' & Hle). split; [split; [done|naive_solver]|].
      destruct (lookup_lt_is_Some_2 (e_txr w1) k) as [r' Hr']; [rewrite Hl1; by eapply lookup_lt_Some|].
      destruct (Hring1 k r' Hr') as (r2 & Hr2 & Hs). injection Hs as Q1 Q2 Q3 Q4 Q5 Q6.
      assert (r2 = r0) as -> by congruence. exists r', t'. rewrite Q2, Q5. done.
Qed.

(** Rings of the same shape. *)
Lemma shape_lookup (txr txr1 : list netmap_ring) : ring_shape <$> txr1 = ring_shape <$> txr →
  length txr1 = length txr ∧ nr_tail <$> txr1 = nr_tail <$> txr ∧
  ∀ k r1, txr1 !! k = Some r1 → ∃ r0, txr !! k = Some r0 ∧ ring_shape r1 = ring_shape r0.
Proof.
  intros E. split; [|split].
  - apply (f_equal length) in E. by rewrite !length_fmap in E.
  - apply list_eq. intros k. apply (f_equal (.!! k)) in E. rewrite !list_lookup_fmap in *.
    destruct (txr1 !! k), (txr !! k); unfold ring_shape in *; cbn in *; congruence.
  - intros k r1 Hr1. apply (f_equal (.!! k)) in E. rewrite !list_lookup_fmap, Hr1 in E.
    destruct (txr !! k) as [r0|]; [|done]. exists r0. split; [done|]. unfold ring_shape in *. cbn in E. congruence.
Qed.

(** All rings: [k0] have been reclaimed, [m] are left. *)
Lemma reclaim_rings_run home m : ∀ st w k0,
  tx_core home st w → (k0 + m)%nat = length (e_txr w) → length (e_tail w) = length (e_txr w) →
  (∀ k r t, e_txr w !! k = Some r → e_tail w !! k = Some t →
    if decide (k < k0)%nat then st !! k = Some (ring_next (nr_num_slots r) t) ∧ t = nr_tail r
    else st !! k = Some (ring_next (nr_num_slots r) t) ∧ 0 <= t < nr_num_slots r ∧
      ring_dist (nr_num_slots r) t (nr_tail r) +
        ring_dist (nr_num_slots r) (nr_cur r) t < nr_num_slots r) →
  ∃ w' bufs txr sb, reclaim_rings m (Z.of_nat k0) w = Done (tt, w') ∧
    w' = set_tx (set_iovs w (e_q w) bufs) txr (e_cur_txr w) (nr_tail <$> e_txr w) sb ∧
    no_idx <$> bufs = no_idx <$> e_bufs w ∧ ring_shape <$> txr = ring_shape <$> e_txr w ∧
    tx_core home (starts txr) w' ∧
    (∀ k j, pending (starts txr) w' k j → slot_iov w' k j = slot_iov w k j) ∧
    ∀ k j, pending (starts txr) w' k j ↔
      pending st w k j ∧ ∃ r t, e_txr w !! k = Some r ∧ e_tail w !! k = Some t ∧
        ring_dist (nr_num_slots r) t (nr_tail r) <=
        ring_dist (nr_num_slots r) (ring_next (nr_num_slots r) t) (Z.of_nat j).
Proof.
  induction m as [|m IH]; intros st w k0 Hc Hk Htl Hst.
  - exists w, (e_bufs w), (e_txr w), (e_slot_buf w).
    destruct (reclaimed_all home st w Hc Htl) as (Ht & Hs & Hpd).
    { intros k r t Hr Ht. specialize (Hst k r t Hr Ht). rewrite decide_True in Hst; [done|]. apply lookup_lt_Some in Hr. lia. }
    rewrite <- Ht, <- Hs. split_and!; [done|by rewrite set_iovs_id, set_tx_id|done|done|done|done|].
    intros k j. split; [|naive_solver]. intros Hp. split; [done|by apply Hpd].
  - destruct (lookup_lt_is_Some_2 (e_txr w) k0) as [r Hr]; [lia|].
    destruct (lookup_lt_is_Some_2 (e_tail w) k0) as [t Ht]; [lia|].
    pose proof (Hst k0 r t Hr Ht) as H1. rewrite decide_False in H1 by lia. destruct H1 as (Hs0 & Ht0 & Hd).
    destruct (tc_ring _ _ _ Hc k0 r Hr) as [Hwf Hid]. pose proof Hwf as [W1 W2 W3 W4 W5].
    destruct (reclaim_run home (S (Z.to_nat (nr_num_slots r))) st w k0 r _ Hc Hr Hs0)
      as (w1 & E1 & Hc1 & Hf1 & Hsi1 & Hp1); [ring_lia|ring_lia|].
    pose proof (tx_frame_ring w w1 k0 r Hf1 Hr) as (r1 & Hr1 & Hsh). injection Hsh as S1 S2 S3 S4 S5 S6.
    destruct Hf1 as [(bufs1 & txr1 & sb1 & Ew1) Hb1 Hsh1]. rewrite Ew1 in Hb1, Hsh1. cbn in Hb1, Hsh1.
    set (w2 := set_tx w1 (e_txr w1) (e_cur_txr w1) (<[k0 := nr_tail r1]> (e_tail w1)) (e_slot_buf w1)).
    destruct (shape_lookup (e_txr w) (e_txr w1)) as (Hl1 & Htl1 & Hring1); [by rewrite Ew1|].
    assert (Ht1 : e_tail w1 = e_tail w) by (by rewrite Ew1).
    destruct (IH (<[k0 := ring_next (nr_num_slots r) (nr_tail r)]> st) w2 (S k0))
      as (w' & bufs & txr & sb & E' & Ew' & Hb' & Hsh' & Hc' & Hsi' & Hp').
    { by apply (tx_core_ext home _ w1). }
    { cbn. lia. }
    { cbn. rewrite length_insert. congruence. }
    { cbn. intros k r' t' Hr' Ht'. destruct (Hring1 k r' Hr') as (r0 & Hr0 & Hs).
      injection Hs as Q1 Q2 Q3 Q4 Q5 Q6. rewrite Ht1 in Ht'. destruct (decide (k = k0)) as [->|Hne].
      - rewrite decide_True by lia. rewrite list_lookup_insert_eq in Ht' by lia. injection Ht' as <-.
        rewrite list_lookup_insert_eq by (by eapply lookup_lt_Some).
        assert (r' = r1) as -> by congruence. rewrite S2, S5. done.
      - rewrite list_lookup_insert_ne in Ht' by done. rewrite list_lookup_insert_ne by done.
        specialize (Hst k r0 t' Hr0 Ht'). rewrite Q2, Q4, Q5.
        do 2 case_decide; try lia; done. }
    exists w', bufs, txr, sb.
    split_and!.
    + cbn [reclaim_rings]. mstep. mstep (get_txr_run w k0 r Hr). mstep.
      rewrite nm_ring_next_law by done. mstep E1. mstep. mstep (get_txr_run w1 k0 r1 Hr1).
      rewrite Ht1. mstep. rewrite <- Ht1. mstep. fold w2.
      replace (Z.of_nat k0 + 1) with (Z.of_nat (S k0)) by lia. exact E'.
    + rewrite Ew'. cbn. rewrite Htl1. unfold w2. rewrite Ew1. reflexivity.
    + rewrite Hb'. cbn. by rewrite Ew1.
    + rewrite Hsh'. cbn. by rewrite Ew1.
    + done.
    + intros k j Hp. rewrite Hsi' by done. apply Hp' in Hp as [Hp _]. by apply Hsi1.
    + intros k j. rewrite Hp'.
      assert (pending (<[k0:=ring_next (nr_num_slots r) (nr_tail r)]> st) w2 k j ↔
        pending (<[k0:=ring_next (nr_num_slots r) (nr_tail r)]> st) w1 k j) as -> by done.
      rewrite Hp1, ring_dist_next by done. cbn [e_txr e_tail w2 set_tx]. rewrite Ht1.
      by apply (pending_reclaimed st w w1 k0 r r1 t).
Qed.

(** After the kernel has moved tails, the waiting slots are still those after the
    remembered tails. *)
Lemma txsync_core home w txr' :
  tx_inv home w → Forall2 txsync_ring (e_txr w) txr' →
  tx_core home (starts (e_txr w)) (set_tx w txr' (e_cur_txr w) (e_tail w) (e_slot_buf w)) ∧
  ∀ k j, pending (starts (e_txr w)) (set_tx w txr' (e_cur_txr w) (e_tail w) (e_slot_buf w)) k j ↔
    pending (starts (e_txr w)) w k j.
Proof.
  intros [Hcur Hn Htl Hdi Hc] Hs. set (w' := set_tx _ _ _ _ _).
  assert (Hr' : ∀ k r', txr' !! k = Some r' → ∃ r, e_txr w !! k = Some r ∧ txsync_ring r r').
  { intros k r' E. by eapply Forall2_lookup_r in Hs. }
  assert (Hr : ∀ k r, e_txr w !! k = Some r → ∃ r', txr' !! k = Some r' ∧ txsync_ring r r').
  { intros k r E. by eapply Forall2_lookup_l in Hs. }
  assert (Hp : ∀ k j, pending (starts (e_txr w)) w' k j ↔ pending (starts (e_txr w)) w k j).
  { intros k j. unfold pending, waits. cbn [e_txr w' set_tx]. split.
    - intros (r' & s & E & Es & Hw). destruct (Hr' k r' E) as (r & E' & [_ _ Hsame]).
      exists r, s. rewrite Hsame in Hw. done.
    - intros (r & s & E & Es & Hw). destruct (Hr k r E) as (r' & E' & [_ _ Hsame]).
      exists r', s. split; [done|]. split; [done|]. rewrite Hsame. done. }
  assert (Hat : ∀ k j, slot_at w' k j = slot_at w k j).
  { intros k j. unfold slot_at. cbn [e_txr w' set_tx]. destruct (txr' !! k) as [r'|] eqn:E.
    - destruct (Hr' k r' E) as (r & -> & [_ _ Hsame]). cbn. by rewrite Hsame.
    - destruct (e_txr w !! k) as [r|] eqn:E'; [|done]. destruct (Hr k r E') as (r' & ? & _). congruence. }
  split; [|done]. destruct Hc as [C1 C2 C3 C4 C5 C6 C7 C8 C9]. pose proof (Forall2_length _ _ _ Hs) as Hl.
  split; cbn [e_txr e_slot_buf e_bufs w' set_tx].
  - lia.
  - intros k r' E. destruct (Hr' k r' E) as (r & E' & [Ht _ Hsame]).
    destruct (C2 k r E') as [[W1 W2 W3 W4 W5] Hid]. rewrite Hsame. split; [by split|done].
  - intros k r' row E Hrow. destruct (Hr' k r' E) as (r & E' & [Ht _ Hsame]).
    rewrite Hsame. by apply (C3 k r).
  - intros k r' s E Hst. destruct (Hr' k r' E) as (r & E' & [Ht _ Hsame]).
    rewrite Hsame. by apply (C4 k r).
  - intros k j Hpe. setoid_rewrite Hat. apply C5. by apply Hp.
  - intros k j k' j' i Hp1 Hp2. apply C6; by apply Hp.
  - intros i v Hv Hnp. apply C7; [done|]. intros k j Hpe. apply Hnp. by apply Hp.
  - intros k j i v Hpe. apply C8. by apply Hp.
  - intros k j s. rewrite Hat. intros Hs' Hnp. apply C9; [done|]. by rewrite <- Hp.
Qed.

(** What [w_nic_tx] leaves behind when the kernel answers with [txr']. *)
Record nic_tx_post (home : homes) (w : engine) (txr' : list netmap_ring) (w' : engine) : Prop := {
  np_inv : tx_inv home w';
  np_rest : ∃ bufs txr tail sb, w' = set_tx (set_iovs (set_calls w (KTxSync (e_txr w) (e_mem w) :: e_calls w)) (e_q w) bufs) txr
              (e_cur_txr w) tail sb;
  np_bufs : no_idx <$> e_bufs w' = no_idx <$> e_bufs w;
  np_rings : ring_shape <$> e_txr w' = ring_shape <$> txr';
  np_slot_iov : ∀ k j, pending (starts (e_txr w')) w' k j → slot_iov w' k j = slot_iov w k j;
  np_waiting : ∀ k j, pending (starts (e_txr w')) w' k j ↔
    pending (starts (e_txr w)) w k j ∧ ∃ r r', e_txr w !! k = Some r ∧ txr' !! k = Some r' ∧
      ring_dist (nr_num_slots r) (nr_tail r) (nr_tail r') <=
      ring_dist (nr_num_slots r) (ring_next (nr_num_slots r) (nr_tail r)) (Z.of_nat j)
}.

Lemma w_nic_tx_run home w txr' :
  tx_inv home w → e_pipe w = false → nioctxsync (e_calls w) (e_txr w) = Some txr' →
  ∃ w', w_nic_tx w = Done (tt, w') ∧ nic_tx_post home w txr' w'.
Proof.
  intros Hinv Hpipe Hsync. pose proof Hinv as [Hcur Hn Htl Hdi Hc].
  assert (Hwf : Forall ring_wf (e_txr w)).
  { apply Forall_lookup. intros k r Hr. by apply (tc_ring _ _ _ Hc k r). }
  pose proof (nioctxsync_law _ _ _ Hwf Hsync) as Hs. pose proof (Forall2_length _ _ _ Hs) as Hl.
  destruct (txsync_core home w txr' Hinv Hs) as [Hc1 Hp1].
  set (w0 := set_calls w (KTxSync (e_txr w) (e_mem w) :: e_calls w)).
  set (w1 := set_tx w0 txr' (e_cur_txr w) (e_tail w) (e_slot_buf w)).
  destruct (reclaim_rings_run home (length txr') (starts (e_txr w)) w1 0) as (w' & bufs & txr & sb & E & Ew & Hb & Hsh & Hc' & Hsi' & Hp').
  { eapply tx_core_ext; [| | |exact Hc1]; done. }
  { done. }
  { cbn. by rewrite Htl, length_fmap. }
  { cbn. intros k r' t Hr' Ht. rewrite Htl, list_lookup_fmap in Ht. unfold starts. rewrite list_lookup_fmap.
    destruct (e_txr w !! k) as [r|] eqn:Hr; [|done]. cbn in Ht |- *. injection Ht as <-.
    assert (txsync_ring r r') as [T1 T2 T3].
    { eapply Forall2_lookup_lr; eauto. }
    destruct (tc_ring _ _ _ Hc k r Hr) as [[W1 W2 W3 W4 W5] _]. rewrite T3. cbn. done. }
  exists w'. assert (Htxr : length txr = length txr').
  { apply (f_equal length) in Hsh. by rewrite !length_fmap in Hsh. }
  split.
  { unfold w_nic_tx. mstep. erewrite bind_run; [|reflexivity]. mstep. fold w0.
    change (e_txr w0) with (e_txr w). rewrite Hsync. mstep. change (e_pipe w0) with (e_pipe w).
    rewrite Hpipe. mstep. exact E. }
  assert (Htails : nr_tail <$> txr = nr_tail <$> txr').
  { pose proof (f_equal (fmap (λ x : Z * Z * Z * Z * Z * nat, x.1.2)) Hsh) as Hf.
    rewrite <- !list_fmap_compose in Hf. exact Hf. }
  split; rewrite Ew; cbn [e_txr e_bufs set_tx set_iovs].
  - split; cbn [e_txr e_cur_txr e_tail set_tx set_iovs e_cur_txr w1 w0 set_calls].
    + lia.
    + lia.
    + by rewrite Htails.
    + eapply (tx_distinct_frame home w1); [exact Hb|exact Hsh|].
      intros i k j Hi [s Hsk]. apply Hdi; [done|]. unfold slot_at in *. cbn in Hsk.
      destruct (txr' !! k) as [r'|] eqn:E'; [|done]. destruct (Forall2_lookup_r _ _ _ _ _ Hs E') as (r & -> & [_ _ T3]).
      rewrite T3 in Hsk. cbn in *. by exists s.
    + rewrite Ew in Hc'. exact Hc'.
  - by eexists _, _, _, _.
  - exact Hb.
  - exact Hsh.
  - rewrite Ew in Hsi'. exact Hsi'.
  - intros k j. rewrite Ew in Hp'. rewrite Hp'.
    assert (pending (starts (e_txr w)) w1 k j ↔ pending (starts (e_txr w)) w k j) as -> by apply Hp1.
    split; intros [Hp Hx]; (split; [done|]).
    + destruct Hx as (r' & t & Hr' & Ht & Hle). cbn in Hr', Ht.
      destruct (Forall2_lookup_r _ _ _ _ _ Hs Hr') as (r & Hr & [_ _ T3]).
      rewrite Htl, list_lookup_fmap, Hr in Ht. injection Ht as <-.
      exists r, r'. rewrite T3 in Hle. cbn in Hle. done.
    + destruct Hx as (r & r' & Hr & Hr' & Hle). exists r', (nr_tail r). cbn.
      rewrite Htl, list_lookup_fmap, Hr. destruct (Forall2_lookup_lr _ _ _ _ _ _ Hs Hr Hr') as [_ _ T3].
      split_and!; [done|done|]. rewrite T3. cbn. done.
Qed.

(** *** Placing a frame *)

Definition ring_full (r : netmap_ring) : Prop := nr_cur r = nr_tail r.
Definition set_cur_txr (w : engine) (c : Z) : engine :=
  set_tx w (e_txr w) c (e_tail w) (e_slot_buf w).

#[export] Instance ring_full_dec r : Decision (ring_full r) := _.

Lemma set_cur_txr_inv home w0 w c :
  tx_inv home w → tx_only w0 w → 0 <= c < Z.of_nat (length (e_txr w)) →
  tx_inv home (set_cur_txr w c) ∧ tx_only w0 (set_cur_txr w c).
Proof.
  intros [Hcur Hn Htl Hdi Hc0] Ho Hc. split.
  - split; try done. by apply (tx_core_ext home _ w).
  - transitivity w; [done|]. split; [|done|done|by exists []].
    exists (e_bufs w), (e_txr w), c, (e_tail w), (e_slot_buf w), (e_calls w). by destruct w.
Qed.

Lemma find_txr_run n : ∀ w,
  (∀ k r, e_txr w !! k = Some r → ring_wf r) →
  0 <= e_cur_txr w < Z.of_nat (length (e_txr w)) → Z.of_nat (length (e_txr w)) < 2 ^ 32 →
  ∃ b c, find_txr n w = Done (b, set_cur_txr w c) ∧ 0 <= c < Z.of_nat (length (e_txr w)) ∧
    if b : bool then ∃ r, e_txr w !! Z.to_nat c = Some r ∧ ¬ ring_full r
    else ∀ x, 0 <= x < Z.of_nat n → ∃ r,
      e_txr w !! Z.to_nat ((e_cur_txr w + x) mod Z.of_nat (length (e_txr w))) = Some r ∧ ring_full r.
Proof.
  induction n as [|n IH]; intros w Hwf Hc Hlen; cbn [find_txr].
  { exists false, (e_cur_txr w). unfold set_cur_txr. rewrite set_tx_id. split_and!; [done|lia..|]. lia. }
  destruct (lookup_lt_is_Some_2 (e_txr w) (Z.to_nat (e_cur_txr w))) as [r Hr]; [lia|].
  mstep. mstep (get_txr_Z w _ r (proj1 Hc) Hr).
  rewrite nm_ring_empty_law by eauto. destruct (Z.eqb_spec (nr_cur r) (nr_tail r)) as [Hfull|Hsp]; cbn [negb].
  2: { exists true, (e_cur_txr w). unfold set_cur_txr. rewrite set_tx_id. split_and!; [done|lia..|eauto]. }
  set (L := Z.of_nat (length (e_txr w))) in *.
  set (w1 := set_tx w (e_txr w) (u32 (e_cur_txr w + 1) mod Z.of_nat (ni_tx_rings w)) (e_tail w) (e_slot_buf w)).
  assert (Hc1 : e_cur_txr w1 = (e_cur_txr w + 1) mod L).
  { cbn. rewrite u32_id by (unfold_u; lia). done. }
  mstep. fold w1.
  destruct (IH w1) as (b & c & E & Hcr & Hb); [done|rewrite Hc1; change (e_txr w1) with (e_txr w); fold L; apply Z.mod_pos_bound; lia|done|].
  change (length (e_txr w1)) with (length (e_txr w)) in Hcr. fold L in Hcr. exists b, c. split_and!; [exact E|lia..|]. destruct b; [done|].
  intros x Hx. destruct (decide (x = 0)) as [->|].
  - rewrite Z.add_0_r, Z.mod_small by lia. by exists r.
  - destruct (Hb (x - 1)) as (r' & Hr' & Hf); [lia|]. exists r'. split; [|done].
    cbn [e_txr w1 set_tx] in Hr'. rewrite Hc1 in Hr'. fold L in Hr'.
    rewrite Zplus_mod_idemp_l in Hr'. by replace (e_cur_txr w + 1 + (x - 1)) with (e_cur_txr w + x) in Hr' by lia.
Qed.

Lemma starts_put_slot w k j s o c i v :
  starts (e_txr (put_slot w k j s o c i v)) = starts (e_txr w).
Proof.
  apply list_eq. intros k'. unfold starts. rewrite !list_lookup_fmap. cbn.
  destruct (decide (k' = k)) as [->|]; [|by rewrite list_lookup_alter_ne].
  rewrite list_lookup_alter_eq. by destruct (e_txr w !! k).
Qed.

(** Where [eth_tx] places vector [i]. *)
Record eth_tx_post (home : homes) (w : engine) (i : nat) (v : w_iov) (w' : engine) : Prop := {
  ep_inv : tx_inv home w';
  ep_slot : ∃ k r sl fl, e_txr w !! k = Some r ∧ ¬ ring_full r ∧
    nr_slot r !! Z.to_nat (nr_cur r) = Some sl ∧ Z.land fl ns_buf_changed = ns_buf_changed ∧
    w' = put_slot (set_cur_txr w (Z.of_nat k)) k (Z.to_nat (nr_cur r))
           (NetmapSlot (v_idx v) (u16 (v_len v + 14)) fl) (Some i)
           (ring_next (nr_num_slots r) (nr_cur r)) i (set_idx v (ns_buf_idx sl)) ∧
    ∀ k' j', pending (starts (e_txr w')) w' k' j' ↔
      pending (starts (e_txr w)) w k' j' ∨ (k' = k ∧ j' = Z.to_nat (nr_cur r))
}.

Lemma eth_tx_run home w i v :
  tx_inv home w → e_pipe w = false → e_bufs w !! i = Some v → is_Some (nexts (e_q w) !! i) →
  (∀ k j, pending (starts (e_txr w)) w k j → slot_iov w k j ≠ Some i) →
  (∃ w', eth_tx i w = Done (true, w') ∧ eth_tx_post home w i v w') ∨
  (Forall ring_full (e_txr w) ∧ ∃ c, 0 <= c < Z.of_nat (length (e_txr w)) ∧
    eth_tx i w = Done (false, set_cur_txr w c)).
Proof.
  intros [Hcur Hn Htl Hdi Hc] Hpipe Hv [nx Hnx] Hnp.
  assert (Hwf : ∀ k r, e_txr w !! k = Some r → ring_wf r) by (intros k r Hr; by apply (tc_ring _ _ _ Hc k r)).
  destruct (find_txr_run (ni_tx_rings w) w Hwf Hcur Hn) as (b & c & E & Hcr & Hb).
  unfold eth_tx. mstep. rewrite (bind_run _ _ _ _ _ E). destruct b; cbn [negb].
  - left. destruct Hb as (r & Hr & Hsp). remember (Z.to_nat c) as k eqn:Hk.
    assert (c = Z.of_nat k) as -> by lia. clear Hk. set (w1 := set_cur_txr w (Z.of_nat k)).
    destruct (lookup_lt_is_Some_2 (e_slot_buf w) k) as [row Hrow].
    { rewrite (proj2 (tc_len _ _ _ Hc)). by eapply lookup_lt_Some. }
    pose proof (tc_row _ _ _ Hc k r row Hr Hrow) as Hlen.
    destruct (tc_ring _ _ _ Hc k r Hr) as [[W1 W2 W3 W4 W5] Hid].
    destruct (lookup_lt_is_Some_2 (nr_slot r) (Z.to_nat (nr_cur r))) as [sl Hsl]; [lia|].
    assert (Hst : starts (e_txr w) !! k = Some (ring_next (nr_num_slots r) (nr_tail r))).
    { unfold starts. by rewrite list_lookup_fmap, Hr. }
    assert (Hc1 : tx_core home (starts (e_txr w)) w1) by (by apply (tx_core_ext home _ w)).
    pose proof (λ fl, tx_core_add home _ w1 k r row _ i v sl (u16 (v_len v + 14)) fl Hc1 Hr Hrow Hst) as Hadd.
    set (fl := if (nm_ring_space r =? 1) || bool_decide (nx = None)
               then Z.lor ns_buf_changed ns_report else ns_buf_changed).
    destruct (Hadd fl) as [Hc2 Hp2]; [unfold ring_full in Hsp; ring_lia|done|done|done|].
    exists (put_slot w1 k (Z.to_nat (nr_cur r)) (NetmapSlot (v_idx v) (u16 (v_len v + 14)) fl) (Some i)
      (ring_next (nr_num_slots r) (nr_cur r)) i (set_idx v (ns_buf_idx sl))). split.
    + mstep. mstep (get_txr_run w1 k r Hr).
      mstep. rewrite Hid. erewrite bind_run; [|apply (set_slot_buf_run w1 k _ _ row Hrow); lia].
      mstep. change (e_pipe w1) with (e_pipe w). rewrite Hpipe.
      erewrite bind_run; [|erewrite bind_run; [|by apply liftq_next]; unfold swap_slot; fold fl; by mstep].
      mstep (lift_run _ _ _ (set_slot_run r (nr_cur r) _ ltac:(lia) W3)).
      rewrite nm_ring_next_law; [|by apply put_slot_ring_wf; [eauto|]|done].
      erewrite bind_run; [|apply (put_txr_run _ k r); exact Hr]. unfold put_slot.
      rewrite (alter_insert_list _ _ _ _ Hr). reflexivity.
    + split.
      * split.
        -- cbn. by rewrite length_alter.
        -- cbn. by rewrite length_alter.
        -- cbn. rewrite Htl. apply list_eq. intros k'. rewrite !list_lookup_fmap.
           destruct (decide (k' = k)) as [->|]; [|by rewrite list_lookup_alter_ne].
           rewrite list_lookup_alter_eq. by destruct (e_txr w !! k).
        -- intros i' k' j' Hi' Hk'. apply Hdi.
           ++ cbn in Hi'. rewrite dom_insert_L in Hi'. apply elem_of_union in Hi' as [->%elem_of_singleton|?]; [|done].
              by apply elem_of_dom.
           ++ rewrite (put_slot_slot_at w1 k _ _ _ _ i _ r row Hr) in Hk'; [|lia|lia].
              case_decide as Hkj; [|done]. destruct Hkj as [-> ->]. unfold slot_at. rewrite Hr. by exists sl.
        -- rewrite starts_put_slot. exact Hc2.
      * exists k, r, sl, fl. split_and!; [done|done|done| |done|].
        2: { rewrite starts_put_slot. exact Hp2. }
        unfold fl. destruct (_ || _); apply Z.bits_inj'; intros t _; rewrite ?Z.land_spec, ?Z.lor_spec; by repeat destruct (Z.testbit _ t).
  - right. split.
    + apply Forall_lookup. intros k r Hr. assert (k < length (e_txr w))%nat by (by eapply lookup_lt_Some).
      change (ni_tx_rings w) with (length (e_txr w)) in Hb. set (L := Z.of_nat (length (e_txr w))) in *.
      destruct (Hb ((Z.of_nat k - e_cur_txr w) mod L)) as (r' & Hr' & Hf); [apply Z.mod_pos_bound; lia|].
      rewrite Zplus_mod_idemp_r in Hr'. replace (e_cur_txr w + (Z.of_nat k - e_cur_txr w)) with (Z.of_nat k) in Hr' by lia.
      rewrite Z.mod_small, Nat2Z.id in Hr' by lia. congruence.
    + exists c. done.
Qed.

(** *** Waiting for the transmission *)

Lemma eth_tx_post_only home w i v w' :
  e_bufs w !! i = Some v → eth_tx_post home w i v w' → tx_only w w'.
Proof.
  intros Hv [_ (k & r & sl & fl & Hr & _ & _ & _ & -> & _)]. split.
  - by eexists _, _, _, _, _, (e_calls w).
  - cbn. rewrite fmap_insert. apply insert_id. by rewrite lookup_fmap, Hv.
  - cbn. apply list_eq. intros k'. rewrite !list_lookup_fmap.
    destruct (decide (k' = k)) as [->|]; [|by rewrite list_lookup_alter_ne].
    rewrite list_lookup_alter_eq. by rewrite Hr.
  - by exists [].
Qed.

Lemma nic_tx_post_only home w txr' w' :
  nic_tx_post home w txr' w' → Forall2 txsync_ring (e_txr w) txr' → tx_only w w'.
Proof.
  intros [_ (b & tx & tl & sb & E) Hb Hr _ _] Hs. split; [by rewrite E; eexists _, _, _, _, _, _|done| |by rewrite E; eexists [_]].
  pose proof (f_equal (fmap (λ x : Z * Z * Z * Z * Z * nat, x.1.1.1.1.2)) Hr) as Hf.
  rewrite <- !list_fmap_compose in Hf. etransitivity; [exact Hf|].
  apply list_eq. intros k. rewrite !list_lookup_fmap. destruct (txr' !! k) as [r'|] eqn:E'.
  - destruct (Forall2_lookup_r _ _ _ _ _ Hs E') as (r & -> & [_ _ T3]). cbn. by rewrite T3.
  - apply Forall2_length in Hs. apply lookup_ge_None in E'.
    by rewrite (proj2 (lookup_ge_None (e_txr w) k)) by lia.
Qed.

(** Sequences of the two operations: placing a vector that is not waiting already,
    and synchronising. *)
Definition not_waiting (w : engine) (i : nat) : Prop :=
  ∀ k j, pending (starts (e_txr w)) w k j → slot_iov w k j ≠ Some i.

Inductive tx_steps (w : engine) : engine → Prop :=
| tx_refl : tx_steps w w
| tx_place w1 i b w2 : tx_steps w w1 → i ∈ dom (e_bufs w1) → is_Some (nexts (e_q w1) !! i) →
    not_waiting w1 i → eth_tx i w1 = Done (b, w2) → tx_steps w w2
| tx_sync w1 w2 : tx_steps w w1 → w_nic_tx w1 = Done (tt, w2) → tx_steps w w2.

(** C2: However frames are placed and transmissions completed, vectors and slots
    never lose or share a buffer: those that wait have exchanged theirs, all
    others have their own, and nothing else of the engine changes. *)
Theorem tx_steps_conserve_buffers home w w' :
  tx_inv home w → e_pipe w = false → tx_steps w w' →
  tx_only w w' ∧
  (∀ i v, e_bufs w' !! i = Some v → not_waiting w' i → v_idx v = h_iov home i) ∧
  (∀ k j s, slot_at w' k j = Some s → ¬ pending (starts (e_txr w')) w' k j →
    ns_buf_idx s = h_slot home k j) ∧
  (∀ k j, pending (starts (e_txr w')) w' k j → ∃ i s v, slot_iov w' k j = Some i ∧
    slot_at w' k j = Some s ∧ e_bufs w' !! i = Some v ∧
    ns_buf_idx s = h_iov home i ∧ v_idx v = h_slot home k j).
Proof.
  intros Hinv Hpipe Hsteps.
  assert (tx_inv home w' ∧ tx_only w w') as [Hinv' Ho].
  { induction Hsteps as [|w1 i b w2 _ [Hinv1 Ho1] Hi Hx Hnw E|w1 w2 _ [Hinv1 Ho1] E]; [done| |].
    - pose proof Hi as [v Hv]%elem_of_dom. assert (e_pipe w1 = false) as Hp1.
      { by destruct (to_rest _ _ Ho1) as (? & ? & ? & ? & ? & ? & ->). }
      destruct (eth_tx_run home w1 i v Hinv1 Hp1 Hv Hx Hnw) as [(w3 & E3 & Hpost)|(_ & c & Hc & E3)];
        rewrite E3 in E; injection E as <- <-.
      + split; [apply Hpost|]. transitivity w1; [done|by eapply eth_tx_post_only].
      + by apply set_cur_txr_inv.
    - assert (e_pipe w1 = false) as Hp1 by (by destruct (to_rest _ _ Ho1) as (? & ? & ? & ? & ? & ? & ->)).
      destruct (nioctxsync (e_calls w1) (e_txr w1)) as [txr'|] eqn:Hsync.
      + destruct (w_nic_tx_run home w1 txr' Hinv1 Hp1 Hsync) as (w3 & E3 & Hpost).
        assert (w3 = w2) as -> by congruence. split; [apply Hpost|]. transitivity w1; [done|].
        eapply nic_tx_post_only; [done|]. eapply nioctxsync_law; [|done].
        apply Forall_lookup. intros k r Hr. by apply (tc_ring _ _ _ (tx_core_inv _ _ Hinv1) k r).
      + unfold w_nic_tx in E. erewrite bind_run in E; [|reflexivity].
        erewrite bind_run in E; [|reflexivity]. erewrite bind_run in E; [|reflexivity]. cbn in E. by rewrite Hsync in E. }
  pose proof (tx_core_inv _ _ Hinv') as Hc. split_and!; [done| | |].
  - intros i v Hv Hnw. by apply (tc_home _ _ _ Hc).
  - intros k j s. apply (tc_slot _ _ _ Hc).
  - intros k j Hp. destruct (tc_pending _ _ _ Hc k j Hp) as (i & s & E1 & E2 & E3 & E4).
    apply elem_of_dom in E2 as [v Hv]. exists i, s, v. split_and!; try done.
    by apply (tc_swap _ _ _ Hc k j i).
Qed.

(** C30: [eth_tx] places the frame of a vector that is not waiting at the current slot
    of a ring with space, with the length of the frame and the flag that tells the kernel
    that the buffer was exchanged, and advances that ring; it fails exactly when all rings are
    full. *)
Theorem eth_tx_correct home w i v :
  tx_inv home w → e_pipe w = false → e_bufs w !! i = Some v → is_Some (nexts (e_q w) !! i) →
  not_waiting w i →
  if decide (Forall ring_full (e_txr w))
  then ∃ c, eth_tx i w = Done (false, set_cur_txr w c)
  else ∃ w', eth_tx i w = Done (true, w') ∧ eth_tx_post home w i v w'.
Proof.
  intros Hinv Hpipe Hv Hx Hnw.
  destruct (eth_tx_run home w i v Hinv Hpipe Hv Hx Hnw) as [(w' & E & Hpost)|(Hf & c & _ & E)].
  - destruct (ep_slot _ _ _ _ _ Hpost) as (k & r & sl & fl & Hr & Hnf & _).
    rewrite decide_False; [by exists w'|]. intros Hall.
    by apply Hnf, (proj1 (Forall_lookup _ _) Hall k).
  - rewrite decide_True by done. by exists c.
Qed.

(** The other vectors: one that is not in a ring is not put there. *)
Lemma eth_tx_post_waiting home w i v w' i' :
  tx_inv home w → eth_tx_post home w i v w' → i' ≠ i → not_waiting w i' → not_waiting w' i'.
Proof.
  intros Hinv [_ (k & r & sl & fl & Hr & _ & Hsl & Hfl & Ew & Hp)] Hne Hnw k' j' Hp'%Hp.
  pose proof (tx_core_inv _ _ Hinv) as Hc. destruct (tc_len _ _ _ Hc) as [_ Hl].
  destruct (lookup_lt_is_Some_2 (e_slot_buf w) k) as [row Hrow].
  { rewrite Hl. by eapply lookup_lt_Some. }
  pose proof (lookup_lt_Some _ _ _ Hsl) as Hj. pose proof (tc_row _ _ _ Hc k r row Hr Hrow) as Hlen.
  rewrite Ew. rewrite (put_slot_slot_iov _ k _ _ _ _ _ _ r row) by done.
  case_decide as Hd; [by intros [= ->]|].
  destruct Hp' as [Hp'|?]; [|done]. by apply Hnw.
Qed.

Lemma nic_tx_post_waiting home w txr' w' i' :
  nic_tx_post home w txr' w' → not_waiting w i' → not_waiting w' i'.
Proof.
  intros [_ _ _ _ Hs Hw] Hnw k j Hp. rewrite Hs by done. apply Hnw. by apply Hw in Hp as [? _].
Qed.

(** *** What the kernel is shown

    A frame of [len] bytes in buffer [x], whose contents are [b], is in a slot of the TX
    rings that waits for transmission and is marked as one whose buffer was exchanged. *)
Definition frame_in (txr : list netmap_ring) (mem : gmap Z bytes) (x len : Z) (b : bytes) : Prop :=
  ∃ k j r s, txr !! k = Some r ∧ nr_slot r !! j = Some s ∧ waits r (ring_next (nr_num_slots r) (nr_tail r)) j ∧
    ns_buf_idx s = x ∧ ns_len s = len ∧ Z.land (ns_flags s) ns_buf_changed = ns_buf_changed ∧ mem !! x = Some b.
Definition in_ring (w : engine) : Z → Z → bytes → Prop := frame_in (e_txr w) (e_mem w).

(** Between [w] and [w'] a NIOCTXSYNC had the frame in a TX ring. *)
Definition shown (w w' : engine) (x len : Z) (b : bytes) : Prop :=
  ∃ new txr mem, e_calls w' = new ++ e_calls w ∧ KTxSync txr mem ∈ new ∧ frame_in txr mem x len b.

(** The positions of the TX rings; one ring has moved on by one slot. *)
Definition cursors (w : engine) : list Z := nr_cur <$> e_txr w.
Definition placed_once (w w' : engine) : Prop :=
  ∃ k r, e_txr w !! k = Some r ∧ cursors w' = <[k := ring_next (nr_num_slots r) (nr_cur r)]> (cursors w).

(** One frame was sent between [w] and [w'], unless all rings were full. *)
Definition frame_out (w w' : engine) (x len : Z) (b : bytes) : Prop :=
  if decide (Forall ring_full (e_txr w)) then cursors w' = cursors w else placed_once w w' ∧ shown w w' x len b.

Lemma shown_mono w0 w w' w'' x len b : calls_after w0 w → shown w w' x len b → calls_after w' w'' → shown w0 w'' x len b.
Proof.
  intros [n0 E0] (n1 & txr & mem & E1 & Hin & Hf) [n2 E2]. exists (n2 ++ n1 ++ n0), txr, mem.
  split; [by rewrite E2, E1, E0, !(assoc_L (++))|]. split; [|done]. set_solver.
Qed.

Lemma eth_tx_post_in home w i v w' b :
  tx_inv home w → eth_tx_post home w i v w' → v_idx v = h_iov home i → e_mem w !! h_iov home i = Some b →
  in_ring w' (h_iov home i) (u16 (v_len v + 14)) b ∧ placed_once w w'.
Proof.
  intros Hinv [_ (k & r & sl & fl & Hr & _ & Hsl & Hfl & Ew & Hp)] Hi Hb.
  destruct (proj2 (Hp k (Z.to_nat (nr_cur r))) (or_intror (conj eq_refl eq_refl))) as (r' & st & Hr' & Hst & Hw).
  assert (Er : r' = upd_ring r (Z.to_nat (nr_cur r)) (NetmapSlot (v_idx v) (u16 (v_len v + 14)) fl)
    (ring_next (nr_num_slots r) (nr_cur r))).
  { rewrite Ew in Hr'. cbn in Hr'. rewrite list_lookup_alter_eq, Hr in Hr'. by injection Hr'. }
  split.
  - exists k, (Z.to_nat (nr_cur r)), r', (NetmapSlot (v_idx v) (u16 (v_len v + 14)) fl). split; [done|]. split; [|split; [|split; [done|split; [done|split; [done|]]]]].
    + rewrite Er. cbn. apply list_lookup_insert_eq. by eapply lookup_lt_Some.
    + unfold starts in Hst. rewrite list_lookup_fmap, Hr' in Hst. by injection Hst as <-.
    + by rewrite Ew.
  - exists k, r. split; [done|]. unfold cursors. rewrite Ew. cbn. apply list_eq. intros k'.
    rewrite list_lookup_fmap. destruct (decide (k' = k)) as [->|Hne].
    + rewrite list_lookup_alter_eq, Hr, list_lookup_insert_eq; [done|]. rewrite length_fmap. by eapply lookup_lt_Some.
    + by rewrite list_lookup_alter_ne, list_lookup_insert_ne, list_lookup_fmap.
Qed.

(** The frames that wait already still do. *)
Lemma eth_tx_post_in_keep home w i v w' x len b :
  tx_inv home w → eth_tx_post home w i v w' → in_ring w x len b → in_ring w' x len b.
Proof.
  intros Hinv [_ (k & r & sl & fl & Hr & _ & Hsl & Hfl & Ew & Hp)] (k1 & j1 & r1 & s1 & Hr1 & Hs1 & Hw1 & Hx & Hl & Hf & Hb).
  assert (Hst : starts (e_txr w) !! k1 = Some (ring_next (nr_num_slots r1) (nr_tail r1))).
  { unfold starts. by rewrite list_lookup_fmap, Hr1. }
  destruct (proj2 (Hp k1 j1)) as (r2 & st & Hr2 & Hst2 & Hw2).
  { left. by exists r1, (ring_next (nr_num_slots r1) (nr_tail r1)). }
  assert (Hne : ¬ (k1 = k ∧ j1 = Z.to_nat (nr_cur r))).
  { intros [-> ->]. assert (r1 = r) as -> by congruence. destruct Hw1 as [_ Hw1].
    destruct (tc_ring _ _ _ (tx_core_inv _ _ Hinv) k r Hr) as [[W1 W2 W3 W4 W5] _].
    rewrite Z2Nat.id in Hw1 by lia. lia. }
  assert (Hj : (Z.to_nat (nr_cur r) < length (nr_slot r))%nat) by (by eapply lookup_lt_Some).
  destruct (lookup_lt_is_Some_2 (e_slot_buf w) k) as [row Hrow].
  { rewrite (proj2 (tc_len _ _ _ (tx_core_inv _ _ Hinv))). by eapply lookup_lt_Some. }
  pose proof (tc_row _ _ _ (tx_core_inv _ _ Hinv) k r row Hr Hrow) as Hlen.
  assert (Hat : slot_at w' k1 j1 = Some s1).
  { rewrite Ew, (put_slot_slot_at _ k _ _ _ _ i _ r row) by done. rewrite decide_False by done. unfold slot_at. cbn. by rewrite Hr1. }
  unfold slot_at in Hat. rewrite Hr2 in Hat. exists k1, j1, r2, s1. split; [done|]. split; [exact Hat|]. split; [|split; [done|split; [done|split; [done|by rewrite Ew]]]].
  unfold starts in Hst2. rewrite list_lookup_fmap, Hr2 in Hst2. by injection Hst2 as <-.
Qed.

(** The frame is in a ring, or the kernel was shown it on the way from [w]. *)
Definition handed (w w' : engine) (x len : Z) (b : bytes) : Prop := in_ring w' x len b ∨ shown w w' x len b.

Lemma handed_trans w w1 w2 x len b :
  calls_after w w1 → calls_after w1 w2 → (in_ring w1 x len b → handed w1 w2 x len b) →
  handed w w1 x len b → handed w w2 x len b.
Proof.
  intros H1 H2 Hk [Hi|Hs].
  - destruct (Hk Hi) as [?|?]; [by left|right]. by apply (shown_mono w w1 w2 w2).
  - right. by apply (shown_mono w w w1 w2).
Qed.

Lemma in_ring_ext w w' x len b : e_txr w' = e_txr w → e_mem w' !! x = e_mem w !! x → in_ring w x len b → in_ring w' x len b.
Proof. intros E1 E2 (k & j & r & s & Hf). exists k, j, r, s. by rewrite E1, E2. Qed.

Lemma placed_once_ext w w1 w' :
  cursors w1 = cursors w → nr_num_slots <$> e_txr w1 = nr_num_slots <$> e_txr w → placed_once w1 w' → placed_once w w'.
Proof.
  intros Hc Hn (k & r1 & Hr1 & E). unfold cursors in *. pose proof (f_equal (.!! k) Hc) as Hck. pose proof (f_equal (.!! k) Hn) as Hnk.
  cbv beta in Hck, Hnk. rewrite !list_lookup_fmap, Hr1 in Hck, Hnk. destruct (e_txr w !! k) as [r|] eqn:Hr; [|done].
  cbn in Hck, Hnk. injection Hck as Hck. injection Hnk as Hnk. exists k, r. split; [done|]. unfold cursors. by rewrite E, Hc, Hck, Hnk.
Qed.

Lemma nic_tx_post_shown home w txr' w' :
  nic_tx_post home w txr' w' → Forall2 txsync_ring (e_txr w) txr' →
  cursors w' = cursors w ∧ ∀ x len b, in_ring w x len b → shown w w' x len b.
Proof.
  intros [_ (b & tx & tl & sb & E) _ Hr _ _] Hs. split.
  - pose proof (f_equal (fmap (λ x : Z * Z * Z * Z * Z * nat, x.1.1.2)) Hr) as Hf.
    rewrite <- !list_fmap_compose in Hf. unfold cursors. etransitivity; [exact Hf|].
    apply list_eq. intros k. rewrite !list_lookup_fmap. destruct (txr' !! k) as [r'|] eqn:E'.
    + destruct (Forall2_lookup_r _ _ _ _ _ Hs E') as (r & -> & [_ _ T3]). cbn. by rewrite T3.
    + apply Forall2_length in Hs. apply lookup_ge_None in E'.
      by rewrite (proj2 (lookup_ge_None (e_txr w) k)) by lia.
  - intros x len bs Hf. exists [KTxSync (e_txr w) (e_mem w)], (e_txr w), (e_mem w).
    split; [by rewrite E|]. split; [by left|done].
Qed.

Section Progress.
Context `{!NetmapProgress}.

Lemma wait_tx_run home fuel : ∀ w i,
  tx_inv home w → e_pipe w = false → i ∈ dom (e_bufs w) → (0 < fuel)%nat →
  (∀ k j r, pending (starts (e_txr w)) w k j → slot_iov w k j = Some i → e_txr w !! k = Some r →
    ring_dist (nr_num_slots r) (ring_next (nr_num_slots r) (nr_tail r)) (Z.of_nat j) + 1 < Z.of_nat fuel) →
  ∃ w', wait_tx fuel i (h_iov home i) w = Done (tt, w') ∧ tx_inv home w' ∧ not_waiting w' i ∧ tx_only w w' ∧
    (∀ i', not_waiting w i' → not_waiting w' i') ∧
    cursors w' = cursors w ∧ ∀ x len b, in_ring w x len b → shown w w' x len b.
Proof.
  induction fuel as [|fuel IH]; intros w i Hinv Hpipe Hi Hf Hd; [lia|]. cbn [wait_tx].
  assert (Hwf : Forall ring_wf (e_txr w)).
  { apply Forall_lookup. intros k r Hr. by apply (tc_ring _ _ _ (tx_core_inv _ _ Hinv) k r). }
  destruct (tx_progress (e_calls w) (e_txr w) Hwf) as (txr' & Hsync & Hprog).
  pose proof (nioctxsync_law _ _ _ Hwf Hsync) as Hs.
  destruct (w_nic_tx_run home w txr' Hinv Hpipe Hsync) as (w1 & E1 & Hpost).
  pose proof (nic_tx_post_only home w txr' w1 Hpost Hs) as Honly.
  pose proof (λ i', nic_tx_post_waiting home w txr' w1 i' Hpost) as Hoth.
  destruct (nic_tx_post_shown home w txr' w1 Hpost Hs) as [Hcur1 Hsh1].
  destruct Hpost as [Hinv1 (b & tx & tl & sb & Ew1) Hb1 Hr1 Hsi1 Hw1].
  assert (Hi1 : i ∈ dom (e_bufs w1)) by (by rewrite (tx_only_dom _ _ Honly)).
  pose proof Hi1 as [v1 Hv1]%elem_of_dom. mstep E1. mstep.
  destruct (Z.eqb_spec (v_idx v1) (h_iov home i)) as [Heq|Hne].
  - exists w1. split_and!; [done|done| |done|done|done|done]. intros k j Hp Hsi.
    pose proof (tc_swap _ _ _ (tx_core_inv _ _ Hinv1) k j i v1 Hp Hsi Hv1) as Hsw.
    destruct (tc_pending _ _ _ (tx_core_inv _ _ Hinv1) k j Hp) as (i' & s & _ & _ & Hsa & _).
    apply (tx_distinct _ _ Hinv1 i k j Hi1); [by exists s|congruence].
  - assert (Hdec : ∀ k j r, pending (starts (e_txr w1)) w1 k j → slot_iov w1 k j = Some i → e_txr w1 !! k = Some r →
      ring_dist (nr_num_slots r) (ring_next (nr_num_slots r) (nr_tail r)) (Z.of_nat j) + 1 < Z.of_nat fuel).
    { intros k j r1 Hp1 Hsl1 Hr1'. rewrite Hsi1 in Hsl1 by done.
      pose proof Hp1 as (_ & r & r' & Hr & Hr' & Hle)%Hw1. pose proof Hp1 as [Hp _]%Hw1.
      pose proof (f_equal (.!! k) Hr1) as Hsh. cbv beta in Hsh. rewrite !list_lookup_fmap, Hr1', Hr' in Hsh.
      unfold ring_shape in Hsh. cbn in Hsh. injection Hsh as Q1 Q2 Q3 Q4 Q5 Q6.
      destruct (Forall2_lookup_lr _ _ _ _ _ _ Hs Hr Hr') as [T1 T2 T3].
      assert (nr_num_slots r' = nr_num_slots r) as T4 by (rewrite T3; done). rewrite Q2, Q5, T4.
      destruct (proj1 (Forall_lookup _ _) Hwf k r Hr) as [W1 W2 W3 W4 W5].
      pose proof (Hd k j r Hp Hsl1 Hr) as Hdj.
      destruct Hp as (r0 & s0 & Hr0 & Hs0 & Hj & Hlt). assert (r0 = r) as -> by congruence.
      unfold starts in Hs0. rewrite list_lookup_fmap, Hr in Hs0. injection Hs0 as <-.
      assert (nr_tail r' ≠ nr_tail r).
      { apply (Hprog k r r' Hr Hr'). intros E. rewrite E, ring_dist_self in Hlt.
        pose proof (ring_dist_range (nr_num_slots r) (nr_cur r) (Z.of_nat j)). lia. }
      ring_lia. }
    assert (Hnw : ¬ not_waiting w1 i).
    { intros Hnw. apply Hne. by apply (tc_home _ _ _ (tx_core_inv _ _ Hinv1)). }
    destruct fuel as [|fuel].
    { exfalso. apply Hnw. intros k j Hp Hsl. pose proof Hp as (r1 & s1 & Hr1' & Hs1' & Hj & _).
      pose proof (Hdec k j r1 Hp Hsl Hr1') as Hdj.
      destruct (tc_ring _ _ _ (tx_core_inv _ _ Hinv1) k r1 Hr1') as [[W1 W2 W3 W4 W5] _]. ring_lia. }
    destruct (IH w1 i Hinv1) as (w' & E' & Hinv' & Hn' & Ho' & Hoth' & Hcur' & _); [by rewrite Ew1|done|lia|done|].
    exists w'. split_and!; [done|done|done|by transitivity w1|auto|congruence|].
    intros x len bs Hx. eapply shown_mono; [by exists []|by apply Hsh1|apply Ho'].
Qed.

(** [eth_tx_and_free] transmits the frame, or drops it when all rings are full,
    and returns the vector to the free list with its own buffer.  As many rounds
    as the largest ring has slots are enough. *)
Lemma eth_tx_and_free_run home D m w i v free fuel :
  eng_inv D m w → tx_inv home w → e_pipe w = false → m !! IOVQ = Some free →
  unqueued D m i → e_bufs w !! i = Some v → not_waiting w i →
  (1 < fuel)%nat → (∀ k r, e_txr w !! k = Some r → nr_num_slots r < Z.of_nat fuel) →
  ∃ w1 w', eth_tx_and_free fuel i w = Done (tt, w') ∧
    ((∃ b, eth_tx i w = Done (b, w1)) ∧
     (eth_tx i w = Done (true, w1) ∧ eth_tx_post home w i v w1 ∨
      eth_tx i w = Done (false, w1) ∧ Forall ring_full (e_txr w))) ∧
    eng_inv D (<[IOVQ := i :: free]> m) w' ∧ tx_inv home w' ∧ not_waiting w' i ∧
    (∀ i', not_waiting w i' → not_waiting w' i') ∧
    (∃ w2 q, tx_only w w2 ∧ w' = set_iovs w2 q (e_bufs w2)) ∧
    ∀ b, e_mem w !! h_iov home i = Some b → frame_out w w' (h_iov home i) (u16 (v_len v + 14)) b.
Proof.
  intros Heng Hinv Hpipe Hm Hu Hv Hnw Hf Hslots.
  assert (Hhome : v_idx v = h_iov home i) by (by apply (tc_home _ _ _ (tx_core_inv _ _ Hinv))).
  assert (Hnx : is_Some (nexts (e_q w) !! i)) by (by eapply unqueued_alloc; [apply Heng|]).
  assert (∃ b w1, eth_tx i w = Done (b, w1) ∧ tx_inv home w1 ∧ tx_only w w1 ∧
    (∀ i', i' ≠ i → not_waiting w i' → not_waiting w1 i') ∧
    (eth_tx i w = Done (true, w1) ∧ eth_tx_post home w i v w1 ∨
      eth_tx i w = Done (false, w1) ∧ Forall ring_full (e_txr w) ∧ cursors w1 = cursors w)) as (b & w1 & E1 & Hinv1 & Ho1 & Hoth1 & Hcase).
  { destruct (eth_tx_run home w i v Hinv Hpipe Hv Hnx Hnw) as [(w1 & E1 & Hpost)|(Hfull & c & Hc & E1)].
    - exists true, w1. split_and!; [done|apply Hpost|by eapply eth_tx_post_only| |by left].
      intros i' Hne. by apply (eth_tx_post_waiting home w i v).
    - destruct (set_cur_txr_inv home w w c Hinv (reflexivity w) Hc) as [Hinv1 Ho1].
      exists false, (set_cur_txr w c). split_and!; [done|done|done|by intros|by right]. }
  destruct (wait_tx_run home fuel w1 i) as (w2 & E2 & Hinv2 & Hnw2 & Ho2 & Hoth2 & Hcur2 & Hsh2); [done| | |lia| |].
  { destruct (to_rest _ _ Ho1) as (? & ? & ? & ? & ? & ? & ->). done. }
  { rewrite (tx_only_dom _ _ Ho1). by apply elem_of_dom. }
  { intros k j r Hp _ Hr. pose proof Hp as (r0 & _ & Hr0 & _ & Hj & _). assert (r0 = r) as -> by congruence.
    destruct (tc_ring _ _ _ (tx_core_inv _ _ Hinv1) k r Hr) as [[W1 W2 W3 W4 W5] _].
    pose proof (f_equal (.!! k) (to_slots _ _ Ho1)) as Hsl. cbv beta in Hsl. rewrite !list_lookup_fmap, Hr in Hsl.
    destruct (e_txr w !! k) as [r'|] eqn:Hr'; [|done]. injection Hsl as Hsl.
    specialize (Hslots k r' Hr'). destruct Hp as (r1 & s1 & Hr1 & Hs1 & Hj' & Hlt).
    assert (r1 = r) as -> by congruence. unfold starts in Hs1. rewrite list_lookup_fmap, Hr in Hs1. injection Hs1 as <-.
    ring_lia. }
  pose proof (tx_only_eng_inv D m w w2 ltac:(by transitivity w1) Heng) as Heng2.
  destruct (liftq_op D m (<[IOVQ := i :: free]> m) w2 (OInsertHead IOVQ i) Heng2) as (q & E3 & Heng3);
    [by apply SInsertHead|rewrite lookup_insert_eq; eauto|].
  exists w1, (set_iovs w2 q (e_bufs w2)). split_and!; [|by eexists|by intuition|done| |done| | |].
  - unfold eth_tx_and_free. mstep. mstep E1. rewrite Hhome. mstep E2. exact E3.
  - destruct Hinv2 as [Hcur Hn Htl Hdi Hc0]. split; try done. by apply (tx_core_ext home _ w2).
  - intros i' Hi'. destruct (decide (i' = i)) as [->|Hne]; [done|]. apply (Hoth2 i'). by apply Hoth1.
  - exists w2, q. split; [by transitivity w1|done].
  - intros bs Hbs. unfold frame_out. destruct Hcase as [[_ Hpost]|(_ & Hfull & Hcur)].
    + destruct (eth_tx_post_in home w i v w1 bs Hinv Hpost Hhome Hbs) as [Hin (k & r & Hr & Hc1)].
      destruct (ep_slot _ _ _ _ _ Hpost) as (k' & r' & ? & ? & Hr' & Hnf & _).
      rewrite decide_False by (intros Hall; by apply Hnf, (proj1 (Forall_lookup _ _) Hall k')).
      split; [exists k, r; split; [done|]; change (cursors (set_iovs w2 q (e_bufs w2))) with (cursors w2); congruence|].
      eapply shown_mono; [apply Ho1|by apply Hsh2|by exists []].
    + rewrite decide_True by done. change (cursors (set_iovs w2 q (e_bufs w2))) with (cursors w2). congruence.
Qed.

(** C15: [eth_tx_and_free] returns, with the frame transmitted unless all rings were
    full (it was in one more slot of a TX ring, with its length, at a NIOCTXSYNC that the
    call made), and the vector back at the front of the free list with the buffer it
    had and no longer in any ring, if every synchronisation transmits something. *)
Theorem eth_tx_and_free_correct home D m w i v free fuel :
  eng_inv D m w → tx_inv home w → e_pipe w = false → m !! IOVQ = Some free →
  unqueued D m i → e_bufs w !! i = Some v → not_waiting w i →
  (1 < fuel)%nat → (∀ k r, e_txr w !! k = Some r → nr_num_slots r < Z.of_nat fuel) →
  ∃ w1 w', (if decide (Forall ring_full (e_txr w)) then eth_tx i w = Done (false, w1)
            else eth_tx i w = Done (true, w1) ∧ eth_tx_post home w i v w1) ∧
    eth_tx_and_free fuel i w = Done (tt, w') ∧
    (∀ b, e_mem w !! h_iov home i = Some b → frame_out w w' (h_iov home i) (u16 (v_len v + 14)) b) ∧
    eng_inv D (<[IOVQ := i :: free]> m) w' ∧ not_waiting w' i ∧
    ∃ v', e_bufs w' !! i = Some v' ∧ v' = v.
Proof.
  intros Heng Hinv Hpipe Hm Hu Hv Hnw Hf Hslots.
  destruct (eth_tx_and_free_run home D m w i v free fuel) as
    (w1 & w' & E & [_ Hcase] & Heng' & Hinv' & Hnw' & _ & (w2 & q & Ho & Ew) & Hout); [done..|].
  exists w1, w'. split_and!; [|done|done|done|done|].
  - destruct Hcase as [[E1 Hpost]|[E1 Hfull]].
    + destruct (ep_slot _ _ _ _ _ Hpost) as (k & r & sl & fl & Hr & Hnf & _).
      rewrite decide_False; [done|]. intros Hall. by apply Hnf, (proj1 (Forall_lookup _ _) Hall k).
    + by rewrite decide_True.
  - pose proof (f_equal (.!! i) (to_bufs _ _ Ho)) as Hb. cbv beta in Hb. rewrite !lookup_fmap, Hv in Hb.
    destruct (e_bufs w2 !! i) as [v'|] eqn:Hv'; [|done]. exists v'.
    assert (e_bufs w' !! i = Some v') as Hv2 by (by rewrite Ew). split; [done|].
    pose proof (tc_home _ _ _ (tx_core_inv _ _ Hinv') i v' Hv2 Hnw') as Hh'.
    pose proof (tc_home _ _ _ (tx_core_inv _ _ Hinv) i v Hv Hnw) as Hh.
    cbn in Hb. injection Hb as B1 B2 B3 B4 B5 B6 B7. destruct v, v'; cbn in *. congruence.
Qed.
End Progress.
End TxProofs.

(** ** Witnesses *)

(** A kernel that transmits everything at every call, and receives nothing. *)
Definition complete_ring (r : netmap_ring) : netmap_ring :=
  NetmapRing (nr_ringid r) (nr_num_slots r) (nr_head r) (nr_cur r)
    (if nr_cur r =? 0 then nr_num_slots r - 1 else nr_cur r - 1) (nr_slot r).
Definition netmap_ex : Netmap := {|
  nm_ring_next r i := ring_next (nr_num_slots r) i;
  nm_ring_empty r := nr_cur r =? nr_tail r;
  nm_ring_space r := ring_dist (nr_num_slots r) (nr_cur r) (nr_tail r);
  ns_buf_changed := 1;
  ns_report := 2;
  nioctxsync _ txr := Some (complete_ring <$> txr);
  nm_poll _ _ _ _ := None
|}.

Lemma complete_ring_sync r : ring_wf r → txsync_ring r (complete_ring r).
Proof. intros [W1 W2 W3 W4 W5]. split; cbn; [ring_lia|ring_lia|done]. Qed.

#[export] Instance netmap_ex_laws : @NetmapLaws netmap_ex.
Proof.
  split; try done. intros n txr txr' Hwf [= <-].
  apply Forall2_fmap_r, Forall_Forall2_diag. eapply Forall_impl; [done|apply complete_ring_sync].
Qed.

#[export] Instance netmap_ex_progress : @NetmapProgress netmap_ex.
Proof.
  split. intros n txr Hwf. eexists. split; [done|]. intros k r r' Hr. rewrite list_lookup_fmap, Hr. intros [= <-].
  destruct (proj1 (Forall_lookup _ _) Hwf k r Hr) as [W1 W2 W3 W4 W5]. cbn. ring_lia.
Qed.

Definition ring_ex : netmap_ring :=
  NetmapRing 0 4 0 0 3 ((λ i, NetmapSlot i 0 0) <$> [100; 101; 102; 103]).
Definition eng_tx_ex : engine := set_tx eng_ex [ring_ex] 0 [3] [[None; None; None; None]].
Definition homes_ex : homes := Homes Z.of_nat (λ k j, 100 + Z.of_nat j).

Lemma eng_tx_ex_waiting k j : ¬ pending (starts (e_txr eng_tx_ex)) eng_tx_ex k j.
Proof.
  intros (r & s & Hr & Hs & Hj & Hlt). destruct k as [|k]; [|by destruct k].
  injection Hr as <-. injection Hs as <-. cbn in Hj, Hlt. ring_lia.
Qed.

Lemma eng_tx_ex_inv : tx_inv homes_ex eng_tx_ex.
Proof.
  assert (∀ i v, e_bufs eng_tx_ex !! i = Some v → v = iov_ex (Z.of_nat i) ∧ (i < 4)%nat) as Hb.
  { intros i v H. change (e_bufs eng_tx_ex) with (e_bufs eng_ex) in H. unfold eng_ex in H. cbn [e_bufs] in H.
    rewrite !lookup_insert_Some, lookup_singleton_Some in H. naive_solver lia. }
  split; [done|done|done| |].
  - intros i k j [v [Hv Hi]%Hb]%elem_of_dom _. cbn. lia.
  - split; try (by intros ? ? ?%eng_tx_ex_waiting); try (by intros ? ? ? ? ?%eng_tx_ex_waiting).
    + done.
    + intros [|k] r; [|by destruct k]. intros [= <-]. split; [by split|done].
    + intros [|k] r row; [|by destruct k]. by intros [= <-] [= <-].
    + intros [|k] r s; [|by destruct k]. intros [= <-] [= <-]. done.
    + intros ? ? ? ? ? ?%eng_tx_ex_waiting. done.
    + intros i v [-> _]%Hb _. done.
    + intros [|k] j s; [|by destruct k]. unfold slot_at. cbn. do 4 (destruct j as [|j]; [by intros [= <-]|]). done.
Qed.

#[local] Existing Instance netmap_ex.

Lemma unqueued_ex : unqueued eng_ex_D eng_ex_m 3.
Proof. split; by eapply bool_decide_unpack, Is_true_eq_left. Qed.

Lemma eth_tx_and_free_correct_witness :
  ∃ w', eth_tx_and_free 5 3 eng_tx_ex = Done (tt, w') ∧ e_bufs w' !! 3%nat = Some (iov_ex 3).
Proof.
  destruct (eth_tx_and_free_correct homes_ex eng_ex_D eng_ex_m eng_tx_ex 3 (iov_ex 3)
    [0; 1; 2]%nat 5) as (w1 & w' & _ & E & _ & _ & _ & v' & Hv & ->).
  - destruct eng_ex_inv as [H1 H2 H3]. by split.
  - exact eng_tx_ex_inv.
  - reflexivity.
  - reflexivity.
  - exact unqueued_ex.
  - reflexivity.
  - intros k j Hp. by apply eng_tx_ex_waiting in Hp.
  - lia.
  - intros [|k] r; [|by destruct k]. intros [= <-]. cbn. lia.
  - exists w'. split; [exact E|exact Hv].
Defined.

Lemma eth_tx_correct_witness :
  ∃ w', eth_tx 3 eng_tx_ex = Done (true, w') ∧ eth_tx_post homes_ex eng_tx_ex 3 (iov_ex 3) w'.
Proof.
  pose proof (eth_tx_correct homes_ex eng_tx_ex 3 (iov_ex 3) eng_tx_ex_inv eq_refl eq_refl) as H.
  rewrite decide_False in H.
  - apply H; [by eexists|]. intros k j Hp. by apply eng_tx_ex_waiting in Hp.
  - intros Hf. apply Forall_cons in Hf as [Hf _]. discriminate Hf.
Defined.

Definition state_of {A} (o : outcome (A * engine)) : engine :=
  match o with Done (_, w) => w | _ => eng_tx_ex end.

Lemma tx_steps_conserve_buffers_witness :
  let w1 := state_of (eth_tx 3 eng_tx_ex) in
  let w2 := state_of (w_nic_tx w1) in
  eth_tx 3 eng_tx_ex = Done (true, w1) ∧ w_nic_tx w1 = Done (tt, w2) ∧ tx_only eng_tx_ex w2.
Proof.
  intros w1 w2.
  assert (E1 : eth_tx 3 eng_tx_ex = Done (true, w1)) by (vm_compute; reflexivity).
  assert (E2 : w_nic_tx w1 = Done (tt, w2)) by (vm_compute; reflexivity).
  split; [exact E1|]. split; [exact E2|].
  apply (tx_steps_conserve_buffers homes_ex eng_tx_ex w2 eng_tx_ex_inv eq_refl).
  eapply tx_sync; [|exact E2]. eapply tx_place; [apply tx_refl|..|exact E1].
  - by vm_compute.
  - by eexists.
  - intros k j Hp. by apply eng_tx_ex_waiting in Hp.
Defined.
