(* ===== verification/Ip.v ===== *)
(** IP headers of outgoing packets (lib/src/ip4.c, lib/src/ip6.c): [mk_ip4_hdr] and
    [mk_ip6_hdr] on the engine, and what the headers they write contain. *)

From S2P Require Import Prelude Util Krng Queue Wire Cksum Addr Khash Engine Netmap.

(** plat.h *)
Definition ECN_ECT0 : Z := 0x02.
Definition ECN_MASK : Z := 0x03.

(** Computations of the generator, whose state is global in the code. *)
Definition liftr {A} (m : M krng_t A) : M engine A := λ w,
  match m (e_rng w) with
  | Done (a, r) => Done (a, set_rng w r)
  | Died => Died
  | Fault => Fault
  | NoFuel => NoFuel
  end.

(** Whether the default ECN marking of socket [s] applies. *)
Definition default_ecn (s : option w_sock) : bool :=
  match s with Some s => enable_ecn (s_opt s) | None => false end.
(** The socket [s] if it is given and connected. *)
Definition connected_sock (s : option w_sock) : option w_sock :=
  match s with Some s => if w_connected s then Some s else None | None => None end.

Definition mk_ip4_hdr (fuel : nat) (i : nat) (s : option w_sock) : M engine unit :=
  v ← get_iov i;
  let ip := padd (v_base v) (eth_data 0) in
  stm8 (padd ip Ip4.vhl) (Z.lor (Z.shiftl 4 4) (Z.shiftr (Z.of_nat Ip4.size) 2)) ;;
  stm8 (padd ip Ip4.tos) (v_flags v) ;;
  when ((Z.land (v_flags v) ECN_MASK =? 0) && default_ecn s)
    (tos ← ldm8 (padd ip Ip4.tos); stm8 (padd ip Ip4.tos) (Z.lor tos ECN_ECT0)) ;;
  put_iov i (set_len v (u16 (v_len v + Z.of_nat Ip4.size))) ;;
  v ← get_iov i;
  stm16 (padd ip Ip4.len) (bswap16 (v_len v)) ;;
  id ← liftr (w_rand_uniform32 fuel UINT16_MAX);
  stm16 (padd ip Ip4.id) (u16 id) ;;
  stm16 (padd ip Ip4.off) IP4_DF ;;
  stm8 (padd ip Ip4.ttl) 0xff ;;
  when (bool_decide (is_Some s)) (stm8 (padd ip Ip4.p) IP_P_UDP) ;;
  match connected_sock s with
  | Some s =>
      stm32 (padd ip Ip4.src) (ip4 (sa_addr (ws_loc s))) ;;
      stm32 (padd ip Ip4.dst) (ip4 (sa_addr (ws_rem s)))
  | None =>
      w ← get;
      ia ← lift (rd (ifaddr (e_conf w)) (addr4_pos (e_conf w)));
      stm32 (padd ip Ip4.src) (ip4 (ia_addr ia)) ;;
      stm32 (padd ip Ip4.dst) (ip4 (sa_addr (v_saddr v)))
  end ;;
  stm16 (padd ip Ip4.cksum) 0 ;;
  c ← on_buf (λ b p, ip_cksum b p (Z.of_nat Ip4.size)) ip;
  stm16 (padd ip Ip4.cksum) c.

Definition mk_ip6_hdr (i : nat) (s : option w_sock) : M engine unit :=
  v ← get_iov i;
  let ip := padd (v_base v) (eth_data 0) in
  stm8 (padd ip Ip6.vfc) (Z.shiftl 6 4) ;;
  (if negb (Z.land (v_flags v) ECN_MASK =? 0) then
     x ← ldm32 (padd ip Ip6.vtcecnfl);
     stm32 (padd ip Ip6.vtcecnfl)
       (Z.lor x (Z.lor (Z.shiftl (Z.land (v_flags v) 0x0f) 12)
                       (Z.shiftr (Z.land (v_flags v) 0xf0) 4)))
   else
     when (default_ecn s)
       (x ← ldm32 (padd ip Ip6.vtcecnfl);
        stm32 (padd ip Ip6.vtcecnfl) (Z.lor x (Z.shiftl ECN_ECT0 20)))) ;;
  stm16 (padd ip Ip6.len) (bswap16 (v_len v)) ;;
  stm8 (padd ip Ip6.hlim) 0xff ;;
  when (bool_decide (is_Some s)) (stm8 (padd ip Ip6.next_hdr) IP_P_UDP) ;;
  match connected_sock s with
  | Some s =>
      stm (padd ip Ip6.src) (take IP6_LEN (ip6 (sa_addr (ws_loc s)))) ;;
      stm (padd ip Ip6.dst) (take IP6_LEN (ip6 (sa_addr (ws_rem s))))
  | None =>
      w ← get;
      ia ← lift (rd (ifaddr (e_conf w)) 0);
      stm (padd ip Ip6.src) (take IP6_LEN (ip6 (ia_addr ia))) ;;
      stm (padd ip Ip6.dst) (take IP6_LEN (ip6 (sa_addr (v_saddr v))))
  end ;;
  v ← get_iov i;
  put_iov i (set_len v (u16 (v_len v + Z.of_nat Ip6.size))).

(** * Theorems *)

(** ** A vector and its frame

    The state [w] in which vector [i] is [v], the buffer it points to is [b] and
    the generator is in state [r]: the part of the engine the construction of a
    packet works on. *)
Definition pkt (w : engine) (i : nat) (v : w_iov) (b : bytes) (r : krng_t) : engine :=
  set_rng (set_iovs (set_mem w (<[fst (v_base v) := b]> (e_mem w))) (e_q w)
             (<[i := v]> (e_bufs w))) r.

Lemma pkt_intro w i v b :
  e_bufs w !! i = Some v → e_mem w !! fst (v_base v) = Some b → w = pkt w i v b (e_rng w).
Proof.
  intros Hv Hb. unfold pkt. rewrite !insert_id by done. by destruct w.
Qed.

Section Pkt.
Context (w : engine) (i : nat) (v : w_iov) (b : bytes) (r : krng_t).
Let st := pkt w i v b r.

Lemma pkt_get_iov : get_iov i st = Done (v, st).
Proof. apply get_iov_run. apply lookup_insert_eq. Qed.

Lemma pkt_put_iov v' : v_base v' = v_base v → put_iov i v' st = Done (tt, pkt w i v' b r).
Proof. intros E. unfold put_iov, st, pkt. cbn. by rewrite insert_insert_eq, E. Qed.

Lemma in_buf_true p n : 0 <= snd p → snd p + Z.of_nat n <= Z.of_nat (length b) → in_buf b p n = true.
Proof. intros. unfold in_buf. by rewrite (proj2 (Z.leb_le _ _)), (proj2 (Z.leb_le _ _)). Qed.

Lemma pkt_stm p bs :
  fst p = fst (v_base v) → 0 <= snd p → snd p + Z.of_nat (length bs) <= Z.of_nat (length b) →
  stm p bs st = Done (tt, pkt w i v (stn b (Z.to_nat (snd p)) bs) r).
Proof.
  intros Hp H0 H1. unfold stm, st, pkt. cbn. rewrite Hp, lookup_insert_eq.
  rewrite in_buf_true by done. by rewrite insert_insert_eq.
Qed.

Lemma pkt_ldm p n :
  fst p = fst (v_base v) → 0 <= snd p → snd p + Z.of_nat n <= Z.of_nat (length b) →
  ldm p n st = Done (ldn b (Z.to_nat (snd p)) n, st).
Proof.
  intros Hp H0 H1. unfold ldm, st, pkt. cbn. rewrite Hp, lookup_insert_eq. by rewrite in_buf_true.
Qed.

Lemma pkt_on_buf {A} (f : bytes → nat → outcome A) p a :
  fst p = fst (v_base v) → 0 <= snd p → f b (Z.to_nat (snd p)) = Done a →
  on_buf f p st = Done (a, st).
Proof.
  intros Hp H0 H1. unfold on_buf, st, pkt. cbn. rewrite Hp, lookup_insert_eq.
  rewrite (proj2 (Z.leb_le _ _)) by done. by rewrite H1.
Qed.

Lemma pkt_liftr {A} (m : M krng_t A) a r' :
  m r = Done (a, r') → liftr m st = Done (a, pkt w i v b r').
Proof. intros H. unfold liftr, st. cbn. by rewrite H. Qed.

Lemma pkt_conf : e_conf st = e_conf w.
Proof. done. Qed.
End Pkt.

(** *** Stores at an offset of the frame *)

Section PktOff.
Context (w : engine) (i : nat) (v : w_iov) (b : bytes) (r : krng_t) (bi : Z).
Hypothesis Hbase : v_base v = (bi, 0).

Lemma pkt_stm_at a o bs :
  (a + o + length bs <= length b)%nat →
  stm (padd (padd (v_base v) a) o) bs (pkt w i v b r) = Done (tt, pkt w i v (stn b (a + o) bs) r).
Proof.
  intros H. rewrite pkt_stm; [|by rewrite Hbase|rewrite Hbase; cbn; lia|rewrite Hbase; cbn; lia].
  rewrite Hbase. cbn [padd fst snd]. rewrite Z.add_0_l.
  by replace (Z.to_nat (Z.of_nat a + Z.of_nat o)) with (a + o)%nat by lia.
Qed.

Lemma pkt_ldm_at a o n :
  (a + o + n <= length b)%nat →
  ldm (padd (padd (v_base v) a) o) n (pkt w i v b r) = Done (ldn b (a + o) n, pkt w i v b r).
Proof.
  intros H. rewrite pkt_ldm; [|by rewrite Hbase|rewrite Hbase; cbn; lia|rewrite Hbase; cbn; lia].
  rewrite Hbase. cbn [padd fst snd]. rewrite Z.add_0_l.
  by replace (Z.to_nat (Z.of_nat a + Z.of_nat o)) with (a + o)%nat by lia.
Qed.

(** At an offset of the frame itself, and of a field of a field. *)
Lemma pkt_stm_base o bs :
  (o + length bs <= length b)%nat →
  stm (padd (v_base v) o) bs (pkt w i v b r) = Done (tt, pkt w i v (stn b o bs) r).
Proof.
  intros H. rewrite pkt_stm; [|by rewrite Hbase|rewrite Hbase; cbn; lia|rewrite Hbase; cbn; lia].
  rewrite Hbase. cbn [padd fst snd]. by rewrite Z.add_0_l, Nat2Z.id.
Qed.
Lemma pkt_stm_at2 a o c bs :
  (a + o + c + length bs <= length b)%nat →
  stm (padd (padd (padd (v_base v) a) o) c) bs (pkt w i v b r) =
    Done (tt, pkt w i v (stn b (a + o + c) bs) r).
Proof.
  intros H. rewrite pkt_stm; [|by rewrite Hbase|rewrite Hbase; cbn; lia|rewrite Hbase; cbn; lia].
  rewrite Hbase. cbn [padd fst snd].
  by replace (Z.to_nat (0 + Z.of_nat a + Z.of_nat o + Z.of_nat c)) with (a + o + c)%nat by lia.
Qed.
Lemma pkt_ldm_base o n :
  (o + n <= length b)%nat →
  ldm (padd (v_base v) o) n (pkt w i v b r) = Done (ldn b o n, pkt w i v b r).
Proof.
  intros H. rewrite pkt_ldm; [|by rewrite Hbase|rewrite Hbase; cbn; lia|rewrite Hbase; cbn; lia].
  rewrite Hbase. cbn [padd fst snd]. by rewrite Z.add_0_l, Nat2Z.id.
Qed.

Lemma pkt_on_buf_at {A} (f : bytes → nat → outcome A) a x :
  f b a = Done x → on_buf f (padd (v_base v) a) (pkt w i v b r) = Done (x, pkt w i v b r).
Proof.
  intros H. apply pkt_on_buf; [by rewrite Hbase|rewrite Hbase; cbn; lia|].
  rewrite Hbase. cbn [padd fst snd]. by rewrite Z.add_0_l, Nat2Z.id.
Qed.
End PktOff.

(** ** Loads from a buffer

    The pointer [p] points at offset [a] of buffer [bj]; the offset of a computed
    pointer is found by the hints. *)
Definition ptr_at (p : bufptr) (bj : Z) (a : nat) : Prop := p = (bj, Z.of_nat a).
Create HintDb wc_ptr.

Lemma ptr_at_base p bj : p = (bj, 0) → ptr_at p bj 0.
Proof. by intros ->. Qed.
Lemma ptr_at_padd p bj a o : ptr_at p bj a → ptr_at (padd p o) bj (a + o).
Proof. intros ->. unfold ptr_at, padd. cbn. f_equal. lia. Qed.
#[export] Hint Resolve ptr_at_base ptr_at_padd : wc_ptr.

(** A store through a computed pointer into the frame. *)
Lemma pkt_stm_ptr w i v b r bi p a bs :
  v_base v = (bi, 0) → ptr_at p bi a → (a + length bs <= length b)%nat →
  stm p bs (pkt w i v b r) = Done (tt, pkt w i v (stn b a bs) r).
Proof.
  intros Hbase -> Hl. rewrite pkt_stm; [|by rewrite Hbase|cbn; lia|cbn; lia].
  cbn [snd]. by rewrite Nat2Z.id.
Qed.

Section Load.
Context (w : engine) (p : bufptr) (bj : Z) (a : nat) (rb : bytes).
Hypothesis Hp : ptr_at p bj a.
Hypothesis Hm : e_mem w !! bj = Some rb.

Lemma ldm_run n : (a + n <= length rb)%nat → ldm p n w = Done (ldn rb a n, w).
Proof.
  rewrite Hp. intros Hl. unfold ldm, in_buf. cbn [fst snd]. rewrite Hm.
  rewrite (proj2 (Z.leb_le _ _)), (proj2 (Z.leb_le _ _)) by lia. cbn. by rewrite Nat2Z.id.
Qed.
Lemma ldm8_run : (a + 1 <= length rb)%nat → ldm8 p w = Done (ld8 rb a, w).
Proof. intros Hl. unfold ldm8. by mstep (ldm_run 1 Hl). Qed.
Lemma ldm16_run : (a + 2 <= length rb)%nat → ldm16 p w = Done (ld16 rb a, w).
Proof. intros Hl. unfold ldm16. by mstep (ldm_run 2 Hl). Qed.
Lemma ldm32_run : (a + 4 <= length rb)%nat → ldm32 p w = Done (ld32 rb a, w).
Proof. intros Hl. unfold ldm32. by mstep (ldm_run 4 Hl). Qed.
Lemma on_buf_run {A} (f : bytes → nat → outcome A) x :
  f rb a = Done x → on_buf f p w = Done (x, w).
Proof.
  rewrite Hp. intros E. unfold on_buf. cbn [fst snd]. rewrite Hm, (proj2 (Z.leb_le _ _)) by lia.
  rewrite Nat2Z.id. unfold lift. by rewrite E.
Qed.
End Load.

Lemma pkt_mem_own w i v b r bi : v_base v = (bi, 0) → e_mem (pkt w i v b r) !! bi = Some b.
Proof. intros E. unfold pkt. cbn. rewrite E. apply lookup_insert_eq. Qed.
Lemma pkt_mem_other w i v b r bi bj rb :
  v_base v = (bi, 0) → bj ≠ bi → e_mem w !! bj = Some rb → e_mem (pkt w i v b r) !! bj = Some rb.
Proof. intros E Hne Hm. unfold pkt. cbn. rewrite E. by rewrite lookup_insert_ne. Qed.

(** The contents of a buffer in a state. *)
Ltac mem_side := first [eassumption
  | eapply pkt_mem_own; eassumption
  | eapply pkt_mem_other; [eassumption|first [eassumption|done]|mem_side]].

(** Linear arithmetic that knows the layouts of the headers. *)
Ltac wire_lia :=
  rewrite ?length_le_bytes in *;
  unfold eth_data, Eth.size, Eth.dst, Eth.src, Eth.type, ETH_ADDR_BCAST, ETH_ADDR_NONE, ETH_ADDR_MCAST6, IP6_LEN,
    Ip4.size, Ip4.vhl, Ip4.tos, Ip4.len, Ip4.id, Ip4.off, Ip4.ttl, Ip4.p, Ip4.cksum, Ip4.src, Ip4.dst,
    Ip6.size, Ip6.vtcecnfl, Ip6.vfc, Ip6.len, Ip6.next_hdr, Ip6.hlim, Ip6.src, Ip6.dst,
    Udp.size, Udp.sport, Udp.dport, Udp.len, Udp.cksum,
    Icmp.size, Icmp.type, Icmp.code, Icmp.cksum, Icmp.id, Icmp.seq,
    Arp.size, Arp.hrd, Arp.pro, Arp.hln, Arp.pln, Arp.op, Arp.sha, Arp.spa, Arp.tha, Arp.tpa in *;
  cbn [length] in *; lia.

(** One store into the frame; the new frame gets a name, an equation and a length. *)
Ltac name_frame :=
  match goal with
  | |- context [stn ?b ?o ?bs] =>
      is_var b; let b1 := fresh "b" in let E := fresh "Eb" in
      let Hl := fresh "Hl" in let Hb := fresh "Hb" in
      remember (stn b o bs) as b1 eqn:E;
      assert (Hl : length b1 = length b) by (rewrite E; apply length_stn; wire_lia);
      assert (Hb : is_bytes b1) by (rewrite E; apply stn_is_bytes; auto with wc)
  end.
Ltac pkt_store :=
  erewrite bind_run; [|first [eapply pkt_stm_at; [eassumption|wire_lia]
                             |eapply pkt_stm_base; [eassumption|wire_lia]
                             |eapply pkt_stm_at2; [eassumption|wire_lia]]]; cbv beta; name_frame.
Ltac pkt_store_ptr :=
  erewrite bind_run; [|eapply pkt_stm_ptr; [eassumption|solve [eauto with wc_ptr]|wire_lia]]; cbv beta; name_frame.

(** One load. *)
Ltac buf_load :=
  erewrite bind_run; [|first
    [eapply ldm8_run; [solve [eauto with wc_ptr]|mem_side|wire_lia]
    |eapply ldm16_run; [solve [eauto with wc_ptr]|mem_side|wire_lia]
    |eapply ldm32_run; [solve [eauto with wc_ptr]|mem_side|wire_lia]
    |eapply ldm_run; [solve [eauto with wc_ptr]|mem_side|wire_lia]]]; cbv beta.

(** The value of a field: skip the stores elsewhere, read the store at the field. *)
Ltac ld_skip :=
  repeat match goal with E : ?b = stn _ _ _ |- context [ldn ?b _ _] =>
    rewrite E, ldn_stn_ne by wire_lia end.
Ltac ld_field :=
  unfold ld8, ld16, ld32; ld_skip;
  match goal with E : ?b = stn ?c ?o ?bs |- context [ldn ?b ?o' ?n] =>
    rewrite E, (ldn_stn_at c o bs o' n) by wire_lia
  end.

Section Ip4Hdr.
Context (w : engine) (i : nat) (v : w_iov) (b : bytes) (r : krng_t) (bi : Z) (s : option w_sock).
Hypothesis Hbase : v_base v = (bi, 0).
Hypothesis Hlen : (14 + 20 <= length b)%nat.

(** The addresses the header gets. *)
Definition ip4_src_dst : option (Z * Z) :=
  match connected_sock s with
  | Some s => Some (ip4 (sa_addr (ws_loc s)), ip4 (sa_addr (ws_rem s)))
  | None =>
      ia ← ifaddr (e_conf w) !! Z.to_nat (addr4_pos (e_conf w));
      Some (ip4 (ia_addr ia), ip4 (sa_addr (v_saddr v)))
  end.
Definition ip4_tos : Z :=
  if (Z.land (v_flags v) ECN_MASK =? 0) && default_ecn s then Z.lor (v_flags v) ECN_ECT0 else v_flags v.

(** The header [mk_ip4_hdr] writes at offset [o]. *)
Record ip4_hdr_at (b' : bytes) (o : nat) (tos len id p src dst : Z) : Prop := {
  h4_vhl : ld8 b' (o + Ip4.vhl) = 0x45;
  h4_tos : ld8 b' (o + Ip4.tos) = tos;
  h4_len : ld16 b' (o + Ip4.len) = bswap16 len;
  h4_id : ld16 b' (o + Ip4.id) = u16 id;
  h4_off : ld16 b' (o + Ip4.off) = IP4_DF;
  h4_ttl : ld8 b' (o + Ip4.ttl) = 255;
  h4_p : ld8 b' (o + Ip4.p) = p;
  h4_src : ld32 b' (o + Ip4.src) = src;
  h4_dst : ld32 b' (o + Ip4.dst) = dst;
  h4_cksum : ip_cksum b' o 20 = Done 0
}.

(** The header is determined by the bytes from [o] to [o + 20]. *)
Lemma ip4_hdr_at_ldn (b1 b2 : bytes) o tos len id p src dst :
  is_bytes b1 → is_bytes b2 → (o + 20 <= length b1)%nat → (o + 20 <= length b2)%nat →
  (∀ o' n, (o <= o' ∧ o' + n <= o + 20)%nat → ldn b2 o' n = ldn b1 o' n) →
  ip4_hdr_at b1 o tos len id p src dst → ip4_hdr_at b2 o tos len id p src dst.
Proof.
  clear Hbase Hlen b. intros Hb1 Hb2 Hl1 Hl2 E []. split; unfold ld8, ld16, ld32 in *; try (rewrite E by wire_lia; assumption).
  rewrite (ip_cksum_ldn b1 b2 o o 20); try done; try lia. apply E. lia.
Qed.

Lemma ip4_tos_u8 : is_u8 (v_flags v) → is_u8 ip4_tos.
Proof.
  intros H. unfold ip4_tos. destruct (_ && _); [|done]. by apply (lor_range 8).
Qed.

Lemma tos_block b1 :
  is_u8 (v_flags v) → (16 <= length b1)%nat →
  when ((Z.land (v_flags v) ECN_MASK =? 0) && default_ecn s)
    (tos ← ldm8 (padd (padd (v_base v) (eth_data 0)) Ip4.tos);
     stm8 (padd (padd (v_base v) (eth_data 0)) Ip4.tos) (Z.lor tos ECN_ECT0))
    (pkt w i v (stn b1 (eth_data 0 + Ip4.tos) (le_bytes 1 (v_flags v))) r) =
  Done (tt, pkt w i v (stn b1 (eth_data 0 + Ip4.tos) (le_bytes 1 ip4_tos)) r).
Proof.
  intros Hfl Hl. unfold ip4_tos, when. destruct (_ && _); [|done].
  set (o := (eth_data 0 + Ip4.tos)%nat). assert (Ho : o = 15%nat) by done.
  assert (length (stn b1 o (le_bytes 1 (v_flags v))) = length b1) as Hl1 by (apply length_stn; wire_lia).
  unfold ldm8. rewrite bind_assoc_run.
  erewrite bind_run; [|eapply pkt_ldm_at; [eassumption|fold o; lia]]. cbv beta. fold o. mstep.
  unfold stm8. erewrite pkt_stm_at; [|eassumption|fold o; rewrite length_le_bytes; lia]. fold o.
  rewrite stn_stn_eq by (rewrite !length_le_bytes; lia).
  assert (ldn (stn b1 o (le_bytes 1 (v_flags v))) o 1 = le_bytes 1 (v_flags v)) as ->.
  { apply (ldn_stn_eq b1 o (le_bytes 1 (v_flags v))). wire_lia. }
  rewrite le_val_bytes. by rewrite Z.mod_small.
Qed.

(** The protocol is set for a socket and left alone otherwise. *)
Lemma p_block v' b1 r' o :
  v_base v' = (bi, 0) → (14 + o + 1 <= length b1)%nat → is_bytes b1 →
  when (bool_decide (is_Some s)) (stm8 (padd (padd (v_base v') (eth_data 0)) o) IP_P_UDP) (pkt w i v' b1 r') =
  Done (tt, pkt w i v' (stn b1 (eth_data 0 + o)
              (le_bytes 1 (if s then IP_P_UDP else ld8 b1 (eth_data 0 + o)))) r').
Proof.
  clear Hlen Hbase b. intros Hbase' Hl Hb1. destruct s as [s'|].
  - rewrite bool_decide_true by eauto. unfold when, stm8.
    erewrite pkt_stm_at; [done|eassumption|wire_lia].
  - rewrite bool_decide_false by (intros [? [=]]). unfold when, ld8.
    rewrite <- (length_ldn b1 (eth_data 0 + o) 1) at 1 by wire_lia.
    rewrite le_bytes_val by auto with wc. by rewrite stn_ldn_id by wire_lia.
Qed.

Lemma ip4_addr_block v' b1 r' src dst :
  v_base v' = (bi, 0) → v_saddr v' = v_saddr v → (34 <= length b1)%nat →
  ip4_src_dst = Some (src, dst) → 0 <= addr4_pos (e_conf w) →
  match connected_sock s with
  | Some s =>
      stm32 (padd (padd (v_base v') (eth_data 0)) Ip4.src) (ip4 (sa_addr (ws_loc s))) ;;
      stm32 (padd (padd (v_base v') (eth_data 0)) Ip4.dst) (ip4 (sa_addr (ws_rem s)))
  | None =>
      w ← get;
      ia ← lift (rd (ifaddr (e_conf w)) (addr4_pos (e_conf w)));
      stm32 (padd (padd (v_base v') (eth_data 0)) Ip4.src) (ip4 (ia_addr ia)) ;;
      stm32 (padd (padd (v_base v') (eth_data 0)) Ip4.dst) (ip4 (sa_addr (v_saddr v')))
  end (pkt w i v' b1 r') =
  Done (tt, pkt w i v' (stn (stn b1 (eth_data 0 + Ip4.src) (le_bytes 4 src))
                          (eth_data 0 + Ip4.dst) (le_bytes 4 dst)) r').
Proof.
  intros Hbase' Hsa Hl Haddr Hpos. unfold ip4_src_dst in Haddr. unfold stm32.
  destruct (connected_sock s) as [s'|].
  - injection Haddr as <- <-.
    erewrite bind_run; [|eapply pkt_stm_at; [eassumption|wire_lia]].
    erewrite pkt_stm_at; [done|eassumption|rewrite length_stn; wire_lia].
  - destruct (ifaddr (e_conf w) !! Z.to_nat (addr4_pos (e_conf w))) as [ia|] eqn:Hia; [|done].
    injection Haddr as <- <-. mstep. mstep (lift_run _ _ _ (rd_Z _ _ _ Hpos Hia)). rewrite Hsa.
    erewrite bind_run; [|eapply pkt_stm_at; [eassumption|wire_lia]].
    erewrite pkt_stm_at; [done|eassumption|rewrite length_stn; wire_lia].
Qed.

Lemma mk_ip4_hdr_run fuel id r' src dst :
  is_bytes b → is_u8 (v_flags v) → ip4_src_dst = Some (src, dst) → is_u32 src → is_u32 dst →
  0 <= addr4_pos (e_conf w) → w_rand_uniform32 fuel UINT16_MAX r = Done (id, r') →
  let len := u16 (v_len v + 20) in
  ∃ b', mk_ip4_hdr fuel i s (pkt w i v b r) = Done (tt, pkt w i (set_len v len) b' r') ∧
    length b' = length b ∧ is_bytes b' ∧
    ip4_hdr_at b' 14 ip4_tos len id (if s then IP_P_UDP else ld8 b (14 + Ip4.p)) src dst ∧
    ∀ o n, (o + n <= 14 ∨ 34 <= o)%nat → ldn b' o n = ldn b o n.
Proof.
  intros Hb Hfl Haddr Hsrc Hdst Hpos Hrnd len. unfold mk_ip4_hdr.
  mstep (pkt_get_iov w i v b r).
  pkt_store.
  erewrite bind_run; [|eapply pkt_stm_at; [eassumption|wire_lia]]; cbv beta.
  erewrite bind_run; [|apply tos_block; [done|wire_lia]]. cbv beta. name_frame.
  set (v2 := set_len v len). assert (Hbase2 : v_base v2 = (bi, 0)) by done.
  mstep (pkt_put_iov w i v b1 r v2 eq_refl). mstep (pkt_get_iov w i v2 b1 r).
  change (v_len v2) with len. change (v_base v) with (v_base v2).
  pkt_store. mstep (pkt_liftr w i v2 _ r _ _ _ Hrnd).
  pkt_store. pkt_store. pkt_store.
  erewrite bind_run; [|eapply p_block; [eassumption|wire_lia|done]]; cbv beta. name_frame.
  erewrite bind_run; [|by apply ip4_addr_block; [..|wire_lia| |]]; cbv beta. name_frame. name_frame.
  pkt_store.
  destruct (ip_cksum_store b8 14 5 20) as (c & Ec & Hc & Eok); [done|lia|wire_lia|lia|].
  assert (b9 = st16 b8 (14 + 2 * 5) 0) as Eb9 by done. rewrite <- Eb9 in Ec, Eok.
  erewrite bind_run; [|by eapply pkt_on_buf_at]. cbv beta.
  unfold stm16 at 1. erewrite pkt_stm_at; [|eassumption|wire_lia]. name_frame.
  exists b10. split_and!; [done|congruence|done| |].
  - split; [..|by rewrite Eb10].
    + ld_field. by rewrite le_val_bytes.
    + ld_field. rewrite le_val_bytes. by rewrite Z.mod_small by (by apply ip4_tos_u8).
    + ld_field. rewrite le_val_bytes. rewrite Z.mod_small; [done|apply bswap16_range].
    + ld_field. rewrite le_val_bytes. rewrite Z.mod_small; [done|apply u16_range].
    + ld_field. by rewrite le_val_bytes.
    + ld_field. by rewrite le_val_bytes.
    + ld_field. rewrite le_val_bytes. destruct s; [done|]. rewrite Z.mod_small by (by apply ld8_range).
      unfold ld8. by ld_skip.
    + ld_field. rewrite le_val_bytes. by rewrite Z.mod_small.
    + ld_field. rewrite le_val_bytes. by rewrite Z.mod_small.
  - intros o n Ho. by ld_skip.
Qed.
End Ip4Hdr.

Section Ip6Hdr.
Context (w : engine) (i : nat) (v : w_iov) (b : bytes) (r : krng_t) (bi : Z) (s : option w_sock).
Hypothesis Hbase : v_base v = (bi, 0).
Hypothesis Hlen : (14 + 40 <= length b)%nat.

Definition ip6_src_dst : option (bytes * bytes) :=
  match connected_sock s with
  | Some s => Some (take IP6_LEN (ip6 (sa_addr (ws_loc s))), take IP6_LEN (ip6 (sa_addr (ws_rem s))))
  | None =>
      ia ← ifaddr (e_conf w) !! 0%nat;
      Some (take IP6_LEN (ip6 (ia_addr ia)), take IP6_LEN (ip6 (sa_addr (v_saddr v))))
  end.

(** The first word of the header, from the word [x] that is there once the version
    is set. *)
Definition ip6_word (x : Z) : Z :=
  if negb (Z.land (v_flags v) ECN_MASK =? 0)
  then Z.lor x (Z.lor (Z.shiftl (Z.land (v_flags v) 0x0f) 12) (Z.shiftr (Z.land (v_flags v) 0xf0) 4))
  else if default_ecn s then Z.lor x (Z.shiftl ECN_ECT0 20) else x.

(** The header [mk_ip6_hdr] writes at offset [o]. *)
Record ip6_hdr_at (b' : bytes) (o : nat) (word len nh : Z) (src dst : bytes) : Prop := {
  h6_word : ld32 b' (o + Ip6.vtcecnfl) = word;
  h6_len : ld16 b' (o + Ip6.len) = bswap16 len;
  h6_nh : ld8 b' (o + Ip6.next_hdr) = nh;
  h6_hlim : ld8 b' (o + Ip6.hlim) = 255;
  h6_src : ldn b' (o + Ip6.src) 16 = src;
  h6_dst : ldn b' (o + Ip6.dst) 16 = dst
}.

Lemma ip6_word_u32 x : is_u8 (v_flags v) → is_u32 x → is_u32 (ip6_word x).
Proof.
  intros Hf Hx. assert (is_u32 (Z.shiftl ECN_ECT0 20)) by done.
  unfold ip6_word, is_u32 in *. unfold is_u8 in Hf. destruct (negb _).
  - apply (lor_range 32); [done|done|]. apply (lor_range 32); [done| |].
    + rewrite land_f, Z.shiftl_mul_pow2 by done. zdm.
    + change 0xf0 with (Z.shiftl (2 ^ 4 - 1) 4).
      rewrite land_field_arith, Z.shiftr_div_pow2 by done. zdm.
  - destruct (default_ecn s); [|done]. by apply (lor_range 32).
Qed.

Lemma ip6_word_block b1 :
  is_bytes b1 → (18 <= length b1)%nat →
  (if negb (Z.land (v_flags v) ECN_MASK =? 0) then
     x ← ldm32 (padd (padd (v_base v) (eth_data 0)) Ip6.vtcecnfl);
     stm32 (padd (padd (v_base v) (eth_data 0)) Ip6.vtcecnfl)
       (Z.lor x (Z.lor (Z.shiftl (Z.land (v_flags v) 0x0f) 12)
                       (Z.shiftr (Z.land (v_flags v) 0xf0) 4)))
   else
     when (default_ecn s)
       (x ← ldm32 (padd (padd (v_base v) (eth_data 0)) Ip6.vtcecnfl);
        stm32 (padd (padd (v_base v) (eth_data 0)) Ip6.vtcecnfl) (Z.lor x (Z.shiftl ECN_ECT0 20))))
    (pkt w i v b1 r) =
  Done (tt, pkt w i v (stn b1 (eth_data 0 + Ip6.vtcecnfl)
              (le_bytes 4 (ip6_word (ld32 b1 (eth_data 0 + Ip6.vtcecnfl))))) r).
Proof.
  intros Hb1 Hl. unfold ip6_word, when, ldm32, stm32. destruct (negb _); [|destruct (default_ecn s)].
  - rewrite bind_assoc_run. erewrite bind_run; [|eapply pkt_ldm_at; [eassumption|wire_lia]]. cbv beta.
    mstep. erewrite pkt_stm_at; [done|eassumption|wire_lia].
  - rewrite bind_assoc_run. erewrite bind_run; [|eapply pkt_ldm_at; [eassumption|wire_lia]]. cbv beta.
    mstep. erewrite pkt_stm_at; [done|eassumption|wire_lia].
  - unfold ld32. rewrite <- (length_ldn b1 (eth_data 0 + Ip6.vtcecnfl) 4) at 1 by wire_lia.
    rewrite le_bytes_val by auto with wc. by rewrite stn_ldn_id by wire_lia.
Qed.

Lemma ip6_addr_block b1 src dst :
  (54 <= length b1)%nat → ip6_src_dst = Some (src, dst) → length src = 16%nat → length dst = 16%nat →
  match connected_sock s with
  | Some s =>
      stm (padd (padd (v_base v) (eth_data 0)) Ip6.src) (take IP6_LEN (ip6 (sa_addr (ws_loc s)))) ;;
      stm (padd (padd (v_base v) (eth_data 0)) Ip6.dst) (take IP6_LEN (ip6 (sa_addr (ws_rem s))))
  | None =>
      w ← get;
      ia ← lift (rd (ifaddr (e_conf w)) 0);
      stm (padd (padd (v_base v) (eth_data 0)) Ip6.src) (take IP6_LEN (ip6 (ia_addr ia))) ;;
      stm (padd (padd (v_base v) (eth_data 0)) Ip6.dst) (take IP6_LEN (ip6 (sa_addr (v_saddr v))))
  end (pkt w i v b1 r) =
  Done (tt, pkt w i v (stn (stn b1 (eth_data 0 + Ip6.src) src) (eth_data 0 + Ip6.dst) dst) r).
Proof.
  intros Hl Haddr Hs Hd. unfold ip6_src_dst in Haddr. destruct (connected_sock s) as [s'|].
  - injection Haddr as <- <-.
    erewrite bind_run; [|eapply pkt_stm_at; [eassumption|wire_lia]].
    erewrite pkt_stm_at; [done|eassumption|rewrite length_stn; wire_lia].
  - destruct (ifaddr (e_conf w) !! 0%nat) as [ia|] eqn:Hia; [|done]. injection Haddr as <- <-.
    mstep. mstep (lift_run _ _ _ (rd_Some _ 0 _ Hia)).
    erewrite bind_run; [|eapply pkt_stm_at; [eassumption|wire_lia]].
    erewrite pkt_stm_at; [done|eassumption|rewrite length_stn; wire_lia].
Qed.

Lemma mk_ip6_hdr_run src dst :
  is_bytes b → is_u8 (v_flags v) → ip6_src_dst = Some (src, dst) →
  is_bytes src → is_bytes dst → length src = 16%nat → length dst = 16%nat →
  let b0 := st8 b 14 0x60 in
  ∃ b', mk_ip6_hdr i s (pkt w i v b r) = Done (tt, pkt w i (set_len v (u16 (v_len v + 40))) b' r) ∧
    length b' = length b ∧ is_bytes b' ∧
    ip6_hdr_at b' 14 (ip6_word (ld32 b0 14)) (v_len v)
      (if s then IP_P_UDP else ld8 b (14 + Ip6.next_hdr)) src dst ∧
    ∀ o n, (o + n <= 14 ∨ 54 <= o)%nat → ldn b' o n = ldn b o n.
Proof.
  intros Hb Hfl Haddr Hsrc Hdst Hls Hld b0'. unfold mk_ip6_hdr.
  mstep (pkt_get_iov w i v b r). pkt_store.
  erewrite bind_run; [|apply ip6_word_block; [done|wire_lia]]. cbv beta. name_frame.
  pkt_store. pkt_store.
  erewrite bind_run; [|eapply p_block; [eassumption|wire_lia|done]]. cbv beta. name_frame.
  erewrite bind_run; [|by apply ip6_addr_block; [wire_lia|..]]. cbv beta. name_frame. name_frame.
  mstep (pkt_get_iov w i v b6 r). unfold Ip6.size. rewrite (pkt_put_iov w i v b6 r) by done.
  exists b6. split_and!; [done|congruence|done| |].
  - split.
    + ld_field. rewrite le_val_bytes, Z.mod_small; [by subst|].
      apply ip6_word_u32; [done|]. by apply ld32_range.
    + ld_field. rewrite le_val_bytes. rewrite Z.mod_small; [done|apply bswap16_range].
    + ld_field. rewrite le_val_bytes. destruct s; [done|]. rewrite Z.mod_small by (by apply ld8_range).
      unfold ld8. by ld_skip.
    + ld_field. by rewrite le_val_bytes.
    + by ld_field.
    + by ld_field.
  - intros o n Ho. by ld_skip.
Qed.
End Ip6Hdr.

(** The identifier of the IPv4 header: the draw never rejects. *)
Lemma ip_id_run fuel r : (0 < fuel)%nat → ∃ id r', w_rand_uniform32 fuel UINT16_MAX r = Done (id, r').
Proof.
  intros Hf. destruct (w_rand_uniform32_finishes fuel UINT16_MAX r 0) as (id & r' & E & _); [done|done| |eauto].
  change (uniform_min UINT32_MAX UINT16_MAX) with 0. unfold draw32.
  apply Z.mod_pos_bound. done.
Qed.

(** ** Reading the headers *)

(** The version nibble survives what [mk_ip6_hdr] ors into the first word. *)
Lemma ip6_word_version v s x : is_u8 (v_flags v) → u8 x = 0x60 → ip_v (u8 (ip6_word v s x)) = 6.
Proof.
  intros Hf Hx.
  assert (Hlow : ∀ y, u8 (Z.lor x y) = Z.lor 0x60 (u8 y)).
  { intros y. rewrite <- Hx. unfold u8. change (2 ^ 8) with (Z.shiftl 1 8).
    rewrite <- !(Z.land_ones _ 8) by done. by rewrite Z.land_lor_distr_l. }
  unfold ip6_word. destruct (negb _); [|destruct (default_ecn s)].
  - rewrite Hlow. apply Z.eqb_eq. unfold is_u8 in Hf.
    apply (below_forallb 256 (λ f, ip_v (Z.lor 96 (u8 (Z.lor (Z.shiftl (Z.land f 15) 12)
      (Z.shiftr (Z.land f 240) 4)))) =? 6)); [by vm_compute|done].
  - by rewrite Hlow.
  - by rewrite Hx.
Qed.

Lemma u8_ld32 b o : is_bytes b → (o + 4 <= length b)%nat → u8 (ld32 b o) = ld8 b o.
Proof.
  intros Hb Hl. unfold ld32. change 4%nat with (1 + 3)%nat. rewrite ldn_add, le_val_app, length_ldn by lia.
  change (256 ^ Z.of_nat 1) with 256. pose proof (ld8_range b o Hb) as H. unfold ld8 in *.
  set (y := le_val (ldn b (o + 1) 3)). unfold_u. zdm.
Qed.

Lemma ip6_take a : w_addr_wf a → length (take IP6_LEN (ip6 a)) = 16%nat ∧ is_bytes (take IP6_LEN (ip6 a)).
Proof.
  intros [_ Hb Hl]. split; [unfold ip6; by rewrite length_take, Hl|by apply Forall_take].
Qed.

(** The checksum of a packet does not depend on what is in front of it. *)
(** The checksum is determined by the bytes of the packet. *)
Lemma payload_cksum_prefix b b' buf len :
  payload_ok b buf len → is_bytes b' → Z.of_nat buf + len <= Z.of_nat (length b') →
  (∀ o n, (buf <= o)%nat → Z.of_nat (o + n) <= Z.of_nat buf + len → ldn b' o n = ldn b o n) →
  payload_cksum b' buf len = payload_cksum b buf len.
Proof.
  intros Hok Hb' Hl E. pose proof (hdr_len_bounds b buf len Hok) as Hh. pose proof Hok as [H1 H2 H3 H4].
  assert (E8 : ∀ o, (buf <= o)%nat → Z.of_nat o + 1 <= Z.of_nat buf + len → ld8 b' o = ld8 b o).
  { intros o Ho Ho'. unfold ld8. rewrite E by lia. done. }
  assert (E16 : ∀ o, (buf <= o)%nat → Z.of_nat o + 2 <= Z.of_nat buf + len → ld16 b' o = ld16 b o).
  { intros o Ho Ho'. unfold ld16. rewrite E by lia. done. }
  assert (Hv : ld8 b' buf = ld8 b buf) by (apply E8; lia).
  assert (Hok' : payload_ok b' buf len).
  { split; [done|done|done|]. rewrite Hv. destruct (ip_v (ld8 b buf) =? 4); [done|]. rewrite E8 by wire_lia. done. }
  rewrite !payload_cksum_sum by done. unfold pseudo_hdr, payload_bytes, hdr_len, ip4_data_len in *. rewrite Hv.
  destruct (ip_v (ld8 b buf) =? 4); rewrite ?(Nat.add_0_r buf), !E8, ?E16, !E by wire_lia; done.
Qed.
Lemma payload_cksum_ldn b b' buf len :
  payload_ok b buf len → is_bytes b' → length b' = length b →
  (∀ o n, (buf <= o)%nat → ldn b' o n = ldn b o n) → payload_cksum b' buf len = payload_cksum b buf len.
Proof. intros Hok Hb' Hl E. apply payload_cksum_prefix; [done|done|rewrite Hl; apply Hok|auto]. Qed.

Lemma ip6_hdr_at_ldn (b1 b2 : bytes) o word len nh src dst :
  (∀ o' n, (o <= o' ∧ o' + n <= o + 40)%nat → ldn b2 o' n = ldn b1 o' n) →
  ip6_hdr_at b1 o word len nh src dst → ip6_hdr_at b2 o word len nh src dst.
Proof. intros E []. split; unfold ld8, ld16, ld32 in *; rewrite E by wire_lia; assumption. Qed.

(** ** What the headers contain *)

(** [mk_ip4_hdr] writes the header of RFC 791 for the vector's payload: version
    and length, the DSCP and ECN bits of the vector (or the default marking of the
    socket), lengths, addresses and a checksum that verifies, and leaves the rest
    of the frame alone. *)
Theorem mk_ip4_hdr_correct w i v b bi s fuel id r' src dst :
  e_bufs w !! i = Some v → e_mem w !! bi = Some b → v_base v = (bi, 0) →
  (34 <= length b)%nat → is_bytes b → is_u8 (v_flags v) →
  ip4_src_dst w v s = Some (src, dst) → is_u32 src → is_u32 dst → 0 <= addr4_pos (e_conf w) →
  w_rand_uniform32 fuel UINT16_MAX (e_rng w) = Done (id, r') →
  let len := u16 (v_len v + 20) in
  ∃ b', mk_ip4_hdr fuel i s w = Done (tt, pkt w i (set_len v len) b' r') ∧
    length b' = length b ∧
    ip4_hdr_at b' 14 (ip4_tos v s) len id (if s then IP_P_UDP else ld8 b (14 + Ip4.p)) src dst ∧
    ∀ o n, (o + n <= 14 ∨ 34 <= o)%nat → ldn b' o n = ldn b o n.
Proof.
  intros Hv Hm Hbase Hl Hb Hf Ha Hs Hd Hp Hr len.
  assert (w = pkt w i v b (e_rng w)) as Ew by (apply pkt_intro; [done|by rewrite Hbase]).
  destruct (mk_ip4_hdr_run w i v b (e_rng w) bi s Hbase Hl fuel id r' src dst)
    as (b' & E & Hlb & _ & Hh & Hfr); [done..|].
  rewrite <- Ew in E. by exists b'.
Qed.

(** [mk_ip6_hdr] writes length, hop limit, next header and addresses, and leaves
    the rest of the frame alone; of the first word only the first byte is set, the
    others are added to what the buffer held. *)
Theorem mk_ip6_hdr_correct w i v b bi s src dst :
  e_bufs w !! i = Some v → e_mem w !! bi = Some b → v_base v = (bi, 0) →
  (54 <= length b)%nat → is_bytes b → is_u8 (v_flags v) →
  ip6_src_dst w v s = Some (src, dst) → is_bytes src → is_bytes dst →
  length src = 16%nat → length dst = 16%nat →
  ∃ b', mk_ip6_hdr i s w = Done (tt, pkt w i (set_len v (u16 (v_len v + 40))) b' (e_rng w)) ∧
    length b' = length b ∧
    ip6_hdr_at b' 14 (ip6_word v s (ld32 (st8 b 14 0x60) 14)) (v_len v)
      (if s then IP_P_UDP else ld8 b (14 + Ip6.next_hdr)) src dst ∧
    ∀ o n, (o + n <= 14 ∨ 54 <= o)%nat → ldn b' o n = ldn b o n.
Proof.
  intros Hv Hm Hbase Hl Hb Hf Ha Hs Hd Hls Hld.
  assert (w = pkt w i v b (e_rng w)) as Ew by (apply pkt_intro; [done|by rewrite Hbase]).
  destruct (mk_ip6_hdr_run w i v b (e_rng w) bi s Hbase Hl src dst)
    as (b' & E & Hlb & _ & Hh & Hfr); [done..|].
  rewrite <- Ew in E. by exists b'.
Qed.

(** The first word, on a buffer that held zeros there, for all flags. *)
Definition ip6_word_ok (f : Z) (ecn : bool) : bool :=
  let s := if ecn then Some (WSock (WSocktuple (WSockaddr (WAddr 0 []) 0) (WSockaddr (WAddr 0 []) 0) 0)
                               [] (WSockopt false true) 0) else None in
  let x := ip6_word (WIov (WSockaddr (WAddr 0 []) 0) (0, 0) (0, 0) 0 0 f 0 0) s 0x60 in
  let marked := negb (f mod 4 =? 0) in
  (ip_v (u8 x) =? 6) && (ip6_tos x =? (if marked then f else 0)) &&
  (ip6_flow_label x =? (if negb marked && ecn then 0x200000 else 0)).

Lemma ip6_word_all : forallb (λ f, ip6_word_ok f true && ip6_word_ok f false) (below 256) = true.
Proof. vm_compute. reflexivity. Qed.

(** Traffic class and flow label of the header, on a buffer that held zeros: the
    vector's flags are the traffic class if they have ECN bits; otherwise its DSCP
    is dropped, and the default ECN marking of the socket lands in the flow label. *)
Theorem mk_ip6_hdr_traffic_class v s :
  is_u8 (v_flags v) →
  let x := ip6_word v s 0x60 in
  ip_v (u8 x) = 6 ∧
  if v_flags v mod 4 =? 0
  then ip6_tos x = 0 ∧ ip6_flow_label x = if default_ecn s then 0x200000 else 0
  else ip6_tos x = v_flags v ∧ ip6_flow_label x = 0.
Proof.
  intros Hf x. assert (In (v_flags v) (below 256)) as Hin.
  { unfold below. apply in_map_iff. exists (Z.to_nat (v_flags v)).
    unfold is_u8 in Hf. split; [lia|]. apply in_seq. lia. }
  pose proof (proj1 (forallb_forall _ _) ip6_word_all _ Hin) as [H1 H2]%andb_true_iff.
  assert (ip6_word_ok (v_flags v) (default_ecn s) = true) as H by (by destruct (default_ecn s)).
  unfold ip6_word_ok in H.
  replace (ip6_word _ _ 0x60) with x in H.
  2: { unfold x, ip6_word. cbn. by destruct (default_ecn s). }
  rewrite !andb_true_iff, !Z.eqb_eq in H. destruct H as [[Hv Ht] Hl].
  split; [done|]. by destruct (v_flags v mod 4 =? 0), (default_ecn s).
Qed.

(** ** Witnesses *)

Lemma zeros_bytes n : is_bytes (repeat 0 n).
Proof. induction n; constructor; done. Qed.
Definition mem_ex : gmap Z bytes :=
  list_to_map ((λ i, (i, repeat 0 128)) <$> [0; 1; 2; 3; 100; 101; 102; 103]).
Definition eng_mem_ex : engine := set_mem eng_tx_ex mem_ex.

Lemma mk_ip4_hdr_correct_witness :
  ∃ b' r', mk_ip4_hdr 1 3 None eng_mem_ex = Done (tt, pkt eng_mem_ex 3 (set_len (iov_ex 3) 20) b' r') ∧
    ip_cksum b' 14 20 = Done 0 ∧ ld32 b' (14 + Ip4.src) = 0x0100000a.
Proof.
  destruct (w_rand_uniform32 1 UINT16_MAX (Krng 1 2)) as [[id r']| | |] eqn:E;
    [|vm_compute in E; discriminate E..].
  destruct (mk_ip4_hdr_correct eng_mem_ex 3 (iov_ex 3) (repeat 0 128) 3 None 1 id r' 0x0100000a 0)
    as (b' & E' & _ & H & _).
  - reflexivity.
  - reflexivity.
  - reflexivity.
  - apply Nat.leb_le. vm_compute. reflexivity.
  - apply zeros_bytes.
  - split; [discriminate|reflexivity].
  - reflexivity.
  - split; [discriminate|reflexivity].
  - split; [discriminate|reflexivity].
  - discriminate.
  - exact E.
  - exists b', r'. split; [exact E'|]. split; [apply (h4_cksum _ _ _ _ _ _ _ _ H)|apply (h4_src _ _ _ _ _ _ _ _ H)].
Defined.

Lemma mk_ip6_hdr_correct_witness :
  ∃ b', mk_ip6_hdr 3 None eng_mem_ex =
      Done (tt, pkt eng_mem_ex 3 (set_len (iov_ex 3) 40) b' (Krng 1 2)) ∧
    ld32 b' 14 = 0x60 ∧ ldn b' (14 + Ip6.src) 16 = take 16 (un addr_ex6).
Proof.
  destruct (mk_ip6_hdr_correct eng_mem_ex 3 (iov_ex 3) (repeat 0 128) 3 None (take 16 (un addr_ex6)) (repeat 0 16))
    as (b' & E' & _ & H & _); try done.
  - apply Nat.leb_le. vm_compute. reflexivity.
  - apply zeros_bytes.
  - by eapply bool_decide_unpack, Is_true_eq_left.
  - apply zeros_bytes.
  - exists b'. split; [exact E'|]. split; [exact (h6_word _ _ _ _ _ _ _ H)|exact (h6_src _ _ _ _ _ _ _ H)].
Defined.

Lemma mk_ip6_hdr_traffic_class_witness :
  ip6_tos (ip6_word (WIov (WSockaddr (WAddr 0 []) 0) (0, 0) (0, 0) 0 0 0xb9 0 0) None 0x60) = 0xb9.
Proof.
  apply (mk_ip6_hdr_traffic_class (WIov (WSockaddr (WAddr 0 []) 0) (0, 0) (0, 0) 0 0 0xb9 0 0) None).
  done.
Defined.
