(* ===== verification/Send.v ===== *)
(** Sending a reply (the common shape of [arp_is_at], [arp_who_has], [icmp4_tx],
    [icmp6_nsol] and [icmp6_tx]): take a vector from the free list, write a frame
    into its buffer, transmit it with [eth_tx_and_free].  The invariant of the
    engine between packets, and the lemma that every such handler preserves it. *)

From S2P Require Import Prelude Util Krng Queue Wire Cksum Addr Khash Engine Netmap Ip.

(** ** The invariant between packets *)

(** The buffers have [L] bytes; the vectors of the free list are in no TX ring and
    point at the buffers they own. *)
Record net_inv (L : nat) (home : homes) (D : gset nat) (m : queues) (w : engine) : Prop := {
  ni_eng : eng_inv D m w;
  ni_tx : tx_inv home w;
  ni_pipe : e_pipe w = false;
  ni_free : ∀ free i v, m !! IOVQ = Some free → i ∈ free → e_bufs w !! i = Some v →
    not_waiting w i ∧ v_base v = (h_iov home i, 0) ∧ w_addr_wf (sa_addr (v_saddr v));
  ni_mem : ∀ i, i ∈ D → ∃ b, e_mem w !! h_iov home i = Some b ∧ length b = L ∧ is_bytes b
}.

(** The parts of the engine a transmission leaves alone. *)
Record same_rest (w w' : engine) : Prop := {
  sr_conf : e_conf w' = e_conf w;
  sr_neighbor : e_neighbor w' = e_neighbor w;
  sr_sock : e_sock w' = e_sock w;
  sr_socks : e_socks w' = e_socks w;
  sr_rxr : e_rxr w' = e_rxr w;
  sr_last : e_last w' = e_last w;
  sr_slots : nr_num_slots <$> e_txr w' = nr_num_slots <$> e_txr w
}.

#[export] Instance same_rest_preorder : PreOrder same_rest.
Proof.
  split; [done|]. intros w1 w2 w3 [] []. split; congruence.
Qed.

(** The rings are small enough for [fuel] rounds of waiting. *)
Definition fuel_ok (fuel : nat) (w : engine) : Prop :=
  (1 < fuel)%nat ∧ ∀ k r, e_txr w !! k = Some r → nr_num_slots r < Z.of_nat fuel.

Lemma fuel_ok_rest fuel w w' : same_rest w w' → fuel_ok fuel w → fuel_ok fuel w'.
Proof.
  intros Hs [H1 H2]. split; [done|]. intros k r Hr. pose proof (sr_slots _ _ Hs) as E.
  apply (f_equal (.!! k)) in E. rewrite !list_lookup_fmap, Hr in E.
  destruct (e_txr w !! k) as [r'|] eqn:Hr'; [|done]. cbn in E. injection E as ->. by apply (H2 k).
Qed.

Lemma tx_only_rest w w' : tx_only w w' → same_rest w w' ∧ e_mem w' = e_mem w ∧ e_rng w' = e_rng w ∧
  e_pipe w' = e_pipe w.
Proof. by intros [(b & tx & c & tl & sb & t & ->) _ Hs _]. Qed.

Lemma tx_inv_ext home w w' :
  e_txr w' = e_txr w → e_slot_buf w' = e_slot_buf w → e_tail w' = e_tail w → e_cur_txr w' = e_cur_txr w →
  v_idx <$> e_bufs w' = v_idx <$> e_bufs w → tx_inv home w → tx_inv home w'.
Proof.
  intros E1 E2 E3 E4 E5 [Hcur Hn Htl Hdi [C1 C2 C3 C4 C5 C6 C7 C8 C9]].
  assert (Hdom : dom (e_bufs w') = dom (e_bufs w)) by (by rewrite <- (dom_fmap_L v_idx), E5, dom_fmap_L).
  assert (Hv : ∀ i v, e_bufs w' !! i = Some v → ∃ v0, e_bufs w !! i = Some v0 ∧ v_idx v0 = v_idx v).
  { intros i v Hi. pose proof (f_equal (.!! i) E5) as Ei. cbv beta in Ei. rewrite !lookup_fmap, Hi in Ei.
    destruct (e_bufs w !! i) as [v0|]; [|done]. exists v0. split; [done|]. cbn in Ei. congruence. }
  unfold pending, slot_iov, slot_at in *.
  split; rewrite ?E1, ?E4, ?E3; [done|done|done| |split]; unfold pending, slot_iov, slot_at;
    rewrite ?E1, ?E2, ?Hdom; try assumption.
  - intros i v Hi Hnp. destruct (Hv i v Hi) as (v0 & H0 & <-). by apply C7.
  - intros k j i v Hp Hs Hi. destruct (Hv i v Hi) as (v0 & H0 & <-). by apply (C8 k j i).
Qed.

(** The outcome [w'] of sending from [w] the frame [b] of [len] bytes after the
    Ethernet header, in the buffer of vector [i]: unless all rings were full, the kernel was
    shown the frame in a TX ring. *)
Record reply_sent `{Netmap} (L : nat) (home : homes) (D : gset nat) (m : queues) (w : engine)
    (i : nat) (b : bytes) (len : Z) (w' : engine) : Prop := {
  rs_inv : net_inv L home D m w';
  rs_rest : same_rest w w';
  rs_mem : e_mem w' = <[h_iov home i := b]> (e_mem w);
  rs_bufs : ∀ i', i' ≠ i → no_idx <$> (e_bufs w' !! i') = no_idx <$> (e_bufs w !! i');
  rs_sent : frame_out w w' (h_iov home i) (u16 (len + 14)) b
}.

Section Send.
Context `{NetmapLaws, !NetmapProgress}.
Context (L : nat) (home : homes) (D : gset nat) (m : queues) (fuel : nat) (w : engine).
Hypothesis Hinv : net_inv L home D m w.
Hypothesis Hfuel : fuel_ok fuel w.

(** A vector from the free list, and what happens to the frame written into it. *)
Lemma send_run i free :
  m !! IOVQ = Some (i :: free) →
  ∃ q v b, let w1 := set_iovs w q (e_bufs w) in
    w_alloc_iov_base true w = Done (Some i, pkt w1 i (reinit true w v) b (e_rng w)) ∧
    e_bufs w !! i = Some v ∧ e_mem w !! h_iov home i = Some b ∧
    v_base v = (h_iov home i, 0) ∧ w_addr_wf (sa_addr (v_saddr v)) ∧
    length b = L ∧ is_bytes b ∧
    ∀ v' b' r', v_base v' = v_base v → v_idx v' = v_idx v →
      w_addr_wf (sa_addr (v_saddr v')) → length b' = L → is_bytes b' →
      ∃ w', eth_tx_and_free fuel i (pkt w1 i v' b' r') = Done (tt, w') ∧
        e_rng w' = r' ∧ reply_sent L home D m w i b' (v_len v') w'.
Proof.
  intros Hm. destruct Hinv as [Heng Htx Hpipe Hfree Hmem].
  pose proof (w_alloc_iov_base_run true D m w Heng) as Ha. rewrite Hm in Ha.
  destruct Ha as (q & v & Ea & Hv & Hnx & Heng1).
  destruct (Hfree (i :: free) i v Hm) as (Hnw & Hbase & Hun); [by left|done|].
  assert (HiD : i ∈ D) by (rewrite <- (ei_bufs _ _ _ Heng); by apply elem_of_dom).
  destruct (Hmem i HiD) as (b & Hb & Hlen & Hbytes).
  exists q, v, b. cbv zeta. set (w1 := set_iovs w q (e_bufs w)).
  split_and!; [|done|done|done|done|done|done|].
  { rewrite Ea. unfold pkt, w1. cbn. rewrite Hbase. cbn. rewrite (insert_id (e_mem w)) by done.
    by destruct w. }
  intros v' b' r' Hb' Hi' Hu' Hl' Hby'. set (w2 := pkt w1 i v' b' r').
  assert (Heng2 : eng_inv D (<[IOVQ := free]> m) w2).
  { destruct Heng1 as [Q1 Q2 Q3]. split; [exact Q1| |done]. unfold w2, pkt, w1. cbn.
    rewrite dom_insert_L. cbn in Q2. rewrite dom_insert_L in Q2. done. }
  assert (Htx2 : tx_inv home w2).
  { apply (tx_inv_ext home w); try done. unfold w2, pkt, w1. cbn. rewrite fmap_insert, Hi'.
    apply insert_id. by rewrite lookup_fmap, Hv. }
  assert (Hu : unqueued D (<[IOVQ := free]> m) i).
  { apply (head_unqueued D m w IOVQ i free Heng Hm). }
  destruct (eth_tx_and_free_run home D (<[IOVQ := free]> m) w2 i v' free fuel)
    as (w3 & w' & E & _ & Heng' & Hinv' & Hnw' & Hoth & (w4 & q' & Ho & Ew) & Hout).
  - done.
  - done.
  - done.
  - apply lookup_insert_eq.
  - done.
  - apply lookup_insert_eq.
  - done.
  - apply Hfuel.
  - apply Hfuel.
  - exists w'. destruct (tx_only_rest _ _ Ho) as (Hr & Hm4 & Hr4 & Hp4).
    rewrite insert_insert_eq, insert_id in Heng' by done.
    assert (Hmem' : e_mem w' = <[h_iov home i := b']> (e_mem w)).
    { rewrite Ew. cbn. rewrite Hm4. unfold w2, pkt. cbn. by rewrite Hb', Hbase. }
    split; [done|]. split; [by rewrite Ew; cbn; rewrite Hr4|]. split.
    + split; [done|done|by rewrite Ew; cbn; rewrite Hp4| |].
      * intros free' i' v0 Hm' Hin Hv0. rewrite Hm in Hm'. injection Hm' as <-.
        assert (Hv2 : e_bufs w4 !! i' = Some v0) by (by rewrite Ew in Hv0).
        pose proof (f_equal (.!! i') (to_bufs _ _ Ho)) as Hb2. cbv beta in Hb2.
        rewrite !lookup_fmap, Hv2 in Hb2. unfold w2, pkt, w1 in Hb2. cbn in Hb2.
        destruct (decide (i' = i)) as [->|Hne].
        { rewrite lookup_insert_eq in Hb2. cbn in Hb2. injection Hb2 as Hs2 Hb2 _ _ _ _ _.
          split; [done|]. by rewrite Hb2, Hb', Hs2. }
        rewrite lookup_insert_ne in Hb2 by done. destruct (e_bufs w !! i') as [v1|] eqn:Hv1; [|done].
        cbn in Hb2. injection Hb2 as Hs2 Hb2 _ _ _ _ _.
        destruct (Hfree (i :: free) i' v1 Hm Hin Hv1) as (Hnw1 & Hbase1 & Hun1).
        split; [by apply Hoth|]. by rewrite Hb2, Hs2.
      * intros i' Hi2. rewrite Hmem'.
        destruct (decide (h_iov home i' = h_iov home i)) as [->|Hne].
        { exists b'. by rewrite lookup_insert_eq. }
        rewrite lookup_insert_ne by done. by apply Hmem.
    + rewrite Ew. transitivity w2; [done|]. transitivity w4; done.
    + done.
    + intros i' Hi2. pose proof (f_equal (.!! i') (to_bufs _ _ Ho)) as Hb2. cbv beta in Hb2.
      rewrite !lookup_fmap in Hb2. rewrite Ew. cbn. rewrite Hb2. unfold w2, pkt, w1. cbn.
      by rewrite lookup_insert_ne.
    + apply Hout. unfold w2, pkt. cbn. by rewrite Hb', Hbase, lookup_insert_eq.
Qed.
End Send.

(** ** An example *)

(** A received frame in buffer 100, of a slot of the ring. *)
Definition eng_net_ex (rx : bytes) : engine := set_mem eng_mem_ex (<[100 := rx]> mem_ex).

Lemma mem_ex_lookup i : i ∈ eng_ex_D → mem_ex !! Z.of_nat i = Some (repeat 0 128).
Proof. unfold eng_ex_D. rewrite !elem_of_union, !elem_of_singleton. by intros [[[->| ->]| ->]| ->]. Qed.

Lemma eng_net_ex_inv rx : net_inv 128 homes_ex eng_ex_D eng_ex_m (eng_net_ex rx).
Proof.
  split.
  - destruct eng_ex_inv as [H1 H2 H3]. by split.
  - apply (tx_inv_ext homes_ex eng_tx_ex); [reflexivity..|apply eng_tx_ex_inv].
  - reflexivity.
  - intros free i v _ _ Hv. split; [intros k j Hp; by apply (eng_tx_ex_waiting k j) in Hp|].
    change (e_bufs (eng_net_ex rx)) with (e_bufs eng_ex) in Hv. unfold eng_ex in Hv. cbn [e_bufs] in Hv.
    rewrite !lookup_insert_Some, lookup_singleton_Some in Hv.
    assert (w_addr_wf (addr_ex4 0 0 0 0)) as Hwf by (by apply addr_wf_dec). naive_solver.
  - intros i Hi. exists (repeat 0 128). split; [|split; [done|apply zeros_bytes]].
    change (e_mem (eng_net_ex rx)) with (<[100 := rx]> mem_ex).
    rewrite lookup_insert_ne; [by apply mem_ex_lookup|].
    revert Hi. unfold eng_ex_D. rewrite !elem_of_union, !elem_of_singleton. cbn. lia.
Qed.

Lemma eng_net_ex_fuel rx : fuel_ok 5 (eng_net_ex rx).
Proof. split; [lia|]. intros [|k] r; [|by destruct k]. intros [= <-]. cbn. lia. Qed.

Lemma eng_net_ex_out i : i ∈ eng_ex_D → h_iov homes_ex i ≠ 100.
Proof. unfold eng_ex_D. rewrite !elem_of_union, !elem_of_singleton. cbn. lia. Qed.
