(* ===== verification/Sock.v ===== *)
(** Sockets (lib/src/backend_netmap.c, lib/src/warpcore.c): the table of open
    sockets, binding, lookup, closing, and the list of readable sockets. *)

From S2P Require Import Prelude Util Krng Queue Wire Addr Khash Engine Netmap Ip.

(** ** The socket table *)

Section Sock.
Context (can_alloc : kh_array → Z → bool).
(** Fuel of the random number generator's rejection loop. *)
Context (fuel : nat).

(** A field of memory that [calloc] or [memset] zeroed. *)
Definition zero_addr : w_addr := WAddr 0 (repeat 0 16).
Definition zero_sockaddr : w_sockaddr := WSockaddr zero_addr 0.

Definition get_sock (s : nat) : M engine w_sock := λ w,
  match e_socks w !! s with Some sk => Done (sk, w) | None => Fault end.
Definition put_sock (s : nat) (sk : w_sock) : M engine unit := λ w,
  Done (tt, set_socks w (e_sock w) (<[s := sk]> (e_socks w))).

Definition set_tup (sk : w_sock) (t : w_socktuple) : w_sock :=
  WSock t (s_dmac sk) (s_opt sk) (s_iv sk).
Definition set_lport (sk : w_sock) (port : Z) : w_sock :=
  set_tup sk (WSocktuple (WSockaddr (sa_addr (ws_loc sk)) port) (ws_rem sk) (scope_id (s_tup sk))).
Definition set_rem (sk : w_sock) (r : w_sockaddr) : w_sock :=
  set_tup sk (WSocktuple (ws_loc sk) r (scope_id (s_tup sk))).
Definition set_opt (sk : w_sock) (o : w_sockopt) : w_sock :=
  WSock (s_tup sk) (s_dmac sk) o (s_iv sk).
Definition set_dmac (sk : w_sock) (mac : bytes) : w_sock :=
  WSock (s_tup sk) mac (s_opt sk) (s_iv sk).

Definition ins_sock (s : nat) : M engine unit :=
  sk ← get_sock s; w ← get;
  h ← lift (kh_insert can_alloc (e_sock w) (s_tup sk) s);
  put (set_socks w h (e_socks w)).

Definition rem_sock (s : nat) : M engine unit :=
  sk ← get_sock s; w ← get;
  h ← lift (kh_remove (e_sock w) (s_tup sk));
  put (set_socks w h (e_socks w)).

Definition w_get_sock (loc : w_sockaddr) (rem : option w_sockaddr) : M engine (option nat) :=
  w ← get;
  lift (kh_find (e_sock w) (WSocktuple loc (default zero_sockaddr rem) 0)).

(** ** Binding and closing *)

Definition w_set_sockopt (s : nat) (opt : w_sockopt) : M engine unit :=
  sk ← get_sock s; put_sock s (set_opt sk opt).

Definition backend_bind (s : nat) (opt : option w_sockopt) : M engine Z :=
  sk ← get_sock s;
  o ← w_get_sock (ws_loc sk) None;
  match o with
  | Some _ => mret 0
  | None =>
      match opt with Some opt => w_set_sockopt s opt | None => mret tt end ;;
      sk ← get_sock s;
      (if ws_lport sk =? 0 then
         port ← liftr (pick_local_port fuel); put_sock s (set_lport sk port)
       else mret tt) ;;
      ins_sock s ;;
      mret 0
  end.

(** [calloc] of a socket with its queue of received data; [ok] is whether there is
    memory. *)
Definition alloc_sock (ok : bool) : M engine (option nat) :=
  w ← get;
  if ok then
    let s := fresh (dom (e_socks w)) in
    let h := fresh (dom (heads (e_q w))) in
    put (set_iovs w (QHeap (<[h := SqHead None (LHead h) 0]> (heads (e_q w))) (nexts (e_q w)))
           (e_bufs w)) ;;
    put_sock s (WSock (WSocktuple zero_sockaddr zero_sockaddr 0) ETH_ADDR_NONE
                  (WSockopt false false) h) ;;
    mret (Some s)
  else mret None.
Definition free_sock (s : nat) : M engine unit :=
  sk ← get_sock s; w ← get;
  put (set_socks (set_iovs w (QHeap (delete (s_iv sk) (heads (e_q w))) (nexts (e_q w))) (e_bufs w))
         (e_sock w) (delete s (e_socks w))).

Definition w_bind (ok : bool) (addr_idx port : Z) (opt : option w_sockopt) : M engine (option nat) :=
  o ← alloc_sock ok;
  match o with
  | None => mret None
  | Some s =>
      w ← get; ia ← lift (rd (ifaddr (e_conf w)) addr_idx);
      sk ← get_sock s;
      put_sock s (set_tup sk (WSocktuple (WSockaddr (ia_addr ia) port) (ws_rem sk) (ia_scope_id ia))) ;;
      liftq (sq_init (s_iv sk)) ;;
      e ← backend_bind s opt;
      if negb (e =? 0) then free_sock s ;; mret None else mret (Some s)
  end.

Definition backend_close (s : nat) : M engine unit := rem_sock s.
Definition w_close (s : nat) : M engine unit := backend_close s ;; free_sock s.
Definition backend_preconnect (s : nat) : M engine unit := rem_sock s.

(** ** Readable sockets *)

(** The loop over the table; each socket with data goes to the front of the list. *)
Fixpoint rx_ready_loop (l : list (w_socktuple * nat)) (sl : list nat) (n : Z) : M engine (Z * list nat) :=
  match l with
  | [] => mret (n, sl)
  | (_, s) :: l =>
      sk ← get_sock s;
      b ← liftq (sq_empty (s_iv sk));
      if negb b then rx_ready_loop l (s :: sl) (u32 (n + 1)) else rx_ready_loop l sl n
  end.
Definition w_rx_ready : M engine (Z * list nat) :=
  w ← get; l ← lift (kh_foreach (e_sock w)); rx_ready_loop l [] 0.
End Sock.

(** * Theorems *)

(** ** The invariant of the socket table *)

(** What the socket table stands for. *)
Abbreviation sock_map := (kmap (K := w_socktuple) (V := nat)).

(** The table holds open sockets under their own tuples (so that no tuple changes
    while it is a key), and the queues of the sockets are their own. *)
Record sock_inv (qm : queues) (tm : sock_map) (B : nat) (w : engine) : Prop := {
  si_rep : kh_rep (e_sock w) tm B;
  si_tup : ∀ t s, (t, s) ∈ tm → ∃ sk, e_socks w !! s = Some sk ∧ s_tup sk = t;
  si_wf : ∀ s sk, e_socks w !! s = Some sk → w_socktuple_wf (s_tup sk);
  si_iv : ∀ s sk, e_socks w !! s = Some sk → is_Some (qm !! s_iv sk) ∧ s_iv sk ≠ IOVQ;
  si_inj : ∀ s s' sk sk', e_socks w !! s = Some sk → e_socks w !! s' = Some sk' →
    s_iv sk = s_iv sk' → s = s'
}.

Lemma zero_sockaddr_wf : w_addr_wf (sa_addr zero_sockaddr).
Proof. by apply addr_wf_dec. Qed.

(** The tuple of a socket bound to [loc] alone. *)
Definition bound_tuple (loc : w_sockaddr) : w_socktuple := WSocktuple loc zero_sockaddr 0.

Lemma bound_tuple_wf loc sc :
  w_addr_wf (sa_addr loc) → w_socktuple_wf (WSocktuple loc zero_sockaddr sc).
Proof. intros. split; [done|apply zero_sockaddr_wf]. Qed.

Lemma tuple_equal_scope t sc :
  w_socktuple_wf t → hash_equal t (WSocktuple (local t) (remote t) sc) = true.
Proof. intros [? ?]. apply w_socktuple_cmp_key; [done..|]. done. Qed.

Lemma w_get_sock_run tm B w loc rem :
  kh_rep (e_sock w) tm B → w_addr_wf (sa_addr loc) →
  w_addr_wf (sa_addr (default zero_sockaddr rem)) →
  w_get_sock loc rem w = Done (km_find tm (WSocktuple loc (default zero_sockaddr rem) 0), w).
Proof.
  intros Hr Hl Hm. unfold w_get_sock. mstep.
  apply lift_run. by apply (kh_find_rep _ tm B).
Qed.

Lemma get_sock_run s sk w : e_socks w !! s = Some sk → get_sock s w = Done (sk, w).
Proof. intros H. unfold get_sock. by rewrite H. Qed.

(** ** A new socket *)

(** The engine with socket [sk] at [s], its queue [h] and the table [tbl]. *)
Definition with_sock (w : engine) (h s : nat) (sk : w_sock) (tbl : khash w_socktuple nat) : engine :=
  set_socks (set_iovs w (QHeap (<[h := SqHead None (LHead h) 0]> (heads (e_q w))) (nexts (e_q w)))
               (e_bufs w)) tbl (<[s := sk]> (e_socks w)).

Section NewSock.
Context (w : engine) (h s : nat) (sk : w_sock) (tbl : khash w_socktuple nat).

Lemma with_sock_get : get_sock s (with_sock w h s sk tbl) = Done (sk, with_sock w h s sk tbl).
Proof. apply get_sock_run. apply lookup_insert_eq. Qed.
Lemma with_sock_put sk' :
  put_sock s sk' (with_sock w h s sk tbl) = Done (tt, with_sock w h s sk' tbl).
Proof. unfold put_sock, with_sock. cbn. by rewrite insert_insert_eq. Qed.
Lemma with_sock_init :
  liftq (sq_init h) (with_sock w h s sk tbl) = Done (tt, with_sock w h s sk tbl).
Proof.
  unfold liftq. rewrite (sq_init_run _ _ (SqHead None (LHead h) 0)) by apply lookup_insert_eq.
  unfold with_sock. cbn. by rewrite insert_insert_eq.
Qed.
End NewSock.

Lemma new_head qm w D h :
  eng_inv D qm w → h = fresh (dom (heads (e_q w))) → qm !! h = None ∧ h ≠ IOVQ.
Proof.
  intros [Hq _ [xs Hi]] ->. pose proof (is_fresh (dom (heads (e_q w)))) as Hf. split.
  - destruct (qm !! fresh _) as [ys|] eqn:E; [|done].
    destruct (inv_repr D _ qm Hq _ ys E) as [Hh _ _]. destruct Hf. apply elem_of_dom. eauto.
  - intros E. rewrite E in Hf. destruct (inv_repr D _ qm Hq _ xs Hi) as [Hh _ _].
    destruct Hf. apply elem_of_dom. eauto.
Qed.

Lemma eng_inv_with_sock D qm w h s sk tbl :
  eng_inv D qm w → h = fresh (dom (heads (e_q w))) → eng_inv D (<[h := []]> qm) (with_sock w h s sk tbl).
Proof.
  intros Hinv Hh. destruct (new_head qm w D h Hinv Hh) as [Hn Hne].
  destruct Hinv as [[Hd Hr Hdis] Hb [xs Hi]]. split; [|done|].
  - split; [done| |].
    + intros h' ys [[<- <-]|[Hne' Hy]]%lookup_insert_Some.
      * split; [apply lookup_insert_eq|done|constructor].
      * destruct (Hr h' ys Hy) as [H1 H2 H3]. split; [|done|done].
        cbn. by rewrite lookup_insert_ne.
    + intros h1 h2 xs1 xs2 e [[<- <-]|[? H1]]%lookup_insert_Some [[<- <-]|[? H2]]%lookup_insert_Some.
      * done.
      * by intros _ ?%elem_of_nil.
      * by intros _ _ ?%elem_of_nil.
      * by apply Hdis.
  - rewrite lookup_insert_ne by done. eauto.
Qed.

Lemma km_update_elem (tm : sock_map) t s t' s' :
  km_find tm t = None → km_wf tm → key_wf t →
  (t', s') ∈ km_update tm t s ↔ (t', s') ∈ tm ∨ (t' = t ∧ s' = s).
Proof.
  intros Hf Hm Hw. rewrite km_update_absent.
  - rewrite elem_of_app, list_elem_of_singleton. naive_solver.
  - intros k v Hin. by apply (km_find_none tm t k v).
Qed.

(** The new socket, whether it is put in the table or not. *)
Lemma sock_inv_with_sock D qm tm B w h s sk tbl (tm' : sock_map) B' :
  eng_inv D qm w → sock_inv qm tm B w →
  h = fresh (dom (heads (e_q w))) → s = fresh (dom (e_socks w)) →
  s_iv sk = h → w_socktuple_wf (s_tup sk) →
  (∀ t' s', (t', s') ∈ tm' → (t', s') ∈ tm ∨ (t' = s_tup sk ∧ s' = s)) → kh_rep tbl tm' B' →
  sock_inv (<[h := []]> qm) tm' B' (with_sock w h s sk tbl).
Proof.
  intros Heng [Hr Ht Hw Hiv Hinj] Hh Hs Eh Htw Hin Hr'. destruct (new_head qm w D h Heng Hh) as [Hn Hne].
  assert (Hs0 : e_socks w !! s = None).
  { apply not_elem_of_dom. rewrite Hs. apply is_fresh. }
  assert (Hno : ∀ s' sk', e_socks w !! s' = Some sk' → s_iv sk' ≠ h).
  { intros s' sk' H E. destruct (Hiv s' sk' H) as [Hq _]. rewrite E, Hn in Hq. by destruct Hq. }
  split; [done| | | |]; cbn [e_socks with_sock set_socks].
  - intros t' s' [H|[-> ->]]%Hin; [|exists sk; by rewrite lookup_insert_eq].
    destruct (Ht t' s' H) as (sk' & H1 & H2). exists sk'. split; [|done].
    rewrite lookup_insert_ne; [done|]. intros ->. congruence.
  - intros s' sk' [[<- <-]|[_ H]]%lookup_insert_Some; [done|by apply (Hw s')].
  - intros s' sk' [[<- <-]|[_ H]]%lookup_insert_Some.
    + rewrite Eh, lookup_insert_eq. eauto.
    + destruct (Hiv s' sk' H) as [Hq ?]. split; [|done].
      rewrite lookup_insert_ne; [done|]. intros E. by apply (Hno s' sk' H).
  - intros s1 s2 sk1 sk2 [[<- <-]|[_ H1]]%lookup_insert_Some [[<- <-]|[_ H2]]%lookup_insert_Some E; [done| | |].
    + by destruct (Hno s2 sk2 H2); congruence.
    + by destruct (Hno s1 sk1 H1); congruence.
    + by apply (Hinj s1 s2 sk1 sk2).
Qed.

(** ** Binding and closing *)

Section Bind.
Context (can_alloc : kh_array → Z → bool) (fuel : nat).
Hypothesis Halloc : ∀ a n, can_alloc a n = true.

(** The socket [w_bind] makes. *)
Definition new_sock (h : nat) (loc : w_sockaddr) (scope : Z) (opt : option w_sockopt) : w_sock :=
  WSock (WSocktuple loc zero_sockaddr scope) ETH_ADDR_NONE (default (WSockopt false false) opt) h.

(** The scope is not part of the key. *)
Lemma bound_find (tm : sock_map) loc sc :
  km_find tm (WSocktuple loc zero_sockaddr sc) = km_find tm (bound_tuple loc).
Proof.
  induction tm as [|[k v] m IH]; [done|]. cbn [km_find].
  change (hash_equal k (WSocktuple loc zero_sockaddr sc)) with (hash_equal k (bound_tuple loc)).
  destruct (hash_equal k _); [done|exact IH].
Qed.

Section Run.
Context (D : gset nat) (qm : queues) (tm : sock_map) (B : nat) (w : engine).
Context (idx port : Z) (opt : option w_sockopt) (ia : w_ifaddr).
Hypothesis Heng : eng_inv D qm w.
Hypothesis Hsock : sock_inv qm tm B w.
Hypothesis HB : Z.of_nat B < 2 ^ 24.
Hypothesis Hidx : 0 <= idx.
Hypothesis Hia : ifaddr (e_conf w) !! Z.to_nat idx = Some ia.
Hypothesis Hwf : w_addr_wf (ia_addr ia).

Let loc := WSockaddr (ia_addr ia) port.
Let h := fresh (dom (heads (e_q w))).
Let s := fresh (dom (e_socks w)).

(** Up to [backend_bind]. *)
Lemma w_bind_start :
  w_bind can_alloc fuel true idx port opt w =
  (e ← backend_bind can_alloc fuel s opt;
   if negb (e =? 0) then free_sock s ;; mret None else mret (Some s))
    (with_sock w h s (new_sock h loc (ia_scope_id ia) None) (e_sock w)).
Proof.
  set (sk0 := WSock (WSocktuple zero_sockaddr zero_sockaddr 0) ETH_ADDR_NONE (WSockopt false false) h).
  assert (alloc_sock true w = Done (Some s, with_sock w h s sk0 (e_sock w))) as Ea by done.
  unfold w_bind. mstep Ea. mstep.
  mstep (lift_run _ _ _ (rd_Z (ifaddr (e_conf w)) idx ia Hidx Hia)).
  mstep (with_sock_get w h s sk0 (e_sock w)).
  mstep (with_sock_put w h s sk0 (e_sock w) (new_sock h loc (ia_scope_id ia) None)).
  by mstep (with_sock_init w h s (new_sock h loc (ia_scope_id ia) None) (e_sock w)).
Qed.

(** The local address is free. *)
Lemma w_bind_free :
  port ≠ 0 → km_find tm (bound_tuple loc) = None →
  let t := WSocktuple loc zero_sockaddr (ia_scope_id ia) in
  ∃ tbl, w_bind can_alloc fuel true idx port opt w =
      Done (Some s, with_sock w h s (new_sock h loc (ia_scope_id ia) opt) tbl) ∧
    kh_rep tbl (km_update tm t s) (S B).
Proof.
  intros Hport Hf t. rewrite w_bind_start.
  pose proof (kh_insert_rep can_alloc Halloc (e_sock w) tm B t s (si_rep _ _ _ _ Hsock)) as Hins.
  unfold t in Hins; rewrite bound_find, Hf in Hins.
  destruct Hins as (tbl & Ei & Hr); [by apply bound_tuple_wf|done|]. exists tbl. split; [|done].
  set (w1 := with_sock w h s (new_sock h loc (ia_scope_id ia) None) (e_sock w)).
  set (sk := new_sock h loc (ia_scope_id ia) opt).
  assert (Eb : backend_bind can_alloc fuel s opt w1 = Done (0, with_sock w h s sk tbl)).
  { unfold backend_bind. mstep (with_sock_get w h s (new_sock h loc (ia_scope_id ia) None) (e_sock w)).
    mstep (w_get_sock_run tm B w1 loc None (si_rep _ _ _ _ Hsock) Hwf zero_sockaddr_wf).
    change (WSocktuple loc (default zero_sockaddr None) 0) with (bound_tuple loc). rewrite Hf.
    assert (Eo : match opt with Some opt => w_set_sockopt s opt | None => mret tt end w1 =
      Done (tt, with_sock w h s sk (e_sock w))).
    { destruct opt as [o|]; [|done]. unfold w_set_sockopt.
      mstep (with_sock_get w h s (new_sock h loc (ia_scope_id ia) None) (e_sock w)).
      apply with_sock_put. }
    mstep Eo. mstep (with_sock_get w h s sk (e_sock w)).
    change (ws_lport sk) with port. rewrite (proj2 (Z.eqb_neq _ _) Hport).
    assert (En : ins_sock can_alloc s (with_sock w h s sk (e_sock w)) = Done (tt, with_sock w h s sk tbl)).
    { unfold ins_sock. mstep (with_sock_get w h s sk (e_sock w)). mstep.
      by mstep (lift_run _ _ (with_sock w h s sk (e_sock w)) Ei). }
    mstep. by mstep En. }
  by mstep Eb.
Qed.

(** The local address is taken: the table does not change. *)
Lemma w_bind_taken s0 :
  km_find tm (bound_tuple loc) = Some s0 →
  w_bind can_alloc fuel true idx port opt w =
    Done (Some s, with_sock w h s (new_sock h loc (ia_scope_id ia) None) (e_sock w)).
Proof.
  intros Hf. rewrite w_bind_start.
  set (w1 := with_sock w h s (new_sock h loc (ia_scope_id ia) None) (e_sock w)).
  assert (Eb : backend_bind can_alloc fuel s opt w1 = Done (0, w1)).
  { unfold backend_bind. mstep (with_sock_get w h s (new_sock h loc (ia_scope_id ia) None) (e_sock w)).
    mstep (w_get_sock_run tm B w1 loc None (si_rep _ _ _ _ Hsock) Hwf zero_sockaddr_wf).
    change (WSocktuple loc (default zero_sockaddr None) 0) with (bound_tuple loc). by rewrite Hf. }
  by mstep Eb.
Qed.
End Run.
End Bind.

(** *** Closing *)

(** The engine without socket [s], with the table [tbl]. *)
Definition without_sock (w : engine) (s : nat) (sk : w_sock) (tbl : khash w_socktuple nat) : engine :=
  set_socks (set_iovs w (QHeap (delete (s_iv sk) (heads (e_q w))) (nexts (e_q w))) (e_bufs w))
    tbl (delete s (e_socks w)).

Lemma w_close_run qm tm B w s sk :
  sock_inv qm tm B w → e_socks w !! s = Some sk →
  match km_find tm (s_tup sk) with
  | Some _ => ∃ tbl, w_close s w = Done (tt, without_sock w s sk tbl) ∧
      kh_rep tbl (km_remove tm (s_tup sk)) (S B)
  | None => w_close s w = Died
  end.
Proof.
  intros Hs Hsk. pose proof (kh_remove_rep (e_sock w) tm B (s_tup sk) (si_rep _ _ _ _ Hs)
    (si_wf _ _ _ _ Hs s sk Hsk)) as H. cbn [spec_kop] in H.
  unfold w_close, backend_close, rem_sock. rewrite bind_assoc_run. mstep (get_sock_run s sk w Hsk).
  rewrite bind_assoc_run. mstep.
  destruct (km_find tm (s_tup sk)) as [s'|].
  - destruct H as (tbl & E & Hr). exists tbl. split; [|done].
    rewrite bind_assoc_run. mstep (lift_run _ _ w E). mstep.
    unfold free_sock. mstep (get_sock_run s sk (set_socks w tbl (e_socks w)) Hsk). by mstep.
  - unfold mbind, M_bind, lift. by rewrite H.
Qed.

Lemma km_remove_sock (tm : sock_map) t : km_wf tm → w_socktuple_wf t →
  ∀ t', w_socktuple_wf t' → km_find (km_remove tm t) t' =
    if w_socktuple_cmp t t' then None else km_find tm t'.
Proof. intros Hm Ht t' Ht'. by apply (km_find_remove (KK := sock_key)). Qed.

Lemma eng_inv_without_sock D qm w s sk tbl :
  eng_inv D qm w → s_iv sk ≠ IOVQ → eng_inv D (delete (s_iv sk) qm) (without_sock w s sk tbl).
Proof.
  intros [[Hd Hr Hdis] Hb [xs Hi]] Hne. split; [|done|].
  - split; [done| |].
    + intros h ys [Hh Hy]%lookup_delete_Some. destruct (Hr h ys Hy) as [H1 H2 H3]. split; [|done|done].
      cbn. by rewrite lookup_delete_ne.
    + intros h1 h2 xs1 xs2 e [_ H1]%lookup_delete_Some [_ H2]%lookup_delete_Some. by apply Hdis.
  - rewrite lookup_delete_ne by done. eauto.
Qed.

(** A socket that is the value of its key. *)
Lemma sock_inv_without_sock qm tm B w s sk tbl :
  sock_inv qm tm B w → e_socks w !! s = Some sk → kh_rep tbl (km_remove tm (s_tup sk)) (S B) →
  sock_inv (delete (s_iv sk) qm) (km_remove tm (s_tup sk)) (S B) (without_sock w s sk tbl).
Proof.
  intros [Hr Ht Hw Hiv Hinj] Hs Hr'. split; [done| | | |]; cbn [e_socks without_sock set_socks].
  - intros t' s' [Hin Hne]%elem_of_km_remove. destruct (Ht t' s' Hin) as (sk' & H1 & H2).
    exists sk'. split; [|done]. rewrite lookup_delete_ne; [done|]. intros <-.
    assert (sk' = sk) as -> by congruence. rewrite <- H2 in Hne.
    rewrite (hash_equal_refl (KhKey := sock_key) (s_tup sk)) in Hne; [done|]. by apply (Hw s).
  - intros s' sk' [_ H]%lookup_delete_Some. by apply (Hw s').
  - intros s' sk' [Hne H]%lookup_delete_Some. destruct (Hiv s' sk' H) as [Hq ?]. split; [|done].
    rewrite lookup_delete_ne; [done|]. intros E. apply Hne. by apply (Hinj s s' sk sk').
  - intros s1 s2 sk1 sk2 [_ H1]%lookup_delete_Some [_ H2]%lookup_delete_Some. by apply Hinj.
Qed.

(** ** The properties *)

(** [w_get_sock] on a state whose table stands for [tm]. *)
Definition finds (w : engine) (loc : w_sockaddr) (rem : option w_sockaddr) (o : option nat) : Prop :=
  w_get_sock loc rem w = Done (o, w).

(** The lookups with well-formed addresses. *)
Definition sock_query (loc : w_sockaddr) (rem : option w_sockaddr) : Prop :=
  w_addr_wf (sa_addr loc) ∧ w_addr_wf (sa_addr (default zero_sockaddr rem)).
Definition query_tuple (loc : w_sockaddr) (rem : option w_sockaddr) : w_socktuple :=
  WSocktuple loc (default zero_sockaddr rem) 0.

Lemma finds_iff tm B w loc rem o :
  kh_rep (e_sock w) tm B → sock_query loc rem → finds w loc rem o ↔ o = km_find tm (query_tuple loc rem).
Proof.
  intros Hr [Hl Hm]. unfold finds. rewrite (w_get_sock_run tm B w loc rem Hr Hl Hm).
  unfold query_tuple. split; [congruence|by intros ->].
Qed.

Section Properties.
Context (can_alloc : kh_array → Z → bool) (fuel : nat).
Hypothesis Halloc : ∀ a n, can_alloc a n = true.
Context (D : gset nat) (qm : queues) (tm : sock_map) (B : nat) (w : engine).
Context (idx port : Z) (opt : option w_sockopt) (ia : w_ifaddr).
Hypothesis Heng : eng_inv D qm w.
Hypothesis Hsock : sock_inv qm tm B w.
Hypothesis HB : Z.of_nat B < 2 ^ 24.
Hypothesis Hidx : 0 <= idx.
Hypothesis Hia : ifaddr (e_conf w) !! Z.to_nat idx = Some ia.
Hypothesis Hwf : w_addr_wf (ia_addr ia).

(** C22: Binding a free address and port gives a fresh, unconnected socket with an empty
    queue that is found by its address exactly from then on, and closing it gives back the
    previous lookups. *)
Theorem w_bind_close_roundtrip :
  let loc := WSockaddr (ia_addr ia) port in
  port ≠ 0 → finds w loc None None →
  ∃ s sk w1 w2 qm1 tm1 qm2 tm2,
    w_bind can_alloc fuel true idx port opt w = Done (Some s, w1) ∧
    e_socks w1 = <[s := sk]> (e_socks w) ∧ e_socks w !! s = None ∧
    ws_loc sk = loc ∧ w_connected sk = false ∧ qm1 !! s_iv sk = Some [] ∧
    eng_inv D qm1 w1 ∧ sock_inv qm1 tm1 (S B) w1 ∧
    (∀ loc' rem o, sock_query loc' rem → finds w loc' rem o →
      finds w1 loc' rem (if w_socktuple_cmp (s_tup sk) (query_tuple loc' rem) then Some s else o)) ∧
    w_close s w1 = Done (tt, w2) ∧ e_socks w2 = e_socks w ∧
    eng_inv D qm2 w2 ∧ sock_inv qm2 tm2 (S (S B)) w2 ∧
    ∀ loc' rem o, sock_query loc' rem → finds w loc' rem o → finds w2 loc' rem o.
Proof.
  intros loc Hport Hf. pose proof (si_rep _ _ _ _ Hsock) as Hr. pose proof (kr_wf _ _ _ Hr) as Hm.
  apply (finds_iff tm B w loc None None Hr) in Hf; [|by split; [|apply zero_sockaddr_wf]].
  destruct (w_bind_free can_alloc fuel Halloc qm tm B w idx port opt ia Hsock HB Hidx Hia Hwf Hport (eq_sym Hf))
    as (tbl & Eb & Hr1).
  set (h := fresh (dom (heads (e_q w)))) in *. set (s := fresh (dom (e_socks w))) in *.
  set (sk := new_sock h loc (ia_scope_id ia) opt) in *.
  set (w1 := with_sock w h s sk tbl) in *.
  assert (Hskwf : w_socktuple_wf (s_tup sk)) by (by apply bound_tuple_wf).
  assert (Hft : km_find tm (s_tup sk) = None) by (cbn; by rewrite bound_find).
  assert (Hs1 : sock_inv (<[h := []]> qm) (km_update tm (s_tup sk) s) (S B) w1).
  { apply (sock_inv_with_sock D qm tm B); try done. intros t' s'. by rewrite km_update_elem. }
  assert (Hget : e_socks w1 !! s = Some sk) by apply lookup_insert_eq.
  pose proof (w_close_run _ _ _ w1 s sk Hs1 Hget) as Hc.
  assert (Hf1 : ∀ t, w_socktuple_wf t → km_find (km_update tm (s_tup sk) s) t =
    if w_socktuple_cmp (s_tup sk) t then Some s else km_find tm t).
  { intros t Ht. by apply (km_find_update (KK := sock_key)). }
  rewrite (Hf1 _ Hskwf), (proj2 (w_socktuple_cmp_key _ _ Hskwf Hskwf) eq_refl) in Hc.
  destruct Hc as (tbl2 & Ec & Hr2).
  assert (He1 : eng_inv D (<[h := []]> qm) w1) by (by apply eng_inv_with_sock).
  exists s, sk, w1, (without_sock w1 s sk tbl2), (<[h := []]> qm), (km_update tm (s_tup sk) s).
  exists (delete h (<[h := []]> qm)), (km_remove (km_update tm (s_tup sk) s) (s_tup sk)).
  assert (Hsn : e_socks w !! s = None) by (apply not_elem_of_dom, is_fresh).
  split_and!; [done|done|done|done|done|apply lookup_insert_eq|done|done| |done| | | |].
  - intros loc' rem o Hq Ho. apply (finds_iff tm B w) in Ho; [|done..].
    apply (finds_iff (km_update tm (s_tup sk) s) (S B) w1); [done|done|].
    rewrite Hf1, Ho; [done|]. by destruct Hq.
  - cbn. rewrite delete_insert_eq. by apply delete_id.
  - apply (eng_inv_without_sock D _ w1 s sk); [done|]. by apply (si_iv _ _ _ _ Hs1 s sk).
  - by apply (sock_inv_without_sock _ _ _ w1 s sk).
  - intros loc' rem o Hq Ho. apply (finds_iff tm B w) in Ho; [|done..].
    eapply (finds_iff _ _ (without_sock w1 s sk tbl2)); [exact Hr2|done|].
    assert (Hqt : w_socktuple_wf (query_tuple loc' rem)) by (by destruct Hq).
    rewrite km_remove_sock, Hf1, Ho by (done || apply Hs1).
    destruct (w_socktuple_cmp _ _) eqn:Ecmp; [|done].
    by rewrite <- (km_find_equal (KK := sock_key) tm (s_tup sk)), Hft.
Qed.

(** C34: Binding an address and port that are in use succeeds with a socket that is not in
    the table; closing it removes the socket that was bound first, whose own close then aborts.
    *)
Theorem w_bind_in_use s0 :
  let loc := WSockaddr (ia_addr ia) port in
  finds w loc None (Some s0) →
  ∃ s w1 w2,
    w_bind can_alloc fuel true idx port opt w = Done (Some s, w1) ∧ s ≠ s0 ∧
    (∀ loc' rem o, finds w loc' rem o → o ≠ Some s → finds w1 loc' rem o) ∧
    w_close s w1 = Done (tt, w2) ∧ finds w2 loc None None ∧ w_close s0 w2 = Died.
Proof.
  intros loc Hf. pose proof (si_rep _ _ _ _ Hsock) as Hr. pose proof (kr_wf _ _ _ Hr) as Hm.
  assert (Hq : sock_query loc None) by (by split; [|apply zero_sockaddr_wf]).
  apply (finds_iff tm B w loc None (Some s0) Hr Hq) in Hf. symmetry in Hf.
  pose proof (w_bind_taken can_alloc fuel qm tm B w idx port opt ia Hsock Hidx Hia Hwf s0 Hf) as Eb.
  set (h := fresh (dom (heads (e_q w)))) in *. set (s := fresh (dom (e_socks w))) in *.
  set (sk := new_sock h loc (ia_scope_id ia) None) in *.
  set (w1 := with_sock w h s sk (e_sock w)) in *.
  assert (Hskwf : w_socktuple_wf (s_tup sk)) by (by apply bound_tuple_wf).
  assert (Hft : km_find tm (s_tup sk) = Some s0) by (cbn; by rewrite bound_find).
  assert (Hs1 : sock_inv (<[h := []]> qm) tm B w1).
  { apply (sock_inv_with_sock D qm tm B); try done. by left. }
  assert (Hget : e_socks w1 !! s = Some sk) by apply lookup_insert_eq.
  pose proof (w_close_run _ _ _ w1 s sk Hs1 Hget) as Hc. rewrite Hft in Hc.
  destruct Hc as (tbl & Ec & Hr2).
  destruct (km_find_elem _ _ _ Hft) as (k & Hin & Ek).
  destruct (si_tup _ _ _ _ Hsock k s0 Hin) as (sk0 & Hsk0 & Htup).
  assert (Hne : s ≠ s0).
  { intros E. rewrite <- E in Hsk0. assert (e_socks w !! s = None) as Hn by apply not_elem_of_dom, is_fresh.
    congruence. }
  exists s, w1, (without_sock w1 s sk tbl). split_and!; [done|done| |done| |].
  - intros loc' rem o Ho _. unfold finds, w_get_sock in *. revert Ho. mstep.
    unfold w1. change (e_sock (with_sock w h s sk (e_sock w))) with (e_sock w). mstep.
    unfold lift. by destruct (kh_find _ _) as [x| | |]; [intros [= <-]|..].
  - apply (finds_iff _ _ (without_sock w1 s sk tbl) loc None None Hr2 Hq).
    rewrite km_remove_sock by (done || (by destruct Hq)).
    assert (w_socktuple_cmp (s_tup sk) (query_tuple loc None) = true) as -> by
      (apply w_socktuple_cmp_key; [done|by apply bound_tuple_wf|done]). done.
  - pose proof (sock_inv_without_sock _ _ _ w1 s sk tbl Hs1 Hget Hr2) as Hs2.
    assert (Hget0 : e_socks (without_sock w1 s sk tbl) !! s0 = Some sk0).
    { cbn. rewrite lookup_delete_ne, lookup_insert_ne by done. done. }
    pose proof (w_close_run _ _ _ _ s0 sk0 Hs2 Hget0) as Hc0.
    rewrite km_remove_sock in Hc0 by (done || by apply (si_wf _ _ _ _ Hsock s0)).
    pose proof (km_key_wf tm k s0 Hm Hin) as Hkwf.
    assert (w_socktuple_cmp (s_tup sk) k = true) as E.
    { change (hash_equal (s_tup sk) k = true). by rewrite (hash_equal_sym (KhKey := sock_key)). }
    by rewrite Htup, E in Hc0.
Qed.
End Properties.

(** ** Readable sockets *)

Lemma rx_ready_loop_run D qm w l :
  eng_inv D qm w →
  (∀ t s, (t, s) ∈ l → ∃ sk xs, e_socks w !! s = Some sk ∧ qm !! s_iv sk = Some xs) →
  ∀ sl n, is_u32 n →
    ∃ sl', rx_ready_loop l sl n w = Done ((u32 (n + Z.of_nat (length sl')), sl' ++ sl), w) ∧
    sublist sl' (reverse l.*2) ∧
    ∀ s, s ∈ sl' ↔ s ∈ l.*2 ∧ ∃ sk x xs, e_socks w !! s = Some sk ∧ qm !! s_iv sk = Some (x :: xs).
Proof.
  intros Heng. induction l as [|[t s] l IH]; intros Hl sl n Hn.
  - exists []. split; [cbn; by rewrite Z.add_0_r, u32_id|]. split; [constructor|]. set_solver.
  - destruct (Hl t s) as (sk & xs & Hsk & Hq); [by left|]. cbn [rx_ready_loop].
    mstep (get_sock_run s sk w Hsk). mstep (liftq_empty D qm w (s_iv sk) xs Heng Hq).
    assert (Hl' : ∀ t' s', (t', s') ∈ l → ∃ sk xs, e_socks w !! s' = Some sk ∧ qm !! s_iv sk = Some xs).
    { intros t' s' ?. apply (Hl t' s'). by right. }
    cbn [fmap list_fmap snd]. rewrite reverse_cons. case_bool_decide as Hxs; cbn [negb].
    + destruct (IH Hl' sl n Hn) as (sl' & E & Hsub & Hin). exists sl'. split; [done|].
      split; [by apply sublist_inserts_r|]. intros s'. rewrite Hin, elem_of_cons. subst.
      split; [naive_solver|]. intros [[->|?] (sk' & x & xs & H1 & H2)]; [|naive_solver]. congruence.
    + destruct (IH Hl' (s :: sl) (u32 (n + 1)) (u32_range _)) as (sl' & E & Hsub & Hin). exists (sl' ++ [s]).
      split; [|split].
      * rewrite E, <- app_assoc, u32_add_l, length_app. cbn [app length].
        by replace (n + 1 + Z.of_nat (length sl')) with (n + Z.of_nat (length sl' + 1)) by lia.
      * by apply sublist_app.
      * intros s'. rewrite elem_of_app, list_elem_of_singleton, Hin, elem_of_cons.
        destruct xs as [|x xs]; [done|]. naive_solver.
Qed.

(** W_rx_ready lists each open socket with unread data once, and no other, and returns
    their number. *)
Theorem w_rx_ready_correct D qm tm B w :
  eng_inv D qm w → sock_inv qm tm B w →
  ∃ sl, w_rx_ready w = Done ((u32 (Z.of_nat (length sl)), sl), w) ∧ NoDup sl ∧
    ∀ s, s ∈ sl ↔ ∃ sk x xs, e_socks w !! s = Some sk ∧
      finds w (ws_loc sk) (Some (ws_rem sk)) (Some s) ∧ qm !! s_iv sk = Some (x :: xs).
Proof.
  intros Heng [Hr Ht Hw Hiv Hinj]. pose proof (kr_wf _ _ _ Hr) as Hm.
  destruct (kh_foreach_rep (e_sock w) tm B Hr) as (l & El & Hl).
  assert (Hin : ∀ t s, (t, s) ∈ l → ∃ sk xs, e_socks w !! s = Some sk ∧ qm !! s_iv sk = Some xs).
  { intros t s H. rewrite Hl in H. destruct (Ht t s H) as (sk & Hsk & _).
    destruct (Hiv s sk Hsk) as [[xs Hx] _]. eauto. }
  destruct (rx_ready_loop_run D qm w l Heng Hin [] 0 ltac:(by split)) as (sl & E & Hsub & Hmem).
  exists sl. split_and!.
  - unfold w_rx_ready. mstep. mstep (lift_run _ _ w El). by rewrite E, app_nil_r.
  - eapply sublist_NoDup; [|exact Hsub]. rewrite reverse_Permutation, Hl.
    apply NoDup_fmap_2_strong; [|by apply km_wf_NoDup].
    intros [t1 s1] [t2 s2] H1 H2 [= <-]. destruct (Ht t1 s1 H1) as (sk1 & F1 & <-).
    destruct (Ht t2 s1 H2) as (sk2 & F2 & <-). by simplify_eq.
  - intros s. rewrite Hmem. split.
    + intros [([t s'] & -> & H)%list_elem_of_fmap (sk & x & xs & Hsk & Hq)]. cbn in *.
      rewrite Hl in H. exists sk, x, xs. split_and!; [done| |done].
      pose proof (Hw s' sk Hsk) as Hwf. apply (finds_iff tm B); [done|by destruct Hwf|].
      symmetry. apply (km_find_present (KK := sock_key) tm _ (s_tup sk)); [done| | |].
      * by destruct Hwf.
      * destruct (Ht t s' H) as (sk' & F & <-). by simplify_eq.
      * by apply tuple_equal_scope.
    + intros (sk & x & xs & Hsk & Hf & Hq). split; [|by exists sk, x, xs].
      pose proof (Hw s sk Hsk) as Hwf. apply (finds_iff tm B) in Hf; [|done|by destruct Hwf].
      symmetry in Hf. destruct (km_find_elem _ _ _ Hf) as (k & Hk & _).
      apply list_elem_of_fmap. exists (k, s). split; [done|]. by rewrite Hl.
Qed.

(** ** Witnesses *)

Definition no_oom : kh_array → Z → bool := λ _ _, true.
Definition loc_ex : w_sockaddr := WSockaddr (addr_ex4 10 0 0 1) 0x5000.

Lemma eng_ex_sock_inv : sock_inv eng_ex_m [] 0 eng_ex.
Proof.
  split; [apply kh_init_rep|by intros t s ?%elem_of_nil| | |]; cbn; intros *; by rewrite lookup_empty.
Qed.

Lemma w_bind_close_roundtrip_witness :
  ∃ s w1 w2, w_bind no_oom 1 true 1 0x5000 None eng_ex = Done (Some s, w1) ∧
    w_close s w1 = Done (tt, w2) ∧ finds w2 loc_ex None None.
Proof.
  destruct (w_bind_close_roundtrip no_oom 1 (λ _ _, eq_refl) eng_ex_D eng_ex_m [] 0 eng_ex 1 0x5000 None
    ifaddr_ex4 eng_ex_inv eng_ex_sock_inv eq_refl) as
    (s & sk & w1 & w2 & qm1 & tm1 & qm2 & tm2 & E1 & _ & _ & _ & _ & _ & _ & _ & _ & E2 & _ & _ & _ & H).
  - discriminate.
  - reflexivity.
  - apply addr_ex4_wf.
  - discriminate.
  - reflexivity.
  - exists s, w1, w2. split; [exact E1|]. split; [exact E2|]. apply H; [|reflexivity].
    split; [apply addr_ex4_wf|apply zero_sockaddr_wf].
Defined.

(** The engine with a socket bound to [loc_ex]. *)
Definition h_ex : nat := fresh (dom (heads (e_q eng_ex))).
Definition s_ex : nat := fresh (dom (e_socks eng_ex)).
Definition sock_ex : w_sock := new_sock h_ex loc_ex 0 None.
Definition tbl_ex : khash w_socktuple nat :=
  match kh_insert no_oom kh_init (s_tup sock_ex) s_ex with Done h => h | _ => kh_init end.
Definition eng_sock_ex : engine := with_sock eng_ex h_ex s_ex sock_ex tbl_ex.

Lemma tbl_ex_rep : kh_rep tbl_ex [(s_tup sock_ex, s_ex)] 1.
Proof.
  pose proof (kh_insert_rep (KK := sock_key) no_oom (λ _ _, eq_refl) kh_init [] 0 (s_tup sock_ex) s_ex
    kh_init_rep) as H.
  destruct H as (h & E & Hr); [by apply bound_tuple_wf, addr_ex4_wf|done|].
  unfold tbl_ex. rewrite E. exact Hr.
Qed.

Lemma eng_sock_ex_inv :
  eng_inv eng_ex_D (<[h_ex := []]> eng_ex_m) eng_sock_ex ∧
  sock_inv (<[h_ex := []]> eng_ex_m) [(s_tup sock_ex, s_ex)] 1 eng_sock_ex.
Proof.
  split; [by apply eng_inv_with_sock, eq_refl; apply eng_ex_inv|].
  apply (sock_inv_with_sock eng_ex_D eng_ex_m [] 0).
  - apply eng_ex_inv.
  - apply eng_ex_sock_inv.
  - reflexivity.
  - reflexivity.
  - reflexivity.
  - by apply bound_tuple_wf, addr_ex4_wf.
  - intros t s [= -> ->]%list_elem_of_singleton. by right.
  - apply tbl_ex_rep.
Qed.

Lemma w_bind_in_use_witness :
  ∃ s w1 w2, w_bind no_oom 1 true 1 0x5000 None eng_sock_ex = Done (Some s, w1) ∧
    w_close s w1 = Done (tt, w2) ∧ finds w2 loc_ex None None ∧ w_close s_ex w2 = Died.
Proof.
  destruct (w_bind_in_use no_oom 1 eng_ex_D (<[h_ex := []]> eng_ex_m) [(s_tup sock_ex, s_ex)] 1 eng_sock_ex 1
    0x5000 None ifaddr_ex4) with (s0 := s_ex) as (s & w1 & w2 & E1 & _ & _ & E2 & F & E3).
  - apply eng_sock_ex_inv.
  - apply eng_sock_ex_inv.
  - discriminate.
  - reflexivity.
  - apply addr_ex4_wf.
  - vm_compute. reflexivity.
  - exists s, w1, w2. split; [exact E1|]. split; [exact E2|]. split; [exact F|exact E3].
Defined.

Lemma w_rx_ready_correct_witness : ∃ sl, w_rx_ready eng_sock_ex = Done ((u32 (Z.of_nat (length sl)), sl), eng_sock_ex).
Proof.
  destruct (w_rx_ready_correct eng_ex_D (<[h_ex := []]> eng_ex_m) [(s_tup sock_ex, s_ex)] 1 eng_sock_ex)
    as (sl & E & _); [apply eng_sock_ex_inv|apply eng_sock_ex_inv|].
  exists sl. exact E.
Defined.
