(* ===== verification/Arp.v ===== *)
(** The neighbor cache (lib/src/neighbor.c) and ARP (lib/src/arp.c). *)

From S2P Require Import Prelude Util Krng Queue Wire Addr Khash Engine Netmap Ip Send.

Section Arp.
Context `{!Netmap}.
Context (can_alloc : kh_array → Z → bool).
(** Fuel of the loop that waits for a transmission. *)
Context (fuel : nat).

(** ** The neighbor cache *)

Definition neighbor_update (addr : w_addr) (mac : bytes) : M engine unit :=
  w ← get; h ← lift (kh_update can_alloc (e_neighbor w) addr mac);
  put (set_neighbor w h).

Definition neighbor_find (addr : w_addr) : M engine bytes :=
  w ← get; o ← lift (kh_find (e_neighbor w) addr);
  mret (default ETH_ADDR_BCAST o).

(** ** ARP *)

(** An address in network byte order as a [struct w_addr]. *)
Definition addr4 (ip : Z) : w_addr := WAddr AF_INET (stn (repeat 0 16) 0 (le_bytes 4 ip)).

(** The reply written by [arp_is_at] into the buffer of vector [i]. *)
Definition arp_reply (i : nat) (buf : bufptr) (ip : Z) : M engine unit :=
  v ← get_iov i; w ← get;
  let reply := padd (v_base v) (eth_data 0) in
  let req := padd buf (eth_data 0) in
  stm16 (padd reply Arp.hrd) ARP_HRD_ETHER ;;
  stm16 (padd reply Arp.pro) ETH_TYPE_IP4 ;;
  stm8 (padd reply Arp.hln) 6 ;;
  stm8 (padd reply Arp.pln) (Z.of_nat IP4_LEN) ;;
  stm16 (padd reply Arp.op) ARP_OP_REPLY ;;
  stm (padd reply Arp.sha) (mac (e_conf w)) ;;
  stm32 (padd reply Arp.spa) ip ;;
  sha ← ldm (padd req Arp.sha) 6; stm (padd reply Arp.tha) sha ;;
  spa ← ldm32 (padd req Arp.spa); stm32 (padd reply Arp.tpa) spa ;;
  let eth := v_base v in
  sha ← ldm (padd req Arp.sha) 6; stm (padd eth Eth.dst) sha ;;
  stm (padd eth Eth.src) (mac (e_conf w)) ;;
  stm16 (padd eth Eth.type) ETH_TYPE_ARP ;;
  put_iov i (set_len v (Z.of_nat Arp.size)).

Definition arp_is_at (buf : bufptr) (ip : Z) : M engine unit :=
  o ← w_alloc_iov_base true;
  match o with
  | None => mret tt
  | Some i => arp_reply i buf ip ;; eth_tx_and_free fuel i
  end.

(** The request written by [arp_who_has]. *)
Definition arp_request (i : nat) (addr : Z) : M engine unit :=
  v ← get_iov i; w ← get;
  let eth := v_base v in
  let arp := padd (v_base v) (eth_data 0) in
  stm (padd eth Eth.dst) ETH_ADDR_BCAST ;;
  stm (padd eth Eth.src) (mac (e_conf w)) ;;
  stm16 (padd eth Eth.type) ETH_TYPE_ARP ;;
  stm16 (padd arp Arp.hrd) ARP_HRD_ETHER ;;
  stm16 (padd arp Arp.pro) ETH_TYPE_IP4 ;;
  stm8 (padd arp Arp.hln) 6 ;;
  stm8 (padd arp Arp.pln) (Z.of_nat IP4_LEN) ;;
  stm16 (padd arp Arp.op) ARP_OP_REQUEST ;;
  stm (padd arp Arp.sha) (mac (e_conf w)) ;;
  ia ← lift (rd (ifaddr (e_conf w)) (addr4_pos (e_conf w)));
  stm32 (padd arp Arp.spa) (ip4 (ia_addr ia)) ;;
  stm (padd arp Arp.tha) ETH_ADDR_NONE ;;
  stm32 (padd arp Arp.tpa) addr ;;
  put_iov i (set_len v (Z.of_nat Arp.size)).

Definition arp_who_has (addr : Z) : M engine unit :=
  o ← w_alloc_iov_base true;
  match o with
  | None => mret tt
  | Some i => arp_request i addr ;; eth_tx_and_free fuel i
  end.

Definition arp_rx (buf : bufptr) : M engine unit :=
  let arp := padd buf (eth_data 0) in
  hrd ← ldm16 (padd arp Arp.hrd); hln ← ldm8 (padd arp Arp.hln);
  if negb (hrd =? ARP_HRD_ETHER) || negb (hln =? 6) then mret tt else
  pro ← ldm16 (padd arp Arp.pro); pln ← ldm8 (padd arp Arp.pln);
  if negb (pro =? ETH_TYPE_IP4) || negb (pln =? Z.of_nat IP4_LEN) then mret tt else
  op ← ldm16 (padd arp Arp.op);
  known ← (if op =? ARP_OP_REQUEST then
             tpa ← ldm32 (padd arp Arp.tpa); w ← get;
             idx ← lift (is_my_ip4 (e_conf w) tpa false);
             when (negb (idx =? UINT16_MAX)) (arp_is_at buf tpa) ;; mret true
           else mret (op =? ARP_OP_REPLY));
  if negb known then mret tt else
  spa ← ldm32 (padd arp Arp.spa); sha ← ldm (padd arp Arp.sha) 6;
  neighbor_update (addr4 spa) sha.
End Arp.

(** * Theorems *)

(** ** Frames *)

(** The ARP message [op] in the frame [b], from [mac] and [spa] to [dst], with the
    target addresses [tha] and [tpa]. *)
Record arp_frame (b : bytes) (dst mac : bytes) (op spa : Z) (tha : bytes) (tpa : Z) : Prop := {
  af_dst : ldn b Eth.dst 6 = dst;
  af_src : ldn b Eth.src 6 = mac;
  af_type : ld16 b Eth.type = ETH_TYPE_ARP;
  af_hrd : ld16 b (14 + Arp.hrd) = ARP_HRD_ETHER;
  af_pro : ld16 b (14 + Arp.pro) = ETH_TYPE_IP4;
  af_hln : ld8 b (14 + Arp.hln) = 6;
  af_pln : ld8 b (14 + Arp.pln) = 4;
  af_op : ld16 b (14 + Arp.op) = op;
  af_sha : ldn b (14 + Arp.sha) 6 = mac;
  af_spa : ld32 b (14 + Arp.spa) = spa;
  af_tha : ldn b (14 + Arp.tha) 6 = tha;
  af_tpa : ld32 b (14 + Arp.tpa) = tpa
}.

(** Read the fields of a frame back from the stores that made it. *)
Ltac frame_field :=
  cbn [Nat.add eth_data Eth.size Arp.hrd Arp.pro Arp.hln Arp.pln Arp.op Arp.sha Arp.spa Arp.tha Arp.tpa];
  ld_field; rewrite ?le_val_bytes; first [reflexivity|by apply Z.mod_small].

Section Frames.
Context (w : engine) (i : nat) (v : w_iov) (b : bytes) (r : krng_t) (bi : Z).
Hypothesis Hbase : v_base v = (bi, 0).
Hypothesis Hlen : (42 <= length b)%nat.
Hypothesis Hb : is_bytes b.
Hypothesis Hmac : is_bytes (mac (e_conf w)) ∧ length (mac (e_conf w)) = 6%nat.

(** The vector and the frame after [arp_request] or [arp_reply]. *)
Definition arp_done (c : M engine unit) (dst : bytes) (op spa : Z) (tha : bytes) (tpa : Z) : Prop :=
  ∃ b', c (pkt w i v b r) = Done (tt, pkt w i (set_len v (Z.of_nat Arp.size)) b' r) ∧
    length b' = length b ∧ is_bytes b' ∧ arp_frame b' dst (mac (e_conf w)) op spa tha tpa.

Lemma arp_request_run addr ia :
  ifaddr (e_conf w) !! Z.to_nat (addr4_pos (e_conf w)) = Some ia → 0 <= addr4_pos (e_conf w) →
  is_u32 addr → is_u32 (ip4 (ia_addr ia)) →
  arp_done (arp_request i addr) ETH_ADDR_BCAST ARP_OP_REQUEST (ip4 (ia_addr ia)) ETH_ADDR_NONE addr.
Proof.
  intros Hia Hpos Ha Hi. destruct Hmac as [Hmb Hml]. unfold arp_done, arp_request, stm8, stm16, stm32.
  mstep (pkt_get_iov w i v b r). mstep. change (e_conf (pkt w i v b r)) with (e_conf w).
  do 9 pkt_store. mstep (lift_run _ _ _ (rd_Z _ _ _ Hpos Hia)). do 3 pkt_store.
  eexists. split; [exact (pkt_put_iov w i v b11 r (set_len v (Z.of_nat Arp.size)) eq_refl)|].
  split; [wire_lia|]. split; [done|].
  split; frame_field.
Qed.

Lemma arp_reply_run buf bj rb ip :
  buf = (bj, 0) → bj ≠ bi → e_mem w !! bj = Some rb → (42 <= length rb)%nat → is_bytes rb → is_u32 ip →
  arp_done (arp_reply i buf ip) (ldn rb (14 + Arp.sha) 6) ARP_OP_REPLY ip
    (ldn rb (14 + Arp.sha) 6) (ld32 rb (14 + Arp.spa)).
Proof.
  intros Hbuf Hne Hrb Hl Hrbb Hip. destruct Hmac as [Hmb Hml].
  assert (length (ldn rb (14 + Arp.sha) 6) = 6%nat) as Hs by (apply length_ldn; wire_lia).
  assert (is_bytes (ldn rb (14 + Arp.sha) 6)) as Hsb by auto with wc.
  pose proof (ld32_range rb (14 + Arp.spa) Hrbb) as Hspa.
  unfold arp_done, arp_reply, stm8, stm16, stm32.
  mstep (pkt_get_iov w i v b r). mstep. change (e_conf (pkt w i v b r)) with (e_conf w).
  do 7 pkt_store. buf_load. change (0 + eth_data 0 + Arp.sha)%nat with (14 + Arp.sha)%nat. pkt_store.
  buf_load. change (0 + eth_data 0 + Arp.spa)%nat with (14 + Arp.spa)%nat. pkt_store.
  buf_load. change (0 + eth_data 0 + Arp.sha)%nat with (14 + Arp.sha)%nat. do 3 pkt_store.
  eexists. split; [exact (pkt_put_iov w i v b11 r (set_len v (Z.of_nat Arp.size)) eq_refl)|].
  split; [wire_lia|]. split; [done|].
  split; frame_field.
Qed.
End Frames.

(** ** The neighbor cache *)

Abbreviation neigh_map := (kmap (K := w_addr) (V := bytes)).

Lemma neighbor_find_run (nm : neigh_map) B w a :
  kh_rep (e_neighbor w) nm B → w_addr_wf a →
  neighbor_find a w = Done (default ETH_ADDR_BCAST (km_find nm a), w).
Proof.
  intros Hr Ha. unfold neighbor_find. mstep.
  by mstep (lift_run _ _ w (kh_find_rep (KK := neighbor_key) (e_neighbor w) nm B a Hr Ha)).
Qed.

Lemma neighbor_update_run can_alloc (nm : neigh_map) B w a mac :
  (∀ x n, can_alloc x n = true) → kh_rep (e_neighbor w) nm B → w_addr_wf a → Z.of_nat B < 2 ^ 24 →
  ∃ h, neighbor_update can_alloc a mac w = Done (tt, set_neighbor w h) ∧
    kh_rep h (km_update nm a mac) (S B).
Proof.
  intros Hal Hr Ha HB.
  destruct (kh_update_rep (KK := neighbor_key) can_alloc Hal (e_neighbor w) nm B a mac Hr Ha HB) as (h & E & Hr').
  exists h. split; [|done]. unfold neighbor_update. mstep. by mstep (lift_run _ _ w E).
Qed.

Lemma addr4_wf ip : w_addr_wf (addr4 ip).
Proof. apply set_ip4_wf; [|done]. by apply (bool_decide_unpack (Forall is_u8 _)). Qed.

Lemma set_neighbor_inv L home D m w h : net_inv L home D m w → net_inv L home D m (set_neighbor w h).
Proof. intros [[] Ht ? ? ?]. split; try done. by apply (tx_inv_ext home w). Qed.

(** ** The handlers *)

Section Handlers.
Context `{NetmapLaws, !NetmapProgress}.
Context (can_alloc : kh_array → Z → bool).
Hypothesis Halloc : ∀ a n, can_alloc a n = true.
Context (L : nat) (home : homes) (D : gset nat) (m : queues) (fuel : nat) (w : engine).
Hypothesis HL : (42 <= L)%nat.
Hypothesis Hinv : net_inv L home D m w.
Hypothesis Hfuel : fuel_ok fuel w.
Hypothesis Hconf : ifconf_wf (e_conf w).

(** Sending an ARP message with [c] for the vector at the head of the free list. *)
Lemma arp_send_run i free (c : nat → M engine unit) dst op spa tha tpa :
  m !! IOVQ = Some (i :: free) →
  (∀ q v b, v_base v = (h_iov home i, 0) → length b = L → is_bytes b →
    arp_done (set_iovs w q (e_bufs w)) i v b (e_rng w) (c i) dst op spa tha tpa) →
  ∃ w' b', (o ← w_alloc_iov_base true;
            match o with None => mret tt | Some i => c i ;; eth_tx_and_free fuel i end) w = Done (tt, w') ∧
    reply_sent L home D m w i b' (Z.of_nat Arp.size) w' ∧
    arp_frame b' dst (mac (e_conf w)) op spa tha tpa.
Proof.
  intros Hm Hc.
  destruct (send_run L home D m fuel w Hinv Hfuel i free Hm)
    as (q & v & b & E & Hv & Hb & Hbase & Hun & Hlen & Hbytes & Hsend).
  destruct (Hc q (reinit true w v) b Hbase Hlen Hbytes) as (b' & Ec & Hl' & Hb' & Hfr).
  destruct (Hsend (set_len (reinit true w v) (Z.of_nat Arp.size)) b' (e_rng w)) as (w' & Es & _ & Hs);
    [done|done|done|lia|done|].
  exists w', b'. split; [|by split]. mstep E. mstep Ec. exact Es.
Qed.

Lemma arp_is_at_run i free buf bj rb ip :
  m !! IOVQ = Some (i :: free) → buf = (bj, 0) → bj ≠ h_iov home i → e_mem w !! bj = Some rb →
  (42 <= length rb)%nat → is_bytes rb → is_u32 ip →
  ∃ w' b', arp_is_at fuel buf ip w = Done (tt, w') ∧
    reply_sent L home D m w i b' (Z.of_nat Arp.size) w' ∧
    arp_frame b' (ldn rb (14 + Arp.sha) 6) (mac (e_conf w)) ARP_OP_REPLY ip
      (ldn rb (14 + Arp.sha) 6) (ld32 rb (14 + Arp.spa)).
Proof.
  intros Hm Hbuf Hne Hrb Hl Hbb Hip. unfold arp_is_at.
  apply (arp_send_run i free (λ i, arp_reply i buf ip)); [done|].
  intros q v b Hbase Hlen Hbytes.
  apply (arp_reply_run _ i v b (e_rng w) (h_iov home i)) with (bj := bj); try done; [lia|].
  apply Hconf.
Qed.

(** Arp_who_has broadcasts a request frame for the address from our primary IPv4
    address and gives its vector back. *)
Theorem arp_who_has_correct i free addr ia :
  m !! IOVQ = Some (i :: free) → is_u32 addr →
  ifaddr (e_conf w) !! Z.to_nat (addr4_pos (e_conf w)) = Some ia →
  ∃ w' b', arp_who_has fuel addr w = Done (tt, w') ∧
    reply_sent L home D m w i b' (Z.of_nat Arp.size) w' ∧
    arp_frame b' ETH_ADDR_BCAST (mac (e_conf w)) ARP_OP_REQUEST (ip4 (ia_addr ia)) ETH_ADDR_NONE addr.
Proof.
  intros Hm Ha Hia. unfold arp_who_has.
  apply (arp_send_run i free (λ i, arp_request i addr)); [done|].
  intros q v b Hbase Hlen Hbytes.
  apply (arp_request_run _ i v b (e_rng w) (h_iov home i)); try done; [lia|apply Hconf|apply Hconf|].
  pose proof (wf_ifaddr _ Hconf) as Hf. rewrite Forall_lookup in Hf. destruct (Hf _ _ Hia) as ([_ Hu _] & _).
  by apply ld32_range.
Qed.

(** An Ethernet/IPv4 ARP message. *)
Definition arp_valid (rb : bytes) : bool :=
  (ld16 rb (14 + Arp.hrd) =? ARP_HRD_ETHER) && (ld8 rb (14 + Arp.hln) =? 6) &&
  (ld16 rb (14 + Arp.pro) =? ETH_TYPE_IP4) && (ld8 rb (14 + Arp.pln) =? 4).
Definition arp_request_or_reply (rb : bytes) : bool :=
  (ld16 rb (14 + Arp.op) =? ARP_OP_REQUEST) || (ld16 rb (14 + Arp.op) =? ARP_OP_REPLY).

(** The reception of the frame [rb] in buffer [bj], outside of the vectors. *)
Section Receive.
Context (buf : bufptr) (bj : Z) (rb : bytes) (idx : Z).
Hypothesis Hbuf : buf = (bj, 0).
Hypothesis Hrb : e_mem w !! bj = Some rb.
Hypothesis Hl : (42 <= length rb)%nat.
Hypothesis Hbb : is_bytes rb.
Hypothesis Hout : ∀ i, i ∈ D → h_iov home i ≠ bj.
Hypothesis Hmine : is_my_ip4 (e_conf w) (ld32 rb (14 + Arp.tpa)) false = Done idx.

Let learns := arp_valid rb && arp_request_or_reply rb.
Let replies := arp_valid rb && (ld16 rb (14 + Arp.op) =? ARP_OP_REQUEST) && negb (idx =? UINT16_MAX).
Let sha := ldn rb (14 + Arp.sha) 6.
Let spa := ld32 rb (14 + Arp.spa).

(** The state [w1] after the reply, if there is one. *)
Definition arp_replied (w1 : engine) : Prop :=
  match m !! IOVQ with
  | Some (i :: _) =>
      if replies then
        ∃ b', reply_sent L home D m w i b' (Z.of_nat Arp.size) w1 ∧
          arp_frame b' sha (mac (e_conf w)) ARP_OP_REPLY (ld32 rb (14 + Arp.tpa)) sha spa
      else w1 = w
  | _ => w1 = w
  end.

(** Up to the update of the neighbor cache. *)
Lemma arp_rx_run : ∃ known w1, arp_rx can_alloc fuel buf w =
    (if (known : bool) then neighbor_update can_alloc (addr4 spa) sha else mret tt) w1 ∧ known = learns ∧
  net_inv L home D m w1 ∧ same_rest w w1 ∧ arp_replied w1.
Proof.
  unfold arp_replied.
  assert (Hsame : match m !! IOVQ with Some (_ :: _) => w = w | _ => w = w end)
    by (by destruct (m !! IOVQ) as [[|]|]).
  unfold arp_rx, replies, learns, arp_valid, arp_request_or_reply. do 2 buf_load.
  change (0 + eth_data 0)%nat with 14%nat.
  destruct (ld16 rb (14 + Arp.hrd) =? ARP_HRD_ETHER); cbn [negb orb andb]; [|by exists false, w].
  destruct (ld8 rb (14 + Arp.hln) =? 6); cbn [negb orb andb]; [|by exists false, w].
  do 2 buf_load. change (0 + eth_data 0)%nat with 14%nat.
  destruct (ld16 rb (14 + Arp.pro) =? ETH_TYPE_IP4); cbn [negb orb andb]; [|by exists false, w].
  change (Z.of_nat IP4_LEN) with 4.
  destruct (ld8 rb (14 + Arp.pln) =? 4); cbn [negb orb andb]; [|by exists false, w].
  buf_load. change (0 + eth_data 0)%nat with 14%nat.
  destruct (ld16 rb (14 + Arp.op) =? ARP_OP_REQUEST) eqn:Eop; cbn [negb orb andb].
  - rewrite bind_assoc_run. buf_load. change (0 + eth_data 0)%nat with 14%nat.
    rewrite bind_assoc_run. mstep. rewrite bind_assoc_run. mstep (lift_run _ _ w Hmine).
    rewrite bind_assoc_run.
    destruct (idx =? UINT16_MAX) eqn:Eidx; cbn [negb when].
    + exists true, w. mstep. mstep. cbn [negb]. split; [|by split_and!]. do 2 buf_load. done.
    + destruct (ei_iovq _ _ _ (ni_eng _ _ _ _ _ Hinv)) as [xs Hm]. destruct xs as [|i free].
      * pose proof (w_alloc_iov_base_run true D m w (ni_eng _ _ _ _ _ Hinv)) as Ea. rewrite Hm in Ea.
        assert (arp_is_at fuel buf (ld32 rb (14 + Arp.tpa)) w = Done (tt, w)) as Es
          by (unfold arp_is_at; by mstep Ea).
        exists true, w. mstep Es. mstep. cbn [negb]. rewrite Hm. split; [|by split_and!].
        do 2 buf_load. done.
      * destruct (arp_is_at_run i free buf bj rb (ld32 rb (14 + Arp.tpa))) as (w1 & b' & Es & Hs & Hfr);
          try done; [|by apply ld32_range|].
        { intros E. apply (Hout i); [|done]. eapply queue_elem; [apply Hinv|done|by left]. }
        exists true, w1. mstep Es. mstep. cbn [negb].
        assert (e_mem w1 !! bj = Some rb) as Hrb1.
        { rewrite (rs_mem _ _ _ _ _ _ _ _ _ Hs), lookup_insert_ne; [done|]. apply Hout.
          eapply queue_elem; [apply Hinv|done|by left]. }
        split; [do 2 buf_load; done|]. rewrite Hm. split_and!; [done|apply Hs|apply Hs|by exists b'].
  - destruct (ld16 rb (14 + Arp.op) =? ARP_OP_REPLY) eqn:Eop2; [|by exists false, w].
    exists true, w. mstep. cbn [negb]. split; [|by split_and!]. do 2 buf_load. done.
Qed.

(** C12: The changes that a received ARP message makes are exactly these: a request for our
    address is answered with our MAC address, if there is a free vector, in a frame that the
    kernel is shown in a TX ring unless all rings are full; the sender of every request and reply,
    for us or not, is entered in the neighbor cache; and every other entry of the cache and
    every socket is as it was. *)
Theorem arp_rx_correct (nm : neigh_map) B :
  kh_rep (e_neighbor w) nm B → Z.of_nat B < 2 ^ 24 →
  ∃ w1 w', arp_rx can_alloc fuel buf w = Done (tt, w') ∧ net_inv L home D m w' ∧
    (∀ a, w_addr_wf a → neighbor_find a w' =
      Done ((if learns && w_addr_cmp (addr4 spa) a then sha else default ETH_ADDR_BCAST (km_find nm a)), w')) ∧
    w' = set_neighbor w1 (e_neighbor w') ∧ arp_replied w1.
Proof.
  intros Hnm HB. destruct arp_rx_run as (known & w1 & E & -> & Hinv1 & Hrest & Hcase).
  rewrite <- (sr_neighbor _ _ Hrest) in Hnm. exists w1. destruct learns.
  - destruct (neighbor_update_run can_alloc nm B w1 (addr4 spa) sha Halloc Hnm (addr4_wf _) HB) as (h & Eu & Hr).
    exists (set_neighbor w1 h). rewrite E, Eu. split_and!; [done|by apply set_neighbor_inv| |done|done].
    intros a Ha. rewrite (neighbor_find_run (km_update nm (addr4 spa) sha) (S B)) by done. do 2 f_equal.
    rewrite (km_find_update (KK := neighbor_key)); [|apply Hnm|apply addr4_wf|done].
    change (hash_equal (addr4 spa) a) with (w_addr_cmp (addr4 spa) a). cbn [andb].
    by destruct (w_addr_cmp _ _).
  - exists w1. rewrite E. split_and!; [done|done| |by destruct w1|done].
    intros a Ha. by rewrite (neighbor_find_run nm B).
Qed.
End Receive.
End Handlers.

(** ** Witnesses *)

(** A request of 10.0.0.2 for 10.0.0.1. *)
Definition arp_ex : bytes :=
  ETH_ADDR_BCAST ++ [2; 0; 0; 0; 0; 2; 8; 6; 0; 1; 8; 0; 6; 4; 0; 1; 2; 0; 0; 0; 0; 2; 10; 0; 0; 2;
    0; 0; 0; 0; 0; 0; 10; 0; 0; 1].

#[local] Existing Instance netmap_ex.

Lemma arp_who_has_correct_witness :
  ∃ w' b', arp_who_has 5 0x0200000a (eng_net_ex arp_ex) = Done (tt, w') ∧
    arp_frame b' ETH_ADDR_BCAST [2; 0; 0; 0; 0; 1] ARP_OP_REQUEST 0x0100000a ETH_ADDR_NONE 0x0200000a.
Proof.
  destruct (arp_who_has_correct 128 homes_ex eng_ex_D eng_ex_m 5 (eng_net_ex arp_ex) ltac:(lia)
    (eng_net_ex_inv arp_ex) (eng_net_ex_fuel arp_ex) ifconf_ex_wf 0 [1; 2]%nat 0x0200000a ifaddr_ex4
    eq_refl) as (w' & b' & E & _ & F).
  - split; [discriminate|reflexivity].
  - reflexivity.
  - exists w', b'. split; [exact E|exact F].
Defined.

Lemma arp_rx_correct_witness :
  ∃ w', arp_rx (λ _ _, true) 5 (100, 0) (eng_net_ex arp_ex) = Done (tt, w') ∧
    neighbor_find (addr4 0x0200000a) w' = Done ([2; 0; 0; 0; 0; 2], w').
Proof.
  destruct (arp_rx_correct (λ _ _, true) (λ _ _, eq_refl) 128 homes_ex eng_ex_D eng_ex_m 5 (eng_net_ex arp_ex)
    ltac:(lia) (eng_net_ex_inv arp_ex) (eng_net_ex_fuel arp_ex) ifconf_ex_wf (100, 0) 100 arp_ex 1
    eq_refl) with (nm := @nil (w_addr * bytes)) (B := 0%nat) as (w1 & w' & E & _ & F & _).
  - apply lookup_insert_eq.
  - apply Nat.leb_le. vm_compute. reflexivity.
  - apply (bool_decide_unpack (Forall is_u8 arp_ex)). vm_compute. exact I.
  - apply eng_net_ex_out.
  - vm_compute. reflexivity.
  - apply kh_init_rep.
  - reflexivity.
  - exists w'. split; [exact E|]. rewrite (F (addr4 0x0200000a) (addr4_wf _)). vm_compute. reflexivity.
Defined.
