(* ===== verification/Icmp.v ===== *)
(** ICMP (lib/src/icmp4.c, lib/src/icmp6.c): echo replies, unreachable messages and
    IPv6 neighbor discovery. *)

From S2P Require Import Prelude Util Krng Queue Wire Cksum Addr Khash Engine Netmap Ip Send Arp.

Section Icmp.
Context `{!Netmap}.
Context (can_alloc : kh_array → Z → bool).
(** Fuel of the loops of the random number generator and of the transmission. *)
Context (fuel : nat).

(** [ip4_data buf] in memory. *)
Definition ip4_data_ptr (buf : bufptr) : M engine bufptr :=
  vhl ← ldm8 (padd buf (eth_data 0));
  mret (padd buf (eth_data 0 + Z.to_nat (ip4_hl vhl))).
Definition ip6_data_ptr (buf : bufptr) : bufptr := padd buf ip6_data.

(** ** ICMPv4 *)

(** The message-specific part of [icmp4_tx]: the pointer to the data to copy and
    its length. *)
Definition icmp4_payload (dst_icmp src_ip : bufptr) (buf : bufptr) (type : Z) : M engine (bufptr * Z) :=
  w ← get;
  len ← ldm16 (padd src_ip Ip4.len);
  let data := src_ip in
  let data_len := Z.min (bswap16 len) (mtu (e_conf w)) in
  vhl ← ldm8 (padd src_ip Ip4.vhl);
  if type =? ICMP4_TYPE_ECHOREPLY then
    src_icmp ← ip4_data_ptr buf;
    id ← ldm16 (padd src_icmp Icmp.id); stm16 (padd dst_icmp Icmp.id) id ;;
    seq ← ldm16 (padd src_icmp Icmp.seq); stm16 (padd dst_icmp Icmp.seq) seq ;;
    let hlen := ip4_hl vhl + Z.of_nat Icmp.size in
    mret (padd data (Z.to_nat hlen), u16 (data_len - hlen))
  else if type =? ICMP4_TYPE_UNREACH then
    stm16 (padd dst_icmp Icmp.seq) 0 ;; stm16 (padd dst_icmp Icmp.id) 0 ;;
    mret (data, ip4_hl vhl + 8)
  else die.

(** The message and its headers, written into the buffer of vector [i]. *)
Definition icmp4_msg (i : nat) (type code : Z) (buf : bufptr) : M engine unit :=
  v ← get_iov i;
  dst_icmp ← ip4_data_ptr (v_base v);
  stm8 (padd dst_icmp Icmp.type) type ;;
  stm8 (padd dst_icmp Icmp.code) code ;;
  let src_ip := padd buf (eth_data 0) in
  '(data, data_len) ← icmp4_payload dst_icmp src_ip buf type;
  memcpy (padd dst_icmp Icmp.size) data (Z.to_nat data_len) ;;
  stm16 (padd dst_icmp Icmp.cksum) 0 ;;
  c ← on_buf (λ b p, ip_cksum b p (u16 (Z.of_nat Icmp.size + data_len))) dst_icmp;
  stm16 (padd dst_icmp Icmp.cksum) c ;;
  let dst_ip := padd (v_base v) (eth_data 0) in
  src ← ldm32 (padd src_ip Ip4.src);
  let sa := WSockaddr (WAddr AF_INET (stn (un (sa_addr (v_saddr v))) 0 (le_bytes 4 src)))
              (sa_port (v_saddr v)) in
  put_iov i (set_len (set_saddr v sa) (u16 (Z.of_nat Icmp.size + data_len))) ;;
  stm8 (padd dst_ip Ip4.p) IP_P_ICMP ;;
  mk_ip4_hdr fuel i None ;;
  src ← ldm (padd buf Eth.src) 6; stm (padd (v_base v) Eth.dst) src ;;
  w ← get; stm (padd (v_base v) Eth.src) (mac (e_conf w)) ;;
  stm16 (padd (v_base v) Eth.type) ETH_TYPE_IP4.

Definition icmp4_tx (type code : Z) (buf : bufptr) : M engine unit :=
  o ← w_alloc_iov_base true;
  match o with
  | None => mret tt
  | Some i => icmp4_msg i type code buf ;; eth_tx_and_free fuel i
  end.

(** Reading the fields of an unreachable message for the log has no effect. *)
Definition icmp4_rx (slot_len : Z) (buf : bufptr) : M engine unit :=
  icmp ← ip4_data_ptr buf;
  let ip := padd buf (eth_data 0) in
  vhl ← ldm8 (padd ip Ip4.vhl); len ← ldm16 (padd ip Ip4.len);
  let icmp4_len := u16 (Z.min (u16 (bswap16 len - ip4_hl vhl))
                              (u64 (u64 (slot_len - Z.of_nat Eth.size) - ip4_hl vhl))) in
  c ← on_buf (λ b p, ip_cksum b p icmp4_len) icmp;
  if negb (c =? 0) then mret tt else
  type ← ldm8 (padd icmp Icmp.type);
  if type =? ICMP4_TYPE_ECHO then icmp4_tx ICMP4_TYPE_ECHOREPLY 0 buf else mret tt.

(** ** ICMPv6 *)

Definition mk_icmp6_pkt_hdrs (i : nat) : M engine unit :=
  v ← get_iov i;
  let eth := v_base v in
  let ip := padd (v_base v) (eth_data 0) in
  let icmp := padd ip Ip6.size in
  put_iov i (set_saddr v (WSockaddr (WAddr AF_INET6 (un (sa_addr (v_saddr v)))) (sa_port (v_saddr v)))) ;;
  stm8 (padd ip Ip6.next_hdr) IP_P_ICMP6 ;;
  mk_ip6_hdr i None ;;
  stm16 (padd icmp Icmp.cksum) 0 ;;
  v ← get_iov i;
  c ← on_buf (λ b p, payload_cksum b p (v_len v)) ip;
  stm16 (padd icmp Icmp.cksum) c ;;
  w ← get; stm (padd eth Eth.src) (mac (e_conf w)) ;;
  stm16 (padd eth Eth.type) ETH_TYPE_IP6.

(** [memcpy(v->wv_ip6, a, IP6_LEN)]. *)
Definition set_ip6 (v : w_iov) (a : bytes) : w_iov :=
  set_saddr v (WSockaddr (WAddr (af (sa_addr (v_saddr v))) (stn (un (sa_addr (v_saddr v))) 0 a))
                 (sa_port (v_saddr v))).

(** A link-layer address option at [p]. *)
Definition put_lla (p : bufptr) (type : Z) : M engine unit :=
  w ← get;
  stm8 p type ;; stm8 (padd p 1) 1 ;; stm (padd p 2) (mac (e_conf w)).

(** The neighbor solicitation for [addr] written into the buffer of vector [i]. *)
Definition icmp6_nsol_msg (i : nat) (addr : bytes) : M engine unit :=
  v ← get_iov i;
  let eth := v_base v in
  let icmp := padd (v_base v) (eth_data 0 + Ip6.size) in
  stm8 (padd icmp Icmp.type) ICMP6_TYPE_NSOL ;;
  stm8 (padd icmp Icmp.code) 0 ;;
  stm16 (padd icmp Icmp.id) 0x60 ;;
  stm16 (padd icmp Icmp.seq) 0 ;;
  let resp := padd icmp Icmp.size in
  stm resp (take IP6_LEN addr) ;;
  put_lla (padd resp IP6_LEN) 1 ;;
  put_iov i (set_len (set_ip6 v (ip6_mk_snma addr)) (Z.of_nat (Icmp.size + IP6_LEN + 8))) ;;
  mk_icmp6_pkt_hdrs i ;;
  stm (padd eth Eth.dst) ETH_ADDR_MCAST6 ;;
  stm (padd eth (Eth.dst + 2)) (ldn addr 12 4).

Definition icmp6_nsol (addr : bytes) : M engine unit :=
  o ← w_alloc_iov_base true;
  match o with
  | None => mret tt
  | Some i => icmp6_nsol_msg i addr ;; eth_tx_and_free fuel i
  end.

(** [if (len >= bound && *(data++) == 1 && *(data++) == 1) sla = data;], with the
    new value of [data]. *)
Definition find_sla (data : bufptr) (ok : bool) : M engine (option bufptr * bufptr) :=
  if ok then
    t ← ldm8 data;
    if t =? 1 then
      l ← ldm8 (padd data 1);
      mret (if l =? 1 then (Some (padd data 2), padd data 2) else (None, padd data 2))
    else mret (None, padd data 1)
  else mret (None, data).

(** The message-specific part of [icmp6_tx]: the data to copy, if any, its length,
    and the source link-layer address found. *)
Definition icmp6_payload (dst_icmp src_ip : bufptr) (buf : bufptr) (type : Z)
    : M engine (option bufptr * Z * option bufptr) :=
  w ← get;
  len ← ldm16 (padd src_ip Ip6.len);
  let data := ip6_data_ptr buf in
  let data_len := u16 (Z.min (bswap16 len) (u64 (mtu (e_conf w) - Z.of_nat Ip6.size))) in
  if type =? ICMP6_TYPE_NADV then
    stm16 (padd dst_icmp Icmp.id) 0x60 ;;
    stm16 (padd dst_icmp Icmp.seq) 0 ;;
    '(sla, _) ← find_sla data (Z.of_nat Icmp.size + 8 <=? data_len);
    let resp := padd dst_icmp Icmp.size in
    memcpy resp (padd (ip6_data_ptr buf) Icmp.size) IP6_LEN ;;
    put_lla (padd resp IP6_LEN) 2 ;;
    mret (None, Z.of_nat (IP6_LEN + 8), sla)
  else if type =? ICMP6_TYPE_ECHOREPLY then
    id ← ldm16 (padd data Icmp.id); stm16 (padd dst_icmp Icmp.id) id ;;
    seq ← ldm16 (padd data Icmp.seq); stm16 (padd dst_icmp Icmp.seq) seq ;;
    mret (Some (padd data Icmp.size), u16 (data_len - Z.of_nat Icmp.size), None)
  else if type =? ICMP6_TYPE_UNREACH then
    stm16 (padd dst_icmp Icmp.seq) 0 ;; stm16 (padd dst_icmp Icmp.id) 0 ;;
    mret (Some data, Z.of_nat (Ip6.size + 8), None)
  else die.

Definition icmp6_msg (i : nat) (type code : Z) (buf : bufptr) : M engine unit :=
  v ← get_iov i;
  let dst_icmp := ip6_data_ptr (v_base v) in
  stm8 (padd dst_icmp Icmp.type) type ;;
  stm8 (padd dst_icmp Icmp.code) code ;;
  let src_ip := padd buf (eth_data 0) in
  '(data, data_len, sla) ← icmp6_payload dst_icmp src_ip buf type;
  match data with
  | Some data => memcpy (padd dst_icmp Icmp.size) data (Z.to_nat data_len)
  | None => mret tt
  end ;;
  src ← ldm (padd src_ip Ip6.src) IP6_LEN;
  put_iov i (set_ip6 (set_len v (u16 (Z.of_nat Icmp.size + data_len))) src) ;;
  mk_icmp6_pkt_hdrs i ;;
  mac ← ldm (default (padd buf Eth.src) sla) 6;
  stm (padd (v_base v) Eth.dst) mac.

Definition icmp6_tx (type code : Z) (buf : bufptr) : M engine unit :=
  o ← w_alloc_iov_base true;
  match o with
  | None => mret tt
  | Some i => icmp6_msg i type code buf ;; eth_tx_and_free fuel i
  end.

(** The target and the link-layer address of a neighbor message. *)
Definition nd_option (slot_len : Z) (icmp ip : bufptr) : M engine (bytes * option bufptr) :=
  len ← ldm16 (padd ip Ip6.len);
  let data := padd icmp Icmp.size in
  let data_len := u16 (Z.min (bswap16 len)
    (u64 (slot_len - Z.of_nat (Eth.size + Ip6.size + Icmp.size)))) in
  '(sla, _) ← find_sla (padd data IP6_LEN) (Z.of_nat IP6_LEN + 8 <=? data_len);
  target ← ldm data IP6_LEN;
  mret (target, sla).

Definition icmp6_rx (slot_len : Z) (buf : bufptr) : M engine unit :=
  let icmp := ip6_data_ptr buf in
  let ip := padd buf (eth_data 0) in
  len ← ldm16 (padd ip Ip6.len);
  let icmp_len := u16 (Z.min (bswap16 len) (u64 (slot_len - Z.of_nat (Eth.size + Ip6.size)))) in
  c ← on_buf (λ b p, payload_cksum b p (u16 (icmp_len + Z.of_nat Ip6.size))) ip;
  if negb (c =? 0) then mret tt else
  type ← ldm8 (padd icmp Icmp.type);
  if type =? ICMP6_TYPE_NADV then
    '(target, sla) ← nd_option slot_len icmp ip;
    mac ← ldm (default (padd buf Eth.src) sla) 6;
    neighbor_update can_alloc (WAddr AF_INET6 target) mac
  else if type =? ICMP6_TYPE_NSOL then
    '(target, sla) ← nd_option slot_len icmp ip;
    w ← get; idx ← lift (is_my_ip6 (e_conf w) target false);
    if negb (idx =? UINT16_MAX) then
      icmp6_tx ICMP6_TYPE_NADV 0 buf ;;
      src ← ldm (padd ip Ip6.src) IP6_LEN;
      mac ← ldm (default (padd buf Eth.src) sla) 6;
      neighbor_update can_alloc (WAddr AF_INET6 src) mac
    else mret tt
  else if type =? ICMP6_TYPE_ECHO then icmp6_tx ICMP6_TYPE_ECHOREPLY 0 buf
  else mret tt.
End Icmp.

(** * Theorems *)

(** ** Echo replies over IPv4 *)

(** [rb] holds an ICMPv4 echo message in an IPv4 packet of total length [tot] that
    fits the MTU and the buffer. *)
Record icmp4_echo_ok (rb : bytes) (mtu tot : Z) : Prop := {
  e4_bytes : is_bytes rb;
  e4_tot : bswap16 (ld16 rb (14 + Ip4.len)) = tot;
  e4_hl : 20 <= ip4_hl (ld8 rb 14);
  e4_len : ip4_hl (ld8 rb 14) + 8 <= tot;
  e4_mtu : tot <= mtu;
  e4_fits : 14 + tot <= Z.of_nat (length rb)
}.

Definition echo4_len (rb : bytes) (tot : Z) : Z := tot - (ip4_hl (ld8 rb 14) + 8).

(** The echo reply [b'] to [rb], with the IP header [mk_ip4_hdr] writes. *)
Record icmp4_echo_reply (b' rb mac : bytes) (tot id src : Z) : Prop := {
  er_dst : ldn b' Eth.dst 6 = ldn rb Eth.src 6;
  er_src : ldn b' Eth.src 6 = mac;
  er_type : ld16 b' Eth.type = ETH_TYPE_IP4;
  er_ip : ip4_hdr_at b' 14 0 (28 + echo4_len rb tot) id IP_P_ICMP src (ld32 rb (14 + Ip4.src));
  er_icmp : ld8 b' (34 + Icmp.type) = ICMP4_TYPE_ECHOREPLY ∧ ld8 b' (34 + Icmp.code) = 0;
  er_cksum : ip_cksum b' 34 (8 + echo4_len rb tot) = Done 0;
  er_id_seq : ldn b' (34 + Icmp.id) 4 = ldn rb (14 + Z.to_nat (ip4_hl (ld8 rb 14)) + Icmp.id) 4;
  er_data : ldn b' 42 (Z.to_nat (echo4_len rb tot)) =
    ldn rb (14 + Z.to_nat (ip4_hl (ld8 rb 14)) + 8) (Z.to_nat (echo4_len rb tot))
}.

Section Echo4.
Context (w : engine) (i : nat) (v : w_iov) (b : bytes) (r r' : krng_t) (bi bj : Z).
Context (fuel : nat) (rb : bytes) (tot id : Z) (ia : w_ifaddr) (buf : bufptr).
Hypothesis Hbase : v_base v = (bi, 0).
Hypothesis Hb : is_bytes b.
Hypothesis Hbuf : buf = (bj, 0).
Hypothesis Hne : bj ≠ bi.
Hypothesis Hrb : e_mem w !! bj = Some rb.
Hypothesis Hecho : icmp4_echo_ok rb (mtu (e_conf w)) tot.
Hypothesis Hmtu : is_u16 (mtu (e_conf w)).
Hypothesis Hfit : 42 + echo4_len rb tot <= Z.of_nat (length b).
Hypothesis Hflags : v_flags v = 0.
(** What the buffer held before: the code takes the place of the message from there. *)
Hypothesis Hstale : ip4_hl (ld8 b 14) = 20.

Let hl := Z.to_nat (ip4_hl (ld8 rb 14)).
Let n := echo4_len rb tot.

Lemma echo4_bounds : 0 <= n ∧ (14 + hl + 8 + Z.to_nat n <= length rb)%nat ∧ (42 + Z.to_nat n <= length b)%nat ∧
  28 + n <= 65535 ∧ (20 <= hl <= 60)%nat.
Proof.
  destruct Hecho as [_ Ht H0 H1 H2 H3]. pose proof (ip4_hl_range (ld8 rb 14)).
  unfold n, hl, echo4_len in *. unfold is_u16 in Hmtu. lia.
Qed.

(** The fields copied from the request. *)
Lemma icmp4_payload_echo b0 :
  (42 <= length b0)%nat → is_bytes b0 →
  let id := ldn rb (14 + hl + Icmp.id) 2 in let seq := ldn rb (14 + hl + Icmp.seq) 2 in
  icmp4_payload (padd (v_base v) 34) (padd buf (eth_data 0)) buf ICMP4_TYPE_ECHOREPLY (pkt w i v b0 r) =
  Done ((padd (padd buf (eth_data 0)) (hl + 8), n),
        pkt w i v (stn (stn b0 (34 + Icmp.id) id) (34 + Icmp.seq) seq) r).
Proof.
  intros Hl0 Hb0. destruct echo4_bounds as (Hn & Hlr & _ & Hmax & Hhl).
  destruct Hecho as [Hrbb Ht H0 H1 H2 H3].
  assert (length (ldn rb (14 + hl + Icmp.id) 2) = 2%nat) as Hi1 by (apply length_ldn; wire_lia).
  assert (length (ldn rb (14 + hl + Icmp.seq) 2) = 2%nat) as Hi2 by (apply length_ldn; wire_lia).
  unfold icmp4_payload. mstep. change (e_conf (pkt w i v b0 r)) with (e_conf w).
  do 2 buf_load. change (0 + eth_data 0 + Ip4.len)%nat with (14 + Ip4.len)%nat.
  change (0 + eth_data 0 + Ip4.vhl)%nat with 14%nat. rewrite Ht.
  change (ICMP4_TYPE_ECHOREPLY =? ICMP4_TYPE_ECHOREPLY) with true. cbv iota.
  unfold ip4_data_ptr. rewrite bind_assoc_run. buf_load. change (0 + eth_data 0)%nat with 14%nat.
  mstep. change (eth_data 0 + Z.to_nat (ip4_hl (ld8 rb 14)))%nat with (14 + hl)%nat.
  assert (Hld : ∀ o, (o + 2 <= length rb)%nat → le_bytes 2 (ld16 rb o) = ldn rb o 2).
  { intros o Ho. unfold ld16. rewrite <- (length_ldn rb o 2) at 1 by lia. apply le_bytes_val. auto with wc. }
  buf_load. unfold stm16. rewrite Hld by wire_lia. change (0 + (14 + hl) + Icmp.id)%nat with (14 + hl + Icmp.id)%nat.
  erewrite bind_run; [|eapply pkt_stm_at; [eassumption|rewrite Hi1; wire_lia]]. cbv beta.
  buf_load. rewrite Hld by wire_lia. change (0 + (14 + hl) + Icmp.seq)%nat with (14 + hl + Icmp.seq)%nat.
  erewrite bind_run; [|eapply pkt_stm_at; [eassumption|rewrite length_stn by (rewrite Hi1; wire_lia); rewrite Hi2; wire_lia]]. cbv beta.
  unfold mret, M_ret. repeat f_equal; unfold n, hl, echo4_len, Icmp.size in *; [lia|].
  rewrite Z.min_l, u16_id by (unfold is_u16; lia). lia.
Qed.

Hypothesis Hia : ifaddr (e_conf w) !! Z.to_nat (addr4_pos (e_conf w)) = Some ia.
Hypothesis Hiawf : w_addr_wf (ia_addr ia).
Hypothesis Hconf : ifconf_wf (e_conf w).
Hypothesis Hun : w_addr_wf (sa_addr (v_saddr v)).
Hypothesis Hrnd : w_rand_uniform32 fuel UINT16_MAX r = Done (id, r').

(** The vector after [icmp4_msg]. *)
Definition echo4_iov : w_iov :=
  set_len (set_saddr v (WSockaddr (WAddr AF_INET (stn (un (sa_addr (v_saddr v))) 0 (le_bytes 4 (ld32 rb (14 + Ip4.src)))))
                          (sa_port (v_saddr v)))) (28 + n).

Lemma icmp4_msg_echo :
  ∃ b', icmp4_msg fuel i ICMP4_TYPE_ECHOREPLY 0 buf (pkt w i v b r) = Done (tt, pkt w i echo4_iov b' r') ∧
    length b' = length b ∧ is_bytes b' ∧
    icmp4_echo_reply b' rb (mac (e_conf w)) tot id (ip4 (ia_addr ia)).
Proof.
  destruct echo4_bounds as (Hn & Hlr & Hlb & Hmax & Hhl). pose proof (e4_bytes _ _ _ Hecho) as Hrbb.
  destruct (wf_mac _ Hconf) as [Hmb Hml].
  assert (length (ldn rb (14 + hl + Icmp.id) 2) = 2%nat) as Hi1 by (apply length_ldn; wire_lia).
  assert (length (ldn rb (14 + hl + Icmp.seq) 2) = 2%nat) as Hi2 by (apply length_ldn; wire_lia).
  assert (length (ldn rb (14 + hl + 8) (Z.to_nat n)) = Z.to_nat n) as Hi3 by (apply length_ldn; wire_lia).
  unfold icmp4_msg, stm8. mstep (pkt_get_iov w i v b r).
  unfold ip4_data_ptr. rewrite bind_assoc_run. buf_load. change (0 + eth_data 0)%nat with 14%nat. mstep.
  rewrite Hstale. change (eth_data 0 + Z.to_nat 20)%nat with 34%nat.
  do 2 pkt_store. mstep (icmp4_payload_echo b1 ltac:(lia) Hb1).
  do 2 name_frame. unfold memcpy. rewrite bind_assoc_run. buf_load.
  change (0 + eth_data 0 + (hl + 8))%nat with (14 + (hl + 8))%nat.
  rewrite (Nat.add_assoc 14 hl 8). pkt_store. unfold stm16. pkt_store.
  destruct (ip_cksum_store b4 34 1 (Z.of_nat Icmp.size + n)) as (c & Ec & Hc & Eok); [done|wire_lia..|].
  change (st16 b4 (34 + 2 * 1) 0) with (stn b4 (34 + Icmp.cksum) (le_bytes 2 0)) in Ec, Eok.
  rewrite <- Eb4 in Ec, Eok. rewrite (u16_id (Z.of_nat Icmp.size + n)) by (unfold is_u16, Icmp.size; lia).
  mstep (pkt_on_buf_at w i v b5 r bi Hbase _ 34 _ Ec).
  pkt_store. buf_load. change (0 + eth_data 0 + Ip4.src)%nat with (14 + Ip4.src)%nat.
  set (v1 := set_len (set_saddr v _) _).
  assert (Ev1 : v_len v1 = 8 + n) by (unfold v1, Icmp.size; cbn; lia).
  mstep (pkt_put_iov w i v b6 r v1 eq_refl).
  assert (Hb1' : v_base v1 = (bi, 0)) by done. change (v_base v) with (v_base v1). pkt_store.
  assert (Hsrc : is_u32 (ld32 rb (14 + Ip4.src))) by by apply ld32_range.
  assert (Hsd : ip4_src_dst w v1 None = Some (ip4 (ia_addr ia), ld32 rb (14 + Ip4.src))).
  { unfold ip4_src_dst. cbn [connected_sock]. rewrite Hia. cbn [mbind option_bind]. do 2 f_equal.
    unfold v1, ip4, ld32. cbn [v_saddr set_len set_saddr sa_addr un]. 
    pose proof (wf_len _ Hun). rewrite (ldn_stn_at _ 0 _ 0 4) by (rewrite ?length_le_bytes; lia).
    rewrite le_val_bytes. by apply Z.mod_small. }
  destruct (mk_ip4_hdr_run w i v1 b7 r bi None Hb1' ltac:(lia) fuel id r'
    (ip4 (ia_addr ia)) (ld32 rb (14 + Ip4.src)) Hb7)
    as (b8 & Em & Hl7' & Hb8 & Hip & Hfr); try done.
  { unfold v1. cbn. by rewrite Hflags. }
  { apply ld32_range, Hiawf. }
  { apply Hconf. }
  mstep Em. rewrite Ev1 in *.
  set (v2 := set_len v1 _). assert (Hb2' : v_base v2 = (bi, 0)) by done.
  buf_load. change (v_base v1) with (v_base v2). change (0 + Eth.src)%nat with Eth.src.
  assert (Hi4 : length (ldn rb Eth.src 6) = 6%nat) by (apply length_ldn; wire_lia).
  pkt_store. mstep. change (e_conf (pkt w i v2 b9 r')) with (e_conf w). pkt_store.
  erewrite pkt_stm_base; [|eassumption|wire_lia]. name_frame. exists b11.
  assert (Hskip : ∀ o k, (14 <= o)%nat → ldn b11 o k = ldn b8 o k).
  { intros o k Ho. by ld_skip. }
  assert (Hskip7 : ∀ o k, (34 <= o)%nat → ldn b11 o k = ldn b7 o k).
  { intros o k Ho. rewrite Hskip by lia. apply Hfr. by right. }
  assert (Ev2 : v2 = echo4_iov).
  { unfold v2, v1, echo4_iov, set_len, set_saddr. cbn. f_equal. rewrite u16_id by (unfold is_u16; lia). lia. }
  rewrite Ev2. split; [done|]. split; [lia|]. split; [done|].
  assert (Elen : u16 (8 + n + 20) = 28 + n) by (rewrite u16_id by (unfold is_u16; lia); lia).
  split.
  - by ld_field.
  - by ld_field.
  - ld_field. by rewrite le_val_bytes.
  - apply (ip4_hdr_at_ldn b8 b11); [done|done|lia|lia|intros; apply Hskip; lia|].
    rewrite Elen in Hip. replace (ip4_tos v1 None) with 0 in Hip; [replace (ld8 b7 (14 + Ip4.p)) with IP_P_ICMP in Hip; [done|]|].
    + symmetry. ld_field. by rewrite le_val_bytes.
    + unfold ip4_tos, v1. cbn. rewrite Hflags. done.
  - unfold ld8. rewrite !Hskip7 by wire_lia. split; [|ld_field; by rewrite le_val_bytes].
    ld_field. by rewrite le_val_bytes.
  - change (st16 b5 (34 + 2 * 1) c) with (stn b5 (34 + Icmp.cksum) (le_bytes 2 c)) in Eok.
    rewrite <- Eb5 in Eok. rewrite <- Eok. apply ip_cksum_ldn; try done; [wire_lia..|].
    rewrite Hskip7 by lia. by ld_skip.
  - rewrite Hskip7, (ldn_add _ _ 2 2), (ldn_add rb _ 2 2) by wire_lia. f_equal; [by ld_field|].
    ld_field. f_equal. change (le_val (ldn rb 14 1)) with (ld8 rb 14). fold hl. unfold Icmp.seq, Icmp.id. lia.
  - rewrite Hskip7 by wire_lia. by ld_field.
Qed.
End Echo4.

(** ** Receiving an ICMPv4 message *)

Section Rx4.
Context `{NetmapLaws, !NetmapProgress}.
Context (L : nat) (home : homes) (D : gset nat) (m : queues) (fuel : nat) (w : engine).
Hypothesis Hinv : net_inv L home D m w.
Hypothesis Hfuel : fuel_ok fuel w.
Hypothesis Hconf : ifconf_wf (e_conf w).

(** C13: A valid echo request whose lengths fit the slot, the buffer and the MTU is answered
    with an echo reply of the same identifier, sequence number and data, whose checksums
    verify, in a frame that the kernel is shown in a TX ring unless all rings are full; a
    message with a bad checksum or of another type changes nothing.  This needs a free vector,
    and the buffer of that vector must have held an IPv4 header without options before:
    [icmp4_rx_stale] shows what is sent otherwise. *)
Theorem icmp4_rx_correct buf bj rb b tot slot_len c i free ia id r' :
  m !! IOVQ = Some (i :: free) → buf = (bj, 0) → (∀ i, i ∈ D → h_iov home i ≠ bj) →
  e_mem w !! bj = Some rb → icmp4_echo_ok rb (mtu (e_conf w)) tot → 14 + tot <= slot_len < 2 ^ 16 →
  ip_cksum rb (14 + Z.to_nat (ip4_hl (ld8 rb 14))) (tot - ip4_hl (ld8 rb 14)) = Done c →
  e_mem w !! h_iov home i = Some b → ip4_hl (ld8 b 14) = 20 → 42 + echo4_len rb tot <= Z.of_nat L →
  ifaddr (e_conf w) !! Z.to_nat (addr4_pos (e_conf w)) = Some ia →
  w_rand_uniform32 fuel UINT16_MAX (e_rng w) = Done (id, r') →
  if (c =? 0) && (ld8 rb (14 + Z.to_nat (ip4_hl (ld8 rb 14))) =? ICMP4_TYPE_ECHO)
  then ∃ w' b', icmp4_rx fuel slot_len buf w = Done (tt, w') ∧
    reply_sent L home D m w i b' (28 + echo4_len rb tot) w' ∧
    icmp4_echo_reply b' rb (mac (e_conf w)) tot id (ip4 (ia_addr ia))
  else icmp4_rx fuel slot_len buf w = Done (tt, w).
Proof.
  intros Hm Hbuf Hout Hrb Hecho Hslot Hck Hb Hst Hfit Hia Hrnd.
  pose proof Hecho as [Hrbb Ht Hh0 Hh1 Hh2 Hh3]. pose proof (wf_mtu _ Hconf) as Hmtu. unfold is_u16 in Hmtu.
  pose proof (ip4_hl_range (ld8 rb 14)) as Hhl. set (hl := ip4_hl (ld8 rb 14)) in *.
  unfold icmp4_rx, ip4_data_ptr. rewrite bind_assoc_run. buf_load. change (0 + eth_data 0)%nat with 14%nat.
  fold hl. mstep. do 2 buf_load. change (0 + eth_data 0 + Ip4.vhl)%nat with 14%nat.
  change (0 + eth_data 0 + Ip4.len)%nat with (14 + Ip4.len)%nat. fold hl. rewrite Ht.
  set (n := u16 (Z.min _ _)). assert (En : n = tot - hl).
  { unfold n. rewrite (u16_id (tot - hl)) by (unfold is_u16; lia).
    change (Z.of_nat Eth.size) with 14. rewrite (u64_id (slot_len - 14)) by (unfold is_u64; lia).
    rewrite u64_id by (unfold is_u64; lia). rewrite Z.min_l by lia. apply u16_id. unfold is_u16. lia. }
  rewrite En. change (eth_data 0 + Z.to_nat hl)%nat with (14 + Z.to_nat hl)%nat.
  mstep (on_buf_run w (padd buf (14 + Z.to_nat hl)) bj _ rb (ptr_at_padd _ _ _ _ (ptr_at_base _ _ Hbuf)) Hrb
    (λ b p, ip_cksum b p (tot - hl)) c Hck).
  destruct (c =? 0); cbn [negb andb]; [|done].
  buf_load. change (0 + (14 + Z.to_nat hl) + Icmp.type)%nat with (14 + Z.to_nat hl + 0)%nat.
  rewrite Nat.add_0_r. destruct (ld8 rb (14 + Z.to_nat hl) =? ICMP4_TYPE_ECHO); [|done].
  destruct (send_run L home D m fuel w Hinv Hfuel i free Hm)
    as (q & v & b0 & E & Hv & Hb0 & Hbase & Hun & Hlen & Hbytes & Hsend).
  rewrite Hb in Hb0. injection Hb0 as <-.
  assert (HiD : i ∈ D) by (eapply queue_elem; [apply Hinv|done|by left]).
  destruct (icmp4_msg_echo (set_iovs w q (e_bufs w)) i (reinit true w v) b (e_rng w) r' (h_iov home i) bj fuel
    rb tot id ia buf) as (b' & Ec & Hl' & Hb' & Hfr); try done; [by apply not_eq_sym, Hout|lia| |].
  { pose proof (wf_ifaddr _ Hconf) as Hf. rewrite Forall_lookup in Hf. by destruct (Hf _ _ Hia). }
  destruct (Hsend (echo4_iov (reinit true w v) rb tot) b' r') as (w' & Es & _ & Hs); [done|done| |lia|done|].
  { by apply set_ip4_wf; apply Hun. }
  exists w', b'. split; [|by split]. unfold icmp4_tx. mstep E. mstep Ec. exact Es.
Qed.
End Rx4.

(** ** Witnesses *)

(** An echo request of 10.0.0.2 with 4 bytes of data, and the engine that receives
    it; buffer 0 held an IPv4 packet before. *)
Definition echo_ex : bytes :=
  [2; 0; 0; 0; 0; 1; 2; 0; 0; 0; 0; 2; 8; 0; 0x45; 0; 0; 32; 0; 0; 0x40; 0; 64; 1; 0x26; 0xdb; 10; 0; 0; 2; 10; 0; 0; 1;
   8; 0; 0x48; 0x4b; 0x12; 0x34; 0; 1; 0xde; 0xad; 0xbe; 0xd1].
Definition eng_echo_ex : engine :=
  set_mem (eng_net_ex echo_ex) (<[0 := st8 (repeat 0 128) 14 0x45]> (e_mem (eng_net_ex echo_ex))).

Lemma st8_zeros_bytes : is_bytes (st8 (repeat 0 128) 14 0x45) ∧ length (st8 (repeat 0 128) 14 0x45) = 128%nat.
Proof. split; [apply (bool_decide_unpack (Forall is_u8 _)); by vm_compute|done]. Qed.

Lemma eng_echo_ex_inv : net_inv 128 homes_ex eng_ex_D eng_ex_m eng_echo_ex.
Proof.
  destruct (eng_net_ex_inv echo_ex) as [[] H2 H3 H4 H5]. split; [done|by apply (tx_inv_ext homes_ex (eng_net_ex echo_ex))|done|exact H4|].
  intros i Hi. change (e_mem eng_echo_ex) with (<[0 := st8 (repeat 0 128) 14 0x45]> (e_mem (eng_net_ex echo_ex))).
  destruct (decide (h_iov homes_ex i = 0)) as [->|].
  - eexists. rewrite lookup_insert_eq. split; [done|]. split; apply st8_zeros_bytes.
  - rewrite lookup_insert_ne by done. by apply H5.
Qed.

#[local] Existing Instance netmap_ex.

Lemma echo_ex_cksum : ip_cksum echo_ex 34 12 = Done 0.
Proof. by vm_compute. Qed.

Lemma icmp4_rx_correct_witness :
  ∃ w' b', icmp4_rx 5 46 (100, 0) eng_echo_ex = Done (tt, w') ∧ ip_cksum b' 34 12 = Done 0 ∧
    ldn b' 42 4 = [0xde; 0xad; 0xbe; 0xd1].
Proof.
  destruct (w_rand_uniform32 5 UINT16_MAX (Krng 1 2)) as [[id r']| | |] eqn:Er;
    [|vm_compute in Er; discriminate Er..].
  destruct (icmp4_rx_correct 128 homes_ex eng_ex_D eng_ex_m 5 eng_echo_ex eng_echo_ex_inv
    (eng_net_ex_fuel echo_ex) ifconf_ex_wf (100, 0) 100 echo_ex (st8 (repeat 0 128) 14 0x45) 32 46 0 0 [1; 2]%nat
    ifaddr_ex4 id r') as (w' & b' & E & _ & F).
  - reflexivity.
  - reflexivity.
  - apply eng_net_ex_out.
  - reflexivity.
  - split; [apply (bool_decide_unpack (Forall is_u8 echo_ex)); vm_compute; exact I|by vm_compute..].
  - lia.
  - exact echo_ex_cksum.
  - reflexivity.
  - vm_compute. reflexivity.
  - by vm_compute.
  - reflexivity.
  - exact Er.
  - exists w', b'. split; [exact E|]. split; [apply (er_cksum _ _ _ _ _ _ F)|].
    pose proof (er_data _ _ _ _ _ _ F) as Hd. etransitivity; [exact Hd|vm_compute; reflexivity].
Defined.

(** Into a buffer that held zeros the same reply is written over the IP header: what
    follows the header is not the message. *)
Lemma icmp4_rx_stale :
  match icmp4_rx 5 46 (100, 0) (eng_net_ex echo_ex) with
  | Done (_, w') => option_map (λ b, ldn b 34 94) (e_mem w' !! 0) = Some (repeat 0 94)
  | _ => False
  end.
Proof. by vm_compute. Qed.
