(* ===== verification/Icmp6.v ===== *)
(** ICMPv6 (lib/src/icmp6.c): the messages the stack sends, echo replies, neighbor
    solicitations and advertisements, and the reaction to a received message.  The
    definitions are in Icmp. *)

From S2P Require Import Prelude Util Krng Queue Wire Cksum Addr Khash Engine Netmap Ip Send Arp Icmp.

(** ** The headers of a message *)

(** The frame [b'] from [mac] with an IPv6 packet of [n] bytes of ICMPv6 from [src] to
    [dst], whose checksum verifies. *)
Record icmp6_pkt (b' mac : bytes) (n : Z) (src dst : bytes) : Prop := {
  i6_src : ldn b' Eth.src 6 = mac;
  i6_type : ld16 b' Eth.type = ETH_TYPE_IP6;
  i6_ip : ∃ x, u8 x = 0x60 ∧ ip6_hdr_at b' 14 x n IP_P_ICMP6 src dst;
  i6_cksum : payload_cksum b' 14 (40 + n) = Done 0
}.

Lemma ip6_hdr_payload_ok b' x n p src dst :
  is_bytes b' → u8 x = 0x60 → ip6_hdr_at b' 14 x n p src dst → p < 128 → 0 <= n <= 65495 →
  54 + n <= Z.of_nat (length b') → payload_ok b' 14 (40 + n) ∧ hdr_len b' 14 = 40%nat.
Proof.
  intros Hb Hx Hip Hp Hn Hl.
  pose proof (h6_word _ _ _ _ _ _ _ Hip) as Hw. rewrite Nat.add_0_r in Hw.
  assert (Hv : ld8 b' 14 = 0x60).
  { rewrite <- u8_ld32; [by rewrite Hw|done|lia]. }
  unfold hdr_len. rewrite Hv. split; [|done]. split; [done|lia|lia|].
  rewrite Hv, (h6_nh _ _ _ _ _ _ _ Hip). change (ip_v 0x60 =? 4) with false. cbv iota. lia.
Qed.

(** A store to the destination of the frame changes nothing of this. *)
Lemma icmp6_pkt_ldn b b' mac n src dst :
  is_bytes b → is_bytes b' → length b' = length b → 0 <= n <= 65495 → 54 + n <= Z.of_nat (length b) →
  (∀ o k, (6 <= o)%nat → ldn b' o k = ldn b o k) → icmp6_pkt b mac n src dst → icmp6_pkt b' mac n src dst.
Proof.
  intros Hb Hb' Hl Hn Hfit E [H1 H2 (x & Hx & Hip) H4]. split.
  - by rewrite E by wire_lia.
  - unfold ld16. rewrite E by wire_lia. exact H2.
  - exists x. split; [done|]. apply (ip6_hdr_at_ldn b); [|done]. intros o k Ho. apply E. lia.
  - rewrite <- H4. apply payload_cksum_ldn; [|done|done|intros; apply E; lia].
    by apply (ip6_hdr_payload_ok b x n IP_P_ICMP6 src dst).
Qed.

Section Hdrs.
Context (w : engine) (i : nat) (v : w_iov) (b : bytes) (r : krng_t) (bi n : Z) (ia : w_ifaddr).
Hypothesis Hbase : v_base v = (bi, 0).
Hypothesis Hb : is_bytes b.
Hypothesis Hflags : v_flags v = 0.
Hypothesis Hvlen : v_len v = n.
Hypothesis Hn : 8 <= n <= 65495.
Hypothesis Hfit : 54 + n <= Z.of_nat (length b).
Hypothesis Hia : ifaddr (e_conf w) !! 0%nat = Some ia.
Hypothesis Hconf : ifconf_wf (e_conf w).
Hypothesis Hun : w_addr_wf (sa_addr (v_saddr v)).

Definition icmp6_iov (v : w_iov) (n : Z) : w_iov :=
  set_len (set_saddr v (WSockaddr (WAddr AF_INET6 (un (sa_addr (v_saddr v)))) (sa_port (v_saddr v)))) (40 + n).

Lemma conf_ifaddr_wf k : ifaddr (e_conf w) !! k = Some ia → w_addr_wf (ia_addr ia).
Proof. intros E. pose proof (wf_ifaddr _ Hconf) as Hf. rewrite Forall_lookup in Hf. by destruct (Hf _ _ E). Qed.

Lemma mk_icmp6_pkt_hdrs_run :
  ∃ b', mk_icmp6_pkt_hdrs i (pkt w i v b r) = Done (tt, pkt w i (icmp6_iov v n) b' r) ∧
    length b' = length b ∧ is_bytes b' ∧
    icmp6_pkt b' (mac (e_conf w)) n (take IP6_LEN (ip6 (ia_addr ia))) (take IP6_LEN (un (sa_addr (v_saddr v)))) ∧
    ∀ o k, (o + k <= 6 ∨ (54 <= o ∧ o + k <= 56) ∨ 58 <= o)%nat → ldn b' o k = ldn b o k.
Proof.
  destruct (wf_mac _ Hconf) as [Hmb Hml]. unfold mk_icmp6_pkt_hdrs, stm8, stm16.
  mstep (pkt_get_iov w i v b r).
  set (v1 := set_saddr v _). mstep (pkt_put_iov w i v b r v1 eq_refl).
  assert (Hbase1 : v_base v1 = (bi, 0)) by done. change (v_base v) with (v_base v1). pkt_store.
  set (src := take IP6_LEN (ip6 (ia_addr ia))). set (dst := take IP6_LEN (un (sa_addr (v_saddr v)))).
  assert (Hsd : ip6_src_dst w v1 None = Some (src, dst)) by (unfold ip6_src_dst; cbn [connected_sock]; by rewrite Hia).
  destruct (ip6_take _ (conf_ifaddr_wf 0 Hia)) as [Hsl Hsb]. destruct (ip6_take _ Hun) as [Hdl Hdb].
  destruct (mk_ip6_hdr_run w i v1 b0 r bi None Hbase1 ltac:(lia) src dst) as (b2 & E & Hl2 & Hb2 & Hip & Hout);
    try done.
  { unfold v1. cbn. by rewrite Hflags. }
  mstep E. change (v_len v1) with (v_len v) in *. rewrite Hvlen, (u16_id (n + 40)) in * by (unfold_u; lia).
  set (v2 := set_len v1 (n + 40)). assert (Hbase2 : v_base v2 = (bi, 0)) by done.
  change (v_base v1) with (v_base v2). pkt_store. mstep (pkt_get_iov w i v2 b1 r).
  change (v_len v2) with (n + 40).
  assert (Hwd : u8 (ip6_word v1 None (ld32 (st8 b0 14 96) 14)) = 0x60).
  { unfold ip6_word. change (v_flags v1) with (v_flags v). rewrite Hflags.
    change (negb (Z.land 0 ECN_MASK =? 0)) with false. cbv iota. cbn [default_ecn].
    rewrite u8_ld32; [|apply stn_is_bytes; auto with wc|unfold st8; rewrite length_stn; wire_lia].
    by rewrite ld8_st8_eq by lia. }
  assert (Hnh : ld8 b0 (14 + Ip6.next_hdr) = IP_P_ICMP6) by (ld_field; by rewrite le_val_bytes).
  rewrite Hnh in Hip.
  destruct (ip6_hdr_payload_ok b2 _ n IP_P_ICMP6 src dst Hb2 Hwd Hip) as [Hok Hhl]; [done|lia|lia|].
  destruct (payload_cksum_store b2 14 1 (40 + n) Hok ltac:(rewrite Hhl; lia)) as (c & Ec & Ec0).
  rewrite Hhl in Ec, Ec0.
  change (st16 b2 (14 + 40 + 2 * 1) 0) with (stn b2 (eth_data 0 + Ip6.size + Icmp.cksum) (le_bytes 2 0)) in Ec, Ec0.
  match goal with E : b1 = _ |- _ => rewrite <- E in Ec, Ec0 end. rewrite (Z.add_comm 40 n) in Ec.
  mstep (pkt_on_buf_at w i v2 b1 r bi Hbase2 (λ b p, payload_cksum b p (n + 40)) 14 c Ec).
  pkt_store. mstep. change (e_conf (pkt w i v2 b3 r)) with (e_conf w). pkt_store.
  erewrite pkt_stm_base; [|eassumption|wire_lia]. name_frame. exists b5.
  assert (Hskip : ∀ o k, (14 <= o)%nat → ldn b5 o k = ldn b3 o k) by (intros o k Ho; by ld_skip).
  assert (Hskip2 : ∀ o k, (14 <= o ∧ o + k <= 54)%nat → ldn b5 o k = ldn b2 o k).
  { intros o k Ho. rewrite Hskip by lia. by ld_skip. }
  split; [do 4 f_equal; unfold v2, v1, icmp6_iov; f_equal; lia|]. split; [congruence|]. split; [done|]. split.
  - split.
    + by ld_field.
    + ld_field. by rewrite le_val_bytes.
    + eexists. split; [exact Hwd|]. apply (ip6_hdr_at_ldn b2); [intros; apply Hskip2; lia|exact Hip].
    + rewrite <- Ec0. change (st16 b1 (14 + 40 + 2 * 1) c) with (stn b1 (eth_data 0 + Ip6.size + Icmp.cksum) (le_bytes 2 c)) in *.
      match goal with E : b3 = _ |- _ => rewrite <- E in * end.
      apply payload_cksum_ldn; [|done|congruence|intros; apply Hskip; lia].
      refine (proj1 (ip6_hdr_payload_ok b3 _ n IP_P_ICMP6 src dst Hb3 Hwd _ _ _ _)); [|done|lia|lia].
      apply (ip6_hdr_at_ldn b2); [|exact Hip]. intros o k Ho. by ld_skip.
  - intros o k Ho. ld_skip. rewrite Hout by lia. by ld_skip.
Qed.
End Hdrs.

(** ** The messages *)

(** A link-layer address option at [o]. *)
Record lla_opt (b : bytes) (o : nat) (type : Z) (mac : bytes) : Prop := {
  lo_type : ld8 b o = type;
  lo_len : ld8 b (o + 1) = 1;
  lo_mac : ldn b (o + 2) 6 = mac
}.

(** The neighbor solicitation for [addr]. *)
Record icmp6_nsol_frame (b' mac src addr : bytes) : Prop := {
  ns_dst : ldn b' Eth.dst 6 = [0x33; 0x33] ++ ldn addr 12 4;
  ns_pkt : icmp6_pkt b' mac 32 src (ip6_mk_snma addr);
  ns_type : ld8 b' 54 = ICMP6_TYPE_NSOL ∧ ld8 b' 55 = 0;
  ns_flags : ldn b' 58 4 = [0x60; 0; 0; 0];
  ns_target : ldn b' 62 16 = addr;
  ns_sla : lla_opt b' 78 1 mac
}.

(** The neighbor advertisement for the solicitation [rb]. *)
Record icmp6_nadv_frame (b' rb mac src : bytes) : Prop := {
  na_dst : ldn b' Eth.dst 6 = ldn rb Eth.src 6;
  na_pkt : icmp6_pkt b' mac 32 src (ldn rb (14 + Ip6.src) 16);
  na_type : ld8 b' 54 = ICMP6_TYPE_NADV ∧ ld8 b' 55 = 0;
  na_flags : ldn b' 58 4 = [0x60; 0; 0; 0];
  na_target : ldn b' 62 16 = ldn rb 62 16;
  na_tla : lla_opt b' 78 2 mac
}.

(** The reply to the echo request [rb] of [n] bytes. *)
Record icmp6_echo_frame (b' rb mac src : bytes) (n : Z) : Prop := {
  e6_dst : ldn b' Eth.dst 6 = ldn rb Eth.src 6;
  e6_pkt : icmp6_pkt b' mac n src (ldn rb (14 + Ip6.src) 16);
  e6_type : ld8 b' 54 = ICMP6_TYPE_ECHOREPLY ∧ ld8 b' 55 = 0;
  e6_id_seq : ldn b' 58 4 = ldn rb 58 4;
  e6_data : ldn b' 62 (Z.to_nat (n - 8)) = ldn rb 62 (Z.to_nat (n - 8))
}.

(** [rb] holds an ICMPv6 message of [n] bytes that fits the MTU and the buffer. *)
Record icmp6_in (rb : bytes) (mtu n : Z) : Prop := {
  in_bytes : is_bytes rb;
  in_len : bswap16 (ld16 rb (14 + Ip6.len)) = n;
  in_min : 8 <= n;
  in_mtu : n + 40 <= mtu;
  in_fits : 54 + n <= Z.of_nat (length rb)
}.

Section Messages.
Context (w : engine) (i : nat) (v : w_iov) (b : bytes) (r : krng_t) (bi : Z) (ia : w_ifaddr).
Hypothesis Hbase : v_base v = (bi, 0).
Hypothesis Hb : is_bytes b.
Hypothesis Hflags : v_flags v = 0.
Hypothesis Hia : ifaddr (e_conf w) !! 0%nat = Some ia.
Hypothesis Hconf : ifconf_wf (e_conf w).
Hypothesis Hun : w_addr_wf (sa_addr (v_saddr v)).

Lemma put_lla_run v' b' r' p a type :
  v_base v' = (bi, 0) → ptr_at p bi a → (a + 8 <= length b')%nat → is_bytes b' → is_u8 type →
  ∃ b'', put_lla p type (pkt w i v' b' r') = Done (tt, pkt w i v' b'' r') ∧ length b'' = length b' ∧
    is_bytes b'' ∧ lla_opt b'' a type (mac (e_conf w)) ∧
    ∀ o k, (o + k <= a ∨ a + 8 <= o)%nat → ldn b'' o k = ldn b' o k.
Proof.
  intros Hb' Hp Hl Hbb Ht. destruct (wf_mac _ Hconf) as [Hmb Hml]. unfold put_lla, stm8. mstep.
  change (e_conf (pkt w i v' b' r')) with (e_conf w). do 2 pkt_store_ptr.
  erewrite pkt_stm_ptr; [|eassumption|solve [eauto with wc_ptr]|wire_lia]. name_frame.
  exists b2. split; [done|]. split; [congruence|]. split; [done|]. split.
  - split; [ld_field; rewrite le_val_bytes; by apply Z.mod_small|ld_field; by rewrite le_val_bytes|by ld_field].
  - intros o k Ho. by ld_skip.
Qed.

(** The vector with the destination of the packet and the length of the message. *)
Definition icmp6_dst_iov (v : w_iov) (n : Z) (dst : bytes) : w_iov := set_ip6 (set_len v n) dst.

Lemma icmp6_dst_iov_wf n dst :
  is_bytes dst → length dst = 16%nat → un (sa_addr (v_saddr (icmp6_dst_iov v n dst))) = dst ∧
  w_addr_wf (sa_addr (v_saddr (icmp6_dst_iov v n dst))).
Proof.
  intros Hd Hl. destruct Hun as [H1 H2 H3].
  assert (stn (un (sa_addr (v_saddr v))) 0 dst = dst) as E.
  { unfold stn. rewrite Hl. rewrite drop_ge by lia. cbn. by rewrite app_nil_r. }
  split; [exact E|]. split; cbn; rewrite ?E; done.
Qed.

(** The headers around a message of [n] bytes to [dst]. *)
Lemma icmp6_hdrs_run b1 n dst :
  is_bytes b1 → 8 <= n <= 65495 → 54 + n <= Z.of_nat (length b1) → is_bytes dst → length dst = 16%nat →
  ∃ b' v', mk_icmp6_pkt_hdrs i (pkt w i (icmp6_dst_iov v n dst) b1 r) = Done (tt, pkt w i v' b' r) ∧
    (v_base v' = v_base v ∧ v_idx v' = v_idx v ∧ v_len v' = 40 + n ∧ w_addr_wf (sa_addr (v_saddr v'))) ∧
    length b' = length b1 ∧ is_bytes b' ∧
    icmp6_pkt b' (mac (e_conf w)) n (take IP6_LEN (ip6 (ia_addr ia))) dst ∧
    ∀ o k, (o + k <= 6 ∨ (54 <= o ∧ o + k <= 56) ∨ 58 <= o)%nat → ldn b' o k = ldn b1 o k.
Proof.
  intros Hb1 Hn Hl Hd Hdl. destruct (icmp6_dst_iov_wf n dst Hd Hdl) as [Eu Hwf].
  destruct (mk_icmp6_pkt_hdrs_run w i (icmp6_dst_iov v n dst) b1 r bi n ia) as (b' & E & H1 & H2 & H3 & H4); try done.
  exists b', (icmp6_iov (icmp6_dst_iov v n dst) n). split; [done|].
  split; [split_and!; try done; cbn -[icmp6_dst_iov]; rewrite Eu; by split|].
  split_and!; try done. rewrite Eu in H3. by rewrite (take_ge dst) in H3 by (rewrite Hdl; wire_lia).
Qed.

(** The outcome of writing a message of [n] bytes with [c]. *)
Definition icmp6_done (c : M engine unit) (n : Z) (P : bytes → Prop) : Prop :=
  ∃ b' v', c (pkt w i v b r) = Done (tt, pkt w i v' b' r) ∧
    (v_base v' = v_base v ∧ v_idx v' = v_idx v ∧ v_len v' = 40 + n ∧ w_addr_wf (sa_addr (v_saddr v'))) ∧
    length b' = length b ∧ is_bytes b' ∧ P b'.

Lemma icmp6_nsol_msg_run addr :
  (86 <= length b)%nat → is_bytes addr → length addr = 16%nat →
  icmp6_done (icmp6_nsol_msg i addr) 32 (λ b', icmp6_nsol_frame b' (mac (e_conf w)) (take IP6_LEN (ip6 (ia_addr ia))) addr).
Proof.
  intros Hl Ha Hal. unfold icmp6_done, icmp6_nsol_msg, stm8, stm16.
  assert (Hal' : length (take IP6_LEN addr) = 16%nat) by (rewrite length_take; wire_lia).
  assert (Hat : take IP6_LEN addr = addr) by (apply take_ge; wire_lia).
  assert (Hatb : is_bytes (take IP6_LEN addr)) by (by rewrite Hat).
  mstep (pkt_get_iov w i v b r). do 5 pkt_store_ptr.
  destruct (put_lla_run v b4 r (padd (padd (padd (v_base v) (eth_data 0 + Ip6.size)) Icmp.size) IP6_LEN)
    (0 + (eth_data 0 + Ip6.size) + Icmp.size + IP6_LEN) 1) as (b5 & E5 & Hl5 & Hb5 & Ho5 & Hout5);
    [done|solve [eauto with wc_ptr]|wire_lia|done|done|]. mstep E5.
  assert (Hs : is_bytes (ip6_mk_snma addr) ∧ length (ip6_mk_snma addr) = 16%nat).
  { rewrite ip6_mk_snma_spec by done. split; [apply Forall_app; split; [|by apply Forall_drop]|].
    - by apply (bool_decide_unpack (Forall is_u8 (take 13 snma_pref))).
    - rewrite length_app, length_drop, Hal. done. }
  destruct Hs as [Hs Hsl].
  mstep (pkt_put_iov w i v b5 r (icmp6_dst_iov v 32 (ip6_mk_snma addr)) eq_refl).
  destruct (icmp6_hdrs_run b5 32 (ip6_mk_snma addr)) as (b6 & v' & E6 & (Hv1 & Hv2 & Hv3 & Hv4) & Hl6 & Hb6 & Hp6 & Hout6);
    try done; [lia|]. mstep E6.
  assert (Hbase' : v_base v' = (bi, 0)) by congruence. rewrite <- Hv1.
  assert (Hmc : is_bytes ETH_ADDR_MCAST6) by (by apply (bool_decide_unpack (Forall is_u8 ETH_ADDR_MCAST6))).
  pkt_store_ptr.
  assert (Hal2 : length (ldn addr 12 4) = 4%nat) by (apply length_ldn; lia).
  erewrite pkt_stm_base; [|eassumption|wire_lia]. name_frame. exists b8, v'.
  split; [done|]. split; [by split_and!|]. split; [congruence|]. split; [done|].
  assert (Hskip6 : ∀ o k, (6 <= o)%nat → ldn b8 o k = ldn b6 o k) by (intros o k Ho; by ld_skip).
  assert (Hskip : ∀ o k, ((54 <= o ∧ o + k <= 56) ∨ 58 <= o)%nat → ldn b8 o k = ldn b5 o k).
  { intros o k Ho. rewrite Hskip6 by lia. apply Hout6. lia. }
  split.
  - rewrite (ldn_add _ _ 2 4). f_equal; [|by ld_field].
    assert (E7 : ldn b7 Eth.dst (2 + 4) = [0x33; 0x33] ++ [0; 0; 0; 0]) by (by ld_field).
    rewrite ldn_add in E7. apply app_inj_1 in E7 as [E7 _]; [|by rewrite length_ldn by wire_lia].
    rewrite <- E7. by ld_skip.
  - apply (icmp6_pkt_ldn b6); [done|done|congruence|lia|lia|done|done].
  - unfold ld8. rewrite !Hskip, !Hout5 by wire_lia.
    split; [ld_field|ld_field]; by rewrite le_val_bytes.
  - rewrite Hskip, Hout5 by wire_lia. rewrite (ldn_add _ _ 2 2).
    change [96; 0; 0; 0] with ([96; 0] ++ [0; 0]). f_equal; by ld_field.
  - rewrite Hskip, Hout5 by wire_lia. rewrite <- Hat. by ld_field.
  - destruct Ho5 as [O1 O2 O3].
    split; [rewrite <- O1|rewrite <- O2|rewrite <- O3]; unfold ld8; rewrite Hskip by wire_lia; done.
Qed.

(** *** Replies to the message [rb] of [n] bytes in buffer [bj] *)

Context (buf : bufptr) (bj n : Z) (rb : bytes).
Hypothesis Hbuf : buf = (bj, 0).
Hypothesis Hne : bj ≠ bi.
Hypothesis Hrb : e_mem w !! bj = Some rb.
Hypothesis Hin : icmp6_in rb (mtu (e_conf w)) n.

Lemma icmp6_in_mtu : mtu (e_conf w) <= 65535.
Proof. pose proof (wf_mtu _ Hconf) as H. unfold_u. lia. Qed.

Lemma icmp6_data_len : u16 (Z.min n (u64 (mtu (e_conf w) - Z.of_nat Ip6.size))) = n.
Proof.
  pose proof icmp6_in_mtu. destruct Hin. unfold Ip6.size. rewrite u64_id by (unfold_u; lia).
  rewrite Z.min_l by lia. apply u16_id. unfold_u. lia.
Qed.

(** What [icmp6_payload] and the copy after it write: [dl] bytes after the ICMPv6
    header, for which [P] holds. *)
Definition icmp6_body (type dl : Z) (b0 : bytes) (P : bytes → Prop) : Prop :=
  ∃ data b1 b2,
    icmp6_payload (ip6_data_ptr (v_base v)) (padd buf (eth_data 0)) buf type (pkt w i v b0 r) =
      Done ((data, dl, None), pkt w i v b1 r) ∧
    (match data with
     | Some data => memcpy (padd (ip6_data_ptr (v_base v)) Icmp.size) data (Z.to_nat dl)
     | None => mret tt
     end) (pkt w i v b1 r) = Done (tt, pkt w i v b2 r) ∧
    length b2 = length b0 ∧ is_bytes b2 ∧ (∀ o k, (o + k <= 58)%nat → ldn b2 o k = ldn b0 o k) ∧ P b2.

Lemma icmp6_echo_body b0 :
  is_bytes b0 → 54 + n <= Z.of_nat (length b0) →
  icmp6_body ICMP6_TYPE_ECHOREPLY (n - 8) b0 (λ b2, ldn b2 58 4 = ldn rb 58 4 ∧
    ldn b2 62 (Z.to_nat (n - 8)) = ldn rb 62 (Z.to_nat (n - 8))).
Proof.
  intros Hb0 Hl. pose proof icmp6_in_mtu. destruct Hin as [Hrbb Hln H8 Hm Hf].
  unfold icmp6_body, icmp6_payload, ip6_data_ptr, ip6_data. mstep.
  change (e_conf (pkt w i v b0 r)) with (e_conf w). buf_load.
  change (0 + eth_data 0 + Ip6.len)%nat with (14 + Ip6.len)%nat. rewrite Hln, icmp6_data_len.
  change (ICMP6_TYPE_ECHOREPLY =? ICMP6_TYPE_NADV) with false.
  change (ICMP6_TYPE_ECHOREPLY =? ICMP6_TYPE_ECHOREPLY) with true. cbv iota.
  assert (Hld : ∀ o, (o + 2 <= length rb)%nat → le_bytes 2 (ld16 rb o) = ldn rb o 2).
  { intros o Ho. unfold ld16. rewrite <- (length_ldn rb o 2) at 1 by lia. apply le_bytes_val. auto with wc. }
  assert (∀ o k, (o + k <= length rb)%nat → length (ldn rb o k) = k) as Hll by (intros; by apply length_ldn).
  buf_load. change (0 + (Eth.size + Ip6.size) + Icmp.id)%nat with 58%nat. unfold stm16. rewrite Hld by lia.
  assert (Hi := Hll 58%nat 2%nat ltac:(lia)). assert (Hs := Hll 60%nat 2%nat ltac:(lia)). pkt_store.
  buf_load. change (0 + (Eth.size + Ip6.size) + Icmp.seq)%nat with 60%nat. rewrite Hld by lia. pkt_store.
  eexists _, _, _. split; [unfold mret, M_ret; repeat f_equal; unfold Icmp.size; rewrite u16_id by (unfold_u; lia); lia|].
  cbv beta iota. unfold memcpy. buf_load.
  assert (Hd := Hll 62%nat (Z.to_nat (n - 8)) ltac:(lia)).
  change (0 + (Eth.size + Ip6.size) + Icmp.size)%nat with 62%nat.
  split; [eapply pkt_stm_ptr; [eassumption|solve [eauto with wc_ptr]|wire_lia]|]. name_frame.
  split_and!; [congruence|done|intros o k Ho; by ld_skip| |by ld_field].
  rewrite (ldn_add _ _ 2 2), (ldn_add rb _ 2 2). f_equal; by ld_field.
Qed.

(** An unreachable message: what follows the IP header of the packet. *)
Lemma icmp6_unreach_body b0 :
  is_bytes b0 → (110 <= length b0)%nat → (102 <= length rb)%nat →
  icmp6_body ICMP6_TYPE_UNREACH 48 b0 (λ b2, ldn b2 62 48 = ldn rb 54 48).
Proof.
  intros Hb0 Hl Hlr. pose proof icmp6_in_mtu. destruct Hin as [Hrbb Hln H8 Hm Hf].
  unfold icmp6_body, icmp6_payload, ip6_data_ptr, ip6_data. mstep.
  change (e_conf (pkt w i v b0 r)) with (e_conf w). buf_load.
  change (0 + eth_data 0 + Ip6.len)%nat with (14 + Ip6.len)%nat. rewrite Hln, icmp6_data_len.
  change (ICMP6_TYPE_UNREACH =? ICMP6_TYPE_NADV) with false.
  change (ICMP6_TYPE_UNREACH =? ICMP6_TYPE_ECHOREPLY) with false.
  change (ICMP6_TYPE_UNREACH =? ICMP6_TYPE_UNREACH) with true. cbv iota. unfold stm16. do 2 pkt_store.
  eexists _, _, _. split; [reflexivity|]. cbv beta iota. unfold memcpy. change (Z.to_nat 48) with 48%nat. buf_load.
  assert (Hd : length (ldn rb 54 48) = 48%nat) by (apply length_ldn; lia).
  change (0 + (Eth.size + Ip6.size))%nat with 54%nat.
  split; [eapply pkt_stm_ptr; [eassumption|solve [eauto with wc_ptr]|wire_lia]|]. name_frame.
  split_and!; [congruence|done|intros o k Ho; by ld_skip|by ld_field].
Qed.

Lemma icmp6_nadv_body b0 :
  is_bytes b0 → (86 <= length b0)%nat → 24 <= n → ld8 rb 54 = ICMP6_TYPE_NSOL →
  icmp6_body ICMP6_TYPE_NADV 24 b0 (λ b2, ldn b2 58 4 = [0x60; 0; 0; 0] ∧ ldn b2 62 16 = ldn rb 62 16 ∧
    lla_opt b2 78 2 (mac (e_conf w))).
Proof.
  intros Hb0 Hl H24 Hty. pose proof icmp6_in_mtu. destruct Hin as [Hrbb Hln H8 Hm Hf].
  unfold icmp6_body, icmp6_payload, ip6_data_ptr, ip6_data. mstep.
  change (e_conf (pkt w i v b0 r)) with (e_conf w). buf_load.
  change (0 + eth_data 0 + Ip6.len)%nat with (14 + Ip6.len)%nat. rewrite Hln, icmp6_data_len.
  change (ICMP6_TYPE_NADV =? ICMP6_TYPE_NADV) with true. cbv iota. unfold stm16.
  assert (Hi : length (ldn rb 62 16) = 16%nat) by (apply length_ldn; lia). do 2 pkt_store.
  unfold find_sla. rewrite (proj2 (Z.leb_le _ _)) by wire_lia. rewrite !bind_assoc_run. buf_load.
  change (0 + (Eth.size + Ip6.size))%nat with 54%nat. rewrite Hty.
  change (ICMP6_TYPE_NSOL =? 1) with false. cbv iota. mstep.
  unfold memcpy. rewrite bind_assoc_run. buf_load. change (0 + (Eth.size + Ip6.size) + Icmp.size)%nat with 62%nat.
  pkt_store_ptr. 
  destruct (put_lla_run v b3 r (padd (padd (padd (v_base v) (Eth.size + Ip6.size)) Icmp.size) IP6_LEN)
    (0 + (Eth.size + Ip6.size) + Icmp.size + IP6_LEN) 2) as (b4 & E4 & Hl4 & Hb4 & Ho4 & Hout4);
    [done|solve [eauto with wc_ptr]|wire_lia|done|done|]. mstep E4.
  eexists _, _, b4. split; [reflexivity|]. split; [done|].
  split_and!; [congruence|done| | | |exact Ho4].
  - intros o k Ho. rewrite Hout4 by wire_lia. by ld_skip.
  - rewrite Hout4 by wire_lia. rewrite (ldn_add _ _ 2 2).
    change [96; 0; 0; 0] with ([96; 0] ++ [0; 0]). f_equal; by ld_field.
  - rewrite Hout4 by wire_lia. by ld_field.
Qed.

(** The headers around such a body; it goes to the sender of [rb]. *)
Lemma icmp6_msg_run type code dl (P : bytes → Prop) :
  is_u8 type → is_u8 code → 0 <= dl → 62 + dl <= Z.of_nat (length b) → dl <= 65487 →
  (∀ b0, is_bytes b0 → length b0 = length b → icmp6_body type dl b0 P) →
  icmp6_done (icmp6_msg i type code buf) (8 + dl) (λ b', ldn b' Eth.dst 6 = ldn rb Eth.src 6 ∧
    icmp6_pkt b' (mac (e_conf w)) (8 + dl) (take IP6_LEN (ip6 (ia_addr ia))) (ldn rb (14 + Ip6.src) 16) ∧
    ld8 b' 54 = type ∧ ld8 b' 55 = code ∧
    ∃ b2, P b2 ∧ ∀ o k, (58 <= o)%nat → ldn b' o k = ldn b2 o k).
Proof.
  intros Ht Hcode Hd Hl Hmax Hbody. destruct Hin as [Hrbb Hln H8 Hm Hf].
  unfold icmp6_done, icmp6_msg, stm8. mstep (pkt_get_iov w i v b r).
  change (ip6_data_ptr (v_base v)) with (padd (v_base v) (Eth.size + Ip6.size)). do 2 pkt_store.
  destruct (Hbody b1 Hb1 ltac:(congruence)) as (data & b2 & b3 & E2 & E3 & Hl3 & Hb3 & Hout3 & HP).
  mstep E2. erewrite bind_run; [|exact E3]. cbv beta. buf_load.
  change (0 + eth_data 0 + Ip6.src)%nat with (14 + Ip6.src)%nat.
  assert (Hs : length (ldn rb (14 + Ip6.src) 16) = 16%nat) by (apply length_ldn; wire_lia).
  rewrite u16_id by (unfold_u; wire_lia). change (Z.of_nat Icmp.size + dl) with (8 + dl).
  mstep (pkt_put_iov w i v b3 r (icmp6_dst_iov v (8 + dl) (ldn rb (14 + Ip6.src) 16)) eq_refl).
  destruct (icmp6_hdrs_run b3 (8 + dl) (ldn rb (14 + Ip6.src) 16))
    as (b4 & v' & E4 & (Hv1 & Hv2 & Hv3 & Hv4) & Hl4 & Hb4 & Hp4 & Hout4); [done|lia|lia|auto with wc|done|].
  mstep E4. assert (Hbase' : v_base v' = (bi, 0)) by congruence. cbn [default].
  buf_load. change (0 + Eth.src)%nat with Eth.src. rewrite <- Hv1.
  assert (Hs6 : length (ldn rb Eth.src 6) = 6%nat) by (apply length_ldn; wire_lia).
  erewrite pkt_stm_base; [|eassumption|wire_lia]. name_frame. exists b5, v'.
  split; [done|]. split; [by split_and!|]. split; [congruence|]. split; [done|].
  assert (Hskip6 : ∀ o k, (6 <= o)%nat → ldn b5 o k = ldn b4 o k) by (intros o k Ho; by ld_skip).
  assert (Hskip : ∀ o k, (54 <= o ∧ o + k <= 56)%nat → ldn b5 o k = ldn b1 o k).
  { intros o k Ho. rewrite Hskip6, Hout4, Hout3 by lia. done. }
  split_and!.
  - by ld_field.
  - apply (icmp6_pkt_ldn b4); [done|done|congruence|lia|lia|done|done].
  - unfold ld8. rewrite Hskip by lia. ld_field. rewrite le_val_bytes. by apply Z.mod_small.
  - unfold ld8. rewrite Hskip by lia. ld_field. rewrite le_val_bytes. by apply Z.mod_small.
  - exists b3. split; [done|]. intros o k Ho. rewrite Hskip6, Hout4 by lia. done.
Qed.

Lemma icmp6_echo_run :
  54 + n <= Z.of_nat (length b) →
  icmp6_done (icmp6_msg i ICMP6_TYPE_ECHOREPLY 0 buf) n
    (λ b', icmp6_echo_frame b' rb (mac (e_conf w)) (take IP6_LEN (ip6 (ia_addr ia))) n).
Proof.
  intros Hl. pose proof icmp6_in_mtu. pose proof (in_min _ _ _ Hin). pose proof (in_mtu _ _ _ Hin).
  destruct (icmp6_msg_run ICMP6_TYPE_ECHOREPLY 0 (n - 8) _ ltac:(done) ltac:(done) ltac:(lia) ltac:(lia) ltac:(lia)
    (λ b0 Hb0 Hl0, icmp6_echo_body b0 Hb0 ltac:(lia)))
    as (b' & v' & E & Hv & Hl' & Hb' & Q1 & Q2 & Q3 & Q4 & b2 & (Q5 & Q6) & Hk).
  replace (8 + (n - 8)) with n in * by lia. exists b', v'. split_and!; try done; try apply Hv.
  split; try done; [by rewrite Hk by lia..].
Qed.

Lemma icmp6_nadv_run :
  (86 <= length b)%nat → 24 <= n → ld8 rb 54 = ICMP6_TYPE_NSOL →
  icmp6_done (icmp6_msg i ICMP6_TYPE_NADV 0 buf) 32
    (λ b', icmp6_nadv_frame b' rb (mac (e_conf w)) (take IP6_LEN (ip6 (ia_addr ia)))).
Proof.
  intros Hl Hn Hty.
  destruct (icmp6_msg_run ICMP6_TYPE_NADV 0 24 _ ltac:(done) ltac:(done) ltac:(lia) ltac:(lia) ltac:(lia)
    (λ b0 Hb0 Hl0, icmp6_nadv_body b0 Hb0 ltac:(lia) Hn Hty))
    as (b' & v' & E & Hv & Hl' & Hb' & Q1 & Q2 & Q3 & Q4 & b2 & (Q5 & Q6 & [Q7 Q8 Q9]) & Hk).
  exists b', v'. split_and!; try done; try apply Hv.
  split; try done; [by rewrite Hk by lia..|].
  split; [rewrite <- Q7|rewrite <- Q8|rewrite <- Q9]; unfold ld8; by rewrite Hk by lia.
Qed.
End Messages.

(** ** Sending them *)

Section Send6.
Context `{NetmapLaws, !NetmapProgress}.
Context (L : nat) (home : homes) (D : gset nat) (m : queues) (fuel : nat) (w : engine).
Context (i : nat) (free : list nat) (ia : w_ifaddr).
Hypothesis Hinv : net_inv L home D m w.
Hypothesis Hfuel : fuel_ok fuel w.
Hypothesis Hconf : ifconf_wf (e_conf w).
Hypothesis Hm : m !! IOVQ = Some (i :: free).
Hypothesis Hia : ifaddr (e_conf w) !! 0%nat = Some ia.

(** Sending a message of [n] bytes that [c] writes. *)
Lemma icmp6_send_run (c : nat → M engine unit) n P :
  (∀ q v b, v_base v = (h_iov home i, 0) → length b = L → is_bytes b → v_flags v = 0 →
    w_addr_wf (sa_addr (v_saddr v)) →
    icmp6_done (set_iovs w q (e_bufs w)) i v b (e_rng w) (c i) n P) →
  ∃ w' b', (o ← w_alloc_iov_base true;
            match o with None => mret tt | Some i => c i ;; eth_tx_and_free fuel i end) w = Done (tt, w') ∧
    reply_sent L home D m w i b' (40 + n) w' ∧ P b'.
Proof.
  intros Hc.
  destruct (send_run L home D m fuel w Hinv Hfuel i free Hm)
    as (q & v & b & E & Hv & Hb & Hbase & Hun & Hlen & Hbytes & Hsend).
  destruct (Hc q (reinit true w v) b Hbase Hlen Hbytes eq_refl Hun)
    as (b' & v' & Ec & (Hv1 & Hv2 & Hv3 & Hv4) & Hl' & Hb' & HP).
  destruct (Hsend v' b' (e_rng w)) as (w' & Es & _ & Hs); [done|done|done|lia|done|].
  rewrite Hv3 in Hs. exists w', b'. split; [|by split]. mstep E. mstep Ec. exact Es.
Qed.

(** Icmp6_nsol sends a neighbor solicitation for the address from our first address
    to its solicited-node multicast address, and gives its vector back. *)
Theorem icmp6_nsol_correct addr :
  (86 <= L)%nat → is_bytes addr → length addr = 16%nat →
  ∃ w' b', icmp6_nsol fuel addr w = Done (tt, w') ∧ reply_sent L home D m w i b' 72 w' ∧
    icmp6_nsol_frame b' (mac (e_conf w)) (take IP6_LEN (ip6 (ia_addr ia))) addr.
Proof.
  intros HL Ha Hal. unfold icmp6_nsol. apply (icmp6_send_run (λ i, icmp6_nsol_msg i addr) 32).
  intros q v b Hbase Hlen Hb Hfl Hun.
  apply (icmp6_nsol_msg_run (set_iovs w q (e_bufs w)) i v b (e_rng w) (h_iov home i)); try done; lia.
Qed.

Section Reply.
Context (buf : bufptr) (bj n : Z) (rb : bytes).
Hypothesis Hbuf : buf = (bj, 0).
Hypothesis Hne : bj ≠ h_iov home i.
Hypothesis Hrb : e_mem w !! bj = Some rb.
Hypothesis Hin : icmp6_in rb (mtu (e_conf w)) n.

Lemma icmp6_echo_sent :
  54 + n <= Z.of_nat L →
  ∃ w' b', icmp6_tx fuel ICMP6_TYPE_ECHOREPLY 0 buf w = Done (tt, w') ∧
    reply_sent L home D m w i b' (40 + n) w' ∧
    icmp6_echo_frame b' rb (mac (e_conf w)) (take IP6_LEN (ip6 (ia_addr ia))) n.
Proof.
  intros HL. unfold icmp6_tx. apply (icmp6_send_run (λ i, icmp6_msg i ICMP6_TYPE_ECHOREPLY 0 buf)).
  intros q v b Hbase Hlen Hb Hfl Hun.
  apply (icmp6_echo_run (set_iovs w q (e_bufs w)) i v b (e_rng w) (h_iov home i) ia) with (bj := bj); try done; lia.
Qed.

Lemma icmp6_nadv_sent :
  (86 <= L)%nat → 24 <= n → ld8 rb 54 = ICMP6_TYPE_NSOL →
  ∃ w' b', icmp6_tx fuel ICMP6_TYPE_NADV 0 buf w = Done (tt, w') ∧
    reply_sent L home D m w i b' 72 w' ∧
    icmp6_nadv_frame b' rb (mac (e_conf w)) (take IP6_LEN (ip6 (ia_addr ia))).
Proof.
  intros HL Hn Hty. unfold icmp6_tx. apply (icmp6_send_run (λ i, icmp6_msg i ICMP6_TYPE_NADV 0 buf) 32).
  intros q v b Hbase Hlen Hb Hfl Hun.
  apply (icmp6_nadv_run (set_iovs w q (e_bufs w)) i v b (e_rng w) (h_iov home i) ia) with (bj := bj) (n := n); try done; lia.
Qed.
Lemma icmp6_unreach_sent code :
  (110 <= L)%nat → (102 <= length rb)%nat → is_u8 code →
  ∃ w' b', icmp6_tx fuel ICMP6_TYPE_UNREACH code buf w = Done (tt, w') ∧
    reply_sent L home D m w i b' 96 w' ∧ ldn b' Eth.dst 6 = ldn rb Eth.src 6 ∧
    icmp6_pkt b' (mac (e_conf w)) 56 (take IP6_LEN (ip6 (ia_addr ia))) (ldn rb (14 + Ip6.src) 16) ∧
    ld8 b' 54 = ICMP6_TYPE_UNREACH ∧ ld8 b' 55 = code ∧ ldn b' 62 48 = ldn rb 54 48.
Proof.
  intros HL Hl Hc. unfold icmp6_tx. apply (icmp6_send_run (λ i, icmp6_msg i ICMP6_TYPE_UNREACH code buf) 56).
  intros q v b Hbase Hlen Hb Hfl Hun. set (w1 := set_iovs w q (e_bufs w)).
  destruct (icmp6_msg_run w1 i v b (e_rng w) (h_iov home i) ia Hbase Hb Hfl Hia Hconf Hun buf bj n rb Hbuf Hne Hrb Hin
    ICMP6_TYPE_UNREACH code 48 (λ b2, ldn b2 62 48 = ldn rb 54 48))
    as (b' & v' & E & Hv & Hl' & Hb' & Q1 & Q2 & Q3 & Q4 & b2 & Q5 & Hk); [done|done|lia|lia|lia| |].
  - intros b0 Hb0 Hl0. by apply (icmp6_unreach_body w1 i v (e_rng w) (h_iov home i)) with (bj := bj) (n := n); try done; lia.
  - exists b', v'. split_and!; try done; try apply Hv. by rewrite Hk by lia.
Qed.
End Reply.
End Send6.

(** ** Receiving a message *)

Section Receive6.
Context `{NetmapLaws, !NetmapProgress}.
Context (can_alloc : kh_array → Z → bool).
Hypothesis Halloc : ∀ a n, can_alloc a n = true.
Context (L : nat) (home : homes) (D : gset nat) (m : queues) (fuel : nat) (w : engine) (ia : w_ifaddr).
Hypothesis HL : (86 <= L)%nat.
Hypothesis Hinv : net_inv L home D m w.
Hypothesis Hfuel : fuel_ok fuel w.
Hypothesis Hconf : ifconf_wf (e_conf w).
Hypothesis Hia : ifaddr (e_conf w) !! 0%nat = Some ia.

(** The message [rb] of [n] bytes in buffer [bj], outside of the vectors, received in a
    slot of [slot_len] bytes.  A neighbor message has the address it is about. *)
Context (buf : bufptr) (bj n slot_len c idx : Z) (rb : bytes).
Hypothesis Hbuf : buf = (bj, 0).
Hypothesis Hrb : e_mem w !! bj = Some rb.
Hypothesis Hin : icmp6_in rb (mtu (e_conf w)) n.
Hypothesis Hout : ∀ i, i ∈ D → h_iov home i ≠ bj.
Hypothesis Hslot : 54 + n <= slot_len ∧ slot_len <= Z.of_nat (length rb) ∧ slot_len < 2 ^ 16.
Hypothesis Hck : payload_cksum rb 14 (40 + n) = Done c.
Hypothesis Hmine : is_my_ip6 (e_conf w) (ldn rb 62 16) false = Done idx.
Hypothesis Hnd : ld8 rb 54 = ICMP6_TYPE_NSOL ∨ ld8 rb 54 = ICMP6_TYPE_NADV → 24 <= n.
Hypothesis HnL : 54 + n <= Z.of_nat L.

(** The MAC address of a neighbor message: that of its first option if this is a source
    link-layer address, or the source of the frame. *)
Definition nd_mac (slot_len n : Z) (rb : bytes) : bytes :=
  if (24 <=? Z.min n (slot_len - 62)) && (ld8 rb 78 =? 1) && (ld8 rb 79 =? 1)
  then ldn rb 80 6 else ldn rb Eth.src 6.

Lemma nd_option_run w1 :
  e_mem w1 !! bj = Some rb → 24 <= n →
  ∃ sla, nd_option slot_len (ip6_data_ptr buf) (padd buf (eth_data 0)) w1 = Done ((ldn rb 62 16, sla), w1) ∧
    ∀ w', e_mem w' !! bj = Some rb → ldm (default (padd buf Eth.src) sla) 6 w' = Done (nd_mac slot_len n rb, w').
Proof.
  intros Hm1 Hn. destruct Hin as [Hrbb Hln H8 Hmt Hf]. pose proof (wf_mtu _ Hconf) as Hmtu.
  assert (Hp : ptr_at buf bj 0) by (by apply ptr_at_base).
  unfold nd_option, nd_mac, ip6_data_ptr, ip6_data. buf_load.
  change (0 + eth_data 0 + Ip6.len)%nat with (14 + Ip6.len)%nat. rewrite Hln.
  change (Z.of_nat (Eth.size + Ip6.size + Icmp.size)) with 62. rewrite u64_id by (unfold_u; lia).
  rewrite u16_id by (unfold_u; lia). change (Z.of_nat IP6_LEN + 8) with 24.
  assert (Hsrc : ∀ w', e_mem w' !! bj = Some rb → ldm (padd buf Eth.src) 6 w' = Done (ldn rb Eth.src 6, w')).
  { intros w' Hw'. apply (ldm_run w' (padd buf Eth.src) bj (0 + Eth.src) rb); [by apply ptr_at_padd|done|wire_lia]. }
  unfold find_sla. destruct (24 <=? _) eqn:E24; cbn [andb].
  2:{ exists None. split; [|exact Hsrc]. mstep. by buf_load. }
  rewrite bind_assoc_run. apply Z.leb_le in E24. buf_load.
  change (0 + (Eth.size + Ip6.size) + Icmp.size + IP6_LEN)%nat with 78%nat.
  destruct (ld8 rb 78 =? 1); cbn [andb].
  2:{ exists None. split; [|exact Hsrc]. mstep. by buf_load. }
  rewrite bind_assoc_run. buf_load.
  change (0 + (Eth.size + Ip6.size) + Icmp.size + IP6_LEN + 1)%nat with 79%nat.
  destruct (ld8 rb 79 =? 1).
  2:{ exists None. split; [|exact Hsrc]. mstep. by buf_load. }
  eexists. split; [mstep; by buf_load|]. intros w' Hw'. cbn [default].
  eapply (ldm_run w' _ bj 80 rb); [|done|wire_lia].
  change 80%nat with (0 + (Eth.size + Ip6.size) + Icmp.size + IP6_LEN + 2)%nat. eauto with wc_ptr.
Qed.

Let type := ld8 rb 54.
Let mine := (type =? ICMP6_TYPE_NSOL) && negb (idx =? UINT16_MAX).
Let learns := (c =? 0) && ((type =? ICMP6_TYPE_NADV) || mine).
Let addr := WAddr AF_INET6 (if type =? ICMP6_TYPE_NADV then ldn rb 62 16 else ldn rb (14 + Ip6.src) 16).

(** The state [w1] after the reply, if there is one. *)
Definition icmp6_replied (w1 : engine) : Prop :=
  match m !! IOVQ with
  | Some (i :: _) =>
      if (c =? 0) && mine then
        ∃ b', reply_sent L home D m w i b' 72 w1 ∧
          icmp6_nadv_frame b' rb (mac (e_conf w)) (take IP6_LEN (ip6 (ia_addr ia)))
      else if (c =? 0) && (type =? ICMP6_TYPE_ECHO) then
        ∃ b', reply_sent L home D m w i b' (40 + n) w1 ∧
          icmp6_echo_frame b' rb (mac (e_conf w)) (take IP6_LEN (ip6 (ia_addr ia))) n
      else w1 = w
  | _ => w1 = w
  end.

(** Sending a reply, or nothing when there is no vector. *)
Lemma icmp6_tx_run ty (F : bytes → Prop) len :
  (∀ i free, m !! IOVQ = Some (i :: free) → bj ≠ h_iov home i →
    ∃ w' b', icmp6_tx fuel ty 0 buf w = Done (tt, w') ∧ reply_sent L home D m w i b' len w' ∧ F b') →
  ∃ w1, icmp6_tx fuel ty 0 buf w = Done (tt, w1) ∧ net_inv L home D m w1 ∧ same_rest w w1 ∧
    e_mem w1 !! bj = Some rb ∧
    match m !! IOVQ with
    | Some (i :: _) => ∃ b', reply_sent L home D m w i b' len w1 ∧ F b'
    | _ => w1 = w
    end.
Proof.
  intros Hs. destruct (ei_iovq _ _ _ (ni_eng _ _ _ _ _ Hinv)) as [xs Hm]. destruct xs as [|i free].
  - exists w. rewrite Hm. split_and!; try done.
    pose proof (w_alloc_iov_base_run true D m w (ni_eng _ _ _ _ _ Hinv)) as Ea. rewrite Hm in Ea.
    unfold icmp6_tx. by mstep Ea.
  - assert (HiD : i ∈ D) by (eapply queue_elem; [apply Hinv|done|by left]).
    assert (Hne : bj ≠ h_iov home i) by (by apply not_eq_sym, Hout).
    destruct (Hs i free Hm Hne) as (w1 & b' & E & Hr & HF). exists w1. rewrite Hm.
    split_and!; [done|apply Hr|apply Hr| |by exists b'].
    by rewrite (rs_mem _ _ _ _ _ _ _ _ _ Hr), lookup_insert_ne.
Qed.

(** Up to the update of the neighbor cache. *)
Lemma icmp6_rx_run : ∃ w1, icmp6_rx can_alloc fuel slot_len buf w =
    (if learns then neighbor_update can_alloc addr (nd_mac slot_len n rb) else mret tt) w1 ∧
  net_inv L home D m w1 ∧ same_rest w w1 ∧ icmp6_replied w1.
Proof.
  destruct Hin as [Hrbb Hln H8 Hmt Hf]. pose proof (wf_mtu _ Hconf) as Hmtu.
  assert (Hsame : match m !! IOVQ with Some (_ :: _) => w = w | _ => w = w end)
    by (by destruct (m !! IOVQ) as [[|]|]).
  unfold icmp6_replied, icmp6_rx, learns, mine. change (Z.of_nat (Eth.size + Ip6.size)) with 54. buf_load.
  change (0 + eth_data 0 + Ip6.len)%nat with (14 + Ip6.len)%nat. rewrite Hln.
  rewrite u64_id, Z.min_l, (u16_id n), (u16_id (n + _)) by (unfold_u; wire_lia).
  replace (n + Z.of_nat Ip6.size) with (40 + n) by (unfold Ip6.size; lia).
  mstep (on_buf_run w (padd buf (eth_data 0)) bj 14 rb (ptr_at_padd _ _ _ _ (ptr_at_base _ _ Hbuf)) Hrb
    (λ b p, payload_cksum b p (40 + n)) c Hck).
  destruct (c =? 0); cbn [negb andb]; [|by exists w].
  change (padd (ip6_data_ptr buf) Icmp.type) with (padd (padd buf (Eth.size + Ip6.size)) Icmp.type).
  buf_load. change (0 + (Eth.size + Ip6.size) + Icmp.type)%nat with 54%nat. fold type.
  destruct (type =? ICMP6_TYPE_NADV) eqn:Ea.
  { pose proof (proj1 (Z.eqb_eq _ _) Ea) as Ea'. destruct (nd_option_run w Hrb ltac:(apply Hnd; auto)) as (sla & En & Em).
    assert (Es : (type =? ICMP6_TYPE_NSOL) = false) by (by rewrite Ea').
    assert (Ee : (type =? ICMP6_TYPE_ECHO) = false) by (by rewrite Ea').
    exists w. mstep En. mstep (Em w Hrb). rewrite Es, Ee. cbn [orb andb]. by split_and!. }
  destruct (type =? ICMP6_TYPE_NSOL) eqn:Es; cbn [andb orb].
  - pose proof (proj1 (Z.eqb_eq _ _) Es) as Es'. destruct (nd_option_run w Hrb ltac:(apply Hnd; auto)) as (sla & En & Em).
    assert (Ee : (type =? ICMP6_TYPE_ECHO) = false) by (by rewrite Es').
    mstep En. mstep. mstep (lift_run _ _ w Hmine).
    destruct (idx =? UINT16_MAX); cbn [negb].
    { exists w. rewrite Ee. by split_and!. }
    destruct (icmp6_tx_run ICMP6_TYPE_NADV
      (λ b', icmp6_nadv_frame b' rb (mac (e_conf w)) (take IP6_LEN (ip6 (ia_addr ia)))) 72)
      as (w1 & E & Hi1 & Hr1 & Hm1 & Hx).
    { intros i free Hm Hne. apply (icmp6_nadv_sent L home D m fuel w i free ia) with (bj := bj) (n := n); auto. }
    exists w1. split_and!; try done. mstep E. buf_load. by mstep (Em w1 Hm1).
  - destruct (type =? ICMP6_TYPE_ECHO) eqn:Ee; [|by exists w].
    destruct (icmp6_tx_run ICMP6_TYPE_ECHOREPLY
      (λ b', icmp6_echo_frame b' rb (mac (e_conf w)) (take IP6_LEN (ip6 (ia_addr ia))) n) (40 + n))
      as (w1 & E & Hi1 & Hr1 & Hm1 & Hx).
    { intros i free Hm Hne. apply (icmp6_echo_sent L home D m fuel w i free ia) with (bj := bj); auto. }
    exists w1. by split_and!.
Qed.

Lemma nd_addr_wf : w_addr_wf addr.
Proof.
  destruct Hin as [Hrbb _ H8 _ Hf]. unfold addr.
  assert (Hl : (type =? ICMP6_TYPE_NADV) = true → 24 <= n).
  { intros Et%Z.eqb_eq. apply Hnd. by right. }
  revert Hl. case (type =? ICMP6_TYPE_NADV); intros Hl; (split; [done|apply ldn_is_bytes, Hrbb|apply length_ldn]).
  - specialize (Hl eq_refl). lia.
  - wire_lia.
Qed.

(** C14: The changes that a received ICMPv6 message makes, when the lengths in it fit the slot
    and the MTU, are exactly these: a solicitation for our address is answered with an
    advertisement and its sender entered in the neighbor cache, an advertisement enters its target,
    an echo request is answered with its data, and nothing else, in particular a wrong
    checksum, changes anything.  An answer needs a free vector and is in a frame that the kernel
    is shown in a TX ring unless all rings are full. *)
Theorem icmp6_rx_correct (nm : neigh_map) B :
  kh_rep (e_neighbor w) nm B → Z.of_nat B < 2 ^ 24 →
  ∃ w1 w', icmp6_rx can_alloc fuel slot_len buf w = Done (tt, w') ∧ net_inv L home D m w' ∧
    (∀ a, w_addr_wf a → neighbor_find a w' =
      Done ((if learns && w_addr_cmp addr a then nd_mac slot_len n rb
             else default ETH_ADDR_BCAST (km_find nm a)), w')) ∧
    w' = set_neighbor w1 (e_neighbor w') ∧ icmp6_replied w1.
Proof.
  intros Hnm HB. destruct icmp6_rx_run as (w1 & E & Hinv1 & Hrest & Hcase). pose proof nd_addr_wf as Hwf.
  rewrite <- (sr_neighbor _ _ Hrest) in Hnm. exists w1. revert E. case learns; intros E.
  - destruct (neighbor_update_run can_alloc nm B w1 addr (nd_mac slot_len n rb) Halloc Hnm Hwf HB) as (h & Eu & Hr).
    exists (set_neighbor w1 h). rewrite E, Eu. split_and!; [done|by apply set_neighbor_inv| |done|done].
    intros a Ha. rewrite (neighbor_find_run (km_update nm addr (nd_mac slot_len n rb)) (S B)) by done. do 2 f_equal.
    rewrite (km_find_update (KK := neighbor_key)); [|apply Hnm|done|done].
    change (hash_equal addr a) with (w_addr_cmp addr a). cbn [andb]. by destruct (w_addr_cmp _ _).
  - exists w1. rewrite E. split_and!; [done|done| |by destruct w1|done].
    intros a Ha. by rewrite (neighbor_find_run nm B).
Qed.
End Receive6.

(** ** Witnesses *)

(** A solicitation of 2001:db8::2 for our IPv6 address, with the address option. *)
Definition nsol_ex : bytes :=
  [0x33; 0x33; 0xff; 5; 6; 7; 2; 0; 0; 0; 0; 2; 0x86; 0xdd; 0x60; 0; 0; 0; 0; 32; 58; 255;
   0x20; 1; 0xd; 0xb8; 0; 0; 0; 0; 0; 0; 0; 0; 0; 0; 0; 2] ++ take 13 snma_pref ++ [5; 6; 7] ++
  [135; 0; 11; 13; 0; 0; 0; 0] ++ un addr_ex6 ++ [1; 1; 2; 0; 0; 0; 0; 3].
Definition nsol_ex_src : w_addr := WAddr AF_INET6 (ldn nsol_ex 22 16).

#[local] Existing Instance netmap_ex.

Lemma nsol_ex_bytes : is_bytes nsol_ex.
Proof. apply (bool_decide_unpack (Forall is_u8 nsol_ex)). vm_compute. exact I. Qed.

Lemma icmp6_nsol_correct_witness :
  ∃ w' b', icmp6_nsol 5 (un addr_ex6) (eng_net_ex nsol_ex) = Done (tt, w') ∧
    icmp6_nsol_frame b' [2; 0; 0; 0; 0; 1] (un addr_ex6) (un addr_ex6).
Proof.
  destruct (icmp6_nsol_correct 128 homes_ex eng_ex_D eng_ex_m 5 (eng_net_ex nsol_ex) 0 [1; 2]%nat ifaddr_ex6
    (eng_net_ex_inv nsol_ex) (eng_net_ex_fuel nsol_ex) ifconf_ex_wf eq_refl eq_refl (un addr_ex6))
    as (w' & b' & E & _ & F).
  - lia.
  - apply addr_ex6_wf.
  - reflexivity.
  - exists w', b'. split; [exact E|exact F].
Defined.

Lemma icmp6_rx_correct_witness :
  ∃ w', icmp6_rx (λ _ _, true) 5 86 (100, 0) (eng_net_ex nsol_ex) = Done (tt, w') ∧
    neighbor_find nsol_ex_src w' = Done ([2; 0; 0; 0; 0; 3], w').
Proof.
  destruct (icmp6_rx_correct (λ _ _, true) (λ _ _, eq_refl) 128 homes_ex eng_ex_D eng_ex_m 5 (eng_net_ex nsol_ex)
    ifaddr_ex6 ltac:(lia) (eng_net_ex_inv nsol_ex) (eng_net_ex_fuel nsol_ex) ifconf_ex_wf eq_refl (100, 0) 100 32 86 0 0
    nsol_ex eq_refl) with (nm := @nil (w_addr * bytes)) (B := 0%nat) as (w1 & w' & E & _ & F & _).
  - apply lookup_insert_eq.
  - split; [exact nsol_ex_bytes|by vm_compute..].
  - apply eng_net_ex_out.
  - split; [lia|split; [vm_compute; discriminate|lia]].
  - vm_compute. reflexivity.
  - vm_compute. reflexivity.
  - intros _. lia.
  - lia.
  - apply kh_init_rep.
  - reflexivity.
  - exists w'. split; [exact E|]. rewrite (F nsol_ex_src); [vm_compute; reflexivity|].
    apply addr_wf_dec. vm_compute. reflexivity.
Defined.
