(* ===== verification/Rx.v ===== *)
(** Reception (lib/src/udp.c, ip4.c, ip6.c, eth.c, neighbor.c, backend_netmap.c): the
    handlers of a received frame from the RX ring up to the socket's queue, the
    receive loop, and address resolution, which receives while it waits. *)

From S2P Require Import Prelude Util Krng Queue Wire Cksum Addr Khash Engine Netmap Ip Send Sock Arp Icmp.

(** ** The RX rings *)

Definition get_rxr (i : Z) : M engine netmap_ring := w ← get; lift (rd (e_rxr w) i).
Definition put_rxr (i : Z) (r : netmap_ring) : M engine unit :=
  w ← get; rxr ← lift (wr (e_rxr w) i r); put (set_rxr w rxr).

(** A [struct netmap_slot *] into the RX rings: the ring and the slot's position. *)
Definition slotptr : Type := Z * Z.
Definition get_rx_slot (s : slotptr) : M engine netmap_slot :=
  r ← get_rxr (fst s); lift (rd (nr_slot r) (snd s)).
Definition put_rx_slot (s : slotptr) (sl : netmap_slot) : M engine unit :=
  r ← get_rxr (fst s); r ← lift (set_slot r (snd s) sl); put_rxr (fst s) r.

Section Rx.
Context `{!Netmap}.
Context (can_alloc : kh_array → Z → bool).
(** Fuel of the loops of the random number generator and of the transmission. *)
Context (fuel : nat).

(** ** [udp_rx] *)

(** [wv_ip4] of a socket address set, and of a fresh one (whose other bytes the
    code does not set, and never reads for an IPv4 address). *)
Definition set_ip4 (sa : w_sockaddr) (ip : Z) : w_sockaddr :=
  WSockaddr (WAddr AF_INET (stn (un (sa_addr sa)) 0 (le_bytes 4 ip))) (sa_port sa).
Definition set_port (sa : w_sockaddr) (port : Z) : w_sockaddr := WSockaddr (sa_addr sa) port.
Definition set_meta (v : w_iov) (sa : w_sockaddr) (flags ttl : Z) : w_iov :=
  WIov sa (v_base v) (v_buf v) (v_idx v) (v_len v) flags ttl (v_user_data v).
Definition set_bufs (v : w_iov) (base buf : bufptr) (idx : Z) : w_iov :=
  WIov (v_saddr v) base buf idx (v_len v) (v_flags v) (v_ttl v) (v_user_data v).

(** What [udp_rx] takes from the IP header: the header's length, the length of its
    payload, the UDP header, the local address, and the vector with the sender's
    address, traffic class and TTL. *)
Definition udp_ip_info (buf : bufptr) (v : Z) (i : w_iov)
    : M engine (Z * Z * bufptr * w_addr * w_iov) :=
  let ip := padd buf (eth_data 0) in
  if v =? 4 then
    vhl ← ldm8 (padd ip Ip4.vhl); len ← ldm16 (padd ip Ip4.len);
    udp ← ip4_data_ptr buf;
    src ← ldm32 (padd ip Ip4.src); dst ← ldm32 (padd ip Ip4.dst);
    tos ← ldm8 (padd ip Ip4.tos); ttl ← ldm8 (padd ip Ip4.ttl);
    mret (ip4_hl vhl, u16 (bswap16 len - ip4_hl vhl), udp, addr4 dst,
          set_meta i (set_ip4 (v_saddr i) src) tos ttl)
  else
    len ← ldm16 (padd ip Ip6.len);
    src ← ldm (padd ip Ip6.src) IP6_LEN; dst ← ldm (padd ip Ip6.dst) IP6_LEN;
    x ← ldm32 (padd ip Ip6.vtcecnfl); hlim ← ldm8 (padd ip Ip6.hlim);
    mret (Z.of_nat Ip6.size, bswap16 len, ip6_data_ptr buf, WAddr AF_INET6 dst,
          set_meta i (WSockaddr (WAddr AF_INET6 src) (sa_port (v_saddr i))) (ip6_tos x) hlim).

(** The socket that gets a datagram: the one connected to the sender, else the one
    bound to the local address. *)
Definition udp_demux (loc rem : w_sockaddr) : M engine (option nat) :=
  ws ← w_get_sock loc (Some rem);
  match ws with
  | Some ws => mret (Some ws)
  | None => w_get_sock loc None
  end.

(** The reply to a datagram for which there is no socket. *)
Definition udp_unreach (v : Z) (i : w_iov) (buf : bufptr) : M engine unit :=
  w ← get;
  mine4 ← (if v =? 4 then
             idx ← lift (is_my_ip4 (e_conf w) (ip4 (sa_addr (v_saddr i))) false);
             mret (negb (idx =? UINT16_MAX))
           else mret false);
  if (mine4 : bool) then icmp4_tx fuel ICMP4_TYPE_UNREACH ICMP4_UNREACH_PORT buf else
  mine6 ← (if v =? 6 then
             idx ← lift (is_my_ip6 (e_conf w) (ip6 (sa_addr (v_saddr i))) false);
             mret (negb (idx =? UINT16_MAX))
           else mret false);
  if (mine6 : bool) then icmp6_tx fuel ICMP6_TYPE_UNREACH ICMP6_UNREACH_PORT buf else mret tt.

(** The exchange of the buffers of RX slot [s] and vector [i]. *)
Definition udp_deliver (s : slotptr) (buf udp : bufptr) (i ws : nat) : M engine unit :=
  v ← get_iov i; sl ← get_rx_slot s;
  put_iov i (set_bufs v buf (padd udp Udp.size) (ns_buf_idx sl)) ;;
  put_rx_slot s (NetmapSlot (v_idx v) (ns_len sl) ns_buf_changed) ;;
  sk ← get_sock ws;
  liftq (sq_insert_tail (s_iv sk) i).

Definition udp_rx (s : slotptr) (buf : bufptr) : M engine bool :=
  o ← w_alloc_iov_base true;
  match o with
  | None => mret false
  | Some i =>
      let ip := padd buf (eth_data 0) in
      v_byte ← ldm8 ip;
      let v := ip_v v_byte in
      iv ← get_iov i;
      '(ip_hdr_len, ip_plen, udp, laddr, iv) ← udp_ip_info buf v iv;
      put_iov i iv ;;
      if ip_plen <? Z.of_nat Udp.size then mret false else
      len ← ldm16 (padd udp Udp.len);
      let udp_len := Z.min (bswap16 len) ip_plen in
      put_iov i (set_len iv (u16 (udp_len - Z.of_nat Udp.size))) ;;
      cksum ← ldm16 (padd udp Udp.cksum);
      ok ← (if negb (cksum =? 0) then
              c ← on_buf (λ b p, payload_cksum b p (u16 (udp_len + ip_hdr_len))) ip; mret (c =? 0)
            else mret true);
      if negb ok then mret false else
      sport ← ldm16 (padd udp Udp.sport); dport ← ldm16 (padd udp Udp.dport);
      iv ← get_iov i;
      let iv := set_saddr iv (set_port (v_saddr iv) sport) in
      put_iov i iv ;;
      ws ← udp_demux (WSockaddr laddr dport) (v_saddr iv);
      match ws with
      | None => udp_unreach v iv buf ;; mret false
      | Some ws => udp_deliver s buf udp i ws ;; mret true
      end
  end.

(** ** [ip4_rx], [ip6_rx] and [eth_rx] *)

Definition ip4_rx (s : slotptr) (buf : bufptr) : M engine bool :=
  let ip := padd buf (eth_data 0) in
  vhl ← ldm8 (padd ip Ip4.vhl);
  if negb (ip_v vhl =? 4) then mret false else
  let hl := ip4_hl vhl in
  dst ← ldm32 (padd ip Ip4.dst); w ← get;
  idx ← lift (is_my_ip4 (e_conf w) dst true);
  if idx =? UINT16_MAX then mret false else
  c ← on_buf (λ b p, ip_cksum b p hl) ip;
  if negb (c =? 0) then mret false else
  vhl ← ldm8 (padd ip Ip4.vhl);
  if negb (ip4_hl vhl =? hl) then mret false else
  off ← ldm16 (padd ip Ip4.off);
  if negb (Z.land off IP4_OFFMASK =? 0) then mret false else
  p ← ldm8 (padd ip Ip4.p);
  if p =? IP_P_UDP then udp_rx s buf
  else if p =? IP_P_ICMP then
    sl ← get_rx_slot s; icmp4_rx fuel (ns_len sl) buf ;; mret false
  else icmp4_tx fuel ICMP4_TYPE_UNREACH ICMP4_UNREACH_PROTOCOL buf ;; mret false.

Definition ip6_rx (s : slotptr) (buf : bufptr) : M engine bool :=
  let ip := padd buf (eth_data 0) in
  vfc ← ldm8 (padd ip Ip6.vfc);
  if negb (ip_v vfc =? 6) then mret false else
  dst ← ldm (padd ip Ip6.dst) IP6_LEN; w ← get;
  idx ← lift (is_my_ip6 (e_conf w) dst true);
  if idx =? UINT16_MAX then mret false else
  next_hdr ← ldm8 (padd ip Ip6.next_hdr);
  if next_hdr =? IP_P_UDP then udp_rx s buf
  else if next_hdr =? IP_P_ICMP6 then
    sl ← get_rx_slot s; icmp6_rx can_alloc fuel (ns_len sl) buf ;; mret false
  else mret false.

(** Whether a frame to [dst] is for us: unicast, broadcast or IPv6 multicast. *)
Definition eth_for_us (mac dst : bytes) : bool :=
  bytes_eqb dst mac || bytes_eqb dst ETH_ADDR_BCAST || bytes_eqb (take 2 dst) (take 2 ETH_ADDR_MCAST6).

Definition eth_rx (s : slotptr) (buf : bufptr) : M engine bool :=
  dst ← ldm (padd buf Eth.dst) 6; w ← get;
  if negb (eth_for_us (mac (e_conf w)) dst) then mret false else
  type ← ldm16 (padd buf Eth.type);
  if type =? ETH_TYPE_IP6 then
    if have_ip6 (e_conf w) then ip6_rx s buf else mret false
  else if type =? ETH_TYPE_IP4 then
    if have_ip4 (e_conf w) then ip4_rx s buf else mret false
  else if type =? ETH_TYPE_ARP then
    when (have_ip4 (e_conf w)) (arp_rx can_alloc fuel buf) ;; mret false
  else mret false.

(** ** [w_nic_rx] *)

(** The loop over the slots of RX ring [i], with the result of the last frame. *)
Fixpoint rx_ring (n : nat) (i : Z) (rx : bool) : M engine bool :=
  match n with
  | O => no_fuel
  | S n =>
      r ← get_rxr i;
      if nm_ring_empty r then mret rx
      else
        s ← get_rx_slot (i, nr_cur r);
        rx ← eth_rx (i, nr_cur r) (ns_buf_idx s, 0);
        r ← get_rxr i;
        put_rxr i (set_head_cur r (nm_ring_next r (nr_cur r))) ;;
        rx_ring n i rx
  end.

(** The loop over the RX rings, starting from ring [i]; each empties within one
    round per slot. *)
Fixpoint rx_rings (n : nat) (i : Z) (rx : bool) : M engine bool :=
  match n with
  | O => mret rx
  | S n =>
      r ← get_rxr i;
      rx ← rx_ring (S (Z.to_nat (nr_num_slots r))) i rx;
      rx_rings n (i + 1) rx
  end.

(** The conversion to [int], and the timeout [poll] gets. *)
Definition s32 (x : Z) : Z := if u32 x <? 2 ^ 31 then u32 x else u32 x - 2 ^ 32.
Definition poll_timeout (nsec : Z) : Z := if nsec <? 0 then -1 else s32 (nsec / NS_PER_MS).

(** [tries] bounds the rounds of the [again] loop. *)
Fixpoint w_nic_rx (tries : nat) (nsec : Z) : M engine bool :=
  match tries with
  | O => no_fuel
  | S tries =>
      t ← syscall KPoll; w ← get;
      match nm_poll t (poll_timeout nsec) (e_rxr w) (e_mem w) with
      | None => mret false
      | Some (rxr, mem) =>
          put (set_mem (set_rxr w rxr) mem) ;;
          rx ← rx_rings (length rxr) 0 false;
          if negb rx && (nsec =? -1) then w_nic_rx tries nsec else mret rx
      end
  end.

(** ** [who_has] *)

Fixpoint who_has_loop (tries : nat) (addr : w_addr) (a : bytes) : M engine bytes :=
  if negb (bytes_eqb a ETH_ADDR_BCAST) then mret a else
  match tries with
  | O => no_fuel
  | S tries =>
      (if af addr =? AF_INET then arp_who_has fuel (ip4 addr) else icmp6_nsol fuel (ip6 addr)) ;;
      w_nic_rx 1 NS_PER_S ;;
      a ← neighbor_find addr;
      who_has_loop tries addr a
  end.
Definition who_has (tries : nat) (addr : w_addr) : M engine bytes :=
  a ← neighbor_find addr; who_has_loop tries addr a.
End Rx.

(** * Theorems *)

(** ** What [udp_rx] reads *)

(** The results of [udp_ip_info] for the frame [rb]; the UDP header by its offset. *)
Definition udp_info (rb : bytes) (i : w_iov) : Z * Z * nat * w_addr * w_iov :=
  if ip_v (ld8 rb 14) =? 4 then
    let hl := ip4_hl (ld8 rb 14) in
    (hl, u16 (bswap16 (ld16 rb (14 + Ip4.len)) - hl), (14 + Z.to_nat hl)%nat,
     addr4 (ld32 rb (14 + Ip4.dst)),
     set_meta i (set_ip4 (v_saddr i) (ld32 rb (14 + Ip4.src))) (ld8 rb (14 + Ip4.tos)) (ld8 rb (14 + Ip4.ttl)))
  else
    (40, bswap16 (ld16 rb (14 + Ip6.len)), ip6_data, WAddr AF_INET6 (ldn rb (14 + Ip6.dst) 16),
     set_meta i (WSockaddr (WAddr AF_INET6 (ldn rb (14 + Ip6.src) 16)) (sa_port (v_saddr i)))
       (ip6_tos (ld32 rb 14)) (ld8 rb (14 + Ip6.hlim))).

Lemma udp_ip_info_run w buf bj rb i :
  buf = (bj, 0) → e_mem w !! bj = Some rb → (54 <= length rb)%nat →
  let '(hl, plen, udp, laddr, iv) := udp_info rb i in
  udp_ip_info buf (ip_v (ld8 rb 14)) i w = Done ((hl, plen, padd buf udp, laddr, iv), w).
Proof.
  intros Hbuf Hrb Hl. unfold udp_info, udp_ip_info. destruct (ip_v (ld8 rb 14) =? 4).
  - do 2 buf_load. unfold ip4_data_ptr. rewrite bind_assoc_run. buf_load. mstep. do 4 buf_load. done.
  - do 5 buf_load. done.
Qed.

(** ** The buffers of the RX rings *)

Definition rx_slot (w : engine) (k j : nat) : option netmap_slot :=
  r ← e_rxr w !! k; nr_slot r !! j.

(** The slots of the RX rings have buffers of their own, which are neither those of
    the vectors nor those of the TX rings; vectors do not share buffers. *)
Record rx_inv (L : nat) (home : homes) (w : engine) : Prop := {
  rx_rings_wf : ∀ k r, e_rxr w !! k = Some r → ring_wf r;
  rx_slots : ∀ k j sl, rx_slot w k j = Some sl →
    (∀ i, i ∈ dom (e_bufs w) → h_iov home i ≠ ns_buf_idx sl) ∧
    (∀ k' j', is_Some (slot_at w k' j') → h_slot home k' j' ≠ ns_buf_idx sl) ∧
    ∃ b, e_mem w !! ns_buf_idx sl = Some b ∧ length b = L ∧ is_bytes b;
  rx_inj : ∀ k j sl k' j' sl', rx_slot w k j = Some sl → rx_slot w k' j' = Some sl' →
    ns_buf_idx sl = ns_buf_idx sl' → k = k' ∧ j = j';
  rx_homes : ∀ i i', i ∈ dom (e_bufs w) → i' ∈ dom (e_bufs w) → h_iov home i = h_iov home i' → i = i'
}.

(** Vector [i] now owns buffer [idx]. *)
Definition rehome (home : homes) (i : nat) (idx : Z) : homes :=
  Homes (λ i', if decide (i' = i) then idx else h_iov home i') (h_slot home).

Lemma tx_inv_rehome home w w' i v idx :
  tx_inv home w → not_waiting w i → i ∈ dom (e_bufs w) →
  e_txr w' = e_txr w → e_slot_buf w' = e_slot_buf w → e_tail w' = e_tail w → e_cur_txr w' = e_cur_txr w →
  e_bufs w' = <[i := v]> (e_bufs w) → v_idx v = idx →
  (∀ k j, is_Some (slot_at w k j) → h_slot home k j ≠ idx) →
  tx_inv (rehome home i idx) w'.
Proof.
  intros [Hcur Hn Htl Hdi [C1 C2 C3 C4 C5 C6 C7 C8 C9]] Hnw Hi E1 E2 E3 E4 E5 Hv Hs.
  assert (Hdom : dom (e_bufs w') = dom (e_bufs w)) by (rewrite E5, dom_insert_L; set_solver).
  unfold not_waiting, pending, slot_iov, slot_at in *.
  assert (Hpn : ∀ k j, (∃ r s, e_txr w !! k = Some r ∧ starts (e_txr w) !! k = Some s ∧ waits r s j) →
    (row ← e_slot_buf w !! k; mjoin (row !! j)) ≠ Some i) by exact Hnw.
  split; rewrite ?E1, ?E4, ?E3; [done|done|done| |split]; unfold pending, slot_iov, slot_at;
    rewrite ?E1, ?E2, ?Hdom; try assumption; cbn [h_iov h_slot rehome].
  - intros i' k j Hi' Hsl. case_decide; [by apply not_eq_sym, Hs|by apply Hdi].
  - intros k j Hp. destruct (C5 k j Hp) as (i' & s & F1 & F2 & F3 & F4). exists i', s.
    split_and!; [done|done|done|]. rewrite decide_False; [done|]. intros ->. by apply (Hpn k j).
  - intros i' v'. rewrite E5. intros [[<- <-]|[Hne Hl]]%lookup_insert_Some Hw; [by rewrite decide_True|].
    rewrite decide_False by done. by apply C7.
  - intros k j i' v' Hp Hsl. rewrite E5, lookup_insert_ne; [by apply C8|]. intros <-. by apply (Hpn k j).
Qed.

(** ** Delivery *)

(** Slot [j] of an RX ring replaced. *)
Definition set_rx (rxr : list netmap_ring) (k j : nat) (sl : netmap_slot) : list netmap_ring :=
  alter (λ r, NetmapRing (nr_ringid r) (nr_num_slots r) (nr_head r) (nr_cur r) (nr_tail r)
                (<[j := sl]> (nr_slot r))) k rxr.

Lemma rx_slot_set w w' k j sl0 sl k' j' :
  e_rxr w' = set_rx (e_rxr w) k j sl → rx_slot w k j = Some sl0 →
  rx_slot w' k' j' = if decide (k' = k ∧ j' = j) then Some sl else rx_slot w k' j'.
Proof.
  unfold rx_slot, set_rx. intros E Hs. rewrite E. destruct (e_rxr w !! k) as [r|] eqn:Hr; [|done].
  cbn in Hs. destruct (decide (k' = k)) as [->|].
  - rewrite list_lookup_alter_eq, Hr. cbn. destruct (decide (j' = j)) as [->|].
    + rewrite decide_True by done. apply list_lookup_insert_eq. by eapply lookup_lt_Some.
    + rewrite decide_False by naive_solver. by rewrite list_lookup_insert_ne.
  - rewrite list_lookup_alter_ne, decide_False by naive_solver. done.
Qed.

Section Deliver.
Context `{!Netmap}.

Lemma get_rx_slot_run w k j sl :
  rx_slot w k j = Some sl → get_rx_slot (Z.of_nat k, Z.of_nat j) w = Done (sl, w).
Proof.
  unfold rx_slot. destruct (e_rxr w !! k) as [r|] eqn:Hr; [|done]. cbn. intros Hs.
  unfold get_rx_slot, get_rxr. cbn [fst snd]. rewrite bind_assoc_run. mstep.
  mstep (lift_run _ _ w (rd_Some _ _ _ Hr)). apply (lift_run _ _ w (rd_Some _ _ _ Hs)).
Qed.

Lemma put_rx_slot_run w k j sl0 sl :
  rx_slot w k j = Some sl0 →
  put_rx_slot (Z.of_nat k, Z.of_nat j) sl w = Done (tt, set_rxr w (set_rx (e_rxr w) k j sl)).
Proof.
  unfold rx_slot. destruct (e_rxr w !! k) as [r|] eqn:Hr; [|done]. cbn. intros Hs.
  unfold put_rx_slot, get_rxr. cbn [fst snd]. rewrite bind_assoc_run. mstep.
  mstep (lift_run _ _ w (rd_Some _ _ _ Hr)). unfold set_slot.
  rewrite wr_lt by (by eapply lookup_lt_Some). cbn [mbind outcome_bind mret outcome_ret].
  mstep. unfold put_rxr. mstep.
  mstep (lift_run _ _ w (wr_lt (e_rxr w) k _ (lookup_lt_Some _ _ _ Hr))).
  unfold put. do 2 f_equal. unfold set_rx. by rewrite (alter_insert_list _ k _ r Hr).
Qed.

Lemma udp_deliver_run D m w k j sl buf udp i v s sk xs :
  eng_inv D m w → e_bufs w !! i = Some v → rx_slot w k j = Some sl → e_socks w !! s = Some sk →
  m !! s_iv sk = Some xs → unqueued D m i →
  ∃ q, let w' := set_rxr (set_iovs w q (<[i := set_bufs v buf (padd udp Udp.size) (ns_buf_idx sl)]> (e_bufs w)))
                   (set_rx (e_rxr w) k j (NetmapSlot (v_idx v) (ns_len sl) ns_buf_changed)) in
    udp_deliver (Z.of_nat k, Z.of_nat j) buf udp i s w = Done (tt, w') ∧
    eng_inv D (<[s_iv sk := xs ++ [i]]> m) w'.
Proof.
  intros Heng Hv Hsl Hsk Hxs Hu. unfold udp_deliver.
  set (v' := set_bufs v buf (padd udp Udp.size) (ns_buf_idx sl)).
  set (w1 := set_iovs w (e_q w) (<[i := v']> (e_bufs w))).
  set (w2 := set_rxr w1 (set_rx (e_rxr w) k j (NetmapSlot (v_idx v) (ns_len sl) ns_buf_changed))).
  assert (Hi : i ∈ D) by apply Hu.
  assert (Heng2 : eng_inv D m w2) by (destruct (eng_inv_put D m w i v' Heng Hi) as [? ? ?]; by split).
  destruct (insert_tail_run D m w2 (s_iv sk) xs i Heng2 Hxs Hu) as (q & E & Heng').
  exists q. split; [|exact Heng'].
  mstep (get_iov_run i v w Hv). mstep (get_rx_slot_run w k j sl Hsl).
  assert (put_iov i v' w = Done (tt, w1)) as E1 by done. mstep E1.
  mstep (put_rx_slot_run w1 k j sl (NetmapSlot (v_idx v) (ns_len sl) ns_buf_changed) Hsl).
  mstep (get_sock_run s sk w2 Hsk). exact E.
Qed.
End Deliver.

(** ** [udp_rx] *)

(** The socket a datagram goes to, in the table [tm]. *)
Definition udp_dest (tm : sock_map) (loc rem : w_sockaddr) : option nat :=
  match km_find tm (WSocktuple loc rem 0) with
  | Some s => Some s
  | None => km_find tm (bound_tuple loc)
  end.

Lemma udp_demux_run (tm : sock_map) B w loc rem :
  kh_rep (e_sock w) tm B → w_addr_wf (sa_addr loc) → w_addr_wf (sa_addr rem) →
  udp_demux loc rem w = Done (udp_dest tm loc rem, w).
Proof.
  intros Hr Hl Hm. unfold udp_demux, udp_dest.
  mstep (w_get_sock_run tm B w loc (Some rem) Hr Hl Hm). cbn [default from_option].
  destruct (km_find tm _) as [s|]; [done|].
  by apply (w_get_sock_run tm B w loc None Hr Hl zero_sockaddr_wf).
Qed.

(** Equal addresses lead to the same socket. *)
Lemma udp_dest_equal (tm : sock_map) loc rem loc' rem' :
  km_wf tm → w_addr_wf (sa_addr loc) → w_addr_wf (sa_addr rem) → w_addr_wf (sa_addr loc') → w_addr_wf (sa_addr rem') →
  w_sockaddr_cmp loc loc' = true → w_sockaddr_cmp rem rem' = true → udp_dest tm loc rem = udp_dest tm loc' rem'.
Proof.
  intros Hm H1 H2 H3 H4 E1 E2. unfold udp_dest, bound_tuple.
  rewrite (km_find_equal (KK := sock_key) tm (WSocktuple loc rem 0) (WSocktuple loc' rem' 0)); [|done|by split|by split|].
  - rewrite (km_find_equal (KK := sock_key) tm (WSocktuple loc zero_sockaddr 0) (WSocktuple loc' zero_sockaddr 0)); [done|done| | |].
    + split; [done|apply zero_sockaddr_wf].
    + split; [done|apply zero_sockaddr_wf].
    + change (w_sockaddr_cmp loc loc' && w_sockaddr_cmp zero_sockaddr zero_sockaddr = true). by rewrite E1.
  - change (w_sockaddr_cmp loc loc' && w_sockaddr_cmp rem rem' = true). by rewrite E1, E2.
Qed.

(** An IPv4 address written over another from its value, and an IPv6 address from its
    bytes. *)
Lemma addr4_cmp u a :
  w_addr_wf a → af a = AF_INET → length u = 16%nat → w_addr_cmp (WAddr AF_INET (stn u 0 (le_bytes 4 (ip4 a)))) a = true.
Proof.
  intros [_ Hb _] E Hu. unfold w_addr_cmp. cbn [af]. rewrite E. change (AF_INET =? AF_INET) with true. cbn [andb].
  apply Z.eqb_eq. unfold ip4 at 1. cbn [un]. change (stn u 0 (le_bytes 4 (ip4 a))) with (st32 u 0 (ip4 a)).
  rewrite ld32_st32_eq by lia. apply u32_id, ld32_range, Hb.
Qed.
Lemma addr6_cmp a :
  w_addr_wf a → af a = AF_INET6 → w_addr_cmp (WAddr AF_INET6 (take IP6_LEN (ip6 a))) a = true.
Proof.
  intros [_ _ Hl] E. unfold w_addr_cmp, ip6_eql, ip6. cbn [af un]. rewrite E.
  change (AF_INET6 =? AF_INET6) with true. change (AF_INET6 =? AF_INET) with false. cbn [andb].
  apply bool_decide_eq_true. by rewrite take_take.
Qed.

Lemma udp_info_wf rb v hl plen udp laddr iv :
  is_bytes rb → (54 <= length rb)%nat → w_addr_wf (sa_addr (v_saddr v)) →
  udp_info rb v = (hl, plen, udp, laddr, iv) →
  w_addr_wf laddr ∧ w_addr_wf (sa_addr (v_saddr iv)) ∧ is_u16 plen ∧ (udp <= 74)%nat ∧
  v_base iv = v_base v ∧ v_idx iv = v_idx v.
Proof.
  intros Hb Hl [? ? ?]. unfold udp_info. pose proof (ip4_hl_range (ld8 rb 14)).
  destruct (ip_v (ld8 rb 14) =? 4); intros [= <- <- <- <- <-].
  - split_and!; try done; [apply addr4_wf|by apply set_ip4_wf|apply u16_range|lia].
  - assert (∀ o, (o + 16 <= length rb)%nat → w_addr_wf (WAddr AF_INET6 (ldn rb o 16))) as Hwf.
    { intros o Ho. split; cbn; [done|auto with wc|by apply length_ldn]. }
    split_and!; try done; [apply Hwf; wire_lia|cbn; apply Hwf; wire_lia|apply bswap16_range|
      unfold ip6_data, Eth.size, Ip6.size; lia].
Qed.

Section UdpRx.
Context `{!Netmap}.
Context (fuel L : nat) (home : homes) (D : gset nat) (qm : queues) (tm : sock_map) (B : nat) (w : engine).
Context (k j : nat) (sl : netmap_slot) (rb : bytes) (i : nat) (free : list nat) (v : w_iov).
Hypothesis Hnet : net_inv L home D qm w.
Hypothesis Hsock : sock_inv qm tm B w.
Hypothesis Hrx : rx_inv L home w.
Hypothesis HL : (82 <= L)%nat.
Hypothesis Hsl : rx_slot w k j = Some sl.
Hypothesis Hrb : e_mem w !! ns_buf_idx sl = Some rb.
Hypothesis Hfree : qm !! IOVQ = Some (i :: free).
Hypothesis Hv : e_bufs w !! i = Some v.
Context (hl plen : Z) (udp : nat) (laddr : w_addr) (iv : w_iov).
Hypothesis Hinfo : udp_info rb (reinit true w v) = (hl, plen, udp, laddr, iv).

Let buf : bufptr := (ns_buf_idx sl, 0).
Let udp_len := Z.min (bswap16 (ld16 rb (udp + Udp.len))) plen.
Let loc := WSockaddr laddr (ld16 rb (udp + Udp.dport)).
Let rem := set_port (v_saddr iv) (ld16 rb (udp + Udp.sport)).

(** The vector of a received datagram before its buffer is exchanged. *)
Definition udp_iov : w_iov := set_saddr (set_len iv (u16 (udp_len - 8))) rem.

(** The datagram was dropped and its vector is in no queue any more. *)
Definition udp_dropped (w' : engine) : Prop :=
  eng_inv D (<[IOVQ := free]> qm) w' ∧ unqueued D (<[IOVQ := free]> qm) i ∧
  e_rxr w' = e_rxr w ∧ e_txr w' = e_txr w ∧ e_mem w' = e_mem w ∧ e_sock w' = e_sock w ∧ e_socks w' = e_socks w.

Lemma rb_ok : length rb = L ∧ is_bytes rb.
Proof. destruct (rx_slots _ _ _ Hrx k j sl Hsl) as (_ & _ & b & Hb & ? & ?). simplify_eq. done. Qed.

(** Up to the demultiplexing: the checks. *)
Lemma udp_rx_run c :
  (8 <= plen → ld16 rb (udp + Udp.cksum) = 0 ∨ payload_cksum rb 14 (u16 (udp_len + hl)) = Done c) →
  ∃ q, let st iv' := set_iovs w q (<[i := iv']> (e_bufs w)) in
    (∀ iv', eng_inv D (<[IOVQ := free]> qm) (st iv')) ∧ unqueued D (<[IOVQ := free]> qm) i ∧
    udp_rx fuel (Z.of_nat k, Z.of_nat j) buf w =
    if plen <? 8 then Done (false, st iv) else
    if (ld16 rb (udp + Udp.cksum) =? 0) || (c =? 0) then
      match udp_dest tm loc rem with
      | Some s => (udp_deliver (Z.of_nat k, Z.of_nat j) buf (padd buf udp) i s ;; mret true) (st udp_iov)
      | None => (udp_unreach fuel (ip_v (ld8 rb 14)) udp_iov buf ;; mret false) (st udp_iov)
      end
    else Done (false, st (set_len iv (u16 (udp_len - 8)))).
Proof.
  intros Hck. destruct rb_ok as [Hrl Hrbb]. pose proof (ni_eng _ _ _ _ _ Hnet) as Heng.
  pose proof (w_alloc_iov_base_run true D qm w Heng) as Ha. rewrite Hfree in Ha.
  destruct Ha as (q & v0 & Ea & Hv0 & _ & Heng1). rewrite Hv in Hv0. injection Hv0 as <-.
  destruct (ni_free _ _ _ _ _ Hnet (i :: free) i v Hfree ltac:(by left) Hv) as (_ & _ & Hvwf).
  destruct (udp_info_wf rb (reinit true w v) hl plen udp laddr iv Hrbb ltac:(lia) Hvwf Hinfo)
    as (Hlwf & Hiwf & Hplen & Hudp & _ & _).
  exists q. set (st iv' := set_iovs w q (<[i := iv']> (e_bufs w))). cbv zeta.
  assert (Hu : unqueued D (<[IOVQ := free]> qm) i) by apply (head_unqueued D qm w IOVQ i free Heng Hfree).
  split_and!; [|done|].
  { intros iv'. pose proof (eng_inv_put D _ _ i iv' Heng1 (proj1 Hu)) as Hp. cbn in Hp.
    by rewrite insert_insert_eq in Hp. }
  assert (Hget : ∀ iv', get_iov i (st iv') = Done (iv', st iv')) by (intros; apply get_iov_run, lookup_insert_eq).
  assert (Hput : ∀ iv' iv'', put_iov i iv'' (st iv') = Done (tt, st iv'')).
  { intros. unfold put_iov, st. cbn. by rewrite insert_insert_eq. }
  assert (Hmem : ∀ iv', e_mem (st iv') !! ns_buf_idx sl = Some rb) by done.
  assert (Hbuf : buf = (ns_buf_idx sl, 0)) by done. clearbody buf.
  unfold udp_rx. mstep Ea. fold (st (reinit true w v)).
  erewrite bind_run; [|eapply ldm8_run; [solve [eauto with wc_ptr]|apply Hmem|rewrite Hrl; wire_lia]]. cbv beta.
  change (0 + eth_data 0)%nat with 14%nat. mstep (Hget (reinit true w v)).
  pose proof (udp_ip_info_run (st (reinit true w v)) buf (ns_buf_idx sl) rb (reinit true w v) Hbuf (Hmem _) ltac:(rewrite Hrl; lia)) as Ei.
  rewrite Hinfo in Ei. mstep Ei. mstep (Hput (reinit true w v) iv). change (Z.of_nat Udp.size) with 8.
  destruct (Z.ltb_spec plen 8) as [|Hp8]; [done|]. specialize (Hck Hp8).
  assert (Hu8 : (udp + 8 <= length rb)%nat) by (rewrite Hrl; lia).
  erewrite bind_run; [|eapply ldm16_run; [solve [eauto with wc_ptr]|apply Hmem|wire_lia]]. cbv beta.
  change (0 + udp)%nat with udp. fold udp_len.
  mstep (Hput iv (set_len iv (u16 (udp_len - 8)))).
  erewrite bind_run; [|eapply ldm16_run; [solve [eauto with wc_ptr]|apply Hmem|wire_lia]]. cbv beta.
  change (0 + udp)%nat with udp.
  set (iv1 := set_len iv (u16 (udp_len - 8))).
  assert (Eok : (if negb (ld16 rb (udp + Udp.cksum) =? 0)
      then c ← on_buf (λ b p, payload_cksum b p (u16 (udp_len + hl))) (padd buf (eth_data 0)); mret (c =? 0)
      else mret true) (st iv1) = Done ((ld16 rb (udp + Udp.cksum) =? 0) || (c =? 0), st iv1)).
  { destruct (Z.eqb_spec (ld16 rb (udp + Udp.cksum)) 0); [done|]. cbn [negb orb].
    destruct Hck as [|Hck]; [done|].
    erewrite bind_run; [|eapply on_buf_run; [solve [eauto with wc_ptr]|apply Hmem|exact Hck]]. done. }
  mstep Eok. destruct (_ || _); [|done]. cbn [negb].
  do 2 (erewrite bind_run; [|eapply ldm16_run; [solve [eauto with wc_ptr]|apply Hmem|wire_lia]]; cbv beta).
  change (0 + udp)%nat with udp. mstep (Hget iv1).
  change (set_saddr iv1 (set_port (v_saddr iv1) (ld16 rb (udp + Udp.sport)))) with udp_iov.
  mstep (Hput iv1 udp_iov).
  mstep (udp_demux_run tm B (st udp_iov) loc rem (si_rep _ _ _ _ Hsock) Hlwf Hiwf).
  by destruct (udp_dest tm loc rem).
Qed.

Let st q iv' := set_iovs w q (<[i := iv']> (e_bufs w)).

Lemma udp_dropped_st q iv' :
  eng_inv D (<[IOVQ := free]> qm) (st q iv') → unqueued D (<[IOVQ := free]> qm) i → udp_dropped (st q iv').
Proof. by intros. Qed.

Let home' : homes := rehome home i (ns_buf_idx sl).
Let udp_iov' : w_iov := set_bufs udp_iov buf (padd buf (udp + 8)) (ns_buf_idx sl).

(** The datagram is the last of the queue of socket [s]; the vector and the slot
    have exchanged their buffers. *)
Record udp_delivered (s : nat) (w' : engine) : Prop := {
  ud_queue : ∃ sk xs, e_socks w !! s = Some sk ∧ qm !! s_iv sk = Some xs ∧
    net_inv L home' D (<[s_iv sk := xs ++ [i]]> (<[IOVQ := free]> qm)) w' ∧
    sock_inv (<[s_iv sk := xs ++ [i]]> (<[IOVQ := free]> qm)) tm B w';
  ud_iov : e_bufs w' = <[i := udp_iov']> (e_bufs w);
  ud_slot : ∀ k' j', rx_slot w' k' j' =
    if decide (k' = k ∧ j' = j) then Some (NetmapSlot (h_iov home i) (ns_len sl) ns_buf_changed)
    else rx_slot w k' j';
  ud_rx : rx_inv L home' w';
  ud_mem : e_mem w' = e_mem w;
  ud_rest : ∃ q, w' = set_rxr (set_iovs w q (<[i := udp_iov']> (e_bufs w)))
    (set_rx (e_rxr w) k j (NetmapSlot (h_iov home i) (ns_len sl) ns_buf_changed))
}.

Lemma padd_padd (p : bufptr) a b : padd (padd p a) b = padd p (a + b).
Proof. unfold padd. cbn. f_equal. lia. Qed.

Lemma udp_iov_bufs : v_base udp_iov = v_base v ∧ v_idx udp_iov = v_idx v.
Proof.
  destruct rb_ok as [Hrl Hrbb].
  destruct (ni_free _ _ _ _ _ Hnet (i :: free) i v Hfree ltac:(by left) Hv) as (_ & _ & Hvwf).
  by destruct (udp_info_wf rb (reinit true w v) hl plen udp laddr iv Hrbb ltac:(lia) Hvwf Hinfo)
    as (_ & _ & _ & _ & ? & ?).
Qed.

Lemma free_head : not_waiting w i ∧ i ∉ free ∧ i ∈ D ∧ i ∈ dom (e_bufs w) ∧ v_idx v = h_iov home i.
Proof.
  destruct Hnet as [Heng Htx _ Hf _].
  destruct (Hf (i :: free) i v Hfree ltac:(by left) Hv) as (Hnw & _ & _).
  pose proof (head_unqueued D qm w IOVQ i free Heng Hfree) as [HD Hu]. split_and!; try done.
  - apply (Hu IOVQ). by rewrite lookup_insert_eq.
  - by apply elem_of_dom.
  - apply (tc_home _ _ _ (tx_core_inv _ _ Htx) i v Hv Hnw).
Qed.

Lemma rx_inv_delivered w' :
  e_rxr w' = set_rx (e_rxr w) k j (NetmapSlot (h_iov home i) (ns_len sl) ns_buf_changed) →
  e_txr w' = e_txr w → e_mem w' = e_mem w → dom (e_bufs w') = dom (e_bufs w) →
  rx_inv L home' w'.
Proof.
  intros E1 E2 E3 E4. destruct free_head as (_ & _ & HD & Hdom & Hidx).
  assert (Hs : ∀ k' j', rx_slot w' k' j' = _) by (intros; by apply (rx_slot_set w w' k j sl _ k' j' E1)).
  destruct Hrx as [R1 R2 R3 R4]. destruct (R2 k j sl Hsl) as (N1 & N2 & _).
  split.
  - intros k' r. rewrite E1. unfold set_rx. destruct (decide (k' = k)) as [->|];
      [|rewrite list_lookup_alter_ne by done; apply R1].
    rewrite list_lookup_alter_eq. destruct (e_rxr w !! k) as [r0|] eqn:Hr; [|done]. intros [= <-].
    destruct (R1 k r0 Hr). split; cbn; try done. by rewrite length_insert.
  - intros k' j' sl'. rewrite Hs, E3, E4. unfold slot_at. rewrite E2. cbn [home' rehome h_iov h_slot].
    case_decide as Hkj.
    + intros [= <-]. cbn. split_and!.
      * intros i' Hi'. case_decide as Hii; [by apply not_eq_sym, N1|]. intros E. by apply Hii, R4.
      * intros k2 j2 H2 E. by apply (tx_distinct _ _ (ni_tx _ _ _ _ _ Hnet) i k2 j2).
      * by apply (ni_mem _ _ _ _ _ Hnet).
    + intros Hsl'. destruct (R2 k' j' sl' Hsl') as (M1 & M2 & M3). split_and!; [|done|done].
      intros i' Hi'. case_decide; [|by apply M1]. intros E. by destruct (R3 _ _ _ _ _ _ Hsl Hsl' E) as [-> ->]; apply Hkj.
  - intros k1 j1 sl1 k2 j2 sl2. rewrite !Hs. case_decide as D1; case_decide as D2; cbn.
    + naive_solver.
    + intros [= <-] Hs2. cbn. intros E. by destruct (proj1 (R2 k2 j2 sl2 Hs2) i Hdom).
    + intros Hs1 [= <-]. cbn. intros E. by destruct (proj1 (R2 k1 j1 sl1 Hs1) i Hdom).
    + apply R3.
  - intros i1 i2. rewrite E4. cbn [home' rehome h_iov]. intros H1 H2.
    repeat case_decide; subst; try done; [|intros E; symmetry in E|by apply R4]; intros; exfalso.
    + by apply (N1 i2).
    + by apply (N1 i1).
Qed.

Lemma udp_delivered_run q s sk xs :
  (∀ iv', eng_inv D (<[IOVQ := free]> qm) (st q iv')) → unqueued D (<[IOVQ := free]> qm) i →
  v_base udp_iov = v_base v → v_idx udp_iov = v_idx v →
  e_socks w !! s = Some sk → qm !! s_iv sk = Some xs → s_iv sk ≠ IOVQ →
  ∃ w', udp_deliver (Z.of_nat k, Z.of_nat j) buf (padd buf udp) i s (st q udp_iov) = Done (tt, w') ∧
    udp_delivered s w'.
Proof.
  intros Heng Hu Hb1 Hi1 Hsk Hxs Hne. destruct free_head as (Hnw & Hnf & HD & Hdom & Hidx).
  assert (Hst : e_bufs (st q udp_iov) !! i = Some udp_iov) by apply lookup_insert_eq.
  assert (Hxs' : <[IOVQ:=free]> qm !! s_iv sk = Some xs) by (by rewrite lookup_insert_ne by done).
  destruct (udp_deliver_run D _ (st q udp_iov) k j sl buf (padd buf udp) i udp_iov s sk xs (Heng _) Hst Hsl Hsk Hxs' Hu)
    as (q' & E & Heng').
  rewrite padd_padd, Hi1, Hidx in *. cbn zeta in E. cbn [e_bufs set_iovs st] in E, Heng'. rewrite insert_insert_eq in E, Heng'.
  set (w' := set_rxr _ _) in E, Heng'. exists w'. split; [exact E|].
  assert (Hdom' : dom (e_bufs w') = dom (e_bufs w)) by (unfold w'; cbn; rewrite dom_insert_L; set_solver).
  destruct (rx_slots _ _ _ Hrx k j sl Hsl) as (N1 & N2 & N3).
  split; try done.
  - exists sk, xs. split_and!; [done|done| |].
    + split; [exact Heng'| |exact (ni_pipe _ _ _ _ _ Hnet)| |].
      * by eapply (tx_inv_rehome home w w' i udp_iov'); [apply Hnet|..].
      * intros free' i' v' Hf' Hin. rewrite lookup_insert_ne, lookup_insert_eq in Hf' by done. injection Hf' as <-.
        assert (i' ≠ i) by (by intros ->). unfold w'. cbn. rewrite lookup_insert_ne by done. intros Hv'.
        rewrite decide_False by done. apply (ni_free _ _ _ _ _ Hnet (i :: free) i' v'); [done|by right|done].
      * intros i' Hi'. cbn. case_decide; [exact N3|]. by apply (ni_mem _ _ _ _ _ Hnet).
    + destruct Hsock as [S1 S2 S3 S4 S5]. split; try done. intros s' sk' Hs'.
      destruct (S4 s' sk' Hs') as [Hq ?]. split; [|done].
      destruct (decide (s_iv sk' = s_iv sk)) as [->|]; [by rewrite lookup_insert_eq; eauto|].
      rewrite !lookup_insert_ne by done. done.
  - intros k' j'. by apply (rx_slot_set w w' k j sl).
  - by apply rx_inv_delivered.
  - by exists q'.
Qed.

(** Delivery to the socket [udp_dest] finds. *)
Lemma udp_deliver_dest q ws :
  (∀ iv', eng_inv D (<[IOVQ := free]> qm) (st q iv')) → unqueued D (<[IOVQ := free]> qm) i →
  udp_dest tm loc rem = Some ws →
  ∃ w', udp_deliver (Z.of_nat k, Z.of_nat j) buf (padd buf udp) i ws (st q udp_iov) = Done (tt, w') ∧
    udp_delivered ws w'.
Proof.
  intros Heng Hu Hws.
  assert (∃ t, (t, ws) ∈ tm) as [t Hin].
  { unfold udp_dest in Hws. destruct (km_find tm _) eqn:Ef.
    - injection Hws as ->. destruct (km_find_elem _ _ _ Ef) as (t & ? & _). eauto.
    - destruct (km_find_elem _ _ _ Hws) as (t & ? & _). eauto. }
  destruct (si_tup _ _ _ _ Hsock t ws Hin) as (sk & Hsk & _).
  destruct (si_iv _ _ _ _ Hsock ws sk Hsk) as [[xs Hxs] Hne].
  by apply (udp_delivered_run q ws sk xs); [..|apply udp_iov_bufs|apply udp_iov_bufs| | |].
Qed.

(** C4: A UDP datagram in a slot of an RX ring goes, if its checksum verifies or is zero, to
    the socket connected to its sender or else to the one bound to its destination: the free
    vector and the slot exchange buffers, the vector carries payload, sender, TOS and TTL and is
    last in the queue of that socket; in every other case it is dropped, and the vector taken
    for it never returns to the free list. *)
Theorem udp_rx_correct c :
  (ld16 rb (udp + Udp.cksum) = 0 ∨ payload_cksum rb 14 (u16 (udp_len + hl)) = Done c) →
  let s := (Z.of_nat k, Z.of_nat j) in
  if (plen <? 8) || negb ((ld16 rb (udp + Udp.cksum) =? 0) || (c =? 0)) then
    ∃ w', udp_rx fuel s buf w = Done (false, w') ∧ udp_dropped w'
  else
    match udp_dest tm loc rem with
    | Some ws => ∃ w', udp_rx fuel s buf w = Done (true, w') ∧ udp_delivered ws w'
    | None => ∃ w', udp_dropped w' ∧
        udp_rx fuel s buf w = (udp_unreach fuel (ip_v (ld8 rb 14)) udp_iov buf ;; mret false) w'
    end.
Proof.
  intros Hck s. destruct (udp_rx_run c (λ _, Hck)) as (q & Heng & Hu & E0). subst s. rewrite E0; clear E0. fold (st q).
  assert (Hd : ∀ iv', udp_dropped (st q iv')) by (intros; apply udp_dropped_st; [apply Heng|exact Hu]).
  destruct (plen <? 8); cbn [orb]; [by eauto|]. destruct (_ || _); cbn [negb]; [|by eauto].
  destruct (udp_dest tm loc rem) as [ws|] eqn:Hws; [|by eauto].
  destruct (udp_deliver_dest q ws Heng Hu Hws) as (w' & E & Hdel). exists w'. split; [|done]. by mstep E.
Qed.

(** A valid datagram without a socket is answered with nothing, unless its source is
    one of our own addresses. *)
Theorem udp_rx_no_socket c :
  (ld16 rb (udp + Udp.cksum) = 0 ∨ payload_cksum rb 14 (u16 (udp_len + hl)) = Done c) →
  udp_dest tm loc rem = None →
  (ip_v (ld8 rb 14) = 4 → is_my_ip4 (e_conf w) (ip4 (sa_addr (v_saddr iv))) false = Done UINT16_MAX) →
  (ip_v (ld8 rb 14) = 6 → is_my_ip6 (e_conf w) (ip6 (sa_addr (v_saddr iv))) false = Done UINT16_MAX) →
  ∃ w', udp_rx fuel (Z.of_nat k, Z.of_nat j) buf w = Done (false, w') ∧ udp_dropped w'.
Proof.
  intros Hck Hdest H4 H6. destruct (udp_rx_run c (λ _, Hck)) as (q & Heng & Hu & E0). rewrite E0; clear E0. fold (st q).
  assert (Hd : ∀ iv', udp_dropped (st q iv')) by (intros; apply udp_dropped_st; [apply Heng|exact Hu]).
  destruct (plen <? 8); cbn [orb]; [by eauto|]. destruct (_ || _); cbn [negb]; [|by eauto].
  rewrite Hdest. exists (st q udp_iov). split; [|done].
  assert (E : udp_unreach fuel (ip_v (ld8 rb 14)) udp_iov buf (st q udp_iov) = Done (tt, st q udp_iov)).
  { unfold udp_unreach. mstep. change (sa_addr (v_saddr udp_iov)) with (sa_addr (v_saddr iv)).
    change (e_conf (st q udp_iov)) with (e_conf w). destruct (Z.eqb_spec (ip_v (ld8 rb 14)) 4) as [E4|].
    - rewrite E4. rewrite bind_assoc_run. by mstep (lift_run _ _ (st q udp_iov) (H4 E4)).
    - mstep. destruct (Z.eqb_spec (ip_v (ld8 rb 14)) 6) as [E6|]; [|done].
      rewrite bind_assoc_run. by mstep (lift_run _ _ (st q udp_iov) (H6 E6)). }
  by mstep E.
Qed.
End UdpRx.

(** ** Which frames are accepted *)

(** What [ip4_rx] requires of a packet: version 4, for one of our addresses or a
    broadcast, a header checksum that verifies, and a fragment offset of 0. *)
Definition ip4_ok (cf : ifconf) (rb : bytes) : bool :=
  (ip_v (ld8 rb 14) =? 4) &&
  match is_my_ip4 cf (ld32 rb (14 + Ip4.dst)) true with Done r => negb (r =? UINT16_MAX) | _ => false end &&
  match ip_cksum rb 14 (ip4_hl (ld8 rb 14)) with Done c => c =? 0 | _ => false end &&
  (Z.land (ld16 rb (14 + Ip4.off)) IP4_OFFMASK =? 0).

Section Filter.
Context `{!Netmap} (can_alloc : kh_array → Z → bool) (fuel : nat).
Context (w : engine) (s : slotptr) (buf : bufptr) (bj : Z) (rb : bytes).
Hypothesis Hconf : ifconf_wf (e_conf w).
Hypothesis Hbuf : buf = (bj, 0).
Hypothesis Hrb : e_mem w !! bj = Some rb.
Hypothesis Hlen : (74 <= length rb)%nat.
Hypothesis Hrbb : is_bytes rb.

(** What happens to an accepted packet. *)
Definition ip4_dispatch : M engine bool :=
  if ld8 rb (14 + Ip4.p) =? IP_P_UDP then udp_rx fuel s buf
  else if ld8 rb (14 + Ip4.p) =? IP_P_ICMP then
    sl ← get_rx_slot s; icmp4_rx fuel (ns_len sl) buf ;; mret false
  else icmp4_tx fuel ICMP4_TYPE_UNREACH ICMP4_UNREACH_PROTOCOL buf ;; mret false.

Lemma ip4_rx_run :
  ip4_rx fuel s buf w = if ip4_ok (e_conf w) rb then ip4_dispatch w else Done (false, w).
Proof.
  unfold ip4_rx, ip4_ok. buf_load. change (0 + eth_data 0 + Ip4.vhl)%nat with 14%nat.
  destruct (ip_v (ld8 rb 14) =? 4); cbn [negb andb]; [|done]. buf_load. mstep.
  change (0 + eth_data 0 + Ip4.dst)%nat with (14 + Ip4.dst)%nat.
  destruct (find_ifaddr_spec (e_conf w) (match_ip4 (ld32 rb (14 + Ip4.dst)) true)
    (S (Z.to_nat (addr_cnt (e_conf w)))) (addr4_pos (e_conf w))) as (r & E & _);
    [done|apply Hconf|lia|pose proof (wf_pos _ Hconf); lia|].
  assert (E' : is_my_ip4 (e_conf w) (ld32 rb (14 + Ip4.dst)) true = Done r) by exact E.
  mstep (lift_run _ _ w E'). rewrite E'. destruct (r =? UINT16_MAX); cbn [negb andb]; [done|].
  pose proof (ip4_hl_range (ld8 rb 14)) as Hhl.
  pose proof (ip_cksum_sum rb 14 Hrbb (ip4_hl (ld8 rb 14)) ltac:(lia) ltac:(lia)) as Ec.
  remember (65535 - _) as c eqn:Hc in Ec. clear Hc.
  erewrite bind_run; [|eapply on_buf_run; [solve [eauto with wc_ptr]|eassumption|exact Ec]]. cbv beta.
  rewrite Ec. destruct (c =? 0); cbn [negb andb]; [|done].
  buf_load. change (0 + eth_data 0 + Ip4.vhl)%nat with 14%nat. rewrite Z.eqb_refl. cbn [negb].
  buf_load. change (0 + eth_data 0 + Ip4.off)%nat with (14 + Ip4.off)%nat.
  destruct (_ =? 0); cbn [negb]; [|done]. by buf_load.
Qed.

(** C24: An IPv4 frame reaches the ICMP or UDP handler exactly if it is for our MAC address,
    the broadcast address or one that starts with 33:33, as those of IPv6 multicast do, has version
    4, is for one of our addresses or a broadcast, has the right header checksum and a
    fragment offset of 0.  Header options are not rejected, and neither is the first
    fragment of a packet ([first_fragment_ex]), as the flag for more fragments is not read. *)
Theorem eth_rx_ip4_correct :
  ld16 rb Eth.type = ETH_TYPE_IP4 →
  eth_rx can_alloc fuel s buf w =
    if eth_for_us (mac (e_conf w)) (ldn rb Eth.dst 6) && have_ip4 (e_conf w) && ip4_ok (e_conf w) rb
    then ip4_dispatch w else Done (false, w).
Proof.
  intros Ht. unfold eth_rx. buf_load. mstep. change (0 + Eth.dst)%nat with Eth.dst.
  destruct (eth_for_us _ _); cbn [negb andb]; [|done].
  buf_load. change (0 + Eth.type)%nat with Eth.type. rewrite Ht.
  change (ETH_TYPE_IP4 =? ETH_TYPE_IP6) with false. change (ETH_TYPE_IP4 =? ETH_TYPE_IP4) with true. cbv iota.
  destruct (have_ip4 (e_conf w)); cbn [andb]; [apply ip4_rx_run|done].
Qed.
End Filter.

(** ** Witnesses *)

(** The invariant when a socket is added. *)
Lemma net_inv_with_sock L home D qm w h s sk tbl :
  net_inv L home D qm w → h = fresh (dom (heads (e_q w))) → h ≠ IOVQ →
  net_inv L home D (<[h := []]> qm) (with_sock w h s sk tbl).
Proof.
  intros [Heng Htx Hp Hf Hm] Hh Hne. split; [by apply eng_inv_with_sock| |done| |done].
  - by eapply tx_inv_ext; [..|exact Htx].
  - intros free i v. rewrite lookup_insert_ne by done. apply Hf.
Qed.

(** A datagram from 10.0.0.2:49 to 10.0.0.1:80 with four bytes of payload. *)
Definition udp_ex : bytes :=
  [2; 0; 0; 0; 0; 1; 2; 0; 0; 0; 0; 2; 8; 0; 0x45; 0; 0; 32; 0; 1; 0; 0; 64; 17; 102; 202; 10; 0; 0; 2; 10; 0; 0; 1;
   0; 49; 0; 80; 0; 12; 77; 181; 0xde; 0xad; 0xbe; 0xef] ++ repeat 0 82.

(** The first fragment of a datagram is taken for a whole one. *)
Definition fragment_ex : bytes := take 20 udp_ex ++ [0x20; 0; 64; 17; 70; 202] ++ drop 26 udp_ex.
Example first_fragment_ex : ip4_ok ifconf_ex fragment_ex = true ∧ ld16 fragment_ex (14 + Ip4.off) = IP4_MF.
Proof. split; vm_compute; reflexivity. Qed.

Definition rx_ring_ex : netmap_ring := NetmapRing 0 2 0 0 0 [NetmapSlot 200 46 0; NetmapSlot 201 0 0].
(** The engine with the frame [b] in slot 0 of its RX ring, without and with a socket
    bound to 10.0.0.1:80. *)
Definition eng_rx_ex (b : bytes) : engine :=
  set_rxr (set_mem eng_mem_ex (<[200 := b]> (<[201 := repeat 0 128]> mem_ex))) [rx_ring_ex].
Definition eng_rx_sock_ex (b : bytes) : engine := with_sock (eng_rx_ex b) h_ex s_ex sock_ex tbl_ex.
Definition eng_udp_ex : engine := eng_rx_ex udp_ex.
Definition eng_udp_sock_ex : engine := eng_rx_sock_ex udp_ex.

Lemma eng_rx_ex_net b : net_inv 128 homes_ex eng_ex_D eng_ex_m (eng_rx_ex b).
Proof.
  destruct (eng_net_ex_inv []) as [[H1 H2 H3] Htx Hp Hf Hm]. split; [by split| |done|exact Hf|].
  - by eapply tx_inv_ext; [..|exact Htx].
  - intros i Hi. exists (repeat 0 128). split; [|split; [done|apply zeros_bytes]].
    change (e_mem (eng_rx_ex b)) with (<[200 := b]> (<[201 := repeat 0 128]> mem_ex)).
    pose proof Hi as Hi2. revert Hi2. unfold eng_ex_D. rewrite !elem_of_union, !elem_of_singleton. cbn. intros Hi2.
    rewrite !lookup_insert_ne by lia. by apply mem_ex_lookup.
Qed.

Lemma udp_ex_bytes : is_bytes udp_ex.
Proof. apply (bool_decide_unpack (Forall is_u8 udp_ex)). vm_compute. exact I. Qed.

Lemma eng_rx_ex_rx b : length b = 128%nat → is_bytes b → rx_inv 128 homes_ex (eng_rx_ex b).
Proof.
  intros Hl Hb.
  assert (Hs : ∀ k j sl, rx_slot (eng_rx_ex b) k j = Some sl →
    k = 0%nat ∧ ((j = 0%nat ∧ ns_buf_idx sl = 200) ∨ (j = 1%nat ∧ ns_buf_idx sl = 201))).
  { intros [|k] j sl; [|by destruct k]. destruct j as [|[|j]]; [..|done]; intros [= <-]; auto. }
  assert (Hi : ∀ i, i ∈ dom (e_bufs (eng_rx_ex b)) → (i < 4)%nat).
  { intros i. change (e_bufs (eng_rx_ex b)) with (e_bufs eng_ex). rewrite (ei_bufs _ _ _ eng_ex_inv).
    unfold eng_ex_D. rewrite !elem_of_union, !elem_of_singleton. lia. }
  split.
  - intros [|k] r; [|by destruct k]. intros [= <-]. by split.
  - intros k j sl (-> & Hj)%Hs. split_and!.
    + intros i ?%Hi. cbn. lia.
    + intros [|k'] j' [sl' H]; [|by destruct k']. unfold slot_at in H. cbn in H.
      apply lookup_lt_Some in H. cbn in *. lia.
    + destruct Hj as [[_ ->]|[_ ->]]; [by exists b|exists (repeat 0 128)]. split; [reflexivity|].
      split; [reflexivity|apply zeros_bytes].
  - intros k j sl k' j' sl' (-> & Hj)%Hs (-> & Hj')%Hs. lia.
  - intros i i' _ _. cbn. lia.
Qed.

Lemma eng_rx_sock_ex_net b : net_inv 128 homes_ex eng_ex_D (<[h_ex := []]> eng_ex_m) (eng_rx_sock_ex b).
Proof. apply net_inv_with_sock; [apply eng_rx_ex_net|reflexivity|discriminate]. Qed.

Lemma eng_rx_sock_ex_sock b :
  sock_inv (<[h_ex := []]> eng_ex_m) [(s_tup sock_ex, s_ex)] 1 (eng_rx_sock_ex b).
Proof. destruct (proj2 eng_sock_ex_inv) as [S1 S2 S3 S4 S5]. by split. Qed.

Lemma eng_rx_ex_sock b : sock_inv eng_ex_m [] 0 (eng_rx_ex b).
Proof. destruct eng_ex_sock_inv as [S1 S2 S3 S4 S5]. by split. Qed.

Lemma eng_rx_sock_ex_rx b : length b = 128%nat → is_bytes b → rx_inv 128 homes_ex (eng_rx_sock_ex b).
Proof. intros Hl Hb. destruct (eng_rx_ex_rx b Hl Hb) as [R1 R2 R3 R4]. by split. Qed.

#[local] Existing Instance netmap_ex.

Lemma udp_rx_correct_witness :
  ∃ w', udp_rx 5 (0, 0) (200, 0) eng_udp_sock_ex = Done (true, w') ∧
    rx_slot w' 0 0 = Some (NetmapSlot 0 46 ns_buf_changed) ∧ e_mem w' = e_mem eng_udp_sock_ex.
Proof.
  destruct (udp_info udp_ex (reinit true eng_udp_sock_ex (iov_ex 0))) as [[[[hl plen] udp] laddr] iv] eqn:Hi.
  pose proof (udp_rx_correct 5 128 homes_ex eng_ex_D (<[h_ex := []]> eng_ex_m) [(s_tup sock_ex, s_ex)] 1
    eng_udp_sock_ex 0 0 (NetmapSlot 200 46 0) udp_ex 0 [1; 2]%nat (iov_ex 0)
    (eng_rx_sock_ex_net _) (eng_rx_sock_ex_sock _) (eng_rx_sock_ex_rx udp_ex eq_refl udp_ex_bytes) ltac:(lia) eq_refl eq_refl eq_refl eq_refl
    hl plen udp laddr iv Hi 0) as H.
  vm_compute in Hi. injection Hi as <- <- <- <- <-.
  destruct H as (w' & E & Hd).
  - right. vm_compute. reflexivity.
  - exists w'. split; [exact E|]. split; [apply Hd|apply Hd].
Defined.

Lemma udp_rx_no_socket_witness :
  ∃ w', udp_rx 5 (0, 0) (200, 0) eng_udp_ex = Done (false, w') ∧ e_mem w' = e_mem eng_udp_ex.
Proof.
  destruct (udp_info udp_ex (reinit true eng_udp_ex (iov_ex 0))) as [[[[hl plen] udp] laddr] iv] eqn:Hi.
  pose proof (udp_rx_no_socket 5 128 homes_ex eng_ex_D eng_ex_m [] 0
    eng_udp_ex 0 0 (NetmapSlot 200 46 0) udp_ex 0 [1; 2]%nat (iov_ex 0)
    (eng_rx_ex_net _) (eng_rx_ex_sock _) (eng_rx_ex_rx udp_ex eq_refl udp_ex_bytes) ltac:(lia) eq_refl eq_refl eq_refl eq_refl
    hl plen udp laddr iv Hi 0) as H.
  vm_compute in Hi. injection Hi as <- <- <- <- <-.
  destruct H as (w' & E & Hd).
  - right. vm_compute. reflexivity.
  - reflexivity.
  - intros _. vm_compute. reflexivity.
  - discriminate.
  - exists w'. split; [exact E|apply Hd].
Defined.

Lemma eth_rx_ip4_correct_witness :
  eth_rx (λ _ _, true) 5 (0, 0) (200, 0) eng_udp_ex = udp_rx 5 (0, 0) (200, 0) eng_udp_ex.
Proof.
  rewrite (eth_rx_ip4_correct (λ _ _, true) 5 eng_udp_ex (0, 0) (200, 0) 200 udp_ex).
  - assert (E : eth_for_us (mac (e_conf eng_udp_ex)) (ldn udp_ex Eth.dst 6) && have_ip4 (e_conf eng_udp_ex) &&
      ip4_ok (e_conf eng_udp_ex) udp_ex = true) by (vm_compute; reflexivity).
    rewrite E. reflexivity.
  - apply ifconf_ex_wf.
  - reflexivity.
  - apply lookup_insert_eq.
  - apply Nat.leb_le. vm_compute. reflexivity.
  - apply udp_ex_bytes.
  - reflexivity.
Defined.
