(* ===== verification/Reply.v ===== *)
(** Replies about a received packet (lib/src/icmp4.c, icmp6.c, udp.c): whatever the
    buffers held before, an echo reply or an unreachable message is sent and the invariant
    of the engine kept.  Icmp and Icmp6 say what the replies contain. *)

From S2P Require Import Prelude Util Krng Queue Wire Cksum Addr Khash Engine Netmap Ip Send Sock Arp Icmp Icmp6 Rx.

(** ** What the neighbor cache learns *)

(** The entry of the cache for an address. *)
Definition cached (w : engine) (a : w_addr) (o : option bytes) : Prop := kh_find (e_neighbor w) a = Done o.

(** The entry for [a] after the cache has learned [ln], and after all of [lns]. *)
Definition learn (a : w_addr) (o : option bytes) (ln : option (w_addr * bytes)) : option bytes :=
  match ln with Some (k, mac) => if w_addr_cmp k a then Some mac else o | None => o end.
Definition learned (lns : list (option (w_addr * bytes))) (w w' : engine) : Prop :=
  ∀ a o, w_addr_wf a → cached w a o → cached w' a (foldl (learn a) o lns).

Lemma learned_nil w w' : e_neighbor w' = e_neighbor w → learned [] w w'.
Proof. intros E a o _. unfold cached. by rewrite E. Qed.
Lemma learned_none w w' : e_neighbor w' = e_neighbor w → learned [None] w w'.
Proof. apply learned_nil. Qed.
Lemma learned_app l1 l2 w1 w2 w3 : learned l1 w1 w2 → learned l2 w2 w3 → learned (l1 ++ l2) w1 w3.
Proof. intros H1 H2 a o Ha Hc. rewrite foldl_app. by apply H2, H1. Qed.

(** What a frame teaches: an ARP request or reply its sender, a neighbor solicitation for
    one of our addresses its sender, a neighbor advertisement its target.  The options of
    the last two are looked for in a slot of [slot_len] bytes. *)
Definition arp_learns (rb : bytes) : option (w_addr * bytes) :=
  if arp_valid rb && arp_request_or_reply rb
  then Some (addr4 (ld32 rb (14 + Arp.spa)), ldn rb (14 + Arp.sha) 6) else None.
Definition nd_learns (cf : ifconf) (slot_len : Z) (rb : bytes) : option (w_addr * bytes) :=
  let n := bswap16 (ld16 rb (14 + Ip6.len)) in
  let type := ld8 rb 54 in
  match payload_cksum rb 14 (40 + n), is_my_ip6 cf (ldn rb 62 16) false with
  | Done c, Done idx =>
      if (c =? 0) && ((type =? ICMP6_TYPE_NADV) || ((type =? ICMP6_TYPE_NSOL) && negb (idx =? UINT16_MAX)))
      then Some (WAddr AF_INET6 (if type =? ICMP6_TYPE_NADV then ldn rb 62 16 else ldn rb (14 + Ip6.src) 16),
                 nd_mac slot_len n rb)
      else None
  | _, _ => None
  end.

(** ** ICMPv4 *)

Section Msg4.
Context (w : engine) (i : nat) (v : w_iov) (b : bytes) (r r' : krng_t) (bi bj : Z).
Context (fuel : nat) (rb : bytes) (id : Z) (ia : w_ifaddr) (buf : bufptr).
Hypothesis Hbase : v_base v = (bi, 0).
Hypothesis Hb : is_bytes b.
Hypothesis Hbuf : buf = (bj, 0).
Hypothesis Hne : bj ≠ bi.
Hypothesis Hrb : e_mem w !! bj = Some rb.
Hypothesis Hrbb : is_bytes rb.
Hypothesis Hrbl : (82 <= length rb)%nat.
Hypothesis Hflags : v_flags v = 0.
Hypothesis Hia : ifaddr (e_conf w) !! Z.to_nat (addr4_pos (e_conf w)) = Some ia.
Hypothesis Hconf : ifconf_wf (e_conf w).
Hypothesis Hun : w_addr_wf (sa_addr (v_saddr v)).
Hypothesis Hrnd : w_rand_uniform32 fuel UINT16_MAX r = Done (id, r').

Let hl := Z.to_nat (ip4_hl (ld8 rb 14)).
(** What the buffer held. *)
Let hs := Z.to_nat (ip4_hl (ld8 b 14)).

(** The length of the payload, and where it starts in [rb]. *)
Definition icmp4_len (rb : bytes) (type : Z) : Z :=
  if type =? ICMP4_TYPE_ECHOREPLY then bswap16 (ld16 rb (14 + Ip4.len)) - (ip4_hl (ld8 rb 14) + 8)
  else ip4_hl (ld8 rb 14) + 8.
Definition icmp4_off (rb : bytes) (type : Z) : nat :=
  if type =? ICMP4_TYPE_ECHOREPLY then 14 + Z.to_nat (ip4_hl (ld8 rb 14)) + 8 else 14.

(** The packet is long enough for a reply of this type. *)
Record icmp4_fits (rb : bytes) (mtu : Z) (L : nat) (type : Z) : Prop := {
  f4_type : type = ICMP4_TYPE_ECHOREPLY ∨ type = ICMP4_TYPE_UNREACH;
  f4_len : 0 <= icmp4_len rb type;
  f4_mtu : type = ICMP4_TYPE_ECHOREPLY → bswap16 (ld16 rb (14 + Ip4.len)) <= mtu;
  f4_src : (icmp4_off rb type + Z.to_nat (icmp4_len rb type) <= length rb)%nat;
  f4_fits : 82 + icmp4_len rb type <= Z.of_nat L;
  f4_max : icmp4_len rb type <= 65507
}.

Context (type : Z).
Hypothesis Hfit : icmp4_fits rb (mtu (e_conf w)) (length b) type.
Let dl := icmp4_len rb type.

Lemma hs_bound : (hs <= 60 ∧ hl <= 60)%nat.
Proof. pose proof (ip4_hl_range (ld8 b 14)). pose proof (ip4_hl_range (ld8 rb 14)). unfold hs, hl. lia. Qed.

Lemma icmp4_payload_any b0 :
  length b0 = length b → is_bytes b0 →
  ∃ b1, icmp4_payload (padd (v_base v) (eth_data 0 + hs)) (padd buf (eth_data 0)) buf type (pkt w i v b0 r) =
      Done ((padd (padd buf (eth_data 0)) (icmp4_off rb type - 14), dl), pkt w i v b1 r) ∧
    length b1 = length b ∧ is_bytes b1.
Proof.
  intros Hl0 Hb0. destruct hs_bound as [Hhs Hhl]. destruct Hfit as [Ht H0 Hm Hsrc Hf _].
  pose proof (wf_mtu _ Hconf) as Hmtu. pose proof (bswap16_range (ld16 rb (14 + Ip4.len))) as Htot.
  fold dl in H0, Hf. unfold icmp4_payload. mstep. change (e_conf (pkt w i v b0 r)) with (e_conf w).
  do 2 buf_load. change (0 + eth_data 0 + Ip4.len)%nat with (14 + Ip4.len)%nat.
  change (0 + eth_data 0 + Ip4.vhl)%nat with 14%nat.
  destruct Ht as [-> | ->].
  - change (ICMP4_TYPE_ECHOREPLY =? ICMP4_TYPE_ECHOREPLY) with true. cbv iota.
    specialize (Hm eq_refl). unfold ip4_data_ptr. rewrite bind_assoc_run. buf_load.
    change (0 + eth_data 0)%nat with 14%nat. mstep.
    change (eth_data 0 + Z.to_nat (ip4_hl (ld8 rb 14)))%nat with (14 + hl)%nat.
    unfold stm16. buf_load. pkt_store. buf_load. pkt_store.
    eexists. split; [|split; [|exact Hb2]]; [|congruence].
    unfold mret, M_ret. do 3 f_equal.
    + unfold icmp4_off. change (ICMP4_TYPE_ECHOREPLY =? ICMP4_TYPE_ECHOREPLY) with true. cbv iota. f_equal.
      unfold Icmp.size. pose proof (ip4_hl_range (ld8 rb 14)). lia.
    + unfold dl, icmp4_len in *. change (ICMP4_TYPE_ECHOREPLY =? ICMP4_TYPE_ECHOREPLY) with true in *. cbv iota in *.
      rewrite Z.min_l by lia. rewrite u16_id; unfold Icmp.size; [lia|]. pose proof (ip4_hl_range (ld8 rb 14)). unfold_u. lia.
  - change (ICMP4_TYPE_UNREACH =? ICMP4_TYPE_ECHOREPLY) with false.
    change (ICMP4_TYPE_UNREACH =? ICMP4_TYPE_UNREACH) with true. cbv iota.
    unfold stm16. pkt_store. pkt_store.
    eexists. split; [|split; [|exact Hb2]]; [|congruence]. unfold mret, M_ret. do 3 f_equal.
    by destruct buf as [x y]; unfold padd; cbn; rewrite Z.add_0_r.
Qed.

(** The vector and its buffer after [icmp4_msg]. *)
Lemma icmp4_msg_any code :
  is_u8 code →
  ∃ v' b', icmp4_msg fuel i type code buf (pkt w i v b r) = Done (tt, pkt w i v' b' r') ∧
    (v_base v' = v_base v ∧ v_idx v' = v_idx v ∧ v_len v' = 28 + dl ∧ w_addr_wf (sa_addr (v_saddr v'))) ∧
    length b' = length b ∧ is_bytes b'.
Proof.
  intros Hcode. destruct hs_bound as [Hhs Hhl]. pose proof Hfit as [Ht H0 Hm Hsrc Hf Hdl]. fold dl in H0, Hf, Hsrc, Hdl.
  destruct (wf_mac _ Hconf) as [Hmb Hml].
  assert (Hty : is_u8 type) by (by destruct Ht as [-> | ->]).
  unfold icmp4_msg, stm8. mstep (pkt_get_iov w i v b r).
  unfold ip4_data_ptr. rewrite bind_assoc_run. buf_load. change (0 + eth_data 0)%nat with 14%nat. mstep. fold hs.
  do 2 pkt_store. destruct (icmp4_payload_any b1 ltac:(congruence) Hb1) as (b2 & Ep & Hl2 & Hb2). mstep Ep.
  assert (Hdata : length (ldn rb (icmp4_off rb type) (Z.to_nat dl)) = Z.to_nat dl) by (by apply length_ldn).
  assert (Hoff : (14 <= icmp4_off rb type)%nat) by (unfold icmp4_off; destruct (_ =? _); lia).
  unfold memcpy. rewrite bind_assoc_run. buf_load.
  replace (0 + eth_data 0 + (icmp4_off rb type - 14))%nat with (icmp4_off rb type) by wire_lia.
  pkt_store. unfold stm16. pkt_store.
  pose proof (ip_cksum_sum b4 (14 + hs) Hb4 (Z.of_nat Icmp.size + dl) ltac:(wire_lia) ltac:(wire_lia)) as Ec.
  remember (65535 - _) as c eqn:Hc in Ec. clear Hc.
  rewrite (u16_id (Z.of_nat Icmp.size + dl)) by (unfold is_u16, Icmp.size; lia).
  mstep (pkt_on_buf_at w i v b4 r bi Hbase (λ b p, ip_cksum b p (Z.of_nat Icmp.size + dl)) (14 + hs) c Ec).
  pkt_store. buf_load. change (0 + eth_data 0 + Ip4.src)%nat with (14 + Ip4.src)%nat.
  set (v1 := set_len (set_saddr v _) _).
  assert (Ev1 : v_len v1 = 8 + dl) by (unfold v1, Icmp.size; cbn; lia).
  mstep (pkt_put_iov w i v b5 r v1 eq_refl).
  assert (Hb1' : v_base v1 = (bi, 0)) by done. change (v_base v) with (v_base v1). pkt_store.
  assert (Hsrc4 : is_u32 (ld32 rb (14 + Ip4.src))) by by apply ld32_range.
  assert (Hwf1 : w_addr_wf (sa_addr (v_saddr v1))) by by apply set_ip4_wf; apply Hun.
  assert (Hsd : ip4_src_dst w v1 None = Some (ip4 (ia_addr ia), ip4 (sa_addr (v_saddr v1)))).
  { unfold ip4_src_dst. cbn [connected_sock]. by rewrite Hia. }
  destruct (mk_ip4_hdr_run w i v1 b6 r bi None Hb1' ltac:(lia) fuel id r'
    (ip4 (ia_addr ia)) (ip4 (sa_addr (v_saddr v1))) Hb6)
    as (b7 & Em & Hl7' & Hb7 & Hip & Hfr); try done.
  { unfold v1. cbn. by rewrite Hflags. }
  { apply ld32_range. pose proof (wf_ifaddr _ Hconf) as Hfa. rewrite Forall_lookup in Hfa.
    destruct (Hfa _ _ Hia) as ([_ Hu _] & _). exact Hu. }
  { by apply ld32_range, Hwf1. }
  { apply Hconf. }
  mstep Em. rewrite Ev1 in *.
  set (v2 := set_len v1 _). assert (Hb2' : v_base v2 = (bi, 0)) by done.
  buf_load. change (v_base v1) with (v_base v2). change (0 + Eth.src)%nat with Eth.src.
  assert (Hi4 : length (ldn rb Eth.src 6) = 6%nat) by (apply length_ldn; wire_lia).
  pkt_store. mstep. change (e_conf (pkt w i v2 b8 r')) with (e_conf w). pkt_store.
  erewrite pkt_stm_base; [|eassumption|wire_lia]. name_frame. exists v2, b10.
  split; [done|]. split; [|split; [congruence|done]].
  split_and!; [done|done| |exact Hwf1]. cbn. rewrite u16_id by (unfold is_u16; lia). lia.
Qed.
End Msg4.

Section Any.
Context `{NetmapLaws, !NetmapProgress}.
Context (L : nat) (home : homes) (D : gset nat) (m : queues) (fuel : nat) (w : engine).
Hypothesis Hinv : net_inv L home D m w.
Hypothesis Hfuel : fuel_ok fuel w.
Hypothesis Hconf : ifconf_wf (e_conf w).

(** What a handler does that can only send a reply: the invariant holds after it, the
    rest of the engine is as before, and memory and vectors only change for vectors of
    the free list (but for the buffers the rings give back). *)
Record replied (w' : engine) : Prop := {
  rp_inv : net_inv L home D m w';
  rp_rest : same_rest w w';
  rp_mem : ∀ x, (∀ i free, m !! IOVQ = Some free → i ∈ free → h_iov home i ≠ x) → e_mem w' !! x = e_mem w !! x;
  rp_bufs : ∀ i, (∀ free, m !! IOVQ = Some free → i ∉ free) →
    no_idx <$> (e_bufs w' !! i) = no_idx <$> (e_bufs w !! i)
}.

Lemma replied_refl : replied w.
Proof. by split. Qed.

Lemma reply_sent_replied i free b len w' :
  m !! IOVQ = Some (i :: free) → reply_sent L home D m w i b len w' → replied w'.
Proof.
  intros Hm [Q1 Q2 Q3 Q4 _]. split; [done|done| |].
  - intros x Hx. rewrite Q3, lookup_insert_ne; [done|]. eapply Hx; [exact Hm|by left].
  - intros i' Hi'. apply Q4. intros ->. by apply (Hi' (i :: free)); [|left].
Qed.

Context (bj : Z) (rb : bytes) (buf : bufptr) (ia : w_ifaddr).
Hypothesis Hbuf : buf = (bj, 0).
Hypothesis Hrb : e_mem w !! bj = Some rb.
Hypothesis Hrbb : is_bytes rb.
Hypothesis Hrbl : (82 <= length rb)%nat.
Hypothesis Hout : ∀ i, i ∈ D → h_iov home i ≠ bj.

Lemma icmp4_tx_any type code :
  ifaddr (e_conf w) !! Z.to_nat (addr4_pos (e_conf w)) = Some ia →
  is_u8 code → icmp4_fits rb (mtu (e_conf w)) L type →
  ∃ w', icmp4_tx fuel type code buf w = Done (tt, w') ∧ replied w'.
Proof.
  intros Hia Hcode Hfit. destruct (ei_iovq _ _ _ (ni_eng _ _ _ _ _ Hinv)) as [[|i free] Hm].
  { exists w. split; [|apply replied_refl]. pose proof (w_alloc_iov_base_run true D m w (ni_eng _ _ _ _ _ Hinv)) as Ea.
    rewrite Hm in Ea. unfold icmp4_tx. by mstep Ea. }
  destruct (send_run L home D m fuel w Hinv Hfuel i free Hm)
    as (q & v & b & E & Hv & Hb & Hbase & Hun & Hlen & Hbytes & Hsend).
  assert (HiD : i ∈ D) by (eapply queue_elem; [apply Hinv|done|by left]).
  destruct (ip_id_run fuel (e_rng w)) as (id & r' & Hrnd); [destruct Hfuel; lia|].
  destruct (icmp4_msg_any (set_iovs w q (e_bufs w)) i (reinit true w v) b (e_rng w) r' (h_iov home i) bj fuel rb id ia buf)
    with (type := type) (code := code) as (v' & b' & Em & (Hv1 & Hv2 & Hv3 & Hv4) & Hl' & Hb'); try done.
  { by apply not_eq_sym, Hout. }
  { by rewrite Hlen. }
  destruct (Hsend v' b' r') as (w' & Es & _ & Hs); [done|done|done|lia|done|].
  exists w'. split; [unfold icmp4_tx; mstep E; mstep Em; exact Es|]. by eapply reply_sent_replied.
Qed.

(** The lengths of an ICMPv4 message are those of a packet in a slot of [slot_len] bytes. *)
Record icmp4_in (rb : bytes) (mtu slot_len : Z) (L : nat) : Prop := {
  i4_hl : ip4_hl (ld8 rb 14) + 8 <= bswap16 (ld16 rb (14 + Ip4.len));
  i4_mtu : bswap16 (ld16 rb (14 + Ip4.len)) <= mtu;
  i4_slot : 14 + bswap16 (ld16 rb (14 + Ip4.len)) <= slot_len ∧ slot_len <= Z.of_nat (length rb) ∧ slot_len < 2 ^ 16;
  i4_fits : 74 + bswap16 (ld16 rb (14 + Ip4.len)) - ip4_hl (ld8 rb 14) <= Z.of_nat L;
  i4_max : bswap16 (ld16 rb (14 + Ip4.len)) - (ip4_hl (ld8 rb 14) + 8) <= 65507
}.

Lemma icmp4_rx_any slot_len :
  ifaddr (e_conf w) !! Z.to_nat (addr4_pos (e_conf w)) = Some ia →
  icmp4_in rb (mtu (e_conf w)) slot_len L →
  ∃ w', icmp4_rx fuel slot_len buf w = Done (tt, w') ∧ replied w'.
Proof.
  intros Hia [Q1 Q2 Q3 Q4 Q5]. pose proof (ip4_hl_range (ld8 rb 14)) as Hhl.
  pose proof (bswap16_range (ld16 rb (14 + Ip4.len))) as Htot. unfold is_u16 in Htot.
  unfold icmp4_rx, ip4_data_ptr. rewrite bind_assoc_run. buf_load. change (0 + eth_data 0)%nat with 14%nat.
  mstep. do 2 buf_load. change (0 + eth_data 0 + Ip4.vhl)%nat with 14%nat.
  change (0 + eth_data 0 + Ip4.len)%nat with (14 + Ip4.len)%nat.
  set (tot := bswap16 _) in *. set (hl := ip4_hl _) in *. change (Z.of_nat Eth.size) with 14.
  rewrite (u16_id (tot - hl)), (u64_id (slot_len - 14)), u64_id, Z.min_l, u16_id by (unfold_u; lia).
  pose proof (ip_cksum_sum rb (14 + Z.to_nat hl) Hrbb (tot - hl) ltac:(lia) ltac:(lia)) as Ec.
  remember (65535 - _) as c eqn:Hc in Ec. clear Hc. change (eth_data 0 + Z.to_nat hl)%nat with (14 + Z.to_nat hl)%nat.
  mstep (on_buf_run w (padd buf (14 + Z.to_nat hl)) bj _ rb (ptr_at_padd _ _ _ _ (ptr_at_base _ _ Hbuf)) Hrb
    (λ b p, ip_cksum b p (tot - hl)) c Ec).
  destruct (c =? 0); cbn [negb]; [|eauto using replied_refl]. buf_load.
  destruct (_ =? ICMP4_TYPE_ECHO); [|eauto using replied_refl].
  apply icmp4_tx_any; [done|done|]. unfold icmp4_len, icmp4_off.
  split; unfold icmp4_len, icmp4_off; change (ICMP4_TYPE_ECHOREPLY =? ICMP4_TYPE_ECHOREPLY) with true; cbv iota;
    fold hl tot; [by left|lia..].
Qed.

(** ** ICMPv6 and ARP, which learn addresses *)

Context (can_alloc : kh_array → Z → bool).
Hypothesis Halloc : ∀ a n, can_alloc a n = true.

Definition handled (nm : neigh_map) (B : nat) (ln : option (w_addr * bytes)) (w' : engine) : Prop :=
  ∃ w1 h B', replied w1 ∧ w' = set_neighbor w1 h ∧ (B' <= S B)%nat ∧
    match ln with
    | Some (a, mac) => w_addr_wf a ∧ kh_rep (KK := neighbor_key) h (km_update nm a mac) B'
    | None => kh_rep (KK := neighbor_key) h nm B'
    end.

Lemma replied_handled (nm : neigh_map) B w' : kh_rep (e_neighbor w) nm B → replied w' → handled nm B None w'.
Proof.
  intros Hn Hr. exists w', (e_neighbor w'), B. split_and!; [done|by destruct w'|apply Nat.le_succ_diag_r|].
  by rewrite (sr_neighbor _ _ (rp_rest _ Hr)).
Qed.

Lemma handled_learned (nm : neigh_map) B ln w' :
  kh_rep (e_neighbor w) nm B → handled nm B ln w' → learned [ln] w w'.
Proof.
  intros Hn (w1 & h & B' & _ & -> & _ & Hl) a o Ha Hc. unfold cached in *. cbn [foldl e_neighbor set_neighbor].
  rewrite (kh_find_rep (KK := neighbor_key) _ nm B a Hn Ha) in Hc. injection Hc as <-.
  destruct ln as [[k mac]|]; cbn [learn].
  - destruct Hl as [Hk Hh]. rewrite (kh_find_rep (KK := neighbor_key) _ _ B' a Hh Ha). f_equal.
    rewrite (km_find_update (KK := neighbor_key)); [done|apply Hn|done|done].
  - by rewrite (kh_find_rep (KK := neighbor_key) _ _ B' a Hl Ha).
Qed.

(** A reply, then perhaps an update of the cache. *)
Lemma handled_update (nm : neigh_map) B (learns : bool) a mac w1 :
  kh_rep (e_neighbor w) nm B → Z.of_nat B < 2 ^ 24 → w_addr_wf a → replied w1 →
  ∃ w', (if learns then neighbor_update can_alloc a mac else mret tt) w1 = Done (tt, w') ∧
    handled nm B (if learns then Some (a, mac) else None) w'.
Proof.
  intros Hn HB Ha Hr. destruct learns; [|by eauto using replied_handled].
  destruct (neighbor_update_run can_alloc nm B w1 a mac Halloc) as (h & E & Hh); try done.
  { by rewrite (sr_neighbor _ _ (rp_rest _ Hr)). }
  exists (set_neighbor w1 h). split; [done|]. by exists w1, h, (S B).
Qed.

Lemma arp_rx_any (nm : neigh_map) B :
  kh_rep (e_neighbor w) nm B → Z.of_nat B < 2 ^ 24 → (42 <= L)%nat →
  ∃ w', arp_rx can_alloc fuel buf w = Done (tt, w') ∧ handled nm B (arp_learns rb) w'.
Proof.
  intros Hn HB HL.
  destruct (find_ifaddr_spec (e_conf w) (match_ip4 (ld32 rb (14 + Arp.tpa)) false)
    (S (Z.to_nat (addr_cnt (e_conf w)))) (addr4_pos (e_conf w))) as (idx & Hmine & _);
    [done|apply Hconf|lia|pose proof (wf_pos _ Hconf); lia|].
  destruct (arp_rx_run can_alloc L home D m fuel w HL Hinv Hfuel Hconf buf bj rb idx Hbuf Hrb ltac:(lia) Hrbb Hout Hmine)
    as (known & w1 & E & -> & Hi & Hr & Hrep).
  rewrite E. unfold arp_learns. apply (handled_update nm); [done|done|apply addr4_wf|].
  unfold arp_replied in Hrep. destruct (m !! IOVQ) as [[|i free]|] eqn:Hm; [subst; apply replied_refl| |subst; apply replied_refl].
  destruct (_ && negb _); [|subst; apply replied_refl]. destruct Hrep as (b' & Hs & _). by eapply reply_sent_replied.
Qed.

Lemma icmp6_rx_any (nm : neigh_map) B n slot_len :
  kh_rep (e_neighbor w) nm B → Z.of_nat B < 2 ^ 24 → (86 <= L)%nat →
  ifaddr (e_conf w) !! 0%nat = Some ia → icmp6_in rb (mtu (e_conf w)) n →
  54 + n <= slot_len ∧ slot_len <= Z.of_nat (length rb) ∧ slot_len < 2 ^ 16 →
  ip_v (ld8 rb 14) ≠ 4 → ld8 rb (14 + Ip6.next_hdr) = IP_P_ICMP6 →
  (ld8 rb 54 = ICMP6_TYPE_NSOL ∨ ld8 rb 54 = ICMP6_TYPE_NADV → 24 <= n) → 54 + n <= Z.of_nat L →
  ∃ w', icmp6_rx can_alloc fuel slot_len buf w = Done (tt, w') ∧ handled nm B (nd_learns (e_conf w) slot_len rb) w'.
Proof.
  intros Hn HB HL Hia Hin Hslot Hv Hnh Hnd HnL. pose proof (wf_mtu _ Hconf) as Hmtu. pose proof Hin as [_ _ H8 Hm8 Hf8].
  assert (Hok : payload_ok rb 14 (40 + n)).
  { split; [done|unfold_u; lia|lia|]. rewrite (proj2 (Z.eqb_neq _ _)), Hnh by done. split; [lia|done]. }
  pose proof (payload_cksum_sum rb 14 (40 + n) Hok) as Hck. remember (65535 - _) as c eqn:Hc in Hck. clear Hc.
  destruct (find_ifaddr_spec (e_conf w) (match_ip6 (ldn rb 62 16) false) (S (Z.to_nat (addr_cnt (e_conf w)))) 0)
    as (idx & Hmine & _); [done|lia|lia|lia|].
  destruct (icmp6_rx_run can_alloc L home D m fuel w ia HL Hinv Hfuel Hconf Hia buf bj n slot_len c idx rb
    Hbuf Hrb Hin Hout Hslot Hck Hmine Hnd HnL) as (w1 & E & Hi & Hr & Hrep).
  assert (Hmine' : is_my_ip6 (e_conf w) (ldn rb 62 16) false = Done idx) by exact Hmine.
  rewrite E. unfold nd_learns. rewrite (in_len _ _ _ Hin), Hck, Hmine'.
  apply (handled_update nm); [done|done|by eapply nd_addr_wf|].
  unfold icmp6_replied in Hrep. destruct (m !! IOVQ) as [[|i free]|] eqn:Hq; [subst; apply replied_refl| |subst; apply replied_refl].
  do 2 (match type of Hrep with if ?x then _ else _ => destruct x end;
    [destruct Hrep as (b' & Hs & _); by eapply reply_sent_replied|]). subst. apply replied_refl.
Qed.
End Any.
