(* ===== verification/NicRx.v ===== *)
(** The receive loop (lib/src/backend_netmap.c, eth.c): [w_nic_rx] handles every frame of
    the RX rings in order, keeps the invariants, and appends to the queue of each socket
    exactly the datagrams for it. *)

From S2P Require Import Prelude Util Krng Queue Wire Cksum Addr Khash Engine Netmap Ip Send Sock Arp Icmp Icmp6 Rx Reply.

(** ** What a frame is *)

Inductive frame_kind := KUdp | KIcmp4 | KProto4 | KIcmp6 | KArp | KNone.

(** What [ip6_rx] requires of a packet. *)
Definition ip6_ok (cf : ifconf) (rb : bytes) : bool :=
  (ip_v (ld8 rb 14) =? 6) &&
  match is_my_ip6 cf (ldn rb (14 + Ip6.dst) 16) true with Done r => negb (r =? UINT16_MAX) | _ => false end.

(** The handler a frame reaches. *)
Definition kind4 (rb : bytes) : frame_kind :=
  if ld8 rb (14 + Ip4.p) =? IP_P_UDP then KUdp
  else if ld8 rb (14 + Ip4.p) =? IP_P_ICMP then KIcmp4 else KProto4.
Definition kind6 (rb : bytes) : frame_kind :=
  if ld8 rb (14 + Ip6.next_hdr) =? IP_P_UDP then KUdp
  else if ld8 rb (14 + Ip6.next_hdr) =? IP_P_ICMP6 then KIcmp6 else KNone.
Definition kind_of (cf : ifconf) (rb : bytes) : frame_kind :=
  if eth_for_us (mac cf) (ldn rb Eth.dst 6) then
    if ld16 rb Eth.type =? ETH_TYPE_IP6 then
      if have_ip6 cf && ip6_ok cf rb then kind6 rb else KNone
    else if ld16 rb Eth.type =? ETH_TYPE_IP4 then
      if have_ip4 cf && ip4_ok cf rb then kind4 rb else KNone
    else if ld16 rb Eth.type =? ETH_TYPE_ARP then
      if have_ip4 cf then KArp else KNone
    else KNone
  else KNone.

Section Filter6.
Context `{!Netmap} (can_alloc : kh_array → Z → bool) (fuel : nat).
Context (w : engine) (s : slotptr) (buf : bufptr) (bj : Z) (rb : bytes).
Hypothesis Hconf : ifconf_wf (e_conf w).
Hypothesis Hbuf : buf = (bj, 0).
Hypothesis Hrb : e_mem w !! bj = Some rb.
Hypothesis Hlen : (74 <= length rb)%nat.
Hypothesis Hrbb : is_bytes rb.

(** The handlers behind [eth_rx]. *)
Definition dispatch (k : frame_kind) : M engine bool :=
  match k with
  | KUdp => udp_rx fuel s buf
  | KIcmp4 => sl ← get_rx_slot s; icmp4_rx fuel (ns_len sl) buf ;; mret false
  | KProto4 => icmp4_tx fuel ICMP4_TYPE_UNREACH ICMP4_UNREACH_PROTOCOL buf ;; mret false
  | KIcmp6 => sl ← get_rx_slot s; icmp6_rx can_alloc fuel (ns_len sl) buf ;; mret false
  | KArp => arp_rx can_alloc fuel buf ;; mret false
  | KNone => mret false
  end.

Lemma ip6_rx_run :
  ip6_rx can_alloc fuel s buf w = if ip6_ok (e_conf w) rb then dispatch (kind6 rb) w else Done (false, w).
Proof.
  unfold ip6_rx, ip6_ok. buf_load. change (0 + eth_data 0 + Ip6.vfc)%nat with 14%nat.
  destruct (ip_v (ld8 rb 14) =? 6); cbn [negb andb]; [|done]. buf_load. mstep.
  change (0 + eth_data 0 + Ip6.dst)%nat with (14 + Ip6.dst)%nat.
  destruct (find_ifaddr_spec (e_conf w) (match_ip6 (ldn rb (14 + Ip6.dst) 16) true)
    (S (Z.to_nat (addr_cnt (e_conf w)))) 0) as (r & E & _); [done|lia|lia|lia|].
  assert (E' : is_my_ip6 (e_conf w) (ldn rb (14 + Ip6.dst) 16) true = Done r) by exact E.
  mstep (lift_run _ _ w E'). rewrite E'. destruct (r =? UINT16_MAX); cbn [negb andb]; [done|].
  buf_load. change (0 + eth_data 0 + Ip6.next_hdr)%nat with (14 + Ip6.next_hdr)%nat. unfold kind6.
  destruct (_ =? IP_P_UDP); [done|]. by destruct (_ =? IP_P_ICMP6).
Qed.

Lemma eth_rx_run : eth_rx can_alloc fuel s buf w = dispatch (kind_of (e_conf w) rb) w.
Proof.
  unfold eth_rx, kind_of. buf_load. mstep. change (0 + Eth.dst)%nat with Eth.dst.
  destruct (eth_for_us _ _); cbn [negb]; [|done]. buf_load. change (0 + Eth.type)%nat with Eth.type.
  destruct (_ =? ETH_TYPE_IP6).
  { destruct (have_ip6 _); cbn [andb]; [|done]. rewrite ip6_rx_run. by destruct (ip6_ok _ _). }
  destruct (_ =? ETH_TYPE_IP4).
  { destruct (have_ip4 _); cbn [andb]; [|done]. rewrite (ip4_rx_run fuel w s buf bj rb) by done.
    destruct (ip4_ok _ _); [|done]. unfold ip4_dispatch, kind4.
    destruct (_ =? IP_P_UDP); [done|]. by destruct (_ =? IP_P_ICMP). }
  destruct (_ =? ETH_TYPE_ARP); [|done]. destruct (have_ip4 _); cbn [when]; [done|]. by mstep.
Qed.
End Filter6.

(** What the class of a frame says. *)
Lemma kind_of_spec cf rb :
  match kind_of cf rb with
  | KUdp => (ip_v (ld8 rb 14) = 4 ∧ have_ip4 cf = true) ∨ (ip_v (ld8 rb 14) = 6 ∧ have_ip6 cf = true)
  | KIcmp4 | KProto4 => ip_v (ld8 rb 14) = 4 ∧ have_ip4 cf = true
  | KIcmp6 => ip_v (ld8 rb 14) = 6 ∧ have_ip6 cf = true ∧ ld8 rb (14 + Ip6.next_hdr) = IP_P_ICMP6
  | _ => True
  end.
Proof.
  unfold kind_of. destruct (eth_for_us _ _); [|done]. destruct (_ =? ETH_TYPE_IP6).
  - destruct (have_ip6 cf) eqn:H6; cbn [andb]; [|done]. unfold ip6_ok.
    destruct (Z.eqb_spec (ip_v (ld8 rb 14)) 6) as [Ev|]; cbn [andb]; [|done].
    destruct (match is_my_ip6 _ _ _ with Done _ => _ | _ => _ end); [|done]. unfold kind6.
    destruct (_ =? IP_P_UDP); [by right|]. destruct (Z.eqb_spec (ld8 rb (14 + Ip6.next_hdr)) IP_P_ICMP6); done.
  - destruct (_ =? ETH_TYPE_IP4); [|by repeat case_match].
    destruct (have_ip4 cf) eqn:H4; cbn [andb]; [|done]. unfold ip4_ok.
    destruct (Z.eqb_spec (ip_v (ld8 rb 14)) 4) as [Ev|]; cbn [andb]; [|done].
    destruct (_ && _); [|done]. unfold kind4. destruct (_ =? IP_P_UDP); [by left|]. by destruct (_ =? IP_P_ICMP).
Qed.

(** ** The datagram in a frame *)

Definition udp_v4 (rb : bytes) : bool := ip_v (ld8 rb 14) =? 4.
Definition udp_hl (rb : bytes) : Z := if udp_v4 rb then ip4_hl (ld8 rb 14) else 40.
Definition udp_plen (rb : bytes) : Z :=
  if udp_v4 rb then u16 (bswap16 (ld16 rb (14 + Ip4.len)) - ip4_hl (ld8 rb 14)) else bswap16 (ld16 rb (14 + Ip6.len)).
Definition udp_off (rb : bytes) : nat := if udp_v4 rb then (14 + Z.to_nat (ip4_hl (ld8 rb 14)))%nat else ip6_data.
Definition udp_laddr (rb : bytes) : w_addr :=
  if udp_v4 rb then addr4 (ld32 rb (14 + Ip4.dst)) else WAddr AF_INET6 (ldn rb (14 + Ip6.dst) 16).
Definition udp_raddr (rb : bytes) : w_addr :=
  if udp_v4 rb then addr4 (ld32 rb (14 + Ip4.src)) else WAddr AF_INET6 (ldn rb (14 + Ip6.src) 16).
Definition udp_flags (rb : bytes) : Z := if udp_v4 rb then ld8 rb (14 + Ip4.tos) else ip6_tos (ld32 rb 14).
Definition udp_ttl (rb : bytes) : Z := if udp_v4 rb then ld8 rb (14 + Ip4.ttl) else ld8 rb (14 + Ip6.hlim).
Definition udp_len (rb : bytes) : Z := Z.min (bswap16 (ld16 rb (udp_off rb + Udp.len))) (udp_plen rb).

Definition udp_to (rb : bytes) : w_sockaddr := WSockaddr (udp_laddr rb) (ld16 rb (udp_off rb + Udp.dport)).
Definition udp_from (rb : bytes) : w_sockaddr := WSockaddr (udp_raddr rb) (ld16 rb (udp_off rb + Udp.sport)).
Definition udp_payload (rb : bytes) : bytes := ldn rb (udp_off rb + 8) (Z.to_nat (udp_len rb - 8)).

(** The datagram is not too short and its checksum is zero or verifies. *)
Definition udp_valid (rb : bytes) : bool :=
  (8 <=? udp_plen rb) && ((ld16 rb (udp_off rb + Udp.cksum) =? 0) ||
    match payload_cksum rb 14 (u16 (udp_len rb + udp_hl rb)) with Done c => c =? 0 | _ => false end).

(** The socket a frame is delivered to. *)
Definition frame_dest (cf : ifconf) (tm : sock_map) (rb : bytes) : option nat :=
  match kind_of cf rb with
  | KUdp => if udp_valid rb then udp_dest tm (udp_to rb) (udp_from rb) else None
  | _ => None
  end.

(** What [udp_rx] reads does not depend on the vector, except for the stale bytes of the
    address behind an IPv4 address. *)
Lemma udp_info_eq rb v :
  w_addr_wf (sa_addr (v_saddr v)) → is_bytes rb → (54 <= length rb)%nat →
  ∃ iv, udp_info rb v = (udp_hl rb, udp_plen rb, udp_off rb, udp_laddr rb, iv) ∧
    w_addr_wf (sa_addr (v_saddr iv)) ∧ w_addr_cmp (sa_addr (v_saddr iv)) (udp_raddr rb) = true ∧
    v_flags iv = udp_flags rb ∧ v_ttl iv = udp_ttl rb.
Proof.
  intros [Hv1 Hv2 Hv3] Hb Hl.
  unfold udp_info, udp_hl, udp_plen, udp_off, udp_laddr, udp_raddr, udp_flags, udp_ttl, udp_v4.
  destruct (ip_v (ld8 rb 14) =? 4).
  - eexists. split; [reflexivity|]. split_and!; [by apply set_ip4_wf| |done|done].
    assert (E : ip4 (addr4 (ld32 rb (14 + Ip4.src))) = ld32 rb (14 + Ip4.src)).
    { unfold ip4, addr4. cbn [un]. fold (st32 (repeat 0 16) 0 (ld32 rb (14 + Ip4.src))).
      rewrite ld32_st32_eq by (cbn; lia). by apply u32_id, ld32_range. }
    pose proof (addr4_cmp (un (sa_addr (v_saddr v))) _ (addr4_wf (ld32 rb (14 + Ip4.src))) eq_refl Hv3) as P.
    rewrite E in P. exact P.
  - assert (Hwf : w_addr_wf (WAddr AF_INET6 (ldn rb (14 + Ip6.src) 16))).
    { split; [done|apply ldn_is_bytes, Hb|apply length_ldn; wire_lia]. }
    eexists. split; [reflexivity|]. split_and!; [exact Hwf| |done|done].
    unfold w_addr_cmp. cbn [af]. by apply bool_decide_eq_true.
Qed.

Lemma udp_raddr_wf rb : is_bytes rb → (54 <= length rb)%nat → w_addr_wf (udp_raddr rb).
Proof.
  intros Hb Hl. unfold udp_raddr. destruct (udp_v4 rb); [apply addr4_wf|].
  split; [done|apply ldn_is_bytes, Hb|apply length_ldn; wire_lia].
Qed.

Lemma w_sockaddr_cmp_refl a : w_sockaddr_cmp a a = true.
Proof.
  unfold w_sockaddr_cmp, w_addr_cmp. rewrite !Z.eqb_refl. cbn [andb]. destruct (_ =? AF_INET); [done|].
  by apply bool_decide_eq_true.
Qed.

(** ** Frames that can be handled

    The lengths in the headers are those of a packet in the slot.  (What the handlers do
    with others is the subject of the findings on missing length checks.) *)
Definition unreach_ok (cf : ifconf) (L : nat) (rb : bytes) : Prop :=
  if udp_v4 rb then icmp4_fits rb (mtu cf) L ICMP4_TYPE_UNREACH
  else icmp6_in rb (mtu cf) (bswap16 (ld16 rb (14 + Ip6.len))).
Definition frame_ok (cf : ifconf) (L : nat) (slot_len : Z) (rb : bytes) : Prop :=
  match kind_of cf rb with
  | KUdp => unreach_ok cf L rb ∧
      (8 <= udp_plen rb → 8 <= udp_len rb ∧ payload_ok rb 14 (u16 (udp_len rb + udp_hl rb)))
  | KIcmp4 => icmp4_in rb (mtu cf) slot_len L
  | KProto4 => icmp4_fits rb (mtu cf) L ICMP4_TYPE_UNREACH
  | KIcmp6 =>
      let n := bswap16 (ld16 rb (14 + Ip6.len)) in
      icmp6_in rb (mtu cf) n ∧
      (54 + n <= slot_len ∧ slot_len <= Z.of_nat (length rb) ∧ slot_len < 2 ^ 16) ∧
      (ld8 rb 54 = ICMP6_TYPE_NSOL ∨ ld8 rb 54 = ICMP6_TYPE_NADV → 24 <= n) ∧ 54 + n <= Z.of_nat L
  | KArp | KNone => True
  end.

(** What the neighbor cache learns from a frame. *)
Definition frame_learns (cf : ifconf) (rb : bytes) (ln : option (w_addr * bytes)) : Prop :=
  match kind_of cf rb with
  | KArp => ln = arp_learns rb
  | KIcmp6 => ∃ slot_len, ln = nd_learns cf slot_len rb
  | _ => ln = None
  end.

(** ** The frames of a ring *)

(** The first [d] slots from slot [c] of a ring of [n]. *)
Fixpoint pend (d : nat) (n c : Z) : list nat :=
  match d with O => [] | S d => Z.to_nat c :: pend d n (ring_next n c) end.
Definition pending_slots (r : netmap_ring) : list nat :=
  pend (Z.to_nat (ring_dist (nr_num_slots r) (nr_cur r) (nr_tail r))) (nr_num_slots r) (nr_cur r).

Lemma length_pend d n c : length (pend d n c) = d.
Proof. revert c. induction d as [|d IH]; intros c; [done|]. cbn. by rewrite IH. Qed.

Lemma pend_dist d n c j :
  0 <= c < n → Z.of_nat d <= n → j ∈ pend d n c → Z.of_nat j < n ∧ ring_dist n c (Z.of_nat j) < Z.of_nat d.
Proof.
  revert c. induction d as [|d IH]; cbn [pend]; intros c Hc Hd; [by intros ?%elem_of_nil|].
  intros [-> | Hj]%elem_of_cons.
  - rewrite Z2Nat.id by lia. split; [lia|]. unfold ring_dist. rewrite Z.leb_refl. lia.
  - assert (Hn : 0 <= ring_next n c < n) by (unfold ring_next; destruct (Z.eqb_spec (c + 1) n); lia).
    destruct (IH _ Hn ltac:(lia) Hj) as [H1 H2]. split; [done|]. ring_lia.
Qed.

Lemma pend_head d n c : 0 <= c < n → Z.of_nat d < n → Z.to_nat c ∉ pend d n (ring_next n c).
Proof.
  intros Hc Hd Hj.
  assert (Hn : 0 <= ring_next n c < n) by (unfold ring_next; destruct (Z.eqb_spec (c + 1) n); lia).
  destruct (pend_dist d n _ _ Hn ltac:(lia) Hj) as [_ H2]. rewrite Z2Nat.id in H2 by lia. ring_lia.
Qed.

(** ** Polling

    What netmap documents: the kernel appends received frames to a ring by advancing its
    tail and writes them into the buffers of the slots; it leaves the position of the
    application, the buffers of the slots and all other memory alone. *)
Record rxsync_ring (r r' : netmap_ring) : Prop := {
  rxs_ctl : nr_ringid r' = nr_ringid r ∧ nr_num_slots r' = nr_num_slots r ∧ nr_head r' = nr_head r ∧
    nr_cur r' = nr_cur r;
  rxs_tail : 0 <= nr_tail r' < nr_num_slots r;
  rxs_slots : Forall2 (λ s s', ns_buf_idx s' = ns_buf_idx s) (nr_slot r) (nr_slot r')
}.
Class NetmapPoll `{!Netmap} : Prop := {
  nm_poll_rings t ms rxr mem rxr' mem' : Forall ring_wf rxr → nm_poll t ms rxr mem = Some (rxr', mem') →
    Forall2 rxsync_ring rxr rxr';
  nm_poll_mem t ms rxr mem rxr' mem' x : Forall ring_wf rxr → nm_poll t ms rxr mem = Some (rxr', mem') →
    (∀ r sl, r ∈ rxr → sl ∈ nr_slot r → ns_buf_idx sl ≠ x) → mem' !! x = mem !! x;
  nm_poll_bytes t ms rxr mem rxr' mem' x b : Forall ring_wf rxr → nm_poll t ms rxr mem = Some (rxr', mem') →
    mem !! x = Some b → ∃ b', mem' !! x = Some b' ∧ length b' = length b ∧ (is_bytes b → is_bytes b')
}.

(** ** The state of reception *)

Section Loop.
Context `{NetmapLaws, !NetmapProgress}.
Context (can_alloc : kh_array → Z → bool).
Hypothesis Halloc : ∀ a n, can_alloc a n = true.
Context (fuel L : nat) (D : gset nat) (tm : sock_map) (B : nat) (cf : ifconf) (socks : gmap nat w_sock).
Hypothesis HL : (110 <= L)%nat.
Hypothesis Hconf : ifconf_wf cf.
Hypothesis Hia4 : have_ip4 cf = true → is_Some (ifaddr cf !! Z.to_nat (addr4_pos cf)).
Hypothesis Hia6 : have_ip6 cf = true → is_Some (ifaddr cf !! 0%nat).

(** All the invariants of an engine that receives; the neighbor cache has room for
    [n] more entries. *)
Record rx_sys (n : nat) (home : homes) (m : queues) (w : engine) : Prop := {
  xs_net : net_inv L home D m w;
  xs_sock : sock_inv m tm B w;
  xs_rx : rx_inv L home w;
  xs_fuel : fuel_ok fuel w;
  xs_conf : e_conf w = cf;
  xs_socks : e_socks w = socks;
  xs_neigh : ∃ (nm : neigh_map) Bn, kh_rep (e_neighbor w) nm Bn ∧ Z.of_nat Bn + Z.of_nat n < 2 ^ 24
}.

(** Vector [i] and its buffer are as before, but for the buffer index of a vector that
    waits for transmission. *)
Definition keeps (home home' : homes) (w w' : engine) (i : nat) : Prop :=
  h_iov home' i = h_iov home i ∧ no_idx <$> (e_bufs w' !! i) = no_idx <$> (e_bufs w !! i) ∧
  e_mem w' !! h_iov home i = e_mem w !! h_iov home i.

(** Vector [i] holds the datagram of the frame [rb] in its buffer: payload, sender, traffic
    class and TTL. *)
Definition got (home : homes) (w : engine) (i : nat) (rb : bytes) : Prop :=
  i ∈ D ∧ ∃ v b, e_bufs w !! i = Some v ∧ e_mem w !! h_iov home i = Some b ∧ fst (v_buf v) = h_iov home i ∧
  snd (v_buf v) = Z.of_nat (udp_off rb + 8) ∧
  v_base v = (h_iov home i, 0) ∧ w_addr_wf (sa_addr (v_saddr v)) ∧
    v_len v = udp_len rb - 8 ∧ ldn b (Z.to_nat (snd (v_buf v))) (Z.to_nat (v_len v)) = udp_payload rb ∧
    w_sockaddr_cmp (v_saddr v) (udp_from rb) = true ∧ v_flags v = udp_flags rb ∧ v_ttl v = udp_ttl rb.

(** Of the deliveries [dl], those to socket [s]. *)
Definition for_sock (s : nat) (dl : list (nat * bytes)) : list bytes := snd <$> filter (λ p, p.1 = s) dl.

(** From [w] to [w'] at most the RX slots [touched] changed, [t] vectors were taken from
    the free list, and the datagrams [dl] were delivered. *)
Record rx_post (touched : list (nat * nat)) (t : nat) (dl : list (nat * bytes))
    (home : homes) (m : queues) (w : engine) (home' : homes) (m' : queues) (w' : engine) : Prop := {
  pt_free : ∀ free, m !! IOVQ = Some free → m' !! IOVQ = Some (drop t free);
  pt_keep : ∀ free i, m !! IOVQ = Some free → i ∈ D → i ∉ free → keeps home home' w w' i;
  pt_slots : ∀ k j, (k, j) ∉ touched → rx_slot w' k j = rx_slot w k j ∧
    ∀ sl, rx_slot w k j = Some sl → e_mem w' !! ns_buf_idx sl = e_mem w !! ns_buf_idx sl;
  pt_queue : ∀ s sk xs, socks !! s = Some sk → m !! s_iv sk = Some xs →
    ∃ ys, m' !! s_iv sk = Some (xs ++ ys) ∧ Forall2 (got home' w') ys (for_sock s dl);
  pt_other : ∀ q, q ≠ IOVQ → (∀ s sk, socks !! s = Some sk → s_iv sk ≠ q) → m' !! q = m !! q
}.

Lemma keeps_refl home w i : keeps home home w w i.
Proof. done. Qed.
Lemma keeps_trans h1 h2 h3 w1 w2 w3 i : keeps h1 h2 w1 w2 i → keeps h2 h3 w2 w3 i → keeps h1 h3 w1 w3 i.
Proof. intros (A1 & A2 & A3) (B1 & B2 & B3). unfold keeps. rewrite A1 in *. split_and!; congruence. Qed.

Lemma got_keeps h1 h2 w1 w2 i rb : keeps h1 h2 w1 w2 i → got h1 w1 i rb → got h2 w2 i rb.
Proof.
  intros (K1 & K2 & K3) (HD & v & b & Hv & Hb & R). rewrite Hv in K2.
  destruct (e_bufs w2 !! i) as [v'|] eqn:Hv'; [|done]. injection K2 as E1 E2 E3 E4 E5 E6 E7.
  split; [done|]. exists v', b. rewrite K1, K3, E2, E3, E4, E1, E5, E6. done.
Qed.

Lemma for_sock_app s d1 d2 : for_sock s (d1 ++ d2) = for_sock s d1 ++ for_sock s d2.
Proof. unfold for_sock. by rewrite filter_app, fmap_app. Qed.

Lemma rx_post_refl home m w : rx_post [] 0 [] home m w home m w.
Proof.
  split; try done. intros s sk xs _ Hm. exists []. rewrite app_nil_r. split; [done|constructor].
Qed.

(** A vector in the queue of a socket is not free. *)
Lemma queued_not_free n home m w s sk xs free i :
  rx_sys n home m w → socks !! s = Some sk → m !! s_iv sk = Some xs → m !! IOVQ = Some free → i ∈ xs →
  i ∈ D ∧ i ∉ free.
Proof.
  intros [Hn Hs _ _ _ Hso _] Hsk Hxs Hf Hi. rewrite <- Hso in Hsk.
  destruct (si_iv _ _ _ _ Hs s sk Hsk) as [_ Hne].
  split; [by apply (queue_elem D m w (s_iv sk) xs i (ni_eng _ _ _ _ _ Hn))|]. intros Hi'.
  eapply (inv_disj D _ m (ei_q _ _ _ (ni_eng _ _ _ _ _ Hn)) (s_iv sk) IOVQ); eauto.
Qed.

Lemma rx_post_trans n touched1 touched2 t1 t2 d1 d2 h1 m1 w1 h2 m2 w2 h3 m3 w3 :
  is_Some (m1 !! IOVQ) → rx_sys n h2 m2 w2 →
  rx_post touched1 t1 d1 h1 m1 w1 h2 m2 w2 → rx_post touched2 t2 d2 h2 m2 w2 h3 m3 w3 →
  rx_post (touched1 ++ touched2) (t1 + t2) (d1 ++ d2) h1 m1 w1 h3 m3 w3.
Proof.
  intros [free1 Hf1] Hsys [A1 A2 A3 A4 A5] [B1 B2 B3 B4 B5]. pose proof (A1 free1 Hf1) as Hf2. split.
  - intros free Hf. assert (free = free1) as -> by congruence. by rewrite (B1 _ Hf2), drop_drop.
  - intros free i Hf HD Hi. assert (free = free1) as -> by congruence.
    eapply keeps_trans; [by eapply A2|]. eapply B2; [done|done|]. intros Hd. apply Hi. by eapply in_drop.
  - intros k j. rewrite not_elem_of_app. intros [Ht1 Ht2]. destruct (A3 k j Ht1) as [E1 M1]. destruct (B3 k j Ht2) as [E2 M2].
    split; [congruence|]. intros sl Hsl. rewrite (M2 sl), (M1 sl); congruence.
  - intros s sk xs Hsk Hxs. destruct (A4 s sk xs Hsk Hxs) as (y1 & E1 & F1).
    destruct (B4 s sk _ Hsk E1) as (y2 & E2 & F2). exists (y1 ++ y2). rewrite app_assoc. split; [done|].
    rewrite for_sock_app. apply Forall2_app; [|done].
    apply Forall2_same_length_lookup. split; [by eapply Forall2_length|].
    intros x i rb Hx Hrb. eapply got_keeps; [|exact (Forall2_lookup_lr _ _ _ _ _ _ F1 Hx Hrb)].
    destruct (queued_not_free n h2 m2 w2 s sk (xs ++ y1) (drop t1 free1) i Hsys Hsk E1 Hf2) as [HD Hni].
    { apply elem_of_app. right. by eapply list_elem_of_lookup_2. }
    by apply (B2 _ i Hf2).
  - intros q Hq Hs. by rewrite B5, A5.
Qed.

(** ** One frame *)

(** The invariant of the RX rings when the rings and the buffers of their slots are as
    before. *)
Lemma rx_inv_ext home w w' :
  rx_inv L home w → e_rxr w' = e_rxr w → dom (e_bufs w') = dom (e_bufs w) →
  (∀ k j, is_Some (slot_at w' k j) → is_Some (slot_at w k j)) →
  (∀ k j sl, rx_slot w k j = Some sl → e_mem w' !! ns_buf_idx sl = e_mem w !! ns_buf_idx sl) →
  rx_inv L home w'.
Proof.
  intros [R1 R2 R3 R4] E1 E2 Hs Hm. unfold rx_slot in *. split; unfold rx_slot; rewrite ?E1, ?E2; [done| |done|done].
  intros k j sl Hsl. destruct (R2 k j sl Hsl) as (N1 & N2 & N3). split_and!; [done| |by rewrite (Hm k j sl Hsl)].
  intros k' j' Hk. by apply N2, Hs.
Qed.

Lemma slot_at_shape home home' w w' k j :
  tx_inv home w → tx_inv home' w' → nr_num_slots <$> e_txr w' = nr_num_slots <$> e_txr w →
  is_Some (slot_at w' k j) → is_Some (slot_at w k j).
Proof.
  intros Ht Ht' E. unfold slot_at. apply (f_equal (.!! k)) in E. rewrite !list_lookup_fmap in E.
  destruct (e_txr w' !! k) as [r'|] eqn:Hr'; [|by intros []]. destruct (e_txr w !! k) as [r|] eqn:Hr; [|done].
  cbn in *. injection E as E. rewrite !lookup_lt_is_Some. intros Hj.
  destruct (tc_ring _ _ _ (tx_core_inv _ _ Ht) k r Hr) as [W _].
  destruct (tc_ring _ _ _ (tx_core_inv _ _ Ht') k r' Hr') as [W' _].
  pose proof (rw_slots _ W). pose proof (rw_slots _ W'). lia.
Qed.

(** A handler that sends a packet. *)
Lemma step_replied n home m w w' :
  rx_sys n home m w → replied L home D m w w' →
  rx_sys n home m w' ∧ rx_post [] 0 [] home m w home m w' ∧ e_rxr w' = e_rxr w.
Proof.
  intros [Hn Hs Hr Hf Hc Hso Hnb] [P1 P2 P3 P4].
  assert (Hdom : dom (e_bufs w') = dom (e_bufs w)).
  { by rewrite (ei_bufs _ _ _ (ni_eng _ _ _ _ _ P1)), (ei_bufs _ _ _ (ni_eng _ _ _ _ _ Hn)). }
  assert (Hslots : ∀ k j sl, rx_slot w k j = Some sl → e_mem w' !! ns_buf_idx sl = e_mem w !! ns_buf_idx sl).
  { intros k j sl Hsl. apply P3. intros i free Hm Hi. destruct (rx_slots _ _ _ Hr k j sl Hsl) as (N & _ & _). apply N.
    rewrite (ei_bufs _ _ _ (ni_eng _ _ _ _ _ Hn)). by eapply queue_elem; [apply Hn|..]. }
  assert (Er : e_rxr w' = e_rxr w) by apply P2.
  split; [split|split; [split|done]].
  - done.
  - destruct Hs as [S1 S2 S3 S4 S5]. destruct P2 as [Q1 Q2 Q3 Q4 Q5 Q6 Q7]. split; rewrite ?Q3, ?Q4; assumption.
  - apply (rx_inv_ext home w); [done|done|done| |done].
    intros k j. eapply slot_at_shape; [apply Hn|apply P1|apply P2].
  - exact (fuel_ok_rest fuel w w' P2 Hf).
  - by rewrite (sr_conf _ _ P2).
  - by rewrite (sr_socks _ _ P2).
  - by rewrite (sr_neighbor _ _ P2).
  - intros free Hm. by rewrite drop_0.
  - intros free i Hm HD Hi. split; [done|]. split.
    + apply P4. intros free' Hm'. by simplify_eq.
    + apply P3. intros i' free' Hm' Hi' E. simplify_eq. apply Hi.
      assert (i' = i) as <-; [|done]. apply (rx_homes _ _ _ Hr); [| |done].
      * rewrite (ei_bufs _ _ _ (ni_eng _ _ _ _ _ Hn)). by eapply queue_elem; [apply Hn|..].
      * by rewrite (ei_bufs _ _ _ (ni_eng _ _ _ _ _ Hn)).
  - intros k j _. split; [unfold rx_slot; by rewrite Er|exact (Hslots k j)].
  - intros s sk xs _ Hm. exists []. rewrite app_nil_r. split; [done|constructor].
  - done.
Qed.

(** A handler that sends a reply or learns an address. *)
Lemma step_handled n home m w (nm : neigh_map) Bn ln w' :
  rx_sys (S n) home m w → kh_rep (e_neighbor w) nm Bn → Z.of_nat Bn + Z.of_nat (S n) < 2 ^ 24 →
  handled L home D m w nm Bn ln w' →
  rx_sys n home m w' ∧ rx_post [] 0 [] home m w home m w' ∧ e_rxr w' = e_rxr w.
Proof.
  intros Hsys Hnm HBn (w1 & h & B' & Hrep & -> & HB' & Hh).
  destruct (step_replied (S n) home m w w1 Hsys Hrep) as ([Hn Hs Hr Hf Hc Hso _] & [A1 A2 A3 A4 A5] & Er).
  split; [|split; [by split|done]]. split; try done.
  - by apply set_neighbor_inv.
  - by destruct Hs.
  - by destruct Hr.
  - destruct ln as [[k mac]|]; [destruct Hh as [_ Hh]; exists (km_update nm k mac), B'|exists nm, B']; (split; [exact Hh|lia]).
Qed.

Lemma rx_sys_weaken n home m w : rx_sys (S n) home m w → rx_sys n home m w.
Proof. intros [? ? ? ? ? ? (nm & Bn & ? & ?)]. split; try done. exists nm, Bn. split; [done|lia]. Qed.

(** A datagram that is dropped takes its vector with it. *)
Lemma step_dropped n home m w i free v q iv' :
  rx_sys n home m w → m !! IOVQ = Some (i :: free) → e_bufs w !! i = Some v → v_idx iv' = v_idx v →
  let w' := set_iovs w q (<[i := iv']> (e_bufs w)) in
  eng_inv D (<[IOVQ := free]> m) w' →
  rx_sys n home (<[IOVQ := free]> m) w' ∧ rx_post [] 1 [] home m w home (<[IOVQ := free]> m) w'.
Proof.
  intros [Hn Hs Hr Hf Hc Hso Hne] Hm Hv Hi w' Heng.
  assert (Hdom : dom (e_bufs w') = dom (e_bufs w)).
  { unfold w'. cbn. rewrite dom_insert_L. apply elem_of_dom_2 in Hv. set_solver. }
  assert (Hin : i ∉ free).
  { apply (proj2 (head_unqueued D m w IOVQ i free (ni_eng _ _ _ _ _ Hn) Hm) IOVQ). apply lookup_insert_eq. }
  assert (Hoth : ∀ i', i' ≠ i → e_bufs w' !! i' = e_bufs w !! i') by (intros; unfold w'; cbn; by rewrite lookup_insert_ne).
  split; [split; try done|split].
  - destruct Hn as [N1 N2 N3 N4 N5]. split; [done| |done| |done].
    + apply (tx_inv_ext home w); try done. unfold w'. cbn. rewrite fmap_insert, Hi. apply insert_id. by rewrite lookup_fmap, Hv.
    + intros free' i' v'. rewrite lookup_insert_eq. intros [= <-] Hi'. rewrite Hoth by (by intros ->).
      apply (N4 (i :: free)); [done|by right].
  - destruct Hs as [S1 S2 S3 S4 S5]. split; try done. intros s sk Hsk. destruct (S4 s sk Hsk) as [E Hq].
    split; [|done]. by rewrite lookup_insert_ne.
  - apply (rx_inv_ext home w); done.
  - intros free'. rewrite Hm, lookup_insert_eq. by intros [= <-].
  - intros free' i'. rewrite Hm. intros [= <-] _ [Hne' _]%not_elem_of_cons. split; [done|]. by rewrite Hoth.
  - done.
  - intros s sk xs Hsk Hxs. rewrite <- Hso in Hsk. destruct (si_iv _ _ _ _ Hs s sk Hsk) as [_ Hq].
    exists []. rewrite app_nil_r, lookup_insert_ne by done. split; [done|constructor].
  - intros q' Hq' _. by rewrite lookup_insert_ne.
Qed.

(** The positions of a ring, which handlers leave alone. *)
Definition ring_ctl (r : netmap_ring) : Z * Z * Z * Z * Z :=
  (nr_ringid r, nr_num_slots r, nr_head r, nr_cur r, nr_tail r).
Lemma set_rx_ctl rxr k j sl : ring_ctl <$> set_rx rxr k j sl = ring_ctl <$> rxr.
Proof.
  unfold set_rx. apply list_eq. intros k'. rewrite !list_lookup_fmap.
  destruct (decide (k' = k)) as [->|]; [|by rewrite list_lookup_alter_ne].
  rewrite list_lookup_alter_eq. by destruct (rxr !! k).
Qed.

(** A datagram that is delivered to socket [ws]. *)
Lemma step_delivered n home m w k j sl rb i free v iv ws w' :
  rx_sys n home m w → rx_slot w k j = Some sl → e_mem w !! ns_buf_idx sl = Some rb →
  m !! IOVQ = Some (i :: free) → e_bufs w !! i = Some v →
  w_sockaddr_cmp (set_port (v_saddr iv) (ld16 rb (udp_off rb + Udp.sport))) (udp_from rb) = true →
  w_addr_wf (sa_addr (v_saddr iv)) → v_flags iv = udp_flags rb → v_ttl iv = udp_ttl rb → 8 <= udp_len rb <= 65535 →
  udp_delivered L home D m tm B w k j sl rb i free (udp_plen rb) (udp_off rb) iv ws w' →
  ∃ home' m', rx_sys n home' m' w' ∧ rx_post [(k, j)] 1 [(ws, rb)] home m w home' m' w' ∧
    ring_ctl <$> e_rxr w' = ring_ctl <$> e_rxr w ∧ e_neighbor w' = e_neighbor w.
Proof.
  intros [Hn Hs Hr Hf Hc Hso Hne] Hsl Hrb Hm Hv Hcmp Hawf Hfl Httl Hul
    [(sk & xs & Hsk & Hxs & Hn' & Hs') Hbufs Hslot Hr' Hmem (q & ->)].
  set (w' := set_rxr _ _) in *. exists (rehome home i (ns_buf_idx sl)), (<[s_iv sk := xs ++ [i]]> (<[IOVQ := free]> m)).
  destruct (si_iv _ _ _ _ Hs ws sk Hsk) as [_ Hq].
  assert (HiD : i ∈ D) by (eapply queue_elem; [apply Hn|exact Hm|by left]).
  assert (Hoth : ∀ i', i' ≠ i → e_bufs w' !! i' = e_bufs w !! i') by (intros; rewrite Hbufs; by rewrite lookup_insert_ne).
  split; [by split|]. split; [split|].
  - intros free'. rewrite Hm. intros [= <-]. by rewrite lookup_insert_ne, lookup_insert_eq.
  - intros free' i'. rewrite Hm. intros [= <-] _ [Hne' _]%not_elem_of_cons.
    split; [cbn; by rewrite decide_False|]. split; [by rewrite Hoth|by rewrite Hmem].
  - intros k' j' Hkj. rewrite Hslot, decide_False by set_solver. split; [done|]. intros. by rewrite Hmem.
  - intros s sk' xs' Hsk' Hxs'. rewrite <- Hso in Hsk'. destruct (si_iv _ _ _ _ Hs s sk' Hsk') as [_ Hq'].
    destruct (decide (s = ws)) as [->|Hsw].
    + simplify_eq. exists [i]. rewrite lookup_insert_eq. split; [done|].
      unfold for_sock. rewrite filter_cons_True by done. constructor; [|constructor].
      split; [done|]. eexists _, rb. rewrite Hbufs, lookup_insert_eq, Hmem. cbn [rehome h_iov].
      rewrite decide_True by done. split; [reflexivity|]. split; [done|].
      assert (El : u16 (udp_len rb - 8) = udp_len rb - 8) by (apply u16_id; unfold_u; lia).
      cbn [v_buf v_len v_saddr v_flags v_ttl set_bufs udp_iov set_saddr set_len]. fold (udp_len rb). rewrite El.
      split_and!; try done. unfold udp_payload. f_equal. cbn. lia.
    + exists []. rewrite app_nil_r. assert (s_iv sk' ≠ s_iv sk).
      { intros E. by apply Hsw, (si_inj _ _ _ _ Hs s ws sk' sk). }
      rewrite !lookup_insert_ne by done. split; [done|]. unfold for_sock.
      rewrite filter_cons_False by (cbn; congruence). constructor.
  - intros q' Hq' Hqs. rewrite !lookup_insert_ne; [done|done|]. rewrite Hso in Hsk. by apply (Hqs ws).
  - split; [apply set_rx_ctl|done].
Qed.

(** The reply to a datagram without a socket. *)
Lemma udp_unreach_any home m w bj rb iv :
  net_inv L home D m w → fuel_ok fuel w → e_conf w = cf → e_mem w !! bj = Some rb →
  is_bytes rb → length rb = L → (∀ i, i ∈ D → h_iov home i ≠ bj) →
  (udp_v4 rb = true → is_Some (ifaddr cf !! Z.to_nat (addr4_pos cf))) →
  (udp_v4 rb = false → is_Some (ifaddr cf !! 0%nat)) → unreach_ok cf L rb →
  ∃ w', udp_unreach fuel (ip_v (ld8 rb 14)) iv (bj, 0) w = Done (tt, w') ∧ replied L home D m w w'.
Proof.
  intros Hn Hf Hc Hrb Hrbb Hl Hout Ha4 Ha6 Hok. unfold udp_unreach. mstep. rewrite Hc.
  assert (Hconf' : ifconf_wf (e_conf w)) by (by rewrite Hc).
  unfold unreach_ok, udp_v4 in *. destruct (ip_v (ld8 rb 14) =? 4) eqn:E4.
  - rewrite bind_assoc_run.
    destruct (find_ifaddr_spec cf (match_ip4 (ip4 (sa_addr (v_saddr iv))) false)
      (S (Z.to_nat (addr_cnt cf))) (addr4_pos cf)) as (r & E & _); [done|apply Hconf|lia|pose proof (wf_pos _ Hconf); lia|].
    assert (E' : is_my_ip4 cf (ip4 (sa_addr (v_saddr iv))) false = Done r) by exact E.
    mstep (lift_run _ _ w E'). mstep. destruct (negb _).
    + destruct (Ha4 eq_refl) as [ia Hia].
      apply (icmp4_tx_any L home D m fuel w Hn Hf Hconf' bj rb (bj, 0) ia eq_refl Hrb Hrbb ltac:(lia) Hout);
        [by rewrite Hc|done|rewrite Hc; exact Hok].
    + apply Z.eqb_eq in E4. rewrite E4. change (4 =? 6) with false. mstep.
      exists w. split; [done|by apply replied_refl].
  - mstep. destruct (ip_v (ld8 rb 14) =? 6) eqn:E6.
    + rewrite bind_assoc_run.
      destruct (find_ifaddr_spec cf (match_ip6 (ip6 (sa_addr (v_saddr iv))) false)
        (S (Z.to_nat (addr_cnt cf))) 0) as (r & E & _); [done|lia|lia|lia|].
      assert (E' : is_my_ip6 cf (ip6 (sa_addr (v_saddr iv))) false = Done r) by exact E.
      mstep (lift_run _ _ w E'). mstep. destruct (negb _); [|exists w; split; [done|by apply replied_refl]].
      destruct (Ha6 eq_refl) as [ia Hia].
      destruct (ei_iovq _ _ _ (ni_eng _ _ _ _ _ Hn)) as [[|i free] Hm].
      { exists w. split; [|by apply replied_refl].
        pose proof (w_alloc_iov_base_run true D m w (ni_eng _ _ _ _ _ Hn)) as Ea.
        rewrite Hm in Ea. unfold icmp6_tx. by mstep Ea. }
      assert (HiD : i ∈ D) by (eapply queue_elem; [apply Hn|done|by left]).
      destruct (icmp6_unreach_sent L home D m fuel w i free ia Hn Hf Hconf' Hm ltac:(by rewrite Hc) (bj, 0) bj _ rb eq_refl
        ltac:(by apply not_eq_sym, Hout) Hrb ltac:(rewrite Hc; exact Hok) ICMP6_UNREACH_PORT HL ltac:(lia) ltac:(done))
        as (w' & b' & E2 & Hs & _).
      exists w'. split; [done|]. by eapply reply_sent_replied.
    + mstep. exists w. split; [done|by apply replied_refl].
Qed.

(** The deliveries and the vectors a frame means. *)
Definition frame_dl (rb : bytes) : list (nat * bytes) :=
  match frame_dest cf tm rb with Some s => [(s, rb)] | None => [] end.
Definition frame_taken (rb : bytes) : nat := match kind_of cf rb with KUdp => 1 | _ => 0 end.

Lemma rx_post_touch touched touched' t dl h1 m1 w1 h2 m2 w2 :
  touched ⊆ touched' → rx_post touched t dl h1 m1 w1 h2 m2 w2 → rx_post touched' t dl h1 m1 w1 h2 m2 w2.
Proof. intros Ht [A1 A2 A3 A4 A5]. split; try done. intros k' j' Hk. apply A3. set_solver. Qed.

Section Step.
Context (n : nat) (home : homes) (m : queues) (w : engine) (k j : nat) (sl : netmap_slot) (rb : bytes) (free : list nat).
Hypothesis Hsys : rx_sys (S n) home m w.
Hypothesis Hsl : rx_slot w k j = Some sl.
Hypothesis Hrb : e_mem w !! ns_buf_idx sl = Some rb.
Hypothesis Hok : frame_ok cf L (ns_len sl) rb.
Hypothesis Hfree : m !! IOVQ = Some free.
Hypothesis Hroom : (frame_taken rb <= length free)%nat.

Lemma udp_learns w' : kind_of cf rb = KUdp → e_neighbor w' = e_neighbor w → ∃ ln, frame_learns cf rb ln ∧ learned [ln] w w'.
Proof. intros Hk E. exists None. split; [unfold frame_learns; by rewrite Hk|by apply learned_none]. Qed.

(** The outcome of handling the frame. *)
Definition step_done (x : outcome (bool * engine)) : Prop :=
  ∃ home' m' w', x = Done (bool_decide (is_Some (frame_dest cf tm rb)), w') ∧ rx_sys n home' m' w' ∧
    rx_post [(k, j)] (frame_taken rb) (frame_dl rb) home m w home' m' w' ∧
    ring_ctl <$> e_rxr w' = ring_ctl <$> e_rxr w ∧ ∃ ln, frame_learns cf rb ln ∧ learned [ln] w w'.

Lemma step_rb : length rb = L ∧ is_bytes rb ∧ ∀ i, i ∈ D → h_iov home i ≠ ns_buf_idx sl.
Proof.
  destruct Hsys as [Hn _ Hr _ _ _ _]. destruct (rx_slots _ _ _ Hr k j sl Hsl) as (N1 & _ & b & Hb & ? & ?).
  simplify_eq. split_and!; [done|done|]. intros i Hi. apply N1. by rewrite (ei_bufs _ _ _ (ni_eng _ _ _ _ _ Hn)).
Qed.

(** Handlers without a datagram: they return false. *)
Lemma step_quiet x Bn (nm : neigh_map) ln :
  kind_of cf rb ≠ KUdp → frame_learns cf rb ln → kh_rep (e_neighbor w) nm Bn → Z.of_nat Bn + Z.of_nat (S n) < 2 ^ 24 →
  (∃ w', x = Done (false, w') ∧ handled L home D m w nm Bn ln w') → step_done x.
Proof.
  intros Hk Hln Hnm HB (w' & -> & Hh). destruct (step_handled n home m w nm Bn ln w' Hsys Hnm HB Hh) as (Hs & Hp & Er).
  pose proof (handled_learned L home D m w nm Bn ln w' Hnm Hh) as Hlw.
  exists home, m, w'. unfold frame_taken, frame_dl, frame_dest. destruct (kind_of cf rb) eqn:Ek; try done;
    (split; [done|split; [done|split; [|split; [by rewrite Er|by exists ln]]]]; eapply rx_post_touch; [|exact Hp]; set_solver).
Qed.

Lemma step_drop q i rest v iv' :
  free = i :: rest → kind_of cf rb = KUdp → frame_dest cf tm rb = None → e_bufs w !! i = Some v → v_idx iv' = v_idx v →
  eng_inv D (<[IOVQ := rest]> m) (set_iovs w q (<[i := iv']> (e_bufs w))) →
  rx_sys (S n) home (<[IOVQ := rest]> m) (set_iovs w q (<[i := iv']> (e_bufs w))) ∧
  step_done (Done (false, set_iovs w q (<[i := iv']> (e_bufs w)))).
Proof.
  intros Ef Hk Hd Hv Hi Heng. pose proof Hfree as Hfree'. rewrite Ef in Hfree'.
  destruct (step_dropped (S n) home m w i rest v q iv' Hsys Hfree' Hv Hi Heng) as [Hs Hp]. split; [done|].
  exists home, (<[IOVQ := rest]> m), (set_iovs w q (<[i := iv']> (e_bufs w))).
  unfold frame_taken, frame_dl. rewrite Hk, Hd. split; [done|]. split; [by apply rx_sys_weaken|].
  split; [|split; [done|by apply udp_learns]].
  eapply rx_post_touch; [|exact Hp]. set_solver.
Qed.

Lemma step_udp :
  kind_of cf rb = KUdp → unreach_ok cf L rb →
  (8 <= udp_plen rb → 8 <= udp_len rb ∧ payload_ok rb 14 (u16 (udp_len rb + udp_hl rb))) →
  (udp_v4 rb = true → is_Some (ifaddr cf !! Z.to_nat (addr4_pos cf))) →
  (udp_v4 rb = false → is_Some (ifaddr cf !! 0%nat)) →
  step_done (udp_rx fuel (Z.of_nat k, Z.of_nat j) (ns_buf_idx sl, 0) w).
Proof.
  intros Hk Hun Hlen Ha4 Ha6. destruct step_rb as (Hrl & Hrbb & Hout). pose proof Hsys as [Hn Hs Hr Hf Hc Hso (nm & Bn & Hnm & HBn)].
  assert (∃ i rest, free = i :: rest) as (i & rest & Ef).
  { pose proof Hroom as Hroom'. unfold frame_taken in Hroom'. rewrite Hk in Hroom'.
    destruct free as [|i rest]; [cbn in Hroom'; lia|by exists i, rest]. }
  pose proof Hfree as Hfree'. rewrite Ef in Hfree'.
  assert (HiD : i ∈ D) by (eapply queue_elem; [apply Hn|exact Hfree'|by left]).
  assert (is_Some (e_bufs w !! i)) as [v Hv] by (apply elem_of_dom; by rewrite (ei_bufs _ _ _ (ni_eng _ _ _ _ _ Hn))).
  destruct (ni_free _ _ _ _ _ Hn (i :: rest) i v Hfree' ltac:(by left) Hv) as (_ & _ & Hvwf).
  destruct (udp_info_eq rb (reinit true w v) Hvwf Hrbb ltac:(lia)) as (iv & Hinfo & Hiwf & Hicmp & Hifl & Hittl).
  assert (∃ c, 8 <= udp_plen rb → payload_cksum rb 14 (u16 (udp_len rb + udp_hl rb)) = Done c) as [c Hck].
  { destruct (Z_le_gt_dec 8 (udp_plen rb)) as [Hp|]; [|exists 0; lia].
    eexists. intros _. by apply payload_cksum_sum, Hlen. }
  destruct (udp_info_wf rb (reinit true w v) _ _ _ _ _ Hrbb ltac:(lia) Hvwf Hinfo) as (Hlwf & _ & Hpl & _ & _ & Hidx).
  destruct (udp_rx_run fuel L home D m tm B w k j sl rb i rest v Hn Hs Hr ltac:(lia) Hsl Hrb Hfree' Hv _ _ _ _ iv Hinfo c
    (λ Hp, or_intror (Hck Hp))) as (q & Heng & Hu & E). rewrite E; clear E.
  fold (udp_len rb). fold (udp_to rb). set (loc := udp_to rb).
  set (rem := set_port (v_saddr iv) (ld16 rb (udp_off rb + Udp.sport))).
  assert (Hrem : w_sockaddr_cmp rem (udp_from rb) = true).
  { unfold w_sockaddr_cmp, rem. cbn [sa_port sa_addr set_port udp_from]. by rewrite Z.eqb_refl. }
  assert (Hvalid : udp_valid rb =
    negb (udp_plen rb <? 8) && ((ld16 rb (udp_off rb + Udp.cksum) =? 0) || (c =? 0))).
  { unfold udp_valid. destruct (Z.ltb_spec (udp_plen rb) 8) as [|Hp]; [by rewrite (proj2 (Z.leb_gt _ _))|].
    rewrite (proj2 (Z.leb_le _ _)), (Hck Hp) by lia. done. }
  assert (Hdest : frame_dest cf tm rb = if udp_valid rb then udp_dest tm loc rem else None).
  { unfold frame_dest. rewrite Hk. destruct (udp_valid rb); [|done].
    symmetry. apply udp_dest_equal; try done; [apply (kr_wf _ _ _ (si_rep _ _ _ _ Hs))|by apply udp_raddr_wf; [|lia]|].
    apply w_sockaddr_cmp_refl. }
  rewrite Hvalid in Hdest.
  assert (Hidx' : v_idx iv = v_idx v) by exact Hidx.
  destruct (udp_plen rb <? 8) eqn:Ep; cbn [negb andb] in Hdest.
  { by apply (step_drop q i rest v iv). }
  apply Z.ltb_ge in Ep.
  destruct (_ || _); [|by apply (step_drop q i rest v)].
  set (uiv := udp_iov rb (udp_plen rb) (udp_off rb) iv).
  destruct (udp_dest tm loc rem) as [ws|] eqn:Hws.
  - destruct (udp_deliver_dest L home D m tm B w k j sl rb i rest v Hn Hs Hr ltac:(lia) Hsl Hrb Hfree' Hv
      _ _ _ _ iv Hinfo q ws Heng Hu Hws) as (w' & Ed & Hdel).
    assert (Hul : 8 <= udp_len rb <= 65535).
    { split; [by apply Hlen|]. unfold udp_len. unfold_u. lia. }
    destruct (step_delivered (S n) home m w k j sl rb i rest v iv ws w' Hsys Hsl Hrb Hfree' Hv Hrem Hiwf Hifl Hittl Hul Hdel)
      as (home' & m' & Hs' & Hp' & Hctl & Eng).
    exists home', m', w'. rewrite Hdest. unfold frame_taken, frame_dl. rewrite Hk, Hdest. mstep Ed.
    split; [done|]. split; [by apply rx_sys_weaken|]. split; [done|]. split; [done|by apply udp_learns].
  - set (w2 := set_iovs w q (<[i := uiv]> (e_bufs w))).
    destruct (step_dropped (S n) home m w i rest v q uiv Hsys Hfree' Hv Hidx' (Heng uiv)) as [Hs2 Hp2]. fold w2 in Hs2, Hp2.
    destruct (udp_unreach_any home (<[IOVQ := rest]> m) w2 (ns_buf_idx sl) rb uiv) as (w3 & E3 & Hr3); try done; try apply Hs2.
    destruct (step_handled n home (<[IOVQ := rest]> m) w2 nm Bn None w3 Hs2 Hnm HBn) as (Hs3 & Hp3 & Er3).
    { by eapply replied_handled. }
    exists home, (<[IOVQ := rest]> m), w3. unfold frame_taken, frame_dl. rewrite Hk, Hdest. fold uiv. mstep E3.
    split; [done|]. split; [done|]. split; [|split; [by rewrite Er3|apply udp_learns; [done|apply (rp_rest _ _ _ _ _ _ Hr3)]]].
    eapply rx_post_touch; [|exact (rx_post_trans _ _ _ _ _ _ _ _ _ _ _ _ _ _ _ _ (mk_is_Some _ _ Hfree') Hs2 Hp2 Hp3)].
    set_solver.
Qed.

Lemma eth_rx_step : step_done (eth_rx can_alloc fuel (Z.of_nat k, Z.of_nat j) (ns_buf_idx sl, 0) w).
Proof.
  destruct step_rb as (Hrl & Hrbb & Hout). pose proof Hsys as [Hn Hs Hr Hf Hc Hso (nm & Bn & Hnm & HBn)].
  assert (Hconf' : ifconf_wf (e_conf w)) by (by rewrite Hc). assert (HB : Z.of_nat Bn < 2 ^ 24) by lia.
  assert (Hlen : (82 <= length rb)%nat) by lia.
  rewrite (eth_rx_run can_alloc fuel w _ _ (ns_buf_idx sl) rb Hconf' eq_refl Hrb ltac:(lia) Hrbb), Hc.
  pose proof (kind_of_spec cf rb) as Hk. pose proof Hok as Hok'. unfold frame_ok in Hok'.
  assert (Hany : ∀ x w', kind_of cf rb ≠ KUdp → frame_learns cf rb None → x = Done (false, w') → replied L home D m w w' → step_done x).
  { intros x w' Hx Hln Ex Hrp. apply (step_quiet x Bn nm None Hx Hln Hnm HBn). exists w'. split; [done|]. by apply replied_handled. }
  assert (Hlf : frame_learns cf rb = match kind_of cf rb with KArp => λ ln, ln = arp_learns rb
    | KIcmp6 => λ ln, ∃ slot_len, ln = nd_learns cf slot_len rb | _ => λ ln, ln = None end).
  { unfold frame_learns. by destruct (kind_of cf rb). }
  destruct (kind_of cf rb) eqn:Ek; cbn [dispatch].
  - destruct Hok' as [Hun Hul]. apply step_udp; try done; unfold udp_v4; destruct Hk as [[Hv H4]|[Hv H6]]; rewrite Hv;
      try discriminate; auto.
  - destruct Hk as [Hv H4]. destruct (Hia4 H4) as [ia Hia].
    destruct (icmp4_rx_any L home D m fuel w Hn Hf Hconf' (ns_buf_idx sl) rb (ns_buf_idx sl, 0) ia eq_refl Hrb Hrbb Hlen Hout
      (ns_len sl)) as (w' & E & Hrp); [by rewrite Hc|by rewrite Hc|].
    eapply Hany; [done|by rewrite Hlf| |exact Hrp]. mstep (get_rx_slot_run w k j sl Hsl). by mstep E.
  - destruct Hk as [Hv H4]. destruct (Hia4 H4) as [ia Hia].
    destruct (icmp4_tx_any L home D m fuel w Hn Hf Hconf' (ns_buf_idx sl) rb (ns_buf_idx sl, 0) ia eq_refl Hrb Hrbb Hlen Hout
      ICMP4_TYPE_UNREACH ICMP4_UNREACH_PROTOCOL) as (w' & E & Hrp); [by rewrite Hc|done|by rewrite Hc|].
    eapply Hany; [done|by rewrite Hlf| |exact Hrp]. by mstep E.
  - destruct Hk as (Hv & H6 & Hnh). destruct (Hia6 H6) as [ia Hia]. destruct Hok' as (Hin & Hslot & Hnd & HnL).
    destruct (icmp6_rx_any L home D m fuel w Hn Hf Hconf' (ns_buf_idx sl) rb (ns_buf_idx sl, 0) ia eq_refl Hrb Hrbb Hlen Hout
      can_alloc Halloc nm Bn _ (ns_len sl) Hnm HB ltac:(lia) ltac:(by rewrite Hc) ltac:(rewrite Hc; exact Hin) Hslot
      ltac:(by rewrite Hv) Hnh Hnd HnL) as (w' & E & Hh).
    apply (step_quiet _ Bn nm (nd_learns cf (ns_len sl) rb)); [by rewrite Ek|rewrite Hlf; eauto|done|done|].
    exists w'. split; [|by rewrite <- Hc]. mstep (get_rx_slot_run w k j sl Hsl). by mstep E.
  - destruct (arp_rx_any L home D m fuel w Hn Hf Hconf' (ns_buf_idx sl) rb (ns_buf_idx sl, 0) eq_refl Hrb Hrbb Hlen Hout
      can_alloc Halloc nm Bn Hnm HB ltac:(lia)) as (w' & E & Hh).
    apply (step_quiet _ Bn nm (arp_learns rb)); [by rewrite Ek|by rewrite Hlf|done|done|]. exists w'. split; [|done]. by mstep E.
  - eapply Hany; [done|by rewrite Hlf|reflexivity|]. by apply replied_refl.
Qed.
End Step.

(** ** The receive loop *)

(** Slot [j] of ring [k] holds the frame [rb]. *)
Definition frame_at (w : engine) (k j : nat) (rb : bytes) : Prop :=
  ∃ sl, rx_slot w k j = Some sl ∧ e_mem w !! ns_buf_idx sl = Some rb ∧ frame_ok cf L (ns_len sl) rb.

Lemma frame_at_post touched t dl h1 m1 w1 h2 m2 w2 k j rb :
  rx_post touched t dl h1 m1 w1 h2 m2 w2 → (k, j) ∉ touched → frame_at w1 k j rb → frame_at w2 k j rb.
Proof.
  intros [_ _ Hs _] Hkj (sl & Hsl & Hm & Hok). destruct (Hs k j Hkj) as [E1 E2].
  exists sl. rewrite E1, (E2 sl Hsl). done.
Qed.

Lemma frames_at_post touched t dl h1 m1 w1 h2 m2 w2 k js fs :
  rx_post touched t dl h1 m1 w1 h2 m2 w2 → (∀ j, j ∈ js → (k, j) ∉ touched) →
  Forall2 (frame_at w1 k) js fs → Forall2 (frame_at w2 k) js fs.
Proof.
  intros Hp Ht. induction 1 as [|j rb js fs Hj _ IH]; constructor.
  - eapply frame_at_post; [done| |done]. apply Ht. by left.
  - apply IH. intros j' Hj'. apply Ht. by right.
Qed.

(** Advancing ring [k]. *)
Lemma step_advance n home m w k r c :
  rx_sys n home m w → e_rxr w !! k = Some r → 0 <= c < nr_num_slots r →
  let w' := set_rxr w (<[k := set_head_cur r c]> (e_rxr w)) in
  rx_sys n home m w' ∧ rx_post [] 0 [] home m w home m w'.
Proof.
  intros [Hn Hs Hr Hf Hc Hso Hne] Hk Hcr w'.
  assert (Hslot : ∀ k' j, rx_slot w' k' j = rx_slot w k' j).
  { intros k' j. unfold rx_slot, w'. cbn. destruct (decide (k' = k)) as [->|].
    - rewrite list_lookup_insert_eq by (by eapply lookup_lt_Some). by rewrite Hk.
    - by rewrite list_lookup_insert_ne. }
  split; [split; try done|split; try done].
  - destruct Hn as [[] Ht ? ? ?]. split; try done. by apply (tx_inv_ext home w).
  - by destruct Hs.
  - destruct Hr as [R1 R2 R3 R4]. split; [| | |done].
    + intros k' r'. unfold w'. cbn. destruct (decide (k' = k)) as [->|].
      * rewrite list_lookup_insert_eq by (by eapply lookup_lt_Some). intros [= <-]. by destruct (R1 k r Hk).
      * rewrite list_lookup_insert_ne by done. apply R1.
    + intros k' j sl'. rewrite Hslot. apply R2.
    + intros k1 j1 sl1 k2 j2 sl2. rewrite !Hslot. apply R3.
  - intros s sk xs _ Hxs. exists []. rewrite app_nil_r. split; [done|constructor].
Qed.

(** What a list of frames amounts to. *)
Definition frames_taken (fs : list bytes) : nat := sum_list_with frame_taken fs.
Definition frames_dl (fs : list bytes) : list (nat * bytes) := concat (frame_dl <$> fs).
Definition frames_rx (rx : bool) (fs : list bytes) : bool :=
  match last fs with Some rb => bool_decide (is_Some (frame_dest cf tm rb)) | None => rx end.

Lemma frames_rx_cons rx rb fs : frames_rx rx (rb :: fs) = frames_rx (bool_decide (is_Some (frame_dest cf tm rb))) fs.
Proof. unfold frames_rx. rewrite last_cons. by destruct (last fs). Qed.

Lemma get_rxr_run w k r : e_rxr w !! k = Some r → get_rxr (Z.of_nat k) w = Done (r, w).
Proof. intros Hk. unfold get_rxr. mstep. apply (lift_run _ _ w (rd_Some _ _ _ Hk)). Qed.
Lemma put_rxr_run w k r r' :
  e_rxr w !! k = Some r → put_rxr (Z.of_nat k) r' w = Done (tt, set_rxr w (<[k := r']> (e_rxr w))).
Proof.
  intros Hk. unfold put_rxr. mstep. mstep (lift_run _ _ w (wr_lt (e_rxr w) k r' (lookup_lt_Some _ _ _ Hk))). done.
Qed.

(** The cache has learned what the frames teach. *)
Definition frames_learned (fs : list bytes) (w w' : engine) : Prop :=
  ∃ lns, Forall2 (frame_learns cf) fs lns ∧ learned lns w w'.

Lemma frames_learned_nil w w' : e_neighbor w' = e_neighbor w → frames_learned [] w w'.
Proof. intros E. exists []. split; [constructor|by apply learned_nil]. Qed.
Lemma frames_learned_app f1 f2 w1 w2 w3 : frames_learned f1 w1 w2 → frames_learned f2 w2 w3 → frames_learned (f1 ++ f2) w1 w3.
Proof.
  intros (l1 & F1 & L1) (l2 & F2 & L2). exists (l1 ++ l2). split; [by apply Forall2_app|by apply (learned_app _ _ _ w2)].
Qed.

Lemma rx_ring_run k d : ∀ F n home m w r fs free rx,
  (d < F)%nat → rx_sys (n + d) home m w → e_rxr w !! k = Some r →
  Z.to_nat (ring_dist (nr_num_slots r) (nr_cur r) (nr_tail r)) = d →
  Forall2 (frame_at w k) (pend d (nr_num_slots r) (nr_cur r)) fs →
  m !! IOVQ = Some free → (frames_taken fs <= length free)%nat →
  ∃ home' m' w', rx_ring can_alloc fuel F (Z.of_nat k) rx w = Done (frames_rx rx fs, w') ∧ rx_sys n home' m' w' ∧
    rx_post (pair k <$> pend d (nr_num_slots r) (nr_cur r)) (frames_taken fs) (frames_dl fs) home m w home' m' w' ∧
    ring_ctl <$> e_rxr w' = ring_ctl <$> <[k := set_head_cur r (nr_tail r)]> (e_rxr w) ∧ frames_learned fs w w'.
Proof.
  induction d as [|d IH]; intros F n home m w r fs free rx HF Hsys Hk Hd Hfs Hfree Hroom;
    (destruct F as [|F]; [lia|]); pose proof (rx_rings_wf _ _ _ (xs_rx _ _ _ _ Hsys) k r Hk) as Hwf;
    pose proof Hwf as [W1 W2 W3 W4 W5]; cbn [rx_ring]; mstep (get_rxr_run w k r Hk); rewrite nm_ring_empty_law by done.
  - apply Forall2_nil_inv_l in Hfs as ->. assert (Ect : nr_cur r = nr_tail r) by ring_lia.
    rewrite Ect, Z.eqb_refl. exists home, m, w. split; [done|]. split; [by rewrite Nat.add_0_r in Hsys|].
    split; [apply rx_post_refl|]. split; [|by apply frames_learned_nil]. rewrite list_insert_id; [done|]. rewrite Hk. f_equal.
    destruct r; cbn in *. by subst.
  - rewrite (proj2 (Z.eqb_neq _ _)) by (intros E; ring_lia).
    cbn [pend] in Hfs. apply Forall2_cons_inv_l in Hfs as (rb & fs' & (sl & Hsl & Hrb & Hok) & Hfs & ->).
    set (j := Z.to_nat (nr_cur r)) in *. assert (Ej : nr_cur r = Z.of_nat j) by lia.
    assert (Hroom1 : (frame_taken rb + frames_taken fs' <= length free)%nat) by exact Hroom.
    assert (Hd1 : Z.of_nat d < nr_num_slots r) by ring_lia.
    rewrite Nat.add_succ_r in Hsys.
    destruct (eth_rx_step (n + d) home m w k j sl rb free Hsys Hsl Hrb Hok Hfree ltac:(lia))
      as (h1 & m1 & w1 & E1 & Hs1 & Hp1 & Hctl & ln & Hln & Hlw).
    rewrite Ej. mstep (get_rx_slot_run w k j sl Hsl). mstep E1.
    assert (∃ r1, e_rxr w1 !! k = Some r1 ∧ ring_ctl r1 = ring_ctl r) as (r1 & Hk1 & Er1).
    { apply (f_equal (.!! k)) in Hctl. rewrite !list_lookup_fmap, Hk in Hctl.
      destruct (e_rxr w1 !! k) as [r1|]; [|done]. exists r1. split; [done|]. cbn in Hctl. congruence. }
    injection Er1 as I1 I2 I3 I4 I5. mstep (get_rxr_run w1 k r1 Hk1).
    pose proof (rx_rings_wf _ _ _ (xs_rx _ _ _ _ Hs1) k r1 Hk1) as Hwf1.
    rewrite nm_ring_next_law, I4, <- Ej, I2 by (done || lia).
    set (c := ring_next (nr_num_slots r) (nr_cur r)). assert (Hc : 0 <= c < nr_num_slots r) by (unfold c; ring_lia).
    mstep (put_rxr_run w1 k r1 (set_head_cur r1 c) Hk1).
    destruct (step_advance (n + d) h1 m1 w1 k r1 c Hs1 Hk1 ltac:(lia)) as [Hs2 Hp2].
    set (w2 := set_rxr w1 _) in *.
    assert (Hk2 : e_rxr w2 !! k = Some (set_head_cur r1 c)) by (apply list_lookup_insert_eq; by eapply lookup_lt_Some).
    pose proof (rx_post_trans _ _ _ _ _ _ _ _ _ _ _ _ _ _ _ _ (mk_is_Some _ _ Hfree) Hs1 Hp1 Hp2) as Hp12.
    rewrite !app_nil_r, Nat.add_0_r in Hp12.
    destruct (IH F n h1 m1 w2 (set_head_cur r1 c) fs' (drop (frame_taken rb) free) (bool_decide (is_Some (frame_dest cf tm rb))))
      as (h3 & m3 & w3 & E3 & Hs3 & Hp3 & Hctl3 & Hl3); try done.
    + lia.
    + cbn. rewrite I2, I5. unfold c. ring_lia.
    + cbn [nr_num_slots nr_cur set_head_cur]. rewrite I2.
      eapply frames_at_post; [exact Hp12| |exact Hfs]. intros j' Hj'.
      rewrite list_elem_of_singleton. intros [= ->]. by eapply (pend_head d _ (nr_cur r)).
    + by apply (pt_free _ _ _ _ _ _ _ _ _ Hp12).
    + rewrite length_drop. lia.
    + exists h3, m3, w3. rewrite frames_rx_cons. split; [done|]. split; [done|]. split.
      * cbn [nr_num_slots nr_cur set_head_cur] in Hp3. rewrite I2 in Hp3.
        exact (rx_post_trans _ _ _ _ _ _ _ _ _ _ _ _ _ _ _ _ (mk_is_Some _ _ Hfree) Hs2 Hp12 Hp3).
      * split; [|apply (frames_learned_app [rb] fs' w w2); [exists [ln]; split; [by repeat constructor|exact Hlw]|exact Hl3]].
        rewrite Hctl3. unfold w2. cbn [e_rxr set_rxr]. rewrite list_insert_insert_eq, !list_fmap_insert, Hctl. f_equal.
        unfold ring_ctl. cbn. congruence.
Qed.

Lemma frames_rx_app rx f1 f2 : frames_rx rx (f1 ++ f2) = frames_rx (frames_rx rx f1) f2.
Proof. unfold frames_rx. rewrite last_app. by destruct (last f2). Qed.
Lemma frames_taken_app f1 f2 : frames_taken (f1 ++ f2) = (frames_taken f1 + frames_taken f2)%nat.
Proof. apply sum_list_with_app. Qed.
Lemma frames_dl_app f1 f2 : frames_dl (f1 ++ f2) = frames_dl f1 ++ frames_dl f2.
Proof. unfold frames_dl. by rewrite fmap_app, concat_app. Qed.

(** The rings from [k0] on hold the frames [fss]. *)
Definition rings_hold (w : engine) (k0 : nat) (fss : list (list bytes)) : Prop :=
  length (e_rxr w) = (k0 + length fss)%nat ∧
  ∀ t fs r, fss !! t = Some fs → e_rxr w !! (k0 + t)%nat = Some r →
    Forall2 (frame_at w (k0 + t)) (pending_slots r) fs.

Lemma pending_slots_ctl r r' : ring_ctl r = ring_ctl r' → pending_slots r = pending_slots r'.
Proof. intros [= E1 E2 E3 E4 E5]. unfold pending_slots. by rewrite E2, E4, E5. Qed.

Lemma ctl_lookup (rxr rxr' : list netmap_ring) k r' :
  ring_ctl <$> rxr' = ring_ctl <$> rxr → rxr' !! k = Some r' → ∃ r, rxr !! k = Some r ∧ ring_ctl r = ring_ctl r'.
Proof.
  intros E Hk. apply (f_equal (.!! k)) in E. rewrite !list_lookup_fmap, Hk in E.
  destruct (rxr !! k) as [r|]; [|done]. exists r. split; [done|]. cbn in E. congruence.
Qed.

Lemma rx_rings_run fss : ∀ k0 n home m w free rx,
  rx_sys (n + length (concat fss)) home m w → rings_hold w k0 fss →
  m !! IOVQ = Some free → (frames_taken (concat fss) <= length free)%nat →
  ∃ home' m' w' touched, rx_rings can_alloc fuel (length fss) (Z.of_nat k0) rx w = Done (frames_rx rx (concat fss), w') ∧
    rx_sys n home' m' w' ∧
    rx_post touched (frames_taken (concat fss)) (frames_dl (concat fss)) home m w home' m' w' ∧
    frames_learned (concat fss) w w' ∧
    (∀ k r', e_rxr w' !! k = Some r' → ((k < k0)%nat → ∃ r, e_rxr w !! k = Some r ∧ ring_ctl r = ring_ctl r') ∧
      ((k0 <= k)%nat → nr_cur r' = nr_tail r')).
Proof.
  induction fss as [|fs fss IH]; intros k0 n home m w free rx Hsys [Hlen Hfr] Hfree Hroom; cbn [length rx_rings concat].
  - exists home, m, w, []. rewrite Nat.add_0_r in Hsys. split; [done|]. split; [done|]. split; [apply rx_post_refl|].
    split; [by apply frames_learned_nil|]. intros k r' Hr'. split; [by eauto|]. apply lookup_lt_Some in Hr'. cbn in Hlen. lia.
  - cbn [concat] in *. cbn [length] in Hlen.
    assert (is_Some (e_rxr w !! k0)) as [r Hr] by (apply lookup_lt_is_Some; lia).
    pose proof (Hfr 0%nat fs r eq_refl ltac:(by rewrite Nat.add_0_r)) as Hfs. rewrite Nat.add_0_r in Hfs.
    rewrite length_app, Nat.add_comm, <- Nat.add_assoc in Hsys.
    assert (Hd : length fs = Z.to_nat (ring_dist (nr_num_slots r) (nr_cur r) (nr_tail r))).
    { rewrite <- (Forall2_length _ _ _ Hfs). apply length_pend. }
    pose proof (rx_rings_wf _ _ _ (xs_rx _ _ _ _ Hsys) k0 r Hr) as [W1 W2 W3 W4 W5].
    rewrite frames_taken_app in Hroom.
    mstep (get_rxr_run w k0 r Hr).
    destruct (rx_ring_run k0 (length fs) (S (Z.to_nat (nr_num_slots r))) (n + length (concat fss)) home m w r fs free rx)
      as (h1 & m1 & w1 & E1 & Hs1 & Hp1 & Hctl1 & Hl1); try done.
    + ring_lia.
    + by replace (n + length (concat fss) + length fs)%nat with (length fs + (length (concat fss) + n))%nat by lia.
    + by rewrite Hd.
    + lia.
    + mstep E1. replace (Z.of_nat k0 + 1) with (Z.of_nat (S k0)) by lia.
      assert (Hlen1 : length (e_rxr w1) = length (e_rxr w)).
      { apply (f_equal length) in Hctl1. by rewrite !length_fmap, length_insert in Hctl1. }
      assert (Hold : ∀ k r1, k ≠ k0 → e_rxr w1 !! k = Some r1 → ∃ r0, e_rxr w !! k = Some r0 ∧ ring_ctl r0 = ring_ctl r1).
      { intros k r1 Hk Hr1. destruct (ctl_lookup _ _ k r1 Hctl1 Hr1) as (r0 & Hr0 & E0).
        rewrite list_lookup_insert_ne in Hr0 by done. by exists r0. }
      destruct (IH (S k0) n h1 m1 w1 (drop (frames_taken fs) free) (frames_rx rx fs))
        as (h2 & m2 & w2 & touched & E2 & Hs2 & Hp2 & Hl2 & Hr2); [done| | | |].
      * split; [rewrite Hlen1; lia|]. intros t fs' r1 Ht Hr1.
        destruct (Hold (S k0 + t)%nat r1) as (r0 & Hr0 & E0); [lia|done|].
        rewrite <- (pending_slots_ctl r0 r1 E0).
        eapply frames_at_post; [exact Hp1| |].
        { intros j _ (j' & [= Hkk _] & _)%list_elem_of_fmap. lia. }
        replace (S k0 + t)%nat with (k0 + S t)%nat in * by lia. by apply Hfr.
      * by apply (pt_free _ _ _ _ _ _ _ _ _ Hp1).
      * rewrite length_drop. lia.
      * eexists h2, m2, w2, _. rewrite frames_rx_app, frames_taken_app, frames_dl_app.
        split; [exact E2|]. split; [done|].
        split; [exact (rx_post_trans _ _ _ _ _ _ _ _ _ _ _ _ _ _ _ _ (mk_is_Some _ _ Hfree) Hs1 Hp1 Hp2)|].
        split; [by apply (frames_learned_app _ _ _ w1)|]. intros k r' Hr'. destruct (Hr2 k r' Hr') as [A1 A2]. split.
        -- intros Hk. destruct A1 as (r1 & Hr1 & E); [lia|]. destruct (Hold k r1) as (r0 & Hr0 & E0); [lia|done|].
           exists r0. split; [done|congruence].
        -- intros Hk. destruct (decide (k = k0)) as [->|]; [|apply A2; lia].
           destruct A1 as (r1 & Hr1 & E); [lia|]. destruct (ctl_lookup _ _ k0 r1 Hctl1 Hr1) as (r0 & Hr0 & E0).
           rewrite list_lookup_insert_eq in Hr0 by (by eapply lookup_lt_Some). injection Hr0 as <-.
           rewrite E in E0. injection E0 as E3 E4 E5 E6 E7. cbn in E6, E7. congruence.
Qed.

(** ** [w_nic_rx] *)

Context `{!NetmapPoll}.

(** The engine after the poll. *)
Definition polled (w : engine) (rxr : list netmap_ring) (mem : gmap Z bytes) : engine :=
  set_mem (set_rxr (set_calls w (KPoll :: e_calls w)) rxr) mem.

Lemma rx_sys_poll n home m w ms rxr mem :
  rx_sys n home m w → nm_poll (e_calls w) ms (e_rxr w) (e_mem w) = Some (rxr, mem) →
  rx_sys n home m (polled w rxr mem) ∧ ∀ i, i ∈ D → keeps home home w (polled w rxr mem) i.
Proof.
  intros [Hn Hs Hr Hf Hc Hso Hne] Hpoll.
  assert (Hwf : Forall ring_wf (e_rxr w)) by (apply Forall_lookup; intros k r Hk; by apply (rx_rings_wf _ _ _ Hr k)).
  pose proof (nm_poll_rings _ _ _ _ _ _ Hwf Hpoll) as Hrings.
  pose proof (λ x, nm_poll_mem _ _ _ _ _ _ x Hwf Hpoll) as Hmem.
  pose proof (λ x b, nm_poll_bytes _ _ _ _ _ _ x b Hwf Hpoll) as Hbytes.
  set (w' := polled w rxr mem).
  assert (Hslot : ∀ k j sl', rx_slot w' k j = Some sl' → ∃ sl, rx_slot w k j = Some sl ∧ ns_buf_idx sl' = ns_buf_idx sl).
  { intros k j sl'. unfold rx_slot, w', polled. cbn. destruct (rxr !! k) as [r'|] eqn:Hk'; [|done]. cbn. intros Hj'.
    destruct (Forall2_lookup_r _ _ _ _ _ Hrings Hk') as (r & Hk & [_ _ Hsl]). rewrite Hk. cbn.
    destruct (Forall2_lookup_r _ _ _ _ _ Hsl Hj') as (sl & Hj & E). by exists sl. }
  assert (Hown : ∀ i, i ∈ D → mem !! h_iov home i = e_mem w !! h_iov home i).
  { intros i Hi. apply Hmem. intros r sl [k Hk]%list_elem_of_lookup_1 [j Hj]%list_elem_of_lookup_1 E.
    assert (Hsl : rx_slot w k j = Some sl) by (unfold rx_slot; rewrite Hk; exact Hj).
    destruct (rx_slots _ _ _ Hr k j sl Hsl) as (N & _ & _). apply (N i); [|done].
    by rewrite (ei_bufs _ _ _ (ni_eng _ _ _ _ _ Hn)). }
  split; [split; try done|].
  - destruct Hn as [[] N2 N3 N4 N5]. split; try done; [by apply (tx_inv_ext home w)|].
    intros i Hi. destruct (N5 i Hi) as (b & Hb & Hl & Hbb). exists b.
    split; [|done]. change (e_mem w') with mem. by rewrite Hown.
  - by destruct Hs.
  - destruct Hr as [R1 R2 R3 R4]. split; [| | |done].
    + intros k r' Hk'. destruct (Forall2_lookup_r _ _ _ _ _ Hrings Hk') as (r & Hk & [(E1 & E2 & E3 & E4) Ht Hsl]).
      destruct (R1 k r Hk) as [W1 W2 W3 W4 W5]. split; rewrite ?E2, ?E3, ?E4; try done.
      by rewrite <- (Forall2_length _ _ _ Hsl).
    + intros k j sl' Hsl'. destruct (Hslot k j sl' Hsl') as (sl & Hsl & ->).
      destruct (R2 k j sl Hsl) as (N1 & N2 & b & Hb & Hl & Hbb). split_and!; [done|done|].
      destruct (Hbytes _ b Hb) as (b' & Hb' & Hl' & Hbb'). exists b'. split; [done|]. split; [congruence|by apply Hbb'].
    + intros k j sl1 k' j' sl2 G1 G2 E. destruct (Hslot k j sl1 G1) as (s1 & F1 & E1).
      destruct (Hslot k' j' sl2 G2) as (s2 & F2 & E2). apply (R3 k j s1 k' j' s2); congruence.
  - intros i Hi. split; [done|]. split; [done|]. by apply Hown.
Qed.

(** A poll that returns without a timeout. *)
Lemma w_nic_rx_polled tries n home m w nsec rxr mem fss free :
  rx_sys (n + length (concat fss)) home m w →
  nm_poll (e_calls w) (poll_timeout nsec) (e_rxr w) (e_mem w) = Some (rxr, mem) →
  rings_hold (polled w rxr mem) 0 fss →
  m !! IOVQ = Some free → (frames_taken (concat fss) <= length free)%nat →
  frames_rx false (concat fss) = true ∨ nsec ≠ -1 →
  ∃ home' m' w' touched, w_nic_rx can_alloc fuel (S tries) nsec w = Done (frames_rx false (concat fss), w') ∧
    rx_sys n home' m' w' ∧
    rx_post touched (frames_taken (concat fss)) (frames_dl (concat fss)) home m (polled w rxr mem) home' m' w' ∧
    frames_learned (concat fss) w w' ∧
    (∀ i, i ∈ D → keeps home home w (polled w rxr mem) i) ∧
    ∀ k r, e_rxr w' !! k = Some r → nr_cur r = nr_tail r.
Proof.
  intros Hsys Hpoll Hhold Hfree Hroom Hret. destruct (rx_sys_poll _ home m w _ rxr mem Hsys Hpoll) as [Hsys1 Hk1].
  destruct (rx_rings_run fss 0 n home m (polled w rxr mem) free false Hsys1 Hhold Hfree Hroom)
    as (home' & m' & w' & touched & E & Hs' & Hpost & Hlearn & Hempty).
  assert (Hlen : length rxr = length fss) by (destruct Hhold as [Hl _]; exact Hl).
  exists home', m', w', touched. split_and!; [|done|done|exact Hlearn|done|].
  - cbn [w_nic_rx]. unfold syscall. rewrite !bind_assoc_run. mstep. rewrite bind_assoc_run. mstep. mstep. mstep.
    change (e_rxr (set_calls w _)) with (e_rxr w). change (e_mem (set_calls w _)) with (e_mem w). rewrite Hpoll. mstep.
    rewrite Hlen. mstep E. destruct (frames_rx false _) eqn:Erx; [done|]. cbn [negb andb].
    destruct Hret as [|Hne]; [done|]. by rewrite (proj2 (Z.eqb_neq _ _)).
  - intros k r Hk. destruct (Hempty k r Hk) as [_ He]. apply He. lia.
Qed.

Lemma w_nic_rx_timeout tries w nsec :
  nm_poll (e_calls w) (poll_timeout nsec) (e_rxr w) (e_mem w) = None →
  w_nic_rx can_alloc fuel (S tries) nsec w = Done (false, set_calls w (KPoll :: e_calls w)).
Proof.
  intros Hpoll. cbn [w_nic_rx]. unfold syscall. rewrite !bind_assoc_run. mstep. rewrite bind_assoc_run. mstep. mstep. mstep.
  change (e_rxr (set_calls w _)) with (e_rxr w). change (e_mem (set_calls w _)) with (e_mem w). by rewrite Hpoll.
Qed.

(** The poll of a [w_nic_rx] leaves the well-formed frames [fs] in the rings, there are
    vectors for all of their datagrams, and the call will return. *)
Record polls (n : nat) (home : homes) (m : queues) (w : engine) (nsec : Z) (fs : list bytes) : Prop := {
  pl_sys : rx_sys (n + length fs) home m w;
  pl_rings : ∃ rxr mem fss, nm_poll (e_calls w) (poll_timeout nsec) (e_rxr w) (e_mem w) = Some (rxr, mem) ∧
    rings_hold (polled w rxr mem) 0 fss ∧ fs = concat fss;
  pl_room : ∃ free, m !! IOVQ = Some free ∧ (frames_taken fs <= length free)%nat;
  pl_ret : frames_rx false fs = true ∨ nsec ≠ -1
}.

(** Each datagram for a socket ends up in a vector of its queue. *)
Lemma w_nic_rx_delivers tries n home m w nsec fs rb s sk xs :
  polls n home m w nsec fs → rb ∈ fs → frame_dest cf tm rb = Some s → socks !! s = Some sk → m !! s_iv sk = Some xs →
  ∃ home' m' w' ys y, w_nic_rx can_alloc fuel (S tries) nsec w = Done (frames_rx false fs, w') ∧
    rx_sys n home' m' w' ∧ m' !! s_iv sk = Some (xs ++ ys) ∧ y ∈ ys ∧ got home' w' y rb.
Proof.
  intros [Hsys (rxr & mem & fss & Hpoll & Hhold & ->) (free & Hfree & Hroom) Hret] Hrb Hd Hsk Hxs.
  destruct (w_nic_rx_polled tries n home m w nsec rxr mem fss free Hsys Hpoll Hhold Hfree Hroom Hret)
    as (home' & m' & w' & touched & E & Hs' & [_ _ _ P4 _] & _). destruct (P4 s sk xs Hsk Hxs) as (ys & Hys & Hgot).
  assert (Hin : rb ∈ for_sock s (frames_dl (concat fss))).
  { unfold for_sock. apply list_elem_of_fmap. exists (s, rb). split; [done|]. apply list_elem_of_filter. split; [done|].
unfold frames_dl. apply list_elem_of_In, in_concat. exists (frame_dl rb). rewrite <- !list_elem_of_In.
    split; [apply list_elem_of_fmap; by exists rb|]. unfold frame_dl. rewrite Hd. by left. }
  apply list_elem_of_lookup_1 in Hin as [t Ht]. destruct (Forall2_lookup_r _ _ _ _ _ Hgot Ht) as (y & Hy & Hg).
  exists home', m', w', ys, y. split; [done|]. split; [done|]. split; [done|]. split; [by eapply list_elem_of_lookup_2|done].
Qed.

(** C3: When poll returns with frames in the rings that are well formed (each length a header
    states fits the slot and what is sent because of it fits the MTU, [frame_ok]) and of
    which no more are UDP than there are free vectors, [w_nic_rx] handles all of them, in order, and
    returns with the rings empty and every invariant kept.  The queue of each socket is extended by
    exactly the valid datagrams for it, in the order of arrival and with payload, sender,
    traffic class and TTL; the neighbor cache learns what the ARP and neighbor discovery
    messages among the frames teach, in order; no other queue but the free list and no
    other vector that is not free changes.  When the timeout is -1 the last frame must be a
    datagram that was delivered, as the call polls again otherwise; every synchronisation
    of the TX rings is taken to transmit something. *)
Theorem w_nic_rx_correct tries n home m w nsec rxr mem fss free :
  rx_sys (n + length (concat fss)) home m w →
  nm_poll (e_calls w) (poll_timeout nsec) (e_rxr w) (e_mem w) = Some (rxr, mem) →
  rings_hold (polled w rxr mem) 0 fss →
  m !! IOVQ = Some free → (frames_taken (concat fss) <= length free)%nat →
  frames_rx false (concat fss) = true ∨ nsec ≠ -1 →
  ∃ home' m' w', w_nic_rx can_alloc fuel (S tries) nsec w = Done (frames_rx false (concat fss), w') ∧
    rx_sys n home' m' w' ∧
    (∀ k r, e_rxr w' !! k = Some r → nr_cur r = nr_tail r) ∧
    m' !! IOVQ = Some (drop (frames_taken (concat fss)) free) ∧
    (∀ s sk xs, socks !! s = Some sk → m !! s_iv sk = Some xs →
      ∃ ys, m' !! s_iv sk = Some (xs ++ ys) ∧ Forall2 (got home' w') ys (for_sock s (frames_dl (concat fss)))) ∧
    (∀ q, q ≠ IOVQ → (∀ s sk, socks !! s = Some sk → s_iv sk ≠ q) → m' !! q = m !! q) ∧
    frames_learned (concat fss) w w' ∧
    ∀ i, i ∈ D → i ∉ free → keeps home home' w w' i.
Proof.
  intros Hsys Hpoll Hhold Hfree Hroom Hret.
  destruct (w_nic_rx_polled tries n home m w nsec rxr mem fss free Hsys Hpoll Hhold Hfree Hroom Hret)
    as (home' & m' & w' & touched & E & Hs' & [P1 P2 P3 P4 P5] & Hlearn & Hk1 & Hempty).
  exists home', m', w'. split_and!; [done|done|done|by apply P1|exact P4|exact P5|exact Hlearn|].
  intros i Hi Hni. eapply keeps_trans; [by apply Hk1|]. by eapply P2.
Qed.
End Loop.

(** ** Witness *)

(** A kernel that receives the frame [frame] at every poll, into the next slot of the one
    RX ring there is. *)
Definition poll_ring_ex (r : netmap_ring) (sl : netmap_slot) : netmap_ring :=
  NetmapRing (nr_ringid r) (nr_num_slots r) (nr_head r) (nr_cur r) (ring_next (nr_num_slots r) (nr_tail r))
    (<[Z.to_nat (nr_tail r) := NetmapSlot (ns_buf_idx sl) 46 0]> (nr_slot r)).
Section Example.
Context (frame : bytes).
Definition poll_ex (rxr : list netmap_ring) (mem : gmap Z bytes) : option (list netmap_ring * gmap Z bytes) :=
  match rxr with
  | [r] => sl ← nr_slot r !! Z.to_nat (nr_tail r);
      if ring_next (nr_num_slots r) (nr_tail r) =? nr_cur r then None
      else Some ([poll_ring_ex r sl], alter (λ b, if decide (length b = length frame) then frame else b) (ns_buf_idx sl) mem)
  | _ => None
  end.
Definition netmap_poll_ex : Netmap := {|
  nm_ring_next r i := ring_next (nr_num_slots r) i;
  nm_ring_empty r := nr_cur r =? nr_tail r;
  nm_ring_space r := ring_dist (nr_num_slots r) (nr_cur r) (nr_tail r);
  ns_buf_changed := 1;
  ns_report := 2;
  nioctxsync _ txr := Some (complete_ring <$> txr);
  nm_poll _ _ rxr mem := poll_ex rxr mem
|}.

Lemma netmap_poll_ex_laws : @NetmapLaws netmap_poll_ex.
Proof. by split; try apply netmap_ex_laws. Qed.
Lemma netmap_poll_ex_progress : @NetmapProgress netmap_poll_ex.
Proof. split. apply netmap_ex_progress. Qed.

Lemma poll_ex_Some rxr mem rxr' mem' :
  poll_ex rxr mem = Some (rxr', mem') → ∃ r sl, rxr = [r] ∧ rxr' = [poll_ring_ex r sl] ∧
    nr_slot r !! Z.to_nat (nr_tail r) = Some sl ∧
    mem' = alter (λ b, if decide (length b = length frame) then frame else b) (ns_buf_idx sl) mem.
Proof.
  destruct rxr as [|r [|]]; [done| |done]. cbn. destruct (nr_slot r !! _) as [sl|] eqn:E; [|done].
  cbn. destruct (_ =? _); [done|]. intros [= <- <-]. by exists r, sl.
Qed.

Lemma netmap_poll_ex_poll : is_bytes frame → @NetmapPoll netmap_poll_ex.
Proof.
  intros Hframe. split; cbn [nm_poll netmap_poll_ex]; intros t ms rxr mem rxr' mem'.
  - intros Hwf (r & sl & -> & -> & Hsl & ->)%poll_ex_Some. apply Forall_singleton in Hwf as [W1 W2 W3 W4 W5].
    constructor; [|done]. split; [done|cbn; ring_lia|]. cbn [poll_ring_ex nr_slot].
    apply Forall2_same_length_lookup. split; [by rewrite length_insert|]. intros i s s' Hs.
    rewrite list_lookup_insert_Some. intros [(<- & <- & _)|[_ Hs']]; cbn; congruence.
  - intros x _ (r & sl & -> & -> & Hsl & ->)%poll_ex_Some Hx. apply lookup_alter_ne.
    apply (Hx r sl); [by left|]. by eapply list_elem_of_lookup_2.
  - intros x b _ (r & sl & -> & -> & Hsl & ->)%poll_ex_Some Hb.
    destruct (decide (ns_buf_idx sl = x)) as [<-|Hne].
    + rewrite lookup_alter_eq, Hb. cbn. eexists. split; [done|].
      by destruct (decide _) as [->|].
    + rewrite lookup_alter_ne by done. by exists b.
Qed.
End Example.

Definition netmap_rx_ex : Netmap := netmap_poll_ex udp_ex.
#[export] Instance netmap_rx_ex_laws : @NetmapLaws netmap_rx_ex := netmap_poll_ex_laws udp_ex.
#[export] Instance netmap_rx_ex_progress : @NetmapProgress netmap_rx_ex := netmap_poll_ex_progress udp_ex.
#[export] Instance netmap_rx_ex_poll : @NetmapPoll netmap_rx_ex := netmap_poll_ex_poll udp_ex udp_ex_bytes.

Lemma udp_ex_ok : frame_ok ifconf_ex 128 46 udp_ex.
Proof.
  assert (Hk : kind_of ifconf_ex udp_ex = KUdp) by (vm_compute; reflexivity).
  assert (H4 : udp_v4 udp_ex = true) by reflexivity. assert (Hl : length udp_ex = 128%nat) by reflexivity.
  unfold frame_ok. rewrite Hk. unfold unreach_ok. rewrite H4. split.
  - assert (E : icmp4_len udp_ex ICMP4_TYPE_UNREACH = 28) by (vm_compute; reflexivity).
    split; rewrite ?E; try lia; [discriminate|]. rewrite Hl. apply Nat.leb_le. vm_compute. reflexivity.
  - intros _. assert (E : udp_len udp_ex = 12 ∧ udp_hl udp_ex = 20) by (split; vm_compute; reflexivity).
    destruct E as [-> ->]. change (u16 (12 + 20)) with 32. split; [lia|]. split; [apply udp_ex_bytes|lia|rewrite Hl; lia|]. vm_compute. split; discriminate.
Qed.

(** A frame that the poll of an engine brings in. *)
Lemma polls_ex frame :
  is_bytes frame → length frame = 128%nat → frame_ok ifconf_ex 128 46 frame →
  @polls (netmap_poll_ex frame) 5 128 eng_ex_D [(s_tup sock_ex, s_ex)] 1 ifconf_ex {[s_ex := sock_ex]} 0 homes_ex
    (<[h_ex := []]> eng_ex_m) (eng_rx_sock_ex (repeat 0 128)) 0 [frame].
Proof.
  intros Hb Hl Hok. split.
  - split; [apply eng_rx_sock_ex_net|apply eng_rx_sock_ex_sock| | |reflexivity|reflexivity|].
    + apply eng_rx_sock_ex_rx; [reflexivity|apply zeros_bytes].
    + split; [lia|]. intros [|k] r; [|by destruct k]. intros [= <-]. reflexivity.
    + exists [], 0%nat. split; [apply kh_init_rep|cbn; lia].
  - exists [poll_ring_ex rx_ring_ex (NetmapSlot 200 46 0)], (<[200 := frame]> (<[201 := repeat 0 128]> mem_ex)), [[frame]].
    split; [|split; [|done]].
    + change (Some ([poll_ring_ex rx_ring_ex (NetmapSlot 200 46 0)],
          alter (λ b, if decide (length b = length frame) then frame else b) 200 (<[200 := repeat 0 128]> (<[201 := repeat 0 128]> mem_ex))) =
        Some ([poll_ring_ex rx_ring_ex (NetmapSlot 200 46 0)], <[200 := frame]> (<[201 := repeat 0 128]> mem_ex))).
      by rewrite alter_insert_eq, decide_True by (by rewrite Hl).
    + split; [done|]. intros [|t] fs r; [|by destruct t]. intros [= <-] [= <-].
      constructor; [|constructor]. exists (NetmapSlot 200 46 0). split; [reflexivity|]. split; [apply lookup_insert_eq|done].
  - exists [0; 1; 2]%nat. split; [reflexivity|]. unfold frames_taken, frame_taken. cbn [sum_list_with].
    destruct (kind_of _ _); cbn [length]; lia.
  - right. discriminate.
Qed.

Lemma w_nic_rx_correct_witness :
  ∃ home' (m' : queues) w' i, @w_nic_rx netmap_rx_ex (λ _ _, true) 5 1 0 (eng_rx_sock_ex (repeat 0 128)) = Done (true, w') ∧
    m' !! h_ex = Some [i] ∧ got eng_ex_D home' w' i udp_ex.
Proof.
  assert (Hdl : frames_dl [(s_tup sock_ex, s_ex)] ifconf_ex (concat [[udp_ex]]) = [(s_ex, udp_ex)]) by (vm_compute; reflexivity).
  assert (Hrx : frames_rx [(s_tup sock_ex, s_ex)] ifconf_ex false (concat [[udp_ex]]) = true) by (vm_compute; reflexivity).
  destruct (@w_nic_rx_correct netmap_rx_ex _ _ (λ _ _, true) (λ _ _, eq_refl) 5 128 eng_ex_D [(s_tup sock_ex, s_ex)] 1
    ifconf_ex {[s_ex := sock_ex]} ltac:(lia) ifconf_ex_wf ltac:(by eexists) ltac:(by eexists) _ 0 0 homes_ex
    (<[h_ex := []]> eng_ex_m) (eng_rx_sock_ex (repeat 0 128)) 0 [poll_ring_ex rx_ring_ex (NetmapSlot 200 46 0)]
    (<[200 := udp_ex]> (<[201 := repeat 0 128]> mem_ex)) [[udp_ex]] [0; 1; 2]%nat)
    as (home' & m' & w' & E & _ & _ & _ & Hq & _).
  - split; [apply eng_rx_sock_ex_net|apply eng_rx_sock_ex_sock| | |reflexivity|reflexivity|].
    + apply eng_rx_sock_ex_rx; [reflexivity|apply zeros_bytes].
    + split; [lia|]. intros [|k] r; [|by destruct k]. intros [= <-]. reflexivity.
    + exists [], 0%nat. split; [apply kh_init_rep|cbn; lia].
  - unfold eng_rx_sock_ex, eng_rx_ex. cbn. do 2 f_equal.
  - split; [done|]. intros [|t] fs r; [|by destruct t]. intros [= <-] [= <-].
    constructor; [|constructor]. exists (NetmapSlot 200 46 0). split; [reflexivity|]. split; [apply lookup_insert_eq|].
    apply udp_ex_ok.
  - reflexivity.
  - apply Nat.leb_le. vm_compute. reflexivity.
  - right. discriminate.
  - destruct (Hq s_ex sock_ex [] ltac:(apply lookup_singleton_eq) ltac:(apply lookup_insert_eq)) as (ys & Hys & Hgot).
    rewrite Hrx in E. rewrite Hdl in Hgot. unfold for_sock in Hgot. rewrite filter_cons_True in Hgot by done. cbn in Hgot.
    apply Forall2_cons_inv_r in Hgot as (i & ys' & Hi & ->%Forall2_nil_inv_r & ->).
    exists home', m', w', i. split; [exact E|]. by split.
Defined.
