(* ===== verification/Connect.v ===== *)
(** Connecting a socket (lib/src/backend_netmap.c, lib/src/warpcore.c):
    [backend_connect], which resolves the peer's MAC address and looks for a free
    local port, and [w_connect]. *)

From S2P Require Import Prelude Util Krng Queue Wire Addr Khash Engine Netmap Ip Sock Arp Icmp Rx.

Section Connect.
Context `{!Netmap}.
Context (can_alloc : kh_array → Z → bool).
(** Fuel of the loops of the random number generator and of the transmission, and
    the number of queries for an address. *)
Context (fuel tries : nat).

(** The loop over [n] that looks for a free four-tuple; the value of [n] after it. *)
Fixpoint reroll_port (k : nat) (s : nat) (n : Z) : M engine Z :=
  match k with
  | O => no_fuel
  | S k =>
      if n =? 0 then mret (u8 (n - 1))
      else
        sk ← get_sock s;
        o ← w_get_sock (ws_loc sk) (Some (ws_rem sk));
        match o with
        | None => mret (u8 (n - 1))
        | Some _ =>
            port ← liftr (pick_local_port fuel); put_sock s (set_lport sk port) ;;
            reroll_port k s (u8 (n - 1))
        end
  end.

Definition backend_connect (s : nat) : M engine Z :=
  sk ← get_sock s;
  mac ← who_has can_alloc fuel tries (sa_addr (ws_rem sk));
  sk ← get_sock s; put_sock s (set_dmac sk mac) ;;
  n ← reroll_port 201 s 200;
  when (negb (n =? 0)) (ins_sock can_alloc s) ;;
  mret (if n =? 0 then 1 else 0).

(** errno.h *)
Definition EADDRINUSE : Z := 98.
Definition EAFNOSUPPORT : Z := 97.

Definition sockaddr_port (sa : sockaddr) : Z :=
  match sa with SockaddrIn p _ => p | SockaddrIn6 p _ _ _ => p | SockaddrOther _ => 0 end.

Definition w_connect (s : nat) (peer : sockaddr) : M engine Z :=
  sk ← get_sock s;
  if w_connected sk then mret EADDRINUSE else
  backend_preconnect s ;;
  let '(ok, ra) := w_to_waddr (sa_addr (ws_rem sk)) peer in
  e ← (if negb ok then mret EAFNOSUPPORT
       else
         put_sock s (set_rem sk (WSockaddr ra (sockaddr_port peer))) ;;
         backend_connect s);
  when (negb (e =? 0)) (sk ← get_sock s; put_sock s (set_rem sk zero_sockaddr)) ;;
  mret e.
End Connect.

(** * Theorems *)

(** The local ports that are tried, in order: the first is the one the socket has. *)
Fixpoint nth_port (fuel : nat) (p : Z) (r : krng_t) (j : nat) : outcome (Z * krng_t) :=
  match j with
  | O => Done (p, r)
  | S j => '(p, r) ← pick_local_port fuel r; nth_port fuel p r j
  end.

(** The engine with the table [tbl] and the socket [s] being [sk]. *)
Definition conn (w : engine) (s : nat) (tbl : khash w_socktuple nat) (sk : w_sock) (r : krng_t) : engine :=
  set_rng (set_socks w tbl (<[s := sk]> (e_socks w))) r.

Lemma conn_intro w s tbl sk :
  e_socks w !! s = Some sk → set_socks w tbl (e_socks w) = conn w s tbl sk (e_rng w).
Proof. intros H. unfold conn. rewrite insert_id by done. by destruct w. Qed.

Section Conn.
Context (w : engine) (s : nat) (tbl : khash w_socktuple nat) (sk : w_sock) (r : krng_t).

Lemma conn_get : get_sock s (conn w s tbl sk r) = Done (sk, conn w s tbl sk r).
Proof. apply get_sock_run. apply lookup_insert_eq. Qed.
Lemma conn_put sk' : put_sock s sk' (conn w s tbl sk r) = Done (tt, conn w s tbl sk' r).
Proof. unfold put_sock, conn. cbn. by rewrite insert_insert_eq. Qed.
Lemma conn_liftr {A} (m : M krng_t A) a r' :
  m r = Done (a, r') → liftr m (conn w s tbl sk r) = Done (a, conn w s tbl sk r').
Proof. intros H. unfold liftr, conn. cbn. by rewrite H. Qed.
Lemma conn_socks sk' : e_socks (conn w s tbl sk' r) = <[s := sk']> (e_socks w).
Proof. done. Qed.
End Conn.

(** ** Looking for a free port *)

Section Reroll.
Context (fuel : nat) (w : engine) (s : nat) (tbl : khash w_socktuple nat) (sk : w_sock).
Context (tm : sock_map) (B : nat).
Hypothesis Hrep : kh_rep tbl tm B.
Hypothesis Hl : w_addr_wf (sa_addr (ws_loc sk)).
Hypothesis Hr : w_addr_wf (sa_addr (ws_rem sk)).

(** The socket of the table with local port [p] that is connected to the same peer. *)
Definition port_user (p : Z) : option nat :=
  km_find tm (query_tuple (WSockaddr (sa_addr (ws_loc sk)) p) (Some (ws_rem sk))).

Lemma reroll_port_run : ∀ j k n p r p' r',
  nth_port fuel p r j = Done (p', r') → (j < k)%nat → Z.of_nat j <= n <= 255 →
  (∀ i pi ri, (i < j)%nat → nth_port fuel p r i = Done (pi, ri) → is_Some (port_user pi)) →
  port_user p' = None →
  reroll_port fuel k s n (conn w s tbl (set_lport sk p) r) =
    Done (u8 (n - 1 - Z.of_nat j), conn w s tbl (set_lport sk p') r').
Proof.
  induction j as [|j IH]; intros [|k] n p r p' r' Hp Hk Hn Htaken Hfree; try lia; cbn [reroll_port].
  - injection Hp as <- <-. rewrite Z.sub_0_r. destruct (Z.eqb_spec n 0) as [->|]; [done|].
    mstep (conn_get w s tbl (set_lport sk p) r).
    mstep (w_get_sock_run tm B (conn w s tbl (set_lport sk p) r) (WSockaddr (sa_addr (ws_loc sk)) p)
      (Some (ws_rem sk)) Hrep Hl Hr).
    change (km_find tm _) with (port_user p). rewrite Hfree. done.
  - rewrite (proj2 (Z.eqb_neq _ _)) by lia. mstep (conn_get w s tbl (set_lport sk p) r).
    mstep (w_get_sock_run tm B (conn w s tbl (set_lport sk p) r) (WSockaddr (sa_addr (ws_loc sk)) p)
      (Some (ws_rem sk)) Hrep Hl Hr).
    change (km_find tm _) with (port_user p).
    destruct (Htaken 0%nat p r ltac:(lia) eq_refl) as [s' ->].
    cbn [nth_port] in Hp. destruct (pick_local_port fuel r) as [[p1 r1]| | |] eqn:Ep; try discriminate Hp.
    mstep (conn_liftr w s tbl (set_lport sk p) r _ _ _ Ep). mstep (conn_put w s tbl (set_lport sk p) r1 (set_lport sk p1)).
    replace (n - 1 - Z.of_nat (S j)) with (u8 (n - 1) - 1 - Z.of_nat j) by (rewrite u8_id; unfold_u; lia).
    apply (IH k (u8 (n - 1)) p1 r1 p' r' Hp); [lia|rewrite u8_id; unfold_u; lia| |done].
    intros i pi ri Hi Hpi. apply (Htaken (S i) pi ri); [lia|]. cbn [nth_port]. by rewrite Ep.
Qed.
End Reroll.

(** ** [w_connect] *)

Lemma finds_socks w tbl ss r loc rem o :
  e_sock w = tbl → finds w loc rem o ↔ finds (set_rng (set_socks w tbl ss) r) loc rem o.
Proof.
  intros <-. unfold finds, w_get_sock, mbind, M_bind, get, lift. cbn.
  destruct (kh_find _ _); naive_solver congruence.
Qed.

Lemma who_has_known `{!Netmap} can_alloc fuel tries w a mac :
  kh_find (e_neighbor w) a = Done (Some mac) → mac ≠ ETH_ADDR_BCAST →
  who_has can_alloc fuel tries a w = Done (mac, w).
Proof.
  intros E Hne. assert (Ef : neighbor_find a w = Done (mac, w)).
  { unfold neighbor_find. mstep. by mstep (lift_run _ _ w E). }
  unfold who_has. mstep Ef. unfold who_has_loop. destruct tries; unfold bytes_eqb; by rewrite bool_decide_false.
Qed.

Lemma w_to_waddr_af wa sa ra : w_to_waddr wa sa = (true, ra) → af ra ≠ 0.
Proof. destruct sa; intros [= <-]; done. Qed.

Section Connect.
Context `{!Netmap} (can_alloc : kh_array → Z → bool) (fuel tries : nat).
Hypothesis Halloc : ∀ a n, can_alloc a n = true.
Context (D : gset nat) (qm : queues) (tm : sock_map) (B : nat) (w : engine).
Hypothesis Heng : eng_inv D qm w.
Hypothesis Hsock : sock_inv qm tm B w.
Hypothesis HB : Z.of_nat (S B) < 2 ^ 24.
(** A socket in the table that is not connected. *)
Context (s : nat) (sk : w_sock) (peer : sockaddr).
Hypothesis Hsk : e_socks w !! s = Some sk.
Hypothesis Hin : (s_tup sk, s) ∈ tm.
Hypothesis Hzero : ws_rem sk = zero_sockaddr.

(** The lookups when tuple [t] is not in the table any more. *)
Definition lookup_without (t q : w_socktuple) (o : option nat) : option nat :=
  if w_socktuple_cmp t q then None else o.

Lemma preconnect_run :
  ∃ tbl, backend_preconnect s w = Done (tt, conn w s tbl sk (e_rng w)) ∧
    kh_rep tbl (km_remove tm (s_tup sk)) (S B).
Proof.
  pose proof (si_rep _ _ _ _ Hsock) as Hr. pose proof (si_wf _ _ _ _ Hsock s sk Hsk) as Hwf.
  pose proof (kh_remove_rep (KK := sock_key) (e_sock w) tm B (s_tup sk) Hr Hwf) as Hrm. cbn [spec_kop] in Hrm.
  rewrite (km_find_present tm (s_tup sk) (s_tup sk) s) in Hrm; [|apply Hr|done|done|by apply hash_equal_refl].
  destruct Hrm as (tbl & E & Hr'). exists tbl. split; [|done].
  unfold backend_preconnect, rem_sock. mstep (get_sock_run s sk w Hsk). mstep. mstep (lift_run _ _ w E).
  by rewrite <- conn_intro.
Qed.

Lemma conn_finds tbl tm1 B1 sk1 r1 loc rem o :
  kh_rep tbl tm1 B1 → sock_query loc rem →
  finds (conn w s tbl sk1 r1) loc rem o ↔ o = km_find tm1 (query_tuple loc rem).
Proof. intros Hr Hq. by apply (finds_iff tm1 B1). Qed.

Lemma removed_finds tbl sk1 r1 :
  kh_rep tbl (km_remove tm (s_tup sk)) (S B) →
  ∀ loc rem o, sock_query loc rem → finds w loc rem o →
    finds (conn w s tbl sk1 r1) loc rem (lookup_without (s_tup sk) (query_tuple loc rem) o).
Proof.
  intros Hr loc rem o Hq Ho. apply (finds_iff tm B) in Ho as ->; [|apply Hsock|done].
  eapply conn_finds; [done|done|]. unfold lookup_without. symmetry. apply km_remove_sock.
  - apply (kr_wf _ _ _ (si_rep _ _ _ _ Hsock)).
  - by apply (si_wf _ _ _ _ Hsock s).
  - by destruct Hq.
Qed.

(** W_connect for an unknown address family fails, but leaves the socket out of the
    table of sockets: it is no longer found, and closing it aborts. *)
Theorem w_connect_unknown_family f :
  peer = SockaddrOther f →
  ∃ w', w_connect can_alloc fuel tries s peer w = Done (EAFNOSUPPORT, w') ∧
    e_socks w' = e_socks w ∧ w_close s w' = Died ∧
    ∀ loc rem o, sock_query loc rem → finds w loc rem o →
      finds w' loc rem (lookup_without (s_tup sk) (query_tuple loc rem) o).
Proof.
  intros ->. destruct preconnect_run as (tbl & E & Hr).
  exists (conn w s tbl sk (e_rng w)). split_and!; [| | |by apply removed_finds].
  - unfold w_connect. mstep (get_sock_run s sk w Hsk).
    unfold w_connected, ws_rport. rewrite Hzero. cbn [sa_port zero_sockaddr Z.eqb negb]. mstep E. cbn [w_to_waddr negb].
    mstep. cbn [Z.eqb EAFNOSUPPORT negb when]. rewrite bind_assoc_run. mstep (conn_get w s tbl sk (e_rng w)).
    mstep (conn_put w s tbl sk (e_rng w) (set_rem sk zero_sockaddr)). unfold mret, M_ret.
    assert (set_rem sk zero_sockaddr = sk) as ->; [|done].
    destruct sk as [[l rm sc] ? ? ?]. cbn in *. by rewrite <- Hzero.
  - rewrite conn_socks. by apply insert_id.
  - unfold w_close, backend_close, rem_sock. rewrite bind_assoc_run. mstep (conn_get w s tbl sk (e_rng w)).
    pose proof (kh_remove_rep (KK := sock_key) tbl _ _ (s_tup sk) Hr (si_wf _ _ _ _ Hsock s sk Hsk)) as Hrm.
    cbn [spec_kop] in Hrm. rewrite km_remove_sock in Hrm; [|apply (kr_wf _ _ _ (si_rep _ _ _ _ Hsock))|by apply (si_wf _ _ _ _ Hsock s)..].
    rewrite (hash_equal_refl (KhKey := sock_key)) in Hrm by by apply (si_wf _ _ _ _ Hsock s).
    rewrite bind_assoc_run. mstep. rewrite bind_assoc_run. unfold mbind, M_bind, lift. cbn. by rewrite Hrm.
Qed.

Context (ra : w_addr) (mac : bytes) (j : nat) (p' : Z) (r' : krng_t).
Let rem := WSockaddr ra (sockaddr_port peer).
Let t := s_tup sk.
Hypothesis Hpeer : w_to_waddr zero_addr peer = (true, ra).
Hypothesis Hra : w_addr_wf ra.
Hypothesis Hmac : kh_find (e_neighbor w) ra = Done (Some mac).
Hypothesis Hknown : mac ≠ ETH_ADDR_BCAST.
(** The [j]-th port tried is the first whose four-tuple is free. *)
Let user (p : Z) (o : option nat) := finds w (WSockaddr (sa_addr (ws_loc sk)) p) (Some rem) o.
Hypothesis Hj : (j <= 200)%nat.
Hypothesis Hport : nth_port fuel (ws_lport sk) (e_rng w) j = Done (p', r').
Hypothesis Htaken : ∀ i pi ri, (i < j)%nat → nth_port fuel (ws_lport sk) (e_rng w) i = Done (pi, ri) →
  ∃ s', user pi (Some s').
Hypothesis Hfree : user p' None.

(** The socket once it is connected. *)
Definition conn_sock : w_sock := set_lport (set_dmac (set_rem sk rem) mac) p'.

Lemma user_iff p o :
  user p o ↔ o = port_user (set_dmac (set_rem sk rem) mac) (km_remove tm t) p.
Proof.
  pose proof (si_wf _ _ _ _ Hsock s sk Hsk) as Hwf. destruct Hwf as [Hl Hr].
  unfold user. rewrite (finds_iff tm B); [|apply Hsock|by split].
  change (port_user _ _ p) with (km_find (km_remove tm t) (query_tuple (WSockaddr (sa_addr (ws_loc sk)) p) (Some rem))).
  rewrite km_remove_sock; [|apply (kr_wf _ _ _ (si_rep _ _ _ _ Hsock))|by split|by split].
  assert (w_socktuple_cmp t (query_tuple (WSockaddr (sa_addr (ws_loc sk)) p) (Some rem)) = false) as ->; [|done].
  unfold w_socktuple_cmp, w_sockaddr_cmp at 2, w_addr_cmp at 1. change (remote t) with (ws_rem sk). rewrite Hzero.
  change (af _) with 0 at 1. change (af _) with (af ra) at 1.
  rewrite (proj2 (Z.eqb_neq 0 (af ra))) by (intros E; by apply (w_to_waddr_af _ _ _ Hpeer)).
  by rewrite !andb_false_r.
Qed.

Lemma conn_find : km_find (km_remove tm t) (s_tup conn_sock) = None.
Proof.
  destruct (si_wf _ _ _ _ Hsock s sk Hsk) as [Hl Hr]. apply user_iff in Hfree. rewrite Hfree. unfold port_user.
  apply (km_find_equal (KK := sock_key)); [|by split|by split|].
  - apply km_remove_wf, (kr_wf _ _ _ (si_rep _ _ _ _ Hsock)).
  - apply w_socktuple_cmp_key; by split.
Qed.

Lemma reroll_conn tbl :
  kh_rep tbl (km_remove tm t) (S B) →
  reroll_port fuel 201 s 200 (conn w s tbl (set_dmac (set_rem sk rem) mac) (e_rng w)) =
    Done (u8 (199 - Z.of_nat j), conn w s tbl conn_sock r').
Proof.
  intros Hr. destruct (si_wf _ _ _ _ Hsock s sk Hsk) as [Hl _].
  assert (Es : set_dmac (set_rem sk rem) mac = set_lport (set_dmac (set_rem sk rem) mac) (ws_lport sk)).
  { destruct sk as [[[la lp] rm sc] ? ? ?]. done. }
  rewrite Es at 1.
  rewrite (reroll_port_run fuel w s tbl (set_dmac (set_rem sk rem) mac) (km_remove tm t) (S B) Hr Hl Hra
    j 201 200 (ws_lport sk) (e_rng w) p' r' Hport); [done|lia|lia| |by apply eq_sym, user_iff].
  intros i pi ri Hi Hpi. destruct (Htaken i pi ri Hi Hpi) as [s' Hs']. apply user_iff in Hs' as <-. eauto.
Qed.

Lemma connect_start tbl :
  backend_preconnect s w = Done (tt, conn w s tbl sk (e_rng w)) → kh_rep tbl (km_remove tm t) (S B) →
  w_connect can_alloc fuel tries s peer w =
    (e ← (when (negb (u8 (199 - Z.of_nat j) =? 0)) (ins_sock can_alloc s) ;;
          mret (if u8 (199 - Z.of_nat j) =? 0 then 1 else 0));
     when (negb (e =? 0)) (sk ← get_sock s; put_sock s (set_rem sk zero_sockaddr)) ;; mret e)
    (conn w s tbl conn_sock r').
Proof.
  intros E Hr. unfold w_connect. mstep (get_sock_run s sk w Hsk). unfold w_connected, ws_rport. rewrite Hzero.
  cbn [sa_port zero_sockaddr Z.eqb negb]. mstep E. change (sa_addr zero_sockaddr) with zero_addr. rewrite Hpeer. cbn [negb].
  rewrite bind_assoc_run. fold rem. mstep (conn_put w s tbl sk (e_rng w) (set_rem sk rem)).
  unfold backend_connect. rewrite bind_assoc_run. mstep (conn_get w s tbl (set_rem sk rem) (e_rng w)).
  rewrite bind_assoc_run.
  mstep (who_has_known can_alloc fuel tries (conn w s tbl (set_rem sk rem) (e_rng w)) ra mac Hmac Hknown).
  rewrite bind_assoc_run. mstep (conn_get w s tbl (set_rem sk rem) (e_rng w)).
  rewrite bind_assoc_run. mstep (conn_put w s tbl (set_rem sk rem) (e_rng w) (set_dmac (set_rem sk rem) mac)).
  rewrite bind_assoc_run. by mstep (reroll_conn tbl Hr).
Qed.

Lemma conn_sock_inv tbl :
  kh_rep tbl (km_update (km_remove tm t) (s_tup conn_sock) s) (S (S B)) →
  sock_inv qm (km_update (km_remove tm t) (s_tup conn_sock) s) (S (S B)) (conn w s tbl conn_sock r').
Proof.
  intros Hr. destruct Hsock as [Hrep Ht Hw Hiv Hinj]. destruct (Hw s sk Hsk) as [Hl Hrw].
  split; [done| | | |]; rewrite ?conn_socks.
  - intros t0 s0 Hin0. apply km_update_elem in Hin0 as [[Hin0 Hne]%elem_of_km_remove|[-> ->]].
    + destruct (Ht t0 s0 Hin0) as (sk0 & H1 & H2). exists sk0. split; [|done]. rewrite lookup_insert_ne; [done|].
      intros <-. assert (sk0 = sk) as -> by congruence. unfold t in Hne. rewrite H2 in Hne.
      rewrite (hash_equal_refl (KhKey := sock_key) t0) in Hne; [done|]. rewrite <- H2. by split.
    + exists conn_sock. by rewrite lookup_insert_eq.
    + apply conn_find.
    + apply km_remove_wf, (kr_wf _ _ _ Hrep).
    + by split.
  - intros s0 sk0 [[<- <-]|[_ Hs0]]%lookup_insert_Some; [by split|by apply (Hw s0)].
  - intros s0 sk0 [[<- <-]|[_ Hs0]]%lookup_insert_Some; [by apply (Hiv s sk)|by apply (Hiv s0)].
  - intros s1 s2 sk1 sk2 [[<- <-]|[_ H1]]%lookup_insert_Some [[<- <-]|[_ H2]]%lookup_insert_Some E; [done| | |].
    + by apply (Hinj s s2 sk sk2).
    + by apply (Hinj s1 s sk1 sk).
    + by apply (Hinj s1 s2 sk1 sk2).
Qed.

(** The socket gets a free port. *)
Lemma connect_done :
  j ≠ 199%nat →
  ∃ tbl, w_connect can_alloc fuel tries s peer w = Done (0, conn w s tbl conn_sock r') ∧
    kh_rep tbl (km_update (km_remove tm t) (s_tup conn_sock) s) (S (S B)).
Proof.
  intros Hne. destruct preconnect_run as (tbl & E & Hr). fold t in Hr. rewrite (connect_start tbl E Hr).
  assert (u8 (199 - Z.of_nat j) =? 0 = false) as ->.
  { apply Z.eqb_neq. destruct (decide (j = 200)%nat) as [->|]; [done|]. rewrite u8_id; unfold_u; lia. }
  cbn [negb when]. destruct (si_wf _ _ _ _ Hsock s sk Hsk) as [Hl Hrw].
  assert (Hwf' : w_socktuple_wf (s_tup conn_sock)) by by split.
  pose proof (kh_insert_rep (KK := sock_key) can_alloc Halloc tbl _ (S B) (s_tup conn_sock) s Hr Hwf' HB) as Hi.
  rewrite conn_find in Hi. destruct Hi as (tbl' & Ei & Hr').
  assert (En : ins_sock can_alloc s (conn w s tbl conn_sock r') = Done (tt, conn w s tbl' conn_sock r')).
  { unfold ins_sock. mstep (conn_get w s tbl conn_sock r'). mstep.
    by mstep (lift_run _ _ (conn w s tbl conn_sock r') Ei). }
  rewrite bind_assoc_run. mstep En. mstep. cbn [negb Z.eqb when]. mstep. by exists tbl'.
Qed.

(** C21: W_connect to a peer whose MAC address is known keeps the local port if the four-
    tuple is free ([j] is 0) and otherwise takes the first free one of the random ports it draws,
    the [j]-th, if it is among the first 200; the socket is then found under exactly its new
    tuple, and every other lookup is unchanged.  Only when the 199th is the first free one
    does w_connect return 1, although that port is free, and the socket is no longer found
    under any tuple. *)
Theorem w_connect_correct :
  let t' := s_tup conn_sock in
  if (j =? 199)%nat then ∃ w', w_connect can_alloc fuel tries s peer w = Done (1, w') ∧
    (∀ loc rem' o, sock_query loc rem' → finds w loc rem' o →
      finds w' loc rem' (lookup_without t (query_tuple loc rem') o)) ∧
    ∀ loc rem', sock_query loc rem' → ¬ finds w' loc rem' (Some s)
  else ∃ w' tm', w_connect can_alloc fuel tries s peer w = Done (0, w') ∧
    e_socks w' = <[s := conn_sock]> (e_socks w) ∧ eng_inv D qm w' ∧ sock_inv qm tm' (S (S B)) w' ∧
    ∀ loc rem' o, sock_query loc rem' → finds w loc rem' o →
      finds w' loc rem' (if w_socktuple_cmp t' (query_tuple loc rem') then Some s
                         else lookup_without t (query_tuple loc rem') o).
Proof.
  intros t'. destruct (Nat.eqb_spec j 199) as [Ej|Hne].
  - destruct preconnect_run as (tbl & E & Hr). fold t in Hr. rewrite (connect_start tbl E Hr), Ej.
    cbn [u8 Z.of_nat]. change (u8 _ =? 0) with true. cbn [negb when]. mstep. cbn [negb Z.eqb when].
    rewrite bind_assoc_run. mstep (conn_get w s tbl conn_sock r').
    mstep (conn_put w s tbl conn_sock r' (set_rem conn_sock zero_sockaddr)).
    eexists. split; [done|]. split; [by apply removed_finds|]. intros loc rem' Hq Hf.
    eapply conn_finds in Hf; [|done|done]. symmetry in Hf. destruct (km_find_elem _ _ _ Hf) as (k & Hk & _).
    apply elem_of_km_remove in Hk as [Hk Hkt]. destruct (si_tup _ _ _ _ Hsock k s Hk) as (sk0 & H1 & <-).
    assert (sk0 = sk) as -> by congruence. unfold t in Hkt.
    rewrite (hash_equal_refl (KhKey := sock_key)) in Hkt; [done|]. by apply (si_wf _ _ _ _ Hsock s).
  - destruct (connect_done Hne) as (tbl' & E & Hr'). destruct (si_wf _ _ _ _ Hsock s sk Hsk) as [Hl Hrw].
    exists (conn w s tbl' conn_sock r'), (km_update (km_remove tm t) (s_tup conn_sock) s).
    split_and!; [done|done|by destruct Heng; split|by apply conn_sock_inv|].
    intros loc rem' o Hq Ho. apply (finds_iff tm B) in Ho as ->; [|apply Hsock|done].
    eapply conn_finds; [done|done|].
    pose proof (kr_wf _ _ _ (si_rep _ _ _ _ Hsock)) as Hm. destruct Hq as [Hq1 Hq2].
    rewrite (km_find_update (KK := sock_key)), (km_find_remove (KK := sock_key)) by
      (done || (split; done) || (by apply km_remove_wf) || (by apply (si_wf _ _ _ _ Hsock s)) || apply conn_find). done.
Qed.
End Connect.

(** ** Witnesses *)

(** The engine with a bound socket that knows the MAC address of 10.0.0.2. *)
Definition peer_ex : sockaddr := SockaddrIn 0x5100 [10; 0; 0; 2].
Definition peer_mac_ex : bytes := [2; 0; 0; 0; 0; 2].
Definition neigh_ex : khash w_addr bytes :=
  match kh_insert no_oom kh_init (addr_ex4 10 0 0 2) peer_mac_ex with Done h => h | _ => kh_init end.
Definition eng_conn_ex : engine := set_neighbor eng_sock_ex neigh_ex.

Lemma eng_conn_ex_inv :
  eng_inv eng_ex_D (<[h_ex := []]> eng_ex_m) eng_conn_ex ∧
  sock_inv (<[h_ex := []]> eng_ex_m) [(s_tup sock_ex, s_ex)] 1 eng_conn_ex.
Proof. destruct eng_sock_ex_inv as [[E1 E2 E3] [S1 S2 S3 S4 S5]]. split; by split. Qed.

#[local] Existing Instance netmap_ex.

Lemma w_connect_unknown_family_witness :
  ∃ w', w_connect no_oom 1 1 s_ex (SockaddrOther 99) eng_conn_ex = Done (EAFNOSUPPORT, w') ∧
    w_close s_ex w' = Died ∧ finds w' loc_ex None None.
Proof.
  destruct (w_connect_unknown_family no_oom 1 1 _ _ _ eng_conn_ex (proj2 eng_conn_ex_inv) s_ex sock_ex
    (SockaddrOther 99)) with (f := 99) as (w' & E & _ & Ec & Hf).
  - reflexivity.
  - by left.
  - reflexivity.
  - reflexivity.
  - exists w'. split; [exact E|]. split; [exact Ec|].
    assert (Hq : sock_query loc_ex None) by (split; [apply addr_ex4_wf|apply zero_sockaddr_wf]).
    assert (F : finds eng_conn_ex loc_ex None (Some s_ex)) by (vm_compute; reflexivity).
    apply (Hf loc_ex None (Some s_ex) Hq) in F.
    assert (Ew : lookup_without (s_tup sock_ex) (query_tuple loc_ex None) (Some s_ex) = None)
      by (vm_compute; reflexivity).
    rewrite Ew in F. exact F.
Defined.

Lemma w_connect_correct_witness :
  ∃ w' sk', w_connect no_oom 1 1 s_ex peer_ex eng_conn_ex = Done (0, w') ∧
    e_socks w' !! s_ex = Some sk' ∧ w_connected sk' = true ∧ s_dmac sk' = peer_mac_ex.
Proof.
  pose proof (w_connect_correct no_oom 1 1 (λ _ _, eq_refl) _ _ _ _ eng_conn_ex (proj1 eng_conn_ex_inv)
    (proj2 eng_conn_ex_inv) eq_refl s_ex sock_ex peer_ex eq_refl ltac:(by left) eq_refl
    (addr_ex4 10 0 0 2) peer_mac_ex 0 0x5000 (e_rng eng_conn_ex) eq_refl) as Hc.
  destruct Hc as (w' & tm' & E & Es & _).
  - by apply addr_wf_dec.
  - vm_compute. reflexivity.
  - discriminate.
  - lia.
  - reflexivity.
  - intros i pi ri Hi. lia.
  - vm_compute. reflexivity.
  - exists w'. eexists. split; [exact E|]. rewrite Es. split; [apply lookup_insert_eq|]. split; reflexivity.
Defined.
