(* ===== verification/Tx.v ===== *)
(** Sending datagrams (lib/src/udp.c, eth.h, backend_netmap.c, warpcore.c): [udp_tx]
    and [w_tx]. *)

From S2P Require Import Prelude Util Krng Queue Wire Cksum Addr Khash Engine Netmap Ip Send Sock Arp Icmp Rx Connect.

Section Tx.
Context `{!Netmap}.
Context (can_alloc : kh_array → Z → bool).
(** Fuel of the loops of the random number generator and of the transmission, and
    the number of queries for an address. *)
Context (fuel tries : nat).

(** ** [udp_tx] *)

(** The destination of a frame: the address resolved when the socket was connected,
    or that of the vector's address, with a cache of the last one. *)
Definition eth_dst (sk : w_sock) (v : w_iov) : M engine bytes :=
  if w_connected sk then mret (s_dmac sk)
  else
    w ← get;
    let addr := sa_addr (v_saddr v) in
    if w_addr_cmp (fst (e_last w)) addr then mret (snd (e_last w))
    else
      put (set_last_mac w (addr, snd (e_last w))) ;;
      mac ← who_has can_alloc fuel tries addr;
      w ← get; put (set_last_mac w (fst (e_last w), mac)) ;;
      mret mac.

Definition mk_eth_hdr (sk : w_sock) (i : nat) : M engine unit :=
  v ← get_iov i;
  let eth := v_base v in
  dst ← eth_dst sk v;
  stm (padd eth Eth.dst) dst ;;
  w ← get; stm (padd eth Eth.src) (mac (e_conf w)) ;;
  stm16 (padd eth Eth.type) (if ws_af sk =? AF_INET then ETH_TYPE_IP4 else ETH_TYPE_IP6).

(** The IP header, the UDP header's place and the length of the IP header. *)
Definition udp_ip_hdr (sk : w_sock) (i : nat) : M engine (bufptr * Z) :=
  if ws_af sk =? AF_INET then
    mk_ip4_hdr fuel i (Some sk) ;;
    v ← get_iov i;
    udp ← ip4_data_ptr (v_base v); vhl ← ldm8 (padd (v_base v) (eth_data 0));
    mret (udp, ip4_hl vhl)
  else
    mk_ip6_hdr i (Some sk) ;;
    v ← get_iov i;
    mret (ip6_data_ptr (v_base v), Z.of_nat Ip6.size).

(** The UDP header. *)
Definition udp_hdr (sk : w_sock) (i : nat) (udp : bufptr) (ip_hdr_len : Z) : M engine unit :=
  stm16 (padd udp Udp.sport) (ws_lport sk) ;;
  v ← get_iov i;
  stm16 (padd udp Udp.dport) (if w_connected sk then ws_rport sk else sa_port (v_saddr v)) ;;
  stm16 (padd udp Udp.len) (bswap16 (u16 (v_len v - ip_hdr_len))) ;;
  stm16 (padd udp Udp.cksum) 0 ;;
  when (negb (enable_udp_zero_checksums (s_opt sk)))
    (c ← on_buf (λ b p, payload_cksum b p (v_len v)) (padd (v_base v) (eth_data 0));
     stm16 (padd udp Udp.cksum) c).

Definition udp_tx (s i : nat) : M engine bool :=
  sk ← get_sock s;
  v ← get_iov i;
  let vlen := v_len v in
  put_iov i (set_len v (u16 (v_len v + Z.of_nat Udp.size))) ;;
  '(udp, ip_hdr_len) ← udp_ip_hdr sk i;
  udp_hdr sk i udp ip_hdr_len ;;
  mk_eth_hdr sk i ;;
  ret ← eth_tx i;
  v ← get_iov i;
  put_iov i (set_len v vlen) ;;
  mret ret.

(** ** [w_tx] *)

(** Retry one vector until it is in a ring. *)
Fixpoint tx_retry (n : nat) (s i : nat) (len : Z) : M engine unit :=
  match n with
  | O => no_fuel
  | S n =>
      ret ← udp_tx s i;
      if (ret : bool) then mret tt
      else w_nic_tx ;; v ← get_iov i; put_iov i (set_len v len) ;; tx_retry n s i len
  end.
Fixpoint tx_all (n : nat) (s : nat) (l : list nat) : M engine unit :=
  match l with
  | [] => mret tt
  | i :: l => v ← get_iov i; tx_retry n s i (v_len v) ;; tx_all n s l
  end.
Definition w_tx (n : nat) (s o : nat) : M engine unit :=
  l ← liftq (sq_foreach n o); tx_all n s l.

End Tx.

(** * Theorems *)

(** ** The frame [udp_tx] builds *)

Section Frame.
Context `{!Netmap} (can_alloc : kh_array → Z → bool) (fuel tries : nat).
Context (w : engine) (s i : nat) (sk : w_sock) (v : w_iov) (b : bytes) (bi n : Z).
Hypothesis Hfuel : (0 < fuel)%nat.
Hypothesis Hconf : ifconf_wf (e_conf w).
Hypothesis Hsk : e_socks w !! s = Some sk.
Hypothesis Hbase : v_base v = (bi, 0).
Hypothesis Hb : is_bytes b.
Hypothesis Hflags : is_u8 (v_flags v).

(** The socket's address family, the length of the IP header it means, and the
    payload of [n] bytes behind the headers. *)
Let v4 := ws_af sk =? AF_INET.
Definition ip_len (sk : w_sock) : nat := if ws_af sk =? AF_INET then 20 else 40.
Let hl := ip_len sk.
Hypothesis Hn : v_len v = n ∧ 0 <= n.
Hypothesis Htot : Z.of_nat hl + 8 + n <= 65535.
Hypothesis Hfit : 14 + Z.of_nat hl + 8 + n <= Z.of_nat (length b).

(** The addresses of the datagram. *)
Definition tx_src (w : engine) (sk : w_sock) : option w_addr :=
  if w_connected sk then Some (sa_addr (ws_loc sk))
  else ia_addr <$> ifaddr (e_conf w) !! (if ws_af sk =? AF_INET then Z.to_nat (addr4_pos (e_conf w)) else 0%nat).
Definition tx_dst (sk : w_sock) (v : w_iov) : w_sockaddr :=
  if w_connected sk then ws_rem sk else v_saddr v.

Context (src : w_addr).
Hypothesis Hsrc : tx_src w sk = Some src.
Hypothesis Hsrcwf : w_addr_wf src.
Hypothesis Hdstwf : w_addr_wf (sa_addr (tx_dst sk v)).
Hypothesis Hsport : is_u16 (ws_lport sk).
Hypothesis Hdport : is_u16 (sa_port (tx_dst sk v)).

(** The IP header of the datagram, in front of [8 + n] bytes. *)
Definition ip_hdr_ok (sk : w_sock) (v : w_iov) (n : Z) (src : w_addr) (b' : bytes) : Prop :=
  if ws_af sk =? AF_INET
  then ∃ id, ip4_hdr_at b' 14 (ip4_tos v (Some sk)) (28 + n) id IP_P_UDP (ip4 src) (ip4 (sa_addr (tx_dst sk v)))
  else ∃ x, u8 x = 0x60 ∧ ip6_hdr_at b' 14 (ip6_word v (Some sk) x) (8 + n) IP_P_UDP
    (take IP6_LEN (ip6 src)) (take IP6_LEN (ip6 (sa_addr (tx_dst sk v)))).

Let v1 := set_len v (8 + n).
Let v2 := set_len v (Z.of_nat hl + 8 + n).

Lemma hl_cases : (v4 = true ∧ hl = 20%nat) ∨ (v4 = false ∧ hl = 40%nat).
Proof. unfold hl, ip_len. fold v4. destruct v4; auto. Qed.

Lemma udp_ip_hdr_run r :
  ∃ b' r', udp_ip_hdr fuel sk i (pkt w i v1 b r) =
      Done ((padd (v_base v) (14 + hl), Z.of_nat hl), pkt w i v2 b' r') ∧
    length b' = length b ∧ is_bytes b' ∧ ip_hdr_ok sk v n src b' ∧
    ∀ o k, (o + k <= 14 ∨ 14 + hl <= o)%nat → ldn b' o k = ldn b o k.
Proof.
  unfold udp_ip_hdr, ip_hdr_ok. fold v4. pose proof hl_cases as Hc.
  assert (Hbase1 : v_base v1 = (bi, 0)) by done. destruct Hn as [Hn1 Hn2].
  destruct v4 eqn:E4; destruct Hc as [[? Ehl]|[? Ehl]]; try done; rewrite Ehl in *.
  - destruct (ip_id_run fuel r Hfuel) as (id & r' & Eid).
    assert (Hsd : ip4_src_dst w v1 (Some sk) = Some (ip4 src, ip4 (sa_addr (tx_dst sk v)))).
    { unfold ip4_src_dst, tx_src, tx_dst in *. cbn [connected_sock]. fold v4 in Hsrc. rewrite E4 in Hsrc.
      destruct (w_connected sk); [by injection Hsrc as <-|].
      destruct (ifaddr (e_conf w) !! _) as [ia|]; [|done]. by injection Hsrc as <-. }
    destruct (mk_ip4_hdr_run w i v1 b r bi (Some sk) Hbase1 ltac:(lia) fuel id r' _ _ Hb Hflags Hsd)
      as (b' & E & Hl & Hb' & Hip & Hout); [by apply ld32_range, Hsrcwf|by apply ld32_range, Hdstwf|apply Hconf|done|].
    change (v_len v1) with (8 + n) in *. replace (8 + n + 20) with (28 + n) in * by lia.
    rewrite u16_id in * by (unfold_u; lia).
    assert (Ev : set_len v1 (28 + n) = v2) by (unfold v1, v2, set_len; cbn; f_equal; lia). rewrite Ev in E.
    exists b', r'. split_and!; [|done|done|by exists id|exact Hout].
    mstep E. mstep (pkt_get_iov w i v2 b' r'). unfold ip4_data_ptr. rewrite bind_assoc_run.
    assert (Hbase2 : v_base v2 = (bi, 0)) by done.
    buf_load. mstep. buf_load. pose proof (h4_vhl _ _ _ _ _ _ _ _ Hip) as Hvhl.
    change (0 + eth_data 0)%nat with (14 + Ip4.vhl)%nat. rewrite Hvhl. done.
  - assert (Hsd : ip6_src_dst w v1 (Some sk) =
      Some (take IP6_LEN (ip6 src), take IP6_LEN (ip6 (sa_addr (tx_dst sk v))))).
    { unfold ip6_src_dst, tx_src, tx_dst in *. cbn [connected_sock]. fold v4 in Hsrc. rewrite E4 in Hsrc.
      destruct (w_connected sk); [by injection Hsrc as <-|].
      destruct (ifaddr (e_conf w) !! _) as [ia|]; [|done]. by injection Hsrc as <-. }
    destruct (mk_ip6_hdr_run w i v1 b r bi (Some sk) Hbase1 ltac:(lia) _ _ Hb Hflags Hsd)
      as (b' & E & Hl & Hb' & Hip & Hout); [by apply ip6_take..|].
    change (v_len v1) with (8 + n) in *. rewrite u16_id in E by (unfold_u; lia).
    assert (Ev : set_len v1 (8 + n + 40) = v2) by (unfold v1, v2, set_len; cbn; f_equal; lia). rewrite Ev in E.
    exists b', r. split_and!; [|done|done| |exact Hout].
    + mstep E. by mstep (pkt_get_iov w i v2 b' r).
    + exists (ld32 (st8 b 14 96) 14). split; [|done].
      rewrite u8_ld32; [|apply stn_is_bytes; auto with wc|unfold st8; rewrite length_stn; wire_lia].
      by rewrite ld8_st8_eq by lia.
Qed.
Lemma ip_hdr_payload b' :
  ip_hdr_ok sk v n src b' → is_bytes b' → length b' = length b →
  payload_ok b' 14 (Z.of_nat hl + 8 + n) ∧ hdr_len b' 14 = hl.
Proof.
  unfold ip_hdr_ok, hdr_len. fold v4. pose proof hl_cases as Hc. intros Hip Hb' Hl.
  destruct v4; destruct Hc as [[? Eh]|[? Eh]]; try done; rewrite Eh in *.
  - destruct Hip as [id Hip]. pose proof (h4_vhl _ _ _ _ _ _ _ _ Hip) as Hvhl. rewrite Nat.add_0_r in Hvhl.
    rewrite Hvhl. split; [|done]. split; [done|lia|lia|]. rewrite Hvhl. change (20 <= 20 <= Z.of_nat 20 + 8 + n). lia.
  - destruct Hip as (x & Hx & Hip). pose proof (h6_word _ _ _ _ _ _ _ Hip) as Hw. rewrite Nat.add_0_r in Hw.
    pose proof (h6_nh _ _ _ _ _ _ _ Hip) as Hnh.
    assert (Hv : ip_v (ld8 b' 14) = 6).
    { rewrite <- u8_ld32 by (done || lia). rewrite Hw. by apply ip6_word_version. }
    rewrite Hv. split; [|done]. split; [done|lia|lia|]. rewrite Hv. change (if 6 =? 4 then 20 <= ip4_hl (ld8 b' 14) <= Z.of_nat 40 + 8 + n
      else 40 <= Z.of_nat 40 + 8 + n ∧ ld8 b' (14 + Ip6.next_hdr) < 128). rewrite Hnh. change (6 =? 4) with false. split; [lia|done].
Qed.

Lemma ip_hdr_ok_ldn b1 b2 :
  is_bytes b1 → is_bytes b2 → (14 + hl <= length b1)%nat → (14 + hl <= length b2)%nat →
  (∀ o k, (14 <= o ∧ o + k <= 14 + hl)%nat → ldn b2 o k = ldn b1 o k) →
  ip_hdr_ok sk v n src b1 → ip_hdr_ok sk v n src b2.
Proof.
  unfold ip_hdr_ok. fold v4. pose proof hl_cases as Hc. intros H1 H2 Hl1 Hl2 E Hip.
  destruct v4; destruct Hc as [[? Eh]|[? Eh]]; try done; rewrite Eh in *.
  - destruct Hip as [id Hip]. exists id. by apply (ip4_hdr_at_ldn b1).
  - destruct Hip as (x & Hx & Hip). exists x. split; [done|]. by apply (ip6_hdr_at_ldn b1).
Qed.

(** The UDP header and the payload in the frame. *)
Record udp_hdr_ok (b' : bytes) : Prop := {
  uf_sport : ld16 b' (14 + hl + Udp.sport) = ws_lport sk;
  uf_dport : ld16 b' (14 + hl + Udp.dport) = sa_port (tx_dst sk v);
  uf_len : ld16 b' (14 + hl + Udp.len) = bswap16 (8 + n);
  uf_cksum : if enable_udp_zero_checksums (s_opt sk) then ld16 b' (14 + hl + Udp.cksum) = 0
             else payload_cksum b' 14 (Z.of_nat hl + 8 + n) = Done 0;
  uf_data : ldn b' (14 + hl + 8) (Z.to_nat n) = ldn b (14 + hl + 8) (Z.to_nat n)
}.

Lemma udp_hdr_run b1 r1 :
  ip_hdr_ok sk v n src b1 → is_bytes b1 → length b1 = length b →
  (∀ o k, (14 + hl <= o)%nat → ldn b1 o k = ldn b o k) →
  ∃ b', udp_hdr sk i (padd (v_base v) (14 + hl)) (Z.of_nat hl) (pkt w i v2 b1 r1) = Done (tt, pkt w i v2 b' r1) ∧
    length b' = length b ∧ is_bytes b' ∧ udp_hdr_ok b' ∧
    ∀ o k, (o + k <= 14 + hl)%nat → ldn b' o k = ldn b1 o k.
Proof.
  intros Hip Hb1 Hl1 Hout. destruct Hn as [Hn1 Hn2]. assert (Hbase2 : v_base v2 = (bi, 0)) by done.
  assert (Hhl : (hl <= 40)%nat) by (destruct hl_cases as [[? ->]|[? ->]]; lia).
  unfold udp_hdr. change (v_base v) with (v_base v2). unfold stm16 at 1 2 3 4.
  pkt_store. mstep (pkt_get_iov w i v2 b0 r1). change (v_len v2) with (Z.of_nat hl + 8 + n).
  pkt_store. pkt_store. pkt_store.
  assert (Hlen : u16 (Z.of_nat hl + 8 + n - Z.of_nat hl) = 8 + n) by (rewrite u16_id; unfold_u; lia).
  assert (Hdp : (if w_connected sk then ws_rport sk else sa_port (v_saddr v2)) = sa_port (tx_dst sk v)).
  { unfold tx_dst, ws_rport. by destruct (w_connected sk). }
  rewrite Hlen, Hdp in *.
  assert (Hhdr : ∀ o k, (o + k <= 14 + hl)%nat → ldn b4 o k = ldn b1 o k) by (intros o k Ho; by ld_skip).
  assert (Hdata : ldn b4 (14 + hl + 8) (Z.to_nat n) = ldn b (14 + hl + 8) (Z.to_nat n)).
  { ld_skip. apply Hout. lia. }
  unfold when. destruct (enable_udp_zero_checksums (s_opt sk)) eqn:Ez; cbn [negb].
  - exists b4. split_and!; [done|congruence|done| |done]. split; rewrite ?Ez.
    + ld_field. rewrite le_val_bytes. by apply Z.mod_small.
    + ld_field. rewrite le_val_bytes. by apply Z.mod_small.
    + ld_field. rewrite le_val_bytes. apply Z.mod_small, bswap16_range.
    + ld_field. by rewrite le_val_bytes.
    + done.
  - assert (Hip3 : ip_hdr_ok sk v n src b3).
    { apply (ip_hdr_ok_ldn b1 b3); [done|done|lia|lia| |done]. intros o k Ho. by ld_skip. }
    destruct (ip_hdr_payload b3 Hip3 ltac:(done) ltac:(congruence)) as [Hok Hhl3].
    destruct (payload_cksum_store b3 14 3 (Z.of_nat hl + 8 + n) Hok ltac:(rewrite Hhl3; lia)) as (c & Ec & Ec0).
    rewrite Hhl3 in Ec, Ec0.
    change (st16 b3 (14 + hl + 2 * 3) 0) with (stn b3 (14 + hl + Udp.cksum) (le_bytes 2 0)) in Ec, Ec0.
    match goal with E : b4 = _ |- _ => rewrite <- E in Ec, Ec0 end.
    mstep (pkt_on_buf_at w i v2 b4 r1 bi Hbase2 (λ b p, payload_cksum b p (Z.of_nat hl + 8 + n)) 14 c Ec).
    unfold stm16. erewrite pkt_stm_at; [|eassumption|wire_lia]. name_frame.
    exists b5. split_and!; [done|congruence|done| |intros o k Ho; by ld_skip]. split; rewrite ?Ez.
    + ld_field. rewrite le_val_bytes. by apply Z.mod_small.
    + ld_field. rewrite le_val_bytes. by apply Z.mod_small.
    + ld_field. rewrite le_val_bytes. apply Z.mod_small, bswap16_range.
    + by match goal with E : b5 = _ |- _ => rewrite E end.
    + match goal with E : b5 = _ |- _ => rewrite E, ldn_stn_ne by wire_lia end. done.
Qed.

(** The MAC address of the destination is known: it is that of the connected socket,
    the last one used, or one in the neighbor cache. *)
Definition dst_known (w : engine) (sk : w_sock) (v : w_iov) (mac : bytes) : Prop :=
  if w_connected sk then s_dmac sk = mac
  else if w_addr_cmp (fst (e_last w)) (sa_addr (v_saddr v)) then snd (e_last w) = mac
  else kh_find (e_neighbor w) (sa_addr (v_saddr v)) = Done (Some mac) ∧ mac ≠ ETH_ADDR_BCAST.

Context (dmac : bytes).
Hypothesis Hdmac : dst_known w sk v dmac.
Hypothesis Hdlen : length dmac = 6%nat ∧ is_bytes dmac.

(** The cache of the last address after the step. *)
Definition last_step (l : w_addr * bytes) : Prop :=
  l = e_last w ∨
  w_connected sk = false ∧ l = (sa_addr (v_saddr v), dmac) ∧
    kh_find (e_neighbor w) (sa_addr (v_saddr v)) = Done (Some dmac).

Lemma eth_dst_run b1 r1 :
  ∃ l, eth_dst can_alloc fuel tries sk v2 (pkt w i v2 b1 r1) = Done (dmac, pkt (set_last_mac w l) i v2 b1 r1) ∧
    last_step l.
Proof.
  unfold dst_known, eth_dst, last_step in *. destruct (w_connected sk).
  { rewrite Hdmac. exists (e_last w). split; [|by left]. unfold mret, M_ret. by destruct w. }
  mstep. change (e_last (pkt w i v2 b1 r1)) with (e_last w). change (v_saddr v2) with (v_saddr v).
  destruct (w_addr_cmp _ _).
  { rewrite Hdmac. exists (e_last w). split; [|by left]. unfold mret, M_ret. by destruct w. }
  destruct Hdmac as [Hk Hne]. mstep.
  mstep (who_has_known can_alloc fuel tries
    (set_last_mac (pkt w i v2 b1 r1) (sa_addr (v_saddr v), snd (e_last w))) _ dmac Hk Hne).
  mstep. mstep. eexists. split; [reflexivity|by right].
Qed.

(** The Ethernet header. *)
Record eth_hdr_ok (b' : bytes) : Prop := {
  eh_dst : ldn b' Eth.dst 6 = dmac;
  eh_src : ldn b' Eth.src 6 = mac (e_conf w);
  eh_type : ld16 b' Eth.type = if v4 then ETH_TYPE_IP4 else ETH_TYPE_IP6
}.

Lemma mk_eth_hdr_run b1 r1 :
  is_bytes b1 → (14 <= length b1)%nat →
  ∃ l b', mk_eth_hdr can_alloc fuel tries sk i (pkt w i v2 b1 r1) =
      Done (tt, pkt (set_last_mac w l) i v2 b' r1) ∧ last_step l ∧
    length b' = length b1 ∧ is_bytes b' ∧ eth_hdr_ok b' ∧ ∀ o k, (14 <= o)%nat → ldn b' o k = ldn b1 o k.
Proof.
  intros Hb1 Hl1. destruct (eth_dst_run b1 r1) as (l & El & Hl). destruct Hdlen as [Hdl Hdb].
  destruct (wf_mac _ Hconf) as [Hmb Hml]. assert (Hbase2 : v_base v2 = (bi, 0)) by done.
  unfold mk_eth_hdr, stm16. mstep (pkt_get_iov w i v2 b1 r1). mstep El. pkt_store. mstep.
  change (e_conf (pkt (set_last_mac w l) i v2 b0 r1)) with (e_conf w). pkt_store.
  erewrite pkt_stm_base; [|eassumption|wire_lia]. name_frame.
  exists l, b3. split_and!; [done|done|congruence|done| |intros o k Ho; by ld_skip]. split.
  - by ld_field.
  - by ld_field.
  - ld_field. rewrite le_val_bytes. fold v4. by destruct v4.
Qed.

(** *** Sending it *)

Context (home : homes).

(** The outcome [w'] of sending the datagram from [w]: the frame is in the buffer of
    the vector, which is in a ring with space if there is one; the vector has its
    payload length back, and no other vector or part of the engine changes. *)
Record udp_sent (ret : bool) (w' : engine) : Prop := {
  us_inv : tx_inv home w';
  us_ret : ret = false ↔ Forall ring_full (e_txr w);
  us_frame : ∃ b', e_mem w' = <[bi := b']> (e_mem w) ∧ length b' = length b ∧ is_bytes b' ∧
    eth_hdr_ok b' ∧ ip_hdr_ok sk v n src b' ∧ udp_hdr_ok b';
  us_slot : if ret then ∃ k r sl, e_txr w !! k = Some r ∧ ¬ ring_full r ∧
      slot_at w' k (Z.to_nat (nr_cur r)) = Some sl ∧ slot_iov w' k (Z.to_nat (nr_cur r)) = Some i ∧
      ns_buf_idx sl = v_idx v ∧ ns_len sl = u16 (14 + (Z.of_nat hl + 8 + n))
    else e_txr w' = e_txr w ∧ (not_waiting w i → not_waiting w' i);
  us_iov : ∃ idx, e_bufs w' = <[i := set_idx v idx]> (e_bufs w);
  us_rings : nr_num_slots <$> e_txr w' = nr_num_slots <$> e_txr w;
  us_rest : e_conf w' = e_conf w ∧ e_q w' = e_q w ∧ e_neighbor w' = e_neighbor w ∧ e_sock w' = e_sock w ∧
    e_socks w' = e_socks w ∧ e_pipe w' = e_pipe w ∧ e_rxr w' = e_rxr w;
  us_last : last_step (e_last w');
  us_calls : e_calls w' = e_calls w;
  us_out : if ret then placed_once w w' ∧
      ∀ b', e_mem w' !! bi = Some b' → in_ring w' bi (u16 (14 + (Z.of_nat hl + 8 + n))) b'
    else cursors w' = cursors w;
  us_keep : ∀ x len b', x ≠ bi → in_ring w x len b' → in_ring w' x len b';
  us_others : ∀ i', i' ≠ i → not_waiting w i' → not_waiting w' i'
}.

Context `{!NetmapLaws}.
Hypothesis Htx : tx_inv home w.
Hypothesis Hpipe : e_pipe w = false.
Hypothesis Hv : e_bufs w !! i = Some v.
Hypothesis Hmem : e_mem w !! bi = Some b.
Hypothesis Hbi : h_iov home i = bi.
Hypothesis Hnext : is_Some (nexts (e_q w) !! i).
Hypothesis Hnw : not_waiting w i.

(** Up to [eth_tx]. *)
Lemma udp_tx_start :
  ∃ l b' r', udp_tx can_alloc fuel tries s i w =
      (ret ← eth_tx i; v ← get_iov i; put_iov i (set_len v n) ;; mret ret) (pkt (set_last_mac w l) i v2 b' r') ∧
    last_step l ∧
    length b' = length b ∧ is_bytes b' ∧ eth_hdr_ok b' ∧ ip_hdr_ok sk v n src b' ∧ udp_hdr_ok b'.
Proof.
  destruct Hn as [Hn1 Hn2]. assert (Hhl : (hl <= 40)%nat) by (destruct hl_cases as [[? ->]|[? ->]]; lia).
  destruct (udp_ip_hdr_run (e_rng w)) as (b1 & r1 & E1 & Hl1 & Hb1 & Hip1 & Hout1).
  destruct (udp_hdr_run b1 r1 Hip1 Hb1 Hl1 ltac:(intros; apply Hout1; lia)) as (b2 & E2 & Hl2 & Hb2 & Hu2 & Hout2).
  destruct (mk_eth_hdr_run b2 r1 Hb2 ltac:(lia)) as (l & b3 & E3 & Hl & Hl3 & Hb3 & He3 & Hout3).
  exists l, b3, r1. split; [|split_and!; [done|congruence|done|done| |]].
  - rewrite (pkt_intro w i v b) at 1; [|done|by rewrite Hbase].
    unfold udp_tx. mstep (get_sock_run s sk (pkt w i v b (e_rng w)) Hsk). mstep (pkt_get_iov w i v b (e_rng w)).
    assert (E0 : put_iov i (set_len v (u16 (v_len v + Z.of_nat Udp.size))) (pkt w i v b (e_rng w)) =
      Done (tt, pkt w i v1 b (e_rng w))).
    { rewrite pkt_put_iov by done. unfold v1. rewrite Hn1, u16_id by (unfold_u; wire_lia).
      do 4 f_equal. wire_lia. }
    mstep E0. mstep E1. mstep E2. mstep E3. by rewrite Hn1.
  - apply (ip_hdr_ok_ldn b1 b3); [done|done|lia|lia| |done]. intros o k Ho. rewrite Hout3 by lia. apply Hout2. lia.
  - destruct Hu2 as [U1 U2 U3 U4 U5]. assert (Hok : ip_hdr_ok sk v n src b2).
    { apply (ip_hdr_ok_ldn b1 b2); [done|done|lia|lia| |done]. intros o k Ho. apply Hout2. lia. }
    destruct (ip_hdr_payload b2 Hok Hb2 Hl2) as [Hpay _].
    split; unfold ld16 in *; rewrite ?Hout3 by lia; try done.
    destruct (enable_udp_zero_checksums _); [done|].
    rewrite (payload_cksum_ldn b2 b3) by (done || congruence || intros; apply Hout3; lia). done.
Qed.

Lemma udp_tx_run :
  ∃ ret w', udp_tx can_alloc fuel tries s i w = Done (ret, w') ∧ udp_sent ret w'.
Proof.
  destruct udp_tx_start as (l & b' & r' & E & Hlast & Hl & Hb' & He & Hip & Hu). destruct Hn as [Hn1 _].
  set (st := pkt (set_last_mac w l) i v2 b' r') in *.
  assert (Hst : tx_inv home st).
  { apply (tx_inv_ext home w); try done. unfold st, pkt. cbn. rewrite fmap_insert. apply insert_id.
    by rewrite lookup_fmap, Hv. }
  assert (Hvst : e_bufs st !! i = Some v2) by apply lookup_insert_eq.
  assert (Hmst : e_mem st = <[bi := b']> (e_mem w)) by (unfold st, pkt; cbn; by rewrite Hbase).
  assert (Hset : ∀ x, set_len (set_idx v2 x) n = set_idx v x).
  { intros x. unfold v2, set_len, set_idx. cbn. by rewrite Hn1. }
  assert (Hhome : v_idx v2 = h_iov home i) by (apply (tc_home _ _ _ (tx_core_inv _ _ Htx) i v Hv Hnw)).
  assert (Hkst : ∀ x len bs, x ≠ bi → in_ring w x len bs → in_ring st x len bs).
  { intros x len bs Hx. apply in_ring_ext; [done|]. by rewrite Hmst, lookup_insert_ne by done. }
  destruct (eth_tx_run home st i v2 Hst Hpipe Hvst Hnext Hnw) as [(w1 & Et & Hpost)|(Hfull & c & Hc & Et)].
  - pose proof (eth_tx_post_waiting home st i v2 w1) as Hoth.
    pose proof (eth_tx_post_only home st i v2 w1 Hvst Hpost) as Honly.
    pose proof (λ x len b, eth_tx_post_in_keep home st i v2 w1 x len b Hst Hpost) as Hkeep.
    pose proof (λ b, eth_tx_post_in home st i v2 w1 b Hst Hpost Hhome) as Hin.
    destruct Hpost as [Hinv1 (k & rg & sl & fl & Hr & Hnf & Hsl & Hfl & Ew1 & Hp)].
    set (v3 := set_idx v2 (ns_buf_idx sl)).
    assert (Hv3 : e_bufs w1 !! i = Some v3) by (rewrite Ew1; apply lookup_insert_eq).
    set (w' := set_iovs w1 (e_q w1) (<[i := set_len v3 n]> (e_bufs w1))).
    exists true, w'. split; [rewrite E; mstep Et; by mstep (get_iov_run i v3 w1 Hv3)|].
    assert (Hcore := tx_core_inv _ _ Hst). destruct (tc_len _ _ _ Hcore) as [_ Hlrow].
    destruct (lookup_lt_is_Some_2 (e_slot_buf st) k) as [row Hrow].
    { rewrite Hlrow. by eapply lookup_lt_Some. }
    pose proof (lookup_lt_Some _ _ _ Hsl) as Hj. pose proof (tc_row _ _ _ Hcore k rg row Hr Hrow) as Hlen.
    split.
    + apply (tx_inv_ext home w1); try done. cbn. rewrite fmap_insert. apply insert_id.
      by rewrite lookup_fmap, Hv3.
    + split; [done|]. intros Hall. destruct Hnf. by apply (proj1 (Forall_lookup _ _) Hall k).
    + exists b'. split; [|done]. change (e_mem w1 = <[bi := b']> (e_mem w)). by rewrite Ew1, <- Hmst.
    + exists k, rg, (NetmapSlot (v_idx v2) (u16 (v_len v2 + 14)) fl). split; [done|]. split; [done|].
      change (slot_at w' k (Z.to_nat (nr_cur rg))) with (slot_at w1 k (Z.to_nat (nr_cur rg))).
      change (slot_iov w' k (Z.to_nat (nr_cur rg))) with (slot_iov w1 k (Z.to_nat (nr_cur rg))).
      rewrite Ew1, (put_slot_slot_at _ _ _ _ _ _ _ _ rg row), (put_slot_slot_iov _ _ _ _ _ _ _ _ rg row) by done.
      rewrite !decide_True by done. split_and!; [done|done|done|]. cbn. f_equal. lia.
    + exists (ns_buf_idx sl). change (<[i := set_len v3 n]> (e_bufs w1) = <[i := set_idx v (ns_buf_idx sl)]> (e_bufs w)).
      assert (Eb1 : e_bufs w1 = <[i := v3]> (<[i := v2]> (e_bufs w))) by (by rewrite Ew1).
      unfold v3. by rewrite Hset, Eb1, !insert_insert_eq.
    + change (nr_num_slots <$> e_txr w1 = nr_num_slots <$> e_txr st). apply (to_slots _ _ Honly).
    + unfold w'. cbn. by rewrite Ew1.
    + change (last_step (e_last w1)). by rewrite Ew1.
    + change (e_calls w1 = e_calls w). by rewrite Ew1.
    + assert (Hmi : e_mem st !! h_iov home i = Some b') by (by rewrite Hmst, Hbi, lookup_insert_eq).
      destruct (Hin b' Hmi) as [Hi1 Hp1]. split; [exact Hp1|]. intros b'' Hb''. assert (b'' = b') as ->.
      { change (e_mem w1 !! bi = Some b'') in Hb''. rewrite Ew1 in Hb''. change (e_mem st !! bi = Some b'') in Hb''. congruence. }
      rewrite <- Hbi. replace (u16 (14 + (Z.of_nat hl + 8 + n))) with (u16 (v_len v2 + 14)); [exact Hi1|]. f_equal. cbn. lia.
    + intros x len bs Hx Hb0. by apply (Hkeep x len bs), Hkst.
    + intros i' Hne Hi'. by apply (Hoth i' Hst ltac:(by split; eauto 12) Hne).
  - set (w1 := set_cur_txr st c) in *.
    set (w' := set_iovs w1 (e_q w1) (<[i := set_len v2 n]> (e_bufs w1))).
    assert (Hback : e_bufs w' = <[i := set_idx v (v_idx v)]> (e_bufs w)).
    { cbn. rewrite insert_insert_eq. f_equal. specialize (Hset (v_idx v)). by rewrite <- Hset. }
    exists false, w'. split; [rewrite E; mstep Et; by mstep (get_iov_run i v2 w1 Hvst)|].
    destruct (set_cur_txr_inv home st st c Hst ltac:(reflexivity) Hc) as [Hinv1 _]. split.
    + apply (tx_inv_ext home w1); try done.
      change (v_idx <$> <[i := set_len v2 n]> (e_bufs st) = v_idx <$> e_bufs st).
      rewrite fmap_insert. apply insert_id. by rewrite lookup_fmap, Hvst.
    + done.
    + exists b'. split; [|done]. by rewrite <- Hmst.
    + done.
    + by exists (v_idx v).
    + done.
    + done.
    + exact Hlast.
    + done.
    + done.
    + exact Hkst.
    + done.
Qed.
End Frame.

(** ** Sending a queue of datagrams *)

(** The parts of the engine that sending keeps. *)
Record tx_keep (w w' : engine) : Prop := {
  tk_rest : e_conf w' = e_conf w ∧ e_q w' = e_q w ∧ e_neighbor w' = e_neighbor w ∧ e_sock w' = e_sock w ∧
    e_socks w' = e_socks w ∧ e_pipe w' = e_pipe w ∧ e_rxr w' = e_rxr w;
  tk_rings : nr_num_slots <$> e_txr w' = nr_num_slots <$> e_txr w;
  tk_bufs : no_idx <$> e_bufs w' = no_idx <$> e_bufs w;
  tk_calls : calls_after w w'
}.
#[export] Instance tx_keep_preorder : PreOrder tx_keep.
Proof.
  split; [done|]. intros w1 w2 w3 [] []. split; [naive_solver congruence|congruence|congruence|by transitivity w2].
Qed.

Lemma tx_only_keep w w' : tx_only w w' → tx_keep w w'.
Proof. intros [(b & tx & c & tl & sb & t & ->) Hb Hs Hk]. by split. Qed.

(** A vector up to its buffer. *)
Lemma no_idx_lookup (m m' : gmap nat w_iov) i v :
  no_idx <$> m' = no_idx <$> m → m !! i = Some v → ∃ x, m' !! i = Some (set_idx v x).
Proof.
  intros E Hv. apply (f_equal (.!! i)) in E. rewrite !lookup_fmap, Hv in E.
  destruct (m' !! i) as [v'|] eqn:Hv'; [|done]. cbn in E. injection E as E. exists (v_idx v'). f_equal.
  destruct v, v'. unfold no_idx, set_idx in *. cbn in *. congruence.
Qed.

(** The cache is searched by what identifies an address. *)
Lemma w_addr_cmp_key_r x a b : addr_key a = addr_key b → w_addr_cmp x a = w_addr_cmp x b.
Proof.
  unfold addr_key, w_addr_cmp, af_len. intros [= Eaf El]. rewrite <- Eaf in *.
  destruct (Z.eqb_spec (af x) (af a)) as [->|]; [|done]. cbn [andb].
  destruct (af a =? AF_INET); [unfold ip4, ld32; change IP4_LEN with 4%nat in El; by rewrite El|].
  unfold ip6_eql, ip6. by rewrite <- !ldn_take, El.
Qed.
Lemma neighbor_find_key (h : khash w_addr bytes) a b : addr_key a = addr_key b → kh_find h a = kh_find h b.
Proof.
  intros E. apply kh_find_ext; [|intros x; by apply w_addr_cmp_key_r].
  change (w_addr_hash a = w_addr_hash b). by rewrite !w_addr_hash_key, E.
Qed.

(** The last address that was resolved still has the same entry in the cache. *)
Definition last_ok (w : engine) : Prop := ∀ addr, w_addr_wf addr → af_ok (af addr) →
  w_addr_cmp (fst (e_last w)) addr = true → kh_find (e_neighbor w) addr = Done (Some (snd (e_last w))).

Lemma last_ok_step w w' sk v mac :
  last_ok w → e_neighbor w' = e_neighbor w → w_addr_wf (sa_addr (v_saddr v)) → last_step w sk v mac (e_last w') → last_ok w'.
Proof.
  intros Hl En Hwf [E|(_ & E & Hk)] addr Ha Haf Hc; rewrite E, En in *; [by apply Hl|].
  cbn [fst snd] in *. rewrite <- Hk. apply neighbor_find_key. by symmetry; apply w_addr_cmp_key.
Qed.

Section WTx.
Context `{NetmapLaws, !NetmapProgress} (can_alloc : kh_array → Z → bool) (fuel tries : nat).
Context (home : homes) (s : nat) (sk : w_sock) (src : w_addr).
Hypothesis Hfuel : (0 < fuel)%nat.
Hypothesis Hsrc : w_addr_wf src.
Hypothesis Hport : is_u16 (ws_lport sk).

(** The MAC address the datagram of vector [v] goes to. *)
Definition dst_mac (w : engine) (v : w_iov) (mac : bytes) : Prop :=
  (if w_connected sk then s_dmac sk = mac
   else kh_find (e_neighbor w) (sa_addr (v_saddr v)) = Done (Some mac) ∧ mac ≠ ETH_ADDR_BCAST) ∧
  length mac = 6%nat ∧ is_bytes mac.

(** The engine can send from the socket: some ring can hold a frame. *)
Record can_send (w : engine) : Prop := {
  cs_inv : tx_inv home w;
  cs_pipe : e_pipe w = false;
  cs_conf : ifconf_wf (e_conf w);
  cs_sock : e_socks w !! s = Some sk;
  cs_src : tx_src w sk = Some src;
  cs_last : w_connected sk = false → last_ok w;
  cs_ring : ∃ k r, e_txr w !! k = Some r ∧ 1 < nr_num_slots r;
  cs_inj : ∀ i i', i ∈ dom (e_bufs w) → i' ∈ dom (e_bufs w) → h_iov home i = h_iov home i' → i = i'
}.

(** Vector [i] is [v], whose buffer [b] has room for the headers in front of the
    payload and is in no ring. *)
Record tx_ready (w : engine) (i : nat) (v : w_iov) (b : bytes) : Prop := {
  rd_iov : e_bufs w !! i = Some v;
  rd_base : v_base v = (h_iov home i, 0);
  rd_mem : e_mem w !! h_iov home i = Some b;
  rd_bytes : is_bytes b;
  rd_flags : is_u8 (v_flags v);
  rd_len : 0 <= v_len v ∧ Z.of_nat (ip_len sk) + 8 + v_len v <= 65535;
  rd_fit : 14 + Z.of_nat (ip_len sk) + 8 + v_len v <= Z.of_nat (length b);
  rd_dst : w_addr_wf (sa_addr (tx_dst sk v)) ∧ af_ok (af (sa_addr (tx_dst sk v))) ∧ is_u16 (sa_port (tx_dst sk v)) ∧ ∃ mac, dst_mac w v mac;
  rd_next : is_Some (nexts (e_q w) !! i);
  rd_free : not_waiting w i
}.

(** [b'] is the frame of the datagram with the payload of [b]. *)
Record tx_frame_of (w : engine) (v : w_iov) (b b' : bytes) : Prop := {
  tf_len : length b' = length b ∧ is_bytes b';
  tf_eth : ∃ mac, dst_mac w v mac ∧ eth_hdr_ok w sk mac b';
  tf_ip : ip_hdr_ok sk v (v_len v) src b';
  tf_udp : udp_hdr_ok sk v b (v_len v) b'
}.

Lemma dst_mac_known w v mac :
  (w_connected sk = false → last_ok w) → w_addr_wf (sa_addr (tx_dst sk v)) → af_ok (af (sa_addr (tx_dst sk v))) → dst_mac w v mac → dst_known w sk v mac.
Proof.
  unfold dst_mac, dst_known, tx_dst. intros Hl Hwf Haf [Hm _]. destruct (w_connected sk); [done|].
  destruct (w_addr_cmp _ _) eqn:Ec; [|done]. specialize (Hl eq_refl _ Hwf Haf Ec). destruct Hm as [Hm _].
  rewrite Hl in Hm. by injection Hm.
Qed.

Lemma udp_tx_ready w i v b :
  can_send w → tx_ready w i v b →
  ∃ mac ret w', udp_tx can_alloc fuel tries s i w = Done (ret, w') ∧ dst_mac w v mac ∧
    udp_sent w i sk v b (h_iov home i) (v_len v) src mac home ret w'.
Proof.
  intros [C1 C2 C3 C4 C5 C6 C7 C8] [R1 R2 R3 R4 R5 R6 R7 (D1 & Da & D2 & mac & D3) R8 R9].
  pose proof (dst_mac_known w v mac C6 D1 Da D3) as Hk. destruct D3 as [D3 D4].
  destruct (udp_tx_run can_alloc fuel tries w s i sk v b (h_iov home i) (v_len v)) with (src := src) (dmac := mac) (home := home)
    as (ret & w' & E & Hs); try done; try lia.
  exists mac, ret, w'. split; [done|]. by split.
Qed.

(** What remains true after a step. *)
Lemma can_send_keep w w' :
  can_send w → tx_keep w w' → tx_inv home w' → (w_connected sk = false → last_ok w') → can_send w'.
Proof.
  intros [C1 C2 C3 C4 C5 C5' (k & r & Hr & Hn) C6] [(K1 & K2 & K3 & K4 & K5 & K6 & K7) Kr Kb _] Hinv Hlast.
  assert (Hdom : dom (e_bufs w') = dom (e_bufs w)) by (by rewrite <- (dom_fmap_L no_idx), Kb, dom_fmap_L).
  split; rewrite ?K1, ?K5, ?K6, ?Hdom; try done; [by unfold tx_src in *; rewrite K1|].
  apply (f_equal (.!! k)) in Kr. rewrite !list_lookup_fmap, Hr in Kr.
  destruct (e_txr w' !! k) as [r'|] eqn:Hr'; [|done]. cbn in Kr. injection Kr as Kr. exists k, r'. by rewrite Kr.
Qed.

Lemma tx_ready_keep w w' i v b b' :
  tx_ready w i v b → tx_keep w w' → e_mem w' !! h_iov home i = Some b' → length b' = length b → is_bytes b' →
  not_waiting w' i → ∃ x, tx_ready w' i (set_idx v x) b'.
Proof.
  intros [R1 R2 R3 R4 R5 R6 R7 RD R8 R9] [(K1 & K2 & K3 & K4 & K5 & K6 & K7) Kr Kb _] Hm Hl Hb' Hnw.
  destruct (no_idx_lookup _ _ i v Kb R1) as [x Hx]. exists x. split; try done; [by rewrite Hl| |by rewrite K2].
  unfold dst_mac in *. by rewrite K3.
Qed.

Lemma udp_sent_keep w i v b n dmac ret w' :
  udp_sent w i sk v b (h_iov home i) n src dmac home ret w' → e_bufs w !! i = Some v → tx_keep w w'.
Proof.
  intros [_ _ _ _ [x Hx] Hr Hrest _ Hc _ _ _] Hv. split; [done|done| |by exists []].
  rewrite Hx, fmap_insert. apply insert_id. by rewrite lookup_fmap, Hv.
Qed.

Lemma udp_sent_can w i v b mac ret w' :
  can_send w → tx_ready w i v b → udp_sent w i sk v b (h_iov home i) (v_len v) src mac home ret w' → can_send w'.
Proof.
  intros Hw Hi Hs. pose proof (udp_sent_keep _ _ _ _ _ _ _ _ Hs (rd_iov _ _ _ _ Hi)) as Hk.
  apply (can_send_keep w w' Hw Hk (us_inv _ _ _ _ _ _ _ _ _ _ _ _ Hs)).
  intros Hc. pose proof (proj1 (rd_dst _ _ _ _ Hi)) as Hdwf. unfold tx_dst in Hdwf. rewrite Hc in Hdwf.
  apply (last_ok_step w w' sk v mac); [by apply (cs_last _ Hw)|apply (tk_rest _ _ Hk)|done|].
  apply (us_last _ _ _ _ _ _ _ _ _ _ _ _ Hs).
Qed.

(** After a synchronisation some ring has space. *)
Lemma nic_tx_space w :
  can_send w → Forall ring_full (e_txr w) →
  ∃ w', w_nic_tx w = Done (tt, w') ∧ tx_only w w' ∧ tx_inv home w' ∧ ¬ Forall ring_full (e_txr w') ∧
    (∀ i, not_waiting w i → not_waiting w' i) ∧
    cursors w' = cursors w ∧ ∀ x len b, in_ring w x len b → shown w w' x len b.
Proof.
  intros [C1 C2 C3 C4 _ _ (k & r & Hr & Hn) C6] Hfull.
  assert (Hwf : Forall ring_wf (e_txr w)).
  { apply Forall_lookup. intros k' r' Hr'. by apply (tc_ring _ _ _ (tx_core_inv _ _ C1) k' r'). }
  destruct (tx_progress (e_calls w) (e_txr w) Hwf) as (txr' & Hsync & Hprog).
  pose proof (nioctxsync_law _ _ _ Hwf Hsync) as Hs.
  destruct (w_nic_tx_run home w txr' C1 C2 Hsync) as (w1 & E1 & Hpost). exists w1.
  destruct (nic_tx_post_shown home w txr' w1 Hpost Hs) as [Hcur Hshn].
  split_and!; [done|by apply (nic_tx_post_only home w txr')|apply (np_inv _ _ _ _ Hpost)| | |done|done].
  - intros Hfull1. destruct (Forall2_lookup_l _ _ _ _ _ Hs Hr) as (r1 & Hr1 & [_ _ T3]).
    pose proof (f_equal (.!! k) (np_rings _ _ _ _ Hpost)) as Hsh. cbv beta in Hsh.
    rewrite !list_lookup_fmap, Hr1 in Hsh. destruct (e_txr w1 !! k) as [r2|] eqn:Hr2; [|done].
    cbn in Hsh. unfold ring_shape in Hsh. injection Hsh as Q1 Q2 Q3 Q4 Q5 Q6.
    pose proof (proj1 (Forall_lookup _ _) Hfull k r Hr) as F. pose proof (proj1 (Forall_lookup _ _) Hfull1 k r2 Hr2) as F2.
    destruct (proj1 (Forall_lookup _ _) Hwf k r Hr) as [W1 W2 W3 W4 W5].
    unfold ring_full in *. apply (Hprog k r r1 Hr Hr1); [ring_lia|].
    rewrite <- Q5, <- F2, Q4, T3. cbn. congruence.
  - intros i Hi. by apply (nic_tx_post_waiting home w txr').
Qed.

(** The length of the frame of a datagram. *)
Definition frame_len (v : w_iov) : Z := u16 (14 + (Z.of_nat (ip_len sk) + 8 + v_len v)).

(** Vector [i] is placed in the next slot of a ring, after at most one synchronisation. *)
Definition tx_placed (w : engine) (i : nat) (w' : engine) : Prop :=
  placed_once w w' ∧
  (udp_tx can_alloc fuel tries s i w = Done (true, w') ∨
   ∃ w1 w2, udp_tx can_alloc fuel tries s i w = Done (false, w1) ∧ w_nic_tx w1 = Done (tt, w2) ∧
     udp_tx can_alloc fuel tries s i w2 = Done (true, w')).

(** Only the configuration and the neighbor cache of the engine matter. *)
Lemma tx_frame_of_ext w w1 v b b' :
  e_conf w1 = e_conf w → e_neighbor w1 = e_neighbor w → tx_frame_of w1 v b b' → tx_frame_of w v b b'.
Proof.
  intros Hc Hnb [L1 (mac & M & [E1 E2 E3]) I1 U1]. split; [done| |done|done].
  exists mac. unfold dst_mac in *. rewrite <- Hnb. split; [done|]. by split; [|rewrite E2, Hc|].
Qed.

Lemma tx_frame_of_trans w w1 v x b b1 b' :
  e_conf w1 = e_conf w → e_neighbor w1 = e_neighbor w → tx_frame_of w v b b1 → tx_frame_of w1 (set_idx v x) b1 b' → tx_frame_of w v b b'.
Proof.
  intros Hc Hnb [[L1 L2] E1 I1 U1] [[L1' L2'] (mac & M & [E1' E2' E3']) I1' [U1' U2' U3' U4' U5']].
  split; [by split; [congruence|]| |exact I1'|].
  { exists mac. unfold dst_mac in *. rewrite <- Hnb. split; [done|]. by split; [|rewrite E2', Hc|]. }
  split; try done. change (v_len (set_idx v x)) with (v_len v) in U5'. rewrite U5'. apply (uf_data _ _ _ _ _ U1).
Qed.

Lemma tx_retry_run w i v b k :
  can_send w → tx_ready w i v b →
  ∃ w' b', tx_retry can_alloc fuel tries (S (S k)) s i (v_len v) w = Done (tt, w') ∧ tx_placed w i w' ∧
    tx_keep w w' ∧ can_send w' ∧ e_mem w' = <[h_iov home i := b']> (e_mem w) ∧ tx_frame_of w v b b' ∧
    (∀ i', i' ≠ i → not_waiting w i' → not_waiting w' i') ∧
    in_ring w' (h_iov home i) (frame_len v) b' ∧
    ∀ x len bs, x ≠ h_iov home i → in_ring w x len bs → handed w w' x len bs.
Proof.
  intros Hw Hi. destruct (udp_tx_ready w i v b Hw Hi) as (mac1 & ret & w1 & E1 & Hmac1 & Hs1).
  pose proof (udp_sent_keep _ _ _ _ _ _ _ _ Hs1 (rd_iov _ _ _ _ Hi)) as Hk1.
  pose proof (udp_sent_can _ _ _ _ _ _ _ Hw Hi Hs1) as Hw1.
  destruct Hs1 as [S1 S2 (b1 & Hm1 & Hl1 & Hb1 & He1 & Hip1 & Hu1) S4 S5 S6 S7 S8 S9 S10 S11 S12].
  assert (Hf1 : tx_frame_of w v b b1) by (split; [done|by exists mac1|done|done]).
  assert (Er : tx_retry can_alloc fuel tries (S (S k)) s i (v_len v) w =
    (if (ret : bool) then mret tt
     else w_nic_tx ;; v' ← get_iov i; put_iov i (set_len v' (v_len v)) ;;
          tx_retry can_alloc fuel tries (S k) s i (v_len v)) w1).
  { change (tx_retry can_alloc fuel tries (S (S k)) s i (v_len v)) with
      (ret ← udp_tx can_alloc fuel tries s i;
       if (ret : bool) then mret tt
       else w_nic_tx ;; v' ← get_iov i; put_iov i (set_len v' (v_len v)) ;;
            tx_retry can_alloc fuel tries (S k) s i (v_len v)). by mstep E1. }
  rewrite Er. destruct ret.
  { destruct S10 as [S10 Hin]. exists w1, b1.
    split_and!; [done|by split; [|left]|done|done|done|done|done| |].
    - apply Hin. by rewrite Hm1, lookup_insert_eq.
    - intros x len bs Hx Hbs. left. by apply S11. }
  destruct S4 as [S4 S4']. assert (Hfull : Forall ring_full (e_txr w1)) by (rewrite S4; by apply S2).
  destruct (nic_tx_space w1 Hw1 Hfull) as (w2 & E2 & Ho & Hinv2 & Hsp & Hnw2 & Hcur2 & Hsh2).
  pose proof (tx_only_keep _ _ Ho) as Hk2. destruct (tx_only_rest _ _ Ho) as (_ & Hm2 & _).
  assert (Hl2 : w_connected sk = false → last_ok w2).
  { intros Hc addr. destruct Ho as [(? & ? & ? & ? & ? & ? & ->) _ _ _]. by apply (cs_last _ Hw1). }
  assert (Hw2 : can_send w2) by by apply (can_send_keep w1).
  assert (Hk12 : tx_keep w w2) by by transitivity w1.
  assert (Hi2 : ∃ x, tx_ready w2 i (set_idx v x) b1).
  { apply (tx_ready_keep w w2 i v b b1); try done; [by rewrite Hm2, Hm1, lookup_insert_eq|].
    apply Hnw2, S4', (rd_free _ _ _ _ Hi). }
  destruct Hi2 as [x Hi2]. mstep E2. mstep (get_iov_run i _ w2 (rd_iov _ _ _ _ Hi2)).
  assert (Ep : put_iov i (set_len (set_idx v x) (v_len v)) w2 = Done (tt, w2)).
  { unfold put_iov. change (set_len (set_idx v x) (v_len v)) with (set_idx v x).
    rewrite insert_id by apply (rd_iov _ _ _ _ Hi2). by rewrite set_iovs_id. }
  mstep Ep. destruct (udp_tx_ready w2 i _ b1 Hw2 Hi2) as (mac3 & ret & w3 & E3 & Hmac3 & Hs3).
  pose proof (udp_sent_keep _ _ _ _ _ _ _ _ Hs3 (rd_iov _ _ _ _ Hi2)) as Hk3.
  pose proof (udp_sent_can _ _ _ _ _ _ _ Hw2 Hi2 Hs3) as Hw3.
  destruct Hs3 as [T1 T2 (b3 & Hm3 & Hl3 & Hb3 & He3 & Hip3 & Hu3) T4 T5 T6 T7 T8 T9 T10 T11 T12].
  destruct ret; [|by destruct Hsp; apply T2]. destruct T10 as [T10 Hin].
  exists w3, b3. split_and!.
  - cbn [tx_retry]. by mstep E3.
  - split; [|right; by exists w1, w2]. apply (placed_once_ext w w2); [congruence|apply Hk12|exact T10].
  - by transitivity w2.
  - done.
  - by rewrite Hm3, Hm2, Hm1, insert_insert_eq.
  - apply (tx_frame_of_trans w w2 v x b b1 b3); [apply (tk_rest _ _ Hk12)|apply (tk_rest _ _ Hk12)|done|].
    split; [done|by exists mac3|done|done].
  - intros i' Hne Hi'. apply T12; [done|]. apply Hnw2. by apply S12.
  - apply (Hin b3). by rewrite Hm3, lookup_insert_eq.
  - intros z len bs Hz Hbs. right. apply (shown_mono w w1 w2 w3); [apply Hk1| |apply Hk3]. by apply Hsh2, S11.
Qed.

(** The vectors of [l] are placed one after the other. *)
Fixpoint tx_sequence (w : engine) (l : list nat) (w' : engine) : Prop :=
  match l with
  | [] => w' = w
  | i :: l => ∃ w1, tx_placed w i w1 ∧ tx_sequence w1 l w'
  end.

Lemma ready_dom w i v b : tx_ready w i v b → i ∈ dom (e_bufs w).
Proof. intros []. by apply elem_of_dom. Qed.

Lemma tx_all_run k : ∀ l w,
  NoDup l → can_send w → (∀ i, i ∈ l → ∃ v b, tx_ready w i v b) →
  ∃ w', tx_all can_alloc fuel tries (S (S k)) s l w = Done (tt, w') ∧ tx_sequence w l w' ∧ tx_keep w w' ∧
    can_send w' ∧
    (∀ i v b, i ∈ l → tx_ready w i v b → ∃ b', e_mem w' !! h_iov home i = Some b' ∧ tx_frame_of w v b b') ∧
    (∀ id, id ∉ h_iov home <$> l → e_mem w' !! id = e_mem w !! id) ∧
    (∀ i, i ∉ l → not_waiting w i → not_waiting w' i) ∧
    (∀ x len bs, x ∉ h_iov home <$> l → in_ring w x len bs → handed w w' x len bs) ∧
    ∀ i v b b', i ∈ l → tx_ready w i v b → e_mem w' !! h_iov home i = Some b' →
      handed w w' (h_iov home i) (frame_len v) b'.
Proof.
  induction l as [|i l IH]; intros w Hnd Hw Hrd.
  { exists w. split_and!; try done; [by intros i v b ?%elem_of_nil|by left|by intros i v b b' ?%elem_of_nil]. }
  apply NoDup_cons in Hnd as [Hi Hnd]. destruct (Hrd i) as (v & b & Hri); [by left|].
  destruct (tx_retry_run w i v b k Hw Hri) as (w1 & b1 & E1 & Hp & Hk1 & Hw1 & Hm1 & Hf1 & Hoth & Hin1 & Hkp1).
  assert (Hne : ∀ i' v' b', i' ∈ l → tx_ready w i' v' b' → i' ≠ i ∧ h_iov home i' ≠ h_iov home i).
  { intros i' v' b' Hi' Hr'. assert (i' ≠ i) by (by intros ->). split; [done|].
    intros E. apply (cs_inj _ Hw) in E; [done|by eapply ready_dom|by eapply ready_dom]. }
  assert (Hrd1 : ∀ i' v' b', i' ∈ l → tx_ready w i' v' b' → ∃ x, tx_ready w1 i' (set_idx v' x) b').
  { intros i' v' b' Hi' Hr'. destruct (Hne i' v' b' Hi' Hr') as [Hn1 Hn2].
    apply (tx_ready_keep w w1 i' v' b' b' Hr' Hk1); [|done|apply (rd_bytes _ _ _ _ Hr')|].
    - rewrite Hm1, lookup_insert_ne by done. apply (rd_mem _ _ _ _ Hr').
    - apply Hoth; [done|]. apply (rd_free _ _ _ _ Hr'). }
  destruct (IH w1 Hnd Hw1) as (w2 & E2 & Hseq & Hk2 & Hw2 & Hf2 & Hm2 & Hnw2 & Hkp2 & Hin2).
  - intros i' Hi'. destruct (Hrd i') as (v' & b' & Hr'); [by right|].
    destruct (Hrd1 i' v' b' Hi' Hr') as [x Hx]. eauto.
  - assert (Hil : h_iov home i ∉ h_iov home <$> l).
    { intros (i' & E & Hi')%list_elem_of_fmap. destruct (Hrd i') as (v' & b' & Hr2); [by right|].
      by destruct (Hne i' v' b' Hi' Hr2). }
    exists w2. split_and!; [|by exists w1|by transitivity w1|done| | | | |].
    + cbn [tx_all]. mstep (get_iov_run i v w (rd_iov _ _ _ _ Hri)). by mstep E1.
    + intros i' v' b' Hi' Hr'. apply elem_of_cons in Hi' as [->|Hi'].
      * assert (v' = v) as -> by (pose proof (rd_iov _ _ _ _ Hri); pose proof (rd_iov _ _ _ _ Hr'); congruence).
        assert (b' = b) as -> by (pose proof (rd_mem _ _ _ _ Hri); pose proof (rd_mem _ _ _ _ Hr'); congruence).
        exists b1. split; [|done]. by rewrite Hm2, Hm1, lookup_insert_eq.
      * destruct (Hrd1 i' v' b' Hi' Hr') as [x Hx]. destruct (Hf2 i' _ b' Hi' Hx) as (b2 & Hb2 & [F1 (mac & M & [G1 G2 G3]) F3 [U1 U2 U3 U4 U5]]).
        pose proof (tk_rest _ _ Hk1) as (Kc & _ & Kn & _).
        exists b2. split; [done|]. split; [done| |exact F3|by split].
        exists mac. unfold dst_mac in *. rewrite <- Kn. split; [done|]. split; [done|by rewrite G2, Kc|done].
    + intros id Hid. rewrite fmap_cons in Hid. apply not_elem_of_cons in Hid as [Ha Hb].
      by rewrite Hm2, Hm1, lookup_insert_ne.
    + intros i' [Hne' Hl]%not_elem_of_cons Hnw. apply Hnw2; [done|]. by apply Hoth.
    + intros x len bs Hx Hbs. rewrite fmap_cons in Hx. apply not_elem_of_cons in Hx as [Hx1 Hx2].
      apply (handed_trans w w1); [apply Hk1|apply Hk2|by apply Hkp2|by apply Hkp1].
    + intros i' v' b' b2 Hi' Hr' Hb2. apply elem_of_cons in Hi' as [->|Hi'].
      * assert (v' = v) as -> by (pose proof (rd_iov _ _ _ _ Hri); pose proof (rd_iov _ _ _ _ Hr'); congruence).
        assert (b2 = b1) as -> by (rewrite Hm2, Hm1, lookup_insert_eq in Hb2 by done; congruence).
        apply (handed_trans w w1); [apply Hk1|apply Hk2|by apply Hkp2|by left].
      * destruct (Hrd1 i' v' b' Hi' Hr') as [x Hx].
        destruct (Hin2 i' _ b' b2 Hi' Hx Hb2) as [?|?]; [by left|right]. by apply (shown_mono w w1 w2 w2); [apply Hk1| |].
Qed.

(** C5: If some ring has more than one slot and every synchronisation transmits something,
    w_tx of a socket, connected or with the destination in each vector and resolved, terminates
    and places the vectors of the queue in order, each in the next slot of a ring and after at
    most one synchronisation; each of these slots names the buffer of its vector with the length
    of the frame and is marked as changed, until the kernel was shown it; each frame has the Ethernet, IP and UDP
    headers for its destination with verifying checksums in front of the unchanged payload,
    and no other buffer or vector changes. *)
Theorem w_tx_correct D m w o xs :
  eng_inv D m w → m !! o = Some xs → (1 < size D)%nat →
  can_send w → (∀ i, i ∈ xs → ∃ v b, tx_ready w i v b) →
  ∃ w', w_tx can_alloc fuel tries (size D) s o w = Done (tt, w') ∧
    tx_sequence w xs w' ∧ tx_keep w w' ∧ eng_inv D m w' ∧ can_send w' ∧
    (∀ i v b, i ∈ xs → tx_ready w i v b → ∃ b', e_mem w' !! h_iov home i = Some b' ∧ tx_frame_of w v b b' ∧
      handed w w' (h_iov home i) (frame_len v) b') ∧
    ∀ id, id ∉ h_iov home <$> xs → e_mem w' !! id = e_mem w !! id.
Proof.
  intros Heng Hm Hsz Hw Hrd. destruct (inv_repr D _ m (ei_q _ _ _ Heng) o xs Hm) as [_ _ Hnd].
  destruct (size D) as [|[|k]] eqn:Ek; [lia..|].
  destruct (tx_all_run k xs w Hnd Hw Hrd) as (w' & E & Hseq & Hk & Hw' & Hf & Hmem & _ & _ & Hin).
  exists w'. split_and!; try done.
  - unfold w_tx. pose proof (liftq_foreach D m w o xs Heng Hm) as El. rewrite Ek in El. by mstep El.
  - destruct Heng as [Q1 Q2 Q3]. destruct Hk as [(_ & K2 & _) _ Kb _]. split; [by rewrite K2| |done].
    by rewrite <- (dom_fmap_L no_idx), Kb, dom_fmap_L.
  - intros i v b Hi Hr. destruct (Hf i v b Hi Hr) as (b' & Hb' & Hfr). exists b'. split; [done|]. split; [done|].
    by apply (Hin i v b).
Qed.
End WTx.

(** ** Witness *)

(** The engine with a connected socket and vector 3 with a payload of four bytes in
    queue 10. *)
Definition payload_ex : bytes := repeat 0 42 ++ [0xde; 0xad; 0xbe; 0xef] ++ repeat 0 82.
Definition sock_tx_ex : w_sock :=
  WSock (WSocktuple loc_ex (WSockaddr (addr_ex4 10 0 0 2) 0x5100) 0) peer_mac_ex (WSockopt false false) 10.
Definition iov_tx_ex : w_iov := set_len (iov_ex 3) 4.
Definition eng_send_ex : engine :=
  set_socks (set_iovs (set_mem eng_mem_ex (<[3 := payload_ex]> mem_ex))
    (QHeap (<[10 := SqHead (Some 3) (LNext 3) 1]> (heads (e_q eng_ex))) (nexts (e_q eng_ex)))%nat
    (<[3%nat := iov_tx_ex]> (e_bufs eng_ex))) kh_init {[5%nat := sock_tx_ex]}.
Definition eng_send_ex_m : queues := {[0 := [0; 1; 2]; 10 := [3]]}%nat.

Lemma eng_send_ex_inv : eng_inv eng_ex_D eng_send_ex_m eng_send_ex.
Proof.
  split; [|by vm_compute|by eexists]. split.
  - by vm_compute.
  - intros h xs. unfold eng_send_ex_m. rewrite lookup_insert_Some, lookup_singleton_Some.
    intros [[<- <-]|[_ [<- <-]]]; split.
    + reflexivity.
    + cbn [chain]. split_and!; done.
    + by eapply bool_decide_unpack, Is_true_eq_left.
    + reflexivity.
    + cbn [chain]. split_and!; done.
    + by eapply bool_decide_unpack, Is_true_eq_left.
  - intros h1 h2 xs ys e. unfold eng_send_ex_m. rewrite !lookup_insert_Some, !lookup_singleton_Some.
    intros [[<- <-]|[_ [<- <-]]] [[<- <-]|[_ [<- <-]]]; set_solver.
Qed.

#[local] Existing Instance netmap_ex.

Lemma eng_send_ex_can : can_send homes_ex 5 sock_tx_ex (sa_addr loc_ex) eng_send_ex.
Proof.
  split.
  - apply (tx_inv_ext homes_ex eng_tx_ex); [reflexivity..|apply eng_tx_ex_inv].
  - reflexivity.
  - apply ifconf_ex_wf.
  - reflexivity.
  - reflexivity.
  - discriminate.
  - exists 0%nat, ring_ex. by split.
  - intros i i' _ _. cbn. lia.
Qed.

Lemma eng_send_ex_ready : tx_ready homes_ex sock_tx_ex eng_send_ex 3 iov_tx_ex payload_ex.
Proof.
  split; try done.
  - apply (bool_decide_unpack (Forall is_u8 payload_ex)). vm_compute. exact I.
  - split; [by apply addr_wf_dec|]. split; [by left|]. split; [by vm_compute|]. exists peer_mac_ex. split; [done|]. split; [done|].
    by apply (bool_decide_unpack (Forall is_u8 peer_mac_ex)).
  - intros k j Hp. by apply eng_tx_ex_waiting in Hp.
Qed.

Lemma w_tx_correct_witness :
  ∃ w' b', w_tx (λ _ _, true) 5 1 (size eng_ex_D) 5 10 eng_send_ex = Done (tt, w') ∧
    e_mem w' !! 3 = Some b' ∧ payload_cksum b' 14 32 = Done 0 ∧ ldn b' 42 4 = [0xde; 0xad; 0xbe; 0xef].
Proof.
  destruct (w_tx_correct (λ _ _, true) 5 1 homes_ex 5 sock_tx_ex (sa_addr loc_ex)) with
    (D := eng_ex_D) (m := eng_send_ex_m) (w := eng_send_ex) (o := 10%nat) (xs := [3%nat])
    as (w' & E & _ & _ & _ & _ & Hf & _).
  - lia.
  - by apply addr_wf_dec.
  - done.
  - apply eng_send_ex_inv.
  - reflexivity.
  - vm_compute. lia.
  - apply eng_send_ex_can.
  - intros i ->%list_elem_of_singleton. exists iov_tx_ex, payload_ex. apply eng_send_ex_ready.
  - destruct (Hf 3%nat iov_tx_ex payload_ex) as (b' & Hb & [_ _ _ [_ _ _ Hc Hd]] & _);
      [by left|apply eng_send_ex_ready|].
    exists w', b'. split; [exact E|]. split; [exact Hb|]. split; [exact Hc|]. exact Hd.
Defined.
