(* ===== verification/Datagram.v ===== *)
(** From one host to another: the frames that [w_tx] puts into the TX rings of one engine
    (Tx.v), received by the [w_nic_rx] of another (NicRx.v), deliver the payload, with its
    sender's address, to the socket that the addresses lead to. *)

From S2P Require Import Prelude Util Krng Queue Wire Cksum Addr Khash Engine Netmap Ip Send Sock Arp Icmp Icmp6 Rx Reply NicRx Connect Tx.

(** A link carries the first [len] bytes of a buffer [b] into a buffer [rb]. *)
Definition carried (len : Z) (b rb : bytes) : Prop :=
  is_bytes rb ∧ len <= Z.of_nat (length rb) ∧ ldn rb 0 (Z.to_nat len) = ldn b 0 (Z.to_nat len).

Section Wire.
Context (wa : engine) (sk : w_sock) (src : w_addr) (va : w_iov) (b b' rb : bytes).
Hypothesis Hframe : tx_frame_of sk src wa va b b'.
Hypothesis Hflags : is_u8 (v_flags va).
Let n := v_len va.
Let hl := ip_len sk.
Hypothesis Hlen : 0 <= n ∧ 14 + (Z.of_nat hl + 8 + n) <= 65535.
Hypothesis Hfit : 14 + Z.of_nat hl + 8 + n <= Z.of_nat (length b).
Hypothesis Hwire : carried (frame_len sk va) b' rb.

(** The received bytes are the frame. *)
Lemma carried_frame :
  tx_frame_of sk src wa va rb rb ∧ ldn rb (14 + hl + 8) (Z.to_nat n) = ldn b (14 + hl + 8) (Z.to_nat n).
Proof.
  destruct Hframe as [[Hlb Hbb] (mac & Hmac & [E1 E2 E3]) Hip [U1 U2 U3 U4 U5]]. fold n hl in Hip, U1, U2, U3, U4, U5.
  destruct Hlen as [Hn Ht]. destruct Hwire as (Hrb & Hrl & Hw).
  assert (Hfl : frame_len sk va = Z.of_nat (14 + hl + 8 + Z.to_nat n)).
  { unfold frame_len. fold n hl. rewrite u16_id by (unfold_u; lia). lia. }
  rewrite Hfl, Nat2Z.id in Hw. rewrite Hfl in Hrl. clear Hfl.
  assert (E : ∀ o k, (o + k <= 14 + hl + 8 + Z.to_nat n)%nat → ldn rb o k = ldn b' o k).
  { intros o k Hok. change (ldn rb (0 + o) k = ldn b' (0 + o) k).
    pose proof (ldn_ldn rb 0 _ o k Hok) as R1. pose proof (ldn_ldn b' 0 _ o k Hok) as R2. rewrite Hw in R1.
    by rewrite <- R1, <- R2. }
  assert (Hd : ldn rb (14 + hl + 8) (Z.to_nat n) = ldn b' (14 + hl + 8) (Z.to_nat n)) by (apply E; lia).
  split; [|by rewrite Hd]. split.
  - done.
  - exists mac. split; [done|]. split; unfold ld16 in *; by rewrite E by wire_lia.
  - fold n. apply (ip_hdr_ok_ldn sk va b n ltac:(lia) Hfit src b' rb); try done; try (fold hl; lia).
    fold hl. intros o k Ho. apply E. lia.
  - fold n. destruct (ip_hdr_payload 1 sk va b n ltac:(lia) Hflags ltac:(done) ltac:(lia) Hfit src b' Hip Hbb Hlb) as [Hpay _].
    fold hl in Hpay. split; fold hl; unfold ld16 in *; rewrite ?E by wire_lia; try done.
    destruct (enable_udp_zero_checksums _); [done|].
    rewrite (payload_cksum_prefix b' rb); [done|done|done|lia|]. intros o k Ho Ho'. apply E. lia.
Qed.
End Wire.

Section Link.
(** The sender's socket, its vector and buffer, and the frame. *)
Context (wa : engine) (sk : w_sock) (src : w_addr) (va : w_iov) (b rb : bytes).
Hypothesis Hframe : tx_frame_of sk src wa va b rb.
Let dst := tx_dst sk va.
(** The sender's address, as the receiver sees it. *)
Let from := WSockaddr src (ws_lport sk).
Hypothesis Htup : w_addr_wf src ∧ w_addr_wf (sa_addr dst).
Hypothesis Haf : (ws_af sk = AF_INET ∨ ws_af sk = AF_INET6) ∧ af src = ws_af sk ∧ af (sa_addr dst) = ws_af sk.
Hypothesis Hflags : is_u8 (v_flags va).
Hypothesis Hlen : 0 <= v_len va ∧ Z.of_nat (ip_len sk) + 8 + v_len va <= 65535.
Hypothesis H54 : (54 <= length rb)%nat.

Let n := v_len va.
Let hl := ip_len sk.

(** What the receiver reads from the headers. *)
Lemma link_info iv :
  w_addr_wf (sa_addr (v_saddr iv)) →
  ∃ laddr iv', udp_info rb iv = (Z.of_nat hl, 8 + n, (14 + hl)%nat, laddr, iv') ∧
    w_addr_wf laddr ∧ w_addr_cmp laddr (sa_addr dst) = true ∧
    w_addr_wf (sa_addr (v_saddr iv')) ∧ w_addr_cmp (sa_addr (v_saddr iv')) src = true ∧
    v_base iv' = v_base iv ∧ v_idx iv' = v_idx iv.
Proof.
  intros Hiv. pose proof H54 as Hrbl. destruct Hframe as [[_ Hrbb] _ Hip _]. unfold ip_hdr_ok in Hip. fold dst in Hip.
  destruct Htup as [Hl Hr]. destruct Haf as (Haf1 & Haf3 & Haf2). destruct Hlen as [Hn1 Hn2]. fold n in Hn1, Hn2, Hip.
  pose proof (wf_len _ Hiv) as Hul.
  unfold hl, ip_len, udp_info in *. destruct (Z.eqb_spec (ws_af sk) AF_INET) as [E|E].
  - destruct Hip as (id & [V T Ln _ _ _ _ S1 D1 _]).
    rewrite Nat.add_0_r in V. rewrite V. change (ip_v 0x45 =? 4) with true. change (ip4_hl 0x45) with 20. cbv iota.
    rewrite Ln, S1, D1, bswap16_invol by (unfold_u; lia). replace (u16 (28 + n - 20)) with (8 + n) by (rewrite u16_id; unfold_u; lia).
    eexists _, _. split; [reflexivity|]. split_and!; try done; [apply addr4_wf| |by apply set_ip4_wf; apply Hiv| ].
    + apply addr4_cmp; [done|by rewrite Haf2|done].
    + apply addr4_cmp; [done|by rewrite Haf3|done].
  - destruct Haf1 as [?|E6]; [done|]. destruct Hip as (x & Hx & [W Ln _ _ S1 D1]).
    rewrite Nat.add_0_r in W.
    assert (Hv6 : ip_v (ld8 rb 14) = 6) by (rewrite <- u8_ld32, W by (done || lia); by apply ip6_word_version).
    rewrite Hv6. change (6 =? 4) with false. cbv iota. rewrite Ln, S1, D1, bswap16_invol by (unfold_u; lia).
    assert (Hwf : ∀ a, w_addr_wf a → w_addr_wf (WAddr AF_INET6 (take IP6_LEN (ip6 a)))).
    { intros a Ha. destruct (ip6_take a Ha). by split. }
    eexists _, _. split; [reflexivity|]. split_and!; try done; [by apply Hwf| |cbn; by apply Hwf|].
    + apply addr6_cmp; [done|by rewrite Haf2].
    + apply addr6_cmp; [done|by rewrite Haf3].
Qed.

Definition no_iov : w_iov := WIov zero_sockaddr (0, 0) (0, 0) 0 0 0 0 0.

Lemma link_read :
  udp_off rb = (14 + hl)%nat ∧ udp_hl rb = Z.of_nat hl ∧ udp_plen rb = 8 + n ∧ udp_len rb = 8 + n ∧
  udp_payload rb = ldn b (14 + hl + 8) (Z.to_nat n) ∧
  w_sockaddr_cmp (udp_from rb) from = true ∧ w_sockaddr_cmp (udp_to rb) dst = true.
Proof.
  destruct Hlen as [Hn1 Hn2]. fold n hl in Hn1, Hn2. destruct (tf_len _ _ _ _ _ _ Hframe) as [_ Hb].
  destruct (link_info no_iov zero_sockaddr_wf) as (la & iv & Hi & Hlw & Hlc & Hw & Hc & _).
  destruct (udp_info_eq rb no_iov zero_sockaddr_wf Hb H54) as (iv' & Hi' & Hw' & Hc' & _). rewrite Hi in Hi'.
  assert (Eoff : (14 + hl)%nat = udp_off rb) by congruence. assert (Epl : 8 + n = udp_plen rb) by congruence.
  assert (Ehl : Z.of_nat hl = udp_hl rb) by congruence. assert (udp_laddr rb = la) as Ela by congruence.
  assert (iv' = iv) as -> by congruence. clear Hi Hi'.
  destruct (tf_udp _ _ _ _ _ _ Hframe) as [U1 U2 U3 U4 U5]. fold hl n dst in U1, U2, U3, U4, U5.
  assert (El : udp_len rb = 8 + n).
  { unfold udp_len. rewrite <- Eoff, <- Epl, U3, bswap16_invol by (unfold_u; lia). lia. }
  split_and!; [done|done|done|done| | |].
  - unfold udp_payload. rewrite El, <- Eoff. replace (8 + n - 8) with n by lia. exact U5.
  - unfold w_sockaddr_cmp, udp_from, from. cbn [sa_port sa_addr]. rewrite <- Eoff, U1, Z.eqb_refl. cbn [andb].
    pose proof (udp_raddr_wf rb Hb H54) as Hr. destruct Htup as [Hs _].
    apply w_addr_cmp_key; [done..|]. apply w_addr_cmp_key in Hc, Hc'; congruence.
  - unfold w_sockaddr_cmp, udp_to. cbn [sa_port sa_addr]. by rewrite <- Eoff, U2, Z.eqb_refl, Ela, Hlc.
Qed.

Lemma link_valid : udp_valid rb = true.
Proof.
  destruct link_read as (Eo & Eh & Ep & El & _). destruct Hlen as [Hn1 Hn2]. fold n hl in Hn1, Hn2.
  destruct (tf_udp _ _ _ _ _ _ Hframe) as [_ _ _ U4 _]. fold hl n in U4.
  unfold udp_valid. rewrite Eo, Eh, Ep, El, (proj2 (Z.leb_le 8 _)) by lia. cbn [andb].
  destruct (enable_udp_zero_checksums _); [by rewrite U4|].
  replace (u16 (8 + n + Z.of_nat hl)) with (Z.of_nat hl + 8 + n) by (rewrite u16_id by (unfold_u; lia); lia).
  rewrite U4. apply orb_true_r.
Qed.

(** The host whose MAC address the sender uses and whose interface has the destination
    address takes the frame for a datagram. *)
Definition our_addr (cf : ifconf) (a : w_addr) : Prop :=
  if af a =? AF_INET then have_ip4 cf = true ∧ ∃ r, is_my_ip4 cf (ip4 a) true = Done r ∧ r ≠ UINT16_MAX
  else have_ip6 cf = true ∧ ∃ r, is_my_ip6 cf (take IP6_LEN (ip6 a)) true = Done r ∧ r ≠ UINT16_MAX.

Lemma dst_mac_eq m1 m2 : dst_mac sk wa va m1 → dst_mac sk wa va m2 → m1 = m2.
Proof. unfold dst_mac. destruct (w_connected sk); intros [H1 _] [H2 _]; [congruence|]. destruct H1, H2. congruence. Qed.

Lemma link_kind cf : dst_mac sk wa va (mac cf) → our_addr cf (sa_addr dst) → kind_of cf rb = KUdp.
Proof.
  intros Hmac Hour. destruct Hframe as [[_ Hrbb] (m' & Hm' & [E1 _ E3]) Hip _].
  rewrite <- (dst_mac_eq _ _ Hmac Hm') in E1. destruct Haf as (Haf1 & _ & Haf2). unfold our_addr in Hour. rewrite Haf2 in Hour.
  unfold kind_of, eth_for_us. rewrite E1, E3. unfold bytes_eqb at 1. rewrite bool_decide_true by done. cbn [orb].
  unfold ip_hdr_ok in Hip. fold dst in Hip. destruct (Z.eqb_spec (ws_af sk) AF_INET) as [E|E].
  - destruct Hour as [-> (r & Hr & Hne)]. destruct Hip as (id & [V T Ln _ Of _ P S1 D1 Ck]). rewrite Nat.add_0_r in V.
    change (ETH_TYPE_IP4 =? ETH_TYPE_IP6) with false. rewrite Z.eqb_refl. cbv iota.
    unfold ip4_ok. rewrite V, D1, Hr, (proj2 (Z.eqb_neq _ _) Hne). change (ip4_hl 0x45) with 20. rewrite Ck, Of.
    change (Z.land IP4_DF IP4_OFFMASK =? 0) with true. cbn. unfold kind4. by rewrite P.
  - destruct Haf1 as [?|E6]; [done|]. destruct Hour as [-> (r & Hr & Hne)]. destruct Hip as (x & Hx & [W Ln Nh _ S1 D1]).
    rewrite Nat.add_0_r in W. rewrite Z.eqb_refl. cbv iota.
    assert (Hv6 : ip_v (ld8 rb 14) = 6) by (rewrite <- u8_ld32, W by (done || lia); by apply ip6_word_version).
    unfold ip6_ok. rewrite Hv6, D1, Hr, (proj2 (Z.eqb_neq _ _) Hne). cbn [andb negb Z.eqb Pos.eqb]. unfold kind6. by rewrite Nh.
Qed.

Lemma link_dest cf (tm : sock_map) :
  km_wf tm → dst_mac sk wa va (mac cf) → our_addr cf (sa_addr dst) → frame_dest cf tm rb = udp_dest tm dst from.
Proof.
  intros Hm Hmac Hour. unfold frame_dest. rewrite (link_kind cf Hmac Hour), link_valid.
  destruct link_read as (_ & _ & _ & _ & _ & Hf & Ht). destruct Htup as [Hl Hr]. destruct (tf_len _ _ _ _ _ _ Hframe) as [_ Hb].
  apply udp_dest_equal; try done; [|by apply udp_raddr_wf].
  unfold udp_to, udp_laddr. cbn [sa_addr]. destruct (udp_v4 rb); [apply addr4_wf|].
  split; [done|apply ldn_is_bytes, Hb|apply length_ldn; wire_lia].
Qed.
End Link.

(** Vector [y] holds a datagram with the payload [data] from [from]. *)
Definition datagram (w : engine) (y : nat) (data : bytes) (from : w_sockaddr) : Prop :=
  ∃ v buf, e_bufs w !! y = Some v ∧ e_mem w !! fst (v_buf v) = Some buf ∧ w_addr_wf (sa_addr (v_saddr v)) ∧
    v_len v = Z.of_nat (length data) ∧ ldn buf (Z.to_nat (snd (v_buf v))) (length data) = data ∧
    w_sockaddr_cmp (v_saddr v) from = true.

Lemma got_datagram D home w y rb (data : bytes) from :
  got D home w y rb → is_bytes rb → (54 <= length rb)%nat → w_addr_wf (sa_addr from) →
  udp_payload rb = data → udp_len rb - 8 = Z.of_nat (length data) → w_sockaddr_cmp (udp_from rb) from = true →
  datagram w y data from.
Proof.
  intros (_ & v & b & Hv & Hb & Hbuf & _ & _ & Hwf & Hl & Hd & Hc & _) Hrb H54 Hfrom Hp Hn Hf. exists v, b.
  rewrite Hbuf. rewrite Hl, Hn, Nat2Z.id in Hd. split_and!; try done; [congruence|congruence|].
  apply w_sockaddr_cmp_key in Hc, Hf; try done; try by apply udp_raddr_wf. apply w_sockaddr_cmp_key; [done..|congruence].
Qed.

(** What the configuration of a receiving engine with buffers of [L] bytes satisfies. *)
Record host (L : nat) (cf : ifconf) : Prop := {
  ho_len : (110 <= L)%nat;
  ho_conf : ifconf_wf cf;
  ho_ip4 : have_ip4 cf = true → is_Some (ifaddr cf !! Z.to_nat (addr4_pos cf));
  ho_ip6 : have_ip6 cf = true → is_Some (ifaddr cf !! 0%nat)
}.

(** A datagram that can be sent in one frame from [src]. *)
Record one_frame (sk : w_sock) (src : w_addr) (v : w_iov) : Prop := {
  of_len : 14 + (Z.of_nat (ip_len sk) + 8 + v_len v) <= 65535;
  of_af : ws_af sk = AF_INET ∨ ws_af sk = AF_INET6;
  of_src : af src = ws_af sk;
  of_dst : af (sa_addr (tx_dst sk v)) = ws_af sk
}.
Definition dg_data (sk : w_sock) (v : w_iov) (b : bytes) : bytes := ldn b (14 + ip_len sk + 8) (Z.to_nat (v_len v)).

(** A frame [rb] that the link has carried to the rings of the receiver ends up as a datagram
    in the queue of the socket it is for. *)
Lemma carried_delivered wa sk src v b b' rb
    `{NetmapLaws, !NetmapProgress, !NetmapPoll} can_alloc fuel L D (tm : sock_map) B cf socks tries n home m w nsec fs ws skw xs :
  tx_frame_of sk src wa v b b' → w_addr_wf src → w_addr_wf (sa_addr (tx_dst sk v)) → one_frame sk src v →
  is_u8 (v_flags v) → 0 <= v_len v → 14 + Z.of_nat (ip_len sk) + 8 + v_len v <= Z.of_nat (length b) →
  carried (frame_len sk v) b' rb →
  (∀ a k, can_alloc a k = true) → host L cf → polls fuel L D tm B cf socks n home m w nsec fs → rb ∈ fs → (54 <= length rb)%nat →
  dst_mac sk wa v (mac cf) → our_addr cf (sa_addr (tx_dst sk v)) →
  udp_dest tm (tx_dst sk v) (WSockaddr src (ws_lport sk)) = Some ws → socks !! ws = Some skw → m !! s_iv skw = Some xs →
  ∃ home' m' w' ys y, w_nic_rx can_alloc fuel (S tries) nsec w = Done (frames_rx tm cf false fs, w') ∧
    rx_sys fuel L D tm B cf socks n home' m' w' ∧ m' !! s_iv skw = Some (xs ++ ys) ∧ y ∈ ys ∧
    datagram w' y (dg_data sk v b) (WSockaddr src (ws_lport sk)).
Proof.
  intros Hf Hsrc R8 [O1 O2 O3 O4] R5 R6' R7 Hcar Hall [HL Hconf Hia4 Hia6] Hp Hrb H54 Hmac Hour Hd Hsk Hxs.
  assert (R6 : 0 <= v_len v ∧ Z.of_nat (ip_len sk) + 8 + v_len v <= 65535) by lia.
  destruct (carried_frame wa sk src v b b' rb Hf R5 ltac:(lia) R7 Hcar) as [Hf' Hdata].
  assert (Htup : w_addr_wf src ∧ w_addr_wf (sa_addr (tx_dst sk v))) by done.
  assert (Haf : (ws_af sk = AF_INET ∨ ws_af sk = AF_INET6) ∧ af src = ws_af sk ∧ af (sa_addr (tx_dst sk v)) = ws_af sk) by done.
  assert (Hm : km_wf tm) by apply (kr_wf _ _ _ (si_rep _ _ _ _ (xs_sock _ _ _ _ _ _ _ _ _ _ _ (pl_sys _ _ _ _ _ _ _ _ _ _ _ _ _ Hp)))).
  destruct (link_read wa sk src v rb rb Hf' Htup Haf R5 R6 H54) as (_ & _ & _ & El & Epl & Hfrom & _).
  pose proof (link_dest wa sk src v rb rb Hf' Htup Haf R5 R6 H54 cf tm Hm Hmac Hour) as Hdest. rewrite Hd in Hdest.
  destruct (w_nic_rx_delivers can_alloc Hall fuel L D tm B cf socks HL Hconf Hia4 Hia6 tries n home m w nsec fs rb ws skw xs
    Hp Hrb Hdest Hsk Hxs) as (home' & m' & w' & ys & y & E & Hs' & Hys & Hy & Hg).
  exists home', m', w', ys, y. split_and!; [done|done|done|done|].
  assert (Hlp : length (dg_data sk v b) = Z.to_nat (v_len v)) by (apply length_ldn; lia).
  apply (got_datagram D home' w' y rb); [done|apply Hcar|done|done|by rewrite Epl|rewrite El, Hlp; lia|done].
Qed.

(** ** The whole way *)

Section EndToEnd.
(** The sender, with the vectors [xs] in queue [o]. *)
Context `{NetmapLaws, !NetmapProgress} (can_alloc : kh_array → Z → bool) (fuel tries : nat).
Context (home : homes) (s : nat) (sk : w_sock) (src : w_addr) (D : gset nat) (m : queues) (wa : engine) (o : nat) (xs : list nat).
Hypothesis Hfuel : (0 < fuel)%nat.
Hypothesis Hsrc : w_addr_wf src.
Hypothesis Hport : is_u16 (ws_lport sk).
Hypothesis Heng : eng_inv D m wa.
Hypothesis Ho : m !! o = Some xs.
Hypothesis Hsz : (1 < size D)%nat.
Hypothesis Hcan : can_send home s sk src wa.
Hypothesis Hready : ∀ i, i ∈ xs → ∃ v b, tx_ready home sk wa i v b.

Lemma w_tx_frames :
  ∃ wa', w_tx can_alloc fuel tries (size D) s o wa = Done (tt, wa') ∧
    ∀ i v b, i ∈ xs → tx_ready home sk wa i v b → ∃ b', e_mem wa' !! h_iov home i = Some b' ∧
      tx_frame_of sk src wa v b b' ∧ handed wa wa' (h_iov home i) (frame_len sk v) b'.
Proof.
  destruct (inv_repr D _ m (ei_q _ _ _ Heng) o xs Ho) as [_ _ Hnd].
  assert (∃ k, size D = S (S k)) as [k Ek] by (exists (size D - 2)%nat; lia).
  destruct (tx_all_run can_alloc fuel tries home s sk src Hfuel Hsrc Hport k xs wa Hnd Hcan Hready)
    as (w' & E & _ & _ & _ & Hf & _ & _ & _ & Hin).
  exists w'. split.
  - unfold w_tx. pose proof (liftq_foreach D m wa o xs Heng Ho) as El. rewrite Ek in El |- *. by mstep El.
  - intros i v b Hi Hr. destruct (Hf i v b Hi Hr) as (b' & Hb' & Hfr). exists b'. split; [done|]. split; [done|].
    by apply (Hin i v b).
Qed.

(** C6: For every vector of the queue, w_tx puts a frame into a TX ring; if the link carries this
    frame to the host with the MAC and the IP address it is for, then w_nic_rx there appends a
    vector with the payload, and the address and port of the sender as source, to the queue of
    the socket the addresses lead to, for IPv4 and IPv6, from a connected socket or not. *)
Theorem udp_end_to_end :
  ∃ wa', w_tx can_alloc fuel tries (size D) s o wa = Done (tt, wa') ∧
    ∀ i v b, i ∈ xs → tx_ready home sk wa i v b → one_frame sk src v →
    ∃ b', handed wa wa' (h_iov home i) (frame_len sk v) b' ∧
      ∀ (N : Netmap) (NL : @NetmapLaws N) (NP : @NetmapProgress N) (NQ : @NetmapPoll N) grow fuel2 L2 D2 (tm : sock_map) B2 cf socks
        tries2 n home2 m2 w2 nsec fs rb ws skw ys,
      carried (frame_len sk v) b' rb → rb ∈ fs → (54 <= length rb)%nat →
      (∀ a k, grow a k = true) → host L2 cf → polls fuel2 L2 D2 tm B2 cf socks n home2 m2 w2 nsec fs →
      dst_mac sk wa v (mac cf) → our_addr cf (sa_addr (tx_dst sk v)) →
      udp_dest tm (tx_dst sk v) (WSockaddr src (ws_lport sk)) = Some ws → socks !! ws = Some skw → m2 !! s_iv skw = Some ys →
      ∃ home2' m2' w2' zs y, w_nic_rx grow fuel2 (S tries2) nsec w2 = Done (frames_rx tm cf false fs, w2') ∧
        rx_sys fuel2 L2 D2 tm B2 cf socks n home2' m2' w2' ∧ m2' !! s_iv skw = Some (ys ++ zs) ∧ y ∈ zs ∧
        datagram w2' y (dg_data sk v b) (WSockaddr src (ws_lport sk)).
Proof.
  destruct w_tx_frames as (wa' & E & Hf). exists wa'. split; [done|]. intros i v b Hi Hr Hone.
  destruct (Hf i v b Hi Hr) as (b' & _ & Hfr & Hh). exists b'. split; [done|]. intros.
  destruct Hr as [_ _ _ _ R5 R6 R7 (R8 & _) _ _].
  eapply (carried_delivered wa sk src v b b' rb); try eassumption. lia.
Qed.
End EndToEnd.

(** ** Witness *)

(** A socket of 10.0.0.2:81 connected to 10.0.0.1:80, the engine that sends the four bytes of
    [payload_ex] from it, the engine after that, and the frame. *)
Definition sock_from_ex : w_sock :=
  WSock (WSocktuple (WSockaddr (addr_ex4 10 0 0 2) 0x5100) loc_ex 0) (mac ifconf_ex) (WSockopt false false) 10.
Definition eng_from_ex : engine := set_socks eng_send_ex kh_init {[5%nat := sock_from_ex]}.
Definition eng_sent_ex : engine :=
  match @w_tx netmap_ex (λ _ _, true) 5 1 (size eng_ex_D) 5 10 eng_from_ex with Done (_, w) => w | _ => eng_from_ex end.
Definition frame_ex : bytes := Eval vm_compute in default [] (e_mem eng_sent_ex !! 3).

Lemma eng_from_ex_can : can_send homes_ex 5 sock_from_ex (addr_ex4 10 0 0 2) eng_from_ex.
Proof.
  destruct eng_send_ex_can as [C1 C2 C3 _ _ _ C7 C8].
  split; [by apply (tx_inv_ext homes_ex eng_send_ex)|exact C2|exact C3|reflexivity|reflexivity|discriminate|exact C7|exact C8].
Qed.
Lemma eng_from_ex_ready : tx_ready homes_ex sock_from_ex eng_from_ex 3 iov_tx_ex payload_ex.
Proof.
  destruct eng_send_ex_ready as [R1 R2 R3 R4 R5 R6 R7 R8 R9 R10]. split; try done.
  split; [by apply addr_wf_dec|]. split; [by left|]. split; [by vm_compute|]. exists (mac ifconf_ex).
  split; [done|]. split; [done|]. apply ifconf_ex_wf.
Qed.

(** The frame that was handed over is the one in the buffer. *)
Lemma handed_ex len b : @handed netmap_ex eng_from_ex eng_sent_ex 3 len b → b = frame_ex.
Proof.
  assert (Hm : e_mem eng_sent_ex !! 3 = Some frame_ex) by (vm_compute; reflexivity).
  intros [(k & j & r & s & _ & _ & _ & _ & _ & _ & Hb)|(new & txr & mem & E & Hin & _)]; [apply (inj Some); exact (eq_trans (eq_sym Hb) Hm)|].
  assert (Ec : e_calls eng_sent_ex = []) by (vm_compute; reflexivity). rewrite Ec in E. symmetry in E.
  apply app_eq_nil in E as [-> _]. exfalso. exact (proj1 (elem_of_nil _) Hin).
Qed.

Lemma frame_ex_bytes : is_bytes frame_ex.
Proof. apply (bool_decide_unpack (Forall is_u8 frame_ex)). vm_compute. exact I. Qed.
Lemma frame_ex_ok : frame_ok ifconf_ex 128 46 frame_ex.
Proof.
  assert (Hk : kind_of ifconf_ex frame_ex = KUdp) by (vm_compute; reflexivity).
  assert (H4 : udp_v4 frame_ex = true) by (vm_compute; reflexivity).
  assert (Hl : length frame_ex = 128%nat) by (vm_compute; reflexivity).
  unfold frame_ok. rewrite Hk. unfold unreach_ok. rewrite H4. split.
  - assert (E : icmp4_len frame_ex ICMP4_TYPE_UNREACH = 28) by (vm_compute; reflexivity).
    split; rewrite ?E; try lia; [discriminate|]. rewrite Hl. apply Nat.leb_le. vm_compute. reflexivity.
  - intros _. assert (E : udp_len frame_ex = 12 ∧ udp_hl frame_ex = 20) by (split; vm_compute; reflexivity).
    destruct E as [-> ->]. change (u16 (12 + 20)) with 32. split; [lia|].
    split; [apply frame_ex_bytes|lia|rewrite Hl; lia|]. vm_compute. split; discriminate.
Qed.

Lemma udp_end_to_end_witness :
  ∃ w2' y, @w_nic_rx (netmap_poll_ex frame_ex) (λ _ _, true) 5 1 0 (eng_rx_sock_ex (repeat 0 128)) = Done (true, w2') ∧
    datagram w2' y [0xde; 0xad; 0xbe; 0xef] (WSockaddr (addr_ex4 10 0 0 2) 0x5100).
Proof.
  destruct (@udp_end_to_end netmap_ex _ _ (λ _ _, true) 5 1 homes_ex 5 sock_from_ex (addr_ex4 10 0 0 2) eng_ex_D
    eng_send_ex_m eng_from_ex 10 [3%nat]) as (wa' & E & Hw).
  - lia.
  - by apply addr_wf_dec.
  - done.
  - destruct eng_send_ex_inv as [I1 I2 I3]. by split.
  - reflexivity.
  - vm_compute. lia.
  - apply eng_from_ex_can.
  - intros i ->%list_elem_of_singleton. exists iov_tx_ex, payload_ex. apply eng_from_ex_ready.
  - assert (wa' = eng_sent_ex) as -> by (unfold eng_sent_ex; by rewrite E).
    destruct (Hw 3%nat iov_tx_ex payload_ex) as (b' & Hh & Hrx); [by left|apply eng_from_ex_ready| |].
    { split; [vm_compute; discriminate|by left|done|done]. }
    apply handed_ex in Hh as ->.
    assert (Hl : length frame_ex = 128%nat) by (vm_compute; reflexivity).
    destruct (Hrx (netmap_poll_ex frame_ex) (netmap_poll_ex_laws _) (netmap_poll_ex_progress _) (netmap_poll_ex_poll _ frame_ex_bytes)
      (λ _ _, true) 5%nat 128%nat eng_ex_D [(s_tup sock_ex, s_ex)] 1%nat ifconf_ex {[s_ex := sock_ex]} 0%nat 0%nat homes_ex
      (<[h_ex := []]> eng_ex_m) (eng_rx_sock_ex (repeat 0 128)) 0 [frame_ex] frame_ex s_ex sock_ex (@nil nat))
      as (home2' & m2' & w2' & zs & y & E2 & _ & _ & _ & Hd).
    + split; [apply frame_ex_bytes|]. split; [rewrite Hl; vm_compute; discriminate|done].
    + by left.
    + rewrite Hl. lia.
    + done.
    + split; [lia|apply ifconf_ex_wf|by eexists|by eexists].
    + by apply polls_ex; [apply frame_ex_bytes| |apply frame_ex_ok].
    + split; [done|]. split; [done|]. apply ifconf_ex_wf.
    + split; [done|]. eexists. split; [vm_compute; reflexivity|]. discriminate.
    + vm_compute. reflexivity.
    + apply lookup_singleton_eq.
    + apply lookup_insert_eq.
    + assert (Er : frames_rx [(s_tup sock_ex, s_ex)] ifconf_ex false [frame_ex] = true) by (vm_compute; reflexivity).
      rewrite Er in E2. exists w2', y. split; [exact E2|exact Hd].
Defined.
