(* ===== verification/Backend.v ===== *)
(** The life of an engine (lib/src/backend_netmap.c, lib/src/warpcore.c):
    [backend_init], which registers the interface with netmap and takes its extra
    buffers, [backend_cleanup], which gives them back, and the list of engines kept
    by [w_init] and [w_cleanup]. *)

From stdpp Require Import strings.
From S2P Require Import Prelude Util Krng Queue SList Wire Cksum Addr Ifaddr Khash Engine Netmap Ip Send Sock Arp Icmp Rx.

(** ** Registration with netmap *)

(** How an interface is registered: all its rings, or one end of a pipe. *)
Inductive nr_mode := AllNic | PipeMaster | PipeSlave.

(** What [NIOCREGIF] and [mmap] give: the rings with the contents of the buffers,
    and the number and the first of the extra buffers. *)
Record nm_reg := NmReg {
  rg_txr : list netmap_ring;
  rg_rxr : list netmap_ring;
  rg_mem : gmap Z bytes;
  nr_arg3 : Z;
  ni_bufs_head : Z
}.

Definition set_conf (w : engine) (c : ifconf) : engine :=
  Engine c (e_q w) (e_bufs w) (e_mem w) (e_neighbor w) (e_sock w) (e_socks w) (e_rng w) (e_pipe w) (e_txr w)
    (e_rxr w) (e_cur_txr w) (e_tail w) (e_slot_buf w) (e_last w) (e_calls w).
Definition set_pipe (w : engine) (p : bool) : engine :=
  Engine (e_conf w) (e_q w) (e_bufs w) (e_mem w) (e_neighbor w) (e_sock w) (e_socks w) (e_rng w) p (e_txr w)
    (e_rxr w) (e_cur_txr w) (e_tail w) (e_slot_buf w) (e_last w) (e_calls w).

(** A [w_iov] as [calloc] leaves it. *)
Definition zero_iov : w_iov := WIov zero_sockaddr (0, 0) (0, 0) 0 0 0 0 0.

Section Backend.
Context `{!Netmap, !Os}.
Context (can_alloc : kh_array → Z → bool).

(** [ioctl(NIOCREGIF)] for a name and a number of extra buffers; [None] if it, the
    opening of the device or the mapping of its memory fails. *)
Context (niocregif : string → nr_mode → Z → option nm_reg).

(** The neighbor cache of a pipe: all its addresses are at no address. *)
Fixpoint preload_arp (n : nat) (idx : Z) : M engine unit :=
  match n with
  | O => mret tt
  | S n =>
      w ← get; ia ← lift (rd (ifaddr (e_conf w)) idx);
      neighbor_update can_alloc (ia_addr ia) ETH_ADDR_NONE ;;
      preload_arp n (u16 (idx + 1))
  end.

(** The arrays with an entry per TX ring, and an entry per slot of it. *)
Definition init_tails (txr : list netmap_ring) : list Z := nr_tail <$> txr.
Definition init_slot_buf (txr : list netmap_ring) : list (list (option nat)) :=
  (λ r, repeat None (Z.to_nat (nr_num_slots r))) <$> txr.

(** [calloc] of [n] I/O vectors. *)
Definition calloc_bufs (n : nat) : M engine unit :=
  w ← get;
  put (set_iovs w (QHeap (heads (e_q w)) (list_to_map ((λ i, (i, None)) <$> seq 0 n)))
         (list_to_map ((λ i, (i, zero_iov)) <$> seq 0 n))).

(** The loop over the list of extra buffers, from the [n]-th, which is buffer [i]. *)
Fixpoint init_bufs (k n : nat) (i : Z) : M engine unit :=
  match k with
  | O => mret tt
  | S k =>
      init_iov true n i ;;
      liftq (sq_insert_head IOVQ n) ;;
      v ← get_iov n; i ← ldm32 (v_buf v);
      init_bufs k (S n) i
  end.

Definition backend_init (getifaddrs : option (list ifaddrs)) (ifname : string) (lk : w_link) (nbufs : Z)
    : M engine w_link :=
  w ← get;
  '(c, lk) ← lift (backend_addr_config getifaddrs ifname (e_conf w) lk);
  put (set_conf w c) ;;
  let mode := if is_loopback lk then (if is_right_pipe lk then PipeMaster else PipeSlave) else AllNic in
  (if is_loopback lk then
     w ← get; put (set_conf w (set_link (e_conf w) (2048 - Z.of_nat Eth.size) (mac (e_conf w)))) ;;
     preload_arp (Z.to_nat (addr_cnt c)) 0
   else mret tt) ;;
  let nr_name := if is_loopback lk then pipe_name ifname else cstr IFNAMSIZ ifname in
  match niocregif nr_name mode nbufs with
  | None => die
  | Some rg =>
      w ← get;
      put (set_pipe (set_mem (set_rxr (set_tx w (rg_txr rg) (e_cur_txr w) (init_tails (rg_txr rg))
             (init_slot_buf (rg_txr rg))) (rg_rxr rg)) (rg_mem rg)) (is_loopback lk)) ;;
      calloc_bufs (Z.to_nat (nr_arg3 rg)) ;;
      init_bufs (Z.to_nat (nr_arg3 rg)) 0 (ni_bufs_head rg) ;;
      ensure (negb (nr_arg3 rg =? 0)) ;;
      mret lk
  end.

(** ** Shutting down *)

(** [kh_foreach_value] with [w_close] as its body, over [k] buckets from bucket [j]. *)
Fixpoint close_socks (k j : nat) : M engine unit :=
  match k with
  | O => mret tt
  | S k =>
      w ← get; e ← lift (kh_entry (e_sock w) j);
      match e with
      | (_, s) :: _ => w_close s
      | [] => mret tt
      end ;;
      close_socks k (S j)
  end.

(** [free_neighbor]; the released table is not used again. *)
Definition free_neighbor : M engine unit :=
  w ← get; _ ← lift (kh_foreach (e_neighbor w)); put (set_neighbor w kh_init).

(** The list of extra buffers, from the [n]-th vector, over [k] vectors in all. *)
Fixpoint link_bufs (k n : nat) (len : Z) : M engine unit :=
  match k with
  | O => mret tt
  | S k =>
      v ← get_iov n;
      (if Z.of_nat n <? len - 1 then v' ← get_iov (S n); stm32 (v_idx v, 0) (v_idx v')
       else stm32 (v_idx v, 0) 0) ;;
      link_bufs k (S n) len
  end.

(** The result is the first buffer of the list that netmap gets back. *)
Definition backend_cleanup : M engine Z :=
  w ← get;
  close_socks (Z.to_nat (n_buckets (e_sock w))) 0 ;;
  w ← get; put (set_socks w kh_init (e_socks w)) ;;
  free_neighbor ;;
  len ← liftq (sq_len IOVQ);
  link_bufs (Z.to_nat len) 0 len ;;
  v ← get_iov 0%nat;
  mret (v_idx v).
End Backend.

(** ** The engines *)

(** An engine with the name and the link of its interface; [engines] is a list of
    them, whose links are in a heap of their own. *)
Record engine_rec := EngineRec { er_ifname : string; er_link : w_link; er_engine : engine }.
Record world := World { wd_sl : slheap; wd_eng : gmap nat engine_rec }.

(** The list head [engines]. *)
Definition ENGINES : nat := 0.

Definition liftsl {A} (m : M slheap A) : M world A := λ g,
  match m (wd_sl g) with
  | Done (a, sl) => Done (a, World sl (wd_eng g))
  | Died => Died
  | Fault => Fault
  | NoFuel => NoFuel
  end.

(** [strncmp(a, b, n) == 0]. *)
Definition strn_eqb (n : nat) (a b : string) : bool := String.eqb (String.substring 0 n a) (String.substring 0 n b).

(** Whether an engine of the list [l] excludes a new one on [ifname]. *)
Fixpoint engine_active (g : world) (ifname : string) (l : list nat) : outcome bool :=
  match l with
  | [] => Done false
  | e :: l =>
      match wd_eng g !! e with
      | None => Fault
      | Some r =>
          if strn_eqb IFNAMSIZ ifname (er_ifname r) && negb (is_loopback (er_link r)) then Done true
          else engine_active g ifname l
      end
  end.

(** The engine as allocated for [cnt] addresses, its queue of vectors initialised. *)
Definition alloc_engine (cnt : Z) (rng : krng_t) : engine :=
  Engine (IfConf 0 (repeat 0 6) cnt 0 false false (repeat zero_ifaddr (Z.to_nat cnt)))
    (QHeap {[IOVQ := SqHead None (LHead IOVQ) 0]} ∅) ∅ ∅ kh_init kh_init ∅ rng false [] [] 0 [] []
    (zero_addr, repeat 0 6) [].

Section Init.
Context `{!Netmap, !Os}.
Context (can_alloc : kh_array → Z → bool) (niocregif : string → nr_mode → Z → option nm_reg).
(** The answers of [getifaddrs], call by call, and the time when the generator is
    seeded. *)
Context (getifaddrs : nat → option (list ifaddrs)) (now : bytes).

(** The loop that waits for the link, with the number of the next call. *)
Fixpoint wait_addrs (tries t : nat) (ifname : string) : outcome (Z * nat) :=
  match tries with
  | O => NoFuel
  | S tries =>
      cnt ← backend_addr_cnt (getifaddrs t) ifname;
      if cnt =? 0 then wait_addrs tries (S t) ifname else mret (cnt, S t)
  end.

Definition w_init (fuel tries : nat) (ifname : string) (nbufs : Z) : M world (option nat) :=
  l ← liftsl (sl_foreach fuel ENGINES);
  g ← get; active ← lift (engine_active g ifname l);
  if (active : bool) then mret None else
  '(_, rng) ← lift (w_init_rand now (Krng 0 0));
  '(cnt, t) ← lift (wait_addrs tries 0 ifname);
  ensure (nbufs <=? UINT32_MAX) ;;
  '(lk, w) ← lift (backend_init can_alloc niocregif (getifaddrs t) ifname (WLink false false 0 "")
                     nbufs (alloc_engine cnt rng));
  g ← get;
  let e := fresh (dom (wd_eng g)) in
  put (World (SlHeap (slh_first (wd_sl g)) (<[e := None]> (sle_next (wd_sl g))))
         (<[e := EngineRec (cstr IFNAMSIZ ifname) lk w]> (wd_eng g))) ;;
  liftsl (sl_insert_head ENGINES e) ;;
  mret (Some e).

(** The result is what netmap gets back. *)
Definition w_cleanup (fuel : nat) (e : nat) : M world Z :=
  g ← get;
  match wd_eng g !! e with
  | None => fault
  | Some r =>
      '(head, _) ← lift (backend_cleanup (er_engine r));
      liftsl (sl_remove fuel ENGINES e) ;;
      g ← get;
      put (World (SlHeap (slh_first (wd_sl g)) (delete e (sle_next (wd_sl g)))) (delete e (wd_eng g))) ;;
      mret head
  end.
End Init.

(** * Theorems *)

(** ** Taking the extra buffers *)

(** The buffers [ids], each with the next one's index in its first bytes. *)
Fixpoint buf_chain (mem : gmap Z bytes) (i : Z) (ids : list Z) : Prop :=
  match ids with
  | [] => True
  | id :: ids => i = id ∧ ∃ b, mem !! id = Some b ∧ (4 <= length b)%nat ∧ buf_chain mem (ld32 b 0) ids
  end.

(** The vector of a fresh buffer. *)
Definition buffer_iov (netmap : bool) (w : engine) (id : Z) : w_iov :=
  WIov zero_sockaddr (id, 0) (id, 0) id (max_buf_len netmap w) 0 0 0.
Definition new_iov : engine → Z → w_iov := buffer_iov true.

Lemma init_iov_run netmap D m w i id :
  eng_inv D m w → unqueued D m i → e_bufs w !! i = Some zero_iov →
  ∃ q, let w' := set_iovs w q (<[i := buffer_iov netmap w id]> (e_bufs w)) in
    init_iov netmap i id w = Done (tt, w') ∧ eng_inv D m w'.
Proof.
  intros Hinv Hu Hv. unfold init_iov, reinit_iov. mstep (get_iov_run i _ w Hv).
  set (v1 := WIov (v_saddr zero_iov) (id, 0) (v_buf zero_iov) id (v_len zero_iov) (v_flags zero_iov)
    (v_ttl zero_iov) (v_user_data zero_iov)).
  set (w1 := set_iovs w (e_q w) (<[i := v1]> (e_bufs w))).
  assert (E1 : put_iov i v1 w = Done (tt, w1)) by done.
  mstep E1. mstep (get_iov_run i _ w1 (lookup_insert_eq (e_bufs w) i _)). mstep.
  set (w2 := set_iovs w (e_q w) (<[i := buffer_iov netmap w id]> (e_bufs w))).
  assert (E2 : put_iov i (reinit netmap w1 v1) w1 = Done (tt, w2)).
  { unfold put_iov, w2, w1. cbn. by rewrite insert_insert_eq. }
  mstep E2. pose proof (eng_inv_put D m w i (buffer_iov netmap w id) Hinv (proj1 Hu)) as Hinv2.
  destruct (liftq_clear_next D m w2 i Hinv2 Hu) as (q & E & Hinv3 & _). by exists q.
Qed.

(** Vector [n] initialised and put in front of the vectors before it. *)
Lemma init_insert_run netmap D w n id :
  eng_inv D {[IOVQ := rev (seq 0 n)]} w → n ∈ D → e_bufs w !! n = Some zero_iov →
  ∃ q1 q2, let bufs := <[n := buffer_iov netmap w id]> (e_bufs w) in
    init_iov netmap n id w = Done (tt, set_iovs w q1 bufs) ∧
    liftq (sq_insert_head IOVQ n) (set_iovs w q1 bufs) = Done (tt, set_iovs w q2 bufs) ∧
    eng_inv D {[IOVQ := rev (seq 0 (S n))]} (set_iovs w q2 bufs).
Proof.
  intros Hinv HD Hz. set (m := {[IOVQ := rev (seq 0 n)]} : queues) in *.
  assert (Hu : unqueued D m n).
  { split; [done|]. intros h xs [<- <-]%lookup_singleton_Some. rewrite list_elem_of_In, <- in_rev, in_seq. lia. }
  destruct (init_iov_run netmap D m w n id Hinv Hu Hz) as (q1 & E & Hinv1). cbv zeta in E, Hinv1.
  set (w1 := set_iovs w q1 _) in *.
  assert (Hs : spec_op D m (OInsertHead IOVQ n) {[IOVQ := rev (seq 0 (S n))]}).
  { replace ({[IOVQ := rev (seq 0 (S n))]} : queues) with (<[IOVQ := n :: rev (seq 0 n)]> m).
    - apply SInsertHead; [apply lookup_singleton_eq|done].
    - unfold m. by rewrite seq_S, rev_app_distr, insert_singleton_eq. }
  destruct (liftq_op D m _ w1 _ Hinv1 Hs) as (q2 & E2 & Hinv2); [rewrite lookup_singleton_eq; eauto|].
  by exists q1, q2.
Qed.

Lemma init_bufs_run D : ∀ k n w ids i,
  eng_inv D {[IOVQ := rev (seq 0 n)]} w → (∀ j, j ∈ D ↔ (j < n + k)%nat) →
  (∀ j, (n <= j < n + k)%nat → e_bufs w !! j = Some zero_iov) →
  buf_chain (e_mem w) i ids → length ids = k →
  ∃ q bufs, init_bufs k n i w = Done (tt, set_iovs w q bufs) ∧
    eng_inv D {[IOVQ := rev (seq 0 (n + k))]} (set_iovs w q bufs) ∧
    (∀ j, (j < n)%nat → bufs !! j = e_bufs w !! j) ∧
    (∀ j id, ids !! j = Some id → bufs !! (n + j)%nat = Some (new_iov w id)).
Proof.
  induction k as [|k IH]; intros n w ids i Hinv HD Hz Hc Hl; cbn [init_bufs].
  { exists (e_q w), (e_bufs w). rewrite set_iovs_id, Nat.add_0_r. split_and!; [done|done|done|].
    by destruct ids. }
  destruct ids as [|id ids]; [done|]. destruct Hc as (-> & b & Hb & Hbl & Hc). injection Hl as Hl.
  destruct (init_insert_run true D w n id Hinv) as (q & q2 & E & E2 & Hinv2); [apply HD; lia|apply Hz; lia|].
  cbv zeta in E, E2, Hinv2. mstep E. mstep E2. set (w2 := set_iovs w q2 _) in *.
  assert (Hn : e_bufs w2 !! n = Some (new_iov w id)) by apply lookup_insert_eq.
  mstep (get_iov_run n _ w2 Hn).
  erewrite bind_run; [|eapply (ldm32_run w2 _ id 0 b); [done|exact Hb|lia]]. cbv beta.
  destruct (IH (S n) w2 ids (ld32 b 0) Hinv2) as (q3 & bufs & E3 & Hinv3 & Hold & Hnew).
  - intros j. rewrite HD. lia.
  - intros j Hj. cbn. rewrite lookup_insert_ne by lia. apply Hz. lia.
  - done.
  - done.
  - exists q3, bufs. replace (n + S k)%nat with (S n + k)%nat by lia. split_and!; [exact E3|exact Hinv3| |].
    + intros j Hj. rewrite Hold by lia. cbn. by rewrite lookup_insert_ne by lia.
    + intros [|j] id' Hj.
      * injection Hj as <-. rewrite Nat.add_0_r, Hold by lia. apply lookup_insert_eq.
      * replace (n + S j)%nat with (S n + j)%nat by lia. by apply Hnew.
Qed.

(** ** The invariants of a new engine *)

Definition ring_slot (rings : list netmap_ring) (k j : nat) : option netmap_slot :=
  r ← rings !! k; nr_slot r !! j.

(** What netmap documents about a registered interface: well-formed rings, all slots
    of the TX rings available, as many extra buffers as it says, in a list, and no
    buffer in two places; the buffers have [L] bytes. *)
Record reg_ok (L : nat) (rg : nm_reg) (ids : list Z) : Prop := {
  ro_tx : ∀ k r, rg_txr rg !! k = Some r →
    ring_wf r ∧ nr_ringid r = Z.of_nat k ∧ ring_next (nr_num_slots r) (nr_tail r) = nr_cur r;
  ro_rx : ∀ k r, rg_rxr rg !! k = Some r → ring_wf r;
  ro_num : 0 < Z.of_nat (length (rg_txr rg)) < 2 ^ 32;
  ro_cnt : nr_arg3 rg = Z.of_nat (length ids) ∧ ids ≠ [];
  ro_chain : buf_chain (rg_mem rg) (ni_bufs_head rg) ids;
  ro_ids : NoDup ids;
  ro_tx_ids : ∀ k j s, ring_slot (rg_txr rg) k j = Some s → ns_buf_idx s ∉ ids;
  ro_rx_ids : ∀ k j s, ring_slot (rg_rxr rg) k j = Some s → ns_buf_idx s ∉ ids;
  ro_rx_tx : ∀ k j s k' j' s', ring_slot (rg_rxr rg) k j = Some s → ring_slot (rg_txr rg) k' j' = Some s' →
    ns_buf_idx s ≠ ns_buf_idx s';
  ro_rx_inj : ∀ k j s k' j' s', ring_slot (rg_rxr rg) k j = Some s → ring_slot (rg_rxr rg) k' j' = Some s' →
    ns_buf_idx s = ns_buf_idx s' → k = k' ∧ j = j';
  ro_mem : ∀ id, id ∈ ids ∨ (∃ k j s, ring_slot (rg_rxr rg) k j = Some s ∧ ns_buf_idx s = id) →
    ∃ b, rg_mem rg !! id = Some b ∧ length b = L ∧ is_bytes b
}.

(** The engine as [w_init] allocates it. *)
Record fresh_engine (w : engine) : Prop := {
  fe_heads : heads (e_q w) = {[IOVQ := SqHead None (LHead IOVQ) 0]};
  fe_sock : e_sock w = kh_init ∧ e_socks w = ∅;
  fe_neighbor : e_neighbor w = kh_init;
  fe_cur : e_cur_txr w = 0
}.

(** The buffers everything owns at first. *)
Definition reg_homes (rg : nm_reg) (ids : list Z) : homes :=
  Homes (λ i, nth i ids 0) (λ k j, match ring_slot (rg_txr rg) k j with Some s => ns_buf_idx s | None => 0 end).
Definition reg_D (ids : list Z) : gset nat := list_to_set (seq 0 (length ids)).
Definition reg_m (ids : list Z) : queues := {[IOVQ := rev (seq 0 (length ids))]}.

Lemma elem_of_reg_D ids i : i ∈ reg_D ids ↔ (i < length ids)%nat.
Proof. unfold reg_D. rewrite elem_of_list_to_set, elem_of_seq. lia. Qed.

Section InitInv.
Context (L : nat) (rg : nm_reg) (ids : list Z).
Hypothesis Hrg : reg_ok L rg ids.

(** The parts of the engine that [backend_init] sets before it takes the buffers. *)
Record registered (w : engine) : Prop := {
  rw_txr : e_txr w = rg_txr rg;
  rw_rxr : e_rxr w = rg_rxr rg;
  rw_mem : e_mem w = rg_mem rg;
  rw_tail : e_tail w = init_tails (rg_txr rg);
  rw_sb : e_slot_buf w = init_slot_buf (rg_txr rg);
  rw_cur : e_cur_txr w = 0;
  rw_pipe : e_pipe w = false
}.

Lemma reg_no_pending w k j : registered w → ¬ pending (starts (e_txr w)) w k j.
Proof.
  intros [E1 _ _ _ _ _ _] (r & s & Hr & Hs & Hj & Hw). rewrite E1 in Hr, Hs.
  destruct (ro_tx _ _ _ Hrg k r Hr) as (Hwf & _ & Hn). unfold starts in Hs.
  rewrite list_lookup_fmap, Hr in Hs. injection Hs as <-. rewrite Hn in Hw.
  destruct Hwf. ring_lia.
Qed.

(** Every vector has the fresh buffer of its number. *)
Definition fresh_bufs (w : engine) : Prop :=
  dom (e_bufs w) = reg_D ids ∧ ∀ i id, ids !! i = Some id → e_bufs w !! i = Some (new_iov w id).

Lemma fresh_bufs_inv w i v :
  fresh_bufs w → e_bufs w !! i = Some v → ids !! i = Some (nth i ids 0) ∧ v = new_iov w (nth i ids 0).
Proof.
  intros [Hd Hb] Hv. assert (Hi : (i < length ids)%nat) by (apply elem_of_reg_D; rewrite <- Hd; by eapply elem_of_dom_2).
  destruct (lookup_lt_is_Some_2 ids i Hi) as [id Hid]. rewrite (nth_lookup_Some _ _ _ _ Hid).
  split; [done|]. rewrite (Hb i id Hid) in Hv. congruence.
Qed.

Lemma ids_elem i : (i < length ids)%nat → nth i ids 0 ∈ ids.
Proof.
  intros Hi. destruct (lookup_lt_is_Some_2 ids i Hi) as [id Hid]. rewrite (nth_lookup_Some _ _ _ _ Hid).
  by eapply list_elem_of_lookup_2.
Qed.

Lemma reg_slot_at w k j : registered w → slot_at w k j = ring_slot (rg_txr rg) k j.
Proof. intros [E1 _ _ _ _ _ _]. unfold slot_at. by rewrite E1. Qed.

Lemma registered_tx_inv w : registered w → fresh_bufs w → tx_inv (reg_homes rg ids) w.
Proof.
  intros Hw Hf. pose proof (λ k j, reg_no_pending w k j Hw) as Hnp.
  pose proof (λ k j, reg_slot_at w k j Hw) as Hsl.
  destruct Hw as [E1 E2 E3 E4 E5 E6 E7]. pose proof (ro_num _ _ _ Hrg) as Hnum.
  split; [rewrite E1, E6; lia|rewrite E1; lia|by rewrite E1, E4| |].
  - intros i k j Hi [s Hs]. rewrite Hsl in Hs. cbn. rewrite Hs. intros E.
    apply (ro_tx_ids _ _ _ Hrg k j s Hs). rewrite <- E. apply ids_elem, elem_of_reg_D. by rewrite <- (proj1 Hf).
  - split.
    + unfold starts. rewrite length_fmap, E1, E5. unfold init_slot_buf. by rewrite length_fmap.
    + intros k r Hr. rewrite E1 in Hr. destruct (ro_tx _ _ _ Hrg k r Hr) as (? & ? & _). done.
    + intros k r row Hr Hrow. rewrite E1 in Hr. rewrite E5 in Hrow. unfold init_slot_buf in Hrow.
      rewrite list_lookup_fmap, Hr in Hrow. injection Hrow as <-. rewrite repeat_length.
      destruct (ro_tx _ _ _ Hrg k r Hr) as ([Hn _ _ _ _] & _). rewrite Hn. lia.
    + intros k r s Hr Hs. rewrite E1 in Hr, Hs. unfold starts in Hs. rewrite list_lookup_fmap, Hr in Hs. injection Hs as <-.
      destruct (ro_tx _ _ _ Hrg k r Hr) as ([_ _ _ Hc _] & _ & ->). done.
    + intros k j Hp. by destruct (Hnp k j).
    + intros k j k' j' i Hp. by destruct (Hnp k j).
    + intros i v Hv _. destruct (fresh_bufs_inv w i v Hf Hv) as [_ ->]. done.
    + intros k j i v Hp. by destruct (Hnp k j).
    + intros k j s Hs _. rewrite Hsl in Hs. cbn. by rewrite Hs.
Qed.

Lemma registered_net_inv w :
  registered w → fresh_bufs w → eng_inv (reg_D ids) (reg_m ids) w →
  net_inv L (reg_homes rg ids) (reg_D ids) (reg_m ids) w.
Proof.
  intros Hw Hf Hinv. split; [done|by apply registered_tx_inv|by apply Hw| |].
  - intros free i v _ _ Hv. destruct (fresh_bufs_inv w i v Hf Hv) as [_ ->].
    split; [|split; [done|apply zero_sockaddr_wf]]. intros k j Hp. by destruct (reg_no_pending w k j Hw).
  - intros i Hi%elem_of_reg_D. rewrite (rw_mem w Hw). cbn. apply (ro_mem _ _ _ Hrg). left. by apply ids_elem.
Qed.

Lemma registered_rx_inv w : registered w → fresh_bufs w → rx_inv L (reg_homes rg ids) w.
Proof.
  intros Hw Hf. pose proof (λ k j, reg_slot_at w k j Hw) as Hsl. destruct Hw as [E1 E2 E3 E4 E5 E6 E7].
  assert (Hrx : ∀ k j, rx_slot w k j = ring_slot (rg_rxr rg) k j) by (intros; unfold rx_slot; by rewrite E2).
  split.
  - intros k r Hr. rewrite E2 in Hr. by apply (ro_rx _ _ _ Hrg k).
  - intros k j s Hs. rewrite Hrx in Hs. split_and!.
    + intros i Hi E. apply (ro_rx_ids _ _ _ Hrg k j s Hs). rewrite <- E. cbn.
      apply ids_elem, elem_of_reg_D. by rewrite <- (proj1 Hf).
    + intros k' j' [s' Hs'] E. rewrite Hsl in Hs'. cbn in E. rewrite Hs' in E.
      by apply (ro_rx_tx _ _ _ Hrg k j s k' j' s' Hs Hs').
    + rewrite E3. apply (ro_mem _ _ _ Hrg). right. eauto.
  - intros k j s k' j' s'. rewrite !Hrx. apply (ro_rx_inj _ _ _ Hrg).
  - intros i i' Hi Hi'. cbn. rewrite (proj1 Hf), elem_of_reg_D in *. intros E.
    by apply (proj1 (NoDup_nth ids 0) (proj1 (NoDup_ListNoDup ids) (ro_ids _ _ _ Hrg)) i i').
Qed.
End InitInv.

Lemma lookup_calloc {A} (x : A) n j :
  (j < n)%nat → (list_to_map ((λ i, (i, x)) <$> seq 0 n) : gmap nat A) !! j = Some x.
Proof.
  intros Hj. apply elem_of_list_to_map_1.
  - rewrite <- list_fmap_compose. cbn. rewrite list_fmap_id. apply NoDup_seq.
  - apply list_elem_of_fmap. exists j. split; [done|]. apply elem_of_seq. lia.
Qed.
Lemma dom_calloc {A} (x : A) n :
  dom (list_to_map ((λ i, (i, x)) <$> seq 0 n) : gmap nat A) = list_to_set (seq 0 n).
Proof. rewrite dom_list_to_map_L, <- list_fmap_compose. cbn. by rewrite list_fmap_id. Qed.

Lemma calloc_inv n w :
  heads (e_q w) = {[IOVQ := SqHead None (LHead IOVQ) 0]} →
  eng_inv (list_to_set (seq 0 n)) {[IOVQ := rev (seq 0 0)]}
    (set_iovs w (QHeap (heads (e_q w)) (list_to_map ((λ i, (i, None)) <$> seq 0 n)))
       (list_to_map ((λ i, (i, zero_iov)) <$> seq 0 n))).
Proof.
  intros Hh. split; [split| |].
  - apply dom_calloc.
  - intros h xs [<- <-]%lookup_singleton_Some. split; [|done|constructor]. cbn. by rewrite Hh, lookup_singleton_eq.
  - intros h1 h2 xs ys e [<- <-]%lookup_singleton_Some [<- <-]%lookup_singleton_Some. done.
  - apply dom_calloc.
  - rewrite lookup_singleton_eq. eauto.
Qed.

Lemma fresh_sock_inv qm w : e_sock w = kh_init → e_socks w = ∅ → sock_inv qm [] 0 w.
Proof.
  intros E1 E2. split; rewrite ?E1, ?E2; [apply kh_init_rep|..]; try (by intros ? ? ?%elem_of_nil); done.
Qed.

Section InitRun.
Context `{!Netmap, !Os}.
Context (can_alloc : kh_array → Z → bool) (niocregif : string → nr_mode → Z → option nm_reg).
Context (L : nat) (rg : nm_reg) (ids : list Z) (w : engine) (c : ifconf) (lk lk' : w_link).
Context (getifaddrs : option (list ifaddrs)) (ifname : string) (nbufs : Z).
Hypothesis Hrg : reg_ok L rg ids.
Hypothesis HL : (4 <= L)%nat.
Hypothesis Hfresh : fresh_engine w.
Hypothesis Hcfg : backend_addr_config getifaddrs ifname (e_conf w) lk = Done (c, lk').
Hypothesis Hlo : is_loopback lk' = false.
Hypothesis Hreg : niocregif (cstr IFNAMSIZ ifname) AllNic nbufs = Some rg.

Lemma backend_init_run :
  ∃ w', backend_init can_alloc niocregif getifaddrs ifname lk nbufs w = Done (lk', w') ∧
    e_conf w' = c ∧ registered rg w' ∧ fresh_bufs ids w' ∧ eng_inv (reg_D ids) (reg_m ids) w' ∧
    e_sock w' = kh_init ∧ e_socks w' = ∅ ∧ e_neighbor w' = kh_init.
Proof.
  destruct Hfresh as [Fh [Fs1 Fs2] Fn Fc]. destruct (ro_cnt _ _ _ Hrg) as [Hcnt Hne].
  unfold backend_init. mstep. mstep (lift_run _ _ w Hcfg). mstep. rewrite Hlo. mstep. rewrite Hreg. mstep. mstep.
  set (w1 := set_pipe _ false).
  rewrite Hcnt, Nat2Z.id. set (n := length ids).
  set (w2 := set_iovs w1 (QHeap (heads (e_q w1)) (list_to_map ((λ i, (i, None)) <$> seq 0 n)))
         (list_to_map ((λ i, (i, zero_iov)) <$> seq 0 n))).
  assert (E2 : calloc_bufs n w1 = Done (tt, w2)) by done. mstep E2.
  assert (Hinv2 : eng_inv (reg_D ids) {[IOVQ := rev (seq 0 0)]} w2) by by apply calloc_inv.
  destruct (init_bufs_run (reg_D ids) n 0 w2 ids (ni_bufs_head rg) Hinv2) as (q & bufs & E3 & Hinv3 & _ & Hnew).
  - intros j. apply elem_of_reg_D.
  - intros j Hj. apply lookup_calloc. lia.
  - apply (ro_chain _ _ _ Hrg).
  - done.
  - set (w3 := set_iovs w2 q bufs) in *. exists w3. mstep E3.
    assert (En : ensure (S := engine) (negb (Z.of_nat n =? 0)) w3 = Done (tt, w3)).
    { destruct (Z.eqb_spec (Z.of_nat n) 0); [by destruct ids|done]. }
    split_and!; [by mstep En|done|done| |exact Hinv3|exact Fs1|exact Fs2|exact Fn].
    split; [apply (ei_bufs _ _ _ Hinv3)|exact Hnew].
Qed.

(** C10: After registration every extra buffer has its vector and all vectors are in the free
    list, no buffer is in two places, and the invariants of transmission, reception, sockets and
    neighbor cache hold. *)
Theorem backend_init_correct :
  ∃ w', backend_init can_alloc niocregif getifaddrs ifname lk nbufs w = Done (lk', w') ∧
    e_conf w' = c ∧
    (∀ i id, ids !! i = Some id → e_bufs w' !! i = Some (new_iov w' id)) ∧
    net_inv L (reg_homes rg ids) (reg_D ids) (reg_m ids) w' ∧
    rx_inv L (reg_homes rg ids) w' ∧
    sock_inv (reg_m ids) [] 0 w' ∧
    kh_rep (e_neighbor w') [] 0.
Proof.
  destruct backend_init_run as (w' & E & Ec & Hw & Hf & Hinv & Es & Ess & En). exists w'.
  split_and!; [done|done|apply Hf|by apply registered_net_inv|by apply registered_rx_inv|by apply fresh_sock_inv|].
  rewrite En. apply kh_init_rep.
Qed.
End InitRun.

(** ** Closing the sockets *)

(** The parts that [w_close] changes, with new contents. *)
Definition with_socks (w : engine) (hs : gmap nat sq_head) (tbl : khash w_socktuple nat) (ss : gmap nat w_sock) : engine :=
  set_socks (set_iovs w (QHeap hs (nexts (e_q w))) (e_bufs w)) tbl ss.

(** The removal of [w_close] marks one bucket of the table. *)
Lemma w_close_table qm tm B w s sk t :
  sock_inv qm tm B w → (t, s) ∈ tm → e_socks w !! s = Some sk →
  ∃ tbl, w_close s w = Done (tt, without_sock w s sk tbl) ∧ s_tup sk = t ∧
    kh_rep tbl (km_remove tm t) (S B) ∧ n_buckets tbl = n_buckets (e_sock w) ∧
    ∀ j, entries_at tbl j = entries_at (e_sock w) j ∨ entries_at tbl j = [].
Proof.
  intros Hs Hin Hsk. destruct (si_tup _ _ _ _ Hs t s Hin) as (sk' & Hsk' & Ht).
  assert (sk' = sk) as -> by congruence.
  pose proof (kh_remove_rep (KK := sock_key) (e_sock w) tm B (s_tup sk) (si_rep _ _ _ _ Hs)
    (si_wf _ _ _ _ Hs s sk Hsk)) as H. cbn [spec_kop] in H. rewrite Ht in H.
  rewrite (km_find_present tm t t s) in H; [|apply (kr_wf _ _ _ (si_rep _ _ _ _ Hs))| |done|].
  - destruct H as (tbl & E & Hr). exists tbl.
    destruct (kh_remove_entries (KK := sock_key) _ _ _ E) as [Hn Hent]. split_and!; try done.
    unfold w_close, backend_close, rem_sock. rewrite bind_assoc_run. mstep (get_sock_run s sk w Hsk).
    rewrite bind_assoc_run. mstep. rewrite bind_assoc_run. rewrite <- Ht in E. mstep (lift_run _ _ w E). mstep.
    unfold free_sock. mstep (get_sock_run s sk (set_socks w tbl (e_socks w)) Hsk). by mstep.
  - rewrite <- Ht. apply (si_wf _ _ _ _ Hs s sk Hsk).
  - apply (hash_equal_refl (KhKey := sock_key)). rewrite <- Ht. apply (si_wf _ _ _ _ Hs s sk Hsk).
Qed.

Lemma close_socks_run D : ∀ k j m tm B w,
  eng_inv D m w → sock_inv m tm B w → (j + k = Z.to_nat (n_buckets (e_sock w)))%nat →
  (∀ i, (i < j)%nat → entries_at (e_sock w) i = []) →
  ∃ hs tbl ss m' B', let w' := with_socks w hs tbl ss in
    close_socks k j w = Done (tt, w') ∧ eng_inv D m' w' ∧ m' !! IOVQ = m !! IOVQ ∧ sock_inv m' [] B' w'.
Proof.
  induction k as [|k IH]; intros j m tm B w Hinv Hs Hjk Hempty; cbn [close_socks].
  - exists (heads (e_q w)), (e_sock w), (e_socks w), m, B.
    assert (Ew : with_socks w (heads (e_q w)) (e_sock w) (e_socks w) = w) by (destruct w as [? []]; done).
    cbv zeta. rewrite Ew. split_and!; [done|done|done|].
    assert (tm = []) as ->; [|done]. pose proof (si_rep _ _ _ _ Hs) as Hr.
    destruct tm as [|[t s] tm]; [done|]. exfalso.
    destruct (proj2 (kr_content _ _ _ Hr t (Some s))) as [y Hy]; [exists s; split; [done|by left]|].
    apply elem_of_entries_at in Hy.
    destruct (Nat.lt_ge_cases y (Z.to_nat (n_buckets (e_sock w)))).
    + rewrite Hempty in Hy by lia. by apply elem_of_nil in Hy.
    + rewrite (entries_outside (KK := sock_key) _ _ _ y Hr) in Hy by done. by apply elem_of_nil in Hy.
  - pose proof (si_rep _ _ _ _ Hs) as Hr.
    destruct (kh_entry_rep (KK := sock_key) (e_sock w) tm B j Hr ltac:(lia)) as (E & Hlen & Hin).
    mstep. mstep (lift_run _ _ w E).
    destruct (entries_at (e_sock w) j) as [|[t s] rest] eqn:Ej.
    + mstep. apply (IH (S j) m tm B w Hinv Hs); [lia|]. intros i Hi.
      destruct (decide (i = j)) as [->|]; [done|]. apply Hempty. lia.
    + assert (Hts : (t, s) ∈ tm) by (apply Hin; by left).
      destruct (si_tup _ _ _ _ Hs t s Hts) as (sk & Hsk & _).
      destruct (w_close_table m tm B w s sk t Hs Hts Hsk) as (tbl & Ec & Ht & Hr' & Hn & Hent).
      mstep Ec. destruct (si_iv _ _ _ _ Hs s sk Hsk) as [_ Hne].
      pose proof (eng_inv_without_sock D m w s sk tbl Hinv Hne) as Hinv1. rewrite <- Ht in Hr'.
      pose proof (sock_inv_without_sock m tm B w s sk tbl Hs Hsk Hr') as Hs1.
      destruct (IH (S j) _ _ _ _ Hinv1 Hs1) as (hs & tbl2 & ss & m2 & B2 & E2 & Hinv2 & Hq2 & Hs2).
      * change (e_sock (without_sock w s sk tbl)) with tbl. lia.
      * change (e_sock (without_sock w s sk tbl)) with tbl. intros i Hi.
        destruct (decide (i = j)) as [->|]; [|destruct (Hent i) as [->| ->]; [apply Hempty; lia|done]].
        destruct (Hent j) as [Ej'|Ej']; [|done]. exfalso.
        assert (Hy : entry_at tbl j t (Some s)) by (apply elem_of_entries_at; rewrite Ej', Ej; by left).
        destruct (proj1 (kr_content _ _ _ Hr' t (Some s))) as (s' & _ & Hin'); [eauto|].
        apply elem_of_km_remove in Hin' as [_ Hin']. rewrite Ht in Hin'.
        rewrite (hash_equal_refl (KhKey := sock_key) t) in Hin'; [done|].
        rewrite <- Ht. apply (si_wf _ _ _ _ Hs s sk Hsk).
      * exists hs, tbl2, ss, m2, B2. split; [exact E2|]. split; [exact Hinv2|]. split; [|exact Hs2].
        rewrite Hq2. by apply lookup_delete_ne.
Qed.

(** ** Giving the buffers back *)

(** A list of buffers that ends with index 0, from its first one. *)
Fixpoint buf_list (mem : gmap Z bytes) (i : Z) (ids : list Z) : Prop :=
  match ids with
  | [] => i = 0
  | id :: ids => i = id ∧ ∃ b, mem !! id = Some b ∧ buf_list mem (ld32 b 0) ids
  end.

Definition buf_ok (w : engine) (x : Z) : Prop :=
  is_u32 x ∧ ∃ b, e_mem w !! x = Some b ∧ (4 <= length b)%nat.

Lemma stm32_run w x v b :
  e_mem w !! x = Some b → (4 <= length b)%nat →
  stm32 (x, 0) v w = Done (tt, set_mem w (<[x := stn b 0 (le_bytes 4 v)]> (e_mem w))).
Proof.
  intros Hb Hl. unfold stm32, stm, in_buf. cbn [fst snd]. rewrite Hb, length_le_bytes.
  rewrite (proj2 (Z.leb_le _ _)), (proj2 (Z.leb_le _ _)) by lia. done.
Qed.

Lemma link_bufs_run : ∀ xs n w,
  (∀ j x, xs !! j = Some x → ∃ v, e_bufs w !! (n + j)%nat = Some v ∧ v_idx v = x) →
  NoDup xs → Forall (buf_ok w) xs →
  ∃ mem, link_bufs (length xs) n (Z.of_nat (n + length xs)) w = Done (tt, set_mem w mem) ∧
    buf_list mem (hd 0 xs) xs ∧ ∀ id, id ∉ xs → mem !! id = e_mem w !! id.
Proof.
  induction xs as [|x xs IH]; intros n w Hxs Hnd Hok; cbn [link_bufs length].
  { exists (e_mem w). split_and!; [by destruct w|done|done]. }
  apply NoDup_cons in Hnd as [Hx Hnd]. apply Forall_cons in Hok as [(Hu & b & Hb & Hbl) Hok].
  destruct (Hxs 0%nat x eq_refl) as (v & Hv & <-). rewrite Nat.add_0_r in Hv. mstep (get_iov_run n v w Hv).
  set (w1 := set_mem w (<[v_idx v := stn b 0 (le_bytes 4 (hd 0 xs))]> (e_mem w))).
  assert (E : (if Z.of_nat n <? Z.of_nat (n + S (length xs)) - 1
               then v' ← get_iov (S n); stm32 (v_idx v, 0) (v_idx v') else stm32 (v_idx v, 0) 0) w = Done (tt, w1)).
  { destruct xs as [|y ys]; cbn [length hd].
    - rewrite (proj2 (Z.ltb_ge _ _)) by lia. by apply stm32_run.
    - rewrite (proj2 (Z.ltb_lt _ _)) by lia.
      destruct (Hxs 1%nat y eq_refl) as (v' & Hv' & <-). replace (n + 1)%nat with (S n) in Hv' by lia.
      mstep (get_iov_run (S n) v' w Hv'). by apply stm32_run. }
  mstep E. destruct (IH (S n) w1) as (mem & E2 & Hl & Hout).
  - intros j y Hj. destruct (Hxs (S j) y Hj) as (v' & Hv' & Hy). exists v'. split; [|done].
    by replace (S n + j)%nat with (n + S j)%nat by lia.
  - done.
  - eapply Forall_impl; [exact Hok|]. intros y (Hy & c & Hc & Hcl). split; [done|].
    cbn. destruct (decide (v_idx v = y)) as [<-|].
    + exists (stn b 0 (le_bytes 4 (hd 0 xs))). rewrite lookup_insert_eq. split; [done|].
      by rewrite length_stn by (rewrite length_le_bytes; lia).
    + exists c. by rewrite lookup_insert_ne.
  - exists mem. replace (n + S (length xs))%nat with (S n + length xs)%nat by lia. split_and!; [exact E2| |].
    + assert (Hnx : is_u32 (hd 0 xs)).
      { destruct xs as [|y ys]; [done|]. by apply Forall_cons in Hok as [[Hy _] _]. }
      split; [done|]. exists (st32 b 0 (hd 0 xs)). rewrite Hout by done. unfold w1. cbn [e_mem set_mem].
      rewrite lookup_insert_eq, ld32_st32_eq, u32_id by (done || lia). done.
    + intros id Hid. apply not_elem_of_cons in Hid as [H1 H2]. rewrite Hout by done. cbn. by rewrite lookup_insert_ne.
Qed.

(** When all vectors are free, backend_cleanup closes every socket and gives netmap
    back the list of all extra buffers, changing no other buffer. *)
Theorem backend_cleanup_correct L home D N m tm B nm B' w xs :
  net_inv L home D m w → sock_inv m tm B w → kh_rep (e_neighbor w) nm B' →
  (∀ i, i ∈ D ↔ (i < N)%nat) → m !! IOVQ = Some xs → length xs = N → (0 < N)%nat → Z.of_nat N < 2 ^ 64 →
  (4 <= L)%nat → (∀ i i', (i < N)%nat → (i' < N)%nat → h_iov home i = h_iov home i' → i = i') →
  (∀ i, (i < N)%nat → is_u32 (h_iov home i)) →
  let ids := h_iov home <$> seq 0 N in
  ∃ w', backend_cleanup w = Done (h_iov home 0, w') ∧ e_sock w' = kh_init ∧ e_neighbor w' = kh_init ∧
    buf_list (e_mem w') (h_iov home 0) ids ∧ ∀ id, id ∉ ids → e_mem w' !! id = e_mem w !! id.
Proof.
  intros [Hinv Htx _ Hfree Hmem] Hs Hn HD Hxs Hlen HN Hsz HL Hinj Hu ids. unfold backend_cleanup. mstep.
  destruct (close_socks_run D (Z.to_nat (n_buckets (e_sock w))) 0 m tm B w Hinv Hs ltac:(lia) ltac:(intros; lia))
    as (hs & tbl & ss & m' & B2 & E & Hinv' & Hq & _). cbv zeta in E, Hinv'. mstep E. mstep. mstep.
  set (w1 := set_socks (with_socks w hs tbl ss) kh_init _) in *.
  assert (Ef : free_neighbor w1 = Done (tt, set_neighbor w1 kh_init)).
  { unfold free_neighbor. mstep. destruct (kh_foreach_rep (KK := neighbor_key) _ nm B' Hn) as (l & El & _).
    by mstep (lift_run _ _ w1 El). }
  mstep Ef. set (w2 := set_neighbor w1 kh_init).
  assert (Hall : ∀ i, (i < N)%nat → i ∈ xs).
  { destruct (inv_repr D _ m (ei_q _ _ _ Hinv) IOVQ xs Hxs) as [_ _ Hnd].
    assert (Hp : xs ≡ₚ seq 0 N).
    { apply submseteq_length_Permutation; [|rewrite length_seq; lia]. apply NoDup_submseteq; [done|].
      intros i Hi. apply elem_of_seq. pose proof (proj1 (HD i) (queue_elem D m w IOVQ xs i Hinv Hxs Hi)). lia. }
    intros i Hi. rewrite Hp. apply elem_of_seq. lia. }
  assert (Hiv : ∀ i, (i < N)%nat → ∃ v, e_bufs w !! i = Some v ∧ v_idx v = h_iov home i).
  { intros i Hi. destruct (eng_inv_iov D m w i Hinv (proj2 (HD i) Hi)) as [v Hv]. exists v. split; [done|].
    apply (tc_home _ _ _ (tx_core_inv _ _ Htx) i v Hv). by apply (Hfree xs i v Hxs (Hall i Hi) Hv). }
  assert (Elen : liftq (sq_len IOVQ) w2 = Done (Z.of_nat N, w2)).
  { rewrite <- Hlen. apply (w_iov_sq_cnt_run D m' w2); [by destruct Hinv'; split|by rewrite Hq|].
    replace D with (list_to_set (seq 0 N) : gset nat).
    - rewrite size_list_to_set by apply NoDup_seq. by rewrite length_seq.
    - apply set_eq. intros i. rewrite elem_of_list_to_set, elem_of_seq, HD. lia. }
  mstep Elen. rewrite Nat2Z.id.
  destruct (link_bufs_run ids 0 w2) as (mem & El & Hl & Hout).
  - intros j x Hj. unfold ids in Hj. apply list_lookup_fmap_Some in Hj as (i & -> & Hi).
    apply lookup_seq in Hi as [-> Hi]. destruct (Hiv j Hi) as (v & Hv & Hid). by exists v.
  - apply NoDup_fmap_2_strong; [|apply NoDup_seq]. intros i i' Hi%elem_of_seq Hi'%elem_of_seq. apply Hinj; lia.
  - apply Forall_forall. intros x (i & -> & Hi)%list_elem_of_fmap. apply elem_of_seq in Hi. split; [apply Hu; lia|].
    destruct (Hmem i (proj2 (HD i) ltac:(lia))) as (b & Hb & Hbl & _). exists b. split; [done|lia].
  - unfold ids in El. rewrite length_fmap, length_seq in El. cbn [Nat.add] in El. mstep El.
    destruct (Hiv 0%nat HN) as (v & Hv & Hid). mstep (get_iov_run 0 v (set_mem w2 mem) Hv).
    exists (set_mem w2 mem). rewrite Hid. split_and!; [done|done|done| |exact Hout].
    cbn [e_mem set_mem]. unfold ids in Hl |- *. destruct N as [|N]; [lia|]. exact Hl.
Qed.

(** ** Witnesses *)

(** A registration with one TX ring, one RX ring and three extra buffers. *)
Definition mem_reg_ex : gmap Z bytes :=
  list_to_map ((λ '(i, n), (i, le_bytes 4 n ++ repeat 0 124)) <$> [(0, 1); (1, 2); (2, 0); (200, 0); (201, 0)]).
Definition rg_ex : nm_reg := NmReg [ring_ex] [rx_ring_ex] mem_reg_ex 3 0.
Definition niocregif_ex (_ : string) (_ : nr_mode) (_ : Z) : option nm_reg := Some rg_ex.
Definition engine_new_ex : engine := alloc_engine 2 (Krng 1 2).

Lemma ring_slot_tx_ex k j s : ring_slot [ring_ex] k j = Some s → k = 0%nat ∧ 100 <= ns_buf_idx s < 104.
Proof.
  destruct k as [|k]; [|by destruct k]. unfold ring_slot. cbn.
  do 4 (destruct j as [|j]; [intros [= <-]; cbn; lia|]). done.
Qed.
Lemma ring_slot_rx_ex k j s :
  ring_slot [rx_ring_ex] k j = Some s → k = 0%nat ∧ (j < 2)%nat ∧ ns_buf_idx s = 200 + Z.of_nat j.
Proof.
  destruct k as [|k]; [|by destruct k]. unfold ring_slot. cbn.
  do 2 (destruct j as [|j]; [intros [= <-]; cbn; lia|]). done.
Qed.

Lemma rg_ex_ok : reg_ok 128 rg_ex [0; 1; 2].
Proof.
  split.
  - intros [|k] r; [|by destruct k]. intros [= <-]. split_and!; [by split|done|done].
  - intros [|k] r; [|by destruct k]. intros [= <-]. by split.
  - done.
  - done.
  - cbn. split_and!; [done|]. do 3 (eexists; split; [vm_compute; reflexivity|]; split; [cbn; lia|]; cbn -[ld32];
      try (split; [vm_compute; reflexivity|])). done.
  - by apply (bool_decide_unpack (NoDup [0; 1; 2])).
  - intros k j s (_ & Hs)%ring_slot_tx_ex Hi. rewrite !elem_of_cons, elem_of_nil in Hi. lia.
  - intros k j s (_ & _ & Hs)%ring_slot_rx_ex Hi. rewrite !elem_of_cons, elem_of_nil in Hi. lia.
  - intros k j s k' j' s' (_ & _ & Hs)%ring_slot_rx_ex (_ & Hs')%ring_slot_tx_ex. lia.
  - intros k j s k' j' s' (-> & _ & Hs)%ring_slot_rx_ex (-> & _ & Hs')%ring_slot_rx_ex. lia.
  - intros id Hid. assert (Hc : id ∈ [0; 1; 2; 200; 201]).
    { rewrite !elem_of_cons, !elem_of_nil in *. destruct Hid as [|(k & j & s & (-> & Hj & ->)%ring_slot_rx_ex & <-)]; lia. }
    rewrite !elem_of_cons, elem_of_nil in Hc.
    destruct Hc as [->|[->|[->|[->|[->|[]]]]]]; (eexists; split; [vm_compute; reflexivity|]; split; [reflexivity|]);
      apply (bool_decide_unpack (Forall is_u8 _)); vm_compute; exact I.
Qed.

Lemma engine_new_ex_fresh : fresh_engine engine_new_ex.
Proof. by split. Qed.

#[local] Existing Instance netmap_ex.
#[local] Existing Instance os_ex.

Lemma backend_init_correct_witness :
  ∃ w', backend_init (λ _ _, true) niocregif_ex (Some ifaddrs_ex) "eth0" (WLink false false 0 "") 3 engine_new_ex
      = Done (WLink false false 1000 "e1000", w') ∧
    net_inv 128 (reg_homes rg_ex [0; 1; 2]) (reg_D [0; 1; 2]) (reg_m [0; 1; 2]) w'.
Proof.
  assert (E : ∃ c, backend_addr_config (Some ifaddrs_ex) "eth0" (e_conf engine_new_ex) (WLink false false 0 "")
    = Done (c, WLink false false 1000 "e1000")) by (eexists; vm_compute; reflexivity).
  destruct E as [c E].
  destruct (backend_init_correct (λ _ _, true) niocregif_ex 128 rg_ex [0; 1; 2] engine_new_ex c
    (WLink false false 0 "") (WLink false false 1000 "e1000") (Some ifaddrs_ex) "eth0" 3
    rg_ex_ok ltac:(lia) engine_new_ex_fresh E eq_refl eq_refl) as (w' & Ew & _ & _ & Hnet & _).
  exists w'. split; [exact Ew|exact Hnet].
Defined.

Lemma backend_cleanup_correct_witness :
  ∃ w w', backend_init (λ _ _, true) niocregif_ex (Some ifaddrs_ex) "eth0" (WLink false false 0 "") 3 engine_new_ex
      = Done (WLink false false 1000 "e1000", w) ∧
    backend_cleanup w = Done (0, w') ∧ buf_list (e_mem w') 0 [0; 1; 2].
Proof.
  assert (E : ∃ c, backend_addr_config (Some ifaddrs_ex) "eth0" (e_conf engine_new_ex) (WLink false false 0 "")
    = Done (c, WLink false false 1000 "e1000")) by (eexists; vm_compute; reflexivity).
  destruct E as [c E].
  destruct (backend_init_run (λ _ _, true) niocregif_ex 128 rg_ex [0; 1; 2] engine_new_ex c
    (WLink false false 0 "") (WLink false false 1000 "e1000") (Some ifaddrs_ex) "eth0" 3
    rg_ex_ok ltac:(lia) engine_new_ex_fresh E eq_refl eq_refl) as (w & Ew & _ & Hw & Hf & Hinv & Es & Ess & En).
  destruct (backend_cleanup_correct 128 (reg_homes rg_ex [0; 1; 2]) (reg_D [0; 1; 2]) 3 (reg_m [0; 1; 2]) [] 0 [] 0 w
    [2; 1; 0]%nat) as (w' & Ec & _ & _ & Hl & _).
  - apply registered_net_inv; [exact rg_ex_ok|done|done|done].
  - by apply fresh_sock_inv.
  - rewrite En. apply kh_init_rep.
  - intros i. apply elem_of_reg_D.
  - reflexivity.
  - reflexivity.
  - lia.
  - lia.
  - lia.
  - intros i i' Hi Hi'. cbn. destruct i as [|[|[|]]], i' as [|[|[|]]]; cbn; lia.
  - intros i Hi. unfold is_u32. cbn. destruct i as [|[|[|]]]; cbn; lia.
  - exists w, w'. split; [exact Ew|]. split; [exact Ec|exact Hl].
Defined.
