(* ===== verification/Sockio.v ===== *)
(** The backend on kernel sockets (lib/src/backend_sock.c), with epoll, sendmmsg and
    recvmmsg as on Linux: binding and closing, sending and receiving queues of
    vectors, waiting for data, and the engine's buffers.

    The system calls are parameters; [KernelLaws] is what their manual pages promise. *)

From stdpp Require Import strings.
From S2P Require Import Prelude Util Krng Queue Wire Addr Ifaddr Khash Engine Netmap Ip Sock Icmp Rx Connect Tx Backend.

(** ** System calls *)

(** The result of a system call: a value, or -1 with [errno]. *)
Inductive sysres (A : Type) := SysOk (a : A) | SysErr (errno : Z).
Arguments SysOk {A} a.
Arguments SysErr {A} errno.

(** A control message: its level, type and data. *)
Record cmsg := Cmsg { cmsg_level : Z; cmsg_type : Z; cmsg_data : Z }.
(** A datagram given to [sendmmsg] and one given back by [recvmmsg]. *)
Record out_msg := OutMsg { om_name : option sockaddr; om_data : bytes; om_ctrl : option cmsg }.
Record in_msg := InMsg { im_name : sockaddr; im_data : bytes; im_ctrl : list cmsg }.

(** The state of the kernel and the calls the backend makes. [k_epoll_add] and
    [k_epoll_del] take the socket that is the data of the event; [k_recvmmsg] takes the
    lengths of the buffers, [k_epoll_wait] a number of events and a timeout in
    milliseconds.  [k_open] says which file descriptors are open. *)
Class Kernel := {
  kst : Type;
  k_socket : Z → kst → sysres Z * kst;
  k_bind : Z → sockaddr → Z → kst → sysres unit * kst;
  k_connect : Z → sockaddr → Z → kst → sysres unit * kst;
  k_setsockopt : Z → Z → Z → Z → kst → sysres unit * kst;
  k_getsockname : Z → kst → sysres sockaddr * kst;
  k_close : Z → kst → sysres unit * kst;
  k_epoll_add : Z → nat → kst → sysres unit * kst;
  k_epoll_del : Z → nat → kst → sysres unit * kst;
  k_epoll_wait : nat → Z → kst → sysres (list nat) * kst;
  k_sendmmsg : Z → list out_msg → kst → sysres nat * kst;
  k_recvmmsg : Z → list Z → kst → sysres (list in_msg) * kst;
  k_open : kst → Z → Prop
}.

(** sys/socket.h, netinet/in.h *)
Definition SOL_SOCKET : Z := 1.
Definition SO_NO_CHECK : Z := 11.
Definition IPPROTO_IP : Z := 0.
Definition IPPROTO_IPV6 : Z := 41.
Definition IP_TOS : Z := 1.
Definition IP_TTL : Z := 2.
Definition IP_MTU_DISCOVER : Z := 10.
Definition IP_PMTUDISC_DO : Z := 2.
Definition IP_RECVTTL : Z := 12.
Definition IP_RECVTOS : Z := 13.
Definition IPV6_RECVTCLASS : Z := 66.
Definition IPV6_TCLASS : Z := 67.
Definition ECN_NOT : Z := 0.

Definition sa_len (f : Z) : Z := if f =? AF_INET then 16 else 28.
(** The sizes of the arrays of messages and events. *)
Definition SEND_SIZE : nat := 64.
Definition RECV_SIZE : nat := 64.
Definition EV_SIZE : nat := 64.

Section Sockio.
Context `{!Kernel}.
(** What a [struct sockaddr_storage] on the stack holds before it is written. *)
Context (ss0 : sockaddr).

(** An engine with its [struct w_backend]: the file descriptors of the sockets, and
    the events of the last [epoll_wait] with their number. *)
Record backend := SockBackend {
  b_w : engine;
  b_fd : gmap nat Z;
  b_ev : list nat;
  b_n : Z;
  b_k : kst
}.
Definition set_w (b : backend) (w : engine) : backend := SockBackend w (b_fd b) (b_ev b) (b_n b) (b_k b).
Definition set_k (b : backend) (k : kst) : backend := SockBackend (b_w b) (b_fd b) (b_ev b) (b_n b) k.
Definition set_ev (b : backend) (ev : list nat) (n : Z) : backend := SockBackend (b_w b) (b_fd b) ev n (b_k b).

Definition liftw {A} (m : M engine A) : M backend A := λ b,
  match m (b_w b) with
  | Done (a, w) => Done (a, set_w b w)
  | Died => Died
  | Fault => Fault
  | NoFuel => NoFuel
  end.
Definition sys {A} (f : kst → A * kst) : M backend A := λ b,
  let '(a, k) := f (b_k b) in Done (a, set_k b k).
Definition get_fd (s : nat) : M backend Z := λ b,
  match b_fd b !! s with Some fd => Done (fd, b) | None => Fault end.
Definition put_fd (s : nat) (fd : Z) : M backend unit := λ b,
  Done (tt, SockBackend (b_w b) (<[s := fd]> (b_fd b)) (b_ev b) (b_n b) (b_k b)).
(** [ensure] that a call succeeded. *)
Definition ensure_ok {A} (r : sysres A) : M backend A :=
  match r with SysOk a => mret a | SysErr _ => die end.

(** ** Options, binding and closing *)

Definition sock_level (af : Z) : Z := if af =? AF_INET then IPPROTO_IP else IPPROTO_IPV6.

Definition w_set_sockopt (s : nat) (opt : w_sockopt) : M backend unit :=
  sk ← liftw (get_sock s);
  let zc := enable_udp_zero_checksums opt in
  when ((ws_af sk =? AF_INET) && negb (eqb (enable_udp_zero_checksums (s_opt sk)) zc))
    (liftw (put_sock s (set_opt sk (WSockopt zc (enable_ecn (s_opt sk))))) ;;
     fd ← get_fd s;
     r ← sys (k_setsockopt fd SOL_SOCKET SO_NO_CHECK (Z.b2z zc)); ensure_ok r) ;;
  sk ← liftw (get_sock s);
  let ecn := enable_ecn opt in
  when (negb (eqb (enable_ecn (s_opt sk)) ecn))
    (liftw (put_sock s (set_opt sk (WSockopt (enable_udp_zero_checksums (s_opt sk)) ecn))) ;;
     fd ← get_fd s;
     _ ← sys (k_setsockopt fd (sock_level (ws_af sk)) (if ws_af sk =? AF_INET then IP_TOS else IPV6_TCLASS)
                (if ecn then ECN_ECT0 else ECN_NOT));
     mret tt).

(** The part of [backend_bind] after [bind]. *)
Definition bind_options (s : nat) (opt : option w_sockopt) : M backend unit :=
  sk ← liftw (get_sock s);
  fd ← get_fd s;
  r ← sys (k_setsockopt fd (sock_level (ws_af sk)) (if ws_af sk =? AF_INET then IP_RECVTOS else IPV6_RECVTCLASS) 1);
  ensure_ok r ;;
  r ← sys (k_setsockopt fd IPPROTO_IP IP_RECVTTL 1);
  ensure_ok r ;;
  when (ws_af sk =? AF_INET)
    (r ← sys (k_setsockopt fd IPPROTO_IP IP_MTU_DISCOVER IP_PMTUDISC_DO); ensure_ok r) ;;
  match opt with Some opt => w_set_sockopt s opt | None => mret tt end.

Definition backend_bind (s : nat) (opt : option w_sockopt) : M backend Z :=
  sk ← liftw (get_sock s);
  r ← sys (k_socket (ws_af sk));
  match r with
  | SysErr errno => put_fd s (-1) ;; mret errno
  | SysOk fd =>
      put_fd s fd ;;
      let ss := to_sockaddr ss0 (sa_addr (ws_loc sk)) (ws_lport sk) (scope_id (s_tup sk)) in
      r ← sys (k_bind fd ss (sa_len (ws_af sk)));
      match r with
      | SysErr errno => mret errno
      | SysOk _ =>
          bind_options s opt ;;
          sk ← liftw (get_sock s);
          when (ws_lport sk =? 0)
            (r ← sys (k_getsockname fd); ss ← ensure_ok r; liftw (put_sock s (set_lport sk (sockaddr_port ss)))) ;;
          r ← sys (k_epoll_add fd s);
          ensure_ok r ;;
          mret 0
      end
  end.

Definition w_bind (ok : bool) (addr_idx port : Z) (opt : option w_sockopt) : M backend (option nat) :=
  o ← liftw (alloc_sock ok);
  match o with
  | None => mret None
  | Some s =>
      b ← get; ia ← lift (rd (ifaddr (e_conf (b_w b))) addr_idx);
      sk ← liftw (get_sock s);
      liftw (put_sock s (set_tup sk (WSocktuple (WSockaddr (ia_addr ia) port) (ws_rem sk) (ia_scope_id ia)))) ;;
      liftw (liftq (sq_init (s_iv sk))) ;;
      e ← backend_bind s opt;
      if negb (e =? 0) then liftw (free_sock s) ;; mret None else mret (Some s)
  end.

Definition backend_preconnect (s : nat) : M backend unit := mret tt.
Definition backend_connect (s : nat) : M backend Z :=
  sk ← liftw (get_sock s); fd ← get_fd s;
  let ss := to_sockaddr ss0 (sa_addr (ws_rem sk)) (ws_rport sk) (scope_id (s_tup sk)) in
  r ← sys (k_connect fd ss (sa_len (af (sa_addr (ws_rem sk)))));
  mret (match r with SysOk _ => 0 | SysErr errno => errno end).

Definition backend_close (s : nat) : M backend unit :=
  fd ← get_fd s;
  r ← sys (k_epoll_del fd s); ensure_ok r ;;
  r ← sys (k_close fd); ensure_ok r.
Definition w_close (s : nat) : M backend unit := backend_close s ;; liftw (free_sock s).

Definition w_connect (s : nat) (peer : sockaddr) : M backend Z :=
  sk ← liftw (get_sock s);
  if w_connected sk then mret EADDRINUSE else
  backend_preconnect s ;;
  let '(ok, ra) := w_to_waddr (sa_addr (ws_rem sk)) peer in
  e ← (if negb ok then mret EAFNOSUPPORT
       else
         liftw (put_sock s (set_rem sk (WSockaddr ra (sockaddr_port peer)))) ;;
         backend_connect s);
  when (negb (e =? 0)) (sk ← liftw (get_sock s); liftw (put_sock s (set_rem sk zero_sockaddr))) ;;
  mret e.

(** ** Sending *)

Definition set_flags (v : w_iov) (flags : Z) : w_iov :=
  WIov (v_saddr v) (v_base v) (v_buf v) (v_idx v) (v_len v) flags (v_ttl v) (v_user_data v).
Definition set_ttl (v : w_iov) (ttl : Z) : w_iov :=
  WIov (v_saddr v) (v_base v) (v_buf v) (v_idx v) (v_len v) (v_flags v) ttl (v_user_data v).

(** An entry of [msgvec]: the destination, the pointer and length of the payload, and the
    control message. *)
Definition msg_hdr : Type := option sockaddr * (bufptr * Z) * option cmsg.

(** The loop that fills [msgvec] from vector [v]; the vector it stops at. *)
Fixpoint tx_fill (n : nat) (sk : w_sock) (v : option nat) : M engine (list msg_hdr * option nat) :=
  match n, v with
  | O, _ | _, None => mret ([], v)
  | S n, Some i =>
      v ← get_iov i;
      let iov := (v_buf v, v_len v) in
      when (w_connected sk) (put_iov i (set_saddr v (ws_rem sk))) ;;
      v ← get_iov i;
      let name := if w_connected sk then None
                  else Some (to_sockaddr ss0 (sa_addr (v_saddr v)) (sa_port (v_saddr v)) (scope_id (s_tup sk))) in
      let fam := af (sa_addr (v_saddr v)) in
      let ctrl := if negb (v_flags v =? 0)
                  then Some (Cmsg (sock_level fam) (if fam =? AF_INET then IP_TOS else IPV6_TCLASS) (v_flags v))
                  else None in
      when ((v_flags v =? 0) && enable_ecn (s_opt sk)) (put_iov i (set_flags v ECN_ECT0)) ;;
      next ← liftq (sq_next i);
      '(msgs, last) ← tx_fill n sk next;
      mret ((name, iov, ctrl) :: msgs, last)
  end.

(** The kernel reads the payloads. *)
Fixpoint gather (msgs : list msg_hdr) : M engine (list out_msg) :=
  match msgs with
  | [] => mret []
  | (name, (p, len), ctrl) :: msgs =>
      data ← ldm p (Z.to_nat len); l ← gather msgs; mret (OutMsg name data ctrl :: l)
  end.

Fixpoint tx_loop (fuel : nat) (sk : w_sock) (fd : Z) (v : option nat) : M backend unit :=
  match fuel with
  | O => no_fuel
  | S fuel =>
      '(msgs, v) ← liftw (tx_fill SEND_SIZE sk v);
      l ← liftw (gather msgs);
      _ ← sys (k_sendmmsg fd l);
      match v with None => mret tt | Some _ => tx_loop fuel sk fd v end
  end.
Definition w_tx (fuel s o : nat) : M backend unit :=
  sk ← liftw (get_sock s); fd ← get_fd s;
  v ← liftw (liftq (sq_first o));
  tx_loop fuel sk fd v.

(** ** Receiving *)

(** The vectors for up to [n] messages, with where they point and their lengths. *)
Fixpoint rx_alloc (n : nat) (af : Z) : M engine (list (nat * (bufptr * Z))) :=
  match n with
  | O => mret []
  | S n =>
      o ← w_alloc_iov false af 0 0;
      match o with
      | None => mret []
      | Some i => v ← get_iov i; l ← rx_alloc n af; mret ((i, (v_buf v, v_len v)) :: l)
      end
  end.

(** The kernel writes the payloads. *)
Fixpoint scatter (vs : list (nat * (bufptr * Z))) (msgs : list in_msg) : M engine unit :=
  match vs, msgs with
  | (_, (p, _)) :: vs, m :: msgs => stm p (im_data m) ;; scatter vs msgs
  | _, _ => mret tt
  end.

(** The control messages of a datagram. *)
Definition rx_cmsg (v : w_iov) (c : cmsg) : w_iov :=
  if (cmsg_level c =? IPPROTO_IP) || (cmsg_level c =? IPPROTO_IPV6) then
    if (cmsg_type c =? IP_TOS) || (cmsg_type c =? IPV6_TCLASS) then set_flags v (u8 (cmsg_data c))
    else if cmsg_type c =? IP_TTL then set_ttl v (u8 (cmsg_data c))
    else v
  else v.

(** What one received datagram makes of its vector. *)
Definition rx_fields (v : w_iov) (m : in_msg) : w_iov :=
  let addr := snd (w_to_waddr (sa_addr (v_saddr v)) (im_name m)) in
  let v := set_saddr v (WSockaddr addr (sockaddr_port (im_name m))) in
  foldl rx_cmsg (Engine.set_len v (u16 (Z.of_nat (length (im_data m))))) (im_ctrl m).

Fixpoint rx_take (q : nat) (vs : list (nat * (bufptr * Z))) (msgs : list in_msg) : M engine unit :=
  match vs, msgs with
  | (i, _) :: vs, m :: msgs =>
      v ← get_iov i; put_iov i (rx_fields v m) ;;
      liftq (sq_insert_tail q i) ;;
      rx_take q vs msgs
  | _, _ => mret tt
  end.

Fixpoint rx_return (vs : list (nat * (bufptr * Z))) : M engine unit :=
  match vs with
  | [] => mret tt
  | (i, _) :: vs => w_free_iov i ;; rx_return vs
  end.

(** [recvmmsg] into the vectors; the number of datagrams, 0 if it failed. *)
Definition rx_call (fd : Z) (q : nat) (vs : list (nat * (bufptr * Z))) : M backend nat :=
  r ← sys (k_recvmmsg fd ((λ v, snd (snd v)) <$> vs));
  match r with
  | SysOk msgs => liftw (scatter vs msgs) ;; liftw (rx_take q vs msgs) ;; mret (length msgs)
  | SysErr _ => mret 0%nat
  end.

Fixpoint rx_loop (fuel : nat) (sk : w_sock) (fd : Z) (q : nat) : M backend unit :=
  match fuel with
  | O => no_fuel
  | S fuel =>
      vs ← liftw (rx_alloc RECV_SIZE (ws_af sk));
      if bool_decide (vs = []) then mret tt else
      n ← rx_call fd q vs;
      liftw (rx_return (drop n vs)) ;;
      if (n =? RECV_SIZE)%nat then rx_loop fuel sk fd q else mret tt
  end.
Definition w_rx (fuel s q : nat) : M backend unit :=
  sk ← liftw (get_sock s); fd ← get_fd s; rx_loop fuel sk fd q.

(** ** Waiting for data *)

Definition w_nic_tx : M backend unit := mret tt.

(** [epoll_wait] fills the front of [ev]; it returns the number of events or -1. *)
Definition wait_events (timeout : Z) : M backend unit :=
  r ← sys (k_epoll_wait EV_SIZE timeout);
  b ← get;
  match r with
  | SysOk l => put (set_ev b (l ++ drop (length l) (b_ev b)) (Z.of_nat (length l)))
  | SysErr _ => put (set_ev b (b_ev b) (-1))
  end.

Definition w_nic_rx (nsec : Z) : M backend bool :=
  wait_events (if nsec =? -1 then -1 else s32 (Z.quot nsec NS_PER_MS)) ;;
  b ← get; mret (0 <? b_n b).

(** [sl_insert_head] writes the link of the socket. *)
Fixpoint ready_loop (evs sl : list nat) : M backend (list nat) :=
  match evs with
  | [] => mret sl
  | s :: evs => _ ← liftw (get_sock s); ready_loop evs (s :: sl)
  end.
Definition w_rx_ready (sl : list nat) : M backend (Z * list nat) :=
  b ← get;
  when (b_n b <=? 0) (wait_events 0) ;;
  b ← get;
  let n := Z.max 0 (b_n b) in
  sl ← ready_loop (take (Z.to_nat n) (b_ev b)) sl;
  b ← get; put (set_ev b (b_ev b) 0) ;;
  mret (n, sl).

(** ** The engine *)

(** The loop over the [n] vectors. *)
Fixpoint init_loop (k i : nat) : M engine unit :=
  match k with
  | O => mret tt
  | S k => init_iov false i (Z.of_nat i) ;; liftq (sq_insert_head IOVQ i) ;; init_loop k (S i)
  end.

(** [calloc] of [n] buffers. *)
Definition calloc_mem (n : nat) : M engine unit :=
  w ← get;
  put (set_mem w (list_to_map ((λ i, (Z.of_nat i, repeat 0 (Z.to_nat (max_buf_len false w)))) <$> seq 0 n))).

(** [mem_ok] and [bufs_ok] are whether there is memory. *)
Definition backend_init `{!Os} (getifaddrs : option (list ifaddrs)) (ifname : String.string) (lk : w_link)
    (pagesize nbufs : Z) (mem_ok bufs_ok : bool) : M engine w_link :=
  w ← get;
  '(c, lk) ← lift (backend_addr_config getifaddrs ifname (e_conf w) lk);
  put (set_conf w (set_link c (Z.min (mtu c) (u16 pagesize / 2)) (mac c))) ;;
  ensure mem_ok ;; calloc_mem (Z.to_nat nbufs) ;;
  ensure bufs_ok ;; calloc_bufs (Z.to_nat nbufs) ;;
  init_loop (Z.to_nat nbufs) 0 ;;
  mret lk.

Definition backend_cleanup : M backend unit :=
  b ← get;
  let w := b_w b in
  put (set_ev (set_w b (set_iovs (set_mem w ∅) (e_q w) ∅)) (b_ev b) 0).
End Sockio.

(** * Theorems *)

(** What the manual pages promise: [recvmmsg] returns no more datagrams than buffers,
    none longer than its buffer; a new file descriptor was not open and is, and only
    [close] closes one. *)
Class KernelLaws `{!Kernel} : Prop := {
  recvmmsg_law fd caps k msgs k' : Forall (λ c, 0 <= c) caps → k_recvmmsg fd caps k = (SysOk msgs, k') →
    (length msgs <= length caps)%nat ∧
    ∀ j m cap, msgs !! j = Some m → caps !! j = Some cap → Z.of_nat (length (im_data m)) <= cap ∧ is_bytes (im_data m);
  socket_law af k fd k' : k_socket af k = (SysOk fd, k') → ¬ k_open k fd ∧ k_open k' fd;
  bind_law fd sa n k r k' : k_bind fd sa n k = (r, k') → ∀ fd', k_open k' fd' ↔ k_open k fd';
  close_law fd k k' : k_close fd k = (SysOk tt, k') → ∀ fd', k_open k' fd' ↔ k_open k fd' ∧ fd' ≠ fd;
  epoll_del_law fd s k r k' : k_epoll_del fd s k = (r, k') → ∀ fd', k_open k' fd' ↔ k_open k fd'
}.

(** ** The buffers of the engine *)

(** An engine with other queues, vectors and buffers. *)
Definition io (w : engine) (q : qheap) (bufs : gmap nat w_iov) (mem : gmap Z bytes) : engine :=
  set_mem (set_iovs w q bufs) mem.

(** Vector [i] begins at buffer [i], and the buffers are of one size. *)
Definition io_bufs (w : engine) : Prop := ∀ i v, e_bufs w !! i = Some v →
  v_base v = (Z.of_nat i, 0) ∧
  ∃ b, e_mem w !! Z.of_nat i = Some b ∧ is_bytes b ∧ Z.of_nat (length b) = max_buf_len false w.

(** The vectors [l] changed by [f]. *)
Definition upd (l : list nat) (f : w_iov → w_iov) (bufs : gmap nat w_iov) : gmap nat w_iov :=
  map_imap (λ i v, Some (if bool_decide (i ∈ l) then f v else v)) bufs.

Lemma upd_lookup l f bufs i :
  upd l f bufs !! i = (λ v, if bool_decide (i ∈ l) then f v else v) <$> bufs !! i.
Proof. unfold upd. rewrite map_lookup_imap. by destruct (bufs !! i). Qed.
Lemma upd_nil f bufs : upd [] f bufs = bufs.
Proof.
  apply map_eq. intros i. rewrite upd_lookup. destruct (bufs !! i); [|done]. cbn.
  rewrite bool_decide_false; [done|]. apply not_elem_of_nil.
Qed.
Lemma upd_cons l f bufs i v :
  bufs !! i = Some v → i ∉ l → upd l f (<[i := f v]> bufs) = upd (i :: l) f bufs.
Proof.
  intros Hv Hi. apply map_eq. intros j. rewrite !upd_lookup.
  destruct (decide (j = i)) as [->|Hne].
  - rewrite lookup_insert_eq, Hv. cbn. rewrite bool_decide_false, bool_decide_true by (done || by left). done.
  - rewrite lookup_insert_ne by done. destruct (bufs !! j); [|done]. cbn.
    by rewrite (bool_decide_ext (j ∈ i :: l) (j ∈ l)) by (rewrite elem_of_cons; tauto).
Qed.

Lemma liftw_run `{!Kernel} {A} (m : M engine A) b a w :
  m (b_w b) = Done (a, w) → liftw m b = Done (a, set_w b w).
Proof. intros E. unfold liftw. by rewrite E. Qed.

Lemma sys_run `{!Kernel} {A} (f : kst → A * kst) b a k : f (b_k b) = (a, k) → sys f b = Done (a, set_k b k).
Proof. intros E. unfold sys. by rewrite E. Qed.

(** ** Queue operations and the [next] fields of other vectors *)

Section Queues.
Context (D : gset nat) (w : engine) (bufs : gmap nat w_iov) (mem : gmap Z bytes).

Lemma io_liftq (f : M qheap unit) q q' :
  f q = Done (tt, q') → liftq f (io w q bufs mem) = Done (tt, io w q' bufs mem).
Proof. intros H. unfold liftq. cbn. by rewrite H. Qed.

Lemma io_insert_tail m q h xs i :
  eng_inv D m (io w q bufs mem) → m !! h = Some xs → unqueued D m i → h ≠ IOVQ →
  ∃ q', liftq (sq_insert_tail h i) (io w q bufs mem) = Done (tt, io w q' bufs mem) ∧
    eng_inv D (<[h := xs ++ [i]]> m) (io w q' bufs mem) ∧
    ∀ j, j ≠ i → j ∉ xs → nexts q' !! j = nexts q !! j.
Proof.
  intros [Hq Hb Hi] Hm Hu Hne. cbn in Hq.
  destruct (sq_insert_tail_spec q h i xs) as (q' & E & Hr & Hf);
    [by eapply inv_repr|by eapply unqueued_alloc|by eapply unqueued_not_in|].
  exists q'. split; [by apply io_liftq|]. split.
  - split; [|done|by rewrite lookup_insert_ne]. eapply inv_update_one; eauto.
    set_solver.
  - intros j Hj Hx. apply (frame_nexts _ _ _ _ Hf). rewrite elem_of_cons. tauto.
Qed.

Lemma io_free_iov m q free i :
  eng_inv D m (io w q bufs mem) → m !! IOVQ = Some free → unqueued D m i → nexts q !! i = Some None →
  ∃ q', w_free_iov i (io w q bufs mem) = Done (tt, io w q' bufs mem) ∧
    eng_inv D (<[IOVQ := i :: free]> m) (io w q' bufs mem) ∧
    ∀ j, j ≠ i → nexts q' !! j = nexts q !! j.
Proof.
  intros [Hq Hb Hi] Hm Hu Hn. cbn in Hq.
  destruct (sq_insert_head_spec q IOVQ i free) as (q' & E & Hr & Hf);
    [by eapply inv_repr|by eapply unqueued_alloc|by eapply unqueued_not_in|].
  exists q'. split_and!.
  - unfold w_free_iov. mstep (liftq_next (io w q bufs mem) i None Hn). rewrite bool_decide_true by done.
    mstep. by apply io_liftq.
  - split; [|done|rewrite lookup_insert_eq; eauto]. eapply inv_update_one; eauto.
    set_solver.
  - intros j Hj. apply (frame_nexts _ _ _ _ Hf). by rewrite list_elem_of_singleton.
Qed.
End Queues.

(** Allocation changes the [next] field of no other vector. *)
Lemma alloc_nexts af w i w' :
  w_alloc_iov false af 0 0 w = Done (Some i, w') →
  ∀ j, j ≠ i → nexts (e_q w') !! j = nexts (e_q w) !! j.
Proof.
  unfold w_alloc_iov, w_alloc_iov_base, reinit_iov, liftq, ensure, get_iov, put_iov, get. q_unfold.
  intros E j Hj. repeat (case_match; simplify_eq/=; try done); by rewrite ?lookup_insert_ne.
Qed.

(** ** Receiving *)

(** [l] are vectors in no queue that are linked to no other. *)
Definition held (D : gset nat) (m : queues) (q : qheap) (l : list nat) : Prop :=
  NoDup l ∧ ∀ i, i ∈ l → unqueued D m i ∧ nexts q !! i = Some None.

Section Rx.
Context (D : gset nat) (w : engine) (sk : w_sock).
Hypothesis Haf : af_ok (ws_af sk).

Let cap := max_buf_len false w.
(** A vector allocated for a datagram, and what [rx_alloc] notes of it. *)
Definition rx_iov (v : w_iov) : w_iov := fresh_iov false w v (ws_af sk) 0 0.
Definition rx_slots (l : list nat) : list (nat * (bufptr * Z)) := (λ i, (i, ((Z.of_nat i, 0), cap))) <$> l.

Lemma cap_range : is_u16 cap.
Proof. apply u16_range. Qed.

Lemma rx_iov_buf v i : v_base v = (Z.of_nat i, 0) → v_buf (rx_iov v) = (Z.of_nat i, 0) ∧ v_len (rx_iov v) = cap.
Proof.
  intros Hb. unfold rx_iov, fresh_iov, alloc_fields, reinit. cbn. rewrite Hb. split; [done|].
  change (u16 0) with 0. rewrite Z.sub_0_r. apply u16_id, cap_range.
Qed.

Lemma rx_alloc_run n : ∀ m q bufs mem free,
  eng_inv D m (io w q bufs mem) → m !! IOVQ = Some free →
  (∀ i v, bufs !! i = Some v → v_base v = (Z.of_nat i, 0)) →
  ∃ q', rx_alloc n (ws_af sk) (io w q bufs mem) =
      Done (rx_slots (take n free), io w q' (upd (take n free) rx_iov bufs) mem) ∧
    eng_inv D (<[IOVQ := drop n free]> m) (io w q' (upd (take n free) rx_iov bufs) mem) ∧
    held D (<[IOVQ := drop n free]> m) q' (take n free) ∧
    ∀ j, j ∉ take n free → nexts q' !! j = nexts q !! j.
Proof.
  induction n as [|n IH]; intros m q bufs mem free Hinv Hm Hbase; cbn [rx_alloc].
  { exists q. rewrite take_0, drop_0, upd_nil, insert_id by done. split_and!; try done. split; [constructor|].
    intros i ?%elem_of_nil. done. }
  pose proof (w_alloc_iov_run false D m (io w q bufs mem) (ws_af sk) 0 0 Hinv Haf) as Ha. rewrite Hm in Ha.
  destruct free as [|i free].
  { exists q. mstep Ha. rewrite upd_nil, insert_id by done. split_and!; try done. split; [constructor|].
    intros i ?%elem_of_nil. done. }
  destruct Ha as (q1 & v & E1 & Hv & Hn & Hinv1). cbn in Hv.
  pose proof (alloc_nexts _ _ _ _ E1) as Hn1. cbn in Hn1.
  change (set_iovs (io w q bufs mem) q1 _) with (io w q1 (<[i := rx_iov v]> bufs) mem) in *.
  pose proof (head_unqueued D m _ IOVQ i free Hinv Hm) as Hu.
  assert (Hnd : NoDup (i :: free)) by apply (repr_nodup _ _ _ (inv_repr _ _ _ (ei_q _ _ _ Hinv) _ _ Hm)).
  destruct (IH (<[IOVQ := free]> m) q1 (<[i := rx_iov v]> bufs) mem free Hinv1) as (q2 & E2 & Hinv2 & [Hd2 Hh2] & Hn2).
  - apply lookup_insert_eq.
  - intros j v' [[<- <-]|[_ Hj]]%lookup_insert_Some; [by apply (Hbase i v)|by apply Hbase].
  - apply NoDup_cons in Hnd as [Hi Hnd].
    assert (Hit : i ∉ take n free) by (by intros Hin%in_take).
    rewrite insert_insert_eq in *. rewrite upd_cons in * by done.
    exists q2. cbn [take drop]. split_and!; [|done| |].
    + mstep E1. mstep (get_iov_run i (rx_iov v) (io w q1 (<[i := rx_iov v]> bufs) mem) (lookup_insert_eq _ _ _)).
      mstep E2. destruct (rx_iov_buf v i (Hbase i v Hv)) as [-> ->]. done.
    + split; [by constructor|]. intros j [->|Hj]%elem_of_cons; [|by apply Hh2].
      split; [|by rewrite Hn2].
      destruct Hu as [HD Hu]. split; [done|]. intros h ys [[<- <-]|[Hne Hy]]%lookup_insert_Some.
      * by intros ?%in_drop.
      * apply (Hu h). by rewrite lookup_insert_ne.
    + intros j Hj. apply not_elem_of_cons in Hj as [Hj1 Hj2]. by rewrite Hn2, Hn1.
Qed.

(** What the kernel writes into the buffers, and [rx_take] into the vectors. *)
Fixpoint mem_recv (l : list nat) (msgs : list in_msg) (mem : gmap Z bytes) : gmap Z bytes :=
  match l, msgs with
  | i :: l, m :: msgs => mem_recv l msgs (alter (λ b, stn b 0 (im_data m)) (Z.of_nat i) mem)
  | _, _ => mem
  end.
Fixpoint bufs_recv (l : list nat) (msgs : list in_msg) (bufs : gmap nat w_iov) : gmap nat w_iov :=
  match l, msgs with
  | i :: l, m :: msgs => bufs_recv l msgs (alter (λ v, rx_fields v m) i bufs)
  | _, _ => bufs
  end.

Lemma mem_recv_other l : ∀ msgs mem z, (∀ i, i ∈ take (length msgs) l → Z.of_nat i ≠ z) → mem_recv l msgs mem !! z = mem !! z.
Proof.
  induction l as [|i l IH]; intros [|m msgs] mem z Hz; try done. cbn [mem_recv length take] in *.
  rewrite IH by (intros j Hj; apply Hz; by right). apply lookup_alter_ne. apply Hz. by left.
Qed.
Lemma bufs_recv_other l : ∀ msgs bufs j, j ∉ take (length msgs) l → bufs_recv l msgs bufs !! j = bufs !! j.
Proof.
  induction l as [|i l IH]; intros [|m msgs] bufs j Hj; try done. cbn [bufs_recv length take] in *.
  apply not_elem_of_cons in Hj as [Hj1 Hj2]. rewrite IH by done. by apply lookup_alter_ne.
Qed.
Lemma mem_recv_lookup l : NoDup l → ∀ msgs mem k i m, l !! k = Some i → msgs !! k = Some m →
  mem_recv l msgs mem !! Z.of_nat i = (λ b, stn b 0 (im_data m)) <$> mem !! Z.of_nat i.
Proof.
  induction 1 as [|i l Hi Hnd IH]; intros [|m msgs] mem [|k] i' m' Hl Hm; try done; cbn [mem_recv] in *.
  - injection Hl as ->. injection Hm as ->. rewrite mem_recv_other; [by rewrite lookup_alter_eq|].
    intros j Hj%in_take E. apply Nat2Z.inj in E as ->. done.
  - rewrite (IH msgs _ k i' m') by done. rewrite lookup_alter_ne; [done|]. intros E. apply Nat2Z.inj in E as ->.
    by apply Hi, (list_elem_of_lookup_2 _ k).
Qed.
Lemma bufs_recv_lookup l : NoDup l → ∀ msgs bufs k i m, l !! k = Some i → msgs !! k = Some m →
  bufs_recv l msgs bufs !! i = (λ v, rx_fields v m) <$> bufs !! i.
Proof.
  induction 1 as [|i l Hi Hnd IH]; intros [|m msgs] bufs [|k] i' m' Hl Hm; try done; cbn [bufs_recv] in *.
  - injection Hl as ->. injection Hm as ->. rewrite bufs_recv_other; [by rewrite lookup_alter_eq|]. by intros ?%in_take.
  - rewrite (IH msgs _ k i' m') by done. rewrite lookup_alter_ne; [done|]. intros ->.
    by apply Hi, (list_elem_of_lookup_2 _ k).
Qed.

Lemma scatter_run l : NoDup l → ∀ msgs q bufs mem,
  (∀ k i m, l !! k = Some i → msgs !! k = Some m →
    ∃ b, mem !! Z.of_nat i = Some b ∧ (length (im_data m) <= length b)%nat) →
  scatter (rx_slots l) msgs (io w q bufs mem) = Done (tt, io w q bufs (mem_recv l msgs mem)).
Proof.
  induction 1 as [|i l Hi Hnd IH]; intros [|m msgs] q bufs mem Hok; try done.
  destruct (Hok 0%nat i m) as (b & Hb & Hl); [done..|].
  change (scatter (rx_slots (i :: l)) (m :: msgs)) with
    (stm (Z.of_nat i, 0) (im_data m) ;; scatter (rx_slots l) msgs).
  assert (Es : stm (Z.of_nat i, 0) (im_data m) (io w q bufs mem) =
    Done (tt, io w q bufs (alter (λ b, stn b 0 (im_data m)) (Z.of_nat i) mem))).
  { unfold stm, in_buf. cbn [fst snd io set_mem e_mem]. rewrite Hb.
    rewrite (proj2 (Z.leb_le (0 + _) _)) by lia. change (Z.to_nat 0) with 0%nat. cbn [andb Z.leb Z.compare].
    by rewrite <- (insert_alter (λ b, stn b 0 (im_data m)) mem (Z.of_nat i) b Hb). }
  mstep Es. cbn [mem_recv]. apply IH. intros k i' m' Hk Hm. destruct (Hok (S k) i' m' Hk Hm) as (b' & Hb' & Hl').
  exists b'. split; [|done]. rewrite lookup_alter_ne; [done|]. intros E. apply Nat2Z.inj in E as ->.
  by apply Hi, (list_elem_of_lookup_2 _ k).
Qed.

(** A held vector put into a queue. *)
Lemma held_insert m q q' h xs ys l i :
  held D m q (i :: l) → m !! h = Some xs → (∀ j, j ∈ ys → j = i ∨ j ∈ xs) →
  (∀ j, j ≠ i → j ∉ xs → nexts q' !! j = nexts q !! j) → held D (<[h := ys]> m) q' l.
Proof.
  intros [[Hi Hnd]%NoDup_cons Hh] Hm Hys Hn. split; [done|]. intros j Hj.
  destruct (Hh j) as [[HD Hu] Hnx]; [by right|]. assert (j ≠ i) by (by intros ->).
  assert (j ∉ xs) by (by apply (Hu h)). split; [|by rewrite Hn].
  split; [done|]. intros h' zs [[<- <-]|[_ Hz]]%lookup_insert_Some; [|by apply (Hu h')].
  intros [->|?]%Hys; done.
Qed.

Lemma rx_take_run h l : h ≠ IOVQ → ∀ msgs m q bufs mem xs,
  eng_inv D m (io w q bufs mem) → m !! h = Some xs → held D m q l → (length msgs <= length l)%nat →
  ∃ q', rx_take h (rx_slots l) msgs (io w q bufs mem) = Done (tt, io w q' (bufs_recv l msgs bufs) mem) ∧
    eng_inv D (<[h := xs ++ take (length msgs) l]> m) (io w q' (bufs_recv l msgs bufs) mem) ∧
    held D (<[h := xs ++ take (length msgs) l]> m) q' (drop (length msgs) l).
Proof.
  intros Hh. induction l as [|i l IH]; intros [|msg msgs] m q bufs mem xs Hinv Hm Hheld Hlen; cbn [length] in *; try lia.
  1, 2: exists q; cbn [take drop]; rewrite app_nil_r, insert_id by done; done.
  destruct (proj2 Hheld i ltac:(by left)) as [Hu _].
  destruct (eng_inv_iov D m _ i Hinv (proj1 Hu)) as [v Hv]. cbn in Hv.
  change (rx_take h (rx_slots (i :: l)) (msg :: msgs)) with
    (v ← get_iov i; put_iov i (rx_fields v msg) ;; liftq (sq_insert_tail h i) ;; rx_take h (rx_slots l) msgs).
  mstep (get_iov_run i v (io w q bufs mem) Hv).
  set (bufs1 := alter (λ v, rx_fields v msg) i bufs).
  assert (E0 : put_iov i (rx_fields v msg) (io w q bufs mem) = Done (tt, io w q bufs1 mem)).
  { unfold put_iov, bufs1. by rewrite <- (insert_alter (λ v, rx_fields v msg) bufs i v Hv). }
  pose proof (eng_inv_put D m _ i (rx_fields v msg) Hinv (proj1 Hu)) as Hinv1.
  assert (Hinv1' : eng_inv D m (io w q bufs1 mem)).
  { destruct Hinv1 as [I1 I2 I3]. split; [done| |done]. cbn. unfold bufs1. rewrite dom_alter_L.
    apply (ei_bufs _ _ _ Hinv). }
  destruct (io_insert_tail D w bufs1 mem m q h xs i Hinv1' Hm Hu Hh) as (q1 & E1 & Hinv2 & Hn).
  mstep E0. mstep E1.
  destruct (IH msgs (<[h := xs ++ [i]]> m) q1 bufs1 mem (xs ++ [i]) Hinv2) as (q2 & E2 & Hinv3 & Hheld3).
  - apply lookup_insert_eq.
  - apply (held_insert m q q1 h xs _ l i); [done|done| |done]. intros j. rewrite elem_of_app, list_elem_of_singleton. tauto.
  - lia.
  - rewrite insert_insert_eq, <- app_assoc in *. exists q2. done.
Qed.

Lemma rx_return_run l : ∀ m q bufs mem free,
  eng_inv D m (io w q bufs mem) → m !! IOVQ = Some free → held D m q l →
  ∃ q', rx_return (rx_slots l) (io w q bufs mem) = Done (tt, io w q' bufs mem) ∧
    eng_inv D (<[IOVQ := rev l ++ free]> m) (io w q' bufs mem).
Proof.
  induction l as [|i l IH]; intros m q bufs mem free Hinv Hm Hheld.
  { exists q. cbn [rev app]. by rewrite insert_id. }
  destruct (proj2 Hheld i ltac:(by left)) as [Hu Hn].
  destruct (io_free_iov D w bufs mem m q free i Hinv Hm Hu Hn) as (q1 & E1 & Hinv1 & Hn1).
  destruct (IH (<[IOVQ := i :: free]> m) q1 bufs mem (i :: free) Hinv1) as (q2 & E2 & Hinv2).
  - apply lookup_insert_eq.
  - apply (held_insert m q q1 IOVQ free _ l i); [done|done| |by intros; apply Hn1]. intros j. by rewrite elem_of_cons.
  - exists q2. rewrite insert_insert_eq in Hinv2. cbn [rev]. rewrite <- app_assoc. split; [|done].
    change (rx_return (rx_slots (i :: l))) with (w_free_iov i ;; rx_return (rx_slots l)). by mstep E1.
Qed.

(** One round of [rx_loop], for the datagrams [msgs] received in it. *)
Section Round.
Context (h : nat) (m : queues) (q : qheap) (bufs : gmap nat w_iov) (mem : gmap Z bytes) (free xs : list nat).
Hypothesis Hh : h ≠ IOVQ.
Hypothesis Hinv : eng_inv D m (io w q bufs mem).
Hypothesis Hfree : m !! IOVQ = Some free.
Hypothesis Hxs : m !! h = Some xs.
Hypothesis Hio : io_bufs (io w q bufs mem).

Let l := take RECV_SIZE free.

Lemma free_iov i : i ∈ free → ∃ v b, bufs !! i = Some v ∧ v_base v = (Z.of_nat i, 0) ∧
  mem !! Z.of_nat i = Some b ∧ is_bytes b ∧ Z.of_nat (length b) = cap.
Proof.
  intros Hi. destruct (eng_inv_iov D m _ i Hinv) as [v Hv]; [by apply (queue_elem D m _ IOVQ free i Hinv)|].
  destruct (Hio i v Hv) as (H1 & b & H2 & H3 & H4). by exists v, b.
Qed.

Context (msgs : list in_msg).
Hypothesis Hlen : (length msgs <= length l)%nat.
Hypothesis Hmsgs : ∀ k msg, msgs !! k = Some msg → Z.of_nat (length (im_data msg)) <= cap ∧ is_bytes (im_data msg).

(** The vectors and buffers after it. *)
Definition round_bufs : gmap nat w_iov := bufs_recv l msgs (upd l rx_iov bufs).
Definition round_mem : gmap Z bytes := mem_recv l msgs mem.

Lemma NoDup_free : NoDup free.
Proof. apply (repr_nodup _ _ _ (inv_repr _ _ _ (ei_q _ _ _ Hinv) _ _ Hfree)). Qed.
Lemma NoDup_l : NoDup l.
Proof. pose proof NoDup_free as E. rewrite <- (take_drop RECV_SIZE free) in E. by apply NoDup_app in E as [? _]. Qed.

Lemma round_run :
  ∃ q1 q2 q3 : qheap,
    rx_alloc RECV_SIZE (ws_af sk) (io w q bufs mem) = Done (rx_slots l, io w q1 (upd l rx_iov bufs) mem) ∧
    (scatter (rx_slots l) msgs ;; rx_take h (rx_slots l) msgs) (io w q1 (upd l rx_iov bufs) mem) =
      Done (tt, io w q2 round_bufs round_mem) ∧
    rx_return (rx_slots (drop (length msgs) l)) (io w q2 round_bufs round_mem) =
      Done (tt, io w q3 round_bufs round_mem) ∧
    eng_inv D (<[IOVQ := rev (drop (length msgs) l) ++ drop RECV_SIZE free]> (<[h := xs ++ take (length msgs) l]> m))
      (io w q3 round_bufs round_mem).
Proof.
  destruct (rx_alloc_run RECV_SIZE m q bufs mem free Hinv Hfree) as (q1 & E1 & Hinv1 & Hheld1 & _).
  { intros i v Hv. by apply (Hio i v). }
  fold l in E1, Hinv1, Hheld1. set (m1 := <[IOVQ := drop RECV_SIZE free]> m) in *.
  assert (E2 : scatter (rx_slots l) msgs (io w q1 (upd l rx_iov bufs) mem) =
    Done (tt, io w q1 (upd l rx_iov bufs) round_mem)).
  { apply scatter_run; [apply NoDup_l|]. intros k i msg Hi Hmsg.
    destruct (free_iov i) as (v & b & _ & _ & Hb & _ & Hbl).
    { eapply in_take, list_elem_of_lookup_2. exact Hi. }
    exists b. split; [done|]. destruct (Hmsgs k msg Hmsg). lia. }
  assert (Hinv1' : eng_inv D m1 (io w q1 (upd l rx_iov bufs) round_mem)) by by destruct Hinv1.
  destruct (rx_take_run h l Hh msgs m1 q1 (upd l rx_iov bufs) round_mem xs Hinv1') as (q2 & E3 & Hinv2 & Hheld2).
  - unfold m1. by rewrite lookup_insert_ne.
  - done.
  - done.
  - destruct (rx_return_run (drop (length msgs) l) _ q2 round_bufs round_mem (drop RECV_SIZE free) Hinv2) as (q3 & E4 & Hinv3).
    + unfold m1. by rewrite lookup_insert_ne, lookup_insert_eq by done.
    + done.
    + exists q1, q2, q3. split_and!; [done|by mstep E2|done|].
      unfold m1 in Hinv3. rewrite (insert_insert_ne _ h IOVQ), insert_insert_eq in Hinv3 by done. done.
Qed.

Lemma round_lookup k i msg :
  l !! k = Some i → msgs !! k = Some msg → ∃ v b, bufs !! i = Some v ∧ mem !! Z.of_nat i = Some b ∧
    round_bufs !! i = Some (rx_fields (rx_iov v) msg) ∧ round_mem !! Z.of_nat i = Some (stn b 0 (im_data msg)).
Proof.
  intros Hi Hmsg. assert (Hil : i ∈ l) by by eapply list_elem_of_lookup_2.
  destruct (free_iov i) as (v & b & Hv & _ & Hb & _); [by eapply in_take|]. exists v, b.
  unfold round_bufs, round_mem. rewrite (bufs_recv_lookup l NoDup_l msgs _ k i msg) by done.
  rewrite (mem_recv_lookup l NoDup_l msgs _ k i msg) by done.
  rewrite upd_lookup, Hv, Hb. cbn. by rewrite bool_decide_true.
Qed.

Lemma round_other i : i ∉ l → round_bufs !! i = bufs !! i.
Proof.
  intros Hi. unfold round_bufs. rewrite bufs_recv_other; [|by intros ?%in_take]. rewrite upd_lookup.
  rewrite bool_decide_false by done. by destruct (bufs !! i).
Qed.

Lemma rx_fields_base v msg : v_base (rx_fields v msg) = v_base v.
Proof.
  unfold rx_fields. set (v1 := Engine.set_len _ _). change (v_base v) with (v_base v1). generalize v1. clear.
  induction (im_ctrl msg) as [|c cs IH]; intros v1; [done|]. cbn [foldl]. rewrite IH. unfold rx_cmsg.
  by repeat case_match.
Qed.

Lemma round_io q' : io_bufs (io w q' round_bufs round_mem).
Proof.
  intros i v Hv. cbn in Hv.
  assert (∃ v0, bufs !! i = Some v0 ∧ v_base v = v_base v0) as (v0 & Hv0 & ->).
  { unfold round_bufs in Hv. destruct (decide (i ∈ take (length msgs) l)) as [Hi|Hi].
    - apply elem_of_take in Hi as (k & Hk & Hlt). destruct (lookup_lt_is_Some_2 msgs k Hlt) as [msg Hmsg].
      rewrite (bufs_recv_lookup l NoDup_l msgs _ k i msg), upd_lookup in Hv by done.
      destruct (bufs !! i) as [v0|]; [|done]. injection Hv as <-. exists v0. split; [done|].
      rewrite rx_fields_base. by destruct (bool_decide _).
    - rewrite bufs_recv_other, upd_lookup in Hv by done. destruct (bufs !! i) as [v0|]; [|done].
      injection Hv as <-. exists v0. split; [done|]. by destruct (bool_decide _). }
  destruct (Hio i v0 Hv0) as (Hb & b & Hmem & Hbb & Hbl). split; [done|]. cbn.
  destruct (decide (i ∈ take (length msgs) l)) as [Hi|Hi].
  - apply elem_of_take in Hi as (k & Hk & Hlt). destruct (lookup_lt_is_Some_2 msgs k Hlt) as [msg Hmsg].
    destruct (Hmsgs k msg Hmsg) as [Hml Hmb]. exists (stn b 0 (im_data msg)).
    unfold round_mem. rewrite (mem_recv_lookup l NoDup_l msgs _ k i msg) by done. cbn in Hmem. rewrite Hmem.
    split; [done|]. split; [by apply stn_is_bytes|]. rewrite length_stn; [done|].
    change (max_buf_len false (io w q bufs mem)) with cap in Hbl. lia.
  - exists b. unfold round_mem. rewrite mem_recv_other; [done|]. intros j Hj E. apply Nat2Z.inj in E as ->. done.
Qed.
End Round.
End Rx.

(** *** The loop *)

Section WRx.
Context `{!Kernel, !KernelLaws}.

Definition call_msgs (r : sysres (list in_msg)) : list in_msg :=
  match r with SysOk l => l | SysErr _ => [] end.

(** The datagrams the kernel gives to [nfree] buffers of length [cap]: in rounds of
    [RECV_SIZE], until one is not full. *)
Fixpoint recv_log (fuel nfree : nat) (fd cap : Z) (k : kst) : list in_msg * kst :=
  match fuel with
  | O => ([], k)
  | S fuel =>
      let nb := Nat.min RECV_SIZE nfree in
      if (nb =? 0)%nat then ([], k) else
      let '(r, k) := k_recvmmsg fd (repeat cap nb) k in
      let msgs := call_msgs r in
      if (length msgs =? RECV_SIZE)%nat
      then let '(l, k) := recv_log fuel (nfree - RECV_SIZE) fd cap k in (msgs ++ l, k)
      else (msgs, k)
  end.

Context (D : gset nat) (w : engine) (sk : w_sock) (fd : Z) (h : nat).
Hypothesis Haf : af_ok (ws_af sk).
Hypothesis Hh : h ≠ IOVQ.
Let cap := max_buf_len false w.

(** The outcome of receiving [msgs] into the first of the free vectors. *)
Record received (m : queues) (free xs : list nat) (msgs : list in_msg) (bufs : gmap nat w_iov)
    (mem : gmap Z bytes) (q' : qheap) (bufs' : gmap nat w_iov) (mem' : gmap Z bytes) : Prop := {
  rc_len : (length msgs <= length free)%nat;
  rc_inv : ∃ free', free' ≡ₚ drop (length msgs) free ∧
    eng_inv D (<[IOVQ := free']> (<[h := xs ++ take (length msgs) free]> m)) (io w q' bufs' mem');
  rc_fit : Forall (λ msg, Z.of_nat (length (im_data msg)) <= cap) msgs;
  rc_io : io_bufs (io w q' bufs' mem');
  rc_msgs : ∀ k i msg, free !! k = Some i → msgs !! k = Some msg → ∃ v b,
    bufs !! i = Some v ∧ mem !! Z.of_nat i = Some b ∧
    bufs' !! i = Some (rx_fields (rx_iov w sk v) msg) ∧ mem' !! Z.of_nat i = Some (stn b 0 (im_data msg));
  rc_bufs : ∀ i, i ∉ free → bufs' !! i = bufs !! i;
  rc_mem : ∀ z, (∀ i, i ∈ take (length msgs) free → Z.of_nat i ≠ z) → mem' !! z = mem !! z
}.

Lemma rx_slots_caps l : (λ v, snd (snd v)) <$> rx_slots w l = repeat cap (length l).
Proof. induction l as [|i l IH]; [done|]. cbn. by f_equal. Qed.

Lemma rx_call_run b l msgs q q' bufs mem bufs' mem' r k :
  k_recvmmsg fd (repeat cap (length l)) (b_k b) = (r, k) → call_msgs r = msgs → b_w b = io w q bufs mem →
  (scatter (rx_slots w l) msgs ;; rx_take h (rx_slots w l) msgs) (io w q bufs mem) =
    Done (tt, io w q' bufs' mem') →
  rx_call fd h (rx_slots w l) b = Done (length msgs, set_k (set_w b (io w q' bufs' mem')) k).
Proof.
  intros Er <- Eb E. unfold rx_call. rewrite rx_slots_caps.
  assert (Es : sys (k_recvmmsg fd (repeat cap (length l))) b = Done (r, set_k b k)) by (unfold sys; by rewrite Er).
  mstep Es. destruct r as [msgs|e]; cbn [call_msgs] in *.
  - rewrite <- Eb in E. unfold mbind, M_bind, liftw in *. cbn [set_k b_w].
    destruct (scatter _ _ (b_w b)) as [[[] w1]| | |]; try discriminate E. cbn [set_w set_k b_w].
    by rewrite E.
  - assert (E0 : io w q' bufs' mem' = io w q bufs mem) by (destruct l; exact (eq_sym (f_equal snd (Done_inj _ _ E)))).
    rewrite E0, <- Eb. by destruct b.
Qed.

(** Receiving on with the vectors that are left. *)
Lemma received_app m free xs ms ms2 bufs mem q1 bufs1 mem1 q2 bufs2 mem2 :
  NoDup free → received m free xs ms bufs mem q1 bufs1 mem1 →
  (∀ i, i ∉ take (length ms) free → bufs1 !! i = bufs !! i) →
  received (<[IOVQ := drop (length ms) free]> (<[h := xs ++ take (length ms) free]> m)) (drop (length ms) free)
    (xs ++ take (length ms) free) ms2 bufs1 mem1 q2 bufs2 mem2 →
  received m free xs (ms ++ ms2) bufs mem q2 bufs2 mem2.
Proof.
  intros Hnd [P1 _ P7 _ P4 _ P6] P5 [R1 (free' & R2 & R2') R7 R3 R4 R5 R6]. set (n := length ms) in *.
  rewrite drop_drop in R2. rewrite length_drop in R1.
  rewrite (insert_insert_ne _ h IOVQ), !insert_insert_eq, <- app_assoc in R2' by done.
  assert (Et : take (length (ms ++ ms2)) free = take n free ++ take (length ms2) (drop n free)).
  { by rewrite length_app, <- take_take_drop. }
  assert (Hdis : ∀ i, i ∈ take n free → i ∉ drop n free).
  { rewrite <- (take_drop n free) in Hnd. by apply NoDup_app in Hnd as (_ & Hn & _). }
  split.
  - rewrite length_app. unfold n in *. lia.
  - exists free'. rewrite Et. split; [by rewrite length_app|done].
  - by apply Forall_app.
  - done.
  - intros k i msg Hi Hmsg. destruct (decide (k < n)%nat) as [Hk|Hk].
    + rewrite lookup_app_l in Hmsg by done. destruct (P4 k i msg Hi Hmsg) as (v & b & H1 & H2 & H3 & H4).
      assert (Hin : i ∉ drop n free).
      { apply Hdis, (list_elem_of_lookup_2 _ k). by rewrite lookup_take_lt. }
      exists v, b. split_and!; [done|done|by rewrite R5|]. rewrite R6; [done|].
      intros j Hj%in_take E%Nat2Z.inj. by subst.
    + rewrite lookup_app_r in Hmsg by (unfold n in *; lia).
      assert (Hid : drop n free !! (k - n)%nat = Some i) by (rewrite lookup_drop, <- Hi; f_equal; lia).
      destruct (R4 _ i msg Hid Hmsg) as (v & b & H1 & H2 & H3 & H4).
      assert (Hit : i ∉ take n free) by (intros Hit; by eapply Hdis, list_elem_of_lookup_2).
      rewrite P5 in H1 by done. rewrite P6 in H2; [by exists v, b|]. intros j Hj E%Nat2Z.inj. by subst.
  - intros i Hi. rewrite R5, P5; [done| |]; [by intros ?%in_take|by intros ?%in_drop].
  - intros z Hz. rewrite Et in Hz. rewrite R6, P6; [done| |]; intros i Hi; apply Hz, elem_of_app; auto.
Qed.

Lemma caps_pos n : Forall (λ c, 0 <= c) (repeat cap n).
Proof. apply Forall_forall. intros c Hc%list_elem_of_In%repeat_spec. subst. apply (cap_range w). Qed.

Lemma rx_loop_run fuel : ∀ m q bufs mem free xs b msgs k',
  b_w b = io w q bufs mem → eng_inv D m (io w q bufs mem) → m !! IOVQ = Some free → m !! h = Some xs →
  io_bufs (io w q bufs mem) → (length free < fuel)%nat → recv_log fuel (length free) fd cap (b_k b) = (msgs, k') →
  ∃ q' bufs' mem', rx_loop fuel sk fd h b = Done (tt, set_k (set_w b (io w q' bufs' mem')) k') ∧
    received m free xs msgs bufs mem q' bufs' mem'.
Proof.
  induction fuel as [|fuel IH]; intros m q bufs mem free xs b msgs k' Eb Hinv Hm Hxs Hio Hf Elog; [lia|].
  cbn [rx_loop recv_log] in *. set (l := take RECV_SIZE free) in *.
  assert (Hll : length l = Nat.min RECV_SIZE (length free)) by apply length_take.
  destruct (k_recvmmsg fd (repeat cap (length l)) (b_k b)) as [r k1] eqn:Er. rewrite <- Hll, Er in Elog.
  destruct (decide (free = [])) as [->|Hne].
  { destruct (rx_alloc_run D w sk Haf RECV_SIZE m q bufs mem [] Hinv Hm) as (q1 & E1 & Hinv1 & _).
    { intros i v Hv. by apply (Hio i v). }
    cbn [take drop] in *. injection Elog as <- <-. exists q1, bufs, mem. rewrite upd_nil in *.
    split; [by rewrite <- Eb in E1; mstep (liftw_run _ _ _ _ E1)|].
    split; cbn [length take drop]; try done; try lia.
    - exists []. split; [done|]. rewrite app_nil_r, (insert_id m h xs) by done. done. }
  assert (Hl0 : length l ≠ 0%nat) by (rewrite Hll; destruct free; [done|cbn; lia]).
  rewrite (proj2 (Nat.eqb_neq _ _) Hl0) in Elog. set (ms := call_msgs r) in *.
  assert (Hlaw : (length ms <= length l)%nat ∧ ∀ k msg, ms !! k = Some msg →
    Z.of_nat (length (im_data msg)) <= cap ∧ is_bytes (im_data msg)).
  { unfold ms. destruct r as [ms'|e]; cbn [call_msgs]; [|split; [cbn; lia|done]].
    destruct (recvmmsg_law _ _ _ _ _ (caps_pos _) Er) as [H1 H2]. rewrite repeat_length in H1. split; [done|].
    intros k msg Hk. apply (H2 k msg cap Hk). pose proof (lookup_lt_Some _ _ _ Hk).
    apply lookup_repeat. lia. }
  destruct Hlaw as [Hlen Hmsgs].
  destruct (round_run D w sk Haf h m q bufs mem free xs Hh Hinv Hm Hxs Hio ms Hlen Hmsgs)
    as (q1 & q2 & q3 & E1 & E2 & E3 & Hinv3). fold l in E1, E2, E3, Hinv3.
  set (bufs' := round_bufs w sk bufs free ms) in *. set (mem' := round_mem mem free ms) in *.
  rewrite <- Eb in E1. mstep (liftw_run _ _ _ _ E1). rewrite bool_decide_false by (by destruct l).
  mstep (rx_call_run (set_w b (io w q1 (upd l (rx_iov w sk) bufs) mem)) l ms q1 q2 _ _ _ _ r k1 Er eq_refl eq_refl E2).
  assert (Ed : drop (length ms) (rx_slots w l) = rx_slots w (drop (length ms) l)) by (unfold rx_slots; by rewrite fmap_drop).
  rewrite Ed. mstep (liftw_run _ (set_k (set_w b (io w q2 bufs' mem')) k1) _ _ E3).
  change (set_w (set_k _ k1) _) with (set_k (set_w b (io w q3 bufs' mem')) k1).
  pose proof (round_io D w sk h m q bufs mem free Hh Hinv Hm Hio ms Hlen Hmsgs q3) as Hio3.
  fold bufs' mem' in Hio3.
  assert (Hrec : received m free xs ms bufs mem q3 bufs' mem').
  { assert (Et : take (length ms) free = take (length ms) l) by (unfold l; rewrite take_take; f_equal; lia).
    split; try done.
    - rewrite Hll in Hlen. lia.
    - exists (rev (drop (length ms) l) ++ drop RECV_SIZE free). rewrite Et. split; [|done].
      rewrite <- Permutation_rev, <- drop_app_le by lia. unfold l. by rewrite take_drop.
    - apply Forall_lookup. intros k msg Hk. by apply (Hmsgs k).
    - intros k i msg Hi Hmsg. apply (round_lookup D w sk m q bufs mem free Hinv Hm Hio ms k i msg); [|done].
      rewrite lookup_take_lt; [done|]. pose proof (lookup_lt_Some _ _ _ Hmsg). unfold l in Hlen. rewrite length_take in Hlen. lia.
    - intros i Hi. apply (round_other w sk bufs free ms). by intros ?%in_take.
    - rewrite Et. intros z Hz. by apply mem_recv_other. }
  destruct (Nat.eqb_spec (length ms) RECV_SIZE) as [E64|N64]; [|by injection Elog as <- <-; exists q3, bufs', mem'].
  destruct (recv_log fuel _ fd cap k1) as [ms2 k2] eqn:Elog2. injection Elog as <- <-.
  assert (Et : take (length ms) free = l) by (unfold l; by rewrite E64).
  rewrite (take_ge l), (drop_ge l) in Hinv3 by lia. cbn [rev app] in Hinv3.
  destruct (IH _ q3 bufs' mem' (drop RECV_SIZE free) (xs ++ l) (set_k (set_w b (io w q3 bufs' mem')) k1) ms2 k2
    eq_refl Hinv3) as (q4 & bufs4 & mem4 & E4 & Hrec4).
  - apply lookup_insert_eq.
  - by rewrite lookup_insert_ne, lookup_insert_eq.
  - done.
  - rewrite length_drop. lia.
  - by rewrite length_drop.
  - exists q4, bufs4, mem4. split; [exact E4|].
    apply (received_app m free xs ms ms2 bufs mem q3 bufs' mem'); [|done| |by rewrite Et, E64].
    + apply (NoDup_free D w m q bufs mem free Hinv Hm).
    + rewrite Et. apply (round_other w sk bufs free ms).
Qed.
End WRx.

(** What a received datagram leaves in its vector. *)
Definition is_ip_cmsg (c : cmsg) : bool := (cmsg_level c =? IPPROTO_IP) || (cmsg_level c =? IPPROTO_IPV6).
Definition is_tos_cmsg (c : cmsg) : bool := is_ip_cmsg c && ((cmsg_type c =? IP_TOS) || (cmsg_type c =? IPV6_TCLASS)).
Definition is_ttl_cmsg (c : cmsg) : bool := is_ip_cmsg c && (cmsg_type c =? IP_TTL).
(** The low byte of the last control message of a kind, or 0. *)
Definition ctrl_byte (p : cmsg → bool) (cs : list cmsg) : Z :=
  default 0 (u8 ∘ cmsg_data <$> last (filter (λ c, p c = true) cs)).

Lemma rx_cmsg_fold cs : ∀ v,
  let v' := foldl rx_cmsg v cs in
  v_flags v' = default (v_flags v) (u8 ∘ cmsg_data <$> last (filter (λ c, is_tos_cmsg c = true) cs)) ∧
  v_ttl v' = default (v_ttl v) (u8 ∘ cmsg_data <$> last (filter (λ c, is_ttl_cmsg c = true) cs)) ∧
  v_len v' = v_len v ∧ v_buf v' = v_buf v ∧ v_saddr v' = v_saddr v ∧ v_base v' = v_base v.
Proof.
  assert (Hd : ∀ (d d' : Z) (p : cmsg → bool) c l, d' = (if p c then u8 (cmsg_data c) else d) →
    default d' (u8 ∘ cmsg_data <$> last (filter (λ c, p c = true) l)) =
    default d (u8 ∘ cmsg_data <$> last (filter (λ c, p c = true) (c :: l)))).
  { intros d d' p c l ->. rewrite filter_cons. destruct (p c) eqn:Ep.
    - rewrite decide_True by done. rewrite last_cons. by destruct (last _).
    - by rewrite decide_False by done. }
  induction cs as [|c cs IH]; intros v; [done|]. cbn [foldl]. destruct (IH (rx_cmsg v c)) as (H1 & H2 & H3 & H4 & H5 & H6).
  cbv zeta in *. rewrite H1, H2, H3, H4, H5, H6.
  split_and!; [apply Hd|apply Hd|..]; unfold rx_cmsg, is_tos_cmsg, is_ttl_cmsg, is_ip_cmsg; destruct (_ || _); cbn [andb]; try done;
    destruct (_ || _) eqn:Et; try done; try (by destruct (cmsg_type c =? IP_TTL)).
  apply orb_true_iff in Et as [Et|Et]; apply Z.eqb_eq in Et; by rewrite Et.
Qed.

Record datagram_in (w' : engine) (i : nat) (old : w_iov) (msg : in_msg) (v' : w_iov) : Prop := {
  di_len : v_len v' = Z.of_nat (length (im_data msg));
  di_buf : v_buf v' = (Z.of_nat i, 0);
  di_data : ∃ b, e_mem w' !! Z.of_nat i = Some b ∧ ldn b 0 (length (im_data msg)) = im_data msg;
  di_from : v_saddr v' = WSockaddr (snd (w_to_waddr (sa_addr (v_saddr old)) (im_name msg))) (sockaddr_port (im_name msg));
  di_tos : v_flags v' = ctrl_byte is_tos_cmsg (im_ctrl msg);
  di_ttl : v_ttl v' = ctrl_byte is_ttl_cmsg (im_ctrl msg)
}.

Lemma datagram_in_rx w w' sk i old msg b :
  v_base old = (Z.of_nat i, 0) → e_mem w' !! Z.of_nat i = Some (stn b 0 (im_data msg)) →
  Z.of_nat (length (im_data msg)) <= max_buf_len false w → Z.of_nat (length b) = max_buf_len false w →
  datagram_in w' i old msg (rx_fields (rx_iov w sk old) msg).
Proof.
  intros Hbase Hmem Hl Hb. destruct (rx_iov_buf w sk old i Hbase) as [Hbuf _]. pose proof (cap_range w) as Hc. unfold is_u16 in Hc.
  unfold rx_fields. set (v1 := set_saddr _ _).
  destruct (rx_cmsg_fold (im_ctrl msg) (Engine.set_len v1 (u16 (Z.of_nat (length (im_data msg)))))) as (H1 & H2 & H3 & H4 & H5 & _).
  cbv zeta in *. split.
  - rewrite H3. cbn. apply u16_id. unfold is_u16. lia.
  - rewrite H4. exact Hbuf.
  - exists (stn b 0 (im_data msg)). split; [done|]. apply ldn_stn_eq. lia.
  - by rewrite H5.
  - by rewrite H1.
  - by rewrite H2.
Qed.

Section WRxTheorem.
Context `{!Kernel, !KernelLaws}.

(** C11: W_rx of the socket backend terminates whatever the kernel delivers, gives the
    datagrams of the kernel, in order, to the first free vectors, which carry payload, sender,
    TOS and TTL and follow the data already in the queue, returns every unused vector to the
    free list, and changes no other vector or buffer. *)
Theorem sock_w_rx_correct D m b s sk fd h free xs :
  eng_inv D m (b_w b) → io_bufs (b_w b) → e_socks (b_w b) !! s = Some sk → b_fd b !! s = Some fd →
  af_ok (ws_af sk) → h ≠ IOVQ → m !! IOVQ = Some free → m !! h = Some xs →
  let '(msgs, k') := recv_log (S (length free)) (length free) fd (max_buf_len false (b_w b)) (b_k b) in
  let n := length msgs in
  ∃ w' free', w_rx (S (length free)) s h b = Done (tt, set_k (set_w b w') k') ∧
    (n <= length free)%nat ∧ free' ≡ₚ drop n free ∧
    eng_inv D (<[IOVQ := free']> (<[h := xs ++ take n free]> m)) w' ∧ io_bufs w' ∧ e_socks w' = e_socks (b_w b) ∧
    (∀ j i msg, free !! j = Some i → msgs !! j = Some msg →
      ∃ v v', e_bufs (b_w b) !! i = Some v ∧ e_bufs w' !! i = Some v' ∧ datagram_in w' i v msg v') ∧
    (∀ i, i ∉ free → e_bufs w' !! i = e_bufs (b_w b) !! i) ∧
    ∀ z, (∀ i, i ∈ take n free → Z.of_nat i ≠ z) → e_mem w' !! z = e_mem (b_w b) !! z.
Proof.
  intros Hinv Hio Hs Hfd Haf Hh Hm Hxs. destruct (recv_log _ _ _ _ _) as [msgs k'] eqn:Elog. cbv zeta.
  set (w := b_w b) in *. assert (Ew : w = io w (e_q w) (e_bufs w) (e_mem w)) by by destruct w.
  rewrite Ew in Hinv, Hio.
  destruct (rx_loop_run D w sk fd h Haf Hh (S (length free)) m (e_q w) (e_bufs w) (e_mem w) free xs b msgs k'
    Ew Hinv Hm Hxs Hio ltac:(lia) Elog) as (q' & bufs' & mem' & E & [R1 (free' & R2 & R2') R7 R3 R4 R5 R6]).
  exists (io w q' bufs' mem'), free'. split_and!; try done.
  - unfold w_rx. mstep (liftw_run (get_sock s) b _ _ (get_sock_run s sk w Hs)).
    assert (Ef : get_fd s (set_w b w) = Done (fd, b)) by (unfold get_fd; cbn; rewrite Hfd; by destruct b).
    mstep Ef. exact E.
  - intros j i msg Hi Hmsg. destruct (R4 j i msg Hi Hmsg) as (v & bb & H1 & H2 & H3 & H4).
    exists v, (rx_fields (rx_iov w sk v) msg). split; [done|]. split; [done|].
    destruct (Hio i v H1) as (Hbase & b0 & Hb0 & _ & Hb0l). cbn in Hb0. assert (b0 = bb) as -> by congruence.
    apply (datagram_in_rx w _ sk i v msg bb); try done.
    by apply (proj1 (Forall_lookup _ _) R7 j).
Qed.
End WRxTheorem.

(** ** Sending *)

Section Tx.
Context (ss0 : sockaddr) (sk : w_sock).

(** What sending makes of a vector. *)
Definition tx_vec (v : w_iov) : w_iov :=
  let v := if w_connected sk then set_saddr v (ws_rem sk) else v in
  if (v_flags v =? 0) && enable_ecn (s_opt sk) then set_flags v ECN_ECT0 else v.

(** The destination, payload and control message it sends. *)
Definition tx_name (v : w_iov) : option sockaddr :=
  if w_connected sk then None
  else Some (to_sockaddr ss0 (sa_addr (v_saddr v)) (sa_port (v_saddr v)) (scope_id (s_tup sk))).
Definition tx_ctrl (v : w_iov) : option cmsg :=
  let fam := af (sa_addr (if w_connected sk then ws_rem sk else v_saddr v)) in
  if negb (v_flags v =? 0)
  then Some (Cmsg (sock_level fam) (if fam =? AF_INET then IP_TOS else IPV6_TCLASS) (v_flags v)) else None.
Definition tx_hdr (v : w_iov) : msg_hdr := (tx_name v, (v_buf v, v_len v), tx_ctrl v).
Definition iov_hdr (bufs : gmap nat w_iov) (i : nat) : msg_hdr :=
  from_option tx_hdr (None, ((0, 0), 0), None) (bufs !! i).

(** The payload of a vector, and the datagram it is sent as. *)
Definition iov_data (bufs : gmap nat w_iov) (mem : gmap Z bytes) (i : nat) : bytes :=
  match bufs !! i with
  | Some v => match mem !! fst (v_buf v) with Some b => ldn b (Z.to_nat (snd (v_buf v))) (Z.to_nat (v_len v)) | None => [] end
  | None => []
  end.
Definition iov_msg (bufs : gmap nat w_iov) (mem : gmap Z bytes) (i : nat) : out_msg :=
  let '(name, _, ctrl) := iov_hdr bufs i in OutMsg name (iov_data bufs mem i) ctrl.

Context (w : engine) (q : qheap) (mem : gmap Z bytes).

(** The payload of each vector is inside its buffer. *)
Definition sendable (bufs : gmap nat w_iov) (i : nat) : Prop :=
  ∃ v b, bufs !! i = Some v ∧ mem !! fst (v_buf v) = Some b ∧ 0 <= snd (v_buf v) ∧ 0 <= v_len v ∧
    snd (v_buf v) + v_len v <= Z.of_nat (length b).

Lemma tx_vec_buf v : v_buf (tx_vec v) = v_buf v ∧ v_len (tx_vec v) = v_len v.
Proof. unfold tx_vec. by destruct (w_connected sk), (_ && _). Qed.

Lemma put_iov_io i v bufs : put_iov i v (io w q bufs mem) = Done (tt, io w q (<[i := v]> bufs) mem).
Proof. done. Qed.

Lemma tx_fill_step n i v bufs next :
  bufs !! i = Some v → nexts q !! i = Some next →
  tx_fill ss0 (S n) sk (Some i) (io w q bufs mem) =
    ('(msgs, last) ← tx_fill ss0 n sk next; mret (tx_hdr v :: msgs, last))
      (io w q (<[i := tx_vec v]> bufs) mem).
Proof.
  intros Hv Hn. cbn [tx_fill]. mstep (get_iov_run i v (io w q bufs mem) Hv).
  set (v1 := if w_connected sk then set_saddr v (ws_rem sk) else v). set (bufs1 := <[i := v1]> bufs).
  assert (E1 : when (w_connected sk) (put_iov i (set_saddr v (ws_rem sk))) (io w q bufs mem) =
    Done (tt, io w q bufs1 mem)).
  { unfold when, bufs1, v1. destruct (w_connected sk); [done|]. by rewrite insert_id. }
  assert (Hv1 : bufs1 !! i = Some v1) by apply lookup_insert_eq.
  mstep E1. mstep (get_iov_run i v1 (io w q bufs1 mem) Hv1).
  assert (E2 : when ((v_flags v1 =? 0) && enable_ecn (s_opt sk)) (put_iov i (set_flags v1 ECN_ECT0)) (io w q bufs1 mem) =
    Done (tt, io w q (<[i := tx_vec v]> bufs) mem)).
  { unfold tx_vec. fold v1. unfold when, bufs1. destruct (_ && _); [|done]. rewrite put_iov_io. by rewrite insert_insert_eq. }
  mstep E2. mstep (liftq_next (io w q (<[i := tx_vec v]> bufs) mem) i next Hn).
  assert (Eh : (if w_connected sk then None
     else Some (to_sockaddr ss0 (sa_addr (v_saddr v1)) (sa_port (v_saddr v1)) (scope_id (s_tup sk))),
    (v_buf v, v_len v), if negb (v_flags v1 =? 0)
      then Some (Cmsg (sock_level (af (sa_addr (v_saddr v1))))
        (if af (sa_addr (v_saddr v1)) =? AF_INET then IP_TOS else IPV6_TCLASS) (v_flags v1)) else None) = tx_hdr v).
  { unfold tx_hdr, tx_name, tx_ctrl, v1. by destruct (w_connected sk). }
  cbv zeta. by rewrite Eh.
Qed.

Lemma tx_fill_run n : ∀ l bufs,
  chain (nexts q) l None → NoDup l → (∀ i, i ∈ l → is_Some (bufs !! i)) →
  tx_fill ss0 n sk (head l) (io w q bufs mem) =
    Done ((iov_hdr bufs <$> take n l, head (drop n l)), io w q (upd (take n l) tx_vec bufs) mem).
Proof.
  induction n as [|n IH]; intros l bufs Hc Hnd Hb.
  { cbn. by rewrite upd_nil. }
  destruct l as [|i l]; [cbn; by rewrite upd_nil|]. cbn [head take drop fmap list_fmap].
  destruct Hc as [Hn Hc]. apply NoDup_cons in Hnd as [Hi Hnd]. destruct (Hb i) as [v Hv]; [by left|].
  erewrite tx_fill_step by done. set (bufs1 := <[i := tx_vec v]> bufs).
  assert (Hhd : hd_or None l = head l) by by destruct l. rewrite Hhd.
  mstep (IH l bufs1 Hc Hnd ltac:(intros j Hj; apply lookup_insert_is_Some'; right; apply Hb; by right)).
  assert (Em : iov_hdr bufs1 <$> take n l = iov_hdr bufs <$> take n l).
  { apply list_fmap_ext. intros k j Hj. unfold iov_hdr, bufs1. rewrite lookup_insert_ne; [done|].
    intros <-. apply Hi. eapply in_take, list_elem_of_lookup_2. exact Hj. }
  rewrite Em. unfold bufs1. rewrite upd_cons by (done || by intros ?%in_take).
  unfold iov_hdr at 2. by rewrite Hv.
Qed.

Lemma gather_run bufs bufs' l :
  (∀ i, i ∈ l → sendable bufs i) →
  gather (iov_hdr bufs <$> l) (io w q bufs' mem) = Done (iov_msg bufs mem <$> l, io w q bufs' mem).
Proof.
  induction l as [|i l IH]; intros Hs; [done|].
  destruct (Hs i) as (v & b & Hv & Hb & H1 & H2 & H3); [by left|].
  cbn [fmap list_fmap]. unfold iov_hdr at 1. rewrite Hv. cbn [from_option tx_hdr gather].
  assert (El : ldm (v_buf v) (Z.to_nat (v_len v)) (io w q bufs' mem) = Done (iov_data bufs mem i, io w q bufs' mem)).
  { unfold iov_data. rewrite Hv. unfold ldm, in_buf. cbn [io set_mem set_iovs e_mem]. rewrite Hb.
    rewrite (proj2 (Z.leb_le _ _)), (proj2 (Z.leb_le _ _)) by lia. done. }
  mstep El. mstep (IH ltac:(intros j Hj; apply Hs; by right)).
  assert (Em : iov_msg bufs mem i = OutMsg (tx_name v) (iov_data bufs mem i) (tx_ctrl v)) by (unfold iov_msg, iov_hdr; by rewrite Hv).
  by rewrite Em.
Qed.

(** The vectors changed in two steps. *)
Lemma upd_app f l1 l2 (bufs : gmap nat w_iov) :
  (∀ i, i ∈ l1 → i ∉ l2) → upd l2 f (upd l1 f bufs) = upd (l1 ++ l2) f bufs.
Proof.
  intros Hd. apply map_eq. intros i. rewrite !upd_lookup. destruct (bufs !! i) as [v|]; [|done]. cbn. f_equal.
  destruct (decide (i ∈ l1)) as [H1|H1], (decide (i ∈ l2)) as [H2|H2].
  - by destruct (Hd i).
  - rewrite (bool_decide_false (i ∈ l2)), !bool_decide_true; [done| |done|done]. apply elem_of_app. auto.
  - rewrite (bool_decide_false (i ∈ l1)), !bool_decide_true; [done| |done|done]. apply elem_of_app. auto.
  - rewrite !bool_decide_false; [done| |done|done]. rewrite elem_of_app. tauto.
Qed.
End Tx.

Section WTx.
Context `{!Kernel} (ss0 : sockaddr) (sk : w_sock) (w : engine) (q : qheap) (mem : gmap Z bytes) (fd : Z).

(** The kernel is offered the messages in order, [SEND_SIZE] at a time, each once;
    how many of them it takes makes no difference. *)
Fixpoint send_log (fuel : nat) (msgs : list out_msg) (k : kst) : kst :=
  match fuel with
  | O => k
  | S fuel =>
      let '(_, k) := k_sendmmsg fd (take SEND_SIZE msgs) k in
      match drop SEND_SIZE msgs with [] => k | msgs => send_log fuel msgs k end
  end.

Lemma tx_loop_run fuel : ∀ l bufs b,
  b_w b = io w q bufs mem → chain (nexts q) l None → NoDup l → (∀ i, i ∈ l → sendable mem bufs i) →
  (length l < fuel)%nat →
  tx_loop ss0 fuel sk fd (head l) b =
    Done (tt, set_k (set_w b (io w q (upd l (tx_vec sk) bufs) mem))
      (send_log fuel (iov_msg ss0 sk bufs mem <$> l) (b_k b))).
Proof.
  induction fuel as [|fuel IH]; intros l bufs b Eb Hc Hnd Hs Hf; [lia|].
  cbn [tx_loop send_log]. rewrite <- fmap_take, <- fmap_drop.
  set (l1 := take SEND_SIZE l). set (l2 := drop SEND_SIZE l).
  assert (Hl : l1 ++ l2 = l) by apply take_drop.
  pose proof (tx_fill_run ss0 sk w q mem SEND_SIZE l bufs Hc Hnd) as Ef. fold l1 l2 in Ef. rewrite <- Eb in Ef at 1.
  erewrite bind_run; [|apply liftw_run, Ef; intros i (v & b0 & Hv & _)%Hs; eauto]. cbv beta iota.
  erewrite bind_run; [|apply liftw_run; cbn [set_w b_w]; apply gather_run; intros i Hi; apply Hs; by eapply in_take].
  destruct (k_sendmmsg fd (iov_msg ss0 sk bufs mem <$> l1) (b_k b)) as [r k1] eqn:Ek.
  erewrite bind_run; [|unfold sys; cbn [set_w b_k]; rewrite Ek; reflexivity].
  assert (Hd : ∀ i, i ∈ l1 → i ∉ l2) by (rewrite <- Hl in Hnd; by apply NoDup_app in Hnd as (_ & ? & _)).
  destruct l2 as [|i l3] eqn:El2; cbn [head fmap list_fmap].
  - rewrite app_nil_r in Hl. by rewrite Hl.
  - change (Some i) with (head (i :: l3)).
    assert (Hc2 : chain (nexts q) (i :: l3) None) by (rewrite <- Hl in Hc; by apply chain_app in Hc as [_ ?]).
    assert (Hnd2 : NoDup (i :: l3)) by (rewrite <- Hl in Hnd; by apply NoDup_app in Hnd as (_ & _ & ?)).
    assert (Hsame : ∀ j, j ∈ i :: l3 → upd l1 (tx_vec sk) bufs !! j = bufs !! j).
    { intros j Hj. rewrite upd_lookup. rewrite bool_decide_false by (intros ?; by eapply Hd). by destruct (bufs !! j). }
    assert (Em : iov_msg ss0 sk (upd l1 (tx_vec sk) bufs) mem <$> i :: l3 = iov_msg ss0 sk bufs mem <$> i :: l3).
    { apply list_fmap_ext. intros k j Hj%list_elem_of_lookup_2. unfold iov_msg, iov_hdr, iov_data. by rewrite Hsame. }
    rewrite (IH (i :: l3) (upd l1 (tx_vec sk) bufs)); [|done|done|done| |].
    + rewrite upd_app, Hl by done. cbn [b_k set_k]. by rewrite Em.
    + intros j Hj. destruct (Hs j) as (v & b0 & Hv & Hrest); [rewrite <- Hl; apply elem_of_app; by right|].
      exists v, b0. by rewrite Hsame.
    + assert (Hlen : (length l = length l1 + length (i :: l3))%nat) by (rewrite <- Hl; apply length_app).
      assert (length l1 = SEND_SIZE); [|unfold SEND_SIZE in *; lia]. unfold l1. rewrite length_take_le; [done|].
      assert (length (drop SEND_SIZE l) ≠ 0%nat) by (fold l2; by rewrite El2). rewrite length_drop in *. lia.
Qed.

End WTx.

(** C16: W_tx of the socket backend offers every vector of the queue to the kernel exactly
    once, in order and in batches of 64, with its payload, destination and TOS; what the kernel
    does not take is not offered again; the vectors stay in the queue with the address and flags
    that were sent. *)
Theorem sock_w_tx_correct `{!Kernel} ss0 D m b s sk fd o xs :
  let w := b_w b in
  eng_inv D m w → m !! o = Some xs → e_socks w !! s = Some sk → b_fd b !! s = Some fd →
  (∀ i, i ∈ xs → sendable (e_mem w) (e_bufs w) i) →
  let msgs := iov_msg ss0 sk (e_bufs w) (e_mem w) <$> xs in
  let w' := set_iovs w (e_q w) (upd xs (tx_vec sk) (e_bufs w)) in
  w_tx ss0 (S (length xs)) s o b = Done (tt, set_k (set_w b w') (send_log fd (S (length xs)) msgs (b_k b))) ∧
  eng_inv D m w' ∧ om_data <$> msgs = iov_data (e_bufs w) (e_mem w) <$> xs.
Proof.
  intros w Hinv Hm Hs Hfd Hsend msgs w'.
  assert (Ew : w = io w (e_q w) (e_bufs w) (e_mem w)) by by destruct w.
  destruct (inv_repr D _ m (ei_q _ _ _ Hinv) o xs Hm) as [_ Hc Hnd].
  split_and!.
  - unfold w_tx. assert (Eb : set_w b w = b) by by destruct b.
    mstep (liftw_run (get_sock s) b _ _ (get_sock_run s sk w Hs)). fold w. rewrite Eb.
    assert (Ef : get_fd s b = Done (fd, b)) by (unfold get_fd; by rewrite Hfd). mstep Ef.
    mstep (liftw_run _ b _ _ (liftq_first D m w o xs Hinv Hm)). fold w. rewrite Eb.
    rewrite (tx_loop_run ss0 sk w (e_q w) (e_mem w) fd (S (length xs)) xs (e_bufs w) b Ew Hc Hnd Hsend) by lia.
    unfold w', io. by destruct w.
  - destruct Hinv as [H1 H2 H3]. split; [done| |done]. unfold w'. cbn. rewrite <- H2. apply set_eq. intros i.
    rewrite !elem_of_dom, upd_lookup. by rewrite fmap_is_Some.
  - unfold msgs. rewrite <- list_fmap_compose. apply list_fmap_ext. intros j i _. cbn. unfold iov_msg.
    by destruct (iov_hdr _ _ _ _) as [[??]?].
Qed.

(** ** Binding *)

Section Bind.
Context `{!Kernel, !KernelLaws} (ss0 : sockaddr).

(** The file descriptors of the open sockets are open. *)
Definition fds_open (b : backend) : Prop :=
  ∀ s fd, s ∈ dom (e_socks (b_w b)) → b_fd b !! s = Some fd → k_open (b_k b) fd.

(** Freeing a new socket. *)
Lemma free_with_sock w h s sk :
  heads (e_q w) !! h = None → e_socks w !! s = None → s_iv sk = h →
  free_sock s (with_sock w h s sk (e_sock w)) = Done (tt, w).
Proof.
  intros Hh Hs Ei. unfold free_sock. mstep (with_sock_get w h s sk (e_sock w)). mstep. rewrite Ei.
  unfold with_sock, set_socks, set_iovs. cbn. rewrite !delete_insert_id by done.
  destruct w as [? q ? ? ? ? ? ? ? ? ? ? ? ? ? ?]. by destruct q.
Qed.

(** When bind() fails, w_bind of the socket backend returns no socket and restores the
    engine, but leaves the new file descriptor open with no socket that could close it. *)
Theorem sock_w_bind_error b idx port opt ia fd e k1 k2 :
  0 <= idx → ifaddr (e_conf (b_w b)) !! Z.to_nat idx = Some ia → fds_open b →
  k_socket (af (ia_addr ia)) (b_k b) = (SysOk fd, k1) →
  k_bind fd (to_sockaddr ss0 (ia_addr ia) port (ia_scope_id ia)) (sa_len (af (ia_addr ia))) k1 = (SysErr e, k2) →
  e ≠ 0 →
  ∃ b', w_bind ss0 true idx port opt b = Done (None, b') ∧ b_w b' = b_w b ∧ b_k b' = k2 ∧
    k_open k2 fd ∧ ∀ s, s ∈ dom (e_socks (b_w b')) → b_fd b' !! s ≠ Some fd.
Proof.
  intros Hidx Hia Hopen Hsk Hbd He. set (w := b_w b) in *.
  destruct (socket_law _ _ _ _ Hsk) as [Hnew Hfd].
  set (s := fresh (dom (e_socks w))). set (h := fresh (dom (heads (e_q w)))).
  set (sk0 := WSock (WSocktuple zero_sockaddr zero_sockaddr 0) ETH_ADDR_NONE (WSockopt false false) h).
  set (sk := new_sock h (WSockaddr (ia_addr ia) port) (ia_scope_id ia) None).
  assert (Hhn : heads (e_q w) !! h = None) by apply not_elem_of_dom, is_fresh.
  assert (Hsn : e_socks w !! s = None) by apply not_elem_of_dom, is_fresh.
  exists (SockBackend w (<[s := fd]> (b_fd b)) (b_ev b) (b_n b) k2). split_and!; [|done|done| |].
  - assert (Ea : liftw (alloc_sock true) b = Done (Some s, set_w b (with_sock w h s sk0 (e_sock w)))) by done.
    unfold w_bind. mstep Ea. mstep.
    assert (Er : lift (S := backend) (rd (ifaddr (e_conf w)) idx) (set_w b (with_sock w h s sk0 (e_sock w))) =
      Done (ia, set_w b (with_sock w h s sk0 (e_sock w)))) by apply lift_run, (rd_Z _ _ ia Hidx Hia).
    mstep Er. mstep (liftw_run _ (set_w b _) _ _ (with_sock_get w h s sk0 (e_sock w))).
    mstep (liftw_run _ (set_w (set_w b _) _) _ _ (with_sock_put w h s sk0 (e_sock w) sk)).
    mstep (liftw_run _ (set_w (set_w (set_w b _) _) _) _ _ (with_sock_init w h s sk (e_sock w))).
    set (b1 := set_w _ _). change b1 with (set_w b (with_sock w h s sk (e_sock w))). clear b1.
    unfold backend_bind. rewrite bind_assoc_run.
    mstep (liftw_run _ (set_w b _) _ _ (with_sock_get w h s sk (e_sock w))). rewrite bind_assoc_run.
    mstep (sys_run (k_socket (ws_af sk)) (set_w b (with_sock w h s sk (e_sock w))) _ _ Hsk).
    rewrite bind_assoc_run. mstep. rewrite bind_assoc_run.
    erewrite bind_run; [|apply sys_run; exact Hbd]. mstep.
    rewrite (proj2 (Z.eqb_neq _ _) He). cbn [negb].
    erewrite bind_run; [|apply liftw_run; by apply (free_with_sock w h s sk)]. done.
  - by apply (bind_law _ _ _ _ _ _ Hbd).
  - intros s' Hs'. cbn. destruct (decide (s' = s)) as [->|Hne].
    + by apply is_fresh in Hs'.
    + rewrite lookup_insert_ne by done. intros E. apply Hnew. by apply (Hopen s').
Qed.
End Bind.

(** ** Waiting for data *)

Section Ready.
Context `{!Kernel}.

Lemma wait_events_run tmo b evs k :
  k_epoll_wait EV_SIZE tmo (b_k b) = (SysOk evs, k) →
  wait_events tmo b = Done (tt, set_ev (set_k b k) (evs ++ drop (length evs) (b_ev b)) (Z.of_nat (length evs))).
Proof. intros E. unfold wait_events. erewrite bind_run; [|apply sys_run; exact E]. by mstep. Qed.

Lemma ready_loop_run evs : ∀ sl b,
  (∀ s, s ∈ evs → is_Some (e_socks (b_w b) !! s)) → ready_loop evs sl b = Done (rev evs ++ sl, b).
Proof.
  induction evs as [|s evs IH]; intros sl b Hs; [done|].
  destruct (Hs s) as [sk Hsk]; [by left|]. cbn [ready_loop rev].
  mstep (liftw_run (get_sock s) b _ _ (get_sock_run s sk (b_w b) Hsk)).
  assert (Eb : set_w b (b_w b) = b) by by destruct b. rewrite Eb, IH by (intros; apply Hs; by right).
  by rewrite <- app_assoc.
Qed.

(** A socket that is no longer open makes the loop write to freed memory. *)
Lemma ready_loop_fault evs s : ∀ sl b, s ∈ evs → e_socks (b_w b) !! s = None → ready_loop evs sl b = Fault.
Proof.
  induction evs as [|s' evs IH]; intros sl b Hs Hn; [by apply elem_of_nil in Hs|]. cbn [ready_loop].
  unfold mbind at 1, M_bind at 1, liftw at 1, get_sock at 1.
  destruct (e_socks (b_w b) !! s') as [sk|] eqn:E; [|done].
  apply elem_of_cons in Hs as [->|Hs]; [congruence|]. by apply IH.
Qed.

Lemma backend_close_run s fd b k1 k2 :
  b_fd b !! s = Some fd → k_epoll_del fd s (b_k b) = (SysOk tt, k1) → k_close fd k1 = (SysOk tt, k2) →
  backend_close s b = Done (tt, set_k b k2).
Proof.
  intros Hfd Hdel Hclose. unfold backend_close.
  assert (Ef : get_fd s b = Done (fd, b)) by (unfold get_fd; by rewrite Hfd).
  mstep Ef. mstep (sys_run _ b _ _ Hdel). cbn [ensure_ok]. mstep.
  by mstep (sys_run (k_close fd) (set_k b k1) _ _ Hclose).
Qed.

Context (b : backend) (nsec : Z) (evs : list nat) (k : kst).
Let tmo := if nsec =? -1 then -1 else s32 (Z.quot nsec NS_PER_MS).
Hypothesis Hwait : k_epoll_wait EV_SIZE tmo (b_k b) = (SysOk evs, k).
Hypothesis Hne : evs ≠ [].

Let b1 := set_ev (set_k b k) (evs ++ drop (length evs) (b_ev b)) (Z.of_nat (length evs)).

Lemma w_nic_rx_run : w_nic_rx nsec b = Done (true, b1).
Proof.
  unfold w_nic_rx. fold tmo. mstep (wait_events_run tmo b evs k Hwait). mstep. cbn [set_ev b_n].
  rewrite (proj2 (Z.ltb_lt _ _)) by (destruct evs; [done|cbn; lia]). done.
Qed.

Lemma w_rx_ready_start b2 sl :
  b_n b2 = b_n b1 → b_ev b2 = b_ev b1 →
  w_rx_ready sl b2 = (sl ← ready_loop evs sl; b ← get; put (set_ev b (b_ev b) 0) ;; mret (Z.of_nat (length evs), sl)) b2.
Proof.
  intros En Ee. unfold w_rx_ready. mstep. rewrite En. cbn [set_ev b_n b1].
  rewrite (proj2 (Z.leb_gt _ _)) by (destruct evs; [done|cbn; lia]). cbn [when]. mstep. mstep.
  rewrite En, Ee. cbn [set_ev b_n b_ev b1]. rewrite Z.max_r by lia. rewrite Nat2Z.id.
  by rewrite take_app_length.
Qed.

(** W_rx_ready returns the sockets that the last w_nic_rx waited for, with their number,
    without another system call, and forgets them. *)
Theorem sock_w_rx_ready_correct sl :
  (∀ s, s ∈ evs → is_Some (e_socks (b_w b) !! s)) →
  ∃ b1 b2, w_nic_rx nsec b = Done (true, b1) ∧ w_rx_ready sl b1 = Done ((Z.of_nat (length evs), rev evs ++ sl), b2) ∧
    b_w b2 = b_w b ∧ b_k b2 = k ∧ b_n b2 = 0.
Proof.
  intros Hs. exists b1. eexists. split; [apply w_nic_rx_run|]. split.
  - rewrite w_rx_ready_start by done. mstep (ready_loop_run evs sl b1 Hs). mstep. mstep. reflexivity.
  - done.
Qed.

(** C35: Closing a socket that w_nic_rx reported leaves it among the events, so that the
    next w_rx_ready writes to its freed memory. *)
Theorem sock_w_rx_ready_closed s sk fd k2 k3 :
  s ∈ evs → e_socks (b_w b) !! s = Some sk → b_fd b !! s = Some fd →
  k_epoll_del fd s k = (SysOk tt, k2) → k_close fd k2 = (SysOk tt, k3) →
  ∃ b1 b2, w_nic_rx nsec b = Done (true, b1) ∧ w_close s b1 = Done (tt, b2) ∧ ∀ sl, w_rx_ready sl b2 = Fault.
Proof.
  intros Hin Hsk Hfd Hdel Hclose. exists b1. eexists. split; [apply w_nic_rx_run|]. split.
  - unfold w_close. mstep (backend_close_run s fd b1 k2 k3 Hfd Hdel Hclose).
    apply liftw_run. unfold free_sock. mstep (get_sock_run s sk (b_w b) Hsk). mstep. reflexivity.
  - intros sl. rewrite w_rx_ready_start by done. unfold mbind at 1, M_bind at 1.
    rewrite (ready_loop_fault evs s); [done|done|]. cbn. apply lookup_delete_eq.
Qed.
End Ready.

(** ** The engine *)

Lemma init_loop_run D : ∀ k n w,
  eng_inv D {[IOVQ := rev (seq 0 n)]} w → (∀ j, j ∈ D ↔ (j < n + k)%nat) →
  (∀ j, (n <= j < n + k)%nat → e_bufs w !! j = Some zero_iov) →
  ∃ q bufs, init_loop k n w = Done (tt, set_iovs w q bufs) ∧
    eng_inv D {[IOVQ := rev (seq 0 (n + k))]} (set_iovs w q bufs) ∧
    (∀ j, (j < n)%nat → bufs !! j = e_bufs w !! j) ∧
    (∀ j, (n <= j < n + k)%nat → bufs !! j = Some (buffer_iov false w (Z.of_nat j))).
Proof.
  induction k as [|k IH]; intros n w Hinv HD Hz; cbn [init_loop].
  { exists (e_q w), (e_bufs w). rewrite set_iovs_id, Nat.add_0_r. split_and!; try done. lia. }
  destruct (init_insert_run false D w n (Z.of_nat n) Hinv) as (q & q2 & E & E2 & Hinv2); [apply HD; lia|apply Hz; lia|].
  cbv zeta in E, E2, Hinv2. mstep E. mstep E2. set (w2 := set_iovs w q2 _) in *.
  destruct (IH (S n) w2 Hinv2) as (q3 & bufs & E3 & Hinv3 & Hold & Hnew).
  - intros j. rewrite HD. lia.
  - intros j Hj. cbn. rewrite lookup_insert_ne by lia. apply Hz. lia.
  - exists q3, bufs. replace (n + S k)%nat with (S n + k)%nat by lia. split_and!; [exact E3|exact Hinv3| |].
    + intros j Hj. rewrite Hold by lia. cbn. by rewrite lookup_insert_ne by lia.
    + intros j Hj. destruct (decide (j = n)) as [->|Hne]; [|by apply Hnew; lia].
      rewrite Hold by lia. apply lookup_insert_eq.
Qed.

Lemma lookup_calloc_Z {A} (x : A) n j :
  (j < n)%nat → (list_to_map ((λ i, (Z.of_nat i, x)) <$> seq 0 n) : gmap Z A) !! Z.of_nat j = Some x.
Proof.
  intros Hj. apply elem_of_list_to_map_1.
  - rewrite <- list_fmap_compose. apply NoDup_fmap_2; [|apply NoDup_seq]. intros i i' E. cbn in E. lia.
  - apply list_elem_of_fmap. exists j. split; [done|]. apply elem_of_seq. lia.
Qed.

(** The vectors and buffers of an engine whose interface is configured. *)
Lemma alloc_bufs_run {A} (r : A) n w :
  heads (e_q w) = {[IOVQ := SqHead None (LHead IOVQ) 0]} →
  ∃ w', (ensure true ;; calloc_mem n ;; ensure true ;; calloc_bufs n ;; init_loop n 0 ;; mret r) w = Done (r, w') ∧
    eng_inv (list_to_set (seq 0 n)) {[IOVQ := rev (seq 0 n)]} w' ∧ io_bufs w' ∧ e_conf w' = e_conf w ∧
    ∀ i, (i < n)%nat → e_bufs w' !! i = Some (buffer_iov false w' (Z.of_nat i)) ∧
      e_mem w' !! Z.of_nat i = Some (repeat 0 (Z.to_nat (max_buf_len false w'))).
Proof.
  intros Hh. mstep.
  set (w2 := set_mem w (list_to_map ((λ i, (Z.of_nat i, repeat 0 (Z.to_nat (max_buf_len false w)))) <$> seq 0 n))).
  assert (E2 : calloc_mem n w = Done (tt, w2)) by done. mstep E2. mstep.
  set (w3 := set_iovs w2 (QHeap (heads (e_q w2)) (list_to_map ((λ i, (i, None)) <$> seq 0 n)))
         (list_to_map ((λ i, (i, zero_iov)) <$> seq 0 n))).
  assert (E3 : calloc_bufs n w2 = Done (tt, w3)) by done. mstep E3.
  assert (Hinv3 : eng_inv (list_to_set (seq 0 n)) {[IOVQ := rev (seq 0 0)]} w3) by by apply calloc_inv.
  destruct (init_loop_run (list_to_set (seq 0 n)) n 0 w3 Hinv3) as (q & bufs & E4 & Hinv4 & _ & Hnew).
  - intros j. rewrite elem_of_list_to_set, elem_of_seq. lia.
  - intros j Hj. apply lookup_calloc. lia.
  - exists (set_iovs w3 q bufs). split_and!; [by mstep E4|exact Hinv4| |done|intros i Hi; split; [apply Hnew; lia|by apply lookup_calloc_Z]].
    intros i v Hv. cbn in Hv.
    assert (Hi : (i < n)%nat).
    { pose proof (ei_bufs _ _ _ Hinv4) as Hd. cbn in Hd.
      assert (Hin : i ∈ dom bufs) by (apply elem_of_dom; eauto). rewrite Hd in Hin.
      rewrite elem_of_list_to_set, elem_of_seq in Hin. lia. }
    rewrite Hnew in Hv by lia. injection Hv as <-. split; [done|].
    exists (repeat 0 (Z.to_nat (max_buf_len false w))). split; [by apply lookup_calloc_Z|]. split; [apply zeros_bytes|].
    rewrite repeat_length, Z2Nat.id; [done|]. apply u16_range.
Qed.

(** C33: Backend_init of the socket backend puts every vector into the free list, vector [i]
    with buffer [i], all of whose bytes are 0, and limits the MTU to half a page; with pages
    of 64 KiB the limit is computed as 0. *)
Theorem sock_backend_init_correct `{!Os} getifaddrs ifname lk pagesize nbufs w c lk' :
  heads (e_q w) = {[IOVQ := SqHead None (LHead IOVQ) 0]} → 0 <= nbufs →
  backend_addr_config getifaddrs ifname (e_conf w) lk = Done (c, lk') →
  let n := Z.to_nat nbufs in
  ∃ w', backend_init getifaddrs ifname lk pagesize nbufs true true w = Done (lk', w') ∧
    eng_inv (list_to_set (seq 0 n)) {[IOVQ := rev (seq 0 n)]} w' ∧ io_bufs w' ∧
    mtu (e_conf w') = Z.min (mtu c) (u16 pagesize / 2) ∧
    (∀ i, (i < n)%nat → e_bufs w' !! i = Some (buffer_iov false w' (Z.of_nat i)) ∧
      e_mem w' !! Z.of_nat i = Some (repeat 0 (Z.to_nat (max_buf_len false w')))) ∧
    (pagesize = 65536 → 0 <= mtu c → mtu (e_conf w') = 0 ∧ max_buf_len false w' = 65508).
Proof.
  intros Hh Hn Hcfg n. unfold backend_init. mstep. mstep (lift_run _ _ w Hcfg). mstep. fold n.
  set (w1 := set_conf w _). destruct (alloc_bufs_run lk' n w1 Hh) as (w' & E & Hinv & Hio & Hc & Hb).
  exists w'. split; [exact E|]. split; [exact Hinv|]. split; [exact Hio|]. split; [by rewrite Hc|]. split; [exact Hb|].
  intros -> Hm. unfold max_buf_len. rewrite Hc. cbn [e_conf w1 set_conf set_link mtu]. change (u16 65536 / 2) with 0.
  by rewrite Z.min_r.
Qed.

(** ** Witnesses *)

(** A kernel with the open file descriptors, whether the addresses are in use, the
    datagrams received, the readable sockets, and the messages it was given to send. *)
Record kex := Kex {
  kx_fds : list Z;
  kx_used : bool;
  kx_in : list in_msg;
  kx_ev : list nat;
  kx_out : list (list out_msg)
}.

(** The next datagrams, cut to the lengths of the buffers. *)
Definition kx_deliver (caps : list Z) (l : list in_msg) : list in_msg :=
  zip_with (λ m cap, InMsg (im_name m) (u8 <$> take (Z.to_nat cap) (im_data m)) (im_ctrl m)) l caps.

#[export] Instance kernel_ex : Kernel := {|
  kst := kex;
  k_socket af k := let fd := foldr Z.max 0 (kx_fds k) + 1 in
    (SysOk fd, Kex (fd :: kx_fds k) (kx_used k) (kx_in k) (kx_ev k) (kx_out k));
  k_bind fd sa n k := (if kx_used k then SysErr 98 else SysOk tt, k);
  k_connect fd sa n k := (SysOk tt, k);
  k_setsockopt fd l n v k := (SysOk tt, k);
  k_getsockname fd k := (SysOk (SockaddrIn 0x5000 [127; 0; 0; 1]), k);
  k_close fd k := (SysOk tt, Kex (filter (λ x, x ≠ fd) (kx_fds k)) (kx_used k) (kx_in k) (kx_ev k) (kx_out k));
  k_epoll_add fd s k := (SysOk tt, k);
  k_epoll_del fd s k := (SysOk tt, k);
  k_epoll_wait n tmo k := (SysOk (take n (kx_ev k)), k);
  k_sendmmsg fd l k := (SysOk (length l), Kex (kx_fds k) (kx_used k) (kx_in k) (kx_ev k) (kx_out k ++ [l]));
  k_recvmmsg fd caps k := (SysOk (kx_deliver caps (kx_in k)),
    Kex (kx_fds k) (kx_used k) (drop (length caps) (kx_in k)) (kx_ev k) (kx_out k));
  k_open k fd := fd ∈ kx_fds k
|}.

Lemma max_not_elem (l : list Z) : foldr Z.max 0 l + 1 ∉ l.
Proof.
  assert (H : ∀ x, x ∈ l → x <= foldr Z.max 0 l); [|by intros ?%H; lia].
  induction l as [|y l IH]; intros x; [by intros ?%elem_of_nil|]. intros [->|Hx]%elem_of_cons; cbn; [lia|].
  specialize (IH x Hx). lia.
Qed.

#[export] Instance kernel_ex_laws : @KernelLaws kernel_ex.
Proof.
  split.
  - intros fd caps k msgs k' Hcaps [= <- <-]. unfold kx_deliver. split; [rewrite length_zip_with; lia|].
    intros j m cap Hm Hcap. rewrite lookup_zip_with in Hm. destruct (kx_in k !! j) as [m0|]; [|done]. cbn in Hm.
    rewrite Hcap in Hm. injection Hm as <-. cbn. split.
    + rewrite length_fmap, length_take. pose proof (proj1 (Forall_lookup _ _) Hcaps j cap Hcap). cbn in *. lia.
    + apply Forall_fmap, Forall_forall. intros x _. apply u8_range.
  - intros af k fd k' [= <- <-]. split; [apply max_not_elem|by left].
  - by intros fd sa n k r k' [= <- <-].
  - intros fd k k' [= <-] fd'. cbn. rewrite list_elem_of_filter. tauto.
  - by intros fd s k r k' [= <- <-].
Qed.

(** The engine of four vectors with buffers of 128 bytes, three of them free, and a
    socket of 10.0.0.1:80 that is not connected. *)
Definition sock_sio_ex : w_sock := WSock (WSocktuple loc_ex zero_sockaddr 0) ETH_ADDR_NONE (WSockopt false false) 10.
Definition eng_sio_ex : engine :=
  set_socks (set_conf eng_mem_ex (set_link ifconf_ex 156 (mac ifconf_ex))) kh_init {[5%nat := sock_sio_ex]}.
Definition msg_ex (n : Z) : in_msg := InMsg (SockaddrIn 0x5100 [10; 0; 0; 2]) [n; n] [Cmsg IPPROTO_IP IP_TOS 2; Cmsg IPPROTO_IP IP_TTL 64].
Definition kex_ex : kex := Kex [7] false [msg_ex 1; msg_ex 2] [5%nat] [].
Definition sio_ex (w : engine) : backend := SockBackend w {[5%nat := 7]} [] 0 kex_ex.

Lemma eng_sio_ex_inv : eng_inv eng_ex_D eng_ex_m eng_sio_ex.
Proof. destruct eng_ex_inv as [H1 H2 H3]. by split. Qed.

Lemma eng_sio_ex_io : io_bufs eng_sio_ex.
Proof.
  intros i v Hv. change (e_bufs eng_sio_ex) with (e_bufs eng_ex) in Hv. unfold eng_ex in Hv. cbn [e_bufs] in Hv.
  rewrite !lookup_insert_Some, lookup_singleton_Some in Hv.
  assert (Hz : is_bytes (repeat 0 128)) by apply zeros_bytes.
  destruct Hv as [[<- <-]|[_ [[<- <-]|[_ [[<- <-]|[_ [<- <-]]]]]]]; (split; [done|]); exists (repeat 0 128);
    split_and!; first [reflexivity|done].
Qed.

Lemma sock_w_rx_correct_witness :
  ∃ w', w_rx 4 5 10 (sio_ex eng_sio_ex) = Done (tt, set_k (set_w (sio_ex eng_sio_ex) w') (Kex [7] false [] [5%nat] [])) ∧
    ∃ v, e_bufs w' !! 1%nat = Some v ∧ v_len v = 2 ∧ v_flags v = 2 ∧ v_ttl v = 64.
Proof.
  destruct (sock_w_rx_correct eng_ex_D eng_ex_m (sio_ex eng_sio_ex) 5 sock_sio_ex 7 10 [0; 1; 2]%nat [])
    as (w' & free' & E & _ & _ & _ & _ & _ & Hmsg & _).
  - apply eng_sio_ex_inv.
  - apply eng_sio_ex_io.
  - reflexivity.
  - reflexivity.
  - by left.
  - done.
  - reflexivity.
  - reflexivity.
  - exists w'. split; [exact E|]. destruct (Hmsg 1%nat 1%nat (msg_ex 2) eq_refl eq_refl) as (v & v' & _ & Hv' & [H1 _ _ _ H5 H6]).
    exists v'. split; [exact Hv'|]. split; [exact H1|]. split; [exact H5|exact H6].
Defined.

Lemma sock_w_tx_correct_witness :
  let w := set_socks eng_send_ex kh_init {[5%nat := sock_tx_ex]} in
  ∃ b', w_tx (SockaddrOther 0) 2 5 10 (sio_ex w) = Done (tt, b') ∧ kx_out (b_k b') = [[OutMsg None [0; 0; 0; 0] None]].
Proof.
  intros w. destruct (sock_w_tx_correct (SockaddrOther 0) eng_ex_D eng_send_ex_m (sio_ex w) 5 sock_tx_ex 7 10 [3%nat])
    as (E & _ & _).
  - destruct eng_send_ex_inv as [H1 H2 H3]. by split.
  - reflexivity.
  - reflexivity.
  - reflexivity.
  - intros i ->%list_elem_of_singleton. exists iov_tx_ex, payload_ex.
    split; [reflexivity|]. split; [reflexivity|]. vm_compute. split_and!; discriminate.
  - eexists. split; [exact E|]. vm_compute. reflexivity.
Defined.

Lemma sock_w_bind_error_witness :
  let b := SockBackend eng_sio_ex {[5%nat := 7]} [] 0 (Kex [7] true [] [] []) in
  ∃ b', w_bind (SockaddrOther 0) true 1 0x5000 None b = Done (None, b') ∧ kx_fds (b_k b') = [8; 7].
Proof.
  intros b. assert (Hi : ∃ ia, ifaddr (e_conf (b_w b)) !! 1%nat = Some ia) by (eexists; reflexivity).
  destruct Hi as [ia Hia].
  destruct (sock_w_bind_error (SockaddrOther 0) b 1 0x5000 None ia 8 98 (Kex [8; 7] true [] [] []) (Kex [8; 7] true [] [] []))
    as (b' & E & _ & Hk & _ & _).
  - lia.
  - exact Hia.
  - intros s fd Hs Hfd. cbn in Hfd. apply lookup_singleton_Some in Hfd as [_ <-]. cbn. by left.
  - reflexivity.
  - reflexivity.
  - lia.
  - exists b'. split; [exact E|]. by rewrite Hk.
Defined.

Lemma sock_w_rx_ready_correct_witness :
  ∃ b1 b2, w_nic_rx 0 (sio_ex eng_sio_ex) = Done (true, b1) ∧ w_rx_ready [] b1 = Done ((1, [5%nat]), b2).
Proof.
  destruct (sock_w_rx_ready_correct (sio_ex eng_sio_ex) 0 [5%nat] kex_ex eq_refl ltac:(discriminate) [])
    as (b1 & b2 & E1 & E2 & _).
  - intros s ->%list_elem_of_singleton. by eexists.
  - by exists b1, b2.
Defined.

Lemma sock_w_rx_ready_closed_witness :
  ∃ b1 b2, w_nic_rx 0 (sio_ex eng_sio_ex) = Done (true, b1) ∧ w_close 5 b1 = Done (tt, b2) ∧ w_rx_ready [] b2 = Fault.
Proof.
  destruct (sock_w_rx_ready_closed (sio_ex eng_sio_ex) 0 [5%nat] kex_ex eq_refl ltac:(discriminate) 5 sock_sio_ex 7 kex_ex
    (Kex [] false [msg_ex 1; msg_ex 2] [5%nat] [])) as (b1 & b2 & E1 & E2 & E3).
  - by left.
  - reflexivity.
  - reflexivity.
  - reflexivity.
  - reflexivity.
  - by exists b1, b2.
Defined.

#[local] Existing Instance os_ex.

Lemma sock_backend_init_correct_witness :
  ∃ lk w', backend_init (Some ifaddrs_ex) "eth0" (WLink false false 0 "") 65536 3 true true engine_new_ex = Done (lk, w') ∧
    mtu (e_conf w') = 0 ∧ e_bufs w' !! 2%nat = Some (buffer_iov false w' 2) ∧ e_mem w' !! 2 = Some (repeat 0 65508).
Proof.
  assert (E : ∃ c, backend_addr_config (Some ifaddrs_ex) "eth0" (e_conf engine_new_ex) (WLink false false 0 "")
    = Done (c, WLink false false 1000 "e1000") ∧ 0 <= mtu c).
  { eexists. split; [vm_compute; reflexivity|]. vm_compute. discriminate. }
  destruct E as (c & E & Hc).
  destruct (sock_backend_init_correct (Some ifaddrs_ex) "eth0" (WLink false false 0 "") 65536 3 engine_new_ex c
    (WLink false false 1000 "e1000") eq_refl ltac:(lia) E) as (w' & Ew & _ & _ & _ & Hb & Hm).
  eexists _, w'. split; [exact Ew|]. destruct (Hm eq_refl Hc) as [Hmtu Hmax].
  destruct (Hb 2%nat) as [Hb2 Hz]; [vm_compute; lia|]. rewrite Hmax in Hz. split; [exact Hmtu|]. split; [exact Hb2|].
  apply Hz.
Defined.
