(* ===== verification/Riot.v ===== *)
(** The backend on the network stack of RIOT (lib/src/backend_riot.c): finding the
    interface, binding and closing, sending and receiving vectors, and waiting for data
    with [select].

    The calls into RIOT are parameters; [GnrcLaws] is what its documentation and POSIX
    promise of them. *)

From stdpp Require Import strings.
From S2P Require Import Prelude Util Krng Queue SList Wire Addr Ifaddr Khash Engine Netmap Ip Sock Icmp Rx Connect Tx Backend Sockio.

(** ** RIOT *)

(** A network interface: whether its link is up and the addresses it has, where the
    query succeeds, its MTU, link-layer address, name and number. *)
Record gnrc_netif := GnrcNetif {
  nif_link : option bool;
  nif_addrs : option (list bytes);
  nif_mtu : Z;
  nif_l2addr : bytes;
  nif_name : string;
  nif_id : Z
}.

(** The state of the network stack and the calls the backend makes, on IPv6 datagram
    sockets.  [g_recvfrom] takes the length of the buffer, [g_sendto] the destination
    with its length, [g_select] the number of descriptors it looks at, the set of those
    to wait for and the timeout in seconds and microseconds. *)
Class Gnrc := {
  gst : Type;
  g_socket : gst → sysres Z * gst;
  g_bind : Z → sockaddr → Z → gst → sysres unit * gst;
  g_connect : Z → sockaddr → Z → gst → sysres unit * gst;
  g_getsockname : Z → gst → sysres sockaddr * gst;
  g_close : Z → gst → gst;
  g_recvfrom : Z → Z → gst → sysres (sockaddr * bytes) * gst;
  g_sendto : Z → bytes → option (sockaddr * Z) → gst → sysres Z * gst;
  g_select : Z → gset Z → option (Z * Z) → gst → sysres (gset Z) * gst;
  ipv6_addr_is_link_local : bytes → bool;
  g_open : gst → Z → Prop
}.

(** The list of sockets of the backend. *)
Definition SOCKS : nat := 0.

Section Riot.
Context `{!Gnrc} (FD_SETSIZE VFS_MAX_OPEN_FILES : Z) (have_64bit : bool).
(** What a [struct sockaddr_storage] on the stack holds before it is written. *)
Context (ss0 : sockaddr).

(** An engine with its [struct w_backend]: the list of sockets, the descriptors of the
    sockets, and the set of descriptors and the result of the last [select]. *)
Record riot := RiotBackend {
  r_w : engine;
  r_socks : slheap;
  r_fd : gmap nat Z;
  r_fds : gset Z;
  r_n : Z;
  r_k : gst
}.
Definition rset_w (b : riot) (w : engine) : riot := RiotBackend w (r_socks b) (r_fd b) (r_fds b) (r_n b) (r_k b).
Definition rset_socks (b : riot) (l : slheap) : riot := RiotBackend (r_w b) l (r_fd b) (r_fds b) (r_n b) (r_k b).
Definition rset_fds (b : riot) (fds : gset Z) (n : Z) : riot := RiotBackend (r_w b) (r_socks b) (r_fd b) fds n (r_k b).
Definition rset_k (b : riot) (k : gst) : riot := RiotBackend (r_w b) (r_socks b) (r_fd b) (r_fds b) (r_n b) k.

Definition liftr {A} (m : M engine A) : M riot A := λ b,
  match m (r_w b) with
  | Done (a, w) => Done (a, rset_w b w)
  | Died => Died
  | Fault => Fault
  | NoFuel => NoFuel
  end.
Definition liftl {A} (m : M slheap A) : M riot A := λ b,
  match m (r_socks b) with
  | Done (a, l) => Done (a, rset_socks b l)
  | Died => Died
  | Fault => Fault
  | NoFuel => NoFuel
  end.
Definition riotsys {A} (f : gst → A * gst) : M riot A := λ b,
  let '(a, k) := f (r_k b) in Done (a, rset_k b k).
Definition sock_fd (s : nat) : M riot Z := λ b,
  match r_fd b !! s with Some fd => Done (fd, b) | None => Fault end.
Definition set_sock_fd (s : nat) (fd : Z) : M riot unit := λ b,
  Done (tt, RiotBackend (r_w b) (r_socks b) (<[s := fd]> (r_fd b)) (r_fds b) (r_n b) (r_k b)).

(** A new element of the list of sockets, and one that is freed. *)
Definition new_link (s : nat) : M riot unit := λ b,
  Done (tt, rset_socks b (SlHeap (slh_first (r_socks b)) (<[s := None]> (sle_next (r_socks b))))).
Definition del_link (s : nat) : M riot unit := λ b,
  Done (tt, rset_socks b (SlHeap (slh_first (r_socks b)) (delete s (sle_next (r_socks b))))).

(** ** Interfaces *)

(** [gnrc_netif_iter] goes through the list of interfaces. *)
Fixpoint backend_addr_cnt (ifaces : list gnrc_netif) : Z :=
  match ifaces with
  | [] => 0
  | iface :: ifaces =>
      match nif_link iface, nif_addrs iface with
      | Some true, Some (_ :: _) => 1
      | _, _ => backend_addr_cnt ifaces
      end
  end.

(** The first interface with an address, and its first address. *)
Fixpoint find_nif (ifaces : list gnrc_netif) : option (gnrc_netif * bytes) :=
  match ifaces with
  | [] => None
  | nif :: ifaces =>
      match nif_addrs nif with
      | Some (addr :: _) => Some (nif, addr)
      | _ => find_nif ifaces
      end
  end.

Definition mask64 : bytes := repeat 0xff 8 ++ repeat 0x00 8.

(** The result is the name of the interface and its speed. *)
Definition backend_init (ifaces : list gnrc_netif) (nbufs : Z) (mem_ok bufs_ok : bool) : M engine (string * Z) :=
  '(nif, addr) ← lift (ensure_some (find_nif ifaces));
  w ← get;
  let c := e_conf w in
  ia ← lift (rd (ifaddr c) 0);
  let a := WAddr AF_INET6 (stn (un (ia_addr ia)) 0 (take IP6_LEN addr)) in
  let ia := WIfaddr a (ia_bcast ia) (ia_snma ia) (nif_id nif) (ia_prefix ia) in
  ia ← (if ipv6_addr_is_link_local addr then lift (ip6_config ia mask64) else die);
  l ← lift (wr (ifaddr c) 0 ia);
  put (set_conf w (set_ifaddr (set_link c (nif_mtu nif) (take 6 (nif_l2addr nif))) (have_ip4 c) true l)) ;;
  ensure mem_ok ;; calloc_mem (Z.to_nat nbufs) ;;
  ensure bufs_ok ;; calloc_bufs (Z.to_nat nbufs) ;;
  init_loop (Z.to_nat nbufs) 0 ;;
  mret (nif_name nif, UINT32_MAX).

(** ** Sockets *)

Definition w_set_sockopt (s : nat) (opt : w_sockopt) : M riot unit :=
  sk ← liftr (get_sock s); liftr (put_sock s (set_opt sk opt)).

Definition backend_bind (s : nat) (opt : option w_sockopt) : M riot Z :=
  r ← riotsys g_socket;
  match r with
  | SysErr errno => set_sock_fd s (-1) ;; mret errno
  | SysOk fd =>
      set_sock_fd s fd ;;
      sk ← liftr (get_sock s);
      let ss := to_sockaddr ss0 (sa_addr (ws_loc sk)) (ws_lport sk) (scope_id (s_tup sk)) in
      r ← riotsys (g_bind fd ss (sa_len (ws_af sk)));
      match r with
      | SysErr errno => mret errno
      | SysOk _ => liftl (sl_insert_head SOCKS s) ;; mret 0
      end
  end.

Definition w_bind (ok : bool) (addr_idx port : Z) (opt : option w_sockopt) : M riot (option nat) :=
  o ← liftr (alloc_sock ok);
  match o with
  | None => mret None
  | Some s =>
      new_link s ;;
      b ← get; ia ← lift (rd (ifaddr (e_conf (r_w b))) addr_idx);
      sk ← liftr (get_sock s);
      liftr (put_sock s (set_tup sk (WSocktuple (WSockaddr (ia_addr ia) port) (ws_rem sk) (ia_scope_id ia)))) ;;
      liftr (liftq (sq_init (s_iv sk))) ;;
      e ← backend_bind s opt;
      if negb (e =? 0) then liftr (free_sock s) ;; del_link s ;; mret None else mret (Some s)
  end.

Definition backend_close (fuel s : nat) : M riot unit :=
  fd ← sock_fd s;
  riotsys (λ k, (tt, g_close fd k)) ;;
  liftl (sl_remove fuel SOCKS s).
Definition w_close (fuel s : nat) : M riot unit :=
  backend_close fuel s ;; liftr (free_sock s) ;; del_link s.

Definition backend_preconnect (s : nat) : M riot unit := mret tt.
Definition backend_connect (s : nat) : M riot Z :=
  sk ← liftr (get_sock s); fd ← sock_fd s;
  let ss := to_sockaddr ss0 (sa_addr (ws_rem sk)) (ws_rport sk) (scope_id (s_tup sk)) in
  r ← riotsys (g_connect fd ss (sa_len (af (sa_addr (ws_rem sk)))));
  match r with
  | SysErr errno => mret errno
  | SysOk _ =>
      when (ws_lport sk =? 0)
        (r ← riotsys (g_getsockname fd);
         match r with
         | SysOk ss => liftr (put_sock s (set_lport sk (sockaddr_port ss)))
         | SysErr _ => die
         end) ;;
      mret 0
  end.

Definition w_connect (s : nat) (peer : sockaddr) : M riot Z :=
  sk ← liftr (get_sock s);
  if w_connected sk then mret EADDRINUSE else
  backend_preconnect s ;;
  let '(ok, ra) := w_to_waddr (sa_addr (ws_rem sk)) peer in
  e ← (if negb ok then mret EAFNOSUPPORT
       else
         liftr (put_sock s (set_rem sk (WSockaddr ra (sockaddr_port peer)))) ;;
         backend_connect s);
  when (negb (e =? 0)) (sk ← liftr (get_sock s); liftr (put_sock s (set_rem sk zero_sockaddr))) ;;
  mret e.

(** The loop of [backend_cleanup]: the link of a socket is read after it was closed. *)
Fixpoint cleanup_loop (fuel : nat) (s : option nat) : M riot unit :=
  match s with
  | None => mret tt
  | Some s =>
      match fuel with
      | O => no_fuel
      | S n => w_close fuel s ;; next ← liftl (sl_next s); cleanup_loop n next
      end
  end.
Definition backend_cleanup (fuel : nat) : M riot unit :=
  s ← liftl (sl_first SOCKS);
  cleanup_loop fuel s ;;
  b ← get; put (rset_w b (set_iovs (set_mem (r_w b) ∅) (e_q (r_w b)) ∅)).

(** ** Receiving and sending *)

(** The result of [recvfrom] as it is assigned to the 16-bit [len], and the address. *)
Definition recv_len (r : sysres (sockaddr * bytes)) : Z :=
  match r with SysOk (_, data) => u16 (Z.of_nat (length data)) | SysErr _ => u16 (-1) end.
Definition recv_from (r : sysres (sockaddr * bytes)) : sockaddr :=
  match r with SysOk (sa, _) => sa | SysErr _ => ss0 end.
Definition recv_data (r : sysres (sockaddr * bytes)) : bytes :=
  match r with SysOk (_, data) => data | SysErr _ => [] end.

Definition w_rx (s i : nat) : M riot unit :=
  sk ← liftr (get_sock s);
  o ← liftr (w_alloc_iov false (ws_af sk) 0 0);
  match o with
  | None => mret tt
  | Some n =>
      v ← liftr (get_iov n); fd ← sock_fd s;
      r ← riotsys (g_recvfrom fd (v_len v));
      liftr (stm (v_buf v) (recv_data r)) ;;
      liftr (put_iov n (Engine.set_len v (recv_len r))) ;;
      if 0 <? recv_len r then
        v ← liftr (get_iov n);
        let sa := recv_from r in
        liftr (put_iov n (set_saddr v (WSockaddr (snd (w_to_waddr (sa_addr (v_saddr v)) sa)) (sockaddr_port sa)))) ;;
        liftr (liftq (sq_insert_tail i n))
      else liftr (w_free_iov n)
  end.

Fixpoint tx_loop (fuel : nat) (sk : w_sock) (fd : Z) (v : option nat) : M riot unit :=
  match v with
  | None => mret tt
  | Some n =>
      match fuel with
      | O => no_fuel
      | S fuel =>
          v ← liftr (get_iov n);
          let ss := to_sockaddr ss0 (sa_addr (v_saddr v)) (sa_port (v_saddr v)) (scope_id (s_tup sk)) in
          data ← liftr (ldm (v_buf v) (Z.to_nat (v_len v)));
          _ ← riotsys (g_sendto fd data (if w_connected sk then None else Some (ss, sa_len (ws_af sk))));
          next ← liftr (liftq (sq_next n));
          tx_loop fuel sk fd next
      end
  end.
Definition w_tx (fuel s o : nat) : M riot unit :=
  sk ← liftr (get_sock s); fd ← sock_fd s;
  v ← liftr (liftq (sq_first o));
  tx_loop fuel sk fd v.

Definition w_nic_tx : M riot unit := mret tt.

(** ** Waiting for data *)

(** The descriptors an [fd_set] has room for. *)
Definition FD_SET (fd : Z) (fds : gset Z) : outcome (gset Z) :=
  if (0 <=? fd) && (fd <? FD_SETSIZE) then Done ({[fd]} ∪ fds) else Fault.
Definition FD_ISSET (fd : Z) (fds : gset Z) : outcome bool :=
  if (0 <=? fd) && (fd <? FD_SETSIZE) then Done (bool_decide (fd ∈ fds)) else Fault.

(** The loop of [w_nic_rx]. *)
Fixpoint fill_fds (socks : list nat) (fds : gset Z) : M riot (gset Z) :=
  match socks with
  | [] => mret fds
  | s :: socks => fd ← sock_fd s; fds ← lift (FD_SET fd fds); fill_fds socks fds
  end.

Definition select_timeout (nsec : Z) : option (Z * Z) :=
  if nsec =? -1 then None
  else let sec := NS_TO_S have_64bit nsec in Some (sec, NS_TO_US have_64bit (nsec - sec * NS_PER_S)).

Definition w_nic_rx (fuel : nat) (nsec : Z) : M riot bool :=
  socks ← liftl (sl_foreach fuel SOCKS);
  fds ← fill_fds socks ∅;
  r ← riotsys (g_select (Z.min FD_SETSIZE VFS_MAX_OPEN_FILES - 1) fds (select_timeout nsec));
  b ← get;
  match r with
  | SysOk ready => put (rset_fds b ready (Z.of_nat (size ready)))
  | SysErr _ => put (rset_fds b fds (-1))
  end ;;
  b ← get; mret (0 <? r_n b).

(** The loop of [w_rx_ready]; [sl_insert_head] writes the link of the socket. *)
Fixpoint isset_loop (socks sl : list nat) (i : Z) : M riot (Z * list nat) :=
  match socks with
  | [] => mret (i, sl)
  | s :: socks =>
      fd ← sock_fd s; b ← get;
      set ← lift (FD_ISSET fd (r_fds b));
      if (set : bool) then _ ← liftr (get_sock s); isset_loop socks (s :: sl) (u32 (i + 1))
      else isset_loop socks sl i
  end.
Definition w_rx_ready (fuel : nat) (sl : list nat) : M riot (Z * list nat) :=
  socks ← liftl (sl_foreach fuel SOCKS); isset_loop socks sl 0.
End Riot.

(** * Theorems *)

(** What is promised of RIOT: descriptors are numbered from 0 up to
    [VFS_MAX_OPEN_FILES], a new one was not open and is, [recvfrom] writes no more than
    the buffer holds, and [select] reports descriptors it was asked about, below its
    first argument. *)
Class GnrcLaws `{!Gnrc} (VFS_MAX_OPEN_FILES : Z) : Prop := {
  gsocket_law k fd k' : g_socket k = (SysOk fd, k') →
    0 <= fd < VFS_MAX_OPEN_FILES ∧ ¬ g_open k fd ∧ ∀ fd', g_open k' fd' ↔ g_open k fd' ∨ fd' = fd;
  gsocket_err k e k' : g_socket k = (SysErr e, k') → e ≠ 0 ∧ ∀ fd, g_open k' fd ↔ g_open k fd;
  gbind_law fd sa n k r k' : g_bind fd sa n k = (r, k') →
    (∀ e, r = SysErr e → e ≠ 0) ∧ ∀ fd', g_open k' fd' ↔ g_open k fd';
  gclose_law fd k fd' : g_open (g_close fd k) fd' ↔ g_open k fd' ∧ fd' ≠ fd;
  grecvfrom_law fd cap k sa data k' : 0 <= cap → g_recvfrom fd cap k = (SysOk (sa, data), k') →
    Z.of_nat (length data) <= cap ∧ is_bytes data;
  gselect_law n fds to k ready k' : g_select n fds to k = (SysOk ready, k') →
    ready ⊆ fds ∧ ∀ fd, fd ∈ ready → fd < n;
  gselect_open n fds to k r k' : g_select n fds to k = (r, k') → ∀ fd, g_open k' fd ↔ g_open k fd
}.

Section Theorems.
Context `{!Gnrc} (FD_SETSIZE VFS_MAX_OPEN_FILES : Z) (have_64bit : bool) (ss0 : sockaddr).
Context `{!GnrcLaws VFS_MAX_OPEN_FILES}.

Lemma liftr_run {A} (m : M engine A) b a w : m (r_w b) = Done (a, w) → liftr m b = Done (a, rset_w b w).
Proof. intros E. unfold liftr. by rewrite E. Qed.
Lemma liftl_run {A} (m : M slheap A) b a l : m (r_socks b) = Done (a, l) → liftl m b = Done (a, rset_socks b l).
Proof. intros E. unfold liftl. by rewrite E. Qed.
Lemma riotsys_run {A} (f : gst → A * gst) b a k : f (r_k b) = (a, k) → riotsys f b = Done (a, rset_k b k).
Proof. intros E. unfold riotsys. by rewrite E. Qed.
Lemma sock_fd_run b s fd : r_fd b !! s = Some fd → sock_fd s b = Done (fd, b).
Proof. intros E. unfold sock_fd. by rewrite E. Qed.
Lemma rset_w_id b : rset_w b (r_w b) = b.
Proof. by destruct b. Qed.
Lemma rset_socks_id b : rset_socks b (r_socks b) = b.
Proof. by destruct b. Qed.

(** The list holds the open sockets, each with an open descriptor of its own. *)
Record riot_inv (b : riot) (ss : list nat) : Prop := {
  ri_list : sl_inv (dom (e_socks (r_w b))) (r_socks b) {[SOCKS := ss]};
  ri_all : ∀ s, s ∈ ss ↔ is_Some (e_socks (r_w b) !! s);
  ri_fd : ∀ s, s ∈ ss → ∃ fd, r_fd b !! s = Some fd ∧ 0 <= fd < VFS_MAX_OPEN_FILES ∧ g_open (r_k b) fd;
  ri_inj : ∀ s s' fd, s ∈ ss → s' ∈ ss → r_fd b !! s = Some fd → r_fd b !! s' = Some fd → s = s'
}.

Definition fd_of (b : riot) (s : nat) : Z := default 0 (r_fd b !! s).
Definition nsocks (b : riot) : nat := size (dom (e_socks (r_w b))).

Lemma riot_nodup b ss : riot_inv b ss → NoDup ss.
Proof.
  intros [(q & Hq & _) _ _ _]. apply (repr_nodup _ _ _ (inv_repr _ _ _ Hq SOCKS ss (lookup_singleton_eq _ _))).
Qed.
Lemma riot_foreach b ss : riot_inv b ss → liftl (sl_foreach (nsocks b) SOCKS) b = Done (ss, b).
Proof.
  intros Hb. rewrite (liftl_run _ b ss (r_socks b)); [by rewrite rset_socks_id|].
  eapply sl_foreach_run; [apply (ri_list _ _ Hb)|apply lookup_singleton_eq].
Qed.

(** ** Waiting for data *)

Lemma filter_all {A} (P : A → Prop) `{!∀ x, Decision (P x)} (l : list A) : (∀ x, x ∈ l → P x) → filter P l = l.
Proof.
  induction l as [|x l IH]; intros Hp; [done|]. rewrite filter_cons, decide_True by (apply Hp; by left).
  f_equal. apply IH. intros y Hy. apply Hp. by right.
Qed.

Section Ready.
Hypothesis Hmax : VFS_MAX_OPEN_FILES <= FD_SETSIZE.

Lemma fill_fds_run b l : ∀ fds,
  (∀ s, s ∈ l → ∃ fd, r_fd b !! s = Some fd ∧ 0 <= fd < VFS_MAX_OPEN_FILES) →
  fill_fds FD_SETSIZE l fds b = Done (list_to_set (fd_of b <$> l) ∪ fds, b).
Proof.
  induction l as [|s l IH]; intros fds Hl; cbn [fill_fds].
  { change (list_to_set (fd_of b <$> [])) with (∅ : gset Z). by rewrite union_empty_l_L. }
  destruct (Hl s ltac:(by left)) as (fd & Hfd & Hr). mstep (sock_fd_run b s fd Hfd).
  assert (E : FD_SET FD_SETSIZE fd fds = Done ({[fd]} ∪ fds)).
  { unfold FD_SET. by rewrite (proj2 (Z.leb_le _ _)), (proj2 (Z.ltb_lt _ _)) by lia. }
  mstep (lift_run _ _ b E). rewrite IH by (intros; apply Hl; by right). rewrite fmap_cons, list_to_set_cons.
  assert (Ef : fd_of b s = fd) by (unfold fd_of; by rewrite Hfd). rewrite Ef. do 2 f_equal. set_solver.
Qed.

Lemma isset_loop_run b l : ∀ sl i,
  (∀ s, s ∈ l → is_Some (e_socks (r_w b) !! s) ∧ ∃ fd, r_fd b !! s = Some fd ∧ 0 <= fd < VFS_MAX_OPEN_FILES) →
  0 <= i → i + Z.of_nat (length l) < 2 ^ 32 →
  let r := filter (λ s, fd_of b s ∈ r_fds b) l in
  isset_loop FD_SETSIZE l sl i b = Done ((i + Z.of_nat (length r), rev r ++ sl), b).
Proof.
  induction l as [|s l IH]; intros sl i Hl Hi Hn; cbn [isset_loop length] in *.
  { by rewrite Z.add_0_r. }
  destruct (Hl s ltac:(by left)) as ([sk Hsk] & fd & Hfd & Hr). mstep (sock_fd_run b s fd Hfd). mstep.
  assert (E : FD_ISSET FD_SETSIZE fd (r_fds b) = Done (bool_decide (fd ∈ r_fds b))).
  { unfold FD_ISSET. by rewrite (proj2 (Z.leb_le _ _)), (proj2 (Z.ltb_lt _ _)) by lia. }
  mstep (lift_run _ _ b E).
  assert (Hl' : ∀ s, s ∈ l → is_Some (e_socks (r_w b) !! s) ∧ ∃ fd, r_fd b !! s = Some fd ∧ 0 <= fd < VFS_MAX_OPEN_FILES)
    by (intros; apply Hl; by right).
  assert (Ef : fd_of b s = fd) by (unfold fd_of; by rewrite Hfd). rewrite filter_cons, Ef.
  destruct (decide (fd ∈ r_fds b)) as [Hin|Hin].
  - rewrite bool_decide_true by done. mstep (liftr_run _ b _ _ (get_sock_run s sk _ Hsk)). rewrite rset_w_id.
    rewrite u32_id by (unfold is_u32; lia). rewrite IH by (done || lia). cbn [length rev]. rewrite <- app_assoc.
    do 3 f_equal. lia.
  - rewrite bool_decide_false by done. by apply IH; [|lia|lia].
Qed.

(** C36: W_nic_rx of the RIOT backend waits for all open sockets and w_rx_ready then returns
    exactly those select reported, with their number; a socket with the highest descriptor is
    never among them, and after a failed select all sockets are returned. *)
Theorem riot_rx_ready_correct b ss nsec r k' :
  riot_inv b ss → Z.of_nat (length ss) < 2 ^ 32 →
  let nfds := Z.min FD_SETSIZE VFS_MAX_OPEN_FILES - 1 in
  g_select nfds (list_to_set (fd_of b <$> ss)) (select_timeout have_64bit nsec) (r_k b) = (r, k') →
  let ready := match r with SysOk fds => filter (λ s, fd_of b s ∈ fds) ss | SysErr _ => ss end in
  ∃ ok b1, w_nic_rx FD_SETSIZE VFS_MAX_OPEN_FILES have_64bit (nsocks b) nsec b = Done (ok, b1) ∧
    riot_inv b1 ss ∧ r_w b1 = r_w b ∧ r_k b1 = k' ∧
    (∀ sl, w_rx_ready FD_SETSIZE (nsocks b) sl b1 = Done ((Z.of_nat (length ready), rev ready ++ sl), b1)) ∧
    match r with
    | SysOk fds => (ok = true ↔ fds ≠ ∅) ∧ length ready = size fds ∧ ∀ s, fd_of b s = nfds → s ∉ ready
    | SysErr _ => ok = false
    end.
Proof.
  intros Hb Hn nfds Hsel ready. pose proof Hb as [H1 H2 H3 H4].
  assert (Hfds : ∀ s, s ∈ ss → ∃ fd, r_fd b !! s = Some fd ∧ 0 <= fd < VFS_MAX_OPEN_FILES).
  { intros s (fd & ? & ? & _)%H3. eauto. }
  set (fds' := match r with SysOk fds => fds | SysErr _ => list_to_set (fd_of b <$> ss) end : gset Z).
  set (n := match r with SysOk fds => Z.of_nat (size fds) | SysErr _ => -1 end).
  exists (0 <? n), (rset_fds (rset_k b k') fds' n). split.
  { unfold w_nic_rx. mstep (riot_foreach b ss Hb). pose proof (fill_fds_run b ss ∅ Hfds) as Ef.
    rewrite union_empty_r_L in Ef. mstep Ef.
    fold nfds. mstep (riotsys_run _ b _ _ Hsel). mstep. unfold fds', n. destruct r as [fds|e]; mstep; by mstep. }
  split.
  { split; [done|done| |done]. intros s (fd & ? & ? & ?)%H3. exists fd. by rewrite (gselect_open _ _ _ _ _ _ Hsel). }
  split; [done|]. split; [done|]. split.
  - intros sl. unfold w_rx_ready. set (b1 := rset_fds _ _ _).
    assert (E : liftl (sl_foreach (nsocks b) SOCKS) b1 = Done (ss, b1)).
    { rewrite (liftl_run _ b1 ss (r_socks b1)); [done|]. eapply sl_foreach_run; [exact H1|apply lookup_singleton_eq]. }
    mstep E. rewrite isset_loop_run; [|intros s Hs; split; [by apply H2|by apply Hfds]|lia|lia].
    assert (Er : filter (λ s, fd_of b1 s ∈ r_fds b1) ss = ready).
    { unfold ready, b1, fds'. cbn [r_fds rset_fds]. destruct r as [fds|e]; [done|].
      apply filter_all. intros s Hs. by apply elem_of_list_to_set, list_elem_of_fmap_2. }
    by rewrite Er, Z.add_0_l.
  - unfold n. destruct r as [fds|e]; [|done]. destruct (gselect_law _ _ _ _ _ _ Hsel) as [Hsub Hlt].
    split; [rewrite Z.ltb_lt; split; [intros Hsz ->; by rewrite size_empty in Hsz|intros Hne; destruct (size fds) eqn:Hsz; [by apply size_empty_inv, leibniz_equiv in Hsz|lia]]|].
    split; [|intros s Hs [Hs' _]%list_elem_of_filter; apply Hlt in Hs'; lia].
    assert (Hset : (list_to_set (fd_of b <$> ready) : gset Z) = fds).
    { apply set_eq. intros fd. rewrite elem_of_list_to_set, list_elem_of_fmap. unfold ready. split.
      - intros (s & -> & [? _]%list_elem_of_filter). done.
      - intros Hfd. pose proof (Hsub fd Hfd) as Hx. rewrite elem_of_list_to_set, list_elem_of_fmap in Hx.
        destruct Hx as (s & -> & Hs). exists s. split; [done|]. by apply list_elem_of_filter. }
    apply (f_equal size) in Hset. rewrite size_list_to_set, length_fmap in Hset; [done|].
    apply NoDup_fmap_2_strong; [|apply NoDup_filter; by eapply riot_nodup].
    intros s s' [_ Hs]%list_elem_of_filter [_ Hs']%list_elem_of_filter E.
    destruct (Hfds s Hs) as (fd & Hfd & _), (Hfds s' Hs') as (fd' & Hfd' & _). unfold fd_of in E. rewrite Hfd, Hfd' in E.
    cbn in E. subst. by eapply H4.
Qed.
End Ready.

(** ** Receiving *)

Section Receive.
Context (D : gset nat) (m : queues) (b : riot) (s h : nat) (sk : w_sock) (fd : Z) (xs : list nat).
Let w := r_w b.
Let cap := max_buf_len false w.
Hypothesis Hinv : eng_inv D m w.
Hypothesis Hio : io_bufs w.
Hypothesis Hsk : e_socks w !! s = Some sk.
Hypothesis Hfd : r_fd b !! s = Some fd.
Hypothesis Haf : af_ok (ws_af sk).
Hypothesis Hh : h ≠ IOVQ.
Hypothesis Hxs : m !! h = Some xs.

(** What is left in vector [i]. *)
Definition riot_received (r : sysres (sockaddr * bytes)) (old : w_iov) : w_iov :=
  let v := rx_iov w sk old in
  set_saddr (Engine.set_len v (recv_len r))
    (WSockaddr (snd (w_to_waddr (sa_addr (v_saddr old)) (recv_from ss0 r))) (sockaddr_port (recv_from ss0 r))).

Lemma get_sock_riot w' : e_socks w' = e_socks w → get_sock s w' = Done (sk, w').
Proof. intros E. apply get_sock_run. by rewrite E. Qed.

Lemma riot_rx_empty : m !! IOVQ = Some [] → w_rx ss0 s h b = Done (tt, b).
Proof.
  intros Hm. pose proof (w_alloc_iov_run false D m w (ws_af sk) 0 0 Hinv Haf) as Ha. rewrite Hm in Ha.
  unfold w_rx. mstep (liftr_run _ b _ _ (get_sock_riot w eq_refl)). unfold w. rewrite rset_w_id.
  mstep (liftr_run _ b _ _ Ha). unfold w. by rewrite rset_w_id.
Qed.

Context (i : nat) (free : list nat) (r : sysres (sockaddr * bytes)) (k' : gst).
Hypothesis Hm : m !! IOVQ = Some (i :: free).
Hypothesis Hr : g_recvfrom fd cap (r_k b) = (r, k').

(** Up to the test of the length. *)
Lemma riot_rx_start :
  ∃ q v buf, e_bufs w !! i = Some v ∧ e_mem w !! Z.of_nat i = Some buf ∧ nexts q !! i = Some None ∧
    is_bytes buf ∧ Z.of_nat (length buf) = cap ∧ v_base v = (Z.of_nat i, 0) ∧
    Z.of_nat (length (recv_data r)) <= cap ∧ is_bytes (recv_data r) ∧
    let v1 := Engine.set_len (rx_iov w sk v) (recv_len r) in
    let w1 := io w q (<[i := v1]> (e_bufs w)) (<[Z.of_nat i := stn buf 0 (recv_data r)]> (e_mem w)) in
    eng_inv D (<[IOVQ := free]> m) w1 ∧
    w_rx ss0 s h b = (if 0 <? recv_len r then
        v ← liftr (get_iov i);
        let sa := recv_from ss0 r in
        liftr (put_iov i (set_saddr v (WSockaddr (snd (w_to_waddr (sa_addr (v_saddr v)) sa)) (sockaddr_port sa)))) ;;
        liftr (liftq (sq_insert_tail h i))
      else liftr (w_free_iov i)) (rset_k (rset_w b w1) k').
Proof.
  pose proof (w_alloc_iov_run false D m w (ws_af sk) 0 0 Hinv Haf) as Ha. rewrite Hm in Ha.
  destruct Ha as (q & v & E & Hv & Hn & Hinv1). change (fresh_iov false w v (ws_af sk) 0 0) with (rx_iov w sk v) in *.
  destruct (Hio i v Hv) as (Hbase & buf & Hbuf & Hby & Hlen). destruct (rx_iov_buf w sk v i Hbase) as [Eb El].
  assert (Hdata : Z.of_nat (length (recv_data r)) <= cap ∧ is_bytes (recv_data r)).
  { destruct r as [[sa data]|e]; [|split; [apply u16_range|constructor]].
    by apply (grecvfrom_law fd cap (r_k b) sa data k'); [apply u16_range|]. }
  destruct Hdata as [Hd1 Hd2]. exists q, v, buf. do 8 (split; [done|]).
  set (w0 := set_iovs w q (<[i := rx_iov w sk v]> (e_bufs w))) in *. split.
  { pose proof (queue_elem D m w IOVQ (i :: free) i Hinv Hm ltac:(by left)) as HiD.
    pose proof (eng_inv_put D _ w0 i (Engine.set_len (rx_iov w sk v) (recv_len r)) Hinv1 HiD) as [I1 I2 I3].
    split; [exact I1| |exact I3]. cbn in I2 |- *. by rewrite insert_insert_eq in I2. }
  unfold w_rx. mstep (liftr_run _ b _ _ (get_sock_riot w eq_refl)). unfold w at 1. rewrite rset_w_id.
  mstep (liftr_run _ b _ _ E). fold w0.
  mstep (liftr_run _ (rset_w b w0) _ _ (get_iov_run i (rx_iov w sk v) w0 (lookup_insert_eq _ _ _))).
  mstep (sock_fd_run (rset_w b w0) s fd Hfd). rewrite El. fold cap.
  mstep (riotsys_run _ (rset_w b w0) _ _ Hr). rewrite Eb.
  assert (Es : stm (Z.of_nat i, 0) (recv_data r) w0 = Done (tt, set_mem w0 (<[Z.of_nat i := stn buf 0 (recv_data r)]> (e_mem w)))).
  { unfold stm, in_buf. change (e_mem w0) with (e_mem w). cbn [fst snd]. rewrite Hbuf.
    rewrite (proj2 (Z.leb_le (0 + _) _)) by (fold cap in Hlen; lia). done. }
  mstep (liftr_run _ (rset_k (rset_w b w0) k') _ _ Es).
  erewrite bind_run; [|apply liftr_run; reflexivity]. cbv beta iota. cbn [rset_w rset_k r_w].
  unfold io, w0. cbn [set_iovs set_mem e_bufs]. by rewrite insert_insert_eq.
Qed.

(** The engine after [data] was read into vector [i], which is now [v2]. *)
Definition rx_read (data : bytes) (v2 : w_iov) (buf : bytes) (q2 : qheap) : engine :=
  io w q2 (<[i := v2]> (e_bufs w)) (<[Z.of_nat i := stn buf 0 data]> (e_mem w)).

Lemma rx_read_other data v2 buf q2 : let w' := rx_read data v2 buf q2 in
  e_socks w' = e_socks w ∧ (∀ j, j ≠ i → e_bufs w' !! j = e_bufs w !! j) ∧ (∀ z, z ≠ Z.of_nat i → e_mem w' !! z = e_mem w !! z).
Proof. split; [done|]. split; intros; cbn; by rewrite lookup_insert_ne. Qed.

(** What was received is put at the end of the queue. *)
Lemma riot_rx_queued : 0 < recv_len r →
  ∃ q2 v buf, e_bufs w !! i = Some v ∧ is_bytes buf ∧ Z.of_nat (length buf) = cap ∧ v_base v = (Z.of_nat i, 0) ∧
    e_mem w !! Z.of_nat i = Some buf ∧ Z.of_nat (length (recv_data r)) <= cap ∧ is_bytes (recv_data r) ∧
    let w' := rx_read (recv_data r) (riot_received r v) buf q2 in
    w_rx ss0 s h b = Done (tt, rset_k (rset_w b w') k') ∧ eng_inv D (<[h := xs ++ [i]]> (<[IOVQ := free]> m)) w'.
Proof.
  destruct riot_rx_start as (q & v & buf & Hv & Hbuf & Hn & Hby & Hlen & Hbase & Hd1 & Hd2 & Hinv1 & E).
  set (v1 := Engine.set_len (rx_iov w sk v) (recv_len r)) in *. set (w1 := io w q _ _) in *. cbv zeta in E.
  pose proof (head_unqueued D m w IOVQ i free Hinv Hm) as Hu.
  assert (Hxs' : (<[IOVQ := free]> m) !! h = Some xs) by by rewrite lookup_insert_ne.
  intros Hp. rewrite (proj2 (Z.ltb_lt _ _) Hp) in E. set (v2 := riot_received r v).
  pose proof (eng_inv_put D _ w1 i v2 Hinv1 (proj1 Hu)) as Hinv2.
  assert (Hinv2' : eng_inv D (<[IOVQ := free]> m) (io w q (<[i := v2]> (e_bufs w)) (<[Z.of_nat i := stn buf 0 (recv_data r)]> (e_mem w)))).
  { destruct Hinv2 as [I1 I2 I3]. split; [exact I1| |exact I3]. cbn in I2 |- *. by rewrite insert_insert_eq in I2. }
  destruct (io_insert_tail D w _ _ _ q h xs i Hinv2' Hxs' Hu Hh) as (q2 & E2 & Hinv3 & _).
  exists q2, v, buf. do 7 (split; [done|]). split; [|exact Hinv3]. rewrite E.
  mstep (liftr_run _ (rset_k (rset_w b w1) k') _ _ (get_iov_run i v1 w1 (lookup_insert_eq _ _ _))).
  erewrite bind_run; [|apply liftr_run; reflexivity]. cbv beta iota. cbn [rset_w rset_k r_w].
  apply (liftr_run _ (rset_k (rset_w b _) k')). cbn [r_w rset_k rset_w]. unfold rx_read. fold v2. rewrite <- E2. unfold w1, io. cbn [set_iovs set_mem e_bufs].
  by rewrite insert_insert_eq.
Qed.

(** The other buffers are those of before. *)
Lemma rx_read_io data v2 buf q2 : v_base v2 = (Z.of_nat i, 0) → is_bytes buf → Z.of_nat (length buf) = cap →
  Z.of_nat (length data) <= cap → is_bytes data → io_bufs (rx_read data v2 buf q2).
Proof.
  intros Hbase Hby Hlen Hd1 Hd2 j v' Hj. cbn in Hj. apply lookup_insert_Some in Hj. destruct Hj as [[<- <-]|[Hne Hj]].
  - split; [exact Hbase|]. eexists. split; [apply lookup_insert_eq|].
    split; [by apply stn_is_bytes|]. rewrite length_stn; [done|]. rewrite <- Hlen in Hd1. lia.
  - destruct (Hio j v' Hj) as (B1 & b0 & B2 & B3 & B4). split; [done|]. exists b0. split; [|done].
    cbn. rewrite lookup_insert_ne; [done|]. lia.
Qed.

(** C37: W_rx of the RIOT backend puts a received datagram with payload and sender at the end of
    the queue, gives the vector back when it is empty, and after a failed recvfrom delivers a
    vector of length 65535 with an indeterminate sender. *)
Theorem riot_w_rx_correct :
  ∃ w' v, w_rx ss0 s h b = Done (tt, rset_k (rset_w b w') k') ∧ e_bufs w !! i = Some v ∧ e_socks w' = e_socks w ∧
    (∀ j, j ≠ i → e_bufs w' !! j = e_bufs w !! j) ∧ (∀ z, z ≠ Z.of_nat i → e_mem w' !! z = e_mem w !! z) ∧
    match r with
    | SysOk (_, []) => eng_inv D m w'
    | SysOk (sa, data) => eng_inv D (<[h := xs ++ [i]]> (<[IOVQ := free]> m)) w' ∧ io_bufs w' ∧
        e_bufs w' !! i = Some (riot_received r v) ∧ v_len (riot_received r v) = Z.of_nat (length data) ∧
        ∃ buf, e_mem w' !! Z.of_nat i = Some buf ∧ ldn buf 0 (length data) = data
    | SysErr _ => eng_inv D (<[h := xs ++ [i]]> (<[IOVQ := free]> m)) w' ∧ e_mem w' = e_mem w ∧
        e_bufs w' !! i = Some (riot_received r v) ∧ v_len (riot_received r v) = 65535
    end.
Proof.
  pose proof riot_rx_start as Hst. pose proof riot_rx_queued as Hqu. destruct r as [[sa [|x data]]|e].
  - destruct Hst as (q & v & buf & Hv & Hbuf & Hn & _ & _ & _ & _ & _ & Hinv1 & E).
    change (0 <? recv_len _) with false in E. pose proof (head_unqueued D m w IOVQ i free Hinv Hm) as Hu.
    destruct (io_free_iov D w _ _ _ q free i Hinv1 ltac:(apply lookup_insert_eq) Hu Hn) as (q2 & E2 & Hinv2 & _).
    eexists _, v. split; [rewrite E; exact (liftr_run _ (rset_k (rset_w b _) k') _ _ E2)|]. split; [done|].
    destruct (rx_read_other [] (Engine.set_len (rx_iov w sk v) 0) buf q2) as (H1 & H2 & H3). do 3 (split; [done|]).
    by rewrite insert_insert_eq, insert_id in Hinv2.
  - assert (El : Z.of_nat (length (x :: data)) <= cap → recv_len (SysOk (sa, x :: data)) = Z.of_nat (length (x :: data))).
    { intros Hd. apply u16_id. pose proof (cap_range w) as Hc. unfold is_u16 in Hc |- *.
      change (max_buf_len false w) with cap in Hc. lia. }
    destruct Hst as (_ & _ & _ & _ & _ & _ & _ & _ & _ & Hd & _ & _). specialize (El Hd).
    destruct Hqu as (q2 & v & buf & Hv & Hby & Hlen & Hbase & Hbuf & _ & Hd2 & E2 & Hinv2); [rewrite El; cbn; lia|].
    eexists _, v. split; [exact E2|]. split; [done|].
    destruct (rx_read_other (x :: data) (riot_received (SysOk (sa, x :: data)) v) buf q2) as (H1 & H2 & H3). do 3 (split; [done|]).
    split; [done|]. split; [by apply rx_read_io|]. split; [apply lookup_insert_eq|]. split; [exact El|].
    eexists. split; [apply lookup_insert_eq|]. apply ldn_stn_eq. cbn [recv_data] in *. lia.
  - destruct Hqu as (q2 & v & buf & Hv & _ & _ & _ & Hbuf & _ & _ & E2 & Hinv2); [vm_compute; done|].
    eexists _, v. split; [exact E2|]. split; [done|].
    destruct (rx_read_other [] (riot_received (SysErr e) v) buf q2) as (H1 & H2 & H3). do 3 (split; [done|]).
    split; [done|]. split; [|split; [apply lookup_insert_eq|done]].
    cbn. unfold stn. cbn. rewrite drop_0. by apply insert_id.
Qed.
End Receive.

(** ** Binding and closing *)

Lemma riot_inv_frame b b' ss :
  riot_inv b ss → dom (e_socks (r_w b')) = dom (e_socks (r_w b)) → r_socks b' = r_socks b →
  (∀ s, s ∈ ss → r_fd b' !! s = r_fd b !! s) → (∀ fd, g_open (r_k b) fd → g_open (r_k b') fd) → riot_inv b' ss.
Proof.
  intros [H1 H2 H3 H4] Hd Hl Hf Hk. split.
  - by rewrite Hd, Hl.
  - intros s. by rewrite H2, <- !elem_of_dom, Hd.
  - intros s Hs. destruct (H3 s Hs) as (fd & ? & ? & ?). exists fd. rewrite Hf by done. auto.
  - intros s s' fd Hs Hs'. rewrite !Hf by done. by apply H4.
Qed.

Section Bind.
Context (b : riot) (ss : list nat) (idx port : Z) (opt : option w_sockopt) (ia : w_ifaddr).
Let w := r_w b.
Hypothesis Hb : riot_inv b ss.
Hypothesis Hidx : 0 <= idx.
Hypothesis Hia : ifaddr (e_conf w) !! Z.to_nat idx = Some ia.

Let s := fresh (dom (e_socks w)).
Let h := fresh (dom (heads (e_q w))).
Let sk := new_sock h (WSockaddr (ia_addr ia) port) (ia_scope_id ia) None.
Let l1 := SlHeap (slh_first (r_socks b)) (<[s := None]> (sle_next (r_socks b))).
(** The new socket before it is bound. *)
Let b1 := rset_socks (rset_w b (with_sock w h s sk (e_sock w))) l1.

Lemma s_new : e_socks w !! s = None ∧ s ∉ ss ∧ heads (e_q w) !! h = None.
Proof.
  assert (Hn : e_socks w !! s = None) by apply not_elem_of_dom, is_fresh. split; [done|].
  split; [|apply not_elem_of_dom, is_fresh]. intros Hs%(ri_all _ _ Hb). fold w in Hs. rewrite Hn in Hs. by destruct Hs.
Qed.

Lemma riot_bind_start :
  w_bind ss0 true idx port opt b =
    (e ← backend_bind ss0 s opt;
     if negb (e =? 0) then liftr (free_sock s) ;; del_link s ;; mret None else mret (Some s)) b1.
Proof.
  set (sk0 := WSock (WSocktuple zero_sockaddr zero_sockaddr 0) ETH_ADDR_NONE (WSockopt false false) h).
  assert (Ea : liftr (alloc_sock true) b = Done (Some s, rset_w b (with_sock w h s sk0 (e_sock w)))) by done.
  unfold w_bind. mstep Ea. mstep. mstep.
  set (b0 := rset_socks (rset_w b (with_sock w h s sk0 (e_sock w))) l1).
  change (rset_socks (rset_w b _) _) with b0.
  assert (Er : lift (S := riot) (rd (ifaddr (e_conf (r_w b0))) idx) b0 = Done (ia, b0)) by apply lift_run, (rd_Z _ _ ia Hidx Hia).
  mstep Er. mstep (liftr_run _ b0 _ _ (with_sock_get w h s sk0 (e_sock w))).
  mstep (liftr_run _ (rset_w b0 _) _ _ (with_sock_put w h s sk0 (e_sock w) sk)).
  by mstep (liftr_run _ (rset_w (rset_w b0 _) _) _ _ (with_sock_init w h s sk (e_sock w))).
Qed.

(** A socket that could not be bound is freed. *)
Lemma riot_bind_fail fd k : (liftr (free_sock s) ;; del_link s ;; mret (M := M riot) None)
    (rset_k (RiotBackend (r_w b1) l1 (<[s := fd]> (r_fd b)) (r_fds b) (r_n b)  (r_k b)) k) =
  Done (@None nat, rset_socks (RiotBackend w (r_socks b) (<[s := fd]> (r_fd b)) (r_fds b) (r_n b) k)
    (SlHeap (slh_first (r_socks b)) (delete s (sle_next l1)))).
Proof.
  destruct s_new as (Hs & _ & Hh).
  mstep (liftr_run _ (rset_k (RiotBackend (r_w b1) l1 (<[s := fd]> (r_fd b)) (r_fds b) (r_n b) (r_k b)) k) _ _
    (free_with_sock w h s sk Hh Hs eq_refl)). mstep. done.
Qed.

Lemma riot_link_restored : delete s (sle_next l1) = sle_next (r_socks b).
Proof.
  cbn. apply delete_insert_id. destruct (ri_list _ _ Hb) as (q & [Q1 _ _] & [E1 _]). rewrite E1.
  apply not_elem_of_dom. rewrite Q1. apply is_fresh.
Qed.

(** W_bind of the RIOT backend keeps the list of sockets consistent on every path: on
    success it adds the socket with an open descriptor of its own, on an error it restores the
    engine; when bind() fails the descriptor stays open with no socket for it. *)
Theorem riot_w_bind_correct :
  match g_socket (r_k b) with
  | (SysErr _, k1) => ∃ b', w_bind ss0 true idx port opt b = Done (None, b') ∧ r_w b' = w ∧ r_k b' = k1 ∧ riot_inv b' ss
  | (SysOk fd, k1) =>
      match g_bind fd (to_sockaddr ss0 (ia_addr ia) port (ia_scope_id ia)) (sa_len (af (ia_addr ia))) k1 with
      | (SysErr _, k2) => ∃ b', w_bind ss0 true idx port opt b = Done (None, b') ∧ r_w b' = w ∧ r_k b' = k2 ∧
          riot_inv b' ss ∧ g_open k2 fd ∧ ∀ s', s' ∈ ss → r_fd b' !! s' ≠ Some fd
      | (SysOk _, k2) => ∃ b', w_bind ss0 true idx port opt b = Done (Some s, b') ∧ r_k b' = k2 ∧
          riot_inv b' (s :: ss) ∧ r_fd b' !! s = Some fd ∧ r_w b' = with_sock w h s sk (e_sock w)
      end
  end.
Proof.
  destruct s_new as (Hs & Hss & Hh). rewrite riot_bind_start.
  assert (Hfds : ∀ fd s', s' ∈ ss → <[s := fd]> (r_fd b) !! s' = r_fd b !! s').
  { intros fd s' Hs'. rewrite lookup_insert_ne; [done|]. by intros ->. }
  destruct (g_socket (r_k b)) as [r k1] eqn:Ek. unfold backend_bind. rewrite bind_assoc_run.
  mstep (riotsys_run _ b1 _ _ Ek). destruct r as [fd|e].
  - destruct (gsocket_law _ _ _ Ek) as (Hrange & Hnew & Hopen). rewrite bind_assoc_run. mstep. rewrite bind_assoc_run.
    set (b2 := RiotBackend (r_w b1) l1 (<[s := fd]> (r_fd b)) (r_fds b) (r_n b) k1).
    change (RiotBackend _ _ _ _ _ _) with b2.
    mstep (liftr_run _ b2 _ _ (with_sock_get w h s sk (e_sock w))). rewrite bind_assoc_run.
    change (rset_w b2 _) with b2.
    change (to_sockaddr ss0 (ia_addr ia) port (ia_scope_id ia)) with
      (to_sockaddr ss0 (sa_addr (ws_loc sk)) (ws_lport sk) (scope_id (s_tup sk))).
    change (af (ia_addr ia)) with (ws_af sk).
    destruct (g_bind fd _ _ k1) as [r k2] eqn:Eb. destruct (gbind_law _ _ _ _ _ _ Eb) as [He Hsame].
    mstep (riotsys_run _ b2 _ _ Eb). destruct r as [[]|e].
    + rewrite bind_assoc_run. destruct (sl_inv_add _ _ _ s (ri_list _ _ Hb)) as [Hl Hu]; [by apply not_elem_of_dom|].
      destruct (sl_step_refines _ _ _ (SlInsertHead SOCKS s) _ Hl (SpInsertHead _ _ SOCKS s ss (lookup_singleton_eq _ _) Hu))
        as (l2 & E2 & Hl2). cbn [exec_sl] in E2.
      mstep (liftl_run _ (rset_k b2 k2) _ _ E2). mstep. cbn [negb Z.eqb].
      eexists. split; [reflexivity|]. split; [done|]. split; [|by split; [apply lookup_insert_eq|]].
      assert (Hfd' : ∀ s', s' ∈ ss → r_fd b !! s' ≠ Some fd).
      { intros s' Hs' E. destruct (ri_fd _ _ Hb s' Hs') as (fd' & E' & _ & Ho). rewrite E in E'. injection E' as <-. done. }
      split; cbn [r_w r_socks r_fd r_k rset_k rset_socks b2 b1 rset_w with_sock set_socks e_socks].
      * by rewrite dom_insert_L, <- (insert_singleton_eq SOCKS (s :: ss) ss).
      * intros s'. rewrite elem_of_cons, lookup_insert_is_Some, (ri_all _ _ Hb). destruct (decide (s = s')); naive_solver.
      * intros s' [->|Hs']%elem_of_cons.
        -- exists fd. rewrite lookup_insert_eq, Hsame, Hopen. auto.
        -- destruct (ri_fd _ _ Hb s' Hs') as (fd' & E' & Hr' & Ho). exists fd'. rewrite Hfds, Hsame, Hopen by done. auto.
      * intros s1 s2 fd' [->|H1]%elem_of_cons [->|H2]%elem_of_cons; rewrite ?lookup_insert_eq, ?Hfds by done; [done| | |by eapply ri_inj].
        -- intros [= <-] E. by destruct (Hfd' s2 H2).
        -- intros E [= <-]. by destruct (Hfd' s1 H1).
    + mstep. rewrite (proj2 (Z.eqb_neq e 0)) by by apply He. cbn [negb].
      eexists. split; [exact (riot_bind_fail fd k2)|]. split; [done|]. split; [done|]. cbn [r_k r_fd rset_socks].
      rewrite riot_link_restored. split; [|split; [rewrite Hsame, Hopen; auto|]].
      * eapply riot_inv_frame; [exact Hb|done| | |]; cbn.
        -- by destruct (r_socks b).
        -- by apply Hfds.
        -- intros fd' Ho. rewrite Hsame, Hopen. auto.
      * intros s' Hs'. rewrite Hfds by done. intros E. destruct (ri_fd _ _ Hb s' Hs') as (fd' & E' & _ & Ho).
        rewrite E in E'. injection E' as <-. done.
  - destruct (gsocket_err _ _ _ Ek) as [He Hsame]. rewrite bind_assoc_run. mstep. mstep.
    rewrite (proj2 (Z.eqb_neq e 0)) by done. cbn [negb].
    eexists. split; [exact (riot_bind_fail (-1) k1)|]. split; [done|]. split; [done|].
    rewrite riot_link_restored. eapply riot_inv_frame; [exact Hb|done| | |]; cbn.
    + by destruct (r_socks b).
    + by apply Hfds.
    + intros fd' Ho. by apply Hsame.
Qed.
End Bind.

(** Closing takes the socket out of the list and frees it. *)
Lemma riot_w_close_run b l1 l2 s sk fd :
  riot_inv b (l1 ++ s :: l2) → e_socks (r_w b) !! s = Some sk → r_fd b !! s = Some fd →
  ∃ b', w_close (nsocks b) s b = Done (tt, b') ∧ riot_inv b' (l1 ++ l2) ∧ r_k b' = g_close fd (r_k b) ∧
    r_w b' = without_sock (r_w b) s sk (e_sock (r_w b)) ∧ sle_next (r_socks b') !! s = None.
Proof.
  intros Hb Hsk Hfd. pose proof (riot_nodup _ _ Hb) as Hnd.
  assert (Hni : s ∉ l1 ++ l2) by (rewrite <- Permutation_middle in Hnd; by apply NoDup_cons in Hnd as [? _]).
  destruct (sl_step_refines _ _ _ (SlRemove SOCKS s) _ (ri_list _ _ Hb)
    (SpRemove _ _ SOCKS s l1 l2 (lookup_singleton_eq _ _))) as (sl & E & Hl). cbn [exec_sl] in E.
  rewrite insert_singleton_eq in Hl.
  assert (Hu : unqueued (dom (e_socks (r_w b))) {[SOCKS := l1 ++ l2]} s).
  { split; [apply elem_of_dom; eauto|]. by intros h xs [<- <-]%lookup_singleton_Some. }
  unfold w_close, backend_close. rewrite bind_assoc_run. mstep (sock_fd_run b s fd Hfd). rewrite bind_assoc_run. mstep.
  mstep (liftl_run _ (rset_k b (g_close fd (r_k b))) _ _ E).
  erewrite bind_run; [|apply liftr_run; unfold free_sock; mstep (get_sock_run s sk (r_w b) Hsk); mstep; reflexivity].
  eexists. split; [reflexivity|]. split; [|split; [done|split; [done|apply lookup_delete_eq]]].
  destruct Hb as [H1 H2 H3 H4].
  assert (Hsub : ∀ s', s' ∈ l1 ++ l2 → s' ∈ l1 ++ s :: l2 ∧ s' ≠ s).
  { intros s' Hs'. split; [|by intros ->]. revert Hs'. rewrite !elem_of_app, elem_of_cons. tauto. }
  split; cbn.
  - rewrite dom_delete_L. by apply sl_inv_del.
  - intros s'. rewrite lookup_delete_is_Some, <- H2, !elem_of_app, elem_of_cons. 
    rewrite elem_of_app in Hni. naive_solver.
  - intros s' Hs'. destruct (Hsub s' Hs') as [Hin Hne]. destruct (H3 s' Hin) as (fd' & E' & Hr & Ho). exists fd'.
    split; [done|]. split; [done|]. rewrite gclose_law. split; [done|]. intros ->. apply Hne.
    apply (H4 s' s fd); [done| |done|done]. rewrite elem_of_app, elem_of_cons. auto.
  - intros s1 s2 fd' Hs1 Hs2. apply H4; by apply Hsub.
Qed.

(** C31: Backend_cleanup of the RIOT backend frees the buffers when no socket is open, and reads
    the link of a freed socket otherwise. *)
Theorem riot_backend_cleanup_correct b ss :
  riot_inv b ss →
  backend_cleanup (nsocks b) b =
    match ss with
    | [] => Done (tt, rset_w b (set_iovs (set_mem (r_w b) ∅) (e_q (r_w b)) ∅))
    | _ => Fault
    end.
Proof.
  intros Hb. unfold backend_cleanup.
  mstep (liftl_run _ b _ _ (sl_first_run _ _ _ SOCKS ss (ri_list _ _ Hb) (lookup_singleton_eq _ _))). rewrite rset_socks_id.
  destruct ss as [|s ss]; [unfold cleanup_loop; destruct (nsocks b); by mstep; mstep|]. cbn [head].
  destruct (proj1 (ri_all _ _ Hb s) ltac:(by left)) as [sk Hsk].
  destruct (ri_fd _ _ Hb s ltac:(by left)) as (fd & Hfd & _).
  destruct (riot_w_close_run b [] ss s sk fd Hb Hsk Hfd) as (b' & E & _ & _ & _ & Hnone).
  assert (Hn : nsocks b ≠ 0%nat).
  { unfold nsocks. intros E0%size_empty_inv%leibniz_equiv. assert (Hin : s ∈ dom (e_socks (r_w b))) by (apply elem_of_dom; eauto).
    by rewrite E0 in Hin. }
  destruct (nsocks b) as [|n]; [done|]. cbn [cleanup_loop]. rewrite bind_assoc_run. mstep E.
  unfold mbind, M_bind, liftl, sl_next. by rewrite Hnone.
Qed.

(** ** Sending *)

Section Send.
Context (b : riot) (sk : w_sock) (fd : Z).
Let w := r_w b.

(** Where vector [i] goes, and the calls for the vectors [l] in order. *)
Definition riot_dest (i : nat) : option (sockaddr * Z) :=
  if w_connected sk then None
  else Some (match e_bufs w !! i with
             | Some v => to_sockaddr ss0 (sa_addr (v_saddr v)) (sa_port (v_saddr v)) (scope_id (s_tup sk))
             | None => ss0 end, sa_len (ws_af sk)).
Definition riot_sends (l : list nat) (k : gst) : gst :=
  foldl (λ k i, snd (g_sendto fd (iov_data (e_bufs w) (e_mem w) i) (riot_dest i) k)) k l.

Lemma riot_tx_loop_run l : ∀ k fuel,
  chain (nexts (e_q w)) l None → (∀ i, i ∈ l → sendable (e_mem w) (e_bufs w) i) → (length l <= fuel)%nat →
  tx_loop ss0 fuel sk fd (head l) (rset_k b k) = Done (tt, rset_k b (riot_sends l k)).
Proof.
  induction l as [|i l IH]; intros k fuel Hc Hs Hf; [by destruct fuel|].
  destruct fuel as [|fuel]; [cbn in Hf; lia|]. destruct Hc as [Hn Hc].
  destruct (Hs i ltac:(by left)) as (v & buf & Hv & Hbuf & H1 & H2 & H3). cbn [head tx_loop].
  assert (Ew : ∀ k, rset_w (rset_k b k) w = rset_k b k) by done.
  mstep (liftr_run _ (rset_k b k) _ _ (get_iov_run i v w Hv)). rewrite Ew.
  assert (El : ldm (v_buf v) (Z.to_nat (v_len v)) w = Done (iov_data (e_bufs w) (e_mem w) i, w)).
  { unfold iov_data. rewrite Hv. unfold ldm, in_buf. rewrite Hbuf. by rewrite (proj2 (Z.leb_le _ _)), (proj2 (Z.leb_le _ _)) by lia. }
  mstep (liftr_run _ (rset_k b k) _ _ El). rewrite Ew.
  assert (Ed : (if w_connected sk then None
     else Some (to_sockaddr ss0 (sa_addr (v_saddr v)) (sa_port (v_saddr v)) (scope_id (s_tup sk)), sa_len (ws_af sk))) = riot_dest i).
  { unfold riot_dest. by rewrite Hv. }
  rewrite Ed. destruct (g_sendto fd (iov_data (e_bufs w) (e_mem w) i) (riot_dest i) k) as [r k1] eqn:Ek.
  mstep (riotsys_run _ (rset_k b k) _ _ Ek).
  mstep (liftr_run _ (rset_k b k1) _ _ (liftq_next w i (hd_or None l) Hn)). rewrite Ew.
  assert (Hhd : hd_or None l = head l) by by destruct l. rewrite Hhd.
  rewrite (IH k1 fuel) by (done || (intros; apply Hs; by right) || (cbn in Hf; lia)).
  unfold riot_sends. cbn [foldl]. by rewrite Ek.
Qed.
End Send.

(** W_tx of the RIOT backend sends the payload of every vector once, in order, to the peer
    or to the address of the vector, and changes nothing. *)
Theorem riot_w_tx_correct D m b s o sk fd xs :
  eng_inv D m (r_w b) → m !! o = Some xs → e_socks (r_w b) !! s = Some sk → r_fd b !! s = Some fd →
  (∀ i, i ∈ xs → sendable (e_mem (r_w b)) (e_bufs (r_w b)) i) →
  w_tx ss0 (length xs) s o b = Done (tt, rset_k b (riot_sends b sk fd xs (r_k b))).
Proof.
  intros Hinv Hm Hsk Hfd Hs. destruct (inv_repr D _ m (ei_q _ _ _ Hinv) o xs Hm) as [_ Hc _].
  unfold w_tx. mstep (liftr_run _ b _ _ (get_sock_run s sk _ Hsk)). rewrite rset_w_id. mstep (sock_fd_run b s fd Hfd).
  mstep (liftr_run _ b _ _ (liftq_first D m _ o xs Hinv Hm)). rewrite rset_w_id.
  rewrite <- (riot_tx_loop_run b sk fd xs (r_k b) (length xs) Hc Hs) by done. by destruct b.
Qed.

(** ** The engine *)

Lemma addr_cnt_find ifaces : backend_addr_cnt ifaces = 1 → is_Some (find_nif ifaces).
Proof.
  induction ifaces as [|i l IH]; [done|]. cbn. destruct (nif_link i) as [[]|], (nif_addrs i) as [[|]|]; eauto.
Qed.

(** Backend_init of the RIOT backend configures the first interface with an address, whether
    its link is up or not, and puts every vector with a zeroed buffer into the free list; it
    gives up on an address that is not link-local. *)
Theorem riot_backend_init_correct ifaces nbufs w nif addr ia :
  heads (e_q w) = {[IOVQ := SqHead None (LHead IOVQ) 0]} → 0 <= nbufs →
  find_nif ifaces = Some (nif, addr) → is_bytes addr → length addr = 16%nat →
  ifaddr (e_conf w) !! 0%nat = Some ia → length (un (ia_addr ia)) = 16%nat →
  let n := Z.to_nat nbufs in
  if ipv6_addr_is_link_local addr then
    ∃ w' ia', backend_init ifaces nbufs true true w = Done ((nif_name nif, UINT32_MAX), w') ∧
      eng_inv (list_to_set (seq 0 n)) {[IOVQ := rev (seq 0 n)]} w' ∧ io_bufs w' ∧
      (∀ i, (i < n)%nat → e_bufs w' !! i = Some (buffer_iov false w' (Z.of_nat i)) ∧
        e_mem w' !! Z.of_nat i = Some (repeat 0 (Z.to_nat (max_buf_len false w')))) ∧
      mtu (e_conf w') = nif_mtu nif ∧ mac (e_conf w') = take 6 (nif_l2addr nif) ∧ have_ip6 (e_conf w') = true ∧
      ifaddr (e_conf w') !! 0%nat = Some ia' ∧ ia_addr ia' = WAddr AF_INET6 addr ∧ ia_prefix ia' = 64 ∧
      ia_scope_id ia' = nif_id nif
  else backend_init ifaces nbufs true true w = Died.
Proof.
  intros Hh Hn Hf Hab Hal Hia Hun n. unfold backend_init.
  assert (E1 : ensure_some (find_nif ifaces) = Done (nif, addr)) by by rewrite Hf.
  assert (E0 : rd (ifaddr (e_conf w)) 0 = Done ia) by by apply (rd_Z _ 0).
  assert (Est : stn (un (ia_addr ia)) 0 (take IP6_LEN addr) = addr).
  { rewrite take_ge by (unfold IP6_LEN; lia). unfold stn. cbn. rewrite Hal, drop_ge by lia. apply app_nil_r. }
  destruct (ipv6_addr_is_link_local addr) eqn:Ell.
  - mstep (lift_run _ _ w E1). mstep. mstep (lift_run _ _ w E0). rewrite Est.
    set (ia1 := WIfaddr (WAddr AF_INET6 addr) (ia_bcast ia) (ia_snma ia) (nif_id nif) (ia_prefix ia)).
    assert (E2 : ∃ ia', ip6_config ia1 mask64 = Done ia' ∧ ia_addr ia' = WAddr AF_INET6 addr ∧ ia_prefix ia' = 64 ∧ ia_scope_id ia' = nif_id nif).
    { eexists. split; [reflexivity|done]. }
    destruct E2 as (ia' & E2 & Ea & Ep & Esc). rewrite Ell.
    mstep (lift_run _ _ w E2).
    assert (E3 : wr (ifaddr (e_conf w)) 0 ia' = Done (<[0%nat := ia']> (ifaddr (e_conf w)))).
    { apply (wr_lt _ 0). by eapply lookup_lt_Some. }
    mstep (lift_run _ _ w E3). mstep. fold n.
    set (w1 := set_conf w _). destruct (alloc_bufs_run (nif_name nif, UINT32_MAX) n w1 Hh) as (w' & E & Hinv & Hio & Hc & Hb).
    exists w', ia'. split; [exact E|]. split; [exact Hinv|]. split; [exact Hio|]. split; [exact Hb|]. rewrite Hc.
    split; [done|]. split; [done|]. split; [done|]. split; [|done]. cbn. apply list_lookup_insert_eq. by eapply lookup_lt_Some.
  - mstep (lift_run _ _ w E1). mstep. mstep (lift_run _ _ w E0). by rewrite Ell.
Qed.
End Theorems.

(** ** Witnesses *)

(** A network stack with the open descriptors, whether [bind] and [select] work, the
    datagrams received, the readable descriptors, and what it was given to send. *)
Record gex := Gex {
  gx_fds : list Z;
  gx_ok : bool;
  gx_in : list (sockaddr * bytes);
  gx_ready : gset Z;
  gx_out : list bytes
}.

#[local] Instance gnrc_ex : Gnrc := {|
  gst := gex;
  g_socket k := let fd := foldr Z.max 0 (gx_fds k) + 1 in
    if fd <? 16 then (SysOk fd, Gex (fd :: gx_fds k) (gx_ok k) (gx_in k) (gx_ready k) (gx_out k)) else (SysErr 24, k);
  g_bind fd sa n k := (if gx_ok k then SysOk tt else SysErr 98, k);
  g_connect fd sa n k := (SysOk tt, k);
  g_getsockname fd k := (SysOk (SockaddrIn6 0x5000 0 (repeat 0 16) 0), k);
  g_close fd k := Gex (filter (λ x, x ≠ fd) (gx_fds k)) (gx_ok k) (gx_in k) (gx_ready k) (gx_out k);
  g_recvfrom fd cap k :=
    match gx_in k with
    | [] => (SysErr 11, k)
    | (sa, data) :: l => (SysOk (sa, u8 <$> take (Z.to_nat cap) data), Gex (gx_fds k) (gx_ok k) l (gx_ready k) (gx_out k))
    end;
  g_sendto fd data dst k := (SysOk (Z.of_nat (length data)), Gex (gx_fds k) (gx_ok k) (gx_in k) (gx_ready k) (gx_out k ++ [data]));
  g_select n fds to k := (if gx_ok k then SysOk (filter (λ fd, fd < n ∧ fd ∈ gx_ready k) fds) else SysErr 4, k);
  ipv6_addr_is_link_local a := (ld8 a 0 =? 0xfe) && (Z.land (ld8 a 1) 0xc0 =? 0x80);
  g_open k fd := fd ∈ gx_fds k
|}.

#[local] Instance gnrc_ex_laws : @GnrcLaws gnrc_ex 16.
Proof.
  assert (Hpos : ∀ l, 0 <= foldr Z.max 0 l) by (induction l; cbn; lia).
  split.
  - intros k fd k'. cbn -[Z.add]. pose proof (Hpos (gx_fds k)). destruct (Z.ltb_spec (foldr Z.max 0 (gx_fds k) + 1) 16); [|done].
    intros [= <- <-]. split; [lia|]. split; [apply max_not_elem|]. intros fd'. cbn. rewrite elem_of_cons. tauto.
  - intros k e k'. cbn -[Z.add]. by destruct (_ <? _); [|intros [= <- <-]].
  - intros fd sa n k r k' [= <- <-]. split; [|done]. intros e. by destruct (gx_ok k); [|intros [= <-]].
  - intros fd k fd'. cbn. rewrite list_elem_of_filter. tauto.
  - intros fd cap k sa data k' Hcap. cbn. destruct (gx_in k) as [|[sa' data'] l]; [done|]. intros [= <- <- <-].
    rewrite length_fmap, length_take. split; [lia|]. apply Forall_fmap, Forall_forall. intros x _. apply u8_range.
  - intros n fds to k ready k'. cbn. destruct (gx_ok k); [|done]. intros [= <- <-]. split; [set_solver|].
    intros fd. rewrite elem_of_filter. tauto.
  - by intros n fds to k r k' [= <- <-].
Qed.

(** Two sockets with the last two descriptors. *)
Definition riot_ex (socks : list (nat * Z)) (k : gex) : riot :=
  RiotBackend (set_socks eng_sio_ex kh_init (list_to_map ((λ s, (s.1, sock_sio_ex)) <$> socks)))
    (SlHeap {[SOCKS := head socks.*1]} (list_to_map (zip socks.*1 (tail (Some <$> socks.*1) ++ [None]))))
    (list_to_map socks) ∅ 0 k.
Definition socks_ex : list (nat * Z) := [(6%nat, 14); (5%nat, 15)].
Definition gex_ex (ok : bool) : gex := Gex [14; 15] ok [(SockaddrIn6 0x5100 0 (repeat 1 16) 2, [7; 8; 9])] {[14; 15]} [].

Lemma riot_ex_inv ok : riot_inv 16 (riot_ex socks_ex (gex_ex ok)) [6; 5]%nat.
Proof.
  split.
  - exists (QHeap {[SOCKS := SqHead (Some 6%nat) (LNext 5) 2]} {[6%nat := Some 5%nat; 5%nat := None]}).
    split; [split|split].
    + vm_compute. reflexivity.
    + intros h xs [<- <-]%lookup_singleton_Some. split; [reflexivity|by split_and!|].
      by apply (bool_decide_unpack (NoDup [6; 5]%nat)).
    + intros h1 h2 xs ys e [<- <-]%lookup_singleton_Some [<- <-]%lookup_singleton_Some. done.
    + reflexivity.
    + cbn [heads]. intros h hd [<- <-]%lookup_singleton_Some. reflexivity.
  - intros s. cbn. rewrite lookup_insert_is_Some, lookup_insert_is_Some, !elem_of_cons, lookup_empty, elem_of_nil.
    destruct (decide (6%nat = s)), (decide (5%nat = s)); naive_solver.
  - intros s Hs. rewrite !elem_of_cons, elem_of_nil in Hs. destruct Hs as [->|[->|[]]].
    + exists 14. split; [reflexivity|]. split; [lia|]. cbn. by left.
    + exists 15. split; [reflexivity|]. split; [lia|]. cbn. by right; left.
  - intros s s' fd Hs Hs'. rewrite !elem_of_cons, elem_of_nil in Hs, Hs'.
    destruct Hs as [->|[->|[]]], Hs' as [->|[->|[]]]; try done; vm_compute; congruence.
Qed.

(** The socket with the last descriptor is readable, but not reported. *)
Lemma riot_rx_ready_correct_witness :
  ∃ b1, w_nic_rx 16 16 false 2 (-1) (riot_ex socks_ex (gex_ex true)) = Done (true, b1) ∧
    w_rx_ready 16 2 [] b1 = Done ((1, [6%nat]), b1).
Proof.
  destruct (riot_rx_ready_correct 16 16 false ltac:(lia) (riot_ex socks_ex (gex_ex true)) [6; 5]%nat (-1)
    (SysOk {[14]}) (gex_ex true)) as (ok & b1 & E & _ & _ & _ & Er & Hok & _).
  - apply riot_ex_inv.
  - cbn. lia.
  - vm_compute. reflexivity.
  - exists b1. split; [|exact (Er [])]. assert (ok = true) as -> by (by apply Hok). exact E.
Defined.

(** Without a datagram, a vector of 65535 bytes is delivered. *)
Lemma riot_w_rx_correct_witness :
  let b := riot_ex socks_ex (Gex [14; 15] true [] ∅ []) in
  ∃ b' v, w_rx (SockaddrOther 0) 5 10 b = Done (tt, b') ∧ e_bufs (r_w b') !! 0%nat = Some v ∧ v_len v = 65535.
Proof.
  intros b. destruct (riot_w_rx_correct 16 (SockaddrOther 0) eng_ex_D eng_ex_m b 5 10 sock_sio_ex 15 [])
    with (i := 0%nat) (free := [1; 2]%nat) (r := SysErr (A := sockaddr * bytes) 11) (k' := r_k b)
    as (w' & v & E & _ & _ & _ & _ & _ & _ & Hv & Hl).
  - destruct eng_sio_ex_inv as [I1 I2 I3]. by split.
  - exact eng_sio_ex_io.
  - reflexivity.
  - reflexivity.
  - by left.
  - done.
  - reflexivity.
  - reflexivity.
  - reflexivity.
  - eexists _, _. split; [exact E|]. split; [exact Hv|exact Hl].
Defined.

Lemma riot_w_bind_correct_witness :
  let b := riot_ex [] (Gex [] false [] ∅ []) in
  ∃ b', w_bind (SockaddrOther 0) true 1 0x5000 None b = Done (None, b') ∧ r_w b' = r_w b ∧ g_open (r_k b') 1.
Proof.
  intros b. assert (Hi : ∃ ia, ifaddr (e_conf (r_w b)) !! 1%nat = Some ia) by (eexists; reflexivity).
  destruct Hi as [ia Hia].
  assert (Hb : riot_inv 16 b []).
  { split.
    - exists (QHeap {[SOCKS := SqHead None (LHead SOCKS) 0]} ∅). split; [split|split].
      + reflexivity.
      + intros h xs [<- <-]%lookup_singleton_Some. split; [reflexivity|done|constructor].
      + intros h1 h2 xs ys e [<- <-]%lookup_singleton_Some [<- <-]%lookup_singleton_Some. done.
      + reflexivity.
      + cbn [heads]. intros h hd [<- <-]%lookup_singleton_Some. reflexivity.
    - intros s. cbn. rewrite lookup_empty, elem_of_nil. split; [done|by intros []].
    - by intros s ?%elem_of_nil.
    - by intros s s' fd ?%elem_of_nil. }
  pose proof (riot_w_bind_correct 16 (SockaddrOther 0) b [] 1 0x5000 None ia Hb ltac:(lia) Hia) as H.
  cbn -[w_bind] in H. destruct H as (b' & E & Ew & Ek & _ & _ & _). exists b'. split; [exact E|]. split; [exact Ew|].
  rewrite Ek. cbn. by left.
Defined.

Lemma riot_backend_cleanup_correct_witness : backend_cleanup 2 (riot_ex socks_ex (gex_ex true)) = Fault.
Proof. exact (riot_backend_cleanup_correct 16 (riot_ex socks_ex (gex_ex true)) [6; 5]%nat (riot_ex_inv true)). Defined.

Lemma riot_w_tx_correct_witness :
  let b := rset_w (riot_ex socks_ex (gex_ex true)) (set_socks eng_send_ex kh_init {[5%nat := sock_tx_ex]}) in
  ∃ b', w_tx (SockaddrOther 0) 1 5 10 b = Done (tt, b') ∧ gx_out (r_k b') = [[0; 0; 0; 0]].
Proof.
  intros b. eexists. split.
  - apply (riot_w_tx_correct (SockaddrOther 0) eng_ex_D eng_send_ex_m b 5 10 sock_tx_ex 15 [3%nat]).
    + destruct eng_send_ex_inv as [H1 H2 H3]. by split.
    + reflexivity.
    + reflexivity.
    + reflexivity.
    + intros i ->%list_elem_of_singleton. exists iov_tx_ex, payload_ex.
      split; [reflexivity|]. split; [reflexivity|]. vm_compute. split_and!; discriminate.
  - vm_compute. reflexivity.
Defined.

(** The first interface has an address but no link. *)
Definition ifaces_ex : list gnrc_netif :=
  [GnrcNetif (Some false) (Some [0xfe :: 0x80 :: repeat 0 13 ++ [1]]) 1280 (repeat 2 8) "wl" 5;
   GnrcNetif (Some true) (Some [0xfe :: 0x80 :: repeat 0 13 ++ [2]]) 1500 (repeat 4 8) "et" 6]%string.

Lemma riot_backend_init_correct_witness :
  backend_addr_cnt ifaces_ex = 1 ∧
  ∃ w', backend_init ifaces_ex 3 true true engine_new_ex = Done (("wl"%string, UINT32_MAX), w') ∧ mtu (e_conf w') = 1280.
Proof.
  split; [reflexivity|].
  destruct (riot_backend_init_correct ifaces_ex 3 engine_new_ex (GnrcNetif (Some false) (Some [0xfe :: 0x80 :: repeat 0 13 ++ [1]])
    1280 (repeat 2 8) "wl" 5) (0xfe :: 0x80 :: repeat 0 13 ++ [1]) zero_ifaddr) as (w' & ia' & E & _ & _ & _ & Hm & _).
  - reflexivity.
  - lia.
  - reflexivity.
  - by apply (bool_decide_unpack (Forall is_u8 (0xfe :: 0x80 :: repeat 0 13 ++ [1]))).
  - reflexivity.
  - reflexivity.
  - reflexivity.
  - exists w'. split; [exact E|exact Hm].
Defined.
