(* ===== verification/System.v ===== *)
(** The engine and its client: any sequence of calls of the API by a client that respects
    their contracts runs without a fault or a failed assertion and keeps all invariants. *)

From stdpp Require Import strings.
From S2P Require Import Prelude Util Krng Queue Wire Cksum Addr Ifaddr Khash Engine Netmap Ip Send Sock Icmp Rx Reply NicRx Connect Tx Backend.

(** ** The calls of a client *)

(** [CQueue] declares and initialises a queue of the client, [CConcat] and [CMove] are
    [sq_concat] and the move of the first vector of a queue to the end of another,
    [CSetIov] assigns the fields of a vector that a client sets, and [CWrite] writes
    payload; [CVectors], [CIov] and [CRead] read a queue with [sq_foreach], the fields of a
    vector and payload; the others are the functions of warpcore.h. *)
Inductive call :=
| CQueue
| CConcat (q1 q2 : nat)
| CMove (q1 q2 : nat)
| CAllocLen (q : nat) (af qlen len off : Z)
| CAllocCnt (q cnt : nat) (af len off : Z)
| CSetIov (i : nat) (len flags : Z) (sa : w_sockaddr)
| CWrite (i : nat) (off : nat) (bs : bytes)
| CVectors (q : nat)
| CIov (i : nat)
| CRead (i off n : nat)
| CFree (q : nat)
| CBind (idx port : Z) (opt : option w_sockopt)
| CConnect (s : nat) (peer : sockaddr)
| CClose (s : nat)
| CTx (s q : nat)
| CNicTx
| CNicRx (nsec : Z)
| CRx (s q : nat)
| CRxReady.

Inductive result := RUnit | RQueue (q : nat) | RSock (s : option nat) | RInt (e : Z) | RBool (b : bool)
| RReady (n : Z) (sl : list nat) | RVectors (l : list nat) | RIov (v : w_iov) | RBytes (bs : bytes).

(** A client that decides what to do next by what its calls have returned. *)
Inductive client :=
| Stop
| Call (a : call) (next : result → client).

(** [struct w_iov_sq q = w_iov_sq_initializer(q)]: a variable at an address of its own. *)
Definition new_queue (w : engine) : nat := fresh (dom (heads (e_q w))).
Definition w_iov_sq_new : M engine nat :=
  w ← get;
  put (set_iovs w (QHeap (<[new_queue w := SqHead None (LHead (new_queue w)) 0]> (heads (e_q w)))
         (nexts (e_q w))) (e_bufs w)) ;;
  mret (new_queue w).

(** [v = sq_first(q1); sq_remove_head(q1, next); sq_insert_tail(q2, v, next)]. *)
Definition sq_move (q1 q2 : nat) : M engine nat :=
  f ← liftq (sq_first q1); i ← (match f with Some i => mret i | None => fault end);
  liftq (sq_remove_head q1) ;; liftq (sq_insert_tail q2 i) ;; mret i.

Section Client.
Context `{!Netmap} (can_alloc : kh_array → Z → bool) (fuel tries : nat) (D : gset nat).

Definition exec (a : call) : M engine result :=
  match a with
  | CQueue => q ← w_iov_sq_new; mret (RQueue q)
  | CConcat q1 q2 => liftq (sq_concat q1 q2) ;; mret RUnit
  | CMove q1 q2 => sq_move q1 q2 ;; mret RUnit
  | CAllocLen q af qlen len off => w_alloc_len true (S (size D)) af q qlen len off ;; mret RUnit
  | CAllocCnt q cnt af len off => w_alloc_cnt true cnt af q len off ;; mret RUnit
  | CSetIov i len flags sa =>
      v ← get_iov i;
      put_iov i (WIov sa (v_base v) (v_buf v) (v_idx v) len flags (v_ttl v) (v_user_data v)) ;; mret RUnit
  | CWrite i off bs => v ← get_iov i; stm (padd (v_buf v) off) bs ;; mret RUnit
  | CVectors q => l ← liftq (sq_foreach (size D) q); mret (RVectors l)
  | CIov i => v ← get_iov i; mret (RIov v)
  | CRead i off n => v ← get_iov i; bs ← ldm (padd (v_buf v) off) n; mret (RBytes bs)
  | CFree q => w_free q ;; mret RUnit
  | CBind idx port opt => o ← w_bind can_alloc fuel true idx port opt; mret (RSock o)
  | CConnect s peer => e ← w_connect can_alloc fuel tries s peer; mret (RInt e)
  | CClose s => w_close s ;; mret RUnit
  | CTx s q => w_tx can_alloc fuel tries (size D) s q ;; mret RUnit
  | CNicTx => w_nic_tx ;; mret RUnit
  | CNicRx nsec => b ← w_nic_rx can_alloc fuel 1 nsec; mret (RBool b)
  | CRx s q => sk ← get_sock s; w_rx sk q ;; mret RUnit
  | CRxReady => '(n, sl) ← w_rx_ready; mret (RReady n sl)
  end.

Fixpoint run (c : client) (w : engine) : outcome engine :=
  match c with
  | Stop => Done w
  | Call a next =>
      match exec a w with Done (r, w) => run (next r) w | Died => Died | Fault => Fault | NoFuel => NoFuel end
  end.
End Client.

(** ** The state and its invariant *)

(** What the invariants are about: who owns which buffer, the contents of the queues, the
    open sockets with the size of their table, the queues of the client, and how many more
    entries the tables may get. *)
Record ghost := Ghost {
  g_home : homes;
  g_m : queues;
  g_tm : sock_map;
  g_B : nat;
  g_q : gset nat;
  g_n : nat
}.
Definition with_m (g : ghost) (m : queues) : ghost :=
  Ghost (g_home g) m (g_tm g) (g_B g) (g_q g) (g_n g).

Definition with_queue (g : ghost) (q : nat) (xs : list nat) : ghost :=
  Ghost (g_home g) (<[q := xs]> (g_m g)) (g_tm g) (g_B g) ({[q]} ∪ g_q g) (g_n g).

(** A vector in a queue of the client or of a socket. *)
Record iov_ok (home : homes) (i : nat) (v : w_iov) : Prop := {
  vo_base : v_base v = (h_iov home i, 0);
  vo_buf : fst (v_buf v) = h_iov home i;
  vo_addr : w_addr_wf (sa_addr (v_saddr v))
}.
Record sock_ok (sk : w_sock) : Prop := {
  so_dmac : length (s_dmac sk) = 6%nat ∧ is_bytes (s_dmac sk);
  so_ports : is_u16 (ws_lport sk) ∧ is_u16 (ws_rport sk)
}.

Section System.
Context `{NetmapLaws, !NetmapProgress, !NetmapPoll}.
Context (can_alloc : kh_array → Z → bool).
Hypothesis Halloc : ∀ a n, can_alloc a n = true.
Context (fuel tries L : nat) (D : gset nat) (cf : ifconf).
Hypothesis HL : (110 <= L)%nat.
Hypothesis Hconf : ifconf_wf cf.
Hypothesis Hia4 : have_ip4 cf = true → is_Some (ifaddr cf !! Z.to_nat (addr4_pos cf)).
Hypothesis Hia6 : have_ip6 cf = true → is_Some (ifaddr cf !! 0%nat).
Hypothesis HD : (1 < size D)%nat.

Record sys_inv (g : ghost) (w : engine) : Prop := {
  sy_rx : rx_sys fuel L D (g_tm g) (g_B g) cf (e_socks w) (g_n g) (g_home g) (g_m g) w;
  sy_room : Z.of_nat (g_B g) + Z.of_nat (g_n g) < 2 ^ 24;
  sy_iov : ∀ q xs i v, q ≠ IOVQ → g_m g !! q = Some xs → i ∈ xs → e_bufs w !! i = Some v → iov_ok (g_home g) i v;
  sy_sock : ∀ s sk, e_socks w !! s = Some sk → sock_ok sk;
  sy_cli : ∀ q, q ∈ g_q g → is_Some (g_m g !! q) ∧ q ≠ IOVQ ∧ ∀ s sk, e_socks w !! s = Some sk → s_iv sk ≠ q
}.

(** The client owns queue [q], which holds [xs]; it owns vector [i]. *)
Definition owns (g : ghost) (q : nat) (xs : list nat) : Prop := q ∈ g_q g ∧ g_m g !! q = Some xs.
Definition owns_iov (g : ghost) (i : nat) : Prop := ∃ q xs, owns g q xs ∧ i ∈ xs.

Lemma owns_new g q xs : owns (with_queue g q xs) q xs.
Proof. split; [by apply elem_of_union_l, elem_of_singleton|apply lookup_insert_eq]. Qed.
Lemma owns_with_queue g o ys q xs : o ≠ q → owns g q xs → owns (with_queue g o ys) q xs.
Proof. intros Hne [O1 O2]. split; [by apply elem_of_union_r|]. cbn [g_m with_queue]. by rewrite (lookup_insert_ne _ _ _ _ Hne). Qed.

(** ** The contracts

    What a call requires of the client and of the network. *)
Definition can_tx (w : engine) (sk : w_sock) (i : nat) : Prop :=
  not_waiting w i ∧ ∃ v, e_bufs w !! i = Some v ∧ is_u8 (v_flags v) ∧ 0 <= v_len v ∧
    Z.of_nat (ip_len sk) + 8 + v_len v <= 65535 ∧ 14 + Z.of_nat (ip_len sk) + 8 + v_len v <= Z.of_nat L ∧
    af_ok (af (sa_addr (tx_dst sk v))) ∧ is_u16 (sa_port (tx_dst sk v)) ∧ ∃ mac, dst_mac sk w v mac.

(** The [j]-th port that [w_connect] tries is the first whose four-tuple is free. *)
Record can_connect (g : ghost) (w : engine) (s : nat) (peer : sockaddr) (sk : w_sock) (ra : w_addr) (mac : bytes)
    (j : nat) (p : Z) (r : krng_t) : Prop := {
  cc_sock : e_socks w !! s = Some sk ∧ (s_tup sk, s) ∈ g_tm g ∧ ws_rem sk = zero_sockaddr;
  cc_peer : w_to_waddr zero_addr peer = (true, ra) ∧ w_addr_wf ra ∧ is_u16 (sockaddr_port peer);
  cc_mac : kh_find (e_neighbor w) ra = Done (Some mac) ∧ mac ≠ ETH_ADDR_BCAST ∧ length mac = 6%nat ∧ is_bytes mac;
  cc_port : nth_port fuel (ws_lport sk) (e_rng w) j = Done (p, r) ∧ is_u16 p ∧ (j <= 200)%nat ∧ j ≠ 199%nat;
  cc_taken : ∀ i pi ri, (i < j)%nat → nth_port fuel (ws_lport sk) (e_rng w) i = Done (pi, ri) →
    ∃ s', finds w (WSockaddr (sa_addr (ws_loc sk)) pi) (Some (WSockaddr ra (sockaddr_port peer))) (Some s');
  cc_free : finds w (WSockaddr (sa_addr (ws_loc sk)) p) (Some (WSockaddr ra (sockaddr_port peer))) None
}.

Definition pre (g : ghost) (w : engine) (a : call) : Prop :=
  match a with
  | CQueue | CNicTx | CRxReady => True
  | CConcat q1 q2 => q1 ≠ q2 ∧ (∃ xs, owns g q1 xs) ∧ ∃ ys, owns g q2 ys
  | CMove q1 q2 => q1 ≠ q2 ∧ (∃ i xs, owns g q1 (i :: xs)) ∧ ∃ ys, owns g q2 ys
  | CAllocLen q af qlen len off => (∃ xs, owns g q xs) ∧ af_ok af ∧ 0 <= qlen < 2 ^ 64 ∧
      0 < buf_cap true af len off w <= UINT16_MAX
  | CAllocCnt q cnt af len off => (∃ xs, owns g q xs) ∧ af_ok af
  | CSetIov i len flags sa => owns_iov g i ∧ w_addr_wf (sa_addr sa)
  | CWrite i off bs => owns_iov g i ∧ is_bytes bs ∧ ∃ v, e_bufs w !! i = Some v ∧
      0 <= snd (v_buf v) ∧ snd (v_buf v) + Z.of_nat off + Z.of_nat (length bs) <= Z.of_nat L
  | CVectors q => ∃ xs, owns g q xs
  | CIov i => owns_iov g i
  | CRead i off n => owns_iov g i ∧ ∃ v, e_bufs w !! i = Some v ∧
      0 <= snd (v_buf v) ∧ snd (v_buf v) + Z.of_nat off + Z.of_nat n <= Z.of_nat L
  | CFree q => ∃ xs, owns g q xs ∧ ∀ i, i ∈ xs → not_waiting w i
  | CBind idx port opt => (0 < g_n g)%nat ∧ 0 <= idx ∧ is_u16 port ∧ port ≠ 0 ∧
      ∃ ia, ifaddr cf !! Z.to_nat idx = Some ia ∧ finds w (WSockaddr (ia_addr ia) port) None None
  | CConnect s peer => (1 < g_n g)%nat ∧ ∃ sk ra mac j p r, can_connect g w s peer sk ra mac j p r
  | CClose s => (0 < g_n g)%nat ∧ ∃ sk, e_socks w !! s = Some sk ∧ (s_tup sk, s) ∈ g_tm g
  | CTx s q => ∃ sk xs, e_socks w !! s = Some sk ∧ is_Some (tx_src w sk) ∧ (w_connected sk = false → last_ok w) ∧
      owns g q xs ∧
      (∃ k r, e_txr w !! k = Some r ∧ 1 < nr_num_slots r) ∧ ∀ i, i ∈ xs → can_tx w sk i
  | CNicRx nsec =>
      match nm_poll (e_calls w) (poll_timeout nsec) (e_rxr w) (e_mem w) with
      | None => True
      | Some (rxr, mem) => ∃ fss free, rings_hold L cf (polled w rxr mem) 0 fss ∧ g_m g !! IOVQ = Some free ∧
          (frames_taken cf (concat fss) <= length free)%nat ∧ (length (concat fss) <= g_n g)%nat ∧
          (frames_rx (g_tm g) cf false (concat fss) = true ∨ nsec ≠ -1)
      end
  | CRx s q => ∃ sk xs, e_socks w !! s = Some sk ∧ owns g q xs
  end.

(** What a call does to the queues and the sockets. *)
Definition eff (a : call) (r : result) (w : engine) (g g' : ghost) : Prop :=
  match a with
  | CQueue => r = RQueue (new_queue w) ∧ g_m g !! new_queue w = None ∧ g' = with_queue g (new_queue w) []
  | CConcat q1 q2 => ∃ xs ys, g_m g !! q1 = Some xs ∧ g_m g !! q2 = Some ys ∧
      g' = with_m g (<[q1 := xs ++ ys]> (<[q2 := []]> (g_m g)))
  | CMove q1 q2 => ∃ i xs ys, g_m g !! q1 = Some (i :: xs) ∧ g_m g !! q2 = Some ys ∧
      g' = with_m g (<[q2 := ys ++ [i]]> (<[q1 := xs]> (g_m g)))
  | CAllocLen q _ _ _ _ => ∃ free xs k, g_m g !! IOVQ = Some free ∧ g_m g !! q = Some xs ∧
      g' = with_m g (<[IOVQ := drop k free]> (<[q := xs ++ take k free]> (g_m g)))
  | CAllocCnt q cnt _ _ _ => ∃ free xs, g_m g !! IOVQ = Some free ∧ g_m g !! q = Some xs ∧
      g' = with_m g (<[IOVQ := drop cnt free]> (<[q := xs ++ take cnt free]> (g_m g)))
  | CFree q => ∃ free xs, g_m g !! IOVQ = Some free ∧ g_m g !! q = Some xs ∧
      g' = with_m g (<[IOVQ := free ++ xs]> (<[q := []]> (g_m g)))
  | CRx s q => ∃ sk xs ys, e_socks w !! s = Some sk ∧ g_m g !! q = Some xs ∧ g_m g !! s_iv sk = Some ys ∧
      g' = with_m g (<[q := xs ++ ys]> (<[s_iv sk := []]> (g_m g)))
  | CBind _ _ _ => ∃ s h t, r = RSock (Some s) ∧ g_m g !! h = None ∧
      g' = Ghost (g_home g) (<[h := []]> (g_m g)) (km_update (g_tm g) t s) (S (g_B g)) (g_q g) (g_n g - 1)
  | CConnect s _ => ∃ t t', r = RInt 0 ∧
      g' = Ghost (g_home g) (g_m g) (km_update (km_remove (g_tm g) t) t' s) (S (S (g_B g))) (g_q g) (g_n g - 2)
  | CClose s => ∃ sk, e_socks w !! s = Some sk ∧
      g' = Ghost (g_home g) (delete (s_iv sk) (g_m g)) (km_remove (g_tm g) (s_tup sk)) (S (g_B g)) (g_q g) (g_n g - 1)
  | CNicRx _ => g_tm g' = g_tm g ∧ g_B g' = g_B g ∧ g_q g' = g_q g ∧
      ∀ q, q ∈ g_q g → g_m g' !! q = g_m g !! q
  | CVectors q => g' = g ∧ ∃ xs, g_m g !! q = Some xs ∧ r = RVectors xs
  | CIov i => g' = g ∧ ∃ v, e_bufs w !! i = Some v ∧ r = RIov v
  | CRead i off n => g' = g ∧ ∃ v b, e_bufs w !! i = Some v ∧ e_mem w !! fst (v_buf v) = Some b ∧
      r = RBytes (ldn b (Z.to_nat (snd (v_buf v)) + off) n)
  | CRxReady => g' = g ∧ ∃ sl, r = RReady (u32 (Z.of_nat (length sl))) sl ∧ NoDup sl ∧
      ∀ s, s ∈ sl ↔ ∃ sk x xs, e_socks w !! s = Some sk ∧
        finds w (ws_loc sk) (Some (ws_rem sk)) (Some s) ∧ g_m g !! s_iv sk = Some (x :: xs)
  | CSetIov _ _ _ _ | CWrite _ _ _ | CTx _ _ | CNicTx => g' = g
  end.

(** ** Building the invariant after a call *)

(** The fields that no call but [w_nic_rx] changes. *)
Record same_parts (w w' : engine) : Prop := {
  sp_conf : e_conf w' = e_conf w;
  sp_neighbor : e_neighbor w' = e_neighbor w;
  sp_pipe : e_pipe w' = e_pipe w;
  sp_rxr : e_rxr w' = e_rxr w;
  sp_rings : nr_num_slots <$> e_txr w' = nr_num_slots <$> e_txr w
}.

Lemma fuel_ok_rings w w' : nr_num_slots <$> e_txr w' = nr_num_slots <$> e_txr w → fuel_ok fuel w → fuel_ok fuel w'.
Proof.
  intros E [F1 F2]. split; [done|]. intros k r Hr. apply (f_equal (.!! k)) in E. rewrite !list_lookup_fmap, Hr in E.
  destruct (e_txr w !! k) as [r'|] eqn:Hr'; [|done]. cbn in E. injection E as ->. by apply (F2 k).
Qed.

Lemma sys_build g w g' w' :
  sys_inv g w → same_parts w w' → g_home g' = g_home g → (g_n g' <= g_n g)%nat →
  Z.of_nat (g_B g') + Z.of_nat (g_n g') < 2 ^ 24 →
  tx_inv (g_home g) w' → eng_inv D (g_m g') w' → sock_inv (g_m g') (g_tm g') (g_B g') w' →
  (∀ i, i ∈ D → ∃ b, e_mem w' !! h_iov (g_home g) i = Some b ∧ length b = L ∧ is_bytes b) →
  (∀ k j sl, rx_slot w k j = Some sl → e_mem w' !! ns_buf_idx sl = e_mem w !! ns_buf_idx sl) →
  (∀ free i v, g_m g' !! IOVQ = Some free → i ∈ free → e_bufs w' !! i = Some v →
    not_waiting w' i ∧ v_base v = (h_iov (g_home g) i, 0) ∧ w_addr_wf (sa_addr (v_saddr v))) →
  (∀ q xs i v, q ≠ IOVQ → g_m g' !! q = Some xs → i ∈ xs → e_bufs w' !! i = Some v → iov_ok (g_home g) i v) →
  (∀ s sk, e_socks w' !! s = Some sk → sock_ok sk) →
  (∀ q, q ∈ g_q g' → is_Some (g_m g' !! q) ∧ q ≠ IOVQ ∧ ∀ s sk, e_socks w' !! s = Some sk → s_iv sk ≠ q) →
  sys_inv g' w'.
Proof.
  intros [[Hn Hs Hr Hf Hc _ (nm & Bn & Hnm & HBn)] _ _ _ _] [P1 P2 P3 P4 P5] Eh Hle Hroom Htx Heng Hso Hmem Hrx Hfree Hiov Hsk Hcli.
  split; rewrite ?Eh; try done. split; rewrite ?Eh; try done.
  - split; rewrite ?P3; try done. apply Hn.
  - apply (rx_inv_ext L (g_home g) w); [done|done| | |done].
    + by rewrite (ei_bufs _ _ _ Heng), (ei_bufs _ _ _ (ni_eng _ _ _ _ _ Hn)).
    + intros k j. eapply (slot_at_shape L HL); [apply Hn|done|done].
  - by eapply fuel_ok_rings.
  - by rewrite P1.
  - exists nm, Bn. rewrite P2. split; [done|lia].
Qed.

(** The generator of random numbers is not part of the invariant. *)
Lemma sys_rng g w r : sys_inv g w → sys_inv g (set_rng w r).
Proof.
  intros Hsys. pose proof Hsys as [Hrx Hroom Hiov Hsk Hcli]. pose proof (xs_net _ _ _ _ _ _ _ _ _ _ _ Hrx) as Hn.
  apply (sys_build g w); try done; try apply Hn.
  - by apply (tx_inv_ext (g_home g) w); try apply Hn.
  - destruct (ni_eng _ _ _ _ _ Hn). by split.
  - destruct (xs_sock _ _ _ _ _ _ _ _ _ _ _ Hrx). by split.
Qed.

(** Calls that only move vectors between queues and change fields of theirs. *)
Lemma sys_vectors g w m' q' bufs' :
  let w' := set_iovs w q' bufs' in
  sys_inv g w → eng_inv D m' w' →
  (∀ q, is_Some (g_m g !! q) → is_Some (m' !! q)) →
  (∀ i v', bufs' !! i = Some v' → ∃ v, e_bufs w !! i = Some v ∧ v_idx v' = v_idx v) →
  (∀ free i v, m' !! IOVQ = Some free → i ∈ free → bufs' !! i = Some v →
    not_waiting w i ∧ v_base v = (h_iov (g_home g) i, 0) ∧ w_addr_wf (sa_addr (v_saddr v))) →
  (∀ q xs i v, q ≠ IOVQ → m' !! q = Some xs → i ∈ xs → bufs' !! i = Some v → iov_ok (g_home g) i v) →
  sys_inv (with_m g m') w'.
Proof.
  intros w' Hsys Heng Hm Hidx Hfree Hiov. pose proof Hsys as [[Hn Hs Hr Hf Hc _ _] Hroom _ Hsk Hcli].
  apply (sys_build g w); try done.
  - apply (tx_inv_ext (g_home g) w); try done; [|apply Hn]. apply map_eq. intros i. rewrite !lookup_fmap.
    cbn. destruct (bufs' !! i) as [v'|] eqn:Hv'.
    + destruct (Hidx i v' Hv') as (v & -> & E). cbn. by rewrite E.
    + destruct (e_bufs w !! i) as [v|] eqn:Hv; [|done]. apply elem_of_dom_2 in Hv.
      rewrite (ei_bufs _ _ _ (ni_eng _ _ _ _ _ Hn)), <- (ei_bufs _ _ _ Heng) in Hv.
      apply elem_of_dom in Hv as [v' Hv]. cbn in Hv. congruence.
  - destruct Hs as [S1 S2 S3 S4 S5]. split; try done. intros s sk Hk. destruct (S4 s sk Hk) as [Q1 Q2].
    split; [by apply Hm|done].
  - apply Hn.
  - intros q Hq. destruct (Hcli q Hq) as (Q1 & Q2 & Q3). split; [by apply Hm|done].
Qed.

(** The call returns, with this effect and the invariant. *)
Definition call_ok (g : ghost) (w : engine) (a : call) : Prop :=
  ∃ r w' g', exec can_alloc fuel tries D a w = Done (r, w') ∧ eff a r w g g' ∧ sys_inv g' w'.

(** ** Calls on queues and vectors *)

Section Vectors.
Context (g : ghost) (w : engine).
Hypothesis Hsys : sys_inv g w.

Let Hnet : net_inv L (g_home g) D (g_m g) w := xs_net _ _ _ _ _ _ _ _ _ _ _ (sy_rx _ _ Hsys).
Let Hsinv : sock_inv (g_m g) (g_tm g) (g_B g) w := xs_sock _ _ _ _ _ _ _ _ _ _ _ (sy_rx _ _ Hsys).
Let Heng : eng_inv D (g_m g) w := ni_eng _ _ _ _ _ Hnet.

Lemma owned q xs : owns g q xs → g_m g !! q = Some xs ∧ q ≠ IOVQ ∧ ∀ s sk, e_socks w !! s = Some sk → s_iv sk ≠ q.
Proof. intros [Hq Hm]. by destruct (sy_cli _ _ Hsys q Hq) as (_ & ? & ?). Qed.

Lemma owned_iov i : owns_iov g i → ∃ q xs v, q ≠ IOVQ ∧ g_m g !! q = Some xs ∧ i ∈ xs ∧ i ∈ D ∧
  e_bufs w !! i = Some v ∧ iov_ok (g_home g) i v.
Proof.
  intros (q & xs & Ho & Hi). destruct (owned q xs Ho) as (Hm & Hq & _).
  assert (HiD : i ∈ D) by by eapply queue_elem.
  destruct (eng_inv_iov D _ w i Heng HiD) as [v Hv].
  exists q, xs, v. split_and!; try done. by eapply (sy_iov _ _ Hsys).
Qed.

Lemma queue_sys :
  ∃ q', w_iov_sq_new w = Done (new_queue w, set_iovs w q' (e_bufs w)) ∧ g_m g !! new_queue w = None ∧
    sys_inv (with_queue g (new_queue w) []) (set_iovs w q' (e_bufs w)).
Proof.
  set (h := new_queue w). destruct (new_head (g_m g) w D h Heng eq_refl) as [Hn Hne].
  assert (Hh : ∀ s sk, e_socks w !! s = Some sk → s_iv sk ≠ h).
  { intros s sk Hsk E. destruct (si_iv _ _ _ _ Hsinv s sk Hsk) as [[xs Hx] _]. congruence. }
  eexists. split; [reflexivity|]. split; [done|]. fold h.
  destruct (eng_inv_with_sock D (g_m g) w h 0 (new_sock h zero_sockaddr 0 None) kh_init Heng eq_refl) as [Q1 Q2 Q3].
  assert (Hs1 : sys_inv (with_m g (<[h := []]> (g_m g)))
    (set_iovs w (QHeap (<[h := SqHead None (LHead h) 0]> (heads (e_q w))) (nexts (e_q w))) (e_bufs w))).
  { apply sys_vectors; [done|by split| |by eauto| |].
    - intros q Hq. destruct (decide (q = h)) as [->|]; [rewrite lookup_insert_eq|rewrite lookup_insert_ne]; eauto.
    - intros free i v. rewrite lookup_insert_ne by done. apply Hnet.
    - intros q xs i v Hq [[<- <-]|[_ Hm]]%lookup_insert_Some; [by intros ?%elem_of_nil|by eapply Hsys]. }
  destruct Hs1 as [R1 R2 R3 R4 R5]. split; try done. intros q [->%elem_of_singleton|Hq]%elem_of_union; [|by apply R5].
  split; [|done]. cbn [g_m with_queue]. rewrite lookup_insert_eq. eauto.
Qed.

Lemma call_queue : call_ok g w CQueue.
Proof.
  destruct queue_sys as (q' & E & Hn & Hs'). exists (RQueue (new_queue w)). eexists _, _.
  split; [cbn [exec]; by mstep E|]. by split.
Qed.

(** Vectors [take k free] of the free list get fresh contents and go to queue [q]. *)
Lemma sys_alloc q xs free k q' bufs' af len off :
  owns g q xs → g_m g !! IOVQ = Some free →
  let m' := <[IOVQ := drop k free]> (<[q := xs ++ take k free]> (g_m g)) in
  eng_inv D m' (set_iovs w q' bufs') →
  (∀ i, i ∉ take k free → bufs' !! i = e_bufs w !! i) →
  (∀ i, i ∈ take k free → ∃ v0 l, e_bufs w !! i = Some v0 ∧
    bufs' !! i = Some (set_len (fresh_iov true w v0 af len off) l)) →
  sys_inv (with_m g m') (set_iovs w q' bufs').
Proof.
  intros Ho Hfree m' Heng' Hoth Hnew. destruct (owned q xs Ho) as (Hx & Hq & _).
  assert (Hnd : NoDup free) by (apply (inv_repr D _ _ (ei_q _ _ _ Heng) IOVQ free Hfree)).
  rewrite <- (take_drop k free) in Hnd. apply NoDup_app in Hnd as (_ & Hnd & _).
  assert (Hin : ∀ i, i ∈ take k free → i ∈ free) by (intros i Hi; rewrite <- (take_drop k free); apply elem_of_app; by left).
  apply sys_vectors; [done|done| | | |].
  - intros p Hp. unfold m'. rewrite !lookup_insert. repeat case_decide; eauto.
  - intros i v' Hv'. destruct (decide (i ∈ take k free)) as [Hi|Hi]; [|rewrite Hoth in Hv' by done; eauto].
    destruct (Hnew i Hi) as (v0 & l & Hv0 & E). rewrite E in Hv'. injection Hv' as <-. by exists v0.
  - intros f i v. unfold m'. rewrite lookup_insert_eq. intros [= <-] Hi Hv.
    rewrite Hoth in Hv by (intros Hi'; by apply (Hnd i)). eapply Hnet; [done| |done].
    rewrite <- (take_drop k free). apply elem_of_app. by right.
  - intros p ys i v Hp. unfold m'. rewrite lookup_insert_ne by done. intros [[<- <-]|[Hpq Hy]]%lookup_insert_Some Hi Hv.
    + apply elem_of_app in Hi as [Hi|Hi].
      * rewrite Hoth in Hv; [by eapply Hsys|]. intros Hi'%Hin.
        by apply (inv_disj D _ _ (ei_q _ _ _ Heng) q IOVQ xs free i).
      * destruct (Hnew i Hi) as (v0 & l & Hv0 & E). rewrite E in Hv. injection Hv as <-.
        destruct (ni_free _ _ _ _ _ Hnet free i v0 Hfree (Hin i Hi) Hv0) as (_ & Hb & Ha).
        split; cbn; [done|by rewrite Hb|done].
    + rewrite Hoth in Hv; [by eapply Hsys|]. intros Hi'%Hin.
      by apply (inv_disj D _ _ (ei_q _ _ _ Heng) p IOVQ ys free i).
Qed.

Lemma call_alloc_len q af qlen len off : pre g w (CAllocLen q af qlen len off) → call_ok g w (CAllocLen q af qlen len off).
Proof.
  intros ([xs Ho] & Haf & Hq & Hcap). destruct (owned q xs Ho) as (Hx & Hne & _). destruct (ei_iovq _ _ _ Heng) as [free Hfree].
  pose proof (inv_fuel_ok D _ _ (ei_q _ _ _ Heng) IOVQ free Hfree) as Hl. cbv beta in Hl.
  destruct (alloc_len_loop_run true D q af len off Hne Haf (S (size D)) (g_m g) w free xs qlen Heng Hfree Hx ltac:(lia) Hq Hcap)
    as (w' & k & E & [_ _ _ P4 (q' & bufs' & ->) P6 P7]).
  exists RUnit. eexists _, _. split; [cbn [exec]; unfold w_alloc_len; by mstep E|]. split; [by exists free, xs, k|].
  apply sys_alloc with af len off; [done|done|done|done|].
  intros i [j Hj]%list_elem_of_lookup_1. destruct (P7 j i Hj) as (v0 & Hv0 & E'). eauto.
Qed.

Lemma call_alloc_cnt q cnt af len off : pre g w (CAllocCnt q cnt af len off) → call_ok g w (CAllocCnt q cnt af len off).
Proof.
  intros ([xs Ho] & Haf). destruct (owned q xs Ho) as (Hx & Hne & _). destruct (ei_iovq _ _ _ Heng) as [free Hfree].
  destruct (w_alloc_cnt_run true D q af len off Hne Haf cnt (g_m g) w free xs Heng Hfree Hx)
    as (w' & E & P4 & (q' & bufs' & ->) & P6 & P7).
  exists RUnit. eexists _, _. split; [cbn [exec]; by mstep E|]. split; [by exists free, xs|].
  apply sys_alloc with af len off; [done|done|done|done|].
  intros i Hi. destruct (P7 i Hi) as (v0 & Hv0 & E'). exists v0, (v_len (fresh_iov true w v0 af len off)).
  split; [done|]. cbn [e_bufs set_iovs] in E'. by rewrite E'.
Qed.

(** [w_free] puts the vectors of a queue back; they are to wait in no ring. *)
Lemma free_sys q xs free : owns g q xs → g_m g !! IOVQ = Some free →
  let m' := <[IOVQ := free ++ xs]> (<[q := []]> (g_m g)) in
  ∃ q', w_free q w = Done (tt, set_iovs w q' (e_bufs w)) ∧ eng_inv D m' (set_iovs w q' (e_bufs w)) ∧
    ((∀ x, x ∈ xs → not_waiting w x) → sys_inv (with_m g m') (set_iovs w q' (e_bufs w))).
Proof.
  intros Ho Hfree m'. destruct (owned q xs Ho) as (Hx & Hne & _).
  destruct (w_free_run D (g_m g) w q free xs Heng Hfree Hx Hne) as (w' & E & Heng' & q' & ->).
  exists q'. split; [done|]. split; [done|]. intros Hnw. apply sys_vectors; [done|done| |by eauto| |]; unfold m'.
  - intros p Hp. rewrite !lookup_insert. repeat case_decide; eauto.
  - intros f i v. rewrite lookup_insert_eq. intros [= <-] [Hi|Hi]%elem_of_app Hv; [by eapply Hnet|].
    split; [by apply Hnw|]. by destruct (sy_iov _ _ Hsys q xs i v Hne Hx Hi Hv).
  - intros p ys i v Hp. rewrite lookup_insert_ne by done.
    intros [[<- <-]|[_ Hy]]%lookup_insert_Some; [by intros ?%elem_of_nil|by eapply Hsys].
Qed.

Lemma call_free q : pre g w (CFree q) → call_ok g w (CFree q).
Proof.
  intros (xs & Ho & Hnw). destruct (ei_iovq _ _ _ Heng) as [free Hfree].
  destruct (free_sys q xs free Ho Hfree) as (q' & E & _ & Hs').
  exists RUnit. eexists _, _. split; [cbn [exec]; by mstep E|]. split; [exists free, xs; by destruct Ho|by apply Hs'].
Qed.

(** Vectors move between queues that do not include the free list. *)
Lemma sys_moved m' q' :
  eng_inv D m' (set_iovs w q' (e_bufs w)) → m' !! IOVQ = g_m g !! IOVQ →
  (∀ q, is_Some (g_m g !! q) → is_Some (m' !! q)) →
  (∀ q xs i, q ≠ IOVQ → m' !! q = Some xs → i ∈ xs → ∃ q0 ys, q0 ≠ IOVQ ∧ g_m g !! q0 = Some ys ∧ i ∈ ys) →
  sys_inv (with_m g m') (set_iovs w q' (e_bufs w)).
Proof.
  intros Heng' Efree Hm Hold. apply sys_vectors; [done|done|done|by eauto| |].
  - intros f i v. rewrite Efree. apply Hnet.
  - intros q xs i v Hq Hx Hi Hv. destruct (Hold q xs i Hq Hx Hi) as (q0 & ys & ? & ? & ?). by apply (sy_iov _ _ Hsys q0 ys).
Qed.

(** [sq_concat] of two queues that are not the free list. *)
Lemma sys_concat q1 q2 xs ys :
  q1 ≠ q2 → q1 ≠ IOVQ → q2 ≠ IOVQ → g_m g !! q1 = Some xs → g_m g !! q2 = Some ys →
  let m' := <[q1 := xs ++ ys]> (<[q2 := []]> (g_m g)) in
  ∃ q', liftq (sq_concat q1 q2) w = Done (tt, set_iovs w q' (e_bufs w)) ∧ sys_inv (with_m g m') (set_iovs w q' (e_bufs w)).
Proof.
  intros Hne Hq1 Hq2 Hx Hy m'.
  destruct (liftq_op D (g_m g) m' w (OConcat q1 q2) Heng (SConcat _ _ q1 q2 xs ys Hne Hx Hy)) as (q' & E & Heng').
  { unfold m'. rewrite !lookup_insert_ne by done. apply Heng. }
  exists q'. split; [exact E|]. apply sys_moved; [done| | |].
  - unfold m'. by rewrite !lookup_insert_ne.
  - intros p Hp. unfold m'. rewrite !lookup_insert. repeat case_decide; eauto.
  - unfold m'. intros p zs i Hp [[<- <-]|[_ [[<- <-]|[_ Hz]]%lookup_insert_Some]]%lookup_insert_Some Hi; [|by apply elem_of_nil in Hi|eauto].
    apply elem_of_app in Hi as [Hi|Hi]; eauto.
Qed.

Lemma call_concat q1 q2 : pre g w (CConcat q1 q2) → call_ok g w (CConcat q1 q2).
Proof.
  intros (Hne & [xs Ho1] & ys & Ho2). destruct (owned q1 xs Ho1) as (Hx & Hq1 & _). destruct (owned q2 ys Ho2) as (Hy & Hq2 & _).
  destruct (sys_concat q1 q2 xs ys Hne Hq1 Hq2 Hx Hy) as (q' & E & Hs').
  exists RUnit. eexists _, _. split; [cbn [exec]; by mstep E|]. split; [by exists xs, ys|done].
Qed.

Lemma move_run q1 q2 i xs ys :
  q1 ≠ q2 → owns g q1 (i :: xs) → owns g q2 ys →
  let m' := <[q2 := ys ++ [i]]> (<[q1 := xs]> (g_m g)) in
  ∃ q', sq_move q1 q2 w = Done (i, set_iovs w q' (e_bufs w)) ∧ sys_inv (with_m g m') (set_iovs w q' (e_bufs w)).
Proof.
  intros Hne Ho1 Ho2 m'. destruct (owned q1 _ Ho1) as (Hx & Hq1 & _). destruct (owned q2 ys Ho2) as (Hy & Hq2 & _).
  destruct (liftq_op D (g_m g) (<[q1 := xs]> (g_m g)) w (ORemoveHead q1) Heng (SRemoveHead _ _ q1 i xs Hx)) as (qa & E1 & He1).
  { rewrite lookup_insert_ne by done. apply Heng. }
  destruct (liftq_op D (<[q1 := xs]> (g_m g)) m' _ (OInsertTail q2 i) He1) as (qb & E2 & He2).
  { apply SInsertTail; [by rewrite lookup_insert_ne|by eapply head_unqueued]. }
  { unfold m'. rewrite !lookup_insert_ne by done. apply Heng. }
  exists qb. split.
  - unfold sq_move. mstep (liftq_first D (g_m g) w q1 (i :: xs) Heng Hx). mstep. mstep E1. by mstep E2.
  - apply sys_moved; [done| | |].
    + unfold m'. by rewrite !lookup_insert_ne.
    + intros p Hp. unfold m'. rewrite !lookup_insert. repeat case_decide; eauto.
    + unfold m'. intros p zs j Hp [[<- <-]|[_ [[<- <-]|[_ Hz]]%lookup_insert_Some]]%lookup_insert_Some Hj; [| |eauto].
      * apply elem_of_app in Hj as [Hj|Hj%list_elem_of_singleton]; [eauto|]. exists q1, (i :: xs). subst. split_and!; [done|done|by left].
      * exists q1, (i :: xs). split_and!; [done|done|by right].
Qed.

Lemma call_move q1 q2 : pre g w (CMove q1 q2) → call_ok g w (CMove q1 q2).
Proof.
  intros (Hne & (i & xs & Ho1) & ys & Ho2). destruct (move_run q1 q2 i xs ys Hne Ho1 Ho2) as (q' & E & Hs').
  exists RUnit. eexists _, _. split; [cbn [exec]; by mstep E|]. split; [|done]. exists i, xs, ys. by destruct Ho1, Ho2.
Qed.

Lemma call_rx s q : pre g w (CRx s q) → call_ok g w (CRx s q).
Proof.
  intros (sk & xs & Hsk & Ho). destruct (owned q xs Ho) as (Hx & Hne & Hns).
  destruct (si_iv _ _ _ _ Hsinv s sk Hsk) as [[ys Hy] Hsne].
  destruct (sys_concat q (s_iv sk) xs ys) as (q' & E & Hs'); [by apply not_eq_sym, (Hns s)|done..|].
  exists RUnit. eexists _, _. split; [cbn [exec]; mstep (get_sock_run s sk w Hsk); unfold w_rx; by mstep E|].
  split; [by exists sk, xs, ys|done].
Qed.

Lemma call_set_iov i len flags sa : pre g w (CSetIov i len flags sa) → call_ok g w (CSetIov i len flags sa).
Proof.
  intros [Ho Hsa]. destruct (owned_iov i Ho) as (q & xs & v & Hq & Hx & Hi & HiD & Hv & [V1 V2 V3]).
  exists RUnit. eexists _, _. split; [cbn [exec]; by mstep (get_iov_run i v w Hv)|]. split; [reflexivity|].
  replace g with (with_m g (g_m g)) at 1 by by destruct g.
  apply sys_vectors; [done|by apply eng_inv_put|done| | |].
  - intros j v' [[<- <-]|[_ Hj]]%lookup_insert_Some; [by exists v|by exists v'].
  - intros f j v' Hf Hj [[<- _]|[_ Hv']]%lookup_insert_Some; [|by eapply Hnet].
    by destruct (inv_disj D _ _ (ei_q _ _ _ Heng) q IOVQ xs f i).
  - intros p ys j v' Hp Hy Hj [[<- <-]|[_ Hv']]%lookup_insert_Some; [by split|by eapply Hsys].
Qed.

(** ** Calls on memory and rings *)

Lemma rx_slot_mem i k j sl (mem : gmap Z bytes) b :
  i ∈ D → rx_slot w k j = Some sl → <[h_iov (g_home g) i := b]> mem !! ns_buf_idx sl = mem !! ns_buf_idx sl.
Proof.
  intros Hi Hsl. apply lookup_insert_ne. destruct (rx_slots _ _ _ (xs_rx _ _ _ _ _ _ _ _ _ _ _ (sy_rx _ _ Hsys)) k j sl Hsl) as (N & _ & _).
  apply N. by rewrite (ei_bufs _ _ _ Heng).
Qed.

(** Writing into the buffer of a vector of the client. *)
Lemma write_sys i off bs v :
  owns_iov g i → is_bytes bs → e_bufs w !! i = Some v →
  0 <= snd (v_buf v) → snd (v_buf v) + Z.of_nat off + Z.of_nat (length bs) <= Z.of_nat L →
  ∃ b, e_mem w !! h_iov (g_home g) i = Some b ∧ length b = L ∧ v_buf v = (h_iov (g_home g) i, snd (v_buf v)) ∧
    let w' := set_mem w (<[h_iov (g_home g) i := stn b (Z.to_nat (snd (v_buf v) + Z.of_nat off)) bs]> (e_mem w)) in
    stm (padd (v_buf v) off) bs w = Done (tt, w') ∧ sys_inv g w'.
Proof.
  intros Ho Hbs Hv0 Hs Hl. destruct (owned_iov i Ho) as (q & xs & v0 & Hq & Hx & Hi & HiD & Hv & Hok).
  assert (v0 = v) as -> by congruence. destruct (ni_mem _ _ _ _ _ Hnet i HiD) as (b & Hb & Hbl & Hbb).
  exists b. split; [done|]. split; [done|]. split; [rewrite <- (vo_buf _ _ _ Hok); by destruct (v_buf v)|]. intros w'. split.
  { unfold stm, padd. cbn [fst snd]. rewrite (vo_buf _ _ _ Hok), Hb. unfold in_buf. cbn [snd].
    rewrite (proj2 (Z.leb_le _ _)), (proj2 (Z.leb_le _ _)) by lia. done. }
  pose proof Hsys as [Hrx Hroom Hiov Hsk Hcli]. apply (sys_build g w); try done.
  - by apply (tx_inv_ext (g_home g) w); try apply Hnet.
  - destruct Heng as [? ? ?]. by split.
  - destruct Hsinv. by split.
  - intros i' Hi'. cbn. destruct (decide (h_iov (g_home g) i' = h_iov (g_home g) i)) as [->|Hne].
    + rewrite lookup_insert_eq. eexists. split; [done|]. rewrite length_stn by lia. split; [done|by apply stn_is_bytes].
    + rewrite lookup_insert_ne by done. by apply Hnet.
  - intros k j sl Hsl. cbn. by apply (rx_slot_mem i k j).
  - apply Hnet.
Qed.

Lemma call_write i off bs : pre g w (CWrite i off bs) → call_ok g w (CWrite i off bs).
Proof.
  intros (Ho & Hbs & v & Hv & Hs & Hl). destruct (write_sys i off bs v Ho Hbs Hv Hs Hl) as (b & _ & _ & _ & E & Hs').
  exists RUnit. eexists _, g. split; [cbn [exec]; mstep (get_iov_run i v w Hv); by mstep E|done].
Qed.

(** Calls that only read. *)
Lemma call_vectors q : pre g w (CVectors q) → call_ok g w (CVectors q).
Proof.
  intros [xs Ho]. destruct (owned q xs Ho) as (Hx & _). eexists _, w, g.
  split; [cbn [exec]; by mstep (liftq_foreach D (g_m g) w q xs Heng Hx)|]. split; [|done]. split; [done|]. by exists xs.
Qed.

Lemma call_iov i : pre g w (CIov i) → call_ok g w (CIov i).
Proof.
  intros Ho. destruct (owned_iov i Ho) as (q & xs & v & _ & _ & _ & _ & Hv & _). eexists _, w, g.
  split; [cbn [exec]; by mstep (get_iov_run i v w Hv)|]. split; [|done]. split; [done|]. by exists v.
Qed.

Lemma call_read i off n : pre g w (CRead i off n) → call_ok g w (CRead i off n).
Proof.
  intros (Ho & v0 & Hv0 & Hs & Hl). destruct (owned_iov i Ho) as (q & xs & v & _ & _ & _ & HiD & Hv & Hok).
  assert (v0 = v) as -> by congruence. destruct (ni_mem _ _ _ _ _ Hnet i HiD) as (b & Hb & Hbl & _).
  rewrite <- (vo_buf _ _ _ Hok) in Hb.
  assert (Hp : ptr_at (padd (v_buf v) off) (fst (v_buf v)) (Z.to_nat (snd (v_buf v)) + off)).
  { apply ptr_at_padd. unfold ptr_at. rewrite Z2Nat.id by done. by destruct (v_buf v). }
  eexists _, w, g. split; [cbn [exec]; mstep (get_iov_run i v w Hv); by mstep (ldm_run w _ _ _ b Hp Hb n ltac:(lia))|].
  split; [|done]. split; [done|]. by exists v, b.
Qed.

(** Transmission changes rings, buffer indices and the buffers of the vectors [l]. *)
Lemma sys_sent w' (l : list nat) :
  tx_keep w w' → tx_inv (g_home g) w' → (∀ i, i ∉ l → not_waiting w i → not_waiting w' i) →
  (∀ i, i ∈ l → ∃ q, q ≠ IOVQ ∧ ∃ xs, g_m g !! q = Some xs ∧ i ∈ xs) →
  (∀ i, i ∈ l → ∃ b, e_mem w' !! h_iov (g_home g) i = Some b ∧ length b = L ∧ is_bytes b) →
  (∀ id, id ∉ h_iov (g_home g) <$> l → e_mem w' !! id = e_mem w !! id) →
  sys_inv g w'.
Proof.
  intros [(K1 & K2 & K3 & K4 & K5 & K6 & K7) K8 K9] Htx Hnw Hl Hml Hmo.
  pose proof Hsys as [Hrx Hroom Hiov Hsk Hcli].
  assert (Hdom : dom (e_bufs w') = dom (e_bufs w)) by (by rewrite <- (dom_fmap_L no_idx), K9, dom_fmap_L).
  assert (Hbuf : ∀ i v, e_bufs w' !! i = Some v → ∃ v0 x, e_bufs w !! i = Some v0 ∧ v = set_idx v0 x).
  { intros i v Hv. assert (is_Some (e_bufs w !! i)) as [v0 Hv0] by (apply elem_of_dom; rewrite <- Hdom; by eapply elem_of_dom_2).
    destruct (no_idx_lookup _ _ i v0 K9 Hv0) as [x Hx]. exists v0, x. split; [done|congruence]. }
  assert (HlD : ∀ i, i ∈ l → i ∈ D) by (intros i (q & _ & xs & Hx & Hi)%Hl; by eapply queue_elem).
  apply (sys_build g w); try done; rewrite ?K5; try done.
  - destruct Heng as [Q1 Q2 Q3]. split; [by rewrite K2|by rewrite Hdom|done].
  - destruct Hsinv. split; rewrite ?K4, ?K5; done.
  - intros i Hi. destruct (decide (h_iov (g_home g) i ∈ h_iov (g_home g) <$> l)) as [(i' & -> & Hi')%list_elem_of_fmap|Hn].
    + by apply Hml.
    + rewrite Hmo by done. by apply Hnet.
  - intros k j sl Hsl. apply Hmo. intros (i & E & Hi)%list_elem_of_fmap.
    destruct (rx_slots _ _ _ (xs_rx _ _ _ _ _ _ _ _ _ _ _ Hrx) k j sl Hsl) as (N & _ & _). apply (N i); [|done].
    rewrite (ei_bufs _ _ _ Heng). by apply HlD.
  - intros free i v Hf Hi Hv. destruct (Hbuf i v Hv) as (v0 & x & Hv0 & ->).
    destruct (ni_free _ _ _ _ _ Hnet free i v0 Hf Hi Hv0) as (N & ? & ?). split; [|done].
    apply Hnw; [|done]. intros (q & Hq & xs & Hx & Hi')%Hl. by apply (inv_disj D _ _ (ei_q _ _ _ Heng) q IOVQ xs free i).
  - intros q xs i v Hq Hx Hi Hv. destruct (Hbuf i v Hv) as (v0 & x & Hv0 & ->).
    by destruct (Hiov q xs i v0 Hq Hx Hi Hv0).
Qed.

Lemma nic_tx_sys :
  ∃ w', w_nic_tx w = Done (tt, w') ∧ sys_inv g w' ∧ tx_only w w' ∧ (∀ i, not_waiting w i → not_waiting w' i) ∧
    ∀ x len b, in_ring w x len b → shown w w' x len b.
Proof.
  assert (Hwf : Forall ring_wf (e_txr w)).
  { apply Forall_lookup. intros k r Hr. by apply (tc_ring _ _ _ (tx_core_inv _ _ (ni_tx _ _ _ _ _ Hnet)) k r). }
  destruct (tx_progress (e_calls w) (e_txr w) Hwf) as (txr' & Hsync & _).
  pose proof (nioctxsync_law _ _ _ Hwf Hsync) as Hs.
  destruct (w_nic_tx_run (g_home g) w txr' (ni_tx _ _ _ _ _ Hnet) (ni_pipe _ _ _ _ _ Hnet) Hsync) as (w' & E & Hpost).
  pose proof (nic_tx_post_only _ _ _ _ Hpost Hs) as Ho.
  assert (Hnw : ∀ i, not_waiting w i → not_waiting w' i) by (intros i; by apply (nic_tx_post_waiting (g_home g) w txr')).
  exists w'. split; [done|]. split; [|split; [done|split; [done|by apply (nic_tx_post_shown (g_home g) w txr' w')]]].
  apply (sys_sent w' []); [by apply tx_only_keep|apply Hpost|by eauto|by intros i ?%elem_of_nil|by intros i ?%elem_of_nil|].
  - intros id _. by destruct (tx_only_rest _ _ Ho) as (_ & -> & _).
Qed.

Lemma call_nic_tx : call_ok g w CNicTx.
Proof. destruct nic_tx_sys as (w' & E & Hs' & _). exists RUnit, w', g. split; [cbn [exec]; by mstep E|done]. Qed.

(** [w_tx] keeps the invariant; each vector of the queue has the frame of its datagram. *)
Lemma tx_sys s q sk xs src :
  e_socks w !! s = Some sk → tx_src w sk = Some src → (w_connected sk = false → last_ok w) → owns g q xs →
  (∃ k r, e_txr w !! k = Some r ∧ 1 < nr_num_slots r) → (∀ i, i ∈ xs → can_tx w sk i) →
  ∃ w', w_tx can_alloc fuel tries (size D) s q w = Done (tt, w') ∧ sys_inv g w' ∧ tx_keep w w' ∧
    (∀ i, i ∉ xs → not_waiting w i → not_waiting w' i) ∧
    ∀ i v, i ∈ xs → e_bufs w !! i = Some v → ∃ b b', e_mem w !! h_iov (g_home g) i = Some b ∧
      e_mem w' !! h_iov (g_home g) i = Some b' ∧ tx_frame_of sk src w v b b' ∧
      handed w w' (h_iov (g_home g) i) (frame_len sk v) b'.
Proof.
  intros Hsk Hsrc Hlast Ho Hring Htx. destruct (owned q xs Ho) as (Hx & Hq & _).
  pose proof Hsys as [Hrx _ Hiov Hskok _]. destruct (Hskok s sk Hsk) as [Hdm Hports].
  assert (Hcs : can_send (g_home g) s sk src w).
  { split; try done; try apply Hnet; [by rewrite (xs_conf _ _ _ _ _ _ _ _ _ _ _ Hrx)|].
    apply (rx_homes _ _ _ (xs_rx _ _ _ _ _ _ _ _ _ _ _ Hrx)). }
  assert (Hwfsk : w_socktuple_wf (s_tup sk)) by apply (si_wf _ _ _ _ Hsinv s sk Hsk).
  assert (Hsrcwf : w_addr_wf src).
  { unfold tx_src in Hsrc. destruct (w_connected sk); [injection Hsrc as <-; apply Hwfsk|].
    destruct (ifaddr (e_conf w) !! _) as [ia|] eqn:Hia; [|done]. injection Hsrc as <-.
    rewrite (xs_conf _ _ _ _ _ _ _ _ _ _ _ Hrx) in Hia. by destruct (proj1 (Forall_lookup _ _) (wf_ifaddr _ Hconf) _ ia Hia). }
  assert (Hrd : ∀ i, i ∈ xs → ∃ v b, tx_ready (g_home g) sk w i v b).
  { intros i Hi. destruct (Htx i Hi) as (Hnw & v & Hv & Hfl & Hl0 & Hl1 & Hl2 & Haf & Hdp & Hmac). destruct (Hiov q xs i v Hq Hx Hi Hv) as [V1 V2 V3].
    assert (HiD : i ∈ D) by by eapply queue_elem. destruct (ni_mem _ _ _ _ _ Hnet i HiD) as (b & Hb & Hbl & Hbb).
    exists v, b. split; try done; [by rewrite Hbl| |].
    { split; [|done]. unfold tx_dst. destruct (w_connected sk); [apply Hwfsk|apply V3]. }
    rewrite <- elem_of_dom, (inv_dom _ _ _ (ei_q _ _ _ Heng)). done. }
  destruct (inv_repr D _ _ (ei_q _ _ _ Heng) q xs Hx) as [_ _ Hnd].
  assert (∃ k, size D = S (S k)) as [k Ek] by (exists (size D - 2)%nat; lia).
  destruct (tx_all_run can_alloc fuel tries (g_home g) s sk src ltac:(destruct (xs_fuel _ _ _ _ _ _ _ _ _ _ _ Hrx); lia) Hsrcwf
    (proj1 Hports) k xs w Hnd Hcs Hrd) as (w' & E & _ & Hk & [Hinv] & Hf & Hmem & Hnw & _ & Hin).
  exists w'. split.
  { unfold w_tx. pose proof (liftq_foreach D (g_m g) w q xs Heng Hx) as El. rewrite Ek in El |- *. by mstep El. }
  split; [|split; [done|split; [done|]]].
  2: { intros i v Hi Hv. destruct (Hrd i Hi) as (v0 & b & Hr). pose proof (rd_iov _ _ _ _ _ _ Hr) as Hv0.
    assert (v0 = v) as -> by congruence. destruct (Hf i v b Hi Hr) as (b' & Hb' & Hfr). exists b, b'.
    split; [apply Hr|]. split; [done|]. split; [done|]. by apply (Hin i v b). }
  apply (sys_sent w' xs); try done.
  - intros i Hi. exists q. split; [done|]. by exists xs.
  - intros i Hi. destruct (Hrd i Hi) as (v & b & Hr). destruct (Hf i v b Hi Hr) as (b' & Hb' & [[Hl' Hbb'] _ _ _]).
    exists b'. split; [done|]. split; [|done]. rewrite Hl'. pose proof (rd_mem _ _ _ _ _ _ Hr) as Hb.
    destruct (ni_mem _ _ _ _ _ Hnet i) as (b0 & Hb0 & Hl0 & _); [by eapply queue_elem|congruence].
Qed.

Lemma call_tx s q : pre g w (CTx s q) → call_ok g w (CTx s q).
Proof.
  intros (sk & xs & Hsk & [src Hsrc] & Hlast & Ho & Hring & Htx).
  destruct (tx_sys s q sk xs src Hsk Hsrc Hlast Ho Hring Htx) as (w' & E & Hs' & _).
  exists RUnit, w', g. split; [cbn [exec]; by mstep E|done].
Qed.

(** ** Calls on sockets *)

Lemma call_rx_ready : call_ok g w CRxReady.
Proof.
  destruct (w_rx_ready_correct D (g_m g) (g_tm g) (g_B g) w Heng Hsinv) as (sl & E & Hnd & Hsl).
  eexists _, w, g. split; [cbn [exec]; by mstep E|]. split; [|done]. split; [done|]. by exists sl.
Qed.

(** Calls that change the table of sockets. *)
Lemma sys_socks m' tm' c w' :
  same_parts w w' → e_txr w' = e_txr w → e_slot_buf w' = e_slot_buf w → e_tail w' = e_tail w →
  e_cur_txr w' = e_cur_txr w → e_bufs w' = e_bufs w → e_mem w' = e_mem w → (c <= g_n g)%nat →
  eng_inv D m' w' → sock_inv m' tm' (c + g_B g) w' →
  (∀ q xs, m' !! q = Some xs → xs ≠ [] → g_m g !! q = Some xs) →
  (∀ q, q ∈ g_q g → m' !! q = g_m g !! q) →
  (∀ s sk, e_socks w' !! s = Some sk → sock_ok sk) →
  (∀ q s sk, q ∈ g_q g → e_socks w' !! s = Some sk → s_iv sk ≠ q) →
  sys_inv (Ghost (g_home g) m' tm' (c + g_B g) (g_q g) (g_n g - c)) w'.
Proof.
  intros Hp E1 E2 E3 E4 E5 E6 Hc He Hs Hm Hq Hok Hsq. pose proof Hsys as [Hrx Hroom Hiov _ Hcli].
  assert (Hm' : ∀ q xs i, m' !! q = Some xs → i ∈ xs → g_m g !! q = Some xs).
  { intros q xs i Hx Hi. apply Hm; [done|]. intros ->. by apply elem_of_nil in Hi. }
  apply (sys_build g w); cbn; rewrite ?E5, ?E6; try done; try lia.
  - apply (tx_inv_ext (g_home g) w); try done; [by rewrite E5|apply Hnet].
  - apply Hnet.
  - intros free i v Hf Hi Hv. unfold not_waiting, pending, waits, slot_iov. rewrite E1, E2. by eapply Hnet; [by eapply Hm'|..].
  - intros q xs i v Hne Hx Hi. apply (Hiov q xs); [done|by eapply Hm'|done].
  - intros q Hqq. destruct (Hcli q Hqq) as (Q1 & Q2 & _). rewrite Hq by done. split_and!; [done|done|].
    intros s sk. by apply Hsq.
Qed.

Lemma ia_wf idx ia : ifaddr cf !! Z.to_nat idx = Some ia → w_addr_wf (ia_addr ia).
Proof. intros Hia. by destruct (proj1 (Forall_lookup _ _) (wf_ifaddr _ Hconf) _ ia Hia). Qed.

(** The state after a bind, with the new socket and its queue. *)
Definition bound_ghost (t : w_socktuple) : ghost :=
  Ghost (g_home g) (<[fresh (dom (heads (e_q w))) := []]> (g_m g)) (km_update (g_tm g) t (fresh (dom (e_socks w))))
    (S (g_B g)) (g_q g) (g_n g - 1).

Lemma bind_sys idx port opt ia :
  (0 < g_n g)%nat → 0 <= idx → is_u16 port → port ≠ 0 → ifaddr cf !! Z.to_nat idx = Some ia →
  finds w (WSockaddr (ia_addr ia) port) None None →
  let h := fresh (dom (heads (e_q w))) in let s := fresh (dom (e_socks w)) in
  let loc := WSockaddr (ia_addr ia) port in
  ∃ tbl, let w' := with_sock w h s (new_sock h loc (ia_scope_id ia) opt) tbl in
    w_bind can_alloc fuel true idx port opt w = Done (Some s, w') ∧ g_m g !! h = None ∧
    sys_inv (bound_ghost (WSocktuple loc zero_sockaddr (ia_scope_id ia))) w'.
Proof.
  intros Hn Hidx Hp Hp0 Hia Hf h s loc. pose proof (ia_wf idx ia Hia) as Hwf.
  pose proof Hsys as [Hrx Hroom Hiov Hsk Hcli]. set (t := WSocktuple loc zero_sockaddr (ia_scope_id ia)).
  apply (finds_iff (g_tm g) (g_B g)) in Hf; [|apply Hsinv|by split; [|apply zero_sockaddr_wf]].
  destruct (w_bind_free can_alloc fuel Halloc (g_m g) (g_tm g) (g_B g) w idx port opt ia Hsinv ltac:(lia) Hidx)
    as (tbl & E & Hr); [by rewrite (xs_conf _ _ _ _ _ _ _ _ _ _ _ Hrx)|done|done|done|].
  destruct (new_head (g_m g) w D h Heng eq_refl) as [Hh Hne].
  exists tbl. intros w'. split; [exact E|]. split; [done|]. unfold bound_ghost. fold h s t. apply (sys_socks _ _ 1 w'); try done.
  - by apply eng_inv_with_sock.
  - apply (sock_inv_with_sock D (g_m g) (g_tm g) (g_B g)); try done; [by apply bound_tuple_wf|].
    intros t' s'. rewrite km_update_elem; [done|unfold t; by rewrite bound_find|apply (kr_wf _ _ _ (si_rep _ _ _ _ Hsinv))|by apply bound_tuple_wf].
  - by intros q xs [[_ <-]|[_ Hx]]%lookup_insert_Some.
  - intros q Hq. rewrite lookup_insert_ne; [done|]. intros E'. destruct (Hcli q Hq) as ([xs Hx] & _). by rewrite <- E', Hh in Hx.
  - cbn. intros s' sk [[_ <-]|[_ Hs]]%lookup_insert_Some; [|by eapply Hsk]. split; [|done].
    split; [done|]. by apply (bool_decide_unpack (Forall is_u8 ETH_ADDR_NONE)).
  - cbn. intros q s' sk Hq [[_ <-]|[_ Hs]]%lookup_insert_Some; [|by eapply Hcli].
    cbn. intros E'. destruct (Hcli q Hq) as ([xs Hx] & _). by rewrite <- E', Hh in Hx.
Qed.

Lemma call_bind idx port opt : pre g w (CBind idx port opt) → call_ok g w (CBind idx port opt).
Proof.
  intros (Hn & Hidx & Hp & Hp0 & ia & Hia & Hf).
  destruct (bind_sys idx port opt ia Hn Hidx Hp Hp0 Hia Hf) as (tbl & E & Hh & Hs').
  eexists (RSock (Some _)), _, _. split; [cbn [exec]; by mstep E|]. split; [|exact Hs']. eexists _, _, _. by split_and!.
Qed.

Lemma call_close s : pre g w (CClose s) → call_ok g w (CClose s).
Proof.
  intros (Hn & sk & Hsk & Hin). pose proof Hsys as [Hrx Hroom Hiov Hskok Hcli].
  pose proof (w_close_run (g_m g) (g_tm g) (g_B g) w s sk Hsinv Hsk) as Hc.
  pose proof (si_wf _ _ _ _ Hsinv s sk Hsk) as Hwf.
  rewrite (km_find_present (KK := sock_key) (g_tm g) (s_tup sk) (s_tup sk) s) in Hc;
    [|apply (kr_wf _ _ _ (si_rep _ _ _ _ Hsinv))|done|done|by apply (hash_equal_refl (KhKey := sock_key))].
  destruct Hc as (tbl & E & Hr). destruct (si_iv _ _ _ _ Hsinv s sk Hsk) as [_ Hne].
  exists RUnit. eexists _, _. split; [cbn [exec]; by mstep E|]. split; [by exists sk|].
  set (w' := without_sock _ _ _ _). apply (sys_socks _ _ 1 w'); try done.
  - by apply eng_inv_without_sock.
  - by apply sock_inv_without_sock.
  - by intros q xs [_ Hx]%lookup_delete_Some.
  - intros q Hq. rewrite lookup_delete_ne; [done|]. by eapply Hcli.
  - cbn. intros s' sk' [_ Hs]%lookup_delete_Some. by eapply Hskok.
  - cbn. intros q s' sk' Hq [_ Hs]%lookup_delete_Some. by eapply Hcli.
Qed.

Lemma call_connect s peer : pre g w (CConnect s peer) → call_ok g w (CConnect s peer).
Proof.
  intros (Hn & sk & ra & mac & j & p & r & [(Hsk & Hin & Hz) (Hp1 & Hp2 & Hp3) (Hm1 & Hm2 & Hm3 & Hm4) (Hj1 & Hj2 & Hj3 & Hj4) Ht Hf]).
  pose proof Hsys as [Hrx Hroom Hiov Hskok Hcli].
  destruct (connect_done can_alloc fuel tries Halloc (g_m g) (g_tm g) (g_B g) w Hsinv ltac:(lia) s sk peer Hsk Hin Hz
    ra mac j p r Hp1 Hp2 Hm1 Hm2 Hj3 Hj1 Ht Hf Hj4) as (tbl & E & Hr).
  exists (RInt 0). eexists _, _. split; [cbn [exec]; by mstep E|]. split; [by eexists _, _|].
  set (w' := conn _ _ _ _ _). apply (sys_socks _ _ 2 w'); try done.
  - destruct Heng. by split.
  - by eapply conn_sock_inv.
  - cbn. intros s' sk' [[<- <-]|[_ Hs]]%lookup_insert_Some; [by split|by eapply Hskok].
  - cbn. intros q s' sk' Hq [[<- <-]|[_ Hs]]%lookup_insert_Some; [destruct (Hcli q Hq) as (_ & _ & Hns); by apply (Hns s sk)|by eapply Hcli].
Qed.

(** ** [w_nic_rx] *)

Lemma iov_ok_keeps home' w' i v' :
  keeps (g_home g) home' w w' i → (∀ v, e_bufs w !! i = Some v → iov_ok (g_home g) i v) →
  e_bufs w' !! i = Some v' → iov_ok home' i v'.
Proof.
  intros (K1 & K2 & _) Hok Hv'. rewrite Hv' in K2. destruct (e_bufs w !! i) as [v|] eqn:Hv; [|done].
  destruct (Hok v eq_refl) as [V1 V2 V3]. injection K2 as E1 E2 E3 E4 E5 E6 E7.
  split; rewrite ?K1; congruence.
Qed.

Lemma sys_received n home' m' w1 w' touched k dl free :
  Z.of_nat (g_B g) + Z.of_nat n < 2 ^ 24 → g_m g !! IOVQ = Some free →
  rx_sys fuel L D (g_tm g) (g_B g) cf (e_socks w) n home' m' w' →
  rx_post D (e_socks w) touched k dl (g_home g) (g_m g) w1 home' m' w' →
  (∀ i, i ∈ D → keeps (g_home g) (g_home g) w w1 i) →
  sys_inv (Ghost home' m' (g_tm g) (g_B g) (g_q g) n) w'.
Proof.
  intros Hroom Hfree Hrx' [_ P2 _ P4 P5] Hk1. pose proof Hsys as [Hrx _ Hiov Hskok Hcli].
  pose proof (xs_socks _ _ _ _ _ _ _ _ _ _ _ Hrx') as Eso.
  assert (Hold : ∀ q xs i v, q ≠ IOVQ → g_m g !! q = Some xs → i ∈ xs → e_bufs w' !! i = Some v → iov_ok home' i v).
  { intros q xs i v Hq Hx Hi. assert (HiD : i ∈ D) by by eapply queue_elem.
    assert (Hni : i ∉ free) by (intros Hi'; by apply (inv_disj D _ _ (ei_q _ _ _ Heng) q IOVQ xs free i)).
    apply iov_ok_keeps; [|by intros; eapply Hiov]. eapply keeps_trans; [by apply Hk1|]. by eapply P2. }
  split; cbn; rewrite ?Eso; try done.
  - intros q xs' i v Hq Hx' Hi Hv. destruct (decide (map_Exists (λ _ sk, s_iv sk = q) (e_socks w))) as [(s & sk & Hsk & <-)|Hns].
    + destruct (si_iv _ _ _ _ Hsinv s sk Hsk) as [[xs Hx] _]. destruct (P4 s sk xs Hsk Hx) as (ys & Hys & Hgot).
      assert (xs' = xs ++ ys) as -> by congruence. apply elem_of_app in Hi as [Hi|Hi]; [by eapply Hold|].
      apply list_elem_of_lookup_1 in Hi as [x Hi]. destruct (Forall2_lookup_l _ _ _ _ _ Hgot Hi) as (rb & _ & Hg).
      destruct Hg as (_ & v' & b & Hv' & _ & G1 & _ & G2 & G3 & _). assert (v' = v) as -> by congruence. by split.
    + rewrite P5 in Hx'; [by eapply Hold|done|]. intros s sk Hsk E. apply Hns. by exists s, sk.
  - intros q Hq. destruct (Hcli q Hq) as (Q1 & Q2 & Q3). split; [by rewrite P5|done].
Qed.

(** The frames a poll delivers. *)
Definition arrived (nsec : Z) (w : engine) (fs : list bytes) : Prop :=
  match nm_poll (e_calls w) (poll_timeout nsec) (e_rxr w) (e_mem w) with
  | None => fs = []
  | Some (rxr, mem) => ∃ fss, rings_hold L cf (polled w rxr mem) 0 fss ∧ fs = concat fss
  end.

(** [w_nic_rx], and what it leaves alone: the vectors that were not free. *)
Lemma nic_rx_sys nsec : pre g w (CNicRx nsec) →
  ∃ b w' g', w_nic_rx can_alloc fuel 1 nsec w = Done (b, w') ∧ eff (CNicRx nsec) (RBool b) w g g' ∧ sys_inv g' w' ∧
    e_socks w' = e_socks w ∧ (∃ fs, arrived nsec w fs ∧ frames_learned cf fs w w') ∧ ∀ q xs i, q ≠ IOVQ → g_m g !! q = Some xs → i ∈ xs → keeps (g_home g) (g_home g') w w' i.
Proof.
  intros Hpre. pose proof Hsys as [Hrx Hroom Hiov Hskok Hcli]. cbn [pre] in Hpre. unfold arrived.
  destruct (nm_poll (e_calls w) (poll_timeout nsec) (e_rxr w) (e_mem w)) as [[rxr mem]|] eqn:Hpoll.
  - destruct Hpre as (fss & free & Hhold & Hfree & Hroom1 & Hn & Hret).
    destruct (w_nic_rx_polled can_alloc Halloc fuel L D (g_tm g) (g_B g) cf (e_socks w) HL Hconf Hia4 Hia6 0
      (g_n g - length (concat fss)) (g_home g) (g_m g) w nsec rxr mem fss free) as
      (home' & m' & w' & touched & E & Hrx' & Hpost & Hln & Hk1 & _); try done.
    { by replace (g_n g - length (concat fss) + length (concat fss))%nat with (g_n g) by lia. }
    eexists _, w', (Ghost home' m' (g_tm g) (g_B g) (g_q g) (g_n g - length (concat fss))).
    split; [exact E|]. split; [|split; [|split; [apply (xs_socks _ _ _ _ _ _ _ _ _ _ _ Hrx')|split; [by exists (concat fss); split; [exists fss|]|]]]].
    + split_and!; try done. intros q Hq. destruct (Hcli q Hq) as (_ & Q2 & Q3). by apply (pt_other _ _ _ _ _ _ _ _ _ _ _ Hpost).
    + by eapply sys_received; [lia|..].
    + intros q xs i Hq Hx Hi. assert (HiD : i ∈ D) by by eapply queue_elem.
      eapply keeps_trans; [by apply Hk1|]. eapply (pt_keep _ _ _ _ _ _ _ _ _ _ _ Hpost); [done|done|].
      intros Hi'. by apply (inv_disj D _ _ (ei_q _ _ _ Heng) q IOVQ xs free i).
  - eexists false, _, g. split; [exact (w_nic_rx_timeout can_alloc fuel 0 w nsec Hpoll)|].
    split; [done|]. split; [|split; [done|split; [exists []; split; [done|by apply frames_learned_nil]|done]]].
    apply (sys_build g w); try done; try apply Hnet; try apply Hsinv.
    + by apply (tx_inv_ext (g_home g) w); try apply Hnet.
    + destruct Heng. by split.
    + destruct Hsinv. by split.
Qed.

Lemma call_nic_rx nsec : pre g w (CNicRx nsec) → call_ok g w (CNicRx nsec).
Proof.
  intros Hpre. destruct (nic_rx_sys nsec Hpre) as (b & w' & g' & E & He & Hs' & _).
  exists (RBool b), w', g'. split; [cbn [exec]; by mstep E|done].
Qed.
End Vectors.

(** ** The theorem *)

Lemma call_safe g w a : sys_inv g w → pre g w a → call_ok g w a.
Proof.
  intros Hsys Hpre. destruct a.
  - by apply call_queue.
  - by apply call_concat.
  - by apply call_move.
  - by apply call_alloc_len.
  - by apply call_alloc_cnt.
  - by apply call_set_iov.
  - by apply call_write.
  - by apply call_vectors.
  - by apply call_iov.
  - by apply call_read.
  - by apply call_free.
  - by apply call_bind.
  - by apply call_connect.
  - by apply call_close.
  - by apply call_tx.
  - by apply call_nic_tx.
  - by apply call_nic_rx.
  - by apply call_rx.
  - by apply call_rx_ready.
Qed.

(** A client that respects the contracts, whatever the calls return. *)
Inductive behaved : client → ghost → engine → Prop :=
| behaved_stop g w : behaved Stop g w
| behaved_call a next g w : pre g w a →
    (∀ r w' g', exec can_alloc fuel tries D a w = Done (r, w') → eff a r w g g' → sys_inv g' w' → behaved (next r) g' w') →
    behaved (Call a next) g w.

(** A session: calls with their effects. *)
Inductive session : client → ghost → engine → ghost → engine → Prop :=
| session_stop g w : session Stop g w g w
| session_call a next r g w g1 w1 g' w' : exec can_alloc fuel tries D a w = Done (r, w1) → eff a r w g g1 →
    session (next r) g1 w1 g' w' → session (Call a next) g w g' w'.

Lemma run_safe c g w :
  sys_inv g w → behaved c g w →
  ∃ w' g', run can_alloc fuel tries D c w = Done w' ∧ session c g w g' w' ∧ sys_inv g' w'.
Proof.
  intros Hsys Hb. induction Hb as [g w|a next g w Hpre _ IH]; [exists w, g; by split_and!; [|constructor|]|].
  destruct (call_safe g w a Hsys Hpre) as (r & w1 & g1 & E & He & Hs1). cbn [run]. rewrite E.
  destruct (IH r w1 g1 E He Hs1 Hs1) as (w' & g' & Er & Hss & Hs'). exists w', g'. split_and!; [done| |done].
  by econstructor.
Qed.
End System.

(** ** From registration on *)

(** After registration: all vectors are free, and no socket is open. *)
Definition init_ghost (rg : nm_reg) (ids : list Z) (n : nat) : ghost :=
  Ghost (reg_homes rg ids) (reg_m ids) [] 0 ∅ n.

Section Session.
Context `{!Netmap} (fuel L n : nat) (rg : nm_reg) (ids : list Z) (c : ifconf).
Hypothesis Hrg : reg_ok L rg ids.
Hypothesis Hfuel : (1 < fuel)%nat ∧ ∀ k r, rg_txr rg !! k = Some r → nr_num_slots r < Z.of_nat fuel.
Hypothesis Hn : Z.of_nat n < 2 ^ 24.

Lemma size_reg_D : size (reg_D ids) = length ids.
Proof. unfold reg_D. rewrite size_list_to_set by apply NoDup_seq. apply length_seq. Qed.

Lemma registered_sys w' :
  e_conf w' = c → registered rg w' → fresh_bufs ids w' → eng_inv (reg_D ids) (reg_m ids) w' →
  e_sock w' = kh_init → e_socks w' = ∅ → e_neighbor w' = kh_init →
  sys_inv fuel L (reg_D ids) c (init_ghost rg ids n) w'.
Proof.
  intros Ec Hw Hf He Es Ess En. split; cbn.
  - split; try done.
    + by apply registered_net_inv.
    + by apply fresh_sock_inv.
    + by apply registered_rx_inv.
    + unfold fuel_ok. by rewrite (rw_txr _ _ Hw).
    + exists [], 0%nat. rewrite En. split; [apply kh_init_rep|lia].
  - lia.
  - intros q xs i v Hq [<- _]%lookup_singleton_Some. done.
  - intros s sk. by rewrite Ess.
  - by intros q ?%elem_of_empty.
Qed.

End Session.
