(* ===== verification/Life.v ===== *)
(** The life of an engine (lib/src/warpcore.c): [w_init] opens it and puts it in the list
    of engines, its client uses it, and [w_cleanup] closes it and gives its buffers back. *)

From stdpp Require Import strings.
From S2P Require Import Prelude Util Krng Queue SList Wire Cksum Addr Ifaddr Khash Engine Netmap Ip Send Sock Icmp Rx Reply NicRx Connect Tx Backend System.

(** The list of engines is [es]. *)
Record world_inv (es : list nat) (g : world) : Prop := {
  wi_list : sl_inv (dom (wd_eng g)) (wd_sl g) {[ENGINES := es]};
  wi_eng : ∀ e, e ∈ es ↔ is_Some (wd_eng g !! e)
}.

(** Whether an engine keeps [w_init] from opening another one on [ifname]. *)
Definition excludes (ifname : string) (r : engine_rec) : bool :=
  strn_eqb IFNAMSIZ ifname (er_ifname r) && negb (is_loopback (er_link r)).

Lemma liftsl_run {A} (m : M slheap A) a sl g :
  m (wd_sl g) = Done (a, sl) → liftsl m g = Done (a, World sl (wd_eng g)).
Proof. intros E. unfold liftsl. by rewrite E. Qed.

Lemma engines_run es g :
  world_inv es g → liftsl (sl_foreach (size (dom (wd_eng g))) ENGINES) g = Done (es, g).
Proof.
  intros [Hl _]. rewrite (liftsl_run _ _ _ g (sl_foreach_run _ _ _ ENGINES es Hl (lookup_singleton_eq _ _))).
  by destruct g.
Qed.

Lemma engine_active_run g ifname l :
  (∀ e, e ∈ l → is_Some (wd_eng g !! e)) →
  engine_active g ifname l = Done (existsb (λ e, from_option (excludes ifname) false (wd_eng g !! e)) l).
Proof.
  induction l as [|e l IH]; intros Hl; [done|]. cbn [engine_active existsb].
  destruct (Hl e ltac:(by left)) as [r Hr]. rewrite Hr. cbn [from_option]. fold (excludes ifname r).
  destruct (excludes ifname r); [done|]. apply IH. intros e' He'. apply Hl. by right.
Qed.

Lemma any_excludes es g ifname :
  world_inv es g →
  existsb (λ e, from_option (excludes ifname) false (wd_eng g !! e)) es = true ↔
  ∃ e r, wd_eng g !! e = Some r ∧ excludes ifname r = true.
Proof.
  intros [_ He]. rewrite existsb_exists. split.
  - intros (e & _ & Hx). destruct (wd_eng g !! e) as [r|] eqn:Hr; [|done]. by exists e, r.
  - intros (e & r & Hr & Hx). exists e. split; [apply list_elem_of_In, He; eauto|by rewrite Hr].
Qed.

(** A new engine at the front of the list, and an engine that leaves it. *)
Lemma world_add es g e r :
  world_inv es g → wd_eng g !! e = None →
  ∃ sl, sl_insert_head ENGINES e (SlHeap (slh_first (wd_sl g)) (<[e := None]> (sle_next (wd_sl g)))) = Done (tt, sl) ∧
    world_inv (e :: es) (World sl (<[e := r]> (wd_eng g))).
Proof.
  intros [Hl He] Hn. destruct (sl_inv_add _ _ _ e Hl) as [Hl1 Hu]; [by apply not_elem_of_dom|].
  destruct (sl_step_refines _ _ _ (SlInsertHead ENGINES e) _ Hl1 (SpInsertHead _ _ ENGINES e es (lookup_singleton_eq _ _) Hu))
    as (sl & E & Hl2).
  exists sl. split; [exact E|]. split; cbn [wd_sl wd_eng].
  - by rewrite dom_insert_L, <- (insert_singleton_eq ENGINES (e :: es) es).
  - intros e'. rewrite elem_of_cons, lookup_insert_is_Some, He. destruct (decide (e = e')); naive_solver.
Qed.

Lemma world_remove e es g :
  world_inv (e :: es) g → e ∉ es →
  ∃ sl, sl_remove (size (dom (wd_eng g))) ENGINES e (wd_sl g) = Done (tt, sl) ∧
    world_inv es (World (SlHeap (slh_first sl) (delete e (sle_next sl))) (delete e (wd_eng g))).
Proof.
  intros [Hl He] Hni.
  destruct (sl_step_refines _ _ _ (SlRemove ENGINES e) _ Hl (SpRemove _ _ ENGINES e [] es (lookup_singleton_eq _ _)))
    as (sl & E & Hl2).
  exists sl. split; [exact E|]. split; cbn [wd_sl wd_eng].
  - rewrite dom_delete_L. apply sl_inv_del; [by rewrite <- (insert_singleton_eq ENGINES es (e :: es))|].
    split; [apply elem_of_dom, He; by left|]. intros h xs [<- <-]%lookup_singleton_Some. done.
  - intros e'. rewrite lookup_delete_is_Some, <- He, elem_of_cons. naive_solver.
Qed.

(** What [wait_addrs] waits for. *)
Lemma addr_cnt_loop_nonneg `{!Os} ifname l : ∀ n cnt, 0 <= n → addr_cnt_loop ifname l n = Done cnt → 0 <= cnt.
Proof.
  induction l as [|i l IH]; intros n cnt Hn; cbn [addr_cnt_loop]; [intros [= <-]; lia|].
  destruct (negb _); [by apply IH|]. intros ([] & _ & E)%outcome_bind_done; cbn [negb] in E; revert E; apply IH; [|lia].
  destruct (count_addr i); [apply u16_range|lia].
Qed.
Lemma wait_addrs_pos `{!Os} getifaddrs tries ifname : ∀ t cnt t',
  wait_addrs getifaddrs tries t ifname = Done (cnt, t') → 0 < cnt.
Proof.
  induction tries as [|tries IH]; intros t cnt t'; cbn [wait_addrs]; [done|]. intros (n & E & Hn)%outcome_bind_done.
  destruct (Z.eqb_spec n 0); [by eapply IH|]. injection Hn as -> _.
  unfold backend_addr_cnt in E. apply outcome_bind_done in E as (l & _ & E). apply addr_cnt_loop_nonneg in E; lia.
Qed.

Section Life.
Context `{NetmapLaws, !NetmapProgress, !NetmapPoll, !Os}.
Context (can_alloc : kh_array → Z → bool) (niocregif : string → nr_mode → Z → option nm_reg).
Hypothesis Halloc : ∀ a n, can_alloc a n = true.
Context (getifaddrs : nat → option (list ifaddrs)) (now : bytes).
Context (es : list nat) (g : world) (ifname : string) (nbufs : Z).
Hypothesis Hworld : world_inv es g.

Let start (tries : nat) := w_init can_alloc niocregif getifaddrs now (size (dom (wd_eng g))) tries ifname nbufs.

(** An engine that is active on the interface keeps a second one out. *)
Lemma w_init_active tries :
  (∃ e r, wd_eng g !! e = Some r ∧ excludes ifname r = true) → start tries g = Done (None, g).
Proof.
  intros Hx%(any_excludes es g ifname Hworld). unfold start, w_init. mstep (engines_run es g Hworld). mstep.
  mstep (lift_run _ _ g (engine_active_run g ifname es (λ e, proj1 (wi_eng _ _ Hworld e)))). by rewrite Hx.
Qed.

Context (tries itries fuel L n : nat) (rg : nm_reg) (ids : list Z) (cnt : Z) (t : nat).
Hypothesis Hrg : reg_ok L rg ids.
Hypothesis HL : (110 <= L)%nat.
Hypothesis Hids : (1 < length ids)%nat ∧ Z.of_nat (length ids) < 2 ^ 32.
Hypothesis Hfuel : (1 < fuel)%nat ∧ ∀ k r, rg_txr rg !! k = Some r → nr_num_slots r < Z.of_nat fuel.
Hypothesis Hn : Z.of_nat n < 2 ^ 24.
Hypothesis Hnone : ∀ e r, wd_eng g !! e = Some r → excludes ifname r = false.
Hypothesis Hwait : wait_addrs getifaddrs itries 0 ifname = Done (cnt, t).
Hypothesis Hnbufs : nbufs <= UINT32_MAX.
Let new : engine := alloc_engine cnt (kr_srand_r (Fnv.fnv1a_64 now)).
Hypothesis Hreg : niocregif (cstr IFNAMSIZ ifname) AllNic nbufs = Some rg.

Let rec (lk : w_link) (w : engine) : engine_rec := EngineRec (cstr IFNAMSIZ ifname) lk w.

Lemma w_init_run c lk' :
  backend_addr_config (getifaddrs t) ifname (e_conf new) (WLink false false 0 "") = Done (c, lk') →
  ifconf_wf c → is_loopback lk' = false →
  ∃ e w0 g1, start itries g = Done (Some e, g1) ∧ wd_eng g !! e = None ∧ wd_eng g1 = <[e := rec lk' w0]> (wd_eng g) ∧
    world_inv (e :: es) g1 ∧ sys_inv fuel L (reg_D ids) c (init_ghost rg ids n) w0.
Proof.
  intros Hcfg Hconf Hlo.
  destruct (backend_init_run can_alloc niocregif L rg ids new c (WLink false false 0 "") lk' (getifaddrs t) ifname nbufs
    Hrg ltac:(lia) ltac:(by split) Hcfg Hlo Hreg) as (w0 & E & Ec & Hw & Hf & He & Es & Ess & En).
  set (e := fresh (dom (wd_eng g))).
  assert (Hne : wd_eng g !! e = None) by (apply not_elem_of_dom, is_fresh).
  destruct (world_add es g e (rec lk' w0) Hworld Hne) as (sl & Ei & Hw1).
  exists e, w0, (World sl (<[e := rec lk' w0]> (wd_eng g))). split_and!; [|done|done|done|]; [|by apply (registered_sys fuel L n rg ids c Hrg Hfuel Hn)].
  unfold start, w_init. mstep (engines_run es g Hworld). mstep.
  mstep (lift_run _ _ g (engine_active_run g ifname es (λ e, proj1 (wi_eng _ _ Hworld e)))).
  destruct (existsb _ es) eqn:Hx.
  { apply (any_excludes es g ifname Hworld) in Hx as (e' & r & Hr & Hx). by rewrite (Hnone e' r Hr) in Hx. }
  mstep. mstep (lift_run _ _ g Hwait). rewrite (proj2 (Z.leb_le _ _) Hnbufs). mstep.
  mstep (lift_run _ _ g E). mstep. mstep. fold e. by mstep (liftsl_run _ _ _ (World _ (<[e := rec lk' w0]> (wd_eng g))) Ei).
Qed.

(** The addresses of the interface, which do not change between being counted and being
    read. *)
Context (l : list ifaddrs).
Hypothesis Hl : getifaddrs t = Some l.
Hypothesis Hcnt : backend_addr_cnt (Some l) ifname = Done cnt.
Hypothesis Hent : ∀ i, i ∈ l → ifa_name i = ifname → entry_ok i ∧ no_loopback i.
Hypothesis Hlen : Z.of_nat (length (v6s ifname l) + length (v4s ifname l)) <= UINT16_MAX.

Lemma config_run :
  ∃ c lk', backend_addr_config (getifaddrs t) ifname (e_conf new) (WLink false false 0 "") = Done (c, lk') ∧
    ifconf_wf c ∧ is_loopback lk' = false ∧ is_Some (ifaddr c !! Z.to_nat (addr4_pos c)) ∧ is_Some (ifaddr c !! 0%nat).
Proof.
  pose proof (wait_addrs_pos getifaddrs itries ifname 0 cnt t Hwait) as Hpos.
  destruct (addr_config_run ifname l cnt (e_conf new) (WLink false false 0 "")) as (c & lk' & E & Hf & Ec & Hlo & _ & _);
    try done; [by apply Hent|apply (zeros_u8 6)|].
  exists c, lk'. rewrite Hl. pose proof (filled_wf _ _ _ _ _ Hf) as Hwf.
  split; [done|]. split; [done|]. split; [apply Hlo; [by apply Hent|done]|].
  pose proof (wf_cnt c Hwf). split; apply lookup_lt_is_Some_2; [rewrite (fi_pos _ _ _ _ _ Hf)|]; lia.
Qed.

(** C1: Opening an engine puts it into the list of engines with all invariants established;
    whatever a client that respects the contracts of the calls then does, deciding by what
    they return, nothing goes wrong; and when it has given all vectors back, closing the engine gives netmap the list
    of all extra buffers and leaves the other engines as they were.  The contract of
    [w_nic_rx] is about the network: the frames that arrive are well formed and there is a free
    vector for each UDP frame ([arrived]); every synchronisation transmits something. *)
Theorem engine_lifecycle :
  ∃ c lk' e w0 g1, backend_addr_config (getifaddrs t) ifname (e_conf new) (WLink false false 0 "") = Done (c, lk') ∧
    ifconf_wf c ∧ start itries g = Done (Some e, g1) ∧ wd_eng g !! e = None ∧ wd_eng g1 = <[e := rec lk' w0]> (wd_eng g) ∧
    world_inv (e :: es) g1 ∧
    ∀ cl, behaved can_alloc fuel tries L (reg_D ids) c cl (init_ghost rg ids n) w0 →
      ∃ w' g', run can_alloc fuel tries (reg_D ids) cl w0 = Done w' ∧
        session can_alloc fuel tries (reg_D ids) cl (init_ghost rg ids n) w0 g' w' ∧ sys_inv fuel L (reg_D ids) c g' w' ∧
        let bufs := h_iov (g_home g') <$> seq 0 (length ids) in
        let g2 := World (wd_sl g1) (<[e := rec lk' w']> (wd_eng g1)) in
        ((∀ free, g_m g' !! IOVQ = Some free → length free = length ids) → Forall is_u32 bufs →
         ∃ first w2 g3, w_cleanup (size (dom (wd_eng g2))) e g2 = Done (first, g3) ∧
           backend_cleanup w' = Done (first, w2) ∧ buf_list (e_mem w2) first bufs ∧
           wd_eng g3 = wd_eng g ∧ world_inv es g3).
Proof.
  destruct config_run as (c & lk' & Hcfg & Hconf & Hlo & Hia4 & Hia6).
  destruct (w_init_run c lk' Hcfg Hconf Hlo) as (e & w0 & g1 & E & Hne & Eg1 & Hw1 & Hs0). exists c, lk', e, w0, g1.
  do 6 (split; [done|]). intros cl Hb.
  assert (HD : (1 < size (reg_D ids))%nat) by (rewrite size_reg_D; lia).
  destruct (run_safe can_alloc Halloc fuel tries L (reg_D ids) c HL Hconf (λ _, Hia4) (λ _, Hia6) HD cl _ w0 Hs0 Hb) as (w' & g' & Er & Hss & Hs').
  exists w', g'. do 3 (split; [done|]). intros bufs g2 Hall Hu.
  pose proof (sy_rx _ _ _ _ _ _ Hs') as [Hnet Hso Hrx _ _ _ (nm & Bn & Hnm & _)].
  destruct (ei_iovq _ _ _ (ni_eng _ _ _ _ _ Hnet)) as [free Hfree].
  destruct (backend_cleanup_correct L (g_home g') (reg_D ids) (length ids) (g_m g') (g_tm g') (g_B g') nm Bn w' free)
    as (w2 & Ec & _ & _ & Hbl & _); try done; [apply elem_of_reg_D|by apply Hall|lia| |lia| | |].
  { apply Z.lt_trans with (2 ^ 32); [apply Hids|done]. }
  { intros i i' Hi Hi'. apply (rx_homes _ _ _ Hrx); rewrite (ei_bufs _ _ _ (ni_eng _ _ _ _ _ Hnet)); by apply elem_of_reg_D. }
  { intros i Hi. apply (proj1 (Forall_forall _ _) Hu). apply list_elem_of_fmap. exists i. split; [done|]. apply elem_of_seq. lia. }
  assert (Eg2 : wd_eng g2 = <[e := rec lk' w']> (wd_eng g)) by (unfold g2; cbn; by rewrite Eg1, insert_insert_eq).
  assert (Hw2 : world_inv (e :: es) g2).
  { destruct Hw1 as [W1 W2]. split.
    - cbn [wd_sl wd_eng g2]. rewrite dom_insert_lookup_L; [done|]. rewrite Eg1, lookup_insert_eq. eauto.
    - intros e'. rewrite W2, Eg1, Eg2, !lookup_insert_is_Some. done. }
  destruct (world_remove e es g2 Hw2) as (sl & Esl & Hw3).
  { intros Hi%(wi_eng _ _ Hworld). rewrite Hne in Hi. by destruct Hi. }
  eexists _, w2, _. split; [|split; [exact Ec|split; [exact Hbl|split; [|exact Hw3]]]].
  - unfold w_cleanup. mstep. rewrite (eq_trans (f_equal (.!! e) Eg2) (lookup_insert_eq _ _ _)). mstep (lift_run _ _ g2 Ec).
    mstep (liftsl_run _ _ _ g2 Esl). mstep. by mstep.
  - change (delete e (wd_eng g2) = wd_eng g). rewrite Eg2. by apply delete_insert_id.
Qed.
End Life.

(** ** Witness *)

#[local] Existing Instance netmap_ex.
#[local] Existing Instance os_ex.
Lemma netmap_ex_poll : NetmapPoll.
Proof. by split. Qed.
#[local] Existing Instance netmap_ex_poll.

Definition world_ex : world := World (SlHeap {[ENGINES := None]} ∅) ∅.

Lemma world_ex_inv : world_inv [] world_ex.
Proof.
  split.
  - exists (QHeap {[ENGINES := SqHead None (LHead ENGINES) 0]} ∅). split; [split|split].
    + reflexivity.
    + intros h xs [<- <-]%lookup_singleton_Some. split; [apply lookup_singleton_eq|done|constructor].
    + intros h1 h2 xs ys e [<- <-]%lookup_singleton_Some [<- <-]%lookup_singleton_Some. done.
    + done.
    + cbn [heads]. intros h hd [<- <-]%lookup_singleton_Some. apply lookup_singleton_eq.
  - intros e. split; [by intros ?%elem_of_nil|]. cbn. rewrite lookup_empty. by intros [].
Qed.

Definition conf_session_ex : ifconf :=
  match backend_addr_config (Some ifaddrs_ex) "eth0" (e_conf engine_new_ex) (WLink false false 0 "") with
  | Done (c, _) => c
  | _ => ifconf_ex
  end.
Lemma conf_session_ex_wf : ifconf_wf conf_session_ex.
Proof.
  assert (Hb : ∀ l, bool_decide (Forall is_u8 l) = true → is_bytes l) by (by intros l ?%bool_decide_eq_true).
  split; [done|done|done| |done|].
  - split; [by apply Hb|done].
  - repeat constructor; try done; by apply Hb.
Qed.

(** The calls of a client that leaves all vectors free. *)
Definition client_ex : client :=
  Call CQueue (λ r, Call (CBind 1 0x5000 None) (λ _, Call CNicTx (λ _,
    match r with RQueue q => Call (CVectors q) (λ _, Call CRxReady (λ _, Stop)) | _ => Stop end))).

Lemma engine_lifecycle_witness :
  ∃ e w0 g1 w' w2 g3,
    w_init (λ _ _, true) niocregif_ex (λ _, Some ifaddrs_ex) (repeat 0 16) 0 1 "eth0" 3 world_ex = Done (Some e, g1) ∧
    run (λ _ _, true) 5 1 (reg_D [0; 1; 2]) client_ex w0 = Done w' ∧
    backend_cleanup w' = Done (0, w2) ∧ buf_list (e_mem w2) 0 [0; 1; 2] ∧
    (let g2 := World (wd_sl g1) (<[e := EngineRec "eth0" (WLink false false 1000 "e1000") w']> (wd_eng g1)) in
     w_cleanup (size (dom (wd_eng g2))) e g2 = Done (0, g3)) ∧ world_inv [] g3.
Proof.
  destruct (engine_lifecycle (λ _ _, true) niocregif_ex (λ _ _, eq_refl) (λ _, Some ifaddrs_ex) (repeat 0 16) [] world_ex
    "eth0" 3 world_ex_inv 1 1 5 128 10 rg_ex [0; 1; 2] 2 1 rg_ex_ok) with ifaddrs_ex
    as (c & lk & e & w0 & g1 & Hcfg & _ & E & _ & Eg & _ & Hl).
  - lia.
  - cbn. lia.
  - split; [lia|]. intros [|k] r; [|by destruct k]. intros [= <-]. done.
  - lia.
  - done.
  - vm_compute. reflexivity.
  - unfold UINT32_MAX. lia.
  - reflexivity.
  - reflexivity.
  - vm_compute. reflexivity.
  - apply ifaddrs_ex_ok.
  - vm_compute. discriminate.
  - assert (Hx : Done (c, lk) = Done (conf_session_ex, WLink false false 1000 "e1000")).
    { rewrite <- Hcfg. vm_compute. reflexivity. }
    injection Hx as -> ->. clear Hcfg.
    destruct (Hl client_ex) as (w' & g' & Er & Hs & _ & Hc).
    { constructor; [done|]. intros r1 x1 y1 _ (-> & F1 & ->) Hs1. constructor.
      { split; [cbn; lia|]. split; [lia|]. split; [unfold_u; lia|]. split; [lia|]. eexists. split; [reflexivity|].
        pose proof (xs_sock _ _ _ _ _ _ _ _ _ _ _ (sy_rx _ _ _ _ _ _ Hs1)) as Hso.
        apply (finds_iff [] 0); [apply (si_rep _ _ _ _ Hso)| |reflexivity].
        split; [by apply addr_wf_dec|apply zero_sockaddr_wf]. }
      intros r2 x2 y2 _ (s & h & t & _ & Hh & ->) _. constructor; [done|]. intros r3 x3 y3 _ -> _. constructor.
      { exists []. split; [by apply elem_of_union_l, elem_of_singleton|]. cbn [g_m] in Hh |- *. cbn [with_queue g_m] in Hh |- *.
        rewrite lookup_insert_ne; [apply lookup_insert_eq|]. intros ->. by rewrite lookup_insert_eq in Hh. }
      intros r4 x4 y4 _ (-> & _) _. constructor; [done|]. intros r5 x5 y5 _ (-> & _) _. constructor. }
    set (g0 := init_ghost rg_ex [0; 1; 2] 10) in *.
    assert (Hfin : g_m g' !! IOVQ = Some [2; 1; 0]%nat ∧ g_home g' = g_home g0).
    { inversion Hs as [|a1 k1 r1 x1 y1 z1 t1 u1 v1 _ E1 Hs1]; subst. destruct E1 as (-> & F1 & ->).
      inversion Hs1 as [|a2 k2 r2 x2 y2 z2 t2 u2 v2 _ E2 Hs2]; subst. destruct E2 as (s & h & t & _ & F2 & ->).
      inversion Hs2 as [|a3 k3 r3 x3 y3 z3 t3 u3 v3 _ E3 Hs3]; subst. cbn in E3. subst.
      inversion Hs3 as [|a4 k4 r4 x4 y4 z4 t4 u4 v4 _ E4 Hs4]; subst. destruct E4 as (-> & _).
      inversion Hs4 as [|a5 k5 r5 x5 y5 z5 t5 u5 v5 _ E5 Hs5]; subst. destruct E5 as (-> & _).
      inversion Hs5; subst. split; [|done]. cbn [g_m with_queue] in F2 |- *.
      assert (new_queue w0 ≠ IOVQ) by (intros E'; by rewrite E' in F1).
      assert (h ≠ IOVQ) by (intros ->; by rewrite lookup_insert_ne in F2).
      rewrite (lookup_insert_ne _ h IOVQ) by assumption. rewrite (lookup_insert_ne _ (new_queue w0) IOVQ) by assumption. exact eq_refl. }
    destruct Hfin as [Hfree Hhome]. destruct Hc as (first & w2 & g3 & Ec & Eb & Hb & _ & Hw).
    + intros free. by rewrite Hfree; intros [= <-].
    + rewrite Hhome. repeat constructor; cbn; unfold is_u32; lia.
    + rewrite Hhome in Hb. assert (first = 0) as -> by by destruct Hb.
      exists e, w0, g1, w', w2, g3. split; [exact E|]. split; [exact Er|]. split; [exact Eb|].
      split; [exact Hb|]. split; [exact Ec|exact Hw].
Defined.
