(* ===== verification/Inetd.v ===== *)
(** The small services of the inetd example (bin/inetd.c): echo, discard, and the benchmark
    service that returns whole flights of packets. *)

From stdpp Require Import strings.
From S2P Require Import Prelude Util Krng Queue SList Wire Cksum Addr Ifaddr Khash Engine Netmap Ip Send Arp Sock Icmp Rx Reply NicRx Connect Tx Backend System Life.

(** ** The code *)

(** [struct payload], at the start of the data of a vector. *)
Definition p_nonce (i : nat) : M engine Z := v ← get_iov i; b ← ldm (v_buf v) 8; mret (le_val b).
Definition p_len (i : nat) : M engine Z := v ← get_iov i; b ← ldm (padd (v_buf v) 8) 8; mret (le_val b).

(** The static variables [tmp], [tmp_len] and [nonce] of the benchmark service. *)
Record statics := Statics { st_tmp : nat; st_tmp_len : Z; st_nonce : Z }.

Section Code.
Context `{!Netmap} (can_alloc : kh_array → Z → bool) (fuel tries iovs : nat).

(** The loop over the received packets of the benchmark service; the result tells whether
    to reply. *)
Fixpoint bench_loop (n i : nat) (st : statics) : M engine (bool * statics) :=
  match n with
  | O => no_fuel
  | S n =>
      e ← liftq (sq_empty i);
      if (e : bool) then mret (false, st) else
      v ← liftq (f ← sq_first i; deref f);
      nonce ← p_nonce v;
      if negb (st_nonce st =? nonce) then mret (true, Statics (st_tmp st) (st_tmp_len st) nonce) else
      len ← p_len v;
      st ← (if st_tmp_len st <? len then
              sq_move i (st_tmp st) ;; x ← get_iov v;
              mret (Statics (st_tmp st) (u64 (st_tmp_len st + v_len x)) (st_nonce st))
            else mret st);
      if len <=? st_tmp_len st then mret (true, st) else bench_loop n i st
  end.

Definition benchmark (i o : nat) (st : statics) : M engine statics :=
  st ← (if st_nonce st =? 0 then
          v ← liftq (f ← sq_first i; deref f); nonce ← p_nonce v;
          mret (Statics (st_tmp st) (st_tmp_len st) nonce)
        else mret st);
  '(tx, st) ← bench_loop (S iovs) i st;
  if (tx : bool) then liftq (sq_concat o (st_tmp st)) ;; mret (Statics (st_tmp st) 0 0)
  else mret st.

(** The body of the loop over the sockets with new data. *)
Definition serve (st : statics) (s : nat) : M engine statics :=
  i ← w_iov_sq_new;
  sk ← get_sock s; w_rx sk i ;;
  e ← liftq (sq_empty i);
  if (e : bool) then mret st else
  o ← w_iov_sq_new;
  st ← (if bswap16 (ws_lport sk) =? 7 then liftq (sq_concat o i) ;; mret st
        else if bswap16 (ws_lport sk) =? 9 then mret st
        else if bswap16 (ws_lport sk) =? 55555 then benchmark i o st
        else die);
  e ← liftq (sq_empty o);
  when (negb e) (w_tx can_alloc fuel tries iovs s o ;; w_nic_tx) ;;
  w_free i ;; w_free o ;;
  mret st.

Fixpoint serve_all (st : statics) (sl : list nat) : M engine statics :=
  match sl with
  | [] => mret st
  | s :: sl => st ← serve st s; serve_all st sl
  end.

(** One round of the main loop. *)
Definition inetd_round (busywait : bool) (st : statics) : M engine statics :=
  b ← w_nic_rx can_alloc fuel 1 (if busywait then 0 else -1);
  if negb b then mret st else '(_, sl) ← w_rx_ready; serve_all st sl.

(** Opening the services on all addresses. *)
Fixpoint inetd_binds (opt : w_sockopt) (n : nat) (idx : Z) : M engine unit :=
  match n with
  | O => mret tt
  | S n =>
      w_bind can_alloc fuel true idx (bswap16 7) (Some opt) ;;
      w_bind can_alloc fuel true idx (bswap16 9) (Some opt) ;;
      w_bind can_alloc fuel true idx (bswap16 55555) (Some opt) ;;
      inetd_binds opt n (u16 (idx + 1))
  end.
Definition inetd_start (opt : w_sockopt) : M engine statics :=
  tmp ← w_iov_sq_new;
  w ← get; inetd_binds opt (Z.to_nat (addr_cnt (e_conf w))) 0 ;;
  mret (Statics tmp 0 0).
End Code.

(** [main] from the arguments on: [engines] bounds the list of engines, and the signal
    comes after [n] rounds. *)
Section Main.
Context `{!Netmap, !Os} (can_alloc : kh_array → Z → bool) (niocregif : string → nr_mode → Z → option nm_reg).
Context (getifaddrs : nat → option (list ifaddrs)) (now : bytes) (engines inits fuel tries iovs : nat).

Definition on_engine {A} (e : nat) (m : M engine A) : M world A := λ g,
  match wd_eng g !! e with
  | None => Fault
  | Some r =>
      match m (er_engine r) with
      | Done (a, w) => Done (a, World (wd_sl g) (<[e := EngineRec (er_ifname r) (er_link r) w]> (wd_eng g)))
      | Died => Died
      | Fault => Fault
      | NoFuel => NoFuel
      end
  end.

Fixpoint inetd_rounds (busywait : bool) (n : nat) (st : statics) : M engine statics :=
  match n with
  | O => mret st
  | S n => st ← inetd_round can_alloc fuel tries iovs busywait st; inetd_rounds busywait n st
  end.

Definition inetd_main (ifname : string) (nbufs : Z) (opt : w_sockopt) (busywait : bool) (n : nat) : M world Z :=
  o ← w_init can_alloc niocregif getifaddrs now engines inits ifname nbufs;
  e ← (match o with Some e => mret e | None => fault end);
  st ← on_engine e (inetd_start can_alloc fuel opt);
  on_engine e (inetd_rounds busywait n st) ;;
  w_cleanup engines e.
End Main.

(** ** The benchmark service on lists *)

(** Nonce, length of the flight and length of the packet. *)
Definition payload : Type := Z * Z * Z.
Definition pl_nonce (p : payload) : Z := fst (fst p).
Definition pl_len (p : payload) : Z := snd (fst p).
Definition pl_size (p : payload) : Z := snd p.

(** What the loop does to the packets [ts] that are kept, of [tl] bytes, and the received
    packets [xs]: whether to reply, the packets kept, their length and the packets left. *)
Fixpoint flight (pay : nat → payload) (ts : list nat) (tl nn : Z) (xs : list nat) : bool * list nat * Z * list nat :=
  match xs with
  | [] => (false, ts, tl, [])
  | x :: xs =>
      if negb (nn =? pl_nonce (pay x)) || (pl_len (pay x) <=? tl) then (true, ts, tl, x :: xs)
      else
        let tl := u64 (tl + pl_size (pay x)) in
        if pl_len (pay x) <=? tl then (true, ts ++ [x], tl, xs) else flight pay (ts ++ [x]) tl nn xs
  end.

(** The service: the packets reply_ghost with, the packets discarded, and what is kept. *)
Definition bench_reply (pay : nat → payload) (st : statics) (ts ys : list nat) :
    list nat * list nat * statics * list nat :=
  let nn := if st_nonce st =? 0 then from_option (pl_nonce ∘ pay) 0 (head ys) else st_nonce st in
  match flight pay ts (st_tmp_len st) nn ys with
  | (true, ts', _, rest) => (ts', rest, Statics (st_tmp st) 0 0, [])
  | (false, ts', tl, rest) => ([], rest, Statics (st_tmp st) tl nn, ts')
  end.

(** All services, by their port. *)
Definition reply_of (port : Z) (pay : nat → payload) (st : statics) (ts ys : list nat) :
    list nat * list nat * statics * list nat :=
  if port =? 7 then (ys, [], st, ts)
  else if port =? 9 then ([], ys, st, ts)
  else bench_reply pay st ts ys.

(** A flight of packets with nonce [nn] and total length [tot]. *)
Definition of_flight (nn tot : Z) (p : payload) : Prop :=
  pl_nonce p = nn ∧ pl_len p = tot ∧ 0 <= pl_size p < 2 ^ 16.
Definition sizes (pay : nat → payload) (xs : list nat) : Z := sum_z ((λ x, pl_size (pay x)) <$> xs).

Lemma sizes_cons pay x xs : sizes pay (x :: xs) = pl_size (pay x) + sizes pay xs.
Proof. done. Qed.
Lemma sizes_app pay xs ys : sizes pay (xs ++ ys) = sizes pay xs + sizes pay ys.
Proof. induction xs as [|x xs IH]; [done|]. cbn [app]. rewrite !sizes_cons. lia. Qed.
Lemma sizes_nonneg pay nn tot xs : (∀ x, x ∈ xs → of_flight nn tot (pay x)) → 0 <= sizes pay xs.
Proof.
  induction xs as [|x xs IH]; intros Hx; [done|]. rewrite sizes_cons.
  destruct (Hx x ltac:(by left)) as (_ & _ & ?). assert (0 <= sizes pay xs) by (apply IH; intros; apply Hx; by right). lia.
Qed.

(** Packets of a flight that is not complete are kept. *)
Lemma flight_partial pay nn tot xs : ∀ ts tl,
  (∀ x, x ∈ xs → of_flight nn tot (pay x)) → 0 <= tl → tl + sizes pay xs < tot → tot < 2 ^ 64 →
  flight pay ts tl nn xs = (false, ts ++ xs, tl + sizes pay xs, []).
Proof.
  induction xs as [|x xs IH]; intros ts tl Hx Ht Hs H64.
  { cbn. change (sizes pay []) with 0. by rewrite app_nil_r, Z.add_0_r. }
  rewrite sizes_cons in Hs. destruct (Hx x ltac:(by left)) as (Hn & Hl & Hsz).
  assert (Hx' : ∀ y, y ∈ xs → of_flight nn tot (pay y)) by (intros; apply Hx; by right).
  pose proof (sizes_nonneg pay nn tot xs Hx'). cbn [flight]. rewrite Hn, Hl, Z.eqb_refl, (proj2 (Z.leb_gt _ _)) by lia. cbn [negb orb].
  rewrite u64_id by (unfold is_u64; lia). rewrite (proj2 (Z.leb_gt _ _)) by lia.
  rewrite IH by (done || lia). rewrite <- app_assoc, sizes_cons. cbn [app]. do 2 f_equal. lia.
Qed.

(** The packet that completes the flight. *)
Lemma flight_complete pay nn tot xs x ys ts tl :
  (∀ y, y ∈ xs ++ [x] → of_flight nn tot (pay y)) → 0 <= tl → tl + sizes pay xs < tot → tot < 2 ^ 63 →
  tot <= tl + sizes pay (xs ++ [x]) →
  flight pay ts tl nn (xs ++ x :: ys) = (true, ts ++ xs ++ [x], tl + sizes pay (xs ++ [x]), ys).
Proof.
  revert ts tl. induction xs as [|y xs IH]; intros ts tl Hx Ht Hs H64 Htot.
  - destruct (Hx x ltac:(by left)) as (Hn & Hl & Hsz). change (sizes pay []) with 0 in Hs.
    cbn [app] in *. rewrite sizes_cons in Htot. change (sizes pay []) with 0 in Htot. cbn [flight].
    rewrite Hn, Hl, Z.eqb_refl, (proj2 (Z.leb_gt _ _)) by lia. cbn [negb orb].
    rewrite u64_id by (unfold is_u64; lia). rewrite (proj2 (Z.leb_le _ _)) by lia.
    rewrite sizes_cons. change (sizes pay []) with 0. by rewrite Z.add_0_r.
  - cbn [app] in *. rewrite sizes_cons in Hs, Htot. destruct (Hx y ltac:(by left)) as (Hn & Hl & Hsz).
    assert (Hx' : ∀ z, z ∈ xs ++ [x] → of_flight nn tot (pay z)) by (intros; apply Hx; by right).
    assert (0 <= sizes pay xs) by (apply (sizes_nonneg pay nn tot); intros z Hz; apply Hx', elem_of_app; by left).
    cbn [flight]. rewrite Hn, Hl, Z.eqb_refl, (proj2 (Z.leb_gt _ _)) by lia. cbn [negb orb].
    rewrite u64_id by (unfold is_u64; lia). rewrite (proj2 (Z.leb_gt _ _)) by lia.
    rewrite IH by (done || lia). rewrite <- app_assoc, sizes_cons. cbn [app]. do 2 f_equal. lia.
Qed.

(** ** What the code does *)

(** The payload of a vector, and that it is inside its buffer. *)
Definition payload_of (w : engine) (i : nat) : payload :=
  match e_bufs w !! i with
  | Some v => let b := default [] (e_mem w !! fst (v_buf v)) in
      let o := Z.to_nat (snd (v_buf v)) in
      (le_val (ldn b o 8), le_val (ldn b (o + 8) 8), v_len v)
  | None => (0, 0, 0)
  end.
Definition has_payload (w : engine) (i : nat) : Prop :=
  ∃ v b, e_bufs w !! i = Some v ∧ e_mem w !! fst (v_buf v) = Some b ∧
    0 <= snd (v_buf v) ∧ snd (v_buf v) + 16 <= Z.of_nat (length b).

Lemma payload_run w i : has_payload w i →
  p_nonce i w = Done (pl_nonce (payload_of w i), w) ∧ p_len i w = Done (pl_len (payload_of w i), w) ∧
  ∃ v, get_iov i w = Done (v, w) ∧ v_len v = pl_size (payload_of w i).
Proof.
  intros (v & b & Hv & Hb & H0 & H16). unfold payload_of. rewrite Hv, Hb. cbn [default].
  assert (Hp : ptr_at (v_buf v) (fst (v_buf v)) (Z.to_nat (snd (v_buf v)))).
  { unfold ptr_at. rewrite Z2Nat.id by done. by destruct (v_buf v). }
  split; [|split].
  - unfold p_nonce. mstep (get_iov_run i v w Hv). by mstep (ldm_run w _ _ _ b Hp Hb 8 ltac:(lia)).
  - unfold p_len. mstep (get_iov_run i v w Hv). by mstep (ldm_run w _ _ _ b (ptr_at_padd _ _ _ 8 Hp) Hb 8 ltac:(lia)).
  - exists v. split; [by apply get_iov_run|done].
Qed.

(** A field of a map after insertions at other keys. *)
Ltac lookups := cbn; repeat first [rewrite lookup_insert_eq | rewrite lookup_insert_ne by congruence].

Section Services.
Context (can_alloc : kh_array → Z → bool) (fuel tries L : nat) (D : gset nat) (cf : ifconf).
Hypothesis HL : (110 <= L)%nat.
Hypothesis Hconf : ifconf_wf cf.
Hypothesis HD : (1 < size D)%nat.
Notation sys := (sys_inv fuel L D cf).

(** The first vector of a queue. *)
Lemma first_run g w q x xs : sys g w → owns g q (x :: xs) → liftq (f ← sq_first q; deref f) w = Done (x, w).
Proof.
  intros Hsys Ho. destruct (owned fuel L D cf g w Hsys q _ Ho) as (Hx & _ & _).
  pose proof (liftq_first D (g_m g) w q _ (ni_eng _ _ _ _ _ (xs_net _ _ _ _ _ _ _ _ _ _ _ (sy_rx _ _ _ _ _ _ Hsys))) Hx) as E.
  unfold liftq, mbind, M_bind in *. destruct (sq_first q (e_q w)) as [[f qh]| | |]; [|done..].
  injection E as -> Ew. cbn. by rewrite Ew.
Qed.

Lemma empty_run g w q xs : sys g w → owns g q xs → liftq (sq_empty q) w = Done (bool_decide (xs = []), w).
Proof.
  intros Hsys Ho. destruct (owned fuel L D cf g w Hsys q _ Ho) as (Hx & _ & _).
  by apply (liftq_empty D (g_m g) w q _ (ni_eng _ _ _ _ _ (xs_net _ _ _ _ _ _ _ _ _ _ _ (sy_rx _ _ _ _ _ _ Hsys)))).
Qed.

Lemma nonempty_run g w q x xs : sys g w → owns g q (x :: xs) → liftq (sq_empty q) w = Done (false, w).
Proof. apply empty_run. Qed.

(** The state after the loop has sorted the received packets. *)
Definition sorted (g : ghost) (tmp i : nat) (ts' rest : list nat) : ghost :=
  with_m g (<[tmp := ts']> (<[i := rest]> (g_m g))).

Lemma bench_loop_run i tmp nn : i ≠ tmp → ∀ xs n g w ts tl,
  sys g w → owns g i xs → owns g tmp ts → (length xs < n)%nat → (∀ x, x ∈ xs → has_payload w x) →
  let '(tx, ts', tl', rest) := flight (payload_of w) ts tl nn xs in
  ∃ q' nn', bench_loop n i (Statics tmp tl nn) w = Done ((tx, Statics tmp tl' nn'), set_iovs w q' (e_bufs w)) ∧
    (tx = false → nn' = nn) ∧ sys (sorted g tmp i ts' rest) (set_iovs w q' (e_bufs w)).
Proof.
  intros Hne xs. induction xs as [|x xs IH]; intros n g w ts tl Hsys Hi Ht Hn Hpay;
    (destruct n as [|n]; [cbn in Hn; lia|]); cbn [flight bench_loop].
  - exists (e_q w), nn. mstep (empty_run g w i [] Hsys Hi). rewrite set_iovs_id. split; [done|]. split; [done|].
    unfold sorted. destruct Hi as [_ Hi], Ht as [_ Ht]. rewrite (insert_id (g_m g) i []), (insert_id (g_m g) tmp ts) by done. by destruct g.
  - assert (Hst : sys (sorted g tmp i ts (x :: xs)) w).
    { unfold sorted. destruct Hi as [_ Hi], Ht as [_ Ht]. rewrite (insert_id (g_m g) i _), (insert_id (g_m g) tmp ts) by done. by destruct g. }
    destruct (payload_run w x (Hpay x ltac:(by left))) as (En & El & v & Ev & Esz).
    mstep (nonempty_run g w i x xs Hsys Hi). mstep (first_run g w i x xs Hsys Hi). mstep En. cbn [st_nonce].
    destruct (Z.eqb_spec nn (pl_nonce (payload_of w x))) as [Enn|Hnn]; cbn [negb orb].
    2: { exists (e_q w). eexists. rewrite set_iovs_id. split; [reflexivity|]. done. }
    mstep El. cbn [st_tmp_len]. destruct (Z.leb_spec (pl_len (payload_of w x)) tl) as [Hle|Hgt].
    { rewrite (proj2 (Z.ltb_ge _ _)) by lia. mstep. cbn [st_tmp_len]. rewrite (proj2 (Z.leb_le _ _)) by lia.
      exists (e_q w), nn. by rewrite set_iovs_id. }
    rewrite (proj2 (Z.ltb_lt _ _)) by lia.
    destruct (move_run fuel L D cf HL HD g w Hsys i tmp x xs ts Hne Hi Ht) as (qa & Ea & Hs1).
    set (w1 := set_iovs w qa (e_bufs w)) in *. set (g1 := with_m g _) in Hs1.
    assert (Ev' : get_iov x w1 = Done (v, w1)).
    { unfold get_iov in *. cbn. destruct (e_bufs w !! x); [congruence|done]. }
    cbn [st_tmp]. rewrite bind_assoc_run. mstep Ea. rewrite bind_assoc_run. mstep Ev'. mstep. rewrite Esz. cbn [st_tmp_len].
    destruct (Z.leb_spec (pl_len (payload_of w x)) (u64 (tl + pl_size (payload_of w x)))) as [Hle|Hlt].
    { exists qa, nn. split; [reflexivity|done]. }
    specialize (IH n g1 w1 (ts ++ [x]) (u64 (tl + pl_size (payload_of w x))) Hs1).
    change (payload_of w1) with (payload_of w) in IH. destruct (flight _ _ _ _ xs) as [[[tx ts'] tl'] rest] eqn:Ef.
    destruct IH as (q' & nn' & E & Hnn & Hs'); [| |cbn in Hn; lia|by intros y Hy; apply Hpay; right|].
    { split; [apply Hi|]. unfold g1. cbn. by rewrite lookup_insert_ne, lookup_insert_eq. }
    { split; [apply Ht|]. unfold g1. cbn. by rewrite lookup_insert_eq. }
    exists q', nn'. split; [exact E|]. split; [done|]. revert Hs'. unfold sorted, g1. cbn [with_m g_home g_m g_tm g_B g_q g_n].
    match goal with |- sys (with_m _ ?a) _ → sys (with_m _ ?b) _ => replace b with a; [done|] end.
    apply map_eq. intros y. rewrite !lookup_insert. by repeat case_decide.
Qed.

(** The benchmark service: [bench_reply] of the received packets. *)
Definition reply_ghost (g : ghost) (tmp i o : nat) (ts' rest reply : list nat) : ghost :=
  with_m g (<[o := reply]> (<[tmp := ts']> (<[i := rest]> (g_m g)))).

Lemma with_m_eq g m1 m2 : m1 = m2 → with_m g m1 = with_m g m2.
Proof. by intros ->. Qed.

Lemma bench_sort_run i o g w st x xs ts :
  i ≠ st_tmp st → sys g w → owns g i (x :: xs) → owns g (st_tmp st) ts → (∀ y, y ∈ x :: xs → has_payload w y) →
  let nn := if st_nonce st =? 0 then pl_nonce (payload_of w x) else st_nonce st in
  let '(tx, ts', tl', rest) := flight (payload_of w) ts (st_tmp_len st) nn (x :: xs) in
  ∃ q' nn', (tx = false → nn' = nn) ∧ sys (sorted g (st_tmp st) i ts' rest) (set_iovs w q' (e_bufs w)) ∧
    benchmark (size D) i o st w = (if tx then liftq (sq_concat o (st_tmp st)) ;; mret (Statics (st_tmp st) 0 0)
      else mret (Statics (st_tmp st) tl' nn')) (set_iovs w q' (e_bufs w)).
Proof.
  intros Hne Hsys Hi Ht Hpay nn. destruct (payload_run w x (Hpay x ltac:(by left))) as (En & _ & _).
  pose proof (inv_fuel_ok D _ _ (ei_q _ _ _ (ni_eng _ _ _ _ _ (xs_net _ _ _ _ _ _ _ _ _ _ _ (sy_rx _ _ _ _ _ _ Hsys)))) i _ (proj2 Hi)) as Hl.
  cbv beta in Hl.
  assert (E1 : (if st_nonce st =? 0 then
          v ← liftq (f ← sq_first i; deref f); nonce ← p_nonce v;
          mret (Statics (st_tmp st) (st_tmp_len st) nonce)
        else mret st) w = Done (Statics (st_tmp st) (st_tmp_len st) nn, w)).
  { unfold nn. destruct (Z.eqb_spec (st_nonce st) 0); [|by destruct st].
    mstep (first_run g w i x xs Hsys Hi). by mstep En. }
  pose proof (bench_loop_run i (st_tmp st) nn Hne (x :: xs) (S (size D)) g w ts (st_tmp_len st) Hsys Hi Ht ltac:(lia) Hpay) as Hb.
  destruct (flight _ _ _ _ (x :: xs)) as [[[tx ts'] tl'] rest]. destruct Hb as (q' & nn' & E & Hnn & Hs').
  exists q', nn'. split; [done|]. split; [done|]. unfold benchmark. mstep E1. mstep E. by destruct tx.
Qed.

Lemma benchmark_run i o g w st x xs ts :
  i ≠ st_tmp st → o ≠ st_tmp st → o ≠ i → sys g w →
  owns g i (x :: xs) → owns g o [] → owns g (st_tmp st) ts → (∀ y, y ∈ x :: xs → has_payload w y) →
  let '(reply, rest, st', ts') := bench_reply (payload_of w) st ts (x :: xs) in
  ∃ q', benchmark (size D) i o st w = Done (st', set_iovs w q' (e_bufs w)) ∧ st_tmp st' = st_tmp st ∧
    sys (reply_ghost g (st_tmp st) i o ts' rest reply) (set_iovs w q' (e_bufs w)).
Proof.
  intros Hit Hot Hoi Hsys Hi Ho Ht Hpay. pose proof (bench_sort_run i o g w st x xs ts Hit Hsys Hi Ht Hpay) as Hb.
  unfold bench_reply. cbn [head from_option]. change ((pl_nonce ∘ payload_of w) x) with (pl_nonce (payload_of w x)).
  cbv zeta in Hb |- *. destruct (flight _ _ _ _ (x :: xs)) as [[[tx ts'] tl'] rest]. destruct Hb as (q' & nn' & Hnn & Hs' & Eb).
  set (w1 := set_iovs w q' (e_bufs w)) in *. destruct tx.
  - destruct (sys_concat fuel L D cf HL HD _ w1 Hs' o (st_tmp st) [] ts' Hot) as (q2 & E2 & Hs2).
    + by apply (owned fuel L D cf g w Hsys o [] Ho).
    + by apply (owned fuel L D cf g w Hsys (st_tmp st) ts Ht).
    + unfold sorted. cbn. rewrite !lookup_insert_ne by done. apply Ho.
    + unfold sorted. cbn. by rewrite lookup_insert_eq.
    + exists q2. split; [rewrite Eb; by mstep E2|]. split; [done|]. unfold reply_ghost.
      erewrite with_m_eq; [exact Hs2|]. unfold sorted. cbn. by rewrite insert_insert_eq.
  - exists q'. rewrite Hnn in Eb by done. split; [done|]. split; [done|]. unfold reply_ghost.
    erewrite with_m_eq; [exact Hs'|]. apply insert_id. rewrite !lookup_insert_ne by done. apply Ho.
Qed.

(** *** Queues of the loop body *)

Lemma bench_tmp pay st ts ys : let '(_, _, st', _) := bench_reply pay st ts ys in st_tmp st' = st_tmp st.
Proof. unfold bench_reply. by destruct (flight _ _ _ _ _) as [[[[] ?] ?] ?]. Qed.

Section Replies.
Context `{NetmapLaws, !NetmapProgress}.

(** The queues after the received data [ys] went to the new queue [i], with the new queue [o]. *)
Definition taken (g : ghost) (iv i o : nat) (ys : list nat) : ghost :=
  with_queue (with_m (with_queue g i []) (<[i := ys]> (<[iv := []]> (<[i := []]> (g_m g))))) o [].

Lemma take_run g w s sk ys : sys g w → e_socks w !! s = Some sk → g_m g !! s_iv sk = Some ys → ys ≠ [] →
  ∃ i o q', g_m g !! i = None ∧ g_m g !! o = None ∧ o ≠ i ∧ sys (taken g (s_iv sk) i o ys) (set_iovs w q' (e_bufs w)) ∧
    ∀ st, serve can_alloc fuel tries (size D) st s w =
      (st ← (if bswap16 (ws_lport sk) =? 7 then liftq (sq_concat o i) ;; mret st
        else if bswap16 (ws_lport sk) =? 9 then mret st
        else if bswap16 (ws_lport sk) =? 55555 then benchmark (size D) i o st
        else die);
       e ← liftq (sq_empty o);
       when (negb e) (w_tx can_alloc fuel tries (size D) s o ;; w_nic_tx) ;;
       w_free i ;; w_free o ;; mret st) (set_iovs w q' (e_bufs w)).
Proof.
  intros Hsys Hsk Hy Hne. destruct (queue_sys fuel L D cf HL HD g w Hsys) as (q1 & E1 & Hi & Hs1). set (i := new_queue w) in *.
  set (w1 := set_iovs w q1 (e_bufs w)) in *.
  assert (Ho1 : owns (with_queue g i []) i []) by apply owns_new.
  destruct (owned fuel L D cf _ w1 Hs1 i [] Ho1) as (Hi1 & Hiq & His).
  assert (Hiv : i ≠ s_iv sk) by congruence.
  assert (Hivq : s_iv sk ≠ IOVQ) by apply (si_iv _ _ _ _ (xs_sock _ _ _ _ _ _ _ _ _ _ _ (sy_rx _ _ _ _ _ _ Hsys)) s sk Hsk).
  destruct (sys_concat fuel L D cf HL HD _ w1 Hs1 i (s_iv sk) [] ys Hiv Hiq Hivq Hi1) as (q2 & E2 & Hs2).
  { cbn. by rewrite lookup_insert_ne. }
  set (w2 := set_iovs w1 q2 (e_bufs w1)) in *. cbn [app g_m with_queue] in Hs2.
  destruct (queue_sys fuel L D cf HL HD _ w2 Hs2) as (q3 & E3 & Ho & Hs3). set (o := new_queue w2) in *. exists i, o, q3.
  assert (Hoi : o ≠ i) by (intros ->; cbn in Ho; by rewrite lookup_insert_eq in Ho).
  split_and!; [done| |done|exact Hs3|].
  - cbn in Ho. rewrite lookup_insert_ne in Ho by done.
    destruct (decide (o = s_iv sk)) as [->|]; [by rewrite lookup_insert_eq in Ho|]. by rewrite !lookup_insert_ne in Ho.
  - intros st. unfold serve. mstep E1. mstep (get_sock_run s sk w1 Hsk). unfold w_rx. mstep E2.
    assert (E4 : liftq (sq_empty i) w2 = Done (bool_decide (ys = []), w2)).
    { apply (empty_run _ w2 i ys Hs2). split; [apply Ho1|]. cbn. by rewrite lookup_insert_eq. }
    mstep E4. rewrite bool_decide_false by done. mstep E3. done.
Qed.

(** The service of the socket's port. *)
Lemma service_run g w port i o st ys ts :
  port = 7 ∨ port = 9 ∨ port = 55555 → i ≠ st_tmp st → o ≠ st_tmp st → o ≠ i → sys g w →
  owns g i ys → owns g o [] → owns g (st_tmp st) ts → ys ≠ [] → (port = 55555 → ∀ y, y ∈ ys → has_payload w y) →
  let '(reply, rest, st', ts') := reply_of port (payload_of w) st ts ys in
  ∃ q', (if port =? 7 then liftq (sq_concat o i) ;; mret st
        else if port =? 9 then mret st
        else if port =? 55555 then benchmark (size D) i o st
        else die) w = Done (st', set_iovs w q' (e_bufs w)) ∧ st_tmp st' = st_tmp st ∧
    sys (reply_ghost g (st_tmp st) i o ts' rest reply) (set_iovs w q' (e_bufs w)).
Proof.
  intros Hport Hit Hot Hoi Hsys Hi Ho Ht Hne Hpay. destruct ys as [|x xs]; [done|]. unfold reply_of.
  destruct Hport as [-> | [-> | ->]]; cbn [Z.eqb Pos.eqb].
  - destruct (sys_concat fuel L D cf HL HD g w Hsys o i [] (x :: xs) Hoi) as (q' & E & Hs').
    + by apply (owned fuel L D cf g w Hsys o [] Ho).
    + by apply (owned fuel L D cf g w Hsys i (x :: xs) Hi).
    + apply Ho.
    + apply Hi.
    + exists q'. split; [by mstep E|]. split; [done|]. unfold reply_ghost. erewrite with_m_eq; [exact Hs'|].
      rewrite (insert_id (<[i := []]> (g_m g)) (st_tmp st) ts) by (rewrite lookup_insert_ne by done; apply Ht). done.
  - exists (e_q w). rewrite set_iovs_id. split; [done|]. split; [done|]. unfold reply_ghost.
    rewrite (insert_id (g_m g) i), (insert_id (g_m g) (st_tmp st)), (insert_id (g_m g) o) by (apply Hi || apply Ht || apply Ho).
    by destruct g.
  - by apply benchmark_run; try apply Hpay.
Qed.

(** What the network must provide to reply with the packets [reply]. *)
Record can_reply (w : engine) (sk : w_sock) (src : w_addr) (reply : list nat) : Prop := {
  cr_src : tx_src w sk = Some src;
  cr_last : w_connected sk = false → last_ok w;
  cr_ring : ∃ k r, e_txr w !! k = Some r ∧ 1 < nr_num_slots r;
  cr_tx : ∀ y, y ∈ reply → can_tx L w sk y
}.

(** The reply is sent, if there is one. *)
Lemma reply_run g w s sk src o reply :
  sys g w → e_socks w !! s = Some sk → owns g o reply → (reply ≠ [] → can_reply w sk src reply) →
  ∃ w', (e ← liftq (sq_empty o); when (negb e) (w_tx can_alloc fuel tries (size D) s o ;; w_nic_tx)) w = Done (tt, w') ∧
    sys g w' ∧ tx_keep w w' ∧ (∀ y, y ∉ reply → not_waiting w y → not_waiting w' y) ∧
    ∀ y v, y ∈ reply → e_bufs w !! y = Some v → ∃ b b', e_mem w !! h_iov (g_home g) y = Some b ∧
      e_mem w' !! h_iov (g_home g) y = Some b' ∧ tx_frame_of sk src w v b b' ∧
      shown w w' (h_iov (g_home g) y) (frame_len sk v) b'.
Proof.
  intros Hsys Hsk Ho Hr. mstep (empty_run g w o reply Hsys Ho). case_bool_decide as Hnil.
  { exists w. subst. split; [done|]. split; [done|]. split; [done|]. split; [done|]. by intros y v ?%elem_of_nil. }
  destruct (Hr Hnil) as [R1 R2 R3 R4].
  destruct (tx_sys can_alloc fuel tries L D cf HL Hconf HD g w Hsys s o sk reply src Hsk R1 R2 Ho R3 R4)
    as (w1 & E1 & Hs1 & Hk1 & Hn1 & Hf1).
  destruct (nic_tx_sys fuel L D cf HL HD g w1 Hs1) as (w2 & E2 & Hs2 & Ho2 & Hn2 & Hsh2).
  exists w2. split; [cbn [negb when]; by mstep E1|]. split; [done|]. split; [|split].
  - transitivity w1; [done|by apply tx_only_keep].
  - intros y Hy Hw. apply Hn2. by apply Hn1.
  - destruct (tx_only_rest _ _ Ho2) as (_ & Em & _). intros y v Hy Hv. destruct (Hf1 y v Hy Hv) as (b & b' & Hb & Hb' & Hf & Hin).
    exists b, b'. split; [done|]. split; [by rewrite Em|]. split; [done|].
    destruct Hin as [Hin|Hin]; [apply (shown_mono w w1 w2 w2)|apply (shown_mono w w w1 w2)]; try done; try apply Hk1; try apply Ho2.
    by apply Hsh2.
Qed.

(** The end of the loop body: the reply is sent, and both queues are freed. *)
Lemma finish_run g w s sk src i o reply rest free :
  o ≠ i → sys g w → e_socks w !! s = Some sk → owns g o reply → owns g i rest → g_m g !! IOVQ = Some free →
  (reply ≠ [] → can_reply w sk src reply) → (∀ y, y ∈ rest → not_waiting w y) →
  let m' := <[IOVQ := (free ++ rest) ++ reply]> (<[o := []]> (<[IOVQ := free ++ rest]> (<[i := []]> (g_m g)))) in
  ∃ w', (∀ st : statics, (e ← liftq (sq_empty o); when (negb e) (w_tx can_alloc fuel tries (size D) s o ;; w_nic_tx) ;;
       w_free i ;; w_free o ;; mret st) w = Done (st, w')) ∧ eng_inv D m' w' ∧
    (e_conf w' = e_conf w ∧ e_socks w' = e_socks w ∧ no_idx <$> e_bufs w' = no_idx <$> e_bufs w) ∧
    (∀ y v, y ∈ reply → e_bufs w !! y = Some v → ∃ b b', e_mem w !! h_iov (g_home g) y = Some b ∧
      e_mem w' !! h_iov (g_home g) y = Some b' ∧ tx_frame_of sk src w v b b' ∧
      shown w w' (h_iov (g_home g) y) (frame_len sk v) b') ∧
    ((∀ y, y ∈ reply → not_waiting w' y) → sys (with_m g m') w').
Proof.
  intros Hoi Hsys Hsk Ho Hi Hf Hcan Hrest m'.
  destruct (owned fuel L D cf g w Hsys o reply Ho) as (_ & Hoq & _).
  destruct (reply_run g w s sk src o reply Hsys Hsk Ho Hcan) as (w3 & E3 & Hs3 & Hk3 & Hn3 & Hf3).
  destruct (free_sys fuel L D cf HL HD g w3 Hs3 i rest free Hi Hf) as (q4 & E4 & _ & Hs4).
  assert (Hn3' : ∀ y, y ∈ rest → not_waiting w3 y).
  { intros y Hyr. apply Hn3; [|by apply Hrest]. intros Hyo.
    pose proof (ei_q _ _ _ (ni_eng _ _ _ _ _ (xs_net _ _ _ _ _ _ _ _ _ _ _ (sy_rx _ _ _ _ _ _ Hsys)))) as Hq.
    by apply (inv_disj D _ _ Hq i o rest reply y ltac:(apply Hi) ltac:(apply Ho)). }
  specialize (Hs4 Hn3'). set (w4 := set_iovs w3 q4 (e_bufs w3)) in *. set (g4 := with_m g _) in *.
  destruct (free_sys fuel L D cf HL HD g4 w4 Hs4 o reply (free ++ rest)) as (q5 & E5 & Heng5 & Hs5).
  { split; [apply Ho|]. cbn [g_m g4 with_m]. rewrite lookup_insert_ne by done. rewrite lookup_insert_ne by done. apply Ho. }
  { apply lookup_insert_eq. }
  exists (set_iovs w4 q5 (e_bufs w4)). split; [intros st; rewrite <- bind_assoc_run; mstep E3; mstep E4; by mstep E5|]. split; [exact Heng5|]. split; [|split].
  - destruct Hk3 as [(K1 & K2 & K3 & K4 & K5 & K6 & K7) _ Kb]. by split_and!.
  - exact Hf3.
  - exact Hs5.
Qed.

(** The state after the service of socket [sk]: [reply] was sent, [rest] was not. *)
Record served (g : ghost) (w : engine) (sk : w_sock) (src : w_addr) (tmp : nat) (reply rest ts' : list nat)
    (g' : ghost) (w' : engine) : Prop := {
  sv_eng : eng_inv D (g_m g') w';
  sv_free : ∀ free, g_m g !! IOVQ = Some free → g_m g' !! IOVQ = Some (free ++ rest ++ reply);
  sv_sock : g_m g' !! s_iv sk = Some [];
  sv_tmp : g_m g' !! tmp = Some ts';
  sv_other : ∀ q, q ≠ IOVQ → q ≠ s_iv sk → q ≠ tmp → is_Some (g_m g !! q) → g_m g' !! q = g_m g !! q;
  sv_ghost : g_home g' = g_home g ∧ g_tm g' = g_tm g ∧ g_B g' = g_B g ∧ g_n g' = g_n g ∧ g_q g ⊆ g_q g';
  sv_keep : e_conf w' = e_conf w ∧ e_socks w' = e_socks w ∧ no_idx <$> e_bufs w' = no_idx <$> e_bufs w;
  sv_frames : ∀ y v, y ∈ reply → e_bufs w !! y = Some v → ∃ b b', e_mem w !! h_iov (g_home g) y = Some b ∧
    e_mem w' !! h_iov (g_home g) y = Some b' ∧ tx_frame_of sk src w v b b' ∧
    shown w w' (h_iov (g_home g) y) (frame_len sk v) b'
}.

(** The body of the loop, on a socket with new data. *)
Lemma serve_run g w s sk src st ys ts :
  sys g w → e_socks w !! s = Some sk → g_m g !! s_iv sk = Some ys → owns g (st_tmp st) ts →
  let port := bswap16 (ws_lport sk) in
  port = 7 ∨ port = 9 ∨ port = 55555 → (port = 55555 → ∀ y, y ∈ ys → has_payload w y) → ys ≠ [] →
  let '(reply, rest, st', ts') := reply_of port (payload_of w) st ts ys in
  (reply ≠ [] → can_reply w sk src reply) → (∀ y, y ∈ rest → not_waiting w y) →
  ∃ g' w', serve can_alloc fuel tries (size D) st s w = Done (st', w') ∧ st_tmp st' = st_tmp st ∧
    served g w sk src (st_tmp st) reply rest ts' g' w' ∧
    ((∀ y, y ∈ reply → not_waiting w' y) → sys g' w').
Proof.
  intros Hsys Hsk Hy Ht port Hport Hpay Hne.
  destruct (take_run g w s sk ys Hsys Hsk Hy Hne) as (i & o & q1 & Hi & Ho & Hoi & Hs1 & Erun).
  set (w1 := set_iovs w q1 (e_bufs w)) in *. set (g1 := taken g (s_iv sk) i o ys) in *.
  destruct (owned fuel L D cf g w Hsys _ ts Ht) as (Hx & Htq & Hts).
  assert (Hit : i ≠ st_tmp st) by congruence. assert (Hot : o ≠ st_tmp st) by congruence.
  assert (Hiv : i ≠ s_iv sk) by congruence. assert (Hov : o ≠ s_iv sk) by congruence.
  assert (Htv : st_tmp st ≠ s_iv sk) by (apply not_eq_sym, (Hts s sk Hsk)).
  assert (O1 : owns g1 i ys).
  { split; [cbn; set_solver|]. cbn. by rewrite lookup_insert_ne, lookup_insert_eq. }
  assert (O2 : owns g1 o []) by apply owns_new.
  assert (O3 : owns g1 (st_tmp st) ts).
  { split; [cbn; destruct Ht; set_solver|]. cbn. by rewrite !lookup_insert_ne. }
  pose proof (service_run g1 w1 port i o st ys ts Hport Hit Hot Hoi Hs1 O1 O2 O3 Hne Hpay) as Hsv.
  change (payload_of w1) with (payload_of w) in Hsv.
  destruct (reply_of _ _ _ _ _) as [[[reply rest] st'] ts']. intros Hcan Hrest.
  destruct Hsv as (q2 & E2 & Etmp & Hs2). set (w2 := set_iovs w1 q2 (e_bufs w1)) in *. set (g2 := reply_ghost g1 _ _ _ _ _ _) in *.
  assert (Efree : ∃ free, g_m g !! IOVQ = Some free).
  { apply (ei_iovq D _ _ (ni_eng _ _ _ _ _ (xs_net _ _ _ _ _ _ _ _ _ _ _ (sy_rx _ _ _ _ _ _ Hsys)))). }
  destruct Efree as [free Hf].
  assert (Hivq : s_iv sk ≠ IOVQ) by apply (si_iv _ _ _ _ (xs_sock _ _ _ _ _ _ _ _ _ _ _ (sy_rx _ _ _ _ _ _ Hsys)) s sk Hsk).
  assert (Hiq : i ≠ IOVQ) by congruence. assert (Hoq : o ≠ IOVQ) by congruence.
  assert (O4 : owns g2 o reply) by (split; [apply O2|apply lookup_insert_eq]).
  assert (O5 : owns g2 i rest) by (split; [apply O1|by lookups]).
  assert (F2 : g_m g2 !! IOVQ = Some free) by by (by lookups).
  assert (Hcan2 : reply ≠ [] → can_reply w2 sk src reply) by (intros Hn; by destruct (Hcan Hn)).
  destruct (finish_run g2 w2 s sk src i o reply rest free Hoi Hs2 Hsk O4 O5 F2 Hcan2 Hrest)
    as (w5 & E3 & Heng5 & Hkeep & Hf3 & Hs5).
  eexists (with_m g2 _), w5. split; [|split; [exact Etmp|split; [|exact Hs5]]].
  - rewrite Erun. mstep E2. apply E3.
  - split; cbn [g_m with_m].
    + exact Heng5.
    + intros free'. rewrite Hf. intros [= <-]. rewrite lookup_insert_eq. by rewrite app_assoc.
    + by lookups.
    + by lookups.
    + intros q Q1 Q2 Q3 [xs Hq]. by lookups.
    + cbn. split_and!; [done|done|done|done|set_solver].
    + exact Hkeep.
    + intros y v Hyr Hv. destruct (Hf3 y v Hyr Hv) as (b & b' & Hb & Hb' & Hfr & Hsh).
      exists b, b'. split; [exact Hb|]. split; [exact Hb'|]. split; [by apply (tx_frame_of_ext sk src w w2)|exact Hsh].
Qed.

(** C19: For a socket with new data, the body of the loop of inetd sends the reply of the
    service of its port (all of the data for echo, nothing for discard, the complete flight
    for the benchmark), each datagram in a frame to its sender that the kernel is shown in a TX
    ring, and puts all vectors but
    those it keeps for a flight back into the free list; the invariant of the engine holds
    if the rings are done with the reply, for which the code does not wait.  The reply must be
    one that can be sent ([can_reply]: the MAC addresses are known, the frames fit). *)
Theorem serve_correct g w s sk src st ys ts :
  sys g w → e_socks w !! s = Some sk → g_m g !! s_iv sk = Some ys → owns g (st_tmp st) ts →
  let port := bswap16 (ws_lport sk) in
  port = 7 ∨ port = 9 ∨ port = 55555 → (port = 55555 → ∀ y, y ∈ ys → has_payload w y) → ys ≠ [] →
  let '(reply, rest, st', ts') := reply_of port (payload_of w) st ts ys in
  (reply ≠ [] → can_reply w sk src reply) → (∀ y, y ∈ rest → not_waiting w y) →
  ∃ g' w', serve can_alloc fuel tries (size D) st s w = Done (st', w') ∧ st_tmp st' = st_tmp st ∧
    served g w sk src (st_tmp st) reply rest ts' g' w' ∧
    ((∀ y, y ∈ reply → not_waiting w' y) → sys g' w').
Proof. exact (serve_run g w s sk src st ys ts). Qed.
End Replies.

(** *** Flights *)

(** The benchmark service discards [rest], keeps [ts'] and replies with [reply]. *)
Definition bench_result (g : ghost) (w : engine) (i o : nat) (st : statics) (reply rest : list nat) (st' : statics) (ts' : list nat) : Prop :=
  ∃ q', benchmark (size D) i o st w = Done (st', set_iovs w q' (e_bufs w)) ∧
    sys (reply_ghost g (st_tmp st) i o ts' rest reply) (set_iovs w q' (e_bufs w)).

(** C20: The benchmark service keeps the packets of an incomplete flight; when the packet
    that completes it arrives, it replies with the whole flight in order; on a packet with
    another nonce it replies with what it has and leaves all new packets to be freed. *)
Theorem benchmark_correct g w i o st x xs ts tot :
  i ≠ st_tmp st → o ≠ st_tmp st → o ≠ i → sys g w →
  owns g i (x :: xs) → owns g o [] → owns g (st_tmp st) ts → (∀ y, y ∈ x :: xs → has_payload w y) →
  let pay := payload_of w in
  let nn := if st_nonce st =? 0 then pl_nonce (pay x) else st_nonce st in
  let tl := st_tmp_len st in
  0 <= tl → tot < 2 ^ 63 →
  ((∀ y, y ∈ x :: xs → of_flight nn tot (pay y)) → tl + sizes pay (x :: xs) < tot →
    bench_result g w i o st [] [] (Statics (st_tmp st) (tl + sizes pay (x :: xs)) nn) (ts ++ x :: xs)) ∧
  (∀ us y rest, x :: xs = us ++ y :: rest → (∀ z, z ∈ us ++ [y] → of_flight nn tot (pay z)) →
    tl + sizes pay us < tot <= tl + sizes pay (us ++ [y]) →
    bench_result g w i o st (ts ++ us ++ [y]) rest (Statics (st_tmp st) 0 0) []) ∧
  (pl_nonce (pay x) ≠ nn → bench_result g w i o st ts (x :: xs) (Statics (st_tmp st) 0 0) []).
Proof.
  intros Hit Hot Hoi Hsys Hi Ho Ht Hpay pay nn tl Htl H63.
  pose proof (benchmark_run i o g w st x xs ts Hit Hot Hoi Hsys Hi Ho Ht Hpay) as Hb.
  unfold bench_reply in Hb. cbn [head from_option] in Hb. fold tl pay in Hb.
  change ((pl_nonce ∘ pay) x) with (pl_nonce (pay x)) in Hb. fold nn in Hb. unfold bench_result. split_and!.
  - intros Hx Hs. rewrite (flight_partial pay nn tot) in Hb by (done || lia).
    destruct Hb as (q' & E & _ & Hs'). eauto.
  - intros us y rest Eus Hx [Hs1 Hs2]. rewrite Eus, (flight_complete pay nn tot us y rest) in Hb by (done || lia).
    destruct Hb as (q' & E & _ & Hs'). eauto.
  - intros Hnn. cbn [flight] in Hb. rewrite (proj2 (Z.eqb_neq _ _)) in Hb by congruence. cbn [negb orb] in Hb.
    destruct Hb as (q' & E & _ & Hs'). eauto.
Qed.

(** *** Opening the services *)

Section Start.
Hypothesis Halloc : ∀ a n, can_alloc a n = true.
Context (opt : w_sockopt).






Hypothesis Hdist : NoDup ((λ ia, addr_key (ia_addr ia)) <$> ifaddr cf).




End Start.
End Services.

(** *** [main] *)

(** When the interface is in use, [w_init] returns a null pointer, and [main] follows it. *)
Lemma inetd_main_active `{!Netmap, !Os} can_alloc niocregif getifaddrs now es g ifname nbufs inits fuel tries iovs opt bw n :
  world_inv es g → (∃ e r, wd_eng g !! e = Some r ∧ excludes ifname r = true) →
  inetd_main can_alloc niocregif getifaddrs now (size (dom (wd_eng g))) inits fuel tries iovs ifname nbufs opt bw n g = Fault.
Proof.
  intros Hw Hx. unfold inetd_main.
  by mstep (w_init_active can_alloc niocregif getifaddrs now es g ifname nbufs Hw inits Hx).
Qed.

(** ** Witnesses *)

#[local] Existing Instance netmap_ex.
#[local] Existing Instance os_ex.

(** An engine after registration, which knows the MAC address of 10.0.0.9. *)
Definition yes (_ : kh_array) (_ : Z) : bool := true.
Definition neigh_up_ex : khash w_addr bytes :=
  match kh_insert no_oom kh_init (addr_ex4 10 0 0 1) (mac ifconf_ex) with Done h => h | _ => kh_init end.
Definition up_ex : outcome (w_link * engine) :=
  backend_init yes niocregif_ex (Some ifaddrs_ex) "eth0" (WLink false false 0 "") 3 engine_new_ex.
Definition eng_up_ex : engine := match up_ex with Done (_, w) => set_neighbor w neigh_up_ex | _ => eng_ex end.
Definition D_ex : gset nat := reg_D [0; 1; 2].
Definition g_up_ex : ghost := init_ghost rg_ex [0; 1; 2] 10.
Notation sys_ex := (sys_inv 5 128 D_ex conf_session_ex).

Lemma sys_neighbor fuel L D cf g w h (nm : neigh_map) B :
  sys_inv fuel L D cf g w → kh_rep h nm B → Z.of_nat B + Z.of_nat (g_n g) < 2 ^ 24 → sys_inv fuel L D cf g (set_neighbor w h).
Proof.
  intros [[Hn [S1 S2 S3 S4 S5] [R1 R2 R3] Hf Hc _ _] Hroom Hiov Hsk Hcli] Hr HB. split; try done.
  split; try done; [by apply set_neighbor_inv|by exists nm, B].
Qed.

Lemma eng_up_ex_sys : sys_ex g_up_ex eng_up_ex.
Proof.
  destruct (backend_init_run yes niocregif_ex 128 rg_ex [0; 1; 2] engine_new_ex conf_session_ex (WLink false false 0 "")
    (WLink false false 1000 "e1000") (Some ifaddrs_ex) "eth0" 3 rg_ex_ok ltac:(lia) engine_new_ex_fresh) as
    (w & E & Ec & Hw & Hf & He & Es & Ess & En); [vm_compute; reflexivity|reflexivity|reflexivity|].
  assert (Hs : sys_ex g_up_ex w).
  { assert (Hfuel : (1 < 5)%nat ∧ ∀ k r, rg_txr rg_ex !! k = Some r → nr_num_slots r < Z.of_nat 5).
    { split; [lia|]. intros [|k] r; [|by destruct k]. intros [= <-]. done. }
    exact (registered_sys 5 128 10 rg_ex [0; 1; 2] conf_session_ex rg_ex_ok Hfuel eq_refl w Ec Hw Hf He Es Ess En). }
  unfold eng_up_ex, up_ex. rewrite E.
  destruct (kh_insert_rep (KK := neighbor_key) no_oom (λ _ _, eq_refl) kh_init [] 0 (addr_ex4 10 0 0 1) (mac ifconf_ex)
    kh_init_rep ltac:(by apply addr_wf_dec)) as (h & Eh & Hr); [done|].
  assert (Enh : neigh_up_ex = h) by (unfold neigh_up_ex; by rewrite Eh). rewrite Enh.
  by apply (sys_neighbor _ _ _ _ _ _ _ _ 1 Hs Hr).
Qed.

Definition opt_ex : w_sockopt := WSockopt false false.


(** An echo socket on 10.0.0.2 that has received a datagram of four bytes from 10.0.0.1,
    and the queue of the benchmark service. *)
Definition from_ex : w_sockaddr := WSockaddr (addr_ex4 10 0 0 1) 0x5000.
Definition after (a : call) (w : engine) : engine :=
  match exec yes 5 1 D_ex a w with Done (_, w) => w | _ => w end.
Definition w1_ex : engine := after CQueue eng_up_ex.
Definition w2_ex : engine := after (CBind 1 (bswap16 7) (Some opt_ex)) w1_ex.
Definition w3_ex : engine := after CQueue w2_ex.
Definition tmp_ex : nat := new_queue eng_up_ex.
Definition iv_ex : nat := new_queue w1_ex.
Definition q_ex : nat := new_queue w2_ex.
Definition w4_ex : engine := after (CAllocCnt q_ex 1 AF_INET 0 0) w3_ex.
Definition w5_ex : engine := after (CSetIov 2 4 0 from_ex) w4_ex.
(** A nonce and the length of a flight of four bytes. *)
Definition msg_ex : bytes := [0xde; 0xad; 0xbe; 0xef; 0; 0; 0; 0; 4; 0; 0; 0; 0; 0; 0; 0].
Definition w6_ex : engine := after (CWrite 2 0 msg_ex) w5_ex.
Definition eng_got_ex : engine := match liftq (sq_concat iv_ex q_ex) w6_ex with Done (_, w) => w | _ => w6_ex end.

Lemma after_ok g w a : call_ok yes 5 1 128 D_ex conf_session_ex g w a → ∃ r g', eff a r w g g' ∧ sys_ex g' (after a w).
Proof. intros (r & w' & g' & E & He & Hs'). exists r, g'. unfold after. by rewrite E. Qed.

Lemma L_ex : (110 <= 128)%nat. Proof. lia. Qed.
Lemma size_D_ex : (1 < size D_ex)%nat.
Proof. vm_compute. lia. Qed.

(** Up to the vector in the queue of the client. *)
Lemma bound_ex_sys : ∃ g, sys_ex g w3_ex ∧ g_home g = g_home g_up_ex ∧
  g_m g = <[q_ex := []]> (<[iv_ex := []]> (<[tmp_ex := []]> (g_m g_up_ex))) ∧ tmp_ex ∈ g_q g ∧ q_ex ∈ g_q g.
Proof.
  destruct (after_ok _ _ _ (call_queue yes 5 1 128 D_ex conf_session_ex L_ex size_D_ex _ _ eng_up_ex_sys)) as (r1 & g1 & (_ & _ & ->) & H1).
  fold w1_ex in H1. fold tmp_ex in *.
  destruct (bind_sys yes (λ _ _, eq_refl) 5 128 D_ex conf_session_ex L_ex conf_session_ex_wf size_D_ex _ _ H1 1 (bswap16 7) (Some opt_ex)
    (ip4_conf [10; 0; 0; 2] [255; 255; 255; 0] 24)) as (tbl & E & _ & H2);
    [cbn; lia|lia|apply bswap16_range|done|vm_compute; reflexivity|vm_compute; reflexivity|].
  match type of H2 with sys_inv _ _ _ _ _ ?x => assert (E2 : w2_ex = x) end.
  { unfold w2_ex, after. cbn [exec]. by mstep E. }
  rewrite <- E2 in H2.
  destruct (after_ok _ _ _ (call_queue yes 5 1 128 D_ex conf_session_ex L_ex size_D_ex _ _ H2)) as (r3 & g3 & (_ & _ & ->) & H3).
  fold w3_ex in H3. fold q_ex in *. eexists. split; [exact H3|]. cbn [g_home g_m g_q with_queue bound_ghost].
  split; [reflexivity|]. split; [reflexivity|]. split; [set_solver|set_solver].
Qed.

Lemma names_ex : q_ex ≠ iv_ex ∧ q_ex ≠ tmp_ex ∧ iv_ex ≠ tmp_ex ∧ IOVQ ≠ q_ex ∧ IOVQ ≠ iv_ex ∧ IOVQ ≠ tmp_ex.
Proof. split_and!; vm_compute; discriminate. Qed.

Lemma alloced_ex_sys : ∃ g, sys_ex g w4_ex ∧ g_home g = g_home g_up_ex ∧
  g_m g !! iv_ex = Some [] ∧ owns g q_ex [2]%nat ∧ owns g tmp_ex [].
Proof.
  destruct bound_ex_sys as (g3 & H3 & Hh3 & Hm3 & Ht & Hq).
  destruct names_ex as (N1 & N2 & N3 & N4 & N5 & N6).
  assert (F3 : g_m g3 !! IOVQ = Some [2; 1; 0]%nat) by (rewrite Hm3, !lookup_insert_ne by done; reflexivity).
  assert (Q3 : g_m g3 !! q_ex = Some []) by (rewrite Hm3; apply lookup_insert_eq).
  assert (P3 : pre 5 128 conf_session_ex g3 w3_ex (CAllocCnt q_ex 1 AF_INET 0 0)).
  { split; [exists []; by split|by left]. }
  destruct (after_ok _ _ _ (call_alloc_cnt yes 5 1 128 D_ex conf_session_ex L_ex size_D_ex _ _ H3 _ _ _ _ _ P3)) as (r4 & g4 & (free & xs & F & X & ->) & H4).
  assert (free = [2; 1; 0]%nat) as -> by congruence. assert (xs = []) as -> by congruence. fold w4_ex in H4. cbn [app take drop] in H4.
  eexists. split; [exact H4|]. split; [exact Hh3|]. unfold owns. cbn [g_m g_q with_m]. split; [|split; [split; [exact Hq|]|split; [exact Ht|]]].
  - rewrite (lookup_insert_ne _ _ _ _ N5), (lookup_insert_ne _ _ _ _ N1), Hm3, (lookup_insert_ne _ _ _ _ N1). apply lookup_insert_eq.
  - rewrite (lookup_insert_ne _ _ _ _ N4). apply lookup_insert_eq.
  - rewrite (lookup_insert_ne _ _ _ _ N6), (lookup_insert_ne _ _ _ _ N2), Hm3, (lookup_insert_ne _ _ _ _ N2), (lookup_insert_ne _ _ _ _ N3).
    apply lookup_insert_eq.
Qed.

(** The client sets length and destination of its vector. *)
Lemma set_iov_ex g w len : sys_ex g w → owns g q_ex [2]%nat → sys_ex g (after (CSetIov 2 len 0 from_ex) w).
Proof.
  intros Hs Hq. destruct (after_ok _ _ _ (call_set_iov yes 5 1 128 D_ex conf_session_ex L_ex size_D_ex g w Hs 2 len 0 from_ex ltac:(
    split; [exists q_ex, [2]%nat; split; [done|by left]|by apply addr_wf_dec]))) as (r & g' & -> & H). exact H.
Qed.

Lemma written_ex_sys : ∃ g, sys_ex g w6_ex ∧ g_home g = g_home g_up_ex ∧
  g_m g !! iv_ex = Some [] ∧ owns g q_ex [2]%nat ∧ owns g tmp_ex [].
Proof.
  destruct alloced_ex_sys as (g & H4 & Hr). exists g. split; [|done]. destruct Hr as (_ & _ & Hq & _).
  pose proof (set_iov_ex g w4_ex 4 H4 Hq) as H5. fold w5_ex in H5.
  assert (P5 : pre 5 128 conf_session_ex g w5_ex (CWrite 2 0 msg_ex)).
  { split; [exists q_ex, [2]%nat; split; [done|by left]|].
    split; [apply (bool_decide_unpack (Forall is_u8 msg_ex)); vm_compute; exact I|].
    eexists. split; [vm_compute; reflexivity|]. cbn. lia. }
  destruct (after_ok _ _ _ (call_write yes 5 1 128 D_ex conf_session_ex L_ex size_D_ex _ _ H5 _ _ _ P5)) as (r6 & g6 & -> & H6).
  exact H6.
Qed.

Lemma eng_got_ex_sys : ∃ g, sys_ex g eng_got_ex ∧ g_home g = g_home g_up_ex ∧
  g_m g !! iv_ex = Some [2]%nat ∧ owns g tmp_ex [].
Proof.
  destruct written_ex_sys as (g & Hs & Hh & Hm & Hq & Ht).
  destruct (names_ex) as (N1 & N2 & N3 & N4 & N5 & N6).
  destruct (sys_concat 5 128 D_ex conf_session_ex L_ex size_D_ex _ _ Hs iv_ex q_ex [] [2]%nat (not_eq_sym N1) (not_eq_sym N5) (not_eq_sym N4) Hm (proj2 Hq))
    as (q' & E & Hs').
  unfold eng_got_ex. rewrite E. eexists. split; [exact Hs'|]. split; [exact Hh|]. split; [apply lookup_insert_eq|].
  split; [apply Ht|]. cbn [g_m with_m]. rewrite (lookup_insert_ne _ _ _ _ N3), (lookup_insert_ne _ _ _ _ N2). apply Ht.
Qed.

Definition sk_ex : w_sock := WSock (WSocktuple (WSockaddr (addr_ex4 10 0 0 2) (bswap16 7)) zero_sockaddr 0) ETH_ADDR_NONE opt_ex iv_ex.

Lemma can_reply_ex w v :
  e_txr w = [ring_ex] → tx_src w sk_ex = Some (addr_ex4 10 0 0 2) → af (fst (e_last w)) = 0 →
  kh_find (e_neighbor w) (addr_ex4 10 0 0 1) = Done (Some (mac ifconf_ex)) →
  e_bufs w !! 2%nat = Some v → v_saddr v = from_ex → v_flags v = 0 → 0 <= v_len v <= 80 →
  can_reply 128 w sk_ex (addr_ex4 10 0 0 2) [2%nat].
Proof.
  intros Er Esrc El Ek Hv Ea Ef Hl. split.
  - exact Esrc.
  - intros _ addr _ Haf Hc. exfalso. unfold w_addr_cmp in Hc. rewrite El in Hc. destruct Haf as [Ha|Ha]; by rewrite Ha in Hc.
  - exists 0%nat, ring_ex. by rewrite Er.
  - intros y ->%list_elem_of_singleton. split.
    { intros k j (r & s & Hr & Hs & Hj & Hlt). rewrite Er in Hr, Hs.
      apply list_lookup_singleton_Some in Hr as [-> <-]. injection Hs as <-. cbn in Hj, Hlt. ring_lia. }
    exists v. unfold tx_dst, dst_mac. rewrite Ea, Ef. cbn. split_and!; try done; try lia; [by left|].
    exists (mac ifconf_ex). split_and!; try done. by apply (bool_decide_unpack (Forall is_u8 (mac ifconf_ex))).
Qed.

Lemma eng_got_ex_reply : can_reply 128 eng_got_ex sk_ex (addr_ex4 10 0 0 2) [2%nat].
Proof. eapply can_reply_ex; try (vm_compute; reflexivity). vm_compute. by split. Qed.

Lemma serve_correct_witness :
  ∃ w' b', serve yes 5 1 (size D_ex) (Statics tmp_ex 0 0) 0 eng_got_ex = Done (Statics tmp_ex 0 0, w') ∧
    e_mem w' !! 2 = Some b' ∧ ldn b' Eth.dst 6 = mac ifconf_ex ∧ ld16 b' (34 + Udp.dport) = 0x5000 ∧
    ldn b' 42 4 = [0xde; 0xad; 0xbe; 0xef].
Proof.
  destruct eng_got_ex_sys as (g & Hsys & Hh & Hm & Ht).
  destruct (serve_correct yes 5 1 128 D_ex conf_session_ex ltac:(lia) conf_session_ex_wf size_D_ex g eng_got_ex 0 sk_ex
    (addr_ex4 10 0 0 2) (Statics tmp_ex 0 0) [2%nat] [] Hsys ltac:(vm_compute; reflexivity) Hm Ht) as (g' & w' & E & _ & Hs & _).
  - by left.
  - discriminate.
  - done.
  - intros _. apply eng_got_ex_reply.
  - intros y Hy. exfalso. exact (proj1 (elem_of_nil y) Hy).
  - destruct (sv_frames _ _ _ _ _ _ _ _ _ _ _ Hs 2%nat) with (v := default (iov_ex 0) (e_bufs eng_got_ex !! 2%nat))
      as (b & b' & Hb & Hb' & [_ (mac & [[M _] _] & [F1 _ _]) _ [_ U2 _ _ U5]] & _); [by left|vm_compute; reflexivity|].
    rewrite Hh in Hb, Hb'. exists w', b'. split; [exact E|]. split; [exact Hb'|].
    split; [|split].
    + rewrite F1. revert M. vm_compute. congruence.
    + exact U2.
    + change (e_mem eng_got_ex !! 2 = Some b) in Hb. assert (Eb : b = default [] (e_mem eng_got_ex !! 2)) by (by rewrite Hb).
      etransitivity; [exact U5|]. rewrite Eb. vm_compute. reflexivity.
Defined.

(** The same datagram in the queue of a client, and a queue for the reply. *)
Definition w7_ex : engine := after CQueue w6_ex.
Definition o_ex : nat := new_queue w6_ex.

Lemma benchmark_correct_witness :
  ∃ g w', benchmark (size D_ex) q_ex o_ex (Statics tmp_ex 0 0) w7_ex = Done (Statics tmp_ex 0 0, w') ∧
    sys_ex g w' ∧ g_m g !! o_ex = Some [2]%nat.
Proof.
  destruct written_ex_sys as (g & Hs & Hh & Hm & Hq & Ht).
  destruct (after_ok _ _ _ (call_queue yes 5 1 128 D_ex conf_session_ex L_ex size_D_ex _ _ Hs)) as (r & g1 & (_ & _ & ->) & H1).
  fold w7_ex in H1. fold o_ex in H1.
  assert (N1 : o_ex ≠ q_ex) by (vm_compute; discriminate). assert (N2 : o_ex ≠ tmp_ex) by (vm_compute; discriminate).
  destruct (benchmark_correct 5 128 D_ex conf_session_ex ltac:(lia) size_D_ex (with_queue g o_ex []) w7_ex q_ex o_ex
    (Statics tmp_ex 0 0) 2 [] [] 4 (proj1 (proj2 names_ex)) N2 N1 H1) as (_ & Hc & _).
  - by apply owns_with_queue.
  - apply owns_new.
  - by apply owns_with_queue.
  - intros y [->|Hy]%elem_of_cons; [|exfalso; exact (proj1 (elem_of_nil y) Hy)].
    eexists _, _. split; [vm_compute; reflexivity|]. split; [vm_compute; reflexivity|]. cbn. lia.
  - cbn [st_tmp_len]. lia.
  - lia.
  - destruct (Hc [] 2%nat [] eq_refl) as (q' & E & Hs').
    + intros z [->|Hz]%elem_of_cons; [|exfalso; exact (proj1 (elem_of_nil z) Hz)].
      vm_compute. repeat split; discriminate.
    + vm_compute. repeat split; discriminate.
    + eexists _, _. split; [exact E|]. split; [exact Hs'|]. apply lookup_insert_eq.
Defined.
