(* ===== verification/Echo.v ===== *)
(** A datagram to the echo service of inetd (bin/inetd.c) and back: the frame a client's
    [w_tx] builds, the server's loop over its sockets, and the client's [w_nic_rx]. *)

From S2P Require Import Prelude Util Krng Queue SList Wire Cksum Addr Ifaddr Khash Engine Netmap Ip Send Arp Sock Icmp Rx Reply NicRx Connect Tx Datagram Backend System Life Inetd.

(** Vector [y] holds, in buffer [x], the payload and the sender of the datagram in the frame [rb]. *)
Definition holds (w : engine) (x : Z) (y : nat) (rb : bytes) : Prop :=
  ∃ v b, e_bufs w !! y = Some v ∧ e_mem w !! x = Some b ∧ w_addr_wf (sa_addr (v_saddr v)) ∧
    v_len v = udp_len rb - 8 ∧ ldn b (udp_off rb + 8) (Z.to_nat (v_len v)) = udp_payload rb ∧
    w_sockaddr_cmp (v_saddr v) (udp_from rb) = true.

(** What the receive loop of netmap leaves in a vector (NicRx.v). *)
Lemma got_holds D home w y rb : got D home w y rb → holds w (h_iov home y) y rb.
Proof.
  intros (_ & v & b & Hv & Hb & _ & Ho & _ & Hwf & Hl & Hd & Hf & _). exists v, b.
  rewrite Ho, Nat2Z.id in Hd. by split_and!.
Qed.

Lemma sockaddr_cmp_trans a b c :
  w_addr_wf (sa_addr a) → w_addr_wf (sa_addr b) → w_addr_wf (sa_addr c) →
  w_sockaddr_cmp a b = true → w_sockaddr_cmp b c = true → w_sockaddr_cmp a c = true.
Proof. intros Ha Hb Hc. rewrite !w_sockaddr_cmp_key by done. congruence. Qed.

(** Equal addresses have the same neighbor, and are the same for a host. *)
Lemma neighbor_equal h (nm : neigh_map) B a a' : kh_rep h nm B → w_addr_wf a → w_addr_wf a' → w_addr_cmp a a' = true →
  kh_find h a = kh_find h a'.
Proof.
  intros Hr Ha Ha' E. rewrite !(kh_find_rep (KK := neighbor_key) h nm B) by done.
  by rewrite (km_find_equal (KK := neighbor_key) nm a a' (kr_wf _ _ _ Hr) Ha Ha' E).
Qed.

Lemma our_addr_equal cf a a' : addr_key a = addr_key a' → our_addr cf a → our_addr cf a'.
Proof.
  unfold addr_key, our_addr. intros [= Ea E] H. rewrite <- Ea in *.
  unfold af_len, ip4, ld32, ip6 in *. destruct (af a =? AF_INET); [change IP4_LEN with 4%nat in E; by rewrite <- E|].
  rewrite !ldn_take in E. by rewrite <- E.
Qed.

Section RoundTrip.
(** The client: it sends the vectors [xs] of queue [o], one of which is [vc] with buffer [bc]. *)
Context {Nc : Netmap} {NLc : @NetmapLaws Nc} {NPc : @NetmapProgress Nc} (can_alloc : kh_array → Z → bool) (fuel tries : nat).
Context (homec : homes) (sc : nat) (skc : w_sock) (srcc : w_addr) (Dc : gset nat) (mc : queues) (wc : engine) (o : nat) (xs : list nat).
Hypothesis Hfuel : (0 < fuel)%nat.
Hypothesis Hsrcc : w_addr_wf srcc.
Hypothesis Hportc : is_u16 (ws_lport skc).
Hypothesis Hengc : eng_inv Dc mc wc.
Hypothesis Ho : mc !! o = Some xs.
Hypothesis Hsz : (1 < size Dc)%nat.
Hypothesis Hcanc : can_send homec sc skc srcc wc.
Hypothesis Hready : ∀ i, i ∈ xs → ∃ v b, tx_ready homec skc wc i v b.
Context (ic : nat) (vc : w_iov) (bc : bytes).
Hypothesis Hic : ic ∈ xs.
Hypothesis Hvc : tx_ready homec skc wc ic vc bc.
Hypothesis Hone : one_frame skc srcc vc.
Let client := WSockaddr srcc (ws_lport skc).
Let data := dg_data skc vc bc.

(** The server, whose socket [s] is an echo socket with the datagrams [ys]. *)
Context {Ns : Netmap} {NLs : @NetmapLaws Ns} {NPs : @NetmapProgress Ns} (L : nat) (D : gset nat) (cf : ifconf) (g : ghost) (w : engine) (s : nat) (sk : w_sock) (src : w_addr)
  (st : statics) (ys ts : list nat).
Hypothesis HL : (110 <= L)%nat.
Hypothesis Hconf : ifconf_wf cf.
Hypothesis HD : (1 < size D)%nat.
Hypothesis Hsys : sys_inv fuel L D cf g w.
Hypothesis Hsk : e_socks w !! s = Some sk.
Hypothesis Hys : g_m g !! s_iv sk = Some ys.
Hypothesis Ht : owns g (st_tmp st) ts.
Hypothesis Hport : bswap16 (ws_lport sk) = 7.
Hypothesis Hbound : w_connected sk = false.
Hypothesis Hfam : ws_af sk = ws_af skc.
Hypothesis Hsrc : w_addr_wf src ∧ af src = ws_af sk.
Hypothesis Hcan : can_reply L w sk src ys.

(** What the server has received is the request. *)
Lemma request_held bq rq x y :
  tx_frame_of skc srcc wc vc bc bq → carried (frame_len skc vc) bq rq → (54 <= length rq)%nat → holds w x y rq →
  ∃ v b, e_bufs w !! y = Some v ∧ e_mem w !! x = Some b ∧ w_addr_wf (sa_addr (v_saddr v)) ∧ v_len v = v_len vc ∧
    dg_data sk v b = data ∧ w_sockaddr_cmp (v_saddr v) client = true.
Proof.
  intros Hf Hcar H54 (v & b & Hv & Hb & Hwf & Hl & Hd & Hc). destruct Hvc as [_ _ _ _ R5 R6 R7 (R8 & _) _ _].
  destruct Hone as [O1 O2 O3 O4].
  destruct (carried_frame wc skc srcc vc bc bq rq Hf R5 ltac:(lia) R7 Hcar) as [Hf' Hdata].
  destruct (link_read wc skc srcc vc rq rq Hf' ltac:(done) ltac:(done) R5 R6 H54) as (Eo & _ & _ & El & Ep & Hfrom & _).
  assert (En : v_len v = v_len vc) by lia. exists v, b. split_and!; try done.
  - unfold dg_data, ip_len, data, dg_data in *. rewrite Hfam, En. fold (ip_len skc) in *.
    rewrite <- Hdata, <- Ep, <- Hd, Eo, En. done.
  - apply (sockaddr_cmp_trans _ (udp_from rq)); try done. apply udp_raddr_wf; [apply Hcar|done].
Qed.

(** C7: What a client sends with [w_tx] to the echo service comes back to it.  If the link carries
    the frame of the client to the server, in whose queue the datagram then is ([w_nic_rx] puts
    it there: [got_holds]), the service, if it can reply ([can_reply]: it knows the MAC address of the
    client and the frame fits), puts a frame into a TX ring and shows it to the kernel; if the link
    carries this frame to the host of the client, then [w_nic_rx] there appends a vector with
    the data of the request to the queue of the socket that the client's address and the
    server's primary address lead to. *)
Theorem echo_round_trip :
  ∃ wc' bq, @w_tx Nc can_alloc fuel tries (size Dc) sc o wc = Done (tt, wc') ∧
    @handed Nc wc wc' (h_iov homec ic) (frame_len skc vc) bq ∧
    ∀ rq y, carried (frame_len skc vc) bq rq → (54 <= length rq)%nat → y ∈ ys → holds w (h_iov (g_home g) y) y rq →
    ∃ w' rp, @serve Ns can_alloc fuel tries (size D) st s w = Done (st, w') ∧
      @shown Ns w w' (h_iov (g_home g) y) (frame_len skc vc) rp ∧
      ∀ (N : Netmap) (NL : @NetmapLaws N) (NP : @NetmapProgress N) (NQ : @NetmapPoll N) grow fuel2 L2 D2 (tm : sock_map) B2 cf2 socks
        tries2 n home2 m2 w2 nsec fs rb c skr zs,
      carried (frame_len skc vc) rp rb → rb ∈ fs → (54 <= length rb)%nat →
      (∀ a k, grow a k = true) → host L2 cf2 → polls fuel2 L2 D2 tm B2 cf2 socks n home2 m2 w2 nsec fs →
      kh_find (e_neighbor w) srcc = Done (Some (mac cf2)) → our_addr cf2 srcc →
      udp_dest tm client (WSockaddr src (ws_lport sk)) = Some c → socks !! c = Some skr → m2 !! s_iv skr = Some zs →
      ∃ home2' m2' w2' zs' z, w_nic_rx grow fuel2 (S tries2) nsec w2 = Done (frames_rx tm cf2 false fs, w2') ∧
        rx_sys fuel2 L2 D2 tm B2 cf2 socks n home2' m2' w2' ∧ m2' !! s_iv skr = Some (zs ++ zs') ∧ z ∈ zs' ∧
        datagram w2' z data (WSockaddr src (ws_lport sk)).
Proof.
  destruct (@w_tx_frames Nc NLc NPc can_alloc fuel tries homec sc skc srcc Dc mc wc o xs Hfuel Hsrcc Hportc Hengc Ho Hsz Hcanc Hready) as (wc' & Ec & Hfc).
  destruct (Hfc ic vc bc Hic Hvc) as (bq & _ & Hfq & Hhq). exists wc', bq. split; [done|]. split; [done|].
  intros rq y Hcar H54 Hy Hh. assert (Hne : ys ≠ []) by (intros E; rewrite E in Hy; by apply elem_of_nil in Hy).
  destruct (request_held bq rq _ y Hfq Hcar H54 Hh) as (v & b & Hv & Hb & Hwf & En & Edata & Hc).
  pose proof (serve_run can_alloc fuel tries L D cf HL Hconf HD (H := Ns) g w s sk src st ys ts Hsys Hsk Hys Ht) as Hserve.
  rewrite Hport in Hserve. specialize (Hserve (or_introl eq_refl)). cbn [reply_of Z.eqb Pos.eqb] in Hserve.
  destruct Hserve as (g' & w' & E & _ & Hs & _); [done|done|done|by intros ? ?%elem_of_nil|].
  destruct (sv_frames _ _ _ _ _ _ _ _ _ _ _ Hs y v Hy Hv) as (b' & rp & Hb' & Hrp & Hf & Hsh).
  assert (b' = b) as -> by congruence. exists w', rp. split; [exact E|].
  assert (Efl : frame_len sk v = frame_len skc vc) by (unfold frame_len, ip_len; by rewrite Hfam, En).
  split; [by rewrite <- Efl|]. rewrite <- Efl. intros.
  destruct (cr_tx _ _ _ _ _ Hcan y Hy) as (_ & v' & Hv' & Hfl & Hn0 & Hn1 & Hn2 & _ & _ & mac' & Hmac').
  assert (v' = v) as -> by congruence. assert (Ed : tx_dst sk v = v_saddr v) by (unfold tx_dst; by rewrite Hbound).
  pose proof (xs_net _ _ _ _ _ _ _ _ _ _ _ (sy_rx _ _ _ _ _ _ Hsys)) as Hns.
  destruct (ni_mem _ _ _ _ _ Hns y) as (b0 & Hb0 & Hl0 & _).
  { apply (queue_elem D (g_m g) w (s_iv sk) ys); [apply Hns|done|done]. }
  assert (b0 = b) as -> by congruence. destruct Hone as [O1 O2 O3 O4].
  assert (Hca : w_addr_cmp (sa_addr (v_saddr v)) srcc = true) by (by apply andb_true_iff in Hc as [_ Hc]).
  assert (Hkey : addr_key (sa_addr (v_saddr v)) = addr_key srcc) by (by apply w_addr_cmp_key).
  assert (Eaf : af (sa_addr (v_saddr v)) = af srcc) by (unfold addr_key in Hkey; congruence).
  rewrite <- Edata.
  eapply (carried_delivered w sk src v b rp rb); rewrite ?Ed; try eassumption; try apply Hsrc.
  - split; [|by rewrite Hfam|apply Hsrc|by rewrite Ed, Eaf, Hfam].
    unfold ip_len. rewrite Hfam, En. exact O1.
  - lia.
  - destruct (xs_neigh _ _ _ _ _ _ _ _ _ _ _ (sy_rx _ _ _ _ _ _ Hsys)) as (nm & Bn & Hn & _).
    unfold dst_mac in *. rewrite Hbound in *. destruct Hmac' as ([Hm Hnb] & Hml).
    rewrite (neighbor_equal _ nm Bn _ srcc Hn Hwf Hsrcc Hca) in *. assert (mac' = mac cf2) as -> by congruence. done.
  - by apply (our_addr_equal _ srcc).
  - erewrite udp_dest_equal; [eassumption|..]; try done; try apply Hsrc; try by apply w_sockaddr_cmp_refl.
    match goal with H : polls _ _ _ _ _ _ _ _ _ _ _ _ _ |- _ => destruct (pl_sys _ _ _ _ _ _ _ _ _ _ _ _ _ H) as [_ Hs2 _ _ _ _ _ _] end.
    apply (kr_wf _ _ _ (si_rep _ _ _ _ Hs2)).
Qed.
End RoundTrip.

(** The source of the reply is the server's primary address, whatever address the socket is
    bound to ([tx_src]): a socket that is connected to another address does not get it. *)
Lemma reply_not_delivered client peer from c :
  sa_port peer ≠ 0 → w_sockaddr_cmp peer from = false → udp_dest [(WSocktuple client peer 0, c)] client from = None.
Proof.
  intros Hp Hc. unfold udp_dest, bound_tuple. cbn [km_find hash_equal sock_key]. unfold w_socktuple_cmp. cbn [local remote].
  rewrite Hc, andb_false_r. unfold w_sockaddr_cmp at 2. cbn [sa_port zero_sockaddr].
  by rewrite (proj2 (Z.eqb_neq _ _) Hp), andb_false_r.
Qed.

(** ** Witness *)

(** The client is 10.0.0.1; the engine before and after it sends its request of four bytes to
    the echo service of 10.0.0.2, and the frame. *)
Definition sock_req_ex : w_sock :=
  WSock (WSocktuple loc_ex (WSockaddr (addr_ex4 10 0 0 2) (bswap16 7)) 0) peer_mac_ex (WSockopt false false) 10.
Definition eng_req_ex : engine := set_socks eng_send_ex kh_init {[5%nat := sock_req_ex]}.
#[local] Existing Instance netmap_ex.
Definition eng_asked_ex : engine :=
  match w_tx yes 5 1 (size eng_ex_D) 5 10 eng_req_ex with Done (_, w) => w | _ => eng_req_ex end.
Definition request_ex : bytes := Eval vm_compute in default [] (e_mem eng_asked_ex !! 3).

Lemma eng_req_ex_can : can_send homes_ex 5 sock_req_ex (sa_addr loc_ex) eng_req_ex.
Proof.
  destruct eng_send_ex_can as [C1 C2 C3 _ _ _ C7 C8].
  split; [by apply (tx_inv_ext homes_ex eng_send_ex)|exact C2|exact C3|reflexivity|reflexivity|discriminate|exact C7|exact C8].
Qed.
Lemma eng_req_ex_ready : tx_ready homes_ex sock_req_ex eng_req_ex 3 iov_tx_ex payload_ex.
Proof.
  destruct eng_send_ex_ready as [R1 R2 R3 R4 R5 R6 R7 R8 R9 R10]. split; try done.
Qed.

(** What was handed over, or shown to the kernel, is the frame in the buffer. *)
Lemma asked_ex len b : handed eng_req_ex eng_asked_ex 3 len b → b = request_ex.
Proof.
  assert (Hm : e_mem eng_asked_ex !! 3 = Some request_ex) by (vm_compute; reflexivity).
  intros [(k & j & r & s & _ & _ & _ & _ & _ & _ & Hb)|(new & txr & mem & E & Hin & _)]; [apply (inj Some); exact (eq_trans (eq_sym Hb) Hm)|].
  assert (Ec : e_calls eng_asked_ex = []) by (vm_compute; reflexivity). rewrite Ec in E. symmetry in E.
  apply app_eq_nil in E as [-> _]. exfalso. exact (proj1 (elem_of_nil _) Hin).
Qed.

(** The server of inetd.c's example has received the request. *)
Lemma request_ex_held : holds eng_got_ex 2 2 request_ex.
Proof.
  eexists _, _. split; [vm_compute; reflexivity|]. split; [vm_compute; reflexivity|].
  split; [by apply addr_wf_dec|]. split_and!; vm_compute; reflexivity.
Qed.
Definition eng_answered_ex : engine :=
  match serve yes 5 1 (size D_ex) (Statics tmp_ex 0 0) 0 eng_got_ex with Done (_, w) => w | _ => eng_got_ex end.
Definition reply_ex : bytes := Eval vm_compute in default [] (e_mem eng_answered_ex !! 2).

Lemma answered_ex len b : shown eng_got_ex eng_answered_ex 2 len b → b = reply_ex.
Proof.
  assert (Hall : forallb (λ c, match c with KTxSync _ m => bool_decide (m !! 2 = Some reply_ex) | KPoll => true end)
    (e_calls eng_answered_ex) = true) by (vm_compute; reflexivity).
  assert (Eg : e_calls eng_got_ex = []) by (vm_compute; reflexivity).
  intros (new & txr & mem & E & Hin & (k & j & r & s & _ & _ & _ & _ & _ & _ & Hb)). rewrite Eg, app_nil_r in E.
  rewrite E, forallb_forall in Hall. apply list_elem_of_In, Hall, bool_decide_eq_true in Hin.
  apply (inj Some). exact (eq_trans (eq_sym Hb) Hin).
Qed.

Lemma reply_ex_bytes : is_bytes reply_ex.
Proof. apply (bool_decide_unpack (Forall is_u8 reply_ex)). vm_compute. exact I. Qed.
Lemma reply_ex_ok : frame_ok ifconf_ex 128 46 reply_ex.
Proof.
  assert (Hk : kind_of ifconf_ex reply_ex = KUdp) by (vm_compute; reflexivity).
  assert (H4 : udp_v4 reply_ex = true) by (vm_compute; reflexivity).
  assert (Hl : length reply_ex = 128%nat) by (vm_compute; reflexivity).
  unfold frame_ok. rewrite Hk. unfold unreach_ok. rewrite H4. split.
  - assert (E : icmp4_len reply_ex ICMP4_TYPE_UNREACH = 28) by (vm_compute; reflexivity).
    split; rewrite ?E; try lia; [discriminate|]. rewrite Hl. apply Nat.leb_le. vm_compute. reflexivity.
  - intros _. assert (E : udp_len reply_ex = 12 ∧ udp_hl reply_ex = 20) by (split; vm_compute; reflexivity).
    destruct E as [-> ->]. change (u16 (12 + 20)) with 32. split; [lia|].
    split; [apply reply_ex_bytes|lia|rewrite Hl; lia|]. vm_compute. split; discriminate.
Qed.

Lemma echo_round_trip_witness :
  ∃ w2' z, serve yes 5 1 (size D_ex) (Statics tmp_ex 0 0) 0 eng_got_ex = Done (Statics tmp_ex 0 0, eng_answered_ex) ∧
    @w_nic_rx (netmap_poll_ex reply_ex) (λ _ _, true) 5 1 0 (eng_rx_sock_ex (repeat 0 128)) = Done (true, w2') ∧
    datagram w2' z [0xde; 0xad; 0xbe; 0xef] (WSockaddr (addr_ex4 10 0 0 2) (bswap16 7)).
Proof.
  destruct eng_got_ex_sys as (g & Hsys & Hh & Hm & Ht).
  assert (Hl : length reply_ex = 128%nat) by (vm_compute; reflexivity).
  destruct (@echo_round_trip netmap_ex _ _ yes 5 1 homes_ex 5 sock_req_ex (sa_addr loc_ex) eng_ex_D eng_send_ex_m eng_req_ex 10 [3%nat])
    with (ic := 3%nat) (Ns := netmap_ex) (vc := iov_tx_ex) (bc := payload_ex) (L := 128%nat) (D := D_ex) (cf := conf_session_ex)
      (g := g) (w := eng_got_ex) (s := 0%nat) (sk := sk_ex) (src := addr_ex4 10 0 0 2) (st := Statics tmp_ex 0 0)
      (ys := [2%nat]) (ts := @nil nat) as (wc' & bq & Ec & Hq & Hserve).
  - lia.
  - by apply addr_wf_dec.
  - done.
  - destruct eng_send_ex_inv as [I1 I2 I3]. by split.
  - reflexivity.
  - vm_compute. lia.
  - apply eng_req_ex_can.
  - intros i ->%list_elem_of_singleton. exists iov_tx_ex, payload_ex. apply eng_req_ex_ready.
  - by left.
  - apply eng_req_ex_ready.
  - split; [vm_compute; discriminate|by left|done|done].
  - exact _.
  - exact _.
  - lia.
  - apply conf_session_ex_wf.
  - apply size_D_ex.
  - exact Hsys.
  - vm_compute. reflexivity.
  - exact Hm.
  - exact Ht.
  - reflexivity.
  - reflexivity.
  - reflexivity.
  - split; [by apply addr_wf_dec|done].
  - apply eng_got_ex_reply.
  - assert (wc' = eng_asked_ex) as -> by (unfold eng_asked_ex; by rewrite Ec).
    apply asked_ex in Hq as ->.
    assert (Hlq : length request_ex = 128%nat) by (vm_compute; reflexivity).
    destruct (Hserve request_ex 2%nat) as (w' & rp & E & Hsh & Hrx).
    + split; [apply (bool_decide_unpack (Forall is_u8 request_ex)); vm_compute; exact I|].
      split; [rewrite Hlq; vm_compute; discriminate|done].
    + rewrite Hlq. lia.
    + by left.
    + rewrite Hh. apply request_ex_held.
    + assert (w' = eng_answered_ex) as -> by (unfold eng_answered_ex; by rewrite E).
      rewrite Hh in Hsh. apply answered_ex in Hsh as ->.
      destruct (Hrx (netmap_poll_ex reply_ex) (netmap_poll_ex_laws _) (netmap_poll_ex_progress _) (netmap_poll_ex_poll _ reply_ex_bytes)
        (λ _ _, true) 5%nat 128%nat eng_ex_D [(s_tup sock_ex, s_ex)] 1%nat ifconf_ex {[s_ex := sock_ex]} 0%nat 0%nat homes_ex
        (<[h_ex := []]> eng_ex_m) (eng_rx_sock_ex (repeat 0 128)) 0 [reply_ex] reply_ex s_ex sock_ex (@nil nat))
        as (home2' & m2' & w2' & zs & z & E2 & _ & _ & _ & Hd).
      * split; [apply reply_ex_bytes|]. split; [rewrite Hl; vm_compute; discriminate|done].
      * by left.
      * rewrite Hl. lia.
      * done.
      * split; [lia|apply ifconf_ex_wf|by eexists|by eexists].
      * by apply polls_ex; [apply reply_ex_bytes| |apply reply_ex_ok].
      * vm_compute. reflexivity.
      * split; [done|]. eexists. split; [vm_compute; reflexivity|]. discriminate.
      * vm_compute. reflexivity.
      * apply lookup_singleton_eq.
      * apply lookup_insert_eq.
      * assert (Er : frames_rx [(s_tup sock_ex, s_ex)] ifconf_ex false [reply_ex] = true) by (vm_compute; reflexivity).
        rewrite Er in E2. exists w2', z. split; [exact E|]. split; [exact E2|exact Hd].
Defined.
