(* ===== verification/Ping.v ===== *)
(** The ping example (bin/ping.c): trains of packets to the benchmark service of a peer,
    and the wait for their return. *)

From stdpp Require Import strings.
From S2P Require Import Prelude Util Krng Queue SList Wire Cksum Addr Ifaddr Khash Engine Netmap Ip Send Arp Sock Icmp Rx Reply NicRx Connect Tx Backend System Life Inetd.

(** ** The code *)

(** What the system answers in an iteration: the three readings of the clock, whether the
    timer is set and stopped, how often the loop that waits finds that the timer has not
    expired, and whether it expires between the loop and the check after it. *)
Record answers := Answers {
  before_tx : option timespec;
  after_tx : option timespec;
  after_rx : option timespec;
  timer_set : bool;
  timer_stop : bool;
  polls : nat;
  late : bool
}.

(** A line of the output: bytes and packets received, the times of sending and of the
    whole exchange. *)
Record line := Line { l_len : Z; l_pkts : Z; l_tx : Z; l_rx : option Z }.

Section Code.
Context `{!Netmap} (can_alloc : kh_array → Z → bool) (fuel tries iovs : nat).

Definition clock_gettime (o : option timespec) : M engine timespec :=
  match o with Some t => mret t | None => die end.

(** Stamping the data. *)
Fixpoint stamp (nonce len : Z) (l : list nat) : M engine unit :=
  match l with
  | [] => mret tt
  | i :: l =>
      v ← get_iov i;
      stm (v_buf v) (le_bytes 8 nonce) ;; stm (padd (v_buf v) 8) (le_bytes 8 len) ;;
      stamp nonce len l
  end.

(** The check of nonce and length after the reply. *)
Fixpoint verify (nonce len : Z) (l : list nat) : M engine unit :=
  match l with
  | [] => mret tt
  | i :: l =>
      n ← p_nonce i; ensure (n =? nonce) ;; x ← p_len i; ensure (x =? len) ;;
      verify nonce len l
  end.

(** The loop that waits for the reply; the result is whether the timer ended it. *)
Fixpoint wait_reply (n : nat) (nsec : Z) (s i o : nat) : M engine bool :=
  ci ← w_iov_sq_cnt i; co ← w_iov_sq_cnt o;
  if negb (ci <? co) then mret false else
  match n with
  | O => mret true
  | S n =>
      b ← w_nic_rx can_alloc fuel 1 nsec;
      if negb b then wait_reply n nsec s i o
      else sk ← get_sock s; w_rx sk i ;; wait_reply n nsec s i o
  end.

(** The rest of an iteration, from the received queue [i] on. *)
Definition report (a : answers) (expired : bool) (nonce len : Z) (i o : nat) (t0 t1 : timespec) : M engine line :=
  t2 ← clock_gettime (after_rx a);
  ensure (timer_stop a) ;;
  li ← w_iov_sq_len iovs i;
  ensure ((li =? len) || ((li <? len) && (expired || late a))) ;;
  l ← liftq (sq_foreach iovs o); verify nonce len l ;;
  i_len ← w_iov_sq_len iovs i;
  rx ← (if i_len =? len then
          let diff := timespec_sub t2 t0 in ensure (tv_sec diff =? 0) ;; mret (Some (tv_nsec diff))
        else mret None);
  pkts ← w_iov_sq_cnt i;
  let diff := timespec_sub t1 t0 in ensure (tv_sec diff =? 0) ;;
  w_free i ;;
  mret (Line i_len pkts (tv_nsec diff) rx).

(** The first part of an iteration sends the train on the queue [o] over a random connection. *)
Record sent := Sent { sn_sock : nat; sn_nonce : Z; sn_before : timespec; sn_after : timespec }.

Definition send (a : answers) (len : Z) (conns : list nat) (o : nat) : M engine sent :=
  c ← liftr (w_rand_uniform32 fuel (Z.of_nat (length conns)));
  t0 ← clock_gettime (before_tx a);
  nonce ← liftr w_rand64;
  l ← liftq (sq_foreach iovs o); stamp nonce len l ;;
  s ← lift (rd conns c);
  w_tx can_alloc fuel tries iovs s o ;; w_nic_tx ;;
  t1 ← clock_gettime (after_tx a);
  mret (Sent s nonce t0 t1).

Definition probe (a : answers) (busywait : bool) (len : Z) (conns : list nat) (o : nat) : M engine line :=
  x ← send a len conns o;
  ensure (timer_set a) ;;
  i ← w_iov_sq_new;
  expired ← wait_reply (polls a) (if busywait then 0 else -1) (sn_sock x) i o;
  report a expired (sn_nonce x) len i o (sn_before x) (sn_after x).

(** [answer k j]: the answers to iteration [j] with the [k]-th length. *)
Context (answer : nat → nat → answers) (busywait : bool) (conns : list nat) (af : Z).

Fixpoint iterations (iter k j : nat) (len : Z) (o : nat) : M engine (list line) :=
  match iter with
  | O => mret []
  | S iter => x ← probe (answer k j) busywait len conns o; l ← iterations iter k (S j) len o; mret (x :: l)
  end.

Definition train (loops k : nat) (len : Z) : M engine (list line) :=
  o ← w_iov_sq_new; w_alloc_len true (S iovs) af o len 0 0 ;;
  l ← iterations loops k 0 len o; w_free o ;; mret l.

(** The loop over the lengths. *)
Fixpoint trains (n loops k : nat) (len inc stop : Z) : M engine (list line) :=
  match n with
  | O => no_fuel
  | S n =>
      if len <=? stop then
        l ← train loops k len;
        ls ← trains n loops (S k) (u64 (len + (if inc =? 0 then len else inc))) inc stop;
        mret (l ++ ls)
      else mret []
  end.

(** Opening the connections. *)
Fixpoint connect_all (n : nat) (idx : Z) (opt : w_sockopt) (peer : sockaddr) : M engine (list nat) :=
  match n with
  | O => mret []
  | S n =>
      o ← w_bind can_alloc fuel true idx 0 (Some opt);
      s ← (match o with Some s => mret s | None => die end);
      w_connect can_alloc fuel tries s peer ;;
      l ← connect_all n idx opt peer; mret (s :: l)
  end.
End Code.

Fixpoint close_all (l : list nat) : M engine unit :=
  match l with [] => mret tt | s :: l => w_close s ;; close_all l end.

(** The first address of the family of the peer. *)
Fixpoint find_family (n : nat) (idx family : Z) : M engine Z :=
  match n with
  | O => no_fuel
  | S n =>
      w ← get;
      if idx <? addr_cnt (e_conf w) then
        ia ← lift (rd (ifaddr (e_conf w)) idx);
        if af (ia_addr ia) =? family then mret idx else find_family n (u16 (idx + 1)) family
      else mret idx
  end.

Definition ai_family (peer : sockaddr) : Z :=
  match peer with SockaddrIn _ _ => AF_INET | SockaddrIn6 _ _ _ _ => AF_INET6 | SockaddrOther f => f end.

(** [main] from the arguments on. *)
Section Main.
Context `{!Netmap, !Os} (can_alloc : kh_array → Z → bool) (niocregif : string → nr_mode → Z → option nm_reg).
Context (getifaddrs : nat → option (list ifaddrs)) (now : bytes) (engines inits fuel tries iovs rounds : nat).
Context (answer : nat → nat → answers).

Definition ping_main (ifname : string) (nbufs : Z) (peer : sockaddr) (start inc stop : Z) (loops conns : nat)
    (opt : w_sockopt) (busywait : bool) : M world (list line) :=
  let stop := if stop <? start then start else stop in
  o ← w_init can_alloc niocregif getifaddrs now engines inits ifname nbufs;
  e ← (match o with Some e => mret e | None => fault end);
  l ← on_engine e (
    w ← get; idx ← find_family (S (Z.to_nat (addr_cnt (e_conf w)))) 0 (ai_family peer);
    ensure (idx <? addr_cnt (e_conf w)) ;;
    s ← connect_all can_alloc fuel tries conns idx opt peer;
    ia ← lift (rd (ifaddr (e_conf w)) idx);
    l ← trains can_alloc fuel tries iovs answer busywait s (af (ia_addr ia)) rounds loops 0 start inc stop;
    close_all s ;; mret l);
  w_cleanup engines e ;;
  mret l.
End Main.

(** * Theorems *)

(** ** The lengths *)

(** The [j]-th length. *)
Definition train_len (start inc : Z) (j : nat) : Z :=
  if inc =? 0 then start * 2 ^ Z.of_nat j else start + Z.of_nat j * inc.
(** The number of lengths. *)
Definition train_cnt (start inc stop : Z) : nat :=
  if stop <? start then 0 else S (Z.to_nat (if inc =? 0 then Z.log2 (stop / start) else (stop - start) / inc)).

Lemma train_len_succ start inc j :
  train_len start inc (S j) = train_len start inc j + (if inc =? 0 then train_len start inc j else inc).
Proof.
  unfold train_len. rewrite Nat2Z.inj_succ. destruct (inc =? 0); [|lia]. rewrite Z.pow_succ_r by lia. lia.
Qed.

Lemma train_len_cnt start inc stop j :
  0 < start → 0 <= inc → train_len start inc j <= stop ↔ (j < train_cnt start inc stop)%nat.
Proof.
  intros Hs Hi. unfold train_len, train_cnt. destruct (Z.ltb_spec stop start) as [Hlt|Hge].
  { split; [|lia]. intros Hl. exfalso. destruct (inc =? 0).
    - assert (0 < 2 ^ Z.of_nat j) by (apply Z.pow_pos_nonneg; lia). nia.
    - nia. }
  destruct (Z.eqb_spec inc 0) as [->|Hi0].
  - assert (Hq : 0 < stop / start) by (apply Z.div_str_pos; lia). pose proof (Z.log2_nonneg (stop / start)).
    transitivity (2 ^ Z.of_nat j <= stop / start).
    + split; intros Hx; [apply Z.div_le_lower_bound; lia|]. pose proof (Z.mul_div_le stop start Hs). nia.
    + rewrite (Z.log2_le_pow2 _ _ Hq). lia.
  - assert (0 <= (stop - start) / inc) by (apply Z.div_pos; lia).
    transitivity (Z.of_nat j <= (stop - start) / inc); [|lia].
    split; intros Hx; [apply Z.div_le_lower_bound; lia|].
    pose proof (Z.mul_div_le (stop - start) inc ltac:(lia)). nia.
Qed.

Section Trains.
Context `{!Netmap} (can_alloc : kh_array → Z → bool) (fuel tries iovs : nat).
Context (answer : nat → nat → answers) (busywait : bool) (conns : list nat) (af : Z) (loops : nat).
Let one := train can_alloc fuel tries iovs answer busywait conns af loops.

(** Trains of the lengths number [k] to [k + n - 1]. *)
Fixpoint trains_of (start inc : Z) (n k : nat) : M engine (list line) :=
  match n with
  | O => mret []
  | S n => l ← one k (train_len start inc k); ls ← trains_of start inc n (S k); mret (l ++ ls)
  end.

(** C40: The loop over the lengths ends: it sends one train for each of the lengths
    [start], [start + inc], ... (or [start], [2 * start], ... when [inc] is 0) that are at
    most [stop], in this order. *)
Theorem trains_correct start inc stop :
  0 < start < 2 ^ 32 → 0 <= inc < 2 ^ 32 → stop < 2 ^ 32 → ∀ n k w,
  (train_cnt start inc stop <= k + n)%nat →
  trains can_alloc fuel tries iovs answer busywait conns af (S n) loops k (train_len start inc k) inc stop w =
    trains_of start inc (train_cnt start inc stop - k) k w ∧
  ∀ j, train_len start inc j <= stop ↔ (j < train_cnt start inc stop)%nat.
Proof.
  intros Hs Hi He n k w Hn. split; [|intros j; apply train_len_cnt; lia]. revert k w Hn.
  assert (Hend : ∀ n k w, (train_cnt start inc stop <= k)%nat →
    trains can_alloc fuel tries iovs answer busywait conns af (S n) loops k (train_len start inc k) inc stop w =
    trains_of start inc (train_cnt start inc stop - k) k w).
  { intros m k w Hk. cbn [trains]. destruct (Z.leb_spec (train_len start inc k) stop) as [Hl|_].
    - apply train_len_cnt in Hl; lia.
    - by replace (train_cnt start inc stop - k)%nat with 0%nat by lia. }
  induction n as [|n IH]; intros k w Hn; [apply Hend; lia|].
  destruct (decide (train_cnt start inc stop <= k)%nat) as [Hk|Hk]; [by apply Hend|]. remember (S n) as n1 eqn:En1. cbn [trains].
  pose proof (proj2 (train_len_cnt start inc stop k ltac:(lia) ltac:(lia)) ltac:(lia)) as Hl.
  rewrite (proj2 (Z.leb_le _ _) Hl).
  replace (train_cnt start inc stop - k)%nat with (S (train_cnt start inc stop - S k)) by lia. cbn [trains_of].
  assert (0 <= train_len start inc k).
  { unfold train_len. destruct (inc =? 0); [|nia]. assert (0 < 2 ^ Z.of_nat k) by (apply Z.pow_pos_nonneg; lia). nia. }
  rewrite u64_id, <- train_len_succ by (unfold is_u64; destruct (inc =? 0); lia).
  apply M_bind_proper; [|done]. intros l. apply M_bind_proper; [done|]. intros w1. subst n1. apply IH. lia.
Qed.
End Trains.

(** ** The data of a train *)

(** Vector [x] holds [nonce] and [len] in front of its data. *)
Record stamped (home : homes) (nonce len : Z) (w : engine) (x : nat) : Prop := {
  st_iov : ∃ v b, e_bufs w !! x = Some v ∧ fst (v_buf v) = h_iov home x ∧ 0 <= snd (v_buf v) ∧
    e_mem w !! h_iov home x = Some b ∧ snd (v_buf v) + 16 <= Z.of_nat (length b) ∧
    ldn b (Z.to_nat (snd (v_buf v))) 16 = le_bytes 8 nonce ++ le_bytes 8 len
}.

Lemma stamped_ext home home' nonce len w w' x :
  stamped home nonce len w x → h_iov home' x = h_iov home x → no_idx <$> (e_bufs w' !! x) = no_idx <$> (e_bufs w !! x) →
  e_mem w' !! h_iov home x = e_mem w !! h_iov home x → stamped home' nonce len w' x.
Proof.
  intros [(v & b & Hv & Hf & H0 & Hb & Hl & Hd)] Eh Ev Em. rewrite Hv in Ev.
  destruct (e_bufs w' !! x) as [v'|] eqn:Hv'; [|done]. injection Ev as E1 E2 E3 E4 E5 E6 E7.
  split. exists v', b. rewrite Eh, E3, Em. by split_and!.
Qed.

Lemma verify_run home nonce len w l :
  0 <= nonce < 2 ^ 64 → 0 <= len < 2 ^ 64 → (∀ x, x ∈ l → stamped home nonce len w x) → verify nonce len l w = Done (tt, w).
Proof.
  intros Hn Hlen. induction l as [|x l IH]; intros Hl; [done|]. cbn [verify].
  destruct (Hl x ltac:(by left)) as [(v & b & Hv & Hf & H0 & Hb & Hlb & Hd)].
  assert (E8 : ldn b (Z.to_nat (snd (v_buf v))) 8 = le_bytes 8 nonce ∧ ldn b (Z.to_nat (snd (v_buf v)) + 8) 8 = le_bytes 8 len).
  { rewrite (ldn_add b _ 8 8) in Hd. apply app_inj_1 in Hd; [done|]. rewrite length_ldn, length_le_bytes by lia. done. }
  destruct E8 as [E8 E9].
  destruct (payload_run w x) as (En & El & _). { exists v, b. rewrite Hf. split_and!; [done|done|done|lia]. }
  assert (Ep : payload_of w x = (nonce, len, v_len v)).
  { unfold payload_of. rewrite Hv, Hf, Hb. cbn [default id]. rewrite E8, E9, !le_val_bytes. f_equal. f_equal; apply Z.mod_small; lia. }
  rewrite Ep in En, El. mstep En. unfold pl_nonce. cbn [fst snd]. rewrite Z.eqb_refl. mstep. mstep El. unfold pl_len. cbn [fst snd].
  rewrite Z.eqb_refl. mstep. apply IH. intros y Hy. apply Hl. by right.
Qed.

(** *** On the engine *)

Section Probe.
Context (fuel tries L : nat) (D : gset nat) (cf : ifconf).
Hypothesis HL : (110 <= L)%nat.
Hypothesis HD : (1 < size D)%nat.
Notation sys := (sys_inv fuel L D cf).

Lemma stamp_run nonce len xs g : ∀ w,
  sys g w → NoDup xs → (∀ x, x ∈ xs → owns_iov g x ∧ ∃ v, e_bufs w !! x = Some v ∧ 0 <= snd (v_buf v) ∧ snd (v_buf v) + 16 <= Z.of_nat L) →
  ∃ mem, stamp nonce len xs w = Done (tt, set_mem w mem) ∧ sys g (set_mem w mem) ∧
    (∀ x, x ∈ xs → stamped (g_home g) nonce len (set_mem w mem) x) ∧
    ∀ id, id ∉ h_iov (g_home g) <$> xs → mem !! id = e_mem w !! id.
Proof.
  induction xs as [|x xs IH]; intros w Hsys Hnd Hx.
  { exists (e_mem w). split; [by destruct w|]. split; [by destruct w|]. split; [by intros y ?%elem_of_nil|done]. }
  apply NoDup_cons in Hnd as [Hxn Hnd]. destruct (Hx x ltac:(by left)) as (Ho & v & Hv & H0 & H16).
  destruct (write_sys fuel L D cf HL HD g w Hsys x 0 (le_bytes 8 nonce) v Ho (le_bytes_is_bytes _ _) Hv H0
    ltac:(rewrite length_le_bytes; lia)) as (b & Hb & Hlb & Hvb & E1 & Hs1).
  replace (Z.to_nat (snd (v_buf v) + Z.of_nat 0)) with (Z.to_nat (snd (v_buf v))) in * by lia.
  set (w1 := set_mem w _) in *.
  destruct (write_sys fuel L D cf HL HD g w1 Hs1 x 8 (le_bytes 8 len) v Ho (le_bytes_is_bytes _ _) Hv H0
    ltac:(rewrite length_le_bytes; lia)) as (b1 & Hb1 & Hlb1 & _ & E2 & Hs2).
  set (w2 := set_mem w1 _) in *.
  assert (Hmem : e_mem w2 = <[h_iov (g_home g) x := stn b1 (Z.to_nat (snd (v_buf v) + Z.of_nat 8)) (le_bytes 8 len)]> (e_mem w)).
  { unfold w2, w1. cbn [e_mem set_mem]. by rewrite insert_insert_eq. }
  assert (Eb1 : b1 = stn b (Z.to_nat (snd (v_buf v))) (le_bytes 8 nonce)).
  { cbn in Hb1. rewrite lookup_insert_eq in Hb1. by injection Hb1. }
  destruct (IH w2 Hs2 Hnd) as (mem & E & Hs & Hst & Hmo); [intros y Hy; apply Hx; by right|].
  change (set_mem w2 mem) with (set_mem w mem) in *.
  assert (Hxs : h_iov (g_home g) x ∉ h_iov (g_home g) <$> xs).
  { intros (y & Ey & Hy)%list_elem_of_fmap. replace y with x in Hy; [done|].
    apply (rx_homes _ _ _ (xs_rx _ _ _ _ _ _ _ _ _ _ _ (sy_rx _ _ _ _ _ _ Hsys))); [by eapply elem_of_dom_2| |done].
    destruct (Hx y ltac:(by right)) as (_ & vy & Hvy & _). by eapply elem_of_dom_2. }
  exists mem. split; [|split; [done|split]].
  - cbn [stamp]. mstep (get_iov_run x v w Hv). replace (v_buf v) with (padd (v_buf v) 0) at 1
      by (unfold padd; rewrite Z.add_0_r; by destruct (v_buf v)).
    mstep E1. mstep E2. exact E.
  - intros y [->|Hy]%elem_of_cons; [|by apply Hst]. split. exists v, (stn b1 (Z.to_nat (snd (v_buf v) + Z.of_nat 8)) (le_bytes 8 len)).
    split; [done|]. split; [by rewrite Hvb|]. split; [done|].
    cbn [e_mem set_mem]. rewrite Hmo, Hmem by done. rewrite lookup_insert_eq. split; [done|].
    rewrite length_stn by (rewrite length_le_bytes; lia). split; [lia|].
    rewrite (ldn_add _ _ 8 8), Z2Nat.inj_add, Nat2Z.id by lia. f_equal.
    + rewrite ldn_stn_ne by (rewrite ?length_le_bytes; lia). rewrite Eb1. apply ldn_stn_at; rewrite ?length_le_bytes; lia.
    + apply ldn_stn_at; rewrite ?length_le_bytes; lia.
  - intros id Hid. rewrite fmap_cons in Hid. apply not_elem_of_cons in Hid as [H1 H2]. rewrite Hmo, Hmem by done. by apply lookup_insert_ne.
Qed.

(** *** The wait *)

Section Wait.
Context `{NetmapLaws, !NetmapProgress, !NetmapPoll} (can_alloc : kh_array → Z → bool).
Hypothesis Halloc : ∀ a n, can_alloc a n = true.
Hypothesis Hconf : ifconf_wf cf.
Hypothesis Hia4 : have_ip4 cf = true → is_Some (ifaddr cf !! Z.to_nat (addr4_pos cf)).
Hypothesis Hia6 : have_ip6 cf = true → is_Some (ifaddr cf !! 0%nat).
Hypothesis Hsz : Z.of_nat (size D) < 2 ^ 64.
Context (nsec : Z) (s i o : nat) (xs : list nat).
Hypothesis Hio : i ≠ o.

(** The contract of [w_nic_rx] holds whenever the loop calls it. *)
Fixpoint receives (n : nat) (g : ghost) (w : engine) : Prop :=
  match n with
  | O => True
  | S n => ∀ ys, g_m g !! i = Some ys → (length ys < length xs)%nat →
      pre fuel L cf g w (CNicRx nsec) ∧
      ∀ b w1 g1, w_nic_rx can_alloc fuel 1 nsec w = Done (b, w1) → eff (CNicRx nsec) (RBool b) w g g1 → sys g1 w1 →
        if (b : bool) then ∀ sk zs w2, e_socks w1 !! s = Some sk → g_m g1 !! s_iv sk = Some zs → w_rx sk i w1 = Done (tt, w2) →
          receives n (with_m g1 (<[i := ys ++ zs]> (<[s_iv sk := []]> (g_m g1)))) w2
        else receives n g1 w1
  end.

Lemma cnt_run g w q ys : sys g w → owns g q ys → w_iov_sq_cnt q w = Done (Z.of_nat (length ys), w).
Proof.
  intros Hsys Ho. destruct (owned fuel L D cf g w Hsys q ys Ho) as (Hy & _).
  by apply (w_iov_sq_cnt_run D (g_m g) w q ys (ni_eng _ _ _ _ _ (xs_net _ _ _ _ _ _ _ _ _ _ _ (sy_rx _ _ _ _ _ _ Hsys)))).
Qed.

(** The loop ends, at the latest with the timer; what it received is in [i], and the train
    is as it was. *)
Lemma wait_run sk n : ∀ g w ys,
  sys g w → e_socks w !! s = Some sk → owns g i ys → owns g o xs → receives n g w →
  ∃ g' w' zs, wait_reply can_alloc fuel n nsec s i o w = Done (bool_decide (length zs < length xs)%nat, w') ∧
    sys g' w' ∧ owns g' i zs ∧ owns g' o xs ∧ ∀ x, x ∈ xs → keeps (g_home g) (g_home g') w w' x.
Proof.
  induction n as [|n IH]; intros g w ys Hsys Hsk Hi Ho Hr; cbn [wait_reply];
    mstep (cnt_run g w i ys Hsys Hi); mstep (cnt_run g w o xs Hsys Ho);
    (destruct (Z.ltb_spec (Z.of_nat (length ys)) (Z.of_nat (length xs))) as [Hlt|Hge]; cbn [negb];
     [|exists g, w, ys; rewrite bool_decide_false by lia; by split_and!]).
  { exists g, w, ys. rewrite bool_decide_true by lia. by split_and!. }
  destruct (Hr ys (proj2 Hi) ltac:(lia)) as [Hpre Hnext].
  destruct (nic_rx_sys can_alloc Halloc fuel L D cf HL Hconf Hia4 Hia6 HD g w Hsys nsec Hpre)
    as (b & w1 & g1 & E1 & He1 & Hs1 & Esk & _ & Hk1).
  specialize (Hnext b w1 g1 E1 He1 Hs1). destruct He1 as (_ & _ & Eq & Em).
  assert (Hi1 : owns g1 i ys) by (split; [by rewrite Eq; apply Hi|rewrite Em by apply Hi; apply Hi]).
  assert (Ho1 : owns g1 o xs) by (split; [by rewrite Eq; apply Ho|rewrite Em by apply Ho; apply Ho]).
  destruct (owned fuel L D cf g w Hsys o xs Ho) as (Hx & Hoq & _).
  assert (Hkx : ∀ x, x ∈ xs → keeps (g_home g) (g_home g1) w w1 x) by (intros x Hxx; by eapply Hk1).
  rewrite <- Esk in Hsk. mstep E1. destruct b; cbn [negb].
  2: { destruct (IH g1 w1 ys Hs1 Hsk Hi1 Ho1 Hnext) as (g' & w' & zs & E & Hs' & Hz & Hxo & Hk). exists g', w', zs.
    split_and!; try done. intros x Hxx. eapply keeps_trans; [by apply Hkx|by apply Hk]. }
  pose proof (xs_sock _ _ _ _ _ _ _ _ _ _ _ (sy_rx _ _ _ _ _ _ Hs1)) as Hso.
  destruct (si_iv _ _ _ _ Hso s sk Hsk) as [[zs Hz] Hivq].
  destruct (owned fuel L D cf g1 w1 Hs1 i ys Hi1) as (Hy1 & Hiq & His). destruct (owned fuel L D cf g1 w1 Hs1 o xs Ho1) as (_ & _ & Hos).
  destruct (sys_concat fuel L D cf HL HD g1 w1 Hs1 i (s_iv sk) ys zs ltac:(apply not_eq_sym, (His s sk Hsk)) Hiq Hivq Hy1 Hz)
    as (q' & E2 & Hs2).
  set (g2 := with_m g1 _) in *. set (w2 := set_iovs w1 q' (e_bufs w1)) in *.
  destruct (IH g2 w2 (ys ++ zs) Hs2 Hsk) as (g' & w' & us & E & Hs' & Hu & Hxo & Hk).
  - split; [apply Hi1|]. cbn [g_m g2 with_m]. apply lookup_insert_eq.
  - split; [apply Ho1|]. cbn [g_m g2 with_m]. rewrite (lookup_insert_ne _ i o _ Hio), (lookup_insert_ne _ (s_iv sk) o); [apply Ho1|]. by apply (Hos s sk).
  - by apply (Hnext sk zs w2 Hsk Hz).
  - exists g', w', us. split; [mstep (get_sock_run s sk w1 Hsk); unfold w_rx; mstep E2; exact E|]. split_and!; try done.
    intros x Hxx. eapply keeps_trans; [by apply Hkx|]. by apply Hk.
Qed.
End Wait.

(** *** An iteration *)

(** The checks at the end: the length of the reply, and that the times are below a second. *)
Definition len_ok (total len : Z) (done : bool) : bool := (total =? len) || ((total <? len) && done).
Definition time_ok (total len : Z) (t0 t1 t2 : timespec) : bool :=
  (if total =? len then tv_sec (timespec_sub t2 t0) =? 0 else true) && (tv_sec (timespec_sub t1 t0) =? 0).
Definition line_of (total len : Z) (pkts : nat) (t0 t1 t2 : timespec) : line :=
  Line total (Z.of_nat pkts) (tv_nsec (timespec_sub t1 t0))
    (if total =? len then Some (tv_nsec (timespec_sub t2 t0)) else None).

Lemma report_run g w a expired nonce len i o ys xs t0 t1 t2 :
  Z.of_nat (size D) < 2 ^ 64 → 0 <= nonce < 2 ^ 64 → 0 <= len < 2 ^ 64 →
  sys g w → owns g i ys → owns g o xs → (∀ x, x ∈ xs → stamped (g_home g) nonce len w x) →
  after_rx a = Some t2 → timer_stop a = true →
  let total := u64 (sum_z (iov_len w <$> ys)) in
  report (size D) a expired nonce len i o t0 t1 w =
    if len_ok total len (expired || late a) && time_ok total len t0 t1 t2
    then (w_free i ;; mret (line_of total len (length ys) t0 t1 t2)) w else Died.
Proof.
  intros Hsz Hn Hlen Hsys Hi Ho Hst Et Es total. pose proof (ni_eng _ _ _ _ _ (xs_net _ _ _ _ _ _ _ _ _ _ _ (sy_rx _ _ _ _ _ _ Hsys))) as Heng.
  pose proof (w_iov_sq_len_run D (g_m g) w i ys Heng (proj2 Hi)) as El. fold total in El.
  unfold report. rewrite Et, Es. cbn [clock_gettime]. mstep. mstep. mstep El. unfold len_ok, time_ok.
  destruct ((total =? len) || _); [|done]. cbn [andb]. mstep.
  mstep (liftq_foreach D (g_m g) w o xs Heng (proj2 Ho)). mstep (verify_run (g_home g) nonce len w xs Hn Hlen Hst). mstep El.
  pose proof (cnt_run Hsz g w i ys Hsys Hi) as Ec. unfold line_of. destruct (total =? len).
  - rewrite bind_assoc_run. destruct (tv_sec (timespec_sub t2 t0) =? 0); [|done]. mstep. mstep. mstep Ec. cbn [andb].
    by destruct (tv_sec (timespec_sub t1 t0) =? 0).
  - mstep. mstep Ec. cbn [andb]. by destruct (tv_sec (timespec_sub t1 t0) =? 0).
Qed.

(** What [w_tx] keeps of a stamped vector. *)
Lemma stamped_sent home nonce len w w' x v b b' sk src w0 :
  stamped home nonce len w x → e_bufs w !! x = Some v → v_buf v = (h_iov home x, 14 + Z.of_nat (ip_len sk) + 8) → 16 <= v_len v →
  e_mem w !! h_iov home x = Some b → e_mem w' !! h_iov home x = Some b' → tx_frame_of sk src w0 v b b' →
  no_idx <$> e_bufs w' = no_idx <$> e_bufs w →
  stamped home nonce len w' x ∧ ldn b' (14 + ip_len sk + 8) 16 = le_bytes 8 nonce ++ le_bytes 8 len.
Proof.
  intros [(v0 & b0 & Hv0 & _ & _ & Hb0 & Hl0 & Hd0)] Hv Hvb Hn Hb Hb' [[Hl' _] _ _ [_ _ _ _ Hd]] Ek.
  assert (v0 = v) as -> by congruence. assert (b0 = b) as -> by congruence.
  apply (f_equal (.!! x)) in Ek. rewrite !lookup_fmap, Hv in Ek. destruct (e_bufs w' !! x) as [v'|] eqn:Hv'; [|done].
  injection Ek as E1 E2 E3 E4 E5 E6 E7.
  assert (Hd16 : ldn b' (14 + ip_len sk + 8) 16 = le_bytes 8 nonce ++ le_bytes 8 len).
  { rewrite <- Hd0, Hvb. cbn [snd]. replace (Z.to_nat (14 + Z.of_nat (ip_len sk) + 8)) with (14 + ip_len sk + 8)%nat by lia.
    apply (f_equal (λ l, ldn l 0 16)) in Hd. rewrite !ldn_ldn, Nat.add_0_r in Hd by lia. exact Hd. }
  split; [|done]. split. exists v', b'. rewrite E3, Hvb in *. cbn [fst snd] in *.
  split_and!; [done|done|lia|done|lia|].
  by replace (Z.to_nat (14 + Z.of_nat (ip_len sk) + 8)) with (14 + ip_len sk + 8)%nat by lia.
Qed.

Section Exchange.
Context `{NetmapLaws, !NetmapProgress, !NetmapPoll} (can_alloc : kh_array → Z → bool).
Hypothesis Halloc : ∀ a n, can_alloc a n = true.
Hypothesis Hconf : ifconf_wf cf.
Hypothesis Hia4 : have_ip4 cf = true → is_Some (ifaddr cf !! Z.to_nat (addr4_pos cf)).
Hypothesis Hia6 : have_ip6 cf = true → is_Some (ifaddr cf !! 0%nat).
Hypothesis Hsz : Z.of_nat (size D) < 2 ^ 64.

(** The frame in the buffer of vector [x]: a packet of the train to the peer, which the
    kernel was shown in a TX ring. *)
Definition packet_of (home : homes) (sk : w_sock) (src : w_addr) (w : engine) (v : w_iov) (w' : engine) (x : nat) (nonce len : Z) : Prop :=
  ∃ b b', e_mem w' !! h_iov home x = Some b' ∧ tx_frame_of sk src w v b b' ∧
    ldn b' (14 + ip_len sk + 8) 16 = le_bytes 8 nonce ++ le_bytes 8 len ∧ shown w w' (h_iov home x) (frame_len sk v) b'.

(** The train is stamped and sent. *)
Lemma train_run g w o xs s sk src nonce len :
  sys g w → owns g o xs → e_socks w !! s = Some sk → can_reply L w sk src xs → 0 <= len < 2 ^ 64 → 0 <= nonce < 2 ^ 64 →
  (∀ x, x ∈ xs → ∃ v, e_bufs w !! x = Some v ∧ v_buf v = (h_iov (g_home g) x, 14 + Z.of_nat (ip_len sk) + 8) ∧ 16 <= v_len v) →
  ∃ mem w', liftq (sq_foreach (size D) o) w = Done (xs, w) ∧ stamp nonce len xs w = Done (tt, set_mem w mem) ∧
    (w_tx can_alloc fuel tries (size D) s o ;; w_nic_tx) (set_mem w mem) = Done (tt, w') ∧ sys g w' ∧ e_socks w' = e_socks w ∧
    ∀ x v, x ∈ xs → e_bufs w !! x = Some v → stamped (g_home g) nonce len w' x ∧ packet_of (g_home g) sk src w v w' x nonce len.
Proof.
  intros Hsys Ho Hsk [R1 R2 R3 R4] Hlen Hnonce Hx. destruct (owned fuel L D cf g w Hsys o xs Ho) as (Hox & Hoq & _).
  pose proof (ni_eng _ _ _ _ _ (xs_net _ _ _ _ _ _ _ _ _ _ _ (sy_rx _ _ _ _ _ _ Hsys))) as Heng.
  destruct (inv_repr D _ _ (ei_q _ _ _ Heng) o xs Hox) as [_ _ Hnd].
  destruct (stamp_run nonce len xs g w Hsys Hnd) as (mem & E1 & Hs1 & Hst & _).
  { intros x Hxx. split; [by exists o, xs|]. destruct (Hx x Hxx) as (v & Hv & Hvb & Hn). exists v. rewrite Hvb. cbn [snd].
    destruct (R4 x Hxx) as (_ & v1 & Hv1 & _ & _ & _ & Hfit & _). assert (v1 = v) as -> by congruence. split; [done|]. lia. }
  set (w1 := set_mem w mem) in *.
  destruct (tx_sys can_alloc fuel tries L D cf HL Hconf HD g w1 Hs1 s o sk xs src Hsk R1 R2 Ho R3 R4)
    as (w2 & E2 & Hs2 & Hk2 & _ & Hf2).
  destruct (nic_tx_sys fuel L D cf HL HD g w2 Hs2) as (w3 & E3 & Hs3 & Ho3 & _ & Hsh3).
  destruct (tx_only_rest _ _ Ho3) as (Hr3 & Em3 & _). pose proof (tx_only_keep _ _ Ho3) as Hk3.
  exists mem, w3. split; [by apply (liftq_foreach D (g_m g))|]. split; [exact E1|]. split; [by mstep E2|]. split; [done|]. split.
  - transitivity (e_socks w2); [apply (tk_rest _ _ Hk3)|]. apply (tk_rest _ _ Hk2).
  - intros x v Hxx Hv. destruct (Hf2 x v Hxx Hv) as (b & b' & Hb & Hb' & Hfr & Hin).
    destruct (Hx x Hxx) as (v1 & Hv1 & Hvb & Hn). assert (v1 = v) as -> by congruence. rewrite <- Em3 in Hb'.
    destruct (stamped_sent _ _ _ w1 w3 x v b b' sk src w1 (Hst x Hxx) Hv Hvb Hn Hb Hb' Hfr) as [S1 S2].
    { transitivity (no_idx <$> e_bufs w2); [apply (tk_bufs _ _ Hk3)|apply (tk_bufs _ _ Hk2)]. }
    split; [done|]. exists b, b'. split; [done|]. split; [by apply (tx_frame_of_ext sk src w w1)|]. split; [done|].
    destruct Hin as [Hin|Hin]; [apply (shown_mono w1 w2 w3 w3)|apply (shown_mono w1 w1 w2 w3)]; try done; try apply Hk2; try apply Ho3.
    rewrite Em3 in Hb'. by apply Hsh3.
Qed.

(** What an iteration needs: an answer for each call of the system, a connection that can
    send, and a train in the new vectors of [w_alloc_len]. *)
Record can_probe (g : ghost) (w : engine) (a : answers) (len : Z) (conns : list nat) (o : nat) (xs : list nat)
    (s : nat) (sk : w_sock) (src : w_addr) (t0 t1 t2 : timespec) : Prop := {
  cp_times : before_tx a = Some t0 ∧ after_tx a = Some t1 ∧ after_rx a = Some t2;
  cp_timer : timer_set a = true ∧ timer_stop a = true;
  cp_sock : ∃ c r, w_rand_uniform32 fuel (Z.of_nat (length conns)) (e_rng w) = Done (c, r) ∧ rd conns c = Done s;
  cp_tx : e_socks w !! s = Some sk ∧ can_reply L w sk src xs;
  cp_len : 0 <= len < 2 ^ 64;
  cp_train : owns g o xs ∧ ∀ x, x ∈ xs → ∃ v, e_bufs w !! x = Some v ∧
    v_buf v = (h_iov (g_home g) x, 14 + Z.of_nat (ip_len sk) + 8) ∧ 16 <= v_len v
}.

Lemma liftr_rand_run {A} (m : M krng_t A) w (x : A) r : m (e_rng w) = Done (x, r) → liftr m w = Done (x, set_rng w r).
Proof. intros E. unfold liftr. by rewrite E. Qed.

Lemma rand64_u64 r : ∃ n r', w_rand64 r = Done (n, r') ∧ 0 <= n < 2 ^ 64.
Proof. eexists _, _. split; [reflexivity|]. apply u64_range. Qed.

Lemma send_train_run g w a len conns o xs s sk src t0 t1 t2 :
  sys g w → can_probe g w a len conns o xs s sk src t0 t1 t2 →
  ∃ nonce w', send can_alloc fuel tries (size D) a len conns o w = Done (Sent s nonce t0 t1, w') ∧ 0 <= nonce < 2 ^ 64 ∧
    sys g w' ∧ e_socks w' = e_socks w ∧
    ∀ x v, x ∈ xs → e_bufs w !! x = Some v → stamped (g_home g) nonce len w' x ∧ packet_of (g_home g) sk src w v w' x nonce len.
Proof.
  intros Hsys [(T0 & T1 & _) _ (c & r & Ec & Es) [Hsk Hcan] Hlen [Ho Hx]].
  destruct (rand64_u64 r) as (nonce & r' & En & Hn).
  pose proof (sys_rng fuel L D cf HL HD g w r' Hsys) as Hs1. set (w1 := set_rng w r') in *.
  assert (Hcan1 : can_reply L w1 sk src xs) by by destruct Hcan.
  destruct (train_run g w1 o xs s sk src nonce len Hs1 Ho Hsk Hcan1 Hlen Hn Hx) as (mem & w' & E1 & E2 & E3 & Hs' & Esk & Hf).
  exists nonce, w'. split; [|split; [done|split; [done|split; [exact Esk|]]]].
  - unfold send. mstep (liftr_rand_run _ w c r Ec). rewrite T0. cbn [clock_gettime]. mstep.
    mstep (liftr_rand_run w_rand64 (set_rng w r) nonce r' En). change (set_rng (set_rng w r) r') with w1. mstep E1. mstep E2.
    unfold lift. rewrite Es. mstep. rewrite <- bind_assoc_run. mstep E3. rewrite T1. by mstep.
  - intros x v Hxx Hv. destruct (Hf x v Hxx Hv) as (S1 & b & b' & Hb' & Hfr & Hd). split; [done|]. exists b, b'. split; [done|].
    split; [by apply (tx_frame_of_ext sk src w w1)|exact Hd].
Qed.

(** C39: An iteration sends the train to the peer of the connection, with the same nonce
    and the length in every packet, each in a frame that the kernel is shown, and waits until as many
    packets are back or the loop finds that the timer has expired.  The wait is on the
    assumption ([receives]) that each of its calls of [w_nic_rx] returns: without [busywait] they have the
    timeout -1, so that a lost reply blocks the call and the timer does not end it.
    It then prints the bytes and packets in the receive queue and the times, whatever these packets
    hold: the check of nonce and length reads the train that was sent.  It ends the program if
    more bytes came back than were sent, if as many packets came back with fewer bytes
    before the timer expired, or if a time is a second or more. *)
Theorem probe_correct g w a (busywait : bool) len conns o xs s sk src t0 t1 t2 :
  sys g w → can_probe g w a len conns o xs s sk src t0 t1 t2 →
  let nsec := if busywait then 0 else -1 in
  (∀ (x : sent) w1 i w2, send can_alloc fuel tries (size D) a len conns o w = Done (x, w1) → w_iov_sq_new w1 = Done (i, w2) →
    sys (with_queue g i []) w2 → receives can_alloc nsec s i xs (polls a) (with_queue g i []) w2) →
  ∃ nonce w1 g' w' i ys,
    (** The train is sent, *)
    send can_alloc fuel tries (size D) a len conns o w = Done (Sent s nonce t0 t1, w1) ∧
    (∀ x v, x ∈ xs → e_bufs w !! x = Some v → packet_of (g_home g) sk src w v w1 x nonce len) ∧
    (** the vectors [ys] are received, *)
    sys g' w' ∧ owns g' i ys ∧ owns g' o xs ∧
    (** and reported and freed. *)
    let total := u64 (sum_z (iov_len w' <$> ys)) in
    let expired := bool_decide (length ys < length xs)%nat in
    ∃ q', let w2 := set_iovs w' q' (e_bufs w') in
      probe can_alloc fuel tries (size D) a busywait len conns o w =
        (if len_ok total len (expired || late a) && time_ok total len t0 t1 t2
         then Done (line_of total len (length ys) t0 t1 t2, w2) else Died) ∧
      ((∀ y, y ∈ ys → not_waiting w' y) → ∃ free, g_m g' !! IOVQ = Some free ∧
        sys (with_m g' (<[IOVQ := free ++ ys]> (<[i := []]> (g_m g')))) w2).
Proof.
  intros Hsys Hp nsec Hrec. pose proof Hp as [(T0 & T1 & T2) [B1 B2] _ [Hsk _] Hlen [Ho Hx]].
  destruct (send_train_run g w a len conns o xs s sk src t0 t1 t2 Hsys Hp) as (nonce & w1 & E1 & Hn & Hs1 & Esk & Hf).
  destruct (queue_sys fuel L D cf HL HD g w1 Hs1) as (q1 & E2 & Hi & Hs2). set (i := new_queue w1) in *.
  specialize (Hrec _ _ _ _ E1 E2 Hs2). set (w2 := set_iovs w1 q1 (e_bufs w1)) in *.
  assert (Hio : i ≠ o) by (intros ->; rewrite (proj2 Ho) in Hi; done).
  destruct (wait_run can_alloc Halloc Hconf Hia4 Hia6 Hsz nsec s i o xs Hio sk (polls a) (with_queue g i []) w2 [] Hs2
    ltac:(by rewrite <- Esk in Hsk) (owns_new g i []) (owns_with_queue g i [] o xs Hio Ho) Hrec)
    as (g' & w' & ys & E3 & Hs' & Hi' & Ho' & Hk).
  assert (Hst : ∀ x, x ∈ xs → stamped (g_home g') nonce len w' x).
  { intros x Hxx. destruct (Hx x Hxx) as (v & Hv & _). destruct (Hf x v Hxx Hv) as [S1 _].
    destruct (Hk x Hxx) as (K1 & K2 & K3). by apply (stamped_ext (g_home g) (g_home g') nonce len w1 w' x). }
  destruct (ei_iovq D _ _ (ni_eng _ _ _ _ _ (xs_net _ _ _ _ _ _ _ _ _ _ _ (sy_rx _ _ _ _ _ _ Hs')))) as [free Hfree].
  destruct (free_sys fuel L D cf HL HD g' w' Hs' i ys free Hi' Hfree) as (q' & E4 & _ & Hs4).
  exists nonce, w1, g', w', i, ys. split; [done|]. split; [intros x v Hxx Hv; by apply Hf|]. split_and!; try done. exists q'. split; [|intros Hnw; exists free; split; [done|by apply Hs4]].
  unfold probe. mstep E1. rewrite B1. cbn [sn_sock sn_nonce sn_before sn_after]. mstep. mstep E2. mstep E3.
  rewrite (report_run g' w' a _ nonce len i o ys xs t0 t1 t2 Hsz Hn Hlen Hs' Hi' Ho' Hst T2 B2).
  destruct (len_ok _ _ _ && _); [by mstep E4|done].
Qed.
End Exchange.
End Probe.

(** ** Witnesses *)

#[local] Existing Instance netmap_ex.
#[local] Existing Instance netmap_ex_poll.

(** A train of one packet of 16 bytes over the socket of [bound_ex_sys]. *)
Definition train_ex : engine := after (CSetIov 2 16 0 from_ex) w4_ex.
Definition time_ex (nsec : Z) : option timespec := Some (Timespec 7 nsec).
Definition answers_ex : answers := Answers (time_ex 100) (time_ex 350) (time_ex 900) true true 1 true.

(** With the defaults, the lengths are 16, 159, ..., 1446. *)
Lemma trains_correct_witness :
  trains yes 5 1 3 (λ _ _, answers_ex) false [0%nat] AF_INET 12 1 0 16 143 1458 train_ex =
      trains_of yes 5 1 3 (λ _ _, answers_ex) false [0%nat] AF_INET 1 16 143 11 0 train_ex ∧
    (train_len 16 143 10 = 1446 ∧ train_len 16 143 10 <= 1458).
Proof.
  destruct (trains_correct yes 5 1 3 (λ _ _, answers_ex) false [0%nat] AF_INET 1 16 143 1458 ltac:(lia) ltac:(lia) ltac:(lia)
    11 0 train_ex ltac:(vm_compute; lia)) as [E Hl].
  split; [exact E|]. split; [reflexivity|]. apply Hl. vm_compute. lia.
Defined.

Lemma receives_ex nsec s i xs g w : receives 5 128 D_ex conf_session_ex yes nsec s i xs 1 g w.
Proof.
  cbn [receives]. intros ys _ _. split; [exact I|]. intros b w1 g1 E _ _.
  assert (Hp : nm_poll (e_calls w) (poll_timeout nsec) (e_rxr w) (e_mem w) = None) by reflexivity.
  rewrite (w_nic_rx_timeout yes 5 0 w nsec Hp) in E. injection E as <- _. exact I.
Qed.

Lemma probe_correct_witness :
  ∃ nonce w1 b, send yes 5 1 (size D_ex) answers_ex 16 [0%nat] q_ex train_ex =
      Done (Sent 0 nonce (Timespec 7 100) (Timespec 7 350), w1) ∧
    e_mem w1 !! 2 = Some b ∧ ldn b Eth.dst 6 = mac ifconf_ex ∧ ld16 b (34 + Udp.dport) = 0x5000 ∧
    ldn b 42 16 = le_bytes 8 nonce ++ le_bytes 8 16.
Proof.
  destruct alloced_ex_sys as (g & H4 & Hh & _ & Hq & _). pose proof (set_iov_ex g w4_ex 16 H4 Hq) as Hs. fold train_ex in Hs.
  destruct (probe_correct 5 1 128 D_ex conf_session_ex L_ex size_D_ex yes (λ _ _, eq_refl) conf_session_ex_wf
    ltac:(vm_compute; eauto) ltac:(vm_compute; eauto) ltac:(vm_compute; done) g train_ex answers_ex false 16 [0%nat] q_ex [2%nat] 0%nat sk_ex
    (addr_ex4 10 0 0 2) (Timespec 7 100) (Timespec 7 350) (Timespec 7 900) Hs)
    as (nonce & w1 & _ & _ & _ & _ & E & Hf & _).
  - split.
    + done.
    + done.
    + eexists _, _. split; [vm_compute; reflexivity|reflexivity].
    + split; [vm_compute; reflexivity|]. eapply can_reply_ex; try (vm_compute; reflexivity). vm_compute. by split.
    + lia.
    + split; [exact Hq|]. intros x ->%list_elem_of_singleton. eexists. split; [vm_compute; reflexivity|].
      rewrite Hh. split; [vm_compute; reflexivity|vm_compute; discriminate].
  - intros x w2 i w3 _ _ _. apply receives_ex.
  - destruct (Hf 2%nat (default (iov_ex 0) (e_bufs train_ex !! 2%nat))) as (b0 & b & Hb & [_ (mac & [[M _] _] & [F1 _ _]) _ [_ U2 _ _ _]] & Hd & _);
      [by left|vm_compute; reflexivity|].
    exists nonce, w1, b. split; [exact E|]. rewrite Hh in Hb. split; [exact Hb|]. split; [|split; [exact U2|exact Hd]].
    rewrite F1. revert M. vm_compute. congruence.
Defined.
