(* ===== verification/Resolve.v ===== *)
(** Address resolution (lib/src/neighbor.c) on the whole engine: [who_has] asks for the MAC
    address of a peer until the neighbor cache has learned it from received frames. *)

From stdpp Require Import strings.
From S2P Require Import Prelude Util Krng Queue Wire Cksum Addr Ifaddr Khash Engine Netmap Ip Send Sock Arp Icmp Icmp6 Rx Reply NicRx Connect Tx Backend System Life Inetd.

(** The query that [who_has] sends: an ARP request or a neighbor solicitation. *)
Definition query `{!Netmap} (fuel : nat) (a : w_addr) : M engine unit :=
  if af a =? AF_INET then arp_who_has fuel (ip4 a) else icmp6_nsol fuel (ip6 a).

Section Resolve.
Context `{NetmapLaws, !NetmapProgress, !NetmapPoll} (can_alloc : kh_array → Z → bool).
Hypothesis Halloc : ∀ a n, can_alloc a n = true.
Context (fuel L : nat) (D : gset nat) (cf : ifconf).
Hypothesis HL : (110 <= L)%nat.
Hypothesis Hconf : ifconf_wf cf.
Hypothesis Hia4 : have_ip4 cf = true → is_Some (ifaddr cf !! Z.to_nat (addr4_pos cf)).
Hypothesis Hia6 : have_ip6 cf = true → is_Some (ifaddr cf !! 0%nat).
Hypothesis HD : (1 < size D)%nat.
Notation sys := (sys_inv fuel L D cf).

(** The address, and one of our own of its family. *)
Context (a : w_addr) (ia : w_ifaddr).
Hypothesis Ha : w_addr_wf a.
Hypothesis Hia : ifaddr cf !! (if af a =? AF_INET then Z.to_nat (addr4_pos cf) else 0%nat) = Some ia.

Definition query_frame (b : bytes) : Prop :=
  if af a =? AF_INET then arp_frame b ETH_ADDR_BCAST (mac cf) ARP_OP_REQUEST (ip4 (ia_addr ia)) ETH_ADDR_NONE (ip4 a)
  else icmp6_nsol_frame b (mac cf) (take IP6_LEN (ip6 (ia_addr ia))) (ip6 a).

(** From [w] to [w1] a query was sent with the first free vector; nothing if there is none. *)
Definition query_len : Z := if af a =? AF_INET then Z.of_nat Arp.size else 72.
Definition queried (g : ghost) (w w1 : engine) : Prop :=
  match g_m g !! IOVQ with
  | Some (i :: _) => ∃ b, reply_sent L (g_home g) D (g_m g) w i b query_len w1 ∧ query_frame b
  | _ => w1 = w
  end.

Lemma query_run g w : sys g w → ∃ w1, query fuel a w = Done (tt, w1) ∧ queried g w w1.
Proof.
  intros Hsys. pose proof (sy_rx _ _ _ _ _ _ Hsys) as Hrx. pose proof (xs_net _ _ _ _ _ _ _ _ _ _ _ Hrx) as Hn.
  pose proof (xs_conf _ _ _ _ _ _ _ _ _ _ _ Hrx) as Ec. pose proof (xs_fuel _ _ _ _ _ _ _ _ _ _ _ Hrx) as Hf.
  assert (Hconf' : ifconf_wf (e_conf w)) by (by rewrite Ec).
  unfold query, queried, query_frame, query_len. destruct (ei_iovq _ _ _ (ni_eng _ _ _ _ _ Hn)) as [[|i free] Hm]; rewrite Hm.
  { pose proof (w_alloc_iov_base_run true D (g_m g) w (ni_eng _ _ _ _ _ Hn)) as Ea. rewrite Hm in Ea. exists w. split; [|done].
    destruct (af a =? AF_INET); [unfold arp_who_has|unfold icmp6_nsol]; by mstep Ea. }
  destruct (af a =? AF_INET).
  - destruct (arp_who_has_correct L (g_home g) D (g_m g) fuel w ltac:(lia) Hn Hf Hconf' i free (ip4 a) ia Hm)
      as (w1 & b & E & Hs & Hfr); [apply ld32_range, Ha|by rewrite Ec|].
    rewrite Ec in Hfr. by exists w1; split; [|exists b].
  - destruct (icmp6_nsol_correct L (g_home g) D (g_m g) fuel w i free ia Hn Hf Hconf' Hm ltac:(by rewrite Ec) (ip6 a) ltac:(lia))
      as (w1 & b & E & Hs & Hfr); [apply Ha|apply Ha|].
    rewrite Ec in Hfr. by exists w1; split; [|exists b].
Qed.

Lemma queried_sys g w w1 : sys g w → queried g w w1 → sys g w1 ∧ e_neighbor w1 = e_neighbor w.
Proof.
  intros Hsys Hq. pose proof (sy_rx _ _ _ _ _ _ Hsys) as Hrx. pose proof (xs_net _ _ _ _ _ _ _ _ _ _ _ Hrx) as Hn.
  unfold queried in Hq. destruct (ei_iovq _ _ _ (ni_eng _ _ _ _ _ Hn)) as [[|i free] Hm]; rewrite Hm in Hq; [by subst|].
  destruct Hq as (b & Hs & _). pose proof (reply_sent_replied L _ D _ w i free b query_len w1 Hm Hs) as Hrep.
  split; [|apply (rp_rest _ _ _ _ _ _ Hrep)].
  destruct (step_replied fuel L D (g_tm g) (g_B g) cf (e_socks w) HL Hconf Hia4 Hia6 (g_n g) (g_home g) (g_m g) w w1 Hrx Hrep) as (Hrx1 & Hp & _).
  pose proof (sys_received fuel L D cf g w Hsys (g_n g) (g_home g) (g_m g) w w1 [] 0 [] (i :: free)
    (sy_room _ _ _ _ _ _ Hsys) Hm Hrx1 Hp (λ i _, keeps_refl _ _ _)) as Hs1.
  by destruct g.
Qed.
Definition mac_of (o : option bytes) : bytes := default ETH_ADDR_BCAST o.

Lemma cached_find w o : cached w a o → neighbor_find a w = Done (mac_of o, w).
Proof. intros E. unfold neighbor_find. mstep. by mstep (lift_run _ _ w E). Qed.

(** The network during at most [n] rounds: whenever a query was sent, [w_nic_rx] can be
    called. *)
Fixpoint network (n : nat) (g : ghost) (w : engine) : Prop :=
  match n with
  | O => True
  | S n => ∀ w1, query fuel a w = Done (tt, w1) → pre fuel L cf g w1 (CNicRx NS_PER_S) ∧
      ∀ b w2 g2, w_nic_rx can_alloc fuel 1 NS_PER_S w1 = Done (b, w2) →
        eff (CNicRx NS_PER_S) (RBool b) w1 g g2 → sys g2 w2 → network n g2 w2
  end.

(** Rounds of [who_has]: a query is sent, frames [fs] arrive and are handled, and the cache
    learns [lns] from them. *)
Inductive rounds : list (list (option (w_addr * bytes))) → ghost → engine → ghost → engine → Prop :=
| rounds_nil g w : rounds [] g w g w
| rounds_cons lns lnss fs b g w w1 g2 w2 g3 w3 :
    query fuel a w = Done (tt, w1) → queried g w w1 →
    arrived L cf NS_PER_S w1 fs → Forall2 (frame_learns cf) fs lns →
    w_nic_rx can_alloc fuel 1 NS_PER_S w1 = Done (b, w2) → rounds lnss g2 w2 g3 w3 →
    rounds (lns :: lnss) g w g3 w3.

(** The entry for the address after the first [k] rounds. *)
Definition entry (o : option bytes) (lnss : list (list (option (w_addr * bytes)))) (k : nat) : bytes :=
  mac_of (foldl (learn a) o (concat (take k lnss))).

Lemma entry_cons o lns lnss k : entry o (lns :: lnss) (S k) = entry (foldl (learn a) o lns) lnss k.
Proof. unfold entry. cbn [take concat]. by rewrite foldl_app. Qed.

Lemma query_round_run g w o :
  sys g w → cached w a o → network 1 g w →
  ∃ w1 fs lns b g2 w2, query fuel a w = Done (tt, w1) ∧ queried g w w1 ∧ arrived L cf NS_PER_S w1 fs ∧
    Forall2 (frame_learns cf) fs lns ∧ w_nic_rx can_alloc fuel 1 NS_PER_S w1 = Done (b, w2) ∧
    eff (CNicRx NS_PER_S) (RBool b) w1 g g2 ∧ sys g2 w2 ∧ cached w2 a (foldl (learn a) o lns).
Proof.
  intros Hsys Ho Hnet. destruct (query_run g w Hsys) as (w1 & E1 & Hq).
  destruct (queried_sys g w w1 Hsys Hq) as [Hs1 En]. destruct (Hnet w1 E1) as [Hpre _].
  destruct (nic_rx_sys can_alloc Halloc fuel L D cf HL Hconf Hia4 Hia6 HD g w1 Hs1 NS_PER_S Hpre)
    as (b & w2 & g2 & E2 & He & Hs2 & _ & (fs & Hfs & lns & Hlns & Hl) & _).
  exists w1, fs, lns, b, g2, w2. split_and!; try done. apply Hl; [done|]. unfold cached in *. by rewrite En.
Qed.

(** C28: [who_has] asks again and again until the neighbor cache has an entry for the
    address, and returns the MAC address of this entry, which is the last that the frames
    received since have taught.  In each round it sends one query, an ARP request or a
    neighbor solicitation, which the kernel is shown in a TX ring unless all rings are full;
    a round that finds no free vector sends none.  It never gives up, so that it does not
    return while no frame teaches an address.  The network is such that [w_nic_rx] can be
    called in each round ([network]: well-formed frames, a free vector for every UDP frame). *)
Theorem who_has_correct tries : ∀ g w o,
  sys g w → cached w a o → network tries g w →
  ∃ lnss g' w', rounds lnss g w g' w' ∧ sys g' w' ∧
    (∀ k, (k < length lnss)%nat → entry o lnss k = ETH_ADDR_BCAST) ∧
    (entry o lnss (length lnss) ≠ ETH_ADDR_BCAST ∧
       who_has can_alloc fuel tries a w = Done (entry o lnss (length lnss), w') ∨
     entry o lnss (length lnss) = ETH_ADDR_BCAST ∧ length lnss = tries ∧ who_has can_alloc fuel tries a w = NoFuel).
Proof.
  induction tries as [|tries IH]; intros g w o Hsys Ho Hnet;
    (destruct (decide (mac_of o = ETH_ADDR_BCAST)) as [Hb|Hb];
     [|exists [], g, w; split; [constructor|]; split; [done|]; split; [cbn; lia|left; split; [done|];
       unfold who_has; mstep (cached_find w o Ho); unfold who_has_loop; unfold bytes_eqb; by rewrite bool_decide_false]]).
  { exists [], g, w. split; [constructor|]. split; [done|]. split; [cbn; lia|]. right. split; [done|]. split; [done|].
    unfold who_has. mstep (cached_find w o Ho). cbn [who_has_loop]. unfold bytes_eqb. by rewrite bool_decide_true. }
  destruct (query_round_run g w o Hsys Ho) as (w1 & fs & lns & b & g2 & w2 & E1 & Hq & Hfs & Hlns & E2 & He & Hs2 & Ho2).
  { intros w1 E1. by destruct (Hnet w1 E1). }
  destruct (IH g2 w2 (foldl (learn a) o lns) Hs2 Ho2) as (lnss & g' & w' & Hr & Hs' & Hk & Hres).
  { destruct (Hnet w1 E1) as [_ Hn]. by eapply Hn. }
  exists (lns :: lnss), g', w'. split; [by econstructor|]. split; [done|]. split.
  { intros [|k] Hlt; [done|]. rewrite entry_cons. apply Hk. cbn in Hlt. lia. }
  cbn [length]. rewrite entry_cons.
  assert (Es : who_has can_alloc fuel (S tries) a w = who_has can_alloc fuel tries a w2).
  { unfold who_has. mstep (cached_find w o Ho). cbn [who_has_loop]. unfold bytes_eqb at 1. rewrite bool_decide_true by done. cbn [negb].
    change (if af a =? AF_INET then arp_who_has fuel (ip4 a) else icmp6_nsol fuel (ip6 a)) with (query fuel a). mstep E1. by mstep E2. }
  rewrite Es. destruct Hres as [Hres|(R1 & R2 & R3)]; [by left|right]. split; [done|]. split; [lia|done].
Qed.
End Resolve.

(** ** Witness *)

(** A kernel that receives the ARP reply of 10.0.0.9 at every poll. *)
Definition arp_reply_ex : bytes :=
  mac conf_session_ex ++ peer_mac_ex ++ [8; 6; 0; 1; 8; 0; 6; 4; 0; 2] ++ peer_mac_ex ++ [10; 0; 0; 9] ++
  mac conf_session_ex ++ [10; 0; 0; 2] ++ repeat 0 86.
Definition netmap_arp_ex : Netmap := netmap_poll_ex arp_reply_ex.
#[local] Existing Instance netmap_arp_ex.
#[local] Instance netmap_arp_ex_laws : @NetmapLaws netmap_arp_ex := netmap_poll_ex_laws arp_reply_ex.
#[local] Instance netmap_arp_ex_progress : @NetmapProgress netmap_arp_ex := netmap_poll_ex_progress arp_reply_ex.
Lemma arp_reply_ex_bytes : is_bytes arp_reply_ex.
Proof. apply (bool_decide_unpack (Forall is_u8 arp_reply_ex)). vm_compute. exact I. Qed.
#[local] Instance netmap_arp_ex_poll : @NetmapPoll netmap_arp_ex := netmap_poll_ex_poll arp_reply_ex arp_reply_ex_bytes.

(** An engine that knows no peer. *)
Definition eng_alone_ex : engine := set_neighbor eng_up_ex kh_init.
Definition peer_ex : w_addr := addr_ex4 10 0 0 9.
Lemma eng_alone_ex_sys : sys_ex g_up_ex eng_alone_ex.
Proof. apply (sys_neighbor _ _ _ _ _ _ _ [] 0 eng_up_ex_sys kh_init_rep). vm_compute. reflexivity. Qed.

Definition eng_asked_ex : engine := match query 5 peer_ex eng_alone_ex with Done (_, w) => w | _ => eng_alone_ex end.

Lemma network_ex : network yes 5 128 D_ex conf_session_ex peer_ex 1 g_up_ex eng_alone_ex.
Proof.
  cbn [network]. intros w1 E. assert (w1 = eng_asked_ex) as -> by (unfold eng_asked_ex; by rewrite E). split; [|done].
  assert (Er : e_rxr eng_asked_ex = [rx_ring_ex]) by (vm_compute; reflexivity).
  assert (Hp : nm_poll (e_calls eng_asked_ex) (poll_timeout NS_PER_S) (e_rxr eng_asked_ex) (e_mem eng_asked_ex) =
    Some ([poll_ring_ex rx_ring_ex (NetmapSlot 200 46 0)],
          alter (λ b, if decide (length b = length arp_reply_ex) then arp_reply_ex else b) 200 (e_mem eng_asked_ex))).
  { rewrite Er. reflexivity. }
  unfold pre. rewrite Hp. exists [[arp_reply_ex]], [2; 1; 0]%nat. split; [|split; [reflexivity|]].
  - split; [done|]. intros [|t] fs r; [|by destruct t]. intros [= <-] [= <-]. constructor; [|constructor].
    exists (NetmapSlot 200 46 0). split; [reflexivity|]. split.
    + cbn [e_mem polled set_mem set_rxr set_calls ns_buf_idx]. rewrite lookup_alter_eq. vm_compute. reflexivity.
    + unfold frame_ok. assert (Hk : kind_of conf_session_ex arp_reply_ex = KArp) by (vm_compute; reflexivity). by rewrite Hk.
  - split; [apply Nat.leb_le; vm_compute; reflexivity|]. split; [apply Nat.leb_le; vm_compute; reflexivity|]. right. discriminate.
Qed.

Lemma who_has_correct_witness :
  ∃ lnss g w, rounds yes 5 128 D_ex conf_session_ex peer_ex (ip4_conf [10; 0; 0; 2] [255; 255; 255; 0] 24) lnss g_up_ex eng_alone_ex g w ∧
    who_has yes 5 1 peer_ex eng_alone_ex = Done (peer_mac_ex, w) ∧ sys_ex g w.
Proof.
  destruct (who_has_correct yes (λ _ _, eq_refl) 5 128 D_ex conf_session_ex L_ex conf_session_ex_wf
    ltac:(vm_compute; eauto) ltac:(vm_compute; eauto) size_D_ex peer_ex (ip4_conf [10; 0; 0; 2] [255; 255; 255; 0] 24)) with
    (tries := 1%nat) (g := g_up_ex) (w := eng_alone_ex) (o := @None bytes) as (lnss & g & w & Hr & Hs & _ & Hres).
  - by apply addr_wf_dec.
  - vm_compute. reflexivity.
  - apply eng_alone_ex_sys.
  - vm_compute. reflexivity.
  - apply network_ex.
  - assert (Hm : match who_has yes 5 1 peer_ex eng_alone_ex with Done (m, _) => m = peer_mac_ex | _ => False end)
      by (vm_compute; reflexivity).
    exists lnss, g, w. split; [exact Hr|]. destruct Hres as [[_ E]|(_ & _ & E)]; rewrite E in Hm; [|destruct Hm].
    split; [|exact Hs]. rewrite Hm in E. exact E.
Defined.
